(* ===== verification/_CoqProject ===== *)
-Q . S2P
Prelude.v
RxFrame.v
Reorder.v
Channel.v
Arc4.v
Crc32.v
Michael.v
Tkip.v
SwCrypt.v
StaMgt.v
Acl.v
RxCheck.v
Defrag.v
Ie.v
Elems.v
Rsn.v
RsnRead.v
Aes.v
CipherModes.v
Cmac.v
Ccmp.v
MgmtProtect.v
Msdu.v
RxPath.v
XmitAttr.v
XmitFrame.v
XmitPath.v
Bitmap.v
Beacon.v
TxQueue.v
PowerSave.v
PsProps.v
PsRun.v
ApState.v
ApBss.v
ApProt.v
ApParse.v
ApMlme.v
ApPolicy.v
ApRun.v
ApJoin.v
KeyTable.v
KeyInv.v
KeyMap.v
