(* ===== verification/Prelude.v ===== *)
(** * Verification of the rtl8192eu driver

    The repository is a Linux driver for the Realtek RTL8192EU, a 2.4 GHz
    802.11n USB adapter (src/driver).  Frames come up from the USB bulk
    endpoint, are cut into [union recv_frame]s by the HAL and pass through
    core/rtw_recv.c: acceptance, decryption, reassembly, the 802.1X port,
    conversion to Ethernet, and the A-MPDU reorder buffer.  On its way a frame
    consults the station table (core/rtw_sta_mgt.c), whose entries carry the
    reorder buffers, the fragment queues and the replay caches, and the keys and ciphers of
    core/rtw_security.c.  Management frames and scan results are read with the
    information-element routines of core/rtw_ieee80211.c, channel settings
    are computed by core/rtw_rf.c.  On the way down a packet of the network
    stack gets its attributes and keys, waits on the queues of its station
    while the hardware is busy or the station sleeps, and is cut into frames
    (core/rtw_xmit.c); an access point tells sleeping stations of waiting
    frames in its beacon (core/rtw_ap.c).  An access point admits stations with
    the handlers of core/rtw_mlme_ext.c and announces in its beacon what the
    present stations need.

    The development covers the build this repository configures: RTL8192E
    over USB, station and AP mode, HT, receive reordering, management frame
    protection, little-endian; P2P, TDLS, mesh, VHT, WAPI, WDS, MP and concurrent mode are
    compiled out, and so are their branches in the functions modelled here.

    ** How the code is modelled

    Every definition has the name of the C function or type it translates.
    Structs are records, unsigned integers are [Z] with the reduction [u8],
    [u16], [u32], [u64] written where the source narrows or may wrap, bit
    operations are those of [Z].  Memory is a list of bytes and an offset into
    it.  A read or write outside the list is the result [Oob] of the
    monad [res], an execution that does not end within its fuel is [NoFuel]:
    a theorem that states [Ret] therefore also states that every access is in
    bounds and that the loops end.  Chains and queues hold the indices of
    entries in the array they are allocated from, so that two queues holding the same entry share it.

    ** Files

    - Prelude.v: return codes, machine widths, bytes, the monad, array access
      and the shared tactics and lemmas.
    - RxFrame.v: [struct rx_pkt_attrib], [union recv_frame] and
      [recvframe_push], [_pull], [_put], [_pull_tail] of include/rtw_recv.h.
    - Reorder.v: [check_indicate_seq], [enqueue_reorder_recvframe],
      [recv_indicatepkts_in_order], [recv_indicatepkt_reorder] and
      [rtw_reordering_ctrl_timeout_handler] of core/rtw_recv.c.  Module [Abs]
      is the receiver over unbounded sequence numbers; the 12-bit
      code refines it (reorder_refines_unbounded), so the frames delivered and
      held are arrivals in increasing order, none twice, and only arrivals
      behind the window are lost (reorder_in_order_delivery),
      a non-empty buffer has its timer armed (reorder_timer_armed) and
      timeouts empty it (reorder_timeouts_drain).
    - StaMgt.v: [rtw_alloc_stainfo], [rtw_free_stainfo],
      [rtw_free_all_stainfo], [rtw_get_stainfo], [rtw_aid_alloc] of
      core/rtw_sta_mgt.c.  The hash table with its free queue refines a set of
      at most 32 addresses (sta_table_refines_set); a released entry forgets
      its fragments and buffered frames (released_station_forgotten);
      association ids are unique, and within the station limit as long as
      round-robin allocation ([proc_set_aid_status] of os_dep/linux/rtw_proc.c)
      is off (aids_unique_and_limited, round_robin_exceeds_limit).
    - Acl.v: the address filter, [rtw_access_ctrl] and the operations on its
      two lists; access_ctrl_refines_sets.
    - RxCheck.v: [validate_recv_frame], [validate_recv_data_frame],
      [portctrl], [decryptor].  Unprotected frames of a protected network are
      accepted only as unicast EAPOL (plaintext_only_eapol), replayed group
      frames with packet numbers below 2^47 are dropped
      (group_replay_rejected), and so are retransmissions
      (decache_drops_retransmissions).
    - Defrag.v: [recvframe_chk_defrag], [recvframe_defrag],
      [recvframe_chkmic], [wlanhdr_to_ethhdr].  A delivered frame is built
      from the queued fragments 0, 1, ... under one key
      (delivered_fragments_consistent; their sequence numbers are not
      compared), its bytes are their concatenation
      (defrag_assembles) and the header conversion keeps the payload
      (ethernet_conversion).
    - Arc4.v, Crc32.v, Michael.v, Tkip.v, SwCrypt.v: the WEP and TKIP code of
      core/rtw_security.c.  The state of RC4 is a permutation, the table CRC
      is the bit-serial CRC-32, the byte-wise Michael is the word-wise one,
      TKIP key mixing is injective, encryption and decryption are inverse
      and a corrupted byte is detected under TKIP.
    - Aes.v, CipherModes.v, Cmac.v, Ccmp.v: core/crypto.  The table cipher of
      aes-internal-enc.c is FIPS-197 AES (aes_encrypt_is_fips197);
      CipherModes.v is CCM and GCM (aes-ccm.c, aes-gcm.c), Cmac.v OMAC1
      (omac1_is_cmac), Ccmp.v the CCMP and GCMP frames of ccmp.c, gcmp.c and
      core/rtw_swcrypto.c.  Only what the key seals is accepted
      (aead_accepts_only_sealed), sealing and opening are inverse
      (aead_frames_roundtrip).
    - MgmtProtect.v: [validate_mgmt_protect] with [rtw_BIP_verify] on the
      receive side, [rtw_mgmt_xmitframe_coalesce] on the transmit side.  A
      robust management frame is accepted only when it is protected and not
      replayed (mgmt_protection, bip_frames_accepted); what one
      side protects the other accepts (protected_mgmt_roundtrip).
    - Msdu.v: [recv_process_mpdu] with A-MSDU deaggregation
      ([amsdu_to_msdu]) and the forwarding of an access point
      ([rtw_ap_rx_msdu_act_check], [recv_fwd_pkt_hdl]).  The packets handed
      up are the messages of the frame (mpdu_packets_delivered,
      amsdu_roundtrip); injected subframes (amsdu_attack_rejected)
      and isolated stations (ap_isolation) are held back; packets and
      transmit frames are neither lost nor freed twice
      (mpdu_resources_balanced).
    - RxPath.v: [recv_func] puts RxCheck.v, Defrag.v and Reorder.v together.
      Along every run the frames handed to [recv_process_mpdu] carry
      attributes of accepted frames (delivered_frames_were_accepted).
    - XmitAttr.v: [update_attrib] with the functions it calls, and
      [rtw_make_wlanhdr], of core/rtw_xmit.c.  Only EAPOL packets leave
      unprotected (only_eapol_unprotected), no IV is used twice
      (tx_iv_never_reused).
    - XmitFrame.v: [rtw_xmitframe_coalesce] and the cut of
      [rtw_dump_xframe]; the fragmentation loop (coalesce_frags_spec).
    - XmitPath.v: the transmit functions composed, and composed with the
      receive path.  The fragments carry the packet
      (fragments_carry_packet); a packet that fits one frame, sealed by
      one driver, is the packet another delivers (packet_crosses).
    - Bitmap.v, Beacon.v: the traffic map of an access point and its beacon,
      [rtw_set_tim_ie], [update_BCNTIM], [rtw_add_bcn_ie] and
      [rtw_remove_bcn_ie] of core/rtw_ap.c.  A station reads from the TIM
      element the bits of the map (tim_roundtrip); the other elements stay in
      place (update_BCNTIM_elements).
    - TxQueue.v: the queues of a station, [rtw_xmit_classifier],
      [rtw_dequeue_xframe], [rtw_free_xmitframe] of core/rtw_xmit.c,
      [pre_xmitframe] of hal/rtl8192e/usb/rtl8192eu_xmit.c; the next frame is
      the head of the first category that has one (dequeue_serves_first).
    - PowerSave.v: what an access point does with frames for sleeping
      stations: [xmitframe_enqueue_for_sleeping_sta], [stop_sta_xmit],
      [wakeup_sta_to_xmit], [xmit_delivery_enabled_frames] of core/rtw_xmit.c,
      the PS-Poll branch of [validate_recv_ctrl_frame] and the power-save bits
      of core/rtw_recv.c, the group frames after a beacon.  PsProps.v holds
      the invariant [ps_ok] and that each operation keeps it; PsRun.v the
      runs [ps_run] of events and the theorems about them: packets leave once
      and in order (packets_once_in_order), a sleeping station is told of its
      frames (sleeping_station_is_told), queues and counters agree
      (queues_stay_well_formed), frames are held back only for sleepers
      (buffered_only_for_sleepers) and follow when they wake
      (woken_station_served), service periods end
      where the counter of their frames is exact
      (service_period_ends_once).  Group frames may be reordered and a
      PS-Poll may upset a service period: group_frames_overtake and
      pspoll_breaks_service_period.
    - ApState.v, ApBss.v, ApProt.v: the state of an access point and the
      abilities of its stations, [bss_cap_update_on_sta_join],
      [bss_cap_update_on_sta_leave], [rtw_ht_operation_update] and the ERP and
      HT elements of core/rtw_ap.c.  However stations come and go, the beacon
      announces the protection they need (protection_announced); that one
      change of it is not sent is mode_change_not_sent, that a flag outlives
      its reason is greenfield_flag_kept_on_rejoin.
    - ApParse.v, ApPolicy.v: the fields of an association request,
      [rtw_ap_parse_sta_capability], [.._supported_rates], [.._security_ie],
      [.._wmm_ie], [.._ht_ie] of core/rtw_ap.c.  A request with an RSN element
      of any shape is decided by the policy alone (rsn_request_decided).
    - ApMlme.v, ApRun.v, ApJoin.v: [OnAuth], [OnAssocReq], [OnDeAuth],
      [OnDisassoc] behind [mgt_dispatcher] of core/rtw_mlme_ext.c, the expiry
      of stations and [rtw_stadel_event_callback].  In every run of frames,
      events and ticks only admitted and answered stations are served
      (stations_admitted); a station of an open network that follows the
      exchange, whatever elements its request has besides name and rates, is
      associated (open_station_joins).  A short authentication
      frame is decrypted beyond its end: short_auth_frame_overruns.
    - KeyTable.v, KeyInv.v, KeyMap.v: the hardware key table and the mac ids,
      [rtw_camid_alloc], [write_cam], [rtw_alloc_macid], [rtw_release_macid] of
      core/rtw_wlan_util.c, [setkey_hdl], [set_stakey_hdl] of
      core/rtw_mlme_ext.c, [rtw_sec_write_cam_ent] of hal/hal_com.c.  For an
      access point and keys of up to 128 bits the table is a map
      (key_table_refines_map); keys of 256 bits and conflicting key ids damage
      other entries (rekey_overwrites_neighbour, group_key_overwrites_neighbour,
      conflicting_key_unmarked).  The clearing loop ends because no station has
      the zero address (zero_address_never_cleared).
    - Ie.v, Elems.v, Rsn.v, RsnRead.v: [rtw_set_ie], [rtw_get_ie], [rtw_ies_remove_ie],
      [rtw_get_wps_attr], [rtw_ieee802_11_parse_elems],
      [rtw_rsne_info_parse], [rtw_parse_wpa_ie], [rtw_parse_wpa2_ie] of
      core/rtw_ieee80211.c.  On arbitrary input the parsers end and
      stay in bounds (parse_elems_safe, get_ie_safe, rsne_parse_in_bounds), on
      well-formed input they find what was written (parse_elems_correct,
      get_ie_finds_first, set_ie_get_ie_roundtrip, parse_wpa2_ie_roundtrip);
      RsnRead.v reads RSN elements of any shape field by field, and the parser
      agrees (parse_wpa2_ie_reads);
      the cases where the code leaves its buffer or does not end are
      theorems as well.
    - Channel.v: channel, frequency, bandwidth and operating-class
      computations of core/rtw_rf.c and core/rtw_mlme_ext.c.

    ** Fuel and bounds

    A loop over a buffer takes the length it is given (or one more) as fuel:
    each iteration consumes at least one byte, and the safety theorems show
    that [NoFuel] is not reached.  [rtw_get_wps_attr] takes its fuel as an
    argument, because its length addition can wrap to zero and the loop then
    stays in place for any amount of fuel.  [rtw_chset_sync_chbw] narrows
    the bandwidth each round, which bounds its rounds.  Queue loops are
    structural in the queue.  reorder_refines_unbounded asks each
    frame to lie within half of the 12-bit number space of the window, the
    condition under which comparisons modulo 4096 mean anything.  The theorems
    of PsRun.v are about runs of [n] events with 2 * (N + n) < 2^32 - 2, where
    N bounds the frames waiting at the start: an event adds at most one frame,
    so the 32-bit counters do not wrap.  The loop that clears the keys of a
    station takes one round more than there are entries, since each round clears
    one.

    ** Parameters

    [decryptor] is stated over the ciphers as arguments; RxPath.v
    asks of them only that they keep the attributes of the frame
    ([KeepsAttrib]).  Kernel allocations, the number of free transmit
    frames and the A-MSDU mode are arguments; allocations may fail at any
    point.  Where the code reads local variables it has not written,
    [update_attrib] gets the contents of its stack as an argument.  Calls from the receive path into other
    components (deauthentication, power save, statistics, management frames)
    are recorded in order.  Locks are not modelled: each critical section of
    the reorder buffer and of the station table is one step, and theorems
    quantify over sequences of steps.

    ** Not modelled

    Of the transmit path the transmit buffers, the aggregation into USB
    transfers, the transmit descriptor and the conversion of group frames in
    [rtw_xmit]; the remaining control frames; of an access point the start of
    the BSS, the channel choice, the rate masks and the commands that queue keys, and which
    stations [expire_timeout_chk] finds silent; the MLME of the station role;
    commands, power saving of the adapter, efuse, the HAL, firmware, PHY
    tuning, and the ioctl, cfg80211 and proc interfaces.  The last are driven
    by registers, firmware reports and kernel structures whose behaviour the
    source does not define; the USB aggregation, the efuse map and
    the command queue could be added with the means at hand. *)

From stdpp Require Export base list gmap.
From Stdlib Require Export ZArith Lia.

#[global] Open Scope Z_scope.

(** ** Return codes of include/osdep_service.h *)

Definition _FAIL : Z := 0.
Definition _SUCCESS : Z := 1.
Definition RTW_RX_HANDLED : Z := 2.

(** ** Fixed-width unsigned arithmetic

    C unsigned values are integers reduced modulo the width; the reduction is
    written wherever the source narrows or may wrap.  Signed [int]
    intermediates are plain [Z]. *)

Definition u8 (z : Z) : Z := z mod 256.
Definition u16 (z : Z) : Z := z mod 65536.
Definition u32 (z : Z) : Z := z mod 4294967296.
Definition u64 (z : Z) : Z := z mod 18446744073709551616.

(** [BIT(x)] *)
Definition BIT (n : Z) : Z := Z.shiftl 1 n.

(** The test [(x & m) != 0] of the source. *)
Definition bit_test (x m : Z) : bool := negb (Z.land x m =? 0).

Definition is_byte (z : Z) : Prop := 0 <= z < 256.
Definition is_u16 (z : Z) : Prop := 0 <= z < 65536.
Definition is_u32 (z : Z) : Prop := 0 <= z < 4294967296.

#[export] Instance is_byte_dec z : Decision (is_byte z).
Proof. unfold is_byte. solve_decision. Defined.
#[export] Instance is_u16_dec z : Decision (is_u16 z).
Proof. unfold is_u16. solve_decision. Defined.
#[export] Instance is_u32_dec z : Decision (is_u32 z).
Proof. unfold is_u32. solve_decision. Defined.

(** A byte buffer whose cells all hold byte values. *)
Abbreviation bytes := (list Z).
Abbreviation bytes_ok b := (Forall is_byte b).

(** ** Computations on C memory

    [Oob] is a read or write outside the buffer, [NoFuel] a loop that did not
    finish within the given number of iterations. *)

Inductive res (A : Type) : Type :=
| Ret (a : A)
| Oob
| NoFuel.
Arguments Ret {A} a.
Arguments Oob {A}.
Arguments NoFuel {A}.

#[export] Instance res_mret : MRet res := fun _ a => Ret a.
#[export] Instance res_mbind : MBind res := fun _ _ k m =>
  match m with Ret a => k a | Oob => Oob | NoFuel => NoFuel end.
#[export] Instance res_fmap : FMap res := fun _ _ f m =>
  match m with Ret a => Ret (f a) | Oob => Oob | NoFuel => NoFuel end.

#[export] Instance res_eq_dec {A} `{EqDecision A} : EqDecision (res A).
Proof. solve_decision. Defined.

(** [buf[i]] *)
Definition rd (b : bytes) (i : Z) : res Z :=
  if i <? 0 then Oob else
  match b !! Z.to_nat i with Some x => Ret x | None => Oob end.

(** [memcpy(dst, buf + i, n)]: the [n] bytes read. *)
Definition rd_slice (b : bytes) (i n : Z) : res bytes :=
  if n <=? 0 then Ret [] else
  if (0 <=? i) && (i + n <=? Z.of_nat (length b))
  then Ret (take (Z.to_nat n) (drop (Z.to_nat i) b)) else Oob.

(** [_rtw_memcmp(buf + i, pat, len pat)]: 1 when the chunks are equal. *)
Definition rtw_memcmp (b : bytes) (i : Z) (pat : bytes) : res bool :=
  s ← rd_slice b i (Z.of_nat (length pat));
  Ret (bool_decide (s = pat)).

(** [buf[i] = x], the rest unchanged. *)
Definition wr (b : bytes) (i x : Z) : res bytes :=
  if (0 <=? i) && (i <? Z.of_nat (length b))
  then Ret (<[Z.to_nat i := x]> b) else Oob.

(** [memcpy(buf + i, src, len src)], the rest unchanged. *)
Definition wr_slice (b : bytes) (i : Z) (src : bytes) : res bytes :=
  match src with
  | [] => Ret b
  | _ =>
      if (0 <=? i) && (i + Z.of_nat (length src) <=? Z.of_nat (length b))
      then Ret (take (Z.to_nat i) b ++ src
                ++ drop (Z.to_nat i + length src) b)
      else Oob
  end.

(** [zlen] is the length of a buffer as a C integer. *)
Definition zlen {A} (l : list A) : Z := Z.of_nat (length l).

(** Total indexing, for tables whose index is in range by construction. *)
Definition znth (t : list Z) (i : Z) : Z := nth (Z.to_nat i) t 0.

(** ** Byte order *)

Definition le16_get (b : bytes) (i : Z) : res Z :=
  lo ← rd b i; hi ← rd b (i + 1);
  Ret (u16 (Z.lor (Z.shiftl hi 8) lo)).

Definition be16_get (b : bytes) (i : Z) : res Z :=
  hi ← rd b i; lo ← rd b (i + 1);
  Ret (u16 (Z.lor (Z.shiftl hi 8) lo)).

Definition be24_get (b : bytes) (i : Z) : res Z :=
  x ← rd b i; y ← rd b (i + 1); z ← rd b (i + 2);
  Ret (Z.lor (Z.lor (Z.shiftl x 16) (Z.shiftl y 8)) z).

(** [le64_to_cpu( *(u64 * )(buf + i))] *)
Fixpoint le_combine (l : bytes) : Z :=
  match l with [] => 0 | x :: l' => Z.lor x (Z.shiftl (le_combine l') 8) end.

(** Little-endian bytes of an [n]-byte word. *)
Fixpoint le_split (n : nat) (w : Z) : bytes :=
  match n with O => [] | S n => Z.land w 255 :: le_split n (Z.shiftr w 8) end.

(** ** Generic lemmas *)

Create HintDb rtw discriminated.

Lemma u8_range z : is_byte (u8 z).
Proof. unfold is_byte, u8. apply Z.mod_pos_bound. lia. Qed.

Lemma u16_range z : is_u16 (u16 z).
Proof. unfold is_u16, u16. apply Z.mod_pos_bound. lia. Qed.

Lemma u32_range z : is_u32 (u32 z).
Proof. unfold is_u32, u32. apply Z.mod_pos_bound. lia. Qed.

Lemma u8_small z : is_byte z -> u8 z = z.
Proof. intros. apply Z.mod_small. exact H. Qed.

Lemma u16_small z : is_u16 z -> u16 z = z.
Proof. intros. apply Z.mod_small. exact H. Qed.

Lemma u32_small z : is_u32 z -> u32 z = z.
Proof. intros. apply Z.mod_small. exact H. Qed.

#[export] Hint Resolve u8_range u16_range u32_range : rtw.

Lemma zlen_nonneg {A} (l : list A) : 0 <= zlen l.
Proof. unfold zlen. lia. Qed.

Lemma zlen_app {A} (l k : list A) : zlen (l ++ k) = zlen l + zlen k.
Proof. unfold zlen. rewrite length_app. lia. Qed.

Lemma zlen_cons {A} (x : A) l : zlen (x :: l) = 1 + zlen l.
Proof. unfold zlen. simpl. lia. Qed.

(** Testing a single bit is a statement about a remainder. *)
Lemma bit_test_pow2 x n :
  0 <= n -> bit_test x (2 ^ n) = (2 ^ n <=? x mod 2 ^ (n + 1)).
Proof.
  intros Hn. unfold bit_test.
  assert (E : (Z.land x (2 ^ n) =? 0) = negb (Z.testbit x n)).
  { destruct (Z.testbit x n) eqn:T; simpl.
    - apply Z.eqb_neq. intros E.
      assert (Z.testbit (Z.land x (2 ^ n)) n = false) as F by (by rewrite E, Z.bits_0).
      rewrite Z.land_spec, T, Z.pow2_bits_true in F by lia. discriminate.
    - apply Z.eqb_eq. apply Z.bits_inj'. intros i Hi.
      rewrite Z.land_spec, Z.bits_0, Z.pow2_bits_eqb by lia.
      destruct (Z.eqb_spec n i); [subst; by rewrite T | by rewrite andb_false_r]. }
  rewrite E, negb_involutive, Z.testbit_eqb by lia.
  assert (0 < 2 ^ n) by (apply Z.pow_pos_nonneg; lia).
  rewrite Z.pow_add_r, Z.pow_1_r by lia.
  rewrite Z.rem_mul_r by lia.
  pose proof (Z.mod_pos_bound x (2 ^ n)).
  pose proof (Z.mod_pos_bound (x / 2 ^ n) 2).
  destruct (Z.eqb_spec ((x / 2 ^ n) mod 2) 1), (Z.leb_spec (2 ^ n) (x mod 2 ^ n + 2 ^ n * ((x / 2 ^ n) mod 2)));
    try reflexivity; nia.
Qed.

Lemma bit_test_testbit x k : 0 <= k -> bit_test x (BIT k) = Z.testbit x k.
Proof.
  intros H. unfold BIT, bit_test. rewrite Z.shiftl_1_l. destruct (Z.testbit x k) eqn:T.
  - apply negb_true_iff, Z.eqb_neq. intros E. apply (f_equal (fun y => Z.testbit y k)) in E.
    by rewrite Z.land_spec, T, Z.pow2_bits_true, Z.bits_0 in E by lia.
  - apply negb_false_iff, Z.eqb_eq, Z.bits_inj'. intros j Hj. rewrite Z.land_spec, Z.bits_0, Z.pow2_bits_eqb by lia.
    destruct (Z.eqb_spec k j) as [<-|]; [by rewrite T|apply andb_false_r].
Qed.

(** Joining a high part and a low part that do not overlap. *)
Lemma lor_shiftl_add a c n : 0 <= n -> 0 <= c < 2 ^ n -> Z.lor (Z.shiftl a n) c = a * 2 ^ n + c.
Proof.
  intros Hn Hc. rewrite Z.shiftl_mul_pow2 by lia.
  assert (Z.land (a * 2 ^ n) c = 0) as D.
  { apply Z.bits_inj'. intros k Hk. rewrite Z.land_spec, Z.bits_0.
    destruct (Z.lt_ge_cases k n); [by rewrite Z.mul_pow2_bits_low by lia|].
    replace (Z.testbit c k) with false; [apply andb_false_r|]. symmetry.
    destruct (Z.eq_dec c 0) as [->|]; [apply Z.bits_0|].
    apply Z.bits_above_log2; [lia|]. assert (Z.log2 c < n) by (apply Z.log2_lt_pow2; lia). lia. }
  by rewrite (Z.add_nocarry_lxor _ _ D), (Z.lxor_lor _ _ D).
Qed.

Lemma lxor_shiftl_add a c n : 0 <= n -> 0 <= c < 2 ^ n -> Z.lxor (Z.shiftl a n) c = a * 2 ^ n + c.
Proof.
  intros Hn Hc. rewrite <- (lor_shiftl_add a c n Hn Hc), Z.lxor_lor; [done|].
  apply Z.bits_inj'. intros k Hk. rewrite Z.land_spec, Z.bits_0.
  destruct (Z.lt_ge_cases k n); [by rewrite Z.shiftl_spec_low by lia|].
  replace (Z.testbit c k) with false; [apply andb_false_r|].
  rewrite <- (Z.mod_small c (2 ^ n)) by lia. by rewrite Z.mod_pow2_bits_high by lia.
Qed.

(** A claim about all byte values, checked one by one. *)
Lemma byte_forall (P : Z -> bool) x :
  forallb P (map Z.of_nat (seq 0 256)) = true -> is_byte x -> P x = true.
Proof.
  unfold is_byte. intros H Hx. rewrite forallb_forall in H. apply H.
  apply in_map_iff. exists (Z.to_nat x). split; [lia|]. apply in_seq. lia.
Qed.

Lemma lxor_byte a b : is_byte a -> is_byte b -> is_byte (Z.lxor a b).
Proof.
  unfold is_byte. intros Ha Hb.
  assert (0 <= Z.lxor a b) by (apply Z.lxor_nonneg; lia). split; [done|].
  destruct (Z.eq_dec (Z.lxor a b) 0) as [E|Hne]; [lia|].
  apply (Z.log2_lt_pow2 _ 8); [lia|].
  pose proof (Z.log2_lxor a b ltac:(lia) ltac:(lia)).
  assert (forall z, 0 <= z < 256 -> Z.log2 z < 8) as L.
  { intros z Hz. destruct (Z.eq_dec z 0) as [->|]; [reflexivity|]. apply Z.log2_lt_pow2; lia. }
  pose proof (L a Ha). pose proof (L b Hb). lia.
Qed.

(** *** Reads *)

Lemma rd_Ret b i x : rd b i = Ret x <-> 0 <= i /\ b !! Z.to_nat i = Some x.
Proof.
  unfold rd. destruct (Z.ltb_spec i 0); [split; [discriminate|lia]|].
  destruct (b !! Z.to_nat i) eqn:E; split; naive_solver.
Qed.

Lemma rd_in_bounds b i : 0 <= i < zlen b -> exists x, rd b i = Ret x /\ b !! Z.to_nat i = Some x.
Proof.
  unfold zlen. intros H.
  destruct (lookup_lt_is_Some_2 b (Z.to_nat i)) as [x Hx]; [lia|].
  exists x. split; [apply rd_Ret; split; [lia|done] | done].
Qed.

Lemma rd_byte b i x : bytes_ok b -> rd b i = Ret x -> is_byte x.
Proof.
  intros Hb [_ H]%rd_Ret. apply (Forall_lookup_1 _ _ _ _ Hb H).
Qed.

Lemma rd_app_l b c i : i < zlen b -> rd (b ++ c) i = rd b i.
Proof.
  unfold rd, zlen. intros H. destruct (Z.ltb_spec i 0); [done|].
  rewrite lookup_app_l by lia. done.
Qed.

Lemma rd_app_r b c i : zlen b <= i -> rd (b ++ c) i = rd c (i - zlen b).
Proof.
  unfold rd, zlen. intros H.
  destruct (Z.ltb_spec i 0); [lia|].
  destruct (Z.ltb_spec (i - Z.of_nat (length b)) 0); [lia|].
  rewrite lookup_app_r by lia.
  replace (Z.to_nat (i - Z.of_nat (length b))) with (Z.to_nat i - length b)%nat by lia. done.
Qed.

Lemma rd_slice_ok b i n :
  0 <= i -> 0 <= n -> i + n <= zlen b ->
  rd_slice b i n = Ret (take (Z.to_nat n) (drop (Z.to_nat i) b)).
Proof.
  unfold rd_slice, zlen. intros Hi Hn H. destruct (Z.leb_spec n 0).
  - replace (Z.to_nat n) with O by lia. done.
  - destruct (Z.leb_spec 0 i); [|lia].
    destruct (Z.leb_spec (i + n) (Z.of_nat (length b))); [done|lia].
Qed.

Lemma rd_slice_Oob b i n : 0 < n -> zlen b < i + n -> rd_slice b i n = Oob.
Proof.
  unfold rd_slice, zlen. intros Hn H. destruct (Z.leb_spec n 0); [lia|].
  destruct (Z.leb_spec (i + n) (Z.of_nat (length b))); [lia|]. by rewrite andb_false_r.
Qed.

Lemma rd_slice_app b c d : rd_slice (b ++ c ++ d) (zlen b) (zlen c) = Ret c.
Proof.
  rewrite rd_slice_ok by (rewrite ?zlen_app; pose proof (zlen_nonneg b); pose proof (zlen_nonneg c); pose proof (zlen_nonneg d); lia).
  unfold zlen. rewrite !Nat2Z.id, drop_app_length, take_app_length. done.
Qed.

(** *** Writes *)

Lemma wr_slice_app b c d c' :
  length c' = length c -> wr_slice (b ++ c ++ d) (zlen b) c' = Ret (b ++ c' ++ d).
Proof.
  intros E. unfold wr_slice, zlen. destruct c' as [|x c'].
  { destruct c; [done|discriminate]. }
  destruct (Z.leb_spec 0 (Z.of_nat (length b))); [|lia].
  rewrite E, !length_app. destruct (Z.leb_spec (Z.of_nat (length b) + Z.of_nat (length c)) (Z.of_nat (length b + (length c + length d)))); [|lia].
  cbn [andb]. rewrite Nat2Z.id, take_app_length, <- drop_drop, drop_app_length, drop_app_length. done.
Qed.

(** Reduce the [res] bind on a known result. *)
Lemma bind_Ret {A B} (a : A) (k : A -> res B) : (x ← Ret a; k x) = k a.
Proof. reflexivity. Qed.

Lemma bind_Oob {A B} (k : A -> res B) : (x ← (Oob : res A); k x) = Oob.
Proof. reflexivity. Qed.

Create Rewrite HintDb rtw_res.
#[export] Hint Rewrite @bind_Ret @bind_Oob : rtw_res.

(** [res_inv]: split a successful sequence of computations into its steps. *)
Ltac res_inv :=
  repeat match goal with
  | H : Ret _ = Ret _ |- _ => injection H as H; try subst
  | H : Oob = Ret _ |- _ => discriminate H
  | H : NoFuel = Ret _ |- _ => discriminate H
  | H : mbind _ ?m = Ret _ |- _ =>
      let E := fresh "E" in destruct m eqn:E; cbn [mbind res_mbind] in H; [| discriminate H | discriminate H]
  end.
