(* ===== verification/RxFrame.v ===== *)
(** * Receive frames (include/rtw_recv.h)

    [struct rx_pkt_attrib] and [struct recv_frame_hdr] restricted to the fields
    the receive path modelled here reads or writes, and the four operations
    that move the data window of a frame inside its buffer.  Pointers into the
    packet buffer are offsets from [rx_head]; [rx_end] is the buffer's length. *)

From S2P Require Import Prelude.

(** ** [struct rx_pkt_attrib] *)

Record rx_pkt_attrib := mk_attrib {
  hdrlen : Z;
  to_fr_ds : Z;
  amsdu : Z;
  qos : Z;
  priority : Z;
  seq_num : Z;
  frag_num : Z;
  mfrag : Z;
  order : Z;
  privacy : Z;
  bdecrypted : Z;
  encrypt : Z;
  iv_len : Z;
  icv_len : Z;
  dst : bytes;
  src : bytes;
  ta : bytes;
  ra : bytes;
  bssid : bytes;
  ack_policy : Z;
  key_index : Z
}.

(** ** [struct recv_frame_hdr] *)

Record recv_frame := mk_frame {
  attrib : rx_pkt_attrib;
  rx_mem : bytes;      (* the buffer from rx_head to rx_end *)
  rx_data : Z;
  rx_tail : Z;
  len : Z;
  keytrack : Z
}.

Definition rx_end (f : recv_frame) : Z := zlen (rx_mem f).

Definition set_window (f : recv_frame) (data tail l : Z) : recv_frame :=
  mk_frame (attrib f) (rx_mem f) data tail l (keytrack f).

Definition set_attrib (f : recv_frame) (a : rx_pkt_attrib) : recv_frame :=
  mk_frame a (rx_mem f) (rx_data f) (rx_tail f) (len f) (keytrack f).

Definition set_keytrack (f : recv_frame) (k : Z) : recv_frame :=
  mk_frame (attrib f) (rx_mem f) (rx_data f) (rx_tail f) (len f) k.

Definition set_mem (f : recv_frame) (m : bytes) : recv_frame :=
  mk_frame (attrib f) m (rx_data f) (rx_tail f) (len f) (keytrack f).

(** The bytes between [rx_data] and [rx_tail]. *)
Definition payload_of (f : recv_frame) : bytes :=
  take (Z.to_nat (rx_tail f - rx_data f)) (drop (Z.to_nat (rx_data f)) (rx_mem f)).

(** [IS_MCAST(da)]: the group bit of the first address byte. *)
Definition IS_MCAST (da : bytes) : bool := bit_test (znth da 0) 1.

(** ** Window operations; [None] is the returned [NULL] with the frame unchanged *)

Definition recvframe_push (f : recv_frame) (sz : Z) : option recv_frame :=
  let data := rx_data f - sz in
  if data <? 0 then None
  else Some (set_window f data (rx_tail f) (u32 (len f + sz))).

Definition recvframe_pull (f : recv_frame) (sz : Z) : option recv_frame :=
  let data := rx_data f + sz in
  if rx_tail f <? data then None
  else Some (set_window f data (rx_tail f) (u32 (len f - sz))).

Definition recvframe_put (f : recv_frame) (sz : Z) : option recv_frame :=
  let tail := rx_tail f + sz in
  if rx_end f <? tail then None
  else Some (set_window f (rx_data f) tail (u32 (len f + sz))).

Definition recvframe_pull_tail (f : recv_frame) (sz : Z) : option recv_frame :=
  let tail := rx_tail f - sz in
  if tail <? rx_data f then None
  else Some (set_window f (rx_data f) tail (u32 (len f - sz))).

(** The frame after an operation whose [NULL] result the caller ignores. *)
Definition ignore_null (f : recv_frame) (o : option recv_frame) : recv_frame :=
  default f o.

(** ** Well-formed frames: the picture above [struct recv_frame_hdr] *)

Record frame_wf (f : recv_frame) : Prop := {
  wf_data : 0 <= rx_data f;
  wf_order : rx_data f <= rx_tail f;
  wf_tail : rx_tail f <= rx_end f;
  wf_size : rx_end f < 4294967296;
  wf_len : len f = rx_tail f - rx_data f
}.

Lemma set_window_wf f d t :
  frame_wf f -> 0 <= d -> d <= t -> t <= rx_end f -> frame_wf (set_window f d t (t - d)).
Proof. intros [] ???. split; simpl; auto. Qed.

#[export] Hint Resolve set_window_wf : rtw.

Ltac frame_op :=
  intros [] ? H;
  match type of H with (if ?c then _ else _) = _ => destruct c eqn:?; [discriminate|] end;
  injection H as <-; split; simpl in *; unfold u32, rx_end in *; simpl in *;
  rewrite ?Z.mod_small by lia; lia.

Lemma recvframe_push_wf f f' sz :
  frame_wf f -> 0 <= sz -> recvframe_push f sz = Some f' -> frame_wf f'.
Proof. unfold recvframe_push. frame_op. Qed.

Lemma recvframe_pull_wf f f' sz :
  frame_wf f -> 0 <= sz -> recvframe_pull f sz = Some f' -> frame_wf f'.
Proof. unfold recvframe_pull. frame_op. Qed.

Lemma recvframe_put_wf f f' sz :
  frame_wf f -> 0 <= sz -> recvframe_put f sz = Some f' -> frame_wf f'.
Proof. unfold recvframe_put. frame_op. Qed.

Lemma recvframe_pull_tail_wf f f' sz :
  frame_wf f -> 0 <= sz -> recvframe_pull_tail f sz = Some f' -> frame_wf f'.
Proof. unfold recvframe_pull_tail. frame_op. Qed.

#[export] Hint Resolve recvframe_push_wf recvframe_pull_wf recvframe_put_wf
  recvframe_pull_tail_wf : rtw.

(** ** Frames by their bytes: before, inside and after the window *)

Record frame_win (f : recv_frame) (pre d post : bytes) : Prop := {
  ho_mem : rx_mem f = pre ++ d ++ post;
  ho_data : rx_data f = zlen pre;
  ho_tail : rx_tail f = zlen pre + zlen d;
  ho_len : len f = zlen d;
  ho_size : zlen (pre ++ d ++ post) < 4294967296
}.

Lemma fwin_payload f pre d post : frame_win f pre d post -> payload_of f = d.
Proof.
  intros [M D T _ _]. unfold payload_of. rewrite M, D, T. unfold zlen.
  replace (Z.to_nat (Z.of_nat (length pre) + Z.of_nat (length d) - Z.of_nat (length pre))) with (length d) by lia.
  by rewrite Nat2Z.id, drop_app_length, take_app_length.
Qed.

Lemma fwin_end f pre d post : frame_win f pre d post -> rx_end f - rx_tail f = zlen post.
Proof. intros [M D T _ _]. unfold rx_end. rewrite M, T, !zlen_app. lia. Qed.

Ltac win_split :=
  split; cbn [rx_mem rx_data rx_tail len set_window set_mem set_attrib set_keytrack attrib];
  rewrite ?zlen_app in *; try done; try lia.

(** Pulling a prefix of the window. *)
Lemma fwin_pull f pre a d post :
  frame_win f pre (a ++ d) post ->
  exists f', recvframe_pull f (zlen a) = Some f' /\ frame_win f' (pre ++ a) d post /\ attrib f' = attrib f /\ keytrack f' = keytrack f.
Proof.
  intros [M D T L S]. pose proof (zlen_nonneg pre). pose proof (zlen_nonneg a). pose proof (zlen_nonneg d). pose proof (zlen_nonneg post).
  unfold recvframe_pull. rewrite T, D, zlen_app. destruct (Z.ltb_spec (zlen pre + (zlen a + zlen d)) (zlen pre + zlen a)); [lia|].
  eexists. split; [done|]. split; [|done]. rewrite !zlen_app in S. win_split.
  - by rewrite M, <- !app_assoc.
  - rewrite L, u32_small; [lia|]. unfold is_u32. lia.
Qed.

(** Dropping a suffix of the window. *)
Lemma fwin_pull_tail f pre d a post :
  frame_win f pre (d ++ a) post ->
  exists f', recvframe_pull_tail f (zlen a) = Some f' /\ frame_win f' pre d (a ++ post) /\ attrib f' = attrib f /\ keytrack f' = keytrack f.
Proof.
  intros [M D T L S]. pose proof (zlen_nonneg pre). pose proof (zlen_nonneg a). pose proof (zlen_nonneg d). pose proof (zlen_nonneg post).
  unfold recvframe_pull_tail. rewrite T, D, zlen_app. destruct (Z.ltb_spec (zlen pre + (zlen d + zlen a) - zlen a) (zlen pre)); [lia|].
  eexists. split; [done|]. split; [|done]. rewrite !zlen_app in S. win_split.
  - by rewrite M, <- !app_assoc.
  - rewrite L, u32_small; [lia|]. unfold is_u32. lia.
Qed.

(** Writing behind the window and taking the bytes in. *)
Lemma fwin_put f pre d old post new :
  frame_win f pre d (old ++ post) -> length new = length old ->
  exists f', wr_slice (rx_mem f) (rx_tail f) new = Ret (pre ++ d ++ new ++ post) /\
    recvframe_put (set_mem f (pre ++ d ++ new ++ post)) (zlen new) = Some f' /\
    frame_win f' pre (d ++ new) post /\ attrib f' = attrib f /\ keytrack f' = keytrack f.
Proof.
  intros [M D T L S] E. assert (zlen new = zlen old) as Z by (unfold zlen; lia).
  pose proof (zlen_nonneg pre). pose proof (zlen_nonneg old). pose proof (zlen_nonneg d). pose proof (zlen_nonneg post).
  unfold recvframe_put, rx_end. cbn [rx_mem rx_tail set_mem]. rewrite T.
  destruct (Z.ltb_spec (zlen (pre ++ d ++ new ++ post)) (zlen pre + zlen d + zlen new)) as [B|B]; [rewrite !zlen_app in B; lia|].
  eexists. split.
  { rewrite M, app_assoc, <- zlen_app, wr_slice_app by done. by rewrite <- app_assoc. }
  split; [done|]. split; [|done]. rewrite !zlen_app in S. win_split.
  - cbn. by rewrite <- !app_assoc.
  - rewrite L, u32_small; [lia|]. unfold is_u32. lia.
Qed.
