(* ===== verification/Reorder.v ===== *)
(** * A-MPDU receive reordering (core/rtw_recv.c)

    The per-(station, TID) reorder buffer: [check_indicate_seq] slides the
    12-bit window, [enqueue_reorder_recvframe] keeps the pending queue sorted,
    [recv_indicatepkts_in_order] releases frames, and
    [recv_indicatepkt_reorder] / [rtw_reordering_ctrl_timeout_handler] are the
    two critical sections that run them.  Module [Abs] is the specification:
    the same receiver over unbounded sequence numbers. *)

From S2P Require Import Prelude RxFrame.

(** ** Data *)

(** [struct recv_reorder_ctrl]; [timer] is whether [reordering_ctrl_timer] is armed. *)
Record recv_reorder_ctrl := mk_ctrl {
  enable : bool;
  indicate_seq : Z;
  wsize_b : Z;
  pending : list recv_frame;
  bReorderWaiting : bool;
  rec_abba_rsp_ack : bool;
  timer : bool
}.

(** The counters of [struct recv_priv] (all [u64]) the reorder code touches. *)
Record recv_priv := mk_priv {
  rx_drop : Z;
  dbg_rx_drop_count : Z;
  dbg_rx_ampdu_drop_count : Z;
  dbg_rx_ampdu_forced_indicate_count : Z;
  dbg_rx_ampdu_loss_count : Z;
  dbg_rx_ampdu_window_shift_cnt : Z
}.

Definition set_seq (c : recv_reorder_ctrl) (s : Z) : recv_reorder_ctrl :=
  mk_ctrl (enable c) s (wsize_b c) (pending c) (bReorderWaiting c) (rec_abba_rsp_ack c) (timer c).
Definition set_pending (c : recv_reorder_ctrl) (q : list recv_frame) : recv_reorder_ctrl :=
  mk_ctrl (enable c) (indicate_seq c) (wsize_b c) q (bReorderWaiting c) (rec_abba_rsp_ack c) (timer c).
Definition set_waiting (c : recv_reorder_ctrl) (w t : bool) : recv_reorder_ctrl :=
  mk_ctrl (enable c) (indicate_seq c) (wsize_b c) (pending c) w (rec_abba_rsp_ack c) t.
Definition clear_ack (c : recv_reorder_ctrl) : recv_reorder_ctrl :=
  mk_ctrl (enable c) (indicate_seq c) (wsize_b c) (pending c) (bReorderWaiting c) false (timer c).

Definition inc_shift (p : recv_priv) : recv_priv :=
  mk_priv (rx_drop p) (dbg_rx_drop_count p) (dbg_rx_ampdu_drop_count p)
    (dbg_rx_ampdu_forced_indicate_count p) (dbg_rx_ampdu_loss_count p)
    (u64 (dbg_rx_ampdu_window_shift_cnt p + 1)).
Definition inc_ampdu_drop (p : recv_priv) : recv_priv :=
  mk_priv (rx_drop p) (dbg_rx_drop_count p) (u64 (dbg_rx_ampdu_drop_count p + 1))
    (dbg_rx_ampdu_forced_indicate_count p) (dbg_rx_ampdu_loss_count p)
    (dbg_rx_ampdu_window_shift_cnt p).
Definition inc_forced (p : recv_priv) : recv_priv :=
  mk_priv (rx_drop p) (dbg_rx_drop_count p) (dbg_rx_ampdu_drop_count p)
    (u64 (dbg_rx_ampdu_forced_indicate_count p + 1)) (dbg_rx_ampdu_loss_count p)
    (dbg_rx_ampdu_window_shift_cnt p).
Definition inc_drop (p : recv_priv) : recv_priv :=
  mk_priv (rx_drop p) (u64 (dbg_rx_drop_count p + 1)) (dbg_rx_ampdu_drop_count p)
    (dbg_rx_ampdu_forced_indicate_count p) (dbg_rx_ampdu_loss_count p)
    (dbg_rx_ampdu_window_shift_cnt p).
Definition add_loss (p : recv_priv) (n : Z) : recv_priv :=
  mk_priv (u64 (rx_drop p + n)) (dbg_rx_drop_count p) (dbg_rx_ampdu_drop_count p)
    (dbg_rx_ampdu_forced_indicate_count p) (u64 (dbg_rx_ampdu_loss_count p + n))
    (dbg_rx_ampdu_window_shift_cnt p).

(** ** Sequence-number comparison macros *)

Definition SN_LESS (a b : Z) : bool := bit_test (a - b) 0x800.
Definition SN_EQUAL (a b : Z) : bool := a =? b.

Definition seq_of (f : recv_frame) : Z := seq_num (attrib f).

(** ** Operations *)

(** Returns whether the frame is accepted, with the updated window. *)
Definition check_indicate_seq (c0 : recv_reorder_ctrl) (p : recv_priv) (seq : Z)
  : bool * recv_reorder_ctrl * recv_priv :=
  let wsize := wsize_b c0 in
  (* Rx Reorder initialize condition. *)
  let c := if indicate_seq c0 =? 0xFFFF then set_seq c0 seq else c0 in
  let iseq := indicate_seq c in
  let wend := Z.land (iseq + wsize - 1) 0xFFF in
  if SN_LESS seq iseq then (false, c, p)
  else if SN_EQUAL seq iseq then (true, set_seq c (Z.land (iseq + 1) 0xFFF), p)
  else if SN_LESS wend seq then
    (true,
     set_seq c (if wsize - 1 <=? seq then u16 (seq + 1 - wsize)
                else u16 (0xFFF - (wsize - (seq + 1)) + 1)),
     inc_shift p)
  else (true, c, p).

(** Sorted insertion; [None] is the [_FALSE] returned for a duplicate. *)
Fixpoint enqueue_reorder_recvframe (q : list recv_frame) (f : recv_frame)
  : option (list recv_frame) :=
  match q with
  | [] => Some [f]
  | x :: q' =>
      if SN_LESS (seq_of x) (seq_of f) then
        match enqueue_reorder_recvframe q' f with
        | Some r => Some (x :: r)
        | None => None
        end
      else if SN_EQUAL (seq_of x) (seq_of f) then None
      else Some (f :: x :: q')
  end.

Definition recv_indicatepkts_pkt_loss_cnt (p : recv_priv) (prev_seq current_seq : Z) : recv_priv :=
  if current_seq <? prev_seq
  then add_loss p (4096 + current_seq - prev_seq)
  else add_loss p (current_seq - prev_seq).

Section Indicate.

(** [recv_process_mpdu], which hands one MPDU to the upper layer and returns
    [_SUCCESS] or a failure code. *)
Context (recv_process_mpdu : recv_frame -> Z).

(** The [while (!rtw_is_list_empty(phead))] loop: the released frames, the
    remaining queue, the window start and [bPktInBuf]. *)
Fixpoint indicate_loop (q : list recv_frame) (iseq : Z) (p : recv_priv)
  : list recv_frame * list recv_frame * Z * recv_priv * bool :=
  match q with
  | [] => ([], [], iseq, p, false)
  | f :: q' =>
      if negb (SN_LESS iseq (seq_of f)) then
        let iseq' := if SN_EQUAL iseq (seq_of f) then Z.land (iseq + 1) 0xFFF else iseq in
        let p' := if recv_process_mpdu f =? _SUCCESS then p else inc_drop p in
        let '(out, rest, i, p'', b) := indicate_loop q' iseq' p' in
        (f :: out, rest, i, p'', b)
      else ([], q, iseq, p, true)
  end.

(** The released frames, the new state and the returned flag. *)
Definition recv_indicatepkts_in_order (c : recv_reorder_ctrl) (p : recv_priv) (bforced : bool)
  : list recv_frame * recv_reorder_ctrl * recv_priv * bool :=
  let drain c p :=
    let '(out, rest, i, p', b) := indicate_loop (pending c) (indicate_seq c) p in
    (out, set_pending (set_seq c i) rest, p', b) in
  if bforced then
    let p := inc_forced p in
    match pending c with
    | [] => ([], c, p, true)
    | f :: _ =>
        let p := recv_indicatepkts_pkt_loss_cnt p (indicate_seq c) (seq_of f) in
        drain (set_seq c (seq_of f)) p
    end
  else drain c p.

(** The reorder entry point for one frame: return code, released frames, new state. *)
Definition recv_indicatepkt_reorder (c0 : option recv_reorder_ctrl) (p : recv_priv) (f : recv_frame)
  : Z * list recv_frame * option recv_reorder_ctrl * recv_priv :=
  match c0 with
  | None => (_SUCCESS, [], None, p)
  | Some c =>
      if (qos (attrib f) =? 0) || negb (enable c) then (_SUCCESS, [], Some c, p)
      else
        let c := if rec_abba_rsp_ack c then set_seq (clear_ack c) 0xFFFF else c in
        let '(ok, c, p) := check_indicate_seq c p (seq_of f) in
        if negb ok then (_FAIL, [], Some c, inc_ampdu_drop p)
        else match enqueue_reorder_recvframe (pending c) f with
        | None => (_FAIL, [], Some c, p)
        | Some q =>
            let '(out, c, p, b) := recv_indicatepkts_in_order (set_pending c q) p false in
            let c := if b then
                       if negb (bReorderWaiting c) then set_waiting c true true else c
                     else set_waiting c false false in
            (RTW_RX_HANDLED, out, Some c, p)
        end
  end.

(** The timer has fired (so it is no longer armed) and its handler runs. *)
Definition rtw_reordering_ctrl_timeout_handler (cannot_run : bool) (c : recv_reorder_ctrl) (p : recv_priv)
  : list recv_frame * recv_reorder_ctrl * recv_priv :=
  let c := set_waiting c (bReorderWaiting c) false in
  if cannot_run then ([], c, p)
  else
    let c := set_waiting c false false in
    let '(out, c, p, b) := recv_indicatepkts_in_order c p true in
    (out, if b then set_waiting c (bReorderWaiting c) true else c, p).

End Indicate.

Arguments recv_indicatepkts_in_order : simpl never.
Arguments check_indicate_seq : simpl never.
Arguments rtw_reordering_ctrl_timeout_handler : simpl never.

(** ** Specification: the receiver over unbounded sequence numbers

    A frame's absolute number [n] satisfies [seq_num = n mod 4096]; the window
    starts at [start] and never wraps. *)

Module Abs.

Record state := mk { start : Z; held : list (Z * recv_frame) }.

(** Where the window starts once frame [n] is accepted. *)
Definition slide (w ws n : Z) : Z :=
  if n =? w then w + 1 else if w + ws - 1 <? n then n + 1 - ws else w.

Fixpoint insert (q : list (Z * recv_frame)) (n : Z) (f : recv_frame)
  : option (list (Z * recv_frame)) :=
  match q with
  | [] => Some [(n, f)]
  | (m, x) :: q' =>
      if m <? n then
        match insert q' n f with Some r => Some ((m, x) :: r) | None => None end
      else if m =? n then None
      else Some ((n, f) :: (m, x) :: q')
  end.

(** Release everything the window has passed, and the run that continues it. *)
Fixpoint drain (q : list (Z * recv_frame)) (w : Z)
  : list (Z * recv_frame) * state :=
  match q with
  | [] => ([], mk w [])
  | (m, x) :: q' =>
      if m <=? w then
        let '(out, s) := drain q' (if m =? w then w + 1 else w) in ((m, x) :: out, s)
      else ([], mk w q)
  end.

(** One arriving frame: the frames released and the new state. *)
Definition recv (ws : Z) (s : state) (n : Z) (f : recv_frame) : list (Z * recv_frame) * state :=
  if n <? start s then ([], s)
  else let w := slide (start s) ws n in
       match insert (held s) n f with
       | None => ([], mk w (held s))
       | Some q => drain q w
       end.

(** The reorder timeout: skip to the oldest held frame. *)
Definition timeout (s : state) : list (Z * recv_frame) * state :=
  match held s with
  | [] => ([], s)
  | (m, _) :: _ => drain (held s) m
  end.

Inductive event := Recv (n : Z) (f : recv_frame) | Timeout.

Definition step (ws : Z) (s : state) (e : event) : list (Z * recv_frame) * state :=
  match e with Recv n f => recv ws s n f | Timeout => timeout s end.

Fixpoint run (ws : Z) (s : state) (es : list event) : list (Z * recv_frame) * state :=
  match es with
  | [] => ([], s)
  | e :: es' =>
      let '(o1, s1) := step ws s e in
      let '(o2, s2) := run ws s1 es' in (o1 ++ o2, s2)
  end.

(** Keys strictly increasing and above [lo]. *)
Fixpoint above (lo : Z) (q : list (Z * recv_frame)) : Prop :=
  match q with [] => True | (m, _) :: q' => lo < m /\ above m q' end.

(** The held frames are sorted and inside the window, its first slot excluded. *)
Definition inv (ws : Z) (s : state) : Prop :=
  above (start s) (held s) /\ Forall (fun mx => mx.1 < start s + ws) (held s).

Lemma above_weaken lo lo' q : lo' <= lo -> above lo q -> above lo' q.
Proof. destruct q as [|[m x] q]; simpl; [done|]. intros ? []. split; [lia|done]. Qed.

Lemma above_Forall lo q : above lo q -> Forall (fun mx => lo < mx.1) q.
Proof.
  revert lo; induction q as [|[m x] q IH]; simpl; intros lo H; [constructor|].
  destruct H as [H1 H2]. constructor; [done|].
  eapply Forall_impl; [apply IH; exact H2|]. simpl. intros. lia.
Qed.

Lemma insert_above q n f r lo :
  above lo q -> lo < n -> insert q n f = Some r -> above lo r.
Proof.
  revert lo r; induction q as [|[m x] q IH]; simpl; intros lo r H Hn E.
  - injection E as <-. simpl. auto.
  - destruct H as [H1 H2]. destruct (Z.ltb_spec m n).
    + destruct (insert q n f) eqn:E'; [|discriminate]. injection E as <-. simpl. split; [done|].
      eapply IH; eauto.
    + destruct (Z.eqb_spec m n); [discriminate|]. injection E as <-. simpl. repeat split; auto; lia.
Qed.

Lemma insert_elem q n f r :
  insert q n f = Some r -> forall mx, mx ∈ r <-> mx = (n, f) \/ mx ∈ q.
Proof.
  revert r; induction q as [|[m x] q IH]; simpl; intros r E mx.
  - injection E as <-. set_solver.
  - destruct (m <? n).
    + destruct (insert q n f) eqn:E'; [|discriminate]. injection E as <-.
      specialize (IH _ eq_refl mx). set_solver.
    + destruct (m =? n); [discriminate|]. injection E as <-. set_solver.
Qed.

Lemma insert_dup q n f lo :
  above lo q -> insert q n f = None <-> exists x, (n, x) ∈ q.
Proof.
  revert lo; induction q as [|[m x] q IH]; simpl; intros lo H.
  - split; [discriminate|]. intros [x Hx]. set_solver.
  - destruct H as [H1 H2]. destruct (Z.ltb_spec m n).
    + destruct (insert q n f) eqn:E'.
      * split; [discriminate|]. intros [y Hy]. exfalso.
        apply elem_of_cons in Hy as [Hy|Hy]; [injection Hy; lia|].
        assert (Some l = None) as F; [|discriminate].
        apply (proj2 (IH _ H2)). eauto.
      * split; [|done]. intros _.
        destruct (proj1 (IH _ H2) eq_refl) as [y Hy]. exists y. set_solver.
    + destruct (Z.eqb_spec m n).
      * subst. split; [|done]. intros _. exists x. set_solver.
      * split; [discriminate|]. intros [y Hy].
        apply elem_of_cons in Hy as [Hy|Hy]; [injection Hy; lia|].
        pose proof (above_Forall _ _ H2) as F. rewrite Forall_forall in F.
        specialize (F _ Hy). simpl in F. lia.
Qed.

(** What [drain] does to a sorted queue. *)
Lemma drain_spec q w lo out s :
  above lo q -> lo < w -> drain q w = (out, s) ->
  q = out ++ held s /\ w <= start s /\ above (start s) (held s)
  /\ above lo out /\ Forall (fun mx => mx.1 < start s) out.
Proof.
  revert w lo out s; induction q as [|[m x] q IH]; simpl; intros w lo out s H Hw E.
  - injection E as <- <-. simpl. repeat split; auto; lia.
  - destruct H as [H1 H2]. destruct (Z.leb_spec m w).
    + destruct (drain q _) as [o s'] eqn:D. injection E as <- <-.
      destruct (IH (if m =? w then w + 1 else w) m o s' H2) as (-> & H3 & H4 & H5 & H6); auto.
      { destruct (Z.eqb_spec m w); lia. }
      simpl. repeat split; auto.
      * destruct (Z.eqb_spec m w); lia.
      * constructor; auto. simpl. destruct (Z.eqb_spec m w); lia.
    + injection E as <- <-. simpl. repeat split; auto; lia.
Qed.

(** One step: the released frames are in order, none precedes the old window
    start, all precede the new one, and the invariant is kept. *)
Lemma step_spec ws s e out s' :
  0 < ws -> inv ws s -> step ws s e = (out, s') ->
  start s <= start s' /\ inv ws s' /\ above (start s - 1) out
  /\ Forall (fun mx => mx.1 < start s') out.
Proof.
  intros Hws [I1 I2] E. destruct e as [n f|]; simpl in E.
  - unfold recv in E. destruct (Z.ltb_spec n (start s)).
    + injection E as <- <-. simpl. repeat split; auto; lia.
    + assert (HS : start s <= slide (start s) ws n /\ n < slide (start s) ws n + ws).
      { unfold slide. destruct (Z.eqb_spec n (start s)), (Z.ltb_spec (start s + ws - 1) n); lia. }
      destruct (insert (held s) n f) as [q|] eqn:D.
      * assert (A : above (start s - 1) q).
        { apply (insert_above (held s) n f); [|lia|exact D]. eapply above_weaken; [|exact I1]. lia. }
        destruct (drain_spec _ (slide (start s) ws n) _ _ _ A ltac:(lia) E) as (-> & H1 & H2 & H3 & H4).
        repeat split; auto; [lia|].
        rewrite Forall_forall in I2 |- *. intros mx Hmx.
        destruct (proj1 (insert_elem _ _ _ _ D mx)) as [->|Hq]; [set_solver|simpl; lia|].
        specialize (I2 _ Hq). simpl in *. lia.
      * injection E as <- <-.
        destruct (proj1 (insert_dup _ _ _ _ I1) D) as [x Hx].
        rewrite Forall_forall in I2. pose proof (I2 _ Hx) as Hlt.
        pose proof (above_Forall _ _ I1) as F. rewrite Forall_forall in F.
        specialize (F _ Hx). simpl in *.
        assert (slide (start s) ws n = start s) as ->.
        { unfold slide. destruct (Z.eqb_spec n (start s)), (Z.ltb_spec (start s + ws - 1) n); lia. }
        repeat split; auto; [lia|]. by rewrite Forall_forall.
  - unfold timeout in E. destruct s as [w [|[m x] q]]; cbn [held start] in *.
    + injection E as <- <-. repeat split; simpl; auto; lia.
    + assert (w < m) by (destruct I1; auto).
      destruct (drain_spec _ m w _ _ I1 ltac:(lia) E) as (EQ & H1 & H2 & H3 & H4).
      repeat split; auto; [lia| |].
      * rewrite EQ in I2. apply Forall_app in I2 as [_ I2].
        eapply Forall_impl; [exact I2|]. simpl. intros. lia.
      * eapply above_weaken; [|exact H3]. lia.
Qed.

Lemma above_app lo mid a b :
  above lo a -> Forall (fun mx => mx.1 < mid) a -> lo < mid -> above (mid - 1) b -> above lo (a ++ b).
Proof.
  revert lo; induction a as [|[m x] a IH]; simpl; intros lo H F L B.
  - eapply above_weaken; [|exact B]. lia.
  - destruct H. apply Forall_cons in F as [F1 F2]. simpl in F1. split; auto.
Qed.

(** A whole run: everything released, over all steps, is in strictly
    increasing order and lies between the first and the last window start. *)
Lemma run_spec ws s es out s' :
  0 < ws -> inv ws s -> run ws s es = (out, s') ->
  start s <= start s' /\ inv ws s' /\ above (start s - 1) out
  /\ Forall (fun mx => mx.1 < start s') out.
Proof.
  intros Hws. revert s out; induction es as [|e es IH]; simpl; intros s out I E.
  - injection E as <- <-. simpl. repeat split; auto; try apply I; lia.
  - destruct (step ws s e) as [o1 s1] eqn:E1, (run ws s1 es) as [o2 s2] eqn:E2.
    injection E as <- <-.
    destruct (step_spec _ _ _ _ _ Hws I E1) as (A1 & A2 & A3 & A4).
    destruct (IH _ _ A2 E2) as (B1 & B2 & B3 & B4).
    repeat split; auto; try apply B2; [lia| |].
    + eapply above_app; eauto. lia.
    + apply Forall_app. split; auto. eapply Forall_impl; [exact A4|]. simpl. intros. lia.
Qed.

Lemma above_bounded_length lo hi q :
  above lo q -> Forall (fun mx => mx.1 < hi) q -> q = [] \/ lo + zlen q < hi.
Proof.
  revert lo; induction q as [|[m x] q IH]; simpl; intros lo H F; [by left|].
  destruct H as [H1 H2]. apply Forall_cons in F as [F1 F2]. simpl in F1. right.
  rewrite zlen_cons. destruct (IH _ H2 F2) as [->|]; [unfold zlen; simpl; lia|lia].
Qed.

(** What a step releases or holds was held before or has just arrived, and
    nothing that was held is lost. *)
Lemma step_elem ws s e out s' :
  0 < ws -> inv ws s -> step ws s e = (out, s') ->
  forall mx, mx ∈ out ++ held s' ->
    mx ∈ held s \/ e = Recv mx.1 mx.2.
Proof.
  intros Hws [I1 I2] E mx. destruct e as [n f|]; simpl in E.
  - unfold recv in E. destruct (Z.ltb_spec n (start s)).
    { injection E as <- <-. by left. }
    destruct (insert (held s) n f) as [q|] eqn:D.
    + assert (A : above (start s - 1) q).
      { apply (insert_above (held s) n f); [|lia|exact D]. eapply above_weaken; [|exact I1]. lia. }
      destruct (drain_spec _ (slide (start s) ws n) _ _ _ A ltac:(unfold slide;
        destruct (Z.eqb_spec n (start s)), (Z.ltb_spec (start s + ws - 1) n); lia) E) as (<- & _).
      intros Hq. destruct (proj1 (insert_elem _ _ _ _ D mx) Hq) as [->|]; auto.
    + injection E as <- <-. simpl. auto.
  - unfold timeout in E. destruct s as [w [|[m x] q]]; cbn [held start] in *.
    + injection E as <- <-. by left.
    + destruct (drain_spec _ m w _ _ I1 ltac:(destruct I1; lia) E) as (<- & _). by left.
Qed.

Lemma step_kept ws s e out s' m :
  0 < ws -> inv ws s -> step ws s e = (out, s') ->
  (exists g, (m, g) ∈ held s \/ e = Recv m g /\ start s <= m) ->
  exists g, (m, g) ∈ out ++ held s'.
Proof.
  intros Hws [I1 I2] E [g G]. destruct e as [n f|]; simpl in E.
  - unfold recv in E. destruct (Z.ltb_spec n (start s)).
    { injection E as <- <-. destruct G as [G|[G L]]; [eauto|]. injection G as -> ->. lia. }
    destruct (insert (held s) n f) as [q|] eqn:D.
    + assert (A : above (start s - 1) q).
      { apply (insert_above (held s) n f); [|lia|exact D]. eapply above_weaken; [|exact I1]. lia. }
      destruct (drain_spec _ (slide (start s) ws n) _ _ _ A ltac:(unfold slide;
        destruct (Z.eqb_spec n (start s)), (Z.ltb_spec (start s + ws - 1) n); lia) E) as (<- & _).
      exists g. apply (insert_elem _ _ _ _ D).
      destruct G as [G|[G _]]; [by right|]. injection G as -> ->. by left.
    + injection E as <- <-. destruct G as [G|[G _]]; [eauto|]. injection G as -> ->.
      exact (proj1 (insert_dup _ _ g _ I1) D).
  - destruct G as [G|[[=] _]]. unfold timeout in E. destruct s as [w [|[k x] q]]; cbn [held start] in *.
    + injection E as <- <-. eauto.
    + destruct (drain_spec _ k w _ _ I1 ltac:(destruct I1; lia) E) as (<- & _). eauto.
Qed.

Lemma run_elem ws es : forall s out s',
  0 < ws -> inv ws s -> run ws s es = (out, s') ->
  forall mx, mx ∈ out ++ held s' -> mx ∈ held s \/ Recv mx.1 mx.2 ∈ es.
Proof.
  induction es as [|e es IH]; simpl; intros s out s' Hws I E mx Hmx.
  - injection E as <- <-. by left.
  - destruct (step ws s e) as [o1 s1] eqn:E1, (run ws s1 es) as [o2 s2] eqn:E2.
    injection E as <- <-.
    destruct (step_spec _ _ _ _ _ Hws I E1) as (_ & I' & _).
    assert (mx ∈ o1 \/ mx ∈ o2 ++ held s2) as [H|H] by set_solver.
    + destruct (step_elem _ _ _ _ _ Hws I E1 mx) as [G|<-]; [set_solver|by left|right; left].
    + destruct (IH _ _ _ Hws I' E2 mx H) as [H'|]; [|right; by right].
      destruct (step_elem _ _ _ _ _ Hws I E1 mx) as [G|<-]; [set_solver|by left|right; left].
Qed.

Lemma run_held_kept ws es : forall s out s' m g,
  0 < ws -> inv ws s -> run ws s es = (out, s') ->
  (m, g) ∈ held s -> exists g', (m, g') ∈ out ++ held s'.
Proof.
  induction es as [|e es IH]; simpl; intros s out s' m g Hws I E G.
  - injection E as <- <-. eauto.
  - destruct (step ws s e) as [o1 s1] eqn:E1, (run ws s1 es) as [o2 s2] eqn:E2.
    injection E as <- <-.
    destruct (step_spec _ _ _ _ _ Hws I E1) as (_ & I' & _).
    destruct (step_kept _ _ _ _ _ m Hws I E1) as [g' H]; [eauto|].
    apply elem_of_app in H as [H|H].
    + exists g'. set_solver.
    + destruct (IH _ _ _ _ _ Hws I' E2 H) as [g2 H2]. exists g2. set_solver.
Qed.

(** No loss: a frame that is not behind the window when it arrives has its
    number released or held at the end. *)
Lemma run_kept ws a : forall s m g b out s',
  0 < ws -> inv ws s -> run ws s (a ++ Recv m g :: b) = (out, s') ->
  start (run ws s a).2 <= m -> exists g', (m, g') ∈ out ++ held s'.
Proof.
  induction a as [|e a IH]; simpl; intros s m g b out s' Hws I E L.
  - destruct (recv ws s m g) as [o1 s1] eqn:E1, (run ws s1 b) as [o2 s2] eqn:E2.
    injection E as <- <-.
    destruct (step_spec ws s (Recv m g) _ _ Hws I E1) as (_ & I' & _).
    destruct (step_kept ws s (Recv m g) _ _ m Hws I E1) as [g' H]; [eauto|].
    apply elem_of_app in H as [H|H].
    + exists g'. set_solver.
    + destruct (run_held_kept _ _ _ _ _ _ _ Hws I' E2 H) as [g2 H2]. exists g2. set_solver.
  - destruct (step ws s e) as [o1 s1] eqn:E1.
    destruct (run ws s1 (a ++ _)) as [o2 s2] eqn:E2. injection E as <- <-.
    destruct (step_spec _ _ _ _ _ Hws I E1) as (_ & I' & _).
    destruct (IH _ _ _ _ _ _ Hws I' E2) as [g' H]; [by destruct (run ws s1 a)|].
    exists g'. set_solver.
Qed.

End Abs.

(** ** Refinement: the 12-bit code implements the specification *)

Lemma SN_LESS_spec a b : SN_LESS a b = (2048 <=? (a - b) mod 4096).
Proof. unfold SN_LESS. change 0x800 with (2 ^ 11). rewrite bit_test_pow2 by lia. reflexivity. Qed.

(** Within half of the number space the circular comparison is the linear one. *)
Lemma SN_LESS_abs m n :
  - 2048 <= m - n < 2048 -> SN_LESS (m mod 4096) (n mod 4096) = (m <? n).
Proof.
  intros H. rewrite SN_LESS_spec, <- Zminus_mod.
  destruct (Z.leb_spec 2048 ((m - n) mod 4096)), (Z.ltb_spec m n); try reflexivity; exfalso.
  - rewrite Z.mod_small in *; lia.
  - rewrite <- (Z_mod_plus_full _ 1), Z.mod_small in *; lia.
Qed.

Lemma SN_EQUAL_abs m n :
  - 4096 < m - n < 4096 -> SN_EQUAL (m mod 4096) (n mod 4096) = (m =? n).
Proof.
  intros H. unfold SN_EQUAL.
  destruct (Z.eqb_spec (m mod 4096) (n mod 4096)), (Z.eqb_spec m n); try reflexivity; exfalso; [|congruence].
  assert ((m - n) mod 4096 = 0) as E by (rewrite Zminus_mod, e, Z.sub_diag; reflexivity).
  apply Z.mod_divide in E as [k E]; lia.
Qed.

Lemma land_FFF x : Z.land x 0xFFF = x mod 4096.
Proof. change 0xFFF with (Z.ones 12). rewrite Z.land_ones by lia. reflexivity. Qed.

(** A tagged frame carries its absolute number reduced to 12 bits. *)
Definition tagged (q : list (Z * recv_frame)) : Prop :=
  Forall (fun mx => seq_of mx.2 = mx.1 mod 4096) q.

Record refines (ws : Z) (c : recv_reorder_ctrl) (s : Abs.state) : Prop := {
  rf_seq : indicate_seq c = Abs.start s mod 4096;
  rf_ws : wsize_b c = ws;
  rf_pending : pending c = map snd (Abs.held s);
  rf_tag : tagged (Abs.held s);
  rf_inv : Abs.inv ws s;
  rf_enable : enable c = true;
  rf_ack : rec_abba_rsp_ack c = false
}.

(** All keys of [q] are comparable with [n]. *)
Definition near (n : Z) (q : list (Z * recv_frame)) : Prop :=
  Forall (fun mx => - 2048 <= n - mx.1 < 2048) q.

Lemma enqueue_refines q n f :
  tagged q -> seq_of f = n mod 4096 -> Forall (fun mx => - 2048 <= mx.1 - n < 2048) q ->
  enqueue_reorder_recvframe (map snd q) f = option_map (map snd) (Abs.insert q n f).
Proof.
  intros T Hf. induction q as [|[m x] q IH]; simpl; intros N; [done|].
  apply Forall_cons in T as [T1 T2]. apply Forall_cons in N as [N1 N2]. simpl in T1, N1.
  rewrite T1, Hf, SN_LESS_abs, SN_EQUAL_abs by lia.
  destruct (m <? n); [|by destruct (m =? n)].
  rewrite IH by done. by destruct (Abs.insert q n f).
Qed.

Lemma loop_refines proc q w lo p out s :
  Abs.above lo q -> tagged q -> near w q -> Abs.drain q w = (out, s) ->
  exists p', indicate_loop proc (map snd q) (w mod 4096) p
    = (map snd out, map snd (Abs.held s), Abs.start s mod 4096, p',
       match Abs.held s with [] => false | _ => true end).
Proof.
  revert w lo p out s; induction q as [|[m x] q IH]; simpl; intros w lo p out s A T N E.
  - injection E as <- <-. eauto.
  - destruct A as [A1 A2]. apply Forall_cons in T as [T1 T2].
    apply Forall_cons in N as [N1 N2]. simpl in T1, N1.
    rewrite T1, SN_LESS_abs by lia. rewrite Z.leb_antisym in E.
    destruct (Z.ltb_spec w m); simpl in E |- *.
    + injection E as <- <-. eauto.
    + rewrite SN_EQUAL_abs, (Z.eqb_sym w m), land_FFF, Zplus_mod_idemp_l by lia.
      destruct (Abs.drain q _) as [o s'] eqn:D. injection E as <- <-.
      replace (if m =? w then (w + 1) mod 4096 else w mod 4096)
        with ((if m =? w then w + 1 else w) mod 4096) by (by destruct (m =? w)).
      edestruct (IH (if m =? w then w + 1 else w) m) as [p' ->]; eauto.
      pose proof (Abs.above_Forall _ _ A2) as F.
      unfold near in *. rewrite Forall_forall in *. intros mx Hmx.
      specialize (N2 _ Hmx). specialize (F _ Hmx). simpl in *.
      destruct (Z.eqb_spec m w); lia.
Qed.

Lemma check_refines ws c p s n :
  refines ws c s -> 1 <= ws <= 255 -> - 2048 <= n - Abs.start s < 2048 ->
  exists p',
    check_indicate_seq c p (n mod 4096)
    = (Abs.start s <=? n,
       if Abs.start s <=? n then set_seq c (Abs.slide (Abs.start s) ws n mod 4096) else c, p').
Proof.
  intros R Hws Hn. unfold check_indicate_seq.
  rewrite (rf_seq _ _ _ R), (rf_ws _ _ _ R).
  set (w := Abs.start s) in *.
  assert (Hc : set_seq c (w mod 4096) = c).
  { destruct c. unfold set_seq. simpl. f_equal. symmetry. apply (rf_seq _ _ _ R). }
  destruct (Z.eqb_spec (w mod 4096) 0xFFFF) as [e|_]; [pose proof (Z.mod_pos_bound w 4096); lia|].
  rewrite (rf_seq _ _ _ R), !land_FFF. fold w.
  rewrite <- Z.add_sub_assoc, !Zplus_mod_idemp_l.
  rewrite SN_LESS_abs, SN_EQUAL_abs by lia.
  rewrite (Z.leb_antisym n w). destruct (Z.ltb_spec n w); simpl; [eauto|].
  unfold Abs.slide. destruct (Z.eqb_spec n w).
  { eauto. }
  rewrite SN_LESS_abs by lia. rewrite Z.add_sub_assoc.
  destruct (Z.ltb_spec (w + ws - 1) n); [|rewrite Hc; eauto].
  eexists. do 2 f_equal. f_equal.
  pose proof (Z.mod_pos_bound n 4096 ltac:(lia)) as B.
  unfold u16.
  assert (E : (n + 1 - ws) mod 4096 = (n mod 4096 + 1 - ws) mod 4096).
  { rewrite <- !Z.add_sub_assoc, Zplus_mod_idemp_l. done. }
  rewrite E. generalize dependent (n mod 4096). intros k B _.
  destruct (Z.leb_spec (ws - 1) k).
  - rewrite !Z.mod_small by lia. done.
  - rewrite (Z.mod_small _ 65536) by lia.
    rewrite <- (Z_mod_plus_full _ 1 4096), Z.mod_small by lia. lia.
Qed.

Lemma tagged_insert q n f r :
  tagged q -> seq_of f = n mod 4096 -> Abs.insert q n f = Some r -> tagged r.
Proof.
  unfold tagged. rewrite !Forall_forall. intros T Hf E mx Hmx.
  destruct (proj1 (Abs.insert_elem _ _ _ _ E mx) Hmx) as [->|]; auto.
Qed.

Lemma tagged_drain q w lo out s :
  Abs.above lo q -> lo < w -> tagged q -> Abs.drain q w = (out, s) -> tagged out /\ tagged (Abs.held s).
Proof.
  intros A L T E. destruct (Abs.drain_spec _ _ _ _ _ A L E) as (-> & _).
  by apply Forall_app in T.
Qed.

(** A frame the specification accepts as event of state [s]: its number is
    within half of the number space of the window start, as 802.11 requires. *)
Definition event_ok (s : Abs.state) (e : Abs.event) : Prop :=
  match e with
  | Abs.Recv n f => seq_of f = n mod 4096 /\ qos (attrib f) <> 0
                    /\ - 2048 <= n - Abs.start s < 2048
  | Abs.Timeout => True
  end.

(** The code's step for an event. *)
Definition code_step (proc : recv_frame -> Z) (c : recv_reorder_ctrl) (p : recv_priv) (e : Abs.event)
  : list recv_frame * recv_reorder_ctrl * recv_priv :=
  match e with
  | Abs.Recv _ f =>
      let '(_, out, c', p') := recv_indicatepkt_reorder proc (Some c) p f in
      (out, default c c', p')
  | Abs.Timeout => rtw_reordering_ctrl_timeout_handler proc false c p
  end.

Fixpoint code_run (proc : recv_frame -> Z) (c : recv_reorder_ctrl) (p : recv_priv) (es : list Abs.event)
  : list recv_frame * recv_reorder_ctrl * recv_priv :=
  match es with
  | [] => ([], c, p)
  | e :: es' =>
      let '(o1, c1, p1) := code_step proc c p e in
      let '(o2, c2, p2) := code_run proc c1 p1 es' in (o1 ++ o2, c2, p2)
  end.

Fixpoint run_ok (ws : Z) (s : Abs.state) (es : list Abs.event) : Prop :=
  match es with
  | [] => True
  | e :: es' => event_ok s e /\ run_ok ws (Abs.step ws s e).2 es'
  end.

Lemma in_order_refines proc ws c p q w lo out s :
  Abs.above lo q -> lo < w -> tagged q -> near w q -> Abs.inv ws s ->
  wsize_b c = ws -> enable c = true -> rec_abba_rsp_ack c = false ->
  indicate_seq c = w mod 4096 -> pending c = map snd q -> Abs.drain q w = (out, s) ->
  exists c' p' b, recv_indicatepkts_in_order proc c p false = (map snd out, c', p', b)
    /\ refines ws c' s /\ b = match pending c' with [] => false | _ => true end
    /\ bReorderWaiting c' = bReorderWaiting c /\ timer c' = timer c.
Proof.
  intros A L T N I W En Ak Hi Hp D.
  destruct (loop_refines proc _ _ _ p _ _ A T N D) as [p' E].
  destruct (tagged_drain _ _ _ _ _ A L T D) as [_ T'].
  unfold recv_indicatepkts_in_order. rewrite Hi, Hp, E.
  eexists _, _, _. split; [reflexivity|]. repeat split; simpl; auto; try apply I.
  by destruct (Abs.held s).
Qed.

(** The set of keys [Abs.insert] yields stays comparable with the slid window. *)
Lemma near_slide ws s n f q :
  1 <= ws <= 255 -> Abs.inv ws s -> Abs.start s <= n -> n - Abs.start s < 2048 ->
  Abs.insert (Abs.held s) n f = Some q ->
  Abs.above (Abs.start s - 1) q /\ near (Abs.slide (Abs.start s) ws n) q
  /\ Forall (fun mx => - 2048 <= mx.1 - n < 2048) (Abs.held s)
  /\ Abs.start s - 1 < Abs.slide (Abs.start s) ws n.
Proof.
  intros Hws [I1 I2] L H E.
  pose proof (Abs.above_Forall _ _ I1) as F.
  assert (S : Abs.start s <= Abs.slide (Abs.start s) ws n <= Abs.start s + 2048).
  { unfold Abs.slide. destruct (n =? Abs.start s), (Z.ltb_spec (Abs.start s + ws - 1) n); lia. }
  repeat split; [| | |lia].
  - eapply Abs.insert_above; [| |exact E]; [|lia]. eapply Abs.above_weaken; [|exact I1]. lia.
  - unfold near. rewrite Forall_forall in *. intros mx Hmx.
    destruct (proj1 (Abs.insert_elem _ _ _ _ E mx) Hmx) as [->|Hq]; simpl.
    + unfold Abs.slide. destruct (Z.eqb_spec n (Abs.start s)), (Z.ltb_spec (Abs.start s + ws - 1) n); lia.
    + specialize (F _ Hq). specialize (I2 _ Hq). simpl in *.
      unfold Abs.slide. destruct (Z.eqb_spec n (Abs.start s)), (Z.ltb_spec (Abs.start s + ws - 1) n); lia.
  - rewrite Forall_forall in *. intros mx Hmx.
    specialize (F _ Hmx). specialize (I2 _ Hmx). simpl in *. lia.
Qed.

Lemma refines_waiting ws c s b t : refines ws c s -> refines ws (set_waiting c b t) s.
Proof. intros []. split; auto. Qed.

Lemma recv_refines proc ws c p s n f :
  refines ws c s -> 1 <= ws <= 255 -> event_ok s (Abs.Recv n f) ->
  exists c' p', code_step proc c p (Abs.Recv n f) = (map snd (Abs.recv ws s n f).1, c', p')
    /\ refines ws c' (Abs.recv ws s n f).2.
Proof.
  intros R Hws (Hf & Hq & Hn).
  pose proof (Abs.step_spec ws s (Abs.Recv n f)) as SP. simpl in SP.
  simpl. unfold recv_indicatepkt_reorder.
  rewrite (rf_enable _ _ _ R), (rf_ack _ _ _ R).
  destruct (Z.eqb_spec (qos (attrib f)) 0) as [|_]; [done|]. simpl. rewrite Hf.
  destruct (check_refines ws c p s n R Hws Hn) as [p1 ->].
  unfold Abs.recv in *. rewrite Z.leb_antisym.
  destruct (Z.ltb_spec n (Abs.start s)); simpl; [eauto|].
  rewrite (rf_pending _ _ _ R).
  destruct (Abs.insert (Abs.held s) n f) as [q|] eqn:E.
  - destruct (near_slide ws s n f q) as (A & N & F & L); auto; try apply R; [lia|].
    rewrite (enqueue_refines _ n), E by (auto; apply R). simpl.
    destruct (Abs.drain q _) as [out s'] eqn:D.
    destruct (SP _ _ ltac:(lia) (rf_inv _ _ _ R) eq_refl) as (_ & I' & _).
    edestruct (in_order_refines proc ws
      (set_pending (set_seq c (Abs.slide (Abs.start s) ws n mod 4096)) (map snd q)) p1)
      as (c' & p' & b & -> & R' & _); eauto; simpl; try apply R.
    { eapply tagged_insert; eauto. apply R. }
    simpl. eexists _, _. split; [reflexivity|].
    destruct b; [destruct (negb _)|]; auto using refines_waiting.
  - destruct (SP _ _ ltac:(lia) (rf_inv _ _ _ R) eq_refl) as (_ & I' & _).
    rewrite (enqueue_refines _ n), E; auto; try apply R.
    + simpl. eexists _, _. split; [reflexivity|]. split; simpl; auto; apply R.
    + destruct (rf_inv _ _ _ R) as [I1 I2].
      pose proof (Abs.above_Forall _ _ I1) as F. rewrite Forall_forall in *. intros mx Hmx.
      specialize (F _ Hmx). specialize (I2 _ Hmx). simpl in *. lia.
Qed.

Lemma timeout_refines proc ws c p s :
  refines ws c s -> 1 <= ws <= 255 ->
  exists c' p', code_step proc c p Abs.Timeout = (map snd (Abs.timeout s).1, c', p')
    /\ refines ws c' (Abs.timeout s).2.
Proof.
  intros R Hws. pose proof (Abs.step_spec ws s Abs.Timeout) as SP. simpl in SP.
  simpl. unfold rtw_reordering_ctrl_timeout_handler, recv_indicatepkts_in_order, Abs.timeout in *.
  simpl. rewrite (rf_pending _ _ _ R).
  destruct (Abs.held s) as [|[m x] q] eqn:HS;
    [|destruct (Abs.drain ((m, x) :: q) m) as [out s'] eqn:D]; simpl.
  - eexists _, _. split; [reflexivity|]. by repeat apply refines_waiting.
  - pose proof (rf_tag _ _ _ R) as T. pose proof (rf_inv _ _ _ R) as I.
    unfold Abs.inv in I. rewrite HS in T, I. destruct I as [I1 I2].
    pose proof T as T0. apply Forall_cons in T0 as [T1 T2]. simpl in T1. rewrite T1.
    destruct (SP _ _ ltac:(lia) (rf_inv _ _ _ R) eq_refl) as (_ & I' & _).
    assert (L : Abs.start s < m) by (destruct I1; auto).
    assert (N : near m ((m, x) :: q)).
    { assert (m < Abs.start s + ws) by (apply Forall_cons in I2 as [I2 _]; exact I2).
      unfold near. pose proof (Abs.above_Forall _ _ I1) as F. rewrite Forall_forall in *.
      intros mx Hmx. specialize (F _ Hmx). specialize (I2 _ Hmx). simpl in *. lia. }
    destruct (loop_refines proc _ m _
      (recv_indicatepkts_pkt_loss_cnt (inc_forced p) (indicate_seq c) (m mod 4096)) _ _ I1 T N D)
      as [p' E].
    simpl in E. rewrite T1 in E. rewrite E. simpl.
    destruct (tagged_drain _ _ _ _ _ I1 L T D) as [_ T'].
    destruct (match Abs.held s' with [] => false | _ => true end);
      eexists _, _; (split; [reflexivity|]); split; simpl; auto; apply R.
Qed.

Lemma run_refines proc ws es : forall c p s,
  refines ws c s -> 1 <= ws <= 255 -> run_ok ws s es ->
  exists c' p', code_run proc c p es = (map snd (Abs.run ws s es).1, c', p')
    /\ refines ws c' (Abs.run ws s es).2.
Proof.
  induction es as [|e es IH]; intros c p s R Hws V; simpl; [eauto|].
  destruct V as [V1 V2].
  assert (exists c' p', code_step proc c p e = (map snd (Abs.step ws s e).1, c', p')
            /\ refines ws c' (Abs.step ws s e).2) as (c1 & p1 & -> & R1).
  { destruct e; [by apply recv_refines | by apply timeout_refines]. }
  destruct (IH c1 p1 _ R1 Hws V2) as (c2 & p2 & -> & R2).
  destruct (Abs.step ws s e) as [o1 s1]. simpl in *.
  destruct (Abs.run ws s1 es) as [o2 s2]. simpl in *.
  rewrite map_app. eauto.
Qed.

(** The state a reorder buffer is in after [rtw_alloc_stainfo] and an accepted ADDBA. *)
Definition fresh_ctrl (ws : Z) : recv_reorder_ctrl := mk_ctrl true 0xFFFF ws [] false false false.

(** The first frame initialises the window at its own number. *)
Lemma fresh_first proc ws p n f es :
  seq_of f = n mod 4096 -> qos (attrib f) <> 0 ->
  code_run proc (fresh_ctrl ws) p (Abs.Recv n f :: es)
  = code_run proc (set_seq (fresh_ctrl ws) (n mod 4096)) p (Abs.Recv n f :: es).
Proof.
  intros Hf Hq. simpl. unfold recv_indicatepkt_reorder, check_indicate_seq, fresh_ctrl. simpl.
  rewrite Hf. destruct (Z.eqb_spec (qos (attrib f)) 0); [done|]. simpl.
  destruct (Z.eqb_spec (n mod 4096) 0xFFFF) as [e|]; [pose proof (Z.mod_pos_bound n 4096); lia|].
  cbn [indicate_seq set_seq]. rewrite !(SN_LESS_spec (n mod 4096) (n mod 4096)), Z.sub_diag.
  unfold SN_EQUAL. rewrite Z.eqb_refl. simpl.
  by destruct (recv_indicatepkts_in_order _ _ _ _) as [[[? ?] ?] ?].
Qed.

Lemma fresh_refines ws n : refines ws (set_seq (fresh_ctrl ws) (n mod 4096)) (Abs.mk n []).
Proof. split; try reflexivity; [constructor | split; constructor]. Qed.

(** [b] of the release loop says whether frames remain. *)
Lemma indicate_loop_flag proc q : forall i p out rest i' p' b,
  indicate_loop proc q i p = (out, rest, i', p', b) ->
  q = out ++ rest /\ b = match rest with [] => false | _ => true end.
Proof.
  induction q as [|f q IH]; simpl; intros i p out rest i' p' b E.
  - by injection E as <- <- <- <- <-.
  - destruct (negb _).
    + destruct (indicate_loop proc q _ _) as [[[[o r] j] pp] bb] eqn:D.
      injection E as <- <- <- <- <-. destruct (IH _ _ _ _ _ _ _ D) as [-> ->]. done.
    + by injection E as <- <- <- <- <-.
Qed.

Lemma in_order_flag proc c p forced out c' p' b :
  recv_indicatepkts_in_order proc c p forced = (out, c', p', b) ->
  pending c = out ++ pending c' /\ (pending c' <> [] -> b = true)
  /\ (b = false -> pending c' = [])
  /\ bReorderWaiting c' = bReorderWaiting c /\ timer c' = timer c.
Proof.
  unfold recv_indicatepkts_in_order. intros E.
  destruct forced; [destruct (pending c) as [|f q] eqn:Q|].
  - injection E as <- <- <- <-. rewrite Q. auto.
  - simpl pending in E. rewrite Q in E.
    destruct (indicate_loop _ _ _ _) as [[[[o r] j] pp] bb] eqn:D. injection E as <- <- <- <-.
    apply indicate_loop_flag in D as [-> ->]. simpl. by destruct r.
  - destruct (indicate_loop _ _ _ _) as [[[[o r] j] pp] bb] eqn:D. injection E as <- <- <- <-.
    apply indicate_loop_flag in D as [-> ->]. simpl. by destruct r.
Qed.

(** Held frames always have an armed timer to release them. *)
Definition timer_ok (c : recv_reorder_ctrl) : Prop :=
  (pending c <> [] -> timer c = true) /\ (bReorderWaiting c = true -> timer c = true).

(** The timer handler run [k] times. *)
Fixpoint timeouts (proc : recv_frame -> Z) (k : nat) (c : recv_reorder_ctrl) (p : recv_priv)
  : list recv_frame * recv_reorder_ctrl * recv_priv :=
  match k with
  | O => ([], c, p)
  | S k =>
      let '(o1, c1, p1) := rtw_reordering_ctrl_timeout_handler proc false c p in
      let '(o2, c2, p2) := timeouts proc k c1 p1 in (o1 ++ o2, c2, p2)
  end.

Lemma timeout_progress proc c p out c' p' :
  rtw_reordering_ctrl_timeout_handler proc false c p = (out, c', p') ->
  pending c = out ++ pending c' /\ (pending c <> [] -> out <> []).
Proof.
  unfold rtw_reordering_ctrl_timeout_handler. simpl.
  destruct (recv_indicatepkts_in_order _ _ _ _) as [[[o c1] p1] b] eqn:D.
  intros E. injection E as <- <- <-.
  pose proof (in_order_flag _ _ _ _ _ _ _ _ D) as (Q & _). simpl in Q.
  split; [by destruct b|]. intros Hne.
  unfold recv_indicatepkts_in_order in D. simpl in D.
  destruct (pending c) as [|f q]; [done|]. simpl in D.
  rewrite SN_LESS_spec, Z.sub_diag in D. simpl in D.
  destruct (indicate_loop _ _ _ _) as [[[[o' r] j] pp] bb]. by injection D as <- _ _ _.
Qed.

(** The arrivals of such a run carry their absolute numbers. *)
Lemma run_ok_tagged ws es : forall s m g,
  run_ok ws s es -> Abs.Recv m g ∈ es -> seq_of g = m mod 4096.
Proof.
  induction es as [|e es IH]; simpl; intros s m g V H; [by apply elem_of_nil in H|].
  destruct V as [V1 V2]. apply elem_of_cons in H as [<-|H]; [apply V1|eauto].
Qed.

(** ** Properties *)

(** C1: the reorder code implements the unbounded-number receiver. Along any
    run of frame arrivals and reorder timeouts whose frames lie within half of
    the 12-bit space of the window, the frames the code hands up are exactly
    those the specification releases, and the states stay related. *)
Theorem reorder_refines_unbounded proc ws c p s es :
  refines ws c s -> 1 <= ws <= 255 -> run_ok ws s es ->
  exists c' p', code_run proc c p es = (map snd (Abs.run ws s es).1, c', p')
    /\ refines ws c' (Abs.run ws s es).2.
Proof. apply run_refines. Qed.

(** C2: in-order delivery. From a fresh reorder buffer, over any such run,
    there is a numbering of the frames delivered and of those still held such
    that each is a frame that arrived, under the absolute number it arrived
    with (whose low 12 bits the frame carries); along the delivered frames and
    then the held ones the numbers strictly increase from the first frame's,
    so that no number is delivered twice and nothing held precedes something
    delivered; every arrival that is not behind the window when it comes has
    its number delivered or held; and fewer than [ws] frames are held. *)
Theorem reorder_in_order_delivery proc ws p n f es :
  1 <= ws <= 255 -> run_ok ws (Abs.mk n []) (Abs.Recv n f :: es) ->
  exists out held c' p',
    code_run proc (fresh_ctrl ws) p (Abs.Recv n f :: es) = (map snd out, c', p')
    /\ pending c' = map snd held
    /\ Forall (fun mx => Abs.Recv mx.1 mx.2 ∈ Abs.Recv n f :: es) (out ++ held)
    /\ tagged (out ++ held)
    /\ Abs.above (n - 1) (out ++ held)
    /\ (forall a b m g, Abs.Recv n f :: es = a ++ Abs.Recv m g :: b ->
          Abs.start (Abs.run ws (Abs.mk n []) a).2 <= m -> m ∈ map fst (out ++ held))
    /\ zlen (pending c') < ws.
Proof.
  intros Hws V. rewrite fresh_first by apply V.
  destruct (run_refines proc ws (Abs.Recv n f :: es) (set_seq (fresh_ctrl ws) (n mod 4096)) p (Abs.mk n []))
    as (c' & p' & -> & R); auto.
  { apply fresh_refines. }
  assert (I : Abs.inv ws (Abs.mk n [])) by (by repeat split; simpl).
  assert (W : 0 < ws) by lia.
  destruct (Abs.run ws (Abs.mk n []) (Abs.Recv n f :: es)) as [out s'] eqn:E.
  destruct (Abs.run_spec _ _ _ _ _ W I E) as (L & [I1 I2] & A & B).
  assert (F : Forall (fun mx => Abs.Recv mx.1 mx.2 ∈ Abs.Recv n f :: es) (out ++ Abs.held s')).
  { apply Forall_forall. intros mx Hmx.
    destruct (Abs.run_elem _ _ _ _ _ W I E mx Hmx) as [H|]; [by apply elem_of_nil in H|done]. }
  exists out, (Abs.held s'), c', p'. split; [done|]. split; [apply R|]. split; [exact F|].
  split. { eapply Forall_impl; [exact F|]. intros mx. by apply run_ok_tagged with (1 := V). }
  split. { cbn [Abs.start] in L. apply (Abs.above_app _ (Abs.start s')); [exact A|exact B|lia|].
           eapply Abs.above_weaken; [|exact I1]. lia. }
  split.
  { intros a b m g EQ Hm. rewrite EQ in E.
    destruct (Abs.run_kept _ _ _ _ _ _ _ _ W I E Hm) as [g' H].
    apply (list_elem_of_fmap_2 fst) in H. exact H. }
  rewrite (rf_pending _ _ _ R). simpl.
  destruct (Abs.above_bounded_length _ _ _ I1 I2) as [->|B']; [simpl; unfold zlen; simpl; lia|].
  unfold zlen in *. rewrite length_map. lia.
Qed.

(** No frame is left behind. Receiving any frame and running the timeout
    handler keep "held frames have an armed timer". *)
Theorem reorder_timer_armed proc c p f out c' p' r :
  timer_ok c ->
  recv_indicatepkt_reorder proc (Some c) p f = (r, out, Some c', p') ->
  timer_ok c' /\ timer_ok (rtw_reordering_ctrl_timeout_handler proc false c' p').1.2.
Proof.
  intros T E.
  assert (H : forall d q, timer_ok (rtw_reordering_ctrl_timeout_handler proc false d q).1.2).
  { intros d q. unfold rtw_reordering_ctrl_timeout_handler. simpl.
    destruct (recv_indicatepkts_in_order _ _ _ _) as [[[o c1] p1] b] eqn:D.
    apply in_order_flag in D as (_ & H1 & H2 & H3 & H4). simpl in *.
    destruct b; [by split|]. split; [intros N; by rewrite H2 in N | rewrite H3; discriminate]. }
  split; [|apply H]. revert E. unfold recv_indicatepkt_reorder.
  destruct (_ || _); [intros E; by injection E as <- <- <- <-|].
  destruct (check_indicate_seq _ _ _) as [[ok c1] p1] eqn:C.
  assert (K : timer_ok c1).
  { revert C. unfold check_indicate_seq. destruct (rec_abba_rsp_ack c);
      repeat case_match; intros C; injection C as <- <- <-; exact T. }
  destruct ok; simpl; [|intros E; by injection E as <- <- <- <-].
  destruct (enqueue_reorder_recvframe _ _) as [q|]; [|intros E; by injection E as <- <- <- <-].
  destruct (recv_indicatepkts_in_order _ _ _ _) as [[[o c2] p2] b] eqn:D.
  apply in_order_flag in D as (_ & H1 & H2 & H3 & H4). simpl in *.
  intros E. injection E as <- <- <- <-. destruct b.
  - destruct (bReorderWaiting c2) eqn:W; simpl; split; simpl; auto.
    all: rewrite H4; intros _; apply K; congruence.
  - split; simpl; [|discriminate]. intros N. by rewrite H2 in N.
Qed.

(** C30: the timeouts empty the buffer. Running the timeout handler as many
    times as there are held frames releases all of them, in queue order. *)
Theorem reorder_timeouts_drain proc k c p :
  (length (pending c) <= k)%nat ->
  exists c' p', timeouts proc k c p = (pending c, c', p') /\ pending c' = [].
Proof.
  revert c p; induction k as [|k IH]; simpl; intros c p L.
  - destruct (pending c) eqn:Q; simpl in *; [eauto|lia].
  - destruct (rtw_reordering_ctrl_timeout_handler proc false c p) as [[o1 c1] p1] eqn:E.
    destruct (timeout_progress _ _ _ _ _ _ E) as [Q N].
    destruct (IH c1 p1) as (c' & p' & E' & Z').
    { destruct (pending c) as [|x q] eqn:P; [destruct o1, (pending c1); simpl in *; try discriminate; lia|].
      destruct o1; [by destruct N|]. apply (f_equal length) in Q. rewrite length_app in Q. simpl in *. lia. }
    rewrite E'. rewrite Q. eauto.
Qed.

Section Witnesses.

(** A QoS data frame with sequence number [s]; the other fields are immaterial. *)
Definition w_attrib (s : Z) : rx_pkt_attrib :=
  mk_attrib 26 1 0 1 0 s 0 0 0 0 0 0 0 0 [] [] [] [] [] 0 0.
Definition w_frame (s : Z) : recv_frame := mk_frame (w_attrib s) [] 0 0 0 0.
Definition w_priv : recv_priv := mk_priv 0 0 0 0 0 0.

(** Arrivals 4094, 0 (4096), 4095, 3 (4099) and a timeout: the window crosses the wrap. *)
Definition w_events : list Abs.event :=
  [Abs.Recv 4094 (w_frame 4094); Abs.Recv 4096 (w_frame 0);
   Abs.Recv 4095 (w_frame 4095); Abs.Recv 4099 (w_frame 3); Abs.Timeout].

Lemma w_events_ok : run_ok 64 (Abs.mk 4094 []) w_events.
Proof. vm_compute. repeat split; discriminate. Qed.

Lemma reorder_refines_unbounded_witness :
  exists c' p', code_run (fun _ => 1) (set_seq (fresh_ctrl 64) 4094) w_priv w_events
    = (map w_frame [4094; 4095; 0; 3], c', p') /\ refines 64 c' (Abs.mk 4100 []).
Proof.
  apply (reorder_refines_unbounded (fun _ => 1) 64 (set_seq (fresh_ctrl 64) 4094) w_priv
    (Abs.mk 4094 []) w_events (fresh_refines 64 4094)); [lia | exact w_events_ok].
Defined.

Lemma reorder_in_order_delivery_witness :
  exists out held c' p',
    code_run (fun _ => 1) (fresh_ctrl 64) w_priv w_events = (map snd out, c', p')
    /\ pending c' = map snd held
    /\ Forall (fun mx => Abs.Recv mx.1 mx.2 ∈ w_events) (out ++ held)
    /\ tagged (out ++ held)
    /\ Abs.above 4093 (out ++ held)
    /\ (forall a b m g, w_events = a ++ Abs.Recv m g :: b ->
          Abs.start (Abs.run 64 (Abs.mk 4094 []) a).2 <= m -> m ∈ map fst (out ++ held))
    /\ zlen (pending c') < 64.
Proof.
  apply (reorder_in_order_delivery (fun _ => 1) 64 w_priv 4094 (w_frame 4094) (tail w_events));
    [lia | exact w_events_ok].
Defined.

Lemma reorder_timer_armed_witness :
  let r := recv_indicatepkt_reorder (fun _ => 1) (Some (mk_ctrl true 5 64 [] false false false)) w_priv (w_frame 7) in
  timer_ok (default (fresh_ctrl 64) r.1.2)
  /\ timer_ok (rtw_reordering_ctrl_timeout_handler (fun _ => 1) false (default (fresh_ctrl 64) r.1.2) r.2).1.2.
Proof.
  eapply (reorder_timer_armed (fun _ => 1) (mk_ctrl true 5 64 [] false false false) w_priv (w_frame 7));
    [split; simpl; [intros N; by destruct N | discriminate] | vm_compute; reflexivity].
Defined.

Lemma reorder_timeouts_drain_witness :
  exists c' p', timeouts (fun _ => 1) 2 (mk_ctrl true 5 64 [w_frame 7; w_frame 9] true false true) w_priv
    = ([w_frame 7; w_frame 9], c', p') /\ pending c' = [].
Proof.
  apply (reorder_timeouts_drain (fun _ => 1) 2
    (mk_ctrl true 5 64 [w_frame 7; w_frame 9] true false true) w_priv). simpl. lia.
Defined.

End Witnesses.
