(* ===== verification/Channel.v ===== *)
(** * Channels, bandwidths, frequencies and operating classes

    core/rtw_rf.c (channel tables, centre channels, frequencies, operating
    classes, RF path bitmaps), and the channel-group synchronisation of
    core/rtw_ieee80211.c and core/rtw_mlme_ext.c.  A pointer into one of the
    channel tables is the list of channels it points to; an output parameter
    is a component of the result, a function that may leave its output
    untouched takes the old value. *)

From S2P Require Import Prelude.

(** ** Constants of include/cmn_info/rtw_sta_info.h and include/rtw_rf.h *)

Definition CHANNEL_WIDTH_20 : Z := 0.
Definition CHANNEL_WIDTH_40 : Z := 1.
Definition CHANNEL_WIDTH_80 : Z := 2.
Definition CHANNEL_WIDTH_160 : Z := 3.
Definition CHANNEL_WIDTH_80_80 : Z := 4.
Definition CHANNEL_WIDTH_5 : Z := 5.
Definition CHANNEL_WIDTH_10 : Z := 6.
Definition CHANNEL_WIDTH_MAX : Z := 7.

Definition HAL_PRIME_CHNL_OFFSET_DONT_CARE : Z := 0.
Definition HAL_PRIME_CHNL_OFFSET_LOWER : Z := 1.
Definition HAL_PRIME_CHNL_OFFSET_UPPER : Z := 2.

Definition BAND_ON_2_4G : Z := 0.
Definition BAND_ON_5G : Z := 1.
Definition BAND_MAX : Z := 2.

(** [lo <= x && x <= hi] *)
Definition between (lo x hi : Z) : bool := (lo <=? x) && (x <=? hi).

Definition rtw_is_2g_ch (ch : Z) : bool := between 1 ch 14.
Definition rtw_is_5g_ch (ch : Z) : bool := between 36 ch 177.

(** ** Channel tables *)

Definition center_ch_2g : list Z :=
  [1; 2;
   3; 4; 5;
   6; 7; 8;
   9; 10; 11;
   12; 13;
   14].

Definition ch_to_cch_2g_idx (ch : Z) : Z := ch - 1.

Definition center_ch_2g_40m : list Z := [3; 4; 5; 6; 7; 8; 9; 10; 11].

(** Two-dimensional tables in row order, as the [(u8 * )] casts read them. *)
Definition op_chs_of_cch_2g_40m : list Z :=
  [1; 5;
   2; 6;
   3; 7;
   4; 8;
   5; 9;
   6; 10;
   7; 11;
   8; 12;
   9; 13].

Definition center_ch_5g_all : list Z :=
  [36; 38; 40;
   42;
   44; 46; 48;
   52; 54; 56;
   58;
   60; 62; 64;
   100; 102; 104;
   106;
   108; 110; 112;
   116; 118; 120;
   122;
   124; 126; 128;
   132; 134; 136;
   138;
   140; 142; 144;
   149; 151; 153;
   155;
   157; 159; 161;
   165; 167; 169;
   171;
   173; 175; 177].

Definition center_ch_5g_20m : list Z :=
  [36; 40; 44; 48; 52; 56; 60; 64;
   100; 104; 108; 112; 116; 120; 124; 128; 132; 136; 140; 144;
   149; 153; 157; 161; 165; 169; 173; 177].

Definition ch_to_cch_5g_20m_idx (ch : Z) : Z :=
  if between 36 ch 64 then Z.shiftr (ch - 36) 2
  else if between 100 ch 144 then 8 + Z.shiftr (ch - 100) 2
  else if between 149 ch 177 then 20 + Z.shiftr (ch - 149) 2
  else 255.

Definition center_ch_5g_40m : list Z :=
  [38; 46; 54; 62; 102; 110; 118; 126; 134; 142; 151; 159; 167; 175].

Definition center_ch_5g_20m_40m : list Z :=
  [36; 38; 40;
   44; 46; 48;
   52; 54; 56;
   60; 62; 64;
   100; 102; 104;
   108; 110; 112;
   116; 118; 120;
   124; 126; 128;
   132; 134; 136;
   140; 142; 144;
   149; 151; 153;
   157; 159; 161;
   165; 167; 169;
   173; 175; 177].

Definition op_chs_of_cch_5g_40m : list Z :=
  [36; 40;
   44; 48;
   52; 56;
   60; 64;
   100; 104;
   108; 112;
   116; 120;
   124; 128;
   132; 136;
   140; 144;
   149; 153;
   157; 161;
   165; 169;
   173; 177].

Definition center_ch_5g_80m : list Z := [42; 58; 106; 122; 138; 155; 171].

Definition op_chs_of_cch_5g_80m : list Z :=
  [36; 40; 44; 48;
   52; 56; 60; 64;
   100; 104; 108; 112;
   116; 120; 124; 128;
   132; 136; 140; 144;
   149; 153; 157; 161;
   165; 169; 173; 177].

Definition center_ch_5g_160m : list Z := [50; 114; 163].

Definition op_chs_of_cch_5g_160m : list Z :=
  [36; 40; 44; 48; 52; 56; 60; 64;
   100; 104; 108; 112; 116; 120; 124; 128;
   149; 153; 157; 161; 165; 169; 173; 177].

(** [struct center_chs_ent_t]: the number of entries is the list's length. *)
Definition center_chs_2g_by_bw : list (list Z) := [center_ch_2g; center_ch_2g_40m].

Definition center_chs_5g_by_bw : list (list Z) :=
  [center_ch_5g_20m; center_ch_5g_40m; center_ch_5g_80m; center_ch_5g_160m].

(** [struct op_chs_ent_t]: channels per centre channel, and the flat table. *)
Definition op_chs_of_cch_2g_by_bw : list (Z * list Z) :=
  [(1, center_ch_2g); (2, op_chs_of_cch_2g_40m)].

Definition op_chs_of_cch_5g_by_bw : list (Z * list Z) :=
  [(1, center_ch_5g_20m); (2, op_chs_of_cch_5g_40m);
   (4, op_chs_of_cch_5g_80m); (8, op_chs_of_cch_5g_160m)].

(** ** Centre channels *)

Definition rtw_get_scch_by_cch_offset (cch bw offset : Z) : Z :=
  let step d :=
    u8 (if offset =? HAL_PRIME_CHNL_OFFSET_UPPER then cch + d else cch - d) in
  if bw =? CHANNEL_WIDTH_20 then cch
  else if offset =? HAL_PRIME_CHNL_OFFSET_DONT_CARE then 0
  else if between 3 cch 11 && (bw =? CHANNEL_WIDTH_40) then step 2
  else if between 50 cch 163 && (bw =? CHANNEL_WIDTH_160) then step 8
  else if between 42 cch 171 && (bw =? CHANNEL_WIDTH_80) then step 4
  else if between 38 cch 175 && (bw =? CHANNEL_WIDTH_40) then step 2
  else 0.

Definition rtw_get_scch_by_cch_opch (cch bw opch : Z) : Z :=
  let offset :=
    if cch <? opch then HAL_PRIME_CHNL_OFFSET_UPPER
    else if opch <? cch then HAL_PRIME_CHNL_OFFSET_LOWER
    else HAL_PRIME_CHNL_OFFSET_DONT_CARE in
  rtw_get_scch_by_cch_offset cch bw offset.

Definition center_chs_2g_num (bw : Z) : Z :=
  if CHANNEL_WIDTH_40 <? bw then 0
  else zlen (nth (Z.to_nat bw) center_chs_2g_by_bw []).

Definition center_chs_2g (bw id : Z) : Z :=
  if CHANNEL_WIDTH_40 <? bw then 0
  else if center_chs_2g_num bw <=? id then 0
  else znth (nth (Z.to_nat bw) center_chs_2g_by_bw []) id.

Definition center_chs_5g_num (bw : Z) : Z :=
  if CHANNEL_WIDTH_160 <? bw then 0
  else zlen (nth (Z.to_nat bw) center_chs_5g_by_bw []).

Definition center_chs_5g (bw id : Z) : Z :=
  if CHANNEL_WIDTH_160 <? bw then 0
  else if center_chs_5g_num bw <=? id then 0
  else znth (nth (Z.to_nat bw) center_chs_5g_by_bw []) id.

(** Index of the first entry equal to [cch]; the [for]/[break] of the source. *)
Fixpoint find_idx (cch : Z) (chs : list Z) (i : Z) : option Z :=
  match chs with
  | [] => None
  | c :: chs => if cch =? c then Some i else find_idx cch chs (i + 1)
  end.

(** [None] is the return value 0; [Some l] the operating channels. *)
Definition rtw_get_op_chs_by_cch_bw (cch bw : Z) : option (list Z) :=
  let search (c_chs : list Z) (op : Z * list Z) :=
    match find_idx cch c_chs 0 with
    | None => None
    | Some i => Some (take (Z.to_nat (fst op)) (drop (Z.to_nat (fst op * i)) (snd op)))
    end in
  if (cch <=? 14) && (bw <=? CHANNEL_WIDTH_40) then
    search (nth (Z.to_nat bw) center_chs_2g_by_bw []) (nth (Z.to_nat bw) op_chs_of_cch_2g_by_bw (0, []))
  else if between 36 cch 177 && (bw <=? CHANNEL_WIDTH_160) then
    search (nth (Z.to_nat bw) center_chs_5g_by_bw []) (nth (Z.to_nat bw) op_chs_of_cch_5g_by_bw (0, []))
  else None.

(** The result is the return value and the new [*r_offset]. *)
Definition rtw_get_offset_by_chbw (ch bw r_offset : Z) : Z * Z :=
  if bw =? CHANNEL_WIDTH_20 then (1, HAL_PRIME_CHNL_OFFSET_DONT_CARE)
  else if (CHANNEL_WIDTH_80 <=? bw) && (ch <=? 14) then (0, r_offset)
  else if between 1 ch 4 then (1, HAL_PRIME_CHNL_OFFSET_LOWER)
  else if between 5 ch 9 then
    if (r_offset =? HAL_PRIME_CHNL_OFFSET_LOWER) || (r_offset =? HAL_PRIME_CHNL_OFFSET_UPPER)
    then (1, r_offset) else (1, HAL_PRIME_CHNL_OFFSET_UPPER)
  else if between 10 ch 13 then (1, HAL_PRIME_CHNL_OFFSET_UPPER)
  else if ch =? 14 then (0, r_offset)
  else if between 36 ch 177 then
    if existsb (Z.eqb ch)
         [36; 44; 52; 60; 100; 108; 116; 124; 132; 140; 149; 157; 165; 173]
    then (1, HAL_PRIME_CHNL_OFFSET_LOWER)
    else if existsb (Z.eqb ch)
         [40; 48; 56; 64; 104; 112; 120; 128; 136; 144; 153; 161; 169; 177]
    then (1, HAL_PRIME_CHNL_OFFSET_UPPER)
    else (0, r_offset)
  else (0, r_offset).

Definition rtw_get_center_ch (ch bw offset : Z) : Z :=
  if bw =? CHANNEL_WIDTH_160 then
    if ch mod 4 =? 0 then
      if between 36 ch 64 then 50
      else if between 100 ch 128 then 114 else ch
    else if ch mod 4 =? 1 then
      if between 149 ch 177 then 163 else ch
    else ch
  else if bw =? CHANNEL_WIDTH_80 then
    if ch <=? 14 then 7
    else if ch mod 4 =? 0 then
      if between 36 ch 48 then 42
      else if between 52 ch 64 then 58
      else if between 100 ch 112 then 106
      else if between 116 ch 128 then 122
      else if between 132 ch 144 then 138 else ch
    else if ch mod 4 =? 1 then
      if between 149 ch 161 then 155
      else if between 165 ch 177 then 171 else ch
    else ch
  else if bw =? CHANNEL_WIDTH_40 then
    if offset =? HAL_PRIME_CHNL_OFFSET_LOWER then u8 (ch + 2)
    else if offset =? HAL_PRIME_CHNL_OFFSET_UPPER then u8 (ch - 2)
    else ch
  else ch.

(** The band, and the power groups written ([None]: the pointer is not
    written, as for an invalid channel, or [cck_group] outside 2.4 GHz). *)
Definition rtw_get_ch_group (ch : Z) : Z * option Z * option Z :=
  let '(band, gp, cck_gp) :=
    if ch <=? 14 then
      let '(band, gp) :=
        if between 1 ch 2 then (BAND_ON_2_4G, 0)
        else if between 3 ch 5 then (BAND_ON_2_4G, 1)
        else if between 6 ch 8 then (BAND_ON_2_4G, 2)
        else if between 9 ch 11 then (BAND_ON_2_4G, 3)
        else if between 12 ch 14 then (BAND_ON_2_4G, 4)
        else (BAND_MAX, -1) in
      (band, gp, if ch =? 14 then 5 else gp)
    else
      let '(band, gp) :=
        if between 36 ch 42 then (BAND_ON_5G, 0)
        else if between 44 ch 48 then (BAND_ON_5G, 1)
        else if between 50 ch 58 then (BAND_ON_5G, 2)
        else if between 60 ch 64 then (BAND_ON_5G, 3)
        else if between 100 ch 106 then (BAND_ON_5G, 4)
        else if between 108 ch 114 then (BAND_ON_5G, 5)
        else if between 116 ch 122 then (BAND_ON_5G, 6)
        else if between 124 ch 130 then (BAND_ON_5G, 7)
        else if between 132 ch 138 then (BAND_ON_5G, 8)
        else if between 140 ch 144 then (BAND_ON_5G, 9)
        else if between 149 ch 155 then (BAND_ON_5G, 10)
        else if between 157 ch 161 then (BAND_ON_5G, 11)
        else if between 165 ch 171 then (BAND_ON_5G, 12)
        else if between 173 ch 177 then (BAND_ON_5G, 13)
        else (BAND_MAX, -1) in
      (band, gp, -1) in
  if (band =? BAND_MAX) || ((band =? BAND_ON_2_4G) && (cck_gp =? -1)) || (gp =? -1)
  then (band, None, None)
  else (band, Some gp, if band =? BAND_ON_2_4G then Some cck_gp else None).

(** ** Frequencies (MHz) *)

Definition rtw_ch2freq (chan : Z) : Z :=
  if between 1 chan 14 then
    if chan =? 14 then 2484
    else if chan <? 14 then 2407 + chan * 5 else 0
  else if between 36 chan 177 then 5000 + chan * 5
  else 0.

Definition rtw_freq2ch (freq : Z) : Z :=
  if freq =? 2484 then 14
  else if freq <? 2484 then Z.quot (freq - 2407) 5
  else if between 4910 freq 4980 then Z.quot (freq - 4000) 5
  else if freq <=? 45000 then Z.quot (freq - 5000) 5
  else if between 58320 freq 64800 then Z.quot (freq - 56160) 2160
  else 0.

(** [Some (hi, lo)] when the return value is [_TRUE]. *)
Definition rtw_chbw_to_freq_range (ch bw offset : Z) : option (Z * Z) :=
  let freq := u32 (rtw_ch2freq (rtw_get_center_ch ch bw offset)) in
  if freq =? 0 then None
  else Some (
    if bw =? CHANNEL_WIDTH_160 then (u32 (freq + 80), u32 (freq - 80))
    else if bw =? CHANNEL_WIDTH_80 then (u32 (freq + 40), u32 (freq - 40))
    else if bw =? CHANNEL_WIDTH_40 then (u32 (freq + 20), u32 (freq - 20))
    else if bw =? CHANNEL_WIDTH_20 then (u32 (freq + 10), u32 (freq - 10))
    else (0, 0)).

Definition PHYDM_DFS_DOMAIN_ETSI : Z := 3.

Definition rtw_is_range_overlap (hi_a lo_a hi_b lo_b : Z) : bool :=
  (lo_b <? hi_a) && (lo_a <? hi_b).

Definition rtw_is_long_cac_range (hi lo dfs_region : Z) : bool :=
  (dfs_region =? PHYDM_DFS_DOMAIN_ETSI) && rtw_is_range_overlap hi lo 5650 5600.

Definition rtw_is_long_cac_ch (ch bw offset dfs_region : Z) : bool :=
  match rtw_chbw_to_freq_range ch bw offset with
  | None => false
  | Some (hi, lo) => rtw_is_long_cac_range hi lo dfs_region
  end.

(** ** Operating classes *)

Definition BAND_CAP_2G : Z := BIT 0.
Definition BAND_CAP_5G : Z := BIT 1.

Definition BW_CAP_5M : Z := BIT 0.
Definition BW_CAP_10M : Z := BIT 1.
Definition BW_CAP_20M : Z := BIT 2.
Definition BW_CAP_40M : Z := BIT 3.
Definition BW_CAP_80M : Z := BIT 4.
Definition BW_CAP_160M : Z := BIT 5.
Definition BW_CAP_80_80M : Z := BIT 6.

Definition _ch_width_to_bw_cap : list Z :=
  [BW_CAP_20M; BW_CAP_40M; BW_CAP_80M; BW_CAP_160M; BW_CAP_80_80M; BW_CAP_5M; BW_CAP_10M].

Definition ch_width_to_bw_cap (bw : Z) : Z :=
  if bw <? CHANNEL_WIDTH_MAX then znth _ch_width_to_bw_cap bw else 0.

Definition _band_to_band_cap : list Z := [BAND_CAP_2G; BAND_CAP_5G; 0].

Definition band_to_band_cap (band : Z) : Z :=
  if BAND_MAX <=? band then znth _band_to_band_cap BAND_MAX else znth _band_to_band_cap band.

Inductive opc_bw :=
| OPC_BW20 | OPC_BW40PLUS | OPC_BW40MINUS | OPC_BW80 | OPC_BW160 | OPC_BW80P80.

#[export] Instance opc_bw_eq_dec : EqDecision opc_bw.
Proof. solve_decision. Defined.

(** [_opc_bw_to_ch_width[bw]] *)
Definition opc_bw_to_ch_width (bw : opc_bw) : Z :=
  match bw with
  | OPC_BW20 => CHANNEL_WIDTH_20
  | OPC_BW40PLUS => CHANNEL_WIDTH_40
  | OPC_BW40MINUS => CHANNEL_WIDTH_40
  | OPC_BW80 => CHANNEL_WIDTH_80
  | OPC_BW160 => CHANNEL_WIDTH_160
  | OPC_BW80P80 => CHANNEL_WIDTH_80_80
  end.

Record op_class_map := mk_op_class {
  op_class : Z;
  oc_band : Z;
  oc_bw : opc_bw;
  ch_bmp : Z
}.

Definition global_op_class : list op_class_map :=
  [mk_op_class 81 BAND_ON_2_4G OPC_BW20 0x00001FFF;
   mk_op_class 82 BAND_ON_2_4G OPC_BW20 0x00002000;
   mk_op_class 83 BAND_ON_2_4G OPC_BW40PLUS 0x000001FF;
   mk_op_class 84 BAND_ON_2_4G OPC_BW40MINUS 0x00001FF0;
   mk_op_class 115 BAND_ON_5G OPC_BW20 0x0000000F;
   mk_op_class 116 BAND_ON_5G OPC_BW40PLUS 0x00000005;
   mk_op_class 117 BAND_ON_5G OPC_BW40MINUS 0x0000000A;
   mk_op_class 118 BAND_ON_5G OPC_BW20 0x000000F0;
   mk_op_class 119 BAND_ON_5G OPC_BW40PLUS 0x00000050;
   mk_op_class 120 BAND_ON_5G OPC_BW40MINUS 0x000000A0;
   mk_op_class 121 BAND_ON_5G OPC_BW20 0x000FFF00;
   mk_op_class 122 BAND_ON_5G OPC_BW40PLUS 0x00055500;
   mk_op_class 123 BAND_ON_5G OPC_BW40MINUS 0x000AAA00;
   mk_op_class 124 BAND_ON_5G OPC_BW20 0x00F00000;
   mk_op_class 125 BAND_ON_5G OPC_BW20 0x03F00000;
   mk_op_class 126 BAND_ON_5G OPC_BW40PLUS 0x00500000;
   mk_op_class 127 BAND_ON_5G OPC_BW40MINUS 0x00A00000;
   mk_op_class 128 BAND_ON_5G OPC_BW80 0x00FFFFFF;
   mk_op_class 129 BAND_ON_5G OPC_BW160 0x0000FFFF].

Definition RTW_GLOBAL_OP_CLASS_NUM : Z := 19.

(** These take the class entry, the source its index. *)
Definition global_op_class_get_ch (oc : op_class_map) (cid : Z) : Z :=
  if oc_band oc =? BAND_ON_2_4G then znth center_ch_2g cid
  else if oc_band oc =? BAND_ON_5G then znth center_ch_5g_20m cid
  else 0.

Definition global_op_class_get_cid (oc : op_class_map) (ch : Z) : Z :=
  if oc_band oc =? BAND_ON_2_4G then u8 (ch_to_cch_2g_idx ch)
  else if oc_band oc =? BAND_ON_5G then u8 (ch_to_cch_5g_20m_idx ch)
  else 255.

(** The counters 0 .. n-1 of a [for] loop. *)
Definition upto (n : Z) : list Z := map Z.of_nat (seq 0 (Z.to_nat n)).

(** The class matches: no [continue] is taken and the inner loop finds [ch]. *)
Definition op_class_match (band ch bw offset : Z) (oc : op_class_map) : bool :=
  (band =? oc_band oc)
  && (opc_bw_to_ch_width (oc_bw oc) =? bw)
  && negb ((bool_decide (oc_bw oc = OPC_BW40PLUS) && negb (offset =? HAL_PRIME_CHNL_OFFSET_LOWER))
           || (bool_decide (oc_bw oc = OPC_BW40MINUS) && negb (offset =? HAL_PRIME_CHNL_OFFSET_UPPER)))
  && existsb (fun j => bit_test (ch_bmp oc) (BIT j) && (ch =? global_op_class_get_ch oc j)) (upto 32).

Definition rtw_get_op_class_by_chbw (ch bw offset : Z) : Z :=
  let band :=
    if rtw_is_2g_ch ch then BAND_ON_2_4G
    else if rtw_is_5g_ch ch then BAND_ON_5G else BAND_MAX in
  if band =? BAND_MAX then 0
  else if negb (existsb (Z.eqb bw) [CHANNEL_WIDTH_20; CHANNEL_WIDTH_40; CHANNEL_WIDTH_80; CHANNEL_WIDTH_160])
  then 0
  else
    match List.find (op_class_match band ch bw offset) global_op_class with
    | Some oc => op_class oc
    | None => 0
    end.

(** The [for] loop has no [break]: its counter always ends at the number of
    classes.  The result is the return value, [*bw] and [*offset]. *)
Fixpoint op_class_scan (cls : list op_class_map) (oc : Z) (i : Z) : Z :=
  match cls with
  | [] => i
  | c :: cls =>
      if negb (op_class c =? oc) then op_class_scan cls oc (i + 1)
      else op_class_scan cls oc (i + 1)
  end.

Definition rtw_get_bw_offset_by_op_class_ch (oc ch bw offset : Z) : Z * Z * Z :=
  let i := op_class_scan global_op_class oc 0 in
  if RTW_GLOBAL_OP_CLASS_NUM <=? i then (0, bw, offset)
  else
    match global_op_class !! Z.to_nat i with
    | None => (0, bw, offset)
    | Some c =>
        let bw := opc_bw_to_ch_width (oc_bw c) in
        let offset :=
          match oc_bw c with
          | OPC_BW40PLUS => HAL_PRIME_CHNL_OFFSET_LOWER
          | OPC_BW40MINUS => HAL_PRIME_CHNL_OFFSET_UPPER
          | _ => offset
          end in
        let '(ok, offset) := rtw_get_offset_by_chbw ch bw offset in
        ((if negb (ok =? 0) then 1 else 0), bw, offset)
    end.

(** ** Channel plans *)

Inductive RT_SCAN_TYPE := SCAN_PASSIVE | SCAN_ACTIVE | SCAN_MIX.

#[export] Instance RT_SCAN_TYPE_eq_dec : EqDecision RT_SCAN_TYPE.
Proof. solve_decision. Defined.

Record RT_CHANNEL_INFO := mk_chinfo {
  ChannelNum : Z;
  ScanType : RT_SCAN_TYPE;
  dfs : bool
}.

Definition MAX_CHANNEL_NUM : Z := 42.

(** A channel set is the array; a zero channel number or its end stops the
    search.  [None] is the return value -1. *)
Fixpoint chset_search (ch_set : list RT_CHANNEL_INFO) (ch : Z) (n : nat) : option RT_CHANNEL_INFO :=
  match n, ch_set with
  | S n, e :: ch_set =>
      if ChannelNum e =? 0 then None
      else if ch =? ChannelNum e then Some e else chset_search ch_set ch n
  | _, _ => None
  end.

Definition rtw_chset_search_ch (ch_set : list RT_CHANNEL_INFO) (ch : Z) : option RT_CHANNEL_INFO :=
  if ch =? 0 then None else chset_search ch_set ch (Z.to_nat MAX_CHANNEL_NUM).

Definition rtw_chset_is_chbw_valid (ch_set : list RT_CHANNEL_INFO) (ch bw offset : Z)
    (allow_primary_passive allow_passive : bool) : bool :=
  let cch := rtw_get_center_ch ch bw offset in
  match rtw_get_op_chs_by_cch_bw cch bw with
  | None => false
  | Some op_chs =>
      negb (zlen op_chs =? 0)
      && forallb (fun op_ch =>
           match rtw_chset_search_ch ch_set op_ch with
           | None => false
           | Some e =>
               negb (bool_decide (ScanType e = SCAN_PASSIVE)
                     && ((negb allow_primary_passive && (ChannelNum e =? ch))
                         || (negb allow_passive && negb (ChannelNum e =? ch))))
           end) op_chs
  end.

(** The inputs of [init_op_class_ch_bmp] taken from the registry and the HAL
    specification; [dfs_unknown] is [rtw_rfctl_dfs_domain_unknown(rfctl)].
    802.11ac is not compiled in, so [REGSTY_IS_11AC_ENABLE] is 0. *)
Record op_class_env := mk_oc_env {
  wireless_mode : Z;
  bw_mode : Z;
  spec_band_cap : Z;
  spec_bw_cap : Z;
  dfs_unknown : bool
}.

Definition WIRELESS_MODE_24G : Z := Z.lor (Z.lor (BIT 0) (BIT 1)) (BIT 3).
Definition WIRELESS_MODE_5G : Z := Z.lor (Z.lor (BIT 2) (BIT 4)) (BIT 6).

Definition band_bmp (e : op_class_env) : Z :=
  Z.lor
    (if bit_test (wireless_mode e) WIRELESS_MODE_24G && bit_test (spec_band_cap e) BAND_CAP_2G
     then BAND_CAP_2G else 0)
    (if bit_test (wireless_mode e) WIRELESS_MODE_5G && bit_test (spec_band_cap e) BAND_CAP_5G
     then BAND_CAP_5G else 0).

Definition bw_bmp (e : op_class_env) (band : Z) : Z :=
  if band =? BAND_ON_2_4G then
    u8 (Z.land (ch_width_to_bw_cap (Z.land (bw_mode e) 0x0F + 1) - 1) (spec_bw_cap e))
  else
    Z.land (u8 (Z.land (ch_width_to_bw_cap (Z.shiftr (bw_mode e) 4 + 1) - 1) (spec_bw_cap e)))
           (Z.lnot (Z.lor BW_CAP_80M BW_CAP_160M)).

(** The [switch] on the class bandwidth. *)
Definition op_class_bw_offset (b : opc_bw) : option (Z * Z) :=
  match b with
  | OPC_BW20 => Some (CHANNEL_WIDTH_20, HAL_PRIME_CHNL_OFFSET_DONT_CARE)
  | OPC_BW40PLUS => Some (CHANNEL_WIDTH_40, HAL_PRIME_CHNL_OFFSET_LOWER)
  | OPC_BW40MINUS => Some (CHANNEL_WIDTH_40, HAL_PRIME_CHNL_OFFSET_UPPER)
  | OPC_BW80 => Some (CHANNEL_WIDTH_80, HAL_PRIME_CHNL_OFFSET_DONT_CARE)
  | OPC_BW160 => Some (CHANNEL_WIDTH_160, HAL_PRIME_CHNL_OFFSET_DONT_CARE)
  | OPC_BW80P80 => None
  end.

(** An operating channel on the side of the centre channel that is not the
    primary's is skipped by both inner loops. *)
Definition other_side (offset cch op_ch : Z) : bool :=
  ((offset =? HAL_PRIME_CHNL_OFFSET_LOWER) && (cch <? op_ch))
  || ((offset =? HAL_PRIME_CHNL_OFFSET_UPPER) && (op_ch <? cch)).

(** No [break] is taken for this channel. *)
Definition op_ch_usable (e : op_class_env) (chset : option (list RT_CHANNEL_INFO)) (op_ch : Z) : bool :=
  match chset with
  | None => true
  | Some cs =>
      match rtw_chset_search_ch cs op_ch with
      | None => false
      | Some i =>
          negb (dfs i && dfs_unknown e) && negb (bool_decide (ScanType i = SCAN_PASSIVE))
      end
  end.

(** One iteration of the loop over the 32 channel bits; the state is
    [pre_cch] and [tmp_ch_bmp]. *)
Definition op_class_bmp_step (e : op_class_env) (chset : option (list RT_CHANNEL_INFO))
    (oc : op_class_map) (bw offset : Z) (st : Z * Z) (j : Z) : Z * Z :=
  let '(pre_cch, tmp) := st in
  if negb (bit_test (ch_bmp oc) (BIT j)) then st
  else
    let ch := global_op_class_get_ch oc j in
    let cch := rtw_get_center_ch ch bw offset in
    if (cch =? 0) || (cch =? pre_cch) then st
    else
      match rtw_get_op_chs_by_cch_bw cch bw with
      | None => (cch, tmp)
      | Some op_chs =>
          let mine := List.filter (fun c => negb (other_side offset cch c)) op_chs in
          if negb (forallb (op_ch_usable e chset) mine) then (cch, tmp)
          else (cch, fold_left (fun t c => Z.lor t (BIT (global_op_class_get_cid oc c))) mine tmp)
      end.

Definition op_class_bmp (e : op_class_env) (chset : option (list RT_CHANNEL_INFO)) (oc : op_class_map) : Z :=
  if negb (bit_test (band_bmp e) (band_to_band_cap (oc_band oc))) then 0
  else
    match op_class_bw_offset (oc_bw oc) with
    | None => 0
    | Some (bw, offset) =>
        if negb (bit_test (bw_bmp e (oc_band oc)) (ch_width_to_bw_cap bw)) then 0
        else snd (fold_left (op_class_bmp_step e chset oc bw offset) (upto 32) (0, 0))
    end.

(** [op_class_ch_bmp[]] and the returned number of supported classes. *)
Definition init_op_class_ch_bmp (e : op_class_env) (chset : option (list RT_CHANNEL_INFO)) : list Z * Z :=
  let bmps := map (op_class_bmp e chset) global_op_class in
  (bmps, u8 (zlen (List.filter (fun b => negb (b =? 0)) bmps))).

(** ** Channel groups *)

Record chbw := mk_chbw { ch : Z; bw : Z; offset : Z }.

Definition rtw_is_chbw_grouped (a b : chbw) : bool :=
  if negb (ch a =? ch b) then false
  else if ((bw a =? CHANNEL_WIDTH_40) || (bw a =? CHANNEL_WIDTH_80))
          && ((bw b =? CHANNEL_WIDTH_40) || (bw b =? CHANNEL_WIDTH_80))
          && negb (offset a =? offset b)
  then false
  else true.

(** The two wide cases of the [switch]: the group's offset, or the default
    one of the channel; without an offset the width drops to 20 MHz. *)
Definition sync_wide (ch w off : Z) (g : chbw) : chbw :=
  let off :=
    if (bw g =? CHANNEL_WIDTH_40) || (bw g =? CHANNEL_WIDTH_80) then offset g
    else if bw g =? CHANNEL_WIDTH_20 then snd (rtw_get_offset_by_chbw ch w off)
    else off in
  if off =? HAL_PRIME_CHNL_OFFSET_DONT_CARE then mk_chbw ch CHANNEL_WIDTH_20 off
  else mk_chbw ch w off.

Definition rtw_sync_chbw (req g : chbw) : chbw * chbw :=
  let r_ch := ch g in
  let r_bw := if (bw req =? CHANNEL_WIDTH_80) && (ch g <=? 14) then CHANNEL_WIDTH_40 else bw req in
  let req' :=
    if r_bw =? CHANNEL_WIDTH_80 then sync_wide r_ch r_bw (offset req) g
    else if r_bw =? CHANNEL_WIDTH_40 then sync_wide r_ch r_bw (offset req) g
    else if r_bw =? CHANNEL_WIDTH_20 then mk_chbw r_ch r_bw HAL_PRIME_CHNL_OFFSET_DONT_CARE
    else mk_chbw r_ch r_bw (offset req) in
  (req', if bw g <? bw req' then mk_chbw (ch g) (bw req') (offset req') else g).

(** The [while (1)] loop; [cur_bw] decreases to 20 MHz, so [cur_bw + 1]
    iterations are enough. *)
Fixpoint chset_sync_loop (fuel : nat) (ch_set : list RT_CHANNEL_INFO) (cur_bw : Z) (req g : chbw)
    (app ap : bool) : res (chbw * chbw) :=
  match fuel with
  | O => NoFuel
  | S fuel =>
      let '(r, u) := rtw_sync_chbw (mk_chbw (ch req) cur_bw (offset req)) g in
      if rtw_chset_is_chbw_valid ch_set (ch r) (bw r) (offset r) app ap then Ret (r, u)
      else if cur_bw =? CHANNEL_WIDTH_20 then Ret (r, u)
      else chset_sync_loop fuel ch_set (u8 (cur_bw - 1)) req g app ap
  end.

Definition rtw_chset_sync_chbw (ch_set : list RT_CHANNEL_INFO) (req g : chbw) (app ap : bool) : res (chbw * chbw) :=
  chset_sync_loop (S (Z.to_nat (bw req))) ch_set (bw req) req g app ap.

(** ** RF types and path bitmaps *)

Definition RF_TYPE_MAX : Z := 16.
Definition RF_PATH_MAX : Z := 4.
Definition RF_TYPE_VALID (t : Z) : bool := t <? RF_TYPE_MAX.

Definition _rf_type_to_rf_tx_cnt : list Z :=
  [1; 1; 2; 2; 1; 2; 3; 3; 3; 1; 2; 3; 4; 4; 4; 4].

Definition _rf_type_to_rf_rx_cnt : list Z :=
  [1; 2; 1; 2; 3; 3; 1; 2; 3; 4; 4; 4; 1; 2; 3; 4].

Definition rf_type_to_rf_tx_cnt (t : Z) : Z :=
  if RF_TYPE_VALID t then znth _rf_type_to_rf_tx_cnt t else 0.

Definition rf_type_to_rf_rx_cnt (t : Z) : Z :=
  if RF_TYPE_VALID t then znth _rf_type_to_rf_rx_cnt t else 0.

Definition rf_type_to_default_trx_bmp (rf : Z) : Z * Z :=
  let bmp n := fold_left (fun b i => Z.lor b (BIT i)) (upto n) 0 in
  (bmp (rf_type_to_rf_tx_cnt rf), bmp (rf_type_to_rf_rx_cnt rf)).

(** Row-major [_trx_num_to_rf_type[tx - 1][rx - 1]]: RF_1T1R = 0, RF_1T2R = 1,
    RF_2T1R = 2, ... as in [enum rf_type]. *)
Definition _trx_num_to_rf_type : list Z :=
  [0; 1; 4; 9;
   2; 3; 5; 10;
   6; 7; 8; 11;
   12; 13; 14; 15].

Definition trx_num_to_rf_type (tx_num rx_num : Z) : Z :=
  if (0 <? tx_num) && (tx_num <=? RF_PATH_MAX) && (0 <? rx_num) && (rx_num <=? RF_PATH_MAX)
  then znth _trx_num_to_rf_type ((tx_num - 1) * RF_PATH_MAX + (rx_num - 1))
  else RF_TYPE_MAX.

(** The number of the [RF_PATH_MAX] low bits that are set. *)
Definition path_count (bmp : Z) : Z :=
  fold_left (fun n i => if bit_test bmp (BIT i) then n + 1 else n) (upto RF_PATH_MAX) 0.

Definition trx_bmp_to_rf_type (tx_bmp rx_bmp : Z) : Z :=
  let count bmp :=
    fold_left (fun n i => if bit_test (Z.shiftr bmp i) 1 then n + 1 else n) (upto RF_PATH_MAX) 0 in
  trx_num_to_rf_type (count tx_bmp) (count rx_bmp).

Definition rf_type_is_a_in_b (a b : Z) : bool :=
  (rf_type_to_rf_tx_cnt a <=? rf_type_to_rf_tx_cnt b)
  && (rf_type_to_rf_rx_cnt a <=? rf_type_to_rf_rx_cnt b).

(** The loop from bit 3 down while the count exceeds the limit; the result is
    the new bitmap and count. *)
Fixpoint limit_loop (n : nat) (bmp cnt lmt : Z) : Z * Z :=
  match n with
  | O => (bmp, cnt)
  | S i =>
      if lmt <? cnt then
        if bit_test bmp (BIT (Z.of_nat i))
        then limit_loop i (Z.land bmp (Z.lnot (BIT (Z.of_nat i)))) (cnt - 1) lmt
        else limit_loop i bmp cnt lmt
      else (bmp, cnt)
  end.

Definition rtw_path_bmp_limit_from_higher (bmp cnt lmt : Z) : Z * Z :=
  limit_loop (Z.to_nat RF_PATH_MAX) bmp cnt lmt.

(** The counters n, n-1, .., 1. *)
Definition downto1 (n : Z) : list Z := rev (map (fun i => i + 1) (upto n)).

(** The first (i, j) of the nested search whose RF type is valid. *)
Definition trx_search (txn rxn : Z) : option (Z * Z) :=
  List.find (fun p => RF_TYPE_VALID (trx_num_to_rf_type (fst p) (snd p)))
    (flat_map (fun j => map (fun i => (i, j)) (downto1 txn)) (downto1 rxn)).

(** The restricted bitmap, and the path numbers where they are written. *)
Definition rtw_restrict_trx_path_bmp_by_trx_num_lmt (trx_path_bmp tx_num_lmt rx_num_lmt : Z)
    : Z * option (Z * Z) :=
  let bmp_tx := Z.shiftr (Z.land trx_path_bmp 0xF0) 4 in
  let bmp_rx := Z.land trx_path_bmp 0x0F in
  let '(bmp_tx, txn) :=
    if negb (tx_num_lmt =? 0)
    then rtw_path_bmp_limit_from_higher bmp_tx (path_count bmp_tx) tx_num_lmt
    else (bmp_tx, path_count bmp_tx) in
  let '(bmp_rx, rxn) :=
    if negb (rx_num_lmt =? 0)
    then rtw_path_bmp_limit_from_higher bmp_rx (path_count bmp_rx) rx_num_lmt
    else (bmp_rx, path_count bmp_rx) in
  match trx_search txn rxn with
  | Some (i, j) =>
      let '(bmp_tx, txn) := rtw_path_bmp_limit_from_higher bmp_tx txn i in
      let '(bmp_rx, rxn) := rtw_path_bmp_limit_from_higher bmp_rx rxn j in
      (u8 (Z.lor (Z.shiftl bmp_tx 4) bmp_rx), Some (txn, rxn))
  | None => (0, None)
  end.

Definition rtw_restrict_trx_path_bmp_by_rftype (trx_path_bmp type : Z) : Z * option (Z * Z) :=
  rtw_restrict_trx_path_bmp_by_trx_num_lmt trx_path_bmp
    (rf_type_to_rf_tx_cnt type) (rf_type_to_rf_rx_cnt type).

(** The paths of the [i] lowest set bits: the inner loop with its [break]. *)
Fixpoint lowest_paths (txpath i : Z) (js : list Z) (acc cnt : Z) : Z :=
  match js with
  | [] => acc
  | j :: js =>
      if bit_test txpath (BIT j) then
        if cnt + 1 =? i then Z.lor acc (BIT j)
        else lowest_paths txpath i js (Z.lor acc (BIT j)) (cnt + 1)
      else lowest_paths txpath i js acc cnt
  end.

(** [txpath_nss[0..3]] and [txpath_num_nss[0..3]]. *)
Definition tx_path_nss_set_default (txpath : Z) : list Z * list Z :=
  (map (fun i => lowest_paths txpath i (upto RF_PATH_MAX) 0 0) [1; 2; 3; 4], [1; 2; 3; 4]).

Definition tx_path_nss_set_full_tx (txpath : Z) : list Z * list Z :=
  (replicate 4 txpath, replicate 4 (path_count txpath)).

(** ** Finite ranges *)

Lemma lookup_map_Some {A B} (f : A -> B) l i y :
  map f l !! i = Some y -> exists x, l !! i = Some x /\ y = f x.
Proof. revert i. induction l as [|x l IH]; intros [|i] H; simplify_eq/=; eauto. Qed.

Lemma in_upto n x : 0 <= x < n -> In x (upto n).
Proof.
  intros H. unfold upto. apply in_map_iff. exists (Z.to_nat x).
  split; [lia|]. apply in_seq. lia.
Qed.

(** A boolean property checked on every value of a range holds there. *)
Lemma forallb_upto (P : Z -> bool) n :
  forallb P (upto n) = true -> forall x, 0 <= x < n -> P x = true.
Proof. rewrite forallb_forall. intros H x Hx. apply H, in_upto, Hx. Qed.

Lemma forallb_upto2 (P : Z -> Z -> bool) n m :
  forallb (fun x => forallb (P x) (upto m)) (upto n) = true ->
  forall x y, 0 <= x < n -> 0 <= y < m -> P x y = true.
Proof.
  intros H x y Hx Hy. apply (forallb_upto (P x) m); [|done].
  exact (forallb_upto (fun x => forallb (P x) (upto m)) n H x Hx).
Qed.

Lemma forallb_upto3 (P : Z -> Z -> Z -> bool) n m k :
  forallb (fun x => forallb (fun y => forallb (P x y) (upto k)) (upto m)) (upto n) = true ->
  forall x y z, 0 <= x < n -> 0 <= y < m -> 0 <= z < k -> P x y z = true.
Proof.
  intros H x y z Hx Hy Hz. apply (forallb_upto (P x y) k); [|done].
  exact (forallb_upto2 (fun x y => forallb (P x y) (upto k)) n m H x y Hx Hy).
Qed.

(** ** Centre and operating channels *)

(** The 20 MHz channels the tables name. *)
Definition ch_20m (ch : Z) : bool := existsb (Z.eqb ch) (center_ch_2g ++ center_ch_5g_20m).

(** Descend from the centre channel [cch] of width [bw] to 20 MHz, at each
    step to the half that holds [opch]. *)
Fixpoint descend (n : nat) (cch opch : Z) : Z :=
  match n with
  | O => cch
  | S n' => descend n' (rtw_get_scch_by_cch_opch cch (Z.of_nat n) opch) opch
  end.

(** Only the values LOWER and UPPER of the input offset matter. *)
Definition norm_offset (o : Z) : Z := if (o =? 1) || (o =? 2) then o else 0.

Lemma get_offset_norm ch bw r :
  fst (rtw_get_offset_by_chbw ch bw r) = 1 ->
  rtw_get_offset_by_chbw ch bw r = rtw_get_offset_by_chbw ch bw (norm_offset r).
Proof.
  unfold rtw_get_offset_by_chbw, norm_offset, HAL_PRIME_CHNL_OFFSET_LOWER, HAL_PRIME_CHNL_OFFSET_UPPER.
  destruct (Z.eqb_spec r 1) as [->|]; [done|].
  destruct (Z.eqb_spec r 2) as [->|]; [done|].
  repeat case_match; simplify_eq/=; done.
Qed.

Definition cch_ok (ch bw r : Z) : bool :=
  let '(ok, o) := rtw_get_offset_by_chbw ch bw r in
  negb (ok =? 1) || negb (ch_20m ch) || ((bw =? 3) && between 132 ch 144) ||
  (let cch := rtw_get_center_ch ch bw o in
   match rtw_get_op_chs_by_cch_bw cch bw with
   | None => false
   | Some l =>
       existsb (Z.eqb ch) l && (zlen l =? 2 ^ bw) && (descend (Z.to_nat bw) cch ch =? ch)
       && forallb (fun c => descend (Z.to_nat bw) cch c =? c) l
       && match rtw_chbw_to_freq_range ch bw o with
          | None => false
          | Some (hi, lo) =>
              (hi - lo =? 20 * 2 ^ bw)
              && forallb (fun c => (lo <=? rtw_ch2freq c - 10) && (rtw_ch2freq c + 10 <=? hi)) l
          end
   end).

Lemma cch_ok_all ch bw r : 0 <= ch < 256 -> 0 <= bw < 4 -> 0 <= r < 3 -> cch_ok ch bw r = true.
Proof. apply (forallb_upto3 cch_ok 256 4 3). vm_compute. reflexivity. Qed.

Lemma norm_offset_range r : 0 <= norm_offset r < 3.
Proof. unfold norm_offset. destruct (Z.eqb_spec r 1), (Z.eqb_spec r 2); simpl; lia. Qed.

Lemma existsb_eqb_elem x l : existsb (Z.eqb x) l = true <-> In x l.
Proof.
  rewrite existsb_exists. split.
  - intros (y & Hy & ->%Z.eqb_eq). done.
  - intros H. exists x. by rewrite Z.eqb_refl.
Qed.

(** What [cch_ok] says of a channel whose offset is valid. *)
Lemma cch_ok_spec ch bw r o :
  0 <= ch < 256 -> 0 <= bw < 4 -> In ch (center_ch_2g ++ center_ch_5g_20m) ->
  ~ (bw = 3 /\ 132 <= ch <= 144) ->
  rtw_get_offset_by_chbw ch bw r = (1, o) ->
  exists l hi lo,
    rtw_get_op_chs_by_cch_bw (rtw_get_center_ch ch bw o) bw = Some l /\
    In ch l /\ zlen l = 2 ^ bw /\
    (forall c, In c l -> descend (Z.to_nat bw) (rtw_get_center_ch ch bw o) c = c) /\
    rtw_chbw_to_freq_range ch bw o = Some (hi, lo) /\ hi - lo = 20 * 2 ^ bw /\
    (forall c, In c l -> lo <= rtw_ch2freq c - 10 /\ rtw_ch2freq c + 10 <= hi).
Proof.
  intros Hch Hbw Hin Hx Ho.
  rewrite get_offset_norm in Ho by (by rewrite Ho).
  pose proof (cch_ok_all ch bw _ Hch Hbw (norm_offset_range r)) as H.
  unfold cch_ok in H. rewrite Ho in H. simpl negb in H.
  assert (ch_20m ch = true) as E by (apply existsb_eqb_elem, Hin). rewrite E in H. simpl negb in H.
  assert ((bw =? 3) && between 132 ch 144 = false) as E2.
  { unfold between. destruct (Z.eqb_spec bw 3), (Z.leb_spec 132 ch), (Z.leb_spec ch 144); try done. lia. }
  rewrite E2 in H. cbn [orb] in H.
  destruct (rtw_get_op_chs_by_cch_bw _ _) as [l|]; [|discriminate].
  destruct (rtw_chbw_to_freq_range ch bw o) as [[hi lo]|]; [|by rewrite andb_false_r in H].
  rewrite !andb_true_iff, !forallb_forall in H. destruct H as [[[[H1 H2] _] H3] [H4 H5]].
  exists l, hi, lo. rewrite existsb_eqb_elem in H1.
  split_and!; try done; try lia.
  - intros c Hc. apply Z.eqb_eq, H3, Hc.
  - intros c Hc. specialize (H5 c Hc). rewrite andb_true_iff in H5. lia.
Qed.

(** For every 20 MHz channel of the tables and every width for which
    [rtw_get_offset_by_chbw] finds an offset (160 MHz on channels 132-144
    excepted, which have no such block), the centre channel computed by
    [rtw_get_center_ch] is a table entry whose operating channels
    [rtw_get_op_chs_by_cch_bw] returns: there are 2^bw of them, the given
    channel is one, and [rtw_get_scch_by_cch_opch] applied width by width
    leads from the centre channel back to each of them. *)
Theorem center_ch_op_chs ch bw r o :
  0 <= ch < 256 -> 0 <= bw <= CHANNEL_WIDTH_160 -> In ch (center_ch_2g ++ center_ch_5g_20m) ->
  ~ (bw = CHANNEL_WIDTH_160 /\ 132 <= ch <= 144) ->
  rtw_get_offset_by_chbw ch bw r = (1, o) ->
  exists l,
    rtw_get_op_chs_by_cch_bw (rtw_get_center_ch ch bw o) bw = Some l /\
    In ch l /\ zlen l = 2 ^ bw /\
    forall c, In c l -> descend (Z.to_nat bw) (rtw_get_center_ch ch bw o) c = c.
Proof.
  intros H1 H2 H3 H4 H5.
  destruct (cch_ok_spec ch bw r o) as (l & hi & lo & ?); try done.
  - unfold CHANNEL_WIDTH_160 in H2. lia.
  - naive_solver.
Qed.

Lemma center_ch_op_chs_witness :
  exists l, rtw_get_op_chs_by_cch_bw (rtw_get_center_ch 44 2 1) 2 = Some l /\
    In 44 l /\ zlen l = 2 ^ 2 /\ forall c, In c l -> descend 2 (rtw_get_center_ch 44 2 1) c = c.
Proof.
  apply (center_ch_op_chs 44 2 0 1); [lia| vm_compute; split; discriminate
    | vm_compute; tauto | unfold CHANNEL_WIDTH_160; lia | reflexivity].
Defined.

(** The frequency range of a channel at a width is 20 MHz times the number
    of operating channels, it contains the 20 MHz range of each of them, and
    [rtw_freq2ch] inverts [rtw_ch2freq] on every channel number the driver
    supports. *)
Theorem freq_range_covers_op_chs ch bw r o :
  0 <= ch < 256 -> 0 <= bw <= CHANNEL_WIDTH_160 -> In ch (center_ch_2g ++ center_ch_5g_20m) ->
  ~ (bw = CHANNEL_WIDTH_160 /\ 132 <= ch <= 144) ->
  rtw_get_offset_by_chbw ch bw r = (1, o) ->
  rtw_freq2ch (rtw_ch2freq ch) = ch /\
  exists l hi lo,
    rtw_get_op_chs_by_cch_bw (rtw_get_center_ch ch bw o) bw = Some l /\
    rtw_chbw_to_freq_range ch bw o = Some (hi, lo) /\ hi - lo = 20 * zlen l /\
    forall c, In c l -> lo <= rtw_ch2freq c - 10 /\ rtw_ch2freq c + 10 <= hi.
Proof.
  intros H1 H2 H3 H4 H5. split.
  - revert H3. revert ch H1 H4 H5. clear. intros ch _ _ _.
    assert (forallb (fun c => rtw_freq2ch (rtw_ch2freq c) =? c) (center_ch_2g ++ center_ch_5g_20m) = true)
      as H by reflexivity.
    rewrite forallb_forall in H. intros Hin. apply Z.eqb_eq, H, Hin.
  - destruct (cch_ok_spec ch bw r o) as (l & hi & lo & Hl & _ & Hlen & _ & Hr & Hw & Hc); try done.
    + unfold CHANNEL_WIDTH_160 in H2. lia.
    + exists l, hi, lo. rewrite Hlen. done.
Qed.

Lemma freq_range_covers_op_chs_witness :
  rtw_freq2ch (rtw_ch2freq 6) = 6 /\
  exists l hi lo,
    rtw_get_op_chs_by_cch_bw (rtw_get_center_ch 6 1 2) 1 = Some l /\
    rtw_chbw_to_freq_range 6 1 2 = Some (hi, lo) /\ hi - lo = 20 * zlen l /\
    forall c, In c l -> lo <= rtw_ch2freq c - 10 /\ rtw_ch2freq c + 10 <= hi.
Proof.
  apply (freq_range_covers_op_chs 6 1 0 2); [lia| vm_compute; split; discriminate
    | vm_compute; tauto | unfold CHANNEL_WIDTH_160; lia | reflexivity].
Defined.

(** ** Channel groups *)

(** The widths [rtw_sync_chbw] supports. *)
Definition sync_bw (b : Z) : Prop :=
  b = CHANNEL_WIDTH_20 \/ b = CHANNEL_WIDTH_40 \/ b = CHANNEL_WIDTH_80.

Ltac width_cases := unfold CHANNEL_WIDTH_20, CHANNEL_WIDTH_40, CHANNEL_WIDTH_80 in *.

Lemma sync_chbw_req req g r u :
  rtw_sync_chbw req g = (r, u) -> ch r = ch g /\ ch u = ch g.
Proof.
  unfold rtw_sync_chbw. intros [= <- <-]. split; [|by case_match].
  unfold sync_wide. repeat case_match; done.
Qed.

(** At 20 MHz the request becomes the group's channel. *)
Lemma sync_chbw_20 rc ro g :
  fst (rtw_sync_chbw (mk_chbw rc CHANNEL_WIDTH_20 ro) g)
  = mk_chbw (ch g) CHANNEL_WIDTH_20 HAL_PRIME_CHNL_OFFSET_DONT_CARE.
Proof. reflexivity. Qed.

(** [rtw_sync_chbw] on supported widths makes the request join the group:
    both end on the group's channel, they satisfy [rtw_is_chbw_grouped], the
    request is never wider than asked nor than the resulting group, the group
    never shrinks, and a group already at 40 or 80 MHz keeps its offset. *)
Theorem sync_chbw_groups req g r u :
  sync_bw (bw req) -> sync_bw (bw g) ->
  rtw_sync_chbw req g = (r, u) ->
  ch r = ch g /\ ch u = ch g /\ rtw_is_chbw_grouped r u = true /\
  bw r <= bw req /\ bw r <= bw u /\ bw g <= bw u /\
  (bw g <> CHANNEL_WIDTH_20 -> offset u = offset g).
Proof.
  intros Hr Hg H. destruct (sync_chbw_req _ _ _ _ H) as [E1 E2].
  assert (bw r <= bw req /\ bw r <= bw u /\ bw g <= bw u
          /\ (bw g <> 0 -> offset u = offset g)
          /\ (bw r <> 0 -> bw u <> 0 -> offset r = offset u)) as (A & B & C & D & E).
  { clear E1 E2. revert H. unfold rtw_sync_chbw, sync_wide. destruct req as [rc rb ro], g as [gc gb go].
    destruct Hr as [Hr|[Hr|Hr]], Hg as [Hg|[Hg|Hg]]; simpl in Hr, Hg; subst; width_cases;
      intros [= <- <-]; simpl; repeat (case_match; simpl in * ); simplify_eq/=; split_and!; intros; try lia; try done. }
  split_and!; try done.
  unfold rtw_is_chbw_grouped. rewrite E1, E2, Z.eqb_refl. simpl. width_cases.
  destruct (Z.eqb_spec (bw r) 0), (Z.eqb_spec (bw u) 0).
  1-3: repeat match goal with H : bw _ = 0 |- _ => rewrite H; clear H end; simpl;
       repeat rewrite andb_false_r; reflexivity.
  rewrite E, Z.eqb_refl by done. by rewrite andb_false_r.
Qed.

Lemma sync_chbw_groups_witness :
  let '(r, u) := rtw_sync_chbw (mk_chbw 1 CHANNEL_WIDTH_80 0) (mk_chbw 44 CHANNEL_WIDTH_20 0) in
  rtw_is_chbw_grouped r u = true /\ bw u = CHANNEL_WIDTH_80.
Proof.
  split; [|reflexivity].
  apply (sync_chbw_groups (mk_chbw 1 CHANNEL_WIDTH_80 0) (mk_chbw 44 CHANNEL_WIDTH_20 0));
    [right; right; reflexivity | left; reflexivity | reflexivity].
Defined.

Lemma chset_sync_loop_spec fuel cs cur req g app ap :
  0 <= cur < 256 -> cur < Z.of_nat fuel ->
  exists r u k,
    chset_sync_loop fuel cs cur req g app ap = Ret (r, u) /\ 0 <= k <= cur /\
    rtw_sync_chbw (mk_chbw (ch req) k (offset req)) g = (r, u) /\
    (rtw_chset_is_chbw_valid cs (ch r) (bw r) (offset r) app ap = true \/ k = 0) /\
    forall j r' u', k < j <= cur -> rtw_sync_chbw (mk_chbw (ch req) j (offset req)) g = (r', u') ->
      rtw_chset_is_chbw_valid cs (ch r') (bw r') (offset r') app ap = false.
Proof.
  revert cur. induction fuel as [|fuel IH]; intros cur Hc Hf; [lia|].
  cbn [chset_sync_loop]. destruct (rtw_sync_chbw (mk_chbw (ch req) cur (offset req)) g) as [r u] eqn:E.
  destruct (rtw_chset_is_chbw_valid _ _ _ _ _ _) eqn:V.
  { exists r, u, cur. split_and!; (auto; lia). }
  unfold CHANNEL_WIDTH_20. destruct (Z.eqb_spec cur 0) as [->|].
  { exists r, u, 0. split_and!; (auto; lia). }
  rewrite u8_small by (unfold is_byte; lia).
  destruct (IH (cur - 1)) as (r1 & u1 & k & H1 & H2 & H3 & H4 & H5); [lia..|].
  exists r1, u1, k. split_and!; auto; try lia.
  intros j r' u' Hj Ej. destruct (Z.eq_dec j cur) as [->|].
  - rewrite E in Ej. by simplify_eq.
  - apply (H5 j r' u'); [lia|done].
Qed.

(** [rtw_chset_sync_chbw] always returns, with the widest request width at
    or below the one asked for that the channel plan allows; when the plan
    allows the group's channel at 20 MHz, what is returned is allowed by the
    plan. *)
Theorem chset_sync_chbw_valid cs req g app ap :
  0 <= bw req < 256 ->
  rtw_chset_is_chbw_valid cs (ch g) CHANNEL_WIDTH_20 HAL_PRIME_CHNL_OFFSET_DONT_CARE app ap = true ->
  exists r u k,
    rtw_chset_sync_chbw cs req g app ap = Ret (r, u) /\
    rtw_chset_is_chbw_valid cs (ch r) (bw r) (offset r) app ap = true /\
    0 <= k <= bw req /\ rtw_sync_chbw (mk_chbw (ch req) k (offset req)) g = (r, u) /\
    forall j r' u', k < j <= bw req -> rtw_sync_chbw (mk_chbw (ch req) j (offset req)) g = (r', u') ->
      rtw_chset_is_chbw_valid cs (ch r') (bw r') (offset r') app ap = false.
Proof.
  intros Hb Hv. unfold rtw_chset_sync_chbw.
  destruct (chset_sync_loop_spec (S (Z.to_nat (bw req))) cs (bw req) req g app ap)
    as (r & u & k & H1 & H2 & H3 & H4 & H5); [lia..|].
  exists r, u, k. split_and!; try done; try lia.
  destruct H4 as [H4| ->]; [done|].
  pose proof (sync_chbw_20 (ch req) (offset req) g) as E.
  unfold CHANNEL_WIDTH_20 in E at 1. rewrite H3 in E. simpl in E. subst r. exact Hv.
Qed.

(** A plan with channels 36-48 active and 6 passive. *)
Definition sample_chset : list RT_CHANNEL_INFO :=
  [mk_chinfo 6 SCAN_PASSIVE false; mk_chinfo 36 SCAN_ACTIVE false; mk_chinfo 40 SCAN_ACTIVE false;
   mk_chinfo 44 SCAN_ACTIVE true; mk_chinfo 0 SCAN_ACTIVE false].

Lemma chset_sync_chbw_valid_witness :
  exists r u k,
    rtw_chset_sync_chbw sample_chset (mk_chbw 36 2 0) (mk_chbw 36 0 0) false false = Ret (r, u) /\
    rtw_chset_is_chbw_valid sample_chset (ch r) (bw r) (offset r) false false = true /\
    0 <= k <= 2 /\ rtw_sync_chbw (mk_chbw 36 k 0) (mk_chbw 36 0 0) = (r, u) /\
    forall j r' u', k < j <= 2 -> rtw_sync_chbw (mk_chbw 36 j 0) (mk_chbw 36 0 0) = (r', u') ->
      rtw_chset_is_chbw_valid sample_chset (ch r') (bw r') (offset r') false false = false.
Proof.
  apply (chset_sync_chbw_valid sample_chset (mk_chbw 36 2 0) (mk_chbw 36 0 0) false false);
    [simpl; lia | reflexivity].
Defined.

(** ** Operating classes *)

Lemma op_class_scan_end cls oc i : op_class_scan cls oc i = i + zlen cls.
Proof.
  revert i. induction cls as [|c cls IH]; intros i; simpl; [unfold zlen; simpl; lia|].
  rewrite zlen_cons, !IH. case_match; lia.
Qed.

(** [rtw_get_bw_offset_by_op_class_ch] returns 0 and writes neither output
    for every operating class and channel: the search loop runs past the table
    even when the class is in it. *)
Theorem bw_offset_by_op_class_never_valid oc ch bw offset :
  rtw_get_bw_offset_by_op_class_ch oc ch bw offset = (0, bw, offset).
Proof. unfold rtw_get_bw_offset_by_op_class_ch. by rewrite op_class_scan_end. Qed.

Lemma BIT_testbit n m : 0 <= n -> 0 <= m -> Z.testbit (BIT n) m = (n =? m).
Proof. intros. unfold BIT. rewrite Z.shiftl_1_l. by rewrite Z.pow2_bits_eqb. Qed.

(** The bits [fold_left] ors into a bitmap. *)
Lemma fold_lor_bits (f : Z -> Z) l t c :
  0 <= c -> (forall x, In x l -> 0 <= f x) ->
  Z.testbit (fold_left (fun t x => Z.lor t (BIT (f x))) l t) c = true ->
  Z.testbit t c = true \/ exists x, In x l /\ f x = c.
Proof.
  intros Hc. revert t. induction l as [|x l IH]; intros t Hf H; simpl in *; [by left|].
  destruct (IH (Z.lor t (BIT (f x)))) as [H1|(y & Hy & <-)]; [naive_solver..| |naive_solver].
  rewrite Z.lor_spec, BIT_testbit, orb_true_iff in H1 by (auto; lia).
  destruct H1 as [H1|H1%Z.eqb_eq]; [by left|]. right. exists x. naive_solver.
Qed.

(** For each class and channel bit, the channels on the primary's side of the
    block are channels of the class with the class's own index. *)
Definition op_class_block_ok (oc : op_class_map) (j : Z) : bool :=
  match op_class_bw_offset (oc_bw oc) with
  | None => true
  | Some (bw, offset) =>
      negb (bit_test (ch_bmp oc) (BIT j)) ||
      let cch := rtw_get_center_ch (global_op_class_get_ch oc j) bw offset in
      match rtw_get_op_chs_by_cch_bw cch bw with
      | None => true
      | Some l =>
          forallb (fun c =>
            let cid := global_op_class_get_cid oc c in
            between 0 cid 31 && Z.testbit (ch_bmp oc) cid && (global_op_class_get_ch oc cid =? c))
            (List.filter (fun c => negb (other_side offset cch c)) l)
      end
  end.

Lemma op_class_blocks_ok :
  forallb (fun oc => forallb (op_class_block_ok oc) (upto 32)) global_op_class = true.
Proof. vm_compute. reflexivity. Qed.

(** What is known of a bitmap under construction. *)
Definition bmp_sound e chset (oc : op_class_map) (t : Z) : Prop :=
  forall c, 0 <= c -> Z.testbit t c = true ->
    c < 32 /\ Z.testbit (ch_bmp oc) c = true /\ op_ch_usable e chset (global_op_class_get_ch oc c) = true.

Lemma op_class_bmp_step_sound e chset oc bw offset st j :
  op_class_bw_offset (oc_bw oc) = Some (bw, offset) ->
  op_class_block_ok oc j = true ->
  bmp_sound e chset oc (snd st) -> bmp_sound e chset oc (snd (op_class_bmp_step e chset oc bw offset st j)).
Proof.
  intros Hbo Hok Hst. destruct st as [pre t]. unfold op_class_bmp_step.
  unfold op_class_block_ok in Hok. rewrite Hbo in Hok.
  destruct (bit_test (ch_bmp oc) (BIT j)); cbn [negb orb] in Hok |- *; [|done].
  destruct ((_ =? 0) || _); [done|].
  destruct (rtw_get_op_chs_by_cch_bw _ bw) as [l|]; [|done].
  destruct (forallb (op_ch_usable e chset) _) eqn:U; simpl; [|done].
  rewrite forallb_forall in Hok, U. intros c Hc Hb.
  apply fold_lor_bits in Hb; [|done|].
  - destruct Hb as [Hb|(x & Hx & <-)]; [by apply Hst|].
    specialize (Hok x Hx). rewrite !andb_true_iff in Hok. destruct Hok as [[Hr Hb] ->%Z.eqb_eq].
    unfold between in Hr. split_and!; [lia|done|by apply U].
  - intros x Hx. specialize (Hok x Hx). rewrite !andb_true_iff in Hok. unfold between in Hok. lia.
Qed.

Lemma op_class_bmp_fold_sound e chset oc bw offset js st :
  op_class_bw_offset (oc_bw oc) = Some (bw, offset) ->
  (forall j, In j js -> op_class_block_ok oc j = true) ->
  bmp_sound e chset oc (snd st) ->
  bmp_sound e chset oc (snd (fold_left (op_class_bmp_step e chset oc bw offset) js st)).
Proof.
  intros Hbo. revert st. induction js as [|j js IH]; intros st Hok Hst; [done|].
  cbn [fold_left]. apply IH; [intros; apply Hok; by right|].
  apply op_class_bmp_step_sound; [done| apply Hok; by left | done].
Qed.

Lemma op_class_bmp_sound e chset oc :
  In oc global_op_class -> bmp_sound e chset oc (op_class_bmp e chset oc).
Proof.
  intros Hin. assert (bmp_sound e chset oc 0) as H0 by (intros c Hc; by rewrite Z.bits_0).
  unfold op_class_bmp. destruct (negb (bit_test (band_bmp e) _)); [done|].
  destruct (op_class_bw_offset (oc_bw oc)) as [[bw offset]|] eqn:Hbo; [|done].
  destruct (negb _); [done|]. apply op_class_bmp_fold_sound; [done| |done].
  apply forallb_forall.
  exact (proj1 (forallb_forall _ _) op_class_blocks_ok oc Hin).
Qed.

(** Every channel [init_op_class_ch_bmp] marks as usable in an operating
    class belongs to that class, and when a channel plan is given it is in the
    plan, not passive-scan only, and not a DFS channel while the DFS domain is
    unknown. *)
Theorem init_op_class_ch_bmp_sound e chset i oc bmp c :
  global_op_class !! i = Some oc ->
  fst (init_op_class_ch_bmp e chset) !! i = Some bmp ->
  0 <= c -> Z.testbit bmp c = true ->
  c < 32 /\ Z.testbit (ch_bmp oc) c = true /\
  forall cs, chset = Some cs ->
    exists info, rtw_chset_search_ch cs (global_op_class_get_ch oc c) = Some info /\
      ScanType info <> SCAN_PASSIVE /\ (dfs info = true -> dfs_unknown e = false).
Proof.
  intros Hi Hb Hc Ht. apply lookup_map_Some in Hb as (oc' & Hi' & ->).
  rewrite Hi in Hi'. injection Hi' as <-.
  destruct (op_class_bmp_sound e chset oc) with (c := c) as (H1 & H2 & H3); try done.
  { apply list_elem_of_In. by apply list_elem_of_lookup_2 in Hi. }
  split_and!; [done..|]. intros cs ->. unfold op_ch_usable in H3.
  destruct (rtw_chset_search_ch cs _) as [info|]; [|done]. exists info.
  rewrite andb_true_iff, !negb_true_iff, andb_false_iff, bool_decide_eq_false in H3.
  destruct H3 as [H3 H4]. split_and!; [done..|]. intros E. destruct H3 as [H3|H3]; congruence.
Qed.

Definition sample_env : op_class_env := mk_oc_env 127 0x11 3 12 true.

Lemma init_op_class_ch_bmp_sound_witness :
  0 < 32 /\ Z.testbit 5 0 = true /\
  forall cs, Some sample_chset = Some cs ->
    exists info, rtw_chset_search_ch cs 36 = Some info /\
      ScanType info <> SCAN_PASSIVE /\ (dfs info = true -> dfs_unknown sample_env = false).
Proof.
  apply (init_op_class_ch_bmp_sound sample_env (Some sample_chset) 5 (mk_op_class 116 BAND_ON_5G OPC_BW40PLUS 5) 1 0);
    [reflexivity | vm_compute; reflexivity | lia | reflexivity].
Defined.

Lemma op_class_by_chbw_inv ch bw offset c :
  rtw_get_op_class_by_chbw ch bw offset = c -> c <> 0 ->
  exists band oc, In oc global_op_class /\ op_class_match band ch bw offset oc = true /\ op_class oc = c.
Proof.
  unfold rtw_get_op_class_by_chbw.
  set (band := if rtw_is_2g_ch ch then _ else _). clearbody band.
  destruct (band =? BAND_MAX); [congruence|]. destruct (negb _); [congruence|].
  destruct (List.find _ _) as [oc|] eqn:F; [|congruence].
  intros <- _. apply List.find_some in F as [Hin Hm]. by exists band, oc.
Qed.

(** The class number identifies the entry of the table. *)
Lemma op_class_unique oc oc' :
  In oc global_op_class -> In oc' global_op_class -> op_class oc = op_class oc' -> oc = oc'.
Proof.
  intros H1 H2. assert (NoDup (map op_class global_op_class)) as Hn.
  { apply (bool_decide_unpack _). vm_compute. exact I. }
  rewrite <- list_elem_of_In in H1, H2.
  apply list_elem_of_lookup in H1 as [i Hi]. apply list_elem_of_lookup in H2 as [j Hj].
  intros E. assert (i = j) as ->; [|congruence].
  apply (NoDup_lookup _ i j (op_class oc) Hn).
  - change (map op_class) with (fmap (M := list) op_class). rewrite list_lookup_fmap, Hi. done.
  - change (map op_class) with (fmap (M := list) op_class). rewrite list_lookup_fmap, Hj, E. done.
Qed.

(** An operating class number returned by [rtw_get_op_class_by_chbw]
    belongs to exactly one class of the table, that class has the requested
    width, lists the channel, and is a 40+ (40-) class only for a lower (upper)
    primary channel; and every 2.4 GHz channel with a valid offset has one. *)
Theorem op_class_by_chbw_sound ch bw offset c :
  rtw_get_op_class_by_chbw ch bw offset = c ->
  (c <> 0 -> exists! oc, In oc global_op_class /\ op_class oc = c /\
     opc_bw_to_ch_width (oc_bw oc) = bw /\
     (exists j, 0 <= j < 32 /\ Z.testbit (ch_bmp oc) j = true /\ global_op_class_get_ch oc j = ch) /\
     (oc_bw oc = OPC_BW40PLUS -> offset = HAL_PRIME_CHNL_OFFSET_LOWER) /\
     (oc_bw oc = OPC_BW40MINUS -> offset = HAL_PRIME_CHNL_OFFSET_UPPER)) /\
  (1 <= ch <= 14 -> 0 <= bw <= CHANNEL_WIDTH_40 ->
     forall r, rtw_get_offset_by_chbw ch bw r = (1, offset) -> c <> 0).
Proof.
  intros H. split.
  - intros Hc. destruct (op_class_by_chbw_inv _ _ _ _ H Hc) as (band & oc & Hin & Hm & Ec).
    exists oc. split; [|intros oc' (Hin' & E & _); apply op_class_unique; congruence].
    unfold op_class_match in Hm. rewrite !andb_true_iff, negb_true_iff, orb_false_iff in Hm.
    destruct Hm as [[[_ Hbw] [Hp Hmi]] Hex]. apply existsb_exists in Hex as (j & Hj & Hb).
    apply andb_true_iff in Hb as [Hb Hch].
    unfold upto in Hj. apply in_map_iff in Hj as (n & <- & Hn%in_seq).
    rewrite bit_test_testbit in Hb by lia.
    split_and!; try done; try lia.
    + exists (Z.of_nat n). split_and!; try done; lia.
    + intros E. rewrite bool_decide_eq_true_2 in Hp by done.
      destruct (Z.eqb_spec offset HAL_PRIME_CHNL_OFFSET_LOWER); done.
    + intros E. rewrite bool_decide_eq_true_2 in Hmi by done.
      destruct (Z.eqb_spec offset HAL_PRIME_CHNL_OFFSET_UPPER); done.
  - intros Hch Hbw r Hr. rewrite get_offset_norm in Hr by (by rewrite Hr).
    assert (forall x y z, 0 <= x < 14 -> 0 <= y < 2 -> 0 <= z < 3 ->
      (let '(ok, o) := rtw_get_offset_by_chbw (x + 1) y z in
       negb (ok =? 1) || between 1 (rtw_get_op_class_by_chbw (x + 1) y o) 255) = true) as A
      by (apply forallb_upto3; vm_compute; reflexivity).
    specialize (A (ch - 1) bw (norm_offset r)). unfold CHANNEL_WIDTH_40 in Hbw.
    replace (ch - 1 + 1) with ch in A by lia. rewrite Hr in A. cbn in A.
    specialize (A ltac:(lia) ltac:(lia) (norm_offset_range r)).
    unfold between in A. rewrite H in A. lia.
Qed.

Lemma op_class_by_chbw_sound_witness :
  (84 <> 0 -> exists! oc, In oc global_op_class /\ op_class oc = 84 /\
     opc_bw_to_ch_width (oc_bw oc) = 1 /\
     (exists j, 0 <= j < 32 /\ Z.testbit (ch_bmp oc) j = true /\ global_op_class_get_ch oc j = 11) /\
     (oc_bw oc = OPC_BW40PLUS -> 2 = HAL_PRIME_CHNL_OFFSET_LOWER) /\
     (oc_bw oc = OPC_BW40MINUS -> 2 = HAL_PRIME_CHNL_OFFSET_UPPER)) /\
  (1 <= 11 <= 14 -> 0 <= 1 <= CHANNEL_WIDTH_40 ->
     forall r, rtw_get_offset_by_chbw 11 1 r = (1, 2) -> 84 <> 0).
Proof. apply (op_class_by_chbw_sound 11 1 2 84). vm_compute. reflexivity. Defined.

(** ** RF path bitmaps *)

(** [out] keeps the [n] lowest paths of [inp], as many as the limit allows. *)
Definition keeps_lowest (inp out n lmt : Z) : bool :=
  (Z.land inp out =? out) && (path_count out =? n)
  && (n =? (if lmt =? 0 then path_count inp else Z.min lmt (path_count inp)))
  && forallb (fun i => forallb (fun j =>
       negb (Z.testbit inp i && negb (Z.testbit out i) && Z.testbit out j) || (j <? i)) (upto 4)) (upto 4).

Definition restrict_ok (bmp tl rl : Z) : bool :=
  match rtw_restrict_trx_path_bmp_by_trx_num_lmt bmp tl rl with
  | (r, Some (tn, rn)) =>
      keeps_lowest (Z.shiftr bmp 4) (Z.shiftr r 4) tn tl
      && keeps_lowest (Z.land bmp 15) (Z.land r 15) rn rl && (0 <? tn) && (0 <? rn)
  | (r, None) => (r =? 0) && ((Z.shiftr bmp 4 =? 0) || (Z.land bmp 15 =? 0))
  end.

Lemma restrict_ok_small bmp tl rl :
  0 <= bmp < 256 -> 0 <= tl < 5 -> 0 <= rl < 5 -> restrict_ok bmp tl rl = true.
Proof. apply (forallb_upto3 restrict_ok 256 5 5). vm_compute. reflexivity. Qed.

Lemma path_count_le bmp : 0 <= path_count bmp <= 4.
Proof. unfold path_count, RF_PATH_MAX. simpl. repeat case_match; lia. Qed.

Lemma limit_loop_id n bmp cnt lmt : cnt <= lmt -> limit_loop n bmp cnt lmt = (bmp, cnt).
Proof. intros H. destruct n; [done|]. simpl. destruct (Z.ltb_spec lmt cnt); [lia|done]. Qed.

Lemma restrict_large_tl bmp tl rl :
  4 <= tl ->
  rtw_restrict_trx_path_bmp_by_trx_num_lmt bmp tl rl = rtw_restrict_trx_path_bmp_by_trx_num_lmt bmp 4 rl.
Proof.
  intros H. unfold rtw_restrict_trx_path_bmp_by_trx_num_lmt, rtw_path_bmp_limit_from_higher.
  pose proof (path_count_le (Z.shiftr (Z.land bmp 240) 4)).
  rewrite (limit_loop_id _ _ _ tl), (limit_loop_id _ _ _ 4) by lia.
  destruct (Z.eqb_spec tl 0); [lia|]. done.
Qed.

Lemma restrict_large_rl bmp tl rl :
  4 <= rl ->
  rtw_restrict_trx_path_bmp_by_trx_num_lmt bmp tl rl = rtw_restrict_trx_path_bmp_by_trx_num_lmt bmp tl 4.
Proof.
  intros H. unfold rtw_restrict_trx_path_bmp_by_trx_num_lmt, rtw_path_bmp_limit_from_higher.
  pose proof (path_count_le (Z.land bmp 15)).
  rewrite (limit_loop_id _ (Z.land bmp 15) _ rl), (limit_loop_id _ (Z.land bmp 15) _ 4) by lia.
  destruct (Z.eqb_spec rl 0); [lia|]. done.
Qed.

Lemma keeps_lowest_min inp out n l :
  4 <= l -> keeps_lowest inp out n l = keeps_lowest inp out n 4.
Proof.
  intros H. unfold keeps_lowest. pose proof (path_count_le inp).
  destruct (Z.eqb_spec l 0); [lia|]. simpl (4 =? 0).
  by rewrite !Z.min_r by lia.
Qed.

(** [rtw_restrict_trx_path_bmp_by_trx_num_lmt], for any path bitmap and
    any limits (0 meaning no limit): the result keeps in each half the lowest
    paths of the input, exactly as many as the limit allows, the reported
    numbers are the counts of what is kept, and the result is 0 exactly when
    one half has no path. *)
Theorem restrict_trx_path_bmp_ok bmp tl rl :
  0 <= bmp < 256 -> 0 <= tl -> 0 <= rl -> restrict_ok bmp tl rl = true.
Proof.
  intros Hb Ht Hr.
  assert (forall r, 0 <= r < 5 -> restrict_ok bmp tl r = true) as A.
  { intros r Hr'. destruct (Z.lt_ge_cases tl 5); [by apply restrict_ok_small|].
    pose proof (restrict_ok_small bmp 4 r Hb ltac:(lia) Hr') as H1.
    unfold restrict_ok in *. rewrite restrict_large_tl by lia.
    destruct (rtw_restrict_trx_path_bmp_by_trx_num_lmt bmp 4 r) as [? [[]|]]; [|done].
    by rewrite (keeps_lowest_min _ _ _ tl) by lia. }
  destruct (Z.lt_ge_cases rl 5); [apply A; lia|].
  pose proof (A 4 ltac:(lia)) as H1.
  unfold restrict_ok in *. rewrite restrict_large_rl by lia.
  destruct (rtw_restrict_trx_path_bmp_by_trx_num_lmt bmp tl 4) as [? [[]|]]; [|done].
  by rewrite (keeps_lowest_min _ _ _ rl) by lia.
Qed.

Lemma restrict_trx_path_bmp_ok_witness :
  restrict_ok 0xFF 2 9 = true /\
  rtw_restrict_trx_path_bmp_by_trx_num_lmt 0xFF 2 9 = (0x3F, Some (2, 4)).
Proof. split; [apply (restrict_trx_path_bmp_ok 0xFF 2 9); lia | reflexivity]. Defined.
