(* ===== verification/Arc4.v ===== *)
(** * The RC4 stream cipher of core/rtw_security.c

    [struct arc4context] and the three functions on it.  The theorems show that
    the cipher state stays a permutation of the 256 byte values, and that
    encrypting twice from the same context gives the message back. *)

From S2P Require Import Prelude.

(** ** [struct arc4context] *)

Record arc4context := mk_arc4 {
  arc_x : Z;
  arc_y : Z;
  arc_state : list Z
}.

(** [state[i] = v] for an index in range. *)
Definition set_at (s : list Z) (i v : Z) : list Z := <[Z.to_nat i := v]> s.

(** One iteration of the key-scheduling loop; the state is the array,
    [keyindex] and [stateindex]. *)
Definition arcfour_init_step (key : bytes) (key_len : Z) (st : list Z * Z * Z) (counter : Z) : list Z * Z * Z :=
  let '(state, keyindex, stateindex) := st in
  let t := znth state counter in
  let stateindex := Z.land (stateindex + znth key keyindex + t) 0xff in
  let u := znth state stateindex in
  let state := set_at state stateindex (u8 t) in
  let state := set_at state counter (u8 u) in
  let keyindex := keyindex + 1 in
  (state, (if key_len <=? keyindex then 0 else keyindex), stateindex).

(** The counters 0 .. 255. *)
Definition bytes256 : list Z := map Z.of_nat (seq 0 256).

Definition arcfour_init (key : bytes) (key_len : Z) : arc4context :=
  let '(state, _, _) := fold_left (arcfour_init_step key key_len) bytes256 (bytes256, 0, 0) in
  mk_arc4 0 0 state.

Definition arcfour_byte (c : arc4context) : arc4context * Z :=
  let state := arc_state c in
  let x := Z.land (arc_x c + 1) 0xff in
  let sx := znth state x in
  let y := Z.land (sx + arc_y c) 0xff in
  let sy := znth state y in
  let state := set_at state y (u8 sx) in
  let state := set_at state x (u8 sy) in
  (mk_arc4 x y state, znth state (Z.land (sx + sy) 0xff)).

Arguments arcfour_byte : simpl never.

(** The bytes written to [dest] for the bytes of [src]; [dest] may be [src],
    as each byte is read before it is written. *)
Fixpoint arcfour_encrypt (c : arc4context) (src : bytes) : arc4context * bytes :=
  match src with
  | [] => (c, [])
  | s :: src =>
      let '(c, k) := arcfour_byte c in
      let '(c', out) := arcfour_encrypt c src in
      (c', Z.lxor s (u8 k) :: out)
  end.

(** ** The state is a permutation *)

Lemma land255_range x : 0 <= Z.land x 0xff < 256.
Proof.
  change 0xff with (Z.ones 8). rewrite Z.land_ones by lia.
  apply Z.mod_pos_bound. lia.
Qed.

Lemma znth_lookup s i :
  length s = 256%nat -> 0 <= i < 256 -> s !! Z.to_nat i = Some (znth s i).
Proof.
  intros Hl Hi. unfold znth. destruct (lookup_lt_is_Some_2 s (Z.to_nat i)) as [v Hv]; [lia|].
  rewrite Hv. f_equal. symmetry. by apply nth_lookup_Some with (d := 0) in Hv.
Qed.

(** Swapping two entries permutes the list. *)
Lemma swap_perm (s : list Z) i j a b :
  s !! i = Some a -> s !! j = Some b -> <[i := b]> (<[j := a]> s) ≡ₚ s.
Proof.
  intros Hi Hj. pose proof (lookup_lt_Some _ _ _ Hi). pose proof (lookup_lt_Some _ _ _ Hj).
  destruct (decide (i = j)) as [->|Hn].
  - rewrite Hi in Hj. injection Hj as ->. by rewrite !list_insert_id by (rewrite ?list_insert_id; done).
  - apply Permutation_inj. split; [by rewrite !length_insert|].
    exists (fun k => if decide (k = i) then j else if decide (k = j) then i else k). split.
    + intros x y. repeat case_decide; congruence.
    + intros k. destruct (decide (k = i)) as [->|]; [|destruct (decide (k = j)) as [->|]].
      * by rewrite list_lookup_insert_eq by (by rewrite length_insert).
      * by rewrite list_lookup_insert_ne, list_lookup_insert_eq by done.
      * by rewrite !list_lookup_insert_ne by done.
Qed.

(** The cipher state: 256 entries, a permutation of the byte values. *)
Definition state_ok (s : list Z) : Prop := s ≡ₚ bytes256.

Definition ctx_ok (c : arc4context) : Prop :=
  state_ok (arc_state c) /\ 0 <= arc_x c < 256 /\ 0 <= arc_y c < 256.

Lemma bytes256_ok : Forall is_byte bytes256.
Proof.
  unfold bytes256. apply Forall_forall. intros x Hx.
  apply list_elem_of_In, in_map_iff in Hx as (n & <- & Hn%in_seq). unfold is_byte. lia.
Qed.

Lemma state_ok_length s : state_ok s -> length s = 256%nat.
Proof. unfold state_ok. intros H. by rewrite H. Qed.

Lemma state_ok_byte s i : state_ok s -> 0 <= i < 256 -> is_byte (znth s i).
Proof.
  intros H Hi. pose proof (znth_lookup s i (state_ok_length s H) Hi) as E.
  apply list_elem_of_lookup_2 in E.
  assert (Forall is_byte s) as F by (eapply Permutation_Forall; [symmetry; exact H | exact bytes256_ok]).
  exact (proj1 (Forall_forall _ _) F _ E).
Qed.

Lemma state_swap_ok s i j :
  state_ok s -> 0 <= i < 256 -> 0 <= j < 256 ->
  state_ok (set_at (set_at s j (u8 (znth s i))) i (u8 (znth s j))).
Proof.
  intros H Hi Hj. rewrite !u8_small by (by apply state_ok_byte).
  unfold set_at, state_ok in *. etransitivity; [|exact H].
  apply swap_perm; apply znth_lookup; auto using state_ok_length.
Qed.

Lemma init_step_ok key n st i :
  0 <= i < 256 -> state_ok (fst (fst st)) -> state_ok (fst (fst (arcfour_init_step key n st i))).
Proof.
  destruct st as [[s k] x]. simpl. intros Hi H.
  apply state_swap_ok; auto using land255_range.
Qed.

Lemma init_fold_ok key n l st :
  Forall (fun i => 0 <= i < 256) l -> state_ok (fst (fst st)) ->
  state_ok (fst (fst (fold_left (arcfour_init_step key n) l st))).
Proof.
  intros Hl. revert st. induction Hl as [|i l Hi Hl IH]; intros st H; [done|].
  cbn [fold_left]. apply IH, init_step_ok; done.
Qed.

Lemma arcfour_init_ok key n : ctx_ok (arcfour_init key n).
Proof.
  pose proof (init_fold_ok key n bytes256 (bytes256, 0, 0) bytes256_ok) as H.
  unfold arcfour_init. destruct (fold_left _ _ _) as [[s k] x].
  split; [|simpl; lia]. apply H. exact (Permutation_refl _).
Qed.

Lemma arcfour_byte_ok c : ctx_ok c -> ctx_ok (fst (arcfour_byte c)) /\ is_byte (snd (arcfour_byte c)).
Proof.
  intros (Hs & Hx & Hy). unfold arcfour_byte. simpl fst. simpl snd.
  assert (state_ok (set_at (set_at (arc_state c)
     (Z.land (znth (arc_state c) (Z.land (arc_x c + 1) 255) + arc_y c) 255)
     (u8 (znth (arc_state c) (Z.land (arc_x c + 1) 255)))) (Z.land (arc_x c + 1) 255)
     (u8 (znth (arc_state c) (Z.land (znth (arc_state c) (Z.land (arc_x c + 1) 255) + arc_y c) 255)))))
    as H by (apply state_swap_ok; auto using land255_range).
  split; [|apply state_ok_byte; auto using land255_range].
  split; [exact H|]. split; apply land255_range.
Qed.

(** One byte of the stream. *)
Lemma arcfour_encrypt_cons c s src :
  arcfour_encrypt c (s :: src)
  = (fst (arcfour_encrypt (fst (arcfour_byte c)) src),
     Z.lxor s (u8 (snd (arcfour_byte c))) :: snd (arcfour_encrypt (fst (arcfour_byte c)) src)).
Proof.
  cbn [arcfour_encrypt]. destruct (arcfour_byte c) as [c1 k]. cbn [fst snd].
  by destruct (arcfour_encrypt c1 src).
Qed.

Lemma arcfour_encrypt_ok c src : ctx_ok c -> ctx_ok (fst (arcfour_encrypt c src)).
Proof.
  revert c. induction src as [|s src IH]; intros c Hc; [done|].
  rewrite arcfour_encrypt_cons. apply IH, arcfour_byte_ok, Hc.
Qed.

Lemma arcfour_encrypt_bytes c src : bytes_ok src -> bytes_ok (snd (arcfour_encrypt c src)).
Proof.
  intros H. revert c. induction H as [|s src Hs H IH]; intros c; [constructor|].
  rewrite arcfour_encrypt_cons. constructor; [|apply IH]. apply lxor_byte; auto with rtw.
Qed.

Lemma arcfour_encrypt_length c src : length (snd (arcfour_encrypt c src)) = length src.
Proof.
  revert c. induction src as [|s src IH]; intros c; [done|].
  rewrite arcfour_encrypt_cons. cbn [snd length]. by rewrite IH.
Qed.

(** Encrypting a message piecewise continues the same key stream. *)
Lemma arcfour_encrypt_app c a b :
  arcfour_encrypt c (a ++ b)
  = (fst (arcfour_encrypt (fst (arcfour_encrypt c a)) b),
     snd (arcfour_encrypt c a) ++ snd (arcfour_encrypt (fst (arcfour_encrypt c a)) b)).
Proof.
  revert c. induction a as [|s a IH]; intros c.
  - cbn. by destruct (arcfour_encrypt c b).
  - cbn [app]. rewrite !arcfour_encrypt_cons, IH. done.
Qed.

(** The key stream depends only on the context and the length. *)
Lemma arcfour_encrypt_involutive c src :
  arcfour_encrypt c (snd (arcfour_encrypt c src)) = (fst (arcfour_encrypt c src), src).
Proof.
  revert c. induction src as [|s src IH]; intros c; [done|].
  rewrite arcfour_encrypt_cons. cbn [fst snd]. rewrite arcfour_encrypt_cons, IH. cbn [fst snd].
  by rewrite Z.lxor_assoc, Z.lxor_nilpotent, Z.lxor_0_r.
Qed.

(** After key scheduling with any key, and after any number of bytes have
    been encrypted, the 256 cells of the RC4 state are a permutation of the
    256 byte values (so every generated byte is one) and the two indices stay
    below 256. *)
Theorem arcfour_state_permutation key key_len msg :
  ctx_ok (fst (arcfour_encrypt (arcfour_init key key_len) msg)).
Proof. apply arcfour_encrypt_ok, arcfour_init_ok. Qed.

(** The test vector of the cipher's publication: key Key, message Plaintext. *)
Example arcfour_vector :
  snd (arcfour_encrypt (arcfour_init [75; 101; 121] 3) [80; 108; 97; 105; 110; 116; 101; 120; 116])
  = [0xBB; 0xF3; 0x16; 0xE8; 0xD9; 0x40; 0xAF; 0x0A; 0xD3].
Proof. vm_compute. reflexivity. Qed.
