(* ===== verification/Crc32.v ===== *)
(** * The CRC-32 of core/rtw_security.c

    The table built by [crc32_init] and the table-driven checksum used for the
    WEP and TKIP integrity value.  The theorems show that the routine computes
    the bit-serial reflected CRC-32, and that changing one byte of a message
    always changes its checksum. *)

From S2P Require Import Prelude.

Definition CRC32_POLY : Z := 0x04c11db7.

Definition crc32_reverseBit (data : Z) : Z :=
  Z.lor (Z.lor (Z.lor (Z.lor (Z.lor (Z.lor (Z.lor
    (u8 (Z.land (Z.shiftl data 7) 0x80))
    (Z.land (Z.shiftl data 5) 0x40))
    (Z.land (Z.shiftl data 3) 0x20))
    (Z.land (Z.shiftl data 1) 0x10))
    (Z.land (Z.shiftr data 1) 0x08))
    (Z.land (Z.shiftr data 3) 0x04))
    (Z.land (Z.shiftr data 5) 0x02))
    (Z.land (Z.shiftr data 7) 0x01).

(** The inner loop of [crc32_init]: [j] more shifts of [c]. *)
Fixpoint crc32_shift (j : nat) (c : Z) : Z :=
  match j with
  | O => c
  | S j =>
      crc32_shift j
        (if bit_test c 0x80000000 then Z.lxor (u32 (Z.shiftl c 1)) CRC32_POLY else u32 (Z.shiftl c 1))
  end.

(** Byte [k] of a word in memory on the little-endian host. *)
Definition byte_of (c k : Z) : Z := Z.land (Z.shiftr c (8 * k)) 0xff.

(** The entry for byte [i]: the bytes of [c] reversed, each with its bits
    reversed. *)
Definition crc32_entry (i : Z) : Z :=
  let k := crc32_reverseBit (u8 i) in
  let c := crc32_shift 8 (u32 (Z.shiftl k 24)) in
  le_combine [crc32_reverseBit (byte_of c 3); crc32_reverseBit (byte_of c 2);
              crc32_reverseBit (byte_of c 1); crc32_reverseBit (byte_of c 0)].

(** The static table after [crc32_init]; [getcrc32] runs it on first use, and
    further calls leave the table as it is. *)
Definition crc32_init : list Z := map crc32_entry (map Z.of_nat (seq 0 256)).

Definition crc32_table : list Z := Eval vm_compute in crc32_init.

(** One iteration of the loop of [getcrc32]. *)
Definition crc32_update (crc b : Z) : Z :=
  Z.lxor (znth crc32_table (Z.land (Z.lxor crc b) 0xff)) (Z.shiftr crc 8).

Definition getcrc32 (buf : bytes) : Z :=
  Z.lxor (fold_left crc32_update buf 0xffffffff) 0xffffffff.

(** The exported variant with the same loop over an index. *)
Definition rtw_calc_crc32 (data : bytes) : Z :=
  let crc := fold_left (fun crc i => Z.lxor (znth crc32_table (Z.land (Z.lxor crc (znth data i)) 0xff)) (Z.shiftr crc 8))
                       (map Z.of_nat (seq 0 (length data))) 0xffffffff in
  Z.lxor crc 0xffffffff.

(** ** The bit-serial reference

    One step of the reflected shift register with polynomial 0xEDB88320. *)

Definition crc_bit (x : Z) : Z :=
  if Z.odd x then Z.lxor (Z.shiftr x 1) 0xEDB88320 else Z.shiftr x 1.

Fixpoint crc_bits (n : nat) (x : Z) : Z :=
  match n with O => x | S n => crc_bits n (crc_bit x) end.

Definition crc32_serial (buf : bytes) : Z :=
  Z.lxor (fold_left (fun crc b => crc_bits 8 (Z.lxor crc b)) buf 0xffffffff) 0xffffffff.

(** ** Equivalence *)

Lemma crc32_table_init : crc32_table = crc32_init.
Proof. vm_compute. reflexivity. Qed.

Lemma crc_bit_lxor x y : crc_bit (Z.lxor x y) = Z.lxor (crc_bit x) (crc_bit y).
Proof.
  assert (Z.odd (Z.lxor x y) = xorb (Z.odd x) (Z.odd y)) as E
    by (rewrite <- !Z.bit0_odd; apply Z.lxor_spec).
  unfold crc_bit. rewrite E, Z.shiftr_lxor.
  generalize 0xEDB88320 as p. intros p.
  destruct (Z.odd x), (Z.odd y); simpl; apply Z.bits_inj'; intros n Hn; rewrite !Z.lxor_spec;
    by destruct (Z.testbit _ _), (Z.testbit (Z.shiftr y 1) n), (Z.testbit p n).
Qed.

Lemma crc_bits_lxor n x y : crc_bits n (Z.lxor x y) = Z.lxor (crc_bits n x) (crc_bits n y).
Proof. revert x y. induction n as [|n IH]; intros x y; cbn [crc_bits]; [done|]. by rewrite crc_bit_lxor, IH. Qed.

(** Zero bits are shifted out. *)
Lemma crc_bits_shiftl n x : 0 <= x -> crc_bits n (Z.shiftl x (Z.of_nat n)) = x.
Proof.
  revert x. induction n as [|n IH]; intros x Hx; [done|].
  cbn [crc_bits]. unfold crc_bit.
  replace (Z.odd (Z.shiftl x (Z.of_nat (S n)))) with false.
  - rewrite Z.shiftr_shiftl_l by lia.
    replace (Z.of_nat (S n) - 1) with (Z.of_nat n) by lia. by apply IH.
  - rewrite <- Z.bit0_odd. symmetry. apply Z.shiftl_spec_low. lia.
Qed.

Lemma split_low8 x : 0 <= x -> x = Z.lxor (Z.land x 0xff) (Z.shiftl (Z.shiftr x 8) 8).
Proof.
  intros Hx. apply Z.bits_inj'. intros n Hn.
  rewrite Z.lxor_spec, Z.land_spec. change 0xff with (Z.ones 8).
  destruct (Z.lt_ge_cases n 8).
  - rewrite Z.shiftl_spec_low, Z.ones_spec_low by lia. by rewrite andb_true_r, xorb_false_r.
  - rewrite Z.shiftl_spec, Z.shiftr_spec, Z.ones_spec_high by lia.
    rewrite andb_false_r, xorb_false_l. f_equal. lia.
Qed.

Lemma table_serial i : 0 <= i < 256 -> znth crc32_table i = crc_bits 8 i.
Proof.
  intros Hi. apply Z.eqb_eq.
  apply (byte_forall (fun i => znth crc32_table i =? crc_bits 8 i)); [vm_compute; reflexivity | done].
Qed.

Lemma crc32_update_serial crc b :
  0 <= crc -> is_byte b -> crc32_update crc b = crc_bits 8 (Z.lxor crc b).
Proof.
  intros Hc Hb. unfold is_byte in Hb. unfold crc32_update.
  assert (0 <= Z.lxor crc b) as Hx by (apply Z.lxor_nonneg; lia).
  rewrite table_serial by (change 0xff with (Z.ones 8); rewrite Z.land_ones by lia; apply Z.mod_pos_bound; lia).
  rewrite (split_low8 (Z.lxor crc b)) at 2 by done.
  rewrite crc_bits_lxor. f_equal.
  rewrite (crc_bits_shiftl 8), Z.shiftr_lxor by (apply Z.shiftr_nonneg; done).
  rewrite (Z.shiftr_div_pow2 b 8), Z.div_small by lia. by rewrite Z.lxor_0_r.
Qed.

Lemma crc_bit_range x : is_u32 x -> is_u32 (crc_bit x).
Proof.
  unfold is_u32, crc_bit. intros Hx.
  assert (0 <= Z.shiftr x 1 < 2 ^ 31) as Hs.
  { rewrite Z.shiftr_div_pow2 by lia. split; [apply Z.div_pos; lia|apply Z.div_lt_upper_bound; lia]. }
  destruct (Z.odd x); [|lia].
  assert (0 <= Z.lxor (Z.shiftr x 1) 0xEDB88320) by (apply Z.lxor_nonneg; lia).
  split; [done|]. destruct (Z.eq_dec (Z.lxor (Z.shiftr x 1) 0xEDB88320) 0) as [E|]; [lia|].
  change 4294967296 with (2 ^ 32). apply Z.log2_lt_pow2; [lia|].
  pose proof (Z.log2_lxor (Z.shiftr x 1) 0xEDB88320 ltac:(lia) ltac:(lia)) as L.
  change (Z.log2 0xEDB88320) with 31 in L.
  assert (Z.log2 (Z.shiftr x 1) < 31).
  { destruct (Z.eq_dec (Z.shiftr x 1) 0) as [->|]; [reflexivity|]. apply Z.log2_lt_pow2; lia. }
  lia.
Qed.

Lemma crc_bits_range n x : is_u32 x -> is_u32 (crc_bits n x).
Proof. revert x. induction n; intros x Hx; cbn [crc_bits]; auto using crc_bit_range. Qed.

Lemma lxor_u32 a b : is_u32 a -> is_u32 b -> is_u32 (Z.lxor a b).
Proof.
  unfold is_u32. intros Ha Hb.
  assert (0 <= Z.lxor a b) by (apply Z.lxor_nonneg; lia). split; [done|].
  destruct (Z.eq_dec (Z.lxor a b) 0) as [E|Hne]; [lia|].
  change 4294967296 with (2 ^ 32). apply Z.log2_lt_pow2; [lia|].
  pose proof (Z.log2_lxor a b ltac:(lia) ltac:(lia)).
  assert (forall z, 0 <= z < 4294967296 -> Z.log2 z < 32) as L.
  { intros z Hz. destruct (Z.eq_dec z 0) as [->|]; [reflexivity|]. apply Z.log2_lt_pow2; lia. }
  pose proof (L a Ha). pose proof (L b Hb). lia.
Qed.

Lemma byte_u32 b : is_byte b -> is_u32 b.
Proof. unfold is_byte, is_u32. lia. Qed.

Lemma crc32_update_range crc b : is_u32 crc -> is_byte b -> is_u32 (crc32_update crc b).
Proof.
  intros Hc Hb. rewrite crc32_update_serial by (unfold is_u32 in Hc; auto; lia).
  auto using crc_bits_range, lxor_u32, byte_u32.
Qed.

Lemma crc32_fold_range crc l : is_u32 crc -> bytes_ok l -> is_u32 (fold_left crc32_update l crc).
Proof.
  intros Hc Hl. revert crc Hc. induction Hl; intros crc Hc; cbn [fold_left]; auto using crc32_update_range.
Qed.

Lemma getcrc32_range l : bytes_ok l -> is_u32 (getcrc32 l).
Proof. intros H. apply lxor_u32; [apply crc32_fold_range; [|done]|]; unfold is_u32; lia. Qed.

Lemma crc32_fold_serial l crc :
  is_u32 crc -> bytes_ok l ->
  fold_left crc32_update l crc = fold_left (fun crc b => crc_bits 8 (Z.lxor crc b)) l crc.
Proof.
  intros Hc Hl. revert crc Hc. induction Hl as [|b l Hb Hl IH]; intros crc Hc; cbn [fold_left]; [done|].
  rewrite <- crc32_update_serial by (unfold is_u32 in Hc; auto; lia).
  apply IH, crc32_update_range; done.
Qed.

(** For every byte string the table-driven [getcrc32] returns the value of
    the bit-serial reflected CRC-32 with polynomial 0xEDB88320, initial value
    and final complement 0xFFFFFFFF; the table used is the one [crc32_init]
    computes. *)
Theorem getcrc32_is_crc32 buf :
  bytes_ok buf -> getcrc32 buf = crc32_serial buf /\ crc32_table = crc32_init.
Proof.
  intros H. split; [|apply crc32_table_init]. unfold getcrc32, crc32_serial.
  rewrite crc32_fold_serial; [done| unfold is_u32; lia | done].
Qed.

(** The check value of the CRC-32: the digits 1 to 9. *)
Lemma getcrc32_is_crc32_witness :
  getcrc32 [49; 50; 51; 52; 53; 54; 55; 56; 57] = crc32_serial [49; 50; 51; 52; 53; 54; 55; 56; 57]
  /\ getcrc32 [49; 50; 51; 52; 53; 54; 55; 56; 57] = 0xCBF43926.
Proof.
  split; [|vm_compute; reflexivity].
  apply (getcrc32_is_crc32 [49; 50; 51; 52; 53; 54; 55; 56; 57]).
  repeat constructor; vm_compute; congruence.
Defined.

(** The exported variant is the same function. *)
Lemma rtw_calc_crc32_eq data : rtw_calc_crc32 data = getcrc32 data.
Proof.
  unfold rtw_calc_crc32, getcrc32. f_equal. generalize 0xffffffff as crc.
  assert (forall pre crc,
    fold_left (fun crc i => Z.lxor (znth crc32_table (Z.land (Z.lxor crc (znth (pre ++ data) i)) 255)) (Z.shiftr crc 8))
      (map Z.of_nat (seq (length pre) (length data))) crc = fold_left crc32_update data crc) as H;
    [|exact (H [])].
  induction data as [|b data IH]; intros pre crc; [done|].
  cbn [length seq map fold_left].
  specialize (IH (pre ++ [b])). rewrite <- app_assoc, length_app, Nat.add_1_r in IH. cbn [app] in IH.
  rewrite IH. f_equal. unfold crc32_update, znth at 2. by rewrite Nat2Z.id, nth_middle.
Qed.

(** ** Detection of a changed byte *)

Lemma crc_bit_inj x y : is_u32 x -> is_u32 y -> crc_bit x = crc_bit y -> x = y.
Proof.
  unfold is_u32. intros Hx Hy E.
  assert (crc_bit (Z.lxor x y) = 0) as Z0 by (by rewrite crc_bit_lxor, E, Z.lxor_nilpotent).
  apply Z.lxor_eq. pose proof (lxor_u32 x y Hx Hy) as Hz. revert Z0 Hz.
  generalize (Z.lxor x y) as z. clear. unfold crc_bit, is_u32. intros z Hz Hr.
  pose proof (Zdiv2_odd_eqn z) as Ho. rewrite Z.div2_spec in Ho.
  destruct (Z.odd z) eqn:O; [|lia].
  apply Z.lxor_eq in Hz. lia.
Qed.

Lemma crc_bits_inj n x y : is_u32 x -> is_u32 y -> crc_bits n x = crc_bits n y -> x = y.
Proof.
  revert x y. induction n as [|n IH]; intros x y Hx Hy E; cbn [crc_bits] in E; [done|].
  apply crc_bit_inj; [done..|]. apply IH; auto using crc_bit_range.
Qed.

Lemma lxor_cancel_r a b c : Z.lxor a c = Z.lxor b c -> a = b.
Proof.
  intros E. assert (forall z, Z.lxor (Z.lxor z c) c = z) as I
    by (intros; by rewrite Z.lxor_assoc, Z.lxor_nilpotent, Z.lxor_0_r).
  rewrite <- (I a), E. apply I.
Qed.

(** The register determines, with the bytes fed in, what it held before. *)
Lemma crc32_fold_inj l x y :
  bytes_ok l -> is_u32 x -> is_u32 y -> fold_left crc32_update l x = fold_left crc32_update l y -> x = y.
Proof.
  intros Hl. revert x y. induction Hl as [|b l Hb Hl IH]; intros x y Hx Hy E; [done|].
  cbn [fold_left] in E. apply IH in E; [|auto using crc32_update_range..].
  rewrite !crc32_update_serial in E by (unfold is_u32 in *; auto; lia).
  apply crc_bits_inj in E; [|auto using lxor_u32, byte_u32..].
  by apply lxor_cancel_r in E.
Qed.

(** Two messages that differ in one byte have different checksums. *)
Lemma getcrc32_one_byte pre suf b b' :
  bytes_ok pre -> bytes_ok suf -> is_byte b -> is_byte b' -> b <> b' ->
  getcrc32 (pre ++ b :: suf) <> getcrc32 (pre ++ b' :: suf).
Proof.
  intros Hp Hs Hb Hb' Hne E. apply lxor_cancel_r in E.
  rewrite !fold_left_app in E. cbn [fold_left] in E.
  assert (is_u32 (fold_left crc32_update pre 0xffffffff)) as Hr
    by (apply crc32_fold_range; [unfold is_u32; lia|done]).
  apply crc32_fold_inj in E; [|auto using crc32_update_range..].
  rewrite !crc32_update_serial in E by (unfold is_u32 in *; auto; lia).
  apply crc_bits_inj in E; [|auto using lxor_u32, byte_u32..].
  rewrite !(Z.lxor_comm (fold_left _ _ _)) in E. by apply lxor_cancel_r in E.
Qed.
