(* ===== verification/Michael.v ===== *)
(** * The Michael message integrity code of core/rtw_security.c

    The incremental computation of the TKIP MIC.  The theorem shows that
    feeding a message byte by byte, in any pieces, gives the MIC of the
    padded message processed word by word. *)

From S2P Require Import Prelude.

(** ** [struct mic_data] *)

Record mic_data := mk_mic {
  K0 : Z; K1 : Z;
  L : Z; R : Z;
  M : Z;
  nBytesInM : Z
}.

(** [ROL32] on a 32-bit value; the surrounding assignment truncates. *)
Definition ROL32 (a n : Z) : Z :=
  Z.lor (u32 (Z.shiftl a n)) (Z.land (Z.shiftr a (32 - n)) (Z.shiftl 1 n - 1)).
Definition ROR32 (a n : Z) : Z := ROL32 a (32 - n).

Definition secmicgetuint32 (p : bytes) : Z :=
  fold_left (fun res i => Z.lor res (Z.shiftl (znth p i) (8 * i))) [0; 1; 2; 3] 0.

(** The four bytes written. *)
Fixpoint secmicput (n : nat) (val : Z) : bytes :=
  match n with O => [] | S n => Z.land val 0xff :: secmicput n (Z.shiftr val 8) end.

Definition secmicputuint32 (val : Z) : bytes := secmicput 4 val.

Definition secmicclear (m : mic_data) : mic_data :=
  mk_mic (K0 m) (K1 m) (K0 m) (K1 m) 0 0.

Definition rtw_secmicsetkey (key : bytes) : mic_data :=
  secmicclear (mk_mic (secmicgetuint32 key) (secmicgetuint32 (drop 4 key)) 0 0 0 0).

(** The block function on the two halves of the state. *)
Definition mic_block (l r : Z) : Z * Z :=
  let r := Z.lxor r (ROL32 l 17) in
  let l := u32 (l + r) in
  let r := Z.lxor r (Z.lor (Z.shiftr (Z.land l 0xff00ff00) 8) (u32 (Z.shiftl (Z.land l 0x00ff00ff) 8))) in
  let l := u32 (l + r) in
  let r := Z.lxor r (ROL32 l 3) in
  let l := u32 (l + r) in
  let r := Z.lxor r (ROR32 l 2) in
  let l := u32 (l + r) in
  (l, r).

Definition rtw_secmicappendbyte (m : mic_data) (b : Z) : mic_data :=
  let w := u32 (Z.lor (M m) (Z.shiftl b (8 * nBytesInM m))) in
  let n := nBytesInM m + 1 in
  if 4 <=? n then
    let '(l, r) := mic_block (Z.lxor (L m) w) (R m) in
    mk_mic (K0 m) (K1 m) l r 0 0
  else mk_mic (K0 m) (K1 m) (L m) (R m) w n.

Definition rtw_secmicappend (m : mic_data) (src : bytes) : mic_data :=
  fold_left rtw_secmicappendbyte src m.

(** The [while (nBytesInM != 0)] loop: at most three more zero bytes. *)
Fixpoint secmic_pad (fuel : nat) (m : mic_data) : res mic_data :=
  match fuel with
  | O => NoFuel
  | S fuel => if nBytesInM m =? 0 then Ret m else secmic_pad fuel (rtw_secmicappendbyte m 0)
  end.

(** The MIC written to [dst] and the cleared state. *)
Definition rtw_secgetmic (m : mic_data) : res (bytes * mic_data) :=
  let m := rtw_secmicappendbyte m 0x5a in
  let m := rtw_secmicappendbyte m 0 in
  let m := rtw_secmicappendbyte m 0 in
  let m := rtw_secmicappendbyte m 0 in
  let m := rtw_secmicappendbyte m 0 in
  m ← secmic_pad 5 m;
  Ret (secmicputuint32 (L m) ++ secmicputuint32 (R m), secmicclear m).

(** The destination and source addresses the pseudo header takes from an
    802.11 header, by the ToDS and FromDS bits. *)
Definition mic_header (header : bytes) : res bytes :=
  fc ← rd header 1;
  if bit_test fc 1 then
    da ← rd_slice header 16 6;
    sa ← (if bit_test fc 2 then rd_slice header 24 6 else rd_slice header 10 6);
    Ret (da ++ sa)
  else
    da ← rd_slice header 4 6;
    sa ← (if bit_test fc 2 then rd_slice header 16 6 else rd_slice header 10 6);
    Ret (da ++ sa).

Definition rtw_seccalctkipmic (key header data : bytes) (pri : Z) : res bytes :=
  let m := rtw_secmicsetkey key in
  h ← mic_header header;
  let m := rtw_secmicappend m h in
  let m := rtw_secmicappend m [pri; 0; 0; 0] in
  let m := rtw_secmicappend m data in
  r ← rtw_secgetmic m;
  Ret (fst r).

(** ** The word-by-word definition

    A message is padded with 0x5a, then with zeros to at least five bytes and
    a multiple of four, and read as little-endian words. *)

Definition mic_pad (len : nat) : bytes := 0x5a :: replicate (4 + (3 - len mod 4)) 0.

Definition word4 (a b c d : Z) : Z :=
  Z.lor (Z.lor (Z.lor a (Z.shiftl b 8)) (Z.shiftl c 16)) (Z.shiftl d 24).

Fixpoint words (n : nat) (l : bytes) : list Z :=
  match n, l with
  | S n, a :: b :: c :: d :: l => word4 a b c d :: words n l
  | _, _ => []
  end.

Definition mic_words (lr : Z * Z) (ws : list Z) : Z * Z :=
  fold_left (fun lr w => mic_block (Z.lxor (fst lr) w) (snd lr)) ws lr.

Definition michael (k0 k1 : Z) (msg : bytes) : bytes :=
  let m := msg ++ mic_pad (length msg) in
  let '(l, r) := mic_words (k0, k1) (words (length m) m) in
  secmicputuint32 l ++ secmicputuint32 r.

(** ** Incremental computation *)

Lemma append_app m a b : rtw_secmicappend m (a ++ b) = rtw_secmicappend (rtw_secmicappend m a) b.
Proof. apply fold_left_app. Qed.

(** The state between words. *)
Definition aligned (k0 k1 : Z) (lr : Z * Z) : mic_data := mk_mic k0 k1 (fst lr) (snd lr) 0 0.

Lemma shiftl_byte b k : is_byte b -> 0 <= k <= 24 -> 0 <= Z.shiftl b k < 2 ^ 32.
Proof.
  unfold is_byte. intros Hb Hk. rewrite Z.shiftl_mul_pow2 by lia.
  assert (2 ^ k <= 2 ^ 24) by (apply Z.pow_le_mono_r; lia).
  assert (0 < 2 ^ k) by (apply Z.pow_pos_nonneg; lia). nia.
Qed.

Lemma lor_u32 a b : 0 <= a < 2 ^ 32 -> 0 <= b < 2 ^ 32 -> 0 <= Z.lor a b < 2 ^ 32.
Proof.
  intros Ha Hb. assert (0 <= Z.lor a b) by (apply Z.lor_nonneg; lia). split; [done|].
  destruct (Z.eq_dec (Z.lor a b) 0) as [->|]; [lia|].
  apply Z.log2_lt_pow2; [lia|]. rewrite Z.log2_lor by lia.
  assert (forall z, 0 <= z < 2 ^ 32 -> Z.log2 z < 32) as Lg.
  { intros z Hz. destruct (Z.eq_dec z 0) as [->|]; [reflexivity|]. apply Z.log2_lt_pow2; lia. }
  apply Z.max_lub_lt; auto.
Qed.

Lemma byte_lt b : is_byte b -> 0 <= b < 2 ^ 32.
Proof. unfold is_byte. lia. Qed.

Lemma u32_id z : 0 <= z < 2 ^ 32 -> u32 z = z.
Proof. apply Z.mod_small. Qed.

(** A run of four bytes from a word boundary processes one word. *)
Lemma append_word k0 k1 lr a b c d :
  is_byte a -> is_byte b -> is_byte c -> is_byte d ->
  rtw_secmicappend (aligned k0 k1 lr) [a; b; c; d]
  = aligned k0 k1 (mic_block (Z.lxor (fst lr) (word4 a b c d)) (snd lr)).
Proof.
  intros Ha Hb Hc Hd. unfold rtw_secmicappend, aligned. cbn [fold_left].
  unfold rtw_secmicappendbyte at 4. cbn [nBytesInM M K0 K1 L R]. change (4 <=? 0 + 1) with false. cbn iota.
  unfold rtw_secmicappendbyte at 3. cbn [nBytesInM M K0 K1 L R]. change (4 <=? 0 + 1 + 1) with false. cbn iota.
  unfold rtw_secmicappendbyte at 2. cbn [nBytesInM M K0 K1 L R]. change (4 <=? 0 + 1 + 1 + 1) with false. cbn iota.
  unfold rtw_secmicappendbyte at 1. cbn [nBytesInM M K0 K1 L R]. change (4 <=? 0 + 1 + 1 + 1 + 1) with true. cbn iota.
  rewrite Z.lor_0_l. change (8 * 0) with 0. rewrite Z.shiftl_0_r.
  change (8 * (0 + 1)) with 8. change (8 * (0 + 1 + 1)) with 16. change (8 * (0 + 1 + 1 + 1)) with 24.
  assert (u32 a = a) as -> by (unfold is_byte in *; apply u32_small; unfold is_u32; lia).
  pose proof (byte_lt a Ha). pose proof (shiftl_byte b 8 Hb ltac:(lia)).
  pose proof (shiftl_byte c 16 Hc ltac:(lia)). pose proof (shiftl_byte d 24 Hd ltac:(lia)).
  rewrite (u32_id (Z.lor a (Z.shiftl b 8))) by (by apply lor_u32).
  rewrite (u32_id (Z.lor (Z.lor a (Z.shiftl b 8)) (Z.shiftl c 16))) by (by repeat apply lor_u32).
  rewrite u32_id by (by repeat apply lor_u32).
  unfold word4. by destruct (mic_block _ _).
Qed.

Lemma words_fuel n m l : (length l <= n)%nat -> (length l <= m)%nat -> words n l = words m l.
Proof.
  revert m l. induction n as [n IHn] using (well_founded_induction lt_wf). intros m l H1 H2.
  destruct n as [|n], m as [|m], l as [|a [|b [|c [|d l]]]]; simpl in *; try done; try lia.
  f_equal. apply (IHn n); lia.
Qed.

Lemma words_cons n a b c d l : words (S n) (a :: b :: c :: d :: l) = word4 a b c d :: words n l.
Proof. reflexivity. Qed.

Lemma append_words n k0 k1 lr l :
  bytes_ok l -> length l = (4 * n)%nat ->
  rtw_secmicappend (aligned k0 k1 lr) l = aligned k0 k1 (mic_words lr (words (length l) l)).
Proof.
  intros Hl. revert lr l Hl. induction n as [|n IH]; intros lr l Hl E.
  { destruct l; [done|discriminate]. }
  destruct l as [|a [|b [|c [|d l]]]]; try (simpl in E; lia).
  apply Forall_cons in Hl as [Ha Hl]. apply Forall_cons in Hl as [Hb Hl].
  apply Forall_cons in Hl as [Hc Hl]. apply Forall_cons in Hl as [Hd Hl].
  change (a :: b :: c :: d :: l) with ([a; b; c; d] ++ l). rewrite append_app, append_word by done.
  rewrite IH by (done || (simpl in E; lia)).
  cbn [app length]. rewrite words_cons.
  rewrite (words_fuel (S (S (S (length l)))) (length l) l) by lia. done.
Qed.

Lemma secmic_pad_zeros j fuel m :
  (j < fuel)%nat -> nBytesInM (rtw_secmicappend m (replicate j 0)) = 0 ->
  (forall i, (i < j)%nat -> nBytesInM (rtw_secmicappend m (replicate i 0)) <> 0) ->
  secmic_pad fuel m = Ret (rtw_secmicappend m (replicate j 0)).
Proof.
  revert j m. induction fuel as [|fuel IH]; intros j m Hj Hz Hn; [lia|].
  cbn [secmic_pad]. destruct j as [|j].
  { cbn in Hz |- *. by rewrite Hz. }
  specialize (Hn O ltac:(lia)) as H0. cbn in H0.
  destruct (Z.eqb_spec (nBytesInM m) 0); [done|].
  rewrite (IH j); [done|lia|exact Hz|]. intros i Hi. apply (Hn (S i)). lia.
Qed.

Lemma nBytes_step m b :
  nBytesInM (rtw_secmicappendbyte m b) = if 4 <=? nBytesInM m + 1 then 0 else nBytesInM m + 1.
Proof. unfold rtw_secmicappendbyte. destruct (4 <=? nBytesInM m + 1); [|done]. by destruct (mic_block _ _). Qed.

(** The byte count in the buffer is the message length modulo four. *)
Lemma nBytes_append m l :
  0 <= nBytesInM m < 4 -> nBytesInM (rtw_secmicappend m l) = (nBytesInM m + zlen l) mod 4.
Proof.
  revert m. induction l as [|b l IH]; intros m Hm.
  { unfold zlen. simpl. rewrite Z.add_0_r, Z.mod_small; lia. }
  unfold rtw_secmicappend. cbn [fold_left]. change (fold_left rtw_secmicappendbyte l ?x) with (rtw_secmicappend x l).
  pose proof (nBytes_step m b) as E. rewrite IH, E, zlen_cons by (rewrite E; destruct (Z.leb_spec 4 (nBytesInM m + 1)); lia).
  destruct (Z.leb_spec 4 (nBytesInM m + 1)).
  - replace (nBytesInM m + (1 + zlen l)) with (zlen l + 1 * 4) by lia. rewrite Z.mod_add by lia. f_equal; lia.
  - f_equal. lia.
Qed.

(** [rtw_secgetmic] appends the padding of the word-by-word definition. *)
Lemma secgetmic_pad m n :
  0 <= nBytesInM m < 4 -> nBytesInM m = Z.of_nat n mod 4 ->
  rtw_secgetmic m
  = (m' ← Ret (rtw_secmicappend m (mic_pad n)); Ret (secmicputuint32 (L m') ++ secmicputuint32 (R m'), secmicclear m')).
Proof.
  intros Hm Hn. unfold rtw_secgetmic.
  change (rtw_secmicappendbyte (rtw_secmicappendbyte (rtw_secmicappendbyte (rtw_secmicappendbyte (rtw_secmicappendbyte m 90) 0) 0) 0) 0)
    with (rtw_secmicappend m [90; 0; 0; 0; 0]).
  set (j := (3 - n mod 4)%nat).
  assert (Hnat : Z.of_nat (n mod 4) = nBytesInM m) by (rewrite Nat2Z.inj_mod; lia).
  assert (forall i, (i <= j)%nat ->
    nBytesInM (rtw_secmicappend (rtw_secmicappend m [90; 0; 0; 0; 0]) (replicate i 0)) = (nBytesInM m + 1 + Z.of_nat i) mod 4) as C.
  { intros i Hi. rewrite <- append_app, nBytes_append by done. rewrite zlen_app. unfold zlen. rewrite length_replicate. simpl length.
    replace (nBytesInM m + (Z.of_nat 5 + Z.of_nat i)) with (nBytesInM m + 1 + Z.of_nat i + 1 * 4) by lia.
    by rewrite Z.mod_add by lia. }
  rewrite (secmic_pad_zeros j).
  - rewrite <- append_app. do 3 f_equal.
  - lia.
  - rewrite C by lia. replace (nBytesInM m + 1 + Z.of_nat j) with (1 * 4) by (unfold j; lia). by rewrite Z.mod_mul.
  - intros i Hi. rewrite C, Z.mod_small by (unfold j in Hi; lia). lia.
Qed.

Lemma mic_pad_bytes n : bytes_ok (mic_pad n).
Proof.
  constructor; [unfold is_byte; lia|]. apply Forall_replicate. unfold is_byte. lia.
Qed.

Lemma mic_pad_length n : exists k, (n + length (mic_pad n) = 4 * k)%nat.
Proof.
  unfold mic_pad. cbn [length]. rewrite length_replicate.
  pose proof (Nat.div_mod_eq n 4). pose proof (Nat.mod_upper_bound n 4).
  exists (n / 4 + 2)%nat. lia.
Qed.

(** Appending a message to a fresh state and extracting the MIC. *)
Lemma secgetmic_michael k0 k1 msg :
  bytes_ok msg ->
  rtw_secgetmic (rtw_secmicappend (aligned k0 k1 (k0, k1)) msg)
  = Ret (michael k0 k1 msg, aligned k0 k1 (k0, k1)).
Proof.
  intros Hm. rewrite (secgetmic_pad _ (length msg)).
  - rewrite <- append_app, bind_Ret.
    destruct (mic_pad_length (length msg)) as [k Hk].
    rewrite (append_words k).
    + unfold michael. destruct (mic_words _ _) as [l r]. done.
    + apply Forall_app_2; [done|apply mic_pad_bytes].
    + rewrite length_app. lia.
  - rewrite nBytes_append by (simpl; lia). cbn [nBytesInM aligned]. apply Z.mod_pos_bound. lia.
  - rewrite nBytes_append by (simpl; lia). cbn [nBytesInM aligned]. done.
Qed.

(** The MIC [rtw_seccalctkipmic] computes byte by byte is the word-by-word
    Michael code of the pseudo header (destination, source, priority and three
    zero bytes, the addresses chosen by the ToDS and FromDS bits) followed by
    the data; the padding loop terminates for every length. *)
Theorem seccalctkipmic_michael key header data pri h :
  mic_header header = Ret h -> bytes_ok header -> bytes_ok data -> is_byte pri ->
  rtw_seccalctkipmic key header data pri
  = Ret (michael (secmicgetuint32 key) (secmicgetuint32 (drop 4 key)) (h ++ [pri; 0; 0; 0] ++ data)).
Proof.
  intros Hh Hhdr Hd Hp. unfold rtw_seccalctkipmic. rewrite Hh, bind_Ret, <- !append_app.
  change (rtw_secmicsetkey key) with (aligned (secmicgetuint32 key) (secmicgetuint32 (drop 4 key)) (secmicgetuint32 key, secmicgetuint32 (drop 4 key))).
  rewrite secgetmic_michael; [done|].
  assert (bytes_ok h) as Hb.
  { assert (forall i n s, rd_slice header i n = Ret s -> bytes_ok s) as S.
    { unfold rd_slice. intros i n s. repeat case_match; intros [= <-]; auto.
      apply Forall_take, Forall_drop, Hhdr. }
    revert Hh. unfold mic_header. intros Hh. res_inv.
    repeat case_match; res_inv; subst; apply Forall_app_2; eauto. }
  apply Forall_app_2; [done|]. apply Forall_app_2; [|done].
  repeat constructor; unfold is_byte in *; lia.
Qed.

(** The published Michael test vector: the empty message under the zero key. *)
Lemma seccalctkipmic_michael_witness :
  let hdr := replicate 24 0 in
  rtw_seccalctkipmic (replicate 8 0) hdr [1; 2; 3] 0
  = Ret (michael 0 0 (replicate 12 0 ++ [0; 0; 0; 0] ++ [1; 2; 3]))
  /\ michael 0 0 [] = [0x82; 0x92; 0x5c; 0x1c; 0xa1; 0xd1; 0x30; 0xb8].
Proof.
  split; [|vm_compute; reflexivity].
  apply (seccalctkipmic_michael (replicate 8 0) (replicate 24 0) [1; 2; 3] 0 (replicate 12 0)).
  - reflexivity.
  - apply Forall_replicate. unfold is_byte. lia.
  - repeat constructor; vm_compute; congruence.
  - unfold is_byte. lia.
Defined.
