(* ===== verification/Tkip.v ===== *)
(** * TKIP per-packet key mixing (core/rtw_security.c)

    The two phases that turn the temporal key, the transmitter address and the
    48-bit sequence counter into an RC4 key.  The theorem is the claim of the
    comment in [phase2]: for a fixed temporal key the mixed 96 bits, and with
    them the RC4 key, determine transmitter address and counter. *)

From S2P Require Import Prelude.

(** ** Macros *)

Definition RotR1 (v16 : Z) : Z :=
  Z.lxor (Z.land (Z.shiftr v16 1) 0x7FFF) (Z.shiftl (Z.land v16 1) 15).
Definition Lo8 (v16 : Z) : Z := Z.land v16 0xFF.
Definition Hi8 (v16 : Z) : Z := Z.land (Z.shiftr v16 8) 0xFF.
Definition Lo16 (v32 : Z) : Z := Z.land v32 0xFFFF.
Definition Hi16 (v32 : Z) : Z := Z.land (Z.shiftr v32 16) 0xFFFF.
Definition Mk16 (hi lo : Z) : Z := Z.lxor lo (Z.shiftl hi 8).

(** [TK16(N)] *)
Definition TK16 (tk : bytes) (n : Z) : Z := Mk16 (znth tk (2 * n + 1)) (znth tk (2 * n)).

Definition PHASE1_LOOP_CNT : nat := 8.

(** [Sbox1[0]] and [Sbox1[1]] *)
Definition Sbox1_0 : list Z :=
  [0xC6A5; 0xF884; 0xEE99; 0xF68D; 0xFF0D; 0xD6BD; 0xDEB1; 0x9154;
   0x6050; 0x0203; 0xCEA9; 0x567D; 0xE719; 0xB562; 0x4DE6; 0xEC9A;
   0x8F45; 0x1F9D; 0x8940; 0xFA87; 0xEF15; 0xB2EB; 0x8EC9; 0xFB0B;
   0x41EC; 0xB367; 0x5FFD; 0x45EA; 0x23BF; 0x53F7; 0xE496; 0x9B5B;
   0x75C2; 0xE11C; 0x3DAE; 0x4C6A; 0x6C5A; 0x7E41; 0xF502; 0x834F;
   0x685C; 0x51F4; 0xD134; 0xF908; 0xE293; 0xAB73; 0x6253; 0x2A3F;
   0x080C; 0x9552; 0x4665; 0x9D5E; 0x3028; 0x37A1; 0x0A0F; 0x2FB5;
   0x0E09; 0x2436; 0x1B9B; 0xDF3D; 0xCD26; 0x4E69; 0x7FCD; 0xEA9F;
   0x121B; 0x1D9E; 0x5874; 0x342E; 0x362D; 0xDCB2; 0xB4EE; 0x5BFB;
   0xA4F6; 0x764D; 0xB761; 0x7DCE; 0x527B; 0xDD3E; 0x5E71; 0x1397;
   0xA6F5; 0xB968; 0x0000; 0xC12C; 0x4060; 0xE31F; 0x79C8; 0xB6ED;
   0xD4BE; 0x8D46; 0x67D9; 0x724B; 0x94DE; 0x98D4; 0xB0E8; 0x854A;
   0xBB6B; 0xC52A; 0x4FE5; 0xED16; 0x86C5; 0x9AD7; 0x6655; 0x1194;
   0x8ACF; 0xE910; 0x0406; 0xFE81; 0xA0F0; 0x7844; 0x25BA; 0x4BE3;
   0xA2F3; 0x5DFE; 0x80C0; 0x058A; 0x3FAD; 0x21BC; 0x7048; 0xF104;
   0x63DF; 0x77C1; 0xAF75; 0x4263; 0x2030; 0xE51A; 0xFD0E; 0xBF6D;
   0x814C; 0x1814; 0x2635; 0xC32F; 0xBEE1; 0x35A2; 0x88CC; 0x2E39;
   0x9357; 0x55F2; 0xFC82; 0x7A47; 0xC8AC; 0xBAE7; 0x322B; 0xE695;
   0xC0A0; 0x1998; 0x9ED1; 0xA37F; 0x4466; 0x547E; 0x3BAB; 0x0B83;
   0x8CCA; 0xC729; 0x6BD3; 0x283C; 0xA779; 0xBCE2; 0x161D; 0xAD76;
   0xDB3B; 0x6456; 0x744E; 0x141E; 0x92DB; 0x0C0A; 0x486C; 0xB8E4;
   0x9F5D; 0xBD6E; 0x43EF; 0xC4A6; 0x39A8; 0x31A4; 0xD337; 0xF28B;
   0xD532; 0x8B43; 0x6E59; 0xDAB7; 0x018C; 0xB164; 0x9CD2; 0x49E0;
   0xD8B4; 0xACFA; 0xF307; 0xCF25; 0xCAAF; 0xF48E; 0x47E9; 0x1018;
   0x6FD5; 0xF088; 0x4A6F; 0x5C72; 0x3824; 0x57F1; 0x73C7; 0x9751;
   0xCB23; 0xA17C; 0xE89C; 0x3E21; 0x96DD; 0x61DC; 0x0D86; 0x0F85;
   0xE090; 0x7C42; 0x71C4; 0xCCAA; 0x90D8; 0x0605; 0xF701; 0x1C12;
   0xC2A3; 0x6A5F; 0xAEF9; 0x69D0; 0x1791; 0x9958; 0x3A27; 0x27B9;
   0xD938; 0xEB13; 0x2BB3; 0x2233; 0xD2BB; 0xA970; 0x0789; 0x33A7;
   0x2DB6; 0x3C22; 0x1592; 0xC920; 0x8749; 0xAAFF; 0x5078; 0xA57A;
   0x038F; 0x59F8; 0x0980; 0x1A17; 0x65DA; 0xD731; 0x84C6; 0xD0B8;
   0x82C3; 0x29B0; 0x5A77; 0x1E11; 0x7BCB; 0xA8FC; 0x6DD6; 0x2C3A].

Definition Sbox1_1 : list Z :=
  [0xA5C6; 0x84F8; 0x99EE; 0x8DF6; 0x0DFF; 0xBDD6; 0xB1DE; 0x5491;
   0x5060; 0x0302; 0xA9CE; 0x7D56; 0x19E7; 0x62B5; 0xE64D; 0x9AEC;
   0x458F; 0x9D1F; 0x4089; 0x87FA; 0x15EF; 0xEBB2; 0xC98E; 0x0BFB;
   0xEC41; 0x67B3; 0xFD5F; 0xEA45; 0xBF23; 0xF753; 0x96E4; 0x5B9B;
   0xC275; 0x1CE1; 0xAE3D; 0x6A4C; 0x5A6C; 0x417E; 0x02F5; 0x4F83;
   0x5C68; 0xF451; 0x34D1; 0x08F9; 0x93E2; 0x73AB; 0x5362; 0x3F2A;
   0x0C08; 0x5295; 0x6546; 0x5E9D; 0x2830; 0xA137; 0x0F0A; 0xB52F;
   0x090E; 0x3624; 0x9B1B; 0x3DDF; 0x26CD; 0x694E; 0xCD7F; 0x9FEA;
   0x1B12; 0x9E1D; 0x7458; 0x2E34; 0x2D36; 0xB2DC; 0xEEB4; 0xFB5B;
   0xF6A4; 0x4D76; 0x61B7; 0xCE7D; 0x7B52; 0x3EDD; 0x715E; 0x9713;
   0xF5A6; 0x68B9; 0x0000; 0x2CC1; 0x6040; 0x1FE3; 0xC879; 0xEDB6;
   0xBED4; 0x468D; 0xD967; 0x4B72; 0xDE94; 0xD498; 0xE8B0; 0x4A85;
   0x6BBB; 0x2AC5; 0xE54F; 0x16ED; 0xC586; 0xD79A; 0x5566; 0x9411;
   0xCF8A; 0x10E9; 0x0604; 0x81FE; 0xF0A0; 0x4478; 0xBA25; 0xE34B;
   0xF3A2; 0xFE5D; 0xC080; 0x8A05; 0xAD3F; 0xBC21; 0x4870; 0x04F1;
   0xDF63; 0xC177; 0x75AF; 0x6342; 0x3020; 0x1AE5; 0x0EFD; 0x6DBF;
   0x4C81; 0x1418; 0x3526; 0x2FC3; 0xE1BE; 0xA235; 0xCC88; 0x392E;
   0x5793; 0xF255; 0x82FC; 0x477A; 0xACC8; 0xE7BA; 0x2B32; 0x95E6;
   0xA0C0; 0x9819; 0xD19E; 0x7FA3; 0x6644; 0x7E54; 0xAB3B; 0x830B;
   0xCA8C; 0x29C7; 0xD36B; 0x3C28; 0x79A7; 0xE2BC; 0x1D16; 0x76AD;
   0x3BDB; 0x5664; 0x4E74; 0x1E14; 0xDB92; 0x0A0C; 0x6C48; 0xE4B8;
   0x5D9F; 0x6EBD; 0xEF43; 0xA6C4; 0xA839; 0xA431; 0x37D3; 0x8BF2;
   0x32D5; 0x438B; 0x596E; 0xB7DA; 0x8C01; 0x64B1; 0xD29C; 0xE049;
   0xB4D8; 0xFAAC; 0x07F3; 0x25CF; 0xAFCA; 0x8EF4; 0xE947; 0x1810;
   0xD56F; 0x88F0; 0x6F4A; 0x725C; 0x2438; 0xF157; 0xC773; 0x5197;
   0x23CB; 0x7CA1; 0x9CE8; 0x213E; 0xDD96; 0xDC61; 0x860D; 0x850F;
   0x90E0; 0x427C; 0xC471; 0xAACC; 0xD890; 0x0506; 0x01F7; 0x121C;
   0xA3C2; 0x5F6A; 0xF9AE; 0xD069; 0x9117; 0x5899; 0x273A; 0xB927;
   0x38D9; 0x13EB; 0xB32B; 0x3322; 0xBBD2; 0x70A9; 0x8907; 0xA733;
   0xB62D; 0x223C; 0x9215; 0x20C9; 0x4987; 0xFFAA; 0x7850; 0x7AA5;
   0x8F03; 0xF859; 0x8009; 0x171A; 0xDA65; 0x31D7; 0xC684; 0xB8D0;
   0xC382; 0xB029; 0x775A; 0x111E; 0xCB7B; 0xFCA8; 0xD66D; 0x3A2C].

(** [_S_(v16)] *)
Definition _S_ (v16 : Z) : Z := Z.lxor (znth Sbox1_0 (Lo8 v16)) (znth Sbox1_1 (Hi8 v16)).

(** ** Phase 1: the 80-bit block is five 16-bit words *)

Record p1k_t := mk_p1k { p0 : Z; p1 : Z; p2 : Z; p3 : Z; p4 : Z }.

(** One iteration of the Feistel loop. *)
Definition phase1_round (tk : bytes) (i : Z) (p : p1k_t) : p1k_t :=
  let b := Z.land i 1 in
  let p0 := u16 (p0 p + _S_ (Z.lxor (p4 p) (TK16 tk (b + 0)))) in
  let p1 := u16 (p1 p + _S_ (Z.lxor p0 (TK16 tk (b + 2)))) in
  let p2 := u16 (p2 p + _S_ (Z.lxor p1 (TK16 tk (b + 4)))) in
  let p3 := u16 (p3 p + _S_ (Z.lxor p2 (TK16 tk (b + 6)))) in
  let p4 := u16 (p4 p + _S_ (Z.lxor p3 (TK16 tk (b + 0)))) in
  let p4 := u16 (p4 + i) in
  mk_p1k p0 p1 p2 p3 p4.

Definition phase1_start (ta : bytes) (iv32 : Z) : p1k_t :=
  mk_p1k (Lo16 iv32) (Hi16 iv32)
    (Mk16 (znth ta 1) (znth ta 0)) (Mk16 (znth ta 3) (znth ta 2)) (Mk16 (znth ta 5) (znth ta 4)).

Definition phase1 (tk ta : bytes) (iv32 : Z) : p1k_t :=
  fold_left (fun p i => phase1_round tk (Z.of_nat i) p) (seq 0 PHASE1_LOOP_CNT) (phase1_start ta iv32).

(** ** Phase 2 *)

Record ppk_t := mk_ppk { k0 : Z; k1 : Z; k2 : Z; k3 : Z; k4 : Z; k5 : Z }.

(** The initial copy and the two sweeps over [PPK[0..5]]. *)
Definition phase2_start (p : p1k_t) (iv16 : Z) : ppk_t :=
  mk_ppk (p0 p) (p1 p) (p2 p) (p3 p) (p4 p) (u16 (p4 p + iv16)).

Definition phase2_sbox (tk : bytes) (k : ppk_t) : ppk_t :=
  let k0 := u16 (k0 k + _S_ (Z.lxor (k5 k) (TK16 tk 0))) in
  let k1 := u16 (k1 k + _S_ (Z.lxor k0 (TK16 tk 1))) in
  let k2 := u16 (k2 k + _S_ (Z.lxor k1 (TK16 tk 2))) in
  let k3 := u16 (k3 k + _S_ (Z.lxor k2 (TK16 tk 3))) in
  let k4 := u16 (k4 k + _S_ (Z.lxor k3 (TK16 tk 4))) in
  let k5 := u16 (k5 k + _S_ (Z.lxor k4 (TK16 tk 5))) in
  mk_ppk k0 k1 k2 k3 k4 k5.

Definition phase2_rot (tk : bytes) (k : ppk_t) : ppk_t :=
  let k0 := u16 (k0 k + RotR1 (Z.lxor (k5 k) (TK16 tk 6))) in
  let k1 := u16 (k1 k + RotR1 (Z.lxor k0 (TK16 tk 7))) in
  let k2 := u16 (k2 k + RotR1 k1) in
  let k3 := u16 (k3 k + RotR1 k2) in
  let k4 := u16 (k4 k + RotR1 k3) in
  let k5 := u16 (k5 k + RotR1 k4) in
  mk_ppk k0 k1 k2 k3 k4 k5.

Definition phase2 (tk : bytes) (p : p1k_t) (iv16 : Z) : bytes :=
  let k := phase2_rot tk (phase2_sbox tk (phase2_start p iv16)) in
  [Hi8 iv16;
   Z.land (Z.lor (Hi8 iv16) 0x20) 0x7F;
   Lo8 iv16;
   Lo8 (Z.shiftr (Z.lxor (k5 k) (TK16 tk 0)) 1);
   Lo8 (k0 k); Hi8 (k0 k);
   Lo8 (k1 k); Hi8 (k1 k);
   Lo8 (k2 k); Hi8 (k2 k);
   Lo8 (k3 k); Hi8 (k3 k);
   Lo8 (k4 k); Hi8 (k4 k);
   Lo8 (k5 k); Hi8 (k5 k)].

(** ** Invertibility *)

(** Adding the same quantity modulo 2^16 is invertible. *)
Lemma u16_add_cancel a b c : is_u16 a -> is_u16 b -> u16 (a + c) = u16 (b + c) -> a = b.
Proof.
  unfold is_u16, u16. intros Ha Hb E.
  pose proof (Z.div_mod (a + c) 65536). pose proof (Z.div_mod (b + c) 65536). nia.
Qed.

Definition p1k_ok (p : p1k_t) : Prop :=
  is_u16 (p0 p) /\ is_u16 (p1 p) /\ is_u16 (p2 p) /\ is_u16 (p3 p) /\ is_u16 (p4 p).

Definition ppk_ok (k : ppk_t) : Prop :=
  is_u16 (k0 k) /\ is_u16 (k1 k) /\ is_u16 (k2 k) /\ is_u16 (k3 k) /\ is_u16 (k4 k) /\ is_u16 (k5 k).

Lemma phase1_round_ok tk i p : p1k_ok (phase1_round tk i p).
Proof. unfold p1k_ok. cbn. auto 10 with rtw. Qed.

Lemma phase2_sbox_ok tk k : ppk_ok (phase2_sbox tk k).
Proof. unfold ppk_ok. cbn. auto 10 with rtw. Qed.

(** A round is undone from its last assignment back to its first. *)
Lemma phase1_round_inj tk i p q :
  p1k_ok p -> p1k_ok q -> phase1_round tk i p = phase1_round tk i q -> p = q.
Proof.
  intros (A0 & A1 & A2 & A3 & A4) (B0 & B1 & B2 & B3 & B4) E.
  destruct p as [x0 x1 x2 x3 x4], q as [y0 y1 y2 y3 y4]. cbn in A0, A1, A2, A3, A4, B0, B1, B2, B3, B4.
  injection E as E0 E1 E2 E3 E4.
  apply u16_add_cancel in E4; [|auto with rtw..]. rewrite <- E3 in E4. apply u16_add_cancel in E4; [|done..]. subst y4.
  rewrite <- E2 in E3. apply u16_add_cancel in E3; [|done..]. subst y3.
  rewrite <- E1 in E2. apply u16_add_cancel in E2; [|done..]. subst y2.
  rewrite <- E0 in E1. apply u16_add_cancel in E1; [|done..]. subst y1.
  apply u16_add_cancel in E0; [|done..]. by subst y0.
Qed.

Lemma phase1_rounds_inj tk l p q :
  p1k_ok p -> p1k_ok q ->
  fold_left (fun p i => phase1_round tk (Z.of_nat i) p) l p
  = fold_left (fun p i => phase1_round tk (Z.of_nat i) p) l q -> p = q.
Proof.
  revert p q. induction l as [|i l IH]; intros p q Hp Hq E; [done|].
  cbn [fold_left] in E. apply IH in E; [|apply phase1_round_ok..].
  by apply phase1_round_inj in E.
Qed.

Lemma phase1_rounds_ok tk l p :
  p1k_ok p -> p1k_ok (fold_left (fun p i => phase1_round tk (Z.of_nat i) p) l p).
Proof.
  revert p. induction l as [|i l IH]; intros p Hp; [done|]. cbn [fold_left]. apply IH, phase1_round_ok.
Qed.

Lemma phase2_sbox_inj tk k j :
  ppk_ok k -> ppk_ok j -> phase2_sbox tk k = phase2_sbox tk j -> k = j.
Proof.
  intros (A0 & A1 & A2 & A3 & A4 & A5) (B0 & B1 & B2 & B3 & B4 & B5) E.
  destruct k as [x0 x1 x2 x3 x4 x5], j as [y0 y1 y2 y3 y4 y5].
  cbn in A0, A1, A2, A3, A4, A5, B0, B1, B2, B3, B4, B5.
  injection E as E0 E1 E2 E3 E4 E5.
  rewrite <- E4 in E5. apply u16_add_cancel in E5; [|done..]. subst y5.
  rewrite <- E3 in E4. apply u16_add_cancel in E4; [|done..]. subst y4.
  rewrite <- E2 in E3. apply u16_add_cancel in E3; [|done..]. subst y3.
  rewrite <- E1 in E2. apply u16_add_cancel in E2; [|done..]. subst y2.
  rewrite <- E0 in E1. apply u16_add_cancel in E1; [|done..]. subst y1.
  apply u16_add_cancel in E0; [|done..]. by subst y0.
Qed.

Lemma phase2_rot_inj tk k j :
  ppk_ok k -> ppk_ok j -> phase2_rot tk k = phase2_rot tk j -> k = j.
Proof.
  intros (A0 & A1 & A2 & A3 & A4 & A5) (B0 & B1 & B2 & B3 & B4 & B5) E.
  destruct k as [x0 x1 x2 x3 x4 x5], j as [y0 y1 y2 y3 y4 y5].
  cbn in A0, A1, A2, A3, A4, A5, B0, B1, B2, B3, B4, B5.
  injection E as E0 E1 E2 E3 E4 E5.
  rewrite <- E4 in E5. apply u16_add_cancel in E5; [|done..]. subst y5.
  rewrite <- E3 in E4. apply u16_add_cancel in E4; [|done..]. subst y4.
  rewrite <- E2 in E3. apply u16_add_cancel in E3; [|done..]. subst y3.
  rewrite <- E1 in E2. apply u16_add_cancel in E2; [|done..]. subst y2.
  rewrite <- E0 in E1. apply u16_add_cancel in E1; [|done..]. subst y1.
  apply u16_add_cancel in E0; [|done..]. by subst y0.
Qed.

Lemma Lo8_mod v : Lo8 v = v mod 256.
Proof. apply (Z.land_ones v 8). lia. Qed.

Lemma Hi8_div v : Hi8 v = (v / 256) mod 256.
Proof. unfold Hi8. rewrite Z.shiftr_div_pow2 by lia. apply (Z.land_ones _ 8). lia. Qed.

(** The two bytes of a word determine it. *)
Lemma Lo8_Hi8_inj v w : is_u16 v -> is_u16 w -> Lo8 v = Lo8 w -> Hi8 v = Hi8 w -> v = w.
Proof.
  unfold is_u16. rewrite !Lo8_mod, !Hi8_div. intros Hv Hw El Eh.
  rewrite (Z.mod_small (v / 256)), (Z.mod_small (w / 256)) in Eh
    by (split; [apply Z.div_pos; lia | apply Z.div_lt_upper_bound; lia]).
  pose proof (Z.div_mod v 256). pose proof (Z.div_mod w 256). lia.
Qed.

Lemma Mk16_val hi lo : is_byte hi -> is_byte lo -> Mk16 hi lo = lo + 256 * hi.
Proof.
  unfold is_byte, Mk16. intros Hh Hl. rewrite Z.shiftl_mul_pow2 by lia.
  rewrite <- Z.add_nocarry_lxor; [lia|].
  apply Z.bits_inj'. intros n Hn. rewrite Z.land_spec, Z.bits_0.
  destruct (Z.lt_ge_cases n 8).
  - rewrite Z.mul_pow2_bits_low by lia. apply andb_false_r.
  - replace (Z.testbit lo n) with false; [done|]. symmetry.
    destruct (Z.eq_dec lo 0) as [->|]; [apply Z.bits_0|].
    apply Z.bits_above_log2; [lia|].
    assert (Z.log2 lo < 8) by (apply Z.log2_lt_pow2; lia). lia.
Qed.

Lemma Lo16_mod v : Lo16 v = v mod 65536.
Proof. apply (Z.land_ones v 16). lia. Qed.

Lemma Hi16_div v : Hi16 v = (v / 65536) mod 65536.
Proof. unfold Hi16. rewrite Z.shiftr_div_pow2 by lia. apply (Z.land_ones _ 16). lia. Qed.

(** A 6-byte address. *)
Definition addr_ok (a : bytes) : Prop := length a = 6%nat /\ bytes_ok a.

Lemma phase1_start_eq a b c d e f iv :
  phase1_start [a; b; c; d; e; f] iv = mk_p1k (Lo16 iv) (Hi16 iv) (Mk16 b a) (Mk16 d c) (Mk16 f e).
Proof. reflexivity. Qed.

Lemma phase1_start_ok ta iv32 : addr_ok ta -> p1k_ok (phase1_start ta iv32).
Proof.
  intros [Hl Hb]. destruct ta as [|a [|b [|c [|d [|e [|f []]]]]]]; try discriminate.
  rewrite !Forall_cons in Hb. destruct Hb as (Ha & Hb & Hc & Hd & He & Hf & _).
  rewrite phase1_start_eq. unfold p1k_ok. cbn [p0 p1 p2 p3 p4]. rewrite !Mk16_val by done. rewrite Lo16_mod, Hi16_div.
  unfold is_byte, is_u16 in *. split_and!; try lia; apply Z.mod_pos_bound; lia.
Qed.

Lemma phase1_start_inj ta ta' iv iv' :
  addr_ok ta -> addr_ok ta' -> is_u32 iv -> is_u32 iv' ->
  phase1_start ta iv = phase1_start ta' iv' -> ta = ta' /\ iv = iv'.
Proof.
  intros [Hl Hb] [Hl' Hb'] Hi Hi'.
  destruct ta as [|a [|b [|c [|d [|e [|f []]]]]]]; try discriminate.
  destruct ta' as [|a' [|b' [|c' [|d' [|e' [|f' []]]]]]]; try discriminate.
  rewrite !Forall_cons in Hb, Hb'. destruct Hb as (Ha & Hb & Hc & Hd & He & Hf & _).
  destruct Hb' as (Ha' & Hb' & Hc' & Hd' & He' & Hf' & _).
  rewrite !phase1_start_eq, !Mk16_val by done. rewrite !Lo16_mod, !Hi16_div.
  intros [= E0 E1 E2 E3 E4]. unfold is_byte, is_u32 in *. split.
  - repeat f_equal; lia.
  - rewrite (Z.mod_small (iv / 65536)), (Z.mod_small (iv' / 65536)) in E1
      by (split; [apply Z.div_pos; lia | apply Z.div_lt_upper_bound; lia]).
    pose proof (Z.div_mod iv 65536). pose proof (Z.div_mod iv' 65536). lia.
Qed.

Lemma phase2_start_ok p iv : p1k_ok p -> ppk_ok (phase2_start p iv).
Proof. intros (A0 & A1 & A2 & A3 & A4). unfold ppk_ok. cbn. auto 10 with rtw. Qed.

Lemma phase2_start_inj p q iv iv' :
  p1k_ok p -> p1k_ok q -> is_u16 iv -> is_u16 iv' ->
  phase2_start p iv = phase2_start q iv' -> p = q /\ iv = iv'.
Proof.
  intros _ _ Hi Hi' E. destruct p as [x0 x1 x2 x3 x4], q as [y0 y1 y2 y3 y4].
  unfold phase2_start in E. cbn in E. injection E as <- <- <- <- <- E.
  split; [done|]. rewrite !(Z.add_comm x4) in E. by apply u16_add_cancel in E.
Qed.

(** The last twelve bytes of the RC4 key are the bytes of [PPK[0..5]]. *)
Lemma phase2_ppk tk p q iv iv' :
  drop 4 (phase2 tk p iv) = drop 4 (phase2 tk q iv') ->
  phase2_rot tk (phase2_sbox tk (phase2_start p iv)) = phase2_rot tk (phase2_sbox tk (phase2_start q iv')).
Proof.
  unfold phase2. cbn [drop].
  assert (forall k, ppk_ok (phase2_rot tk k)) as Hok by (intros; unfold ppk_ok; cbn; auto 10 with rtw).
  pose proof (Hok (phase2_sbox tk (phase2_start p iv))) as A.
  pose proof (Hok (phase2_sbox tk (phase2_start q iv'))) as B.
  revert A B. generalize (phase2_rot tk (phase2_sbox tk (phase2_start p iv))) as k.
  generalize (phase2_rot tk (phase2_sbox tk (phase2_start q iv'))) as j.
  intros [] [] (A0 & A1 & A2 & A3 & A4 & A5) (B0 & B1 & B2 & B3 & B4 & B5) E.
  injection E as E0 E0' E1 E1' E2 E2' E3 E3' E4 E4' E5 E5'.
  f_equal; by apply Lo8_Hi8_inj.
Qed.

(** For a fixed temporal key, TKIP key mixing is injective: if two packets
    have the same last twelve bytes of the RC4 key (so in particular the same
    RC4 key) then they have the same transmitter address and the same 48-bit
    counter {IV32, IV16}. *)
Theorem tkip_key_mixing_injective tk ta ta' iv32 iv32' iv16 iv16' :
  addr_ok ta -> addr_ok ta' -> is_u32 iv32 -> is_u32 iv32' -> is_u16 iv16 -> is_u16 iv16' ->
  drop 4 (phase2 tk (phase1 tk ta iv32) iv16) = drop 4 (phase2 tk (phase1 tk ta' iv32') iv16') ->
  ta = ta' /\ iv32 = iv32' /\ iv16 = iv16'.
Proof.
  intros Ht Ht' H32 H32' H16 H16' E. apply phase2_ppk in E.
  assert (p1k_ok (phase1 tk ta iv32)) as O by (apply phase1_rounds_ok, phase1_start_ok, Ht).
  assert (p1k_ok (phase1 tk ta' iv32')) as O' by (apply phase1_rounds_ok, phase1_start_ok, Ht').
  apply phase2_rot_inj in E; [|apply phase2_sbox_ok..].
  apply phase2_sbox_inj in E; [|by apply phase2_start_ok..].
  apply phase2_start_inj in E as [E ->]; [|done..].
  apply phase1_rounds_inj in E; [|by apply phase1_start_ok..].
  apply phase1_start_inj in E as [-> ->]; done.
Qed.

Lemma tkip_key_mixing_injective_witness :
  [2; 3; 4; 5; 6; 7] = [2; 3; 4; 5; 6; 7] /\ 1 = 1 /\ 9 = 9.
Proof.
  apply (tkip_key_mixing_injective (replicate 16 0) [2; 3; 4; 5; 6; 7] [2; 3; 4; 5; 6; 7] 1 1 9 9);
    try (split; [reflexivity|]); try (repeat constructor; vm_compute; congruence).
Defined.

(** The first test vector of IEEE 802.11 annex H: TK 00..0F, TA 10-22-33-44-55-66,
    counter zero. *)
Example tkip_vector_p1k :
  phase1 (map Z.of_nat (seq 0 16)) [0x10; 0x22; 0x33; 0x44; 0x55; 0x66] 0
  = mk_p1k 0x3DD2 0x016E 0x76F4 0x8697 0xB2E8.
Proof. vm_compute. reflexivity. Qed.

Example tkip_vector_rc4key :
  phase2 (map Z.of_nat (seq 0 16)) (phase1 (map Z.of_nat (seq 0 16)) [0x10; 0x22; 0x33; 0x44; 0x55; 0x66] 0) 0
  = [0x00; 0x20; 0x00; 0x33; 0xEA; 0x8D; 0x2F; 0x60; 0xCA; 0x6D; 0x13; 0x74; 0x23; 0x4A; 0x66; 0x0B].
Proof. vm_compute. reflexivity. Qed.
