(* ===== verification/SwCrypt.v ===== *)
(** * Software WEP and TKIP of core/rtw_security.c

    The four routines that encrypt the fragments of a transmit frame and
    decrypt a received one.  The transmit buffer is the memory at the address
    [buf_addr]; [pframe] is an offset into it.  The received frame is the one
    of RxFrame.  The host is little-endian, as CONFIG_LITTLE_ENDIAN.
    Station lookup is the caller's: [rtw_tkip_decrypt] takes the unicast key
    of the station [rtw_get_stainfo] finds, or [None]. *)

From S2P Require Import Prelude RxFrame Arc4 Crc32 Tkip.

(** ** State read by the routines *)

Definition _WEP40_ : Z := 1.
Definition _TKIP_ : Z := 2.
Definition _WEP104_ : Z := 5.

Record security_priv := mk_sec {
  dot11PrivacyKeyIndex : Z;
  dot11DefKey : list bytes;
  dot11DefKeylen : list Z;
  dot118021XGrpKeyid : Z;
  dot118021XGrpKey : list bytes;
  binstallGrpkey : bool
}.

Record pkt_attrib := mk_pkt {
  tx_encrypt : Z;
  tx_hdrlen : Z;
  tx_iv_len : Z;
  tx_icv_len : Z;
  nr_frags : Z;
  last_txcmdsz : Z;
  tx_ra : bytes;
  tx_ta : bytes;
  tx_UncstKey : bytes
}.

Definition key_at (t : list bytes) (i : Z) : bytes := nth (Z.to_nat i) t [].

Definition RND4 (x : Z) : Z :=
  Z.shiftl (Z.shiftr x 2 + (if Z.land x 3 =? 0 then 0 else 1)) 2.

(** [wepkey]: the three IV bytes followed by [keylength] bytes of the key, in
    a 16-byte array. *)
Definition wep_seed (iv3 key : bytes) (keylength : Z) : res bytes :=
  if 16 <? 3 + keylength then Oob
  else k ← rd_slice key 0 keylength; Ret (iv3 ++ k).

(** ** One fragment

    Encrypt [length] bytes at [payload] in place and append the encrypted
    integrity value. *)
Definition encrypt_at (mem : bytes) (payload length : Z) (key : bytes) (key_len : Z) : res bytes :=
  if length <? 0 then Oob
  else
    data ← rd_slice mem payload length;
    let crc := le_split 4 (getcrc32 data) in
    let ctx := arcfour_init key key_len in
    let '(ctx, c1) := arcfour_encrypt ctx data in
    let '(_, c2) := arcfour_encrypt ctx crc in
    mem ← wr_slice mem payload c1;
    wr_slice mem (payload + length) c2.

(** The length of the current fragment's payload. *)
Definition frag_payload (a : pkt_attrib) (frag_len curfragnum : Z) : Z :=
  (if curfragnum + 1 =? nr_frags a then last_txcmdsz a else frag_len)
  - tx_hdrlen a - tx_iv_len a - tx_icv_len a.

(** The start of the next fragment: the absolute address rounded up. *)
Definition next_frag (buf_addr pframe frag_len : Z) : Z := RND4 (buf_addr + pframe + frag_len) - buf_addr.

Definition wep_encrypt_frag (s : security_priv) (a : pkt_attrib) (frag_len cur : Z) (mem : bytes) (pframe : Z) : res bytes :=
  let keylength := znth (dot11DefKeylen s) (dot11PrivacyKeyIndex s) in
  iv ← rd_slice mem (pframe + tx_hdrlen a) 3;
  wepkey ← wep_seed iv (key_at (dot11DefKey s) (dot11PrivacyKeyIndex s)) keylength;
  encrypt_at mem (pframe + tx_iv_len a + tx_hdrlen a) (frag_payload a frag_len cur) wepkey (3 + keylength).

(** [GET_TKIP_PN]: the 48-bit counter from the IV field. *)
Definition GET_TKIP_PN (iv : bytes) : Z :=
  le_combine [znth iv 2; znth iv 0; znth iv 4; znth iv 5; znth iv 6; znth iv 7].

(** The RC4 key of a packet from the temporal key and its IV field. *)
Definition tkip_rc4key (tk ta iv : bytes) : bytes :=
  let pn := GET_TKIP_PN iv in
  phase2 tk (phase1 tk ta (u32 (Z.shiftr pn 16))) (u16 pn).

Definition tkip_encrypt_frag (tk : bytes) (a : pkt_attrib) (frag_len cur : Z) (mem : bytes) (pframe : Z) : res bytes :=
  iv ← rd_slice mem (pframe + tx_hdrlen a) 8;
  encrypt_at mem (pframe + tx_iv_len a + tx_hdrlen a) (frag_payload a frag_len cur)
    (tkip_rc4key tk (tx_ta a) iv) 16.

(** The loop over the fragments: [n] of them are left. *)
Fixpoint encrypt_frags (frag : Z -> bytes -> Z -> res bytes) (buf_addr frag_len : Z)
    (n : nat) (cur : Z) (mem : bytes) (pframe : Z) : res bytes :=
  match n with
  | O => Ret mem
  | S n =>
      mem ← frag cur mem pframe;
      encrypt_frags frag buf_addr frag_len n (cur + 1) mem (next_frag buf_addr pframe frag_len)
  end.

(** ** The four routines *)

(** The buffer after the call; [None] is a frame without a buffer. *)
Definition rtw_wep_encrypt (s : security_priv) (a : pkt_attrib) (frag_len buf_addr hw_hdr_offset : Z)
    (buf : option bytes) : res (option bytes) :=
  match buf with
  | None => Ret None
  | Some mem =>
      if (tx_encrypt a =? _WEP40_) || (tx_encrypt a =? _WEP104_) then
        mem ← encrypt_frags (wep_encrypt_frag s a frag_len) buf_addr frag_len
                (Z.to_nat (nr_frags a)) 0 mem hw_hdr_offset;
        Ret (Some mem)
      else Ret buf
  end.

(** Return value and buffer. *)
Definition rtw_tkip_encrypt (s : security_priv) (a : pkt_attrib) (frag_len buf_addr hw_hdr_offset : Z)
    (buf : option bytes) : res (Z * option bytes) :=
  match buf with
  | None => Ret (_FAIL, None)
  | Some mem =>
      if tx_encrypt a =? _TKIP_ then
        let prwskey :=
          if IS_MCAST (tx_ra a) then key_at (dot118021XGrpKey s) (dot118021XGrpKeyid s)
          else tx_UncstKey a in
        mem ← encrypt_frags (tkip_encrypt_frag prwskey a frag_len) buf_addr frag_len
                (Z.to_nat (nr_frags a)) 0 mem hw_hdr_offset;
        Ret (_SUCCESS, Some mem)
      else Ret (_SUCCESS, buf)
  end.

(** Decrypt [length] bytes at [payload] in place: the memory and the bytes. *)
Definition decrypt_at (mem : bytes) (payload length : Z) (key : bytes) (key_len : Z) : res (bytes * bytes) :=
  if length <? 0 then Oob
  else
    data ← rd_slice mem payload length;
    let '(_, plain) := arcfour_encrypt (arcfour_init key key_len) data in
    mem ← wr_slice mem payload plain;
    Ret (mem, plain).

(** The received frame after the call.  The checksum of the payload is
    computed but its value is not used. *)
Definition rtw_wep_decrypt (s : security_priv) (f : recv_frame) : res recv_frame :=
  let a := attrib f in
  if (encrypt a =? _WEP40_) || (encrypt a =? _WEP104_) then
    iv ← rd_slice (rx_mem f) (rx_data f + hdrlen a) 3;
    let keylength := znth (dot11DefKeylen s) (key_index a) in
    wepkey ← wep_seed iv (key_at (dot11DefKey s) (key_index a)) keylength;
    r ← decrypt_at (rx_mem f) (rx_data f + iv_len a + hdrlen a) (len f - hdrlen a - iv_len a) wepkey (3 + keylength);
    Ret (set_mem f (fst r))
  else Ret f.

(** The comparison of the computed and the received integrity value: the last
    four bytes of the decrypted payload, read back from memory. *)
Definition icv_matches (mem plain : bytes) (payload : Z) : res bool :=
  let length := zlen plain in
  let crc := le_split 4 (getcrc32 (take (Z.to_nat (length - 4)) plain)) in
  x3 ← rd mem (payload + length - 1);
  if negb (znth crc 3 =? x3) then Ret false else
  x2 ← rd mem (payload + length - 2);
  if negb (znth crc 2 =? x2) then Ret false else
  x1 ← rd mem (payload + length - 3);
  if negb (znth crc 1 =? x1) then Ret false else
  x0 ← rd mem (payload + length - 4);
  Ret (znth crc 0 =? x0).

Definition res_of (ok : bool) : Z := if ok then _SUCCESS else _FAIL.

(** Return value and frame; [sta] is the unicast key of the transmitter's
    station entry.  The counters kept for the log are left out. *)
Definition rtw_tkip_decrypt (s : security_priv) (sta : option bytes) (f : recv_frame) : res (Z * recv_frame) :=
  let a := attrib f in
  if encrypt a =? _TKIP_ then
    match sta with
    | None => Ret (_FAIL, f)
    | Some uncst =>
        if IS_MCAST (ra a) && negb (binstallGrpkey s) then Ret (_FAIL, f)
        else
          let prwskey := if IS_MCAST (ra a) then key_at (dot118021XGrpKey s) (key_index a) else uncst in
          iv ← rd_slice (rx_mem f) (rx_data f + hdrlen a) 8;
          r ← decrypt_at (rx_mem f) (rx_data f + iv_len a + hdrlen a) (len f - hdrlen a - iv_len a)
                (tkip_rc4key prwskey (ta a) iv) 16;
          ok ← icv_matches (fst r) (snd r) (rx_data f + iv_len a + hdrlen a);
          Ret (res_of ok, set_mem f (fst r))
    end
  else Ret (_SUCCESS, f).

(** ** In-place encryption of a region *)

Lemma le_split_length n w : length (le_split n w) = n.
Proof. revert w. induction n as [|n IH]; intros w; simpl; [done|]. by rewrite IH. Qed.

Lemma le_split_bytes n w : bytes_ok (le_split n w).
Proof.
  revert w. induction n as [|n IH]; intros w; simpl; constructor; [|apply IH].
  change 255 with (Z.ones 8). rewrite Z.land_ones by lia. apply Z.mod_pos_bound. lia.
Qed.

(** Message followed by its integrity value. *)
Definition with_icv (data : bytes) : bytes := data ++ le_split 4 (getcrc32 data).

(** The ciphertext of a message and its integrity value. *)
Definition sealed (key : bytes) (n : Z) (data : bytes) : bytes :=
  snd (arcfour_encrypt (arcfour_init key n) (with_icv data)).

Lemma sealed_length key n data : length (sealed key n data) = (length data + 4)%nat.
Proof.
  unfold sealed, with_icv. rewrite arcfour_encrypt_length, length_app, le_split_length. done.
Qed.

Lemma encrypt_at_spec pre data old post key n :
  length old = 4%nat ->
  encrypt_at (pre ++ data ++ old ++ post) (zlen pre) (zlen data) key n
  = Ret (pre ++ sealed key n data ++ post).
Proof.
  intros Hold. unfold encrypt_at, sealed, with_icv.
  pose proof (zlen_nonneg data). destruct (Z.ltb_spec (zlen data) 0); [lia|].
  rewrite rd_slice_app, bind_Ret, arcfour_encrypt_app. cbn [snd].
  pose proof (arcfour_encrypt_length (arcfour_init key n) data) as L1.
  destruct (arcfour_encrypt (arcfour_init key n) data) as [ctx c1]. cbn [fst snd] in *.
  pose proof (arcfour_encrypt_length ctx (le_split 4 (getcrc32 data))) as L2.
  rewrite le_split_length in L2.
  destruct (arcfour_encrypt ctx (le_split 4 (getcrc32 data))) as [ctx' c2]. cbn [fst snd] in *.
  rewrite wr_slice_app, bind_Ret by done.
  rewrite (app_assoc pre c1).
  replace (zlen pre + zlen data) with (zlen (pre ++ c1)) by (rewrite zlen_app; unfold zlen; lia).
  rewrite wr_slice_app by lia. by rewrite <- !app_assoc.
Qed.

Lemma decrypt_at_spec pre c post key n :
  decrypt_at (pre ++ c ++ post) (zlen pre) (zlen c) key n
  = Ret (pre ++ snd (arcfour_encrypt (arcfour_init key n) c) ++ post, snd (arcfour_encrypt (arcfour_init key n) c)).
Proof.
  unfold decrypt_at. pose proof (zlen_nonneg c). destruct (Z.ltb_spec (zlen c) 0); [lia|].
  rewrite rd_slice_app, bind_Ret.
  pose proof (arcfour_encrypt_length (arcfour_init key n) c) as L1.
  destruct (arcfour_encrypt (arcfour_init key n) c) as [ctx c1]. cbn [fst snd] in *.
  by rewrite wr_slice_app, bind_Ret.
Qed.

Lemma unseal key n data :
  snd (arcfour_encrypt (arcfour_init key n) (sealed key n data)) = with_icv data.
Proof. unfold sealed. by rewrite arcfour_encrypt_involutive. Qed.

(** ** Fragments of a transmit buffer *)

Record txfrag := mk_txfrag {
  fr_hdr : bytes; fr_iv : bytes; fr_data : bytes; fr_old : bytes; fr_gap : bytes
}.

Definition frag_img (body : bytes) (f : txfrag) : bytes := fr_hdr f ++ fr_iv f ++ body ++ fr_gap f.
Definition plain_img (f : txfrag) : bytes := frag_img (fr_data f ++ fr_old f) f.

Section Frags.
Context (a : pkt_attrib) (frag_len buf_addr : Z) (icv : nat) (img : txfrag -> bytes)
        (frag : Z -> bytes -> Z -> res bytes).

(** The fragment [f] fits the attributes; [icv] bytes are kept free behind its
    payload. *)
Definition frag_ok (cur : Z) (f : txfrag) : Prop :=
  zlen (fr_hdr f) = tx_hdrlen a /\ zlen (fr_iv f) = tx_iv_len a /\ length (fr_old f) = icv /\
  zlen (fr_data f) = frag_payload a frag_len cur.

(** Fragments follow one another at the addresses the loop computes. *)
Fixpoint frags_ok (pos cur : Z) (fs : list txfrag) : Prop :=
  match fs with
  | [] => True
  | f :: fs =>
      frag_ok cur f /\
      (fs <> [] -> next_frag buf_addr pos frag_len = pos + zlen (plain_img f)) /\
      frags_ok (pos + zlen (plain_img f)) (cur + 1) fs
  end.

(** What the loop over the fragments asks of the routine for one fragment:
    it replaces a fragment by its image [img], of the same length, and leaves
    the rest of the buffer alone. *)
Class FragCipher (P : txfrag -> Prop) : Prop := {
  frag_seals cur pre f post :
    frag_ok cur f -> P f ->
    frag cur (pre ++ plain_img f ++ post) (zlen pre) = Ret (pre ++ img f ++ post);
  frag_length cur f : frag_ok cur f -> P f -> zlen (img f) = zlen (plain_img f)
}.

Context {P : txfrag -> Prop} {cipher : FragCipher P}.

Lemma encrypt_frags_spec fs cur pre post :
  frags_ok (zlen pre) cur fs -> Forall P fs ->
  encrypt_frags frag buf_addr frag_len (length fs) cur (pre ++ concat (map plain_img fs) ++ post) (zlen pre)
  = Ret (pre ++ concat (map img fs) ++ post).
Proof using cipher.
  revert cur pre. induction fs as [|f fs IH]; intros cur pre H HP; [done|].
  destruct H as (Hf & Hn & Hfs). inversion HP as [|? ? Pf Pfs]; subst. cbn [length encrypt_frags map concat].
  rewrite <- !app_assoc, frag_seals, bind_Ret by done.
  rewrite (app_assoc pre (img f)), (app_assoc pre (img f)).
  assert (zlen (pre ++ img f) = zlen pre + zlen (plain_img f)) as E
    by (rewrite zlen_app, (frag_length cur f) by done; done).
  destruct fs as [|g fs]; [done|].
  rewrite Hn, <- E by done. apply IH; [by rewrite E | done].
Qed.
End Frags.

(** The image of a fragment under RC4 with the key made from its IV. *)
Definition cipher_img (key_of : bytes -> bytes) (klen : Z) (f : txfrag) : bytes :=
  frag_img (sealed (key_of (fr_iv f)) klen (fr_data f)) f.

Lemma cipher_img_length key_of klen f : length (fr_old f) = 4%nat -> zlen (cipher_img key_of klen f) = zlen (plain_img f).
Proof.
  intros H. unfold cipher_img, plain_img, frag_img. rewrite !zlen_app. unfold zlen.
  rewrite sealed_length, H. lia.
Qed.

Lemma frag_img_view pre f body post :
  pre ++ frag_img body f ++ post = (pre ++ fr_hdr f) ++ fr_iv f ++ (body ++ fr_gap f ++ post).
Proof. unfold frag_img. by rewrite <- !app_assoc. Qed.

Lemma frag_img_body pre f body post :
  pre ++ frag_img body f ++ post = (pre ++ fr_hdr f ++ fr_iv f) ++ body ++ (fr_gap f ++ post).
Proof. unfold frag_img. by rewrite <- !app_assoc. Qed.

(** Encrypting one fragment of a buffer. *)
Lemma encrypt_at_frag a frag_len cur pre f post key n :
  frag_ok a frag_len 4 cur f ->
  encrypt_at (pre ++ plain_img f ++ post) (zlen pre + tx_iv_len a + tx_hdrlen a) (frag_payload a frag_len cur) key n
  = Ret (pre ++ frag_img (sealed key n (fr_data f)) f ++ post).
Proof.
  intros (H1 & H2 & H3 & H4). unfold plain_img. rewrite !frag_img_body, <- !app_assoc, (app_assoc (fr_hdr f)), (app_assoc pre).
  replace (zlen pre + tx_iv_len a + tx_hdrlen a) with (zlen (pre ++ fr_hdr f ++ fr_iv f)) by (rewrite !zlen_app; lia).
  rewrite <- H4, encrypt_at_spec by done. by rewrite <- !app_assoc.
Qed.

#[local] Instance tkip_frag_cipher tk a frag_len :
  tx_iv_len a = 8 ->
  FragCipher a frag_len 4 (cipher_img (tkip_rc4key tk (tx_ta a)) 16) (tkip_encrypt_frag tk a frag_len) (fun _ => True).
Proof.
  intros Hiv. split; [|intros cur f (_ & _ & Ho & _) _; by apply cipher_img_length].
  intros cur pre f post Hf _. pose proof Hf as (H1 & H2 & _). unfold tkip_encrypt_frag.
  assert (rd_slice (pre ++ plain_img f ++ post) (zlen pre + tx_hdrlen a) 8 = Ret (fr_iv f)) as ->.
  { unfold plain_img. rewrite frag_img_view, <- H1, <- zlen_app, <- Hiv, <- H2. apply rd_slice_app. }
  rewrite bind_Ret. by apply encrypt_at_frag.
Qed.

(** The IV bytes and the WEP key make up the RC4 key. *)
Definition wep_key_of (s : security_priv) (idx : Z) (iv : bytes) : bytes :=
  take 3 iv ++ take (Z.to_nat (znth (dot11DefKeylen s) idx)) (key_at (dot11DefKey s) idx).

(** A WEP key index whose key fits the 16-byte array. *)
Definition wep_key_ok (s : security_priv) (idx : Z) : Prop :=
  0 <= znth (dot11DefKeylen s) idx <= 13 /\ znth (dot11DefKeylen s) idx <= zlen (key_at (dot11DefKey s) idx).

Lemma wep_seed_spec s idx iv :
  wep_key_ok s idx ->
  wep_seed (take 3 iv) (key_at (dot11DefKey s) idx) (znth (dot11DefKeylen s) idx) = Ret (wep_key_of s idx iv).
Proof.
  intros [H1 H2]. unfold wep_seed. destruct (Z.ltb_spec 16 (3 + znth (dot11DefKeylen s) idx)); [lia|].
  by rewrite rd_slice_ok by lia.
Qed.

(** The first three IV bytes, wherever the IV lies. *)
Lemma rd_iv3 pre iv post : 3 <= zlen iv -> rd_slice (pre ++ iv ++ post) (zlen pre) 3 = Ret (take 3 iv).
Proof.
  intros H. pose proof (zlen_nonneg pre). pose proof (zlen_nonneg post).
  rewrite rd_slice_ok by (rewrite ?zlen_app; lia).
  unfold zlen in *. rewrite Nat2Z.id, drop_app_length, take_app_le by lia. done.
Qed.

#[local] Instance wep_frag_cipher s a frag_len :
  wep_key_ok s (dot11PrivacyKeyIndex s) -> tx_iv_len a = 4 ->
  FragCipher a frag_len 4
    (cipher_img (wep_key_of s (dot11PrivacyKeyIndex s)) (3 + znth (dot11DefKeylen s) (dot11PrivacyKeyIndex s)))
    (wep_encrypt_frag s a frag_len) (fun _ => True).
Proof.
  intros Hk Hiv. split; [|intros cur f (_ & _ & Ho & _) _; by apply cipher_img_length].
  intros cur pre f post Hf _. pose proof Hf as (H1 & H2 & _). unfold wep_encrypt_frag.
  assert (rd_slice (pre ++ plain_img f ++ post) (zlen pre + tx_hdrlen a) 3 = Ret (take 3 (fr_iv f))) as ->.
  { unfold plain_img. rewrite frag_img_view, <- H1, <- zlen_app. apply rd_iv3. lia. }
  rewrite bind_Ret, wep_seed_spec, bind_Ret by done. by apply encrypt_at_frag.
Qed.

(** ** Received frames *)

(** The frame [r] holds header, IV and body, at the start of its window. *)
Definition holds (r : recv_frame) (hdr iv body pre post : bytes) : Prop :=
  rx_mem r = pre ++ hdr ++ iv ++ body ++ post /\ rx_data r = zlen pre /\
  len r = zlen hdr + zlen iv + zlen body /\
  hdrlen (attrib r) = zlen hdr /\ iv_len (attrib r) = zlen iv.

Lemma decrypt_at_frame r hdr iv body pre post key n :
  holds r hdr iv body pre post ->
  decrypt_at (rx_mem r) (rx_data r + iv_len (attrib r) + hdrlen (attrib r))
    (len r - hdrlen (attrib r) - iv_len (attrib r)) key n
  = Ret (pre ++ hdr ++ iv ++ snd (arcfour_encrypt (arcfour_init key n) body) ++ post,
         snd (arcfour_encrypt (arcfour_init key n) body)).
Proof.
  intros (Hm & Hd & Hl & Hh & Hi). rewrite Hm, Hd, Hl, Hh, Hi.
  replace (zlen hdr + zlen iv + zlen body - zlen hdr - zlen iv) with (zlen body) by lia.
  replace (zlen pre + zlen iv + zlen hdr) with (zlen ((pre ++ hdr) ++ iv)) by (rewrite !zlen_app; lia).
  rewrite (app_assoc pre), (app_assoc (pre ++ hdr)), decrypt_at_spec. by rewrite <- !app_assoc.
Qed.

Lemma le_split_inj4 w w' : is_u32 w -> is_u32 w' -> le_split 4 w = le_split 4 w' -> w = w'.
Proof.
  intros Hw Hw' E. unfold is_u32 in *.
  assert (forall n w, le_combine (le_split n w) = w mod 2 ^ (8 * Z.of_nat n)) as R.
  { clear. induction n as [|n IH]; intros w.
    - cbn. by rewrite Z.mod_1_r.
    - cbn [le_split le_combine]. rewrite IH. change 255 with (Z.ones 8).
      apply Z.bits_inj'. intros k Hk. rewrite Z.lor_spec, Z.land_spec.
      rewrite <- !Z.land_ones, Z.land_spec by lia.
      destruct (Z.lt_ge_cases k 8).
      + rewrite Z.shiftl_spec_low, !Z.ones_spec_low, orb_false_r by lia. done.
      + rewrite Z.shiftl_spec, Z.land_spec, Z.shiftr_spec, Z.ones_spec_high by lia.
        rewrite andb_false_r, orb_false_l. replace (k - 8 + 8) with k by lia. f_equal.
        destruct (Z.lt_ge_cases (k - 8) (8 * Z.of_nat n)).
        * rewrite !Z.ones_spec_low by lia. done.
        * rewrite !Z.ones_spec_high by lia. done. }
  pose proof (R 4%nat w) as A. pose proof (R 4%nat w') as B. rewrite E in A. rewrite A in B.
  change (2 ^ (8 * Z.of_nat 4)) with 4294967296 in B. rewrite !Z.mod_small in B by lia. done.
Qed.

(** The integrity check on a payload of the form message, then four bytes. *)
Lemma icv_matches_spec pre data x0 x1 x2 x3 post :
  bytes_ok data ->
  icv_matches (pre ++ (data ++ [x0; x1; x2; x3]) ++ post) (data ++ [x0; x1; x2; x3]) (zlen pre)
  = Ret (bool_decide (le_split 4 (getcrc32 data) = [x0; x1; x2; x3])).
Proof.
  intros Hd. unfold icv_matches. pose proof (zlen_nonneg data). pose proof (zlen_nonneg pre).
  rewrite zlen_app. change (zlen [x0; x1; x2; x3]) with 4.
  replace (Z.to_nat (zlen data + 4 - 4)) with (length data) by (unfold zlen; lia).
  rewrite take_app_length.
  assert (forall k, 0 <= k < 4 ->
    rd (pre ++ (data ++ [x0; x1; x2; x3]) ++ post) (zlen pre + (zlen data + 4) - (4 - k)) = rd [x0; x1; x2; x3] k) as R.
  { intros k Hk. rewrite rd_app_r by lia. rewrite rd_app_l by (rewrite zlen_app; change (zlen [x0; x1; x2; x3]) with 4; lia).
    rewrite rd_app_r by lia. f_equal. lia. }
  pose proof (R 0 ltac:(lia)) as R0. pose proof (R 1 ltac:(lia)) as R1.
  pose proof (R 2 ltac:(lia)) as R2. pose proof (R 3 ltac:(lia)) as R3. clear R.
  change (4 - 0) with 4 in R0. change (4 - 1) with 3 in R1. change (4 - 2) with 2 in R2. change (4 - 3) with 1 in R3.
  rewrite R0, R1, R2, R3. cbn [rd].
  pose proof (le_split_length 4 (getcrc32 data)) as L.
  destruct (le_split 4 (getcrc32 data)) as [|c0 [|c1 [|c2 [|c3 []]]]]; try discriminate. clear L R0 R1 R2 R3.
  change (znth [c0; c1; c2; c3] 3) with c3. change (znth [c0; c1; c2; c3] 2) with c2.
  change (znth [c0; c1; c2; c3] 1) with c1. change (znth [c0; c1; c2; c3] 0) with c0.
  change (rd [x0; x1; x2; x3] 3) with (Ret x3). change (rd [x0; x1; x2; x3] 2) with (Ret x2).
  change (rd [x0; x1; x2; x3] 1) with (Ret x1). change (rd [x0; x1; x2; x3] 0) with (Ret x0).
  rewrite !bind_Ret.
  destruct (Z.eqb_spec c3 x3); cbn [negb]; [subst c3|rewrite bool_decide_eq_false_2 by congruence; done].
  destruct (Z.eqb_spec c2 x2); cbn [negb]; [subst c2|rewrite bool_decide_eq_false_2 by congruence; done].
  destruct (Z.eqb_spec c1 x1); cbn [negb]; [subst c1|rewrite bool_decide_eq_false_2 by congruence; done].
  destruct (Z.eqb_spec c0 x0); [subst c0; by rewrite bool_decide_eq_true_2|by rewrite bool_decide_eq_false_2 by congruence].
Qed.

Lemma with_icv_tail data : exists x0 x1 x2 x3, le_split 4 (getcrc32 data) = [x0; x1; x2; x3].
Proof.
  pose proof (le_split_length 4 (getcrc32 data)) as L.
  destruct (le_split 4 (getcrc32 data)) as [|c0 [|c1 [|c2 [|c3 []]]]]; try discriminate. by exists c0, c1, c2, c3.
Qed.

(** TKIP decryption of a unicast frame: the payload is decrypted in place, and
    the return value says whether its last four bytes are its checksum. *)
Lemma tkip_decrypt_frame s tk r hdr iv body pre post data x0 x1 x2 x3 :
  holds r hdr iv body pre post -> zlen iv = 8 ->
  encrypt (attrib r) = _TKIP_ -> IS_MCAST (ra (attrib r)) = false -> bytes_ok data ->
  snd (arcfour_encrypt (arcfour_init (tkip_rc4key tk (ta (attrib r)) iv) 16) body) = data ++ [x0; x1; x2; x3] ->
  rtw_tkip_decrypt s (Some tk) r
  = Ret (res_of (bool_decide (le_split 4 (getcrc32 data) = [x0; x1; x2; x3])),
         set_mem r (pre ++ hdr ++ iv ++ (data ++ [x0; x1; x2; x3]) ++ post)).
Proof.
  intros Hr Hiv He Hm Hd Hp. unfold rtw_tkip_decrypt. rewrite He, Hm. cbn [Z.eqb _TKIP_ Pos.eqb andb].
  assert (rd_slice (rx_mem r) (rx_data r + hdrlen (attrib r)) 8 = Ret iv) as ->.
  { destruct Hr as (Hmem & Hdata & _ & Hh & _). rewrite Hmem, Hdata, Hh, app_assoc, <- zlen_app, <- Hiv. apply rd_slice_app. }
  rewrite bind_Ret, (decrypt_at_frame r hdr iv body pre post) by done. rewrite bind_Ret. cbn [fst snd].
  rewrite Hp.
  replace (rx_data r + iv_len (attrib r) + hdrlen (attrib r)) with (zlen (pre ++ hdr ++ iv))
    by (destruct Hr as (_ & Hdata & _ & Hh & Hi); rewrite Hdata, Hh, Hi, !zlen_app; lia).
  assert (pre ++ hdr ++ iv ++ (data ++ [x0; x1; x2; x3]) ++ post
          = (pre ++ hdr ++ iv) ++ (data ++ [x0; x1; x2; x3]) ++ post) as E by (by rewrite <- !app_assoc).
  rewrite E, icv_matches_spec by done. done.
Qed.

Lemma tkip_decrypt_sealed s tk r hdr iv data pre post :
  holds r hdr iv (sealed (tkip_rc4key tk (ta (attrib r)) iv) 16 data) pre post -> zlen iv = 8 ->
  encrypt (attrib r) = _TKIP_ -> IS_MCAST (ra (attrib r)) = false -> bytes_ok data ->
  rtw_tkip_decrypt s (Some tk) r = Ret (_SUCCESS, set_mem r (pre ++ hdr ++ iv ++ with_icv data ++ post)).
Proof.
  intros Hr Hiv He Hm Hd. destruct (with_icv_tail data) as (x0 & x1 & x2 & x3 & E).
  rewrite (tkip_decrypt_frame s tk r hdr iv _ pre post data x0 x1 x2 x3 Hr) by (rewrite ?unseal; unfold with_icv; rewrite ?E; done).
  unfold with_icv. rewrite E, bool_decide_eq_true_2 by done. done.
Qed.

(** Software TKIP round trip.  For a unicast frame of any number of
    fragments laid out in the transmit buffer as the loop addresses them,
    [rtw_tkip_encrypt] succeeds and changes only the fragment bodies (payload
    and the four bytes after it); every fragment, received in any buffer with
    the same header and IV, is decrypted by [rtw_tkip_decrypt] with the same
    key to the original payload and its checksum, and accepted. *)
Theorem tkip_frames_roundtrip s a frag_len buf_addr pre fs post :
  tx_encrypt a = _TKIP_ -> tx_iv_len a = 8 -> nr_frags a = zlen fs -> IS_MCAST (tx_ra a) = false ->
  frags_ok a frag_len buf_addr 4 (zlen pre) 0 fs ->
  exists body,
    rtw_tkip_encrypt s a frag_len buf_addr (zlen pre) (Some (pre ++ concat (map plain_img fs) ++ post))
    = Ret (_SUCCESS, Some (pre ++ concat (map (fun f => frag_img (body f) f) fs) ++ post)) /\
    forall f s' r rpre rpost, bytes_ok (fr_data f) -> zlen (fr_iv f) = 8 ->
      holds r (fr_hdr f) (fr_iv f) (body f) rpre rpost ->
      encrypt (attrib r) = _TKIP_ -> ta (attrib r) = tx_ta a -> IS_MCAST (ra (attrib r)) = false ->
      rtw_tkip_decrypt s' (Some (tx_UncstKey a)) r
      = Ret (_SUCCESS, set_mem r (rpre ++ fr_hdr f ++ fr_iv f ++ with_icv (fr_data f) ++ rpost)).
Proof.
  intros He Hiv Hn Hm Hfs.
  exists (fun f => sealed (tkip_rc4key (tx_UncstKey a) (tx_ta a) (fr_iv f)) 16 (fr_data f)). split.
  - unfold rtw_tkip_encrypt. rewrite He, Hm. cbn [Z.eqb _TKIP_ Pos.eqb].
    replace (Z.to_nat (nr_frags a)) with (length fs) by (rewrite Hn; unfold zlen; lia).
    pose proof (tkip_frag_cipher (tx_UncstKey a) a frag_len Hiv).
    rewrite (encrypt_frags_spec a frag_len buf_addr 4 _ _ fs 0 pre post Hfs (Forall_true _ _ (fun _ => I))). done.
  - intros f s' r rpre rpost Hd Hiv' Hr Her Hta Hmr. apply tkip_decrypt_sealed; try done. by rewrite Hta.
Qed.

(** One byte of a ciphertext changed: one byte of the plaintext changes. *)
Lemma arcfour_one_byte c b1 x y b2 :
  x <> y -> exists A k B,
    snd (arcfour_encrypt c (b1 ++ x :: b2)) = A ++ Z.lxor x k :: B /\
    snd (arcfour_encrypt c (b1 ++ y :: b2)) = A ++ Z.lxor y k :: B /\
    Z.lxor x k <> Z.lxor y k /\ is_byte k.
Proof.
  intros Hne. rewrite !arcfour_encrypt_app. cbn [snd]. rewrite !arcfour_encrypt_cons. cbn [snd].
  eexists _, _, _. split_and!; [reflexivity|reflexivity| |auto with rtw].
  intros E. by apply lxor_cancel_r in E.
Qed.

(** A protected message in which one byte has been replaced does not match
    its checksum. *)
Lemma corrupt_icv data A u v B :
  bytes_ok data -> with_icv data = A ++ u :: B -> u <> v -> is_byte v ->
  exists data' x0 x1 x2 x3, A ++ v :: B = data' ++ [x0; x1; x2; x3] /\ bytes_ok data' /\
    le_split 4 (getcrc32 data') <> [x0; x1; x2; x3].
Proof.
  intros Hd E Hne Hv. destruct (with_icv_tail data) as (x0 & x1 & x2 & x3 & Ei).
  unfold with_icv in E. rewrite Ei in E. symmetry in E.
  apply List.app_eq_app in E as [l [[-> E]|[-> E]]].
  - pose proof (f_equal length E) as L. rewrite length_app in L. cbn in L.
    assert (exists y0 y1 y2 y3, l ++ v :: B = [y0; y1; y2; y3]) as (y0 & y1 & y2 & y3 & Ey).
    { assert (length (l ++ v :: B) = 4%nat) as L4 by (rewrite length_app; cbn; lia).
      destruct (l ++ v :: B) as [|c0 [|c1 [|c2 [|c3 []]]]]; try discriminate. eauto. }
    exists data, y0, y1, y2, y3. rewrite <- Ey, <- app_assoc. split_and!; [done..|].
    rewrite Ei, E. intros F. apply app_inv_head in F. congruence.
  - destruct l as [|u' l]; cbn [app] in E.
    + exists A. rewrite app_nil_r in *. destruct B as [|y1 [|y2 [|y3 []]]]; try discriminate.
      exists v, y1, y2, y3. split_and!; [done..|]. rewrite Ei. congruence.
    + injection E as <- ->. exists (A ++ v :: l), x0, x1, x2, x3.
      apply Forall_app in Hd as [HA Hl]. apply Forall_cons in Hl as [Hu Hl].
      split_and!; [by rewrite <- app_assoc | by apply Forall_app_2; [|constructor] |].
      rewrite <- Ei. intros F. apply le_split_inj4 in F.
      * symmetry in F. revert F. by apply getcrc32_one_byte.
      * apply getcrc32_range. by apply Forall_app_2; [|constructor].
      * apply getcrc32_range. by apply Forall_app_2; [|constructor].
Qed.

(** [rtw_tkip_decrypt] returns [_FAIL] for every unicast frame whose body
    is a correctly encrypted body in which a single byte, of the payload or of
    the integrity value, has been changed. *)
Theorem tkip_detects_corrupted_byte s tk r hdr iv data b1 x y b2 pre post :
  bytes_ok data -> zlen iv = 8 -> is_byte y -> x <> y ->
  sealed (tkip_rc4key tk (ta (attrib r)) iv) 16 data = b1 ++ x :: b2 ->
  holds r hdr iv (b1 ++ y :: b2) pre post ->
  encrypt (attrib r) = _TKIP_ -> IS_MCAST (ra (attrib r)) = false ->
  exists r', rtw_tkip_decrypt s (Some tk) r = Ret (_FAIL, r').
Proof.
  intros Hd Hiv Hy Hne Es Hr He Hm. set (key := tkip_rc4key tk (ta (attrib r)) iv) in *.
  destruct (arcfour_one_byte (arcfour_init key 16) b1 x y b2 Hne) as (A & k & B & E1 & E2 & Hk & Hkb).
  rewrite <- Es, unseal in E1.
  assert (is_byte (Z.lxor y k)) as Hv by (by apply lxor_byte).
  destruct (corrupt_icv data A _ _ B Hd E1 Hk Hv) as (data' & x0 & x1 & x2 & x3 & E & Hd' & Hcrc).
  eexists. rewrite (tkip_decrypt_frame s tk r hdr iv _ pre post data' x0 x1 x2 x3 Hr); try done.
  - by rewrite bool_decide_eq_false_2.
  - unfold key in E2. by rewrite E2.
Qed.

(** Software WEP round trip.  With a key that fits the 16-byte seed,
    [rtw_wep_encrypt] changes only the fragment bodies, and
    [rtw_wep_decrypt] of each fragment with the same key gives the original
    payload followed by its checksum. *)
Theorem wep_frames_roundtrip s a frag_len buf_addr pre fs post :
  tx_encrypt a = _WEP40_ \/ tx_encrypt a = _WEP104_ -> tx_iv_len a = 4 -> nr_frags a = zlen fs ->
  wep_key_ok s (dot11PrivacyKeyIndex s) ->
  frags_ok a frag_len buf_addr 4 (zlen pre) 0 fs ->
  exists body,
    rtw_wep_encrypt s a frag_len buf_addr (zlen pre) (Some (pre ++ concat (map plain_img fs) ++ post))
    = Ret (Some (pre ++ concat (map (fun f => frag_img (body f) f) fs) ++ post)) /\
    forall f r rpre rpost, zlen (fr_iv f) = 4 ->
      holds r (fr_hdr f) (fr_iv f) (body f) rpre rpost ->
      encrypt (attrib r) = tx_encrypt a -> key_index (attrib r) = dot11PrivacyKeyIndex s ->
      rtw_wep_decrypt s r
      = Ret (set_mem r (rpre ++ fr_hdr f ++ fr_iv f ++ with_icv (fr_data f) ++ rpost)).
Proof.
  intros He Hiv Hn Hk Hfs.
  exists (fun f => sealed (wep_key_of s (dot11PrivacyKeyIndex s) (fr_iv f))
                     (3 + znth (dot11DefKeylen s) (dot11PrivacyKeyIndex s)) (fr_data f)).
  assert ((tx_encrypt a =? _WEP40_) || (tx_encrypt a =? _WEP104_) = true) as Hw by (destruct He as [->| ->]; done).
  split.
  - unfold rtw_wep_encrypt. rewrite Hw.
    replace (Z.to_nat (nr_frags a)) with (length fs) by (rewrite Hn; unfold zlen; lia).
    pose proof (wep_frag_cipher s a frag_len Hk Hiv).
    rewrite (encrypt_frags_spec a frag_len buf_addr 4 _ _ fs 0 pre post Hfs (Forall_true _ _ (fun _ => I))). done.
  - intros f r rpre rpost Hiv' Hr Her Hki. unfold rtw_wep_decrypt. rewrite Her, Hw.
    assert (rd_slice (rx_mem r) (rx_data r + hdrlen (attrib r)) 3 = Ret (take 3 (fr_iv f))) as ->.
    { destruct Hr as (Hmem & Hdata & _ & Hh & _). rewrite Hmem, Hdata, Hh, app_assoc, <- zlen_app. apply rd_iv3. lia. }
    rewrite bind_Ret, Hki, wep_seed_spec, bind_Ret by done.
    erewrite (decrypt_at_frame r) by exact Hr. rewrite bind_Ret. cbn [fst]. by rewrite unseal.
Qed.

(** *** A two-fragment frame *)

Definition ex_attr (enc ivlen : Z) : pkt_attrib := mk_pkt enc 24 ivlen 4 2 (24 + ivlen + 3 + 4) (replicate 6 2) (replicate 6 4) (map Z.of_nat (seq 0 16)).

Definition ex_frags (ivlen : nat) : list txfrag :=
  [mk_txfrag (replicate 24 7) (replicate ivlen 9) [1; 2; 3; 4; 5] (replicate 4 0) (replicate 3 0);
   mk_txfrag (replicate 24 7) (replicate ivlen 8) [6; 7; 8] (replicate 4 0) []].

Definition ex_sec : security_priv := mk_sec 0 [[11; 12; 13; 14; 15]] [5] 0 [] true.

Lemma tkip_frames_roundtrip_witness :
  exists body,
    rtw_tkip_encrypt ex_sec (ex_attr _TKIP_ 8) 41 4096 0 (Some ([] ++ concat (map plain_img (ex_frags 8)) ++ []))
    = Ret (_SUCCESS, Some ([] ++ concat (map (fun f => frag_img (body f) f) (ex_frags 8)) ++ [])).
Proof.
  destruct (tkip_frames_roundtrip ex_sec (ex_attr _TKIP_ 8) 41 4096 [] (ex_frags 8) []) as (body & H & _);
    [reflexivity | reflexivity | reflexivity | reflexivity | | by exists body].
  vm_compute. repeat split; congruence.
Defined.

Lemma wep_frames_roundtrip_witness :
  exists body,
    rtw_wep_encrypt ex_sec (ex_attr _WEP40_ 4) 37 4096 0 (Some ([] ++ concat (map plain_img (ex_frags 4)) ++ []))
    = Ret (Some ([] ++ concat (map (fun f => frag_img (body f) f) (ex_frags 4)) ++ [])).
Proof.
  destruct (wep_frames_roundtrip ex_sec (ex_attr _WEP40_ 4) 37 4096 [] (ex_frags 4) []) as (body & H & _);
    [by left | reflexivity | reflexivity | vm_compute; repeat split; congruence | | by exists body].
  vm_compute. repeat split; congruence.
Defined.

(** The body of a TKIP frame, its first byte replaced by zero on reception. *)
Definition ex_tk : bytes := map Z.of_nat (seq 0 16).
Definition ex_body : bytes := Eval vm_compute in
  sealed (tkip_rc4key ex_tk (replicate 6 4) (replicate 8 9)) 16 [1; 2; 3; 4; 5].
Definition ex_rx : recv_frame :=
  mk_frame (mk_attrib 24 0 0 0 0 0 0 0 0 0 0 _TKIP_ 8 4 [] [] (replicate 6 4) (replicate 6 2) [] 0 0)
    (replicate 24 7 ++ replicate 8 9 ++ 0 :: tail ex_body) 0 41 41 0.

Lemma tkip_detects_corrupted_byte_witness : exists r', rtw_tkip_decrypt ex_sec (Some ex_tk) ex_rx = Ret (_FAIL, r').
Proof.
  apply (tkip_detects_corrupted_byte ex_sec ex_tk ex_rx (replicate 24 7) (replicate 8 9) [1; 2; 3; 4; 5]
           [] (List.hd 0 ex_body) 0 (tail ex_body) [] []).
  - repeat constructor; vm_compute; congruence.
  - reflexivity.
  - vm_compute. split; congruence.
  - vm_compute. discriminate.
  - vm_compute. reflexivity.
  - vm_compute. repeat split; congruence.
  - reflexivity.
  - reflexivity.
Defined.
