(* ===== verification/StaMgt.v ===== *)
(** * Station table (core/rtw_sta_mgt.c, include/sta_info.h)

    [struct sta_priv] keeps a pool of NUM_STA station entries: an entry is
    either on [free_sta_queue] or on the hash chain of its address.  Entries
    are named by their offset in [pstainfo_buf], chains and queues hold
    offsets.  [rtw_alloc_stainfo], [rtw_free_stainfo], [rtw_free_all_stainfo]
    and [rtw_get_stainfo] are refined to a finite map from addresses to
    entries; [rtw_aid_alloc] hands out association ids.

    Of [struct sta_info] the fields the receive path, the association ids and
    the release of an entry use are kept.  The frames of the transmit queues,
    the hardware mac id, the rate adaptation hooks and the timers of other
    components are not part of this state. *)

From S2P Require Import Prelude RxFrame Reorder.

Definition NUM_STA : Z := 32.

(** ** Data *)

(** [struct sta_recv_priv] with its [struct stainfo_rxcache]. *)
Record sta_recv_priv := mk_srecv {
  defrag_q : list recv_frame;
  tid_rxseq : list Z;
  rx_iv : list bytes;
  last_tid : Z;
  bmc_tid_rxseq : list Z;
  nonqos_rxseq : Z;
  nonqos_bmc_rxseq : Z
}.

(** Transmit counters: the frames waiting per access category (vo, vi, be,
    bk) and on the power-save queue. *)
Record sta_tx := mk_stx { qcnt : list Z; sleepq_len : Z }.

(** The power-save and expiry fields an access point keeps for a station. *)
Record sta_ps := mk_sps {
  expire_to : Z; sleepq_ac_len : Z; qos_info : Z; max_sp_len : Z;
  uapsd_bk : Z; uapsd_be : Z; uapsd_vi : Z; uapsd_vo : Z; has_legacy_ac : Z
}.

Record sta_info := mk_sta {
  mac_addr : bytes;
  sta_state : Z;
  aid : Z;
  sta_flags : Z;
  ieee8021x_blocked : Z;
  dot118021XPrivacy : Z;
  dot11tkiprxmickey : bytes;
  dot118021x_UncstKey : bytes;
  sta_keytrack : Z;
  duplicate_cnt : Z;
  RxMgmtFrameSeqNum : Z;
  recvpriv : sta_recv_priv;
  recvreorder_ctrl : list recv_reorder_ctrl;
  stx : sta_tx;
  sps : sta_ps
}.

(** [struct sta_priv]; [accnt] are the four [hwxmits[].accnt] counters of the
    transmit path, which releasing a station updates. *)
Record sta_priv := mk_stapriv {
  stainfo_buf : list sta_info;
  free_sta_queue : list nat;
  sta_hash : list (list nat);
  asoc_sta_count : Z;
  auth_list : list nat;
  auth_list_cnt : Z;
  sta_aid : list (option nat);
  max_aid : Z;
  started_aid : Z;
  rr_aid : bool;
  max_num_sta : Z;
  sta_dz_bitmap : bytes;
  tim_bitmap : bytes;
  accnt : list Z
}.

(** ** Bitmaps of core/rtw_wlan_util.c: [bmp_len] bytes, bit [id] *)

Definition rtw_bmp_is_set (bmp : bytes) (bmp_len id : Z) : bool :=
  if bmp_len <=? id / 8 then false
  else bit_test (znth bmp (id / 8)) (BIT (id mod 8)).

Definition rtw_bmp_set (bmp : bytes) (bmp_len id : Z) : bytes :=
  if id / 8 <? bmp_len
  then <[Z.to_nat (id / 8) := Z.lor (znth bmp (id / 8)) (BIT (id mod 8))]> bmp else bmp.

Definition rtw_bmp_clear (bmp : bytes) (bmp_len id : Z) : bytes :=
  if id / 8 <? bmp_len
  then <[Z.to_nat (id / 8) := u8 (Z.land (znth bmp (id / 8)) (Z.lnot (BIT (id mod 8))))]> bmp else bmp.

(** The loops over the first [bmp_len] bytes. *)
Fixpoint bmp_any (b : bytes) : bool :=
  match b with [] => false | x :: b => if x =? 0 then bmp_any b else true end.

Definition rtw_bmp_not_empty (bmp : bytes) (bmp_len : Z) : bool := bmp_any (take (Z.to_nat bmp_len) bmp).

Definition rtw_bmp_not_empty_exclude_bit0 (bmp : bytes) (bmp_len : Z) : bool :=
  match take (Z.to_nat bmp_len) bmp with
  | [] => false
  | x :: b => if Z.land x 0xFE =? 0 then bmp_any b else true
  end.

(** [AID_BMP_LEN] *)
Definition AID_BMP_LEN (m : Z) : Z := (m + 1) / 8 + (if (m + 1) mod 8 =? 0 then 0 else 1).

(** The maps of [struct sta_priv] are [aid_bmp_len] bytes long. *)
Definition rtw_tim_map_is_set (p : sta_priv) (map : bytes) (id : Z) : bool :=
  rtw_bmp_is_set map (AID_BMP_LEN (max_aid p)) (u8 id).
Definition rtw_tim_map_set (p : sta_priv) (map : bytes) (id : Z) : bytes :=
  rtw_bmp_set map (AID_BMP_LEN (max_aid p)) (u8 id).
Definition rtw_tim_map_clear (p : sta_priv) (map : bytes) (id : Z) : bytes :=
  rtw_bmp_clear map (AID_BMP_LEN (max_aid p)) (u8 id).
Definition rtw_tim_map_anyone_be_set (p : sta_priv) (map : bytes) : bool :=
  rtw_bmp_not_empty map (AID_BMP_LEN (max_aid p)).
Definition rtw_tim_map_anyone_be_set_exclude_aid0 (p : sta_priv) (map : bytes) : bool :=
  rtw_bmp_not_empty_exclude_bit0 map (AID_BMP_LEN (max_aid p)).

(** ** Field updates *)

Definition set_stainfo (p : sta_priv) (b : list sta_info) : sta_priv :=
  mk_stapriv b (free_sta_queue p) (sta_hash p) (asoc_sta_count p) (auth_list p) (auth_list_cnt p)
    (sta_aid p) (max_aid p) (started_aid p) (rr_aid p) (max_num_sta p) (sta_dz_bitmap p) (tim_bitmap p) (accnt p).
Definition set_free (p : sta_priv) (q : list nat) : sta_priv :=
  mk_stapriv (stainfo_buf p) q (sta_hash p) (asoc_sta_count p) (auth_list p) (auth_list_cnt p)
    (sta_aid p) (max_aid p) (started_aid p) (rr_aid p) (max_num_sta p) (sta_dz_bitmap p) (tim_bitmap p) (accnt p).
Definition set_hash (p : sta_priv) (h : list (list nat)) (n : Z) : sta_priv :=
  mk_stapriv (stainfo_buf p) (free_sta_queue p) h n (auth_list p) (auth_list_cnt p)
    (sta_aid p) (max_aid p) (started_aid p) (rr_aid p) (max_num_sta p) (sta_dz_bitmap p) (tim_bitmap p) (accnt p).
Definition set_auth (p : sta_priv) (l : list nat) (n : Z) : sta_priv :=
  mk_stapriv (stainfo_buf p) (free_sta_queue p) (sta_hash p) (asoc_sta_count p) l n
    (sta_aid p) (max_aid p) (started_aid p) (rr_aid p) (max_num_sta p) (sta_dz_bitmap p) (tim_bitmap p) (accnt p).
Definition set_aids (p : sta_priv) (t : list (option nat)) (start : Z) : sta_priv :=
  mk_stapriv (stainfo_buf p) (free_sta_queue p) (sta_hash p) (asoc_sta_count p) (auth_list p) (auth_list_cnt p)
    t (max_aid p) start (rr_aid p) (max_num_sta p) (sta_dz_bitmap p) (tim_bitmap p) (accnt p).
Definition set_maps (p : sta_priv) (dz tim : bytes) : sta_priv :=
  mk_stapriv (stainfo_buf p) (free_sta_queue p) (sta_hash p) (asoc_sta_count p) (auth_list p) (auth_list_cnt p)
    (sta_aid p) (max_aid p) (started_aid p) (rr_aid p) (max_num_sta p) dz tim (accnt p).
Definition set_accnt (p : sta_priv) (c : list Z) : sta_priv :=
  mk_stapriv (stainfo_buf p) (free_sta_queue p) (sta_hash p) (asoc_sta_count p) (auth_list p) (auth_list_cnt p)
    (sta_aid p) (max_aid p) (started_aid p) (rr_aid p) (max_num_sta p) (sta_dz_bitmap p) (tim_bitmap p) c.

(** The entry at an offset, and writing it. *)
Definition upd_sta (p : sta_priv) (i : nat) (f : sta_info -> sta_info) : sta_priv :=
  set_stainfo p (alter f i (stainfo_buf p)).

(** ** Operations *)

Definition bc_addr : bytes := [0xff; 0xff; 0xff; 0xff; 0xff; 0xff].

Definition wifi_mac_hash (mac : bytes) : Z :=
  let x := znth mac 0 in
  let x := u32 (Z.lxor (Z.shiftl x 2) (znth mac 1)) in
  let x := u32 (Z.lxor (Z.shiftl x 2) (znth mac 2)) in
  let x := u32 (Z.lxor (Z.shiftl x 2) (znth mac 3)) in
  let x := u32 (Z.lxor (Z.shiftl x 2) (znth mac 4)) in
  let x := u32 (Z.lxor (Z.shiftl x 2) (znth mac 5)) in
  let x := Z.lxor x (Z.shiftr x 8) in
  Z.land x (NUM_STA - 1).

Definition sps_zero : sta_ps := mk_sps 0 0 0 0 0 0 0 0 0.

(** [_rtw_init_stainfo]: all fields zero, the queues empty. *)
Definition _rtw_init_stainfo : sta_info :=
  mk_sta (replicate 6 0) 0 0 0 0 0 (replicate 16 0) (replicate 16 0) 0 0 0
    (mk_srecv [] (replicate 16 0) (replicate 16 (replicate 8 0)) 0 (replicate 16 0) 0 0)
    (replicate 16 (mk_ctrl false 0 0 [] false false false))
    (mk_stx (replicate 4 0) 0) sps_zero.

(** The entry [rtw_alloc_stainfo] sets up on top of [_rtw_init_stainfo]: no
    frame seen yet, so every cached sequence control is 0xffff. *)
Definition alloc_entry (hwaddr : bytes) : sta_info :=
  let s := _rtw_init_stainfo in
  mk_sta hwaddr (sta_state s) (aid s) (sta_flags s) (ieee8021x_blocked s) (dot118021XPrivacy s)
    (dot11tkiprxmickey s) (dot118021x_UncstKey s) 0 (duplicate_cnt s) 0xffff
    (mk_srecv (defrag_q (recvpriv s)) (replicate 16 0xffff) (replicate 16 (replicate 8 0))
       (last_tid (recvpriv s)) (replicate 16 0xffff) 0xffff 0xffff)
    (replicate 16 (mk_ctrl false 0xffff 64 [] false false false))
    (stx s) (sps s).

(** The entry's offset, or [None] for NULL. *)
Definition rtw_alloc_stainfo (p : sta_priv) (hwaddr : bytes) : sta_priv * option nat :=
  match free_sta_queue p with
  | [] => (p, None)
  | i :: q =>
      let p := set_free p q in
      let p := upd_sta p i (fun _ => alloc_entry hwaddr) in
      let index := wifi_mac_hash hwaddr in
      if NUM_STA <=? index then (p, None)
      else
        let p := set_hash p (alter (fun c => c ++ [i]) (Z.to_nat index) (sta_hash p)) (asoc_sta_count p + 1) in
        (p, Some i)
  end.

(** [rtw_list_delete(&psta->hash_list)]: unlink from whichever chain. *)
Definition hash_unlink (h : list (list nat)) (i : nat) : list (list nat) :=
  map (filter (fun j => j <> i)) h.

Definition WIFI_ASOC_STATE : Z := 1.

(** The per-TID reorder state when the station goes away: acknowledgement
    flag cleared, timer cancelled, pending frames freed. *)
Definition release_reorder (c : recv_reorder_ctrl) : recv_reorder_ctrl :=
  mk_ctrl (enable c) (indicate_seq c) (wsize_b c) [] (bReorderWaiting c) false false.

Definition release_entry (s : sta_info) : sta_info :=
  let r := recvpriv s in
  mk_sta (mac_addr s) (Z.land (sta_state s) (Z.lnot WIFI_ASOC_STATE)) (aid s) (sta_flags s)
    (ieee8021x_blocked s) (dot118021XPrivacy s) (dot11tkiprxmickey s) (dot118021x_UncstKey s)
    (sta_keytrack s) (duplicate_cnt s) (RxMgmtFrameSeqNum s)
    (mk_srecv [] (tid_rxseq r) (rx_iv r) (last_tid r) (bmc_tid_rxseq r) (nonqos_rxseq r) (nonqos_bmc_rxseq r))
    (map release_reorder (recvreorder_ctrl s))
    (mk_stx (replicate 4 0) 0) sps_zero.

Definition set_aid (s : sta_info) (a : Z) : sta_info :=
  mk_sta (mac_addr s) (sta_state s) a (sta_flags s)
    (ieee8021x_blocked s) (dot118021XPrivacy s) (dot11tkiprxmickey s) (dot118021x_UncstKey s)
    (sta_keytrack s) (duplicate_cnt s) (RxMgmtFrameSeqNum s) (recvpriv s) (recvreorder_ctrl s) (stx s) (sps s).

(** The association id and traffic-map bits of a station of an access point. *)
Definition release_aid (p : sta_priv) (i : nat) : sta_priv :=
  match stainfo_buf p !! i with
  | None => p
  | Some s =>
      let p := set_maps p (rtw_tim_map_clear p (sta_dz_bitmap p) (aid s))
                          (rtw_tim_map_clear p (tim_bitmap p) (aid s)) in
      if (0 <? aid s) && bool_decide (sta_aid p !! Z.to_nat (aid s - 1) = Some (Some i)) then
        let p := set_aids p (<[Z.to_nat (aid s - 1) := None]> (sta_aid p)) (started_aid p) in
        upd_sta p i (fun s => set_aid s 0)
      else p
  end.

(** [hw_ap]: [pmlmeinfo->state == _HW_STATE_AP_]; [None] is a NULL station. *)
Definition rtw_free_stainfo (hw_ap : bool) (p : sta_priv) (psta : option nat) : sta_priv :=
  match psta with
  | None => p
  | Some i =>
      let p := set_hash p (hash_unlink (sta_hash p) i) (asoc_sta_count p - 1) in
      let q := match stainfo_buf p !! i with Some s => qcnt (stx s) | None => [] end in
      let p := set_accnt p (zip_with Z.sub (accnt p) q) in
      let p := upd_sta p i release_entry in
      let p := if bool_decide (i ∈ auth_list p)
               then set_auth p (filter (fun j => j <> i) (auth_list p)) (u8 (auth_list_cnt p - 1)) else p in
      let p := if hw_ap then release_aid p i else p in
      set_free p (free_sta_queue p ++ [i])
  end.

(** The first entry of a chain with the address. *)
Fixpoint chain_search (p : sta_priv) (chain : list nat) (addr : bytes) : option nat :=
  match chain with
  | [] => None
  | i :: c =>
      match stainfo_buf p !! i with
      | Some s => if bool_decide (mac_addr s = addr) then Some i else chain_search p c addr
      | None => chain_search p c addr
      end
  end.

Definition rtw_get_stainfo (p : sta_priv) (hwaddr : option bytes) : option nat :=
  match hwaddr with
  | None => None
  | Some a =>
      let addr := if IS_MCAST a then bc_addr else a in
      let index := wifi_mac_hash addr in
      chain_search p (default [] (sta_hash p !! Z.to_nat index)) addr
  end.

Definition rtw_get_bcmc_stainfo (p : sta_priv) : option nat := rtw_get_stainfo p (Some bc_addr).

(** Return value ([_SUCCESS] also when no entry is left) and table. *)
Definition rtw_init_bcmc_stainfo (p : sta_priv) : Z * sta_priv :=
  (_SUCCESS, fst (rtw_alloc_stainfo p bc_addr)).

(** The walk over all chains: the offsets collected, each entry but the
    broadcast one unlinked. *)
Definition collect_stations (p : sta_priv) (bcmc : option nat) : list nat :=
  filter (fun i => Some i <> bcmc) (concat (sta_hash p)).

Definition rtw_free_all_stainfo (hw_ap : bool) (p : sta_priv) : sta_priv :=
  let bcmc := rtw_get_bcmc_stainfo p in
  if asoc_sta_count p =? 1 then p
  else
    let l := collect_stations p bcmc in
    let p := set_hash p (foldl hash_unlink (sta_hash p) l) (asoc_sta_count p) in
    foldl (fun p i => rtw_free_stainfo hw_ap p (Some i)) p l.

(** [_rtw_init_sta_priv] once its allocations succeed; [n] is
    [macid_ctl->num]. *)
Definition _rtw_init_sta_priv (n : Z) (hw_accnt : list Z) : sta_priv :=
  mk_stapriv (replicate (Z.to_nat NUM_STA) _rtw_init_stainfo) (seq 0 (Z.to_nat NUM_STA))
    (replicate (Z.to_nat NUM_STA) []) 0 [] 0
    (replicate (Z.to_nat n) None) n 1 false NUM_STA
    (replicate (Z.to_nat (AID_BMP_LEN n)) 0) (replicate (Z.to_nat (AID_BMP_LEN n)) 0) hw_accnt.

(** The search loop of [rtw_aid_alloc]: [n] iterations are left; the final
    values of [i], [aid] and [used_cnt]. *)
Fixpoint aid_scan (p : sta_priv) (n : nat) (i a used : Z) : Z * Z * Z :=
  match n with
  | O => (i, a, used)
  | S n =>
      let a := u16 ((i + started_aid p - 1) mod max_aid p + 1) in
      match sta_aid p !! Z.to_nat (a - 1) with
      | Some None => (i, a, used)
      | _ =>
          let used := u16 (used + 1) in
          if max_num_sta p <=? used then (i, a, used)
          else aid_scan p n (i + 1) a used
      end
  end.

Definition rtw_aid_alloc (p : sta_priv) (sta : nat) : sta_priv * Z :=
  let '(i, a, used) := aid_scan p (Z.to_nat (max_aid p)) 0 0 0 in
  let a := if (max_aid p <=? i) || (max_num_sta p <=? used) then 0 else a in
  let p := upd_sta p sta (fun s => set_aid s a) in
  if a =? 0 then (p, a)
  else
    let start := if rr_aid p then u16 (a mod max_aid p + 1) else started_aid p in
    (set_aids p (<[Z.to_nat (a - 1) := Some sta]> (sta_aid p)) start, a).

(** The assignment step of [OnAssocReq]: a station keeps the id it has. *)
Definition assoc_assign_aid (p : sta_priv) (i : nat) : sta_priv :=
  match stainfo_buf p !! i with
  | Some s => if 0 <? aid s then p else fst (rtw_aid_alloc p i)
  | None => p
  end.

(** [rtw_set_beacon] of the ioctl interface sets the station limit from a
    16-bit request field. *)
Definition set_max_num_sta (p : sta_priv) (v : Z) : sta_priv :=
  mk_stapriv (stainfo_buf p) (free_sta_queue p) (sta_hash p) (asoc_sta_count p) (auth_list p) (auth_list_cnt p)
    (sta_aid p) (max_aid p) (started_aid p) (rr_aid p)
    (if (NUM_STA <? v) || (v <=? 0) then NUM_STA else v) (sta_dz_bitmap p) (tim_bitmap p) (accnt p).

(** [proc_set_aid_status] on the line written to the proc file: [None] when no
    number is read, else the round-robin switch and, if given, the 16-bit id
    the next search starts at. *)
Definition proc_set_aid_status (p : sta_priv) (line : option (Z * option Z)) : sta_priv :=
  match line with
  | None => p
  | Some (rr, start) =>
      let started := match start with
        | Some v => let v := v mod (max_aid p + 1) in if v =? 0 then 1 else v
        | None => started_aid p
        end in
      mk_stapriv (stainfo_buf p) (free_sta_queue p) (sta_hash p) (asoc_sta_count p) (auth_list p) (auth_list_cnt p)
        (sta_aid p) (max_aid p) started (negb (rr =? 0)) (max_num_sta p) (sta_dz_bitmap p) (tim_bitmap p) (accnt p)
  end.

(** ** Well-formed tables *)

Definition mac_of (p : sta_priv) (i : nat) : bytes :=
  match stainfo_buf p !! i with Some s => mac_addr s | None => [] end.

(** The entries in use. *)
Definition in_use (p : sta_priv) : list nat := concat (sta_hash p).

(** Addresses stations are stored under: unicast, or the broadcast address of
    the shared group entry. *)
Definition sta_addr (a : bytes) : Prop := IS_MCAST a = false \/ a = bc_addr.

Definition addr_key (a : bytes) : bytes := if IS_MCAST a then bc_addr else a.

Record sta_wf (p : sta_priv) : Prop := {
  wf_buf : length (stainfo_buf p) = 32%nat;
  wf_chains : length (sta_hash p) = 32%nat;
  wf_part : free_sta_queue p ++ in_use p ≡ₚ seq 0 32;
  wf_chain : forall h c i, sta_hash p !! h = Some c -> i ∈ c -> Z.to_nat (wifi_mac_hash (mac_of p i)) = h;
  wf_uniq : forall i j, i ∈ in_use p -> j ∈ in_use p -> mac_of p i = mac_of p j -> i = j;
  wf_addr : forall i, i ∈ in_use p -> sta_addr (mac_of p i);
  wf_count : asoc_sta_count p = zlen (in_use p)
}.

(** The map the table stands for. *)
Definition sta_map (p : sta_priv) : gmap bytes nat :=
  list_to_map ((fun i => (mac_of p i, i)) <$> in_use p).

Lemma sta_addr_key a : sta_addr a -> addr_key a = a.
Proof. unfold addr_key. intros [-> | ->]; done. Qed.

Lemma wifi_mac_hash_range a : 0 <= wifi_mac_hash a < 32.
Proof. unfold wifi_mac_hash, NUM_STA. change (32 - 1) with (Z.ones 5). rewrite Z.land_ones by lia. apply Z.mod_pos_bound. lia. Qed.

Lemma wf_nodup p : sta_wf p -> NoDup (free_sta_queue p ++ in_use p).
Proof. intros H. rewrite (wf_part p H). apply NoDup_seq. Qed.

Lemma sta_map_lookup p a i :
  sta_wf p -> sta_map p !! a = Some i <-> i ∈ in_use p /\ mac_of p i = a.
Proof.
  intros H. unfold sta_map. rewrite <- elem_of_list_to_map.
  - rewrite list_elem_of_fmap. split.
    + intros (j & [= -> ->] & Hj). done.
    + intros [Hi <-]. by exists i.
  - rewrite <- list_fmap_compose. pose proof (wf_nodup p H) as N. apply NoDup_app in N as (_ & _ & N).
    apply NoDup_fmap_2_strong; [|done]. intros x y Hx Hy E. by apply (wf_uniq p H).
Qed.

Lemma in_use_slot p i : sta_wf p -> i ∈ in_use p -> (i < 32)%nat.
Proof.
  intros H Hi. assert (i ∈ seq 0 32) as S by (rewrite <- (wf_part p H); set_solver).
  apply elem_of_seq in S. lia.
Qed.

(** *** Chains *)

Lemma elem_of_concat (h : list (list nat)) i :
  i ∈ concat h <-> exists k c, h !! k = Some c /\ i ∈ c.
Proof.
  induction h as [|c h IH]; simpl.
  - split; [intros Hi; by apply elem_of_nil in Hi | intros (k & c & H & _); by rewrite lookup_nil in H].
  - rewrite elem_of_app, IH. split.
    + intros [Hi | (k & d & H1 & H2)]; [by exists O, c | by exists (S k), d].
    + intros (k & d & H1 & H2). destruct k; simpl in H1; [injection H1 as ->; auto | eauto].
Qed.

Lemma concat_snoc (h : list (list nat)) k i :
  (k < length h)%nat -> concat (alter (fun c => c ++ [i]) k h) ≡ₚ i :: concat h.
Proof.
  revert k. induction h as [|c h IH]; intros k H; cbn [length] in H; [lia|]. destruct k; cbn [concat].
  - cbn. rewrite <- app_assoc. symmetry. apply Permutation_middle.
  - change (c ++ concat (alter (fun c => c ++ [i]) k h) ≡ₚ i :: c ++ concat h).
    rewrite IH by lia. symmetry. apply Permutation_middle.
Qed.

(** ** Lookup *)

Lemma chain_search_Some p c a i :
  chain_search p c a = Some i -> i ∈ c /\ exists s, stainfo_buf p !! i = Some s /\ mac_addr s = a.
Proof.
  induction c as [|j c IH]; simpl; [done|]. destruct (stainfo_buf p !! j) as [s|] eqn:E.
  - destruct (bool_decide_reflect (mac_addr s = a)); [intros [= ->]; set_solver | set_solver].
  - set_solver.
Qed.

Lemma chain_search_None p c a i s :
  chain_search p c a = None -> i ∈ c -> stainfo_buf p !! i = Some s -> mac_addr s <> a.
Proof.
  induction c as [|j c IH]; simpl; [set_solver|]. intros H Hi Hs.
  apply elem_of_cons in Hi as [->|Hi].
  - rewrite Hs in H. destruct (bool_decide_reflect (mac_addr s = a)); [discriminate|done].
  - destruct (stainfo_buf p !! j); [|auto]. destruct (bool_decide _); [discriminate|auto].
Qed.

Lemma wf_entry p i : sta_wf p -> i ∈ in_use p -> exists s, stainfo_buf p !! i = Some s /\ mac_of p i = mac_addr s.
Proof.
  intros H Hi. pose proof (in_use_slot p i H Hi). unfold mac_of.
  destruct (lookup_lt_is_Some_2 (stainfo_buf p) i) as [s Hs]; [rewrite (wf_buf p H); lia|].
  exists s. by rewrite Hs.
Qed.

(** The hash search is lookup in the map. *)
Lemma get_stainfo_map p a : sta_wf p -> rtw_get_stainfo p (Some a) = sta_map p !! addr_key a.
Proof.
  intros H. unfold rtw_get_stainfo. fold (addr_key a). set (k := addr_key a).
  pose proof (wifi_mac_hash_range k) as R.
  destruct (lookup_lt_is_Some_2 (sta_hash p) (Z.to_nat (wifi_mac_hash k))) as [c Hc]; [rewrite (wf_chains p H); lia|].
  rewrite Hc. change (default [] (Some c)) with c. destruct (chain_search p c k) as [i|] eqn:E.
  - apply chain_search_Some in E as [Hi (s & Hs & Hm)]. symmetry. apply sta_map_lookup; [done|].
    split; [apply elem_of_concat; eauto|]. unfold mac_of. by rewrite Hs.
  - symmetry. apply eq_None_not_Some. intros [i Hi]. apply sta_map_lookup in Hi as [Hi Hm]; [|done].
    destruct (wf_entry p i H Hi) as (s & Hs & Hms).
    apply elem_of_concat in Hi as (h & d & Hd & Hid).
    pose proof (wf_chain p H h d i Hd Hid) as Hh. rewrite Hm in Hh. rewrite Hh, Hd in Hc. injection Hc as ->.
    by apply (chain_search_None p c k i s E Hid Hs); rewrite <- Hms.
Qed.

(** ** Allocation *)

Lemma mac_of_upd p q i s :
  stainfo_buf q = alter (fun _ => s) i (stainfo_buf p) -> (i < length (stainfo_buf p))%nat ->
  mac_of q i = mac_addr s /\ forall j, j <> i -> mac_of q j = mac_of p j.
Proof.
  intros E Hi. unfold mac_of. rewrite E. split.
  - rewrite list_lookup_alter_eq. destruct (lookup_lt_is_Some_2 _ _ Hi) as [t ->]. done.
  - intros j Hj. by rewrite list_lookup_alter_ne.
Qed.

Lemma sta_map_eq p m :
  sta_wf p -> (forall a i, m !! a = Some i <-> i ∈ in_use p /\ mac_of p i = a) -> sta_map p = m.
Proof.
  intros H Hm. apply map_eq. intros a. apply option_eq. intros i. by rewrite sta_map_lookup, Hm.
Qed.

Lemma size_in_use p : sta_wf p -> size (sta_map p) = length (in_use p).
Proof.
  intros H. unfold sta_map. rewrite map_size_list_to_map, length_fmap; [done|].
  rewrite <- list_fmap_compose. pose proof (wf_nodup p H) as N. apply NoDup_app in N as (_ & _ & N).
  apply NoDup_fmap_2_strong; [|done]. intros x y Hx Hy E. by apply (wf_uniq p H).
Qed.

Lemma alloc_stainfo_full p a :
  sta_wf p -> free_sta_queue p = [] -> rtw_alloc_stainfo p a = (p, None) /\ size (sta_map p) = 32%nat.
Proof.
  intros H E. unfold rtw_alloc_stainfo. rewrite E. split; [done|]. rewrite size_in_use by done.
  pose proof (wf_part p H) as P. rewrite E in P. apply Permutation_length in P. by rewrite length_seq in P.
Qed.

Lemma alloc_stainfo_fresh p a i q :
  sta_wf p -> sta_addr a -> sta_map p !! a = None -> free_sta_queue p = i :: q ->
  exists p', rtw_alloc_stainfo p a = (p', Some i) /\ sta_wf p' /\ sta_map p' = <[a := i]> (sta_map p) /\
    i ∉ in_use p /\ stainfo_buf p' = <[i := alloc_entry a]> (stainfo_buf p).
Proof.
  intros H Ha Hn E. unfold rtw_alloc_stainfo. rewrite E. pose proof (wifi_mac_hash_range a) as R.
  unfold NUM_STA. destruct (Z.leb_spec 32 (wifi_mac_hash a)); [lia|]. clear H0.
  eexists. split; [done|].
  match goal with |- sta_wf ?x /\ _ => set (p' := x) end.
  assert (in_use p' ≡ₚ i :: in_use p) as U by (apply concat_snoc; cbn; rewrite (wf_chains p H); lia).
  assert (i < 32)%nat as Hi.
  { assert (i ∈ seq 0 32) as S by (rewrite <- (wf_part p H), E; set_solver). apply elem_of_seq in S. lia. }
  destruct (mac_of_upd p p' i (alloc_entry a)) as [M1 M2]; [done | by rewrite (wf_buf p H)|]. change (mac_addr (alloc_entry a)) with a in M1.
  assert (i ∉ in_use p) as Ni.
  { pose proof (wf_nodup p H) as N. rewrite E in N. apply NoDup_app in N as (_ & N & _). apply N. set_solver. }
  assert (forall j, j ∈ in_use p -> mac_of p' j = mac_of p j) as M3 by (intros j Hj; apply M2; congruence).
  assert (forall j, j ∈ in_use p -> mac_of p j <> a) as Hfree.
  { intros j Hj Ej. assert (sta_map p !! a = Some j) by (by apply sta_map_lookup). congruence. }
  assert (sta_wf p') as W.
  { split.
    - change (length (alter (fun _ => alloc_entry a) i (stainfo_buf p)) = 32%nat). rewrite length_alter. apply (wf_buf p H).
    - change (length (alter (fun c => c ++ [i]) (Z.to_nat (wifi_mac_hash a)) (sta_hash p)) = 32%nat).
      rewrite length_alter. apply (wf_chains p H).
    - change (q ++ in_use p' ≡ₚ seq 0 32). rewrite U, <- (wf_part p H), E. symmetry. apply Permutation_middle.
    - intros h c j Hc Hj. change (alter (fun c => c ++ [i]) (Z.to_nat (wifi_mac_hash a)) (sta_hash p) !! h = Some c) in Hc.
      destruct (decide (h = Z.to_nat (wifi_mac_hash a))) as [->|Hne].
      + rewrite list_lookup_alter_eq in Hc. apply fmap_Some in Hc as (c0 & Hc0 & ->).
        apply elem_of_app in Hj as [Hj|Hj%list_elem_of_singleton]; [|by rewrite Hj, M1].
        rewrite M3; [by apply (wf_chain p H _ c0) | apply elem_of_concat; eauto].
      + rewrite list_lookup_alter_ne in Hc by done.
        rewrite M3; [by apply (wf_chain p H _ c) | apply elem_of_concat; eauto].
    - intros j k. rewrite U, !elem_of_cons. intros [->|Hj] [->|Hk]; rewrite ?M1, ?M3 by done; auto.
      + intros Ek. by destruct (Hfree k Hk).
      + intros Ej. by destruct (Hfree j Hj).
      + by apply (wf_uniq p H).
    - intros j. rewrite U, elem_of_cons. intros [->|Hj]; [by rewrite M1 | rewrite M3 by done; by apply (wf_addr p H)].
    - change (asoc_sta_count p + 1 = zlen (in_use p')). unfold zlen. rewrite U, (wf_count p H). unfold zlen. cbn [length]. lia. }
  split_and!; [done | | done |].
  - apply sta_map_eq; [done|]. intros b j. rewrite U, elem_of_cons.
    destruct (decide (b = a)) as [->|Hb].
    + rewrite lookup_insert_eq. split; [intros [= <-]; auto|].
      intros [[->|Hj] Hm]; [done|]. rewrite M3 in Hm by done. by destruct (Hfree j Hj).
    + rewrite lookup_insert_ne, sta_map_lookup by done. split.
      * intros [Hj Hm]. rewrite M3; auto.
      * intros [[->|Hj] Hm]; [congruence | by rewrite M3 in Hm].
  - change (alter (fun _ => alloc_entry a) i (stainfo_buf p) = <[i := alloc_entry a]> (stainfo_buf p)).
    apply list_eq. intros j. destruct (decide (j = i)) as [->|Hj].
    + rewrite list_lookup_alter_eq, list_lookup_insert_eq by (rewrite (wf_buf p H); lia).
      destruct (lookup_lt_is_Some_2 (stainfo_buf p) i) as [t ->]; [rewrite (wf_buf p H); lia|done].
    + by rewrite list_lookup_alter_ne, list_lookup_insert_ne.
Qed.

(** ** Release *)

(** What releasing entry [i] does to the table, whatever the state. *)
Lemma free_stainfo_effect ap p i s :
  stainfo_buf p !! i = Some s ->
  let p' := rtw_free_stainfo ap p (Some i) in
  sta_hash p' = hash_unlink (sta_hash p) i /\
  free_sta_queue p' = free_sta_queue p ++ [i] /\
  asoc_sta_count p' = asoc_sta_count p - 1 /\
  length (stainfo_buf p') = length (stainfo_buf p) /\
  (forall j, j <> i -> stainfo_buf p' !! j = stainfo_buf p !! j) /\
  (exists a, stainfo_buf p' !! i = Some (set_aid (release_entry s) a)).
Proof.
  intros Hs. unfold rtw_free_stainfo.
  set (p1 := set_accnt _ _). set (p2 := upd_sta p1 i release_entry).
  assert (stainfo_buf p2 !! i = Some (release_entry s)) as H2.
  { change (alter release_entry i (stainfo_buf p) !! i = Some (release_entry s)). by rewrite list_lookup_alter_eq, Hs. }
  assert (forall j, j <> i -> stainfo_buf p2 !! j = stainfo_buf p !! j) as H2'.
  { intros j Hj. change (alter release_entry i (stainfo_buf p) !! j = stainfo_buf p !! j). by rewrite list_lookup_alter_ne. }
  assert (length (stainfo_buf p2) = length (stainfo_buf p)) as L2.
  { change (length (alter release_entry i (stainfo_buf p)) = length (stainfo_buf p)). by rewrite length_alter. }
  assert (release_entry s = set_aid (release_entry s) (aid s)) as Eaid by done.
  set (p3 := if bool_decide (i ∈ auth_list p2) then _ else p2).
  assert (stainfo_buf p3 = stainfo_buf p2 /\ sta_hash p3 = hash_unlink (sta_hash p) i /\
    free_sta_queue p3 = free_sta_queue p /\ asoc_sta_count p3 = asoc_sta_count p - 1) as (B3 & S3 & F3 & C3)
    by (unfold p3; destruct (bool_decide _); done).
  clearbody p3. destruct ap.
  - unfold release_aid. rewrite B3, H2. cbn zeta. destruct (_ && _); cbn [set_free set_aids set_maps upd_sta set_stainfo sta_hash free_sta_queue asoc_sta_count stainfo_buf].
    + rewrite S3, F3, C3, B3, length_alter. split_and!; auto.
      * intros j Hj. rewrite list_lookup_alter_ne by done. auto.
      * exists 0. by rewrite list_lookup_alter_eq, H2.
    + rewrite S3, F3, C3, B3. split_and!; auto. exists (aid s). by rewrite H2.
  - cbn [set_free sta_hash free_sta_queue asoc_sta_count stainfo_buf]. rewrite S3, F3, C3, B3. split_and!; auto.
    exists (aid s). by rewrite H2.
Qed.

Lemma concat_filter P `{forall x, Decision (P x)} (h : list (list nat)) : concat (map (filter P) h) = filter P (concat h).
Proof. induction h as [|c h IH]; simpl; [done|]. rewrite filter_app. by f_equal. Qed.

(** Removing a set of entries from the chains to the free queue. *)
Lemma wf_remove p p' l :
  sta_wf p -> NoDup l -> (forall i, i ∈ l -> i ∈ in_use p) ->
  length (stainfo_buf p') = length (stainfo_buf p) ->
  sta_hash p' = map (filter (fun j => j ∉ l)) (sta_hash p) ->
  free_sta_queue p' = free_sta_queue p ++ l ->
  (forall i, mac_of p' i = mac_of p i) ->
  asoc_sta_count p' = asoc_sta_count p - zlen l ->
  sta_wf p' /\ (forall a i, sta_map p' !! a = Some i <-> i ∉ l /\ sta_map p !! a = Some i).
Proof.
  intros H Nl Hl Lb Eh Ef Em Ec.
  assert (in_use p' = filter (fun j => j ∉ l) (in_use p)) as U by (unfold in_use; rewrite Eh; apply concat_filter).
  assert (forall i, i ∈ in_use p' <-> i ∉ l /\ i ∈ in_use p) as Ui by (intros i; by rewrite U, list_elem_of_filter).
  pose proof (wf_nodup p H) as N. apply NoDup_app in N as (_ & _ & N).
  assert (in_use p ≡ₚ l ++ in_use p') as P.
  { apply NoDup_Permutation; [done | |].
    - apply NoDup_app. split_and!; [done | intros i Hi Hi'; by apply Ui in Hi' as [? _] | rewrite U; by apply NoDup_filter].
    - intros i. rewrite elem_of_app, Ui. destruct (decide (i ∈ l)); naive_solver. }
  assert (sta_wf p') as W.
  { split.
    - rewrite Lb. apply (wf_buf p H).
    - rewrite Eh, length_map. apply (wf_chains p H).
    - rewrite Ef, <- app_assoc, <- P. apply (wf_part p H).
    - intros h c i Hc Hi. rewrite Eh in Hc.
      change ((filter (fun j => j ∉ l) <$> sta_hash p) !! h = Some c) in Hc.
      rewrite list_lookup_fmap in Hc. apply fmap_Some in Hc as (c0 & Hc0 & ->). apply list_elem_of_filter in Hi as [_ Hi].
      rewrite Em. by apply (wf_chain p H h c0).
    - intros i j [_ Hi]%Ui [_ Hj]%Ui. rewrite !Em. by apply (wf_uniq p H).
    - intros i [_ Hi]%Ui. rewrite Em. by apply (wf_addr p H).
    - rewrite Ec, (wf_count p H). unfold zlen. rewrite P, length_app. lia. }
  split; [done|]. intros a i. rewrite !sta_map_lookup by done. rewrite Ui, Em. naive_solver.
Qed.

Lemma free_stainfo_macs ap p i s :
  stainfo_buf p !! i = Some s -> forall j, mac_of (rtw_free_stainfo ap p (Some i)) j = mac_of p j.
Proof.
  intros Hs j. destruct (free_stainfo_effect ap p i s Hs) as (_ & _ & _ & _ & O & a & Ea).
  unfold mac_of. destruct (decide (j = i)) as [->|Hj]; [by rewrite Ea, Hs | by rewrite O].
Qed.

Lemma unlink_all h l : foldl hash_unlink h l = map (filter (fun j => j ∉ l)) h.
Proof.
  revert h. induction l as [|i l IH]; intros h; simpl.
  - rewrite <- (map_id h) at 1. apply map_ext. intros c. symmetry.
    induction c as [|j c IHc]; [done|]. rewrite filter_cons_True by apply not_elem_of_nil. by rewrite IHc.
  - rewrite IH. unfold hash_unlink. rewrite map_map. apply map_ext. intros c.
    rewrite list_filter_filter. apply list_filter_iff. intros j. rewrite not_elem_of_cons. naive_solver.
Qed.

Lemma foldl_free_effect ap l p :
  (forall i, i ∈ l -> is_Some (stainfo_buf p !! i)) ->
  let p' := foldl (fun p i => rtw_free_stainfo ap p (Some i)) p l in
  sta_hash p' = foldl hash_unlink (sta_hash p) l /\
  free_sta_queue p' = free_sta_queue p ++ l /\
  asoc_sta_count p' = asoc_sta_count p - zlen l /\
  length (stainfo_buf p') = length (stainfo_buf p) /\
  (forall i, mac_of p' i = mac_of p i).
Proof.
  revert p. induction l as [|i l IH]; intros p Hl; cbn [foldl].
  - rewrite app_nil_r. change (zlen (@nil nat)) with 0. split_and!; auto. lia.
  - destruct (Hl i) as [s Hs]; [set_solver|].
    pose proof (free_stainfo_effect ap p i s Hs) as (E1 & E2 & E3 & E4 & _).
    pose proof (free_stainfo_macs ap p i s Hs) as E5.
    destruct (IH (rtw_free_stainfo ap p (Some i))) as (F1 & F2 & F3 & F4 & F5).
    { intros j Hj. apply lookup_lt_is_Some. rewrite E4. apply lookup_lt_is_Some. apply Hl. set_solver. }
    rewrite F1, F2, F3, F4, E1, E2, E3, E4, zlen_cons, <- app_assoc. split_and!; [done | done | lia | done |].
    intros j. by rewrite F5, E5.
Qed.

(** Releasing a station in use deletes its address from the map. *)
Lemma free_stainfo_map ap p i :
  sta_wf p -> i ∈ in_use p ->
  sta_wf (rtw_free_stainfo ap p (Some i)) /\
  sta_map (rtw_free_stainfo ap p (Some i)) = delete (mac_of p i) (sta_map p).
Proof.
  intros H Hi. destruct (wf_entry p i H Hi) as (s & Hs & Hm).
  pose proof (free_stainfo_effect ap p i s Hs) as (E1 & E2 & E3 & E4 & _).
  destruct (wf_remove p (rtw_free_stainfo ap p (Some i)) [i]) as [W M]; try done.
  - apply NoDup_singleton.
  - intros j ->%list_elem_of_singleton. done.
  - rewrite E1. unfold hash_unlink. apply map_ext. intros c. apply list_filter_iff. intros j. by rewrite list_elem_of_singleton.
  - by apply (free_stainfo_macs ap p i s).
  - split; [done|]. apply map_eq. intros a. apply option_eq. intros j. rewrite M, list_elem_of_singleton, lookup_delete_Some.
    assert (sta_map p !! mac_of p i = Some i) as Mi by (by apply sta_map_lookup).
    split; intros [A B]; (split; [|done]).
    + intros <-. congruence.
    + intros ->. apply sta_map_lookup in B as [_ B]; [|done]. congruence.
Qed.

(** Releasing all stations keeps the broadcast entry only, except that a table
    with a single entry is left alone. *)
Lemma free_all_map ap p :
  sta_wf p ->
  sta_wf (rtw_free_all_stainfo ap p) /\
  sta_map (rtw_free_all_stainfo ap p) =
    if decide (size (sta_map p) = 1%nat) then sta_map p else filter (fun kv => kv.1 = bc_addr) (sta_map p).
Proof.
  intros H. unfold rtw_free_all_stainfo. pose proof (wf_count p H) as C. unfold zlen in C. rewrite <- (size_in_use p H) in C.
  destruct (Z.eqb_spec (asoc_sta_count p) 1), (decide (size (sta_map p) = 1%nat)); try lia; [done|].
  unfold rtw_get_bcmc_stainfo. rewrite get_stainfo_map by done. change (addr_key bc_addr) with bc_addr.
  set (bc := sta_map p !! bc_addr). set (l := collect_stations p bc).
  set (p0 := set_hash p _ _).
  assert (forall i, i ∈ l <-> Some i <> bc /\ i ∈ in_use p) as Hl
    by (intros i; unfold l, collect_stations; by rewrite list_elem_of_filter).
  assert (NoDup l) as Nl.
  { apply NoDup_filter. pose proof (wf_nodup p H) as N. by apply NoDup_app in N as (_ & _ & N). }
  destruct (foldl_free_effect ap l p0) as (E1 & E2 & E3 & E4 & E5).
  { intros i [_ Hi]%Hl. apply lookup_lt_is_Some. change (i < length (stainfo_buf p))%nat.
    rewrite (wf_buf p H). by apply (in_use_slot p). }
  destruct (wf_remove p (foldl (fun p i => rtw_free_stainfo ap p (Some i)) p0 l) l) as [W M]; try done.
  - intros i Hi. by apply Hl.
  - rewrite E1. change (sta_hash p0) with (foldl hash_unlink (sta_hash p) l). rewrite !unlink_all, map_map.
    apply map_ext. intros c. rewrite list_filter_filter. apply list_filter_iff. naive_solver.
  - split; [done|]. apply map_eq. intros a. apply option_eq. intros j. rewrite M, map_lookup_filter_Some. cbn [fst].
    split; [intros [A B]; split; [done|] | intros [A B]; split; [|done]].
    + destruct (decide (a = bc_addr)) as [->|Ha]; [done|]. exfalso. apply A, Hl. apply sta_map_lookup in B as [B1 B2]; [|done].
      split; [|done]. unfold bc. intros Hb. symmetry in Hb. apply sta_map_lookup in Hb as [_ Hb]; [|done]. congruence.
    + intros [Hn _]%Hl. apply Hn. subst a. done.
Qed.

(** ** The table as a set of addresses

    Callers look an address up before allocating an entry for it. *)

Inductive sta_op := OpAlloc (a : bytes) | OpFree (a : bytes) | OpFreeAll.

Definition sta_step (ap : bool) (p : sta_priv) (op : sta_op) : sta_priv :=
  match op with
  | OpAlloc a =>
      match rtw_get_stainfo p (Some a) with
      | Some _ => p
      | None => fst (rtw_alloc_stainfo p a)
      end
  | OpFree a => rtw_free_stainfo ap p (rtw_get_stainfo p (Some a))
  | OpFreeAll => rtw_free_all_stainfo ap p
  end.

Definition op_ok (op : sta_op) : Prop := match op with OpAlloc a => sta_addr a | _ => True end.

(** The specification: a set of at most 32 addresses. *)
Definition set_step (S : gset bytes) (op : sta_op) : gset bytes :=
  match op with
  | OpAlloc a => if decide (size S = 32%nat) then S else {[a]} ∪ S
  | OpFree a => S ∖ {[addr_key a]}
  | OpFreeAll => if decide (size S = 1%nat) then S else S ∩ {[bc_addr]}
  end.

Lemma init_sta_priv_wf n c : sta_wf (_rtw_init_sta_priv n c).
Proof.
  assert (in_use (_rtw_init_sta_priv n c) = []) as U by reflexivity.
  split; try reflexivity; rewrite ?U.
  - intros h d i Hd Hi. assert (i ∈ in_use (_rtw_init_sta_priv n c)) as F by (apply elem_of_concat; eauto).
    rewrite U in F. by apply elem_of_nil in F.
  - intros i j Hi. by apply elem_of_nil in Hi.
  - intros i Hi. by apply elem_of_nil in Hi.
Qed.

Lemma size_dom p : size (dom (sta_map p) : gset bytes) = size (sta_map p).
Proof. apply size_dom. Qed.

Lemma sta_step_refines ap p op :
  sta_wf p -> op_ok op ->
  sta_wf (sta_step ap p op) /\ (dom (sta_map (sta_step ap p op)) : gset bytes) = set_step (dom (sta_map p)) op.
Proof.
  intros H Hop. destruct op as [a|a|]; cbn [sta_step set_step op_ok] in *.
  - rewrite get_stainfo_map, sta_addr_key by done. rewrite size_dom.
    destruct (sta_map p !! a) as [i|] eqn:E.
    { split; [done|]. apply elem_of_dom_2 in E. destruct (decide _); set_solver. }
    destruct (free_sta_queue p) as [|i q] eqn:F.
    { destruct (alloc_stainfo_full p a H F) as [-> S]. cbn [fst]. rewrite decide_True by done. done. }
    destruct (alloc_stainfo_fresh p a i q H Hop E F) as (p' & -> & W & M & _). cbn [fst]. split; [done|].
    rewrite M, dom_insert_L, decide_False; [done|].
    rewrite size_in_use by done. pose proof (wf_part p H) as P. rewrite F in P. apply Permutation_length in P.
    rewrite length_app, length_seq in P. cbn [length] in P. lia.
  - rewrite get_stainfo_map by done. destruct (sta_map p !! addr_key a) as [i|] eqn:E.
    + apply sta_map_lookup in E as [Hi Hm]; [|done]. destruct (free_stainfo_map ap p i H Hi) as [W M].
      split; [done|]. by rewrite M, dom_delete_L, Hm.
    + split; [done|]. apply not_elem_of_dom in E. cbn [rtw_free_stainfo]. set_solver.
  - destruct (free_all_map ap p H) as [W M]. split; [done|]. rewrite M, size_dom. destruct (decide _); [done|].
    apply set_eq. intros a. rewrite elem_of_dom, elem_of_intersection, elem_of_singleton, elem_of_dom. unfold is_Some.
    split; [intros [i [A B]%map_lookup_filter_Some] | intros [[i A] ->]]; [naive_solver|].
    exists i. by apply map_lookup_filter_Some.
Qed.

(** C27: Starting from the initialised table, any sequence of lookups followed
    by allocation, releases and release-all keeps the table well formed (every
    entry is on the free queue or on the chain of its address, exactly once)
    and makes it behave as a set of at most 32 addresses: [rtw_get_stainfo]
    finds an address, up to the folding of group addresses to broadcast,
    exactly when the set holds it, two addresses never share an entry, and the
    number of free entries is what the set leaves. *)
Theorem sta_table_refines_set ap n c ops :
  Forall op_ok ops ->
  let p := foldl (sta_step ap) (_rtw_init_sta_priv n c) ops in
  let S := foldl set_step ∅ ops in
  sta_wf p /\
  (forall a, is_Some (rtw_get_stainfo p (Some a)) <-> addr_key a ∈ S) /\
  (forall a b i, rtw_get_stainfo p (Some a) = Some i -> rtw_get_stainfo p (Some b) = Some i -> addr_key a = addr_key b) /\
  (length (free_sta_queue p) + size S = 32)%nat.
Proof.
  intros Hops p S.
  assert (sta_wf p /\ (dom (sta_map p) : gset bytes) = S) as [W D].
  { unfold p, S. pose proof (init_sta_priv_wf n c) as W0.
    assert ((dom (sta_map (_rtw_init_sta_priv n c)) : gset bytes) = ∅) as D0 by reflexivity.
    revert W0 D0. generalize (_rtw_init_sta_priv n c) as p0. generalize (∅ : gset bytes) as S0.
    induction Hops as [|op ops Hop _ IH]; intros S0 p0 W0 D0; [done|]. cbn [foldl].
    destruct (sta_step_refines ap p0 op W0 Hop) as [W1 D1]. apply IH; [done|]. by rewrite D1, D0. }
  split_and!; [done | | |].
  - intros a. rewrite get_stainfo_map by done. rewrite <- D. symmetry. apply elem_of_dom.
  - intros a b i. rewrite !get_stainfo_map by done.
    intros [_ Ha]%sta_map_lookup [_ Hb]%sta_map_lookup; [congruence | done | done].
  - rewrite <- D, size_dom, size_in_use by done. pose proof (wf_part p W) as P.
    apply Permutation_length in P. rewrite length_app, length_seq in P. lia.
Qed.

Lemma sta_table_refines_set_witness :
  let a := [2; 0; 0; 0; 0; 1] in let b := [2; 0; 0; 0; 0; 2] in
  let p := foldl (sta_step true) (_rtw_init_sta_priv 32 [0; 0; 0; 0]) [OpAlloc bc_addr; OpAlloc a; OpAlloc b; OpFree a] in
  is_Some (rtw_get_stainfo p (Some b)) <-> addr_key b ∈ foldl set_step ∅ [OpAlloc bc_addr; OpAlloc a; OpAlloc b; OpFree a].
Proof.
  intros a b p. apply (sta_table_refines_set true 32 [0; 0; 0; 0] [OpAlloc bc_addr; OpAlloc a; OpAlloc b; OpFree a]).
  repeat (apply Forall_cons; split); try apply Forall_nil; first [right; reflexivity | left; reflexivity | exact I].
Defined.

(** Releasing a station in use drops every fragment and every buffered
    frame it holds and its timers, leaves all other entries as they were, and
    makes its address unknown; an allocation that follows succeeds for any
    absent address, in an entry no station uses, and that entry is in the
    initial state, with no trace of an earlier station. *)
Theorem released_station_forgotten ap p i :
  sta_wf p -> i ∈ in_use p ->
  let q := rtw_free_stainfo ap p (Some i) in
  (exists s, stainfo_buf q !! i = Some s /\ defrag_q (recvpriv s) = [] /\
     Forall (fun c => pending c = [] /\ timer c = false) (recvreorder_ctrl s)) /\
  (forall j, j <> i -> stainfo_buf q !! j = stainfo_buf p !! j) /\
  rtw_get_stainfo q (Some (mac_of p i)) = None /\
  forall b, sta_addr b -> rtw_get_stainfo q (Some b) = None ->
    exists q' j, rtw_alloc_stainfo q b = (q', Some j) /\ j ∉ in_use q /\
      stainfo_buf q' = <[j := alloc_entry b]> (stainfo_buf q) /\ rtw_get_stainfo q' (Some b) = Some j.
Proof.
  intros H Hi q. destruct (wf_entry p i H Hi) as (s & Hs & Hm).
  destruct (free_stainfo_effect ap p i s Hs) as (_ & F & _ & _ & O & a & Ea).
  destruct (free_stainfo_map ap p i H Hi) as [W M]. fold q in F, O, Ea, W, M.
  split_and!; [ | done | |].
  - exists (set_aid (release_entry s) a). split; [done|]. split; [done|].
    cbn. apply Forall_map, Forall_true. done.
  - rewrite get_stainfo_map, sta_addr_key by (done || by apply (wf_addr p H)). by rewrite M, lookup_delete_eq.
  - intros b Hb Hn. rewrite get_stainfo_map, sta_addr_key in Hn by done.
    destruct (free_sta_queue q) as [|j r] eqn:Fq; [by destruct (free_sta_queue p)|].
    destruct (alloc_stainfo_fresh q b j r W Hb Hn Fq) as (q' & E & W' & M' & Nj & Bj).
    exists q', j. split_and!; [done | done | done |].
    rewrite get_stainfo_map, sta_addr_key by done. by rewrite M', lookup_insert_eq.
Qed.

Lemma released_station_forgotten_witness :
  let a := [2; 0; 0; 0; 0; 1] in
  let p := foldl (sta_step true) (_rtw_init_sta_priv 32 [0; 0; 0; 0]) [OpAlloc bc_addr; OpAlloc a] in
  rtw_get_stainfo (rtw_free_stainfo true p (Some 1%nat)) (Some (mac_of p 1)) = None.
Proof.
  intros a p. apply (released_station_forgotten true p 1).
  - apply (sta_step_refines true); [apply (sta_step_refines true); [apply init_sta_priv_wf | by right] | by left].
  - assert (in_use p = [0%nat; 1%nat]) as -> by (vm_compute; reflexivity). set_solver.
Defined.

(** ** Association ids *)

(** The id table and the stations agree: a slot names a station that is not
    free and carries that id, and a station with an id holds its slot. *)
Record aid_wf (p : sta_priv) : Prop := {
  aw_len : zlen (sta_aid p) = max_aid p;
  aw_max : 0 < max_aid p < 65536;
  aw_start : 1 <= started_aid p <= max_aid p;
  aw_num : 0 < max_num_sta p < 65536;
  aw_slot : forall k i, sta_aid p !! k = Some (Some i) ->
    i ∉ free_sta_queue p /\ exists s, stainfo_buf p !! i = Some s /\ aid s = Z.of_nat k + 1;
  aw_sta : forall i s, stainfo_buf p !! i = Some s -> i ∉ free_sta_queue p -> aid s <> 0 ->
    0 < aid s /\ sta_aid p !! Z.to_nat (aid s - 1) = Some (Some i)
}.

(** The [k]-th id the search looks at. *)
Definition nth_aid (p : sta_priv) (k : Z) : Z := (k + started_aid p - 1) mod max_aid p + 1.

Definition aid_free (p : sta_priv) (a : Z) : Prop := sta_aid p !! Z.to_nat (a - 1) = Some None.

#[export] Instance aid_free_dec p a : Decision (aid_free p a).
Proof. unfold aid_free. solve_decision. Defined.

Lemma nth_aid_range p k : aid_wf p -> 1 <= nth_aid p k <= max_aid p.
Proof. intros [_ H _ _ _ _]. unfold nth_aid. pose proof (Z.mod_pos_bound (k + started_aid p - 1) (max_aid p)). lia. Qed.

(** The outcome of the search: the first free id within the limits. *)
Lemma aid_scan_spec p n k a :
  aid_wf p -> 0 <= k -> k + Z.of_nat n = max_aid p -> k < max_num_sta p ->
  let '(i, b, used) := aid_scan p n k a k in
  (k <= i < max_aid p /\ used = i /\ used < max_num_sta p /\ b = nth_aid p i /\ aid_free p b /\
     (forall j, k <= j < i -> ~ aid_free p (nth_aid p j)))
  \/ ((max_aid p <= i \/ max_num_sta p <= used) /\
     forall j, k <= j < Z.min (max_aid p) (max_num_sta p) -> ~ aid_free p (nth_aid p j)).
Proof.
  intros H. revert k a. induction n as [|n IH]; intros k a Hk Hn Hlt; cbn [aid_scan].
  - right. split; lia.
  - pose proof (nth_aid_range p k H) as R. pose proof (aw_max p H). pose proof (aw_num p H).
    assert (u16 ((k + started_aid p - 1) mod max_aid p + 1) = nth_aid p k) as ->
      by (apply u16_small; unfold is_u16, nth_aid in *; lia).
    rewrite (u16_small (k + 1)) by (unfold is_u16; lia).
    destruct (decide (aid_free p (nth_aid p k))) as [F|F].
    { rewrite F. left. split_and!; auto; try lia. }
    assert (forall (x y : Z * Z * Z), match sta_aid p !! Z.to_nat (nth_aid p k - 1) with Some None => x | _ => y end = y) as ->
      by (intros x y; unfold aid_free in F; repeat case_match; congruence).
    destruct (Z.leb_spec (max_num_sta p) (k + 1)).
    { right. split; [lia|]. intros j Hj. replace j with k by lia. done. }
    specialize (IH (k + 1) (nth_aid p k)).
    destruct (aid_scan p n (k + 1) (nth_aid p k) (k + 1)) as [[i b] used].
    destruct IH as [(A & B & C & D & E & G)|(A & B)]; [lia | lia | lia | |].
    + left. split_and!; auto; [lia | lia |]. intros j Hj. destruct (decide (j = k)) as [->|]; [done|]. apply G. lia.
    + right. split; [done|]. intros j Hj. destruct (decide (j = k)) as [->|]; [done|]. apply B. lia.
Qed.

Lemma aid_wf_record p p' i s a :
  aid_wf p -> stainfo_buf p !! i = Some s -> i ∉ free_sta_queue p -> aid s = 0 ->
  1 <= a <= max_aid p -> aid_free p a ->
  max_aid p' = max_aid p -> max_num_sta p' = max_num_sta p -> 1 <= started_aid p' <= max_aid p ->
  free_sta_queue p' = free_sta_queue p ->
  stainfo_buf p' = <[i := set_aid s a]> (stainfo_buf p) ->
  sta_aid p' = <[Z.to_nat (a - 1) := Some i]> (sta_aid p) -> aid_wf p'.
Proof.
  intros H Hs Hi Ha Ra F Em En Es Ef Eb Et. pose proof (lookup_lt_Some _ _ _ Hs) as Li. pose proof (lookup_lt_Some _ _ _ F) as La.
  destruct H as [A1 A2 A3 A4 A5 A6]. split; rewrite ?Em, ?En, ?Ef, ?Eb, ?Et; auto.
  - unfold zlen in *. by rewrite length_insert.
  - intros k j Hk. destruct (decide (k = Z.to_nat (a - 1))) as [->|Hka].
    + rewrite list_lookup_insert_eq in Hk by done. injection Hk as <-. split; [done|].
      exists (set_aid s a). rewrite list_lookup_insert_eq by done. split; [done|]. cbn. lia.
    + rewrite list_lookup_insert_ne in Hk by done. destruct (A5 k j Hk) as [Hj (t & Ht & At)]. split; [done|].
      exists t. split; [|done]. rewrite list_lookup_insert_ne; [done|]. intros ->. rewrite Hs in Ht. injection Ht as ->. lia.
  - intros j t Ht Hj At. destruct (decide (j = i)) as [->|Hji].
    + rewrite list_lookup_insert_eq in Ht by done. injection Ht as <-. cbn in *. split; [lia|].
      by rewrite list_lookup_insert_eq.
    + rewrite list_lookup_insert_ne in Ht by done. destruct (A6 j t Ht Hj At) as [P Q]. split; [done|].
      rewrite list_lookup_insert_ne; [done|]. intros E. unfold aid_free in F. rewrite E, Q in F. discriminate.
Qed.

(** Allocation for a station without an id: either no id within the limits is
    free and nothing but the station's id field (which is 0 already) is
    written, or a free id is recorded on both sides. *)
Lemma aid_alloc_effect p i s :
  aid_wf p -> stainfo_buf p !! i = Some s -> i ∉ free_sta_queue p -> aid s = 0 ->
  let '(p', a) := rtw_aid_alloc p i in
  aid_wf p' /\ sta_hash p' = sta_hash p /\ free_sta_queue p' = free_sta_queue p /\
  asoc_sta_count p' = asoc_sta_count p /\ max_aid p' = max_aid p /\ max_num_sta p' = max_num_sta p /\ rr_aid p' = rr_aid p /\
  stainfo_buf p' = <[i := set_aid s a]> (stainfo_buf p) /\
  ((a = 0 /\ sta_aid p' = sta_aid p /\ started_aid p' = started_aid p /\
      forall j, 0 <= j < Z.min (max_aid p) (max_num_sta p) -> ~ aid_free p (nth_aid p j)) \/
   (1 <= a <= max_aid p /\ aid_free p a /\ sta_aid p' = <[Z.to_nat (a - 1) := Some i]> (sta_aid p) /\
      (exists k, 0 <= k < max_num_sta p /\ a = nth_aid p k) /\
      (rr_aid p = false -> started_aid p' = started_aid p))).
Proof.
  intros H Hs Hi Ha. unfold rtw_aid_alloc. pose proof (aw_max p H) as Hm. pose proof (aw_num p H) as Hn.
  pose proof (aid_scan_spec p (Z.to_nat (max_aid p)) 0 0 H) as S.
  assert (forall a, alter (fun s => set_aid s a) i (stainfo_buf p) = <[i := set_aid s a]> (stainfo_buf p)) as B.
  { intros a. apply list_eq. intros j. assert (i < length (stainfo_buf p))%nat by (by apply lookup_lt_Some in Hs).
    destruct (decide (j = i)) as [->|Hj]; [rewrite list_lookup_alter_eq, list_lookup_insert_eq, Hs by done; done|].
    by rewrite list_lookup_alter_ne, list_lookup_insert_ne. }
  destruct (aid_scan p (Z.to_nat (max_aid p)) 0 0 0) as [[k b] used].
  destruct S as [(K & -> & U & -> & F & G)|(A & G)]; [lia | lia | lia | |].
  - destruct (Z.leb_spec (max_aid p) k); [lia|]. destruct (Z.leb_spec (max_num_sta p) k); [lia|]. cbn [orb].
    pose proof (nth_aid_range p k H) as R. set (a := nth_aid p k) in *. destruct (Z.eqb_spec a 0); [lia|].
    cbn [rr_aid upd_sta set_stainfo max_aid started_aid sta_aid].
    pose proof (aw_start p H) as St. pose proof (Z.mod_pos_bound a (max_aid p) ltac:(lia)) as Ra.
    split; [|split_and!; [done.. | apply B | right]; repeat split; auto; [lia | lia | exists k; auto with lia | by cbn; intros ->]].
    apply (aid_wf_record p _ i s a); auto; try lia; try done; try apply B.
    + cbn. destruct (rr_aid p); [rewrite u16_small by (unfold is_u16; lia); lia | done].
  - replace ((max_aid p <=? k) || (max_num_sta p <=? used)) with true by (symmetry; apply orb_true_iff; lia).
    cbn [Z.eqb]. assert (<[i := set_aid s 0]> (stainfo_buf p) = stainfo_buf p) as Id.
    { apply list_insert_id. rewrite Hs. f_equal. destruct s; cbn in Ha |- *; by subst. }
    split.
    { destruct H. split; auto. cbn [upd_sta set_stainfo stainfo_buf]. rewrite B, Id. auto.
      cbn [upd_sta set_stainfo stainfo_buf]. rewrite B, Id. auto. }
    split_and!; [done.. | apply B | left]; split_and!; auto.
Qed.

Lemma free_stainfo_aids p i s :
  stainfo_buf p !! i = Some s ->
  let p' := rtw_free_stainfo true p (Some i) in
  let held := (0 <? aid s) && bool_decide (sta_aid p !! Z.to_nat (aid s - 1) = Some (Some i)) in
  max_aid p' = max_aid p /\ started_aid p' = started_aid p /\ max_num_sta p' = max_num_sta p /\ rr_aid p' = rr_aid p /\
  sta_aid p' = (if held then <[Z.to_nat (aid s - 1) := None]> (sta_aid p) else sta_aid p) /\
  stainfo_buf p' !! i = Some (set_aid (release_entry s) (if held then 0 else aid s)).
Proof.
  intros Hs. unfold rtw_free_stainfo. set (p2 := upd_sta _ i release_entry).
  assert (stainfo_buf p2 !! i = Some (release_entry s)) as H2.
  { change (alter release_entry i (stainfo_buf p) !! i = Some (release_entry s)). by rewrite list_lookup_alter_eq, Hs. }
  set (p3 := if bool_decide (i ∈ auth_list p2) then _ else p2).
  assert (stainfo_buf p3 = stainfo_buf p2 /\ max_aid p3 = max_aid p /\ started_aid p3 = started_aid p /\
    max_num_sta p3 = max_num_sta p /\ rr_aid p3 = rr_aid p /\ sta_aid p3 = sta_aid p) as (B3 & M3 & S3 & N3 & R3 & A3)
    by (unfold p3; destruct (bool_decide _); done).
  clearbody p3. unfold release_aid. rewrite B3, H2. cbn zeta. cbn [set_maps sta_aid]. rewrite A3.
  change (aid (release_entry s)) with (aid s).
  destruct (_ && _); cbn [set_free set_aids set_maps upd_sta set_stainfo sta_aid max_aid started_aid max_num_sta rr_aid stainfo_buf].
  - rewrite M3, S3, N3, R3, B3. split_and!; auto. by rewrite list_lookup_alter_eq, H2.
  - rewrite M3, S3, N3, R3, B3, A3. split_and!; auto.
Qed.

Lemma free_stainfo_aid_wf p i :
  aid_wf p -> is_Some (stainfo_buf p !! i) -> i ∉ free_sta_queue p -> aid_wf (rtw_free_stainfo true p (Some i)).
Proof.
  intros H [s Hs] Hi.
  destruct (free_stainfo_effect true p i s Hs) as (_ & F & _ & _ & O & _).
  destruct (free_stainfo_aids p i s Hs) as (M & S & N & _ & T & B). cbn zeta in *.
  set (held := _ && _) in *.
  assert (held = bool_decide (aid s <> 0)) as Hh.
  { unfold held. destruct (bool_decide_reflect (aid s <> 0)) as [A|A].
    - destruct (aw_sta p H i s Hs Hi A) as [P Q]. rewrite bool_decide_true by done. lia.
    - destruct (Z.ltb_spec 0 (aid s)); [lia|done]. }
  assert (forall k, sta_aid (rtw_free_stainfo true p (Some i)) !! k <> Some (Some i)) as Ni.
  { intros k Hk. rewrite T, Hh in Hk. destruct (bool_decide_reflect (aid s <> 0)) as [A|A].
    - apply list_lookup_insert_Some in Hk as [(_ & E & _)|[Hne Hk]]; [done|].
      destruct (aw_slot p H k i Hk) as [_ (t & Ht & At)]. rewrite Hs in Ht. injection Ht as <-. lia.
    - destruct (aw_slot p H k i Hk) as [_ (t & Ht & At)]. rewrite Hs in Ht. injection Ht as <-. lia. }
  destruct H as [A1 A2 A3 A4 A5 A6]. split; rewrite ?M, ?S, ?N, ?F; auto.
  - rewrite T. unfold zlen in *. destruct held; by rewrite ?length_insert.
  - intros k j Hk. assert (j <> i) as Hji by (intros ->; by destruct (Ni k)).
    assert (sta_aid p !! k = Some (Some j)) as Hk'.
    { rewrite T in Hk. destruct held; [|done]. by apply list_lookup_insert_Some in Hk as [(_ & E & _)|[_ Hk]]. }
    destruct (A5 k j Hk') as [Hj Ht]. split; [set_solver|]. by rewrite O.
  - intros j t Ht Hj At. assert (j <> i) as Hji by set_solver. rewrite O in Ht by done.
    destruct (A6 j t Ht ltac:(set_solver) At) as [P Q]. split; [done|]. rewrite T. destruct held eqn:Eh; [|done].
    rewrite list_lookup_insert_ne; [done|]. intros E. rewrite <- E in Q.
    assert (aid s <> 0) as As by (symmetry in Hh; by apply bool_decide_eq_true in Hh).
    destruct (A6 i s Hs Hi As) as [_ Q']. congruence.
Qed.

Lemma foldl_free_aid_wf l p :
  aid_wf p -> NoDup l -> (forall i, i ∈ l -> is_Some (stainfo_buf p !! i) /\ i ∉ free_sta_queue p) ->
  aid_wf (foldl (fun p i => rtw_free_stainfo true p (Some i)) p l).
Proof.
  revert p. induction l as [|i l IH]; intros p H N Hl; [done|]. apply NoDup_cons in N as [Hi N]. cbn [foldl].
  destruct (Hl i) as [[s Hs] Hf]; [set_solver|].
  destruct (free_stainfo_effect true p i s Hs) as (_ & F & _ & L & _).
  apply IH; [by apply free_stainfo_aid_wf; [|exists s|] | done |].
  intros j Hj. destruct (Hl j) as [S Nf]; [set_solver|]. split; [|rewrite F; set_solver].
  apply lookup_lt_is_Some. rewrite L. by apply lookup_lt_is_Some.
Qed.

Inductive ap_op := OpTable (op : sta_op) | OpAid (a : bytes) | OpAidStatus (line : option (Z * option Z)).

(** An access point runs table operations, gives ids to known stations, and
    the administrator sets how ids are searched for. *)
Definition ap_step (p : sta_priv) (op : ap_op) : sta_priv :=
  match op with
  | OpTable op => sta_step true p op
  | OpAid a => match rtw_get_stainfo p (Some a) with Some i => assoc_assign_aid p i | None => p end
  | OpAidStatus line => proc_set_aid_status p line
  end.

(** Addresses have six bytes. *)
Definition ap_op_ok (op : ap_op) : Prop := match op with OpTable op => op_ok op | OpAid _ | OpAidStatus _ => True end.

(** The way ids are searched for is left alone. *)
Definition keeps_search (op : ap_op) : Prop := match op with OpAidStatus _ => False | _ => True end.

(** [p'] has the id limits of [p] and no new id. *)
Definition aids_within (p p' : sta_priv) : Prop :=
  max_aid p' = max_aid p /\ started_aid p' = started_aid p /\ max_num_sta p' = max_num_sta p /\ rr_aid p' = rr_aid p /\
  forall k i, sta_aid p' !! k = Some (Some i) -> sta_aid p !! k = Some (Some i).

#[export] Instance aids_within_refl : Reflexive aids_within.
Proof. intros p. unfold aids_within. auto. Qed.

#[export] Instance aids_within_trans : Transitive aids_within.
Proof.
  intros p q r (A1 & A2 & A3 & A4 & A5) (B1 & B2 & B3 & B4 & B5). unfold aids_within.
  split_and!; [congruence.. |]. auto.
Qed.

Lemma free_stainfo_within p i : is_Some (stainfo_buf p !! i) -> aids_within p (rtw_free_stainfo true p (Some i)).
Proof.
  intros [s Hs]. destruct (free_stainfo_aids p i s Hs) as (M & S & N & R & T & _). unfold aids_within.
  rewrite M, S, N, R, T. split_and!; auto. intros k j Hk. destruct (_ && _); [|done].
  by apply list_lookup_insert_Some in Hk as [(_ & E & _)|[_ Hk]].
Qed.

Lemma foldl_free_within l p :
  (forall i, i ∈ l -> is_Some (stainfo_buf p !! i)) ->
  aids_within p (foldl (fun p i => rtw_free_stainfo true p (Some i)) p l).
Proof.
  revert p. induction l as [|i l IH]; intros p Hl; [done|]. cbn [foldl].
  destruct (Hl i) as [s Hs]; [set_solver|]. destruct (free_stainfo_effect true p i s Hs) as (_ & _ & _ & L & _).
  etrans; [by apply free_stainfo_within; exists s|]. apply IH. intros j Hj.
  apply lookup_lt_is_Some. rewrite L. apply lookup_lt_is_Some. apply Hl. set_solver.
Qed.

Lemma alloc_stainfo_aid_wf p a p' i :
  sta_wf p -> aid_wf p -> rtw_alloc_stainfo p a = (p', Some i) -> aid_wf p' /\ aids_within p p'.
Proof.
  intros W H. unfold rtw_alloc_stainfo. destruct (free_sta_queue p) as [|j q] eqn:F; [done|].
  destruct (NUM_STA <=? wifi_mac_hash a); [done|]. intros [= <- ->].
  split; [|unfold aids_within; cbn; auto]. pose proof (wf_nodup p W) as N. rewrite F in N.
  apply NoDup_app in N as (N & _ & _). apply NoDup_cons in N as [Nq _].
  destruct H as [A1 A2 A3 A4 A5 A6]. split; cbn; auto; rewrite ?F in *.
  - intros k j Hk. destruct (A5 k j Hk) as [Hj Ht]. split; [set_solver|]. rewrite list_lookup_alter_ne by set_solver. done.
  - intros j t Ht Hj At. destruct (decide (j = i)) as [->|Hji].
    + rewrite list_lookup_alter_eq in Ht. apply fmap_Some in Ht as (x & _ & ->). by cbn in At.
    + rewrite list_lookup_alter_ne in Ht by done. apply A6; [done | set_solver | done].
Qed.

Lemma in_use_not_free p i : sta_wf p -> i ∈ in_use p -> is_Some (stainfo_buf p !! i) /\ i ∉ free_sta_queue p.
Proof.
  intros W Hi. destruct (wf_entry p i W Hi) as (s & Hs & _). split; [by exists s|].
  pose proof (wf_nodup p W) as N. apply NoDup_app in N as (_ & N & _). intros F. by apply (N i F).
Qed.

Lemma sta_step_aid p op :
  sta_wf p -> aid_wf p -> op_ok op -> aid_wf (sta_step true p op) /\ aids_within p (sta_step true p op).
Proof.
  intros W H Hop. destruct op as [a|a|]; cbn [sta_step op_ok] in *.
  - destruct (rtw_get_stainfo p (Some a)) eqn:E; [done|]. rewrite get_stainfo_map, sta_addr_key in E by done.
    destruct (free_sta_queue p) as [|i q] eqn:F; [by destruct (alloc_stainfo_full p a W F) as [-> _]|].
    destruct (alloc_stainfo_fresh p a i q W Hop E F) as (p' & Ep & _). rewrite Ep. by apply (alloc_stainfo_aid_wf p a p' i).
  - destruct (rtw_get_stainfo p (Some a)) as [i|] eqn:E; [|done].
    rewrite get_stainfo_map in E by done. apply sta_map_lookup in E as [Hi _]; [|done].
    destruct (in_use_not_free p i W Hi) as [S N]. split; [by apply free_stainfo_aid_wf | by apply free_stainfo_within].
  - unfold rtw_free_all_stainfo. destruct (_ =? 1); [done|]. set (l := collect_stations _ _). set (p0 := set_hash p _ _).
    assert (forall i, i ∈ l -> is_Some (stainfo_buf p0 !! i) /\ i ∉ free_sta_queue p0) as Hl.
    { intros i Hi. apply list_elem_of_filter in Hi as [_ Hi]. exact (in_use_not_free p i W Hi). }
    assert (aid_wf p0) as H0 by (destruct H; by split).
    assert (NoDup l) as N.
    { apply NoDup_filter. pose proof (wf_nodup p W) as N. by apply NoDup_app in N as (_ & _ & N). }
    split; [by apply foldl_free_aid_wf|].
    transitivity p0; [unfold aids_within; auto|]. apply foldl_free_within. intros i Hi. by apply Hl.
Qed.

(** Rewriting the entries without touching addresses keeps the table. *)
Lemma sta_wf_same p p' :
  sta_wf p -> length (stainfo_buf p') = length (stainfo_buf p) -> sta_hash p' = sta_hash p ->
  free_sta_queue p' = free_sta_queue p -> asoc_sta_count p' = asoc_sta_count p ->
  (forall i, mac_of p' i = mac_of p i) -> sta_wf p'.
Proof.
  intros [] L Eh Ef Ec Em. assert (in_use p' = in_use p) as U by (unfold in_use; by rewrite Eh).
  split; rewrite ?L, ?Eh, ?Ef, ?Ec, ?U; auto.
  - intros h c i Hc Hi. rewrite Em. eauto.
  - intros i j Hi Hj. rewrite !Em. auto.
  - intros i Hi. rewrite Em. auto.
Qed.

(** However ids are searched for, table and ids fit together. *)
Record ap_inv (p : sta_priv) : Prop := {
  ai_table : sta_wf p;
  ai_aids : aid_wf p
}.

(** Round robin off: every id in use is within the station limit. *)
Record ap_limited (p : sta_priv) : Prop := {
  al_fixed : rr_aid p = false /\ started_aid p = 1;
  al_limit : forall k i, sta_aid p !! k = Some (Some i) -> Z.of_nat k < max_num_sta p
}.

Lemma aids_within_limited p p' : aids_within p p' -> ap_limited p -> ap_limited p'.
Proof. intros (E1 & E2 & E3 & E4 & E5) [[R S] L]. split; [split; congruence|]. intros k i Hk. rewrite E3. eauto. Qed.

Lemma proc_aid_status_inv p line : ap_inv p -> ap_inv (proc_set_aid_status p line).
Proof.
  intros [W A]. destruct line as [[rr start]|]; [|by split]. split; [by apply (sta_wf_same p)|].
  destruct A as [A1 A2 A3 A4 A5 A6]. split; auto. cbn. destruct start as [v|]; [|done].
  pose proof (Z.mod_pos_bound v (max_aid p + 1)). destruct (Z.eqb_spec (v mod (max_aid p + 1)) 0); lia.
Qed.

Lemma assign_aid_inv p i :
  ap_inv p -> i ∈ in_use p ->
  ap_inv (assoc_assign_aid p i) /\ (ap_limited p -> ap_limited (assoc_assign_aid p i)).
Proof.
  intros [W A] Hi. destruct (in_use_not_free p i W Hi) as [[s Hs] Nf]. unfold assoc_assign_aid. rewrite Hs.
  destruct (Z.ltb_spec 0 (aid s)); [by split|].
  assert (aid s = 0) as Z0. { destruct (decide (aid s = 0)); [done|]. destruct (aw_sta p A i s Hs Nf); [done|lia]. }
  pose proof (aid_alloc_effect p i s A Hs Nf Z0) as P. destruct (rtw_aid_alloc p i) as [p' b]. cbn [fst].
  destruct P as (A' & E1 & E2 & E3 & E4 & E5 & E6 & E7 & E8). pose proof (lookup_lt_Some _ _ _ Hs) as Li.
  split.
  - split; [|done]. apply (sta_wf_same p); auto; [by rewrite E7, length_insert|]. intros j. unfold mac_of. rewrite E7.
    destruct (decide (j = i)) as [->|Hj]; [by rewrite list_lookup_insert_eq, Hs | by rewrite list_lookup_insert_ne].
  - intros [[R S] L]. destruct E8 as [(-> & T & S' & _)|(Rb & _ & T & (k & Hk & ->) & S')].
    + split; [split; congruence|]. intros k j. rewrite T, E5. apply L.
    + split; [split; [congruence | rewrite S'; auto]|]. intros k' j. rewrite T, E5. intros Hj.
      apply list_lookup_insert_Some in Hj as [(<- & _ & _)|[_ Hj]]; [|eauto].
      unfold nth_aid in *. rewrite S in *. pose proof (aw_max p A). replace (k + 1 - 1) with k in * by lia.
      pose proof (Z.mod_pos_bound k (max_aid p)). pose proof (Z.mod_le k (max_aid p)). lia.
Qed.

Lemma ap_inv_step p op :
  ap_inv p -> ap_op_ok op ->
  ap_inv (ap_step p op) /\ (keeps_search op -> ap_limited p -> ap_limited (ap_step p op)).
Proof.
  intros I Hop. destruct op as [op|a|line]; cbn [ap_step ap_op_ok keeps_search] in *.
  - destruct I as [W A]. destruct (sta_step_refines true p op W Hop) as [W' _].
    destruct (sta_step_aid p op W A Hop) as [A' Wi]. split; [by split|]. intros _. by apply aids_within_limited.
  - destruct (rtw_get_stainfo p (Some a)) as [i|] eqn:E; [|by split].
    rewrite get_stainfo_map in E by apply I. apply sta_map_lookup in E as [Hi _]; [|apply I].
    destruct (assign_aid_inv p i I Hi). auto.
  - split; [by apply proc_aid_status_inv|done].
Qed.

Lemma ap_inv_run ops p :
  Forall ap_op_ok ops -> ap_inv p ->
  ap_inv (foldl ap_step p ops) /\ (Forall keeps_search ops -> ap_limited p -> ap_limited (foldl ap_step p ops)).
Proof.
  intros Hops. revert p. induction Hops as [|op ops Hop _ IH]; intros p I; [done|]. cbn [foldl].
  destruct (ap_inv_step p op I Hop) as [I1 L1]. destruct (IH _ I1) as [I2 L2]. split; [done|].
  intros [K Ks]%Forall_cons L. auto.
Qed.

Lemma ap_inv_start n c m :
  0 < n < 65536 ->
  let p := set_max_num_sta (_rtw_init_sta_priv n c) m in ap_inv p /\ ap_limited p.
Proof.
  intros Hn p. split; [split|split].
  - apply (sta_wf_same (_rtw_init_sta_priv n c)); auto using init_sta_priv_wf.
  - split; cbn; auto; try lia.
    + unfold zlen. rewrite length_replicate. lia.
    + unfold NUM_STA. destruct (Z.ltb_spec 32 m), (Z.leb_spec m 0); cbn; lia.
    + intros k i Hk. by apply lookup_replicate in Hk as [? _].
    + intros i s Hs Hi. assert (i ∉ seq 0 32) as Ni by done. destruct Ni. apply elem_of_seq.
      apply lookup_lt_Some in Hs. change (i < 32)%nat in Hs. lia.
  - done.
  - intros k i Hk. by apply lookup_replicate in Hk as [? _].
Qed.

(** C36: An access point that allocates and releases stations, gives ids to
    them and has its id search reset through the proc file, in any order,
    never gives two stations the same association id, and every id is at most
    the number of ids. As long as the search is left as it is initialised
    (round-robin allocation off), every id is also at most the station limit,
    so that no more than [max_num_sta] stations hold one; with round-robin
    allocation on this fails, see [round_robin_exceeds_limit]. *)
Theorem aids_unique_and_limited n c m ops :
  0 < n < 65536 -> Forall ap_op_ok ops ->
  let p := foldl ap_step (set_max_num_sta (_rtw_init_sta_priv n c) m) ops in
  (forall i j s t, i ∈ in_use p -> j ∈ in_use p -> stainfo_buf p !! i = Some s -> stainfo_buf p !! j = Some t ->
     aid s <> 0 -> aid s = aid t -> i = j) /\
  (forall i s, i ∈ in_use p -> stainfo_buf p !! i = Some s -> 0 <= aid s <= max_aid p) /\
  (Forall keeps_search ops ->
   forall i s, i ∈ in_use p -> stainfo_buf p !! i = Some s -> aid s <= max_num_sta p).
Proof.
  intros Hn Hops p. destruct (ap_inv_start n c m Hn) as [I0 L0].
  destruct (ap_inv_run ops _ Hops I0) as [[W A] L]. fold p in W, A, L. split_and!.
  - intros i j s t Hi Hj Hs Ht As E. destruct (in_use_not_free p i W Hi) as [_ Ni]. destruct (in_use_not_free p j W Hj) as [_ Nj].
    destruct (aw_sta p A i s Hs Ni As) as [_ P]. destruct (aw_sta p A j t Ht Nj ltac:(congruence)) as [_ Q].
    rewrite E in P. congruence.
  - intros i s Hi Hs. destruct (in_use_not_free p i W Hi) as [_ Ni]. pose proof (aw_max p A).
    destruct (decide (aid s = 0)) as [->|As]; [lia|]. destruct (aw_sta p A i s Hs Ni As) as [P Q].
    apply lookup_lt_Some in Q. pose proof (aw_len p A) as Z. unfold zlen in Z. lia.
  - intros K i s Hi Hs. destruct (in_use_not_free p i W Hi) as [_ Ni]. pose proof (aw_num p A).
    destruct (decide (aid s = 0)) as [->|As]; [lia|]. destruct (aw_sta p A i s Hs Ni As) as [P Q].
    pose proof (al_limit p (L K L0) _ _ Q). lia.
Qed.

(** Two stations ask for an id where the limit is one station. *)
Definition two_requests : list ap_op :=
  [OpTable (OpAlloc [2; 0; 0; 0; 0; 1]); OpTable (OpAlloc [2; 0; 0; 0; 0; 2]);
   OpAid [2; 0; 0; 0; 0; 1]; OpAid [2; 0; 0; 0; 0; 2]].
Definition limited_ap : sta_priv :=
  foldl ap_step (set_max_num_sta (_rtw_init_sta_priv 8 [0; 0; 0; 0]) 1) two_requests.

Lemma aids_unique_and_limited_witness :
  map aid (take 2 (stainfo_buf limited_ap)) = [1; 0] /\
  (forall i s, i ∈ in_use limited_ap -> stainfo_buf limited_ap !! i = Some s -> 0 <= aid s <= max_aid limited_ap) /\
  (forall i s, i ∈ in_use limited_ap -> stainfo_buf limited_ap !! i = Some s -> aid s <= max_num_sta limited_ap).
Proof.
  split; [vm_compute; reflexivity|].
  destruct (aids_unique_and_limited 8 [0; 0; 0; 0] 1 two_requests) as (_ & A & B); [lia| |].
  - repeat (apply Forall_cons; split); try apply Forall_nil; first [exact I | left; reflexivity].
  - split; [exact A|]. apply B. repeat (apply Forall_cons; split); try apply Forall_nil; exact I.
Defined.

(** With round-robin allocation the station limit is not enforced: where the
    limit is one station the same two requests are both served, because the
    search counts only the ids it passes over. *)
Theorem round_robin_exceeds_limit :
  let p := foldl ap_step (set_max_num_sta (_rtw_init_sta_priv 8 [0; 0; 0; 0]) 1)
             (OpAidStatus (Some (1, None)) :: two_requests) in
  max_num_sta p = 1 /\ map aid (take 2 (stainfo_buf p)) = [1; 2] /\
  sta_aid p = [Some 0%nat; Some 1%nat; None; None; None; None; None; None].
Proof. vm_compute. auto. Qed.
