(* ===== verification/Acl.v ===== *)
(** * Address filter (core/rtw_sta_mgt.c, core/rtw_ap.c)

    Two lists of at most NUM_ACL addresses, one for the life of the device and
    one for the life of a BSS, with a mode each.  A list is a pool of nodes and
    a queue of the nodes in use.  The operations are refined to a set of
    addresses. *)

From S2P Require Import Prelude RxFrame StaMgt.

Definition NUM_ACL : Z := 16.
Definition RTW_ACL_PERIOD_NUM : Z := 2.
Definition RTW_ACL_MODE_DISABLED : Z := 0.
Definition RTW_ACL_MODE_ACCEPT_UNLESS_LISTED : Z := 1.
Definition RTW_ACL_MODE_DENY_UNLESS_LISTED : Z := 2.

(** [struct rtw_wlan_acl_node] *)
Record rtw_wlan_acl_node := mk_node { acl_addr : bytes; acl_valid : bool }.

(** [struct wlan_acl_pool]; [acl_node_q] holds indices into [aclnode]. *)
Record wlan_acl_pool := mk_acl {
  acl_mode : Z;
  acl_num : Z;
  aclnode : list rtw_wlan_acl_node;
  acl_node_q : list nat
}.

Definition is_broadcast_mac_addr (a : bytes) : bool := bool_decide (a = bc_addr).

(** [acl_list[period]] updated by [f]; an invalid period changes nothing. *)
Definition with_period {A} (acls : list wlan_acl_pool) (period : Z) (dflt : A)
    (f : wlan_acl_pool -> wlan_acl_pool * A) : list wlan_acl_pool * A :=
  if RTW_ACL_PERIOD_NUM <=? period then (acls, dflt)
  else match acls !! Z.to_nat period with
       | None => (acls, dflt)
       | Some acl => let '(acl', r) := f acl in (<[Z.to_nat period := acl']> acls, r)
       end.

Definition invalidate (n : rtw_wlan_acl_node) : rtw_wlan_acl_node := mk_node (acl_addr n) false.

(** ** Operations on one list *)

Definition acl_init (acl : wlan_acl_pool) : wlan_acl_pool :=
  mk_acl RTW_ACL_MODE_DISABLED 0 (map invalidate (aclnode acl)) [].

(** A walk over the queue: the first valid node with the address. *)
Fixpoint acl_match (nodes : list rtw_wlan_acl_node) (q : list nat) (a : bytes) : bool :=
  match q with
  | [] => false
  | i :: q =>
      match nodes !! i with
      | Some n => if bool_decide (acl_addr n = a) && acl_valid n then true else acl_match nodes q a
      | None => acl_match nodes q a
      end
  end.

(** The walk that releases the nodes selected by [sel]: the list it leaves and
    whether one was released. *)
Fixpoint acl_release (sel : bytes -> bool) (acl : wlan_acl_pool) (q : list nat) (match_ : bool)
  : wlan_acl_pool * bool :=
  match q with
  | [] => (acl, match_)
  | i :: q =>
      match aclnode acl !! i with
      | Some n =>
          if sel (acl_addr n) && acl_valid n then
            acl_release sel
              (mk_acl (acl_mode acl) (acl_num acl - 1) (alter invalidate i (aclnode acl))
                 (filter (fun j => j <> i) (acl_node_q acl))) q true
          else acl_release sel acl q match_
      | None => acl_release sel acl q match_
      end
  end.

(** [_rtw_macaddr_acl_deinit] *)
Definition acl_clear (acl : wlan_acl_pool) : wlan_acl_pool :=
  let acl := fst (acl_release (fun _ => true) acl (acl_node_q acl) false) in
  mk_acl RTW_ACL_MODE_DISABLED (acl_num acl) (aclnode acl) (acl_node_q acl).

(** The first node that is not valid, from index [i]. *)
Fixpoint first_invalid (nodes : list rtw_wlan_acl_node) (i : nat) : option nat :=
  match nodes with
  | [] => None
  | n :: nodes => if acl_valid n then first_invalid nodes (S i) else Some i
  end.

Definition acl_add (acl : wlan_acl_pool) (a : bytes) : wlan_acl_pool * Z :=
  if acl_match (aclnode acl) (acl_node_q acl) a then (acl, 0)
  else if NUM_ACL <=? acl_num acl then (acl, -1)
  else match first_invalid (aclnode acl) 0 with
       | Some i =>
           (mk_acl (acl_mode acl) (acl_num acl + 1) (<[i := mk_node a true]> (aclnode acl)) (acl_node_q acl ++ [i]), 0)
       | None => (acl, -1)
       end.

Definition acl_remove (acl : wlan_acl_pool) (a : bytes) : wlan_acl_pool * Z :=
  (fst (acl_release (fun x => is_broadcast_mac_addr a || bool_decide (x = a)) acl (acl_node_q acl) false), 0).

Definition acl_check (acl : wlan_acl_pool) (a : bytes) : bool :=
  if negb (acl_mode acl =? RTW_ACL_MODE_ACCEPT_UNLESS_LISTED) && negb (acl_mode acl =? RTW_ACL_MODE_DENY_UNLESS_LISTED)
  then true
  else
    let m := acl_match (aclnode acl) (acl_node_q acl) a in
    if acl_mode acl =? RTW_ACL_MODE_ACCEPT_UNLESS_LISTED then negb m else m.

(** ** The entry points *)

Definition rtw_macaddr_acl_init (acls : list wlan_acl_pool) (period : Z) : list wlan_acl_pool :=
  fst (with_period acls period tt (fun acl => (acl_init acl, tt))).

Definition _rtw_macaddr_acl_deinit (acls : list wlan_acl_pool) (period : Z) : list wlan_acl_pool :=
  fst (with_period acls period tt (fun acl => (acl_clear acl, tt))).

Definition rtw_macaddr_acl_deinit := _rtw_macaddr_acl_deinit.
Definition rtw_macaddr_acl_clear := _rtw_macaddr_acl_deinit.

Definition rtw_set_macaddr_acl (acls : list wlan_acl_pool) (period mode : Z) : list wlan_acl_pool :=
  fst (with_period acls period tt
         (fun acl => (mk_acl mode (acl_num acl) (aclnode acl) (acl_node_q acl), tt))).

Definition rtw_acl_add_sta (acls : list wlan_acl_pool) (period : Z) (a : bytes) : list wlan_acl_pool * Z :=
  with_period acls period (-1) (fun acl => acl_add acl a).

Definition rtw_acl_remove_sta (acls : list wlan_acl_pool) (period : Z) (a : bytes) : list wlan_acl_pool * Z :=
  with_period acls period 0 (fun acl => acl_remove acl a).

Definition _rtw_access_ctrl (acls : list wlan_acl_pool) (period : Z) (a : bytes) : bool :=
  snd (with_period acls period true (fun acl => (acl, acl_check acl a))).

Definition rtw_access_ctrl (acls : list wlan_acl_pool) (a : bytes) : bool :=
  if _rtw_access_ctrl acls 0 a then _rtw_access_ctrl acls 1 a else false.

(** ** Well-formed lists *)

Definition node_at (acl : wlan_acl_pool) (i : nat) (n : rtw_wlan_acl_node) : Prop := aclnode acl !! i = Some n.

Record acl_wf (acl : wlan_acl_pool) : Prop := {
  al_len : length (aclnode acl) = 16%nat;
  al_nodup : NoDup (acl_node_q acl);
  al_valid : forall i n, node_at acl i n -> (i ∈ acl_node_q acl <-> acl_valid n = true);
  al_node : forall i, i ∈ acl_node_q acl -> is_Some (aclnode acl !! i);
  al_num : acl_num acl = zlen (acl_node_q acl);
  al_uniq : forall i j n m, i ∈ acl_node_q acl -> j ∈ acl_node_q acl -> node_at acl i n -> node_at acl j m ->
    acl_addr n = acl_addr m -> i = j
}.

Definition addr_at (acl : wlan_acl_pool) (i : nat) : bytes :=
  match aclnode acl !! i with Some n => acl_addr n | None => [] end.

(** The addresses on the list. *)
Definition listed (acl : wlan_acl_pool) : gset bytes := list_to_set (addr_at acl <$> acl_node_q acl).

Lemma elem_of_listed acl a : a ∈ listed acl <-> exists i, i ∈ acl_node_q acl /\ addr_at acl i = a.
Proof. unfold listed. rewrite elem_of_list_to_set, list_elem_of_fmap. naive_solver. Qed.

Lemma size_listed acl : acl_wf acl -> size (listed acl) = length (acl_node_q acl).
Proof.
  intros W. unfold listed. rewrite size_list_to_set, length_fmap; [done|].
  apply NoDup_fmap_2_strong; [|apply W]. intros i j Hi Hj. unfold addr_at.
  destruct (al_node acl W i Hi) as [n Hn], (al_node acl W j Hj) as [m Hm]. rewrite Hn, Hm.
  by apply (al_uniq acl W).
Qed.

(** The walk decides membership. *)
Lemma acl_match_spec acl a : acl_wf acl -> acl_match (aclnode acl) (acl_node_q acl) a = bool_decide (a ∈ listed acl).
Proof.
  intros W. apply eq_bool_prop_intro. rewrite bool_decide_spec, elem_of_listed.
  assert (forall i, i ∈ acl_node_q acl -> exists n, aclnode acl !! i = Some n /\ acl_valid n = true) as V.
  { intros i Hi. destruct (al_node acl W i Hi) as [n Hn]. exists n. split; [done|]. by apply (al_valid acl W i n Hn). }
  unfold addr_at. induction (acl_node_q acl) as [|i q IH]; cbn [acl_match].
  { split; [done|]. intros (i & Hi & _). by apply elem_of_nil in Hi. }
  destruct (V i) as (n & Hn & Vn); [set_solver|]. rewrite Hn, Vn, andb_true_r.
  destruct (bool_decide_reflect (acl_addr n = a)) as [E|E].
  - split; [intros _|done]. exists i. rewrite Hn. set_solver.
  - rewrite IH by set_solver. split; intros (j & Hj & Ej); exists j; [set_solver|].
    apply elem_of_cons in Hj as [->|Hj]; [rewrite Hn in Ej; done | done].
Qed.

Lemma addr_at_invalidate (nodes : list rtw_wlan_acl_node) i j :
  match alter invalidate i nodes !! j with Some n => acl_addr n | None => [] end
  = match nodes !! j with Some n => acl_addr n | None => [] end.
Proof.
  destruct (decide (j = i)) as [->|H]; [rewrite list_lookup_alter_eq; by destruct (nodes !! i) | by rewrite list_lookup_alter_ne].
Qed.

(** Releasing one node in use. *)
Lemma acl_unlink_wf acl i n :
  acl_wf acl -> i ∈ acl_node_q acl -> aclnode acl !! i = Some n ->
  acl_wf (mk_acl (acl_mode acl) (acl_num acl - 1) (alter invalidate i (aclnode acl)) (filter (fun j => j <> i) (acl_node_q acl))).
Proof.
  intros W Hi Hn. split; cbn.
  - rewrite length_alter. apply W.
  - apply NoDup_filter, W.
  - intros j m Hm. unfold node_at in Hm. cbn in Hm. rewrite list_elem_of_filter. destruct (decide (j = i)) as [->|Hj].
    + rewrite list_lookup_alter_eq, Hn in Hm. injection Hm as <-. cbn. naive_solver.
    + rewrite list_lookup_alter_ne in Hm by done. rewrite (al_valid acl W j m Hm). naive_solver.
  - intros j [Hj Hq]%list_elem_of_filter. rewrite list_lookup_alter_ne by done. by apply (al_node acl W).
  - rewrite (al_num acl W). unfold zlen. pose proof (al_nodup acl W) as N.
    assert (acl_node_q acl ≡ₚ i :: filter (fun j => j <> i) (acl_node_q acl)) as P.
    { apply NoDup_Permutation; [done| |].
      - apply NoDup_cons. split; [rewrite list_elem_of_filter; naive_solver | by apply NoDup_filter].
      - intros j. rewrite elem_of_cons, list_elem_of_filter. destruct (decide (j = i)); naive_solver. }
    rewrite P at 1. cbn [length]. lia.
  - intros j k m m' [Hj Hjq]%list_elem_of_filter [Hk Hkq]%list_elem_of_filter Hm Hm'. unfold node_at in Hm, Hm'. cbn in Hm, Hm'.
    rewrite list_lookup_alter_ne in Hm, Hm' by done. by apply (al_uniq acl W).
Qed.

Lemma acl_release_spec sel q acl b :
  acl_wf acl -> NoDup q -> (forall i, i ∈ q -> i ∈ acl_node_q acl) ->
  let acl' := fst (acl_release sel acl q b) in
  acl_wf acl' /\ acl_mode acl' = acl_mode acl /\ (forall i, addr_at acl' i = addr_at acl i) /\
  (forall i, i ∈ acl_node_q acl' <-> i ∈ acl_node_q acl /\ ~ (i ∈ q /\ sel (addr_at acl i) = true)).
Proof.
  revert acl b. induction q as [|i q IH]; intros acl b W N Hq; cbn [acl_release].
  - cbn. split_and!; auto. intros i. pose proof (not_elem_of_nil i). naive_solver.
  - apply NoDup_cons in N as [Ni N]. assert (i ∈ acl_node_q acl) as Hi by set_solver.
    destruct (al_node acl W i Hi) as [n Hn]. rewrite Hn.
    assert (acl_valid n = true) as -> by (by apply (al_valid acl W i n Hn)). rewrite andb_true_r.
    assert (addr_at acl i = acl_addr n) as An by (unfold addr_at; by rewrite Hn).
    destruct (sel (acl_addr n)) eqn:S.
    + set (acl1 := mk_acl _ _ _ _). pose proof (acl_unlink_wf acl i n W Hi Hn) as W1. fold acl1 in W1.
      assert (forall j, addr_at acl1 j = addr_at acl j) as E1 by (intros j; apply addr_at_invalidate).
      assert (forall j, j ∈ acl_node_q acl1 <-> j <> i /\ j ∈ acl_node_q acl) as Q1
        by (intros j; unfold acl1; cbn [acl_node_q]; by rewrite list_elem_of_filter).
      destruct (IH acl1 true W1 N) as (W2 & M2 & E2 & Q2).
      { intros j Hj. apply Q1. split; [set_solver | set_solver]. }
      split_and!; [done | done | intros j; by rewrite E2, E1 |]. intros j. rewrite Q2, Q1, E1, elem_of_cons.
      destruct (decide (j = i)) as [->|]; [rewrite An, S; naive_solver | naive_solver].
    + destruct (IH acl b W N) as (W2 & M2 & E2 & Q2); [set_solver|]. split_and!; auto. intros j. rewrite Q2, elem_of_cons.
      destruct (decide (j = i)) as [->|]; [rewrite An, S; naive_solver | naive_solver].
Qed.

Lemma acl_release_listed sel acl b :
  acl_wf acl ->
  let acl' := fst (acl_release sel acl (acl_node_q acl) b) in
  acl_wf acl' /\ acl_mode acl' = acl_mode acl /\ forall a, a ∈ listed acl' <-> a ∈ listed acl /\ sel a = false.
Proof.
  intros W. destruct (acl_release_spec sel (acl_node_q acl) acl b W (al_nodup acl W)) as (W' & M & E & Q); [done|].
  split_and!; auto. intros a. rewrite !elem_of_listed. setoid_rewrite Q. setoid_rewrite E. split.
  - intros (i & [Hi Hn] & <-). split; [by exists i|]. destruct (sel (addr_at acl i)) eqn:S; [|done]. by destruct Hn.
  - intros [(i & Hi & <-) S]. exists i. split; [|done]. split; [done|]. intros [_ S']. congruence.
Qed.

Lemma first_invalid_spec nodes k :
  match first_invalid nodes k with
  | Some i => (k <= i)%nat /\ exists n, nodes !! (i - k)%nat = Some n /\ acl_valid n = false
  | None => Forall (fun n => acl_valid n = true) nodes
  end.
Proof.
  revert k. induction nodes as [|n nodes IH]; intros k; cbn [first_invalid]; [constructor|].
  destruct (acl_valid n) eqn:V.
  - specialize (IH (S k)). destruct (first_invalid nodes (S k)) as [i|]; [|by constructor].
    destruct IH as [L (m & Hm & Vm)]. split; [lia|]. exists m. split; [|done].
    replace (i - k)%nat with (S (i - S k)) by lia. done.
  - split; [lia|]. exists n. by rewrite Nat.sub_diag.
Qed.

(** Some node is free while the list is not full. *)
Lemma acl_room acl : acl_wf acl -> acl_num acl < 16 -> exists i n,
  first_invalid (aclnode acl) 0 = Some i /\ aclnode acl !! i = Some n /\ acl_valid n = false /\ i ∉ acl_node_q acl.
Proof.
  intros W Hn. pose proof (first_invalid_spec (aclnode acl) 0) as S. destruct (first_invalid (aclnode acl) 0) as [i|].
  - destruct S as [_ (n & H1 & H2)]. rewrite Nat.sub_0_r in H1. exists i, n. split_and!; auto.
    intros Hi. apply (al_valid acl W i n H1) in Hi. congruence.
  - exfalso. assert (length (seq 0 16) <= length (acl_node_q acl))%nat as L.
    { apply submseteq_length, NoDup_submseteq; [apply NoDup_seq|]. intros i Hi%elem_of_seq.
      destruct (lookup_lt_is_Some_2 (aclnode acl) i) as [n Hx]; [rewrite (al_len acl W); lia|].
      apply (al_valid acl W i n Hx). by apply (Forall_lookup_1 _ _ _ _ S Hx). }
    rewrite length_seq in L. rewrite (al_num acl W) in Hn. unfold zlen in Hn. lia.
Qed.

Lemma acl_add_spec acl a :
  acl_wf acl ->
  let '(acl', r) := acl_add acl a in
  acl_wf acl' /\ acl_mode acl' = acl_mode acl /\
  ((a ∈ listed acl \/ (size (listed acl) < 16)%nat) -> r = 0 /\ listed acl' = {[a]} ∪ listed acl) /\
  (a ∉ listed acl -> size (listed acl) = 16%nat -> r = -1 /\ acl' = acl).
Proof.
  intros W. unfold acl_add. rewrite acl_match_spec, size_listed by done.
  destruct (bool_decide_reflect (a ∈ listed acl)) as [E|E]; [split_and!; auto; [set_solver | done]|].
  pose proof (al_num acl W) as Hn. unfold zlen in Hn. unfold NUM_ACL. destruct (Z.leb_spec 16 (acl_num acl)).
  { split_and!; auto. intros [?|?]; [done|lia]. }
  destruct (acl_room acl W) as (i & n & -> & Hi & Vi & Ni); [lia|].
  assert (i < length (aclnode acl))%nat as Li by (by apply lookup_lt_Some in Hi).
  set (acl' := mk_acl _ _ _ _). assert (forall j, j ∈ acl_node_q acl' <-> j = i \/ j ∈ acl_node_q acl) as Q by set_solver.
  assert (addr_at acl' i = a) as Ai by (unfold addr_at; cbn; by rewrite list_lookup_insert_eq).
  assert (forall j, j <> i -> aclnode acl' !! j = aclnode acl !! j) as O by (intros j Hj; cbn; by rewrite list_lookup_insert_ne).
  assert (forall j m, j ∈ acl_node_q acl -> node_at acl j m -> acl_addr m <> a) as Fr.
  { intros j m Hj Hm Em. apply E, elem_of_listed. exists j. unfold addr_at. by rewrite Hm. }
  split_and!; [|done| |intros _ ?; lia].
  - split.
    + cbn. rewrite length_insert. apply W.
    + cbn. apply NoDup_app. split_and!; [apply W | set_solver | apply NoDup_singleton].
    + intros j m Hm. unfold node_at in Hm. rewrite Q. destruct (decide (j = i)) as [->|Hj].
      * cbn in Hm. rewrite list_lookup_insert_eq in Hm by done. injection Hm as <-. naive_solver.
      * rewrite O in Hm by done. rewrite <- (al_valid acl W j m Hm). naive_solver.
    + intros j. rewrite Q. intros [->|Hj]; [cbn; rewrite list_lookup_insert_eq by done; eauto|].
      rewrite O by (intros ->; done). by apply (al_node acl W).
    + cbn. unfold zlen. rewrite length_app, Hn. cbn. lia.
    + intros j k m m'. rewrite !Q. unfold node_at. intros Hj Hk Hm Hm' Em.
      destruct (decide (j = i)) as [->|Hji], (decide (k = i)) as [->|Hki]; [done| | |].
      * destruct Hk as [?|Hk]; [done|]. rewrite O in Hm' by done. cbn in Hm. rewrite list_lookup_insert_eq in Hm by done.
        injection Hm as <-. by destruct (Fr k m' Hk Hm').
      * destruct Hj as [?|Hj]; [done|]. rewrite O in Hm by done. cbn in Hm'. rewrite list_lookup_insert_eq in Hm' by done.
        injection Hm' as <-. by destruct (Fr j m Hj Hm).
      * rewrite O in Hm, Hm' by done. destruct Hj, Hk; try done. by apply (al_uniq acl W j k m m').
  - intros _. split; [done|]. apply set_eq. intros b. rewrite elem_of_union, elem_of_singleton, !elem_of_listed. setoid_rewrite Q.
    assert (forall j, j <> i -> addr_at acl' j = addr_at acl j) as Aj by (intros j Hj; unfold addr_at; by rewrite O).
    split.
    + intros (j & Hj & <-). destruct (decide (j = i)) as [->|Hji]; [auto|]. right. exists j. rewrite Aj by done. naive_solver.
    + intros [->|(j & Hj & <-)]; [by exists i; auto|]. exists j. rewrite Aj by (intros ->; done). auto.
Qed.

(** ** The filter as two sets with a mode *)

Inductive acl_op := AclAdd (period : Z) (a : bytes) | AclRemove (period : Z) (a : bytes)
  | AclMode (period mode : Z) | AclClear (period : Z).

Definition acl_step (acls : list wlan_acl_pool) (op : acl_op) : list wlan_acl_pool :=
  match op with
  | AclAdd p a => fst (rtw_acl_add_sta acls p a)
  | AclRemove p a => fst (rtw_acl_remove_sta acls p a)
  | AclMode p m => rtw_set_macaddr_acl acls p m
  | AclClear p => rtw_macaddr_acl_clear acls p
  end.

Definition acl_op_period (op : acl_op) : Z :=
  match op with AclAdd p _ | AclRemove p _ | AclMode p _ | AclClear p => p end.

(** The specification of one list: its mode and its addresses. *)
Definition list_spec := (Z * gset bytes)%type.

Definition list_spec_step (s : list_spec) (op : acl_op) : list_spec :=
  let '(m, l) := s in
  match op with
  | AclAdd _ a => (m, if decide (a ∈ l \/ (size l < 16)%nat) then {[a]} ∪ l else l)
  | AclRemove _ a => (m, if decide (a = bc_addr) then ∅ else l ∖ {[a]})
  | AclMode _ m => (m, l)
  | AclClear _ => (RTW_ACL_MODE_DISABLED, ∅)
  end.

Definition spec_step (s : list list_spec) (op : acl_op) : list list_spec :=
  alter (fun x => list_spec_step x op) (Z.to_nat (acl_op_period op)) s.

Definition allowed (a : bytes) (s : list_spec) : bool :=
  if decide (s.1 = RTW_ACL_MODE_ACCEPT_UNLESS_LISTED) then bool_decide (a ∉ s.2)
  else if decide (s.1 = RTW_ACL_MODE_DENY_UNLESS_LISTED) then bool_decide (a ∈ s.2) else true.

Definition list_abs (acl : wlan_acl_pool) : list_spec := (acl_mode acl, listed acl).

(** One list under one operation. *)
Definition pool_step (acl : wlan_acl_pool) (op : acl_op) : wlan_acl_pool :=
  match op with
  | AclAdd _ a => fst (acl_add acl a)
  | AclRemove _ a => fst (acl_remove acl a)
  | AclMode _ m => mk_acl m (acl_num acl) (aclnode acl) (acl_node_q acl)
  | AclClear _ => acl_clear acl
  end.

Lemma acl_step_pools acls op :
  length acls = 2%nat -> 0 <= acl_op_period op ->
  acl_step acls op = alter (fun x => pool_step x op) (Z.to_nat (acl_op_period op)) acls.
Proof.
  intros L H. destruct acls as [|x [|y [|]]]; try discriminate.
  assert (acl_op_period op = 0 \/ acl_op_period op = 1 \/ 2 <= acl_op_period op) as C by lia.
  assert (2 <= acl_op_period op -> forall f : wlan_acl_pool -> wlan_acl_pool,
    alter f (Z.to_nat (acl_op_period op)) [x; y] = [x; y]) as Id.
  { intros Hp f. apply list_eq. intros j. destruct (decide (j = Z.to_nat (acl_op_period op))) as [->|].
    - rewrite list_lookup_alter_eq. rewrite lookup_ge_None_2; [done | cbn; lia].
    - by rewrite list_lookup_alter_ne. }
  destruct C as [E|[E|Hp]]; [| |rewrite (Id Hp)].
  all: destruct op; cbn [acl_op_period acl_step] in *; try subst period;
    unfold rtw_acl_add_sta, rtw_acl_remove_sta, rtw_set_macaddr_acl,
      rtw_macaddr_acl_clear, _rtw_macaddr_acl_deinit, with_period, RTW_ACL_PERIOD_NUM.
  all: try (destruct (Z.leb_spec 2 period); [done|lia]).
  all: try reflexivity.
  - change (fst (let '(x', r) := acl_add x a in ([x'; y], r)) = [fst (acl_add x a); y]). by destruct (acl_add x a).
  - change (fst (let '(y', r) := acl_add y a in ([x; y'], r)) = [x; fst (acl_add y a)]). by destruct (acl_add y a).
Qed.

Lemma pool_step_spec acl op :
  acl_wf acl -> acl_wf (pool_step acl op) /\ list_abs (pool_step acl op) = list_spec_step (list_abs acl) op.
Proof.
  intros W. destruct op as [p a|p a|p m|p]; cbn [pool_step list_spec_step]; unfold list_abs.
  - pose proof (acl_add_spec acl a W) as S. destruct (acl_add acl a) as [acl' r]. destruct S as (W' & M & Y & N).
    cbn [fst]. split; [done|]. rewrite M. cbn [list_spec_step]. f_equal.
    destruct (decide (a ∈ listed acl \/ (size (listed acl) < 16)%nat)) as [D|D]; [by apply Y|].
    assert (length (acl_node_q acl) <= length (seq 0 16))%nat as L.
    { apply submseteq_length, NoDup_submseteq; [apply W|]. intros i Hi. destruct (al_node acl W i Hi) as [n Hn].
      apply lookup_lt_Some in Hn. rewrite (al_len acl W) in Hn. apply elem_of_seq. lia. }
    rewrite length_seq, <- size_listed in L by done.
    destruct N as [_ ->]; [tauto | lia | done].
  - unfold acl_remove. cbn [fst].
    destruct (acl_release_listed (fun x => is_broadcast_mac_addr a || bool_decide (x = a)) acl false W) as (W' & M & L).
    split; [done|]. rewrite M. cbn [list_spec_step]. f_equal. apply set_eq. intros b. rewrite L. unfold is_broadcast_mac_addr.
    destruct (decide (a = bc_addr)) as [->|]; [rewrite bool_decide_true by done; cbn; set_solver|].
    rewrite bool_decide_false by done. cbn. rewrite bool_decide_eq_false. set_solver.
  - split; [|done]. destruct W. split; auto.
  - unfold acl_clear. destruct (acl_release_listed (fun _ => true) acl false W) as (W' & M & L).
    set (acl' := fst _) in *. split; [by destruct W'; split|]. cbn [list_spec_step acl_mode]. f_equal.
    change (listed acl' = ∅). apply set_eq. intros b. rewrite L. set_solver.
Qed.

Lemma acl_init_wf acl : length (aclnode acl) = 16%nat -> acl_wf (acl_init acl) /\ list_abs (acl_init acl) = (0, ∅).
Proof.
  intros L. split; [|done]. split; cbn; auto.
  - by rewrite length_map.
  - apply NoDup_nil_2.
  - intros i n Hn. unfold node_at in Hn. cbn in Hn. change ((invalidate <$> aclnode acl) !! i = Some n) in Hn.
    rewrite list_lookup_fmap in Hn. apply fmap_Some in Hn as (m & _ & ->). cbn. split; [intros H; by apply elem_of_nil in H | done].
  - intros i Hi. by apply elem_of_nil in Hi.
  - intros i j n m Hi. by apply elem_of_nil in Hi.
Qed.

Lemma acl_check_spec acl a : acl_wf acl -> acl_check acl a = allowed a (list_abs acl).
Proof.
  intros W. unfold acl_check, allowed, list_abs. cbn [fst snd]. rewrite acl_match_spec by done.
  unfold RTW_ACL_MODE_ACCEPT_UNLESS_LISTED, RTW_ACL_MODE_DENY_UNLESS_LISTED.
  destruct (Z.eqb_spec (acl_mode acl) 1), (decide (acl_mode acl = 1)); try done; cbn [negb andb].
  - by rewrite <- bool_decide_not.
  - by destruct (Z.eqb_spec (acl_mode acl) 2), (decide (acl_mode acl = 2)).
Qed.

(** After the two lists are initialised, any sequence of additions,
    removals (the broadcast address removes all), mode changes and clears
    leaves [rtw_access_ctrl] deciding by two sets of at most 16 addresses: a
    station is admitted when each list admits it, the accept mode refusing
    exactly the listed addresses, the deny mode admitting exactly those, any
    other mode admitting all. *)
Theorem access_ctrl_refines_sets x y ops a :
  length (aclnode x) = 16%nat -> length (aclnode y) = 16%nat ->
  Forall (fun op => 0 <= acl_op_period op) ops ->
  let acls := foldl acl_step (rtw_macaddr_acl_init (rtw_macaddr_acl_init [x; y] 0) 1) ops in
  rtw_access_ctrl acls a = forallb (allowed a) (foldl spec_step [(0, ∅); (0, ∅)] ops).
Proof.
  intros Lx Ly Hops acls.
  assert (exists u v, acls = [u; v] /\ acl_wf u /\ acl_wf v /\ foldl spec_step [(0, ∅); (0, ∅)] ops = [list_abs u; list_abs v])
    as (u & v & Ea & Wu & Wv & Es).
  { unfold acls. change (rtw_macaddr_acl_init (rtw_macaddr_acl_init [x; y] 0) 1) with [acl_init x; acl_init y].
    destruct (acl_init_wf x Lx) as [Wx Ax], (acl_init_wf y Ly) as [Wy Ay].
    replace [(0, ∅); (0, ∅)] with [list_abs (acl_init x); list_abs (acl_init y)] by (by rewrite Ax, Ay).
    clear Lx Ly Ax Ay acls. revert Wx Wy. generalize (acl_init x) (acl_init y).
    induction Hops as [|op ops Hp _ IH]; intros u v Wu Wv; [by exists u, v|]. cbn [foldl].
    rewrite acl_step_pools by done. unfold spec_step at 2.
    destruct (pool_step_spec u op Wu) as [Wu' Au], (pool_step_spec v op Wv) as [Wv' Av].
    destruct (Z.to_nat (acl_op_period op)) as [|[|k]]; cbn -[pool_step list_spec_step list_abs acl_step spec_step].
    - rewrite <- Au. by apply IH.
    - rewrite <- Av. by apply IH.
    - by apply IH. }
  rewrite Ea, Es.
  change ((if acl_check u a then acl_check v a else false) = (allowed a (list_abs u) && (allowed a (list_abs v) && true))).
  rewrite (acl_check_spec u a Wu), (acl_check_spec v a Wv). destruct (allowed a (list_abs u)); [|done]. by rewrite andb_true_r.
Qed.

Definition blank_pool : wlan_acl_pool := mk_acl 7 3 (replicate 16 (mk_node [] true)) [3%nat].

Lemma access_ctrl_refines_sets_witness :
  rtw_access_ctrl
    (foldl acl_step (rtw_macaddr_acl_init (rtw_macaddr_acl_init [blank_pool; blank_pool] 0) 1)
       [AclMode 0 2; AclAdd 0 [2; 0; 0; 0; 0; 1]; AclAdd 0 [2; 0; 0; 0; 0; 2]; AclRemove 0 [2; 0; 0; 0; 0; 1]])
    [2; 0; 0; 0; 0; 2] = true.
Proof.
  rewrite (access_ctrl_refines_sets blank_pool blank_pool); [vm_compute; reflexivity | reflexivity | reflexivity |].
  repeat constructor; cbn; lia.
Defined.
