(* ===== verification/RxCheck.v ===== *)
(** * Acceptance of received data frames (core/rtw_recv.c, core/rtw_ap.c)

    [validate_recv_frame] and [validate_recv_data_frame]: header checks per
    operating mode, duplicate and packet-number caches, the choice of the
    cipher, and the rule that drops unprotected frames of a protected network;
    then [portctrl], the 802.1X port, and [decryptor].

    A call acts on [rxs]: the adapter, the frame and the calls it makes into
    other components (deauthentication, power save, statistics, management and
    control frames, MIC failure reports), recorded in order. *)

From S2P Require Import Prelude RxFrame Reorder StaMgt SwCrypt.
From Stdlib Require Import Sorted.

(** ** Constants *)

Definition _NO_PRIVACY_ : Z := 0.
Definition _AES_ : Z := 4.
Definition _SMS4_ : Z := 6.
Definition _GCMP_ : Z := 7.
Definition _CCMP_256_ : Z := 0x14.
Definition _GCMP_256_ : Z := 0x17.

Definition dot11AuthAlgrthm_Open : Z := 0.
Definition dot11AuthAlgrthm_Shared : Z := 1.
Definition dot11AuthAlgrthm_8021X : Z := 2.
Definition dot11AuthAlgrthm_Auto : Z := 3.
Definition dot11AuthAlgrthm_WAPI : Z := 4.

Definition Ndis802_11AuthModeWPAPSK : Z := 4.
Definition WIFI_NULL_STATE : Z := 0.
Definition WIFI_STATION_STATE : Z := 0x08.
Definition WIFI_AP_STATE : Z := 0x10.
Definition WIFI_ADHOC_STATE : Z := 0x20.
Definition WIFI_ADHOC_MASTER_STATE : Z := 0x40.
Definition WIFI_UNDER_LINKING : Z := 0x80.
Definition WIFI_MP_STATE : Z := 0x10000.

Definition WIFI_MGT_TYPE : Z := 0.
Definition WIFI_CTRL_TYPE : Z := 4.
Definition WIFI_DATA_TYPE : Z := 8.

Definition WLAN_HDR_A3_LEN : Z := 24.
Definition WLAN_HDR_A3_QOS_LEN : Z := 26.
Definition LLC_HEADER_SIZE : Z := 6.
Definition WLAN_STA_AMSDU_DISABLE : Z := BIT 17.
Definition WEP_KEYS : Z := 4.
Definition eapol_type : Z := 0x888e.

(** ** State *)

(** [struct security_priv]: [keys] are the fields the ciphers read. *)
Record rx_security := mk_rxsec {
  keys : security_priv;
  dot11AuthAlgrthm : Z;
  dot11PrivacyAlgrthm : Z;
  dot118021XGrpPrivacy : Z;
  dot118021XGrprxmickey : list bytes;
  bcheck_grpkey : bool;
  busetkipkey : bool;
  hw_decrypted : bool;
  iv_seq : list bytes
}.

Record adapter := mk_adapter {
  stapriv : sta_priv;
  securitypriv : rx_security;
  fw_state : Z;
  myhwaddr : bytes;
  mybssid : bytes;
  mlme_key_index : Z;
  is_any_non_be_pkts : bool;
  now_ms : Z;                    (* the clock *)
  sta_deauth_time : Z;           (* static in rtw_sta_rx_data_validate_hdr *)
  ap2sta_deauth_time : Z         (* static in ap2sta_data_frame *)
}.

(** Calls into other components. *)
Inductive rx_call :=
| issue_deauth (addr : bytes)
| process_pwrbit_data (sta : nat)
| process_wmmps_data (sta : nat)
| count_rx_stats (sta : nat)
| validate_recv_mgnt_frame
| validate_recv_ctrl_frame
| rtw_handle_tkip_mic_err (sta : nat) (group : bool)
| issue_action_SA_Query (addr : bytes)
| mgt_dispatcher (mem : bytes) (frame pkt_len : Z).

Record rxs := mk_rxs { adp : adapter; frm : recv_frame; calls : list rx_call }.

Definition with_frm (s : rxs) (f : recv_frame) : rxs := mk_rxs (adp s) f (calls s).
Definition with_adp (s : rxs) (a : adapter) : rxs := mk_rxs a (frm s) (calls s).
Definition call (s : rxs) (c : rx_call) : rxs := mk_rxs (adp s) (frm s) (calls s ++ [c]).
Definition with_att (s : rxs) (a : rx_pkt_attrib) : rxs := with_frm s (set_attrib (frm s) a).
Definition att (s : rxs) : rx_pkt_attrib := attrib (frm s).

Definition set_stapriv (a : adapter) (p : sta_priv) : adapter :=
  mk_adapter p (securitypriv a) (fw_state a) (myhwaddr a) (mybssid a) (mlme_key_index a)
    (is_any_non_be_pkts a) (now_ms a) (sta_deauth_time a) (ap2sta_deauth_time a).
Definition set_security (a : adapter) (x : rx_security) : adapter :=
  mk_adapter (stapriv a) x (fw_state a) (myhwaddr a) (mybssid a) (mlme_key_index a)
    (is_any_non_be_pkts a) (now_ms a) (sta_deauth_time a) (ap2sta_deauth_time a).
Definition set_non_be (a : adapter) (b : bool) : adapter :=
  mk_adapter (stapriv a) (securitypriv a) (fw_state a) (myhwaddr a) (mybssid a) (mlme_key_index a)
    b (now_ms a) (sta_deauth_time a) (ap2sta_deauth_time a).
Definition set_sta_deauth (a : adapter) : adapter :=
  mk_adapter (stapriv a) (securitypriv a) (fw_state a) (myhwaddr a) (mybssid a) (mlme_key_index a)
    (is_any_non_be_pkts a) (now_ms a) (now_ms a) (ap2sta_deauth_time a).
Definition set_ap2sta_deauth (a : adapter) : adapter :=
  mk_adapter (stapriv a) (securitypriv a) (fw_state a) (myhwaddr a) (mybssid a) (mlme_key_index a)
    (is_any_non_be_pkts a) (now_ms a) (sta_deauth_time a) (now_ms a).

Definition set_iv_seq (x : rx_security) (t : list bytes) : rx_security :=
  mk_rxsec (keys x) (dot11AuthAlgrthm x) (dot11PrivacyAlgrthm x) (dot118021XGrpPrivacy x) (dot118021XGrprxmickey x)
    (bcheck_grpkey x) (busetkipkey x) (hw_decrypted x) t.
Definition set_hw_decrypted (x : rx_security) (b : bool) : rx_security :=
  mk_rxsec (keys x) (dot11AuthAlgrthm x) (dot11PrivacyAlgrthm x) (dot118021XGrpPrivacy x) (dot118021XGrprxmickey x)
    (bcheck_grpkey x) (busetkipkey x) b (iv_seq x).
Definition set_bcheck (x : rx_security) : rx_security :=
  mk_rxsec (keys x) (dot11AuthAlgrthm x) (dot11PrivacyAlgrthm x) (dot118021XGrpPrivacy x) (dot118021XGrprxmickey x)
    true (busetkipkey x) (hw_decrypted x) (iv_seq x).

(** Updates of [struct rx_pkt_attrib]. *)
Definition set_addrs (a : rx_pkt_attrib) (xra xta xdst xsrc xbssid : bytes) : rx_pkt_attrib :=
  mk_attrib (hdrlen a) (to_fr_ds a) (amsdu a) (qos a) (priority a) (seq_num a) (frag_num a) (mfrag a) (order a)
    (privacy a) (bdecrypted a) (encrypt a) (iv_len a) (icv_len a) xdst xsrc xta xra xbssid (ack_policy a) (key_index a).
Definition set_amsdu (a : rx_pkt_attrib) (v : Z) : rx_pkt_attrib :=
  mk_attrib (hdrlen a) (to_fr_ds a) v (qos a) (priority a) (seq_num a) (frag_num a) (mfrag a) (order a)
    (privacy a) (bdecrypted a) (encrypt a) (iv_len a) (icv_len a) (dst a) (src a) (ta a) (ra a) (bssid a) (ack_policy a) (key_index a).
Definition set_qos_fields (a : rx_pkt_attrib) (pri ack hl : Z) : rx_pkt_attrib :=
  mk_attrib hl (to_fr_ds a) (amsdu a) (qos a) pri (seq_num a) (frag_num a) (mfrag a) (order a)
    (privacy a) (bdecrypted a) (encrypt a) (iv_len a) (icv_len a) (dst a) (src a) (ta a) (ra a) (bssid a) ack (key_index a).
Definition set_cipher (a : rx_pkt_attrib) (e iv icv : Z) : rx_pkt_attrib :=
  mk_attrib (hdrlen a) (to_fr_ds a) (amsdu a) (qos a) (priority a) (seq_num a) (frag_num a) (mfrag a) (order a)
    (privacy a) (bdecrypted a) e iv icv (dst a) (src a) (ta a) (ra a) (bssid a) (ack_policy a) (key_index a).
Definition set_key_index (a : rx_pkt_attrib) (k : Z) : rx_pkt_attrib :=
  mk_attrib (hdrlen a) (to_fr_ds a) (amsdu a) (qos a) (priority a) (seq_num a) (frag_num a) (mfrag a) (order a)
    (privacy a) (bdecrypted a) (encrypt a) (iv_len a) (icv_len a) (dst a) (src a) (ta a) (ra a) (bssid a) (ack_policy a) k.
Definition set_bdecrypted (a : rx_pkt_attrib) (b : Z) : rx_pkt_attrib :=
  mk_attrib (hdrlen a) (to_fr_ds a) (amsdu a) (qos a) (priority a) (seq_num a) (frag_num a) (mfrag a) (order a)
    (privacy a) b (encrypt a) (iv_len a) (icv_len a) (dst a) (src a) (ta a) (ra a) (bssid a) (ack_policy a) (key_index a).
(** Fields [validate_recv_frame] takes from frame control and sequence control. *)
Definition set_fc_fields (a : rx_pkt_attrib) (ds fn sn mf pr ord : Z) : rx_pkt_attrib :=
  mk_attrib (hdrlen a) ds (amsdu a) (qos a) (priority a) sn fn mf ord
    pr (bdecrypted a) (encrypt a) (iv_len a) (icv_len a) (dst a) (src a) (ta a) (ra a) (bssid a) (ack_policy a) (key_index a).
Definition set_qos (a : rx_pkt_attrib) (q : Z) : rx_pkt_attrib :=
  mk_attrib (hdrlen a) (to_fr_ds a) (amsdu a) q (priority a) (seq_num a) (frag_num a) (mfrag a) (order a)
    (privacy a) (bdecrypted a) (encrypt a) (iv_len a) (icv_len a) (dst a) (src a) (ta a) (ra a) (bssid a) (ack_policy a) (key_index a).

(** ** Frame header accessors of include/wifi.h *)

Definition hdr16 (f : recv_frame) (off : Z) : res Z := le16_get (rx_mem f) (rx_data f + off).
Definition hdr_addr (f : recv_frame) (off : Z) : res bytes := rd_slice (rx_mem f) (rx_data f + off) 6.
Definition Addr1 (f : recv_frame) : res bytes := hdr_addr f 4.
Definition addr2 (f : recv_frame) : res bytes := hdr_addr f 10.
Definition Addr3 (f : recv_frame) : res bytes := hdr_addr f 16.
Definition Addr4 (f : recv_frame) : res bytes := hdr_addr f 24.
Definition GetFrameType (fc : Z) : Z := Z.land fc 0x0c.
Definition get_frame_sub_type (fc : Z) : Z := Z.land fc 0xfc.
Definition get_tofr_ds (fc : Z) : Z :=
  Z.lor (Z.shiftl (Z.b2z (bit_test fc (BIT 8))) 1) (Z.b2z (bit_test fc (BIT 9))).
Definition GetPriority (qc : Z) : Z := Z.land qc 0xf.
Definition GetAckpolicy (qc : Z) : Z := Z.land (Z.shiftr qc 5) 3.
Definition GetAMsdu (qc : Z) : Z := Z.land (Z.shiftr qc 7) 1.

(** [check_fwstate] *)
Definition check_fwstate (a : adapter) (state : Z) : bool :=
  ((state =? WIFI_NULL_STATE) && (fw_state a =? WIFI_NULL_STATE)) || bit_test (fw_state a) state.

Definition same_addr (x y : bytes) : bool := bool_decide (x = y).
Definition get_sta (s : rxs) (a : bytes) : option nat := rtw_get_stainfo (stapriv (adp s)) (Some a).
Definition sta_entry (s : rxs) (i : nat) : sta_info := default _rtw_init_stainfo (stainfo_buf (stapriv (adp s)) !! i).

(** ** Header checks: return value, station and state *)

Definition hdr_res := res (Z * option nat * rxs).

(** A deauthentication at most every ten seconds. *)
Definition deauth_due (a : adapter) (last : Z) : bool := (10000 <? now_ms a - last) || (last =? 0).

Definition rtw_sta_rx_data_validate_hdr (s : rxs) : hdr_res :=
  let f := frm s in
  let a := att s in
  a1 ← Addr1 f; a2 ← addr2 f;
  let is_ra_bmc := IS_MCAST a1 in
  if to_fr_ds a =? 0 then
    a3 ← Addr3 f;
    let s := with_att s (set_addrs a a1 a2 a1 a2 a3) in
    if negb (same_addr (bssid (att s)) (src (att s))) then Ret (_FAIL, None, s)
    else match get_sta s a2 with
         | Some i => Ret (_SUCCESS, Some i, s)
         | None => Ret (_FAIL, None, s)
         end
  else if negb (bit_test (fw_state (adp s)) (Z.lor WIFI_ASOC_STATE WIFI_UNDER_LINKING)) then
    if negb is_ra_bmc && deauth_due (adp s) (sta_deauth_time (adp s))
    then Ret (_FAIL, None, call (with_adp s (set_sta_deauth (adp s))) (issue_deauth a2))
    else Ret (_FAIL, None, s)
  else
    let a := set_addrs a a1 a2 (dst a) (src a) (bssid a) in
    let s := with_att s a in
    r ← ((if to_fr_ds a =? 1 then a3 ← Addr3 f; Ret (Some (set_addrs a a1 a2 a1 a3 a2))
          else if to_fr_ds a =? 3 then a3 ← Addr3 f; a4 ← Addr4 f; Ret (Some (set_addrs a a1 a2 a3 a4 a2))
          else Ret None) : res (option rx_pkt_attrib));
    match r with
    | None => Ret (RTW_RX_HANDLED, None, s)
    | Some a =>
        let s := with_att s a in
        if (amsdu a =? 0) && same_addr (myhwaddr (adp s)) (src a) then Ret (_FAIL, None, s)
        else match get_sta s (ta a) with
             | None =>
                 if negb is_ra_bmc then Ret (_FAIL, None, call s (issue_deauth (ta a)))
                 else Ret (_FAIL, None, s)
             | Some i =>
                 fc ← hdr16 f 0;
                 if bit_test (get_frame_sub_type fc) (BIT 6)
                 then Ret (RTW_RX_HANDLED, Some i, call s (count_rx_stats i))
                 else Ret (_SUCCESS, Some i, s)
             end
    end.

Definition WIFI_QOS_DATA_TYPE : Z := Z.lor (BIT 7) WIFI_DATA_TYPE.

Definition rtw_ap_rx_data_validate_hdr (s : rxs) : hdr_res :=
  let f := frm s in
  let a := att s in
  if negb (bit_test (fw_state (adp s)) WIFI_ASOC_STATE) then Ret (_FAIL, None, s)
  else
    a1 ← Addr1 f;
    if (to_fr_ds a =? 2) && IS_MCAST a1 then Ret (_FAIL, None, s)
    else
    r ← ((if to_fr_ds a =? 2 then a2 ← addr2 f; a3 ← Addr3 f; Ret (Some (set_addrs a a1 a2 a3 a2 a1, false))
         else if to_fr_ds a =? 3 then
           a2 ← addr2 f; a3 ← Addr3 f; a4 ← Addr4 f;
           Ret (Some (set_addrs a a1 a2 a3 a4 (if IS_MCAST a1 then bssid a else a1), IS_MCAST a1))
         else Ret None) : res (option (rx_pkt_attrib * bool)));
    match r with
    | None => Ret (RTW_RX_HANDLED, None, s)
    | Some (a, is_ra_bmc) =>
        let s := with_att s a in
        match get_sta s (ta a) with
        | None => Ret (RTW_RX_HANDLED, None, if is_ra_bmc : bool then s else call s (issue_deauth (ta a)))
        | Some i =>
            let s := call s (process_pwrbit_data i) in
            fc ← hdr16 f 0;
            let s := if Z.land (get_frame_sub_type fc) WIFI_QOS_DATA_TYPE =? WIFI_QOS_DATA_TYPE
                     then call s (process_wmmps_data i) else s in
            if bit_test (get_frame_sub_type fc) (BIT 6)
            then Ret (RTW_RX_HANDLED, Some i, call s (count_rx_stats i))
            else Ret (_SUCCESS, Some i, s)
        end
    end.

Definition zero_addr : bytes := [0; 0; 0; 0; 0; 0].

(** The addresses taken in production-test mode. *)
Definition mp_addrs (s : rxs) : res rxs :=
  a1 ← Addr1 (frm s); a2 ← addr2 (frm s); a3 ← Addr3 (frm s);
  Ret (with_att s (set_addrs (att s) a1 a2 a1 a2 a3)).

Definition sta2sta_data_frame (s : rxs) : hdr_res :=
  let a := att s in
  let ad := adp s in
  let lookup (ret : Z) (s : rxs) (addr : bytes) : hdr_res :=
    match get_sta s addr with
    | None => Ret (_FAIL, None, s)
    | Some i => Ret (ret, Some i, s)
    end in
  if check_fwstate ad WIFI_ADHOC_STATE || check_fwstate ad WIFI_ADHOC_MASTER_STATE then
    if same_addr (myhwaddr ad) (src a) then Ret (_FAIL, None, s)
    else if negb (same_addr (myhwaddr ad) (dst a)) && negb (IS_MCAST (dst a)) then Ret (_FAIL, None, s)
    else if same_addr (bssid a) zero_addr || same_addr (mybssid ad) zero_addr || negb (same_addr (bssid a) (mybssid ad))
    then Ret (_FAIL, None, s)
    else lookup _SUCCESS s (ta a)
  else if check_fwstate ad WIFI_MP_STATE then
    s ← mp_addrs s; lookup _SUCCESS s (mybssid ad)
  else lookup _FAIL s (ta a).

Definition ap2sta_data_frame (s : rxs) : hdr_res :=
  let a := att s in
  let ad := adp s in
  if check_fwstate ad WIFI_MP_STATE && check_fwstate ad WIFI_ASOC_STATE then
    s ← mp_addrs s;
    match get_sta s (bssid (att s)) with
    | None => Ret (_FAIL, None, s)
    | Some i => Ret (_SUCCESS, Some i, s)
    end
  else if same_addr (myhwaddr ad) (dst a) && negb (IS_MCAST (dst a)) then
    match get_sta s (ta a) with
    | Some i => Ret (_FAIL, Some i, s)
    | None =>
        if deauth_due ad (ap2sta_deauth_time ad)
        then Ret (_FAIL, None, call (with_adp s (set_ap2sta_deauth ad)) (issue_deauth (bssid a)))
        else Ret (_FAIL, None, s)
    end
  else Ret (_FAIL, None, s).

Definition sta2ap_data_frame (s : rxs) : hdr_res :=
  let a := att s in
  let ad := adp s in
  if check_fwstate ad WIFI_MP_STATE && check_fwstate ad WIFI_ASOC_STATE then
    s ← mp_addrs s;
    match get_sta s (bssid (att s)) with
    | None => Ret (_FAIL, None, s)
    | Some i => Ret (_SUCCESS, Some i, s)
    end
  else if negb (same_addr (ra a) (myhwaddr ad)) then Ret (RTW_RX_HANDLED, None, s)
  else Ret (RTW_RX_HANDLED, None, call s (issue_deauth (src a))).

(** The header check of the operating mode. *)
Definition validate_hdr (s : rxs) : hdr_res :=
  let f := frm s in
  let a := att s in
  if check_fwstate (adp s) WIFI_AP_STATE then rtw_ap_rx_data_validate_hdr s
  else if check_fwstate (adp s) WIFI_STATION_STATE then rtw_sta_rx_data_validate_hdr s
  else if to_fr_ds a =? 0 then
    a1 ← Addr1 f; a2 ← addr2 f; a3 ← Addr3 f;
    sta2sta_data_frame (with_att s (set_addrs a a1 a2 a1 a2 a3))
  else if to_fr_ds a =? 1 then
    a1 ← Addr1 f; a2 ← addr2 f; a3 ← Addr3 f;
    ap2sta_data_frame (with_att s (set_addrs a a1 a2 a1 a3 a2))
  else if to_fr_ds a =? 2 then
    a1 ← Addr1 f; a2 ← addr2 f; a3 ← Addr3 f;
    sta2ap_data_frame (with_att s (set_addrs a a1 a2 a3 a2 a1))
  else Ret (_FAIL, None, s).

(** ** Duplicate and packet-number caches *)

Definition set_recvpriv (s : sta_info) (r : sta_recv_priv) (dup : Z) : sta_info :=
  mk_sta (mac_addr s) (sta_state s) (aid s) (sta_flags s)
    (ieee8021x_blocked s) (dot118021XPrivacy s) (dot11tkiprxmickey s) (dot118021x_UncstKey s)
    (sta_keytrack s) dup (RxMgmtFrameSeqNum s) r (recvreorder_ctrl s) (stx s) (sps s).

(** Which cached sequence control a frame is compared with. *)
Inductive seq_cache := BmcTid (t : Z) | UcTid (t : Z) | BmcNonQos | UcNonQos.

Definition cache_of (a : rx_pkt_attrib) : seq_cache :=
  if qos a =? 0 then if IS_MCAST (ra a) then BmcNonQos else UcNonQos
  else if IS_MCAST (ra a) then BmcTid (priority a) else UcTid (priority a).

Definition cache_get (r : sta_recv_priv) (c : seq_cache) : Z :=
  match c with
  | BmcTid t => znth (bmc_tid_rxseq r) t
  | UcTid t => znth (tid_rxseq r) t
  | BmcNonQos => nonqos_bmc_rxseq r
  | UcNonQos => nonqos_rxseq r
  end.

Definition cache_set (r : sta_recv_priv) (c : seq_cache) (v : Z) : sta_recv_priv :=
  let set l t := <[Z.to_nat t := v]> l in
  match c with
  | BmcTid t => mk_srecv (defrag_q r) (tid_rxseq r) (rx_iv r) (last_tid r) (set (bmc_tid_rxseq r) t) (nonqos_rxseq r) (nonqos_bmc_rxseq r)
  | UcTid t => mk_srecv (defrag_q r) (set (tid_rxseq r) t) (rx_iv r) (last_tid r) (bmc_tid_rxseq r) (nonqos_rxseq r) (nonqos_bmc_rxseq r)
  | BmcNonQos => mk_srecv (defrag_q r) (tid_rxseq r) (rx_iv r) (last_tid r) (bmc_tid_rxseq r) (nonqos_rxseq r) v
  | UcNonQos => mk_srecv (defrag_q r) (tid_rxseq r) (rx_iv r) (last_tid r) (bmc_tid_rxseq r) v (nonqos_bmc_rxseq r)
  end.

Definition seq_ctrl (a : rx_pkt_attrib) : Z :=
  u16 (Z.lor (Z.shiftl (Z.land (seq_num a) 0xffff) 4) (Z.land (frag_num a) 0xf)).

Definition recv_decache (e : sta_info) (a : rx_pkt_attrib) : Z * sta_info :=
  if 15 <? priority a then (_FAIL, e)
  else
    let c := cache_of a in
    let r := recvpriv e in
    if seq_ctrl a =? cache_get r c then (_FAIL, set_recvpriv e r (u32 (duplicate_cnt e + 1)))
    else (_SUCCESS, set_recvpriv e (cache_set r c (seq_ctrl a)) (duplicate_cnt e)).

Definition CCMPH_2_PN (ch : Z) : Z := Z.lor (Z.land ch 0xffff) (Z.shiftr (Z.land ch 0xffffffff00000000) 16).
Definition CCMPH_2_KEYID (ch : Z) : Z := Z.shiftr (Z.land ch 0xc0000000) 30.
Definition PN_LESS_CHK (a b : Z) : bool := bit_test (u64 (a - b)) 0x800000000000.
Definition VALID_PN_CHK (new old : Z) : bool := (old =? 0) || PN_LESS_CHK old new.

(** The eight bytes after the header. *)
Definition iv_hdr (f : recv_frame) : res bytes := rd_slice (rx_mem f) (rx_data f + hdrlen (attrib f)) 8.

Definition recv_ucast_pn_decache (e : sta_info) (f : recv_frame) : res (Z * sta_info) :=
  let a := attrib f in
  let tid := priority a in
  if 15 <? tid then Ret (_FAIL, e)
  else if encrypt a =? _AES_ then
    iv ← iv_hdr f;
    let r := recvpriv e in
    let pkt_pn := CCMPH_2_PN (le_combine iv) in
    let curr_pn := CCMPH_2_PN (le_combine (key_at (rx_iv r) tid)) in
    if negb (VALID_PN_CHK pkt_pn curr_pn) then Ret (_SUCCESS, e)
    else
      let r := mk_srecv (defrag_q r) (tid_rxseq r) (<[Z.to_nat tid := iv]> (rx_iv r)) tid
                 (bmc_tid_rxseq r) (nonqos_rxseq r) (nonqos_bmc_rxseq r) in
      Ret (_SUCCESS, set_recvpriv e r (duplicate_cnt e))
  else Ret (_SUCCESS, e).

Definition recv_bcast_pn_decache (ad : adapter) (f : recv_frame) : res (Z * adapter) :=
  let x := securitypriv ad in
  if (encrypt (attrib f) =? _AES_) && check_fwstate ad WIFI_STATION_STATE then
    iv ← iv_hdr f;
    let key_id := CCMPH_2_KEYID (le_combine iv) in
    let pkt_pn := CCMPH_2_PN (le_combine iv) in
    let curr_pn := Z.land (le_combine (key_at (iv_seq x) key_id)) 0xffffffffffff in
    if negb (VALID_PN_CHK pkt_pn curr_pn) then Ret (_FAIL, ad)
    else Ret (_SUCCESS, set_security ad (set_iv_seq x (<[Z.to_nat key_id := le_split 8 pkt_pn]> (iv_seq x))))
  else Ret (_SUCCESS, ad).

(** ** [validate_recv_data_frame] *)

(** Return value, the frame's station and reorder TID, and the state. *)
Record rx_out := mk_out { ret : Z; psta : option nat; preorder : option Z; st : rxs }.

(** [GET_ENCRY_ALGO]: an unknown authentication algorithm keeps the field. *)
Definition GET_ENCRY_ALGO (x : rx_security) (e : sta_info) (old : Z) (bmcst : bool) : Z :=
  let auth := dot11AuthAlgrthm x in
  if (auth =? dot11AuthAlgrthm_Open) || (auth =? dot11AuthAlgrthm_Shared) || (auth =? dot11AuthAlgrthm_Auto)
  then u8 (dot11PrivacyAlgrthm x)
  else if auth =? dot11AuthAlgrthm_8021X
  then u8 (if bmcst then dot118021XGrpPrivacy x else dot118021XPrivacy e)
  else if auth =? dot11AuthAlgrthm_WAPI then u8 (dot11PrivacyAlgrthm x)
  else old.

(** [SET_ICE_IV_LEN]: [iv_len] and [icv_len] of a cipher. *)
Definition SET_ICE_IV_LEN (e : Z) : Z * Z :=
  if (e =? _WEP40_) || (e =? _WEP104_) then (4, 4)
  else if e =? _TKIP_ then (8, 4)
  else if e =? _AES_ then (8, 8)
  else if (e =? _GCMP_) || (e =? _GCMP_256_) then (8, 16)
  else if e =? _CCMP_256_ then (8, 16)
  else if e =? _SMS4_ then (18, 16)
  else (0, 0).

(** The type field behind the LLC header, in host order. *)
Definition ether_type_at (f : recv_frame) : res Z :=
  be16_get (rx_mem f) (rx_data f + hdrlen (attrib f) + iv_len (attrib f) + LLC_HEADER_SIZE).

(** The part before the caches: QoS fields and header length. *)
Definition parse_qc (s : rxs) (a4_shift : Z) : res rxs :=
  let a := set_qos_fields (att s) (priority (att s)) 0 (hdrlen (att s)) in
  s ← (if qos a =? 1 then
         qc ← hdr16 (frm s) (WLAN_HDR_A3_LEN + a4_shift);
         let p := GetPriority qc in
         Ret (with_adp (with_att s (set_qos_fields a p (GetAckpolicy qc) (WLAN_HDR_A3_QOS_LEN + a4_shift)))
                (set_non_be (adp s) (negb (p =? 0) && negb (p =? 3))))
       else Ret (with_att s (set_qos_fields a 0 (ack_policy a) (WLAN_HDR_A3_LEN + a4_shift))));
  let a := att s in
  Ret (with_att s (if order a =? 0 then a else set_qos_fields a (priority a) (ack_policy a) (hdrlen a + 4))).

(** [_FAIL] for an unprotected frame of a protected network. *)
Definition protection_check (s : rxs) (i : nat) : res Z :=
  let a := att s in
  let x := securitypriv (adp s) in
  if dot11PrivacyAlgrthm x =? _NO_PRIVACY_ then Ret _SUCCESS
  else if IS_MCAST (ra a) then Ret (if privacy a =? 0 then _FAIL else _SUCCESS)
  else
    ether_type ← ether_type_at (frm s);
    if dot11AuthAlgrthm x =? dot11AuthAlgrthm_8021X then
      if (privacy a =? 0) && negb (ether_type =? eapol_type) then Ret _FAIL
      else if (privacy a =? 0) && negb (amsdu a =? 0) then Ret _FAIL
      else if (ether_type =? eapol_type) && check_fwstate (adp s) WIFI_AP_STATE
              && (dot118021XPrivacy (sta_entry s i) =? _NO_PRIVACY_)
              && negb (same_addr (myhwaddr (adp s)) (dst a)) then Ret _FAIL
      else Ret _SUCCESS
    else Ret (if privacy a =? 0 then _FAIL else _SUCCESS).

Definition upd_entry (s : rxs) (i : nat) (e : sta_info) : rxs :=
  with_adp s (set_stapriv (adp s) (upd_sta (stapriv (adp s)) i (fun _ => e))).

(** The group and unicast packet-number checks of an accepted frame. *)
Definition pn_decache (s : rxs) (i : nat) : res (Z * rxs) :=
  if negb (IS_MCAST (ra (att s))) then
    r ← recv_ucast_pn_decache (sta_entry s i) (frm s);
    Ret (fst r, upd_entry s i (snd r))
  else
    r ← recv_bcast_pn_decache (adp s) (frm s);
    Ret (fst r, with_adp s (snd r)).

(** The cipher of the frame, from its protected bit. *)
Definition pick_cipher (s : rxs) (i : nat) : rxs :=
  let a := att s in
  if privacy a =? 0 then with_att s (set_cipher a 0 0 0)
  else
    let e := GET_ENCRY_ALGO (securitypriv (adp s)) (sta_entry s i) (encrypt a) (IS_MCAST (ra a)) in
    let '(iv, icv) := SET_ICE_IV_LEN e in
    with_att s (set_cipher a e iv icv).

Definition validate_recv_data_frame (s : rxs) : res rx_out :=
  let a4_shift := if to_fr_ds (att s) =? 3 then 6 else 0 in
  amsdu ← (if qos (att s) =? 0 then Ret 0
           else qc ← hdr16 (frm s) (WLAN_HDR_A3_LEN + a4_shift); Ret (GetAMsdu qc));
  r ← validate_hdr (with_att s (set_amsdu (att s) amsdu));
  let '(ret, sta, s) := r : Z * option nat * rxs in
  if (ret =? _FAIL) || (ret =? RTW_RX_HANDLED) then Ret (mk_out ret None None s)
  else match sta with
  | None => Ret (mk_out _FAIL None None s)
  | Some i =>
      if bit_test (sta_flags (sta_entry s i)) WLAN_STA_AMSDU_DISABLE && negb (RxFrame.amsdu (att s) =? 0)
      then Ret (mk_out _FAIL None None s)
      else
        s ← parse_qc s a4_shift;
        let '(d, e) := recv_decache (sta_entry s i) (att s) in
        let s := upd_entry s i e in
        if d =? _FAIL then Ret (mk_out _FAIL (Some i) None s)
        else
          let pre := if negb (IS_MCAST (ra (att s))) && negb (qos (att s) =? 0) then Some (priority (att s)) else None in
          r ← pn_decache s i;
          let '(p, s) := r : Z * rxs in
          if p =? _FAIL then Ret (mk_out _FAIL (Some i) pre s)
          else
            let s := pick_cipher s i in
            c ← protection_check s i;
            Ret (mk_out c (Some i) pre s)
  end.

(** ** [validate_recv_frame] *)

Definition validate_recv_frame (s : rxs) : res rx_out :=
  b0 ← rd (rx_mem (frm s)) (rx_data (frm s));
  if negb (Z.land b0 3 =? 0) then Ret (mk_out _FAIL None None s)
  else
    fc ← hdr16 (frm s) 0;
    sc ← hdr16 (frm s) 22;
    let s := with_att s (set_fc_fields (att s) (get_tofr_ds fc) (Z.land sc 0xf) (Z.shiftr sc 4)
               (Z.b2z (bit_test fc (BIT 10))) (Z.b2z (bit_test fc (BIT 14))) (Z.b2z (bit_test fc (BIT 15)))) in
    let type := GetFrameType fc in
    if type =? WIFI_MGT_TYPE then Ret (mk_out _FAIL None None (call s validate_recv_mgnt_frame))
    else if type =? WIFI_CTRL_TYPE then Ret (mk_out _FAIL None None (call s validate_recv_ctrl_frame))
    else if type =? WIFI_DATA_TYPE then
      validate_recv_data_frame (with_att s (set_qos (att s) (Z.b2z (bit_test (get_frame_sub_type fc) (BIT 7)))))
    else Ret (mk_out _FAIL None None s).

(** ** [portctrl]: [None] is a frame that was freed *)

Definition portctrl (s : rxs) : res (option rxs) :=
  if dot11AuthAlgrthm (securitypriv (adp s)) =? dot11AuthAlgrthm_8021X then
    match get_sta s (ta (att s)) with
    | Some i =>
        if negb (ieee8021x_blocked (sta_entry s i) =? 0) then
          ether_type ← ether_type_at (frm s);
          Ret (if ether_type =? eapol_type then Some s else None)
        else Ret (Some s)
    | None => Ret (Some s)
    end
  else Ret (Some s).

(** ** [decryptor]

    The software ciphers of later files, [rtw_aes_decrypt] and
    [rtw_gcmp_decrypt], are arguments here; Ccmp.v instantiates them. *)
Section Decryptor.
Context (rtw_aes_decrypt rtw_gcmp_decrypt : rxs -> res (Z * recv_frame)).

Definition sw_decrypt (s : rxs) : res (Z * recv_frame) :=
  let e := encrypt (att s) in
  if (e =? _WEP40_) || (e =? _WEP104_) then
    f ← rtw_wep_decrypt (keys (securitypriv (adp s))) (frm s); Ret (_SUCCESS, f)
  else if e =? _TKIP_ then
    rtw_tkip_decrypt (keys (securitypriv (adp s)))
      ((fun i => dot118021x_UncstKey (sta_entry s i)) <$> get_sta s (ta (att s))) (frm s)
  else if (e =? _AES_) || (e =? _CCMP_256_) then rtw_aes_decrypt s
  else if (e =? _GCMP_) || (e =? _GCMP_256_) then rtw_gcmp_decrypt s
  else Ret (_SUCCESS, frm s).

Definition decryptor (s : rxs) : res (option rxs) :=
  let x := securitypriv (adp s) in
  s ← (if 0 <? encrypt (att s) then
         iv3 ← rd (rx_mem (frm s)) (rx_data (frm s) + hdrlen (att s) + 3);
         let k := Z.land (Z.shiftr iv3 6) 3 in
         let k := if WEP_KEYS <? k
                  then if (encrypt (att s) =? _WEP40_) || (encrypt (att s) =? _WEP104_)
                       then dot11PrivacyKeyIndex (keys x) else dot118021XGrpKeyid (keys x)
                  else k in
         Ret (with_att s (set_key_index (att s) k))
       else Ret s);
  let a := att s in
  r ← (if negb (encrypt a =? 0) && (bdecrypted a =? 0) then
         fc ← hdr16 (frm s) 0;
         let s := if GetFrameType fc =? WIFI_DATA_TYPE
                  then with_adp s (set_security (adp s) (set_hw_decrypted x false)) else s in
         r ← sw_decrypt s;
         Ret (fst r, with_frm s (snd r))
       else if (bdecrypted a =? 1) && (0 <? encrypt a) && (busetkipkey x || negb (encrypt a =? _TKIP_))
       then Ret (_SUCCESS, with_adp s (set_security (adp s) (set_hw_decrypted x true)))
       else Ret (_SUCCESS, s));
  let '(ok, s) := r : Z * rxs in
  if ok =? _FAIL then Ret None
  else Ret (Some (with_att s (set_bdecrypted (att s) 1))).
End Decryptor.

(** ** What the checks leave alone *)

(** The frame's bytes and protected bit, the network's algorithms and the
    operating mode. *)
Definition keeps (s s' : rxs) : Prop :=
  rx_mem (frm s') = rx_mem (frm s) /\ rx_data (frm s') = rx_data (frm s) /\ rx_tail (frm s') = rx_tail (frm s) /\
  len (frm s') = len (frm s) /\ privacy (att s') = privacy (att s) /\
  dot11PrivacyAlgrthm (securitypriv (adp s')) = dot11PrivacyAlgrthm (securitypriv (adp s)) /\
  dot11AuthAlgrthm (securitypriv (adp s')) = dot11AuthAlgrthm (securitypriv (adp s)) /\
  fw_state (adp s') = fw_state (adp s) /\ myhwaddr (adp s') = myhwaddr (adp s).

#[export] Instance keeps_refl : Reflexive keeps.
Proof. intros s. unfold keeps. by split_and!. Qed.

#[export] Instance keeps_trans : Transitive keeps.
Proof.
  intros s t u (A1 & A2 & A3 & A4 & A5 & A6 & A7 & A8 & A9) (B1 & B2 & B3 & B4 & B5 & B6 & B7 & B8 & B9).
  unfold keeps. split_and!; congruence.
Qed.

Lemma Ret_inj {A} (x y : A) : Ret x = Ret y -> x = y.
Proof. congruence. Qed.

Lemma pair_inj {A B} (x y : A) (u v : B) : (x, u) = (y, v) -> x = y /\ u = v.
Proof. split; congruence. Qed.

(** Split the computations in the context into their branches. *)
Ltac rx_inv :=
  repeat match goal with
  | H : Ret _ = Ret _ |- _ => apply Ret_inj in H
  | H : Some _ = Some _ |- _ => injection H as H
  | H : (_, _) = (_, _) |- _ => apply pair_inj in H as [H ?]
  | H : Ret _ = Oob |- _ => discriminate H
  | H : Oob = Ret _ |- _ => discriminate H
  | H : NoFuel = Ret _ |- _ => discriminate H
  | H : Some _ = None |- _ => discriminate H
  | H : None = Some _ |- _ => discriminate H
  | H : mbind _ ?m = Ret _ |- _ =>
      let E := fresh "E" in destruct m eqn:E; cbn [mbind res_mbind] in H; [|discriminate H|discriminate H]
  | H : (if ?b then _ else _) = Ret _ |- _ => let B := fresh "B" in destruct b eqn:B
  | H : (match ?o with Some _ => _ | None => _ end) = Ret _ |- _ => destruct o eqn:?
  | H : (let '(_, _) := ?p in _) = Ret _ |- _ => destruct p
  end.

Lemma sta_hdr_keeps s r o s' : rtw_sta_rx_data_validate_hdr s = Ret (r, o, s') -> keeps s s'.
Proof. unfold rtw_sta_rx_data_validate_hdr. intros H. rx_inv; subst; unfold keeps; by split_and!. Qed.

Lemma ap_hdr_keeps s r o s' : rtw_ap_rx_data_validate_hdr s = Ret (r, o, s') -> keeps s s'.
Proof.
  unfold rtw_ap_rx_data_validate_hdr. intros H. rx_inv; subst;
    repeat case_match; unfold keeps; by split_and!.
Qed.

Lemma mp_addrs_keeps s s' : mp_addrs s = Ret s' -> keeps s s'.
Proof. unfold mp_addrs. intros H. rx_inv; subst; unfold keeps; by split_and!. Qed.

Lemma sta2sta_keeps s r o s' : sta2sta_data_frame s = Ret (r, o, s') -> keeps s s'.
Proof.
  unfold sta2sta_data_frame. intros H. rx_inv; subst; try done; by apply mp_addrs_keeps.
Qed.

Lemma ap2sta_keeps s r o s' : ap2sta_data_frame s = Ret (r, o, s') -> keeps s s'.
Proof.
  unfold ap2sta_data_frame. intros H. rx_inv; subst; try done; try (by apply mp_addrs_keeps);
    unfold keeps; by split_and!.
Qed.

Lemma sta2ap_keeps s r o s' : sta2ap_data_frame s = Ret (r, o, s') -> keeps s s'.
Proof.
  unfold sta2ap_data_frame. intros H. rx_inv; subst; try done; try (by apply mp_addrs_keeps);
    unfold keeps; by split_and!.
Qed.

Lemma with_addrs_keeps s a b c d e : keeps s (with_att s (set_addrs (att s) a b c d e)).
Proof. unfold keeps. by split_and!. Qed.

Lemma validate_hdr_keeps s r o s' : validate_hdr s = Ret (r, o, s') -> keeps s s'.
Proof.
  unfold validate_hdr. intros H. rx_inv.
  - by apply ap_hdr_keeps in H.
  - by apply sta_hdr_keeps in H.
  - apply sta2sta_keeps in H. etrans; [apply with_addrs_keeps | done].
  - apply ap2sta_keeps in H. etrans; [apply with_addrs_keeps | done].
  - apply sta2ap_keeps in H. etrans; [apply with_addrs_keeps | done].
  - by subst.
Qed.

Lemma parse_qc_keeps s n s' : parse_qc s n = Ret s' -> keeps s s'.
Proof.
  unfold parse_qc. intros H. rx_inv; subst;
    cbn [att with_att with_adp frm]; repeat case_match; unfold keeps; by split_and!.
Qed.

Lemma upd_entry_keeps s i e : keeps s (upd_entry s i e).
Proof. unfold keeps. by split_and!. Qed.

Lemma bcast_pn_keeps ad f r ad' :
  recv_bcast_pn_decache ad f = Ret (r, ad') -> exists t, ad' = set_security ad (set_iv_seq (securitypriv ad) t).
Proof.
  unfold recv_bcast_pn_decache. intros H.
  assert (exists t, ad = set_security ad (set_iv_seq (securitypriv ad) t)) as Id
    by (exists (iv_seq (securitypriv ad)); destruct ad as [? []]; done).
  rx_inv; subst; auto. by eexists.
Qed.

Lemma pn_decache_keeps s i r s' : pn_decache s i = Ret (r, s') -> keeps s s'.
Proof.
  unfold pn_decache. intros H. rx_inv; subst; [apply upd_entry_keeps|].
  match goal with x : Z * adapter |- _ => destruct x as [z ad] end.
  match goal with E : recv_bcast_pn_decache _ _ = _ |- _ => apply bcast_pn_keeps in E as [t ->] end. unfold keeps. by split_and!.
Qed.

Lemma pick_cipher_keeps s i : keeps s (pick_cipher s i).
Proof. unfold pick_cipher. repeat case_match; unfold keeps; by split_and!. Qed.

(** The accepted frame passed the protection check in its final state. *)
Lemma validate_data_success s o :
  validate_recv_data_frame s = Ret o -> ret o = _SUCCESS ->
  keeps s (st o) /\ exists i, psta o = Some i /\ protection_check (st o) i = Ret _SUCCESS.
Proof.
  unfold validate_recv_data_frame. intros H Hr.
  match type of H with mbind _ ?m = _ => destruct m as [am| |] eqn:E0; [|discriminate..] end. cbn [mbind res_mbind] in H.
  match type of H with mbind _ ?m = _ => destruct m as [[[r sta] s1]| |] eqn:E1; [|discriminate..] end. cbn [mbind res_mbind] in H.
  apply validate_hdr_keeps in E1. assert (keeps s s1) as K1 by (etrans; [|exact E1]; unfold keeps; by split_and!).
  clear E0 E1. destruct ((r =? _FAIL) || (r =? RTW_RX_HANDLED)) eqn:Er.
  { apply Ret_inj in H as <-. cbn [ret] in Hr. subst r. discriminate. }
  destruct sta as [i|]; [|apply Ret_inj in H as <-; discriminate].
  destruct (_ && negb _); [apply Ret_inj in H as <-; discriminate|].
  match type of H with mbind _ ?m = _ => destruct m as [s2| |] eqn:E2; [|discriminate..] end. cbn [mbind res_mbind] in H.
  apply parse_qc_keeps in E2. destruct (recv_decache (sta_entry s2 i) (att s2)) as [d e].
  destruct (d =? _FAIL); [apply Ret_inj in H as <-; discriminate|].
  match type of H with mbind _ ?m = _ => destruct m as [[p s3]| |] eqn:E3; [|discriminate..] end. cbn [mbind res_mbind] in H.
  apply pn_decache_keeps in E3. destruct (p =? _FAIL); [apply Ret_inj in H as <-; discriminate|].
  match type of H with mbind _ ?m = _ => destruct m as [c| |] eqn:E4; [|discriminate..] end. cbn [mbind res_mbind] in H.
  apply Ret_inj in H as <-. cbn [ret psta st] in *. subst c. split; [|by exists i].
  etrans; [exact K1|]. etrans; [exact E2|]. etrans; [apply upd_entry_keeps|]. etrans; [exact E3|]. apply pick_cipher_keeps.
Qed.

Lemma protection_check_plain s i :
  protection_check s i = Ret _SUCCESS -> privacy (att s) = 0 ->
  dot11PrivacyAlgrthm (securitypriv (adp s)) <> _NO_PRIVACY_ ->
  IS_MCAST (ra (att s)) = false /\ dot11AuthAlgrthm (securitypriv (adp s)) = dot11AuthAlgrthm_8021X /\
  ether_type_at (frm s) = Ret eapol_type /\ amsdu (att s) = 0 /\
  (check_fwstate (adp s) WIFI_AP_STATE = true ->
     dot118021XPrivacy (sta_entry s i) <> _NO_PRIVACY_ \/ dst (att s) = myhwaddr (adp s)).
Proof.
  unfold protection_check. intros H Hp Hn. rewrite Hp in H.
  destruct (Z.eqb_spec (dot11PrivacyAlgrthm (securitypriv (adp s))) _NO_PRIVACY_); [done|].
  destruct (IS_MCAST (ra (att s))); [discriminate|].
  destruct (ether_type_at (frm s)) as [t| |] eqn:Et; [|discriminate..]. cbn [mbind res_mbind] in H.
  destruct (Z.eqb_spec (dot11AuthAlgrthm (securitypriv (adp s))) dot11AuthAlgrthm_8021X); [|discriminate].
  cbn [Z.eqb andb] in H. destruct (Z.eqb_spec t eapol_type) as [->|]; [|discriminate]. cbn [negb andb] in H.
  destruct (Z.eqb_spec (amsdu (att s)) 0); [|discriminate]. cbn [negb] in H.
  split_and!; auto. intros Hap. rewrite Hap in H. cbn [andb] in H.
  destruct (Z.eqb_spec (dot118021XPrivacy (sta_entry s i)) _NO_PRIVACY_); [|by left]. right. cbn [andb] in H.
  unfold same_addr in H. destruct (bool_decide_reflect (myhwaddr (adp s) = dst (att s))); [done|discriminate].
Qed.

(** C3: In a protected network (privacy algorithm set) [validate_recv_frame]
    accepts a frame whose protected bit is clear only if it is a data frame to
    a unicast receiver, the network uses 802.1X, the frame is an EAPOL frame
    by its LLC type and not an A-MSDU; an access point moreover accepts it
    only from a station with a key or when addressed to itself.  All other
    unprotected frames, group or unicast, fragments included, are refused. *)
Theorem plaintext_only_eapol s o fc :
  validate_recv_frame s = Ret o -> ret o = _SUCCESS ->
  hdr16 (frm s) 0 = Ret fc -> bit_test fc (BIT 14) = false ->
  dot11PrivacyAlgrthm (securitypriv (adp s)) <> _NO_PRIVACY_ ->
  GetFrameType fc = WIFI_DATA_TYPE /\
  IS_MCAST (ra (att (st o))) = false /\
  dot11AuthAlgrthm (securitypriv (adp s)) = dot11AuthAlgrthm_8021X /\
  ether_type_at (frm (st o)) = Ret eapol_type /\ amsdu (att (st o)) = 0 /\
  (check_fwstate (adp s) WIFI_AP_STATE = true ->
     exists i, psta o = Some i /\
     (dot118021XPrivacy (sta_entry (st o) i) <> _NO_PRIVACY_ \/ dst (att (st o)) = myhwaddr (adp s))).
Proof.
  unfold validate_recv_frame. intros H Hr Hfc Hbit Hn.
  destruct (rd (rx_mem (frm s)) (rx_data (frm s))); [|discriminate..]. cbn [mbind res_mbind] in H.
  destruct (negb (Z.land a 3 =? 0)); [apply Ret_inj in H as <-; discriminate|].
  rewrite Hfc in H. cbn [mbind res_mbind] in H. destruct (hdr16 (frm s) 22) as [sc| |]; [|discriminate..]. cbn [mbind res_mbind] in H.
  rewrite Hbit in H. set (s1 := with_att s _) in H.
  destruct (GetFrameType fc =? WIFI_MGT_TYPE); [apply Ret_inj in H as <-; discriminate|].
  destruct (GetFrameType fc =? WIFI_CTRL_TYPE); [apply Ret_inj in H as <-; discriminate|].
  destruct (Z.eqb_spec (GetFrameType fc) WIFI_DATA_TYPE); [|apply Ret_inj in H as <-; discriminate].
  apply validate_data_success in H as [K (i & Hi & P)]; [|done].
  destruct K as (_ & _ & _ & _ & K5 & K6 & K7 & K8 & K9). cbn in K5, K6, K7, K8, K9.
  apply protection_check_plain in P as (P1 & P2 & P3 & P4 & P5); [|done | by rewrite K6].
  rewrite <- K7. split_and!; auto. intros Hap. exists i. split; [done|]. rewrite <- K9. apply P5.
  unfold check_fwstate in *. by rewrite K8.
Qed.

(** A station associated with an 802.1X network receives an unprotected EAPOL
    frame from its access point. *)
Definition ex_ap : bytes := [2; 0; 0; 0; 0; 9].
Definition ex_me : bytes := [2; 0; 0; 0; 0; 1].

Definition ex_frame (fc0 fc1 : Z) (type : Z * Z) : recv_frame :=
  let mem := [fc0; fc1; 0; 0] ++ ex_me ++ ex_ap ++ ex_ap ++ [0x10; 0]
             ++ [0xaa; 0xaa; 3; 0; 0; 0; fst type; snd type] ++ replicate 16 0 in
  mk_frame (mk_attrib 0 0 0 0 0 0 0 0 0 0 0 0 0 0 [] [] [] [] [] 0 0) mem 0 (zlen mem) (zlen mem) 0.

Definition ex_adapter : adapter :=
  mk_adapter (foldl (sta_step false) (_rtw_init_sta_priv 32 [0; 0; 0; 0]) [OpAlloc bc_addr; OpAlloc ex_ap])
    (mk_rxsec (mk_sec 0 [] [] 0 [] false) 2 4 4 [] false true false (replicate 4 (replicate 8 0)))
    9 ex_me ex_ap 0 false 0 0 0.

Lemma plaintext_only_eapol_witness :
  let s := mk_rxs ex_adapter (ex_frame 8 2 (0x88, 0x8e)) [] in
  exists o, validate_recv_frame s = Ret o /\ ret o = _SUCCESS /\
    dot11AuthAlgrthm (securitypriv (adp s)) = dot11AuthAlgrthm_8021X /\ ether_type_at (frm (st o)) = Ret eapol_type.
Proof.
  intros s. destruct (validate_recv_frame s) as [o| |] eqn:E; [|vm_compute in E; discriminate..].
  exists o. assert (ret o = _SUCCESS) as Hr by (vm_compute in E; injection E as <-; reflexivity).
  destruct (plaintext_only_eapol s o 0x208 E Hr) as (_ & _ & A & B & _); [reflexivity | reflexivity | discriminate |].
  auto.
Defined.

(** ** Packet numbers of group frames *)

Lemma le_combine_range l : bytes_ok l -> 0 <= le_combine l < 256 ^ zlen l.
Proof.
  induction 1 as [|x l Hx _ IH]; [done|]. cbn [le_combine]. unfold is_byte in Hx.
  rewrite Z.lor_comm, lor_shiftl_add by (change (2 ^ 8) with 256; lia). rewrite zlen_cons.
  pose proof (zlen_nonneg l). rewrite Z.pow_add_r by lia. change (2 ^ 8) with 256. change (256 ^ 1) with 256. nia.
Qed.

Lemma le_combine_split n w : 0 <= w < 256 ^ Z.of_nat n -> le_combine (le_split n w) = w.
Proof.
  revert w. induction n as [|n IH]; intros w H; [change (256 ^ Z.of_nat 0) with 1 in H; cbn; lia|].
  cbn [le_split le_combine]. change 255 with (Z.ones 8). rewrite Z.land_ones, Z.shiftr_div_pow2 by lia. change (2 ^ 8) with 256.
  rewrite Nat2Z.inj_succ, Z.pow_succ_r in H by lia.
  rewrite IH by (split; [apply Z.div_pos; lia | apply Z.div_lt_upper_bound; lia]).
  rewrite Z.lor_comm, lor_shiftl_add by (change (2 ^ 8) with 256; pose proof (Z.mod_pos_bound w 256); lia).
  change (2 ^ 8) with 256. pose proof (Z.div_mod w 256). lia.
Qed.

(** The comparison is circular: [new] is ahead of [old] by at most 2^47. *)
Lemma PN_LESS_CHK_circular old new :
  PN_LESS_CHK old new = (2 ^ 47 <=? (old - new) mod 2 ^ 48).
Proof.
  unfold PN_LESS_CHK. change 0x800000000000 with (2 ^ 47). rewrite bit_test_pow2 by lia.
  unfold u64. change 18446744073709551616 with (2 ^ 48 * 2 ^ 16). change (47 + 1) with 48.
  rewrite Z.rem_mul_r, Z.mul_comm, Z.mod_add, Z.mod_mod by lia. done.
Qed.

Lemma VALID_PN_CHK_lt old new :
  0 <= old < 2 ^ 47 -> 0 <= new < 2 ^ 47 -> VALID_PN_CHK new old = (old =? 0) || (old <? new).
Proof.
  intros Ho Hn. unfold VALID_PN_CHK. rewrite PN_LESS_CHK_circular. f_equal.
  change (2 ^ 48) with (2 * 2 ^ 47) in *. generalize dependent (2 ^ 47). intros M Ho Hn.
  destruct (Z.ltb_spec old new).
  - replace ((old - new) mod (2 * M)) with (old - new + 2 * M); [lia|].
    apply (Z.mod_unique _ _ (-1)); lia.
  - rewrite Z.mod_small by lia. lia.
Qed.

(** A number more than 2^47 behind the last one is accepted, against the
    comment that a legal number is greater. *)
Theorem valid_pn_accepts_behind : VALID_PN_CHK 1 (2 ^ 47 + 2) = true.
Proof. reflexivity. Qed.

(** The counter kept for a group key, and the key and number of a frame. *)
Definition pn_counter (ad : adapter) (k : Z) : Z :=
  Z.land (le_combine (key_at (iv_seq (securitypriv ad)) k)) 0xffffffffffff.

Definition frame_pn (f : recv_frame) : res (Z * Z) :=
  iv ← iv_hdr f; Ret (CCMPH_2_KEYID (le_combine iv), CCMPH_2_PN (le_combine iv)).

(** Group frames checked one after the other: the accepted (key, number). *)
Fixpoint bcast_run (ad : adapter) (fs : list recv_frame) : res (list (Z * Z) * adapter) :=
  match fs with
  | [] => Ret ([], ad)
  | f :: fs =>
      r ← recv_bcast_pn_decache ad f;
      kp ← frame_pn f;
      rest ← bcast_run (snd r) fs;
      Ret ((if fst r =? _SUCCESS then [kp] else []) ++ fst rest, snd rest)
  end.

Lemma keyid_range ch : 0 <= CCMPH_2_KEYID ch < 4.
Proof.
  unfold CCMPH_2_KEYID. rewrite Z.shiftr_land. change (Z.shiftr 0xc0000000 30) with (Z.ones 2).
  rewrite Z.land_ones by lia. apply Z.mod_pos_bound. lia.
Qed.

Lemma pn_counter_set ad k pn j :
  0 <= pn < 2 ^ 48 -> 0 <= k < 4 -> 0 <= j < 4 -> length (iv_seq (securitypriv ad)) = 4%nat ->
  let ad' := set_security ad (set_iv_seq (securitypriv ad) (<[Z.to_nat k := le_split 8 pn]> (iv_seq (securitypriv ad)))) in
  pn_counter ad' j = (if j =? k then pn else pn_counter ad j).
Proof.
  intros Hp Hk Hj L. unfold pn_counter, key_at. cbn [securitypriv set_security set_iv_seq iv_seq]. destruct (Z.eqb_spec j k) as [->|Hne].
  - rewrite nth_lookup, list_lookup_insert_eq by lia. change (default [] (Some (le_split 8 pn))) with (le_split 8 pn).
    rewrite (le_combine_split 8) by (change (256 ^ Z.of_nat 8) with (2 ^ 64); lia).
    change 281474976710655 with (Z.ones 48). rewrite Z.land_ones by lia. apply Z.mod_small. lia.
  - rewrite !nth_lookup, list_lookup_insert_ne by lia. done.
Qed.

Lemma ccmph_pn_range ch : 0 <= ch < 2 ^ 64 -> 0 <= CCMPH_2_PN ch < 2 ^ 48.
Proof.
  intros H. unfold CCMPH_2_PN. change 0xffff with (Z.ones 16). rewrite Z.land_ones, Z.shiftr_land by lia.
  change (Z.shiftr 18446744069414584320 16) with (Z.shiftl (Z.ones 32) 16).
  pose proof (Z.mod_pos_bound ch (2 ^ 16)) as M.
  assert (Z.land (Z.shiftr ch 16) (Z.shiftl (Z.ones 32) 16) = Z.shiftl (Z.land (Z.shiftr ch 32) (Z.ones 32)) 16) as ->.
  { apply Z.bits_inj'. intros n Hn. rewrite Z.land_spec, Z.shiftr_spec by lia.
    destruct (Z.lt_ge_cases n 16); [rewrite !Z.shiftl_spec_low by lia; apply andb_false_r|].
    rewrite !Z.shiftl_spec_high, Z.land_spec, Z.shiftr_spec by lia. f_equal; f_equal; lia. }
  rewrite Z.land_ones by lia. pose proof (Z.mod_pos_bound (Z.shiftr ch 32) (2 ^ 32)) as M2.
  rewrite Z.lor_comm, lor_shiftl_add by lia. change (2 ^ 48) with (2 ^ 32 * 2 ^ 16). nia.
Qed.

(** Frames and counters whose packet numbers stay below 2^47. *)
Definition pn_frame (f : recv_frame) : Prop :=
  encrypt (attrib f) = _AES_ /\ exists iv, iv_hdr f = Ret iv /\ CCMPH_2_PN (le_combine iv) < 2 ^ 47 /\ bytes_ok iv /\ zlen iv = 8.

Record pn_state (ad : adapter) : Prop := {
  ps_mode : check_fwstate ad WIFI_STATION_STATE = true;
  ps_len : length (iv_seq (securitypriv ad)) = 4%nat;
  ps_low : forall k, 0 <= k < 4 -> 0 <= pn_counter ad k < 2 ^ 47
}.

Lemma bcast_step ad f :
  pn_state ad -> pn_frame f ->
  exists k pn r ad', recv_bcast_pn_decache ad f = Ret (r, ad') /\ frame_pn f = Ret (k, pn) /\ 0 <= k < 4 /\ 0 <= pn < 2 ^ 47 /\
    pn_state ad' /\ (r = _SUCCESS <-> pn_counter ad k = 0 \/ pn_counter ad k < pn) /\ (r = _SUCCESS \/ r = _FAIL) /\
    (forall j, 0 <= j < 4 -> pn_counter ad' j = if (j =? k) && (r =? _SUCCESS) then pn else pn_counter ad j).
Proof.
  intros [M L C] (He & iv & Hiv & Hlt & Hb & Hz). pose proof (keyid_range (le_combine iv)) as K.
  pose proof (le_combine_range iv Hb) as R. rewrite Hz in R. change (256 ^ 8) with (2 ^ 64) in R.
  pose proof (ccmph_pn_range _ R) as P.
  exists (CCMPH_2_KEYID (le_combine iv)), (CCMPH_2_PN (le_combine iv)).
  unfold recv_bcast_pn_decache, frame_pn. rewrite He, M, Hiv. cbn [mbind res_mbind Z.eqb Pos.eqb _AES_ andb].
  set (k := CCMPH_2_KEYID (le_combine iv)) in *. set (pn := CCMPH_2_PN (le_combine iv)) in *.
  fold (pn_counter ad k). rewrite (VALID_PN_CHK_lt (pn_counter ad k) pn) by (auto; lia).
  destruct ((pn_counter ad k =? 0) || (pn_counter ad k <? pn)) eqn:V; cbn [negb].
  - exists _SUCCESS. eexists. split; [done|].
    assert (forall j, 0 <= j < 4 -> pn_counter (set_security ad (set_iv_seq (securitypriv ad) (<[Z.to_nat k := le_split 8 pn]> (iv_seq (securitypriv ad))))) j
      = if j =? k then pn else pn_counter ad j) as S by (intros j Hj; apply pn_counter_set; auto; lia).
    split; [done|]. split; [lia|]. split; [lia|]. split.
    { split; [done | by cbn; rewrite length_insert |]. intros j Hj. rewrite S by done. destruct (j =? k); [lia | auto]. }
    split; [|split; [by left | intros j Hj; by rewrite S, andb_true_r]].
    split; [intros _ | done]. destruct (Z.eqb_spec (pn_counter ad k) 0), (Z.ltb_spec (pn_counter ad k) pn); auto; discriminate.
  - exists _FAIL, ad. split; [done|].
    destruct (Z.eqb_spec (pn_counter ad k) 0), (Z.ltb_spec (pn_counter ad k) pn); try discriminate V.
    split; [done|]. split; [lia|]. split; [lia|]. split; [done|].
    split; [split; [discriminate | intros [?|?]; lia] | split; [by right | intros j Hj; by rewrite andb_false_r]].
Qed.

(** The non-zero packet numbers accepted under key [k]. *)
Definition pns_of (k : Z) (acc : list (Z * Z)) : list Z := snd <$> filter (fun kp => kp.1 = k /\ kp.2 <> 0) acc.

Lemma pns_of_app k l m : pns_of k (l ++ m) = pns_of k l ++ pns_of k m.
Proof. unfold pns_of. by rewrite filter_app, fmap_app. Qed.

(** C29: For a station receiving any sequence of CCMP group frames with packet
    numbers below 2^47, the check is total, and under each group key the
    non-zero packet numbers it accepts are strictly increasing and above the
    counter it started with: no group frame with a number other than 0 is
    accepted twice. Beyond the bound an older number may be accepted, see
    [valid_pn_accepts_behind]. *)
Theorem group_replay_rejected ad fs k :
  pn_state ad -> Forall pn_frame fs -> 0 <= k < 4 ->
  exists acc ad', bcast_run ad fs = Ret (acc, ad') /\
    StronglySorted Z.lt (pns_of k acc) /\ Forall (fun pn => pn_counter ad k < pn) (pns_of k acc).
Proof.
  intros Hs Hf Hk. revert ad Hs. induction Hf as [|f fs Hf _ IH]; intros ad Hs.
  { exists [], ad. split; [done|]. cbn. split; constructor. }
  destruct (bcast_step ad f Hs Hf) as (j & pn & r & ad1 & E1 & E2 & Hj & Hpn & Hs1 & Hr & Hr' & Hc).
  destruct (IH ad1 Hs1) as (acc & ad' & E3 & S & F).
  cbn [bcast_run]. rewrite E1. cbn [mbind res_mbind fst snd]. rewrite E2. cbn [mbind res_mbind]. rewrite E3. cbn [mbind res_mbind fst snd].
  eexists _, ad'. split; [done|]. rewrite pns_of_app. specialize (Hc k Hk).
  pose proof (ps_low ad Hs k Hk) as Lk.
  destruct (Z.eqb_spec r _SUCCESS) as [Es|Es]; [|rewrite andb_false_r in Hc; rewrite Hc in F; cbn; auto].
  rewrite andb_true_r in Hc. apply Hr in Es. unfold pns_of at 1 3.
  destruct (Z.eqb_spec k j) as [->|Hkj].
  - rewrite Hc in F. destruct (decide (pn = 0)) as [->|Hp].
    + assert (pn_counter ad j = 0) as Z0 by lia. rewrite filter_cons_False by (cbn; naive_solver). cbn. by rewrite Z0.
    + rewrite filter_cons_True by done. cbn. split; [by constructor|]. constructor; [lia|].
      eapply Forall_impl; [done|]. cbn. lia.
  - rewrite filter_cons_False by (cbn; naive_solver). cbn. by rewrite Hc in F.
Qed.

(** A frame with key 1 and packet number [pn], as received. *)
Definition ex_group (pn : Z) : recv_frame :=
  let mem := replicate 24 0 ++ [pn; 0; 0; 0x60; 0; 0; 0; 0] ++ replicate 16 0 in
  mk_frame (mk_attrib 24 0 0 0 0 0 0 0 0 1 0 4 8 8 [] [] [] bc_addr [] 0 0) mem 0 (zlen mem) (zlen mem) 0.

Lemma group_replay_rejected_witness :
  exists acc ad', bcast_run ex_adapter (ex_group <$> [3; 3; 5; 4; 7]) = Ret (acc, ad') /\
    pns_of 1 acc = [3; 5; 7] /\ StronglySorted Z.lt (pns_of 1 acc).
Proof.
  destruct (group_replay_rejected ex_adapter (ex_group <$> [3; 3; 5; 4; 7]) 1) as (acc & ad' & E & S & _).
  - split; [reflexivity | reflexivity |]. intros k Hk.
    assert (k = 0 \/ k = 1 \/ k = 2 \/ k = 3) as [-> | [-> | [-> | ->]]] by lia; vm_compute; split; congruence.
  - assert (forall pn, pn ∈ [3; 3; 5; 4; 7] -> pn_frame (ex_group pn)) as F.
    { intros pn Hpn. repeat (apply elem_of_cons in Hpn as [->|Hpn]); [..|by apply elem_of_nil in Hpn];
        (split; [reflexivity | eexists; split; [reflexivity|]; split; [reflexivity|]; split; [|reflexivity]];
         repeat constructor; vm_compute; congruence). }
    apply Forall_fmap, Forall_forall. exact F.
  - lia.
  - exists acc, ad'. split; [done|]. split; [|done]. vm_compute in E. injection E as <- <-. reflexivity.
Defined.

(** ** Duplicate detection *)

#[export] Instance seq_cache_dec : EqDecision seq_cache.
Proof. solve_decision. Defined.

Definition cache_valid (c : seq_cache) : Prop := match c with BmcTid t | UcTid t => 0 <= t < 16 | _ => True end.

Definition caches_ok (r : sta_recv_priv) : Prop := length (tid_rxseq r) = 16%nat /\ length (bmc_tid_rxseq r) = 16%nat.

Lemma cache_set_ok r c v : caches_ok r -> caches_ok (cache_set r c v).
Proof. intros [H1 H2]. destruct c; split; cbn; rewrite ?length_insert; done. Qed.

Lemma cache_get_set r c v d :
  caches_ok r -> cache_valid c -> cache_valid d ->
  cache_get (cache_set r c v) d = if decide (d = c) then v else cache_get r d.
Proof.
  intros [H1 H2] Hc Hd.
  assert (forall l t u, length l = 16%nat -> 0 <= t < 16 -> 0 <= u < 16 ->
    znth (<[Z.to_nat t := v]> l) u = if decide (u = t) then v else znth l u) as N.
  { intros l t u L Ht Hu. unfold znth. rewrite !nth_lookup. destruct (decide (u = t)) as [->|].
    - by rewrite list_lookup_insert_eq by lia.
    - by rewrite list_lookup_insert_ne by lia. }
  destruct c, d; cbn [cache_valid cache_get cache_set bmc_tid_rxseq tid_rxseq nonqos_rxseq nonqos_bmc_rxseq] in *;
    rewrite ?N by done; repeat case_decide; congruence.
Qed.

Fixpoint decache_run (e : sta_info) (l : list rx_pkt_attrib) : list (seq_cache * bool) * sta_info :=
  match l with
  | [] => ([], e)
  | a :: l =>
      let '(r, e) := recv_decache e a in
      let '(rest, e) := decache_run e l in
      ((cache_of a, r =? _SUCCESS) :: rest, e)
  end.

(** Accept every frame that differs from the one before it. *)
Fixpoint accept_changes (prev : Z) (l : list Z) : list bool :=
  match l with [] => [] | x :: l => negb (x =? prev) :: accept_changes x l end.

Lemma seq_ctrl_inj a b :
  0 <= seq_num a < 4096 -> 0 <= frag_num a < 16 -> 0 <= seq_num b < 4096 -> 0 <= frag_num b < 16 ->
  seq_ctrl a = seq_ctrl b <-> seq_num a = seq_num b /\ frag_num a = frag_num b.
Proof.
  intros Ha Fa Hb Fb.
  assert (forall x, 0 <= seq_num x < 4096 -> 0 <= frag_num x < 16 -> seq_ctrl x = 16 * seq_num x + frag_num x) as S.
  { intros x Hx Fx. unfold seq_ctrl. change 0xffff with (Z.ones 16). change 0xf with (Z.ones 4).
    rewrite !Z.land_ones, (Z.mod_small (seq_num x)), (Z.mod_small (frag_num x)) by lia.
    rewrite lor_shiftl_add by lia. rewrite u16_small; unfold is_u16; lia. }
  rewrite !S by done. lia.
Qed.

(** [recv_decache] over any sequence of frames of a station accepts, in
    each of its caches (unicast or group, per TID or non-QoS) separately,
    exactly the frames whose sequence and fragment number differ from the
    previous frame of that cache: a retransmission is dropped whatever frames
    of other TIDs arrive in between, and no new frame is lost.  The compared
    value determines both numbers. *)
Theorem decache_drops_retransmissions e l c :
  caches_ok (recvpriv e) -> cache_valid c ->
  Forall (fun a => 0 <= priority a <= 15 /\ 0 <= seq_num a < 4096 /\ 0 <= frag_num a < 16) l ->
  snd <$> filter (fun x => x.1 = c) (fst (decache_run e l))
  = accept_changes (cache_get (recvpriv e) c) (seq_ctrl <$> filter (fun a => cache_of a = c) l) /\
  (forall a b, a ∈ l -> b ∈ l -> seq_ctrl a = seq_ctrl b <-> seq_num a = seq_num b /\ frag_num a = frag_num b).
Proof.
  intros Hok Hc Hl. split.
  2: { rewrite Forall_forall in Hl. intros a b Ha%Hl Hb%Hl. apply seq_ctrl_inj; apply Ha || apply Hb. }
  revert e Hok. induction Hl as [|a l (Hp & _) _ IH]; intros e Hok; [done|]. cbn [decache_run].
  unfold recv_decache. destruct (Z.ltb_spec 15 (priority a)); [lia|].
  assert (cache_valid (cache_of a)) as Va by (unfold cache_of; repeat case_match; cbn; try done; lia).
  destruct (Z.eqb_spec (seq_ctrl a) (cache_get (recvpriv e) (cache_of a))) as [E|E].
  - set (e1 := set_recvpriv e _ _). specialize (IH e1 Hok). destruct (decache_run e1 l) as [rest e2]. cbn [fst] in *.
    destruct (decide (cache_of a = c)) as [Ec|Ec].
    + rewrite !filter_cons_True by done. cbn [fmap list_fmap accept_changes snd]. rewrite Ec in E. rewrite E, Z.eqb_refl.
      change (_FAIL =? _SUCCESS) with false. f_equal. exact IH.
    + rewrite !filter_cons_False by done. exact IH.
  - set (e1 := set_recvpriv e _ _). assert (caches_ok (recvpriv e1)) as Hok1 by (by apply cache_set_ok).
    specialize (IH e1 Hok1). destruct (decache_run e1 l) as [rest e2]. cbn [fst] in *.
    change (recvpriv e1) with (cache_set (recvpriv e) (cache_of a) (seq_ctrl a)) in IH.
    rewrite cache_get_set in IH by done. destruct (decide (cache_of a = c)) as [Ec|Ec].
    + rewrite !filter_cons_True by done. cbn [fmap list_fmap accept_changes snd]. rewrite Ec in E.
      destruct (Z.eqb_spec (seq_ctrl a) (cache_get (recvpriv e) c)); [done|]. change (_SUCCESS =? _SUCCESS) with true. f_equal.
      rewrite decide_True in IH by done. exact IH.
    + rewrite !filter_cons_False by done. rewrite decide_False in IH by congruence. exact IH.
Qed.

(** Frames of TID 5 with sequence numbers 7, 7, 8 and one of TID 0 between. *)
Lemma decache_drops_retransmissions_witness :
  let a t n := mk_attrib 26 1 0 1 t n 0 0 0 1 0 4 8 8 ex_me ex_ap ex_ap ex_me ex_ap 0 0 in
  snd <$> filter (fun x => x.1 = UcTid 5) (fst (decache_run (alloc_entry ex_ap) [a 5 7; a 0 7; a 5 7; a 5 8])) = [true; false; true].
Proof.
  intros a. rewrite (proj1 (decache_drops_retransmissions (alloc_entry ex_ap) [a 5 7; a 0 7; a 5 7; a 5 8] (UcTid 5)
    ltac:(split; reflexivity) ltac:(cbn; lia) ltac:(repeat constructor; cbn; lia))).
  vm_compute. reflexivity.
Defined.
