(* ===== verification/Defrag.v ===== *)
(** * Reassembly and conversion to Ethernet (core/rtw_recv.c)

    [recvframe_chk_defrag] queues the fragments of a station and calls
    [recvframe_defrag] on the last one, [recvframe_chkmic] checks the TKIP
    MIC of the whole frame, [rtw_recv_llc_parse] and [wlanhdr_to_ethhdr]
    replace the 802.11 header by an Ethernet header.  A returned NULL is
    [None]; the frames freed on the way are not kept. *)

From S2P Require Import Prelude RxFrame Reorder StaMgt Michael SwCrypt RxCheck.

(** ** MIC *)

Definition set_icv_len (a : rx_pkt_attrib) (n : Z) : rx_pkt_attrib := set_cipher a (encrypt a) (iv_len a) n.

(** Return value and state. *)
Definition recvframe_chkmic (s : rxs) : res (Z * rxs) :=
  let a := att s in
  let f := frm s in
  let x := securitypriv (adp s) in
  let pull (s : rxs) : rxs := with_frm s (ignore_null (frm s) (recvframe_pull_tail (frm s) 8)) in
  if encrypt a =? _TKIP_ then
    match get_sta s (ta a) with
    | None => Ret (_SUCCESS, pull s)
    | Some i =>
        let mc := IS_MCAST (ra a) in
        if mc && negb (binstallGrpkey (keys x)) then Ret (_FAIL, s)
        else
          let mickey := if mc then key_at (dot118021XGrprxmickey x) (key_index a) else dot11tkiprxmickey (sta_entry s i) in
          let datalen := u32 (len f - hdrlen a - iv_len a - icv_len a - 8) in
          let payload := rx_data f + hdrlen a + iv_len a in
          header ← rd_slice (rx_mem f) (rx_data f) (zlen (rx_mem f) - rx_data f);
          data ← rd_slice (rx_mem f) payload datalen;
          miccode ← rtw_seccalctkipmic mickey header data (u8 (priority a));
          framemic ← rd_slice (rx_mem f) (payload + datalen) 8;
          if bool_decide (miccode = framemic) then
            let s := if negb (bcheck_grpkey x) && mc then with_adp s (set_security (adp s) (set_bcheck x)) else s in
            Ret (_SUCCESS, pull s)
          else
            let brpt_micerror := negb (mc && negb (key_index a =? mlme_key_index (adp s))) in
            let s := if (bdecrypted a =? 1) && brpt_micerror then call s (rtw_handle_tkip_mic_err i mc) else s in
            Ret (_FAIL, pull s)
    end
  else Ret (_SUCCESS, s).

(** ** Reassembly *)

(** Ciphers whose header carries a 48-bit packet number. *)
Definition has_pn (f : recv_frame) : bool :=
  let e := encrypt (attrib f) in
  (e =? _AES_) || (e =? _CCMP_256_) || (e =? _GCMP_) || (e =? _GCMP_256_).

Definition frag_pn (f : recv_frame) : res Z := iv ← iv_hdr f; Ret (CCMPH_2_PN (le_combine iv)).

(** Append the body of [n], whose header is already pulled, to [pr]. *)
Definition append_frag (pr n : recv_frame) : res recv_frame :=
  let pr := ignore_null pr (recvframe_pull_tail pr (icv_len (attrib pr))) in
  d ← rd_slice (rx_mem n) (rx_data n) (len n);
  m ← wr_slice (rx_mem pr) (rx_tail pr) d;
  let pr := set_mem pr m in
  let pr := ignore_null pr (recvframe_put pr (len n)) in
  Ret (set_attrib pr (set_icv_len (attrib pr) (icv_len (attrib n)))).

(** The loop over the fragments behind the first. *)
Fixpoint defrag_loop (pr : recv_frame) (cur_pn curfragnum : Z) (q : list recv_frame) : res (option recv_frame) :=
  match q with
  | [] => Ret (Some pr)
  | n :: q =>
      pn ← (if has_pn n then pkt_pn ← frag_pn n; Ret (if pkt_pn =? u64 (cur_pn + 1) then Some pkt_pn else None)
            else Ret (Some cur_pn));
      match pn : option Z with
      | None => Ret None
      | Some cur_pn =>
          if negb (keytrack pr =? keytrack n) then Ret None
          else if negb (curfragnum =? frag_num (attrib n)) then Ret None
          else
            let n := ignore_null n (recvframe_pull n (u8 (hdrlen (attrib n) + iv_len (attrib n)))) in
            if rx_end pr - rx_tail pr <? len n then Ret None
            else pr ← append_frag pr n; defrag_loop pr cur_pn (u8 (curfragnum + 1)) q
      end
  end.

(** The queue is not empty when this is called. *)
Definition recvframe_defrag (defrag_q : list recv_frame) : res (option recv_frame) :=
  match defrag_q with
  | [] => Oob
  | pr :: q =>
      cur_pn ← (if has_pn pr then frag_pn pr else Ret 0);
      if negb (0 =? frag_num (attrib pr)) then Ret None
      else defrag_loop pr cur_pn 1 q
  end.

Definition set_defrag_q (e : sta_info) (q : list recv_frame) : sta_info :=
  let r := recvpriv e in
  set_recvpriv e (mk_srecv q (tid_rxseq r) (rx_iv r) (last_tid r) (bmc_tid_rxseq r) (nonqos_rxseq r) (nonqos_bmc_rxseq r))
    (duplicate_cnt e).

(** The station whose queue holds the fragments of a frame. *)
Definition defrag_owner (s : rxs) : res (option nat) :=
  match get_sta s (ta (att s)) with
  | Some i => Ret (Some i)
  | None =>
      fc ← hdr16 (frm s) 0;
      Ret (if negb (GetFrameType fc =? WIFI_DATA_TYPE) then rtw_get_bcmc_stainfo (stapriv (adp s)) else None)
  end.

(** The MIC check after reassembly. *)
Definition mic_after_defrag (s : rxs) (o : option recv_frame) : res (option recv_frame * rxs) :=
  match o with
  | None => Ret (None, s)
  | Some f =>
      if privacy (attrib f) =? 0 then Ret (Some f, s)
      else
        r ← recvframe_chkmic (with_frm s f);
        Ret (if fst r =? _FAIL then None else Some (frm (snd r)), snd r)
  end.

(** The frame to deliver, if any, and the state. *)
Definition recvframe_chk_defrag (s : rxs) : res (option recv_frame * rxs) :=
  let f := frm s in
  let ismfrag := mfrag (attrib f) in
  let fragnum := frag_num (attrib f) in
  owner ← defrag_owner s;
  let whole := (ismfrag =? 0) && (fragnum =? 0) in
  if negb whole && IS_MCAST (ra (attrib f)) then Ret (None, s)
  else if whole then mic_after_defrag s (Some f)
  else
    match owner : option nat with
    | None => Ret (None, s)
    | Some i =>
        let e := sta_entry s i in
        let f := set_keytrack f (sta_keytrack e) in
        let q := defrag_q (recvpriv e) in
        if ismfrag =? 1 then
          Ret (None, upd_entry s i (set_defrag_q e ((if fragnum =? 0 then [] else q) ++ [f])))
        else if (ismfrag =? 0) && negb (fragnum =? 0) then
          o ← recvframe_defrag (q ++ [f]);
          mic_after_defrag (upd_entry s i (set_defrag_q e [])) o
        else Ret (None, s)
    end.

(** ** LLC and Ethernet header *)

Definition rtw_bridge_tunnel_header : bytes := [0xaa; 0xaa; 0x03; 0x00; 0x00; 0xf8].
Definition rtw_rfc1042_header : bytes := [0xaa; 0xaa; 0x03; 0x00; 0x00; 0x00].
Definition SNAP_SIZE : Z := 6.
Definition ETH_HLEN : Z := 14.
Definition ETH_P_IP : Z := 0x0800.
Definition ETH_P_AARP : Z := 0x80F3.
Definition ETH_P_IPX : Z := 0x8137.

(** Whether the LLC header is removed. The code's [msdu_len] is a [u16]; both
    callers, [amsdu_to_msdu] and [recv_process_mpdu], pass a value they have
    already reduced to 16 bits. *)
Definition rtw_recv_llc_parse (mem : bytes) (msdu msdu_len : Z) : res bool :=
  if msdu_len <? 8 then Ret false
  else
    eth_type ← be16_get mem (msdu + SNAP_SIZE);
    rfc ← rtw_memcmp mem msdu rtw_rfc1042_header;
    br ← rtw_memcmp mem msdu rtw_bridge_tunnel_header;
    Ret ((rfc && negb (eth_type =? ETH_P_AARP) && negb (eth_type =? ETH_P_IPX)) || br).

Definition wlanhdr_to_ethhdr (f : recv_frame) (llc_hdl : bool) : res (Z * recv_frame) :=
  let a := attrib f in
  let f := if encrypt a =? 0 then f else ignore_null f (recvframe_pull_tail f (icv_len a)) in
  let rmv_len := hdrlen a + iv_len a + (if llc_hdl then SNAP_SIZE else 0) in
  let l := u16 (len f - rmv_len) in
  match recvframe_pull f (rmv_len - 14 + (if llc_hdl then 2 else 0)) with
  | None => Ret (_FAIL, f)
  | Some f =>
      m ← wr_slice (rx_mem f) (rx_data f) (dst a);
      m ← wr_slice m (rx_data f + 6) (src a);
      m ← (if llc_hdl then Ret m else wr_slice m (rx_data f + 12) [Z.shiftr l 8; Z.land l 255]);
      Ret (_SUCCESS, set_mem f m)
  end.

(** ** Reassembly: what is accepted *)

Lemma append_frag_keeps pr n pr' :
  append_frag pr n = Ret pr' -> keytrack pr' = keytrack pr.
Proof.
  unfold append_frag. intros H. rx_inv. subst pr'.
  assert (forall f o, (forall f', o = Some f' -> keytrack f' = keytrack f) -> keytrack (ignore_null f o) = keytrack f) as N
    by (intros f [g|] Ho; [by apply Ho | done]).
  cbn [keytrack set_attrib]. rewrite N by (unfold recvframe_put; intros f'; case_match; intros [= <-]; done).
  cbn [keytrack set_mem]. apply N. unfold recvframe_pull_tail. intros f'. case_match; intros [= <-]; done.
Qed.

(** The fragments the loop accepted carry the numbers it expects. *)
Lemma defrag_loop_accepts q pr cur_pn k r :
  0 <= k -> (forall j n, q !! j = Some n -> 0 <= frag_num (attrib n) < 16) ->
  defrag_loop pr cur_pn k q = Ret (Some r) ->
  (forall j n, q !! j = Some n -> keytrack n = keytrack pr /\ frag_num (attrib n) = k + Z.of_nat j) /\
  (Forall (fun n => has_pn n = true) q -> 0 <= cur_pn < 2 ^ 48 ->
     (forall j n, q !! j = Some n -> exists pn, frag_pn n = Ret pn /\ 0 <= pn < 2 ^ 48) ->
     forall j n, q !! j = Some n -> frag_pn n = Ret (cur_pn + 1 + Z.of_nat j)).
Proof.
  revert pr cur_pn k. induction q as [|n q IH]; intros pr cur_pn k Hk Hf H; [split; by intros|].
  cbn [defrag_loop] in H.
  match type of H with mbind _ ?m = _ => destruct m as [o| |] eqn:E; [|discriminate..] end. cbn [mbind res_mbind] in H.
  destruct o as [pn|]; [|discriminate].
  destruct (Z.eqb_spec (keytrack pr) (keytrack n)) as [Ek|]; [|discriminate]. cbn [negb] in H.
  destruct (Z.eqb_spec k (frag_num (attrib n))) as [En|]; [|discriminate]. cbn [negb] in H.
  destruct (_ <? _); [discriminate|].
  match type of H with mbind _ ?m = _ => destruct m as [pr'| |] eqn:Ea; [|discriminate..] end. cbn [mbind res_mbind] in H.
  pose proof (append_frag_keeps _ _ _ Ea) as Kt. pose proof (Hf O n eq_refl) as Fn.
  rewrite (u8_small (k + 1)) in H by (unfold is_byte; lia).
  destruct (IH pr' pn (k + 1) ltac:(lia) ltac:(intros j m Hm; by apply (Hf (S j))) H) as [I1 I2]. split.
  - intros [|j] m Hm; [injection Hm as <-; split; [congruence|lia]|]. destruct (I1 j m Hm) as [J1 J2]. split; [congruence|lia].
  - intros Hpn Hc Hr. apply Forall_cons_1 in Hpn as [P Hpn]. rewrite P in E. destruct (Hr O n eq_refl) as (x & Ex & Rx).
    rewrite Ex in E. cbn [mbind res_mbind] in E. apply Ret_inj in E.
    destruct (Z.eqb_spec x (u64 (cur_pn + 1))) as [Exx|]; [|discriminate]. injection E as <-.
    assert (x = cur_pn + 1) as Ex1 by (rewrite Exx; unfold u64; apply Z.mod_small; lia).
    intros [|j] m Hm; [injection Hm as <-; rewrite Ex; f_equal; lia|].
    rewrite (I2 Hpn Rx ltac:(intros i m' Hm'; by apply (Hr (S i))) j m Hm). f_equal. lia.
Qed.

(** The fragments of a reassembled frame fit together. *)
Definition frags_consistent (q : list recv_frame) : Prop :=
  (forall i n, q !! i = Some n -> frag_num (attrib n) = Z.of_nat i) /\
  (forall i j n m, q !! i = Some n -> q !! j = Some m -> keytrack n = keytrack m) /\
  (Forall (fun n => has_pn n = true) q ->
   exists pn, forall i n, q !! i = Some n -> frag_pn n = Ret (pn + Z.of_nat i)).

(** A frame as the parser leaves it: a 4-bit fragment number and room for the
    eight bytes behind the header. *)
Definition frag_readable (n : recv_frame) : Prop :=
  0 <= frag_num (attrib n) < 16 /\ exists pn, frag_pn n = Ret pn /\ 0 <= pn < 2 ^ 48.

Lemma defrag_consistent q r :
  Forall frag_readable q -> recvframe_defrag q = Ret (Some r) -> frags_consistent q.
Proof.
  intros Hq. destruct q as [|pr q]; [discriminate|]. apply Forall_cons_1 in Hq as [(Fp & pn0 & E0 & R0) Hq].
  rewrite Forall_lookup in Hq. cbn [recvframe_defrag]. intros H.
  match type of H with mbind _ ?m = _ => destruct m as [c| |] eqn:E; [|discriminate..] end. cbn [mbind res_mbind] in H.
  destruct (Z.eqb_spec 0 (frag_num (attrib pr))) as [F0|]; [|discriminate]. cbn [negb] in H.
  destruct (defrag_loop_accepts q pr c 1 r ltac:(lia) ltac:(intros j n Hn; by apply (Hq j n Hn)) H) as [I1 I2].
  split; [|split].
  - intros [|i] n Hn; [injection Hn as <-; lia|]. destruct (I1 i n Hn). lia.
  - assert (forall i n, (pr :: q) !! i = Some n -> keytrack n = keytrack pr) as K.
    { intros [|i] n Hn; [by injection Hn as <-|]. by apply (I1 i n Hn). }
    intros i j n m Hn Hm. by rewrite (K i n Hn), (K j m Hm).
  - intros Hp. apply Forall_cons_1 in Hp as [P Hp]. rewrite P, E0 in E. injection E as <-. exists pn0.
    intros [|i] n Hn; [injection Hn as <-; rewrite E0; f_equal; lia|].
    rewrite (I2 Hp R0 ltac:(intros j m Hm; by apply (Hq j m Hm)) i n Hn). f_equal. lia.
Qed.

(** C22: When [recvframe_chk_defrag] delivers a frame that arrived as a
    fragment, the receiver address is not a group address, the fragment is the
    last one, and the queue of its station with it added holds the fragments
    numbered 0, 1, 2, ... in order, all received under the same key (key
    track) and, when all of them are CCMP or GCMP frames, with consecutive
    packet numbers. The frame delivered is the one [recvframe_defrag] builds
    from exactly this queue, past the check of its Michael value, and the
    queue is left empty. Sequence numbers are not compared, see
    [sequence_numbers_not_compared]. *)
Theorem delivered_fragments_consistent s f s' i :
  recvframe_chk_defrag s = Ret (Some f, s') ->
  (mfrag (att s) <> 0 \/ frag_num (att s) <> 0) -> (mfrag (att s) = 0 \/ mfrag (att s) = 1) ->
  defrag_owner s = Ret (Some i) ->
  let e := sta_entry s i in
  let q := defrag_q (recvpriv e) ++ [set_keytrack (frm s) (sta_keytrack e)] in
  Forall frag_readable q ->
  IS_MCAST (ra (att s)) = false /\ mfrag (att s) = 0 /\ frags_consistent q /\
  exists g, recvframe_defrag q = Ret (Some g) /\
    mic_after_defrag (upd_entry s i (set_defrag_q e [])) (Some g) = Ret (Some f, s').
Proof.
  intros H Hfrag Hm Ho e q Hq. unfold recvframe_chk_defrag in H. rewrite Ho in H. cbn [mbind res_mbind] in H.
  fold (att s) in H. destruct (Z.eqb_spec (mfrag (att s)) 0) as [M|M], (Z.eqb_spec (frag_num (att s)) 0) as [N|N];
    cbn [andb negb] in H; [destruct Hfrag; done| | |].
  all: destruct (IS_MCAST (ra (att s))); [discriminate|].
  2,3: destruct Hm as [?|M1]; [done|]; rewrite M1 in H; discriminate.
  rewrite M in H. change (0 =? 1) with false in H. cbn match in H.
  match type of H with mbind _ ?m = _ => destruct m as [o| |] eqn:E; [|discriminate..] end. cbn [mbind res_mbind] in H.
  destruct o as [g|]; [|discriminate]. split_and!; auto; [by apply (defrag_consistent q g)|by exists g].
Qed.

(** ** Reassembly: what is built *)

(** A fragment: header and IV, body, integrity value. *)
Record piece := mk_piece { p_frame : recv_frame; p_hdr : bytes; p_body : bytes; p_icv : bytes }.

Definition piece_at (p : piece) (pre post : bytes) : Prop :=
  frame_win (p_frame p) pre (p_hdr p ++ p_body p ++ p_icv p) post /\
  zlen (p_hdr p) = hdrlen (attrib (p_frame p)) + iv_len (attrib (p_frame p)) /\ zlen (p_hdr p) < 256 /\
  zlen (p_icv p) = icv_len (attrib (p_frame p)).

Definition next_pn (f : recv_frame) (cur : Z) : Z := if has_pn f then u64 (cur + 1) else cur.

(** The pieces are numbered from [k], of key track [kt], their packet numbers
    follow [pn]. *)
Fixpoint follows (kt pn k : Z) (q : list piece) : Prop :=
  match q with
  | [] => True
  | p :: q =>
      let f := p_frame p in
      keytrack f = kt /\ frag_num (attrib f) = k /\ (has_pn f = true -> frag_pn f = Ret (u64 (pn + 1))) /\
      follows kt (next_pn f pn) (k + 1) q
  end.

Definition tail_size (q : list piece) : Z := foldr (fun p n => zlen (p_body p) + zlen (p_icv p) + n) 0 q.

(** The integrity value that ends up at the end. *)
Fixpoint last_icv (icv : bytes) (q : list piece) : bytes := match q with [] => icv | p :: q => last_icv (p_icv p) q end.

Lemma append_frag_holds pr pre body icv post n npre d npost :
  frame_win pr pre (body ++ icv) post -> zlen icv = icv_len (attrib pr) -> frame_win n npre d npost -> zlen d <= zlen post ->
  exists pr' post', append_frag pr n = Ret pr' /\ frame_win pr' pre (body ++ d) post' /\
    zlen post' = zlen icv + zlen post - zlen d /\
    attrib pr' = set_icv_len (attrib pr) (icv_len (attrib n)) /\ keytrack pr' = keytrack pr.
Proof.
  intros H Hi Hn Hd. destruct (fwin_pull_tail pr pre body icv post H) as (p1 & E1 & H1 & A1 & K1).
  unfold append_frag. rewrite <- Hi, E1. cbn [ignore_null default from_option id].
  rewrite (ho_mem n _ _ _ Hn), (ho_data n _ _ _ Hn), (ho_len n _ _ _ Hn), rd_slice_app, bind_Ret.
  set (k := length d). assert (icv ++ post = take k (icv ++ post) ++ drop k (icv ++ post)) as Es by (by rewrite take_drop).
  assert (k <= length (icv ++ post))%nat as Lk by (rewrite length_app; unfold zlen in Hd; lia).
  rewrite Es in H1. destruct (fwin_put p1 pre body _ _ d H1) as (p2 & E2 & E3 & H2 & A2 & K2); [rewrite length_take; lia|].
  rewrite E2, bind_Ret, E3. cbn [ignore_null default from_option id].
  eexists _, (drop k (icv ++ post)). split; [done|]. split_and!.
  - destruct H2. by split.
  - unfold zlen in *. rewrite length_drop, length_app. lia.
  - cbn [attrib set_attrib]. by rewrite A2, A1.
  - cbn [keytrack set_attrib]. by rewrite K2, K1.
Qed.

Lemma defrag_loop_assembles q pr pre body icv post pn k :
  frame_win pr pre (body ++ icv) post -> zlen icv = icv_len (attrib pr) -> 0 <= k -> k + zlen q < 256 ->
  follows (keytrack pr) pn k q -> Forall (fun p => exists a b, piece_at p a b) q -> tail_size q <= zlen post ->
  exists r post', defrag_loop pr pn k (p_frame <$> q) = Ret (Some r) /\
    frame_win r pre (body ++ concat (p_body <$> q) ++ last_icv icv q) post' /\
    attrib r = set_icv_len (attrib pr) (zlen (last_icv icv q)).
Proof.
  revert pr body icv post pn k. induction q as [|p q IH]; intros pr body icv post pn k H Hi Hk Hl Hf Hp Ht.
  { exists pr, post. cbn. split; [done|]. split; [done|]. rewrite Hi. by destruct (attrib pr). }
  apply Forall_cons_1 in Hp as [(a & b & (Hn & Zh & Zh' & Zi)) Hp]. destruct Hf as (Fk & Fn & Fp & Ff).
  cbn [fmap list_fmap defrag_loop tail_size foldr] in *. rewrite zlen_cons in Hl. pose proof (zlen_nonneg q).
  fold (tail_size q) in Ht. assert (0 <= tail_size q) as Tq.
  { clear. induction q as [|x q IH]; cbn; [lia|]. pose proof (zlen_nonneg (p_body x)). pose proof (zlen_nonneg (p_icv x)). fold (tail_size q). lia. }
  assert ((if has_pn (p_frame p) then pkt_pn ← frag_pn (p_frame p); Ret (if pkt_pn =? u64 (pn + 1) then Some pkt_pn else None)
            else Ret (Some pn)) = Ret (Some (next_pn (p_frame p) pn))) as ->.
  { unfold next_pn. destruct (has_pn (p_frame p)); [|done]. rewrite Fp, bind_Ret, Z.eqb_refl by done. done. }
  rewrite bind_Ret, Fk, Fn, !Z.eqb_refl. cbn [negb].
  destruct (fwin_pull (p_frame p) a (p_hdr p) _ b Hn) as (n' & E1 & W1 & A1 & _).
  pose proof (zlen_nonneg (p_hdr p)). rewrite <- Zh, u8_small, E1 by (unfold is_byte; lia). cbn [ignore_null default from_option id].
  rewrite (fwin_end pr _ _ _ H), (ho_len n' _ _ _ W1), zlen_app.
  destruct (Z.ltb_spec (zlen post) (zlen (p_body p) + zlen (p_icv p))); [lia|].
  destruct (append_frag_holds pr pre body icv post n' _ _ _ H Hi W1) as (pr' & post' & E2 & W2 & Z2 & A2 & K2); [rewrite zlen_app; lia|].
  rewrite E2, bind_Ret, u8_small by (unfold is_byte; lia). rewrite app_assoc in W2. rewrite zlen_app in Z2. pose proof (zlen_nonneg icv).
  destruct (IH pr' (body ++ p_body p) (p_icv p) post' (next_pn (p_frame p) pn) (k + 1)) as (r & pr2 & E3 & W3 & A3); auto; try lia.
  - rewrite A2, A1. done.
  - by rewrite K2.
  - exists r, pr2. split; [done|]. cbn [concat last_icv]. split; [by rewrite <- !app_assoc in *|]. rewrite A3, A2. done.
Qed.

(** C31: On the fragments of one frame (numbered from 0, one key track, packet
    numbers consecutive where the cipher has them) whose bodies fit behind the
    first one, [recvframe_defrag] delivers the first fragment's header and IV
    followed by all bodies in order and the integrity value of the last
    fragment, whose length it records. *)
Theorem defrag_assembles p0 q pre post pn :
  piece_at p0 pre post -> frag_num (attrib (p_frame p0)) = 0 ->
  (if has_pn (p_frame p0) then frag_pn (p_frame p0) = Ret pn else pn = 0) ->
  follows (keytrack (p_frame p0)) pn 1 q -> Forall (fun p => exists a b, piece_at p a b) q -> zlen q < 255 ->
  tail_size q <= zlen post ->
  exists r, recvframe_defrag (p_frame <$> p0 :: q) = Ret (Some r) /\
    payload_of r = p_hdr p0 ++ concat (p_body <$> p0 :: q) ++ last_icv (p_icv p0) q /\
    attrib r = set_icv_len (attrib (p_frame p0)) (zlen (last_icv (p_icv p0) q)).
Proof.
  intros (H & _ & _ & Zi) F0 Hpn Hf Hp Hl Ht. cbn [fmap list_fmap recvframe_defrag].
  assert ((if has_pn (p_frame p0) then frag_pn (p_frame p0) else Ret 0) = Ret pn) as -> by (destruct (has_pn (p_frame p0)); congruence).
  rewrite bind_Ret, F0. cbn [Z.eqb negb]. rewrite app_assoc in H.
  destruct (defrag_loop_assembles q (p_frame p0) pre (p_hdr p0 ++ p_body p0) (p_icv p0) post pn 1) as (r & post' & E & Hr & A); auto; try lia.
  exists r. split; [done|]. split; [|done]. rewrite (fwin_payload r _ _ _ Hr). cbn [concat]. by rewrite <- !app_assoc.
Qed.

(** A CCMP frame in two fragments with packet numbers 5 and 6. *)
Definition ex_frag (frag more pn : Z) (body room : bytes) : recv_frame :=
  let hdr := [0x08; 0x42; 0; 0] ++ ex_me ++ ex_ap ++ ex_ap ++ [0x10 + frag; 0] in
  let mem := hdr ++ [pn; 0; 0; 0x20; 0; 0; 0; 0] ++ body ++ replicate 8 0xee in
  mk_frame (mk_attrib 24 1 0 0 0 1 frag more 0 1 1 4 8 8 ex_me ex_ap ex_ap ex_me ex_ap 0 0)
    (mem ++ room) 0 (zlen mem) (zlen mem) 0.

Definition ex_piece (frag more pn : Z) (body room : bytes) : piece :=
  let f := ex_frag frag more pn body room in
  mk_piece f (take 32 (rx_mem f)) body (replicate 8 0xee).

Lemma defrag_assembles_witness :
  exists r, recvframe_defrag [ex_frag 0 1 5 [1; 2; 3] (replicate 40 0); ex_frag 1 0 6 [4; 5] []] = Ret (Some r) /\
    payload_of r = take 32 (rx_mem (ex_frag 0 1 5 [] [])) ++ [1; 2; 3; 4; 5] ++ replicate 8 0xee.
Proof.
  destruct (defrag_assembles (ex_piece 0 1 5 [1; 2; 3] (replicate 40 0)) [ex_piece 1 0 6 [4; 5] []] [] (replicate 40 0) 5) as (r & E & P & _).
  - split; [|split; [|split]]; [split|..]; reflexivity.
  - reflexivity.
  - reflexivity.
  - cbn [follows]. split; [|split; [|split]]; reflexivity || (intros _; reflexivity) || exact I.
  - apply Forall_cons_2; [|apply Forall_nil_2]. exists [], []. split; [|split; [|split]]; [split|..]; reflexivity.
  - reflexivity.
  - vm_compute. congruence.
  - exists r. split; [exact E|]. rewrite P. reflexivity.
Defined.

(** The same fragments through [recvframe_chk_defrag]. *)
Definition ex_state0 : rxs := mk_rxs ex_adapter (ex_frag 0 1 5 [1; 2; 3] (replicate 40 0)) [].
Definition ex_state1 : rxs :=
  match recvframe_chk_defrag ex_state0 with
  | Ret (_, s) => with_frm s (ex_frag 1 0 6 [4; 5] [])
  | _ => ex_state0
  end.

Lemma delivered_fragments_consistent_witness :
  exists f s' g, recvframe_chk_defrag ex_state1 = Ret (Some f, s') /\
    recvframe_defrag [ex_frag 0 1 5 [1; 2; 3] (replicate 40 0); ex_frag 1 0 6 [4; 5] []] = Ret (Some g) /\
    mic_after_defrag (upd_entry ex_state1 1 (set_defrag_q (sta_entry ex_state1 1) [])) (Some g) = Ret (Some f, s').
Proof.
  destruct (recvframe_chk_defrag ex_state1) as [[[f|] s']| |] eqn:E; [|vm_compute in E; discriminate..].
  destruct (delivered_fragments_consistent ex_state1 f s' 1 E) as (_ & _ & _ & g & G & D);
    [right; vm_compute; discriminate | left; vm_compute; reflexivity | vm_compute; reflexivity | | exists f, s', g; by split_and!].
  - assert (defrag_q (recvpriv (sta_entry ex_state1 1)) ++ [set_keytrack (frm ex_state1) (sta_keytrack (sta_entry ex_state1 1))]
      = [ex_frag 0 1 5 [1; 2; 3] (replicate 40 0); ex_frag 1 0 6 [4; 5] []]) as -> by reflexivity.
    apply Forall_cons_2; [|apply Forall_cons_2; [|apply Forall_nil_2]];
      (split; [cbn; lia | eexists; split; [vm_compute; reflexivity | lia]]).
Defined.

(** The sequence numbers of the fragments are not compared: two unencrypted
    fragments numbered 0 and 1 are put together whatever theirs are. *)
Lemma sequence_numbers_not_compared :
  let frag seq frag more body :=
    mk_frame (mk_attrib 24 1 0 0 0 seq frag more 0 0 1 0 0 0 ex_me ex_ap ex_ap ex_me ex_ap 0 0)
      (([0x08; 0x02; 0; 0] ++ ex_me ++ ex_ap ++ ex_ap ++ [Z.lor (Z.shiftl (Z.land seq 15) 4) frag; Z.shiftr seq 4])
        ++ body ++ replicate 8 0) 0 (24 + zlen body) (24 + zlen body) 0 in
  let q := [frag 7 0 1 [1; 2]; frag 9 1 0 [3; 4]] in
  (fun n => seq_num (attrib n)) <$> q = [7; 9] /\
  exists r, recvframe_defrag q = Ret (Some r) /\ drop 24 (payload_of r) = [1; 2; 3; 4].
Proof. split; [reflexivity|]. eexists. split; vm_compute; reflexivity. Qed.

(** ** Conversion to Ethernet *)

Lemma wr_slice_at pre c d c' i :
  i = zlen pre -> length c' = length c -> wr_slice (pre ++ c ++ d) i c' = Ret (pre ++ c' ++ d).
Proof. intros ->. apply wr_slice_app. Qed.

Lemma wr_eth f pre x12 d post a :
  frame_win f pre (x12 ++ d) post -> zlen x12 = 12 -> length (dst a) = 6%nat -> length (src a) = 6%nat ->
  (m ← wr_slice (rx_mem f) (rx_data f) (dst a); wr_slice m (rx_data f + 6) (src a)) = Ret (pre ++ (dst a ++ src a) ++ d ++ post).
Proof.
  intros [M D _ _ _] Z Ld Ls. rewrite M, D. assert (length x12 = 12%nat) as L12 by (unfold zlen in Z; lia).
  rewrite <- (take_drop 6 x12), <- !app_assoc.
  rewrite wr_slice_at by (try done; rewrite length_take; lia). rewrite bind_Ret, app_assoc.
  rewrite wr_slice_at; [by rewrite <- !app_assoc | rewrite zlen_app; unfold zlen; lia | rewrite length_drop; lia].
Qed.

(** The LLC parse on a message. *)
Definition llc_of (m : bytes) : bool :=
  match m with
  | a :: b :: c :: d :: e :: f :: t0 :: t1 :: _ =>
      let t := u16 (Z.lor (Z.shiftl t0 8) t1) in
      (bool_decide ([a; b; c; d; e; f] = rtw_rfc1042_header) && negb (t =? ETH_P_AARP) && negb (t =? ETH_P_IPX))
      || bool_decide ([a; b; c; d; e; f] = rtw_bridge_tunnel_header)
  | _ => false
  end.

Lemma llc_parse_spec pre m post : rtw_recv_llc_parse (pre ++ m ++ post) (zlen pre) (zlen m) = Ret (llc_of m).
Proof.
  unfold rtw_recv_llc_parse. do 8 (destruct m as [|? m]; [done|]).
  destruct (Z.ltb_spec (zlen (z :: z0 :: z1 :: z2 :: z3 :: z4 :: z5 :: z6 :: m)) 8) as [B|_].
  { rewrite !zlen_cons in B. pose proof (zlen_nonneg m). lia. }
  assert (forall k x l1 l2, [z; z0; z1; z2; z3; z4; z5; z6] = l1 ++ x :: l2 -> zlen l1 = k ->
    rd (pre ++ (z :: z0 :: z1 :: z2 :: z3 :: z4 :: z5 :: z6 :: m) ++ post) (zlen pre + k) = Ret x) as R.
  { intros k x l1 l2 E K. change (z :: z0 :: z1 :: z2 :: z3 :: z4 :: z5 :: z6 :: m) with ([z; z0; z1; z2; z3; z4; z5; z6] ++ m).
    rewrite E, <- !app_assoc, app_assoc. rewrite rd_app_r by (rewrite zlen_app; lia). rewrite zlen_app. 
    replace (zlen pre + k - (zlen pre + zlen l1)) with 0 by lia. reflexivity. }
  unfold be16_get, SNAP_SIZE. rewrite (R 6 z5 [z; z0; z1; z2; z3; z4] [z6]), bind_Ret by done.
  replace (zlen pre + 6 + 1) with (zlen pre + 7) by lia. rewrite (R 7 z6 [z; z0; z1; z2; z3; z4; z5] []), bind_Ret, bind_Ret by done.
  unfold rtw_memcmp.
  assert (rd_slice (pre ++ (z :: z0 :: z1 :: z2 :: z3 :: z4 :: z5 :: z6 :: m) ++ post) (zlen pre) 6 = Ret [z; z0; z1; z2; z3; z4]) as S.
  { change (z :: z0 :: z1 :: z2 :: z3 :: z4 :: z5 :: z6 :: m) with ([z; z0; z1; z2; z3; z4] ++ z5 :: z6 :: m). rewrite <- app_assoc.
    exact (rd_slice_app pre [z; z0; z1; z2; z3; z4] ((z5 :: z6 :: m) ++ post)). }
  change (Z.of_nat (length rtw_rfc1042_header)) with 6. change (Z.of_nat (length rtw_bridge_tunnel_header)) with 6.
  rewrite S, !bind_Ret. done.
Qed.

(** Pulling [a] and writing the addresses over the next twelve bytes. *)
Lemma eth_rewrite f pre a y d post t :
  frame_win f pre (a ++ y ++ d) post -> zlen y = 12 -> length (dst t) = 6%nat -> length (src t) = 6%nat ->
  exists f2 m, recvframe_pull f (zlen a) = Some f2 /\ rx_data f2 = zlen (pre ++ a) /\
    (m ← wr_slice (rx_mem f2) (rx_data f2) (dst t); wr_slice m (rx_data f2 + 6) (src t)) = Ret m /\
    frame_win (set_mem f2 m) (pre ++ a) ((dst t ++ src t) ++ d) post.
Proof.
  intros W Zy Ld Ls. destruct (fwin_pull f pre a _ _ W) as (f2 & E2 & W2 & _).
  exists f2, ((pre ++ a) ++ (dst t ++ src t) ++ d ++ post). split; [done|]. split; [apply W2|].
  split; [by apply (wr_eth f2 _ y)|]. destruct W2 as [M D T L S].
  assert (zlen (dst t) = 6 /\ zlen (src t) = 6) as [] by (unfold zlen; lia). rewrite !zlen_app in *.
  split; cbn [rx_mem rx_data rx_tail len set_mem]; rewrite ?zlen_app in *; try lia. by rewrite <- !app_assoc.
Qed.

(** The last [n] bytes of the header, which the conversion overwrites. *)
Lemma hdr_split (hdr : bytes) n : 0 <= n <= zlen hdr -> exists a x, hdr = a ++ x /\ zlen a = zlen hdr - n /\ zlen x = n.
Proof.
  intros H. exists (take (Z.to_nat (zlen hdr - n)) hdr), (drop (Z.to_nat (zlen hdr - n)) hdr). rewrite take_drop.
  split; [done|]. unfold zlen in *. rewrite length_take, length_drop. lia.
Qed.

(** The integrity value of an encrypted frame is dropped first. *)
Lemma eth_strip_icv f pre d icv post :
  frame_win f pre (d ++ icv) post -> zlen icv = (if encrypt (attrib f) =? 0 then 0 else icv_len (attrib f)) ->
  frame_win (if encrypt (attrib f) =? 0 then f else ignore_null f (recvframe_pull_tail f (icv_len (attrib f)))) pre d (icv ++ post).
Proof.
  intros W Zi. destruct (encrypt (attrib f) =? 0).
  - assert (icv = []) as -> by (destruct icv; [done | rewrite zlen_cons in Zi; pose proof (zlen_nonneg icv); lia]).
    by rewrite app_nil_r in W.
  - destruct (fwin_pull_tail f pre _ icv post W) as (f1 & E & W1 & _). by rewrite <- Zi, E.
Qed.

Lemma eth_llc f pre hdr m6 rest icv post :
  frame_win f pre (hdr ++ (m6 ++ rest) ++ icv) post ->
  zlen hdr = hdrlen (attrib f) + iv_len (attrib f) -> 24 <= zlen hdr -> zlen m6 = 6 ->
  zlen icv = (if encrypt (attrib f) =? 0 then 0 else icv_len (attrib f)) ->
  length (dst (attrib f)) = 6%nat -> length (src (attrib f)) = 6%nat ->
  exists f' pre', wlanhdr_to_ethhdr f true = Ret (_SUCCESS, f') /\
    frame_win f' pre' ((dst (attrib f) ++ src (attrib f)) ++ rest) (icv ++ post).
Proof.
  intros W Zh Hh Z6 Zi Ld Ls. rewrite app_assoc in W. pose proof (eth_strip_icv f pre _ icv post W Zi) as W1.
  unfold wlanhdr_to_ethhdr. rewrite <- Zh. set (f1 := if encrypt (attrib f) =? 0 then f else _) in *. clearbody f1.
  destruct (hdr_split hdr 6) as (a & x & Eh & Za & Zx); [lia|].
  assert (frame_win f1 pre (a ++ (x ++ m6) ++ rest) (icv ++ post)) as W2 by (rewrite Eh in W1; by rewrite <- !app_assoc in *).
  destruct (eth_rewrite f1 pre a (x ++ m6) rest _ (attrib f) W2) as (f2 & m & E2 & D2 & E3 & W3); [rewrite zlen_app; lia | done | done |].
  unfold SNAP_SIZE. replace (zlen hdr + 6 - 14 + 2) with (zlen a) by lia. rewrite E2.
  destruct (wr_slice (rx_mem f2) (rx_data f2) (dst (attrib f))) as [m'| |]; [|discriminate..].
  rewrite bind_Ret in E3. rewrite bind_Ret, E3, !bind_Ret. by eexists _, (pre ++ a).
Qed.

Lemma eth_plain f pre hdr msg icv post :
  frame_win f pre (hdr ++ msg ++ icv) post ->
  zlen hdr = hdrlen (attrib f) + iv_len (attrib f) -> 24 <= zlen hdr ->
  zlen icv = (if encrypt (attrib f) =? 0 then 0 else icv_len (attrib f)) ->
  length (dst (attrib f)) = 6%nat -> length (src (attrib f)) = 6%nat ->
  exists f' pre', wlanhdr_to_ethhdr f false = Ret (_SUCCESS, f') /\
    frame_win f' pre' ((dst (attrib f) ++ src (attrib f)) ++
      [Z.shiftr (u16 (zlen msg)) 8; Z.land (u16 (zlen msg)) 255] ++ msg) (icv ++ post).
Proof.
  intros W Zh Hh Zi Ld Ls. rewrite app_assoc in W. pose proof (eth_strip_icv f pre _ icv post W Zi) as W1.
  unfold wlanhdr_to_ethhdr. rewrite <- Zh. set (f1 := if encrypt (attrib f) =? 0 then f else _) in *. clearbody f1.
  destruct (hdr_split hdr 14) as (a & x & Eh & Za & Zx); [lia|].
  destruct (hdr_split x 2) as (y & z & Ex & Zy & Zz); [lia|].
  assert (frame_win f1 pre (a ++ y ++ z ++ msg) (icv ++ post)) as W2 by (rewrite Eh, Ex in W1; by rewrite <- !app_assoc in *).
  destruct (eth_rewrite f1 pre a y (z ++ msg) _ (attrib f) W2) as (f2 & m & E2 & D2 & E3 & W3); [lia | done | done |].
  replace (zlen hdr + 0 - 14 + 0) with (zlen a) by lia. rewrite E2.
  destruct (wr_slice (rx_mem f2) (rx_data f2) (dst (attrib f))) as [m'| |]; [|discriminate..].
  rewrite bind_Ret in E3. rewrite bind_Ret, E3, bind_Ret.
  replace (len f1 - (zlen hdr + 0)) with (zlen msg) by (rewrite (ho_len f1 _ _ _ W1), zlen_app; lia).
  set (two := [Z.shiftr (u16 (zlen msg)) 8; Z.land (u16 (zlen msg)) 255]). assert (zlen two = 2) as Z2 by done. clearbody two.
  destruct W3 as [M3 D3 T3 L3 S3]. cbn [rx_mem rx_data rx_tail len set_mem] in *.
  assert (zlen (dst (attrib f)) = 6 /\ zlen (src (attrib f)) = 6) as [] by (unfold zlen; lia).
  rewrite M3, <- !app_assoc, app_assoc, app_assoc, (app_assoc _ (src (attrib f))).
  rewrite wr_slice_at; [|rewrite D2, !zlen_app; lia | unfold zlen in *; lia].
  rewrite bind_Ret. eexists _, (pre ++ a). split; [done|]. rewrite !zlen_app in *.
  split; cbn [rx_mem rx_data rx_tail len set_mem]; rewrite ?zlen_app in *; try lia. by rewrite <- !app_assoc.
Qed.

(** C32: A decrypted data frame is converted as the LLC parse decides: with an
    RFC 1042 or bridge-tunnel header (and not AARP or IPX under RFC 1042) the
    window becomes destination, source, the type field and the rest of the
    message; otherwise destination, source, the 16-bit big-endian length of
    the message and the whole message.  Header, IV and integrity value are
    gone in both cases, and the bytes behind the frame are untouched. *)
Theorem ethernet_conversion f pre hdr msg icv post :
  frame_win f pre (hdr ++ msg ++ icv) post ->
  zlen hdr = hdrlen (attrib f) + iv_len (attrib f) -> 24 <= zlen hdr ->
  zlen icv = (if encrypt (attrib f) =? 0 then 0 else icv_len (attrib f)) ->
  length (dst (attrib f)) = 6%nat -> length (src (attrib f)) = 6%nat ->
  exists llc f' pre', rtw_recv_llc_parse (rx_mem f) (rx_data f + zlen hdr) (zlen msg) = Ret llc /\ llc = llc_of msg /\
    wlanhdr_to_ethhdr f llc = Ret (_SUCCESS, f') /\
    frame_win f' pre' ((dst (attrib f) ++ src (attrib f)) ++
      (if llc then drop 6 msg else [Z.shiftr (u16 (zlen msg)) 8; Z.land (u16 (zlen msg)) 255] ++ msg)) (icv ++ post).
Proof.
  intros W Zh Hh Zi Ld Ls. exists (llc_of msg).
  assert (rtw_recv_llc_parse (rx_mem f) (rx_data f + zlen hdr) (zlen msg) = Ret (llc_of msg)) as P.
  { rewrite (ho_mem f _ _ _ W), (ho_data f _ _ _ W), <- zlen_app, <- !app_assoc, (app_assoc pre). apply llc_parse_spec. }
  destruct (llc_of msg) eqn:E.
  - assert (exists m6 rest, msg = m6 ++ rest /\ zlen m6 = 6 /\ rest = drop 6 msg) as (m6 & rest & Em & Z6 & Er).
    { do 8 (destruct msg as [|? msg]; [discriminate|]). by exists [z; z0; z1; z2; z3; z4], (z5 :: z6 :: msg). }
    rewrite <- Er. rewrite Em in W. destruct (eth_llc f pre hdr m6 rest icv post) as (f' & pre' & E1 & W1); auto.
    exists f', pre'. auto.
  - destruct (eth_plain f pre hdr msg icv post) as (f' & pre' & E1 & W1); auto. exists f', pre'. auto.
Qed.

(** An IPv4 message of six bytes behind a CCMP header. *)
Lemma ethernet_conversion_witness :
  let f := ex_frag 0 0 5 [0xaa; 0xaa; 3; 0; 0; 0; 8; 0; 1; 2; 3; 4; 5; 6] [] in
  exists llc f' pre', wlanhdr_to_ethhdr f llc = Ret (_SUCCESS, f') /\ llc = true /\
    frame_win f' pre' ((ex_me ++ ex_ap) ++ [8; 0; 1; 2; 3; 4; 5; 6]) (replicate 8 0xee ++ []).
Proof.
  intros f.
  destruct (ethernet_conversion f [] (take 32 (rx_mem f)) [0xaa; 0xaa; 3; 0; 0; 0; 8; 0; 1; 2; 3; 4; 5; 6] (replicate 8 0xee) [])
    as (llc & f' & pre' & _ & El & E & W); [split; reflexivity | reflexivity | vm_compute; congruence | reflexivity.. |].
  exists llc, f', pre'. split; [done|]. assert (llc = true) as -> by (rewrite El; reflexivity). done.
Defined.

(** The length of the data under the MIC is computed in 32 unsigned bits
    with no check: for every TKIP frame of a known station that is shorter
    than its header, IV, integrity value and MIC together, the computation
    runs past the end of the receive buffer. *)
Theorem chkmic_short_frame_overruns s i :
  encrypt (att s) = _TKIP_ -> get_sta s (ta (att s)) = Some i ->
  (IS_MCAST (ra (att s)) = true -> binstallGrpkey (keys (securitypriv (adp s))) = true) ->
  frame_wf (frm s) -> rx_end (frm s) < 2 ^ 31 ->
  0 <= hdrlen (att s) < 256 -> 0 <= iv_len (att s) < 256 -> 0 <= icv_len (att s) < 256 ->
  len (frm s) < hdrlen (att s) + iv_len (att s) + icv_len (att s) + 8 ->
  recvframe_chkmic s = Oob.
Proof.
  intros He Hs Hg [W1 W2 W3 W4 W5] Hend Hh Hi Hc Hl. unfold recvframe_chkmic. rewrite He, Hs. cbn [Z.eqb Pos.eqb _TKIP_].
  assert (IS_MCAST (ra (att s)) && negb (binstallGrpkey (keys (securitypriv (adp s)))) = false) as ->.
  { destruct (IS_MCAST (ra (att s))); [|done]. by rewrite Hg. }
  set (d := len (frm s) - hdrlen (att s) - iv_len (att s) - icv_len (att s) - 8).
  assert (u32 d = d + 4294967296) as Ed by (unfold u32; symmetry; apply (Z.mod_unique _ _ (-1)); lia).
  unfold rx_end in *. rewrite (rd_slice_ok (rx_mem (frm s)) (rx_data (frm s))), bind_Ret by lia.
  rewrite Ed, (rd_slice_Oob _ (rx_data (frm s) + hdrlen (att s) + iv_len (att s))) by lia. reflexivity.
Qed.

Lemma chkmic_short_frame_overruns_witness :
  let mem := replicate 40 0 in
  let a := mk_attrib 24 1 0 0 0 1 0 0 0 1 1 2 8 4 ex_me ex_ap ex_ap ex_me ex_ap 0 0 in
  recvframe_chkmic (mk_rxs ex_adapter (mk_frame a mem 0 40 40 0) []) = Oob.
Proof.
  intros mem a. apply (chkmic_short_frame_overruns _ 1); try reflexivity; try (vm_compute; congruence); try (cbn; lia).
  split; vm_compute; congruence.
Defined.
