(* ===== verification/Ie.v ===== *)
(** * Information elements (core/rtw_ieee80211.c)

    Searching, writing and removing the type-length-value elements of
    management frames.  A pointer into a buffer is an offset, [NULL] is [None];
    a read outside the buffer is [Oob].  The abstract view of a buffer is the
    list of its elements: the theorems relate each routine to the operation on
    that list, and say exactly how far a search may read. *)

From S2P Require Import Prelude.

(** ** Constants (include/wifi.h, include/ieee80211.h, include/wlan_bssdef.h) *)

Definition WLAN_EID_VENDOR_SPECIFIC : Z := 221.
Definition WLAN_EID_EXTENSION : Z := 255.
Definition WLAN_EID_EXT_OWE_DH_PARAM : Z := 32.
Definition WLAN_EID_CHANNEL_SWITCH : Z := 37.
Definition WLAN_EID_SECONDARY_CHANNEL_OFFSET : Z := 62.
Definition _WPA_IE_ID_ : Z := 0xdd.
Definition _WPA2_IE_ID_ : Z := 0x30.
Definition MAX_IE_SZ : Z := 768.

(** ** Writing elements *)

(** The buffer, the pointer returned and the new [*frlen]. *)
Definition rtw_set_fixed_ie (b : bytes) (pbuf len : Z) (source : bytes) (frlen : Z) : res (bytes * Z * Z) :=
  s ← rd_slice source 0 len;
  b ← wr_slice b pbuf s;
  Ret (b, pbuf + len, u32 (frlen + len)).

Definition rtw_set_ie (b : bytes) (pbuf index len : Z) (source : bytes) (frlen : Z) : res (bytes * Z * Z) :=
  b ← wr b pbuf (u8 index);
  b ← wr b (pbuf + 1) (u8 len);
  s ← rd_slice source 0 len;
  b ← wr_slice b (pbuf + 2) s;
  Ret (b, pbuf + len + 2, u32 (frlen + (len + 2))).

Definition rtw_set_ie_ch_switch (b : bytes) (buf ch_switch_mode new_ch ch_switch_cnt buf_len : Z) : res (bytes * Z * Z) :=
  rtw_set_ie b buf WLAN_EID_CHANNEL_SWITCH 3 [ch_switch_mode; new_ch; ch_switch_cnt] buf_len.

Definition SCN : Z := 0.
Definition SCA : Z := 1.
Definition SCB : Z := 3.

Definition secondary_ch_offset_to_hal_ch_offset (ch_offset : Z) : Z :=
  if ch_offset =? SCN then 0
  else if ch_offset =? SCA then 1
  else if ch_offset =? SCB then 2
  else 0.

Definition hal_ch_offset_to_secondary_ch_offset (ch_offset : Z) : Z :=
  if ch_offset =? 0 then SCN
  else if ch_offset =? 1 then SCA
  else if ch_offset =? 2 then SCB
  else SCN.

Definition rtw_set_ie_secondary_ch_offset (b : bytes) (buf secondary_ch_offset buf_len : Z) : res (bytes * Z * Z) :=
  rtw_set_ie b buf WLAN_EID_SECONDARY_CHANNEL_OFFSET 1 [secondary_ch_offset] buf_len.

Definition rtw_set_ie_mesh_ch_switch_parm (b : bytes) (buf ttl flags reason precedence buf_len : Z) : res (bytes * Z * Z) :=
  rtw_set_ie b buf 0x118 6 ([ttl; flags] ++ le_split 2 reason ++ le_split 2 precedence) buf_len.

(** ** Searching *)

(** The [while (1)] loop of [rtw_get_ie]; [i] is the distance from [pbuf]. *)
Fixpoint get_ie_loop (fuel : nat) (b : bytes) (pbuf index limit i : Z) : res (option Z * Z) :=
  match fuel with
  | O => NoFuel
  | S fuel =>
      x ← rd b (pbuf + i);
      if (x : Z) =? index then
        l ← rd b (pbuf + i + 1);
        Ret (Some (pbuf + i), l)
      else
        tmp ← rd b (pbuf + i + 1);
        let i := i + (tmp + 2) in
        if limit <=? i then Ret (None, 0)
        else get_ie_loop fuel b pbuf index limit i
  end.

(** The element and the new [*len] (untouched when [limit < 1]).  The distance
    grows by at least two in every round. *)
Definition rtw_get_ie (b : bytes) (pbuf index len limit : Z) : res (option Z * Z) :=
  if limit <? 1 then Ret (None, len)
  else get_ie_loop (Z.to_nat limit) b pbuf index limit 0.

(** [_rtw_memcmp(buf + i, oui, oui_len)], true for a missing [oui]. *)
Definition oui_matches (b : bytes) (i : Z) (oui : option bytes) : res bool :=
  match oui with None => Ret true | Some o => rtw_memcmp b i o end.

(** The loop of [rtw_get_ie_ex]. *)
Fixpoint get_ie_ex_loop (fuel : nat) (b : bytes) (in_ie in_len eid : Z) (oui : option bytes) (cnt : Z)
    : res (option (Z * Z)) :=
  match fuel with
  | O => NoFuel
  | S fuel =>
      if in_len <=? cnt then Ret None
      else
        x ← rd b (in_ie + cnt);
        hit ← (if (x : Z) =? eid then oui_matches b (in_ie + cnt + 2) oui else Ret false);
        l ← rd b (in_ie + cnt + 1);
        if (hit : bool) then Ret (Some (in_ie + cnt, l + 2))
        else get_ie_ex_loop fuel b in_ie in_len eid oui (u32 (cnt + l + 2))
  end.

(** The element found with [*ielen]; the copy to [ie] is [rd_slice] of it. *)
Definition rtw_get_ie_ex (b : bytes) (in_ie in_len eid : Z) (oui : option bytes) : res (option (Z * Z)) :=
  if in_len <=? 0 then Ret None
  else get_ie_ex_loop (S (Z.to_nat in_len)) b in_ie in_len eid oui 0.

(** The loop of [rtw_ies_remove_ie]; the result is the buffer, [*ies_len] and
    whether an element was removed. *)
Fixpoint remove_ie_loop (fuel : nat) (b : bytes) (ies_len start search_len eid : Z) (oui : option bytes) (ret : Z)
    : res (bytes * Z * Z) :=
  match fuel with
  | O => NoFuel
  | S fuel =>
      t ← rtw_get_ie_ex b start search_len eid oui;
      match (t : option (Z * Z)) with
      | None => Ret (b, ies_len, ret)
      | Some (target_ie, target_ielen) =>
          let remain_ies := target_ie + target_ielen in
          let remain_len := u32 (search_len - (remain_ies - start)) in
          s ← rd_slice b remain_ies remain_len;
          b ← wr_slice b target_ie s;
          remove_ie_loop fuel b (u32 (ies_len - target_ielen)) target_ie remain_len eid oui _SUCCESS
      end
  end.

(** Buffer, new length and return value; each round shortens the rest. *)
Definition rtw_ies_remove_ie (b : bytes) (ies_len offset eid : Z) (oui : option bytes) : res (bytes * Z * Z) :=
  if ies_len <=? offset then Ret (b, ies_len, _FAIL)
  else remove_ie_loop (S (Z.to_nat (ies_len - offset))) b ies_len offset (ies_len - offset) eid oui _FAIL.

(** ** WPA, WPS and OWE elements *)

(** The loop of [rtw_get_wpa_ie]; [pbuf] is the current start. *)
Fixpoint get_wpa_ie_loop (fuel : nat) (b : bytes) (pie limit pbuf limit_new : Z) : res (option Z * Z) :=
  match fuel with
  | O => NoFuel
  | S fuel =>
      r ← rtw_get_ie b pbuf _WPA_IE_ID_ 0 limit_new;
      match (r : option Z * Z) with
      | (None, _) => Ret (None, 0)
      | (Some p, len) =>
          oui ← rtw_memcmp b (p + 2) [0x00; 0x50; 0xf2; 0x01];
          ok ← (if (oui : bool) then v ← le16_get b (p + 6); Ret ((v : Z) =? 1) else Ret false);
          if (ok : bool) then Ret (Some p, len)
          else
            let limit_new := limit - (p - pie) - 2 - len in
            if limit_new <=? 0 then Ret (None, 0)
            else get_wpa_ie_loop fuel b pie limit (p + (2 + len)) limit_new
      end
  end.

Definition rtw_get_wpa_ie (b : bytes) (pie limit : Z) : res (option Z * Z) :=
  get_wpa_ie_loop (S (Z.to_nat limit)) b pie limit pie limit.

Definition rtw_get_wpa2_ie (b : bytes) (pie rsn_ie_len limit : Z) : res (option Z * Z) :=
  rtw_get_ie b pie _WPA2_IE_ID_ rsn_ie_len limit.

Definition wps_oui : bytes := [0x00; 0x50; 0xf2; 0x04].

(** The length of the WPS element, [None] when the return value is [_FALSE]. *)
Definition rtw_is_wps_ie (b : bytes) (ie_ptr : option Z) : res (option Z) :=
  match ie_ptr with
  | None => Ret None
  | Some p =>
      eid ← rd b p;
      if (eid : Z) =? _WPA_IE_ID_ then
        m ← rtw_memcmp b (p + 2) wps_oui;
        if (m : bool) then l ← rd b (p + 1); Ret (Some (l + 2)) else Ret None
      else Ret None
  end.

(** The two searches that stop when fewer than six bytes are left. *)
Fixpoint get_vendor_loop (fuel : nat) (test : bytes -> Z -> res bool) (b : bytes) (in_ie in_len cnt : Z)
    : res (option (Z * Z)) :=
  match fuel with
  | O => NoFuel
  | S fuel =>
      if in_len <=? cnt + 1 + 4 then Ret None
      else
        eid ← rd b (in_ie + cnt);
        if MAX_IE_SZ <=? cnt + 1 + 4 then Ret None
        else
          m ← test b (in_ie + cnt);
          l ← rd b (in_ie + cnt + 1);
          if (m : bool) then Ret (Some (in_ie + cnt, l + 2))
          else get_vendor_loop fuel test b in_ie in_len (u32 (cnt + l + 2))
  end.

Definition is_wps_at (b : bytes) (p : Z) : res bool :=
  eid ← rd b p;
  if (eid : Z) =? WLAN_EID_VENDOR_SPECIFIC then rtw_memcmp b (p + 2) wps_oui else Ret false.

Definition is_owe_at (b : bytes) (p : Z) : res bool :=
  eid ← rd b p;
  if (eid : Z) =? WLAN_EID_EXTENSION then x ← rd b (p + 2); Ret ((x : Z) =? WLAN_EID_EXT_OWE_DH_PARAM) else Ret false.

(** The element found with its length, [None] when there is none. *)
Definition rtw_get_wps_ie (b : bytes) (in_ie : option Z) (in_len : Z) : res (option (Z * Z)) :=
  match in_ie with
  | None => Ret None
  | Some p =>
      if in_len <=? 0 then Ret None
      else get_vendor_loop (S (Z.to_nat in_len)) is_wps_at b p in_len 0
  end.

Definition rtw_get_owe_ie (b : bytes) (in_ie : option Z) (in_len : Z) : res (option (Z * Z)) :=
  match in_ie with
  | None => Ret None
  | Some p =>
      if in_len <=? 0 then Ret None
      else get_vendor_loop (S (Z.to_nat in_len)) is_owe_at b p in_len 0
  end.

Inductive bss_type := BSS_TYPE_UNDEF | BSS_TYPE_PROB_REQ | BSS_TYPE_BCN | BSS_TYPE_PROB_RSP.

Definition rtw_get_wps_ie_from_scan_queue (b : bytes) (in_ie in_len : Z) (frame_type : bss_type)
    : res (option (Z * Z)) :=
  match frame_type with
  | BSS_TYPE_BCN | BSS_TYPE_PROB_RSP => rtw_get_wps_ie b (Some (in_ie + 12)) (u32 (in_len - 12))
  | BSS_TYPE_PROB_REQ => rtw_get_wps_ie b (Some (in_ie + 0)) (u32 (in_len - 0))
  | BSS_TYPE_UNDEF => Ret None
  end.

(** The attribute loop; [attr_ptr] is the distance from [wps_ie].  The
    attribute length is a [u16], so it wraps for the four largest data
    lengths. *)
Fixpoint get_wps_attr_loop (fuel : nat) (b : bytes) (wps_ie wps_ielen target_attr_id attr_ptr : Z)
    : res (option (Z * Z)) :=
  match fuel with
  | O => NoFuel
  | S fuel =>
      if wps_ielen <=? attr_ptr then Ret None
      else
        attr_id ← be16_get b (wps_ie + attr_ptr);
        attr_data_len ← be16_get b (wps_ie + attr_ptr + 2);
        let attr_len := u16 (attr_data_len + 4) in
        if (attr_id : Z) =? target_attr_id then Ret (Some (wps_ie + attr_ptr, attr_len))
        else get_wps_attr_loop fuel b wps_ie wps_ielen target_attr_id (attr_ptr + attr_len)
  end.

(** The attribute found with its length.  [fuel] bounds the loop, which need
    not terminate on its own. *)
Definition rtw_get_wps_attr (fuel : nat) (b : bytes) (wps_ie wps_ielen target_attr_id : Z) : res (option (Z * Z)) :=
  eid ← rd b wps_ie;
  if negb ((eid : Z) =? WLAN_EID_VENDOR_SPECIFIC) then Ret None
  else
    m ← rtw_memcmp b (wps_ie + 2) wps_oui;
    if negb (m : bool) then Ret None
    else get_wps_attr_loop fuel b wps_ie wps_ielen target_attr_id 6.

(** The content pointer and [*len_content] for a call without a copy buffer. *)
Definition rtw_get_wps_attr_content (fuel : nat) (b : bytes) (wps_ie wps_ielen target_attr_id : Z)
    : res (option Z * Z) :=
  r ← rtw_get_wps_attr fuel b wps_ie wps_ielen target_attr_id;
  match (r : option (Z * Z)) with
  | Some (attr_ptr, attr_len) =>
      if negb (attr_len =? 0) then Ret (Some (attr_ptr + 4), u32 (attr_len - 4)) else Ret (None, 0)
  | None => Ret (None, 0)
  end.

(** ** Buffers as lists of elements *)

Definition tlv : Type := Z * bytes.

Definition tlv_ok (t : tlv) : Prop := is_byte (fst t) /\ zlen (snd t) < 256.

Definition enc1 (t : tlv) : bytes := fst t :: zlen (snd t) :: snd t.
Definition encode (ts : list tlv) : bytes := concat (map enc1 ts).

(** The first element with the given id: position and length, from [pos]. *)
Fixpoint find_eid (eid pos : Z) (ts : list tlv) : option (Z * Z) :=
  match ts with
  | [] => None
  | t :: ts => if fst t =? eid then Some (pos, zlen (snd t)) else find_eid eid (pos + zlen (enc1 t)) ts
  end.

Lemma encode_cons t ts : encode (t :: ts) = enc1 t ++ encode ts.
Proof. reflexivity. Qed.

Lemma encode_app ts us : encode (ts ++ us) = encode ts ++ encode us.
Proof. unfold encode. by rewrite map_app, concat_app. Qed.

Lemma zlen_enc1 t : zlen (enc1 t) = zlen (snd t) + 2.
Proof. unfold enc1. rewrite !zlen_cons. lia. Qed.

Lemma zlen_encode_cons t ts : zlen (encode (t :: ts)) = zlen (snd t) + 2 + zlen (encode ts).
Proof. rewrite encode_cons, zlen_app, zlen_enc1. lia. Qed.

Lemma encode_length_ge ts : 2 * Z.of_nat (length ts) <= zlen (encode ts).
Proof.
  induction ts as [|t ts IH]; [unfold zlen; simpl; lia|].
  rewrite zlen_encode_cons. cbn [length]. pose proof (zlen_nonneg (snd t)). lia.
Qed.

(** Reading the header of the element at the end of a prefix. *)
Lemma rd_enc1_id pre t post : rd (pre ++ enc1 t ++ post) (zlen pre) = Ret (fst t).
Proof.
  pose proof (zlen_nonneg pre). rewrite rd_app_r, Z.sub_diag by lia. reflexivity.
Qed.

Lemma rd_enc1_len pre t post : rd (pre ++ enc1 t ++ post) (zlen pre + 1) = Ret (zlen (snd t)).
Proof.
  pose proof (zlen_nonneg pre). rewrite rd_app_r by lia.
  replace (zlen pre + 1 - zlen pre) with 1 by lia. reflexivity.
Qed.

(** The search loop on a well-formed buffer. *)
Lemma get_ie_loop_tlvs ts t fuel b pre post pbuf index limit i :
  b = pre ++ encode (t :: ts) ++ post -> pbuf + i = zlen pre ->
  i + zlen (encode (t :: ts)) = limit -> (length ts < fuel)%nat ->
  get_ie_loop fuel b pbuf index limit i
  = Ret (match find_eid index (zlen pre) (t :: ts) with Some (p, l) => (Some p, l) | None => (None, 0) end).
Proof.
  revert t fuel b pre i. induction ts as [|u ts IH]; intros t fuel b pre i -> Hp Hl Hf; (destruct fuel as [|fuel]; [lia|]);
    cbn [get_ie_loop find_eid]; rewrite Hp, encode_cons, <- app_assoc, rd_enc1_id, rd_enc1_len, !bind_Ret;
    (destruct (fst t =? index); [done|]); rewrite zlen_encode_cons in Hl.
  - change (zlen (encode [])) with 0 in Hl. destruct (Z.leb_spec limit (i + (zlen (snd t) + 2))); [done|lia].
  - pose proof (encode_length_ge (u :: ts)). cbn [length] in *.
    destruct (Z.leb_spec limit (i + (zlen (snd t) + 2))); [lia|].
    rewrite (IH u fuel _ (pre ++ enc1 t)).
    + by rewrite zlen_app.
    + by rewrite <- app_assoc.
    + rewrite zlen_app, zlen_enc1. lia.
    + lia.
    + lia.
Qed.

(** On a buffer that holds a sequence of elements, [rtw_get_ie] with the
    length of the sequence as limit returns the first element with the
    requested id and its length, or [NULL] and 0 when there is none. *)
Theorem get_ie_finds_first pre ts post index len :
  ts <> [] ->
  rtw_get_ie (pre ++ encode ts ++ post) (zlen pre) index len (zlen (encode ts))
  = Ret (match find_eid index (zlen pre) ts with Some (p, l) => (Some p, l) | None => (None, 0) end).
Proof.
  intros Hne. destruct ts as [|t ts]; [done|]. unfold rtw_get_ie.
  pose proof (encode_length_ge (t :: ts)) as Hg. cbn [length] in Hg.
  destruct (Z.ltb_spec (zlen (encode (t :: ts))) 1); [lia|].
  apply get_ie_loop_tlvs with (post := post); [done|lia|lia|lia].
Qed.

Lemma get_ie_finds_first_witness :
  rtw_get_ie ([9] ++ encode [(0, [65; 66]); (1, [2; 4; 11])] ++ [7]) 1 1 0 9 = Ret (Some 5, 3).
Proof. apply (get_ie_finds_first [9] [(0, [65; 66]); (1, [2; 4; 11])] [7] 1 0). discriminate. Defined.

(** The loop on arbitrary contents. *)
Lemma get_ie_loop_safe fuel b pbuf index limit i :
  bytes_ok b -> 0 <= pbuf -> 0 <= i < limit -> limit - i <= Z.of_nat fuel -> pbuf + limit + 1 <= zlen b ->
  exists r, get_ie_loop fuel b pbuf index limit i = Ret r /\
    forall p, fst r = Some p -> pbuf + i <= p < pbuf + limit /\ rd b p = Ret index /\ rd b (p + 1) = Ret (snd r).
Proof.
  intros Hb Hp. revert i. induction fuel as [|fuel IH]; intros i Hi Hf Hz; [lia|].
  cbn [get_ie_loop].
  destruct (rd_in_bounds b (pbuf + i)) as (x & Hx & _); [lia|].
  destruct (rd_in_bounds b (pbuf + i + 1)) as (l & Hl & _); [lia|].
  rewrite Hx, Hl, !bind_Ret. destruct (Z.eqb_spec x index) as [->|].
  - eexists. split; [done|]. intros p [= <-]. split_and!; [lia|lia|done|done].
  - pose proof (rd_byte _ _ _ Hb Hl) as Hlb. unfold is_byte in Hlb.
    destruct (Z.leb_spec limit (i + (l + 2))); [eexists; split; [done|]; discriminate|].
    destruct (IH (i + (l + 2))) as (r & Hr & Hspec); [lia..|].
    exists r. split; [done|]. intros p E. destruct (Hspec p E) as (? & ? & ?). split_and!; try done; lia.
Qed.

(** Whatever the bytes are, [rtw_get_ie] terminates and stays inside the
    buffer as long as one byte beyond the limit can be read, and an element it
    returns starts inside the limit with the requested id. *)
Theorem get_ie_safe b pbuf index len limit :
  bytes_ok b -> 0 <= pbuf -> pbuf + limit + 1 <= zlen b ->
  exists r, rtw_get_ie b pbuf index len limit = Ret r /\
    forall p, fst r = Some p -> pbuf <= p < pbuf + limit /\ rd b p = Ret index /\ rd b (p + 1) = Ret (snd r).
Proof.
  intros Hb Hp Hz. unfold rtw_get_ie. destruct (Z.ltb_spec limit 1).
  - eexists. split; [done|]. discriminate.
  - destruct (get_ie_loop_safe (Z.to_nat limit) b pbuf index limit 0) as (r & Hr & Hs); [done|lia..|].
    exists r. split; [done|]. intros p E. destruct (Hs p E) as (? & ? & ?). split_and!; try done; lia.
Qed.

Lemma get_ie_safe_witness :
  exists r, rtw_get_ie [0; 200; 1; 7] 0 1 0 3 = Ret r /\
    forall p, fst r = Some p -> 0 <= p < 0 + 3 /\ rd [0; 200; 1; 7] p = Ret 1 /\ rd [0; 200; 1; 7] (p + 1) = Ret (snd r).
Proof.
  apply (get_ie_safe [0; 200; 1; 7] 0 1 0 3); [repeat constructor; vm_compute; congruence | lia | vm_compute; congruence].
Defined.

(** The byte beyond the limit is needed: with a limit equal to the size of
    the buffer, a buffer ending in a lone element id makes [rtw_get_ie] read
    the length byte outside it, both when the id matches and when it does
    not. *)
Theorem get_ie_reads_past_limit :
  rtw_get_ie [0; 1; 65; 48] 0 48 0 4 = Oob /\ rtw_get_ie [0; 1; 65; 48] 0 50 0 4 = Oob.
Proof. split; reflexivity. Qed.

(** *** Writing *)

Lemma wr_app_here pre x c y : wr (pre ++ x :: c) (zlen pre) y = Ret (pre ++ y :: c).
Proof.
  unfold wr, zlen. rewrite length_app. cbn [length].
  destruct (Z.leb_spec 0 (Z.of_nat (length pre))), (Z.ltb_spec (Z.of_nat (length pre)) (Z.of_nat (length pre + S (length c)))); try lia.
  cbn [andb]. by rewrite Nat2Z.id, insert_app_r_alt, Nat.sub_diag by lia.
Qed.

(** [rtw_set_ie] with room for the element writes its encoding. *)
Lemma set_ie_spec pre room post t frlen :
  tlv_ok t -> length room = length (enc1 t) ->
  rtw_set_ie (pre ++ room ++ post) (zlen pre) (fst t) (zlen (snd t)) (snd t) frlen
  = Ret (pre ++ enc1 t ++ post, zlen pre + zlen (enc1 t), u32 (frlen + zlen (enc1 t))).
Proof.
  intros [Hid Hlen] Hr. unfold rtw_set_ie. cbn [enc1 length] in Hr.
  pose proof (zlen_nonneg (snd t)).
  destruct room as [|r0 [|r1 room]]; try discriminate. injection Hr as Hr.
  rewrite (u8_small (fst t)) by done. rewrite (u8_small (zlen (snd t))) by (unfold is_byte; lia).
  cbn [app]. rewrite wr_app_here, bind_Ret.
  replace (pre ++ fst t :: r1 :: room ++ post) with ((pre ++ [fst t]) ++ r1 :: room ++ post) by (by rewrite <- app_assoc).
  replace (zlen pre + 1) with (zlen (pre ++ [fst t])) by (rewrite zlen_app; reflexivity).
  rewrite wr_app_here, bind_Ret.
  rewrite rd_slice_ok, bind_Ret by (try lia; reflexivity).
  rewrite drop_0, take_ge by (unfold zlen; lia).
  replace ((pre ++ [fst t]) ++ zlen (snd t) :: room ++ post) with ((pre ++ [fst t; zlen (snd t)]) ++ room ++ post)
    by (by rewrite <- !app_assoc).
  replace (zlen pre + 2) with (zlen (pre ++ [fst t; zlen (snd t)])) by (rewrite zlen_app; reflexivity).
  rewrite wr_slice_app, bind_Ret by (unfold zlen in *; lia).
  rewrite zlen_enc1, <- app_assoc. do 2 f_equal. f_equal. lia.
Qed.

(** Writing several elements one after the other. *)
Fixpoint set_ies (b : bytes) (p : Z) (ts : list tlv) (frlen : Z) : res (bytes * Z * Z) :=
  match ts with
  | [] => Ret (b, p, frlen)
  | t :: ts =>
      r ← rtw_set_ie b p (fst t) (zlen (snd t)) (snd t) frlen;
      let '(b, p, frlen) := (r : bytes * Z * Z) in
      set_ies b p ts frlen
  end.

Lemma set_ies_spec ts pre room post frlen :
  Forall tlv_ok ts -> length room = length (encode ts) -> 0 <= frlen -> frlen + zlen (encode ts) < 4294967296 ->
  set_ies (pre ++ room ++ post) (zlen pre) ts frlen
  = Ret (pre ++ encode ts ++ post, zlen pre + zlen (encode ts), frlen + zlen (encode ts)).
Proof.
  intros Hok. revert pre room frlen. induction Hok as [|t ts Ht Hts IH]; intros pre room frlen Hr Hf Hs.
  { destruct room; [|discriminate]. cbn. change (zlen (encode [])) with 0. by rewrite !Z.add_0_r. }
  rewrite encode_cons, length_app in Hr. rewrite encode_cons, zlen_app in Hs |- *.
  pose proof (zlen_nonneg (encode ts)). pose proof (zlen_nonneg (snd t)). pose proof (zlen_enc1 t).
  rewrite <- (take_drop (length (enc1 t)) room). cbn [set_ies]. rewrite <- app_assoc.
  rewrite set_ie_spec, bind_Ret by (done || (rewrite length_take; lia)). cbn iota beta.
  rewrite (u32_small (frlen + zlen (enc1 t))) by (unfold is_u32; lia).
  rewrite (app_assoc pre), <- zlen_app, IH.
  - rewrite zlen_app, <- !app_assoc. do 2 f_equal; [f_equal|]; lia.
  - rewrite length_drop. lia.
  - lia.
  - lia.
Qed.

(** Elements written one after the other with [rtw_set_ie] are what
    [rtw_get_ie] finds: the frame length grows by the size of the elements,
    nothing outside them changes, and the search for any id returns the first
    element written with it. *)
Theorem set_ie_get_ie_roundtrip ts pre room post index len :
  ts <> [] -> Forall tlv_ok ts -> length room = length (encode ts) -> zlen (encode ts) < 4294967296 ->
  exists b, set_ies (pre ++ room ++ post) (zlen pre) ts 0 = Ret (b, zlen pre + zlen (encode ts), zlen (encode ts)) /\
    b = pre ++ encode ts ++ post /\
    rtw_get_ie b (zlen pre) index len (zlen (encode ts))
    = Ret (match find_eid index (zlen pre) ts with Some (p, l) => (Some p, l) | None => (None, 0) end).
Proof.
  intros Hne Hok Hr Hs. exists (pre ++ encode ts ++ post). split_and!; [|done|].
  - rewrite set_ies_spec by (done || lia). by rewrite Z.add_0_l.
  - destruct ts as [|t ts]; [done|]. unfold rtw_get_ie.
    pose proof (encode_length_ge (t :: ts)) as Hg. cbn [length] in Hg.
    destruct (Z.ltb_spec (zlen (encode (t :: ts))) 1); [lia|].
    apply get_ie_loop_tlvs with (post := post); [done|lia|lia|lia].
Qed.

Lemma set_ie_get_ie_roundtrip_witness :
  exists b, set_ies ([9] ++ replicate 7 0 ++ [8]) 1 [(0, [65; 66]); (3, [6])] 0 = Ret (b, 8, 7) /\
    b = [9; 0; 2; 65; 66; 3; 1; 6; 8] /\ rtw_get_ie b 1 3 0 7 = Ret (Some 5, 1).
Proof.
  apply (set_ie_get_ie_roundtrip [(0, [65; 66]); (3, [6])] [9] (replicate 7 0) [8] 3 0);
    [discriminate | repeat constructor; vm_compute; congruence | reflexivity | reflexivity].
Defined.

(** *** Removing *)

(** The element matches: its id, and its first bytes when an OUI is given. *)
Definition tlv_match (eid : Z) (oui : option bytes) (t : tlv) : bool :=
  (fst t =? eid) &&
  match oui with None => true | Some o => bool_decide (take (length o) (snd t) = o) end.

(** Elements with the searched id are long enough for the OUI. *)
Definition oui_fits (eid : Z) (oui : option bytes) (t : tlv) : Prop :=
  fst t = eid -> match oui with None => True | Some o => (length o <= length (snd t))%nat end.

Lemma oui_matches_tlv pre t post eid oui :
  oui_fits eid oui t -> fst t = eid ->
  oui_matches (pre ++ enc1 t ++ post) (zlen pre + 2) oui = Ret (tlv_match eid oui t).
Proof.
  intros Hf He. specialize (Hf He). unfold oui_matches, tlv_match. rewrite He, Z.eqb_refl. cbn [andb].
  destruct oui as [o|]; [|done]. unfold rtw_memcmp.
  pose proof (zlen_nonneg pre). pose proof (zlen_nonneg post).
  rewrite rd_slice_ok, bind_Ret by (rewrite ?zlen_app, ?zlen_enc1; unfold zlen in *; lia).
  replace (Z.to_nat (zlen pre + 2)) with (length pre + 2)%nat by (unfold zlen; lia).
  rewrite <- drop_drop, drop_app_length. cbn [enc1 app drop]. rewrite Nat2Z.id.
  by rewrite drop_0, take_app_le by done.
Qed.

(** Searching past elements that do not match. *)
Lemma get_ie_ex_loop_skip ms fuel b pre mid post in_ie in_len eid oui cnt :
  b = pre ++ encode ms ++ mid ++ post -> in_ie + cnt = zlen pre -> 0 <= cnt ->
  cnt + zlen (encode ms) <= in_len -> in_len < 4294967296 ->
  Forall (fun t => tlv_match eid oui t = false) ms -> Forall (oui_fits eid oui) ms ->
  get_ie_ex_loop (length ms + fuel) b in_ie in_len eid oui cnt
  = get_ie_ex_loop fuel b in_ie in_len eid oui (cnt + zlen (encode ms)).
Proof.
  intros Hb Hp Hc Hl Hm Hno Hfit. revert pre cnt Hb Hp Hc Hl.
  induction ms as [|t ms IH]; intros pre cnt Hb Hp Hc Hl.
  { cbn. change (zlen (encode [])) with 0. by rewrite Z.add_0_r. }
  apply Forall_cons in Hno as [Hn Hno']. apply Forall_cons in Hfit as [Hf Hfit'].
  rewrite zlen_encode_cons in *. pose proof (zlen_nonneg (snd t)). pose proof (zlen_nonneg (encode ms)).
  cbn [length Nat.add get_ie_ex_loop].
  destruct (Z.leb_spec in_len cnt); [lia|].
  rewrite encode_cons, <- !app_assoc in Hb.
  rewrite Hp, Hb, rd_enc1_id, rd_enc1_len, bind_Ret.
  assert ((if fst t =? eid then oui_matches (pre ++ enc1 t ++ encode ms ++ mid ++ post) (zlen pre + 2) oui else Ret false) = Ret false) as ->.
  { destruct (Z.eqb_spec (fst t) eid); [|done]. rewrite (oui_matches_tlv _ _ _ eid) by done. by rewrite Hn. }
  rewrite !bind_Ret. rewrite u32_small by (unfold is_u32; lia).
  rewrite <- Hb, (IH Hno' Hfit' (pre ++ enc1 t)).
  - f_equal. lia.
  - by rewrite Hb, <- !app_assoc.
  - rewrite zlen_app, zlen_enc1. lia.
  - lia.
  - lia.
Qed.

Lemma get_ie_ex_loop_hit fuel b pre t post in_ie in_len eid oui cnt :
  b = pre ++ enc1 t ++ post -> in_ie + cnt = zlen pre -> cnt < in_len ->
  tlv_match eid oui t = true -> oui_fits eid oui t ->
  get_ie_ex_loop (S fuel) b in_ie in_len eid oui cnt = Ret (Some (zlen pre, zlen (enc1 t))).
Proof.
  intros -> Hp Hl Hm Hf. cbn [get_ie_ex_loop]. destruct (Z.leb_spec in_len cnt); [lia|].
  rewrite Hp, rd_enc1_id, rd_enc1_len, bind_Ret.
  assert (fst t = eid) as He by (unfold tlv_match in Hm; apply andb_true_iff in Hm as [Hm _]; lia).
  rewrite He, Z.eqb_refl, (oui_matches_tlv _ _ _ eid), Hm, !bind_Ret by done.
  by rewrite zlen_enc1.
Qed.

(** The search of [rtw_get_ie_ex] on a well-formed buffer. *)
Lemma get_ie_ex_tlvs pre ms rest post eid oui :
  Forall (fun t => tlv_match eid oui t = false) ms -> Forall (oui_fits eid oui) (ms ++ rest) ->
  match rest with t :: _ => tlv_match eid oui t = true | [] => True end ->
  zlen (encode (ms ++ rest)) < 4294967296 ->
  rtw_get_ie_ex (pre ++ encode (ms ++ rest) ++ post) (zlen pre) (zlen (encode (ms ++ rest))) eid oui
  = Ret (match rest with
         | t :: _ => Some (zlen (pre ++ encode ms), zlen (enc1 t))
         | [] => None
         end).
Proof.
  intros Hno Hfit Hr Hs. apply Forall_app in Hfit as [Hfm Hfr]. unfold rtw_get_ie_ex.
  rewrite encode_app, zlen_app in *. pose proof (encode_length_ge ms). pose proof (zlen_nonneg (encode rest)).
  destruct (Z.leb_spec (zlen (encode ms) + zlen (encode rest)) 0).
  { destruct rest as [|t rest]; [done|]. rewrite zlen_encode_cons in *.
    pose proof (zlen_nonneg (snd t)). pose proof (zlen_nonneg (encode rest)). pose proof (zlen_nonneg (encode ms)). lia. }
  set (N := S (Z.to_nat (zlen (encode ms) + zlen (encode rest)))).
  replace N with (length ms + S (N - length ms - 1))%nat by (unfold N; lia).
  rewrite (get_ie_ex_loop_skip ms _ _ pre (encode rest) post); try (done || lia); [|by rewrite <- app_assoc].
  destruct rest as [|t rest].
  - cbn [get_ie_ex_loop]. change (zlen (encode [])) with 0. rewrite Z.add_0_r, Z.add_0_l, Z.leb_refl. done.
  - apply Forall_cons in Hfr as [Hft _]. pose proof (zlen_nonneg (snd t)). pose proof (zlen_nonneg (encode rest)).
    rewrite zlen_encode_cons in *.
    apply (get_ie_ex_loop_hit _ _ (pre ++ encode ms) t (encode rest ++ post)); [|rewrite zlen_app; lia|lia|done|done].
    by rewrite encode_cons, <- !app_assoc.
Qed.

(** Elements split at the first match. *)
Lemma split_match eid oui ts :
  exists ms rest, ts = ms ++ rest /\ Forall (fun t => tlv_match eid oui t = false) ms /\
    match rest with t :: _ => tlv_match eid oui t = true | [] => True end.
Proof.
  induction ts as [|t ts (ms & rest & -> & Hm & Hr)]; [by exists [], []|].
  destruct (tlv_match eid oui t) eqn:E; [by exists [], (t :: ms ++ rest)|].
  exists (t :: ms), rest. split_and!; [done|by constructor|done].
Qed.

Definition keep (eid : Z) (oui : option bytes) (ts : list tlv) : list tlv :=
  List.filter (fun t => negb (tlv_match eid oui t)) ts.

Lemma keep_app eid oui a b : keep eid oui (a ++ b) = keep eid oui a ++ keep eid oui b.
Proof. apply List.filter_app. Qed.

Lemma keep_none eid oui ms : Forall (fun t => tlv_match eid oui t = false) ms -> keep eid oui ms = ms.
Proof.
  unfold keep. induction 1 as [|t ms Ht Hm IH]; [done|].
  cbn [List.filter]. rewrite Ht. cbn [negb]. by rewrite IH.
Qed.

Lemma zlen_keep_le eid oui ts : zlen (encode (keep eid oui ts)) <= zlen (encode ts).
Proof.
  induction ts as [|t ts IH]; [done|]. unfold keep in *. cbn [List.filter].
  destruct (negb _); rewrite ?zlen_encode_cons; pose proof (zlen_nonneg (snd t)); lia.
Qed.

(** The loop removes every match and moves the rest up; [junk] is what the
    moves leave behind the new end. *)
Lemma remove_ie_loop_spec fuel pre ts post total eid oui ret :
  (length ts < fuel)%nat -> Forall (oui_fits eid oui) ts ->
  zlen (encode ts) <= total < 4294967296 ->
  exists junk,
    remove_ie_loop fuel (pre ++ encode ts ++ post) total (zlen pre) (zlen (encode ts)) eid oui ret
    = Ret (pre ++ encode (keep eid oui ts) ++ junk ++ post,
           total - (zlen (encode ts) - zlen (encode (keep eid oui ts))),
           if existsb (tlv_match eid oui) ts then _SUCCESS else ret) /\
    zlen junk = zlen (encode ts) - zlen (encode (keep eid oui ts)).
Proof.
  revert pre ts post total ret. induction fuel as [|fuel IH]; intros pre ts post total ret Hf Hfit Ht; [lia|].
  destruct (split_match eid oui ts) as (ms & rest & -> & Hm & Hr).
  cbn [remove_ie_loop]. rewrite get_ie_ex_tlvs, bind_Ret by (done || lia).
  assert (existsb (tlv_match eid oui) ms = false) as Hex.
  { clear -Hm. induction Hm as [|t ms Ht Hm IH]; [done|]. cbn. by rewrite Ht. }
  rewrite existsb_app, Hex. cbn [orb].
  destruct rest as [|t rest].
  { exists []. cbn [existsb]. rewrite app_nil_r in *. rewrite keep_none by done.
    rewrite Z.sub_diag, Z.sub_0_r. done. }
  cbn [existsb]. rewrite Hr. cbn [orb].
  assert (keep eid oui (ms ++ t :: rest) = ms ++ keep eid oui rest) as Ek.
  { rewrite keep_app, keep_none by done. unfold keep. cbn [List.filter]. by rewrite Hr. }
  rewrite Ek, !encode_app, !zlen_app, zlen_encode_cons in *.
  apply Forall_app in Hfit as [_ Hfr]. apply Forall_cons in Hfr as [_ Hfr].
  pose proof (zlen_nonneg (encode ms)). pose proof (zlen_nonneg (snd t)). pose proof (zlen_nonneg (encode rest)).
  pose proof (zlen_nonneg pre). pose proof (zlen_keep_le eid oui rest).
  replace (u32 (zlen (encode ms) + (zlen (snd t) + 2 + zlen (encode rest)) - (zlen pre + zlen (encode ms) + zlen (enc1 t) - zlen pre)))
    with (zlen (encode rest)) by (rewrite zlen_enc1, u32_small; unfold is_u32; lia).
  rewrite (u32_small (total - zlen (enc1 t))) by (rewrite zlen_enc1; unfold is_u32; lia).
  rewrite encode_cons.
  assert (pre ++ (encode ms ++ enc1 t ++ encode rest) ++ post
          = ((pre ++ encode ms) ++ enc1 t) ++ encode rest ++ post) as E1 by (by rewrite <- !app_assoc).
  rewrite E1, <- !zlen_app, rd_slice_app, bind_Ret.
  (* the block moved up, then the bytes it leaves behind *)
  set (w := enc1 t ++ encode rest).
  assert (((pre ++ encode ms) ++ enc1 t) ++ encode rest ++ post
          = (pre ++ encode ms) ++ take (length (encode rest)) w ++ (drop (length (encode rest)) w ++ post)) as E2.
  { rewrite <- !app_assoc. do 2 f_equal. unfold w. rewrite (app_assoc (take _ _)), take_drop. by rewrite <- app_assoc. }
  rewrite E2, wr_slice_app, bind_Ret by (unfold w; rewrite length_take, length_app; lia).
  destruct (IH (pre ++ encode ms) rest (drop (length (encode rest)) w ++ post) (total - zlen (enc1 t)) _SUCCESS)
    as (junk & HR & Hj).
  { rewrite length_app in Hf. cbn [length] in Hf. lia. }
  { done. }
  { rewrite zlen_enc1. lia. }
  rewrite HR. exists (junk ++ drop (length (encode rest)) w). split.
  - rewrite <- !app_assoc, !zlen_app, !zlen_enc1. f_equal. f_equal; [f_equal; lia|]. by destruct (existsb _ rest).
  - unfold w. rewrite zlen_app, Hj.
    assert (zlen (drop (length (encode rest)) (enc1 t ++ encode rest)) = zlen (enc1 t)) as ->
      by (unfold zlen; rewrite length_drop, length_app; lia).
    rewrite ?zlen_app, zlen_enc1. lia.
Qed.

(** [rtw_ies_remove_ie] on a buffer that holds elements from [offset] on
    removes exactly the elements with the given id and OUI: the elements that
    remain are the others, in order, the length is the length of what remains,
    and the return value says whether any was removed. *)
Theorem ies_remove_ie_filters pre ts post eid oui :
  ts <> [] -> Forall (oui_fits eid oui) ts -> zlen pre + zlen (encode ts) < 4294967296 ->
  exists junk,
    rtw_ies_remove_ie (pre ++ encode ts ++ post) (zlen pre + zlen (encode ts)) (zlen pre) eid oui
    = Ret (pre ++ encode (keep eid oui ts) ++ junk ++ post,
           zlen pre + zlen (encode (keep eid oui ts)),
           if existsb (tlv_match eid oui) ts then _SUCCESS else _FAIL).
Proof.
  intros Hne Hfit Hs. unfold rtw_ies_remove_ie. pose proof (encode_length_ge ts) as Hg. pose proof (zlen_nonneg pre).
  assert (0 < Z.of_nat (length ts)) by (destruct ts; [done|cbn; lia]).
  destruct (Z.leb_spec (zlen pre + zlen (encode ts)) (zlen pre)); [lia|].
  replace (zlen pre + zlen (encode ts) - zlen pre) with (zlen (encode ts)) by lia.
  destruct (remove_ie_loop_spec (S (Z.to_nat (zlen (encode ts)))) pre ts post (zlen pre + zlen (encode ts)) eid oui _FAIL)
    as (junk & HR & _); [lia|done|lia|].
  exists junk. rewrite HR. do 2 f_equal. f_equal. lia.
Qed.

Lemma ies_remove_ie_filters_witness :
  exists junk,
    rtw_ies_remove_ie ([1] ++ encode [(221, [0; 80; 242; 4; 9]); (0, [65]); (221, [0; 80; 242; 1])] ++ []) 17 1 221 (Some [0; 80; 242; 4])
    = Ret ([1] ++ encode [(0, [65]); (221, [0; 80; 242; 1])] ++ junk ++ [], 10, _SUCCESS).
Proof.
  apply (ies_remove_ie_filters [1] [(221, [0; 80; 242; 4; 9]); (0, [65]); (221, [0; 80; 242; 1])] [] 221 (Some [0; 80; 242; 4]));
    [discriminate | rewrite !Forall_cons; unfold oui_fits; cbn; split_and!; try apply Forall_nil; lia | reflexivity].
Defined.

(** *** WPS attributes *)

(** A WPS element: header, OUI, then attributes with 16-bit big-endian id and
    length. *)
Definition attr : Type := Z * bytes.

Definition attr_ok (a : attr) : Prop := is_u16 (fst a) /\ zlen (snd a) < 65532.

Definition be16 (z : Z) : bytes := [z / 256; z mod 256].
Definition enc_attr (a : attr) : bytes := be16 (fst a) ++ be16 (zlen (snd a)) ++ snd a.

Fixpoint find_attr (id pos : Z) (l : list attr) : option (Z * Z) :=
  match l with
  | [] => None
  | a :: l => if fst a =? id then Some (pos, zlen (enc_attr a)) else find_attr id (pos + zlen (enc_attr a)) l
  end.

Lemma zlen_enc_attr a : zlen (enc_attr a) = zlen (snd a) + 4.
Proof. unfold enc_attr, be16. rewrite !zlen_app. change (zlen [fst a / 256; fst a mod 256]) with 2.
  change (zlen [zlen (snd a) / 256; zlen (snd a) mod 256]) with 2. lia. Qed.

Lemma be16_get_app pre z post :
  is_u16 z -> be16_get (pre ++ be16 z ++ post) (zlen pre) = Ret z.
Proof.
  unfold is_u16. intros Hz. unfold be16_get. pose proof (zlen_nonneg pre).
  assert (rd (pre ++ be16 z ++ post) (zlen pre) = Ret (z / 256)) as ->
    by (rewrite rd_app_r, Z.sub_diag by lia; reflexivity).
  assert (rd (pre ++ be16 z ++ post) (zlen pre + 1) = Ret (z mod 256)) as ->
    by (rewrite rd_app_r by lia; replace (zlen pre + 1 - zlen pre) with 1 by lia; reflexivity).
  rewrite !bind_Ret. f_equal.
  assert (Z.lor (Z.shiftl (z / 256) 8) (z mod 256) = z) as ->.
  { change 256 with (2 ^ 8). rewrite <- (Z.land_ones z 8), <- (Z.shiftr_div_pow2 z 8) by lia.
    apply Z.bits_inj'. intros n Hn. rewrite Z.lor_spec, Z.land_spec.
    destruct (Z.lt_ge_cases n 8).
    - rewrite Z.shiftl_spec_low, Z.ones_spec_low by lia. by rewrite andb_true_r.
    - rewrite Z.shiftl_spec, Z.shiftr_spec, Z.ones_spec_high by lia.
      rewrite andb_false_r, orb_false_r. f_equal. lia. }
  apply u16_small. exact Hz.
Qed.

Lemma get_wps_attr_loop_spec l fuel pre post wps_ie wps_ielen id p :
  Forall attr_ok l -> wps_ie + p = zlen pre -> p + zlen (concat (map enc_attr l)) = wps_ielen ->
  (length l < fuel)%nat ->
  get_wps_attr_loop fuel (pre ++ concat (map enc_attr l) ++ post) wps_ie wps_ielen id p
  = Ret (find_attr id (zlen pre) l).
Proof.
  intros Hok. revert fuel pre p. induction Hok as [|a l [Hid Hlen] Hl IH]; intros fuel pre p Hp Hw Hf;
    (destruct fuel as [|fuel]; [lia|]); cbn [get_wps_attr_loop find_attr map concat] in *.
  - change (zlen []) with 0 in Hw. destruct (Z.leb_spec wps_ielen p); [done|lia].
  - rewrite zlen_app, zlen_enc_attr in Hw. pose proof (zlen_nonneg (snd a)). pose proof (zlen_nonneg (concat (map enc_attr l))).
    destruct (Z.leb_spec wps_ielen p); [lia|]. rewrite Hp.
    assert (pre ++ (enc_attr a ++ concat (map enc_attr l)) ++ post
            = (pre ++ enc_attr a) ++ concat (map enc_attr l) ++ post) as E0 by (by rewrite <- !app_assoc).
    assert (pre ++ (enc_attr a ++ concat (map enc_attr l)) ++ post
            = pre ++ be16 (fst a) ++ (be16 (zlen (snd a)) ++ snd a ++ concat (map enc_attr l) ++ post)) as E1
      by (unfold enc_attr; by rewrite <- !app_assoc).
    assert (pre ++ (enc_attr a ++ concat (map enc_attr l)) ++ post
            = (pre ++ be16 (fst a)) ++ be16 (zlen (snd a)) ++ (snd a ++ concat (map enc_attr l) ++ post)) as E2
      by (unfold enc_attr; by rewrite <- !app_assoc).
    assert (be16_get (pre ++ (enc_attr a ++ concat (map enc_attr l)) ++ post) (zlen pre) = Ret (fst a)) as ->
      by (rewrite E1; by apply be16_get_app).
    assert (be16_get (pre ++ (enc_attr a ++ concat (map enc_attr l)) ++ post) (zlen pre + 2) = Ret (zlen (snd a))) as ->.
    { rewrite E2. replace (zlen pre + 2) with (zlen (pre ++ be16 (fst a))) by (rewrite zlen_app; reflexivity).
      apply be16_get_app. unfold is_u16. lia. }
    rewrite !bind_Ret, (u16_small (zlen (snd a) + 4)), zlen_enc_attr by (unfold is_u16; lia).
    destruct (fst a =? id); [done|]. rewrite E0.
    cbn [length] in Hf. rewrite (IH fuel (pre ++ enc_attr a)) by (rewrite ?zlen_app, ?zlen_enc_attr; lia).
    by rewrite zlen_app, zlen_enc_attr.
Qed.

Definition enc_wps (l : list attr) : bytes :=
  enc1 (WLAN_EID_VENDOR_SPECIFIC, wps_oui ++ concat (map enc_attr l)).

(** [rtw_get_wps_attr] on a WPS element made of attributes shorter than
    65532 bytes finds the first attribute with the requested id, with its
    whole length, after as many rounds as there are attributes. *)
Theorem wps_attr_finds_first pre l post id fuel :
  Forall attr_ok l -> (length l < fuel)%nat ->
  rtw_get_wps_attr fuel (pre ++ enc_wps l ++ post) (zlen pre) (zlen (enc_wps l)) id
  = Ret (find_attr id (zlen pre + 6) l).
Proof.
  intros Hok Hf. unfold rtw_get_wps_attr, enc_wps. change WLAN_EID_VENDOR_SPECIFIC with 221.
  rewrite rd_enc1_id, bind_Ret. cbn [fst Z.eqb negb Pos.eqb].
  unfold rtw_memcmp. set (body := concat (map enc_attr l)).
  assert (pre ++ enc1 (221, wps_oui ++ body) ++ post = (pre ++ [221; zlen (wps_oui ++ body)]) ++ wps_oui ++ (body ++ post)) as E1
    by (unfold enc1; cbn [fst snd]; rewrite <- !app_assoc; reflexivity).
  assert (pre ++ enc1 (221, wps_oui ++ body) ++ post = (pre ++ [221; zlen (wps_oui ++ body)] ++ wps_oui) ++ body ++ post) as E2
    by (unfold enc1; cbn [fst snd]; rewrite <- !app_assoc; reflexivity).
  assert (rd_slice (pre ++ enc1 (221, wps_oui ++ body) ++ post) (zlen pre + 2) (Z.of_nat (length wps_oui)) = Ret wps_oui) as ->.
  { rewrite E1. replace (zlen pre + 2) with (zlen (pre ++ [221; zlen (wps_oui ++ body)])) by (rewrite zlen_app; reflexivity).
    apply rd_slice_app. }
  rewrite !bind_Ret, bool_decide_eq_true_2 by done. cbn [negb].
  rewrite E2. replace (zlen pre + 6) with (zlen (pre ++ [221; zlen (wps_oui ++ body)] ++ wps_oui)) by (rewrite zlen_app; reflexivity).
  apply get_wps_attr_loop_spec; [done| | |done].
  - rewrite zlen_app. change (zlen ([221; zlen (wps_oui ++ body)] ++ wps_oui)) with 6. lia.
  - fold body. rewrite zlen_enc1. cbn [snd]. rewrite zlen_app. change (zlen wps_oui) with 4. lia.
Qed.

Lemma wps_attr_finds_first_witness :
  rtw_get_wps_attr 3 ([] ++ enc_wps [(0x104a, [16]); (0x1044, [2])] ++ []) 0 16 0x1044 = Ret (Some (11, 5)).
Proof.
  apply (wps_attr_finds_first [] [(0x104a, [16]); (0x1044, [2])] [] 0x1044 3);
    [repeat constructor; vm_compute; congruence | cbn; lia].
Defined.

(** An element whose first attribute claims 0xFFFC bytes of data. *)
Definition wps_ie_fffc : bytes := [221; 8; 0x00; 0x50; 0xf2; 0x04; 0x10; 0x4a; 0xff; 0xfc].

(** [rtw_get_wps_attr] does not terminate on an element whose attribute
    claims 0xFFFC bytes of data: the 16-bit attribute length wraps to 0 and the
    loop stays where it is, however many rounds it is given. *)
Theorem wps_attr_length_wrap_diverges fuel :
  rtw_get_wps_attr fuel wps_ie_fffc 0 (zlen wps_ie_fffc) 0x1044 = NoFuel.
Proof.
  unfold rtw_get_wps_attr.
  assert (get_wps_attr_loop fuel wps_ie_fffc 0 (zlen wps_ie_fffc) 0x1044 6 = NoFuel) as H
    by (induction fuel as [|fuel IH]; [done|exact IH]).
  exact H.
Qed.
