(* ===== verification/Elems.v ===== *)
(** * Parsing the elements of a management frame

    [rtw_ieee802_11_parse_elems] of core/rtw_ieee80211.c.  The pointer and
    length pairs of [struct rtw_ieee802_11_elems] are indexed by the name of
    the field; a pointer is an offset into the frame.  The theorems show that
    the parser accepts exactly the well-formed element lists, that it records
    for each field the last element of its kind, and that on any input it
    neither reads nor records anything outside the given length. *)

From S2P Require Import Prelude Ie.

(** ** [struct rtw_ieee802_11_elems] *)

Inductive elem_field :=
| ssid | supp_rates | fh_params | ds_params | cf_params | tim | ibss_params
| challenge | erp_info | ext_supp_rates | wpa_ie | rsn_ie | wme | wme_tspec
| wps_ie | power_cap | supp_channels | mdie | ftie | timeout_int
| ht_capabilities | ht_operation | vendor_ht_cap | vht_capabilities
| vht_operation | vht_op_mode_notify | rm_en_cap.

#[export] Instance elem_field_eq_dec : EqDecision elem_field.
Proof. solve_decision. Defined.

(** Each field is [NULL], or an offset and a length. *)
Definition elems : Type := elem_field -> option (Z * Z).
Definition elems_zero : elems := fun _ => None.
Definition set_elem (e : elems) (f : elem_field) (pos elen : Z) : elems :=
  fun g => if decide (g = f) then Some (pos, elen) else e g.

Inductive ParseRes := ParseOK | ParseUnknown | ParseFailed.

Definition OUI_MICROSOFT : Z := 0x0050f2.
Definition OUI_BROADCOM : Z := 0x00904c.
Definition WME_OUI_TYPE : Z := 2.
Definition VENDOR_HT_CAPAB_OUI_TYPE : Z := 0x33.

(** The field a vendor element goes to; [None] is the return value -1. *)
Definition rtw_ieee802_11_parse_vendor_specific (b : bytes) (pos elen : Z) : res (option elem_field) :=
  if elen <? 4 then Ret None
  else
    oui ← be24_get b pos;
    if (oui : Z) =? OUI_MICROSOFT then
      type ← rd b (pos + 3);
      if (type : Z) =? 1 then Ret (Some wpa_ie)
      else if type =? WME_OUI_TYPE then
        if elen <? 5 then Ret None
        else
          subtype ← rd b (pos + 4);
          if ((subtype : Z) =? 0) || (subtype =? 1) then Ret (Some wme)
          else if subtype =? 2 then Ret (Some wme_tspec)
          else Ret None
      else if type =? 4 then Ret (Some wps_ie)
      else Ret None
    else if oui =? OUI_BROADCOM then
      type ← rd b (pos + 3);
      if (type : Z) =? VENDOR_HT_CAPAB_OUI_TYPE then Ret (Some vendor_ht_cap) else Ret None
    else Ret None.

(** The [switch] on the element id, vendor elements apart. *)
Definition eid_field (id : Z) : option elem_field :=
  if id =? 0 then Some ssid
  else if id =? 1 then Some supp_rates
  else if id =? 2 then Some fh_params
  else if id =? 3 then Some ds_params
  else if id =? 4 then Some cf_params
  else if id =? 5 then Some tim
  else if id =? 6 then Some ibss_params
  else if id =? 16 then Some challenge
  else if id =? 42 then Some erp_info
  else if id =? 50 then Some ext_supp_rates
  else if id =? 48 then Some rsn_ie
  else if id =? 33 then Some power_cap
  else if id =? 36 then Some supp_channels
  else if id =? 54 then Some mdie
  else if id =? 55 then Some ftie
  else if id =? 56 then Some timeout_int
  else if id =? 45 then Some ht_capabilities
  else if id =? 61 then Some ht_operation
  else if id =? 191 then Some vht_capabilities
  else if id =? 192 then Some vht_operation
  else if id =? 199 then Some vht_op_mode_notify
  else if id =? 70 then Some rm_en_cap
  else None.

(** The loop; [left] decreases by at least two in every round. *)
Fixpoint parse_elems_loop (fuel : nat) (b : bytes) (pos left unknown : Z) (e : elems) : res (ParseRes * elems) :=
  match fuel with
  | O => NoFuel
  | S fuel =>
      if left <? 2 then
        Ret (if negb (left =? 0) then ParseFailed
             else if negb (unknown =? 0) then ParseUnknown else ParseOK, e)
      else
        id ← rd b pos;
        elen ← rd b (pos + 1);
        let pos := pos + 2 in
        let left := left - 2 in
        if left <? elen then Ret (ParseFailed, e)
        else
          f ← (if (id : Z) =? WLAN_EID_VENDOR_SPECIFIC
               then rtw_ieee802_11_parse_vendor_specific b pos elen
               else Ret (eid_field id));
          match (f : option elem_field) with
          | Some f => parse_elems_loop fuel b (pos + elen) (left - elen) unknown (set_elem e f pos elen)
          | None => parse_elems_loop fuel b (pos + elen) (left - elen) (unknown + 1) e
          end
  end.

Definition rtw_ieee802_11_parse_elems (b : bytes) (start len : Z) : res (ParseRes * elems) :=
  parse_elems_loop (S (Z.to_nat len)) b start len 0 elems_zero.

(** ** The specification on element lists *)

(** The field of a vendor element by its contents. *)
Definition vendor_field (p : bytes) : option elem_field :=
  match p with
  | x :: y :: z :: type :: rest =>
      if (x =? 0x00) && (y =? 0x50) && (z =? 0xf2) then
        if type =? 1 then Some wpa_ie
        else if type =? 2 then
          match rest with
          | 0 :: _ | 1 :: _ => Some wme
          | 2 :: _ => Some wme_tspec
          | _ => None
          end
        else if type =? 4 then Some wps_ie
        else None
      else if (x =? 0x00) && (y =? 0x90) && (z =? 0x4c) && (type =? 0x33) then Some vendor_ht_cap
      else None
  | _ => None
  end.

Definition tlv_field (t : tlv) : option elem_field :=
  if fst t =? WLAN_EID_VENDOR_SPECIFIC then vendor_field (snd t) else eid_field (fst t).

(** Record the elements of a list, the first of which starts at [pos]. *)
Fixpoint record (pos : Z) (ts : list tlv) (e : elems) : elems :=
  match ts with
  | [] => e
  | t :: ts =>
      record (pos + zlen (enc1 t)) ts
        match tlv_field t with Some f => set_elem e f (pos + 2) (zlen (snd t)) | None => e end
  end.

Definition unknowns (ts : list tlv) : Z :=
  zlen (List.filter (fun t => match tlv_field t with None => true | Some _ => false end) ts).

(** Contents of a byte buffer. *)
Definition tlv_bytes (t : tlv) : Prop := tlv_ok t /\ bytes_ok (snd t).

(** ** Vendor elements *)

Lemma be24_bytes x y z :
  is_byte x -> is_byte y -> is_byte z -> Z.lor (Z.lor (Z.shiftl x 16) (Z.shiftl y 8)) z = x * 65536 + y * 256 + z.
Proof.
  unfold is_byte. intros Hx Hy Hz.
  replace (Z.shiftl x 16) with (Z.shiftl (Z.shiftl x 8) 8) by (by rewrite Z.shiftl_shiftl by lia).
  rewrite <- Z.shiftl_lor, (lor_shiftl_add x y 8), (lor_shiftl_add _ z 8) by lia. lia.
Qed.

(** The OUI comparison as a comparison of bytes. *)
Lemma oui_eq x y z o : is_byte x -> is_byte y -> is_byte z ->
  (Z.lor (Z.lor (Z.shiftl x 16) (Z.shiftl y 8)) z =? o)
  = (x =? o / 65536) && (y =? o / 256 mod 256) && (z =? o mod 256).
Proof.
  intros Hx Hy Hz. rewrite be24_bytes by done. unfold is_byte in *.
  pose proof (Z.div_mod o 256). pose proof (Z.div_mod (o / 256) 256).
  pose proof (Z.mod_pos_bound o 256). pose proof (Z.mod_pos_bound (o / 256) 256).
  replace (o / 65536) with (o / 256 / 256) by (rewrite Z.div_div by lia; done).
  destruct (Z.eqb_spec (x * 65536 + y * 256 + z) o), (Z.eqb_spec x (o / 256 / 256)), (Z.eqb_spec y ((o / 256) mod 256)),
    (Z.eqb_spec z (o mod 256)); cbn; try done; exfalso; nia.
Qed.

Lemma rd_at pre p post i : 0 <= i < zlen p -> rd (pre ++ p ++ post) (zlen pre + i) = rd p i.
Proof.
  intros Hi. pose proof (zlen_nonneg pre). rewrite rd_app_r by lia.
  replace (zlen pre + i - zlen pre) with i by lia. by rewrite rd_app_l by lia.
Qed.

Lemma rd_here pre p post : 0 < zlen p -> rd (pre ++ p ++ post) (zlen pre) = rd p 0.
Proof. intros H. rewrite <- (rd_at pre p post 0) by lia. by rewrite Z.add_0_r. Qed.

Lemma parse_vendor_spec pre p post :
  bytes_ok p ->
  rtw_ieee802_11_parse_vendor_specific (pre ++ p ++ post) (zlen pre) (zlen p) = Ret (vendor_field p).
Proof.
  intros Hp. unfold rtw_ieee802_11_parse_vendor_specific.
  destruct p as [|x [|y [|z [|ty rest]]]]; [reflexivity..|].
  rewrite !Forall_cons in Hp. destruct Hp as (Hx & Hy & Hz & Hty & Hr).
  pose proof (zlen_nonneg rest) as Hl. remember (x :: y :: z :: ty :: rest) as p eqn:Ep.
  assert (zlen p = 4 + zlen rest) as Hzl by (rewrite Ep, !zlen_cons; lia).
  destruct (Z.ltb_spec (zlen p) 4); [lia|].
  assert (rd p 0 = Ret x /\ rd p 1 = Ret y /\ rd p 2 = Ret z /\ rd p 3 = Ret ty) as (R0 & R1 & R2 & R3) by (by rewrite Ep).
  unfold be24_get. rewrite (rd_here pre p post), (rd_at pre p post 1), (rd_at pre p post 2), (rd_at pre p post 3) by lia.
  rewrite R0, R1, R2, R3, !bind_Ret, !oui_eq by done.
  change (OUI_MICROSOFT / 65536) with 0. change ((OUI_MICROSOFT / 256) mod 256) with 0x50. change (OUI_MICROSOFT mod 256) with 0xf2.
  change (OUI_BROADCOM / 65536) with 0. change ((OUI_BROADCOM / 256) mod 256) with 0x90. change (OUI_BROADCOM mod 256) with 0x4c.
  unfold WME_OUI_TYPE, VENDOR_HT_CAPAB_OUI_TYPE. 
  replace (vendor_field p) with (vendor_field (x :: y :: z :: ty :: rest)) by (by rewrite Ep). cbn [vendor_field].
  destruct ((x =? 0) && (y =? 80) && (z =? 242)).
  - destruct (ty =? 1); [done|]. destruct (ty =? 2); [|by destruct (ty =? 4)].
    destruct rest as [|s rest].
    { change (zlen []) with 0 in Hzl. destruct (Z.ltb_spec (zlen p) 5); [done|lia]. }
    rewrite zlen_cons in Hzl. pose proof (zlen_nonneg rest). destruct (Z.ltb_spec (zlen p) 5); [lia|].
    rewrite (rd_at pre p post 4) by lia. assert (rd p 4 = Ret s) as -> by (by rewrite Ep). rewrite bind_Ret.
    destruct s as [|[s|s|]|s]; try done; destruct s; done.
  - destruct ((x =? 0) && (y =? 144) && (z =? 76)); [|done]. by destruct (ty =? 51).
Qed.

(** ** The parser on element lists *)

Definition verdict (unknown : Z) : ParseRes := if negb (unknown =? 0) then ParseUnknown else ParseOK.

(** What stops the parser: nothing left, a lone byte, or an element that is
    longer than the rest. *)
Definition tail_bad (tl : bytes) : Prop :=
  match tl with
  | [] => False
  | [_] => True
  | _ :: elen :: rest => zlen rest < elen
  end.

Lemma unknowns_cons t ts :
  unknowns (t :: ts) = (match tlv_field t with None => 1 | Some _ => 0 end) + unknowns ts.
Proof. unfold unknowns. cbn [List.filter]. destruct (tlv_field t); [lia|]. rewrite zlen_cons. lia. Qed.

Lemma parse_loop_tlvs ts fuel pre tl post u e :
  Forall tlv_bytes ts -> tl = [] \/ tail_bad tl -> (length ts < fuel)%nat ->
  parse_elems_loop fuel (pre ++ (encode ts ++ tl) ++ post) (zlen pre) (zlen (encode ts ++ tl)) u e
  = Ret (if bool_decide (tl = []) then verdict (u + unknowns ts) else ParseFailed, record (zlen pre) ts e).
Proof.
  intros Hok Htl. revert fuel pre u e. induction Hok as [|t ts [[Hid Hlen] Hb] Hts IH]; intros fuel pre u e Hf;
    (destruct fuel as [|fuel]; [lia|]); cbn [parse_elems_loop record].
  - cbn [encode map concat app]. unfold unknowns. cbn [List.filter]. change (zlen []) with 0. rewrite Z.add_0_r.
    destruct Htl as [-> | Hbad]; [done|].
    destruct tl as [|x [|elen rest]]; [done|done|].
    rewrite (bool_decide_eq_false_2 (_ :: _ = [])) by done.
    rewrite !zlen_cons. pose proof (zlen_nonneg rest). pose proof (zlen_nonneg pre).
    destruct (Z.ltb_spec (1 + (1 + zlen rest)) 2); [lia|].
    rewrite rd_here, rd_at by (rewrite !zlen_cons; lia).
    change (rd (x :: elen :: rest) 0) with (Ret x). change (rd (x :: elen :: rest) 1) with (Ret elen). rewrite !bind_Ret.
    cbn in Hbad. destruct (Z.ltb_spec (1 + (1 + zlen rest) - 2) elen); [done|lia].
  - cbn [length] in Hf. rewrite encode_cons, <- !app_assoc, zlen_app, zlen_enc1.
    pose proof (zlen_nonneg (snd t)). pose proof (zlen_nonneg (encode ts ++ tl)).
    destruct (Z.ltb_spec (zlen (snd t) + 2 + zlen (encode ts ++ tl)) 2); [lia|].
    rewrite rd_enc1_id, rd_enc1_len, !bind_Ret.
    destruct (Z.ltb_spec (zlen (snd t) + 2 + zlen (encode ts ++ tl) - 2) (zlen (snd t))); [lia|].
    assert ((if fst t =? WLAN_EID_VENDOR_SPECIFIC
             then rtw_ieee802_11_parse_vendor_specific (pre ++ enc1 t ++ encode ts ++ tl ++ post) (zlen pre + 2) (zlen (snd t))
             else Ret (eid_field (fst t))) = Ret (tlv_field t)) as ->.
    { unfold tlv_field. destruct (fst t =? WLAN_EID_VENDOR_SPECIFIC); [|done].
      replace (pre ++ enc1 t ++ encode ts ++ tl ++ post)
        with ((pre ++ [fst t; zlen (snd t)]) ++ snd t ++ (encode ts ++ tl ++ post)) by (by rewrite <- app_assoc).
      replace (zlen pre + 2) with (zlen (pre ++ [fst t; zlen (snd t)])) by (rewrite zlen_app; reflexivity).
      by apply parse_vendor_spec. }
    rewrite bind_Ret.
    assert (pre ++ enc1 t ++ encode ts ++ tl ++ post = (pre ++ enc1 t) ++ (encode ts ++ tl) ++ post) as -> by (by rewrite <- !app_assoc).
    replace (zlen pre + 2 + zlen (snd t)) with (zlen (pre ++ enc1 t)) by (rewrite zlen_app, zlen_enc1; lia).
    replace (zlen (snd t) + 2 + zlen (encode ts ++ tl) - 2 - zlen (snd t)) with (zlen (encode ts ++ tl)) by lia.
    rewrite unknowns_cons.
    replace (zlen pre + (zlen (snd t) + 2)) with (zlen (pre ++ enc1 t)) by (rewrite zlen_app, zlen_enc1; lia).
    destruct (tlv_field t); rewrite IH by lia.
    + by rewrite Z.add_0_l.
    + by rewrite Z.add_assoc.
Qed.

(** Any byte string is a list of elements followed by what stops the parser. *)
Lemma elements_of l :
  bytes_ok l -> exists ts tl, l = encode ts ++ tl /\ Forall tlv_bytes ts /\ (tl = [] \/ tail_bad tl).
Proof.
  remember (length l) as n eqn:En. revert l En. induction n as [n IH] using lt_wf_ind. intros l -> Hb.
  destruct l as [|x [|elen rest]].
  - exists [], []. auto.
  - exists [], [x]. split_and!; [done..|]. by right.
  - rewrite !Forall_cons in Hb. destruct Hb as (Hx & He & Hr).
    destruct (Z.lt_ge_cases (zlen rest) elen) as [Hlt|Hge].
    { exists [], (x :: elen :: rest). split_and!; [done..|]. by right. }
    unfold is_byte in He.
    destruct (IH (length (drop (Z.to_nat elen) rest))) with (l := drop (Z.to_nat elen) rest) as (ts & tl & E & Hts & Htl).
    { rewrite length_drop. cbn [length]. lia. }
    { done. }
    { by apply Forall_drop. }
    assert (zlen (take (Z.to_nat elen) rest) = elen) as El by (unfold zlen in *; rewrite length_take; lia).
    exists ((x, take (Z.to_nat elen) rest) :: ts), tl. split_and!; [| |done].
    + rewrite encode_cons, <- app_assoc, <- E. unfold enc1. cbn [fst snd app]. by rewrite El, take_drop.
    + constructor; [|done]. repeat split; cbn [fst snd]; try apply Hx; [lia|]. by apply Forall_take.
Qed.

Lemma record_in_range ts pos e f p n lo hi :
  lo <= pos -> pos + zlen (encode ts) <= hi ->
  (forall g q m, e g = Some (q, m) -> lo <= q /\ 0 <= m /\ q + m <= hi) ->
  record pos ts e f = Some (p, n) -> lo <= p /\ 0 <= n /\ p + n <= hi.
Proof.
  revert pos e. induction ts as [|t ts IH]; intros pos e Hlo Hhi He; cbn [record]; [apply He|].
  rewrite zlen_encode_cons in Hhi. pose proof (zlen_nonneg (snd t)). pose proof (zlen_nonneg (encode ts)).
  apply IH; rewrite ?zlen_enc1; [lia..|].
  intros g q m. destruct (tlv_field t) as [f'|]; [|apply He]. unfold set_elem.
  case_decide; [|apply He]. intros [= <- <-]. lia.
Qed.

Lemma parse_fuel ts tl : (length ts < S (Z.to_nat (zlen (encode ts ++ tl))))%nat.
Proof. pose proof (encode_length_ge ts). pose proof (zlen_nonneg tl). rewrite zlen_app. lia. Qed.

(** On a buffer holding a list of well-formed elements,
    [rtw_ieee802_11_parse_elems] returns [ParseOK] when every element is known
    and [ParseUnknown] otherwise, and leaves in each field the position and
    length of the last element of that kind, vendor elements being classified
    by OUI, type and subtype. *)
Theorem parse_elems_correct pre ts post :
  Forall tlv_bytes ts ->
  rtw_ieee802_11_parse_elems (pre ++ encode ts ++ post) (zlen pre) (zlen (encode ts))
  = Ret (if unknowns ts =? 0 then ParseOK else ParseUnknown, record (zlen pre) ts elems_zero).
Proof.
  intros Hok. unfold rtw_ieee802_11_parse_elems.
  pose proof (parse_fuel ts []) as Hf.
  pose proof (parse_loop_tlvs ts _ pre [] post 0 elems_zero Hok (or_introl eq_refl) Hf) as H.
  rewrite app_nil_r in H. rewrite H. cbn. unfold verdict. by destruct (unknowns ts).
Qed.

Lemma parse_elems_correct_witness :
  rtw_ieee802_11_parse_elems ([7] ++ encode [(0, [65; 66]); (221, [0; 0x50; 0xf2; 4; 9]); (0, [67])] ++ []) 1 14
  = Ret (ParseOK, record 1 [(0, [65; 66]); (221, [0; 0x50; 0xf2; 4; 9]); (0, [67])] elems_zero)
  /\ record 1 [(0, [65; 66]); (221, [0; 0x50; 0xf2; 4; 9]); (0, [67])] elems_zero ssid = Some (14, 1).
Proof.
  split; [|reflexivity].
  apply (parse_elems_correct [7] [(0, [65; 66]); (221, [0; 0x50; 0xf2; 4; 9]); (0, [67])] []).
  repeat constructor; vm_compute; congruence.
Defined.

(** C28: For any bytes and any length that lies in the buffer,
    [rtw_ieee802_11_parse_elems] terminates without reading outside it; every
    pointer it records lies, with its length, inside the given range; and it
    reports [ParseFailed] exactly when the range is not a list of well-formed
    elements. *)
Theorem parse_elems_safe b start len :
  bytes_ok b -> 0 <= start -> 0 <= len -> start + len <= zlen b ->
  exists r e, rtw_ieee802_11_parse_elems b start len = Ret (r, e) /\
    (forall f p n, e f = Some (p, n) -> start <= p /\ 0 <= n /\ p + n <= start + len) /\
    (r = ParseFailed <-> ~ exists ts, Forall tlv_bytes ts /\ take (Z.to_nat len) (drop (Z.to_nat start) b) = encode ts).
Proof.
  intros Hb Hs Hl Hz. set (l := take (Z.to_nat len) (drop (Z.to_nat start) b)).
  assert (bytes_ok l) as Hlb by (by apply Forall_take, Forall_drop).
  set (pre := take (Z.to_nat start) b). set (post := drop (Z.to_nat len) (drop (Z.to_nat start) b)).
  assert (b = pre ++ l ++ post) as Eb by (unfold pre, l, post; by rewrite !take_drop).
  assert (zlen pre = start) as Ep by (unfold zlen, pre in *; rewrite length_take; lia).
  assert (zlen l = len) as El by (unfold zlen, l in *; rewrite length_take, length_drop; lia).
  assert (forall ts tl, l = encode ts ++ tl -> Forall tlv_bytes ts -> tl = [] \/ tail_bad tl ->
    rtw_ieee802_11_parse_elems b start len
    = Ret (if bool_decide (tl = []) then verdict (0 + unknowns ts) else ParseFailed, record start ts elems_zero)) as P.
  { intros ts tl E Hts Htl. unfold rtw_ieee802_11_parse_elems. rewrite Eb, <- Ep, <- El, E.
    apply parse_loop_tlvs; [done..|]. apply parse_fuel. }
  destruct (elements_of l Hlb) as (ts & tl & E & Hts & Htl).
  rewrite (P ts tl E Hts Htl). eexists _, _. split; [done|]. split.
  - intros f p n. apply record_in_range; [lia| |done]. rewrite <- El, E, zlen_app. pose proof (zlen_nonneg tl). lia.
  - split.
    + intros HF (ts' & Hts' & E').
      pose proof (P ts' [] ltac:(by rewrite app_nil_r) Hts' ltac:(by left)) as P1.
      rewrite (P ts tl E Hts Htl) in P1. injection P1 as P1 _. rewrite P1 in HF.
      unfold verdict in HF. by destruct (negb _).
    + intros Hn. rewrite bool_decide_eq_false_2; [done|]. intros ->. apply Hn. exists ts.
      split; [done|]. by rewrite E, app_nil_r.
Qed.

Lemma parse_elems_safe_witness :
  exists r e, rtw_ieee802_11_parse_elems [0; 1; 65; 3; 9; 6] 0 6 = Ret (r, e) /\
    (forall f p n, e f = Some (p, n) -> 0 <= p /\ 0 <= n /\ p + n <= 0 + 6) /\
    (r = ParseFailed <-> ~ exists ts, Forall tlv_bytes ts /\ take (Z.to_nat 6) (drop (Z.to_nat 0) [0; 1; 65; 3; 9; 6]) = encode ts).
Proof.
  apply (parse_elems_safe [0; 1; 65; 3; 9; 6] 0 6);
    [repeat constructor; vm_compute; congruence | lia | lia | vm_compute; congruence].
Defined.
