(* ===== verification/Rsn.v ===== *)
(** * WPA and RSN elements (core/rtw_ieee80211.c)

    The cipher and key-management suite selectors, the parsers of the WPA and
    RSN elements and the search for them in a frame.  Pointers are offsets into
    the frame.  The theorems show that the RSN parser keeps every pointer it
    returns inside the element, that it recovers the fields of an element built
    from them, and that the summary of ciphers and key management is the union
    over the suites of the element. *)

From S2P Require Import Prelude Ie.

(** ** Suites *)

Definition WPA_CIPHER_NONE : Z := BIT 0.
Definition WPA_CIPHER_WEP40 : Z := BIT 1.
Definition WPA_CIPHER_WEP104 : Z := BIT 2.
Definition WPA_CIPHER_TKIP : Z := BIT 3.
Definition WPA_CIPHER_CCMP : Z := BIT 4.
Definition WPA_CIPHER_GCMP : Z := BIT 5.
Definition WPA_CIPHER_GCMP_256 : Z := BIT 6.
Definition WPA_CIPHER_CCMP_256 : Z := BIT 7.
Definition WPA_CIPHER_BIP_CMAC_128 : Z := BIT 8.
Definition WPA_CIPHER_BIP_GMAC_128 : Z := BIT 9.
Definition WPA_CIPHER_BIP_GMAC_256 : Z := BIT 10.
Definition WPA_CIPHER_BIP_CMAC_256 : Z := BIT 11.

(** The value of the first selector of the table equal to the four bytes at
    [s]; the sequence of comparisons of the source. *)
Fixpoint suite_lookup (table : list (bytes * Z)) (b : bytes) (s : Z) : res Z :=
  match table with
  | [] => Ret 0
  | (sel, v) :: table =>
      m ← rtw_memcmp b s sel;
      if (m : bool) then Ret v else suite_lookup table b s
  end.

Definition ms (n : Z) : bytes := [0x00; 0x50; 0xf2; n].
Definition rsn (n : Z) : bytes := [0x00; 0x0f; 0xac; n].

Definition wpa_cipher_suites : list (bytes * Z) :=
  [(ms 0, WPA_CIPHER_NONE);
   (ms 1, WPA_CIPHER_WEP40);
   (ms 2, WPA_CIPHER_TKIP);
   (ms 4, WPA_CIPHER_CCMP);
   (ms 5, WPA_CIPHER_WEP104)].

Definition rsn_cipher_suites : list (bytes * Z) :=
  [(rsn 0, WPA_CIPHER_NONE);
   (rsn 1, WPA_CIPHER_WEP40);
   (rsn 2, WPA_CIPHER_TKIP);
   (rsn 4, WPA_CIPHER_CCMP);
   (rsn 8, WPA_CIPHER_GCMP);
   (rsn 9, WPA_CIPHER_GCMP_256);
   (rsn 10, WPA_CIPHER_CCMP_256);
   (rsn 5, WPA_CIPHER_WEP104);
   (rsn 6, WPA_CIPHER_BIP_CMAC_128);
   (rsn 11, WPA_CIPHER_BIP_GMAC_128);
   (rsn 12, WPA_CIPHER_BIP_GMAC_256);
   (rsn 13, WPA_CIPHER_BIP_CMAC_256)].

(** [WLAN_AKM_TYPE_*] are BIT(0) to BIT(14) in the order of the table. *)
Definition akm_suites : list (bytes * Z) :=
  [(rsn 1, BIT 0);     (* 802.1X *)
   (rsn 2, BIT 1);     (* PSK *)
   (rsn 3, BIT 2);     (* FT 802.1X *)
   (rsn 4, BIT 3);     (* FT PSK *)
   (rsn 5, BIT 4);     (* 802.1X SHA256 *)
   (rsn 6, BIT 5);     (* PSK SHA256 *)
   (rsn 7, BIT 6);     (* TDLS *)
   (rsn 8, BIT 7);     (* SAE *)
   (rsn 9, BIT 8);     (* FT over SAE *)
   (rsn 11, BIT 9);    (* 802.1X Suite B *)
   (rsn 12, BIT 10);   (* 802.1X Suite B 192 *)
   (rsn 14, BIT 11);   (* FILS SHA256 *)
   (rsn 15, BIT 12);   (* FILS SHA384 *)
   (rsn 16, BIT 13);   (* FT FILS SHA256 *)
   (rsn 17, BIT 14)].  (* FT FILS SHA384 *)

Definition rtw_get_wpa_cipher_suite (b : bytes) (s : Z) : res Z := suite_lookup wpa_cipher_suites b s.
Definition rtw_get_rsn_cipher_suite (b : bytes) (s : Z) : res Z := suite_lookup rsn_cipher_suites b s.
Definition rtw_get_akm_suite_bitmap (b : bytes) (s : Z) : res Z := suite_lookup akm_suites b s.

(** The union of [suite] over [n] selectors from [p] on. *)
Fixpoint suites_or (suite : bytes -> Z -> res Z) (n : nat) (b : bytes) (p acc : Z) : res Z :=
  match n with
  | O => Ret acc
  | S n => v ← suite b p; suites_or suite n b (p + 4) (Z.lor acc v)
  end.

(** ** WPA *)

Definition WLAN_AKM_TYPE_8021X : Z := BIT 0.

(** Outputs of [rtw_parse_wpa_ie], with their values before the call; [akm] is
    [None] for a [NULL] pointer. *)
Record wpa_out := mk_wpa { w_group : Z; w_pairwise : Z; w_akm : option Z }.

Definition rtw_parse_wpa_ie (b : bytes) (wpa_ie wpa_ie_len : Z) (o : wpa_out) : res (Z * wpa_out) :=
  if wpa_ie_len <=? 0 then Ret (_FAIL, o)
  else
    id ← rd b wpa_ie;
    if negb ((id : Z) =? _WPA_IE_ID_) then Ret (_FAIL, o) else
    l ← rd b (wpa_ie + 1);
    if negb ((l : Z) =? u8 (wpa_ie_len - 2)) then Ret (_FAIL, o) else
    m ← rtw_memcmp b (wpa_ie + 2) (ms 1);
    if negb (m : bool) then Ret (_FAIL, o) else
    let pos := wpa_ie + 8 in
    let remain := wpa_ie_len - 8 in
    if (remain <? 4) && (0 <? remain) then Ret (_FAIL, o)
    else
      (* group cipher *)
      g ← (if 4 <=? remain
           then v ← rtw_get_wpa_cipher_suite b pos; Ret (pos + 4, remain - 4, mk_wpa v (w_pairwise o) (w_akm o))
           else Ret (pos, remain, o));
      let '(pos, remain, o) := (g : Z * Z * wpa_out) in
      (* pairwise cipher *)
      if remain =? 1 then Ret (_FAIL, o)
      else
        p ← (if 2 <=? remain then
               count ← le16_get b pos;
               let pos := pos + 2 in
               let remain := remain - 2 in
               if ((count : Z) =? 0) || (remain <? count * 4) then Ret None
               else
                 v ← suites_or rtw_get_wpa_cipher_suite (Z.to_nat count) b pos (w_pairwise o);
                 Ret (Some (pos + 4 * count, remain - 4 * count, mk_wpa (w_group o) v (w_akm o)))
             else Ret (Some (pos, remain, o)));
        match (p : option (Z * Z * wpa_out)) with
        | None => Ret (_FAIL, o)
        | Some (pos, remain, o) =>
            match w_akm o with
            | Some _ =>
                if 6 <=? remain then
                  m ← rtw_memcmp b (pos + 2) (ms 1);
                  Ret (_SUCCESS, if (m : bool) then mk_wpa (w_group o) (w_pairwise o) (Some WLAN_AKM_TYPE_8021X) else o)
                else Ret (_SUCCESS, o)
            | None => Ret (_SUCCESS, o)
            end
        end.

(** ** RSN *)

(** [struct rsne_info]; [None] is a null pointer. *)
Record rsne_info := mk_rsne {
  gcs : option Z;
  pcs_cnt : Z;
  pcs_list : option Z;
  akm_cnt : Z;
  akm_list : option Z;
  cap : option Z;
  pmkid_cnt : Z;
  pmkid_list : option Z;
  gmcs : option Z;
  err : Z
}.

Definition rsne_zero : rsne_info := mk_rsne None 0 None 0 None None 0 None None 0.

Definition set_err (i : rsne_info) : rsne_info :=
  mk_rsne (gcs i) (pcs_cnt i) (pcs_list i) (akm_cnt i) (akm_list i) (cap i) (pmkid_cnt i) (pmkid_list i) (gmcs i) 1.

(** Too few bytes left for the next field: success when the element ends
    here, otherwise an error. *)
Definition rsne_stop (eie pos : Z) (i : rsne_info) : res (Z * rsne_info) :=
  if negb (eie =? pos) then Ret (_FAIL, set_err i) else Ret (_SUCCESS, i).

Definition rtw_rsne_info_parse (b : bytes) (ie ie_len : Z) : res (Z * rsne_info) :=
  let eie := ie + ie_len in
  let i := rsne_zero in
  if eie <? ie + 4 then Ret (_FAIL, set_err i)
  else
    id ← rd b ie;
    if negb ((id : Z) =? _WPA2_IE_ID_) then Ret (_FAIL, set_err i) else
    l ← rd b (ie + 1);
    if negb ((l : Z) =? ie_len - 2) then Ret (_FAIL, set_err i) else
    let pos := ie + 4 in
    (* group cipher suite *)
    if eie <? pos + 4 then rsne_stop eie pos i
    else
    let i := mk_rsne (Some pos) 0 None 0 None None 0 None None 0 in
    let pos := pos + 4 in
    (* pairwise cipher suites *)
    if eie <? pos + 2 then rsne_stop eie pos i
    else
    cnt ← le16_get b pos;
    let pos := pos + 2 in
    if eie <? pos + 4 * cnt then rsne_stop eie pos i
    else
    let i := mk_rsne (gcs i) cnt (Some pos) 0 None None 0 None None 0 in
    let pos := pos + 4 * cnt in
    (* key management suites *)
    if eie <? pos + 2 then rsne_stop eie pos i
    else
    cnt ← le16_get b pos;
    let pos := pos + 2 in
    if eie <? pos + 4 * cnt then rsne_stop eie pos i
    else
    let i := mk_rsne (gcs i) (pcs_cnt i) (pcs_list i) cnt (Some pos) None 0 None None 0 in
    let pos := pos + 4 * cnt in
    (* RSN capabilities *)
    if eie <? pos + 2 then rsne_stop eie pos i
    else
    let i := mk_rsne (gcs i) (pcs_cnt i) (pcs_list i) (akm_cnt i) (akm_list i) (Some pos) 0 None None 0 in
    let pos := pos + 2 in
    (* PMKIDs *)
    if eie <? pos + 2 then rsne_stop eie pos i
    else
    cnt ← le16_get b pos;
    let pos := pos + 2 in
    if eie <? pos + 16 * cnt then rsne_stop eie pos i
    else
    let i := mk_rsne (gcs i) (pcs_cnt i) (pcs_list i) (akm_cnt i) (akm_list i) (cap i) cnt (Some pos) None 0 in
    let pos := pos + 16 * cnt in
    (* group management cipher suite *)
    if eie <? pos + 4 then rsne_stop eie pos i
    else
    Ret (_SUCCESS, mk_rsne (gcs i) (pcs_cnt i) (pcs_list i) (akm_cnt i) (akm_list i) (cap i)
                     (pmkid_cnt i) (pmkid_list i) (Some pos) 0).

(** Outputs of [rtw_parse_wpa2_ie] when all its pointers are given. *)
Record wpa2_out := mk_wpa2 {
  o_group : Z; o_pairwise : Z; o_gmcs : Z; o_akm : Z; o_mfp : Z; o_spp : Z
}.

(** [LE_BITS_TO_2BYTE(cap, off, 2)] *)
Definition cap_bits (b : bytes) (p off : Z) : res Z :=
  v ← le16_get b p; Ret (Z.land (Z.shiftr v off) 3).

(** An optional field: its suite, or the default. *)
Definition suite_or_default (b : bytes) (p : option Z) (d : Z) : res Z :=
  match p with Some p => rtw_get_rsn_cipher_suite b p | None => Ret d end.

Definition cap_or_zero (b : bytes) (p : option Z) (off : Z) : res Z :=
  match p with Some p => cap_bits b p off | None => Ret 0 end.

(** A list of [n] suites; the list pointer is set when [n] is not 0. *)
Definition list_or (suite : bytes -> Z -> res Z) (b : bytes) (p : option Z) (n : Z) : res Z :=
  match p with Some p => suites_or suite (Z.to_nat n) b p 0 | None => Ret 0 end.

Definition rtw_parse_wpa2_ie (b : bytes) (rsn_ie rsn_ie_len : Z) : res (Z * option wpa2_out) :=
  r ← rtw_rsne_info_parse b rsn_ie rsn_ie_len;
  let '(ret, i) := (r : Z * rsne_info) in
  if negb (ret =? _SUCCESS) then Ret (ret, None)
  else
    g ← suite_or_default b (gcs i) 0;
    p ← list_or rtw_get_rsn_cipher_suite b (pcs_list i) (pcs_cnt i);
    m ← suite_or_default b (gmcs i) WPA_CIPHER_BIP_CMAC_128;
    a ← list_or rtw_get_akm_suite_bitmap b (akm_list i) (akm_cnt i);
    mfp ← cap_or_zero b (cap i) 6;
    spp ← cap_or_zero b (cap i) 10;
    Ret (ret, Some (mk_wpa2 g p m a mfp spp)).

(** ** Finding the security elements of a frame *)

(** Lengths and copies of the elements found; [None] is no copy made. *)
Record sec_out := mk_sec_out { rsn_len : Z; rsn_copy : option bytes; wpa_len : Z; wpa_copy : option bytes }.

(** The loop of [rtw_get_sec_ie]; the copy reads the whole element. *)
Fixpoint get_sec_loop (fuel : nat) (b : bytes) (in_ie in_len cnt : Z) (o : sec_out) : res sec_out :=
  match fuel with
  | O => NoFuel
  | S fuel =>
      if in_len <=? cnt then Ret o
      else
        authmode ← rd b (in_ie + cnt);
        wpa ← (if (authmode : Z) =? _WPA_IE_ID_ then rtw_memcmp b (in_ie + cnt + 2) (ms 1) else Ret false);
        l ← rd b (in_ie + cnt + 1);
        let next := u32 (cnt + l + 2) in
        if (wpa : bool) then
          c ← rd_slice b (in_ie + cnt) (l + 2);
          get_sec_loop fuel b in_ie in_len next (mk_sec_out (rsn_len o) (rsn_copy o) (l + 2) (Some c))
        else if authmode =? _WPA2_IE_ID_ then
          c ← rd_slice b (in_ie + cnt) (l + 2);
          get_sec_loop fuel b in_ie in_len next (mk_sec_out (l + 2) (Some c) (wpa_len o) (wpa_copy o))
        else get_sec_loop fuel b in_ie in_len next o
  end.

(** Return value and outputs, for copy buffers that are not [NULL]; the
    elements start after the twelve fixed bytes. *)
Definition rtw_get_sec_ie (b : bytes) (in_ie in_len : Z) (o : sec_out) : res (Z * sec_out) :=
  o ← get_sec_loop (S (Z.to_nat in_len)) b in_ie in_len 12 o;
  Ret (rsn_len o + wpa_len o, o).

Definition _WAPI_IE_ : Z := 68.

(** The loop of [rtw_get_wapi_ie]: the last WAPI element is kept. *)
Fixpoint get_wapi_loop (fuel : nat) (b : bytes) (in_ie in_len cnt : Z) (o : Z * option bytes) : res (Z * option bytes) :=
  match fuel with
  | O => NoFuel
  | S fuel =>
      if in_len <=? cnt then Ret o
      else
        authmode ← rd b (in_ie + cnt);
        hit ← (if (authmode : Z) =? _WAPI_IE_ then
                 m ← rtw_memcmp b (in_ie + cnt + 6) [0x00; 0x14; 0x72; 0x01];
                 if (m : bool) then Ret true else rtw_memcmp b (in_ie + cnt + 6) [0x00; 0x14; 0x72; 0x02]
               else Ret false);
        l ← rd b (in_ie + cnt + 1);
        let next := u32 (cnt + l + 2) in
        if (hit : bool) then
          c ← rd_slice b (in_ie + cnt) (l + 2);
          get_wapi_loop fuel b in_ie in_len next (l + 2, Some c)
        else get_wapi_loop fuel b in_ie in_len next o
  end.

(** The returned length and the copy. *)
Definition rtw_get_wapi_ie (b : bytes) (in_ie : option Z) (in_len : Z) : res (Z * option bytes) :=
  match in_ie with
  | None => Ret (0, None)
  | Some p =>
      if in_len <=? 0 then Ret (0, None)
      else get_wapi_loop (S (Z.to_nat in_len)) b p in_len 12 (0, None)
  end.

(** ** Suites as a table *)

Fixpoint suite_of (table : list (bytes * Z)) (s : bytes) : Z :=
  match table with
  | [] => 0
  | (sel, v) :: table => if bool_decide (s = sel) then v else suite_of table s
  end.

(** All selectors have four bytes. *)
Definition table_ok (table : list (bytes * Z)) : Prop := Forall (fun e => length (fst e) = 4%nat) table.

Lemma wpa_table_ok : table_ok wpa_cipher_suites.
Proof. repeat constructor. Qed.
Lemma rsn_table_ok : table_ok rsn_cipher_suites.
Proof. repeat constructor. Qed.
Lemma akm_table_ok : table_ok akm_suites.
Proof. repeat constructor. Qed.
#[export] Hint Resolve wpa_table_ok rsn_table_ok akm_table_ok : rtw.

Lemma suite_lookup_spec table b p i s q :
  table_ok table -> b = p ++ s ++ q -> i = zlen p -> length s = 4%nat ->
  suite_lookup table b i = Ret (suite_of table s).
Proof.
  intros Ht -> -> Hs. induction Ht as [|[sel v] table Hsel Ht IH]; [done|].
  cbn [suite_lookup suite_of fst] in *. unfold rtw_memcmp.
  rewrite Hsel. change (Z.of_nat 4) with 4. assert (4 = zlen s) as -> by (unfold zlen; lia).
  rewrite rd_slice_app, !bind_Ret. by case_bool_decide.
Qed.

(** Any four bytes in the buffer have a suite value. *)
Lemma suite_lookup_safe table b i :
  table_ok table -> 0 <= i -> i + 4 <= zlen b -> exists v, suite_lookup table b i = Ret v.
Proof.
  intros Ht Hi Hb. exists (suite_of table (take 4 (drop (Z.to_nat i) b))).
  apply (suite_lookup_spec table b (take (Z.to_nat i) b) i _ (drop 4 (drop (Z.to_nat i) b))); [done| | |].
  - by rewrite !take_drop.
  - unfold zlen in *. rewrite length_take. lia.
  - unfold zlen in *. rewrite length_take, length_drop. lia.
Qed.

Definition union (table : list (bytes * Z)) (ss : list bytes) (acc : Z) : Z :=
  fold_left (fun a s => Z.lor a (suite_of table s)) ss acc.

Lemma suites_or_spec table ss b p i q acc :
  table_ok table -> Forall (fun s => length s = 4%nat) ss -> b = p ++ concat ss ++ q -> i = zlen p ->
  suites_or (suite_lookup table) (length ss) b i acc = Ret (union table ss acc).
Proof.
  intros Ht Hss. revert p i acc. induction Hss as [|s ss Hs Hss IH]; intros p i acc Hb Hi; [done|].
  cbn [length suites_or concat] in *. rewrite <- app_assoc in Hb.
  rewrite (suite_lookup_spec table b p i s (concat ss ++ q)), bind_Ret by done.
  apply (IH (p ++ s)); [by rewrite <- app_assoc|].
  rewrite zlen_app, Hi. unfold zlen. lia.
Qed.

Lemma suites_or_safe table n b i acc :
  table_ok table -> 0 <= i -> i + 4 * Z.of_nat n <= zlen b ->
  exists v, suites_or (suite_lookup table) n b i acc = Ret v.
Proof.
  intros Ht. revert i acc. induction n as [|n IH]; intros i acc Hi Hb; [by eexists|].
  cbn [suites_or]. destruct (suite_lookup_safe table b i) as (v & ->); [done|lia..|].
  rewrite bind_Ret. apply IH; lia.
Qed.

Lemma le16_get_app b p i z q :
  is_u16 z -> b = p ++ le_split 2 z ++ q -> i = zlen p -> le16_get b i = Ret z.
Proof.
  unfold is_u16. intros Hz -> ->. unfold le16_get. pose proof (zlen_nonneg p).
  assert (le_split 2 z = [z mod 256; z / 256]) as E.
  { cbn [le_split]. change 255 with (Z.ones 8). rewrite !Z.land_ones, Z.shiftr_div_pow2 by lia.
    change (2 ^ 8) with 256. rewrite (Z.mod_small (z / 256)); [done|].
    split; [apply Z.div_pos; lia|apply Z.div_lt_upper_bound; lia]. }
  rewrite E.
  assert (rd (p ++ [z mod 256; z / 256] ++ q) (zlen p) = Ret (z mod 256)) as ->
    by (rewrite rd_app_r, Z.sub_diag by lia; reflexivity).
  assert (rd (p ++ [z mod 256; z / 256] ++ q) (zlen p + 1) = Ret (z / 256)) as ->
    by (rewrite rd_app_r by lia; replace (zlen p + 1 - zlen p) with 1 by lia; reflexivity).
  rewrite !bind_Ret. pose proof (Z.mod_pos_bound z 256).
  rewrite (lor_shiftl_add (z / 256) (z mod 256) 8) by lia.
  pose proof (Z.div_mod z 256). rewrite u16_small by (unfold is_u16; lia). f_equal. lia.
Qed.

Lemma le16_get_safe b i : bytes_ok b -> 0 <= i -> i + 2 <= zlen b -> exists v, le16_get b i = Ret v /\ is_u16 v.
Proof.
  intros Hb Hi Hz. unfold le16_get.
  destruct (rd_in_bounds b i) as (x & -> & _); [lia|]. destruct (rd_in_bounds b (i + 1)) as (y & -> & _); [lia|].
  rewrite !bind_Ret. eexists. split; [done|]. auto with rtw.
Qed.

(** ** Bounds of the RSN parser *)

(** A pointer is null or has [n] bytes of the element after it. *)
Definition ptr_in (ie eie : Z) (p : option Z) (n : Z) : Prop :=
  match p with None => True | Some p => ie <= p /\ 0 <= n /\ p + n <= eie end.

Definition rsne_in (ie eie : Z) (i : rsne_info) : Prop :=
  ptr_in ie eie (gcs i) 4 /\ ptr_in ie eie (pcs_list i) (4 * pcs_cnt i) /\
  ptr_in ie eie (akm_list i) (4 * akm_cnt i) /\ ptr_in ie eie (cap i) 2 /\
  ptr_in ie eie (pmkid_list i) (16 * pmkid_cnt i) /\ ptr_in ie eie (gmcs i) 4.

Lemma rsne_stop_in ie eie pos i :
  rsne_in ie eie i -> exists r j, rsne_stop eie pos i = Ret (r, j) /\ rsne_in ie eie j.
Proof. intros H. unfold rsne_stop. destruct (negb _); eexists _, _; (split; [done|]); exact H. Qed.

Ltac rsne_step :=
  match goal with
  | |- context [if ?c then rsne_stop _ _ _ else _] =>
      destruct c eqn:?; [apply rsne_stop_in; unfold rsne_in, ptr_in; simpl; lia|]
  | |- context [le16_get ?b ?p] =>
      let v := fresh "n" in let E := fresh "E" in let H := fresh "Hn" in
      destruct (le16_get_safe b p) as (v & E & H); [done|lia..|]; rewrite E, bind_Ret; unfold is_u16 in H
  end.

Lemma rsne_info_parse_in b ie ie_len :
  bytes_ok b -> 0 <= ie -> 0 <= ie_len -> ie + ie_len <= zlen b ->
  exists r i, rtw_rsne_info_parse b ie ie_len = Ret (r, i) /\ rsne_in ie (ie + ie_len) i.
Proof.
  intros Hb Hie Hl Hz. unfold rtw_rsne_info_parse.
  assert (rsne_in ie (ie + ie_len) (set_err rsne_zero)) as H0 by (unfold rsne_in; simpl; tauto).
  destruct (Z.ltb_spec (ie + ie_len) (ie + 4)); [eexists _, _; split; [done|exact H0]|].
  destruct (rd_in_bounds b ie) as (x & -> & _); [lia|]. rewrite bind_Ret.
  destruct (negb (x =? _WPA2_IE_ID_)); [eexists _, _; split; [done|exact H0]|].
  destruct (rd_in_bounds b (ie + 1)) as (l & -> & _); [lia|]. rewrite bind_Ret.
  destruct (negb (l =? ie_len - 2)); [eexists _, _; split; [done|exact H0]|].
  repeat (rsne_step; rewrite ?Z.ltb_ge in * ).
  eexists _, _. split; [reflexivity|]. unfold rsne_in, ptr_in. simpl. lia.
Qed.

Lemma cap_bits_safe b i off : bytes_ok b -> 0 <= i -> i + 2 <= zlen b -> exists v, cap_bits b i off = Ret v.
Proof.
  intros Hb Hi Hz. unfold cap_bits. destruct (le16_get_safe b i) as (v & -> & _); [done..|]. by eexists.
Qed.

(** The optional fields can be read when their pointers are in range. *)
Lemma suite_or_default_safe b ie eie p d :
  0 <= ie -> eie <= zlen b -> ptr_in ie eie p 4 -> exists v, suite_or_default b p d = Ret v.
Proof.
  intros Hi Hz Hp. destruct p as [p|]; [|by eexists]. cbn in Hp.
  apply suite_lookup_safe; [auto with rtw|lia..].
Qed.

Lemma list_or_safe table b ie eie p n :
  table_ok table -> 0 <= ie -> eie <= zlen b -> ptr_in ie eie p (4 * n) ->
  exists v, list_or (suite_lookup table) b p n = Ret v.
Proof.
  intros Ht Hi Hz Hp. destruct p as [p|]; [|by eexists]. cbn in Hp. apply suites_or_safe; [done|lia..].
Qed.

Lemma cap_or_zero_safe b ie eie p off :
  bytes_ok b -> 0 <= ie -> eie <= zlen b -> ptr_in ie eie p 2 -> exists v, cap_or_zero b p off = Ret v.
Proof.
  intros Hb Hi Hz Hp. destruct p as [p|]; [|by eexists]. cbn in Hp. apply cap_bits_safe; [done|lia..].
Qed.

(** For any bytes, [rtw_rsne_info_parse] and [rtw_parse_wpa2_ie] read only
    inside the element they are given, and every pointer that
    [rtw_rsne_info_parse] stores lies in the element together with the bytes
    its count promises. *)
Theorem rsne_parse_in_bounds b ie ie_len :
  bytes_ok b -> 0 <= ie -> 0 <= ie_len -> ie + ie_len <= zlen b ->
  (exists r i, rtw_rsne_info_parse b ie ie_len = Ret (r, i) /\ rsne_in ie (ie + ie_len) i) /\
  (exists r o, rtw_parse_wpa2_ie b ie ie_len = Ret (r, o)).
Proof.
  intros Hb Hie Hl Hz.
  destruct (rsne_info_parse_in b ie ie_len Hb Hie Hl Hz) as (r & i & E & Hi).
  split; [by exists r, i|]. unfold rtw_parse_wpa2_ie. rewrite E, bind_Ret.
  destruct (negb (r =? _SUCCESS)); [by eexists _, _|].
  destruct Hi as (H1 & H2 & H3 & H4 & H5 & H6).
  destruct (suite_or_default_safe b _ _ _ 0 Hie Hz H1) as (g & ->). rewrite bind_Ret.
  destruct (list_or_safe rsn_cipher_suites b _ _ _ _ rsn_table_ok Hie Hz H2) as (p & Ep).
  change (suite_lookup rsn_cipher_suites) with rtw_get_rsn_cipher_suite in Ep. rewrite Ep, bind_Ret.
  destruct (suite_or_default_safe b _ _ _ WPA_CIPHER_BIP_CMAC_128 Hie Hz H6) as (m & ->). rewrite bind_Ret.
  destruct (list_or_safe akm_suites b _ _ _ _ akm_table_ok Hie Hz H3) as (a & Ea).
  change (suite_lookup akm_suites) with rtw_get_akm_suite_bitmap in Ea. rewrite Ea, bind_Ret.
  destruct (cap_or_zero_safe b _ _ _ 6 Hb Hie Hz H4) as (x & ->). rewrite bind_Ret.
  destruct (cap_or_zero_safe b _ _ _ 10 Hb Hie Hz H4) as (y & ->). rewrite bind_Ret.
  by eexists _, _.
Qed.

Lemma rsne_parse_in_bounds_witness :
  let b := [48; 12; 1; 0; 0; 15; 172; 4; 255; 255; 0; 15; 172; 4] in
  (exists r i, rtw_rsne_info_parse b 0 14 = Ret (r, i) /\ rsne_in 0 (0 + 14) i) /\
  (exists r o, rtw_parse_wpa2_ie b 0 14 = Ret (r, o)).
Proof.
  apply (rsne_parse_in_bounds [48; 12; 1; 0; 0; 15; 172; 4; 255; 255; 0; 15; 172; 4] 0 14);
    [repeat constructor; vm_compute; congruence | lia | lia | vm_compute; congruence].
Defined.

(** ** Building and parsing an RSN element *)

Record rsne := mk_rsn {
  f_version : bytes;
  f_gcs : bytes;
  f_pcs : list bytes;
  f_akm : list bytes;
  f_cap : Z;
  f_pmkid : list bytes;
  f_gmcs : bytes
}.

Definition suites_len (n : nat) (l : list bytes) : Prop := Forall (fun s => length s = n) l.

Record rsne_ok (r : rsne) : Prop := {
  ok_version : length (f_version r) = 2%nat;
  ok_gcs : length (f_gcs r) = 4%nat;
  ok_pcs : suites_len 4 (f_pcs r);
  ok_akm : suites_len 4 (f_akm r);
  ok_cap : is_u16 (f_cap r);
  ok_pmkid : suites_len 16 (f_pmkid r);
  ok_gmcs : length (f_gmcs r) = 4%nat
}.

Definition rsne_body (r : rsne) : bytes :=
  f_version r ++ f_gcs r ++
  le_split 2 (zlen (f_pcs r)) ++ concat (f_pcs r) ++
  le_split 2 (zlen (f_akm r)) ++ concat (f_akm r) ++
  le_split 2 (f_cap r) ++
  le_split 2 (zlen (f_pmkid r)) ++ concat (f_pmkid r) ++
  f_gmcs r.

Definition enc_rsne (r : rsne) : bytes := enc1 (_WPA2_IE_ID_, rsne_body r).

Lemma zlen_concat n l : suites_len n l -> zlen (concat l) = Z.of_nat n * zlen l.
Proof.
  induction 1 as [|s l Hs Hl IH]; [unfold zlen; simpl; lia|].
  cbn [concat]. rewrite zlen_app, IH, zlen_cons. unfold zlen at 1. rewrite Hs. lia.
Qed.

Lemma zlen_le2 z : zlen (le_split 2 z) = 2.
Proof. reflexivity. Qed.

Lemma zlen_enc_rsne r :
  rsne_ok r ->
  zlen (enc_rsne r) = 20 + 4 * zlen (f_pcs r) + 4 * zlen (f_akm r) + 16 * zlen (f_pmkid r) /\
  zlen (rsne_body r) = zlen (enc_rsne r) - 2.
Proof.
  intros [Hv Hg Hp Ha Hc Hm Hgm]. unfold enc_rsne. rewrite zlen_enc1. cbn [snd]. split; [|lia].
  unfold rsne_body. rewrite !zlen_app, !zlen_le2, (zlen_concat 4 _ Hp), (zlen_concat 4 _ Ha), (zlen_concat 16 _ Hm).
  assert (zlen (f_version r) = 2) by (unfold zlen; lia). assert (zlen (f_gcs r) = 4) by (unfold zlen; lia).
  assert (zlen (f_gmcs r) = 4) by (unfold zlen; lia). lia.
Qed.

(** [view x]: the field starts after the prefix [x] of the buffer. *)
Ltac view x := exists x; eexists; split;
    [match goal with E : _ = _ ++ _ ++ (_ ++ _) ++ _ |- _ => rewrite E end; rewrite <- !app_assoc; reflexivity
    | rewrite !zlen_app; lia].

(** [enough_left]: the next bounds check of the parser succeeds. *)
Ltac enough_left := match goal with |- context [if ?x <? ?y then _ else _] =>
    destruct (Z.ltb_spec x y); [exfalso; lia|] end.

(** The fields of the element in the buffer, each between the bytes before
    and after it. *)
Lemma rsne_view pre r post :
  rsne_ok r ->
  let ie := zlen pre in
  let B := pre ++ enc_rsne r ++ post in
  let pcs := ie + 10 in
  let akm := pcs + 4 * zlen (f_pcs r) + 2 in
  let c := akm + 4 * zlen (f_akm r) in
  let gm := c + 4 + 16 * zlen (f_pmkid r) in
  (exists p q, B = p ++ f_gcs r ++ q /\ ie + 4 = zlen p) /\
  (exists p q, B = p ++ le_split 2 (zlen (f_pcs r)) ++ q /\ ie + 8 = zlen p) /\
  (exists p q, B = p ++ concat (f_pcs r) ++ q /\ pcs = zlen p) /\
  (exists p q, B = p ++ le_split 2 (zlen (f_akm r)) ++ q /\ pcs + 4 * zlen (f_pcs r) = zlen p) /\
  (exists p q, B = p ++ concat (f_akm r) ++ q /\ akm = zlen p) /\
  (exists p q, B = p ++ le_split 2 (f_cap r) ++ q /\ c = zlen p) /\
  (exists p q, B = p ++ le_split 2 (zlen (f_pmkid r)) ++ q /\ c + 2 = zlen p) /\
  (exists p q, B = p ++ f_gmcs r ++ q /\ gm = zlen p).
Proof.
  intros [Hv Hg Hp Ha Hc Hm Hgm] ie B pcs akm c gm.
  pose proof (zlen_concat 4 _ Hp) as Zp. pose proof (zlen_concat 4 _ Ha) as Za. pose proof (zlen_concat 16 _ Hm) as Zm.
  assert (zlen (f_version r) = 2) as Zv by (unfold zlen; lia). assert (zlen (f_gcs r) = 4) as Zg by (unfold zlen; lia).
  set (h := [_WPA2_IE_ID_; zlen (rsne_body r)]). assert (zlen h = 2) as Zh by done.
  assert (B = pre ++ h ++ rsne_body r ++ post) as EB by done.
  unfold rsne_body in EB.
  set (np := le_split 2 (zlen (f_pcs r))) in *. set (na := le_split 2 (zlen (f_akm r))) in *.
  set (cp := le_split 2 (f_cap r)) in *. set (nm := le_split 2 (zlen (f_pmkid r))) in *.
  assert (zlen np = 2 /\ zlen na = 2 /\ zlen cp = 2 /\ zlen nm = 2) as (Znp & Zna & Zcp & Znm) by done.
  set (v := f_version r) in *. set (g := f_gcs r) in *. set (P := concat (f_pcs r)) in *. set (A := concat (f_akm r)) in *.
  set (M := concat (f_pmkid r)) in *.
  split_and!.
  - view (pre ++ h ++ v).
  - view (pre ++ h ++ v ++ g).
  - view (pre ++ h ++ v ++ g ++ np).
  - view (pre ++ h ++ v ++ g ++ np ++ P).
  - view (pre ++ h ++ v ++ g ++ np ++ P ++ na).
  - view (pre ++ h ++ v ++ g ++ np ++ P ++ na ++ A).
  - view (pre ++ h ++ v ++ g ++ np ++ P ++ na ++ A ++ cp).
  - view (pre ++ h ++ v ++ g ++ np ++ P ++ na ++ A ++ cp ++ nm ++ M).
Qed.

(** The parser's view of the element [enc_rsne r] at offset [ie]. *)
Lemma rsne_info_parse_enc pre r post :
  rsne_ok r -> zlen (rsne_body r) < 256 ->
  let ie := zlen pre in
  let pcs := ie + 10 in
  let akm := pcs + 4 * zlen (f_pcs r) + 2 in
  let c := akm + 4 * zlen (f_akm r) in
  let pm := c + 4 in
  let gm := pm + 16 * zlen (f_pmkid r) in
  rtw_rsne_info_parse (pre ++ enc_rsne r ++ post) ie (zlen (enc_rsne r))
  = Ret (_SUCCESS, mk_rsne (Some (ie + 4)) (zlen (f_pcs r)) (Some pcs) (zlen (f_akm r)) (Some akm)
                     (Some c) (zlen (f_pmkid r)) (Some pm) (Some gm) 0).
Proof.
  intros Hok Hlt ie pcs akm c pm gm. destruct (zlen_enc_rsne r Hok) as [Ze Zb].
  pose proof (rsne_view pre r post Hok) as V. cbn zeta in V.
  destruct V as (_ & (p1 & q1 & B1 & Z1) & _ & (p2 & q2 & B2 & Z2) & _ & _ & (p3 & q3 & B3 & Z3) & _).
  pose proof (zlen_nonneg (f_pcs r)). pose proof (zlen_nonneg (f_akm r)). pose proof (zlen_nonneg (f_pmkid r)).
  pose proof (le16_get_app _ _ _ (zlen (f_pcs r)) _ ltac:(unfold is_u16; lia) B1 Z1) as E1.
  pose proof (le16_get_app _ _ _ (zlen (f_akm r)) _ ltac:(unfold is_u16; lia) B2 Z2) as E2.
  pose proof (le16_get_app _ _ _ (zlen (f_pmkid r)) _ ltac:(unfold is_u16; lia) B3 Z3) as E3.
  assert (rd (pre ++ enc_rsne r ++ post) ie = Ret 48) as R0 by apply rd_enc1_id.
  assert (rd (pre ++ enc_rsne r ++ post) (ie + 1) = Ret (zlen (rsne_body r))) as R1 by apply rd_enc1_len.
  clear p1 q1 B1 Z1 p2 q2 B2 Z2 p3 q3 B3 Z3. fold ie in E1, E2, E3.
  generalize dependent (pre ++ enc_rsne r ++ post). intros B E1 E2 E3 R0 R1.
  unfold rtw_rsne_info_parse. rewrite R0, R1, Zb, Ze, !bind_Ret.
  set (n1 := zlen (f_pcs r)) in *. set (n2 := zlen (f_akm r)) in *. set (n3 := zlen (f_pmkid r)) in *.
  set (eie := ie + (20 + 4 * n1 + 4 * n2 + 16 * n3)).
  enough_left. cbn [negb Z.eqb _WPA2_IE_ID_ Pos.eqb].
  replace (_ - 2 =? _ - 2) with true by lia. cbn [negb].
  do 2 enough_left. replace (ie + 4 + 4) with (ie + 8) by lia. rewrite E1, bind_Ret.
  do 2 enough_left. replace (ie + 8 + 2 + 4 * n1) with (ie + 10 + 4 * n1) by lia. rewrite E2, bind_Ret.
  do 3 enough_left. rewrite E3, bind_Ret.
  do 2 enough_left. cbn [gcs pcs_cnt pcs_list akm_cnt akm_list cap pmkid_cnt pmkid_list].
  unfold gm, pm, c, akm, pcs. do 3 f_equal; f_equal; lia.
Qed.

(** [rtw_parse_wpa2_ie] on an RSN element built from its fields returns the
    suite of the group cipher, the union of the pairwise ciphers, the suite of
    the group management cipher, the union of the key-management suites, and
    the management-frame-protection and SPP bits of the capabilities. *)
Theorem parse_wpa2_ie_roundtrip pre r post :
  rsne_ok r -> zlen (rsne_body r) < 256 ->
  rtw_parse_wpa2_ie (pre ++ enc_rsne r ++ post) (zlen pre) (zlen (enc_rsne r))
  = Ret (_SUCCESS, Some (mk_wpa2
      (suite_of rsn_cipher_suites (f_gcs r))
      (union rsn_cipher_suites (f_pcs r) 0)
      (suite_of rsn_cipher_suites (f_gmcs r))
      (union akm_suites (f_akm r) 0)
      (Z.land (Z.shiftr (f_cap r) 6) 3)
      (Z.land (Z.shiftr (f_cap r) 10) 3))).
Proof.
  intros Hok Hlt. unfold rtw_parse_wpa2_ie.
  rewrite (rsne_info_parse_enc pre r post Hok Hlt), bind_Ret. cbn [negb Z.eqb _SUCCESS Pos.eqb].
  cbn [gcs pcs_cnt pcs_list akm_cnt akm_list cap pmkid_cnt pmkid_list gmcs suite_or_default list_or cap_or_zero].
  pose proof (rsne_view pre r post Hok) as V. cbn zeta in V.
  destruct V as ((p1 & q1 & B1 & Z1) & _ & (p2 & q2 & B2 & Z2) & _ & (p3 & q3 & B3 & Z3) & (p4 & q4 & B4 & Z4) & _ & (p5 & q5 & B5 & Z5)).
  destruct Hok as [Hv Hg Hp Ha Hc Hm Hgm].
  unfold rtw_get_rsn_cipher_suite, rtw_get_akm_suite_bitmap, cap_bits.
  rewrite (suite_lookup_spec rsn_cipher_suites _ _ _ _ _ rsn_table_ok B1 Z1 Hg), bind_Ret.
  replace (Z.to_nat (zlen (f_pcs r))) with (length (f_pcs r)) by (unfold zlen; lia).
  replace (Z.to_nat (zlen (f_akm r))) with (length (f_akm r)) by (unfold zlen; lia).
  pose proof (suites_or_spec rsn_cipher_suites _ _ _ _ _ 0 rsn_table_ok Hp B2 Z2) as S2.
  change (suite_lookup rsn_cipher_suites) with (fun b s => suite_lookup rsn_cipher_suites b s) in S2. rewrite S2, bind_Ret.
  rewrite (suite_lookup_spec rsn_cipher_suites _ _ _ _ _ rsn_table_ok B5 Z5 Hgm), bind_Ret.
  pose proof (suites_or_spec akm_suites _ _ _ _ _ 0 akm_table_ok Ha B3 Z3) as S3.
  change (suite_lookup akm_suites) with (fun b s => suite_lookup akm_suites b s) in S3. rewrite S3, bind_Ret.
  by rewrite (le16_get_app _ _ _ (f_cap r) _ Hc B4 Z4), !bind_Ret.
Qed.

(** WPA2-PSK and SAE with CCMP, management frame protection optional. *)
Definition ex_rsne : rsne :=
  mk_rsn [1; 0] (rsn 4) [rsn 4; rsn 2] [rsn 2; rsn 8] 0x80 [] (rsn 6).

Lemma parse_wpa2_ie_roundtrip_witness :
  rtw_parse_wpa2_ie ([] ++ enc_rsne ex_rsne ++ [9]) 0 36
  = Ret (_SUCCESS, Some (mk_wpa2 WPA_CIPHER_CCMP (Z.lor WPA_CIPHER_CCMP WPA_CIPHER_TKIP) WPA_CIPHER_BIP_CMAC_128
      (Z.lor (BIT 1) (BIT 7)) 2 0)).
Proof.
  apply (parse_wpa2_ie_roundtrip [] ex_rsne [9]); [|reflexivity].
  split; try reflexivity; try (repeat constructor); vm_compute; congruence.
Defined.
