(* ===== verification/RsnRead.v ===== *)
(** * RSN elements of any shape

    What an RSN element says, read off its bytes whichever optional fields it
    has and wherever it ends, and the proof that [rtw_rsne_info_parse] and
    [rtw_parse_wpa2_ie] of Rsn.v find exactly that. *)

From S2P Require Import Prelude Ie Rsn.

(** ** Reading

    The reader takes the fields off the front of the body; where too little is
    left for the next one, the element is well formed only if nothing is
    left. *)

Record rsn_asks := mk_asks {
  q_group : option bytes;
  q_pairwise : list bytes;
  q_akm : list bytes;
  q_cap : option Z;
  q_gmcs : option bytes
}.

(** The first [n] bytes and the rest. *)
Definition bite (n : Z) (l : bytes) : option (bytes * bytes) :=
  if n <=? zlen l then Some (take (Z.to_nat n) l, drop (Z.to_nat n) l) else None.

Definition le16_of (x : bytes) : Z := znth x 0 + 256 * znth x 1.

Fixpoint groups (w n : nat) (l : bytes) : list bytes :=
  match n with O => [] | S n => take w l :: groups w n (drop w l) end.

(** A 16-bit count and as many items of [w] bytes, if they are there, and what
    is left; a count without its items is taken off all the same. *)
Definition bite_list (w : nat) (l : bytes) : option (list bytes) * bytes :=
  match bite 2 l with
  | None => (None, l)
  | Some (c, l) =>
      match bite (Z.of_nat w * le16_of c) l with
      | None => (None, l)
      | Some (x, l) => (Some (groups w (Z.to_nat (le16_of c)) x), l)
      end
  end.

Definition ends {A : Type} (l : bytes) (q : A) : option A := match l with [] => Some q | _ => None end.

Definition read_rsne (body : bytes) : option rsn_asks :=
  match bite 2 body with
  | None => None
  | Some (_, l) =>
      match bite 4 l with
      | None => ends l (mk_asks None [] [] None None)
      | Some (g, l) =>
          match bite_list 4 l with
          | (None, l) => ends l (mk_asks (Some g) [] [] None None)
          | (Some ps, l) =>
              match bite_list 4 l with
              | (None, l) => ends l (mk_asks (Some g) ps [] None None)
              | (Some ks, l) =>
                  match bite 2 l with
                  | None => ends l (mk_asks (Some g) ps ks None None)
                  | Some (c, l) =>
                      match bite_list 16 l with
                      | (None, l) => ends l (mk_asks (Some g) ps ks (Some (le16_of c)) None)
                      | (Some _, l) =>
                          match bite 4 l with
                          | None => ends l (mk_asks (Some g) ps ks (Some (le16_of c)) None)
                          | Some (m, _) => Some (mk_asks (Some g) ps ks (Some (le16_of c)) (Some m))
                          end
                      end
                  end
              end
          end
      end
  end.

Lemma bite_Some n l x r : 0 <= n -> bite n l = Some (x, r) -> l = x ++ r /\ zlen x = n.
Proof.
  unfold bite. intros Hn. destruct (Z.leb_spec n (zlen l)); [|done]. intros [= <- <-].
  rewrite take_drop. split; [done|]. unfold zlen in *. rewrite length_take. lia.
Qed.

Lemma bite_None n l : bite n l = None -> zlen l < n.
Proof. unfold bite. by destruct (Z.leb_spec n (zlen l)). Qed.

Lemma groups_ok w n l : zlen l = Z.of_nat w * Z.of_nat n ->
  concat (groups w n l) = l /\ length (groups w n l) = n /\ suites_len w (groups w n l).
Proof.
  revert l. induction n as [|n IH]; intros l H; cbn [groups concat length].
  - unfold zlen in H. assert (length l = 0%nat) as ->%length_zero_iff_nil by lia. repeat split. constructor.
  - unfold zlen in *. destruct (IH (drop w l)) as (E1 & E2 & E3); [rewrite length_drop; lia|].
    rewrite E1, E2, take_drop. repeat split. constructor; [|done]. rewrite length_take. lia.
Qed.

(** The items in the buffer, the position [k] behind them. *)
Definition item_at (b : bytes) (p : option Z) (x : option bytes) : Prop :=
  match p, x with
  | None, None => True
  | Some p, Some x => length x = 4%nat /\ exists u v, b = u ++ x ++ v /\ p = zlen u
  | _, _ => False
  end.

Definition items_at (b : bytes) (p : option Z) (n : Z) (xs : list bytes) : Prop :=
  match p with
  | None => n = 0 /\ xs = []
  | Some p => n = zlen xs /\ suites_len 4 xs /\ exists u v, b = u ++ concat xs ++ v /\ p = zlen u
  end.

Definition cap_at (b : bytes) (p : option Z) (x : option Z) : Prop :=
  match p, x with None, None => True | Some p, Some x => le16_get b p = Ret x | _, _ => False end.

Record shows_rsne (b : bytes) (i : rsne_info) (q : rsn_asks) : Prop := {
  sh_group : item_at b (gcs i) (q_group q);
  sh_pairwise : items_at b (pcs_list i) (pcs_cnt i) (q_pairwise q);
  sh_akm : items_at b (akm_list i) (akm_cnt i) (q_akm q);
  sh_cap : cap_at b (cap i) (q_cap q);
  sh_gmcs : item_at b (gmcs i) (q_gmcs q)
}.

Definition parsed (b : bytes) (o : option rsn_asks) (r : res (Z * rsne_info)) : Prop :=
  match o with
  | Some q => exists i, r = Ret (_SUCCESS, i) /\ shows_rsne b i q
  | None => exists i, r = Ret (_FAIL, i)
  end.

Lemma stop_ends b l eie pos i q : eie = pos + zlen l -> shows_rsne b i q -> parsed b (ends l q) (rsne_stop eie pos i).
Proof.
  intros -> S. unfold rsne_stop, ends. destruct l as [|x l]; cbn [parsed].
  - change (zlen []) with 0. rewrite Z.add_0_r, Z.eqb_refl. by exists i.
  - rewrite zlen_cons. pose proof (zlen_nonneg l). destruct (Z.eqb_spec (pos + (1 + zlen l)) pos); [lia|]. by eexists.
Qed.

Lemma le16_get_of b u x v : bytes_ok x -> zlen x = 2 -> b = u ++ x ++ v -> le16_get b (zlen u) = Ret (le16_of x) /\ is_u16 (le16_of x).
Proof.
  intros Hx Hz ->. destruct x as [|x0 [|x1 [|]]]; try (unfold zlen in Hz; cbn in Hz; lia).
  apply Forall_cons in Hx as [H0 [H1 _]%Forall_cons].
  pose proof (zlen_nonneg u). unfold le16_get. rewrite (rd_app_r u _ (zlen u)), (rd_app_r u _ (zlen u + 1)) by lia.
  replace (zlen u - zlen u) with 0 by lia. replace (zlen u + 1 - zlen u) with 1 by lia. cbn [app].
  change (rd (x0 :: x1 :: v) 0) with (Ret x0). change (rd (x0 :: x1 :: v) 1) with (Ret x1). rewrite !bind_Ret.
  unfold le16_of. change (znth [x0; x1] 0) with x0. change (znth [x0; x1] 1) with x1. unfold is_byte, is_u16 in *.
  rewrite (lor_shiftl_add x1 x0 8) by lia. rewrite u16_small by (unfold is_u16; lia). split; [f_equal; lia|lia].
Qed.

(** A list in front of the position [pos]: the bounds checks of the parser and
    what the reader takes off agree. *)
Lemma bite_list_spec w b u l v :
  bytes_ok l -> b = u ++ l ++ v ->
  match bite_list w l with
  | (None, l') =>
      (zlen l < 2 /\ l' = l) \/
      (2 <= zlen l /\ exists n, le16_get b (zlen u) = Ret n /\ zlen l = 2 + zlen l' /\ zlen l' < Z.of_nat w * n)
  | (Some xs, l') =>
      2 <= zlen l /\ le16_get b (zlen u) = Ret (zlen xs) /\ suites_len w xs /\ zlen l = 2 + Z.of_nat w * zlen xs + zlen l' /\
      exists c, zlen c = 2 /\ l = c ++ concat xs ++ l'
  end.
Proof.
  intros Hl Hb. unfold bite_list. destruct (bite 2 l) as [[c l1]|] eqn:E1; [|left; apply bite_None in E1; auto].
  apply bite_Some in E1 as [-> Zc]; [|lia]. apply Forall_app in Hl as [Hc Hl1].
  rewrite <- app_assoc in Hb. destruct (le16_get_of b u c _ Hc Zc Hb) as [G U]. unfold is_u16 in U.
  rewrite !zlen_app, Zc. pose proof (zlen_nonneg l1).
  destruct (bite (Z.of_nat w * le16_of c) l1) as [[x l2]|] eqn:E2.
  - apply bite_Some in E2 as [-> Zx]; [|lia]. set (n := le16_of c) in *.
    destruct (groups_ok w (Z.to_nat n) x) as (C & L & S); [lia|].
    assert (zlen (groups w (Z.to_nat n) x) = n) as Zg by (unfold zlen; lia). rewrite Zg, C, zlen_app, Zx.
    pose proof (zlen_nonneg l2). split_and!; try done; try nia. by exists c.
  - apply bite_None in E2. right. split; [lia|]. exists (le16_of c). split_and!; auto; lia.
Qed.

Ltac shows := split; cbn [gcs pcs_cnt pcs_list akm_cnt akm_list cap gmcs q_group q_pairwise q_akm q_cap q_gmcs]; auto; try done.

(** [stops]: too few bytes are left, the parser stops here. *)
Ltac stops := match goal with |- context [if ?x <? ?y then _ else _] =>
    destruct (Z.ltb_spec x y); [apply stop_ends; [lia|by shows]|exfalso; lia] end.

(** The position [p] of the buffer, with the rest [l] of the element behind it. *)
Definition at_pos (b post : bytes) (p : Z) (l : bytes) : Prop := exists h, zlen h = p /\ b = h ++ l ++ post.

Lemma at_pos_app b post p x l : at_pos b post p (x ++ l) -> at_pos b post (p + zlen x) l.
Proof. intros (h & <- & ->). exists (h ++ x). rewrite zlen_app, <- !app_assoc. done. Qed.

Lemma bite_at b post p n l x r :
  0 <= n -> at_pos b post p l -> bytes_ok l -> bite n l = Some (x, r) ->
  zlen l = n + zlen r /\ bytes_ok r /\ bytes_ok x /\ zlen x = n /\ at_pos b post (p + n) r /\ exists u v, b = u ++ x ++ v /\ p = zlen u.
Proof.
  intros Hn (h & Z & B) Hb E. apply bite_Some in E as [-> Zx]; [|done]. apply Forall_app in Hb as [Hx Hr]. rewrite zlen_app, Zx.
  split_and!; auto.
  - rewrite <- Zx. apply at_pos_app. by exists h.
  - exists h, (r ++ post). by rewrite B, <- app_assoc.
Qed.

(** One counted list: the two bounds checks of the parser and the reader. *)
Lemma bite_list_at w b post p l :
  at_pos b post p l -> bytes_ok l ->
  match bite_list w l with
  | (None, l') =>
      (zlen l < 2 /\ l' = l) \/
      (2 <= zlen l /\ exists n, le16_get b p = Ret n /\ zlen l = 2 + zlen l' /\ zlen l' < Z.of_nat w * n)
  | (Some xs, l') =>
      2 <= zlen l /\ le16_get b p = Ret (zlen xs) /\ suites_len w xs /\ zlen l = 2 + Z.of_nat w * zlen xs + zlen l' /\ bytes_ok l' /\
      at_pos b post (p + 2 + Z.of_nat w * zlen xs) l' /\ exists u v, b = u ++ concat xs ++ v /\ p + 2 = zlen u
  end.
Proof.
  intros (h & <- & B) Hl. pose proof (bite_list_spec w b h l post Hl B) as P. destruct (bite_list w l) as [[xs|] l']; [|exact P].
  destruct P as (P & G & S & Z & c & Zc & ->). apply Forall_app in Hl as [_ [_ Hl]%Forall_app]. split_and!; auto.
  - rewrite <- Zc, <- (zlen_concat w) by done. do 2 apply at_pos_app. by exists h.
  - exists (h ++ c), (l' ++ post). rewrite B, zlen_app, Zc, <- !app_assoc. done.
Qed.

(** The parser agrees with the reader on the body of any element: success and
    the fields that are there, or failure. *)
Lemma rsne_info_parse_reads pre body post :
  bytes_ok body -> zlen body < 256 ->
  parsed (pre ++ enc1 (_WPA2_IE_ID_, body) ++ post) (read_rsne body)
    (rtw_rsne_info_parse (pre ++ enc1 (_WPA2_IE_ID_, body) ++ post) (zlen pre) (zlen body + 2)).
Proof.
  intros Hb Hl. pose proof (rd_enc1_id pre (_WPA2_IE_ID_, body) post) as R0.
  pose proof (rd_enc1_len pre (_WPA2_IE_ID_, body) post) as R1. cbn [fst snd] in R0, R1.
  assert (at_pos (pre ++ enc1 (_WPA2_IE_ID_, body) ++ post) post (zlen pre + 2) body) as A.
  { exists (pre ++ [_WPA2_IE_ID_; zlen body]). split; [rewrite zlen_app; reflexivity|]. unfold enc1. cbn [fst snd]. by rewrite <- app_assoc. }
  generalize dependent (pre ++ enc1 (_WPA2_IE_ID_, body) ++ post). intros b R0 R1 A.
  unfold rtw_rsne_info_parse, read_rsne. pose proof (zlen_nonneg body).
  set (eie := zlen pre + (zlen body + 2)). assert (eie = zlen pre + 2 + zlen body) as He by lia. clearbody eie.
  destruct (bite 2 body) as [[ver l]|] eqn:E.
  2: { apply bite_None in E. destruct (Z.ltb_spec eie (zlen pre + 4)); [by eexists|lia]. }
  destruct (bite_at _ _ _ 2 _ _ _ ltac:(done) A Hb E) as (Zl & Hb1 & _ & _ & A1 & _). pose proof (zlen_nonneg l). clear E A Hb.
  enough_left. rewrite R0, bind_Ret. cbn [negb Z.eqb _WPA2_IE_ID_ Pos.eqb]. rewrite R1, bind_Ret.
  replace (zlen body =? zlen body + 2 - 2) with true by lia. cbn [negb]. replace (zlen pre + 2 + 2) with (zlen pre + 4) in A1 by lia.
  destruct (bite 4 l) as [[g l1]|] eqn:E; [|apply bite_None in E; stops].
  destruct (bite_at _ _ _ 4 _ _ _ ltac:(done) A1 Hb1 E) as (Zl1 & Hb2 & _ & Zg & A2 & Ig). pose proof (zlen_nonneg l1). clear E A1 Hb1.
  assert (item_at b (Some (zlen pre + 4)) (Some g)) as Ag by (split; [unfold zlen in Zg; lia|done]). enough_left.
  pose proof (bite_list_at 4 _ _ _ _ A2 Hb2) as P. change (Z.of_nat 4) with 4 in P.
  destruct (bite_list 4 l1) as [[ps|] l2];
    [|destruct P as [[? ->]|(? & n & -> & ? & ?)]; [stops|enough_left; rewrite bind_Ret; stops]].
  destruct P as (? & -> & Sp & ? & Hb3 & A3 & Ip). pose proof (zlen_nonneg l2). enough_left. rewrite bind_Ret. enough_left. clear A2 Hb2.
  assert (items_at b (Some (zlen pre + 4 + 4 + 2)) (zlen ps) ps) as Ap by done.
  pose proof (bite_list_at 4 _ _ _ _ A3 Hb3) as P. change (Z.of_nat 4) with 4 in P.
  destruct (bite_list 4 l2) as [[ks|] l3];
    [|destruct P as [[? ->]|(? & n & -> & ? & ?)]; [stops|enough_left; rewrite bind_Ret; stops]].
  destruct P as (? & -> & Sk & ? & Hb4 & A4 & Ik). pose proof (zlen_nonneg l3). enough_left. rewrite bind_Ret. enough_left. clear A3 Hb3.
  assert (items_at b (Some (zlen pre + 4 + 4 + 2 + 4 * zlen ps + 2)) (zlen ks) ks) as Ak by done.
  destruct (bite 2 l3) as [[c l4]|] eqn:E; [|apply bite_None in E; stops].
  destruct (bite_at _ _ _ 2 _ _ _ ltac:(done) A4 Hb4 E) as (Zl4 & Hb5 & Hc & Zc & A5 & u & v & Ic & Zu). pose proof (zlen_nonneg l4). clear E A4 Hb4.
  destruct (le16_get_of b u c v Hc Zc Ic) as [Gc _]. rewrite <- Zu in Gc. enough_left.
  assert (cap_at b (Some (zlen pre + 4 + 4 + 2 + 4 * zlen ps + 2 + 4 * zlen ks)) (Some (le16_of c))) as Ac by done.
  pose proof (bite_list_at 16 _ _ _ _ A5 Hb5) as P. change (Z.of_nat 16) with 16 in P.
  destruct (bite_list 16 l4) as [[ms|] l5];
    [|destruct P as [[? ->]|(? & n & -> & ? & ?)]; [stops|enough_left; rewrite bind_Ret; stops]].
  destruct P as (? & -> & _ & ? & Hb6 & A6 & _). pose proof (zlen_nonneg l5). enough_left. rewrite bind_Ret. enough_left. clear A5 Hb5.
  destruct (bite 4 l5) as [[m l6]|] eqn:E; [|apply bite_None in E; stops].
  destruct (bite_at _ _ _ 4 _ _ _ ltac:(done) A6 Hb6 E) as (Zl6 & _ & _ & Zm & _ & Im). pose proof (zlen_nonneg l6). enough_left.
  eexists. split; [reflexivity|]. shows. split; [unfold zlen in Zm; lia|done].
Qed.

(** ** The summary of any RSN element *)

Definition suite_asked (x : option bytes) (d : Z) : Z := match x with Some s => suite_of rsn_cipher_suites s | None => d end.
Definition cap_asked (x : option Z) (off : Z) : Z := match x with Some c => Z.land (Z.shiftr c off) 3 | None => 0 end.

(** An absent group cipher, suite list or capability field counts as 0, an
    absent group management cipher as BIP-CMAC-128. *)
Definition summary (q : rsn_asks) : wpa2_out :=
  mk_wpa2 (suite_asked (q_group q) 0) (union rsn_cipher_suites (q_pairwise q) 0)
    (suite_asked (q_gmcs q) WPA_CIPHER_BIP_CMAC_128) (union akm_suites (q_akm q) 0) (cap_asked (q_cap q) 6) (cap_asked (q_cap q) 10).

Lemma item_suite b p x d : item_at b p x -> suite_or_default b p d = Ret (suite_asked x d).
Proof.
  destruct p as [p|], x as [x|]; try done. intros (L & u & v & -> & ->). by apply (suite_lookup_spec _ _ u _ _ v rsn_table_ok).
Qed.

Lemma items_union table b p n xs : table_ok table -> items_at b p n xs -> list_or (suite_lookup table) b p n = Ret (union table xs 0).
Proof.
  intros T. destruct p as [p|]; cbn; [|by intros [_ ->]]. intros (-> & S & u & v & B & P).
  replace (Z.to_nat (zlen xs)) with (length xs) by (unfold zlen; lia). by apply (suites_or_spec _ _ _ u _ v).
Qed.

Lemma cap_bits_asked b p x off : cap_at b p x -> cap_or_zero b p off = Ret (cap_asked x off).
Proof. destruct p, x; try done. cbn. unfold cap_bits. by intros ->. Qed.

(** [rtw_parse_wpa2_ie] on the RSN element with any body shorter than 256
    bytes: failure if the body is malformed, otherwise success and the summary
    of what it says. *)
Theorem parse_wpa2_ie_reads pre body post :
  bytes_ok body -> zlen body < 256 ->
  rtw_parse_wpa2_ie (pre ++ enc1 (_WPA2_IE_ID_, body) ++ post) (zlen pre) (zlen body + 2)
  = Ret (match read_rsne body with Some q => (_SUCCESS, Some (summary q)) | None => (_FAIL, None) end).
Proof.
  intros Hb Hl. pose proof (rsne_info_parse_reads pre body post Hb Hl) as P. unfold rtw_parse_wpa2_ie.
  destruct (read_rsne body) as [q|]; destruct P as (i & P); [destruct P as [-> [G Pw A C M]]|by rewrite P].
  rewrite bind_Ret. cbn [negb Z.eqb _SUCCESS Pos.eqb].
  rewrite (item_suite _ _ _ 0 G), bind_Ret.
  change (list_or rtw_get_rsn_cipher_suite) with (list_or (suite_lookup rsn_cipher_suites)).
  rewrite (items_union rsn_cipher_suites _ _ _ _ rsn_table_ok Pw), bind_Ret, (item_suite _ _ _ _ M), bind_Ret.
  change (list_or rtw_get_akm_suite_bitmap) with (list_or (suite_lookup akm_suites)).
  by rewrite (items_union akm_suites _ _ _ _ akm_table_ok A), bind_Ret, !(cap_bits_asked _ _ _ _ C), !bind_Ret.
Qed.

(** An element without capabilities, one that ends in the middle of a suite,
    and one that ends after the count of a list that is not there. *)
Definition short_rsne : bytes := [1; 0] ++ rsn 4 ++ [1; 0] ++ rsn 4 ++ [1; 0] ++ rsn 2.

Lemma parse_wpa2_ie_reads_witness :
  rtw_parse_wpa2_ie ([7] ++ enc1 (_WPA2_IE_ID_, short_rsne) ++ [9]) 1 20
    = Ret (_SUCCESS, Some (mk_wpa2 WPA_CIPHER_CCMP WPA_CIPHER_CCMP WPA_CIPHER_BIP_CMAC_128 (BIT 1) 0 0)).
Proof. apply (parse_wpa2_ie_reads [7] short_rsne [9]); [repeat constructor; vm_compute; congruence | reflexivity]. Defined.

Lemma read_rsne_ends :
  read_rsne short_rsne = Some (mk_asks (Some (rsn 4)) [rsn 4] [rsn 2] None None) /\
  read_rsne ([1; 0] ++ rsn 4 ++ [1; 0; 0; 15]) = None /\
  read_rsne ([1; 0] ++ rsn 4 ++ [7; 0]) = Some (mk_asks (Some (rsn 4)) [] [] None None).
Proof. vm_compute. auto. Qed.
