(* ===== verification/Aes.v ===== *)
(** * AES block cipher (core/crypto/aes-internal.c, aes-internal-enc.c)

    The encryption direction of Rijndael with the single table [Te0]
    (AES_SMALL_TABLES, without FULL_UNROLL): the key schedules for 128, 192 and
    256 bits and [rijndaelEncrypt].  Module [Fips] is the cipher of FIPS 197 on
    arrays of bytes: its S-box is the affine map of the inverse in GF(2^8).
    The table-driven code computes it. *)

From S2P Require Import Prelude.

(** ** Tables and macros *)

Definition Te0 : list Z :=
  [0xc66363a5; 0xf87c7c84; 0xee777799; 0xf67b7b8d; 0xfff2f20d; 0xd66b6bbd; 0xde6f6fb1; 0x91c5c554;
   0x60303050; 0x02010103; 0xce6767a9; 0x562b2b7d; 0xe7fefe19; 0xb5d7d762; 0x4dababe6; 0xec76769a;
   0x8fcaca45; 0x1f82829d; 0x89c9c940; 0xfa7d7d87; 0xeffafa15; 0xb25959eb; 0x8e4747c9; 0xfbf0f00b;
   0x41adadec; 0xb3d4d467; 0x5fa2a2fd; 0x45afafea; 0x239c9cbf; 0x53a4a4f7; 0xe4727296; 0x9bc0c05b;
   0x75b7b7c2; 0xe1fdfd1c; 0x3d9393ae; 0x4c26266a; 0x6c36365a; 0x7e3f3f41; 0xf5f7f702; 0x83cccc4f;
   0x6834345c; 0x51a5a5f4; 0xd1e5e534; 0xf9f1f108; 0xe2717193; 0xabd8d873; 0x62313153; 0x2a15153f;
   0x0804040c; 0x95c7c752; 0x46232365; 0x9dc3c35e; 0x30181828; 0x379696a1; 0x0a05050f; 0x2f9a9ab5;
   0x0e070709; 0x24121236; 0x1b80809b; 0xdfe2e23d; 0xcdebeb26; 0x4e272769; 0x7fb2b2cd; 0xea75759f;
   0x1209091b; 0x1d83839e; 0x582c2c74; 0x341a1a2e; 0x361b1b2d; 0xdc6e6eb2; 0xb45a5aee; 0x5ba0a0fb;
   0xa45252f6; 0x763b3b4d; 0xb7d6d661; 0x7db3b3ce; 0x5229297b; 0xdde3e33e; 0x5e2f2f71; 0x13848497;
   0xa65353f5; 0xb9d1d168; 0x00000000; 0xc1eded2c; 0x40202060; 0xe3fcfc1f; 0x79b1b1c8; 0xb65b5bed;
   0xd46a6abe; 0x8dcbcb46; 0x67bebed9; 0x7239394b; 0x944a4ade; 0x984c4cd4; 0xb05858e8; 0x85cfcf4a;
   0xbbd0d06b; 0xc5efef2a; 0x4faaaae5; 0xedfbfb16; 0x864343c5; 0x9a4d4dd7; 0x66333355; 0x11858594;
   0x8a4545cf; 0xe9f9f910; 0x04020206; 0xfe7f7f81; 0xa05050f0; 0x783c3c44; 0x259f9fba; 0x4ba8a8e3;
   0xa25151f3; 0x5da3a3fe; 0x804040c0; 0x058f8f8a; 0x3f9292ad; 0x219d9dbc; 0x70383848; 0xf1f5f504;
   0x63bcbcdf; 0x77b6b6c1; 0xafdada75; 0x42212163; 0x20101030; 0xe5ffff1a; 0xfdf3f30e; 0xbfd2d26d;
   0x81cdcd4c; 0x180c0c14; 0x26131335; 0xc3ecec2f; 0xbe5f5fe1; 0x359797a2; 0x884444cc; 0x2e171739;
   0x93c4c457; 0x55a7a7f2; 0xfc7e7e82; 0x7a3d3d47; 0xc86464ac; 0xba5d5de7; 0x3219192b; 0xe6737395;
   0xc06060a0; 0x19818198; 0x9e4f4fd1; 0xa3dcdc7f; 0x44222266; 0x542a2a7e; 0x3b9090ab; 0x0b888883;
   0x8c4646ca; 0xc7eeee29; 0x6bb8b8d3; 0x2814143c; 0xa7dede79; 0xbc5e5ee2; 0x160b0b1d; 0xaddbdb76;
   0xdbe0e03b; 0x64323256; 0x743a3a4e; 0x140a0a1e; 0x924949db; 0x0c06060a; 0x4824246c; 0xb85c5ce4;
   0x9fc2c25d; 0xbdd3d36e; 0x43acacef; 0xc46262a6; 0x399191a8; 0x319595a4; 0xd3e4e437; 0xf279798b;
   0xd5e7e732; 0x8bc8c843; 0x6e373759; 0xda6d6db7; 0x018d8d8c; 0xb1d5d564; 0x9c4e4ed2; 0x49a9a9e0;
   0xd86c6cb4; 0xac5656fa; 0xf3f4f407; 0xcfeaea25; 0xca6565af; 0xf47a7a8e; 0x47aeaee9; 0x10080818;
   0x6fbabad5; 0xf0787888; 0x4a25256f; 0x5c2e2e72; 0x381c1c24; 0x57a6a6f1; 0x73b4b4c7; 0x97c6c651;
   0xcbe8e823; 0xa1dddd7c; 0xe874749c; 0x3e1f1f21; 0x964b4bdd; 0x61bdbddc; 0x0d8b8b86; 0x0f8a8a85;
   0xe0707090; 0x7c3e3e42; 0x71b5b5c4; 0xcc6666aa; 0x904848d8; 0x06030305; 0xf7f6f601; 0x1c0e0e12;
   0xc26161a3; 0x6a35355f; 0xae5757f9; 0x69b9b9d0; 0x17868691; 0x99c1c158; 0x3a1d1d27; 0x279e9eb9;
   0xd9e1e138; 0xebf8f813; 0x2b9898b3; 0x22111133; 0xd26969bb; 0xa9d9d970; 0x078e8e89; 0x339494a7;
   0x2d9b9bb6; 0x3c1e1e22; 0x15878792; 0xc9e9e920; 0x87cece49; 0xaa5555ff; 0x50282878; 0xa5dfdf7a;
   0x038c8c8f; 0x59a1a1f8; 0x09898980; 0x1a0d0d17; 0x65bfbfda; 0xd7e6e631; 0x844242c6; 0xd06868b8;
   0x824141c3; 0x299999b0; 0x5a2d2d77; 0x1e0f0f11; 0x7bb0b0cb; 0xa85454fc; 0x6dbbbbd6; 0x2c16163a].

Definition rcons : list Z := [0x01; 0x02; 0x04; 0x08; 0x10; 0x20; 0x40; 0x80; 0x1b; 0x36].

Definition RCON (i : Z) : Z := Z.shiftl (znth rcons i) 24.

Definition rotr (val bits : Z) : Z := Z.lor (Z.shiftr val bits) (u32 (Z.shiftl val (32 - bits))).

Definition TE0 (i : Z) : Z := znth Te0 (Z.land (Z.shiftr i 24) 0xff).
Definition TE1 (i : Z) : Z := rotr (znth Te0 (Z.land (Z.shiftr i 16) 0xff)) 8.
Definition TE2 (i : Z) : Z := rotr (znth Te0 (Z.land (Z.shiftr i 8) 0xff)) 16.
Definition TE3 (i : Z) : Z := rotr (znth Te0 (Z.land i 0xff)) 24.
Definition TE41 (i : Z) : Z := Z.land (u32 (Z.shiftl (znth Te0 (Z.land (Z.shiftr i 24) 0xff)) 8)) 0xff000000.
Definition TE42 (i : Z) : Z := Z.land (znth Te0 (Z.land (Z.shiftr i 16) 0xff)) 0x00ff0000.
Definition TE43 (i : Z) : Z := Z.land (znth Te0 (Z.land (Z.shiftr i 8) 0xff)) 0x0000ff00.
Definition TE44 (i : Z) : Z := Z.land (Z.shiftr (znth Te0 (Z.land i 0xff)) 8) 0x000000ff.
Definition TE421 (i : Z) : Z := Z.land (u32 (Z.shiftl (znth Te0 (Z.land (Z.shiftr i 16) 0xff)) 8)) 0xff000000.
Definition TE432 (i : Z) : Z := Z.land (znth Te0 (Z.land (Z.shiftr i 8) 0xff)) 0x00ff0000.
Definition TE443 (i : Z) : Z := Z.land (znth Te0 (Z.land i 0xff)) 0x0000ff00.
Definition TE414 (i : Z) : Z := Z.land (Z.shiftr (znth Te0 (Z.land (Z.shiftr i 24) 0xff)) 8) 0x000000ff.
Definition TE411 (i : Z) : Z := Z.land (u32 (Z.shiftl (znth Te0 (Z.land (Z.shiftr i 24) 0xff)) 8)) 0xff000000.
Definition TE422 (i : Z) : Z := Z.land (znth Te0 (Z.land (Z.shiftr i 16) 0xff)) 0x00ff0000.
Definition TE433 (i : Z) : Z := Z.land (znth Te0 (Z.land (Z.shiftr i 8) 0xff)) 0x0000ff00.
Definition TE444 (i : Z) : Z := Z.land (Z.shiftr (znth Te0 (Z.land i 0xff)) 8) 0x000000ff.

(** Four bytes as a big-endian word, and back. *)
Definition word (a b c d : Z) : Z :=
  Z.lxor (Z.lxor (Z.lxor (Z.shiftl a 24) (Z.shiftl b 16)) (Z.shiftl c 8)) d.

Definition GETU32 (pt : bytes) (off : Z) : res Z :=
  a ← rd pt off; b ← rd pt (off + 1); c ← rd pt (off + 2); d ← rd pt (off + 3); Ret (word a b c d).

Definition PUTU32 (st : Z) : bytes :=
  [u8 (Z.shiftr st 24); u8 (Z.shiftr st 16); u8 (Z.shiftr st 8); u8 st].

(** ** Key schedule

    [rk] is a window that moves over the schedule: the words behind it are
    final, the next ones are written from those in the window. *)

(** [rk[0] ^ TE421(temp) ^ TE432(temp) ^ TE443(temp) ^ TE414(temp) ^ RCON(i)] *)
Definition key_rot (r0 temp i : Z) : Z :=
  Z.lxor (Z.lxor (Z.lxor (Z.lxor (Z.lxor r0 (TE421 temp)) (TE432 temp)) (TE443 temp)) (TE414 temp)) (RCON i).

(** [rk[4] ^ TE411(temp) ^ TE422(temp) ^ TE433(temp) ^ TE444(temp)] *)
Definition key_sub (r4 temp : Z) : Z :=
  Z.lxor (Z.lxor (Z.lxor (Z.lxor r4 (TE411 temp)) (TE422 temp)) (TE433 temp)) (TE444 temp).

(** [n] iterations are left, the next one is number [i]. *)
Fixpoint setup128 (n : nat) (i r0 r1 r2 r3 : Z) : list Z :=
  match n with
  | O => [r0; r1; r2; r3]
  | S n =>
      let r4 := key_rot r0 r3 i in
      let r5 := Z.lxor r1 r4 in
      let r6 := Z.lxor r2 r5 in
      let r7 := Z.lxor r3 r6 in
      [r0; r1; r2; r3] ++ setup128 n (i + 1) r4 r5 r6 r7
  end.

(** The last iteration returns after four words. *)
Fixpoint setup192 (n : nat) (i r0 r1 r2 r3 r4 r5 : Z) : list Z :=
  match n with
  | O => [r0; r1; r2; r3; r4; r5]
  | S n =>
      let r6 := key_rot r0 r5 i in
      let r7 := Z.lxor r1 r6 in
      let r8 := Z.lxor r2 r7 in
      let r9 := Z.lxor r3 r8 in
      if i =? 7 then [r0; r1; r2; r3; r4; r5; r6; r7; r8; r9]
      else
        let r10 := Z.lxor r4 r9 in
        let r11 := Z.lxor r5 r10 in
        [r0; r1; r2; r3; r4; r5] ++ setup192 n (i + 1) r6 r7 r8 r9 r10 r11
  end.

Fixpoint setup256 (n : nat) (i r0 r1 r2 r3 r4 r5 r6 r7 : Z) : list Z :=
  match n with
  | O => [r0; r1; r2; r3; r4; r5; r6; r7]
  | S n =>
      let r8 := key_rot r0 r7 i in
      let r9 := Z.lxor r1 r8 in
      let r10 := Z.lxor r2 r9 in
      let r11 := Z.lxor r3 r10 in
      if i =? 6 then [r0; r1; r2; r3; r4; r5; r6; r7; r8; r9; r10; r11]
      else
        let r12 := key_sub r4 r11 in
        let r13 := Z.lxor r5 r12 in
        let r14 := Z.lxor r6 r13 in
        let r15 := Z.lxor r7 r14 in
        [r0; r1; r2; r3; r4; r5; r6; r7] ++ setup256 n (i + 1) r8 r9 r10 r11 r12 r13 r14 r15
  end.

(** The schedule and the number of rounds, [None] for the return value -1. *)
Definition rijndaelKeySetupEnc (cipherKey : bytes) (keyBits : Z) : res (option (list Z * Z)) :=
  r0 ← GETU32 cipherKey 0; r1 ← GETU32 cipherKey 4; r2 ← GETU32 cipherKey 8; r3 ← GETU32 cipherKey 12;
  if keyBits =? 128 then Ret (Some (setup128 10 0 r0 r1 r2 r3, 10))
  else
    r4 ← GETU32 cipherKey 16; r5 ← GETU32 cipherKey 20;
    if keyBits =? 192 then Ret (Some (setup192 8 0 r0 r1 r2 r3 r4 r5, 12))
    else
      r6 ← GETU32 cipherKey 24; r7 ← GETU32 cipherKey 28;
      if keyBits =? 256 then Ret (Some (setup256 7 0 r0 r1 r2 r3 r4 r5 r6 r7, 14))
      else Ret None.

(** ** Encryption of a block *)

Definition ROUND (rk : list Z) (i : Z) (s : Z * Z * Z * Z) : Z * Z * Z * Z :=
  let '(s0, s1, s2, s3) := s in
  let row a b c d k := Z.lxor (Z.lxor (Z.lxor (Z.lxor (TE0 a) (TE1 b)) (TE2 c)) (TE3 d)) (znth rk (4 * i + k)) in
  (row s0 s1 s2 s3 0, row s1 s2 s3 s0 1, row s2 s3 s0 s1 2, row s3 s0 s1 s2 3).

(** The [for (;;)] loop, left by [--r == 0]; the state [t] and the moved [rk]. *)
Fixpoint enc_loop (r : nat) (rk : list Z) (s : Z * Z * Z * Z) : res (Z * Z * Z * Z * list Z) :=
  match r with
  | O => NoFuel
  | S r =>
      let t := ROUND rk 1 s in
      let rk := drop 8 rk in
      match r with
      | O => Ret (t, rk)
      | S _ => enc_loop r rk (ROUND rk 0 t)
      end
  end.

Definition rijndaelEncrypt (rk : list Z) (Nr : Z) (pt : bytes) : res bytes :=
  p0 ← GETU32 pt 0; p1 ← GETU32 pt 4; p2 ← GETU32 pt 8; p3 ← GETU32 pt 12;
  let s := (Z.lxor p0 (znth rk 0), Z.lxor p1 (znth rk 1), Z.lxor p2 (znth rk 2), Z.lxor p3 (znth rk 3)) in
  r ← enc_loop (Z.to_nat (Z.shiftr Nr 1)) rk s;
  let '(t0, t1, t2, t3, rk) := r : Z * Z * Z * Z * list Z in
  let last a b c d k :=
    PUTU32 (Z.lxor (Z.lxor (Z.lxor (Z.lxor (TE41 a) (TE42 b)) (TE43 c)) (TE44 d)) (znth rk k)) in
  Ret (last t0 t1 t2 t3 0 ++ last t1 t2 t3 t0 1 ++ last t2 t3 t0 t1 2 ++ last t3 t0 t1 t2 3).

(** The allocated context: the schedule, and the number of rounds in its word
    AES_PRIV_NR_POS. *)
Definition aes_encrypt_init (key : bytes) (len : Z) : res (option (list Z * Z)) :=
  rijndaelKeySetupEnc key (len * 8).

Definition aes_encrypt (ctx : list Z * Z) (plain : bytes) : res bytes :=
  rijndaelEncrypt (fst ctx) (snd ctx) plain.

(** ** FIPS 197 *)

Module Fips.

(** Multiplication by [x] modulo x^8 + x^4 + x^3 + x + 1. *)
Definition xtime (b : Z) : Z := Z.lxor (Z.land (Z.shiftl b 1) 0xff) (if Z.testbit b 7 then 0x1b else 0).

Fixpoint gmul_bits (n : nat) (a b : Z) : Z :=
  match n with
  | O => 0
  | S n => Z.lxor (if Z.odd b then a else 0) (gmul_bits n (xtime a) (Z.div2 b))
  end.

Definition gmul (a b : Z) : Z := gmul_bits 8 a b.

(** The inverse is the 254th power; 0 is mapped to itself. *)
Definition ginv (a : Z) : Z := Nat.iter 253 (gmul a) a.

Definition rotl8 (b n : Z) : Z := Z.land (Z.lor (Z.shiftl b n) (Z.shiftr b (8 - n))) 0xff.

Definition SBox (b : Z) : Z :=
  let x := ginv b in
  Z.lxor (Z.lxor (Z.lxor (Z.lxor (Z.lxor x (rotl8 x 1)) (rotl8 x 2)) (rotl8 x 3)) (rotl8 x 4)) 0x63.

Definition xor_bytes (a b : bytes) : bytes := zip_with Z.lxor a b.

(** The state is the column-major array of the input. *)
Definition SubBytes (s : bytes) : bytes := map SBox s.

Definition ShiftRows (s : bytes) : bytes :=
  map (fun k => znth s (k mod 4 + 4 * ((k / 4 + k mod 4) mod 4)))
    [0; 1; 2; 3; 4; 5; 6; 7; 8; 9; 10; 11; 12; 13; 14; 15].

Definition mix_column (a b c d : Z) : bytes :=
  let sum w x y z := Z.lxor (Z.lxor (Z.lxor w x) y) z in
  [sum (gmul 2 a) (gmul 3 b) c d; sum a (gmul 2 b) (gmul 3 c) d;
   sum a b (gmul 2 c) (gmul 3 d); sum (gmul 3 a) b c (gmul 2 d)].

Fixpoint MixColumns (s : bytes) : bytes :=
  match s with
  | a :: b :: c :: d :: s => mix_column a b c d ++ MixColumns s
  | _ => []
  end.

(** The round constants are the powers of [x]. *)
Definition Rcon (i : nat) : bytes := [Nat.iter (i - 1) xtime 1; 0; 0; 0].

Definition RotWord (w : bytes) : bytes := drop 1 w ++ take 1 w.

Definition SubWord (w : bytes) : bytes := map SBox w.

(** The next word of the expanded key; [Nk] is the key length in words. *)
Definition next_word (Nk : nat) (w : list bytes) : bytes :=
  let i := length w in
  let temp := nth (i - 1) w [] in
  let temp :=
    if (i mod Nk =? 0)%nat then xor_bytes (SubWord (RotWord temp)) (Rcon (i / Nk))
    else if (6 <? Nk)%nat && (i mod Nk =? 4)%nat then SubWord temp
    else temp in
  xor_bytes (nth (i - Nk) w []) temp.

Definition expand (Nk n : nat) (w : list bytes) : list bytes := Nat.iter n (fun w => w ++ [next_word Nk w]) w.

(** The key as words of four bytes. *)
Fixpoint words_of (k : bytes) : list bytes :=
  match k with
  | a :: b :: c :: d :: k => [a; b; c; d] :: words_of k
  | _ => []
  end.

Definition KeyExpansion (Nk Nr : nat) (key : bytes) : list bytes := expand Nk (4 * (Nr + 1) - Nk) (words_of key).

Definition round_key (w : list bytes) (r : nat) : bytes := concat (take 4 (drop (4 * r) w)).

Definition Cipher (Nr : nat) (w : list bytes) (input : bytes) : bytes :=
  let s := xor_bytes input (round_key w 0) in
  let s := foldl (fun s r => xor_bytes (MixColumns (ShiftRows (SubBytes s))) (round_key w r)) s (seq 1 (Nr - 1)) in
  xor_bytes (ShiftRows (SubBytes s)) (round_key w Nr).

(** Encryption with a key of [Nk] words in [Nk + 6] rounds. *)
Definition AES (Nk : nat) (key input : bytes) : bytes := Cipher (Nk + 6) (KeyExpansion Nk (Nk + 6) key) input.

End Fips.

(** ** Words and their bytes *)

Lemma word_add a b c d :
  is_byte a -> is_byte b -> is_byte c -> is_byte d ->
  word a b c d = a * 16777216 + b * 65536 + c * 256 + d.
Proof.
  unfold is_byte, word. intros Ha Hb Hc Hd.
  replace (Z.lxor (Z.lxor (Z.lxor (Z.shiftl a 24) (Z.shiftl b 16)) (Z.shiftl c 8)) d)
    with (Z.lxor (Z.shiftl (Z.lxor (Z.shiftl (Z.lxor (Z.shiftl a 8) b) 8) c) 8) d)
    by (rewrite !Z.shiftl_lxor, !Z.shiftl_shiftl by lia; done).
  rewrite !lxor_shiftl_add by lia. lia.
Qed.

Lemma word_lxor a b c d a' b' c' d' :
  Z.lxor (word a b c d) (word a' b' c' d') = word (Z.lxor a a') (Z.lxor b b') (Z.lxor c c') (Z.lxor d d').
Proof.
  unfold word. rewrite !Z.shiftl_lxor. apply Z.bits_inj'. intros k _. rewrite !Z.lxor_spec.
  repeat match goal with |- context [Z.testbit ?x k] => destruct (Z.testbit x k) end; reflexivity.
Qed.

(** The bytes of a word. *)
Lemma word_bytes a b c d :
  is_byte a -> is_byte b -> is_byte c -> is_byte d ->
  Z.land (Z.shiftr (word a b c d) 24) 0xff = a /\ Z.land (Z.shiftr (word a b c d) 16) 0xff = b /\
  Z.land (Z.shiftr (word a b c d) 8) 0xff = c /\ Z.land (word a b c d) 0xff = d.
Proof.
  intros Ha Hb Hc Hd. rewrite word_add by done. unfold is_byte in *. change 0xff with (Z.ones 8).
  rewrite !Z.land_ones, !Z.shiftr_div_pow2 by lia. Z.to_euclidean_division_equations. lia.
Qed.

Lemma PUTU32_word a b c d :
  is_byte a -> is_byte b -> is_byte c -> is_byte d -> PUTU32 (word a b c d) = [a; b; c; d].
Proof.
  intros Ha Hb Hc Hd. destruct (word_bytes a b c d Ha Hb Hc Hd) as (E1 & E2 & E3 & E4).
  change 0xff with (Z.ones 8) in *. rewrite Z.land_ones in * by lia.
  unfold PUTU32, u8. change 256 with (2 ^ 8). by rewrite E1, E2, E3, E4.
Qed.

(** ** Tables *)

Import Fips.

(** The four rotations of a table entry are the columns of the MixColumns
    matrix applied to the S-box value; the masked ones its single bytes. *)
Definition te_ok (s t : Z) : bool :=
  bool_decide (is_byte s /\ is_byte (gmul 2 s) /\ is_byte (gmul 3 s)) &&
  (t =? word (gmul 2 s) s s (gmul 3 s)) && (rotr t 8 =? word (gmul 3 s) (gmul 2 s) s s) &&
  (rotr t 16 =? word s (gmul 3 s) (gmul 2 s) s) && (rotr t 24 =? word s s (gmul 3 s) (gmul 2 s)) &&
  (Z.land (u32 (Z.shiftl t 8)) 0xff000000 =? word s 0 0 0) && (Z.land t 0x00ff0000 =? word 0 s 0 0) &&
  (Z.land t 0x0000ff00 =? word 0 0 s 0) && (Z.land (Z.shiftr t 8) 0x000000ff =? word 0 0 0 s).

Record te_entry (s t : Z) : Prop := {
  te_byte : is_byte s;
  te_byte2 : is_byte (gmul 2 s);
  te_byte3 : is_byte (gmul 3 s);
  te_0 : t = word (gmul 2 s) s s (gmul 3 s);
  te_1 : rotr t 8 = word (gmul 3 s) (gmul 2 s) s s;
  te_2 : rotr t 16 = word s (gmul 3 s) (gmul 2 s) s;
  te_3 : rotr t 24 = word s s (gmul 3 s) (gmul 2 s);
  te_41 : Z.land (u32 (Z.shiftl t 8)) 0xff000000 = word s 0 0 0;
  te_42 : Z.land t 0x00ff0000 = word 0 s 0 0;
  te_43 : Z.land t 0x0000ff00 = word 0 0 s 0;
  te_44 : Z.land (Z.shiftr t 8) 0x000000ff = word 0 0 0 s
}.

Lemma te_ok_entry s t : te_ok s t = true -> te_entry s t.
Proof.
  unfold te_ok. intros H. rewrite !andb_true_iff, !Z.eqb_eq, bool_decide_eq_true in H.
  destruct H as [[[[[[[[(? & ? & ?) ?] ?] ?] ?] ?] ?] ?] ?]. by split.
Qed.

Lemma te_entries x : is_byte x -> te_entry (SBox x) (znth Te0 x).
Proof.
  intros Hx. apply te_ok_entry.
  apply (byte_forall (fun x => te_ok (SBox x) (znth Te0 x))); [vm_compute; reflexivity | done].
Qed.

Lemma SBox_byte x : is_byte x -> is_byte (SBox x).
Proof. intros H. apply (te_byte _ _ (te_entries x H)). Qed.

#[export] Hint Resolve SBox_byte : rtw.

#[local] Opaque SBox gmul Te0 word.

(** A word of the state or of the schedule. *)
Definition word_ok (w : bytes) : Prop := length w = 4%nat /\ bytes_ok w.
Definition block_ok (s : bytes) : Prop := length s = 16%nat /\ bytes_ok s.

Definition W (w : bytes) : Z := word (znth w 0) (znth w 1) (znth w 2) (znth w 3).

Lemma W_list a b c d : W [a; b; c; d] = word a b c d.
Proof. reflexivity. Qed.

(** The four columns of a state. *)
Definition cols (s : bytes) : Z * Z * Z * Z :=
  (W (take 4 s), W (take 4 (drop 4 s)), W (take 4 (drop 8 s)), W (take 4 (drop 12 s))).

Lemma word_ok_inv w : word_ok w -> exists a b c d, w = [a; b; c; d] /\ is_byte a /\ is_byte b /\ is_byte c /\ is_byte d.
Proof.
  intros [L F]. destruct w as [|a [|b [|c [|d [|]]]]]; try discriminate.
  decompose_Forall_hyps. eauto 10.
Qed.

Lemma block_ok_inv s : block_ok s -> exists a b c d, s = a ++ b ++ c ++ d /\ word_ok a /\ word_ok b /\ word_ok c /\ word_ok d.
Proof.
  intros [L F]. exists (take 4 s), (take 4 (drop 4 s)), (take 4 (drop 8 s)), (drop 12 s).
  split_and!; try (split; [rewrite ?length_take, ?length_drop; lia | auto using Forall_take, Forall_drop]).
  rewrite <- (take_drop 4 s) at 1. f_equal. rewrite <- (take_drop 4 (drop 4 s)) at 1. f_equal.
  rewrite drop_drop, <- (take_drop 4 (drop _ s)). f_equal. by rewrite drop_drop.
Qed.

(** Case analysis on the bytes of a word. *)
Ltac word_cases H :=
  let a := fresh "a" in let b := fresh "b" in let c := fresh "c" in let d := fresh "d" in
  let Ha := fresh "Ha" in let Hb := fresh "Hb" in let Hc := fresh "Hc" in let Hd := fresh "Hd" in
  destruct (word_ok_inv _ H) as (a & b & c & d & -> & Ha & Hb & Hc & Hd).

(** The byte that each table macro looks at. *)
Lemma te_word a b c d :
  is_byte a -> is_byte b -> is_byte c -> is_byte d ->
  let w := word a b c d in
  TE0 w = word (gmul 2 (SBox a)) (SBox a) (SBox a) (gmul 3 (SBox a)) /\
  TE1 w = word (gmul 3 (SBox b)) (gmul 2 (SBox b)) (SBox b) (SBox b) /\
  TE2 w = word (SBox c) (gmul 3 (SBox c)) (gmul 2 (SBox c)) (SBox c) /\
  TE3 w = word (SBox d) (SBox d) (gmul 3 (SBox d)) (gmul 2 (SBox d)).
Proof.
  intros Ha Hb Hc Hd w. destruct (word_bytes a b c d Ha Hb Hc Hd) as (E1 & E2 & E3 & E4).
  unfold TE0, TE1, TE2, TE3, w. rewrite E1, E2, E3, E4.
  split_and!; [apply te_0 | apply te_1 | apply te_2 | apply te_3]; by apply te_entries.
Qed.

Lemma te4_word a b c d :
  is_byte a -> is_byte b -> is_byte c -> is_byte d ->
  let w := word a b c d in
  TE41 w = word (SBox a) 0 0 0 /\ TE42 w = word 0 (SBox b) 0 0 /\
  TE43 w = word 0 0 (SBox c) 0 /\ TE44 w = word 0 0 0 (SBox d) /\
  TE421 w = word (SBox b) 0 0 0 /\ TE432 w = word 0 (SBox c) 0 0 /\
  TE443 w = word 0 0 (SBox d) 0 /\ TE414 w = word 0 0 0 (SBox a).
Proof.
  intros Ha Hb Hc Hd w. destruct (word_bytes a b c d Ha Hb Hc Hd) as (E1 & E2 & E3 & E4).
  unfold TE41, TE42, TE43, TE44, TE421, TE432, TE443, TE414, w. rewrite E1, E2, E3, E4.
  split_and!; first [apply te_41 | apply te_42 | apply te_43 | apply te_44]; by apply te_entries.
Qed.

(** ** Rounds *)

Definition round (s k : bytes) : bytes := xor_bytes (MixColumns (ShiftRows (SubBytes s))) k.
Definition last_round (s k : bytes) : bytes := xor_bytes (ShiftRows (SubBytes s)) k.

Lemma round_spec rk i s k0 k1 k2 k3 :
  block_ok s -> word_ok k0 -> word_ok k1 -> word_ok k2 -> word_ok k3 ->
  znth rk (4 * i) = W k0 -> znth rk (4 * i + 1) = W k1 -> znth rk (4 * i + 2) = W k2 -> znth rk (4 * i + 3) = W k3 ->
  ROUND rk i (cols s) = cols (round s (k0 ++ k1 ++ k2 ++ k3)).
Proof.
  intros Hs H0 H1 H2 H3 E0 E1 E2 E3.
  destruct (block_ok_inv s Hs) as (x & y & z & w & -> & Hx & Hy & Hz & Hw).
  word_cases H0. word_cases H1. word_cases H2. word_cases H3.
  word_cases Hx. word_cases Hy. word_cases Hz. word_cases Hw.
  rewrite !W_list in *. unfold ROUND. cbn [cols app take drop]. rewrite !W_list.
  replace (4 * i + 0) with (4 * i) by lia. rewrite E0, E1, E2, E3.
  repeat match goal with |- context [TE0 (word ?a ?b ?c ?d)] =>
    destruct (te_word a b c d) as (T0 & T1 & T2 & T3); [done..|]; cbv zeta in T0, T1, T2, T3;
    rewrite T0, T1, T2, T3; clear T0 T1 T2 T3 end.
  rewrite !word_lxor. reflexivity.
Qed.

Lemma last_round_spec t0 t1 t2 t3 rk k0 k1 k2 k3 :
  word_ok t0 -> word_ok t1 -> word_ok t2 -> word_ok t3 -> word_ok k0 -> word_ok k1 -> word_ok k2 -> word_ok k3 ->
  znth rk 0 = W k0 -> znth rk 1 = W k1 -> znth rk 2 = W k2 -> znth rk 3 = W k3 ->
  let last a b c d k :=
    PUTU32 (Z.lxor (Z.lxor (Z.lxor (Z.lxor (TE41 (W a)) (TE42 (W b))) (TE43 (W c))) (TE44 (W d))) (znth rk k)) in
  last t0 t1 t2 t3 0 ++ last t1 t2 t3 t0 1 ++ last t2 t3 t0 t1 2 ++ last t3 t0 t1 t2 3
  = last_round (t0 ++ t1 ++ t2 ++ t3) (k0 ++ k1 ++ k2 ++ k3).
Proof.
  intros Hx Hy Hz Hw H0 H1 H2 H3 E0 E1 E2 E3 last.
  word_cases H0. word_cases H1. word_cases H2. word_cases H3.
  word_cases Hx. word_cases Hy. word_cases Hz. word_cases Hw.
  unfold last. clear last. rewrite E0, E1, E2, E3, !W_list.
  repeat match goal with |- context [TE41 (word ?a ?b ?c ?d)] =>
    destruct (te4_word a b c d) as (T0 & T1 & T2 & T3 & _); [done..|]; cbv zeta in T0, T1, T2, T3;
    rewrite T0, T1, T2, T3; clear T0 T1 T2 T3 end.
  rewrite !word_lxor, !Z.lxor_0_l, !Z.lxor_0_r, !PUTU32_word by (auto using lxor_byte with rtw). reflexivity.
Qed.

Lemma xor_bytes_ok a b : bytes_ok a -> bytes_ok b -> bytes_ok (xor_bytes a b).
Proof.
  intros Ha Hb. revert b Hb. induction Ha as [|x a Hx _ IH]; intros [|y b] Hb; try constructor;
    inversion Hb; subst; [by apply lxor_byte | by apply IH].
Qed.

Lemma xor_bytes_length a b : length a = length b -> length (xor_bytes a b) = length a.
Proof. intros H. unfold xor_bytes. rewrite length_zip_with. lia. Qed.

Lemma block_ok_app a b c d : word_ok a -> word_ok b -> word_ok c -> word_ok d -> block_ok (a ++ b ++ c ++ d).
Proof.
  intros [La Fa] [Lb Fb] [Lc Fc] [Ld Fd]. split; [rewrite !length_app; lia | repeat apply Forall_app_2; done].
Qed.

(** The bytes that go into each column of a round. *)
Lemma shift_sub a b c d a0 b0 c0 d0 a1 b1 c1 d1 a2 b2 c2 d2 :
  ShiftRows (SubBytes ([a; b; c; d] ++ [a0; b0; c0; d0] ++ [a1; b1; c1; d1] ++ [a2; b2; c2; d2]))
  = map SBox [a; b0; c1; d2; a0; b1; c2; d; a1; b2; c; d0; a2; b; c0; d1].
Proof. reflexivity. Qed.

Lemma round_ok s k : block_ok s -> block_ok k -> block_ok (round s k) /\ block_ok (last_round s k).
Proof.
  intros Hs [Lk Fk]. destruct (block_ok_inv s Hs) as (x & y & z & w & -> & Hx & Hy & Hz & Hw).
  word_cases Hx. word_cases Hy. word_cases Hz. word_cases Hw.
  unfold round, last_round. rewrite shift_sub.
  assert (forall x, is_byte x -> is_byte (gmul 2 (SBox x)) /\ is_byte (gmul 3 (SBox x))) as G.
  { intros u Hu. split; [eapply te_byte2 | eapply te_byte3]; by apply te_entries. }
  split; (split; [rewrite xor_bytes_length; [reflexivity | by rewrite Lk]|]; apply xor_bytes_ok; [|done]); cbn;
    repeat (apply Forall_cons; split); try apply Forall_nil; repeat apply lxor_byte;
    first [exact I | by apply SBox_byte | by apply G].
Qed.

(** A round key is four words of the schedule. *)
Lemma round_key_inv w r :
  Forall word_ok w -> (4 * (r + 1) <= length w)%nat ->
  exists k0 k1 k2 k3, round_key w r = k0 ++ k1 ++ k2 ++ k3 /\ drop (4 * r) w = k0 :: k1 :: k2 :: k3 :: drop (4 * (r + 1)) w /\
    word_ok k0 /\ word_ok k1 /\ word_ok k2 /\ word_ok k3.
Proof.
  intros Hw Hl. unfold round_key. pose proof (Forall_drop word_ok (4 * r) w Hw) as Hd.
  replace (drop (4 * (r + 1)) w) with (drop 4 (drop (4 * r) w)) by (rewrite drop_drop; f_equal; lia).
  assert (4 <= length (drop (4 * r) w))%nat as Hl' by (rewrite length_drop; lia).
  destruct (drop (4 * r) w) as [|k0 [|k1 [|k2 [|k3 l]]]]; cbn in Hl'; try lia.
  decompose_Forall_hyps. exists k0, k1, k2, k3. cbn. rewrite app_nil_r. done.
Qed.

Lemma znth_map_W w n : (n < length w)%nat -> znth (map W w) (Z.of_nat n) = W (nth n w []).
Proof. intros H. unfold znth. rewrite Nat2Z.id, nth_indep with (d' := W []) by (by rewrite length_map). apply map_nth. Qed.

Lemma round_key_spec rk w r s (i : Z) :
  Forall word_ok w -> (4 * (r + 1) <= length w)%nat -> i = Z.of_nat r -> rk = map W w -> block_ok s ->
  ROUND rk i (cols s) = cols (round s (round_key w r)) /\ block_ok (round s (round_key w r)).
Proof.
  intros Hw Hl -> -> Hs. destruct (round_key_inv w r Hw Hl) as (k0 & k1 & k2 & k3 & E & D & H0 & H1 & H2 & H3).
  assert (forall j, (j < 4)%nat -> nth (4 * r + j) w [] = nth j (drop (4 * r) w) []) as N.
  { intros j _. rewrite <- (take_drop (4 * r) w) at 1. rewrite app_nth2; rewrite length_take; [f_equal; lia | lia]. }
  rewrite D in N. rewrite E. split; [|by apply (round_ok s (k0 ++ k1 ++ k2 ++ k3) Hs), block_ok_app].
  assert (forall j k, (j < 4)%nat -> nth j (k0 :: k1 :: k2 :: k3 :: drop (4 * (r + 1)) w) [] = k ->
            znth (map W w) (4 * Z.of_nat r + Z.of_nat j) = W k) as M.
  { intros j k Hj <-. rewrite <- N by done. rewrite <- znth_map_W by lia. f_equal. lia. }
  apply round_spec; try done; [rewrite <- (Z.add_0_r (4 * Z.of_nat r)); apply (M 0%nat) | apply (M 1%nat) |
    apply (M 2%nat) | apply (M 3%nat)]; first [lia | done].
Qed.

(** The loop runs the rounds [1 .. 2 r - 1] and leaves the last round key. *)
Lemma enc_loop_spec r w s :
  Forall word_ok w -> (0 < r)%nat -> (8 * r + 4 <= length w)%nat -> block_ok s ->
  let s' := foldl (fun s k => round s (round_key w k)) s (seq 1 (2 * r - 1)) in
  enc_loop r (map W w) (cols s) = Ret (cols s', map W (drop (8 * r) w)) /\ block_ok s'.
Proof.
  revert w s. induction r as [|r IH]; intros w s Hw Hr Hl Hs; [lia|]. cbn [enc_loop].
  destruct (round_key_spec (map W w) w 1 s 1 Hw ltac:(lia) eq_refl eq_refl Hs) as [-> Hs1].
  rewrite skipn_map. destruct r as [|r].
  { split; [reflexivity | exact Hs1]. }
  destruct (round_key_spec (map W (drop 8 w)) (drop 8 w) 0 (round s (round_key w 1)) 0
              (Forall_drop _ _ _ Hw) ltac:(rewrite length_drop; lia) eq_refl eq_refl Hs1) as [-> Hs2].
  destruct (IH (drop 8 w) _ (Forall_drop _ _ _ Hw) ltac:(lia) ltac:(rewrite length_drop; lia) Hs2) as [-> Hs3].
  assert (forall k, round_key (drop 8 w) k = round_key w (2 + k)) as K.
  { intros k. unfold round_key. rewrite drop_drop. by replace (8 + 4 * k)%nat with (4 * (2 + k))%nat by lia. }
  rewrite drop_drop. replace (8 + 8 * S r)%nat with (8 * S (S r))%nat by lia.
  replace (2 * S (S r) - 1)%nat with (S (S (2 * S r - 1))) by lia. cbn [seq foldl].
  rewrite <- (fmap_add_seq 2 1), foldl_fmap.
  assert (forall l s, foldl (fun s k => round s (round_key (drop 8 w) k)) s l
                      = foldl (fun s k => round s (round_key w (2 + k))) s l) as F.
  { intros l. induction l as [|k l IHl]; intros s0; cbn [foldl]; [done|]. by rewrite K, IHl. }
  rewrite F in *. by split.
Qed.

Lemma GETU32_app p w q off : word_ok w -> off = zlen p -> GETU32 (p ++ w ++ q) off = Ret (W w).
Proof.
  intros Hw ->. word_cases Hw. pose proof (zlen_nonneg p). unfold GETU32.
  assert (forall l k, 0 <= k -> rd (p ++ l) (zlen p + k) = rd l k) as R
    by (intros; rewrite rd_app_r by lia; f_equal; lia).
  rewrite <- (Z.add_0_r (zlen p)) at 1. rewrite !R by lia. reflexivity.
Qed.

Lemma W_lxor a b : word_ok a -> word_ok b -> Z.lxor (W a) (W b) = W (xor_bytes a b).
Proof. intros Ha Hb. word_cases Ha. word_cases Hb. rewrite !W_list. apply word_lxor. Qed.

Lemma xor_word_ok a b : word_ok a -> word_ok b -> word_ok (xor_bytes a b).
Proof. intros [La Fa] [Lb Fb]. split; [rewrite xor_bytes_length; congruence | by apply xor_bytes_ok]. Qed.

#[export] Hint Resolve xor_word_ok : rtw.

(** Reading a block, and a block as its columns. *)
Lemma GETU32_block x y z v :
  word_ok x -> word_ok y -> word_ok z -> word_ok v ->
  let pt := x ++ y ++ z ++ v in
  GETU32 pt 0 = Ret (W x) /\ GETU32 pt 4 = Ret (W y) /\ GETU32 pt 8 = Ret (W z) /\ GETU32 pt 12 = Ret (W v).
Proof.
  intros Hx Hy Hz Hv pt. unfold pt. word_cases Hx. word_cases Hy. word_cases Hz. word_cases Hv. by split_and!.
Qed.

Lemma cols_xor x y z v k0 k1 k2 k3 :
  word_ok x -> word_ok y -> word_ok z -> word_ok v -> word_ok k0 -> word_ok k1 -> word_ok k2 -> word_ok k3 ->
  cols (xor_bytes (x ++ y ++ z ++ v) (k0 ++ k1 ++ k2 ++ k3))
  = (Z.lxor (W x) (W k0), Z.lxor (W y) (W k1), Z.lxor (W z) (W k2), Z.lxor (W v) (W k3)).
Proof.
  intros Hx Hy Hz Hv H0 H1 H2 H3. rewrite !W_lxor by done.
  word_cases Hx. word_cases Hy. word_cases Hz. word_cases Hv.
  word_cases H0. word_cases H1. word_cases H2. word_cases H3. reflexivity.
Qed.

Lemma cols_app x y z v :
  word_ok x -> word_ok y -> word_ok z -> word_ok v -> cols (x ++ y ++ z ++ v) = (W x, W y, W z, W v).
Proof. intros Hx Hy Hz Hv. word_cases Hx. word_cases Hy. word_cases Hz. word_cases Hv. reflexivity. Qed.

Lemma Cipher_ok r w pt :
  Forall word_ok w -> (0 < r)%nat -> length w = (8 * r + 4)%nat -> block_ok pt ->
  rijndaelEncrypt (map W w) (Z.of_nat (2 * r)) pt = Ret (Cipher (2 * r) w pt) /\ block_ok (Cipher (2 * r) w pt).
Proof.
  intros Hw Hr Hl Hp.
  destruct (block_ok_inv pt Hp) as (x & y & z & v & -> & Hx & Hy & Hz & Hv).
  destruct (round_key_inv w 0 Hw ltac:(lia)) as (k0 & k1 & k2 & k3 & E0 & D0 & H0 & H1 & H2 & H3).
  destruct (round_key_inv w (2 * r) Hw ltac:(lia)) as (l0 & l1 & l2 & l3 & E1 & D1 & I0 & I1 & I2 & I3).
  destruct (GETU32_block x y z v Hx Hy Hz Hv) as (G0 & G1 & G2 & G3).
  unfold rijndaelEncrypt. rewrite G0, G1, G2, G3, !bind_Ret.
  change (drop (4 * 0) w) with w in D0.
  replace (znth (map W w) 0) with (W k0) by (rewrite D0; reflexivity).
  replace (znth (map W w) 1) with (W k1) by (rewrite D0; reflexivity).
  replace (znth (map W w) 2) with (W k2) by (rewrite D0; reflexivity).
  replace (znth (map W w) 3) with (W k3) by (rewrite D0; reflexivity).
  rewrite <- cols_xor, <- E0 by done. set (s0 := xor_bytes (x ++ y ++ z ++ v) (round_key w 0)).
  assert (block_ok s0) as Hs0.
  { destruct Hp as [Lp Fp], (block_ok_app k0 k1 k2 k3 H0 H1 H2 H3) as [Lk Fk]. unfold s0. rewrite E0.
    split; [rewrite xor_bytes_length; congruence | by apply xor_bytes_ok]. }
  replace (Z.to_nat (Z.shiftr (Z.of_nat (2 * r)) 1)) with r
    by (rewrite Z.shiftr_div_pow2 by lia; change (2 ^ 1) with 2; Z.to_euclidean_division_equations; lia).
  destruct (enc_loop_spec r w s0 Hw Hr ltac:(lia) Hs0) as [-> Hs]. rewrite bind_Ret.
  replace (8 * r)%nat with (4 * (2 * r))%nat by lia. rewrite D1. unfold Cipher. fold s0.
  match goal with |- context [cols ?s] => fold (round s) in *; set (s' := s) in * end.
  destruct (block_ok_inv _ Hs) as (t0 & t1 & t2 & t3 & Es & T0 & T1 & T2 & T3).
  change (foldl (fun s k => xor_bytes (MixColumns (ShiftRows (SubBytes s))) (round_key w k)) s0 (seq 1 (2 * r - 1))) with s'.
  fold (last_round s' (round_key w (2 * r))). rewrite E1, Es, cols_app by done.
  split; [|apply round_ok; by apply block_ok_app].
  apply (f_equal Ret).
  exact (last_round_spec _ _ _ _ (map W (l0 :: l1 :: l2 :: l3 :: drop (4 * (2 * r + 1)) w)) _ _ _ _ T0 T1 T2 T3 I0 I1 I2 I3 eq_refl eq_refl eq_refl eq_refl).
Qed.

(** ** Key schedule *)

Lemma nth_window {A} (p l : list A) j d :
  (0 < j <= length l)%nat -> nth (length (p ++ l) - j) (p ++ l) d = nth (length l - j) l d.
Proof. intros H. rewrite length_app, app_nth2 by lia. f_equal. lia. Qed.

(** The next word depends on the last [Nk] words and on their position. *)
Lemma next_word_window Nk i p l :
  (0 < Nk <= length l)%nat -> length p = (Nk * i)%nat ->
  next_word Nk (p ++ l) =
    let temp := nth (length l - 1) l [] in
    xor_bytes (nth (length l - Nk) l [])
      (if (length l mod Nk =? 0)%nat then xor_bytes (SubWord (RotWord temp)) (Rcon (i + length l / Nk))
       else if (6 <? Nk)%nat && (length l mod Nk =? 4)%nat then SubWord temp else temp).
Proof.
  intros HN Hp. unfold next_word. rewrite !nth_window by lia. rewrite length_app, Hp.
  replace (Nk * i + length l)%nat with (length l + i * Nk)%nat by lia.
  rewrite Nat.Div0.mod_add, Nat.div_add, (Nat.add_comm (_ / _)) by lia. done.
Qed.

Lemma RCON_spec i : (i < 10)%nat -> RCON (Z.of_nat i) = W (Rcon (S i)) /\ word_ok (Rcon (S i)).
Proof.
  intros H. do 10 (destruct i as [|i]; [split; [reflexivity | split; [reflexivity|]]; repeat (apply Forall_cons; split); try apply Forall_nil; exact I || (split; [discriminate | reflexivity])|]). lia.
Qed.

Lemma SubWord_ok w : word_ok w -> word_ok (SubWord w) /\ word_ok (SubWord (RotWord w)).
Proof.
  intros H. word_cases H.
  split; (split; [reflexivity|]; cbn; repeat (apply Forall_cons; split); try apply Forall_nil; exact I || by apply SBox_byte).
Qed.

Lemma key_rot_spec u v i :
  word_ok u -> word_ok v -> (i < 10)%nat ->
  key_rot (W u) (W v) (Z.of_nat i) = W (xor_bytes u (xor_bytes (SubWord (RotWord v)) (Rcon (S i)))).
Proof.
  intros Hu Hv Hi. destruct (RCON_spec i Hi) as [R Hr].
  unfold key_rot. rewrite R. destruct (word_ok_inv _ Hr) as (r0 & r1 & r2 & r3 & -> & _).
  word_cases Hu. word_cases Hv. rewrite !W_list.
  destruct (te4_word a0 b0 c0 d0) as (_ & _ & _ & _ & T0 & T1 & T2 & T3); [done..|]. cbv zeta in T0, T1, T2, T3.
  rewrite T0, T1, T2, T3, !word_lxor, !Z.lxor_0_r, !Z.lxor_assoc. reflexivity.
Qed.

Lemma key_sub_spec u v : word_ok u -> word_ok v -> key_sub (W u) (W v) = W (xor_bytes u (SubWord v)).
Proof.
  intros Hu Hv. word_cases Hu. word_cases Hv. rewrite !W_list. unfold key_sub.
  destruct (te4_word a0 b0 c0 d0) as (T0 & T1 & T2 & T3 & _); [done..|]. cbv zeta in T0, T1, T2, T3.
  change TE411 with TE41. change TE422 with TE42. change TE433 with TE43. change TE444 with TE44.
  rewrite T0, T1, T2, T3, !word_lxor, !Z.lxor_0_r. reflexivity.
Qed.

Lemma next_word_ok Nk w :
  (0 < Nk <= length w)%nat -> (length w < 11 * Nk)%nat -> Forall word_ok w -> word_ok (next_word Nk w).
Proof.
  intros HN Hl Hw.
  assert (forall j, (j < length w)%nat -> word_ok (nth j w [])) as F.
  { intros j Hj. apply (Forall_forall _ w) with (x := nth j w []); [done|]. apply list_elem_of_In, nth_In. lia. }
  unfold next_word. apply xor_word_ok; [apply F; lia|].
  destruct (SubWord_ok (nth (length w - 1) w []) (F (length w - 1)%nat ltac:(lia))) as [S1 S2].
  destruct (Nat.eqb_spec (length w mod Nk) 0); [|destruct (_ && _); [done | apply F; lia]].
  apply xor_word_ok; [done|].
  assert (length w / Nk < 11)%nat by (apply Nat.Div0.div_lt_upper_bound; lia).
  assert (0 < length w / Nk)%nat by (apply Nat.div_str_pos; lia).
  replace (length w / Nk)%nat with (S (length w / Nk - 1)) by lia. apply RCON_spec. lia.
Qed.

Lemma expand_S Nk n w : expand Nk (S n) w = expand Nk n (w ++ [next_word Nk w]).
Proof. apply Nat.iter_succ_r. Qed.

Lemma expand_ok Nk n w :
  (0 < Nk <= length w)%nat -> (length w + n <= 11 * Nk)%nat -> Forall word_ok w ->
  Forall word_ok (expand Nk n w) /\ length (expand Nk n w) = (length w + n)%nat.
Proof.
  revert w. induction n as [|n IH]; intros w HN Hl Hw; [split; [done|cbn; lia]|]. rewrite expand_S.
  destruct (IH (w ++ [next_word Nk w])) as [F L]; rewrite ?length_app in *; cbn [length] in *; [lia..| |split; [done|lia]].
  apply Forall_app_2; [done|]. constructor; [|done]. apply next_word_ok; [lia|lia|done].
Qed.

(** One iteration of the 128-bit schedule writes four words. *)
Lemma expand4 i p a b c d :
  length p = (4 * i)%nat ->
  let a' := xor_bytes a (xor_bytes (SubWord (RotWord d)) (Rcon (S i))) in
  let b' := xor_bytes b a' in let c' := xor_bytes c b' in let d' := xor_bytes d c' in
  expand 4 4 (p ++ [a; b; c; d]) = (p ++ [a; b; c; d]) ++ [a'; b'; c'; d'].
Proof.
  intros Hp a' b' c' d'.
  rewrite expand_S, (next_word_window 4 i p), <- !app_assoc by (done || (cbn; lia)). cbn [app length Nat.sub nth].
  change (4 mod 4 =? 0)%nat with true. cbv iota zeta. change (4 / 4)%nat with 1%nat.
  replace (i + 1)%nat with (S i) by lia. fold a'.
  do 3 (rewrite expand_S, (next_word_window 4 i p), <- !app_assoc by (done || (cbn; lia)); cbn -[a' xor_bytes expand]).
  reflexivity.
Qed.

Lemma expand_app Nk m n w : expand Nk (n + m) w = expand Nk n (expand Nk m w).
Proof. apply Nat.iter_add. Qed.

Lemma setup128_spec n i p a b c d :
  (i + n <= 10)%nat -> length p = (4 * i)%nat -> word_ok a -> word_ok b -> word_ok c -> word_ok d ->
  map W (expand 4 (4 * n) (p ++ [a; b; c; d])) = map W p ++ setup128 n (Z.of_nat i) (W a) (W b) (W c) (W d).
Proof.
  revert i p a b c d. induction n as [|n IH]; intros i p a b c d Hi Hp Ha Hb Hc Hd.
  { change (expand 4 (4 * 0) ?l) with l. by rewrite map_app. }
  replace (4 * S n)%nat with (4 * n + 4)%nat by lia. rewrite expand_app, (expand4 i) by done.
  destruct (RCON_spec i ltac:(lia)) as [_ Hr]. destruct (SubWord_ok d Hd) as [_ Hs].
  rewrite (IH (S i)) by (auto 12 with rtw || lia || (rewrite length_app; cbn; lia)).
  cbn [setup128]. rewrite map_app, <- app_assoc, key_rot_spec, !W_lxor by (auto 12 with rtw || lia).
  by replace (Z.of_nat (S i)) with (Z.of_nat i + 1) by lia.
Qed.

(** One full iteration of the 192-bit schedule writes six words. *)
Lemma expand6 i p a b c d e f :
  length p = (6 * i)%nat ->
  let a' := xor_bytes a (xor_bytes (SubWord (RotWord f)) (Rcon (S i))) in
  let b' := xor_bytes b a' in let c' := xor_bytes c b' in let d' := xor_bytes d c' in
  let e' := xor_bytes e d' in let f' := xor_bytes f e' in
  expand 6 4 (p ++ [a; b; c; d; e; f]) = (p ++ [a; b; c; d; e; f]) ++ [a'; b'; c'; d'] /\
  expand 6 6 (p ++ [a; b; c; d; e; f]) = (p ++ [a; b; c; d; e; f]) ++ [a'; b'; c'; d'; e'; f'].
Proof.
  intros Hp a' b' c' d' e' f'.
  assert (expand 6 4 (p ++ [a; b; c; d; e; f]) = (p ++ [a; b; c; d; e; f]) ++ [a'; b'; c'; d']) as E4.
  { rewrite expand_S, (next_word_window 6 i p), <- !app_assoc by (done || (cbn; lia)). cbn [app length Nat.sub nth].
    change (6 mod 6 =? 0)%nat with true. cbv iota zeta. change (6 / 6)%nat with 1%nat.
    replace (i + 1)%nat with (S i) by lia. fold a'.
    do 3 (rewrite expand_S, (next_word_window 6 i p), <- !app_assoc by (done || (cbn; lia)); cbn -[a' xor_bytes expand]).
    reflexivity. }
  split; [exact E4|]. change 6%nat with (2 + 4)%nat at 2. rewrite expand_app, E4, <- app_assoc.
  do 2 (rewrite expand_S, (next_word_window 6 i p), <- ?app_assoc by (done || (cbn; lia)); cbn -[a' xor_bytes expand]).
  reflexivity.
Qed.

Lemma setup192_spec n i p a b c d e f :
  (i + S n = 8)%nat -> length p = (6 * i)%nat ->
  word_ok a -> word_ok b -> word_ok c -> word_ok d -> word_ok e -> word_ok f ->
  map W (expand 6 (6 * n + 4) (p ++ [a; b; c; d; e; f]))
  = map W p ++ setup192 (S n) (Z.of_nat i) (W a) (W b) (W c) (W d) (W e) (W f).
Proof.
  revert i p a b c d e f. induction n as [|n IH]; intros i p a b c d e f Hi Hp Ha Hb Hc Hd He Hf;
    destruct (RCON_spec i ltac:(lia)) as [_ Hr]; destruct (SubWord_ok f Hf) as [_ Hs];
    destruct (expand6 i p a b c d e f Hp) as [E4 E6].
  - replace i with 7%nat in * by lia. change (6 * 0 + 4)%nat with 4%nat. rewrite E4. cbn [setup192]. change (Z.of_nat 7 =? 7) with true. cbv iota.
    rewrite !map_app, <- !app_assoc. cbn [map app]. by rewrite key_rot_spec, !W_lxor by (auto 12 with rtw || lia).
  - replace (6 * S n + 4)%nat with ((6 * n + 4) + 6)%nat by lia. rewrite expand_app, E6.
    rewrite (IH (S i)) by (auto 12 with rtw || lia || (rewrite length_app; cbn; lia)).
    remember (S n) as n' eqn:En. cbn [setup192]. destruct (Z.eqb_spec (Z.of_nat i) 7); [lia|].
    rewrite map_app, <- app_assoc, key_rot_spec, !W_lxor by (auto 12 with rtw || lia).
    by replace (Z.of_nat (S i)) with (Z.of_nat i + 1) by lia.
Qed.

(** One full iteration of the 256-bit schedule writes eight words. *)
Lemma expand8 i p a b c d e f g h :
  length p = (8 * i)%nat ->
  let a' := xor_bytes a (xor_bytes (SubWord (RotWord h)) (Rcon (S i))) in
  let b' := xor_bytes b a' in let c' := xor_bytes c b' in let d' := xor_bytes d c' in
  let e' := xor_bytes e (SubWord d') in let f' := xor_bytes f e' in
  let g' := xor_bytes g f' in let h' := xor_bytes h g' in
  let w := p ++ [a; b; c; d; e; f; g; h] in
  expand 8 4 w = w ++ [a'; b'; c'; d'] /\ expand 8 8 w = w ++ [a'; b'; c'; d'; e'; f'; g'; h'].
Proof.
  intros Hp a' b' c' d' e' f' g' h' w.
  assert (expand 8 4 w = w ++ [a'; b'; c'; d']) as E4.
  { unfold w. rewrite expand_S, (next_word_window 8 i p), <- !app_assoc by (done || (cbn; lia)).
    cbn [app length Nat.sub nth].
    change (8 mod 8 =? 0)%nat with true. cbv iota zeta. change (8 / 8)%nat with 1%nat.
    replace (i + 1)%nat with (S i) by lia. fold a'.
    do 3 (rewrite expand_S, (next_word_window 8 i p), <- !app_assoc by (done || (cbn; lia)); cbn -[a' xor_bytes expand SubWord]).
    reflexivity. }
  split; [exact E4|]. change 8%nat with (4 + 4)%nat at 2. rewrite expand_app, E4. unfold w. rewrite <- app_assoc.
  do 4 (rewrite expand_S, (next_word_window 8 i p), <- ?app_assoc by (done || (cbn; lia)); cbn -[a' xor_bytes expand SubWord]).
  reflexivity.
Qed.

Lemma setup256_spec n i p a b c d e f g h :
  (i + S n = 7)%nat -> length p = (8 * i)%nat ->
  word_ok a -> word_ok b -> word_ok c -> word_ok d -> word_ok e -> word_ok f -> word_ok g -> word_ok h ->
  map W (expand 8 (8 * n + 4) (p ++ [a; b; c; d; e; f; g; h]))
  = map W p ++ setup256 (S n) (Z.of_nat i) (W a) (W b) (W c) (W d) (W e) (W f) (W g) (W h).
Proof.
  revert i p a b c d e f g h.
  induction n as [|n IH]; intros i p a b c d e f g h Hi Hp Ha Hb Hc Hd He Hf Hg Hh;
    destruct (RCON_spec i ltac:(lia)) as [_ Hr]; destruct (SubWord_ok h Hh) as [_ Hs];
    destruct (expand8 i p a b c d e f g h Hp) as [E4 E8].
  - replace i with 6%nat in * by lia. change (8 * 0 + 4)%nat with 4%nat. rewrite E4.
    cbn [setup256]. change (Z.of_nat 6 =? 6) with true. cbv iota.
    rewrite !map_app, <- !app_assoc. cbn [map app]. by rewrite key_rot_spec, !W_lxor by (auto 12 with rtw || lia).
  - replace (8 * S n + 4)%nat with ((8 * n + 4) + 8)%nat by lia. rewrite expand_app, E8.
    match goal with |- context [SubWord (xor_bytes ?x ?y)] =>
      destruct (SubWord_ok (xor_bytes x y)) as [Hsd _]; [by auto 12 with rtw|] end.
    rewrite (IH (S i)) by (auto 16 with rtw || lia || (rewrite length_app; cbn; lia)).
    remember (S n) as n' eqn:En. cbn [setup256]. destruct (Z.eqb_spec (Z.of_nat i) 6); [lia|].
    rewrite map_app, <- app_assoc, key_rot_spec, !W_lxor, key_sub_spec, !W_lxor by (auto 16 with rtw || lia).
    by replace (Z.of_nat (S i)) with (Z.of_nat i + 1) by lia.
Qed.

(** ** The block cipher *)

(** What the modes of operation ask of a block cipher. *)
Class BlockCipher (E : bytes -> res bytes) : Prop := {
  block_total b : block_ok b -> exists c, E b = Ret c /\ block_ok c
}.

(** [aes_encrypt] with the context made from a key. *)
Definition aes_block (key : bytes) (key_len : Z) (plain : bytes) : res bytes :=
  ctx ← aes_encrypt_init key key_len;
  match (ctx : option (list Z * Z)) with Some ctx => aes_encrypt ctx plain | None => Oob end.

(** A key of 128, 192 or 256 bits: [Nk] words. *)
Definition key_ok (Nk : nat) (key : bytes) : Prop :=
  (Nk = 4 \/ Nk = 6 \/ Nk = 8)%nat /\ length key = (4 * Nk)%nat /\ bytes_ok key.

Lemma words_of_inv n key :
  length key = (4 * n)%nat -> bytes_ok key -> Forall word_ok (words_of key) /\ length (words_of key) = n /\ concat (words_of key) = key.
Proof.
  revert key. induction n as [|n IH]; intros key L F.
  { destruct key; [repeat constructor | discriminate]. }
  destruct key as [|a [|b [|c [|d key]]]]; cbn in L; try lia.
  decompose_Forall_hyps. destruct (IH key) as (F' & L' & C); [lia|done|].
  cbn [words_of]. split_and!; [constructor; [|done]; split; [done | by repeat apply Forall_cons_2] | cbn; lia | cbn; by rewrite C].
Qed.

(** Reading the [n]-th word of a key. *)
Lemma GETU32_words ws n w :
  Forall word_ok ws -> ws !! n = Some w -> GETU32 (concat ws) (4 * Z.of_nat n) = Ret (W w).
Proof.
  intros F Hn. rewrite <- (take_drop_middle ws n w Hn), concat_app. cbn [concat].
  apply GETU32_app; [by apply (Forall_lookup_1 _ _ _ _ F Hn)|].
  assert (forall l, Forall word_ok l -> zlen (concat l) = 4 * zlen l) as L.
  { intros l Hl. induction Hl as [|x l [Hx _] _ IH]; [done|]. cbn [concat]. rewrite zlen_app, zlen_cons, IH. unfold zlen. lia. }
  rewrite L by (by apply Forall_take). unfold zlen. rewrite length_take. apply lookup_lt_Some in Hn. lia.
Qed.

Lemma aes_encrypt_init_spec Nk key :
  key_ok Nk key ->
  let w := KeyExpansion Nk (Nk + 6) key in
  aes_encrypt_init key (4 * Z.of_nat Nk) = Ret (Some (map W w, Z.of_nat (Nk + 6))) /\
  Forall word_ok w /\ length w = (4 * (Nk + 7))%nat.
Proof.
  intros (HN & L & F) w. destruct (words_of_inv Nk key L F) as (Fw & Lw & C).
  assert (forall n v, words_of key !! n = Some v -> GETU32 key (4 * Z.of_nat n) = Ret (W v)) as G
    by (intros n v Hv; rewrite <- C; by apply GETU32_words).
  unfold w, KeyExpansion. destruct (expand_ok Nk (4 * (Nk + 6 + 1) - Nk) (words_of key)) as [Fe Le]; [lia|lia|done|].
  split; [|split; [exact Fe | lia]]. clear Fe Le.
  unfold aes_encrypt_init, rijndaelKeySetupEnc.
  destruct (words_of key) as [|k0 [|k1 [|k2 [|k3 ws]]]]; cbn in Lw; try lia.
  rewrite !Forall_cons in Fw. destruct Fw as (H0 & H1 & H2 & H3 & Fw).
  rewrite (G 0%nat k0 eq_refl : GETU32 key 0 = _), (G 1%nat k1 eq_refl : GETU32 key 4 = _),
    (G 2%nat k2 eq_refl : GETU32 key 8 = _), (G 3%nat k3 eq_refl : GETU32 key 12 = _), !bind_Ret.
  destruct HN as [-> | [-> | ->]].
  { destruct ws; [|discriminate]. do 2 f_equal. symmetry. f_equal. by apply (setup128_spec 10 0 []). }
  all: destruct ws as [|k4 [|k5 ws]]; try discriminate; rewrite !Forall_cons in Fw; destruct Fw as (H4 & H5 & Fw).
  all: rewrite (G 4%nat k4 eq_refl : GETU32 key 16 = _), (G 5%nat k5 eq_refl : GETU32 key 20 = _), !bind_Ret.
  { destruct ws; [|discriminate]. do 2 f_equal. symmetry. f_equal. by apply (setup192_spec 7 0 []). }
  destruct ws as [|k6 [|k7 ws]]; try discriminate. rewrite !Forall_cons in Fw. destruct Fw as (H6 & H7 & Fw).
  rewrite (G 6%nat k6 eq_refl : GETU32 key 24 = _), (G 7%nat k7 eq_refl : GETU32 key 28 = _), !bind_Ret.
  destruct ws; [|discriminate]. do 2 f_equal. symmetry. f_equal. by apply (setup256_spec 6 0 []).
Qed.

Lemma aes_block_spec Nk key plain :
  key_ok Nk key -> block_ok plain ->
  aes_block key (4 * Z.of_nat Nk) plain = Ret (AES Nk key plain) /\ block_ok (AES Nk key plain).
Proof.
  intros Hk Hp. destruct (aes_encrypt_init_spec Nk key Hk) as (E & F & L).
  unfold aes_block, aes_encrypt, AES. rewrite E, bind_Ret. cbn [fst snd].
  destruct Hk as [HN _]. replace (Nk + 6)%nat with (2 * ((Nk + 6) / 2))%nat in * by (destruct HN as [-> | [-> | ->]]; reflexivity).
  apply Cipher_ok; [done | | rewrite L | done]; destruct HN as [-> | [-> | ->]]; cbn; lia.
Qed.

#[export] Instance aes_BlockCipher Nk key ctx :
  key_ok Nk key -> aes_encrypt_init key (4 * Z.of_nat Nk) = Ret (Some ctx) -> BlockCipher (aes_encrypt ctx).
Proof.
  intros Hk E. split. intros b Hb. destruct (aes_block_spec Nk key b Hk Hb) as [H Ho].
  unfold aes_block in H. rewrite E, bind_Ret in H. eauto.
Qed.

(** C37: For every key of 128, 192 or 256 bits the table-driven cipher,
    key schedule included, computes the AES of FIPS 197: it reads and
    writes in bounds, ends, and returns [Fips.AES] of the block. *)
Theorem aes_encrypt_is_fips197 Nk key plain :
  key_ok Nk key -> block_ok plain ->
  (ctx ← aes_encrypt_init key (4 * Z.of_nat Nk);
   match (ctx : option (list Z * Z)) with Some ctx => aes_encrypt ctx plain | None => Oob end)
  = Ret (AES Nk key plain).
Proof. intros Hk Hp. by apply aes_block_spec. Qed.

(** The example vectors of FIPS 197, appendix C. *)
Definition fips_plain : bytes :=
  [0x00; 0x11; 0x22; 0x33; 0x44; 0x55; 0x66; 0x77; 0x88; 0x99; 0xaa; 0xbb; 0xcc; 0xdd; 0xee; 0xff].

Lemma aes_encrypt_is_fips197_witness :
  aes_block (map Z.of_nat (seq 0 16)) 16 fips_plain
  = Ret [0x69; 0xc4; 0xe0; 0xd8; 0x6a; 0x7b; 0x04; 0x30; 0xd8; 0xcd; 0xb7; 0x80; 0x70; 0xb4; 0xc5; 0x5a].
Proof.
  etransitivity; [apply (aes_encrypt_is_fips197 4)|vm_compute; reflexivity].
  - split; [by left|]. split; [done|]. apply (bool_decide_unpack _). vm_compute. exact I.
  - split; [done|]. apply (bool_decide_unpack _). vm_compute. exact I.
Defined.

Example aes256_vector :
  aes_block (map Z.of_nat (seq 0 32)) 32 fips_plain
  = Ret [0x8e; 0xa2; 0xb7; 0xca; 0x51; 0x67; 0x45; 0xbf; 0xea; 0xfc; 0x49; 0x90; 0x4b; 0x49; 0x60; 0x89].
Proof. vm_compute. reflexivity. Qed.
