(* ===== verification/CipherModes.v ===== *)
(** * CCM and GCM with AES (core/crypto/aes-ccm.c, aes-gcm.c)

    Both modes encrypt with a counter and authenticate: CCM with a CBC-MAC,
    GCM with a polynomial hash.  Arrays are byte lists passed by value; where
    the code writes a whole block behind a shorter message, the bytes behind
    the message are slack of the caller's buffer and are not kept.  The
    routines work for any block cipher ([BlockCipher]); the AES of Aes.v is
    one. *)

From S2P Require Import Prelude Aes.
Import Fips(xor_bytes).

Definition AES_BLOCK_SIZE : Z := 16.

(** [WPA_PUT_BE16], [WPA_PUT_LE16], [WPA_PUT_BE32] and [WPA_PUT_BE64]: the
    bytes written. *)
Definition put_be16 (val : Z) : bytes := [Z.shiftr (u16 val) 8; Z.land (u16 val) 0xff].
Definition put_le16 (val : Z) : bytes := [Z.land (u16 val) 0xff; Z.shiftr (u16 val) 8].
Definition put_be32 (val : Z) : bytes :=
  [Z.land (Z.shiftr (u32 val) 24) 0xff; Z.land (Z.shiftr (u32 val) 16) 0xff;
   Z.land (Z.shiftr (u32 val) 8) 0xff; Z.land (u32 val) 0xff].
Definition put_be64 (val : Z) : bytes :=
  map (fun k => u8 (Z.shiftr (u64 val) k)) [56; 48; 40; 32; 24; 16; 8; 0].

(** [WPA_GET_BE32(v + off)] of a 16-byte array. *)
Definition get_be32 (v : bytes) (off : Z) : Z :=
  Z.lor (Z.lor (Z.lor (Z.shiftl (znth v off) 24) (Z.shiftl (znth v (off + 1)) 16)) (Z.shiftl (znth v (off + 2)) 8))
    (znth v (off + 3)).

(** [x[i] ^= d[i]] for the bytes of [d]. *)
Definition xor_prefix (x d : bytes) : bytes := xor_bytes x d ++ drop (length d) x.

(** [os_memcmp_const]: 0 when the first bytes agree. *)
Definition os_memcmp_const (a b : bytes) : Z := foldl Z.lor 0 (xor_bytes a b).

Section Modes.
Context (aes_encrypt : bytes -> res bytes).

(** ** Counter mode

    The loop that CCM and GCM share: [n] whole blocks, then the rest; [st] is
    the counter, [block st] the counter block. *)
Fixpoint ctr_mode {S : Type} (block : S -> bytes) (next : S -> S) (n : nat) (st : S) (inp : bytes) : res bytes :=
  match n with
  | O =>
      match inp with
      | [] => Ret []
      | _ => s ← aes_encrypt (block st); Ret (xor_bytes s inp)
      end
  | Datatypes.S n =>
      s ← aes_encrypt (block st);
      rest ← ctr_mode block next n (next st) (drop 16 inp);
      Ret (xor_bytes s (take 16 inp) ++ rest)
  end.

(** ** CCM *)

Definition aes_ccm_auth_start (M L : Z) (nonce aad : bytes) (plain_len : Z) : res bytes :=
  let aad_len := zlen aad in
  let b0 := u8 (Z.lor (Z.lor (if aad_len =? 0 then 0 else 0x40) (Z.shiftl ((M - 2) / 2) 3)) (L - 1)) in
  n ← rd_slice nonce 0 (15 - L);
  x ← aes_encrypt ([b0] ++ n ++ put_be16 plain_len);
  if aad_len =? 0 then Ret x
  else
    let aad_buf := put_be16 aad_len ++ aad ++ replicate (Z.to_nat (2 * AES_BLOCK_SIZE - 2 - aad_len)) 0 in
    x ← aes_encrypt (xor_bytes (take 16 aad_buf) x);
    if AES_BLOCK_SIZE - 2 <? aad_len then aes_encrypt (xor_bytes (drop 16 aad_buf) x) else Ret x.

Fixpoint ccm_auth_blocks (n : nat) (data x : bytes) : res bytes :=
  match n with
  | O => match data with [] => Ret x | _ => aes_encrypt (xor_prefix x data) end
  | Datatypes.S n => x ← aes_encrypt (xor_bytes x (take 16 data)); ccm_auth_blocks n (drop 16 data) x
  end.

Definition aes_ccm_auth (data x : bytes) : res bytes := ccm_auth_blocks (length data / 16) data x.

Definition aes_ccm_encr_start (L : Z) (nonce : bytes) : res bytes :=
  n ← rd_slice nonce 0 (15 - L); Ret ([u8 (L - 1)] ++ n ++ [0; 0]).

(** The counter goes into the last two bytes of [a]. *)
Definition set_ctr (a : bytes) (i : Z) : bytes := take 14 a ++ put_be16 i.

Definition aes_ccm_encr (inp a : bytes) : res bytes := ctr_mode (set_ctr a) (Z.add 1) (length inp / 16) 1 inp.

Definition aes_ccm_encr_auth (M : Z) (x a : bytes) : res bytes :=
  tmp ← aes_encrypt (set_ctr a 0); Ret (take (Z.to_nat M) (xor_bytes x tmp)).

Definition aes_ccm_decr_auth (M : Z) (a auth : bytes) : res bytes :=
  tmp ← aes_encrypt (set_ctr a 0); Ret (xor_bytes (take (Z.to_nat M) auth) tmp).

(** Ciphertext and authentication value, after [aes_encrypt_init]. *)
Definition ccm_ae (nonce : bytes) (M : Z) (plain aad : bytes) : res (bytes * bytes) :=
  x ← aes_ccm_auth_start M 2 nonce aad (zlen plain);
  x ← aes_ccm_auth plain x;
  a ← aes_ccm_encr_start 2 nonce;
  crypt ← aes_ccm_encr plain a;
  auth ← aes_ccm_encr_auth M x a;
  Ret (crypt, auth).

(** The plaintext; [None] when the authentication value does not match. *)
Definition ccm_ad (nonce : bytes) (M : Z) (crypt aad auth : bytes) : res (option bytes) :=
  a ← aes_ccm_encr_start 2 nonce;
  t ← aes_ccm_decr_auth M a auth;
  plain ← aes_ccm_encr crypt a;
  x ← aes_ccm_auth_start M 2 nonce aad (zlen crypt);
  x ← aes_ccm_auth plain x;
  Ret (if os_memcmp_const (take (Z.to_nat M) x) t =? 0 then Some plain else None).

(** ** GCM *)

Definition inc32 (block : bytes) : bytes := take 12 block ++ put_be32 (u32 (get_be32 block 12 + 1)).

Definition shift_word (v : bytes) (off : Z) (carry : bool) : bytes :=
  let val := Z.shiftr (get_be32 v off) 1 in
  put_be32 (if carry then Z.lor val 0x80000000 else val).

Definition shift_right_block (v : bytes) : bytes :=
  shift_word v 0 false ++ shift_word v 4 (bit_test (znth v 3) 1) ++
  shift_word v 8 (bit_test (znth v 7) 1) ++ shift_word v 12 (bit_test (znth v 11) 1).

(** The bits of [x], first bit first. *)
Definition gf_step (zv : bytes * bytes) (bit : bool) : bytes * bytes :=
  let '(z, v) := zv in
  let z := if bit then xor_bytes z v else z in
  let w := shift_right_block v in
  (z, if bit_test (znth v 15) 1 then xor_prefix w [0xe1] else w).

Definition bits_of (x : bytes) : list bool :=
  flat_map (fun b => map (fun j => bit_test b (BIT (7 - j))) [0; 1; 2; 3; 4; 5; 6; 7]) x.

Definition gf_mult (x y : bytes) : bytes := fst (foldl gf_step (replicate 16 0, y) (bits_of x)).

Fixpoint ghash_blocks (n : nat) (h x y : bytes) : bytes :=
  match n with
  | O => match x with [] => y | _ => gf_mult (xor_bytes y (x ++ replicate (16 - length x) 0)) h end
  | Datatypes.S n => ghash_blocks n h (drop 16 x) (gf_mult (xor_bytes y (take 16 x)) h)
  end.

Definition ghash (h x y : bytes) : bytes := ghash_blocks (length x / 16) h x y.

Definition aes_gctr (icb x : bytes) : res bytes := ctr_mode (fun cb => cb) inc32 (length x / 16) icb x.

Definition aes_gcm_prepare_j0 (iv H : bytes) : bytes :=
  if zlen iv =? 12 then iv ++ [0; 0; 0; 1]
  else ghash H (put_be64 0 ++ put_be64 (zlen iv * 8)) (ghash H iv (replicate 16 0)).

Definition aes_gcm_gctr (J0 inp : bytes) : res bytes :=
  match inp with [] => Ret [] | _ => aes_gctr (inc32 J0) inp end.

Definition aes_gcm_ghash (H aad crypt : bytes) : bytes :=
  ghash H (put_be64 (zlen aad * 8) ++ put_be64 (zlen crypt * 8)) (ghash H crypt (ghash H aad (replicate 16 0))).

Definition gcm_ae (iv plain aad : bytes) : res (bytes * bytes) :=
  H ← aes_encrypt (replicate 16 0);
  let J0 := aes_gcm_prepare_j0 iv H in
  crypt ← aes_gcm_gctr J0 plain;
  tag ← aes_gctr J0 (aes_gcm_ghash H aad crypt);
  Ret (crypt, tag).

Definition gcm_ad (iv crypt aad tag : bytes) : res (option bytes) :=
  H ← aes_encrypt (replicate 16 0);
  let J0 := aes_gcm_prepare_j0 iv H in
  plain ← aes_gcm_gctr J0 crypt;
  T ← aes_gctr J0 (aes_gcm_ghash H aad crypt);
  Ret (if os_memcmp_const (take 16 tag) T =? 0 then Some plain else None).

End Modes.

(** ** The entry points, with the key *)

Definition aes_ccm_ae (key : bytes) (key_len : Z) (nonce : bytes) (M : Z) (plain aad : bytes) : res (option (bytes * bytes)) :=
  if (30 <? zlen aad) || (AES_BLOCK_SIZE <? M) then Ret None
  else
    ctx ← aes_encrypt_init key key_len;
    match (ctx : option (list Z * Z)) with
    | None => Ret None
    | Some aes => r ← ccm_ae (aes_encrypt aes) nonce M plain aad; Ret (Some r)
    end.

Definition aes_ccm_ad (key : bytes) (key_len : Z) (nonce : bytes) (M : Z) (crypt aad auth : bytes) : res (option bytes) :=
  if (30 <? zlen aad) || (AES_BLOCK_SIZE <? M) then Ret None
  else
    ctx ← aes_encrypt_init key key_len;
    match (ctx : option (list Z * Z)) with
    | None => Ret None
    | Some aes => ccm_ad (aes_encrypt aes) nonce M crypt aad auth
    end.

Definition aes_gcm_ae (key : bytes) (key_len : Z) (iv plain aad : bytes) : res (option (bytes * bytes)) :=
  ctx ← aes_encrypt_init key key_len;
  match (ctx : option (list Z * Z)) with
  | None => Ret None
  | Some aes => r ← gcm_ae (aes_encrypt aes) iv plain aad; Ret (Some r)
  end.

Definition aes_gcm_ad (key : bytes) (key_len : Z) (iv crypt aad tag : bytes) : res (option bytes) :=
  ctx ← aes_encrypt_init key key_len;
  match (ctx : option (list Z * Z)) with
  | None => Ret None
  | Some aes => gcm_ad (aes_encrypt aes) iv crypt aad tag
  end.

Definition aes_gmac (key : bytes) (key_len : Z) (iv aad : bytes) : res (option bytes) :=
  r ← aes_gcm_ae key key_len iv [] aad;
  Ret (snd <$> (r : option (bytes * bytes))).

(** ** Bytes *)

Ltac byte_list :=
  repeat match goal with
  | |- Forall _ [] => apply Forall_nil_2
  | |- Forall _ (_ :: _) => apply Forall_cons_2
  | |- Forall _ (_ ++ _) => apply Forall_app_2
  end; auto using Forall_take, Forall_drop with rtw.

Lemma xor_cancel s x : (length x <= length s)%nat -> xor_bytes s (xor_bytes s x) = x.
Proof.
  revert s. induction x as [|b x IH]; intros [|a s] H; cbn in *; try done; try lia.
  f_equal; [by rewrite <- Z.lxor_assoc, Z.lxor_nilpotent, Z.lxor_0_l | apply IH; lia].
Qed.

Lemma xor_bytes_length_r s x : (length x <= length s)%nat -> length (xor_bytes s x) = length x.
Proof. intros H. unfold xor_bytes. rewrite length_zip_with. lia. Qed.

Lemma xor_bytes_comm a b : xor_bytes a b = xor_bytes b a.
Proof. revert b. induction a as [|x a IH]; intros [|y b]; cbn; [done..|]. by rewrite Z.lxor_comm, <- IH. Qed.

Lemma take_xor n a b : take n (xor_bytes a b) = xor_bytes (take n a) b.
Proof. revert a b. induction n as [|n IH]; intros [|x a] [|y b]; cbn; try done. by rewrite <- IH. Qed.

Lemma memcmp_const_eq a b : length a = length b -> os_memcmp_const a b = 0 <-> a = b.
Proof.
  intros L. unfold os_memcmp_const.
  assert (forall l c, foldl Z.lor c l = 0 <-> c = 0 /\ Forall (fun x => x = 0) l) as F.
  { induction l as [|x l IH]; intros c; cbn; [by intuition|]. rewrite IH, Forall_cons, Z.lor_eq_0_iff. tauto. }
  rewrite F. clear F. revert b L. induction a as [|x a IH]; intros [|y b] L; try discriminate; [by intuition|].
  cbn in L. cbn [xor_bytes zip_with]. rewrite Forall_cons, Z.lxor_eq_0_iff. specialize (IH b ltac:(lia)).
  split; [intros (_ & -> & H); f_equal; by apply IH | intros [= -> ->]; split; [done|]; split; [done|]; by apply IH].
Qed.

Lemma put_be16_ok v : bytes_ok (put_be16 v).
Proof.
  pose proof (u16_range v) as H. unfold put_be16, is_u16, is_byte in *. change 0xff with (Z.ones 8).
  rewrite Z.land_ones, Z.shiftr_div_pow2 by lia. repeat (apply Forall_cons; split); try apply Forall_nil;
    first [exact I | Z.to_euclidean_division_equations; lia].
Qed.

Lemma land255_byte x : is_byte (Z.land x 0xff).
Proof. unfold is_byte. change 0xff with (Z.ones 8). rewrite Z.land_ones by lia. apply Z.mod_pos_bound. lia. Qed.

Lemma land_byte a b : is_byte b -> is_byte (Z.land a b).
Proof.
  intros Hb. assert (Z.land b 0xff = b) as E by (change 0xff with (Z.ones 8); rewrite Z.land_ones by lia; by apply Z.mod_small).
  rewrite <- E, Z.land_assoc. apply land255_byte.
Qed.

Lemma put_le16_ok v : bytes_ok (put_le16 v).
Proof.
  pose proof (put_be16_ok v) as P. unfold put_be16, put_le16 in *. inversion P as [|? ? Px Py]; subst.
  inversion Py; subst. by byte_list.
Qed.

Lemma put_be32_ok v : bytes_ok (put_be32 v).
Proof. unfold put_be32. repeat (apply Forall_cons; split); try apply Forall_nil; first [exact I | apply land255_byte]. Qed.

Lemma put_be64_ok v : bytes_ok (put_be64 v).
Proof. unfold put_be64. cbn [map]. repeat (apply Forall_cons; split); try apply Forall_nil; auto with rtw. Qed.

#[export] Hint Resolve put_be16_ok put_le16_ok put_be32_ok put_be64_ok xor_bytes_ok : rtw.

Lemma replicate_bytes n b : is_byte b -> bytes_ok (replicate n b).
Proof. intros H. by apply Forall_replicate. Qed.

Lemma byte0 : is_byte 0.
Proof. unfold is_byte. lia. Qed.

#[export] Hint Resolve replicate_bytes byte0 : rtw.

Section ModesSpec.
Context (E : bytes -> res bytes) {HE : BlockCipher E}.

(** ** Counter mode is its own inverse *)

Lemma ctr_mode_spec {S : Type} (P : S -> Prop) (block : S -> bytes) (next : S -> S) n st inp :
  (forall st, P st -> block_ok (block st) /\ P (next st)) -> P st ->
  (16 * n <= length inp < 16 * n + 16)%nat -> bytes_ok inp ->
  exists out, ctr_mode E block next n st inp = Ret out /\ length out = length inp /\ bytes_ok out /\
    ctr_mode E block next n st out = Ret inp.
Proof using HE.
  intros HP. revert st inp. induction n as [|n IH]; intros st inp Hst L F;
    destruct (HP st Hst) as [Hb Hn]; destruct (block_total _ Hb) as (s & Hs & Ls & Fs).
  - destruct inp as [|x inp]; [by exists []|]. cbn [ctr_mode]. rewrite Hs, bind_Ret.
    assert (length (x :: inp) <= length s)%nat as Lx by lia.
    exists (xor_bytes s (x :: inp)). split_and!; [done | by apply xor_bytes_length_r | auto with rtw |].
    rewrite bind_Ret, xor_cancel by done. by destruct s.
  - cbn [ctr_mode]. rewrite Hs, bind_Ret.
    destruct (IH (next st) (drop 16 inp) Hn) as (o & E1 & L1 & F1 & E2); [rewrite length_drop; lia | by apply Forall_drop|].
    assert (length (take 16 inp) = 16)%nat as Lt by (rewrite length_take; lia).
    assert (length (xor_bytes s (take 16 inp)) = 16)%nat as Lx by (rewrite xor_bytes_length_r; lia).
    rewrite E1, bind_Ret. exists (xor_bytes s (take 16 inp) ++ o). split_and!; [done | | |].
    + rewrite length_app, Lx, L1, length_drop. lia.
    + apply Forall_app_2; [|done]. apply xor_bytes_ok; [done | by apply Forall_take].
    + rewrite bind_Ret, drop_app_ge, take_app_le by lia. rewrite Lx, Nat.sub_diag, drop_0, E2, bind_Ret.
      rewrite take_ge, xor_cancel, take_drop by lia. done.
Qed.

Lemma div16 n : (16 * (n / 16) <= n < 16 * (n / 16) + 16)%nat.
Proof using. pose proof (Nat.div_mod_eq n 16). pose proof (Nat.mod_upper_bound n 16). lia. Qed.

(** ** CCM *)

Record ccm_args (nonce aad : bytes) (M : Z) : Prop := {
  cn_len : length nonce = 13%nat;
  cn_ok : bytes_ok nonce;
  ca_len : zlen aad <= 30;
  ca_ok : bytes_ok aad;
  cM : 0 <= M <= 16
}.

Lemma nonce_slice nonce aad M : ccm_args nonce aad M -> rd_slice nonce 0 (15 - 2) = Ret nonce.
Proof using.
  intros H. rewrite rd_slice_ok by (unfold zlen; rewrite ?(cn_len _ _ _ H); lia).
  by rewrite drop_0, take_ge by (rewrite (cn_len _ _ _ H); done).
Qed.

Lemma auth_start_total nonce aad M n : ccm_args nonce aad M -> exists x, aes_ccm_auth_start E M 2 nonce aad n = Ret x /\ block_ok x.
Proof using HE.
  intros H. unfold aes_ccm_auth_start. rewrite (nonce_slice _ _ _ H), bind_Ret.
  match goal with |- context [E (?b ++ nonce ++ ?l)] =>
    destruct (block_total (b ++ nonce ++ l)) as (x & -> & Hx) end.
  { split; [rewrite !length_app, (cn_len _ _ _ H); done|]. destruct H.
    repeat apply Forall_app_2; auto with rtw. }
  rewrite bind_Ret. destruct (Z.eqb_spec (zlen aad) 0); [eauto|].
  set (buf := _ ++ aad ++ _).
  assert (length buf = 32%nat) as Lb.
  { unfold buf. rewrite !length_app, length_replicate. pose proof (ca_len _ _ _ H). unfold AES_BLOCK_SIZE, zlen in *. cbn. lia. }
  assert (bytes_ok buf) as Fb by (unfold buf; destruct H; repeat apply Forall_app_2; auto with rtw).
  assert (forall y, block_ok y -> block_ok (xor_bytes (take 16 buf) y) /\ block_ok (xor_bytes (drop 16 buf) y)) as X.
  { intros y [Ly Fy]. split; (split; [rewrite xor_bytes_length; rewrite ?length_take, ?length_drop; lia|]);
      apply xor_bytes_ok; auto using Forall_take, Forall_drop. }
  destruct (block_total _ (proj1 (X x Hx))) as (x1 & -> & Hx1). rewrite bind_Ret.
  destruct (_ <? _); [|eauto]. destruct (block_total _ (proj2 (X x1 Hx1))) as (x2 & -> & Hx2). eauto.
Qed.

Lemma auth_total data x : bytes_ok data -> block_ok x -> exists y, aes_ccm_auth E data x = Ret y /\ block_ok y.
Proof using HE.
  unfold aes_ccm_auth. pose proof (div16 (length data)) as L. revert L. generalize (length data / 16)%nat as n.
  intros n. revert data x. induction n as [|n IH]; intros data x L Fd [Lx Fx]; cbn [ccm_auth_blocks].
  - destruct data as [|d data]; [exists x; by split|]. apply block_total. unfold xor_prefix. split.
    + rewrite length_app, xor_bytes_length_r, length_drop by lia. lia.
    + apply Forall_app_2; [by apply xor_bytes_ok | by apply Forall_drop].
  - destruct (block_total (xor_bytes x (take 16 data))) as (y & -> & Hy).
    { split; [rewrite xor_bytes_length; rewrite ?length_take; lia | apply xor_bytes_ok; auto using Forall_take]. }
    rewrite bind_Ret. apply IH; [rewrite length_drop; lia | by apply Forall_drop | done].
Qed.

(** The counter blocks of a message. *)
Lemma encr_start_total nonce aad M :
  ccm_args nonce aad M -> exists a, aes_ccm_encr_start 2 nonce = Ret a /\ forall i, block_ok (set_ctr a i).
Proof using.
  intros H. unfold aes_ccm_encr_start. rewrite (nonce_slice _ _ _ H), bind_Ret. eexists. split; [done|].
  intros i. unfold set_ctr. pose proof (cn_len _ _ _ H). split.
  - rewrite length_app, length_take, !length_app. change (length (put_be16 i)) with 2%nat. cbn [length]. lia.
  - apply Forall_app_2; [|auto with rtw]. apply Forall_take. destruct H.
    byte_list.
Qed.

(** Decryption accepts a ciphertext and an authentication value exactly when
    they are what encryption of the returned message gives. *)
Lemma ccm_ad_spec nonce aad M crypt auth :
  ccm_args nonce aad M -> bytes_ok crypt -> zlen auth = M ->
  exists plain tag,
    length plain = length crypt /\ bytes_ok plain /\ zlen tag = M /\
    ccm_ae E nonce M plain aad = Ret (crypt, tag) /\
    ccm_ad E nonce M crypt aad auth = Ret (if bool_decide (auth = tag) then Some plain else None).
Proof using HE.
  intros H Fc Ha. pose proof (cM _ _ _ H) as HM.
  destruct (encr_start_total _ _ _ H) as (a & Ea & Hctr).
  destruct (ctr_mode_spec (fun _ => True) (set_ctr a) (Z.add 1) (length crypt / 16) 1 crypt)
    as (plain & E1 & L & Fp & E2); [auto | done | apply div16 | done |].
  destruct (auth_start_total nonce aad M (zlen plain) H) as (x0 & Ex0 & Hx0).
  destruct (auth_total plain x0 Fp Hx0) as (x & Ex & Lx & Fx).
  destruct (block_total _ (Hctr 0)) as (tmp & Et & Lt & Ft).
  exists plain, (take (Z.to_nat M) (xor_bytes x tmp)).
  assert (length (take (Z.to_nat M) (xor_bytes x tmp)) = Z.to_nat M) as Ltag
    by (rewrite length_take, xor_bytes_length by lia; lia).
  split_and!; [done | done | unfold zlen; lia | |].
  - unfold ccm_ae. rewrite Ex0, bind_Ret, Ex, bind_Ret, Ea, bind_Ret. unfold aes_ccm_encr. rewrite L, E2, bind_Ret.
    unfold aes_ccm_encr_auth. by rewrite Et, !bind_Ret.
  - unfold ccm_ad. rewrite Ea, bind_Ret. unfold aes_ccm_decr_auth. rewrite Et, !bind_Ret.
    unfold aes_ccm_encr. rewrite E1, bind_Ret. replace (zlen crypt) with (zlen plain) by (unfold zlen; by rewrite L).
    rewrite Ex0, bind_Ret, Ex, bind_Ret. f_equal.
    assert (length (take (Z.to_nat M) x) = length auth) as Lm by (rewrite length_take; unfold zlen in Ha; lia).
    assert (length auth <= length tmp)%nat as La by (unfold zlen in Ha; lia).
    rewrite (take_ge auth), take_xor by (unfold zlen in Ha; lia).
    destruct (Z.eqb_spec (os_memcmp_const (take (Z.to_nat M) x) (xor_bytes auth tmp)) 0) as [Em|Em];
      rewrite memcmp_const_eq in Em by (rewrite xor_bytes_comm, xor_bytes_length_r; lia).
    + rewrite bool_decide_eq_true_2; [done|]. by rewrite Em, (xor_bytes_comm _ tmp), (xor_bytes_comm auth), xor_cancel.
    + rewrite bool_decide_eq_false_2; [done|]. intros ->. apply Em.
      rewrite (xor_bytes_comm _ tmp), (xor_bytes_comm _ tmp), xor_cancel; [done|]. rewrite Lm. lia.
Qed.

(** ** GCM *)

Lemma inc32_ok b : block_ok b -> block_ok (inc32 b).
Proof using.
  intros [L F]. split; [unfold inc32; rewrite length_app, length_take, L; done|].
  apply Forall_app_2; [by apply Forall_take | apply put_be32_ok].
Qed.

Lemma gf_step_ok z v b : block_ok z -> block_ok v -> block_ok (fst (gf_step (z, v) b)) /\ block_ok (snd (gf_step (z, v) b)).
Proof using.
  intros Hz Hv. cbn [gf_step fst snd].
  assert (block_ok (shift_right_block v)) as Hs.
  { split; [done|]. unfold shift_right_block, shift_word. byte_list. }
  split.
  - destruct b; [|done]. destruct Hz, Hv. split; [rewrite xor_bytes_length; lia | auto with rtw].
  - destruct (bit_test _ _); [|done]. destruct Hs as [Ls Fs]. unfold xor_prefix. split.
    + rewrite length_app, xor_bytes_length_r, length_drop by (cbn; lia). cbn [length]. lia.
    + apply Forall_app_2; [|by apply Forall_drop]. apply xor_bytes_ok; [done|]. byte_list. unfold is_byte. lia.
Qed.

Lemma gf_mult_ok x y : block_ok y -> block_ok (gf_mult x y).
Proof using.
  intros Hy. unfold gf_mult.
  assert (block_ok (replicate 16 0)) as Hz by (split; [done | auto with rtw]).
  revert Hz Hy. generalize (replicate 16 0) as z. revert y.
  induction (bits_of x) as [|b l IH]; intros y z Hz Hy; [done|]. cbn [foldl].
  destruct (gf_step_ok z y b Hz Hy) as [H1 H2]. destruct (gf_step (z, y) b) as [z' y']. by apply IH.
Qed.

Lemma ghash_ok h x y : block_ok h -> block_ok y -> block_ok (ghash h x y).
Proof using.
  intros Hh. unfold ghash. generalize (length x / 16)%nat as n. intros n. revert x y.
  induction n as [|n IH]; intros x y Hy; cbn [ghash_blocks]; [destruct x; [done | by apply gf_mult_ok]|].
  by apply IH, gf_mult_ok.
Qed.

Lemma prepare_j0_ok iv h : bytes_ok iv -> block_ok h -> block_ok (aes_gcm_prepare_j0 iv h).
Proof using.
  intros Fi Hh. unfold aes_gcm_prepare_j0. destruct (Z.eqb_spec (zlen iv) 12) as [Hl|].
  - unfold zlen in Hl. split; [rewrite length_app; cbn [length]; lia|]. byte_list. unfold is_byte. lia.
  - apply ghash_ok; [done|]. apply ghash_ok; [done|]. split; [done | auto with rtw].
Qed.

Lemma gctr_spec icb x :
  block_ok icb -> bytes_ok x ->
  exists y, aes_gctr E icb x = Ret y /\ length y = length x /\ bytes_ok y /\ aes_gctr E icb y = Ret x.
Proof using HE.
  intros Hi Fx. unfold aes_gctr.
  destruct (ctr_mode_spec block_ok (fun cb => cb) inc32 (length x / 16) icb x) as (y & E1 & L & Fy & E2);
    [auto using inc32_ok | done | apply div16 | done |]. exists y. by rewrite L.
Qed.

Lemma gcm_ad_spec iv aad crypt tag :
  bytes_ok iv -> bytes_ok crypt -> zlen tag = 16 ->
  exists plain tag',
    length plain = length crypt /\ bytes_ok plain /\ zlen tag' = 16 /\
    gcm_ae E iv plain aad = Ret (crypt, tag') /\
    gcm_ad E iv crypt aad tag = Ret (if bool_decide (tag = tag') then Some plain else None).
Proof using HE.
  intros Fi Fc Ht. destruct (block_total (replicate 16 0)) as (H & EH & HH); [split; [done | auto with rtw]|].
  set (J0 := aes_gcm_prepare_j0 iv H). assert (block_ok J0) as HJ by (by apply prepare_j0_ok).
  assert (exists plain, aes_gcm_gctr E J0 crypt = Ret plain /\ length plain = length crypt /\ bytes_ok plain /\
            aes_gcm_gctr E J0 plain = Ret crypt) as (plain & E1 & L & Fp & E2).
  { destruct (gctr_spec (inc32 J0) crypt (inc32_ok _ HJ) Fc) as (y & E1 & L & Fy & E2).
    destruct crypt as [|c crypt]; [by exists []|]. exists y. split_and!; [done..|]. by destruct y. }
  set (S := aes_gcm_ghash H aad crypt).
  assert (block_ok S) as [LS FS].
  { unfold S, aes_gcm_ghash. do 3 (apply ghash_ok; [done|]). split; [done | auto with rtw]. }
  destruct (gctr_spec J0 S HJ FS) as (tag' & E3 & L3 & _). exists plain, tag'.
  split_and!; [done | done | unfold zlen; lia | |].
  - unfold gcm_ae. rewrite EH, bind_Ret. fold J0. rewrite E2, bind_Ret. fold S. by rewrite E3, bind_Ret.
  - unfold gcm_ad. rewrite EH, bind_Ret. fold J0. rewrite E1, bind_Ret. fold S. rewrite E3, bind_Ret. f_equal.
    rewrite take_ge by (unfold zlen in Ht; lia).
    destruct (Z.eqb_spec (os_memcmp_const tag tag') 0) as [Em|Em]; rewrite memcmp_const_eq in Em by (unfold zlen in Ht; lia);
      [by rewrite bool_decide_eq_true_2 | by rewrite bool_decide_eq_false_2].
Qed.
End ModesSpec.

(** ** With a key *)

(** A key length of the cipher suites, and an array that holds such a key. *)
Definition suite_key (key : bytes) (key_len : Z) : Prop :=
  (key_len = 16 \/ key_len = 32) /\ key_len <= zlen key /\ bytes_ok key.

Lemma GETU32_app_l a b off : off + 3 < zlen a -> GETU32 (a ++ b) off = GETU32 a off.
Proof. intros H. unfold GETU32. rewrite !rd_app_l by lia. done. Qed.

(** Only the first [key_len] bytes are read. *)
Lemma init_take key key_len :
  suite_key key key_len -> aes_encrypt_init key key_len = aes_encrypt_init (take (Z.to_nat key_len) key) key_len.
Proof.
  intros (Hl & Hk & _). rewrite <- (take_drop (Z.to_nat key_len) key) at 1.
  assert (zlen (take (Z.to_nat key_len) key) = key_len) as L by (unfold zlen in *; rewrite length_take; lia).
  unfold aes_encrypt_init, rijndaelKeySetupEnc.
  destruct Hl as [-> | ->];
    [change (16 * 8 =? 128) with true | change (32 * 8 =? 128) with false]; cbv iota;
    rewrite !GETU32_app_l by (rewrite L; lia); reflexivity.
Qed.

Lemma suite_key_ok key key_len :
  suite_key key key_len ->
  key_ok (Z.to_nat (key_len / 4)) (take (Z.to_nat key_len) key) /\ key_len = 4 * Z.of_nat (Z.to_nat (key_len / 4)).
Proof.
  intros (Hl & Hk & Fk). unfold key_ok, zlen in *. rewrite length_take. destruct Hl as [-> | ->]; split; try done;
    [change (Z.to_nat (16 / 4)) with 4%nat | change (Z.to_nat (32 / 4)) with 8%nat];
    split_and!; auto using Forall_take; lia.
Qed.

Lemma suite_key_init key key_len :
  suite_key key key_len -> exists ctx, aes_encrypt_init key key_len = Ret (Some ctx) /\ BlockCipher (aes_encrypt ctx).
Proof.
  intros Hs. rewrite init_take by done. destruct (suite_key_ok key key_len Hs) as [K El].
  destruct (aes_encrypt_init_spec _ _ K) as (Ei & _). rewrite <- El in Ei. eexists. split; [exact Ei|].
  eapply aes_BlockCipher; [exact K | by rewrite <- El].
Qed.

Lemma aes_ccm_ad_spec key key_len nonce aad M crypt auth :
  suite_key key key_len -> ccm_args nonce aad M -> bytes_ok crypt -> zlen auth = M ->
  exists plain tag,
    length plain = length crypt /\ bytes_ok plain /\ zlen tag = M /\
    aes_ccm_ae key key_len nonce M plain aad = Ret (Some (crypt, tag)) /\
    aes_ccm_ad key key_len nonce M crypt aad auth = Ret (if bool_decide (auth = tag) then Some plain else None).
Proof.
  intros Hk H Fc Ha. destruct (suite_key_init _ _ Hk) as (ctx & Ei & HE).
  destruct (ccm_ad_spec (aes_encrypt ctx) nonce aad M crypt auth H Fc Ha) as (plain & tag & L & F & Lt & E1 & E2).
  exists plain, tag. split_and!; [done..| |]; unfold aes_ccm_ae, aes_ccm_ad;
    (destruct (Z.ltb_spec 30 (zlen aad)); [destruct H; lia|]); (destruct (Z.ltb_spec AES_BLOCK_SIZE M); [destruct H; unfold AES_BLOCK_SIZE in *; lia|]);
    cbn [orb]; rewrite Ei, bind_Ret; [by rewrite E1, bind_Ret | exact E2].
Qed.

Lemma aes_gcm_ad_spec key key_len iv aad crypt tag :
  suite_key key key_len -> bytes_ok iv -> bytes_ok crypt -> zlen tag = 16 ->
  exists plain tag',
    length plain = length crypt /\ bytes_ok plain /\ zlen tag' = 16 /\
    aes_gcm_ae key key_len iv plain aad = Ret (Some (crypt, tag')) /\
    aes_gcm_ad key key_len iv crypt aad tag = Ret (if bool_decide (tag = tag') then Some plain else None).
Proof.
  intros Hk Fi Fc Ht. destruct (suite_key_init _ _ Hk) as (ctx & Ei & HE).
  destruct (gcm_ad_spec (aes_encrypt ctx) iv aad crypt tag Fi Fc Ht) as (plain & tag' & L & F & Lt & E1 & E2).
  exists plain, tag'. unfold aes_gcm_ae, aes_gcm_ad. rewrite Ei, !bind_Ret, E1, bind_Ret. by split_and!.
Qed.

(** Encryption always succeeds, and decryption undoes it. *)
Lemma aes_ccm_ae_spec key key_len nonce aad M plain :
  suite_key key key_len -> ccm_args nonce aad M -> bytes_ok plain ->
  exists crypt tag,
    length crypt = length plain /\ bytes_ok crypt /\ zlen tag = M /\
    aes_ccm_ae key key_len nonce M plain aad = Ret (Some (crypt, tag)) /\
    aes_ccm_ad key key_len nonce M crypt aad tag = Ret (Some plain).
Proof.
  intros Hk H Fp. destruct (suite_key_init _ _ Hk) as (ctx & Ei & HE).
  destruct (encr_start_total _ _ _ H) as (a & Ea & Hctr).
  assert (forall x, bytes_ok x -> exists y, aes_ccm_encr (aes_encrypt ctx) x a = Ret y /\ length y = length x /\
            bytes_ok y /\ aes_ccm_encr (aes_encrypt ctx) y a = Ret x) as Enc.
  { intros x Fx. destruct (ctr_mode_spec (aes_encrypt ctx) (fun _ => True) (set_ctr a) (Z.add 1) (length x / 16) 1 x)
      as (y & E1 & L & Fy & E2); [auto | done | apply div16 | done |]. exists y. unfold aes_ccm_encr. by rewrite L. }
  destruct (Enc plain Fp) as (crypt & E1 & L & Fc & E2).
  set (z := replicate (Z.to_nat M) 0). assert (zlen z = M) as Lz.
  { unfold z, zlen. rewrite length_replicate. destruct H. lia. }
  assert (forall p c t, aes_ccm_ae key key_len nonce M p aad = Ret (Some (c, t)) -> aes_ccm_encr (aes_encrypt ctx) p a = Ret c) as Inv.
  { intros p c t Hp. unfold aes_ccm_ae in Hp. destruct (_ || _); [discriminate|]. rewrite Ei, bind_Ret in Hp.
    unfold ccm_ae in Hp. rewrite Ea in Hp. res_inv. congruence. }
  destruct (aes_ccm_ad_spec key key_len nonce aad M crypt z Hk H Fc Lz) as (p & tag & Lp & Fp' & Lt & Ae & _).
  assert (p = plain) as ->.
  { pose proof (Inv _ _ _ Ae) as I. destruct (Enc p Fp') as (c & F1 & _ & _ & F2). congruence. }
  destruct (aes_ccm_ad_spec key key_len nonce aad M crypt tag Hk H Fc Lt) as (p & tag' & Lp' & Fp'' & Lt' & Ae' & Ad).
  assert (p = plain) as ->.
  { pose proof (Inv _ _ _ Ae') as I. destruct (Enc p Fp'') as (c & F1 & _ & _ & F2). congruence. }
  exists crypt, tag. split_and!; [done..|]. rewrite Ad. rewrite Ae in Ae'. injection Ae' as ->.
  by rewrite bool_decide_eq_true_2.
Qed.

Lemma aes_gcm_ae_spec key key_len iv aad plain :
  suite_key key key_len -> bytes_ok iv -> bytes_ok plain ->
  exists crypt tag,
    length crypt = length plain /\ bytes_ok crypt /\ zlen tag = 16 /\
    aes_gcm_ae key key_len iv plain aad = Ret (Some (crypt, tag)) /\
    aes_gcm_ad key key_len iv crypt aad tag = Ret (Some plain).
Proof.
  intros Hk Fi Fp. destruct (suite_key_init _ _ Hk) as (ctx & Ei & HE).
  destruct (block_total (replicate 16 0)) as (H & EH & HH); [split; [done | auto with rtw]|].
  set (J0 := aes_gcm_prepare_j0 iv H).
  assert (forall x, bytes_ok x -> exists y, aes_gcm_gctr (aes_encrypt ctx) J0 x = Ret y /\ length y = length x /\
            bytes_ok y /\ aes_gcm_gctr (aes_encrypt ctx) J0 y = Ret x) as Enc.
  { intros x Fx. destruct (gctr_spec (aes_encrypt ctx) (inc32 J0) x (inc32_ok _ (prepare_j0_ok _ _ Fi HH)) Fx) as (y & E1 & L & Fy & E2).
    destruct x as [|c x]; [by exists []|]. exists y. split_and!; [done..|]. by destruct y. }
  destruct (Enc plain Fp) as (crypt & E1 & L & Fc & E2).
  assert (forall p c t, aes_gcm_ae key key_len iv p aad = Ret (Some (c, t)) -> aes_gcm_gctr (aes_encrypt ctx) J0 p = Ret c) as Inv.
  { intros p c t Hp. unfold aes_gcm_ae in Hp. rewrite Ei, bind_Ret in Hp. unfold gcm_ae in Hp. rewrite EH, bind_Ret in Hp.
    fold J0 in Hp. res_inv. congruence. }
  assert (forall tag, zlen tag = 16 -> exists tag', zlen tag' = 16 /\ aes_gcm_ae key key_len iv plain aad = Ret (Some (crypt, tag')) /\
            aes_gcm_ad key key_len iv crypt aad tag = Ret (if bool_decide (tag = tag') then Some plain else None)) as S.
  { intros tag Ht. destruct (aes_gcm_ad_spec key key_len iv aad crypt tag Hk Fi Fc Ht) as (p & tag' & Lp & Fp' & Lt & Ae & Ad).
    pose proof (Inv _ _ _ Ae) as I. destruct (Enc p Fp') as (c & F1 & _ & _ & F2). assert (p = plain) as -> by congruence. eauto. }
  destruct (S (replicate 16 0) eq_refl) as (tag & Lt & Ae & _). destruct (S tag Lt) as (tag' & _ & Ae' & Ad).
  exists crypt, tag. split_and!; [done..|]. rewrite Ad. rewrite Ae in Ae'. injection Ae' as <-. by rewrite bool_decide_eq_true_2.
Qed.
