(* ===== verification/Cmac.v ===== *)
(** * CMAC (core/crypto/aes-omac1.c)

    [omac1_aes_vector] computes the MAC of a message handed over as a vector
    of data areas, walking a pointer through them.  [Sp800_38b] is the CMAC of
    NIST SP 800-38B on the concatenated message, with the subkeys as doublings
    in GF(2^128); the two agree. *)

From S2P Require Import Prelude Aes CipherModes.
Import Fips.

(** ** The code *)

(** Doubling of a 16-byte block in place. *)
Definition gf_mulx (pad : bytes) : bytes :=
  let carry := bit_test (znth pad 0) 0x80 in
  let sh i := u8 (Z.lor (Z.shiftl (znth pad i) 1) (Z.shiftr (znth pad (i + 1)) 7)) in
  let l := u8 (Z.shiftl (znth pad 15) 1) in
  map sh (map Z.of_nat (seq 0 15)) ++ [if carry then Z.lxor l 0x87 else l].

(** [addr[e]] *)
Definition elem (v : list bytes) (e : nat) : res bytes := match v !! e with Some a => Ret a | None => Oob end.

(** The inner loops: [n] bytes read at element [e], offset [k]; [last i] is
    the test that leaves the loop at the end of an area.  The result is the
    bytes with the new position. *)
Fixpoint gather (n : nat) (i : Z) (last : Z -> bool) (v : list bytes) (e : nat) (k : Z) : res (bytes * nat * Z) :=
  match n with
  | O => Ret ([], e, k)
  | S n =>
      a ← elem v e;
      x ← rd a k;
      let k := k + 1 in
      if zlen a <=? k then
        if last i then Ret ([x], e, k)
        else
          _ ← elem v (S e);
          r ← gather n (i + 1) last v (S e) 0;
          let '(l, e, k) := (r : bytes * nat * Z) in Ret (x :: l, e, k)
      else
        r ← gather n (i + 1) last v e k;
        let '(l, e, k) := (r : bytes * nat * Z) in Ret (x :: l, e, k)
  end.

Section Omac.
Context (E : bytes -> res bytes).

(** [while (left >= AES_BLOCK_SIZE)], which runs [left / 16] times. *)
Fixpoint omac1_blocks (n : nat) (left0 : Z) (v : list bytes) (e : nat) (k : Z) (cbc : bytes) : res (bytes * nat * Z * Z) :=
  match n with
  | O => Ret (cbc, e, k, left0)
  | S n =>
      r ← gather 16 0 (fun i => (i + 1 =? AES_BLOCK_SIZE) && (left0 =? AES_BLOCK_SIZE)) v e k;
      let '(l, e, k) := (r : bytes * nat * Z) in
      let cbc := xor_prefix cbc l in
      cbc ← (if AES_BLOCK_SIZE <? left0 then E cbc else Ret cbc);
      omac1_blocks n (left0 - AES_BLOCK_SIZE) v e k cbc
  end.

Definition total_len (v : list bytes) : Z := foldl (fun t a => t + zlen a) 0 v.

(** [cbc[left] ^= 0x80] *)
Definition xor80 (cbc : bytes) (left0 : Z) : bytes := alter (fun b => Z.lxor b 0x80) (Z.to_nat left0) cbc.

Definition omac1 (v : list bytes) : res bytes :=
  let total := total_len v in
  _ ← elem v 0;
  r ← omac1_blocks (Z.to_nat (total / AES_BLOCK_SIZE)) total v 0 0 (replicate 16 0);
  let '(cbc, e, k, left0) := (r : bytes * nat * Z * Z) in
  pad ← E (replicate 16 0);
  let pad := gf_mulx pad in
  cp ← (if negb (left0 =? 0) || (total =? 0) then
          r ← gather (Z.to_nat left0) 0 (fun i => i + 1 =? left0) v e k;
          let '(l, _, _) := (r : bytes * nat * Z) in
          Ret (xor80 (xor_prefix cbc l) left0, gf_mulx pad)
        else Ret (cbc, pad));
  E (xor_bytes (snd (cp : bytes * bytes)) (fst cp)).
End Omac.

Definition omac1_aes_vector (key : bytes) (key_len : Z) (v : list bytes) : res (option bytes) :=
  ctx ← aes_encrypt_init key key_len;
  match (ctx : option (list Z * Z)) with
  | None => Ret None
  | Some ctx => mac ← omac1 (aes_encrypt ctx) v; Ret (Some (mac : bytes))
  end.

Definition omac1_aes_128_vector (key : bytes) (v : list bytes) : res (option bytes) := omac1_aes_vector key 16 v.
Definition omac1_aes_128 (key data : bytes) : res (option bytes) := omac1_aes_128_vector key [data].
Definition omac1_aes_256 (key data : bytes) : res (option bytes) := omac1_aes_vector key 32 [data].

(** ** SP 800-38B *)

Module Sp800_38b.
(** A block as a big-endian integer. *)
Definition of_block (b : bytes) : Z := foldl (fun a x => 256 * a + x) 0 b.

Fixpoint be_split (n : nat) (z : Z) : bytes :=
  match n with O => [] | S n => z / 256 ^ Z.of_nat n mod 256 :: be_split n z end.

(** Multiplication by [x] modulo [x^128 + x^7 + x^2 + x + 1]. *)
Definition dbl (z : Z) : Z :=
  let z2 := (2 * z) mod 2 ^ 128 in if 2 ^ 127 <=? z then Z.lxor z2 0x87 else z2.

Definition subkey (b : bytes) : bytes := be_split 16 (dbl (of_block b)).

(** The first [n] blocks of a message. *)
Fixpoint blocks (n : nat) (m : bytes) : list bytes :=
  match n with O => [] | S n => take 16 m :: blocks n (drop 16 m) end.

(** Number of blocks: the message padded to a multiple of 16, at least one. *)
Definition nblocks (m : bytes) : nat := Nat.max 1 ((length m + 15) / 16).

Definition CMAC (F : bytes -> bytes) (m : bytes) : bytes :=
  let K1 := subkey (F (replicate 16 0)) in
  let K2 := subkey K1 in
  let n := (nblocks m - 1)%nat in
  let rest := drop (16 * n) m in
  let last := if decide (length rest = 16%nat) then xor_bytes K1 rest
              else xor_bytes K2 (rest ++ 0x80 :: replicate (15 - length rest) 0) in
  F (xor_bytes (foldl (fun c b => F (xor_bytes c b)) (replicate 16 0) (blocks n m)) last).
End Sp800_38b.
Import Sp800_38b.

(** ** Doubling *)

Lemma of_block_app a x : of_block (a ++ [x]) = 256 * of_block a + x.
Proof. unfold of_block. by rewrite foldl_app. Qed.

Lemma of_block_bound b : bytes_ok b -> 0 <= of_block b < 256 ^ zlen b.
Proof.
  induction b as [|x b IH] using rev_ind; [intros _; change (0 <= 0 < 1); lia|].
  rewrite Forall_app, Forall_singleton. intros [Fb Hx]. specialize (IH Fb).
  rewrite of_block_app, zlen_app. change (zlen [x]) with 1. rewrite Z.pow_add_r, Z.pow_1_r by (unfold zlen; lia).
  unfold is_byte in Hx. lia.
Qed.

Lemma be_split_div n z k : 0 <= z -> be_split n (z / 256 ^ Z.of_nat k) ++ be_split k z = be_split (n + k) z.
Proof.
  intros Hz. induction n as [|n IH]; [done|]. cbn [be_split app Nat.add]. f_equal; [|done].
  rewrite Z.div_div by (try apply Z.pow_nonzero; try apply Z.pow_pos_nonneg; lia).
  rewrite <- Z.pow_add_r by lia. do 3 f_equal. lia.
Qed.

(** Bytes are determined by the integer they spell. *)
Lemma be_split_of_block b : bytes_ok b -> be_split (length b) (of_block b) = b.
Proof.
  induction b as [|x b IH] using rev_ind; [done|]. rewrite Forall_app, Forall_singleton. intros [Fb Hx].
  rewrite of_block_app, length_app. cbn [length]. pose proof (of_block_bound b Fb). unfold is_byte in Hx.
  rewrite <- be_split_div by lia. change (256 ^ Z.of_nat 1) with 256.
  rewrite Z.mul_comm, Z.div_add_l, Z.div_small, Z.add_0_r by lia. rewrite IH by done. f_equal. cbn [be_split].
  change (256 ^ Z.of_nat 0) with 1. rewrite Z.div_1_r, Z.add_comm, Z.mod_add, Z.mod_small by lia. done.
Qed.

Definition hi (b : Z) : Z := b / 128.
Definition lo (b : Z) : Z := b mod 128.

Lemma hi_lo b : is_byte b -> b = 128 * hi b + lo b /\ 0 <= hi b <= 1 /\ 0 <= lo b < 128.
Proof. unfold is_byte, hi, lo. intros H. Z.to_euclidean_division_equations. lia. Qed.

(** One byte of the shifted block. *)
Lemma shl_byte a b : is_byte a -> is_byte b -> u8 (Z.lor (Z.shiftl a 1) (Z.shiftr b 7)) = 2 * lo a + hi b.
Proof.
  intros Ha Hb. rewrite Z.shiftr_div_pow2 by lia. change (2 ^ 7) with 128. fold (hi b).
  pose proof (hi_lo b Hb). pose proof (hi_lo a Ha) as (Ea & ? & ?).
  rewrite lor_shiftl_add by lia. change (2 ^ 1) with 2. unfold u8. rewrite Ea at 1.
  replace ((128 * hi a + lo a) * 2 + hi b) with (2 * lo a + hi b + hi a * 256) by lia.
  rewrite Z.mod_add, Z.mod_small by lia. done.
Qed.

Lemma lxor_low h x n : 0 <= n -> 0 <= x < 2 ^ n -> 0 <= h -> forall c, 0 <= c < 2 ^ n ->
  Z.lxor (h * 2 ^ n + x) c = h * 2 ^ n + Z.lxor x c /\ 0 <= Z.lxor x c < 2 ^ n.
Proof.
  intros Hn Hx Hh c Hc.
  assert (0 <= Z.lxor x c < 2 ^ n) as R.
  { split; [apply Z.lxor_nonneg; lia|]. rewrite <- (Z.mod_small x (2 ^ n)), <- (Z.mod_small c (2 ^ n)) by lia.
    rewrite <- !Z.land_ones by lia.
    replace (Z.lxor (Z.land x (Z.ones n)) (Z.land c (Z.ones n))) with (Z.land (Z.lxor x c) (Z.ones n)).
    - rewrite Z.land_ones by lia. apply Z.mod_pos_bound. lia.
    - apply Z.bits_inj'. intros i Hi. rewrite ?Z.land_spec, ?Z.lxor_spec, ?Z.land_spec. by destruct (Z.testbit x i), (Z.testbit c i), (Z.testbit (Z.ones n) i). }
  split; [|done]. rewrite <- (lxor_shiftl_add h x n), <- (lxor_shiftl_add h (Z.lxor x c) n) by lia.
  by rewrite Z.lxor_assoc.
Qed.

(** The block shifted by one bit, [c] following its last byte. *)
Fixpoint shl (l : bytes) (c : Z) : bytes :=
  match l with [] => [] | a :: l' => 2 * lo a + hi (hd c l') :: shl l' c end.

Lemma shl_ok l c : bytes_ok l -> is_byte c -> bytes_ok (shl l c) /\ length (shl l c) = length l.
Proof.
  intros F Hc. induction F as [|a l Ha F [IH L]]; [by split|]. cbn [shl]. split; [|cbn; by rewrite L].
  apply Forall_cons_2; [|done]. assert (is_byte (hd c l)) as Hh by (by destruct F).
  apply hi_lo in Ha, Hh. unfold is_byte. lia.
Qed.

Lemma of_block_cons x l : of_block (x :: l) = x * 256 ^ zlen l + of_block l.
Proof.
  induction l as [|y l IH] using rev_ind; [unfold of_block, zlen; cbn; lia|].
  rewrite app_comm_cons, !of_block_app, IH, zlen_app. change (zlen [y]) with 1.
  rewrite Z.pow_add_r, Z.pow_1_r by (unfold zlen; lia). lia.
Qed.

Lemma of_block_shl l c :
  bytes_ok l -> of_block (shl l c) + hi (hd c l) * 256 ^ zlen l = 2 * of_block l + hi c.
Proof.
  intros F. assert (forall m, 0 < 256 ^ zlen (m : bytes)) as P by (intros; apply Z.pow_pos_nonneg; unfold zlen; lia).
  induction F as [|a l Ha F IH]; [cbn; change (256 ^ zlen []) with 1; lia|].
  cbn [shl hd]. rewrite !of_block_cons, zlen_cons, Z.pow_add_r, Z.pow_1_r by (unfold zlen; lia).
  assert (zlen (shl l c) = zlen l) as ->.
  { unfold zlen. clear. by induction l as [|? ? IH]; cbn; lia. }
  apply hi_lo in Ha. specialize (P l). set (Q := 256 ^ zlen l) in *. nia.
Qed.

(** Without the feedback polynomial [gf_mulx] is the shift. *)
Lemma gf_mulx_shl pad :
  block_ok pad -> exists high, shl pad 0 = high ++ [2 * lo (znth pad 15)] /\
    gf_mulx pad = high ++ [if 1 <=? hi (hd 0 pad) then Z.lxor (2 * lo (znth pad 15)) 0x87 else 2 * lo (znth pad 15)].
Proof.
  intros [L F]. destruct pad as [|b0 [|b1 [|b2 [|b3 [|b4 [|b5 [|b6 [|b7 [|b8 [|b9 [|b10 [|b11 [|b12 [|b13 [|b14 [|b15 [|? ?]]]]]]]]]]]]]]]]]; try discriminate.
  rewrite !Forall_cons in F.
  destruct F as (H0 & H1 & H2 & H3 & H4 & H5 & H6 & H7 & H8 & H9 & H10 & H11 & H12 & H13 & H14 & H15 & _).
  assert (u8 (Z.shiftl b15 1) = 2 * lo b15) as El
    by (rewrite <- (Z.lor_0_r (Z.shiftl b15 1)); change 0 with (Z.shiftr 0 7); rewrite shl_byte by (done || (unfold is_byte; lia)); apply Z.add_0_r).
  assert (bit_test b0 0x80 = (1 <=? hi b0)) as Eb.
  { change 0x80 with (2 ^ 7). rewrite bit_test_pow2 by lia. change (2 ^ (7 + 1)) with 256. change (2 ^ 7) with 128.
    apply hi_lo in H0 as (E & ? & ?). rewrite Z.mod_small by lia. destruct (Z.leb_spec 128 b0), (Z.leb_spec 1 (hi b0)); lia. }
  eexists [_; _; _; _; _; _; _; _; _; _; _; _; _; _; _]. split.
  - cbn [shl hd app]. change (hi 0) with 0. by rewrite Z.add_0_r.
  - cbn [hd]. change (znth _ 15) with b15. rewrite <- El, <- Eb. cbn [app]. rewrite <- !shl_byte by done. reflexivity.
Qed.

Lemma gf_mulx_spec pad : block_ok pad -> gf_mulx pad = subkey pad /\ block_ok (gf_mulx pad).
Proof.
  intros H. destruct (gf_mulx_shl pad H) as (high & Es & Eg). destruct H as [L F].
  set (last := 2 * lo (znth pad 15)) in *.
  destruct (shl_ok pad 0 F) as [Fs Ls]; [apply byte0|]. rewrite Es in Fs, Ls. rewrite length_app in Ls. cbn [length] in Ls.
  rewrite Forall_app, Forall_singleton in Fs. destruct Fs as [Fh Hl].
  destruct (lxor_low (of_block high) last 8 ltac:(lia) Hl ltac:(apply of_block_bound, Fh) 0x87 ltac:(lia)) as [Ex Hx].
  assert (is_byte (hd 0 pad)) as Hh by (destruct F; [apply byte0 | done]).
  pose proof (of_block_shl pad 0 F) as Ev. rewrite Es, of_block_app in Ev. change (hi 0) with 0 in Ev.
  replace (256 ^ zlen pad) with (2 ^ 128) in Ev by (unfold zlen; by rewrite L).
  apply hi_lo in Hh as (_ & Hh & _). pose proof (of_block_bound high Fh) as Bh.
  replace (256 ^ zlen high) with (2 ^ 120) in Bh by (unfold zlen; replace (length high) with 15%nat by lia; done).
  assert (block_ok (gf_mulx pad)) as [Lg Fg].
  { rewrite Eg. split; [rewrite length_app; cbn; lia|]. rewrite Forall_app, Forall_singleton. split; [done|]. by destruct (_ <=? _). }
  split; [|done]. unfold subkey. rewrite <- (be_split_of_block (gf_mulx pad) Fg), Lg. f_equal.
  rewrite Eg, of_block_app. unfold dbl. set (V := of_block pad) in *. set (X := of_block high) in *. unfold is_byte in Hl.
  replace (2 * V) with (256 * X + last + hi (hd 0 pad) * 2 ^ 128) by lia. rewrite Z.mod_add, Z.mod_small by lia.
  assert ((2 ^ 127 <=? V) = (1 <=? hi (hd 0 pad))) as -> by (destruct (Z.leb_spec (2 ^ 127) V), (Z.leb_spec 1 (hi (hd 0 pad))); lia).
  destruct (1 <=? _); [|done]. change (2 ^ 8) with 256 in Ex. by rewrite (Z.mul_comm 256), Ex.
Qed.

(** ** Walking the data areas *)

(** The bytes still to be read at element [e], offset [k]. *)
Definition at_pos (v : list bytes) (e : nat) (k : Z) (rest : bytes) : Prop :=
  exists a, v !! e = Some a /\ 0 <= k <= zlen a /\ rest = drop (Z.to_nat k) a ++ concat (drop (S e) v) /\
    (rest <> [] -> k < zlen a).

Lemma elem_Some v e a : v !! e = Some a -> elem v e = Ret a.
Proof. unfold elem. by intros ->. Qed.

Lemma at_pos_start v a : v !! 0%nat = Some a -> (a = [] -> concat v = []) -> at_pos v 0 0 (concat v).
Proof.
  intros H Ha. exists a. destruct v as [|a' v]; [discriminate|]. injection H as ->. pose proof (zlen_nonneg a).
  split_and!; [done|lia|lia|done|]. intros Hne. destruct a; [by destruct Hne; apply Ha | rewrite zlen_cons; pose proof (zlen_nonneg a); lia].
Qed.

Lemma gather_spec n last v e k rest i :
  Forall (fun a => a <> []) v -> at_pos v e k rest -> (n <= length rest)%nat ->
  (forall j, (j < n)%nat -> last (i + Z.of_nat j) = bool_decide (length rest = S j)) ->
  exists e' k', gather n i last v e k = Ret (take n rest, e', k') /\ at_pos v e' k' (drop n rest).
Proof.
  intros Fv. revert e k rest i. induction n as [|n IH]; intros e k rest i (a & Ha & Hk & Er & Hn) L HL.
  { exists e, k. split; [done|]. by exists a. }
  destruct rest as [|x rest]; cbn in L; [lia|]. specialize (Hn ltac:(done)).
  destruct (rd_in_bounds a k) as (y & Ey & Hy); [lia|].
  rewrite (drop_S a y (Z.to_nat k) Hy) in Er. injection Er as -> Er.
  cbn [gather]. rewrite (elem_Some _ _ _ Ha), bind_Ret, Ey, bind_Ret. cbv zeta.
  assert (forall j, (j < n)%nat -> last (i + 1 + Z.of_nat j) = bool_decide (length rest = S j)) as HL'.
  { intros j Hj. replace (i + 1 + Z.of_nat j) with (i + Z.of_nat (S j)) by lia. rewrite HL by lia. apply bool_decide_ext. cbn; lia. }
  destruct (Z.leb_spec (zlen a) (k + 1)).
  - rewrite drop_ge in Er by (unfold zlen in *; lia). cbn [app] in Er.
    pose proof (HL 0%nat ltac:(lia)) as E0. rewrite Z.add_0_r in E0. rewrite E0. case_bool_decide as D.
    + destruct rest; [|discriminate]. exists e, (k + 1). split; [by destruct n|]. exists a. split_and!; [done|lia|lia| |by destruct n].
      rewrite (drop_ge a) by (unfold zlen in *; lia). rewrite drop_ge by (cbn; lia). done.
    + destruct (v !! S e) as [b|] eqn:Eb.
      2:{ apply lookup_ge_None in Eb. rewrite drop_ge in Er by lia. by subst rest; destruct D. }
      rewrite (elem_Some _ _ _ Eb), bind_Ret.
      assert (b <> []) as Hb by (apply (Forall_lookup_1 _ _ _ _ Fv Eb)).
      assert (at_pos v (S e) 0 rest) as Hp.
      { exists b. rewrite (drop_S v b (S e) Eb) in Er. split_and!; [done|lia|apply zlen_nonneg|done|].
        intros _. destruct b; [done|]. rewrite zlen_cons. pose proof (zlen_nonneg b). lia. }
      destruct (IH (S e) 0 rest (i + 1) Hp) as (e' & k' & -> & Hq); [lia|done|]. exists e', k'. by rewrite bind_Ret.
  - assert (at_pos v e (k + 1) rest) as Hp.
    { exists a. split_and!; [done|lia|lia| |lia]. by replace (Z.to_nat (k + 1)) with (S (Z.to_nat k)) by lia. }
    destruct (IH e (k + 1) rest (i + 1) Hp) as (e' & k' & -> & Hq); [lia|done|]. exists e', k'. by rewrite bind_Ret.
Qed.

(** ** The MAC *)

Lemma xor_assoc a b c : xor_bytes a (xor_bytes b c) = xor_bytes (xor_bytes a b) c.
Proof. revert b c. induction a as [|x a IH]; intros [|y b] [|z c]; cbn; try done. by rewrite Z.lxor_assoc, <- IH. Qed.

Lemma xor_prefix_full x d : (length x <= length d)%nat -> xor_prefix x d = xor_bytes x d.
Proof. intros H. unfold xor_prefix. by rewrite drop_ge, app_nil_r. Qed.

(** The padded last block. *)
Lemma xor80_pad x d :
  length x = 16%nat -> (length d < 16)%nat ->
  xor80 (xor_prefix x d) (zlen d) = xor_bytes x (d ++ 0x80 :: replicate (15 - length d) 0).
Proof.
  intros Lx Ld. unfold xor80, zlen. rewrite Nat2Z.id.
  assert (forall n, length x = S (length d + n) ->
    alter (fun b => Z.lxor b 128) (length d) (xor_prefix x d) = xor_bytes x (d ++ 128 :: replicate n 0)) as G;
    [|apply G; lia]. clear. revert x. induction d as [|y d IH]; intros [|z x] n L; try discriminate; cbn in L.
  - cbn. unfold xor_prefix. cbn. f_equal. injection L as L. clear - L. revert n L.
    induction x as [|w x IH]; intros [|n] L; try discriminate; [done|]. cbn. rewrite Z.lxor_0_r. f_equal. apply IH. by injection L.
  - cbn. f_equal. apply IH. lia.
Qed.

Lemma total_len_concat v : total_len v = zlen (concat v).
Proof.
  unfold total_len. assert (forall t, foldl (fun t a => t + zlen a) t v = t + zlen (concat v)) as ->; [|lia].
  induction v as [|a v IH]; intros t; cbn; [change (zlen []) with 0; lia|]. rewrite IH, zlen_app. lia.
Qed.

Section CmacSpec.
Context (E : bytes -> res bytes) (F : bytes -> bytes).
Hypothesis HE : forall b, block_ok b -> E b = Ret (F b) /\ block_ok (F b).

Let chain (c : bytes) (l : list bytes) : bytes := foldl (fun c b => F (xor_bytes c b)) c l.

Lemma xor_block a b : block_ok a -> block_ok b -> block_ok (xor_bytes a b).
Proof using. intros [La Fa] [Lb Fb]. split; [rewrite xor_bytes_length_r; lia | auto with rtw]. Qed.

Lemma blocks_spec n m v e k rest c :
  Forall (fun a => a <> []) v -> at_pos v e k rest -> bytes_ok rest -> block_ok c ->
  (n = 0%nat \/ 16 * n < length rest)%nat ->
  exists e' k', at_pos v e' k' (drop (16 * n) rest) /\ block_ok (chain c (blocks n rest)) /\
    omac1_blocks E (n + m) (zlen rest) v e k c
    = omac1_blocks E m (zlen (drop (16 * n) rest)) v e' k' (chain c (blocks n rest)).
Proof using HE.
  intros Fv. revert e k rest c. induction n as [|n IH]; intros e k rest c Hp Fr Hc Hn.
  { exists e, k. by rewrite drop_0. }
  destruct Hn as [|Hn]; [lia|].
  destruct (gather_spec 16 (fun i => (i + 1 =? AES_BLOCK_SIZE) && (zlen rest =? AES_BLOCK_SIZE)) v e k rest 0 Fv Hp) as (e1 & k1 & Eg & Hp1); [lia| |].
  { intros j Hj. rewrite bool_decide_eq_false_2 by lia. unfold zlen, AES_BLOCK_SIZE.
    destruct (Z.eqb_spec (Z.of_nat (length rest)) 16); [lia|]. by rewrite andb_false_r. }
  assert (block_ok (take 16 rest)) as Hb by (split; [rewrite length_take; lia | by apply Forall_take]).
  assert (block_ok (xor_bytes c (take 16 rest))) as Hx by (by apply xor_block).
  destruct (HE _ Hx) as [EF HF].
  destruct (IH e1 k1 (drop 16 rest) (F (xor_bytes c (take 16 rest))) Hp1) as (e' & k' & Hp' & Hc' & Er);
    [by apply Forall_drop | done | rewrite length_drop; lia|].
  exists e', k'. rewrite drop_drop in Hp', Er. replace (16 + 16 * n)%nat with (16 * S n)%nat in * by lia.
  split; [done|]. split; [done|].
  change (S n + m)%nat with (S (n + m)). cbn [omac1_blocks]. rewrite Eg, bind_Ret. cbv zeta beta iota.
  rewrite xor_prefix_full by (destruct Hc as [-> _], Hb as [-> _]; lia).
  destruct (Z.ltb_spec AES_BLOCK_SIZE (zlen rest)) as [|Hbad]; [|unfold AES_BLOCK_SIZE, zlen in Hbad; lia].
  rewrite EF, bind_Ret. etransitivity; [|exact Er]. f_equal. unfold zlen, AES_BLOCK_SIZE. rewrite length_drop. lia.
Qed.

(** The order of the additions in the last block. *)
Lemma last_block K C d : block_ok K -> block_ok C -> block_ok d -> E (xor_bytes K (xor_bytes C d)) = Ret (F (xor_bytes C (xor_bytes K d))).
Proof using HE.
  intros HK HC Hd. rewrite xor_assoc, (xor_bytes_comm K), <- xor_assoc. by apply HE, xor_block, xor_block.
Qed.

Lemma pad_block d : bytes_ok d -> (length d < 16)%nat -> block_ok (d ++ 0x80 :: replicate (15 - length d) 0).
Proof using.
  intros Fd L. split; [rewrite length_app; cbn; rewrite length_replicate; lia|]. byte_list. unfold is_byte. lia.
Qed.

Lemma chain_ok n m c : (16 * n <= length m)%nat -> bytes_ok m -> block_ok c -> block_ok (chain c (blocks n m)).
Proof using HE.
  revert m c. induction n as [|n IH]; intros m c L Fm Hc; [done|]. apply IH; [rewrite length_drop; lia | by apply Forall_drop|].
  apply HE, xor_block; [done|]. split; [rewrite length_take; lia | by apply Forall_take].
Qed.

Lemma nblocks_bound m : (16 * (nblocks m - 1) <= length m <= 16 * (nblocks m - 1) + 16)%nat.
Proof using. unfold nblocks. pose proof (div16 (length m + 15)). lia. Qed.

Lemma cmac_block m : bytes_ok m -> block_ok (CMAC F m).
Proof using HE.
  intros Fm. destruct (HE (replicate 16 0)) as [_ HL]; [split; [done | auto with rtw]|].
  destruct (gf_mulx_spec _ HL) as [E1 H1]. destruct (gf_mulx_spec _ H1) as [E2 H2]. rewrite E2, E1 in H2. rewrite E1 in H1.
  pose proof (nblocks_bound m). unfold CMAC. apply HE, xor_block.
  - apply chain_ok; [lia | done | split; [done | auto with rtw]].
  - case_decide as D; apply xor_block; try done; [split; [done | by apply Forall_drop]|].
    apply pad_block; [by apply Forall_drop|]. rewrite length_drop in *. lia.
Qed.

Lemma omac1_cmac v :
  v <> [] -> (Forall (fun a => a <> []) v \/ concat v = []) -> bytes_ok (concat v) ->
  omac1 E v = Ret (CMAC F (concat v)).
Proof using HE.
  intros Hv Hne Fm. set (m := concat v) in *.
  assert (exists a, v !! 0%nat = Some a) as [a Ha] by (destruct v; [done | by eexists]).
  assert (block_ok (replicate 16 0)) as Hz by (split; [done | auto with rtw]).
  destruct (HE _ Hz) as [EL HL]. destruct (gf_mulx_spec _ HL) as [E1 H1]. destruct (gf_mulx_spec _ H1) as [E2 H2].
  rewrite E1 in E2, H2. rewrite E1 in H1.
  unfold omac1. rewrite total_len_concat, (elem_Some _ _ _ Ha), bind_Ret. cbv zeta. fold m.
  unfold CMAC. cbv zeta. fold (chain (replicate 16 0) (blocks (nblocks m - 1) m)).
  destruct (decide (m = [])) as [Em|Em].
  { rewrite Em. transitivity (E (xor_bytes (gf_mulx (gf_mulx (F (replicate 16 0)))) (xor80 (xor_prefix (replicate 16 0) []) 0))); [rewrite EL; reflexivity|].
    rewrite E1, E2. change 0 with (zlen (A := Z) []) at 3. rewrite xor80_pad by first [done | cbn; lia].
    rewrite E2 in H2. apply last_block; [done..|]. apply (pad_block []); [done | cbn; lia]. }
  destruct Hne as [Fv|]; [|done].
  set (n := (nblocks m - 1)%nat). set (rest := drop (16 * n) m).
  assert (16 * n < length m <= 16 * n + 16)%nat as Hn.
  { unfold n, nblocks. assert (length m <> 0)%nat by (by destruct m). pose proof (div16 (length m + 15)). lia. }
  assert (length rest = length m - 16 * n)%nat as Lr by (unfold rest; by rewrite length_drop).
  assert (bytes_ok rest) as Fr by (by apply Forall_drop).
  destruct (blocks_spec n (if decide (length rest = 16%nat) then 1 else 0) v 0 0 m (replicate 16 0)) as (e & k & Hp & Hc & Eb); try done.
  { apply (at_pos_start v a Ha). intros ->. by apply (Forall_lookup_1 _ _ _ _ Fv) in Ha. }
  { lia. }
  fold rest in Hp, Eb. set (C := chain _ _) in *.
  replace (Z.to_nat (zlen m / AES_BLOCK_SIZE)) with (n + (if decide (length rest = 16%nat) then 1 else 0))%nat.
  2:{ unfold zlen, AES_BLOCK_SIZE. change 16 with (Z.of_nat 16). rewrite <- Nat2Z.inj_div, Nat2Z.id. pose proof (div16 (length m)).
      destruct (decide _); lia. }
  rewrite Eb. clear Eb. destruct (decide (length rest = 16%nat)) as [L16|L16].
  - assert (zlen rest = 16) as Lz by (unfold zlen; lia).
    destruct (gather_spec 16 (fun i => (i + 1 =? AES_BLOCK_SIZE) && (zlen rest =? AES_BLOCK_SIZE)) v e k rest 0 Fv Hp) as (e' & k' & Eg & _); [lia| |].
    { intros j Hj. rewrite Lz. unfold AES_BLOCK_SIZE. cbn [Z.eqb Pos.eqb]. rewrite andb_true_r.
      destruct (Z.eqb_spec (0 + Z.of_nat j + 1) 16); symmetry; [apply bool_decide_eq_true_2 | apply bool_decide_eq_false_2]; lia. }
    cbn [omac1_blocks]. rewrite Eg, Lz, bind_Ret. unfold AES_BLOCK_SIZE. cbn [Z.ltb Z.compare Pos.compare Pos.compare_cont].
    rewrite !bind_Ret. cbv beta iota. rewrite EL, bind_Ret, E1. cbn [Z.sub].
    destruct (Z.eqb_spec (zlen m) 0) as [Hm|_]; [unfold zlen in Hm; lia|]. change (negb (16 - 16 =? 0) || false) with false.
    cbv iota. rewrite bind_Ret. cbn [fst snd].
    rewrite take_ge, xor_prefix_full by (destruct Hc; lia). apply last_block; [done..|]. by split.
  - assert (zlen rest <> 0 /\ zlen rest < 16) as Lz by (unfold zlen; lia).
    destruct (gather_spec (length rest) (fun i => i + 1 =? zlen rest) v e k rest 0 Fv Hp) as (e' & k' & Eg & _); [lia| |].
    { intros j Hj. unfold zlen. destruct (Z.eqb_spec (0 + Z.of_nat j + 1) (Z.of_nat (length rest))); symmetry;
        [apply bool_decide_eq_true_2 | apply bool_decide_eq_false_2]; lia. }
    cbn [omac1_blocks]. rewrite bind_Ret. cbv beta iota. rewrite EL, bind_Ret, E1, E2.
    destruct (Z.eqb_spec (zlen rest) 0); [lia|]. cbn [negb orb]. replace (Z.to_nat (zlen rest)) with (length rest) by (unfold zlen; lia).
    rewrite Eg, !bind_Ret. cbn [fst snd].
    rewrite firstn_all, xor80_pad by (destruct Hc; lia). apply last_block; [by rewrite E2 in H2 | done |]. apply pad_block; [done|lia].
Qed.
End CmacSpec.

(** ** With a key *)

Lemma omac1_aes_vector_key Nk key v :
  key_ok Nk key -> v <> [] -> (Forall (fun a => a <> []) v \/ concat v = []) -> bytes_ok (concat v) ->
  omac1_aes_vector key (4 * Z.of_nat Nk) v = Ret (Some (CMAC (AES Nk key) (concat v))).
Proof.
  intros Hk Hv Hne Fm. destruct (aes_encrypt_init_spec Nk key Hk) as (Ei & _).
  unfold omac1_aes_vector. rewrite Ei, bind_Ret. rewrite (omac1_cmac _ (AES Nk key)); [done| |done..].
  intros b Hb. destruct (aes_block_spec Nk key b Hk Hb) as [H Ho]. unfold aes_block in H. by rewrite Ei, bind_Ret in H.
Qed.

(** The MAC of a suite key, of which only the first [key_len] bytes are read. *)
Definition suite_mac (key : bytes) (key_len : Z) (m : bytes) : bytes :=
  CMAC (AES (Z.to_nat (key_len / 4)) (take (Z.to_nat key_len) key)) m.

Lemma suite_mac_length key key_len m : suite_key key key_len -> bytes_ok m -> length (suite_mac key key_len m) = 16%nat.
Proof.
  intros Hs Fm. destruct (suite_key_ok key key_len Hs) as [Hk _].
  apply (cmac_block (aes_block (take (Z.to_nat key_len) key) (4 * Z.of_nat (Z.to_nat (key_len / 4)))) (AES (Z.to_nat (key_len / 4)) (take (Z.to_nat key_len) key))); [|done].
  intros b Hb. by apply aes_block_spec.
Qed.

Lemma omac1_suite key key_len m :
  suite_key key key_len -> bytes_ok m -> omac1_aes_vector key key_len [m] = Ret (Some (suite_mac key key_len m)).
Proof.
  intros Hs Fm. destruct (suite_key_ok key key_len Hs) as [Hk El].
  transitivity (omac1_aes_vector (take (Z.to_nat key_len) key) key_len [m]).
  { unfold omac1_aes_vector. by rewrite init_take by done. }
  rewrite El at 2. rewrite omac1_aes_vector_key; [|done|done| |].
  - unfold suite_mac. cbn [concat]. by rewrite app_nil_r.
  - destruct m; [by right | left; repeat constructor; done].
  - cbn [concat]. by rewrite app_nil_r.
Qed.

(** C38: [omac1_aes_vector] over any vector of non-empty data areas computes
    the CMAC of SP 800-38B, with the block cipher of FIPS 197, of the
    concatenated message, for keys of 128, 192 and 256 bits: it reads each area in bounds and
    ends; a message of length zero may also be handed over as empty areas. *)
Theorem omac1_is_cmac Nk key v :
  key_ok Nk key -> v <> [] -> (Forall (fun a => a <> []) v \/ concat v = []) -> bytes_ok (concat v) ->
  omac1_aes_vector key (4 * Z.of_nat Nk) v = Ret (Some (CMAC (AES Nk key) (concat v))).
Proof. apply omac1_aes_vector_key. Qed.

(** Example 3 of RFC 4493, the message cut into three areas. *)
Definition rfc_key : bytes := [0x2b; 0x7e; 0x15; 0x16; 0x28; 0xae; 0xd2; 0xa6; 0xab; 0xf7; 0x15; 0x88; 0x09; 0xcf; 0x4f; 0x3c].
Definition rfc_areas : list bytes :=
  [[0x6b; 0xc1; 0xbe; 0xe2; 0x2e];
   [0x40; 0x9f; 0x96; 0xe9; 0x3d; 0x7e; 0x11; 0x73; 0x93; 0x17; 0x2a; 0xae; 0x2d; 0x8a; 0x57; 0x1e; 0x03; 0xac; 0x9c; 0x9e; 0xb7; 0x6f; 0xac; 0x45];
   [0xaf; 0x8e; 0x51; 0x30; 0xc8; 0x1c; 0x46; 0xa3; 0x5c; 0xe4; 0x11]].

Lemma omac1_is_cmac_witness :
  omac1_aes_vector rfc_key 16 rfc_areas
  = Ret (Some [0xdf; 0xa6; 0x67; 0x47; 0xde; 0x9a; 0xe6; 0x30; 0x30; 0xca; 0x32; 0x61; 0x14; 0x97; 0xc8; 0x27]).
Proof.
  etransitivity; [apply (omac1_is_cmac 4)|vm_compute; reflexivity].
  - split; [by left|]. split; [done|]. apply (bool_decide_unpack _). vm_compute. exact I.
  - done.
  - left. apply (bool_decide_unpack _). vm_compute. exact I.
  - apply (bool_decide_unpack _). vm_compute. exact I.
Defined.
