(* ===== verification/Ccmp.v ===== *)
(** * CCMP and GCMP frames

    core/crypto/ccmp.c and gcmp.c build the nonce and the additional
    authenticated data from the 802.11 header, core/rtw_swcrypto.c copies the
    result back into the frame, and [rtw_aes_encrypt], [rtw_aes_decrypt],
    [rtw_gcmp_encrypt] and [rtw_gcmp_decrypt] of core/rtw_security.c choose the
    key.  A frame is a region of a buffer; every read and write is checked
    against the buffer.  Allocation is taken to succeed. *)

From S2P Require Import Prelude RxFrame Reorder StaMgt SwCrypt RxCheck Aes CipherModes.

(** ** Nonce and additional authenticated data *)

Definition WLAN_FC_GET_TYPE (fc : Z) : Z := Z.land fc 0x000c.
Definition WLAN_FC_GET_STYPE (fc : Z) : Z := Z.land fc 0x00f0.
Definition WLAN_FC_ISWEP : Z := 0x4000.
Definition RTW_AMSDU_MODE_SPP : Z := 1.

(** [fc & (TODS | FROMDS) == (TODS | FROMDS)], and a QoS data frame. *)
Definition fc_addr4 (fc : Z) : bool := Z.land fc 0x0300 =? 0x0300.
Definition fc_qos (fc : Z) : bool :=
  (WLAN_FC_GET_TYPE fc =? 0x0008) && bit_test (WLAN_FC_GET_STYPE fc) 0x0080.

(** The frame control field in the authenticated data: subtype bits of data
    frames, Order of QoS frames, Retry, Power Management and More Data are
    masked. *)
Definition aad_fc (fc : Z) : Z :=
  let f := if WLAN_FC_GET_TYPE fc =? 0x0008 then
             let f := Z.land fc (u16 (Z.lnot 0x0070)) in
             if bit_test (WLAN_FC_GET_STYPE fc) 0x0080 then Z.land f (u16 (Z.lnot 0x8000)) else f
           else fc in
  Z.land f (u16 (Z.lnot (Z.lor (Z.lor 0x0800 0x1000) 0x2000))).

(** The bytes behind the sequence control field: address 4 and the QoS field. *)
Definition aad_tail (amsdu_mode : Z) (fc : Z) (t : bytes) : bytes :=
  let addr4 := if fc_addr4 fc then 6%nat else O in
  take addr4 t ++
  (if fc_qos fc then
     let q := Z.land (znth t (Z.of_nat addr4)) (u8 (Z.lnot 0x70)) in
     [if amsdu_mode =? RTW_AMSDU_MODE_SPP then q else Z.land q (u8 (Z.lnot 0x80)); 0]
   else []).

(** Frame control [fc'], addresses 1 to 3, masked sequence control, tail. *)
Definition aad_of (amsdu_mode : Z) (mem : bytes) (hdr fc fc' : Z) : res bytes :=
  addrs ← rd_slice mem (hdr + 4) 18;
  seq ← le16_get mem (hdr + 22);
  t ← rd_slice mem (hdr + 24) ((if fc_addr4 fc then 6 else 0) + (if fc_qos fc then 2 else 0));
  Ret (put_le16 fc' ++ addrs ++ put_le16 (Z.land seq (u16 (Z.lnot 0xfff0))) ++ aad_tail amsdu_mode fc t).

(** The packet number bytes of the nonce, from the IV at [data]. *)
Definition nonce_pn (mem : bytes) (data : Z) : res bytes :=
  iv ← rd_slice mem data 8;
  Ret [znth iv 7; znth iv 6; znth iv 5; znth iv 4; znth iv 1; znth iv 0].

(** The authenticated data and the nonce; [hdr] and [data] are offsets. *)
Definition ccmp_aad_nonce (amsdu_mode : Z) (mem : bytes) (hdr data : Z) : res (bytes * bytes) :=
  fc ← le16_get mem hdr;
  n0 ← (if fc_qos fc then q ← rd mem (hdr + 24 + (if fc_addr4 fc then 6 else 0)); Ret (Z.land q 0x0f)
        else Ret (if WLAN_FC_GET_TYPE fc =? 0x0000 then 0x10 else 0));
  aad ← aad_of amsdu_mode mem hdr fc (Z.lor (aad_fc fc) WLAN_FC_ISWEP);
  a2 ← rd_slice mem (hdr + 10) 6;
  pn ← nonce_pn mem data;
  Ret (aad, [n0] ++ a2 ++ pn).

Definition gcmp_aad_nonce (amsdu_mode : Z) (mem : bytes) (hdr data : Z) : res (bytes * bytes) :=
  fc ← le16_get mem hdr;
  aad ← aad_of amsdu_mode mem hdr fc (aad_fc fc);
  a2 ← rd_slice mem (hdr + 10) 6;
  pn ← nonce_pn mem data;
  Ret (aad, a2 ++ pn).

(** ** Frames

    What the three pairs of routines differ in. *)
Record suite := mk_suite {
  s_mic : Z;                                        (* length of the MIC *)
  s_iswep : bool;                                   (* the header is marked protected *)
  s_aad_nonce : bytes -> Z -> Z -> res (bytes * bytes);
  s_ae : bytes -> bytes -> bytes -> bytes -> res (option (bytes * bytes));   (* key nonce plain aad *)
  s_ad : bytes -> bytes -> bytes -> bytes -> bytes -> res (option bytes)     (* key nonce crypt aad auth *)
}.

Definition ccmp_suite (amsdu_mode key_len M : Z) : suite :=
  mk_suite M true (ccmp_aad_nonce amsdu_mode)
    (fun key nonce plain aad => aes_ccm_ae key key_len nonce M plain aad)
    (fun key nonce crypt aad auth => aes_ccm_ad key key_len nonce M crypt aad auth).

Definition gcmp_suite (amsdu_mode key_len : Z) : suite :=
  mk_suite 16 false (gcmp_aad_nonce amsdu_mode)
    (fun key nonce plain aad => aes_gcm_ae key key_len nonce plain aad)
    (fun key nonce crypt aad auth => aes_gcm_ad key key_len nonce crypt aad auth).

(** The decrypted payload; [data] is the offset of IV, payload and MIC. *)
Definition suite_decrypt (s : suite) (tk mem : bytes) (hdr data data_len : Z) : res (option bytes) :=
  if data_len <? 8 + s_mic s then Ret None
  else
    let mlen := data_len - 8 - s_mic s in
    an ← s_aad_nonce s mem hdr data;
    crypt ← rd_slice mem (data + 8) mlen;
    auth ← rd_slice mem (data + 8 + mlen) (s_mic s);
    s_ad s tk (snd (an : bytes * bytes)) crypt (fst an) auth.

(** [hdr->frame_control |= host_to_le16(WLAN_FC_ISWEP)] *)
Definition set_iswep (hdr : bytes) : bytes := alter (fun b => Z.lor b 0x40) 1%nat hdr.

(** The encrypted frame: header, IV, payload, MIC.  Without [pn] the frame
    already holds its IV. *)
Definition suite_encrypt (s : suite) (tk mem : bytes) (frame len hdrlen : Z) (pn : option bytes) (keyid : Z)
    : res (option bytes) :=
  if (len <? hdrlen) || (hdrlen <? 24) then Ret None
  else
    let plen := len - hdrlen in
    h ← rd_slice mem frame hdrlen;
    let h := if s_iswep s then set_iswep h else h in
    iv ← match pn with
         | None => rd_slice mem (frame + hdrlen) 8
         | Some pn => Ret [znth pn 5; znth pn 4; 0; u8 (Z.lor 0x20 (Z.shiftl keyid 6)); znth pn 3; znth pn 2; znth pn 1; znth pn 0]
         end;
    pdata ← rd_slice mem (frame + hdrlen + (match pn with None => 8 | Some _ => 0 end)) plen;
    an ← s_aad_nonce s (h ++ iv) 0 hdrlen;
    r ← s_ae s tk (snd (an : bytes * bytes)) pdata (fst an);
    match (r : option (bytes * bytes)) with
    | None => Ret None
    | Some (crypt, mic) => Ret (Some (h ++ iv ++ crypt ++ mic))
    end.

Definition ccmp_decrypt (amsdu_mode : Z) := suite_decrypt (ccmp_suite amsdu_mode 16 8).
Definition ccmp_encrypt (amsdu_mode : Z) := suite_encrypt (ccmp_suite amsdu_mode 16 8).
Definition ccmp_256_decrypt (amsdu_mode : Z) := suite_decrypt (ccmp_suite amsdu_mode 32 16).
Definition ccmp_256_encrypt (amsdu_mode : Z) := suite_encrypt (ccmp_suite amsdu_mode 32 16).
Definition gcmp_decrypt (amsdu_mode tk_len : Z) := suite_decrypt (gcmp_suite amsdu_mode tk_len).
Definition gcmp_encrypt (amsdu_mode tk_len : Z) := suite_encrypt (gcmp_suite amsdu_mode tk_len).

(** Copying the result back: return value and buffer. *)
Definition copy_back (mem : bytes) (off : Z) (r : res (option bytes)) : res (Z * bytes) :=
  r ← r;
  match (r : option bytes) with
  | None => Ret (_FAIL, mem)
  | Some enc => mem ← wr_slice mem off enc; Ret (_SUCCESS, mem)
  end.

Definition _rtw_ccmp_encrypt (amsdu_mode : Z) (key : bytes) (key_len hdrlen : Z) (mem : bytes) (frame plen : Z) : res (Z * bytes) :=
  copy_back mem frame
    (if key_len =? 16 then ccmp_encrypt amsdu_mode key mem frame (u32 (hdrlen + plen)) hdrlen None 0
     else if key_len =? 32 then ccmp_256_encrypt amsdu_mode key mem frame (u32 (hdrlen + plen)) hdrlen None 0
     else Ret None).

Definition _rtw_ccmp_decrypt (amsdu_mode : Z) (key : bytes) (key_len hdrlen : Z) (mem : bytes) (frame plen : Z) : res (Z * bytes) :=
  copy_back mem (frame + hdrlen + 8)
    (if key_len =? 16 then ccmp_decrypt amsdu_mode key mem frame (frame + hdrlen) (u32 (plen - hdrlen))
     else if key_len =? 32 then ccmp_256_decrypt amsdu_mode key mem frame (frame + hdrlen) (u32 (plen - hdrlen))
     else Ret None).

Definition _rtw_gcmp_encrypt (amsdu_mode : Z) (key : bytes) (key_len hdrlen : Z) (mem : bytes) (frame plen : Z) : res (Z * bytes) :=
  copy_back mem frame (gcmp_encrypt amsdu_mode key_len key mem frame (u32 (hdrlen + plen)) hdrlen None 0).

Definition _rtw_gcmp_decrypt (amsdu_mode : Z) (key : bytes) (key_len hdrlen : Z) (mem : bytes) (frame plen : Z) : res (Z * bytes) :=
  copy_back mem (frame + hdrlen + 8) (gcmp_decrypt amsdu_mode key_len key mem frame (frame + hdrlen) (u32 (plen - hdrlen))).

(** ** Transmit and receive *)

(** Return value and buffer, as [rtw_tkip_encrypt]; the results of the single
    fragments are not looked at. *)
Definition suite_tx (encrypt : bytes -> Z -> Z -> bytes -> Z -> Z -> res (Z * bytes)) (e128 e256 : Z)
    (s : security_priv) (a : pkt_attrib) (frag_len buf_addr hw_hdr_offset : Z) (buf : option bytes)
    : res (Z * option bytes) :=
  match buf with
  | None => Ret (_FAIL, None)
  | Some mem =>
      if (tx_encrypt a =? e128) || (tx_encrypt a =? e256) then
        let prwskey :=
          if IS_MCAST (tx_ra a) then key_at (dot118021XGrpKey s) (dot118021XGrpKeyid s) else tx_UncstKey a in
        let prwskeylen := if tx_encrypt a =? e256 then 32 else 16 in
        let frag cur mem pframe :=
          r ← encrypt prwskey prwskeylen (tx_hdrlen a) mem pframe (u32 (frag_payload a frag_len cur));
          Ret (snd (r : Z * bytes)) in
        mem ← encrypt_frags frag buf_addr frag_len (Z.to_nat (nr_frags a)) 0 mem hw_hdr_offset;
        Ret (_SUCCESS, Some mem)
      else Ret (_SUCCESS, buf)
  end.

Definition rtw_aes_encrypt (amsdu_mode : Z) := suite_tx (_rtw_ccmp_encrypt amsdu_mode) _AES_ _CCMP_256_.
Definition rtw_gcmp_encrypt (amsdu_mode : Z) := suite_tx (_rtw_gcmp_encrypt amsdu_mode) _GCMP_ _GCMP_256_.

(** Return value and frame.  The static counters kept for the log are left out. *)
Definition suite_rx (decrypt : bytes -> Z -> Z -> bytes -> Z -> Z -> res (Z * bytes)) (e128 e256 : Z) (s : rxs)
    : res (Z * recv_frame) :=
  let a := att s in
  let f := frm s in
  let x := keys (securitypriv (adp s)) in
  if (encrypt a =? e128) || (encrypt a =? e256) then
    match get_sta s (ta a) with
    | None => Ret (_FAIL, f)
    | Some i =>
        let go prwskey :=
          r ← decrypt prwskey (if encrypt a =? e256 then 32 else 16) (hdrlen a) (rx_mem f) (rx_data f) (len f);
          Ret (fst (r : Z * bytes), set_mem f (snd r)) in
        if IS_MCAST (ra a) then
          if negb (binstallGrpkey x) then Ret (_FAIL, f)
          else if negb (dot118021XGrpKeyid x =? key_index a) then Ret (_FAIL, f)
          else go (key_at (dot118021XGrpKey x) (key_index a))
        else go (dot118021x_UncstKey (sta_entry s i))
    end
  else Ret (_SUCCESS, f).

Definition rtw_aes_decrypt (amsdu_mode : Z) := suite_rx (_rtw_ccmp_decrypt amsdu_mode) _AES_ _CCMP_256_.
Definition rtw_gcmp_decrypt (amsdu_mode : Z) := suite_rx (_rtw_gcmp_decrypt amsdu_mode) _GCMP_ _GCMP_256_.

(** ** A region of a buffer

    The bytes [l] lie at offset [off] of [mem]; reads inside the region do
    not depend on the rest. *)
Definition region (mem : bytes) (off : Z) (l : bytes) : Prop :=
  exists pre post, mem = pre ++ l ++ post /\ off = zlen pre.

Lemma region_rd mem off l k : region mem off l -> 0 <= k < zlen l -> rd mem (off + k) = rd l k.
Proof.
  intros (pre & post & -> & ->) Hk. rewrite rd_app_r, rd_app_l by lia. f_equal. lia.
Qed.

Lemma region_slice mem off l k n :
  region mem off l -> 0 <= k -> 0 <= n -> k + n <= zlen l -> rd_slice mem (off + k) n = rd_slice l k n.
Proof.
  intros (pre & post & -> & ->) Hk Hn H. pose proof (zlen_nonneg pre). pose proof (zlen_nonneg post).
  rewrite !rd_slice_ok by (rewrite ?zlen_app; lia). f_equal. unfold zlen in *.
  replace (Z.to_nat (Z.of_nat (length pre) + k)) with (length pre + Z.to_nat k)%nat by lia.
  rewrite <- drop_drop, drop_app_length, drop_app_le, take_app_le by (rewrite ?length_drop; lia). done.
Qed.

Lemma region_le16 mem off l k : region mem off l -> 0 <= k -> k + 1 < zlen l -> le16_get mem (off + k) = le16_get l k.
Proof.
  intros H Hk Hl. unfold le16_get. rewrite <- Z.add_assoc, !(region_rd mem off l) by (done || lia). done.
Qed.

Lemma rd_slice_bytes b i n s : bytes_ok b -> rd_slice b i n = Ret s -> bytes_ok s.
Proof.
  unfold rd_slice. intros Hb H. destruct (n <=? 0); [injection H as <-; constructor|].
  destruct (_ && _); [|discriminate]. injection H as <-. by apply Forall_take, Forall_drop.
Qed.

Lemma rd_slice_total b i n :
  0 <= i -> 0 <= n -> i + n <= zlen b -> bytes_ok b -> exists s, rd_slice b i n = Ret s /\ zlen s = n /\ bytes_ok s.
Proof.
  intros Hi Hn H Fb. rewrite rd_slice_ok by done. eexists. split; [done|].
  split; [unfold zlen in *; rewrite length_take, length_drop; lia | by apply Forall_take, Forall_drop].
Qed.

(** Header and IV of a protected frame. *)
Definition hdr_fc (hdr : bytes) : Z := u16 (Z.lor (Z.shiftl (znth hdr 1) 8) (znth hdr 0)).

Record hdr_ok (hdr iv : bytes) : Prop := {
  h_len : 24 + (if fc_addr4 (hdr_fc hdr) then 6 else 0) + (if fc_qos (hdr_fc hdr) then 2 else 0) <= zlen hdr;
  h_bytes : bytes_ok hdr;
  h_iv : zlen iv = 8;
  h_ivb : bytes_ok iv
}.

Lemma hdr_24 hdr iv : hdr_ok hdr iv -> 24 <= zlen hdr.
Proof. intros [H _ _ _]. repeat case_match; lia. Qed.

Lemma le16_hdr hdr iv : hdr_ok hdr iv -> le16_get hdr 0 = Ret (hdr_fc hdr).
Proof.
  intros H%hdr_24. unfold zlen in H. destruct hdr as [|a [|b hdr]]; cbn in H; try lia. reflexivity.
Qed.

Lemma region_fc hdr iv mem off : hdr_ok hdr iv -> region mem off (hdr ++ iv) -> le16_get mem off = Ret (hdr_fc hdr).
Proof.
  intros H R. pose proof (hdr_24 _ _ H). pose proof (zlen_nonneg iv).
  rewrite <- (Z.add_0_r off), (region_le16 mem off (hdr ++ iv)), <- (le16_hdr _ _ H) by (done || (rewrite ?zlen_app; lia)).
  unfold le16_get. by rewrite !rd_app_l by lia.
Qed.

(** The authenticated data depends on the header alone. *)
Lemma aad_of_total amsdu_mode hdr iv fc' :
  hdr_ok hdr iv ->
  exists aad, zlen aad <= 30 /\ bytes_ok aad /\
    forall mem off, region mem off (hdr ++ iv) -> aad_of amsdu_mode mem off (hdr_fc hdr) fc' = Ret aad.
Proof.
  intros H. pose proof (hdr_24 _ _ H) as H24. pose proof (h_len _ _ H) as Hl.
  destruct (rd_slice_total hdr 4 18) as (addrs & E1 & L1 & F1); [lia..|apply H|].
  assert (exists seq, le16_get hdr 22 = Ret seq) as [seq E2].
  { destruct (rd_in_bounds hdr 22) as (x & Ex & _); [lia|]. destruct (rd_in_bounds hdr 23) as (y & Ey & _); [lia|].
    eexists. unfold le16_get. rewrite Ex, bind_Ret. change (22 + 1) with 23. by rewrite Ey, bind_Ret. }
  set (n := (if fc_addr4 (hdr_fc hdr) then 6 else 0) + (if fc_qos (hdr_fc hdr) then 2 else 0)) in *.
  assert (0 <= n <= 8) as Hn by (unfold n; repeat case_match; lia).
  destruct (rd_slice_total hdr 24 n) as (t & E3 & L3 & F3); [lia..|apply H|].
  exists (put_le16 fc' ++ addrs ++ put_le16 (Z.land seq (u16 (Z.lnot 0xfff0))) ++ aad_tail amsdu_mode (hdr_fc hdr) t).
  split_and!.
  - rewrite !zlen_app, L1. change (zlen (put_le16 _)) with 2. unfold aad_tail. rewrite zlen_app. unfold zlen at 1. rewrite length_take.
    unfold n, zlen in *. repeat case_match; cbn [length]; lia.
  - byte_list. unfold aad_tail. byte_list. destruct (fc_qos _); [|byte_list].
    byte_list. destruct (_ =? _); apply land_byte; auto with rtw.
  - intros mem off R. assert (region mem off hdr) as R'.
    { destruct R as (pre & post & -> & ->). exists pre, (iv ++ post). by rewrite <- app_assoc. }
    unfold aad_of. fold n. rewrite !(region_slice mem off hdr), (region_le16 mem off hdr) by (done || lia).
    by rewrite E1, bind_Ret, E2, bind_Ret, E3, bind_Ret.
Qed.

(** ** What the frame routines ask of a cipher suite *)

Class SuiteOk (s : suite) (tk : bytes) : Prop := {
  so_mic : 0 <= s_mic s;
  so_frame hdr iv :
    hdr_ok hdr iv -> exists aad nonce,
      (forall mem off, region mem off (hdr ++ iv) -> s_aad_nonce s mem off (off + zlen hdr) = Ret (aad, nonce)) /\
      (forall plain, bytes_ok plain -> exists crypt mic,
         length crypt = length plain /\ zlen mic = s_mic s /\
         s_ae s tk nonce plain aad = Ret (Some (crypt, mic)) /\ s_ad s tk nonce crypt aad mic = Ret (Some plain)) /\
      (forall crypt auth, bytes_ok crypt -> zlen auth = s_mic s -> exists plain mic,
         length plain = length crypt /\
         s_ae s tk nonce plain aad = Ret (Some (crypt, mic)) /\
         s_ad s tk nonce crypt aad auth = Ret (if bool_decide (auth = mic) then Some plain else None))
}.

(** The nonce parts: address 2 and the packet number. *)
Lemma nonce_total hdr iv :
  hdr_ok hdr iv ->
  exists a2 pn, zlen a2 = 6 /\ zlen pn = 6 /\ bytes_ok a2 /\ bytes_ok pn /\
    forall mem off, region mem off (hdr ++ iv) ->
      rd_slice mem (off + 10) 6 = Ret a2 /\ nonce_pn mem (off + zlen hdr) = Ret pn.
Proof.
  intros H. pose proof (hdr_24 _ _ H). pose proof (h_iv _ _ H) as Hiv.
  destruct (rd_slice_total hdr 10 6) as (a2 & E1 & L1 & F1); [lia..|apply H|].
  assert (length iv = 8%nat) as Li by (unfold zlen in Hiv; lia).
  exists a2, [znth iv 7; znth iv 6; znth iv 5; znth iv 4; znth iv 1; znth iv 0]. split_and!; [done..| |].
  - pose proof (h_ivb _ _ H) as Fi. do 8 (destruct iv as [|? iv]; [discriminate|]). rewrite !Forall_cons in Fi.
    cbn [znth nth Z.to_nat Pos.to_nat Pos.iter_op Init.Nat.add]. byte_list; apply Fi.
  - intros mem off R. split.
    + destruct R as (pre & post & -> & ->). rewrite (region_slice _ _ hdr); [done| |lia..].
      exists pre, (iv ++ post). by rewrite <- app_assoc.
    + unfold nonce_pn. destruct R as (pre & post & -> & ->).
      rewrite <- zlen_app, app_assoc, app_assoc, <- (app_assoc (pre ++ hdr)), <- Hiv, rd_slice_app. done.
Qed.

#[export] Instance ccmp_SuiteOk m key_len M tk :
  suite_key tk key_len -> 0 <= M <= 16 -> SuiteOk (ccmp_suite m key_len M) tk.
Proof.
  intros Hk HM. split; [cbn; lia|]. intros hdr iv H. pose proof (hdr_24 _ _ H).
  destruct (aad_of_total m hdr iv (Z.lor (aad_fc (hdr_fc hdr)) WLAN_FC_ISWEP) H) as (aad & La & Fa & Ha).
  destruct (nonce_total hdr iv H) as (a2 & pn & L2 & Lp & F2 & Fp & Hn).
  assert (exists n0, is_byte n0 /\ forall mem off, region mem off (hdr ++ iv) ->
    (if fc_qos (hdr_fc hdr) then q ← rd mem (off + 24 + (if fc_addr4 (hdr_fc hdr) then 6 else 0)); Ret (Z.land q 0x0f)
     else Ret (if WLAN_FC_GET_TYPE (hdr_fc hdr) =? 0x0000 then 0x10 else 0)) = Ret n0) as (n0 & Fn & Hn0).
  { destruct (fc_qos (hdr_fc hdr)) eqn:Eq.
    - pose proof (h_len _ _ H) as Hl. rewrite Eq in Hl.
      destruct (rd_in_bounds hdr (24 + (if fc_addr4 (hdr_fc hdr) then 6 else 0))) as (q & Hq & _); [repeat case_match; lia|].
      exists (Z.land q 0x0f). split; [apply land_byte; unfold is_byte; lia|].
      intros mem off (pre & post & -> & ->). rewrite <- Z.add_assoc, (region_rd _ _ hdr), Hq; [done| |repeat case_match; lia].
      exists pre, (iv ++ post). by rewrite <- app_assoc.
    - eexists. split; [|done]. case_match; unfold is_byte; lia. }
  exists aad, ([n0] ++ a2 ++ pn).
  assert (ccm_args ([n0] ++ a2 ++ pn) aad M) as A.
  { split; [unfold zlen in *; rewrite !length_app; cbn [length]; lia | byte_list | done..]. }
  split_and!.
  - intros mem off R. cbn [s_aad_nonce ccmp_suite]. unfold ccmp_aad_nonce.
    rewrite (region_fc hdr iv mem off H R).
    destruct (Hn mem off R) as [N1 N2]. by rewrite bind_Ret, Hn0, bind_Ret, Ha, bind_Ret, N1, bind_Ret, N2, bind_Ret.
  - intros plain Fpl. destruct (aes_ccm_ae_spec tk key_len _ aad M plain Hk A Fpl) as (c & t & Lc & _ & Lt & Ae & Ad). eauto 10.
  - intros c t Fc Lt. destruct (aes_ccm_ad_spec tk key_len _ aad M c t Hk A Fc Lt) as (p & t' & L & _ & _ & Ae & Ad). eauto 10.
Qed.

#[export] Instance gcmp_SuiteOk m key_len tk : suite_key tk key_len -> SuiteOk (gcmp_suite m key_len) tk.
Proof.
  intros Hk. split; [cbn; lia|]. intros hdr iv H. pose proof (hdr_24 _ _ H).
  destruct (aad_of_total m hdr iv (aad_fc (hdr_fc hdr)) H) as (aad & La & Fa & Ha).
  destruct (nonce_total hdr iv H) as (a2 & pn & L2 & Lp & F2 & Fp & Hn). exists aad, (a2 ++ pn).
  assert (bytes_ok (a2 ++ pn)) as Fn by byte_list.
  split_and!.
  - intros mem off R. cbn [s_aad_nonce gcmp_suite]. unfold gcmp_aad_nonce.
    rewrite (region_fc hdr iv mem off H R).
    destruct (Hn mem off R) as [N1 N2]. by rewrite bind_Ret, Ha, bind_Ret, N1, bind_Ret, N2, bind_Ret.
  - intros plain Fpl. destruct (aes_gcm_ae_spec tk key_len (a2 ++ pn) aad plain Hk Fn Fpl) as (c & t & Lc & _ & Lt & Ae & Ad). eauto 10.
  - intros c t Fc Lt. destruct (aes_gcm_ad_spec tk key_len (a2 ++ pn) aad c t Hk Fn Fc Lt) as (p & t' & L & _ & _ & Ae & Ad). eauto 10.
Qed.

(** ** Frames *)

(** The header as it is sent. *)
Definition marked (s : suite) (hdr : bytes) : bytes := if s_iswep s then set_iswep hdr else hdr.

Lemma marked_length s hdr : length (marked s hdr) = length hdr.
Proof. unfold marked, set_iswep. destruct (s_iswep s); [apply length_alter | done]. Qed.

Lemma hdr_fc_iswep hdr : (2 <= length hdr)%nat -> hdr_fc (set_iswep hdr) = Z.lor (hdr_fc hdr) WLAN_FC_ISWEP.
Proof.
  intros L. destruct hdr as [|a [|b hdr]]; cbn in L; try lia.
  change (hdr_fc (set_iswep (a :: b :: hdr))) with (u16 (Z.lor (Z.shiftl (Z.lor b 0x40) 8) a)).
  change (hdr_fc (a :: b :: hdr)) with (u16 (Z.lor (Z.shiftl b 8) a)).
  assert (forall z, u16 z = Z.land z (Z.ones 16)) as E by (intros; by rewrite Z.land_ones by lia).
  rewrite Z.shiftl_lor, <- !Z.lor_assoc, (Z.lor_comm _ a), !Z.lor_assoc, !E, Z.land_lor_distr_l. done.
Qed.

(** Setting the Protected bit changes no other bit of the frame control. *)
Lemma iswep_land hdr mask :
  (2 <= length hdr)%nat -> Z.land WLAN_FC_ISWEP mask = 0 -> Z.land (hdr_fc (set_iswep hdr)) mask = Z.land (hdr_fc hdr) mask.
Proof. intros L E. by rewrite hdr_fc_iswep, Z.land_lor_distr_l, E, Z.lor_0_r by done. Qed.

Lemma set_iswep_fc hdr : (2 <= length hdr)%nat ->
  fc_addr4 (hdr_fc (set_iswep hdr)) = fc_addr4 (hdr_fc hdr) /\ fc_qos (hdr_fc (set_iswep hdr)) = fc_qos (hdr_fc hdr).
Proof. intros L. unfold fc_addr4, fc_qos, WLAN_FC_GET_TYPE, WLAN_FC_GET_STYPE. by rewrite !iswep_land by done. Qed.

Lemma marked_ok s hdr iv : hdr_ok hdr iv -> hdr_ok (marked s hdr) iv.
Proof.
  intros H. pose proof (hdr_24 _ _ H) as L. unfold marked. destruct (s_iswep s); [|done].
  destruct (set_iswep_fc hdr) as [E1 E2]; [unfold zlen in L; lia|].
  assert (length (set_iswep hdr) = length hdr) as Ls by apply length_alter.
  split; [rewrite E1, E2; unfold zlen; rewrite Ls; apply H | | apply H..].
  apply Forall_alter; [apply H|]. intros x Hx Fx.
  pose proof (byte_forall (fun y => (0 <=? Z.lor y 0x40) && (Z.lor y 0x40 <? 256)) x ltac:(vm_compute; reflexivity) Fx) as B.
  rewrite andb_true_iff, Z.leb_le, Z.ltb_lt in B. exact B.
Qed.

Lemma suite_decrypt_region s tk hdr iv crypt auth pre post aad nonce :
  (forall mem off, region mem off (hdr ++ iv) -> s_aad_nonce s mem off (off + zlen hdr) = Ret (aad, nonce)) ->
  zlen iv = 8 -> zlen auth = s_mic s ->
  suite_decrypt s tk (pre ++ hdr ++ iv ++ crypt ++ auth ++ post) (zlen pre) (zlen pre + zlen hdr)
    (8 + zlen crypt + s_mic s) = s_ad s tk nonce crypt aad auth.
Proof.
  intros Ha Hiv Hm. pose proof (zlen_nonneg crypt). unfold suite_decrypt.
  destruct (Z.ltb_spec (8 + zlen crypt + s_mic s) (8 + s_mic s)); [lia|].
  replace (8 + zlen crypt + s_mic s - 8 - s_mic s) with (zlen crypt) by lia.
  rewrite Ha, bind_Ret by (exists pre, (crypt ++ auth ++ post); split; [by rewrite <- app_assoc | done]).
  rewrite <- Hm, <- Hiv, <- !zlen_app.
  replace (pre ++ hdr ++ iv ++ crypt ++ auth ++ post) with (((pre ++ hdr) ++ iv) ++ crypt ++ auth ++ post) by (by rewrite <- !app_assoc).
  rewrite rd_slice_app, bind_Ret, (app_assoc ((pre ++ hdr) ++ iv)), rd_slice_app, bind_Ret. done.
Qed.

Lemma suite_encrypt_region s tk hdr iv data rest pre aad nonce :
  (forall mem off, region mem off (marked s hdr ++ iv) -> s_aad_nonce s mem off (off + zlen (marked s hdr)) = Ret (aad, nonce)) ->
  zlen iv = 8 -> 24 <= zlen hdr ->
  suite_encrypt s tk (pre ++ hdr ++ iv ++ data ++ rest) (zlen pre) (zlen hdr + zlen data) (zlen hdr) None 0
  = (r ← s_ae s tk nonce data aad;
     Ret ((fun p : bytes * bytes => marked s hdr ++ iv ++ p.1 ++ p.2) <$> (r : option (bytes * bytes)))).
Proof.
  intros Ha Hiv H24. pose proof (zlen_nonneg data). unfold suite_encrypt.
  destruct (Z.ltb_spec (zlen hdr + zlen data) (zlen hdr)); [lia|]. destruct (Z.ltb_spec (zlen hdr) 24); [lia|]. cbn [orb].
  replace (zlen hdr + zlen data - zlen hdr) with (zlen data) by lia.
  rewrite rd_slice_app, bind_Ret, <- zlen_app, (app_assoc pre hdr), <- Hiv, rd_slice_app, bind_Ret, <- zlen_app.
  rewrite (app_assoc (pre ++ hdr) iv), rd_slice_app, bind_Ret.
  fold (marked s hdr). replace (zlen hdr) with (0 + zlen (marked s hdr)) by (unfold zlen; rewrite marked_length; lia).
  rewrite Ha, bind_Ret by (exists [], []; split; [by rewrite app_nil_r | done]). cbn [fst snd].
  destruct (s_ae s tk nonce data aad) as [[[c t]|]| |]; done.
Qed.

(** Encrypting and decrypting in place. *)
Lemma suite_roundtrip s tk `{!SuiteOk s tk} hdr iv data :
  hdr_ok hdr iv -> bytes_ok data ->
  exists crypt mic,
    length crypt = length data /\ zlen mic = s_mic s /\
    (forall pre rest,
       suite_encrypt s tk (pre ++ hdr ++ iv ++ data ++ rest) (zlen pre) (zlen hdr + zlen data) (zlen hdr) None 0
       = Ret (Some (marked s hdr ++ iv ++ crypt ++ mic))) /\
    (forall pre post,
       let mem := pre ++ marked s hdr ++ iv ++ crypt ++ mic ++ post in
       copy_back mem (zlen pre + zlen hdr + 8) (suite_decrypt s tk mem (zlen pre) (zlen pre + zlen hdr) (8 + zlen data + s_mic s))
       = Ret (_SUCCESS, pre ++ marked s hdr ++ iv ++ data ++ mic ++ post)).
Proof.
  intros H Fd. destruct (so_frame (marked s hdr) iv (marked_ok s hdr iv H)) as (aad & nonce & Ha & Hae & _).
  destruct (Hae data Fd) as (crypt & mic & Lc & Lm & Eae & Ead). exists crypt, mic. split_and!; [done..| |].
  - intros pre rest. rewrite (suite_encrypt_region s tk hdr iv data rest pre aad nonce Ha (h_iv _ _ H) (hdr_24 _ _ H)), Eae.
    by rewrite bind_Ret.
  - intros pre post mem. unfold mem. replace (zlen data) with (zlen crypt) by (unfold zlen; by rewrite Lc).
    replace (zlen hdr) with (zlen (marked s hdr)) by (unfold zlen; by rewrite marked_length).
    rewrite (suite_decrypt_region s tk _ iv crypt mic pre post aad nonce Ha (h_iv _ _ H) Lm), Ead. unfold copy_back. rewrite bind_Ret.
    rewrite <- (h_iv _ _ H), <- !zlen_app.
    replace (pre ++ marked s hdr ++ iv ++ crypt ++ mic ++ post) with (((pre ++ marked s hdr) ++ iv) ++ crypt ++ mic ++ post) by (by rewrite <- !app_assoc).
    rewrite wr_slice_app, bind_Ret by lia. by rewrite <- !app_assoc.
Qed.

(** The encrypted frame replaces the plain one. *)
Lemma copy_back_frame s hdr iv data old crypt mic pre post :
  length crypt = length data -> length mic = length old ->
  copy_back (pre ++ hdr ++ iv ++ data ++ old ++ post) (zlen pre) (Ret (Some (marked s hdr ++ iv ++ crypt ++ mic)))
  = Ret (_SUCCESS, pre ++ marked s hdr ++ iv ++ crypt ++ mic ++ post).
Proof.
  intros Lc Lm. unfold copy_back. rewrite bind_Ret.
  replace (pre ++ hdr ++ iv ++ data ++ old ++ post) with (pre ++ (hdr ++ iv ++ data ++ old) ++ post) by (by rewrite <- !app_assoc).
  rewrite wr_slice_app, bind_Ret; [by rewrite <- !app_assoc|]. rewrite !length_app, marked_length. lia.
Qed.

(** Decryption answers for every frame, and success means that the frame is
    what encryption produces. *)
Lemma suite_accepts s tk `{!SuiteOk s tk} hdr iv crypt auth pre post :
  hdr_ok hdr iv -> marked s hdr = hdr -> bytes_ok crypt -> zlen auth = s_mic s ->
  let mem := pre ++ hdr ++ iv ++ crypt ++ auth ++ post in
  let r := copy_back mem (zlen pre + zlen hdr + 8) (suite_decrypt s tk mem (zlen pre) (zlen pre + zlen hdr) (8 + zlen crypt + s_mic s)) in
  r = Ret (_FAIL, mem) \/
  exists data, length data = length crypt /\ r = Ret (_SUCCESS, pre ++ hdr ++ iv ++ data ++ auth ++ post) /\
    forall old, zlen old = s_mic s ->
      copy_back (pre ++ hdr ++ iv ++ data ++ old ++ post) (zlen pre)
        (suite_encrypt s tk (pre ++ hdr ++ iv ++ data ++ old ++ post) (zlen pre) (zlen hdr + zlen data) (zlen hdr) None 0)
      = Ret (_SUCCESS, mem).
Proof.
  intros H Hmk Fc Lm mem r. destruct (so_frame hdr iv H) as (aad & nonce & Ha & _ & Had).
  destruct (Had crypt auth Fc Lm) as (data & mic & Ld & Eae & Ead).
  assert (r = copy_back mem (zlen pre + zlen hdr + 8) (Ret (if bool_decide (auth = mic) then Some data else None))) as ->.
  { unfold r, mem. by rewrite (suite_decrypt_region s tk hdr iv crypt auth pre post aad nonce Ha (h_iv _ _ H) Lm), Ead. }
  case_bool_decide as Em; [|left; done]. subst mic. right. exists data. split; [done|]. split.
  - unfold copy_back, mem. rewrite bind_Ret, <- (h_iv _ _ H), <- !zlen_app.
    replace (pre ++ hdr ++ iv ++ crypt ++ auth ++ post) with (((pre ++ hdr) ++ iv) ++ crypt ++ auth ++ post) by (by rewrite <- !app_assoc).
    rewrite wr_slice_app, bind_Ret by lia. by rewrite <- !app_assoc.
  - intros old Ho. rewrite (suite_encrypt_region s tk hdr iv data (old ++ post) pre aad nonce), Eae
      by (rewrite ?Hmk; first [done | apply (h_iv _ _ H) | apply (hdr_24 _ _ H)]).
    rewrite bind_Ret. cbn [fmap option_fmap option_map fst snd].
    rewrite copy_back_frame by (unfold zlen in *; lia). by rewrite Hmk.
Qed.

(** ** The two protocols *)

Inductive sw_cipher := CCMP | GCMP.

Definition suite_of (c : sw_cipher) (m key_len : Z) : suite :=
  match c with
  | CCMP => ccmp_suite m key_len (if key_len =? 16 then 8 else 16)
  | GCMP => gcmp_suite m key_len
  end.

Definition sw_encrypt (c : sw_cipher) := match c with CCMP => _rtw_ccmp_encrypt | GCMP => _rtw_gcmp_encrypt end.
Definition sw_decrypt_frame (c : sw_cipher) := match c with CCMP => _rtw_ccmp_decrypt | GCMP => _rtw_gcmp_decrypt end.
Definition sw_tx (c : sw_cipher) := match c with CCMP => rtw_aes_encrypt | GCMP => rtw_gcmp_encrypt end.
Definition sw_rx (c : sw_cipher) := match c with CCMP => rtw_aes_decrypt | GCMP => rtw_gcmp_decrypt end.

(** The codes of the encryption field. *)
Definition enc_code (c : sw_cipher) (key_len : Z) : Z :=
  match c with
  | CCMP => if key_len =? 16 then _AES_ else _CCMP_256_
  | GCMP => if key_len =? 16 then _GCMP_ else _GCMP_256_
  end.

Lemma suite_of_ok c m key key_len : suite_key key key_len -> SuiteOk (suite_of c m key_len) key.
Proof. intros H. destruct c; [apply ccmp_SuiteOk | apply gcmp_SuiteOk]; [done | case_match; lia | done]. Qed.

Lemma sw_encrypt_suite c m key key_len hdrlen mem frame plen :
  suite_key key key_len ->
  sw_encrypt c m key key_len hdrlen mem frame plen
  = copy_back mem frame (suite_encrypt (suite_of c m key_len) key mem frame (u32 (hdrlen + plen)) hdrlen None 0).
Proof. intros [[-> | ->] _]; by destruct c. Qed.

Lemma sw_decrypt_suite c m key key_len hdrlen mem frame plen :
  suite_key key key_len ->
  sw_decrypt_frame c m key key_len hdrlen mem frame plen
  = copy_back mem (frame + hdrlen + 8)
      (suite_decrypt (suite_of c m key_len) key mem frame (frame + hdrlen) (u32 (plen - hdrlen))).
Proof. intros [[-> | ->] _]; by destruct c. Qed.

Lemma sw_tx_eq c m key_len s a frag_len buf_addr off mem :
  key_len = 16 \/ key_len = 32 -> tx_encrypt a = enc_code c key_len -> IS_MCAST (tx_ra a) = false ->
  sw_tx c m s a frag_len buf_addr off (Some mem)
  = (mem ← encrypt_frags (fun cur mem pframe =>
              r ← sw_encrypt c m (tx_UncstKey a) key_len (tx_hdrlen a) mem pframe (u32 (frag_payload a frag_len cur));
              Ret (snd (r : Z * bytes))) buf_addr frag_len (Z.to_nat (nr_frags a)) 0 mem off;
     Ret (_SUCCESS, Some mem)).
Proof.
  intros Hk He Hm. destruct c, Hk as [-> | ->]; cbn [sw_tx]; unfold rtw_aes_encrypt, rtw_gcmp_encrypt, suite_tx; rewrite He, Hm; reflexivity.
Qed.

(** C5: A frame accepted by software CCMP or GCMP decryption is exactly what
    encryption with the same key produces: decryption always answers, a
    rejected frame is left alone, and when a protected frame is accepted,
    encrypting the delivered payload under the same header and IV gives back
    the received ciphertext and MIC. *)
Theorem aead_accepts_only_sealed c m key key_len hdr iv crypt mic pre post :
  suite_key key key_len -> hdr_ok hdr iv -> marked (suite_of c m key_len) hdr = hdr ->
  bytes_ok crypt -> zlen mic = s_mic (suite_of c m key_len) -> zlen hdr + zlen crypt + 24 < 2 ^ 32 ->
  let mem := pre ++ hdr ++ iv ++ crypt ++ mic ++ post in
  let r := sw_decrypt_frame c m key key_len (zlen hdr) mem (zlen pre) (zlen hdr + 8 + zlen crypt + zlen mic) in
  r = Ret (_FAIL, mem) \/
  exists data, length data = length crypt /\ r = Ret (_SUCCESS, pre ++ hdr ++ iv ++ data ++ mic ++ post) /\
    forall old, length old = length mic ->
      sw_encrypt c m key key_len (zlen hdr) (pre ++ hdr ++ iv ++ data ++ old ++ post) (zlen pre) (zlen data) = Ret (_SUCCESS, mem).
Proof.
  intros Hk H Hmk Fc Lm Hsz mem r. pose proof (suite_of_ok c m key key_len Hk) as SO.
  pose proof (zlen_nonneg crypt). pose proof (hdr_24 _ _ H). pose proof (zlen_nonneg mic).
  assert (zlen mic <= 16) by (rewrite Lm; destruct c; cbn; [case_match; lia | lia]).
  unfold r. rewrite sw_decrypt_suite by done.
  rewrite u32_small by (unfold is_u32; lia).
  replace (zlen hdr + 8 + zlen crypt + zlen mic - zlen hdr) with (8 + zlen crypt + s_mic (suite_of c m key_len)) by lia.
  destruct (suite_accepts (suite_of c m key_len) key hdr iv crypt mic pre post H Hmk Fc Lm) as [Hf | (data & L & E1 & E2)]; [by left|].
  right. exists data. split; [done|]. split; [exact E1|]. intros old Lo.
  rewrite sw_encrypt_suite, u32_small by (done || (unfold is_u32, zlen in *; lia)). apply E2. unfold zlen in *. lia.
Qed.

(** The bytes the encryption of a fragment puts in its place. *)
Definition sw_img (c : sw_cipher) (m : Z) (key : bytes) (key_len : Z) (f : txfrag) : bytes :=
  match suite_encrypt (suite_of c m key_len) key (plain_img f) 0 (zlen (fr_hdr f) + zlen (fr_data f)) (zlen (fr_hdr f)) None 0 with
  | Ret (Some enc) => enc ++ fr_gap f
  | _ => []
  end.

(** A fragment ready for encryption. *)
Definition frag_ready (f : txfrag) : Prop :=
  hdr_ok (fr_hdr f) (fr_iv f) /\ bytes_ok (fr_data f) /\ zlen (fr_hdr f) + zlen (fr_data f) + 24 < 2 ^ 32.

Lemma sw_img_spec c m key key_len f pre post :
  suite_key key key_len -> frag_ready f -> zlen (fr_old f) = s_mic (suite_of c m key_len) ->
  exists body,
    zlen body = zlen (fr_data f) + s_mic (suite_of c m key_len) /\
    sw_img c m key key_len f = marked (suite_of c m key_len) (fr_hdr f) ++ fr_iv f ++ body ++ fr_gap f /\
    sw_encrypt c m key key_len (zlen (fr_hdr f)) (pre ++ plain_img f ++ post) (zlen pre) (zlen (fr_data f))
    = Ret (_SUCCESS, pre ++ sw_img c m key key_len f ++ post) /\
    forall rpre rpost,
      let h := marked (suite_of c m key_len) (fr_hdr f) in
      sw_decrypt_frame c m key key_len (zlen (fr_hdr f)) (rpre ++ h ++ fr_iv f ++ body ++ rpost) (zlen rpre)
        (zlen (fr_hdr f) + 8 + zlen body)
      = Ret (_SUCCESS, rpre ++ h ++ fr_iv f ++ fr_data f ++ drop (length (fr_data f)) body ++ rpost).
Proof.
  intros Hk (H & Fd & Hsz) Lo. pose proof (suite_of_ok c m key key_len Hk) as SO. set (s := suite_of c m key_len) in *.
  destruct (suite_roundtrip s key (fr_hdr f) (fr_iv f) (fr_data f) H Fd) as (crypt & mic & Lc & Lm & Ee & Ed).
  pose proof (zlen_nonneg (fr_data f)). pose proof (zlen_nonneg (fr_hdr f)).
  assert (zlen mic <= 16) by (rewrite Lm; unfold s; destruct c; cbn; [case_match; lia | lia]).
  pose proof (zlen_nonneg mic).
  assert (sw_img c m key key_len f = marked s (fr_hdr f) ++ fr_iv f ++ (crypt ++ mic) ++ fr_gap f) as Ei.
  { unfold sw_img. fold s. specialize (Ee [] (fr_old f ++ fr_gap f)). change (zlen []) with 0 in Ee. cbn [app] in Ee. unfold plain_img, frag_img.
    rewrite <- !app_assoc. rewrite Ee. by rewrite <- !app_assoc. }
  exists (crypt ++ mic). split_and!; [rewrite zlen_app; unfold zlen; rewrite Lc; unfold zlen in Lm; lia | exact Ei | |].
  - rewrite sw_encrypt_suite by done. fold s. rewrite u32_small by (unfold is_u32; lia).
    unfold plain_img, frag_img. rewrite <- !app_assoc, Ee, copy_back_frame by (unfold zlen in *; lia).
    rewrite Ei. by rewrite <- !app_assoc.
  - intros rpre rpost h. rewrite sw_decrypt_suite by done. fold s. rewrite zlen_app.
    rewrite u32_small by (unfold is_u32, zlen in *; lia). unfold h. rewrite <- !app_assoc.
    replace (zlen (fr_hdr f) + 8 + (zlen crypt + zlen mic) - zlen (fr_hdr f)) with (8 + zlen (fr_data f) + s_mic s)
      by (unfold zlen in *; lia).
    rewrite Ed. rewrite <- Lc, drop_app_length. done.
Qed.

(** Ciphertext and MIC of a fragment. *)
Definition sw_body (c : sw_cipher) (m : Z) (key : bytes) (key_len : Z) (f : txfrag) : bytes :=
  take (length (fr_data f) + Z.to_nat (s_mic (suite_of c m key_len)))
    (drop (length (fr_hdr f) + 8) (sw_img c m key key_len f)).

Lemma sw_body_spec c m key key_len f :
  suite_key key key_len -> frag_ready f -> zlen (fr_old f) = s_mic (suite_of c m key_len) ->
  let h := marked (suite_of c m key_len) (fr_hdr f) in
  sw_img c m key key_len f = h ++ fr_iv f ++ sw_body c m key key_len f ++ fr_gap f /\
  forall rpre rpost,
    sw_decrypt_frame c m key key_len (zlen (fr_hdr f)) (rpre ++ h ++ fr_iv f ++ sw_body c m key key_len f ++ rpost) (zlen rpre)
      (zlen (fr_hdr f) + 8 + zlen (sw_body c m key key_len f))
    = Ret (_SUCCESS, rpre ++ h ++ fr_iv f ++ fr_data f ++ drop (length (fr_data f)) (sw_body c m key key_len f) ++ rpost).
Proof.
  intros Hk Hr Lo h. pose proof (h_iv _ _ (proj1 Hr)) as Hiv.
  destruct (sw_img_spec c m key key_len f [] [] Hk Hr Lo) as (body & Lb & Ei & _ & Ed).
  assert (sw_body c m key key_len f = body) as ->; [|by split].
  unfold sw_body. rewrite Ei, app_assoc.
  rewrite drop_app_ge by (unfold zlen in *; rewrite length_app, marked_length; lia).
  replace (_ - length _)%nat with 0%nat by (unfold zlen in *; rewrite length_app, marked_length; lia).
  pose proof (zlen_nonneg (fr_old f)).
  rewrite drop_0, take_app_le, take_ge by (unfold zlen in *; lia). done.
Qed.

Lemma sw_frag_cipher c m key key_len a frag_len :
  suite_key key key_len ->
  FragCipher a frag_len (Z.to_nat (s_mic (suite_of c m key_len))) (sw_img c m key key_len)
    (fun cur mem pframe =>
       r ← sw_encrypt c m key key_len (tx_hdrlen a) mem pframe (u32 (frag_payload a frag_len cur)); Ret (snd (r : Z * bytes)))
    frag_ready.
Proof.
  intros Hk. pose proof (so_mic (SuiteOk := suite_of_ok c m key key_len Hk)) as Hm. split.
  - intros cur pre f post (Hh & _ & Ho & Hd) Hr.
    destruct (sw_img_spec c m key key_len f pre post Hk Hr) as (body & _ & _ & Ee & _); [unfold zlen; lia|].
    destruct Hr as (_ & _ & Hsz). pose proof (zlen_nonneg (fr_hdr f)). pose proof (zlen_nonneg (fr_data f)).
    rewrite <- Hh, <- Hd, u32_small by (unfold is_u32; lia). by rewrite Ee, bind_Ret.
  - intros cur f (Hh & _ & Ho & Hd) Hr.
    destruct (sw_img_spec c m key key_len f [] [] Hk Hr) as (body & Lb & Ei & _); [unfold zlen; lia|].
    rewrite Ei. unfold plain_img, frag_img. rewrite !zlen_app, Lb. unfold zlen. rewrite marked_length. lia.
Qed.

Lemma frags_old a frag_len buf_addr mic pos cur fs f :
  0 <= mic -> frags_ok a frag_len buf_addr (Z.to_nat mic) pos cur fs -> f ∈ fs -> zlen (fr_old f) = mic.
Proof.
  intros H0. revert pos cur. induction fs as [|g fs IH]; intros pos cur Hok Hf; [by apply not_elem_of_nil in Hf|].
  destruct Hok as ((_ & _ & Ho & _) & _ & Hok). apply elem_of_cons in Hf as [->|Hf]; [unfold zlen; lia | by eapply IH].
Qed.

(** The station of the transmitter is known and has the key. *)
Definition rx_has_key (s : rxs) (key : bytes) : Prop :=
  exists i, get_sta s (ta (att s)) = Some i /\ dot118021x_UncstKey (sta_entry s i) = key.

Lemma sw_rx_eq c m key_len s key :
  key_len = 16 \/ key_len = 32 -> encrypt (att s) = enc_code c key_len -> IS_MCAST (ra (att s)) = false -> rx_has_key s key ->
  sw_rx c m s = (r ← sw_decrypt_frame c m key key_len (hdrlen (att s)) (rx_mem (frm s)) (rx_data (frm s)) (len (frm s));
                 Ret (fst (r : Z * bytes), set_mem (frm s) (snd r))).
Proof.
  intros Hk He Hm (i & Hi & <-). destruct c, Hk as [-> | ->]; cbn [sw_rx]; unfold rtw_aes_decrypt, rtw_gcmp_decrypt, suite_rx;
    rewrite He, Hi, Hm; reflexivity.
Qed.

(** C40: A unicast frame of any number of fragments encrypted by
    [rtw_aes_encrypt] or [rtw_gcmp_encrypt], with a 128 or 256 bit key, is
    changed in place, fragment by fragment, to protected header, IV,
    ciphertext and MIC; [rtw_aes_decrypt] or [rtw_gcmp_decrypt] of a received
    fragment, with the same key at the transmitter's station, succeeds and
    puts back the payload. *)
Theorem aead_frames_roundtrip c m key_len s a frag_len buf_addr pre fs post :
  suite_key (tx_UncstKey a) key_len -> tx_encrypt a = enc_code c key_len -> IS_MCAST (tx_ra a) = false ->
  nr_frags a = zlen fs ->
  frags_ok a frag_len buf_addr (Z.to_nat (s_mic (suite_of c m key_len))) (zlen pre) 0 fs -> Forall frag_ready fs ->
  exists body,
    let h f := marked (suite_of c m key_len) (fr_hdr f) in
    sw_tx c m s a frag_len buf_addr (zlen pre) (Some (pre ++ concat (map plain_img fs) ++ post))
    = Ret (_SUCCESS, Some (pre ++ concat (map (fun f => h f ++ fr_iv f ++ body f ++ fr_gap f) fs) ++ post)) /\
    forall f s' rpre rpost, f ∈ fs ->
      holds (frm s') (h f) (fr_iv f) (body f) rpre rpost -> encrypt (att s') = enc_code c key_len ->
      IS_MCAST (ra (att s')) = false -> rx_has_key s' (tx_UncstKey a) ->
      sw_rx c m s'
      = Ret (_SUCCESS, set_mem (frm s') (rpre ++ h f ++ fr_iv f ++ fr_data f ++ drop (length (fr_data f)) (body f) ++ rpost)).
Proof.
  intros Hk He Hm Hn Hfs Hr. exists (sw_body c m (tx_UncstKey a) key_len). cbv zeta.
  assert (forall f, f ∈ fs -> frag_ready f /\ zlen (fr_old f) = s_mic (suite_of c m key_len)) as Fs.
  { intros f Hf. split; [by apply (proj1 (Forall_forall _ _) Hr)|]. by apply (frags_old a frag_len buf_addr _ (zlen pre) 0 fs);
      [apply (so_mic (SuiteOk := suite_of_ok c m _ key_len Hk)) | |]. }
  split.
  - rewrite (sw_tx_eq c m key_len) by (done || apply Hk).
    replace (Z.to_nat (nr_frags a)) with (length fs) by (rewrite Hn; unfold zlen; lia).
    pose proof (sw_frag_cipher c m (tx_UncstKey a) key_len a frag_len Hk).
    rewrite (encrypt_frags_spec a frag_len buf_addr _ _ _ fs 0 pre post Hfs Hr), bind_Ret.
    erewrite (map_ext_Forall (sw_img c m (tx_UncstKey a) key_len)); [done|].
    apply Forall_forall. intros f Hf. destruct (Fs f Hf) as [Hrf Lo]. by apply sw_body_spec.
  - intros f s' rpre rpost Hf (Hmem & Hdata & Hlen & Hhl & Hil) He' Hm' Hkey. destruct (Fs f Hf) as [Hrf Lo].
    rewrite (sw_rx_eq c m key_len s' _ (proj1 Hk) He' Hm' Hkey). unfold att in *.
    rewrite Hmem, Hdata, Hlen, Hhl, (h_iv _ _ (proj1 Hrf)).
    replace (zlen (marked (suite_of c m key_len) (fr_hdr f))) with (zlen (fr_hdr f)) by (unfold zlen; by rewrite marked_length).
    destruct (sw_body_spec c m _ key_len f Hk Hrf Lo) as [_ Ed]. by rewrite Ed, bind_Ret.
Qed.

(** *** A frame of two fragments *)

Definition ex_tx_attr : pkt_attrib :=
  mk_pkt _AES_ 24 8 8 2 (24 + 8 + 3 + 8) (replicate 6 2) (replicate 6 4) (map Z.of_nat (seq 0 16)).

Definition ex_tx_frags : list txfrag :=
  [mk_txfrag (0x08 :: replicate 23 1) [1; 0; 0; 32; 0; 0; 0; 0] [1; 2; 3; 4; 5] (replicate 8 0) (replicate 3 0);
   mk_txfrag (0x08 :: replicate 23 1) [2; 0; 0; 32; 0; 0; 0; 0] [6; 7; 8] (replicate 8 0) []].

(** A decidable claim, by evaluation. *)
Ltac by_eval := apply (bool_decide_unpack _); vm_compute; exact I.

Lemma ex_tx_key : suite_key (tx_UncstKey ex_tx_attr) 16.
Proof. split; [by left|]. split; [done|]. by_eval. Qed.

Lemma ex_tx_ready : Forall frag_ready ex_tx_frags.
Proof.
  repeat apply Forall_cons_2; [| |by apply Forall_nil_2];
    (split; [split; [vm_compute; discriminate | by_eval | done | by_eval]|]; split; [by_eval | done]).
Qed.

Lemma aead_frames_roundtrip_witness :
  exists body,
    sw_tx CCMP 0 ex_sec ex_tx_attr 45 4096 0 (Some ([] ++ concat (map plain_img ex_tx_frags) ++ []))
    = Ret (_SUCCESS, Some ([] ++ concat (map (fun f => set_iswep (fr_hdr f) ++ fr_iv f ++ body f ++ fr_gap f) ex_tx_frags) ++ [])).
Proof.
  destruct (aead_frames_roundtrip CCMP 0 16 ex_sec ex_tx_attr 45 4096 [] ex_tx_frags []) as (body & H & _);
    [exact ex_tx_key | reflexivity | reflexivity | reflexivity | vm_compute; repeat split; congruence | exact ex_tx_ready | by exists body].
Defined.

(** A received protected frame: the one of a GCMP transmission of three bytes. *)
Definition ex_gcmp_hdr : bytes := 0x08 :: 0x41 :: replicate 22 1.
Definition ex_gcmp_body : bytes :=
  [13; 1; 70; 159; 50; 131; 28; 83; 135; 240; 126; 109; 56; 207; 70; 5; 34; 60; 250].

Lemma aead_accepts_only_sealed_witness :
  let mem := [] ++ ex_gcmp_hdr ++ replicate 8 2 ++ take 3 ex_gcmp_body ++ drop 3 ex_gcmp_body ++ [] in
  exists data, length data = 3%nat /\
    sw_decrypt_frame GCMP 0 (replicate 16 7) 16 24 mem 0 (24 + 8 + 3 + 16)
    = Ret (_SUCCESS, [] ++ ex_gcmp_hdr ++ replicate 8 2 ++ data ++ drop 3 ex_gcmp_body ++ []).
Proof.
  destruct (aead_accepts_only_sealed GCMP 0 (replicate 16 7) 16 ex_gcmp_hdr (replicate 8 2)
              (take 3 ex_gcmp_body) (drop 3 ex_gcmp_body) [] []) as [H | (data & L & H & _)].
  - split; [by left|]. split; [done|]. by_eval.
  - split; [vm_compute; discriminate | by_eval | done | by_eval].
  - reflexivity.
  - by_eval.
  - reflexivity.
  - reflexivity.
  - exfalso. revert H. vm_compute. discriminate.
  - exists data. split; [exact L | exact H].
Defined.
