(* ===== verification/MgmtProtect.v ===== *)
(** * Management frame protection (802.11w)

    Receive side: [rtw_bip_verify] of core/rtw_security.c and
    [validate_mgmt_protect], [validate_recv_mgnt_frame] of core/rtw_recv.c.
    Transmit side: [rtw_mgmt_xmitframe_coalesce] and [xmitframe_swencrypt] of
    core/rtw_xmit.c.  Group-addressed robust frames carry a Management MIC
    element (BIP, with CMAC or GMAC), unicast ones are encrypted with the
    pairwise key.

    [rtw_zmalloc] may fail: [alloc] tells for which sizes it succeeds. *)

From S2P Require Import Prelude RxFrame Reorder StaMgt SwCrypt RxCheck Defrag Ie Aes CipherModes Ccmp Cmac.
From Stdlib Require Import Sorted.
Import Fips Sp800_38b.

(** ** Constants *)

Definition _BIP_CMAC_128_ : Z := 0x20.
Definition _BIP_GMAC_128_ : Z := 0x21.
Definition _BIP_GMAC_256_ : Z := 0x22.
Definition _BIP_CMAC_256_ : Z := 0x23.
Definition _MME_IE_ : Z := 76.
Definition BIP_AAD_SIZE : Z := 20.
Definition _MME_IE_LENGTH_ : Z := 26.
Definition WLAN_STA_MFP : Z := BIT 10.
Definition WIFI_DISASSOC : Z := Z.lor (Z.lor (BIT 7) (BIT 5)) WIFI_MGT_TYPE.
Definition WIFI_DEAUTH : Z := Z.lor (Z.lor (BIT 7) (BIT 6)) WIFI_MGT_TYPE.
Definition WIFI_ACTION : Z := Z.lor (Z.lor (Z.lor (BIT 7) (BIT 6)) (BIT 4)) WIFI_MGT_TYPE.

Definition CATEGORY_IS_GROUP_PRIVACY (cat : Z) : bool := (cat =? 13) || (cat =? 14).
Definition CATEGORY_IS_NON_ROBUST (cat : Z) : bool :=
  (cat =? 4) || (cat =? 7) || (cat =? 11) || (cat =? 15) || (cat =? 21) || (cat =? 0x7f).
Definition CATEGORY_IS_ROBUST (cat : Z) : bool := negb (CATEGORY_IS_NON_ROBUST cat).

(** ** The MIC *)

Definition _bip_ccmp_protect (key : bytes) (key_len : Z) (data : bytes) : res (option bytes) :=
  if key_len =? 16 then omac1_aes_128 key data
  else if key_len =? 32 then omac1_aes_256 key data
  else Ret None.

(** The nonce is address 2 and the packet number of the MIC element, which
    lies in front of the MIC at the end of the frame. *)
Definition _bip_gcmp_protect (mem : bytes) (whdr_pos len : Z) (key : bytes) (key_len : Z) (data : bytes) : res (option bytes) :=
  ipn ← rd_slice mem (whdr_pos + len - 16 - 6) 6;
  a2 ← rd_slice mem (whdr_pos + 10) 6;
  aes_gmac key key_len (a2 ++ rev ipn) data.

Definition rtw_calculate_bip_mic (gmcs : Z) (mem : bytes) (whdr_pos len : Z) (key data : bytes) : res (option bytes) :=
  if gmcs =? _BIP_CMAC_128_ then _bip_ccmp_protect key 16 data
  else if gmcs =? _BIP_CMAC_256_ then _bip_ccmp_protect key 32 data
  else if gmcs =? _BIP_GMAC_128_ then _bip_gcmp_protect mem whdr_pos len key 16 data
  else if gmcs =? _BIP_GMAC_256_ then _bip_gcmp_protect mem whdr_pos len key 32 data
  else Ret None.

(** [ClearRetry], [ClearPwrMgt], [ClearMData] *)
Definition bip_fc (fc : Z) : Z := Z.land fc (u16 (Z.lnot (Z.lor (Z.lor 0x0800 0x1000) 0x2000))).

(** Frame control and addresses 1 to 3. *)
Definition bip_aad (mem : bytes) (whdr_pos : Z) : res bytes :=
  fc ← le16_get mem whdr_pos;
  addrs ← rd_slice mem (whdr_pos + 4) 18;
  Ret (put_le16 (bip_fc fc) ++ addrs).

Section MgmtProtect.
Context (alloc : Z -> bool).

(** Return value and the receive packet number. *)
Definition rtw_bip_verify (gmcs pkt_len : Z) (mem : bytes) (whdr_pos flen : Z) (key : bytes) (keyid ipn : Z) : res (Z * Z) :=
  let mic_len := if gmcs =? _BIP_CMAC_128_ then 8 else 16 in
  if (flen <? WLAN_HDR_A3_LEN) || (flen - WLAN_HDR_A3_LEN <? mic_len) then Ret (RTW_RX_HANDLED, ipn)
  else
    let mme_offset := if mic_len =? 8 then 18 else 26 in
    let mme := whdr_pos + flen - mme_offset in
    id ← rd mem mme;
    if negb (id =? _MME_IE_) then Ret (RTW_RX_HANDLED, ipn)
    else
      pkt_keyid ← le16_get mem (mme + 2);
      if negb (pkt_keyid =? keyid) then Ret (_FAIL, ipn)
      else
        pn ← rd_slice mem (mme + 4) 6;
        let pkt_ipn := le_combine pn in
        if pkt_ipn <=? ipn then Ret (_FAIL, ipn)
        else
          let ori_len := u32 (flen - WLAN_HDR_A3_LEN + BIP_AAD_SIZE) in
          if negb (alloc ori_len) then Ret (_FAIL, ipn)
          else
            body ← rd_slice mem (whdr_pos + WLAN_HDR_A3_LEN) (flen - WLAN_HDR_A3_LEN - mic_len);
            aad ← bip_aad mem whdr_pos;
            r ← rtw_calculate_bip_mic gmcs mem whdr_pos pkt_len key (aad ++ body ++ replicate (Z.to_nat mic_len) 0);
            match (r : option bytes) with
            | None => Ret (_FAIL, ipn)
            | Some mic =>
                ok ← rtw_memcmp mem (whdr_pos + flen - mic_len) (take (Z.to_nat mic_len) mic);
                Ret (if (ok : bool) then (_SUCCESS, pkt_ipn) else (_FAIL, ipn))
            end.

(** ** Reception *)

(** The integrity group key of [struct security_priv] and its counters. *)
Record bip_priv := mk_bip {
  binstallBIPkey : bool;
  dot11wCipher : Z;
  dot11wBIPKeyid : Z;
  dot11wBIPKey : list bytes;
  dot11wBIPtxpn : Z;
  dot11wBIPrxpn : Z
}.

Definition set_rxpn (b : bip_priv) (v : Z) : bip_priv :=
  mk_bip (binstallBIPkey b) (dot11wCipher b) (dot11wBIPKeyid b) (dot11wBIPKey b) (dot11wBIPtxpn b) v.
Definition set_txpn (b : bip_priv) (v : Z) : bip_priv :=
  mk_bip (binstallBIPkey b) (dot11wCipher b) (dot11wBIPKeyid b) (dot11wBIPKey b) v (dot11wBIPrxpn b).

(** The state of a reception: [pkt_len] is that of the frame's attributes,
    [bpairwise_key_installed] that of the station entries. *)
Record mgrx := mk_mgrx { rx : rxs; bip : bip_priv; pkt_len : Z; bpairwise_key_installed : nat -> bool }.

Definition with_rx (s : mgrx) (r : rxs) : mgrx := mk_mgrx r (bip s) (pkt_len s) (bpairwise_key_installed s).
Definition with_bip (s : mgrx) (b : bip_priv) : mgrx := mk_mgrx (rx s) b (pkt_len s) (bpairwise_key_installed s).
Definition with_pkt_len (s : mgrx) (l : Z) : mgrx := mk_mgrx (rx s) (bip s) l (bpairwise_key_installed s).

Context (decryptor : rxs -> res (option rxs)).

Definition set_hdrlen (a : rx_pkt_attrib) (l : Z) : rx_pkt_attrib :=
  set_qos_fields a (priority a) (ack_policy a) l.

(** The label [bip_verify]. *)
Definition bip_check (s : mgrx) : res (Z * mgrx) :=
  let b := bip s in
  let f := frm (rx s) in
  r ← rtw_bip_verify (dot11wCipher b) (pkt_len s) (rx_mem f) (rx_data f) (len f)
        (key_at (dot11wBIPKey b) (dot11wBIPKeyid b)) (u16 (dot11wBIPKeyid b)) (dot11wBIPrxpn b);
  let s := with_bip s (set_rxpn b (snd (r : Z * Z))) in
  Ret (if (fst r =? _FAIL) || (fst r =? RTW_RX_HANDLED) then _FAIL else _SUCCESS, s).

(** Decryption in place: the body moves over the IV.  The buffer of a frame
    that fails to decrypt is not looked at again. *)
Definition mgmt_decrypt (s : mgrx) (i : nat) : res (Z * mgrx) :=
  let f := frm (rx s) in
  let ptr := rx_data f in
  let e := dot118021XPrivacy (sta_entry (rx s) i) in
  let '(ivl, icvl) := SET_ICE_IV_LEN e in
  a1 ← Addr1 f;
  a2 ← addr2 f;
  let a := set_hdrlen (set_bdecrypted (att (rx s)) 0) 24 in
  let a := set_cipher a e ivl icvl in
  let a := set_addrs a a1 a2 (dst a) (src a) (bssid a) in
  let s := with_rx s (with_att (rx s) a) in
  let data_len := u32 (pkt_len s - 24 - ivl - icvl) in
  if negb (alloc data_len) then Ret (_FAIL, s)
  else
    r ← decryptor (rx s);
    match (r : option rxs) with
    | None =>
        body ← rd_slice (rx_mem f) (ptr + 24 + ivl) data_len;
        _ ← wr_slice (rx_mem f) (ptr + 24) body;
        Ret (_FAIL, with_pkt_len s (u16 (pkt_len s - ivl - icvl)))
    | Some d =>
        let mem := rx_mem (frm d) in
        body ← rd_slice mem (ptr + 24 + ivl) data_len;
        mem ← wr_slice mem (ptr + 24) body;
        Ret (_SUCCESS, with_pkt_len (with_rx s (with_frm d (set_mem (frm d) mem))) (u16 (pkt_len s - ivl - icvl)))
    end.

Definition validate_mgmt_protect (s : mgrx) (psta : option nat) : res (Z * mgrx) :=
  if negb (binstallBIPkey (bip s)) then Ret (_SUCCESS, s)
  else
    let f := frm (rx s) in
    fc ← hdr16 f 0;
    let subtype := get_frame_sub_type fc in
    a1 ← Addr1 f;
    let is_bmc := IS_MCAST a1 in
    let mfp i := bit_test (sta_flags (sta_entry (rx s) i)) WLAN_STA_MFP in
    let deauth := (subtype =? WIFI_DEAUTH) || (subtype =? WIFI_DISASSOC) in
    if privacy (att (rx s)) =? 0 then
      match psta with
      | None => Ret (_SUCCESS, s)
      | Some i =>
          if negb (mfp i) then Ret (_SUCCESS, s)
          else
            category ← (if subtype =? WIFI_ACTION then rd (rx_mem f) (rx_data f + 24) else Ret 0xFF);
            if is_bmc then
              if (subtype =? WIFI_ACTION) && CATEGORY_IS_GROUP_PRIVACY category then Ret (_FAIL, s)
              else if (subtype =? WIFI_ACTION) && CATEGORY_IS_ROBUST category then bip_check s
              else if deauth then bip_check s
              else Ret (_SUCCESS, s)
            else if deauth then
              reason ← hdr16 f WLAN_HDR_A3_LEN;
              Ret (_FAIL, if (reason =? 6) || (reason =? 7)
                          then with_rx s (call (rx s) (issue_action_SA_Query (mac_addr (sta_entry (rx s) i)))) else s)
            else if (subtype =? WIFI_ACTION) && CATEGORY_IS_ROBUST category && bpairwise_key_installed s i then Ret (_FAIL, s)
            else Ret (_SUCCESS, s)
      end
    else
      match psta with
      | None => Ret (_FAIL, s)
      | Some i => if negb (mfp i) then Ret (_FAIL, s) else mgmt_decrypt s i
      end.

(** The statistics are left out. *)
Definition validate_recv_mgnt_frame (s : mgrx) : res (Z * mgrx) :=
  a2 ← addr2 (frm (rx s));
  r ← validate_mgmt_protect s (get_sta (rx s) a2);
  let s := snd (r : Z * mgrx) in
  if fst r =? _FAIL then Ret (_SUCCESS, s)
  else
    d ← recvframe_chk_defrag (rx s);
    match fst (d : option recv_frame * rxs) with
    | None => Ret (_SUCCESS, with_rx s (snd d))
    | Some f => Ret (_SUCCESS, with_rx s (call (with_frm (snd d) f) (mgt_dispatcher (rx_mem f) (rx_data f) (pkt_len s))))
    end.

(** ** Transmission *)

Definition IEEE80211W_WRONG_KEY : Z := 1.
Definition IEEE80211W_NO_KEY : Z := 2.
Definition _SEC_TYPE_256_ : Z := 0x10.

(** The attributes of an outgoing management frame. *)
Record mgmt_attrib := mk_matt {
  pa : pkt_attrib;
  pktlen : Z;
  key_type : Z;
  bswenc : bool;
  tx_psta : option nat;
  tx_icv : bytes
}.

(** The state of a transmission; [dot11txpn] are the packet numbers of the
    station entries, the frame starts at [TXDESC_OFFSET] of the buffer. *)
Record mgtx := mk_mgtx {
  tx_adp : adapter;
  tx_bip : bip_priv;
  tx_pairwise : nat -> bool;
  dot11txpn : list Z;
  tx_att : mgmt_attrib;
  tx_buf : option bytes
}.

Definition set_tx_att (s : mgtx) (a : mgmt_attrib) : mgtx :=
  mk_mgtx (tx_adp s) (tx_bip s) (tx_pairwise s) (dot11txpn s) a (tx_buf s).
Definition set_tx_buf (s : mgtx) (m : bytes) : mgtx :=
  mk_mgtx (tx_adp s) (tx_bip s) (tx_pairwise s) (dot11txpn s) (tx_att s) (Some m).
Definition set_tx_bip (s : mgtx) (b : bip_priv) : mgtx :=
  mk_mgtx (tx_adp s) b (tx_pairwise s) (dot11txpn s) (tx_att s) (tx_buf s).
Definition set_pns (s : mgtx) (l : list Z) : mgtx :=
  mk_mgtx (tx_adp s) (tx_bip s) (tx_pairwise s) l (tx_att s) (tx_buf s).

Definition set_tx_psta (a : mgmt_attrib) (p : option nat) : mgmt_attrib :=
  mk_matt (pa a) (pktlen a) (key_type a) (bswenc a) p (tx_icv a).
Definition set_pktlen (a : mgmt_attrib) (l : Z) : mgmt_attrib :=
  mk_matt (mk_pkt (tx_encrypt (pa a)) (tx_hdrlen (pa a)) (tx_iv_len (pa a)) (tx_icv_len (pa a)) (nr_frags (pa a)) l
             (tx_ra (pa a)) (tx_ta (pa a)) (tx_UncstKey (pa a)))
    l (key_type a) (bswenc a) (tx_psta a) (tx_icv a).
Definition set_tx_key (a : mgmt_attrib) (k : bytes) : mgmt_attrib :=
  mk_matt (mk_pkt (tx_encrypt (pa a)) (tx_hdrlen (pa a)) (tx_iv_len (pa a)) (tx_icv_len (pa a)) (nr_frags (pa a)) (last_txcmdsz (pa a))
             (tx_ra (pa a)) (tx_ta (pa a)) k)
    (pktlen a) (key_type a) (bswenc a) (tx_psta a) (tx_icv a).
Definition set_tx_cipher (a : mgmt_attrib) (e : Z) : mgmt_attrib :=
  mk_matt (mk_pkt e (tx_hdrlen (pa a)) (tx_iv_len (pa a)) (tx_icv_len (pa a)) (nr_frags (pa a)) (last_txcmdsz (pa a))
             (tx_ra (pa a)) (tx_ta (pa a)) (tx_UncstKey (pa a)))
    (pktlen a) (key_type a) true (tx_psta a) (tx_icv a).
Definition set_tx_ivs (a : mgmt_attrib) (iv icv : Z) : mgmt_attrib :=
  mk_matt (mk_pkt (tx_encrypt (pa a)) (tx_hdrlen (pa a)) iv icv (nr_frags (pa a)) (last_txcmdsz (pa a))
             (tx_ra (pa a)) (tx_ta (pa a)) (tx_UncstKey (pa a)))
    (pktlen a) (key_type a) (bswenc a) (tx_psta a) (tx_icv a).

(** [AES_IV] and [GCMP_IV]: the next packet number and the IV field. *)
Definition next_pn (val : Z) : Z := if val =? 0xffffffffffff then 0 else val + 1.
Definition AES_IV (pn keyidx : Z) : bytes :=
  let b := le_split 6 pn in
  [znth b 0; znth b 1; 0; u8 (Z.lor (BIT 5) (Z.shiftl (Z.land keyidx 3) 6)); znth b 2; znth b 3; znth b 4; znth b 5].

Context (amsdu_mode frag_len buf_addr TXDESC_OFFSET : Z).

(** Only [_WEP40_], [_WEP104_], [_TKIP_], [_AES_], [_CCMP_256_], [_GCMP_] and
    [_GCMP_256_] are encrypted; return values are not looked at. *)
Definition xmitframe_swencrypt (x : security_priv) (a : mgmt_attrib) (buf : option bytes) : res (option bytes) :=
  let e := tx_encrypt (pa a) in
  if negb (bswenc a) then Ret buf
  else if (e =? _WEP40_) || (e =? _WEP104_) then rtw_wep_encrypt x (pa a) frag_len buf_addr TXDESC_OFFSET buf
  else if e =? _TKIP_ then
    r ← rtw_tkip_encrypt x (pa a) frag_len buf_addr TXDESC_OFFSET buf; Ret (snd (r : Z * option bytes))
  else if (e =? _AES_) || (e =? _CCMP_256_) then
    r ← rtw_aes_encrypt amsdu_mode x (pa a) frag_len buf_addr TXDESC_OFFSET buf; Ret (snd (r : Z * option bytes))
  else if (e =? _GCMP_) || (e =? _GCMP_256_) then
    r ← rtw_gcmp_encrypt amsdu_mode x (pa a) frag_len buf_addr TXDESC_OFFSET buf; Ret (snd (r : Z * option bytes))
  else Ret buf.

(** The broadcast branch with BIP: the MIC element is appended. *)
Definition coalesce_bip (s : mgtx) (mem : bytes) : res (Z * mgtx) :=
  let b := tx_bip s in
  let a := tx_att s in
  let off := TXDESC_OFFSET in
  let mme_clen := if dot11wCipher b =? _BIP_CMAC_128_ then 16 else 24 in
  let txpn := u64 (dot11wBIPtxpn b + 1) in
  let s := set_tx_bip s (set_txpn b txpn) in
  let mme_cont := [u8 (dot11wBIPKeyid b); 0] ++ le_split 8 txpn ++ replicate 14 0 in
  r ← rtw_set_ie mem (off + pktlen a) _MME_IE_ mme_clen mme_cont (pktlen a);
  let '(mem, pframe, l) := (r : bytes * Z * Z) in
  let s := set_tx_buf (set_tx_att s (set_pktlen a l)) mem in
  aad ← bip_aad mem off;
  body ← rd_slice mem (off + 24) (l - 24);
  r ← rtw_calculate_bip_mic (dot11wCipher b) mem off l (key_at (dot11wBIPKey b) (dot11wBIPKeyid b)) (aad ++ body);
  match (r : option bytes) with
  | None => Ret (_FAIL, s)
  | Some mic =>
      let n := if dot11wCipher b =? _BIP_CMAC_128_ then 8 else 16 in
      mem ← wr_slice mem (pframe - n) (take (Z.to_nat n) mic);
      Ret (_SUCCESS, set_tx_buf s mem)
  end.

(** Encryption with the packet number of entry [i]. *)
Definition coalesce_encrypt (s : mgtx) (mem : bytes) (i : nat) (cipher kid : Z) : res (Z * mgtx) :=
  let a := tx_att s in
  let off := TXDESC_OFFSET in
  let hl := tx_hdrlen (pa a) in
  tmp ← rd_slice mem off (pktlen a);
  let a := if key_type a =? IEEE80211W_NO_KEY then a else set_tx_cipher a cipher in
  let e := tx_encrypt (pa a) in
  if negb ((e =? _AES_) || (e =? _CCMP_256_) || (e =? _GCMP_) || (e =? _GCMP_256_)) then Ret (_FAIL, set_tx_att s a)
  else
    let a := set_tx_ivs a 8 (if e =? _AES_ then 8 else 16) in
    let pn := next_pn (nth i (dot11txpn s) 0) in
    let s := set_pns s (<[i := pn]> (dot11txpn s)) in
    mem ← wr_slice mem (off + hl) (AES_IV pn kid);
    mem ← wr_slice mem (off + hl + 8) (drop (Z.to_nat hl) tmp);
    let l := u32 (pktlen a + 8) in
    let icvl := tx_icv_len (pa a) in
    mem ← (if bswenc a then wr_slice mem (off + l) (take (Z.to_nat icvl) (tx_icv a)) else Ret mem);
    let a := set_pktlen a (u32 (l + icvl)) in
    b1 ← rd mem (off + 1);
    mem ← wr mem (off + 1) (Z.lor b1 0x40);
    o ← xmitframe_swencrypt (keys (securitypriv (tx_adp s))) a (Some mem);
    Ret (_SUCCESS, mk_mgtx (tx_adp s) (tx_bip s) (tx_pairwise s) (dot11txpn s) a o).

Definition tx_entry (s : mgtx) (i : nat) : sta_info := default _rtw_init_stainfo (stainfo_buf (stapriv (tx_adp s)) !! i).

(** [psta = pattrib->psta] if set, else the looked-up entry, which is stored. *)
Definition tx_sta (s : mgtx) (found : option nat) : option nat * mgtx :=
  match tx_psta (tx_att s) with
  | Some i => (Some i, s)
  | None => (found, set_tx_att s (set_tx_psta (tx_att s) found))
  end.

Definition rtw_mgmt_xmitframe_coalesce (s : mgtx) : res (Z * mgtx) :=
  match tx_buf s with
  | None => Ret (_FAIL, s)
  | Some mem =>
      let off := TXDESC_OFFSET in
      let bmcst := IS_MCAST (tx_ra (pa (tx_att s))) in
      fc ← le16_get mem off;
      let subtype := get_frame_sub_type fc in
      if negb (subtype =? WIFI_DEAUTH) && negb (subtype =? WIFI_DISASSOC) && negb (subtype =? WIFI_ACTION) then Ret (_SUCCESS, s)
      else
        category ← (if subtype =? WIFI_ACTION then rd mem (off + 24) else Ret 0xFF);
        if (subtype =? WIFI_ACTION) && CATEGORY_IS_NON_ROBUST category then Ret (_SUCCESS, s)
        else
          let ori_len := u32 (BIP_AAD_SIZE + pktlen (tx_att s) + _MME_IE_LENGTH_) in
          if bmcst then
            if negb (alloc ori_len) then Ret (_FAIL, s)
            else if (subtype =? WIFI_ACTION) && CATEGORY_IS_GROUP_PRIVACY category then
              let '(psta, s) := tx_sta s (rtw_get_bcmc_stainfo (stapriv (tx_adp s))) in
              match psta with
              | None => Ret (_FAIL, s)
              | Some i =>
                  let x := securitypriv (tx_adp s) in
                  if negb (binstallGrpkey (keys x)) then Ret (_FAIL, s)
                  else coalesce_encrypt s mem i (dot118021XGrpPrivacy x) (u8 (dot118021XGrpKeyid (keys x)))
              end
            else if negb (binstallBIPkey (tx_bip s)) then Ret (_SUCCESS, s)
            else coalesce_bip s mem
          else
            let '(psta, s) := tx_sta s (rtw_get_stainfo (stapriv (tx_adp s)) (Some (tx_ra (pa (tx_att s))))) in
            match psta with
            | None => Ret (_FAIL, s)
            | Some i =>
                let e := tx_entry s i in
                if negb (bit_test (sta_flags e) WLAN_STA_MFP) then Ret (_SUCCESS, s)
                else if negb (tx_pairwise s i) then Ret (_FAIL, s)
                else if negb (alloc ori_len) then Ret (_FAIL, s)
                else
                  let cipher := dot118021XPrivacy e in
                  let a := tx_att s in
                  let n := if bit_test cipher _SEC_TYPE_256_ then 32%nat else 16%nat in
                  let k := take n (dot118021x_UncstKey e) ++ drop n (tx_UncstKey (pa a)) in
                  let k := if key_type a =? IEEE80211W_WRONG_KEY then <[0%nat := 0xff]> k else k in
                  coalesce_encrypt (set_tx_att s (set_tx_key a k)) mem i cipher 0
            end
  end.
End MgmtProtect.

(** ** The MIC of a frame *)

(** The MIC as a function of address 2, the packet number and the
    authenticated bytes. *)
Definition mic_of (gmcs : Z) (key a2 ipn data : bytes) : res (option bytes) :=
  if gmcs =? _BIP_CMAC_128_ then _bip_ccmp_protect key 16 data
  else if gmcs =? _BIP_CMAC_256_ then _bip_ccmp_protect key 32 data
  else if gmcs =? _BIP_GMAC_128_ then aes_gmac key 16 (a2 ++ rev ipn) data
  else if gmcs =? _BIP_GMAC_256_ then aes_gmac key 32 (a2 ++ rev ipn) data
  else Ret None.

(** A BIP cipher with a key of its length. *)
Definition bip_key (gmcs : Z) (key : bytes) : Prop :=
  ((gmcs = _BIP_CMAC_128_ \/ gmcs = _BIP_GMAC_128_) /\ suite_key key 16) \/
  ((gmcs = _BIP_CMAC_256_ \/ gmcs = _BIP_GMAC_256_) /\ suite_key key 32).

Definition bip_mic_len (gmcs : Z) : Z := if gmcs =? _BIP_CMAC_128_ then 8 else 16.

Lemma gmac_total key key_len iv aad :
  suite_key key key_len -> bytes_ok iv -> exists tag, length tag = 16%nat /\ aes_gmac key key_len iv aad = Ret (Some tag).
Proof.
  intros Hk Fi. destruct (aes_gcm_ae_spec key key_len iv aad [] Hk Fi) as (c & tag & _ & _ & L & E & _); [constructor|].
  exists tag. unfold zlen in L. split; [lia|]. unfold aes_gmac. by rewrite E, bind_Ret.
Qed.

Lemma mic_total gmcs key a2 ipn data :
  bip_key gmcs key -> bytes_ok a2 -> bytes_ok ipn -> bytes_ok data ->
  exists tag, length tag = 16%nat /\ mic_of gmcs key a2 ipn data = Ret (Some tag).
Proof.
  intros Hk F2 Fi Fd. assert (bytes_ok (a2 ++ rev ipn)) as Fn by (apply Forall_app_2; [done | by apply Forall_rev]).
  destruct Hk as [[[-> | ->] Hs] | [[-> | ->] Hs]].
  - exists (suite_mac key 16 data). split; [by apply suite_mac_length | by apply omac1_suite].
  - by apply gmac_total.
  - exists (suite_mac key 32 data). split; [by apply suite_mac_length | by apply omac1_suite].
  - by apply gmac_total.
Qed.

(** ** What a MIC element says *)

Definition slice (l : bytes) (i n : Z) : bytes := take (Z.to_nat n) (drop (Z.to_nat i) l).

(** Position of the MIC element of a frame, its key id and packet number. *)
Definition mme_at (gmcs : Z) (fr : bytes) : Z := zlen fr - bip_mic_len gmcs - 10.
Definition mme_keyid (gmcs : Z) (fr : bytes) : Z :=
  u16 (Z.lor (Z.shiftl (znth fr (mme_at gmcs fr + 3)) 8) (znth fr (mme_at gmcs fr + 2))).
Definition mme_pn (gmcs : Z) (fr : bytes) : Z := le_combine (slice fr (mme_at gmcs fr + 4) 6).

(** The bytes the MIC covers: masked frame control, addresses, body and
    element with the MIC zeroed. *)
Definition bip_data (gmcs : Z) (fr : bytes) : bytes :=
  (put_le16 (bip_fc (hdr_fc fr)) ++ slice fr 4 18) ++ slice fr 24 (zlen fr - 24 - bip_mic_len gmcs)
  ++ replicate (Z.to_nat (bip_mic_len gmcs)) 0.

(** The frame [fr] ends in a MIC element for the key [keyid] whose MIC is
    that of the frame. *)
Definition bip_authentic (gmcs : Z) (key : bytes) (keyid : Z) (fr : bytes) : bool :=
  (24 + bip_mic_len gmcs <=? zlen fr) && (znth fr (mme_at gmcs fr) =? _MME_IE_) && (mme_keyid gmcs fr =? keyid) &&
  match mic_of gmcs key (slice fr 10 6) (slice fr (mme_at gmcs fr + 4) 6) (bip_data gmcs fr) with
  | Ret (Some tag) => bool_decide (slice fr (zlen fr - bip_mic_len gmcs) (bip_mic_len gmcs) = take (Z.to_nat (bip_mic_len gmcs)) tag)
  | _ => false
  end.

Lemma region_rd_znth mem off fr k : region mem off fr -> 0 <= k < zlen fr -> rd mem (off + k) = Ret (znth fr k).
Proof.
  intros R H. rewrite (region_rd _ _ _ _ R H). destruct (rd_in_bounds fr k H) as (x & -> & Hx).
  unfold znth. by rewrite (nth_lookup_Some _ _ _ _ Hx).
Qed.

Lemma region_slice_eq mem off fr k n :
  region mem off fr -> 0 <= k -> 0 <= n -> k + n <= zlen fr -> rd_slice mem (off + k) n = Ret (slice fr k n).
Proof. intros R Hk Hn H. rewrite (region_slice _ _ _ _ _ R) by done. by rewrite rd_slice_ok. Qed.

Lemma region_le16_znth mem off fr k :
  region mem off fr -> 0 <= k -> k + 1 < zlen fr -> le16_get mem (off + k) = Ret (u16 (Z.lor (Z.shiftl (znth fr (k + 1)) 8) (znth fr k))).
Proof.
  intros R Hk H. unfold le16_get. rewrite <- Z.add_assoc, !(region_rd_znth _ _ _ _ R) by lia. by rewrite !bind_Ret.
Qed.

Lemma slice_ok l i n : bytes_ok l -> bytes_ok (slice l i n).
Proof. intros H. by apply Forall_take, Forall_drop. Qed.

Lemma slice_zlen l i n : 0 <= i -> 0 <= n -> i + n <= zlen l -> zlen (slice l i n) = n.
Proof. intros. unfold slice, zlen in *. rewrite length_take, length_drop. lia. Qed.

#[export] Hint Resolve slice_ok : rtw.

Lemma bip_mic_len_cases gmcs : bip_mic_len gmcs = 8 \/ bip_mic_len gmcs = 16.
Proof. unfold bip_mic_len. destruct (_ =? _); auto. Qed.

Lemma bip_aad_region mem off fr :
  region mem off fr -> 24 <= zlen fr -> bip_aad mem off = Ret (put_le16 (bip_fc (hdr_fc fr)) ++ slice fr 4 18).
Proof.
  intros R H. unfold bip_aad. rewrite <- (Z.add_0_r off) at 1.
  rewrite (region_le16_znth _ _ _ _ R), bind_Ret, (region_slice_eq _ _ _ _ _ R) by lia. by rewrite bind_Ret.
Qed.

Lemma calculate_region gmcs mem off fr key data :
  region mem off fr -> 24 + bip_mic_len gmcs <= zlen fr ->
  rtw_calculate_bip_mic gmcs mem off (zlen fr) key data
  = mic_of gmcs key (slice fr 10 6) (slice fr (mme_at gmcs fr + 4) 6) data.
Proof.
  intros R H. unfold rtw_calculate_bip_mic, mic_of, mme_at, bip_mic_len in *.
  destruct (gmcs =? _BIP_CMAC_128_); [done|]. destruct (gmcs =? _BIP_CMAC_256_); [done|].
  assert (forall n, _bip_gcmp_protect mem off (zlen fr) key n data
    = aes_gmac key n (slice fr 10 6 ++ rev (slice fr (zlen fr - 16 - 10 + 4) 6)) data) as G.
  { intros n. unfold _bip_gcmp_protect. replace (off + zlen fr - 16 - 6) with (off + (zlen fr - 16 - 10 + 4)) by lia.
    by rewrite !(region_slice_eq _ _ _ _ _ R), !bind_Ret by lia. }
  by rewrite !G.
Qed.

Lemma bip_data_ok gmcs fr : bytes_ok fr -> bytes_ok (bip_data gmcs fr).
Proof. intros F. unfold bip_data. byte_list. Qed.

(** The verification decides authenticity and freshness, and moves the
    packet number only when it accepts. *)
Lemma bip_verify_spec alloc gmcs mem off fr key keyid ipn :
  region mem off fr -> bytes_ok fr -> bip_key gmcs key ->
  exists x, (x = _FAIL \/ x = RTW_RX_HANDLED) /\
    rtw_bip_verify alloc gmcs (zlen fr) mem off (zlen fr) key keyid ipn
    = Ret (if bip_authentic gmcs key keyid fr && (ipn <? mme_pn gmcs fr) && alloc (u32 (zlen fr - 24 + 20))
           then (_SUCCESS, mme_pn gmcs fr) else (x, ipn)).
Proof.
  intros R F Hk. pose proof (bip_mic_len_cases gmcs) as Hn. unfold bip_authentic. destruct (Z.leb_spec (24 + bip_mic_len gmcs) (zlen fr)) as [L|L].
  2:{ exists RTW_RX_HANDLED. split; [by right|]. unfold rtw_bip_verify. fold (bip_mic_len gmcs). unfold WLAN_HDR_A3_LEN.
      destruct (Z.ltb_spec (zlen fr) 24); [done|]. destruct (Z.ltb_spec (zlen fr - 24) (bip_mic_len gmcs)); [done|lia]. }
  destruct (mic_total gmcs key (slice fr 10 6) (slice fr (mme_at gmcs fr + 4) 6) (bip_data gmcs fr) Hk) as (tag & Lt & Et);
    [auto using bip_data_ok with rtw..|].
  unfold rtw_bip_verify. fold (bip_mic_len gmcs). rewrite Et. unfold mme_pn, mme_keyid, mme_at in *.
  set (n := bip_mic_len gmcs) in *. unfold WLAN_HDR_A3_LEN, BIP_AAD_SIZE in *.
  destruct (Z.ltb_spec (zlen fr) 24); [lia|]. destruct (Z.ltb_spec (zlen fr - 24) n); [lia|]. cbn [orb]. cbv zeta.
  replace (off + zlen fr - (if n =? 8 then 18 else 26)) with (off + (zlen fr - n - 10)) by (destruct (Z.eqb_spec n 8); lia).
  rewrite (region_rd_znth _ _ _ _ R), bind_Ret by lia.
  destruct (Z.eqb_spec (znth fr (zlen fr - n - 10)) _MME_IE_); cbn [negb andb]; [|exists RTW_RX_HANDLED; auto].
  rewrite <- !Z.add_assoc, (region_le16_znth _ _ _ _ R), bind_Ret by lia. rewrite <- (Z.add_assoc _ 2 1). change (2 + 1) with 3.
  destruct (_ =? keyid); cbn [negb andb]; [|exists _FAIL; auto].
  rewrite (region_slice_eq _ _ _ (zlen fr - n - 10 + 4) 6 R), bind_Ret by lia.
  set (pn := le_combine _). destruct (Z.leb_spec pn ipn).
  { exists _FAIL. split; [by left|]. destruct (Z.ltb_spec ipn pn); [lia|]. by rewrite andb_false_r. }
  destruct (Z.ltb_spec ipn pn); [|lia]. rewrite andb_true_r.
  destruct (alloc _); cbn [negb]; [|exists _FAIL; split; [by left|]; by rewrite andb_false_r]. rewrite andb_true_r.
  rewrite (region_slice_eq _ _ _ _ _ R), bind_Ret, (bip_aad_region _ _ _ R), bind_Ret by lia.
  rewrite (calculate_region _ _ _ _ _ _ R) by lia. unfold mme_at. fold n. fold n in Et. unfold bip_data in Et. fold n in Et.
  rewrite Et, bind_Ret. unfold rtw_memcmp. rewrite length_take, Lt.
  replace (Z.of_nat (Z.to_nat n `min` 16)) with n by lia. replace (off + zlen fr - n) with (off + (zlen fr - n)) by lia.
  rewrite (region_slice_eq _ _ _ _ _ R), !bind_Ret by lia. exists _FAIL. split; [by left|]. by case_bool_decide.
Qed.

(** ** Unprotected management frames of a protected network *)

Section Accept.
Context (alloc : Z -> bool) (decryptor : rxs -> res (option rxs)).

Definition is_group (fr : bytes) : bool := IS_MCAST (slice fr 4 6).
Definition is_deauth (fr : bytes) : bool :=
  (get_frame_sub_type (hdr_fc fr) =? WIFI_DEAUTH) || (get_frame_sub_type (hdr_fc fr) =? WIFI_DISASSOC).
Definition is_action (fr : bytes) : bool := get_frame_sub_type (hdr_fc fr) =? WIFI_ACTION.
Definition is_robust (fr : bytes) : bool := is_deauth fr || (is_action fr && CATEGORY_IS_ROBUST (znth fr 24)).

(** Which frames are let through under the integrity key of [b]; [inst] tells
    whether the sender's pairwise key is installed. *)
Definition mgmt_accept (b : bip_priv) (inst : bool) (fr : bytes) : bool :=
  if is_group fr then
    negb (is_action fr && CATEGORY_IS_GROUP_PRIVACY (znth fr 24)) &&
    (negb (is_robust fr) ||
     bip_authentic (dot11wCipher b) (key_at (dot11wBIPKey b) (dot11wBIPKeyid b)) (u16 (dot11wBIPKeyid b)) fr
     && (dot11wBIPrxpn b <? mme_pn (dot11wCipher b) fr) && alloc (u32 (zlen fr - 24 + 20)))
  else negb (is_deauth fr) && negb (is_robust fr && inst).

(** The counter after the frame. *)
Definition mgmt_bip (b : bip_priv) (inst : bool) (fr : bytes) : bip_priv :=
  if mgmt_accept b inst fr && is_group fr && is_robust fr then set_rxpn b (mme_pn (dot11wCipher b) fr) else b.

(** The frame of [s] is [fr], unprotected, from the station [i] that
    negotiated management frame protection. *)
Record mgmt_frame (s : mgrx) (i : nat) (fr : bytes) : Prop := {
  mf_region : region (rx_mem (frm (rx s))) (rx_data (frm (rx s))) fr;
  mf_bytes : bytes_ok fr;
  mf_min : 26 <= zlen fr;
  mf_len : len (frm (rx s)) = zlen fr;
  mf_pkt : pkt_len s = zlen fr;
  mf_plain : privacy (att (rx s)) = 0;
  mf_mfp : bit_test (sta_flags (sta_entry (rx s) i)) WLAN_STA_MFP = true
}.

Record bip_ok (b : bip_priv) : Prop := {
  bo_inst : binstallBIPkey b = true;
  bo_key : bip_key (dot11wCipher b) (key_at (dot11wBIPKey b) (dot11wBIPKeyid b))
}.

Lemma bip_check_spec s i fr :
  mgmt_frame s i fr -> bip_ok (bip s) ->
  let ok := bip_authentic (dot11wCipher (bip s)) (key_at (dot11wBIPKey (bip s)) (dot11wBIPKeyid (bip s))) (u16 (dot11wBIPKeyid (bip s))) fr
            && (dot11wBIPrxpn (bip s) <? mme_pn (dot11wCipher (bip s)) fr) && alloc (u32 (zlen fr - 24 + 20)) in
  bip_check alloc s
  = Ret (if ok then _SUCCESS else _FAIL, if ok then with_bip s (set_rxpn (bip s) (mme_pn (dot11wCipher (bip s)) fr)) else s).
Proof using.
  intros [] [Hi Hk] ok. unfold bip_check. rewrite mf_len0, mf_pkt0.
  destruct (bip_verify_spec alloc (dot11wCipher (bip s)) (rx_mem (frm (rx s))) (rx_data (frm (rx s))) fr
    (key_at (dot11wBIPKey (bip s)) (dot11wBIPKeyid (bip s))) (u16 (dot11wBIPKeyid (bip s))) (dot11wBIPrxpn (bip s))) as (x & Hx & ->); [done..|].
  rewrite bind_Ret. fold ok. destruct ok; [done|]. cbn [fst snd].
  replace (with_bip s (set_rxpn (bip s) (dot11wBIPrxpn (bip s)))) with s by (by destruct s as [? [] ? ?]).
  by destruct Hx as [-> | ->].
Qed.

Lemma validate_spec s i fr :
  mgmt_frame s i fr -> bip_ok (bip s) ->
  exists s', validate_mgmt_protect alloc decryptor s (Some i)
             = Ret (if mgmt_accept (bip s) (bpairwise_key_installed s i) fr then _SUCCESS else _FAIL, s') /\
    bip s' = mgmt_bip (bip s) (bpairwise_key_installed s i) fr.
Proof using.
  intros Hf Hb. pose proof (bip_check_spec s i fr Hf Hb) as Hc. cbv zeta in Hc. destruct Hf as [R F L _ _ Hp Hm].
  unfold validate_mgmt_protect. rewrite (bo_inst _ Hb). cbn [negb]. cbv zeta.
  unfold hdr16, Addr1, hdr_addr. rewrite !(region_le16_znth _ _ _ _ R), bind_Ret, !(region_slice_eq _ _ _ _ _ R), bind_Ret by (unfold WLAN_HDR_A3_LEN; lia).
  change (0 + 1) with 1. fold (hdr_fc fr). rewrite Hp, Hm. cbn [Z.eqb negb]. rewrite (region_rd_znth _ _ _ _ R) by lia.
  fold (is_group fr) (is_deauth fr) (is_action fr). rewrite Hc. unfold mgmt_bip, mgmt_accept, is_robust.
  set (ok := bip_authentic _ _ _ _ && _ && _). set (cat := znth fr 24). clearbody ok cat.
  destruct (is_group fr), (is_action fr), (is_deauth fr); cbv iota; rewrite bind_Ret; cbn [andb orb negb];
    rewrite ?bind_Ret; cbv iota;
    repeat match goal with |- context [if ?c then _ else _] => is_var c; destruct c
      | |- context [CATEGORY_IS_GROUP_PRIVACY ?c] => destruct (CATEGORY_IS_GROUP_PRIVACY c)
      | |- context [CATEGORY_IS_ROBUST ?c] => destruct (CATEGORY_IS_ROBUST c)
      | |- context [bpairwise_key_installed ?s ?i] => destruct (bpairwise_key_installed s i) end; cbn [andb orb negb];
    rewrite ?bind_Ret; try (destruct ok); eexists; (split; [reflexivity|]); try reflexivity; by destruct (_ || _).
Qed.
(** A sequence of received frames, each with the entry of its sender, under
    the integrity key of [b]: the verdicts and the key's counters. *)
Fixpoint mgmt_run (b : bip_priv) (l : list (mgrx * nat)) : res (list Z * bip_priv) :=
  match l with
  | [] => Ret ([], b)
  | (s, i) :: l =>
      r ← validate_mgmt_protect alloc decryptor (with_bip s b) (Some i);
      q ← mgmt_run (bip (snd (r : Z * mgrx))) l;
      Ret (fst r :: fst (q : list Z * bip_priv), snd q)
  end.

(** The accepted frames among [frs]. *)
Definition accepted (frs : list bytes) (vs : list Z) : list bytes :=
  map fst (filter (fun p : bytes * Z => p.2 = _SUCCESS) (zip frs vs)).

Definition robust_group (fr : bytes) : Prop := is_group fr = true /\ is_robust fr = true.

#[export] Instance robust_group_dec fr : Decision (robust_group fr).
Proof. unfold robust_group. solve_decision. Defined.

(** The packet numbers of the group-addressed robust frames. *)
Definition group_pns (gmcs : Z) (frs : list bytes) : list Z := mme_pn gmcs <$> filter robust_group frs.

Lemma mgmt_bip_keeps b inst fr :
  bip_ok b -> bip_ok (mgmt_bip b inst fr) /\ dot11wCipher (mgmt_bip b inst fr) = dot11wCipher b /\
  dot11wBIPKey (mgmt_bip b inst fr) = dot11wBIPKey b /\ dot11wBIPKeyid (mgmt_bip b inst fr) = dot11wBIPKeyid b.
Proof using. intros []. unfold mgmt_bip. destruct (_ && _); done. Qed.

(** One frame: what acceptance shows, and how the counter moves. *)
Lemma mgmt_accept_robust b inst fr :
  mgmt_accept b inst fr = true ->
  (robust_group fr -> bip_authentic (dot11wCipher b) (key_at (dot11wBIPKey b) (dot11wBIPKeyid b)) (u16 (dot11wBIPKeyid b)) fr = true
     /\ dot11wBIPrxpn b < mme_pn (dot11wCipher b) fr) /\
  (is_group fr = false -> is_deauth fr = false /\ (is_robust fr = true -> inst = false)).
Proof using.
  unfold mgmt_accept, robust_group. destruct (is_group fr).
  2:{ intros [H1%negb_true_iff H2%negb_true_iff]%andb_true_iff. split; [by intros []|]. intros _. split; [done|].
      intros Hr. by rewrite Hr in H2. }
  intros H. split; [|done]. intros [_ Hr]. rewrite Hr in H. cbn [negb orb] in H.
  rewrite !andb_true_iff, Z.ltb_lt in H. tauto.
Qed.

(** C4: In a network with an integrity group key, along any sequence of
    unprotected management frames from stations that negotiated management
    frame protection, the check ends without leaving the frames' buffers and:
    group-addressed deauthentication, disassociation and robust action frames
    are accepted only with a Management MIC element whose key id is the
    current one and whose MIC is that of the frame, and with strictly
    increasing packet numbers, all above the counter at the start; no unicast
    deauthentication or disassociation is accepted, and no unicast robust
    action frame once the pairwise key is installed. *)
Theorem mgmt_protection b l frs :
  bip_ok b -> Forall2 (fun x fr => mgmt_frame (fst x) (snd x) fr) l frs ->
  exists vs b', mgmt_run b l = Ret (vs, b') /\ length vs = length l /\
    Forall (fun fr => robust_group fr ->
      bip_authentic (dot11wCipher b) (key_at (dot11wBIPKey b) (dot11wBIPKeyid b)) (u16 (dot11wBIPKeyid b)) fr = true) (accepted frs vs) /\
    StronglySorted Z.lt (dot11wBIPrxpn b :: group_pns (dot11wCipher b) (accepted frs vs)) /\
    Forall (fun p => is_group p.2 = false -> is_deauth p.2 = false /\ (is_robust p.2 = true -> bpairwise_key_installed (p.1.1).1 (p.1.1).2 = false))
      (filter (fun p => p.1.2 = _SUCCESS) (zip (zip l vs) frs)).
Proof using.
  intros Hb H. revert b Hb. induction H as [|[s i] fr l frs Hf H IH]; intros b Hb.
  { exists [], b. cbn. split_and!; auto. repeat constructor. }
  cbn [fst snd] in Hf. assert (mgmt_frame (with_bip s b) i fr) as Hf' by (by destruct Hf).
  destruct (validate_spec (with_bip s b) i fr Hf' Hb) as (s' & Ev & Es). cbn [bip with_bip bpairwise_key_installed] in *.
  set (inst := bpairwise_key_installed s i) in *.
  destruct (mgmt_bip_keeps b inst fr Hb) as (Hb' & Ec & Ek & Ei).
  destruct (IH _ Hb') as (vs & b' & Er & Lv & Ha & Hs & Hu). rewrite Ec, Ek, Ei in *.
  exists ((if mgmt_accept b inst fr then _SUCCESS else _FAIL) :: vs), b'.
  cbn [mgmt_run]. rewrite Ev, bind_Ret. cbn [fst snd]. rewrite Es, Er, bind_Ret. cbn [fst snd].
  split; [done|]. split; [cbn; by rewrite Lv|].
  unfold accepted in *. cbn [zip zip_with]. unfold mgmt_bip in Hs.
  destruct (mgmt_accept b inst fr) eqn:Eacc.
  - rewrite !filter_cons_True by done. cbn [map fst]. destruct (mgmt_accept_robust b inst fr Eacc) as [Hg Hn].
    split; [constructor; [by intros Hr; apply Hg | done]|]. split; [|by constructor].
    unfold group_pns in *. rewrite filter_cons. case_decide as D.
    + destruct (Hg D) as [_ Hlt]. destruct D as [D1 D2]. rewrite D1, D2 in Hs. cbn [andb] in Hs. cbn [fmap list_fmap]. constructor; [done|].
      apply StronglySorted_inv in Hs as [_ Hall]. constructor; [done|]. cbn [dot11wBIPrxpn set_rxpn] in Hall.
      eapply Forall_impl; [exact Hall|]. intros; cbn in *; lia.
    + replace (true && is_group fr && is_robust fr) with false in Hs; [done|].
      unfold robust_group in D. destruct (is_group fr), (is_robust fr); try done. by destruct D.
  - rewrite !filter_cons_False by done. cbn [andb] in Hs. done.
Qed.
End Accept.

(** ** A frame with a MIC element appended *)

(** Element id, length, key id and packet number. *)
Definition mme (gmcs keyid pn : Z) : bytes := [_MME_IE_; bip_mic_len gmcs + 8; keyid; 0] ++ le_split 6 pn.

(** The bytes covered by the MIC of the frame [P] (header and body). *)
Definition covered (gmcs : Z) (P : bytes) (keyid pn : Z) : bytes :=
  (put_le16 (bip_fc (hdr_fc P)) ++ slice P 4 18) ++ (slice P 24 (zlen P - 24) ++ mme gmcs keyid pn)
  ++ replicate (Z.to_nat (bip_mic_len gmcs)) 0.

Lemma slice_app_l a b i n : 0 <= i -> i + n <= zlen a -> slice (a ++ b) i n = slice a i n.
Proof.
  intros Hi H. unfold slice, zlen in *. destruct (Z.le_gt_cases n 0); [by replace (Z.to_nat n) with O by lia|].
  rewrite drop_app_le, take_app_le by (rewrite ?length_drop; lia). done.
Qed.

Lemma slice_app_r a b i n : zlen a <= i -> slice (a ++ b) i n = slice b (i - zlen a) n.
Proof. intros H. unfold slice, zlen in *. rewrite drop_app_ge by lia. do 2 f_equal. lia. Qed.

Lemma znth_app_r a b i : zlen a <= i -> znth (a ++ b) i = znth b (i - zlen a).
Proof. intros H. unfold znth, zlen in *. rewrite app_nth2 by lia. f_equal. lia. Qed.

Lemma hdr_fc_app a b : 2 <= zlen a -> hdr_fc (a ++ b) = hdr_fc a.
Proof. intros H. destruct a as [|x [|y a]]; [change (2 <= 0) in H; lia | change (2 <= 1) in H; lia|]. done. Qed.

Lemma zlen_mme gmcs keyid pn : zlen (mme gmcs keyid pn) = 10.
Proof. reflexivity. Qed.

Lemma mme_ok gmcs keyid pn : is_byte keyid -> bytes_ok (mme gmcs keyid pn).
Proof.
  intros H. unfold mme. pose proof (le_split_bytes 6 pn).
  destruct (bip_mic_len_cases gmcs) as [-> | ->]; repeat (apply Forall_cons_2; [first [done | unfold is_byte, _MME_IE_; lia]|]); done.
Qed.

Lemma slice_all l n : zlen l = n -> slice l 0 n = l.
Proof. intros <-. unfold slice, zlen. by rewrite drop_0, Nat2Z.id, take_ge. Qed.

(** A frame whose MIC was computed that way is authentic. *)
Lemma appended_authentic gmcs key keyid pn P tag :
  24 <= zlen P -> is_byte keyid -> 0 <= pn < 2 ^ 48 -> length tag = 16%nat ->
  mic_of gmcs key (slice P 10 6) (le_split 6 pn) (covered gmcs P keyid pn) = Ret (Some tag) ->
  let fr := P ++ mme gmcs keyid pn ++ take (Z.to_nat (bip_mic_len gmcs)) tag in
  bip_authentic gmcs key keyid fr = true /\ mme_pn gmcs fr = pn.
Proof.
  intros HP Hid Hpn Lt Et fr. pose proof (bip_mic_len_cases gmcs) as Hn.
  assert (zlen (take (Z.to_nat (bip_mic_len gmcs)) tag) = bip_mic_len gmcs) as Lm by (unfold zlen; rewrite length_take; lia).
  assert (zlen fr = zlen P + 10 + bip_mic_len gmcs) as Lf by (unfold fr; rewrite !zlen_app, Lm, zlen_mme; lia).
  assert (mme_at gmcs fr = zlen P) as Em by (unfold mme_at; lia).
  assert (forall k, 0 <= k < 10 -> znth fr (zlen P + k) = znth (mme gmcs keyid pn) k) as Hz.
  { intros k Hk. unfold fr. rewrite znth_app_r by lia. replace (zlen P + k - zlen P) with k by lia.
    unfold znth. apply app_nth1. change (length (mme gmcs keyid pn)) with 10%nat. lia. }
  assert (slice fr (zlen P + 4) 6 = le_split 6 pn) as Es.
  { unfold fr. rewrite slice_app_r, slice_app_l by (rewrite ?zlen_mme; lia). replace (zlen P + 4 - zlen P) with 4 by lia. reflexivity. }
  unfold mme_pn. rewrite Em, Es, le_combine_split by (change (256 ^ Z.of_nat 6) with (2 ^ 48); lia). split; [|done].
  unfold bip_authentic, mme_keyid. rewrite Em, Es.
  assert (slice fr 10 6 = slice P 10 6) as -> by (unfold fr; by rewrite slice_app_l by lia).
  assert (bip_data gmcs fr = covered gmcs P keyid pn) as ->.
  { unfold bip_data, covered, fr. rewrite hdr_fc_app, (slice_app_l P _ 4) by lia. do 2 f_equal. fold fr.
    unfold slice. fold fr. replace (zlen fr - 24 - bip_mic_len gmcs) with (zlen P + 10 - 24) by lia.
    unfold fr. rewrite app_assoc, drop_app_le by (rewrite length_app; change (length (mme gmcs keyid pn)) with 10%nat; unfold zlen in *; lia).
    rewrite take_app_le by (rewrite length_drop, length_app; change (length (mme gmcs keyid pn)) with 10%nat; unfold zlen in *; lia).
    rewrite take_ge by (rewrite length_drop, length_app; change (length (mme gmcs keyid pn)) with 10%nat; unfold zlen in *; lia).
    rewrite drop_app_le by (unfold zlen in *; lia). f_equal. symmetry. apply take_ge. rewrite length_drop. unfold zlen in *. lia. }
  rewrite Et. replace (zlen P) with (zlen P + 0) at 1 by lia. rewrite !Hz by lia.
  rewrite !andb_true_iff, Z.leb_le, !Z.eqb_eq, bool_decide_eq_true. split_and!; [lia | done | |].
  - change (znth (mme gmcs keyid pn) 2) with keyid. change (znth (mme gmcs keyid pn) 3) with 0. rewrite Z.shiftl_0_l, Z.lor_0_l.
    apply u16_small. unfold is_byte, is_u16 in *. lia.
  - rewrite Lf. unfold fr. rewrite app_assoc, slice_app_r by (rewrite zlen_app, zlen_mme; lia).
    rewrite zlen_app, zlen_mme. replace (zlen P + 10 + bip_mic_len gmcs - bip_mic_len gmcs - (zlen P + 10)) with 0 by lia. by apply slice_all.
Qed.

(** ** The element appended by the sender *)

Lemma set_ie_prefix b p id len src frlen :
  0 <= len <= zlen src -> rtw_set_ie b p id len src frlen = rtw_set_ie b p id len (take (Z.to_nat len) src) frlen.
Proof.
  intros H. unfold rtw_set_ie, zlen in *. destruct (wr b p (u8 id)) as [b'| |]; [|done..]. rewrite !bind_Ret.
  destruct (wr b' (p + 1) (u8 len)) as [b''| |]; [|done..]. rewrite !bind_Ret.
  rewrite !rd_slice_ok by (unfold zlen; rewrite ?length_take; lia). by rewrite !drop_0, take_take, Nat.min_id.
Qed.

Lemma le_split_app a b w : le_split (a + b) w = le_split a w ++ le_split b (Z.shiftr w (8 * Z.of_nat a)).
Proof.
  revert w. induction a as [|a IH]; intros w; [by rewrite Z.shiftr_0_r|]. cbn [Nat.add le_split app]. rewrite IH. do 3 f_equal.
  rewrite Z.shiftr_shiftr by lia. f_equal. lia.
Qed.

(** The content of the element in front of the MIC: the high bytes of the
    64-bit counter are those of the zeroed MIC. *)
Lemma mme_content gmcs keyid pn :
  0 <= pn < 2 ^ 48 ->
  take (Z.to_nat (bip_mic_len gmcs + 8)) ([keyid; 0] ++ le_split 8 pn ++ replicate 14 0)
  = [keyid; 0] ++ le_split 6 pn ++ replicate (Z.to_nat (bip_mic_len gmcs)) 0.
Proof.
  intros H. rewrite (le_split_app 6 2). replace (Z.shiftr pn (8 * Z.of_nat 6)) with 0
    by (rewrite Z.shiftr_div_pow2 by lia; symmetry; apply Z.div_small; change (2 ^ (8 * Z.of_nat 6)) with (2 ^ 48); lia).
  destruct (bip_mic_len_cases gmcs) as [-> | ->]; reflexivity.
Qed.

(** The frame with the MIC still zero. *)
Lemma zeroed_frame gmcs P keyid pn :
  24 <= zlen P ->
  let F := P ++ mme gmcs keyid pn ++ replicate (Z.to_nat (bip_mic_len gmcs)) 0 in
  zlen F = zlen P + 10 + bip_mic_len gmcs /\ slice F 10 6 = slice P 10 6 /\ slice F (mme_at gmcs F + 4) 6 = le_split 6 pn /\
  (put_le16 (bip_fc (hdr_fc F)) ++ slice F 4 18) ++ slice F 24 (zlen F - 24) = covered gmcs P keyid pn.
Proof.
  intros HP F. pose proof (bip_mic_len_cases gmcs) as Hn.
  assert (zlen F = zlen P + 10 + bip_mic_len gmcs) as L.
  { unfold F, zlen. rewrite !length_app, length_replicate. change (length (mme gmcs keyid pn)) with 10%nat. lia. }
  split; [done|]. split; [unfold F; by rewrite slice_app_l by lia|]. split.
  - unfold mme_at. rewrite L. unfold F. rewrite slice_app_r, slice_app_l by (rewrite ?zlen_mme; lia).
    replace (zlen P + 10 + bip_mic_len gmcs - bip_mic_len gmcs - 10 + 4 - zlen P) with 4 by lia. reflexivity.
  - rewrite L. unfold covered, F. rewrite hdr_fc_app, (slice_app_l P _ 4) by lia. f_equal.
    rewrite <- app_assoc. unfold slice. rewrite drop_app_le by (unfold zlen in *; lia).
    rewrite (take_ge (drop _ P)), take_ge; [done| |rewrite length_drop; unfold zlen in *; lia].
    rewrite !length_app, length_replicate, length_drop. change (length (mme gmcs keyid pn)) with 10%nat. unfold zlen in *. lia.
Qed.

(** What a sender needs to protect the frame [P]: its buffer with room for
    the element, and the integrity key. *)
Record bip_sender (off : Z) (s : mgtx) (pre P room post : bytes) : Prop := {
  bs_off : zlen pre = off;
  bs_P : 24 <= zlen P < 2 ^ 16;
  bs_bytes : bytes_ok P;
  bs_buf : tx_buf s = Some (pre ++ P ++ room ++ post);
  bs_len : pktlen (tx_att s) = zlen P;
  bs_room : zlen room = bip_mic_len (dot11wCipher (tx_bip s)) + 10;
  bs_key : bip_ok (tx_bip s);
  bs_id : is_byte (dot11wBIPKeyid (tx_bip s));
  bs_pn : 0 <= dot11wBIPtxpn (tx_bip s) < 2 ^ 48 - 1
}.

Lemma coalesce_bip_spec off s pre P room post :
  bip_sender off s pre P room post ->
  let b := tx_bip s in
  exists mic s', length mic = Z.to_nat (bip_mic_len (dot11wCipher b)) /\
    let fr := P ++ mme (dot11wCipher b) (dot11wBIPKeyid b) (dot11wBIPtxpn b + 1) ++ mic in
    coalesce_bip off s (pre ++ P ++ room ++ post) = Ret (_SUCCESS, s') /\
    tx_buf s' = Some (pre ++ fr ++ post) /\ pktlen (tx_att s') = zlen fr /\
    tx_bip s' = set_txpn b (dot11wBIPtxpn b + 1) /\
    bip_authentic (dot11wCipher b) (key_at (dot11wBIPKey b) (dot11wBIPKeyid b)) (dot11wBIPKeyid b) fr = true /\
    mme_pn (dot11wCipher b) fr = dot11wBIPtxpn b + 1.
Proof.
  intros [] b. fold b in bs_room0, bs_key0, bs_id0, bs_pn0. set (gmcs := dot11wCipher b) in *. set (pn := dot11wBIPtxpn b + 1). set (id := dot11wBIPKeyid b) in *.
  set (key := key_at (dot11wBIPKey b) id). pose proof (bip_mic_len_cases gmcs) as Hn.
  assert (u64 pn = pn) as Epn by (apply Z.mod_small; unfold pn; lia).
  assert (0 <= pn < 2 ^ 48) as Hpn by (unfold pn; lia).
  destruct (mic_total gmcs key (slice P 10 6) (le_split 6 pn) (covered gmcs P id pn)) as (tag & Lt & Et);
    [apply bs_key0 | auto with rtw | apply le_split_bytes | unfold covered; byte_list; by apply mme_ok|].
  destruct (appended_authentic gmcs key id pn P tag) as [Ha Hp]; [lia|done..|].
  set (mic := take (Z.to_nat (bip_mic_len gmcs)) tag) in *.
  assert (length mic = Z.to_nat (bip_mic_len gmcs)) as Lm by (unfold mic; rewrite length_take; lia).
  set (fr := P ++ mme gmcs id pn ++ mic) in *.
  assert (zlen fr = zlen P + 10 + bip_mic_len gmcs) as Lf by (unfold fr, zlen in *; rewrite !length_app, Lm; change (length (mme gmcs id pn)) with 10%nat; lia).
  exists mic, (set_tx_buf (set_tx_buf (set_tx_att (set_tx_bip s (set_txpn b pn)) (set_pktlen (tx_att s) (zlen fr)))
    (pre ++ (P ++ mme gmcs id pn ++ replicate (Z.to_nat (bip_mic_len gmcs)) 0) ++ post)) (pre ++ fr ++ post)).
  split; [done|]. cbv zeta. split; [|by split_and!].
  unfold coalesce_bip. cbv zeta. fold b. fold gmcs pn id key. rewrite Epn, u8_small by done.
  replace (if gmcs =? _BIP_CMAC_128_ then 16 else 24) with (bip_mic_len gmcs + 8) by (unfold bip_mic_len; by destruct (_ =? _)).
  fold (bip_mic_len gmcs). rewrite set_ie_prefix by (match goal with |- _ <= _ <= ?x => change x with 24 end; lia).
  rewrite mme_content by done.
  set (cont := [id; 0] ++ le_split 6 pn ++ replicate (Z.to_nat (bip_mic_len gmcs)) 0).
  assert (zlen cont = bip_mic_len gmcs + 8) as Lc by (unfold zlen, cont; rewrite !length_app, length_replicate; cbn [length]; rewrite le_split_length; lia).
  assert (enc1 (_MME_IE_, cont) = mme gmcs id pn ++ replicate (Z.to_nat (bip_mic_len gmcs)) 0) as Ee
    by (unfold enc1, mme; cbn [fst snd]; by rewrite Lc).
  rewrite bs_len0, <- Lc. replace (off + zlen P) with (zlen (pre ++ P)) by (rewrite zlen_app; lia).
  rewrite (app_assoc pre), (set_ie_spec (pre ++ P) room post (_MME_IE_, cont)).
  2:{ split; [by unfold is_byte, _MME_IE_|]. cbn [snd]. lia. }
  2:{ rewrite Ee, length_app, length_replicate. change (length (mme gmcs id pn)) with 10%nat. unfold zlen in *. lia. }
  rewrite bind_Ret, Ee. cbv beta iota zeta. rewrite <- (app_assoc pre), (app_assoc P).
  destruct (zeroed_frame gmcs P id pn) as (L0 & S1 & S2 & S3); [lia|].
  set (F0 := P ++ mme gmcs id pn ++ replicate (Z.to_nat (bip_mic_len gmcs)) 0) in *.
  assert (zlen (mme gmcs id pn ++ replicate (Z.to_nat (bip_mic_len gmcs)) 0) = 10 + bip_mic_len gmcs) as Lz.
  { unfold zlen. rewrite length_app, length_replicate. change (length (mme gmcs id pn)) with 10%nat. lia. }
  rewrite Lz. replace (u32 (zlen P + (10 + bip_mic_len gmcs))) with (zlen fr) by (rewrite u32_small by (unfold is_u32; lia); lia).
  assert (region (pre ++ F0 ++ post) off F0) as R by (by exists pre, post).
  rewrite (bip_aad_region _ _ _ R), bind_Ret by lia. rewrite (region_slice_eq _ _ _ _ _ R), bind_Ret by lia.
  rewrite Lf, <- L0, (calculate_region _ _ _ _ _ _ R), S1, S2, S3, Et, bind_Ret by lia. fold mic.
  replace (zlen (pre ++ P) + (10 + bip_mic_len gmcs) - bip_mic_len gmcs) with (zlen (pre ++ P ++ mme gmcs id pn)) by (rewrite !zlen_app, zlen_mme; lia).
  replace (pre ++ F0 ++ post) with ((pre ++ P ++ mme gmcs id pn) ++ replicate (Z.to_nat (bip_mic_len gmcs)) 0 ++ post)
    by (unfold F0; by rewrite <- !app_assoc).
  rewrite wr_slice_app, bind_Ret by (by rewrite length_replicate). unfold F0, fr. by rewrite <- !app_assoc.
Qed.

(** The frame [P] calls for the broadcast branch with BIP. *)
Definition bip_frame (P : bytes) : Prop :=
  is_robust P = true /\ is_action P && CATEGORY_IS_GROUP_PRIVACY (znth P 24) = false /\ (is_action P = true -> 25 <= zlen P).

Lemma is_robust_app P Q : 24 <= zlen P -> (is_action P = true -> 25 <= zlen P) ->
  is_action (P ++ Q) = is_action P /\ is_deauth (P ++ Q) = is_deauth P /\
  (is_action P = true -> znth (P ++ Q) 24 = znth P 24).
Proof.
  intros H Ha. unfold is_action, is_deauth. rewrite hdr_fc_app by lia. split_and!; [done..|].
  intros A%Ha. unfold znth. apply app_nth1. unfold zlen in *. lia.
Qed.

Lemma coalesce_branch alloc m fl ba off s pre P room post :
  bip_sender off s pre P room post -> bip_frame P -> IS_MCAST (tx_ra (pa (tx_att s))) = true ->
  alloc (u32 (20 + zlen P + 26)) = true ->
  rtw_mgmt_xmitframe_coalesce alloc m fl ba off s = coalesce_bip off s (pre ++ P ++ room ++ post).
Proof.
  intros Hs (Hr & Hg & Ha) Hm Hal. unfold rtw_mgmt_xmitframe_coalesce. rewrite (bs_buf _ _ _ _ _ _ Hs), Hm. cbv zeta.
  pose proof (bs_P _ _ _ _ _ _ Hs) as HP.
  assert (region (pre ++ P ++ room ++ post) off P) as R by (exists pre, (room ++ post); split; [done | by rewrite (bs_off _ _ _ _ _ _ Hs)]).
  rewrite <- (Z.add_0_r off) at 1. rewrite (region_le16_znth _ _ _ _ R), bind_Ret by lia. change (0 + 1) with 1. fold (hdr_fc P).
  fold (is_action P). assert (negb (get_frame_sub_type (hdr_fc P) =? WIFI_DEAUTH) && negb (get_frame_sub_type (hdr_fc P) =? WIFI_DISASSOC) && negb (is_action P) = false) as ->.
  { rewrite <- negb_orb. fold (is_deauth P). unfold is_robust in Hr. destruct (is_deauth P), (is_action P); try done. }
  rewrite (bs_len _ _ _ _ _ _ Hs). unfold BIP_AAD_SIZE, _MME_IE_LENGTH_. rewrite Hal, (bo_inst _ (bs_key _ _ _ _ _ _ Hs)).
  destruct (is_action P) eqn:A; cbv iota; [|by rewrite bind_Ret].
  rewrite (region_rd_znth _ _ _ _ R) by (split; [lia | specialize (Ha eq_refl); lia]). rewrite bind_Ret.
  cbn [andb negb] in *. rewrite Hg. unfold is_robust, CATEGORY_IS_ROBUST in Hr. rewrite A in Hr. cbn [andb] in Hr.
  destruct (CATEGORY_IS_NON_ROBUST (znth P 24)) eqn:E; [|done]. exfalso. cbn [negb] in Hr. rewrite orb_false_r in Hr.
  unfold is_deauth in Hr. unfold is_action in A. apply Z.eqb_eq in A. by rewrite A in Hr.
Qed.

(** C39: A group-addressed deauthentication, disassociation or robust action
    frame that [rtw_mgmt_xmitframe_coalesce] protects with BIP, under any of
    the four BIP ciphers, keeps its header and body, carries the next packet
    number, and is accepted by every receiver that has the same integrity key
    and has not seen that packet number; the receiver's counter then is that number. *)
Theorem bip_frames_accepted alloc dec m fl ba off s pre P room post :
  bip_sender off s pre P room post -> bip_frame P -> is_group P = true -> IS_MCAST (tx_ra (pa (tx_att s))) = true ->
  (forall n, 0 <= n < 2 ^ 17 -> alloc n = true) ->
  exists mic s', let b := tx_bip s in
    let fr := P ++ mme (dot11wCipher b) (dot11wBIPKeyid b) (dot11wBIPtxpn b + 1) ++ mic in
    rtw_mgmt_xmitframe_coalesce alloc m fl ba off s = Ret (_SUCCESS, s') /\
    tx_buf s' = Some (pre ++ fr ++ post) /\ pktlen (tx_att s') = zlen fr /\
    tx_bip s' = set_txpn b (dot11wBIPtxpn b + 1) /\
    forall r i, mgmt_frame r i fr -> binstallBIPkey (bip r) = true ->
      dot11wCipher (bip r) = dot11wCipher b -> dot11wBIPKey (bip r) = dot11wBIPKey b -> dot11wBIPKeyid (bip r) = dot11wBIPKeyid b ->
      dot11wBIPrxpn (bip r) <= dot11wBIPtxpn b ->
      exists r', validate_mgmt_protect alloc dec r (Some i) = Ret (_SUCCESS, r') /\
        dot11wBIPrxpn (bip r') = dot11wBIPtxpn b + 1.
Proof.
  intros Hs HP Hg Hm Hal. pose proof (bs_P _ _ _ _ _ _ Hs) as LP.
  destruct (coalesce_bip_spec off s pre P room post Hs) as (mic & s' & Lm & Ec & Hb & Hl & Hp & Ha & Hpn).
  exists mic, s'. cbv zeta. set (fr := P ++ _ ++ mic) in *. set (b := tx_bip s) in *.
  rewrite (coalesce_branch _ _ _ _ _ _ _ _ _ _ Hs HP Hm) by (apply Hal; rewrite u32_small; unfold is_u32; lia).
  split_and!; try done. intros r i Hf Hi Ci Ki Ii Hr.
  assert (bip_ok (bip r)) as Hok by (split; [done|]; rewrite Ci, Ki, Ii; apply Hs).
  destruct (validate_spec alloc dec r i fr Hf Hok) as (r' & Ev & Er).
  assert (is_group fr = true /\ is_robust fr = true /\ is_action fr && CATEGORY_IS_GROUP_PRIVACY (znth fr 24) = false) as (Gf & Rf & Af).
  { destruct HP as (H1 & H2 & H3). destruct (is_robust_app P (mme (dot11wCipher b) (dot11wBIPKeyid b) (dot11wBIPtxpn b + 1) ++ mic)) as (E1 & E2 & E3); [lia|done|].
    unfold is_group. unfold fr at 1. rewrite slice_app_l by lia. split; [done|]. unfold is_robust, fr in *. rewrite E1, E2.
    destruct (is_action P); [rewrite E3 by done; by split | by split]. }
  assert (0 <= u32 (zlen fr - 24 + 20) < 2 ^ 17) as Hsz.
  { pose proof (bip_mic_len_cases (dot11wCipher b)) as Hn.
    assert (zlen fr = zlen P + 10 + bip_mic_len (dot11wCipher b)) as -> by (unfold fr, zlen in *; rewrite !length_app, Lm, ?zlen_mme; change (length (mme _ _ _)) with 10%nat; lia).
    rewrite u32_small by (unfold is_u32; lia). lia. }
  assert (mgmt_accept alloc (bip r) (bpairwise_key_installed r i) fr = true) as Hacc.
  { unfold mgmt_accept. rewrite Gf, Rf, Af, Ci, Ki, Ii, (Hal _ Hsz), andb_true_r. cbn [negb orb andb].
    rewrite u16_small by (pose proof (bs_id _ _ _ _ _ _ Hs) as Hid; fold b in Hid; unfold is_byte, is_u16 in *; lia).
    rewrite Ha, Hpn. cbn [andb]. apply Z.ltb_lt. lia. }
  rewrite Hacc in Ev. exists r'. split; [done|]. rewrite Er. unfold mgmt_bip. rewrite Hacc, Gf, Rf, Ci. done.
Qed.

(** ** Encrypted unicast frames *)

(** Only the first [key_len] bytes of a key matter. *)
Lemma init_agree k1 k2 key_len :
  suite_key k1 key_len -> suite_key k2 key_len -> take (Z.to_nat key_len) k1 = take (Z.to_nat key_len) k2 ->
  aes_encrypt_init k1 key_len = aes_encrypt_init k2 key_len.
Proof. intros H1 H2 E. by rewrite (init_take k1), (init_take k2), E by done. Qed.

Lemma decrypt_agree c m k1 k2 key_len hl mem fp pl :
  suite_key k1 key_len -> suite_key k2 key_len -> take (Z.to_nat key_len) k1 = take (Z.to_nat key_len) k2 ->
  sw_decrypt_frame c m k1 key_len hl mem fp pl = sw_decrypt_frame c m k2 key_len hl mem fp pl.
Proof.
  intros H1 H2 E. rewrite !sw_decrypt_suite by done. pose proof (init_agree k1 k2 key_len H1 H2 E) as Ei. f_equal.
  unfold suite_decrypt. assert (forall n x a t, s_ad (suite_of c m key_len) k1 n x a t = s_ad (suite_of c m key_len) k2 n x a t) as Es.
  { intros. destruct c; cbn [suite_of s_ad ccmp_suite gcmp_suite]; unfold aes_ccm_ad, aes_gcm_ad; by rewrite Ei. }
  destruct (_ <? _); [done|]. cbv zeta.
  repeat (match goal with |- mbind _ ?x = mbind _ ?x => destruct x; [cbn [mbind res_mbind] | done..] end). apply Es.
Qed.

(** The IV is put between header and body, the integrity value behind it. *)
Lemma insert_iv pre hdr body room post iv icv :
  length room = (length iv + length icv)%nat ->
  exists m1 m2,
    wr_slice (pre ++ hdr ++ body ++ room ++ post) (zlen pre + zlen hdr) iv = Ret m1 /\
    wr_slice m1 (zlen pre + zlen hdr + zlen iv) body = Ret m2 /\
    wr_slice m2 (zlen pre + zlen hdr + zlen iv + zlen body) icv = Ret (pre ++ hdr ++ iv ++ body ++ icv ++ post).
Proof.
  intros L. set (X := body ++ room). assert (length X = length iv + length body + length icv)%nat as LX by (unfold X; rewrite length_app; lia).
  set (Y := drop (length iv) X). assert (length Y = length body + length icv)%nat as LY by (unfold Y; rewrite length_drop; lia).
  exists ((pre ++ hdr) ++ iv ++ Y ++ post), (((pre ++ hdr) ++ iv) ++ body ++ drop (length body) Y ++ post).
  rewrite <- !zlen_app. split_and!.
  - replace (pre ++ hdr ++ body ++ room ++ post) with ((pre ++ hdr) ++ take (length iv) X ++ Y ++ post)
      by (unfold Y; rewrite (app_assoc (take _ X)), take_drop; unfold X; by rewrite <- !app_assoc).
    apply wr_slice_app. rewrite length_take. lia.
  - rewrite app_assoc, <- (take_drop (length body) Y) at 1. rewrite <- (app_assoc (take _ Y)).
    apply wr_slice_app. rewrite length_take. lia.
  - rewrite app_assoc, wr_slice_app by (rewrite length_drop; lia). by rewrite <- !app_assoc.
Qed.

Lemma wr_iswep pre hdr post :
  2 <= zlen hdr ->
  exists b, rd (pre ++ hdr ++ post) (zlen pre + 1) = Ret b /\
    wr (pre ++ hdr ++ post) (zlen pre + 1) (Z.lor b 0x40) = Ret (pre ++ set_iswep hdr ++ post).
Proof.
  intros H. destruct hdr as [|a [|b hdr]]; [change (2 <= 0) in H; lia | change (2 <= 1) in H; lia|]. exists b.
  replace (pre ++ (a :: b :: hdr) ++ post) with ((pre ++ [a]) ++ b :: hdr ++ post) by (by rewrite <- app_assoc).
  replace (zlen pre + 1) with (zlen (pre ++ [a])) by (by rewrite zlen_app).
  rewrite rd_app_r, Z.sub_diag, wr_app_here by lia. by rewrite <- app_assoc.
Qed.

Lemma AES_IV_ok pn kid : zlen (AES_IV pn kid) = 8 /\ bytes_ok (AES_IV pn kid).
Proof.
  split; [done|]. unfold AES_IV. pose proof (le_split_bytes 6 pn) as F. cbn [le_split] in *. rewrite !Forall_cons in F.
  cbn [znth nth Z.to_nat Pos.to_nat Pos.iter_op Init.Nat.add]. byte_list; apply F.
Qed.

(** A management header of 24 bytes. *)
Lemma mgmt_hdr_ok hdr iv :
  zlen hdr = 24 -> bytes_ok hdr -> WLAN_FC_GET_TYPE (hdr_fc hdr) = 0 -> fc_addr4 (hdr_fc hdr) = false -> zlen iv = 8 -> bytes_ok iv -> hdr_ok hdr iv.
Proof. intros L F T A Li Fi. split; [|done..]. rewrite A. unfold fc_qos. rewrite T. cbn. lia. Qed.

Lemma set_iswep_idem s hdr : marked s (set_iswep hdr) = set_iswep hdr.
Proof.
  unfold marked. destruct (s_iswep s); [|done]. unfold set_iswep. destruct hdr as [|a [|b hdr]]; [done..|].
  cbn. by rewrite <- Z.lor_assoc.
Qed.

Lemma zlen_iswep hdr : zlen (set_iswep hdr) = zlen hdr.
Proof. unfold zlen, set_iswep. by rewrite length_alter. Qed.

Lemma set_iswep_ok hdr : bytes_ok hdr -> bytes_ok (set_iswep hdr).
Proof.
  intros F. apply Forall_alter; [done|]. intros x _ Fx.
  pose proof (byte_forall (fun y => (0 <=? Z.lor y 0x40) && (Z.lor y 0x40 <? 256)) x ltac:(vm_compute; reflexivity) Fx) as B.
  rewrite andb_true_iff, Z.leb_le, Z.ltb_lt in B. exact B.
Qed.

(** The attributes with which a frame of header [hdr] and body [body] is
    encrypted. *)
Record enc_attrs (c : sw_cipher) (m key_len : Z) (a : mgmt_attrib) (hdr body room : bytes) : Prop := {
  ea_hdrlen : tx_hdrlen (pa a) = 24;
  ea_pktlen : pktlen a = 24 + zlen body;
  ea_small : zlen body < 2 ^ 16;
  ea_kt : key_type a = 0;
  ea_frags : nr_frags (pa a) = 1;
  ea_ra : IS_MCAST (tx_ra (pa a)) = false;
  ea_key : suite_key (tx_UncstKey (pa a)) key_len;
  ea_icv : length (tx_icv a) = 16%nat;
  ea_room : zlen room = 8 + s_mic (suite_of c m key_len);
  ea_hdr : zlen hdr = 24;
  ea_hbytes : bytes_ok hdr;
  ea_bbytes : bytes_ok body;
  ea_type : WLAN_FC_GET_TYPE (hdr_fc hdr) = 0;
  ea_addr4 : fc_addr4 (hdr_fc hdr) = false
}.

Lemma suite_mic_cases c m key_len :
  key_len = 16 \/ key_len = 32 ->
  s_mic (suite_of c m key_len) = if enc_code c key_len =? _AES_ then 8 else 16.
Proof. intros [-> | ->]; by destruct c. Qed.

Lemma swencrypt_sw_tx c m fl ba off key_len x a mem :
  key_len = 16 \/ key_len = 32 -> bswenc a = true -> tx_encrypt (pa a) = enc_code c key_len ->
  xmitframe_swencrypt m fl ba off x a (Some mem)
  = (r ← sw_tx c m x (pa a) fl ba off (Some mem); Ret (snd (r : Z * option bytes))).
Proof. intros Hk Hb He. unfold xmitframe_swencrypt. rewrite Hb, He. destruct c, Hk as [-> | ->]; reflexivity. Qed.

Lemma coalesce_encrypt_spec off m fl ba s c key_len pre hdr body room post i kid :
  zlen pre = off -> enc_attrs c m key_len (tx_att s) hdr body room ->
  let iv := AES_IV (next_pn (nth i (dot11txpn s) 0)) kid in
  let key := tx_UncstKey (pa (tx_att s)) in
  exists crypt s', zlen crypt = zlen body + s_mic (suite_of c m key_len) /\
    let fr := set_iswep hdr ++ iv ++ crypt in
    coalesce_encrypt m fl ba off s (pre ++ hdr ++ body ++ room ++ post) i (enc_code c key_len) kid = Ret (_SUCCESS, s') /\
    tx_buf s' = Some (pre ++ fr ++ post) /\ pktlen (tx_att s') = zlen fr /\
    dot11txpn s' = <[i := next_pn (nth i (dot11txpn s) 0)]> (dot11txpn s) /\
    forall rpre rpost,
      sw_decrypt_frame c m key key_len 24 (rpre ++ fr ++ rpost) (zlen rpre) (zlen fr)
      = Ret (_SUCCESS, rpre ++ set_iswep hdr ++ iv ++ body ++ drop (length body) crypt ++ rpost).
Proof.
  intros Hoff [] iv key. destruct (AES_IV_ok (next_pn (nth i (dot11txpn s) 0)) kid) as [Li Fi]. fold iv in Li, Fi.
  pose proof (proj1 ea_key0) as Hkl. pose proof (suite_mic_cases c m key_len Hkl) as Hmic.
  set (n := s_mic (suite_of c m key_len)) in *. pose proof (zlen_nonneg body).
  assert (n = 8 \/ n = 16) as Hn by (rewrite Hmic; destruct (_ =? _); auto).
  set (icv := take (Z.to_nat n) (tx_icv (tx_att s))). assert (zlen icv = n) as Lic by (unfold icv, zlen; rewrite length_take; lia).
  set (f := mk_txfrag (set_iswep hdr) iv body icv []).
  assert (frag_ready f) as Hr.
  { split; [|split; [done|cbn [f fr_hdr fr_data]; rewrite zlen_iswep; lia]].
    pose proof (marked_ok (ccmp_suite 0 16 8) hdr iv (mgmt_hdr_ok hdr iv ea_hdr0 ea_hbytes0 ea_type0 ea_addr5 Li Fi)) as H1. exact H1. }
  destruct (sw_img_spec c m key key_len f pre post ea_key0 Hr Lic) as (crypt & Lc & Eimg & Ee & Ed).
  cbn [f fr_hdr fr_iv fr_data fr_gap] in *. rewrite set_iswep_idem in *. rewrite zlen_iswep, ea_hdr0 in *. rewrite app_nil_r in Eimg.
  set (a' := set_pktlen (set_tx_ivs (set_tx_cipher (tx_att s) (enc_code c key_len)) 8 n) (24 + 8 + zlen crypt)).
  exists crypt, (mk_mgtx (tx_adp s) (tx_bip s) (tx_pairwise s) (<[i := next_pn (nth i (dot11txpn s) 0)]> (dot11txpn s)) a'
    (Some (pre ++ (set_iswep hdr ++ iv ++ crypt) ++ post))).
  assert (zlen (set_iswep hdr ++ iv ++ crypt) = 24 + 8 + zlen crypt) as Lf by (rewrite !zlen_app, zlen_iswep; lia).
  split; [done|]. cbv zeta. split; [|split_and!; [done..|]; intros rpre rpost; rewrite Lf, <- !app_assoc; apply Ed].
  unfold coalesce_encrypt. cbv zeta. rewrite ea_hdrlen0, ea_pktlen0, ea_kt0. change (0 =? IEEE80211W_NO_KEY) with false. cbv iota.
  assert (rd_slice (pre ++ hdr ++ body ++ room ++ post) off (24 + zlen body) = Ret (hdr ++ body)) as ->.
  { rewrite <- Hoff, <- ea_hdr0, <- zlen_app, (app_assoc hdr). apply rd_slice_app. }
  rewrite bind_Ret. cbn [pa set_tx_cipher tx_encrypt].
  assert ((enc_code c key_len =? _AES_) || (enc_code c key_len =? _CCMP_256_) || (enc_code c key_len =? _GCMP_) || (enc_code c key_len =? _GCMP_256_) = true) as ->
    by (destruct Hkl as [-> | ->]; by destruct c).
  cbn [negb]. rewrite <- Hmic, <- Hoff. cbn [pktlen set_tx_ivs bswenc pa tx_icv_len tx_icv dot11txpn set_pns tx_adp tx_bip tx_pairwise]. fold iv icv.
  replace (drop (Z.to_nat 24) (hdr ++ body)) with body by (rewrite drop_app_ge by (unfold zlen in *; lia); replace (_ - length hdr)%nat with O by (unfold zlen in *; lia); done).
  change (pktlen (set_tx_cipher (tx_att s) (enc_code c key_len))) with (pktlen (tx_att s)). rewrite ea_pktlen0.
  rewrite (u32_small (24 + zlen body + 8)), u32_small by (unfold is_u32; lia).
  replace (24 + zlen body + 8 + n) with (24 + 8 + zlen crypt) by lia. fold a'.
  destruct (insert_iv pre hdr body room post iv icv) as (m1 & m2 & E1 & E2 & E3); [unfold zlen in *; lia|].
  rewrite ea_hdr0, Li in *. rewrite E1, bind_Ret, E2, bind_Ret. replace (zlen pre + (24 + zlen body + 8)) with (zlen pre + 24 + 8 + zlen body) by lia.
  cbn [bswenc tx_icv set_tx_cipher]. fold icv. rewrite E3, bind_Ret.
  destruct (wr_iswep pre hdr (iv ++ body ++ icv ++ post)) as (b1 & -> & W); [lia|]. rewrite bind_Ret, W, bind_Ret.
  rewrite (swencrypt_sw_tx c m fl ba _ key_len) by done. rewrite (sw_tx_eq c m key_len) by done.
  change (nr_frags (pa a')) with (nr_frags (pa (tx_att s))). rewrite ea_frags0. change (Z.to_nat 1) with 1%nat. cbn [encrypt_frags].
  change (tx_hdrlen (pa a')) with (tx_hdrlen (pa (tx_att s))). change (tx_UncstKey (pa a')) with key. rewrite ea_hdrlen0.
  assert (u32 (frag_payload (pa a') fl 0) = zlen body) as ->.
  { change (frag_payload (pa a') fl 0) with ((if 0 + 1 =? nr_frags (pa (tx_att s)) then 24 + 8 + zlen crypt else fl) - tx_hdrlen (pa (tx_att s)) - 8 - n).
    rewrite ea_frags0, ea_hdrlen0. change (0 + 1 =? 1) with true. cbv iota. fold n in Lc. rewrite u32_small; unfold is_u32; lia. }
  replace (pre ++ set_iswep hdr ++ iv ++ body ++ icv ++ post) with (pre ++ plain_img f ++ post)
    by (unfold plain_img, frag_img, f; cbn [fr_hdr fr_iv fr_data fr_old fr_gap]; by rewrite app_nil_r, <- !app_assoc).
  rewrite Ee, Eimg. reflexivity.
Qed.

(** A received protected unicast management frame [fr] of station [j], whose
    pairwise key starts with the first [key_len] bytes of [key]. *)
Record enc_frame (c : sw_cipher) (key_len : Z) (key : bytes) (r : mgrx) (j : nat) (rpre fr rpost : bytes) : Prop := {
  ef_mem : rx_mem (frm (rx r)) = rpre ++ fr ++ rpost;
  ef_data : rx_data (frm (rx r)) = zlen rpre;
  ef_len : len (frm (rx r)) = zlen fr;
  ef_pkt : pkt_len r = zlen fr;
  ef_priv : privacy (att (rx r)) = 1;
  ef_sta : get_sta (rx r) (slice fr 10 6) = Some j;
  ef_mfp : bit_test (sta_flags (sta_entry (rx r) j)) WLAN_STA_MFP = true;
  ef_cipher : dot118021XPrivacy (sta_entry (rx r) j) = enc_code c key_len;
  ef_key : suite_key (dot118021x_UncstKey (sta_entry (rx r) j)) key_len;
  ef_agree : take (Z.to_nat key_len) (dot118021x_UncstKey (sta_entry (rx r) j)) = take (Z.to_nat key_len) key;
  ef_uni : is_group fr = false;
  ef_inst : binstallBIPkey (bip r) = true
}.

Lemma enc_code_cases c m key_len :
  key_len = 16 \/ key_len = 32 ->
  0 <? enc_code c key_len = true /\ (enc_code c key_len =? 0) = false /\
  SET_ICE_IV_LEN (enc_code c key_len) = (8, s_mic (suite_of c m key_len)).
Proof. intros [-> | ->]; by destruct c. Qed.

Lemma sw_decrypt_sw_rx c m key_len s :
  key_len = 16 \/ key_len = 32 -> encrypt (att s) = enc_code c key_len ->
  sw_decrypt (rtw_aes_decrypt m) (rtw_gcmp_decrypt m) s = sw_rx c m s.
Proof. intros Hk He. unfold sw_decrypt. rewrite He. by destruct c, Hk as [-> | ->]. Qed.

(** Decryption of such a frame, prepared by [mgmt_decrypt]. *)
Lemma decryptor_mgmt c m key_len s key fr mem' :
  key_len = 16 \/ key_len = 32 -> region (rx_mem (frm s)) (rx_data (frm s)) fr -> 28 <= zlen fr ->
  WLAN_FC_GET_TYPE (hdr_fc fr) = 0 -> encrypt (att s) = enc_code c key_len -> bdecrypted (att s) = 0 -> hdrlen (att s) = 24 ->
  IS_MCAST (ra (att s)) = false -> rx_has_key s key ->
  sw_decrypt_frame c m key key_len 24 (rx_mem (frm s)) (rx_data (frm s)) (len (frm s)) = Ret (_SUCCESS, mem') ->
  exists s', decryptor (rtw_aes_decrypt m) (rtw_gcmp_decrypt m) s = Ret (Some s') /\ rx_mem (frm s') = mem'.
Proof.
  intros Hk R L Ht He Hb Hh Hm Hkey Hd. destruct (enc_code_cases c m key_len Hk) as (P1 & P2 & _).
  unfold decryptor. cbv zeta. rewrite He, P1, Hh. cbv iota. rewrite <- (Z.add_assoc _ 24 3).
  rewrite (region_rd_znth _ _ _ _ R), bind_Ret by lia. set (s1 := with_att s _). rewrite bind_Ret.
  change (encrypt (att s1)) with (encrypt (att s)). change (bdecrypted (att s1)) with (bdecrypted (att s)). rewrite He, Hb, P2.
  cbn [negb andb Z.eqb]. unfold hdr16. change (rx_mem (frm s1)) with (rx_mem (frm s)). change (rx_data (frm s1)) with (rx_data (frm s)).
  rewrite (region_le16_znth _ _ _ _ R), bind_Ret by lia. change (0 + 1) with 1. fold (hdr_fc fr).
  change (GetFrameType (hdr_fc fr)) with (WLAN_FC_GET_TYPE (hdr_fc fr)). rewrite Ht. change (0 =? WIFI_DATA_TYPE) with false. cbv iota.
  rewrite (sw_decrypt_sw_rx c m key_len), (sw_rx_eq c m key_len s1 key) by done.
  change (hdrlen (att s1)) with (hdrlen (att s)). rewrite Hh. change (rx_mem (frm s1)) with (rx_mem (frm s)).
  change (rx_data (frm s1)) with (rx_data (frm s)). change (len (frm s1)) with (len (frm s)). rewrite Hd, !bind_Ret.
  eexists. split; reflexivity.
Qed.

(** The body moves in front of the IV. *)
Lemma move_body pre hdr iv body rest :
  exists tail, length tail = (length iv + length rest)%nat /\
    rd_slice (pre ++ hdr ++ iv ++ body ++ rest) (zlen pre + zlen hdr + zlen iv) (zlen body) = Ret body /\
    wr_slice (pre ++ hdr ++ iv ++ body ++ rest) (zlen pre + zlen hdr) body = Ret (pre ++ hdr ++ body ++ tail).
Proof.
  exists (drop (length body) (iv ++ body) ++ rest). split; [rewrite length_app, length_drop, length_app; lia|]. rewrite <- !zlen_app. split.
  - rewrite (app_assoc pre), (app_assoc (pre ++ hdr)). apply rd_slice_app.
  - rewrite (app_assoc pre), (app_assoc iv), <- (take_drop (length body) (iv ++ body)) at 1. rewrite <- (app_assoc (take _ _)).
    rewrite wr_slice_app by (rewrite length_take, length_app; lia). by rewrite <- !app_assoc.
Qed.

Lemma mgmt_decrypt_spec alloc c m key_len key r j rpre hdr iv crypt body rest rpost :
  let fr := hdr ++ iv ++ crypt in
  enc_frame c key_len key r j rpre fr rpost -> key_len = 16 \/ key_len = 32 -> suite_key key key_len ->
  zlen hdr = 24 -> zlen iv = 8 -> WLAN_FC_GET_TYPE (hdr_fc hdr) = 0 ->
  zlen crypt = zlen body + s_mic (suite_of c m key_len) -> zlen body < 2 ^ 16 - 2 ^ 8 -> alloc (zlen body) = true ->
  sw_decrypt_frame c m key key_len 24 (rpre ++ fr ++ rpost) (zlen rpre) (zlen fr) = Ret (_SUCCESS, rpre ++ hdr ++ iv ++ body ++ rest) ->
  exists r' tail, validate_mgmt_protect alloc (decryptor (rtw_aes_decrypt m) (rtw_gcmp_decrypt m)) r (Some j) = Ret (_SUCCESS, r') /\
    rx_mem (frm (rx r')) = rpre ++ hdr ++ body ++ tail /\ pkt_len r' = zlen (hdr ++ body) /\ bip r' = bip r.
Proof.
  intros fr [] Hk Hs Lh Li Ht Lc Lb Hal Hd. pose proof (suite_mic_cases c m key_len Hk) as Hmic.
  assert (zlen fr = 32 + zlen crypt) as Lf by (unfold fr; rewrite !zlen_app; lia). pose proof (zlen_nonneg body).
  assert (0 < s_mic (suite_of c m key_len) <= 16) as Hn by (rewrite Hmic; destruct (_ =? _); lia).
  assert (region (rx_mem (frm (rx r))) (rx_data (frm (rx r))) fr) as R by (exists rpre, rpost; by rewrite ef_mem0, ef_data0).
  assert (hdr_fc fr = hdr_fc hdr) as Ef by (unfold fr; apply hdr_fc_app; lia).
  unfold validate_mgmt_protect. rewrite ef_inst0. cbn [negb]. cbv zeta. unfold hdr16, Addr1, hdr_addr.
  rewrite !(region_le16_znth _ _ _ _ R), bind_Ret, !(region_slice_eq _ _ _ _ _ R), bind_Ret by (unfold WLAN_HDR_A3_LEN; lia).
  rewrite ef_priv0, ef_mfp0. cbn [Z.eqb negb]. unfold mgmt_decrypt. cbv zeta. rewrite ef_cipher0.
  destruct (enc_code_cases c m key_len Hk) as (_ & _ & ->).
  unfold Addr1, addr2, hdr_addr. rewrite !(region_slice_eq _ _ _ _ _ R), !bind_Ret by lia.
  set (a := set_addrs _ _ _ _ _ _). cbn [with_rx pkt_len rx]. rewrite ef_pkt0.
  replace (u32 (zlen fr - 24 - 8 - s_mic (suite_of c m key_len))) with (zlen body) by (rewrite u32_small; unfold is_u32; lia).
  rewrite Hal. cbn [negb].
  destruct (decryptor_mgmt c m key_len (with_att (rx r) a) (dot118021x_UncstKey (sta_entry (rx r) j)) fr (rpre ++ hdr ++ iv ++ body ++ rest)) as (s' & Es & Em); try done.
  { lia. }
  { by rewrite Ef. }
  { exists j. by split. }
  { change (frm (with_att (rx r) a)) with (set_attrib (frm (rx r)) a). cbn [rx_mem rx_data len set_attrib]. rewrite ef_mem0, ef_data0, ef_len0.
    by rewrite (decrypt_agree c m _ key). }
  rewrite Es, bind_Ret, Em, ef_data0. destruct (move_body rpre hdr iv body rest) as (tail & _ & E1 & E2). rewrite Lh, Li in E1. rewrite Lh in E2.
  rewrite E1, bind_Ret, E2, bind_Ret. eexists _, tail. split; [reflexivity|]. split; [reflexivity|]. split; [|done].
  cbn [pkt_len with_pkt_len]. rewrite u16_small by (unfold is_u16; lia). rewrite zlen_app. lia.
Qed.

(** The pairwise key as it is copied into the attributes. *)
Definition tx_key (s : mgtx) (i : nat) (key_len : Z) : bytes :=
  take (Z.to_nat key_len) (dot118021x_UncstKey (tx_entry s i)) ++ drop (Z.to_nat key_len) (tx_UncstKey (pa (tx_att s))).

(** What a sender needs to encrypt the robust frame [hdr ++ body] to the
    station [i]. *)
Record mgmt_sender (c : sw_cipher) (m key_len off : Z) (s : mgtx) (i : nat) (pre hdr body room post : bytes) : Prop := {
  ms_off : zlen pre = off;
  ms_buf : tx_buf s = Some (pre ++ hdr ++ body ++ room ++ post);
  ms_attrs : enc_attrs c m key_len (set_tx_key (tx_att s) (tx_key s i key_len)) hdr body room;
  ms_body : zlen body < 2 ^ 16 - 2 ^ 8;
  ms_robust : is_robust (hdr ++ body) = true;
  ms_action : is_action hdr = true -> 0 < zlen body;
  ms_sta : tx_psta (tx_att s) = Some i \/
    tx_psta (tx_att s) = None /\ rtw_get_stainfo (stapriv (tx_adp s)) (Some (tx_ra (pa (tx_att s)))) = Some i;
  ms_mfp : bit_test (sta_flags (tx_entry s i)) WLAN_STA_MFP = true;
  ms_inst : tx_pairwise s i = true;
  ms_cipher : dot118021XPrivacy (tx_entry s i) = enc_code c key_len;
  ms_key : suite_key (dot118021x_UncstKey (tx_entry s i)) key_len
}.

Lemma coalesce_unicast alloc c m fl ba off s i key_len pre hdr body room post :
  mgmt_sender c m key_len off s i pre hdr body room post -> alloc (u32 (20 + (24 + zlen body) + 26)) = true ->
  exists s1, enc_attrs c m key_len (tx_att s1) hdr body room /\ tx_UncstKey (pa (tx_att s1)) = tx_key s i key_len /\ dot11txpn s1 = dot11txpn s /\
    rtw_mgmt_xmitframe_coalesce alloc m fl ba off s
    = coalesce_encrypt m fl ba off s1 (pre ++ hdr ++ body ++ room ++ post) i (enc_code c key_len) 0.
Proof.
  intros [] Hal. pose proof ms_attrs0 as [? ? ? ? ? ? ? ? ? Lh ? ? ? ?]. cbn in ea_pktlen0, ea_ra0, ea_kt0.
  set (P := hdr ++ body). assert (24 <= zlen P) as LP by (unfold P; rewrite zlen_app; pose proof (zlen_nonneg body); lia).
  assert (is_action P = is_action hdr) as EA by (unfold is_action, P; by rewrite hdr_fc_app by lia).
  unfold rtw_mgmt_xmitframe_coalesce. rewrite ms_buf0, ea_ra0, ea_pktlen0. cbv zeta. unfold BIP_AAD_SIZE, _MME_IE_LENGTH_. rewrite Hal.
  assert (region (pre ++ hdr ++ body ++ room ++ post) off P) as R by (exists pre, (room ++ post); split; [unfold P; by rewrite <- app_assoc | done]).
  assert (le16_get (pre ++ hdr ++ body ++ room ++ post) off = Ret (hdr_fc P)) as ->
    by (rewrite <- (Z.add_0_r off); rewrite (region_le16_znth _ _ _ _ R) by lia; done).
  rewrite bind_Ret.
  fold (is_action P). assert (negb (get_frame_sub_type (hdr_fc P) =? WIFI_DEAUTH) && negb (get_frame_sub_type (hdr_fc P) =? WIFI_DISASSOC) && negb (is_action P) = false) as ->.
  { rewrite <- negb_orb. fold (is_deauth P). fold P in ms_robust0. unfold is_robust in ms_robust0. destruct (is_deauth P), (is_action P); try done. }
  assert (exists cat, (if is_action P then rd (pre ++ hdr ++ body ++ room ++ post) (off + 24) else Ret 255) = Ret cat /\
    is_action P && CATEGORY_IS_NON_ROBUST cat = false) as (cat & -> & Ecat).
  { fold P in ms_robust0. unfold is_robust, CATEGORY_IS_ROBUST in ms_robust0. destruct (is_action P) eqn:A; [|by eexists].
    rewrite (region_rd_znth _ _ _ _ R) by (split; [lia|]; rewrite EA in *; unfold P; rewrite zlen_app; specialize (ms_action0 eq_refl); lia).
    eexists. split; [done|]. cbn [andb] in *. destruct (CATEGORY_IS_NON_ROBUST _); [|done]. cbn [negb] in ms_robust0. rewrite orb_false_r in ms_robust0.
    unfold is_deauth in ms_robust0. unfold is_action in A. apply Z.eqb_eq in A. by rewrite A in ms_robust0. }
  rewrite bind_Ret, Ecat.
  assert (exists s0, tx_sta s (rtw_get_stainfo (stapriv (tx_adp s)) (Some (tx_ra (pa (tx_att s))))) = (Some i, s0) /\
    (s0 = s \/ s0 = set_tx_att s (set_tx_psta (tx_att s) (Some i)))) as (s0 & -> & Hs0).
  { unfold tx_sta. destruct ms_sta0 as [-> | [-> ->]]; eauto. }
  assert ((if bit_test (enc_code c key_len) _SEC_TYPE_256_ then 32%nat else 16%nat) = Z.to_nat key_len) as En
    by (destruct ms_key0 as [[-> | ->] _]; by destruct c).
  destruct Hs0 as [-> | ->].
  - rewrite ms_mfp0, ms_inst0, ms_cipher0, ea_kt0, En. cbn [negb]. change (0 =? IEEE80211W_WRONG_KEY) with false. cbv iota.
    fold (tx_key s i key_len). exists (set_tx_att s (set_tx_key (tx_att s) (tx_key s i key_len))). by split_and!.
  - set (s0 := set_tx_att _ _). change (tx_entry s0 i) with (tx_entry s i). change (tx_pairwise s0 i) with (tx_pairwise s i).
    change (key_type (tx_att s0)) with (key_type (tx_att s)). change (tx_UncstKey (pa (tx_att s0))) with (tx_UncstKey (pa (tx_att s))).
    rewrite ms_mfp0, ms_inst0, ms_cipher0, ea_kt0, En. cbn [negb]. change (0 =? IEEE80211W_WRONG_KEY) with false. cbv iota.
    fold (tx_key s i key_len). exists (set_tx_att s0 (set_tx_key (tx_att s0) (tx_key s i key_len))). split_and!; [|done..].
    by destruct ms_attrs0.
Qed.

(** A unicast deauthentication, disassociation or robust action frame
    that [rtw_mgmt_xmitframe_coalesce] encrypts for a station with management
    frame protection, under CCMP or GCMP with a 128 or 256 bit key, carries the
    station's next packet number, and [validate_mgmt_protect] of the receiver
    with the same pairwise key accepts it: it leaves the header (marked
    protected) directly followed by the original body, and the original length. *)
Theorem protected_mgmt_roundtrip alloc c m fl ba key_len off s i pre hdr body room post :
  mgmt_sender c m key_len off s i pre hdr body room post -> (forall n, 0 <= n < 2 ^ 17 -> alloc n = true) ->
  exists crypt s', let fr := set_iswep hdr ++ AES_IV (next_pn (nth i (dot11txpn s) 0)) 0 ++ crypt in
    rtw_mgmt_xmitframe_coalesce alloc m fl ba off s = Ret (_SUCCESS, s') /\
    tx_buf s' = Some (pre ++ fr ++ post) /\ pktlen (tx_att s') = zlen fr /\
    dot11txpn s' = <[i := next_pn (nth i (dot11txpn s) 0)]> (dot11txpn s) /\
    forall r j rpre rpost,
      enc_frame c key_len (dot118021x_UncstKey (tx_entry s i)) r j rpre fr rpost ->
      exists r' tail, validate_mgmt_protect alloc (decryptor (rtw_aes_decrypt m) (rtw_gcmp_decrypt m)) r (Some j) = Ret (_SUCCESS, r') /\
        rx_mem (frm (rx r')) = rpre ++ set_iswep hdr ++ body ++ tail /\ pkt_len r' = zlen (hdr ++ body) /\ bip r' = bip r.
Proof.
  intros Hs Hal. pose proof (ms_body _ _ _ _ _ _ _ _ _ _ _ Hs) as Lb. pose proof (zlen_nonneg body).
  destruct (coalesce_unicast alloc c m fl ba off s i key_len pre hdr body room post Hs) as (s1 & Ha & Hk & Hp & Ec).
  { apply Hal. rewrite u32_small; unfold is_u32; lia. }
  destruct (coalesce_encrypt_spec off m fl ba s1 c key_len pre hdr body room post i 0 (ms_off _ _ _ _ _ _ _ _ _ _ _ Hs) Ha)
    as (crypt & s' & Lc & Ee & Hb & Hl & Hpn & Hd).
  rewrite Hp in *. rewrite Hk in Hd. exists crypt, s'. cbv zeta. rewrite Ec. split_and!; try done.
  intros r j rpre rpost Hf. pose proof (ms_key _ _ _ _ _ _ _ _ _ _ _ Hs) as Hkey. pose proof (ea_key _ _ _ _ _ _ _ Ha) as Hkey1. rewrite Hk in Hkey1.
  pose proof (ea_hdr _ _ _ _ _ _ _ Ha) as Lh. destruct (AES_IV_ok (next_pn (nth i (dot11txpn s) 0)) 0) as [Li _].
  destruct (mgmt_decrypt_spec alloc c m key_len (tx_key s i key_len) r j rpre (set_iswep hdr) (AES_IV (next_pn (nth i (dot11txpn s) 0)) 0)
    crypt body (drop (length body) crypt ++ rpost) rpost) as (r' & tail & E1 & E2 & E3 & E4); try done.
  - destruct Hf. split; try done. rewrite ef_agree0. unfold tx_key. unfold zlen in *.
    destruct Hkey as (? & ? & ?). rewrite take_app_le, take_take, Nat.min_id by (rewrite length_take; unfold zlen in *; lia). done.
  - apply Hkey.
  - by rewrite zlen_iswep.
  - unfold WLAN_FC_GET_TYPE. rewrite iswep_land; [apply (ea_type _ _ _ _ _ _ _ Ha) | unfold zlen in *; lia | done].
  - apply Hal. lia.
  - exists r', tail. split_and!; try done. rewrite E3, !zlen_app, zlen_iswep. done.
Qed.

(** *** Examples: frames of a station with management frame protection *)

Definition mp_sta (e : sta_info) : sta_info :=
  mk_sta (mac_addr e) 1 1 WLAN_STA_MFP 0 _AES_ (dot11tkiprxmickey e) (map Z.of_nat (seq 0 32)) 0 0 0
    (recvpriv e) (recvreorder_ctrl e) (stx e) (sps e).

(** The entry of the peer is the second one. *)
Definition mp_adapter : adapter :=
  let p := stapriv ex_adapter in
  set_stapriv ex_adapter
    (mk_stapriv (alter mp_sta 1%nat (stainfo_buf p)) (free_sta_queue p) (sta_hash p) (asoc_sta_count p) (auth_list p)
       (auth_list_cnt p) (sta_aid p) (max_aid p) (started_aid p) (rr_aid p) (max_num_sta p) (sta_dz_bitmap p) (tim_bitmap p) (accnt p)).

Definition mp_bip : bip_priv := mk_bip true _BIP_CMAC_128_ 4 (replicate 6 (map Z.of_nat (seq 7 32))) 10 3.

Definition mp_hdr (a1 : bytes) : bytes := [0xC0; 0; 0; 0] ++ a1 ++ ex_ap ++ ex_ap ++ [0x10; 0].
Definition mp_deauth (a1 : bytes) : bytes := mp_hdr a1 ++ [7; 0].

Definition mp_rx (fr : bytes) : mgrx :=
  mk_mgrx (mk_rxs mp_adapter (mk_frame (mk_attrib 0 0 0 0 0 0 0 0 0 0 0 0 0 0 [] [] [] [] [] 0 0) fr 0 (zlen fr) (zlen fr) 0) [])
    mp_bip (zlen fr) (fun _ => true).

Lemma mp_bip_ok : bip_ok mp_bip.
Proof. split; [done|]. left. split; [by left|]. split; [by left|]. split; [done|]. by_eval. Qed.

Lemma mp_rx_frame fr : bytes_ok fr -> 26 <= zlen fr -> mgmt_frame (mp_rx fr) 1 fr.
Proof. intros F L. split; try done. exists [], []. by rewrite app_nil_r. Qed.

(** Two forged deauthentications, to the group and to the station. *)
Lemma mgmt_protection_witness :
  exists vs b', mgmt_run (fun _ => true) (fun _ => Ret None) mp_bip [(mp_rx (mp_deauth bc_addr), 1%nat); (mp_rx (mp_deauth ex_me), 1%nat)] = Ret (vs, b') /\
    length vs = 2%nat /\ accepted [mp_deauth bc_addr; mp_deauth ex_me] vs = [].
Proof.
  destruct (mgmt_protection (fun _ => true) (fun _ => Ret None) mp_bip
    [(mp_rx (mp_deauth bc_addr), 1%nat); (mp_rx (mp_deauth ex_me), 1%nat)] [mp_deauth bc_addr; mp_deauth ex_me] mp_bip_ok) as (vs & b' & E & L & _).
  { repeat apply Forall2_cons_2; [| |by apply Forall2_nil_2]; apply mp_rx_frame; first [by_eval | vm_compute; discriminate]. }
  exists vs, b'. split; [done|]. split; [done|]. vm_compute in E. injection E as <- _. reflexivity.
Defined.

Definition mp_att (ra : bytes) (l : Z) : mgmt_attrib :=
  mk_matt (mk_pkt 0 24 0 0 1 0 ra ex_ap (replicate 32 0)) l 0 false None (replicate 16 0).

Definition mp_tx (ra room : bytes) : mgtx :=
  mk_mgtx mp_adapter mp_bip (fun _ => true) (replicate 32 5) (mp_att ra (zlen (mp_deauth ra)))
    (Some (replicate 40 0 ++ mp_deauth ra ++ room ++ [])).

Lemma bip_frames_accepted_witness :
  exists mic s', rtw_mgmt_xmitframe_coalesce (fun _ => true) 0 0 0 40 (mp_tx bc_addr (replicate 18 0)) = Ret (_SUCCESS, s') /\
    tx_buf s' = Some (replicate 40 0 ++ (mp_deauth bc_addr ++ mme _BIP_CMAC_128_ 4 11 ++ mic) ++ []) /\ dot11wBIPtxpn (tx_bip s') = 11.
Proof.
  destruct (bip_frames_accepted (fun _ => true) (fun _ => Ret None) 0 0 0 40 (mp_tx bc_addr (replicate 18 0)) (replicate 40 0) (mp_deauth bc_addr)
    (replicate 18 0) []) as (mic & s' & E1 & E2 & _ & E3 & _).
  - split; [reflexivity | by_eval | by_eval | reflexivity | reflexivity | reflexivity | exact mp_bip_ok | by_eval | by_eval].
  - split; [reflexivity|]. split; [reflexivity | discriminate].
  - reflexivity.
  - reflexivity.
  - reflexivity.
  - exists mic, s'. split; [exact E1|]. split; [exact E2|]. rewrite E3. reflexivity.
Defined.

Lemma protected_mgmt_roundtrip_witness :
  exists crypt s', rtw_mgmt_xmitframe_coalesce (fun _ => true) 0 0 0 40
      (mk_mgtx mp_adapter mp_bip (fun _ => true) (replicate 32 5) (mp_att ex_ap 26) (Some (replicate 40 0 ++ mp_hdr ex_ap ++ [7; 0] ++ replicate 16 0 ++ [])))
    = Ret (_SUCCESS, s') /\
    tx_buf s' = Some (replicate 40 0 ++ (set_iswep (mp_hdr ex_ap) ++ AES_IV 6 0 ++ crypt) ++ []).
Proof.
  destruct (protected_mgmt_roundtrip (fun _ => true) CCMP 0 0 0 16 40
    (mk_mgtx mp_adapter mp_bip (fun _ => true) (replicate 32 5) (mp_att ex_ap 26) (Some (replicate 40 0 ++ mp_hdr ex_ap ++ [7; 0] ++ replicate 16 0 ++ [])))
    1 (replicate 40 0) (mp_hdr ex_ap) [7; 0] (replicate 16 0) []) as (crypt & s' & E1 & E2 & _).
  - split; [reflexivity | reflexivity | | by_eval | reflexivity | by_eval | right; split; [reflexivity | vm_compute; reflexivity] |
      reflexivity | reflexivity | reflexivity | split; [by left|]; split; [vm_compute; discriminate | by_eval]].
    split; [reflexivity | reflexivity | by_eval | reflexivity | reflexivity | reflexivity |
      split; [by left|]; split; [vm_compute; discriminate | by_eval] | reflexivity..| by_eval | by_eval | reflexivity | reflexivity].
  - reflexivity.
  - exists crypt, s'. split; [exact E1 | exact E2].
Defined.
