(* ===== verification/Msdu.v ===== *)
(** * From MPDUs to packets (core/rtw_recv.c, core/rtw_ap.c, os_dep/linux/recv_linux.c)

    [recv_process_mpdu] turns an accepted frame into Ethernet packets for the
    network stack: [amsdu_to_msdu] cuts an A-MSDU into its subframes, an
    access point decides with [rtw_ap_rx_msdu_act_check] whether a packet is
    handed up, forwarded to another station, or both, and [recv_fwd_pkt_hdl]
    hands copies to the transmit path.

    What runs next to this code is an argument of the definitions: whether the
    kernel's [n]-th allocation succeeds and how many transmit frames are free
    at the time ([tick] counts the requests).  Packets and transmit frames
    this code holds are counted, so that theorems can state that none is lost. *)

From S2P Require Import Prelude RxFrame Reorder StaMgt SwCrypt Acl RxCheck Defrag.

(** ** Constants *)

Definition RTW_RX_MSDU_ACT_NONE : Z := 0.
Definition RTW_RX_MSDU_ACT_INDICATE : Z := BIT 0.
Definition RTW_RX_MSDU_ACT_FORWARD : Z := BIT 1.
Definition MAX_SUBFRAME_COUNT : Z := 64.
Definition RTW_AMSDU_MODE_NON_SPP : Z := 0.
Definition NR_XMITFRAME : Z := 256.
Definition RTW_AP_B2U_ALL : Z := BIT 0.
Definition RTW_AP_B2U_GA_UCAST : Z := BIT 1.
Definition RTW_AP_B2U_BCAST : Z := BIT 2.
Definition RTW_AP_B2U_IP_MCAST : Z := BIT 3.

(** ** Data *)

(** A kernel packet: its own bytes, or a clone that shares the buffer of the
    receive frame, from offset [data] on. *)
Inductive skb := Own (d : bytes) | Shared (data l : Z).

Definition rtw_os_pkt_data (mem : bytes) (p : skb) : res bytes :=
  match p with Own d => Ret d | Shared i n => rd_slice mem i n end.

(** [struct xmit_frame] with the [pkt_attrib] fields a forwarded frame gets. *)
Record xmit_frame := mk_xf { x_dst : bytes; x_src : bytes; x_ta : bytes; x_ra : bytes; os_qid : Z }.

(** What leaves this code, in order. *)
Inductive msdu_out :=
| rtw_os_recv_indicate_pkt (pkt : bytes)
| rtw_xmit_posthandle (x : xmit_frame) (pkt : bytes).

(** Fields of the adapter read here only: [registrypriv.amsdu_mode] and
    [.wifi_spec], [mlmepriv.ap_isolate], the association list of [stapriv]. *)
Record rx_cfg := mk_cfg {
  amsdu_mode : Z;
  ap_isolate : bool;
  b2u_flags_ap_fwd : Z;
  wifi_spec : Z;
  asoc_list : list nat;
  asoc_list_cnt : Z;
  cannot_run : bool
}.

Record msst := mk_ms {
  base : rxs;                (* adapter and frame *)
  cfg : rx_cfg;
  hdr_psta : option nat;     (* u.hdr.psta *)
  tick : nat;
  xframes : Z;               (* transmit frames held *)
  skbs : Z;                  (* packets held, besides the frame's own *)
  tx_drop : Z;
  outs : list msdu_out
}.

Definition with_base (s : msst) (r : rxs) : msst :=
  mk_ms r (cfg s) (hdr_psta s) (tick s) (xframes s) (skbs s) (tx_drop s) (outs s).
Definition tock (s : msst) : msst :=
  mk_ms (base s) (cfg s) (hdr_psta s) (S (tick s)) (xframes s) (skbs s) (tx_drop s) (outs s).
Definition hold_x (s : msst) (n : Z) : msst :=
  mk_ms (base s) (cfg s) (hdr_psta s) (tick s) (xframes s + n) (skbs s) (tx_drop s) (outs s).
Definition hold_skb (s : msst) (n : Z) : msst :=
  mk_ms (base s) (cfg s) (hdr_psta s) (tick s) (xframes s) (skbs s + n) (tx_drop s) (outs s).
Definition inc_tx_drop (s : msst) : msst :=
  mk_ms (base s) (cfg s) (hdr_psta s) (tick s) (xframes s) (skbs s) (u64 (tx_drop s + 1)) (outs s).
Definition emit (s : msst) (o : msdu_out) : msst :=
  mk_ms (base s) (cfg s) (hdr_psta s) (tick s) (xframes s) (skbs s) (tx_drop s) (outs s ++ [o]).

Definition mem_of (s : msst) : bytes := rx_mem (frm (base s)).
Definition with_mem (s : msst) (m : bytes) : msst := with_base s (with_frm (base s) (set_mem (frm (base s)) m)).
Definition ad_of (s : msst) : adapter := adp (base s).

(** ** Subframes

    The packet made of one subframe, and the A-MSDU format: subframe headers
    of fourteen bytes, messages, padding to four bytes. *)

Definition be16 (n : Z) : bytes := [Z.shiftr (u16 n) 8; Z.land (u16 n) 255].

Definition eth_of (da sa m : bytes) : bytes := da ++ sa ++ if llc_of m then drop 6 m else be16 (zlen m) ++ m.

Definition pad (n : Z) : Z := (- (14 + n)) mod 4.

Definition sub_len (d : bytes) : Z := u16 (Z.lor (Z.shiftl (znth d 12) 8) (znth d 13)).

Fixpoint subframes_of (fuel : nat) (d : bytes) : list (bytes * bytes * bytes) :=
  match fuel with
  | O => []
  | S fuel =>
      let n := sub_len d in
      if (zlen d <=? 14) || (zlen d <? 14 + n) then []
      else (take 6 d, take 6 (drop 6 d), take (Z.to_nat n) (drop 14 d))
           :: subframes_of fuel (drop (Z.to_nat (14 + n + pad n)) d)
  end.

(** The subframes of a message body. *)
Definition subframes (d : bytes) : list (bytes * bytes * bytes) := subframes_of (length d) d.

Lemma pad_code n : 0 <= n ->
  (let p := 4 - Z.land (n + ETH_HLEN) 3 in if p =? 4 then 0 else p) = pad n /\ 0 <= pad n < 4.
Proof.
  intros H. unfold pad, ETH_HLEN. change 3 with (Z.ones 2). rewrite Z.land_ones by lia. change (2 ^ 2) with 4.
  cbn zeta. destruct (Z.eqb_spec (4 - (n + 14) mod 4) 4); Z.to_euclidean_division_equations; lia.
Qed.

Lemma sub_len_range d : 0 <= sub_len d < 65536.
Proof. apply u16_range. Qed.

Lemma subframes_fuel k d : (length d <= k)%nat -> subframes_of k d = subframes d.
Proof.
  assert (forall k k' d, (length d <= k)%nat -> (length d <= k')%nat -> subframes_of k d = subframes_of k' d) as H; [|intros; by apply H].
  clear k d. intros k. induction k as [|k IH]; intros k' d H H'.
  - destruct d; [|cbn in H; lia]. by destruct k'.
  - destruct k' as [|k']; [destruct d; [done|cbn in H'; lia]|]. cbn [subframes_of].
    destruct (_ || _) eqn:B; [done|]. f_equal. apply orb_false_elim in B as [B _]. apply Z.leb_gt in B. unfold zlen in B.
    pose proof (sub_len_range d). pose proof (pad_code (sub_len d)) as [_ Hp]; [lia|]. apply IH; rewrite length_drop; lia.
Qed.

(** A complete first subframe. *)
Lemma subframes_cons d : 14 < zlen d -> 14 + sub_len d <= zlen d ->
  exists da sa two m rest, d = ((da ++ sa ++ two) ++ m) ++ rest /\ length da = 6%nat /\ length sa = 6%nat /\ length two = 2%nat /\
    zlen m = sub_len d /\ subframes d = (da, sa, m) :: subframes (drop (Z.to_nat (pad (zlen m))) rest).
Proof.
  intros H1 H2. pose proof (sub_len_range d) as Hr. destruct (pad_code (sub_len d)) as [_ Hp]; [lia|]. unfold zlen in *.
  exists (take 6 d), (take 6 (drop 6 d)), (take 2 (drop 12 d)), (take (Z.to_nat (sub_len d)) (drop 14 d)), (drop (Z.to_nat (14 + sub_len d)) d).
  assert (length (take (Z.to_nat (sub_len d)) (drop 14 d)) = Z.to_nat (sub_len d)) as Lm.
  { rewrite length_take, length_drop. lia. }
  split_and!.
  - rewrite <- !app_assoc. rewrite <- (take_drop 6 d) at 1. f_equal. rewrite <- (take_drop 6 (drop 6 d)) at 1. f_equal.
    rewrite drop_drop. change (6 + 6)%nat with 12%nat. rewrite <- (take_drop 2 (drop 12 d)) at 1. f_equal.
    rewrite drop_drop. change (12 + 2)%nat with 14%nat. rewrite <- (take_drop (Z.to_nat (sub_len d)) (drop 14 d)) at 1. f_equal.
    rewrite drop_drop. f_equal. lia.
  - rewrite length_take. lia.
  - rewrite length_take, length_drop. lia.
  - rewrite length_take, length_drop. lia.
  - rewrite Lm. lia.
  - unfold subframes at 1. destruct (length d) eqn:L; [lia|]. cbn [subframes_of].
    destruct (Z.leb_spec (zlen d) 14) as [B|_]; [unfold zlen in B; lia|]. destruct (Z.ltb_spec (zlen d) (14 + sub_len d)) as [B|_]; [unfold zlen in B; lia|].
    cbn [orb]. f_equal. rewrite Lm, drop_drop. replace (Z.of_nat (Z.to_nat (sub_len d))) with (sub_len d) by lia.
    rewrite subframes_fuel by (rewrite length_drop; lia). do 2 f_equal. lia.
Qed.

Lemma subframes_nil d : zlen d <= 14 \/ zlen d < 14 + sub_len d -> subframes d = [].
Proof.
  intros H. unfold subframes. destruct (length d); [done|]. cbn [subframes_of].
  destruct (Z.leb_spec (zlen d) 14); [done|]. destruct (Z.ltb_spec (zlen d) (14 + sub_len d)); [done|lia].
Qed.

Lemma be16_at P d R : 14 <= zlen d -> be16_get (P ++ d ++ R) (zlen P + 12) = Ret (sub_len d).
Proof.
  intros H. assert (forall k, 0 <= k < zlen d -> rd (P ++ d ++ R) (zlen P + k) = Ret (znth d k)) as Rd.
  { intros k Hk. rewrite rd_app_r by lia. replace (zlen P + k - zlen P) with k by lia. rewrite rd_app_l by lia.
    destruct (rd_in_bounds d k Hk) as (x & -> & Hx). f_equal. unfold znth. symmetry. by apply nth_lookup_Some. }
  unfold be16_get. rewrite (Rd 12) by lia. rewrite bind_Ret. replace (zlen P + 12 + 1) with (zlen P + 13) by lia.
  rewrite (Rd 13) by lia. reflexivity.
Qed.

(** ** Packets stay what they were *)

(** [p] holds [b], given the part of the buffer the loop has passed. *)
Definition skb_in (P : bytes) (p : skb) (b : bytes) : Prop :=
  match p with
  | Own d => d = b
  | Shared i n => exists X Y, P = X ++ b ++ Y /\ i = zlen X /\ n = zlen b
  end.

Lemma skb_in_app P Q p b : skb_in P p b -> skb_in (P ++ Q) p b.
Proof. destruct p; [done|]. intros (X & Y & -> & H). exists X, (Y ++ Q). by rewrite <- !app_assoc. Qed.

Lemma skb_in_data P Q p b : skb_in P p b -> rtw_os_pkt_data (P ++ Q) p = Ret b.
Proof.
  destruct p; cbn; [by intros ->|]. intros (X & Y & -> & -> & ->). rewrite <- !app_assoc. apply rd_slice_app.
Qed.

Section Msdu.

(** The kernel's allocations, the length of [free_xmit_queue], and the return
    value of [rtw_xmit_posthandle], at each request. *)
Context (rtw_skb_alloc : nat -> Z -> bool) (rtw_skb_clone rtw_skb_copy : nat -> bool)
  (free_xmit_queue : nat -> Z) (posthandle : nat -> Z).

Definition rtw_alloc_xmitframe (s : msst) : bool * msst :=
  if 0 <? free_xmit_queue (tick s) then (true, hold_x (tock s) 1) else (false, tock s).

Definition rtw_free_xmitframe (s : msst) : msst := hold_x s (-1).

(** The transmit path takes the frame and the packet over. *)
Definition xmit_post (s : msst) (x : xmit_frame) (p : skb) : res (Z * msst) :=
  d ← rtw_os_pkt_data (mem_of s) p;
  Ret (posthandle (tick s), tock (hold_skb (hold_x (emit s (rtw_xmit_posthandle x d)) (-1)) (-1))).

Definition rtw_os_pkt_copy (s : msst) (p : skb) : res (option skb * msst) :=
  if rtw_skb_copy (tick s) then
    d ← rtw_os_pkt_data (mem_of s) p; Ret (Some (Own d), hold_skb (tock s) 1)
  else Ret (None, tock s).

(** ** Forwarding *)

Definition recv_free_fwd_resource (s : msst) (fwd_frame : option xmit_frame) (b2u_list : list xmit_frame) : msst :=
  let s := match fwd_frame with Some _ => rtw_free_xmitframe s | None => s end in
  foldl (fun s _ => rtw_free_xmitframe s) s b2u_list.

(** The loop over [b2u_list]. *)
Fixpoint fwd_b2u (s : msst) (fwd_pkt : skb) (fwd_frame : option xmit_frame) (b2u_list : list xmit_frame) : res msst :=
  match b2u_list with
  | [] => Ret s
  | b2uframe :: b2u_list =>
      if bool_decide (fwd_frame = None) && bool_decide (b2u_list = []) then
        r ← xmit_post s b2uframe fwd_pkt; Ret (snd r)
      else
        r ← rtw_os_pkt_copy s fwd_pkt;
        match fst r with
        | None => fwd_b2u (rtw_free_xmitframe (snd r)) fwd_pkt fwd_frame b2u_list
        | Some p => r ← xmit_post (snd r) b2uframe p; fwd_b2u (snd r) fwd_pkt fwd_frame b2u_list
        end
  end.

Definition recv_fwd_pkt_hdl (s : msst) (pkt : skb) (act : Z) (fwd_frame : option xmit_frame) (b2u_list : list xmit_frame)
  : res msst :=
  r ← (if bit_test act RTW_RX_MSDU_ACT_INDICATE then rtw_os_pkt_copy s pkt else Ret (Some pkt, s));
  match fst r with
  | None => Ret (recv_free_fwd_resource (snd r) fwd_frame b2u_list)
  | Some fwd_pkt =>
      s ← fwd_b2u (snd r) fwd_pkt fwd_frame b2u_list;
      match fwd_frame with
      | None => Ret s
      | Some x => r ← xmit_post s x fwd_pkt; Ret (if fst r <? 0 then inc_tx_drop (snd r) else snd r)
      end
  end.

(** ** What to do with a packet *)

Definition IP_MCAST_MAC (mac : bytes) : bool := (znth mac 0 =? 0x01) && (znth mac 1 =? 0x00) && (znth mac 2 =? 0x5e).
Definition ICMPV6_MCAST_MAC (mac : bytes) : bool := (znth mac 0 =? 0x33) && (znth mac 1 =? 0x33) && negb (znth mac 2 =? 0xff).
Definition is_zero_mac_addr (mac : bytes) : bool := bool_decide (mac = zero_addr).

Definition rtw_ap_fwd_b2u_policy_chk (flags : Z) (da : bytes) (gaucst : bool) : bool :=
  bit_test flags RTW_AP_B2U_ALL
  || (bit_test flags RTW_AP_B2U_GA_UCAST && gaucst)
  || (bit_test flags RTW_AP_B2U_BCAST && is_broadcast_mac_addr da)
  || (bit_test flags RTW_AP_B2U_IP_MCAST && (IP_MCAST_MAC da || ICMPV6_MCAST_MAC da)).

Definition rtw_1d_to_queue : list Z := [2; 3; 3; 2; 1; 1; 0; 0].

Definition rtw_os_recv_select_queue (mem : bytes) (msdu : Z) (llc_hdl : bool) : res Z :=
  priority ← (if llc_hdl then
                eth_type ← be16_get mem (msdu + SNAP_SIZE);
                if eth_type =? ETH_P_IP then
                  tos ← rd mem (msdu + SNAP_SIZE + 2 + 1);
                  Ret (Z.shiftr (Z.land tos 0xfc) 5)
                else Ret 0
              else Ret 0);
  Ret (znth rtw_1d_to_queue priority).

(** The stations of [asoc_list], at most [NUM_STA] of them, and whether there
    were more. *)
Fixpoint b2u_gather (l ids : list nat) : list nat * bool :=
  match l with
  | [] => (ids, false)
  | i :: l =>
      if NUM_STA <=? zlen ids then (ids, true)
      else b2u_gather l (if Z.of_nat i <? NUM_STA then ids ++ [i] else ids)
  end.

(** A station that gets no copy. *)
Definition b2u_skip (s : msst) (i : nat) (sa ori_ta : bytes) : bool :=
  let sta := sta_entry (base s) i in
  negb (bit_test (sta_state sta) WIFI_ASOC_STATE) || same_addr (mac_addr sta) sa || same_addr (mac_addr sta) ori_ta
  || is_broadcast_mac_addr (mac_addr sta) || is_zero_mac_addr (mac_addr sta).

(** One transmit frame per receiver: [bmc_need], the list and the state. *)
Fixpoint b2u_frames (s : msst) (sa ori_ta : bytes) (qid : Z) (ids : list nat) (bmc_need : bool) (b2u_list : list xmit_frame)
  : bool * list xmit_frame * msst :=
  match ids with
  | [] => (bmc_need, b2u_list, s)
  | i :: ids =>
      if b2u_skip s i sa ori_ta then b2u_frames s sa ori_ta qid ids bmc_need b2u_list
      else
        let '(ok, s) := rtw_alloc_xmitframe s in
        if negb ok then (true, b2u_list, s)
        else
          let ra := mac_addr (sta_entry (base s) i) in
          b2u_frames s sa ori_ta qid ids bmc_need (b2u_list ++ [mk_xf ra sa (myhwaddr (ad_of s)) ra qid])
  end.

Definition rtw_ap_data_bmc_to_uc (s : msst) (da sa ori_ta : bytes) (qid : Z) : bool * list xmit_frame * msst :=
  let '(ids, bmc_need) := b2u_gather (asoc_list (cfg s)) [] in
  b2u_frames s sa ori_ta qid ids bmc_need [].

(** The action, [*fwd_frame], [b2u_list] and the state. *)
Definition act_res := res (Z * option xmit_frame * list xmit_frame * msst).

(** From label [fwd_chk] on. *)
Definition fwd_chk (s : msst) (act : Z) (da sa : bytes) (msdu : Z) (llc_hdl : bool) : act_res :=
  if asoc_list_cnt (cfg s) <=? 1 then Ret (act, None, [], s)
  else
    qid ← rtw_os_recv_select_queue (mem_of s) msdu llc_hdl;
    let a := att (base s) in
    b ← (if IS_MCAST da
            && rtw_ap_fwd_b2u_policy_chk (b2u_flags_ap_fwd (cfg s)) da ((to_fr_ds a =? 3) && negb (IS_MCAST (ra a)))
            && (wifi_spec (cfg s) =? 0)
            && (NR_XMITFRAME / 4 <? free_xmit_queue (tick s))
         then match hdr_psta s with
              | None => Oob
              | Some i => Ret (rtw_ap_data_bmc_to_uc (tock s) da sa (mac_addr (sta_entry (base s) i)) qid)
              end
         else Ret (true, [], tock s));
    let '(bmc_need, b2u_list, s) := b : bool * list xmit_frame * msst in
    if bmc_need then
      let '(ok, s) := rtw_alloc_xmitframe s in
      if negb ok then Ret (act, None, b2u_list, s)
      else Ret (Z.lor act RTW_RX_MSDU_ACT_FORWARD, Some (mk_xf da sa (myhwaddr (ad_of s)) da qid), b2u_list, s)
    else Ret (Z.lor act RTW_RX_MSDU_ACT_FORWARD, None, b2u_list, s).

Definition rtw_ap_rx_msdu_act_check (s : msst) (da sa : bytes) (msdu : Z) (llc_hdl : bool) : act_res :=
  let is_da_bmc := IS_MCAST da in
  let is_da_self := negb is_da_bmc && same_addr da (myhwaddr (ad_of s)) in
  if same_addr sa (myhwaddr (ad_of s)) then Ret (RTW_RX_MSDU_ACT_NONE, None, [], s)
  else if is_da_bmc then
    let act := RTW_RX_MSDU_ACT_INDICATE in
    if ap_isolate (cfg s) then Ret (act, None, [], s) else fwd_chk s act da sa msdu llc_hdl
  else if is_da_self then Ret (RTW_RX_MSDU_ACT_INDICATE, None, [], s)
  else match get_sta (base s) da with
  | Some _ => if ap_isolate (cfg s) then Ret (RTW_RX_MSDU_ACT_NONE, None, [], s)
              else fwd_chk s RTW_RX_MSDU_ACT_NONE da sa msdu llc_hdl
  | None => Ret (RTW_RX_MSDU_ACT_INDICATE, None, [], s)
  end.

(** Without WDS every subframe is indicated. *)
Definition rtw_sta_rx_amsdu_act_check (da sa : bytes) : Z := RTW_RX_MSDU_ACT_INDICATE.

(** ** A-MSDU *)

(** [_FAIL] ends the deaggregation. *)
Definition validate_amsdu_content (s : msst) (da sa : bytes) : Z :=
  let a := att (base s) in
  if (amsdu_mode (cfg s) =? RTW_AMSDU_MODE_NON_SPP)
     && negb (dot11PrivacyAlgrthm (securitypriv (ad_of s)) =? _NO_PRIVACY_) then
    if (to_fr_ds a =? 1) && negb (same_addr da (ra a)) then _FAIL
    else if (to_fr_ds a =? 2) && negb (same_addr sa (ta a)) then _FAIL
    else if same_addr da rtw_rfc1042_header then _FAIL
    else _SUCCESS
  else _SUCCESS.

(** [data_ptr], [msdu]: the addresses and the message are read from the frame. *)
Definition own_pkt (mem : bytes) (da sa msdu msdu_len : Z) (llc_hdl : bool) : res bytes :=
  d ← rd_slice mem msdu msdu_len;
  xsa ← rd_slice mem sa 6; xda ← rd_slice mem da 6;
  Ret (xda ++ xsa ++ if llc_hdl then drop 6 d else [Z.shiftr (u16 msdu_len) 8; Z.land (u16 msdu_len) 255] ++ d).

(** The clone's header is pushed into the buffer it shares with the frame. *)
Definition clone_pkt (mem : bytes) (da sa msdu msdu_len : Z) (llc_hdl : bool) : res (skb * bytes) :=
  if llc_hdl then
    let at_ := msdu + SNAP_SIZE - 12 in
    xsa ← rd_slice mem sa 6; m ← wr_slice mem (at_ + 6) xsa;
    xda ← rd_slice m da 6; m ← wr_slice m at_ xda;
    Ret (Shared at_ (msdu_len - SNAP_SIZE + 12), m)
  else
    let at_ := msdu - 14 in
    m ← wr_slice mem (at_ + 12) [Z.shiftr (u16 msdu_len) 8; Z.land (u16 msdu_len) 255];
    xsa ← rd_slice m sa 6; m ← wr_slice m (at_ + 6) xsa;
    xda ← rd_slice m da 6; m ← wr_slice m at_ xda;
    Ret (Shared at_ (msdu_len + 14), m).

Definition rtw_os_alloc_msdu_pkt (s : msst) (da sa msdu msdu_len : Z) (llc_hdl : bool) : res (option skb * msst) :=
  if rtw_skb_alloc (tick s) (msdu_len + 14) then
    d ← own_pkt (mem_of s) da sa msdu msdu_len llc_hdl;
    Ret (Some (Own d), hold_skb (tock s) 1)
  else if rtw_skb_clone (tick (tock s)) then
    r ← clone_pkt (mem_of s) da sa msdu msdu_len llc_hdl;
    Ret (Some (fst r), hold_skb (with_mem (tock (tock s)) (snd r)) 1)
  else Ret (None, tock (tock s)).

(** Its inspections (session tracking, EAPOL logging) leave the packet alone
    and the value is always [_SUCCESS]. *)
Definition rtw_recv_indicatepkt_check (pkt : skb) : Z := _SUCCESS.

(** The action for one subframe. *)
Definition amsdu_act (s : msst) (da sa : bytes) (msdu : Z) (llc_hdl : bool) : act_res :=
  if check_fwstate (ad_of s) WIFI_AP_STATE then rtw_ap_rx_msdu_act_check s da sa msdu llc_hdl
  else if check_fwstate (ad_of s) WIFI_STATION_STATE then Ret (rtw_sta_rx_amsdu_act_check da sa, None, [], s)
  else Ret (RTW_RX_MSDU_ACT_INDICATE, None, [], s).

(** The loop body up to [move_to_next]; [None] is a [break]. *)
Definition amsdu_subframe (s : msst) (pdata nSubframe_Length : Z) (subframes : list skb) : res (option (list skb) * msst) :=
  da ← rd_slice (mem_of s) pdata 6;
  sa ← rd_slice (mem_of s) (pdata + 6) 6;
  if validate_amsdu_content s da sa =? _FAIL then Ret (None, s)
  else
    llc_hdl ← rtw_recv_llc_parse (mem_of s) (pdata + ETH_HLEN) nSubframe_Length;
    r ← amsdu_act s da sa (pdata + ETH_HLEN) llc_hdl;
    let '(act, fwd_frame, b2u_list, s) := r : Z * option xmit_frame * list xmit_frame * msst in
    if act =? 0 then Ret (Some subframes, s)
    else
      r ← rtw_os_alloc_msdu_pkt s pdata (pdata + 6) (pdata + ETH_HLEN) nSubframe_Length llc_hdl;
      let '(sub_pkt, s) := r : option skb * msst in
      match sub_pkt with
      | None =>
          Ret (None, if bit_test act RTW_RX_MSDU_ACT_FORWARD then recv_free_fwd_resource s fwd_frame b2u_list else s)
      | Some sub_pkt =>
          s ← (if bit_test act RTW_RX_MSDU_ACT_FORWARD then recv_fwd_pkt_hdl s sub_pkt act fwd_frame b2u_list else Ret s);
          if bit_test act RTW_RX_MSDU_ACT_FORWARD && negb (bit_test act RTW_RX_MSDU_ACT_INDICATE)
          then Ret (Some subframes, s)
          else if rtw_recv_indicatepkt_check sub_pkt =? _SUCCESS then
            if MAX_SUBFRAME_COUNT <=? zlen subframes then Oob
            else Ret (Some (subframes ++ [sub_pkt]), s)
          else Ret (Some subframes, hold_skb s (-1))
      end.

Fixpoint amsdu_loop (fuel : nat) (s : msst) (pdata a_len : Z) (subframes : list skb) : res (list skb * msst) :=
  if ETH_HLEN <? a_len then
    match fuel with
    | O => NoFuel
    | S fuel =>
        n ← be16_get (mem_of s) (pdata + 12);
        if a_len <? ETH_HLEN + n then Ret (subframes, s)
        else
          r ← amsdu_subframe s pdata n subframes;
          let '(o, s) := r : option (list skb) * msst in
          match o with
          | None => Ret (subframes, s)
          | Some subframes =>
              if MAX_SUBFRAME_COUNT <=? zlen subframes then Ret (subframes, s)
              else
                let pdata := pdata + ETH_HLEN + n in
                let a_len := a_len - ETH_HLEN - n in
                if a_len =? 0 then amsdu_loop fuel s pdata a_len subframes
                else
                  let padding_len := 4 - Z.land (n + ETH_HLEN) 3 in
                  let padding_len := if padding_len =? 4 then 0 else padding_len in
                  if a_len <? padding_len then Ret (subframes, s)
                  else amsdu_loop fuel s (pdata + padding_len) (a_len - padding_len) subframes
          end
    end
  else Ret (subframes, s).

(** [rtw_os_recv_indicate_pkt] on each packet. *)
Fixpoint indicate_all (s : msst) (l : list skb) : res msst :=
  match l with
  | [] => Ret s
  | p :: l =>
      d ← rtw_os_pkt_data (mem_of s) p;
      indicate_all (hold_skb (emit s (rtw_os_recv_indicate_pkt d)) (-1)) l
  end.

Definition amsdu_to_msdu (s : msst) : res (Z * msst) :=
  let a := att (base s) in
  let f := frm (base s) in
  let f := ignore_null f (recvframe_pull f (hdrlen a)) in
  let f := if 0 <? iv_len a then ignore_null f (recvframe_pull f (iv_len a)) else f in
  let f := if encrypt a =? 0 then f else ignore_null f (recvframe_pull_tail f (icv_len a)) in
  let s := with_base s (with_frm (base s) f) in
  r ← amsdu_loop (S (Z.to_nat (len f))) s (rx_data f) (len f) [];
  s ← indicate_all (snd r) (fst r);
  Ret (_SUCCESS, s).

(** ** One MPDU *)

(** Outside of AP mode every packet is indicated. *)
Definition mpdu_act (s : msst) (da sa : bytes) (msdu : Z) (llc_hdl : bool) : act_res :=
  if check_fwstate (ad_of s) WIFI_AP_STATE then rtw_ap_rx_msdu_act_check s da sa msdu llc_hdl
  else Ret (RTW_RX_MSDU_ACT_INDICATE, None, [], s).

Definition recv_process_mpdu (s : msst) : res (Z * msst) :=
  let a := att (base s) in
  if negb (amsdu a =? 0) then amsdu_to_msdu s
  else
    let f := frm (base s) in
    let msdu := rx_data f + hdrlen a + iv_len a in
    let msdu_len := u16 (len f - hdrlen a - iv_len a - (if encrypt a =? 0 then 0 else icv_len a)) in
    llc_hdl ← rtw_recv_llc_parse (rx_mem f) msdu msdu_len;
    r ← mpdu_act s (dst a) (src a) msdu llc_hdl;
    let '(act, fwd_frame, b2u_list, s) := r : Z * option xmit_frame * list xmit_frame * msst in
    if act =? 0 then Ret (_FAIL, s)
    else
      r ← wlanhdr_to_ethhdr (frm (base s)) llc_hdl;
      let '(ret, f) := r : Z * recv_frame in
      let s := with_base s (with_frm (base s) f) in
      if negb (ret =? _SUCCESS) then
        Ret (ret, if bit_test act RTW_RX_MSDU_ACT_FORWARD then recv_free_fwd_resource s fwd_frame b2u_list else s)
      else
        let pkt := Shared (rx_data f) (len f) in
        s ← (if bit_test act RTW_RX_MSDU_ACT_FORWARD then recv_fwd_pkt_hdl s pkt act fwd_frame b2u_list else Ret s);
        if bit_test act RTW_RX_MSDU_ACT_FORWARD && negb (bit_test act RTW_RX_MSDU_ACT_INDICATE)
        then Ret (ret, hold_skb s 1)
        else if cannot_run (cfg s) then Ret (_SUCCESS, s)
        else if negb (rtw_recv_indicatepkt_check pkt =? _SUCCESS) then Ret (rtw_recv_indicatepkt_check pkt, s)
        else d ← rtw_os_pkt_data (mem_of s) pkt; Ret (_SUCCESS, emit s (rtw_os_recv_indicate_pkt d)).

(** ** The action check *)

(** The state after some requests, [dx] frames and [dk] packets more in hand. *)
Definition moved (s : msst) (t : nat) (dx dk : Z) : msst :=
  mk_ms (base s) (cfg s) (hdr_psta s) t (xframes s + dx) (skbs s + dk) (tx_drop s) (outs s).

Lemma moved_moved s t a b t' a' b' : moved (moved s t a b) t' a' b' = moved s t' (a + a') (b + b').
Proof. unfold moved. cbn. f_equal; lia. Qed.

Lemma moved_refl s : s = moved s (tick s) 0 0.
Proof. destruct s. unfold moved. cbn. f_equal; lia. Qed.

Lemma moved_tock s : tock s = moved s (S (tick s)) 0 0.
Proof. destruct s. unfold tock, moved. cbn. f_equal; lia. Qed.

Lemma moved_hold_x s n : hold_x s n = moved s (tick s) n 0.
Proof. destruct s. unfold hold_x, moved. cbn. f_equal; lia. Qed.

Lemma alloc_x_spec s : exists t,
  rtw_alloc_xmitframe s = (true, moved s t 1 0) \/
  (rtw_alloc_xmitframe s = (false, moved s t 0 0) /\ exists k, free_xmit_queue k <= 0).
Proof.
  exists (S (tick s)). unfold rtw_alloc_xmitframe. rewrite moved_hold_x, moved_tock, moved_moved. cbn [tick moved].
  destruct (Z.ltb_spec 0 (free_xmit_queue (tick s))); [by left|right]. eauto.
Qed.

(** The receivers of converted copies. *)
Definition b2u_targets (s : msst) (sa ori_ta : bytes) (ids : list nat) : list nat :=
  filter (fun i => b2u_skip s i sa ori_ta = false) ids.

Lemma b2u_frames_spec sa ori_ta qid ids s need q : exists need' q' t,
  b2u_frames s sa ori_ta qid ids need q = (need', q ++ q', moved s t (zlen q') 0) /\
  ((exists k, free_xmit_queue k <= 0) \/ (need' = need /\ length q' = length (b2u_targets s sa ori_ta ids))).
Proof.
  revert s need q. induction ids as [|i ids IH]; intros s need q; cbn [b2u_frames].
  { exists need, [], (tick s). rewrite app_nil_r. split; [|by right]. f_equal. apply moved_refl. }
  unfold b2u_targets. rewrite filter_cons. destruct (b2u_skip s i sa ori_ta) eqn:Sk.
  { rewrite decide_False by done. apply IH. }
  rewrite decide_True by done. destruct (alloc_x_spec s) as (t & [E | [E F]]); rewrite E; cbn [negb].
  - destruct (IH (moved s t 1 0) need (q ++ [mk_xf (mac_addr (sta_entry (base (moved s t 1 0)) i)) sa (myhwaddr (ad_of (moved s t 1 0)))
        (mac_addr (sta_entry (base (moved s t 1 0)) i)) qid])) as (need' & q' & t' & E' & D).
    eexists need', (_ :: q'), t'. rewrite E', <- app_assoc. cbn [app]. split.
    + f_equal. rewrite moved_moved. f_equal. rewrite zlen_cons. lia.
    + destruct D as [D | [D1 D2]]; [by left | right]. split; [done|]. cbn [length]. by rewrite D2.
  - exists true, [], t. rewrite app_nil_r. split; [done|by left].
Qed.

Lemma b2u_gather_incl l ids ids' n : b2u_gather l ids = (ids', n) -> forall i, i ∈ ids' -> i ∈ ids \/ i ∈ l.
Proof.
  revert ids. induction l as [|j l IH]; intros ids E i Hi; cbn [b2u_gather] in E.
  { injection E as <- <-. by left. }
  destruct (NUM_STA <=? zlen ids); [injection E as <- <-; by left|].
  destruct (IH _ E i Hi) as [H|H]; [|right; set_solver]. destruct (_ <? _); [|by left].
  apply elem_of_app in H as [H|H]; [by left|right; set_solver].
Qed.

(** Whether a packet is handed to the network stack. *)
Definition indicates (s : msst) (da sa : bytes) : bool :=
  if check_fwstate (ad_of s) WIFI_AP_STATE then
    negb (same_addr sa (myhwaddr (ad_of s))) &&
    (IS_MCAST da || same_addr da (myhwaddr (ad_of s)) || bool_decide (get_sta (base s) da = None))
  else true.

(** Whether this build forwards between stations at all. *)
Definition may_forward (s : msst) : bool := check_fwstate (ad_of s) WIFI_AP_STATE && negb (ap_isolate (cfg s)).

(** Every group packet that is converted has a receiver. *)
Definition has_receiver (s : msst) (sa : bytes) : Prop :=
  forall i, hdr_psta s = Some i ->
  b2u_targets s sa (mac_addr (sta_entry (base s) i)) (fst (b2u_gather (asoc_list (cfg s)) [])) <> [].

Definition fwd_num (fwd : option xmit_frame) (b2u : list xmit_frame) : Z :=
  (match fwd with Some _ => 1 | None => 0 end) + zlen b2u.

(** The part that returns both flags. *)
Record act_ok (s : msst) (da sa : bytes) (act : Z) (fwd : option xmit_frame) (b2u : list xmit_frame) (f : bool) : Prop := {
  ao_act : act = Z.b2z (indicates s da sa) + 2 * Z.b2z f;
  ao_fwd : f = true -> may_forward s = true;
  ao_unicast : f = true -> indicates s da sa = false -> fwd <> None;
  ao_none : f = false -> fwd = None /\ (b2u = [] \/ exists k, free_xmit_queue k <= 0);
  ao_some : f = true -> has_receiver s sa -> fwd <> None \/ b2u <> [] \/ exists k, free_xmit_queue k <= 0
}.

Definition tos_readable (s : msst) (msdu : Z) (llc_hdl : bool) : Prop :=
  llc_hdl = true -> 0 <= msdu /\ msdu + 10 <= zlen (mem_of s).

Lemma be16_get_in b i : 0 <= i -> i + 2 <= zlen b -> exists v, be16_get b i = Ret v.
Proof.
  intros A B. unfold be16_get. destruct (rd_in_bounds b i) as (x & E & _); [lia|]. rewrite E, bind_Ret.
  destruct (rd_in_bounds b (i + 1)) as (y & E' & _); [lia|]. rewrite E', bind_Ret. eauto.
Qed.

Lemma select_queue_total s msdu llc_hdl : tos_readable s msdu llc_hdl ->
  exists qid, rtw_os_recv_select_queue (mem_of s) msdu llc_hdl = Ret qid.
Proof.
  intros T. unfold rtw_os_recv_select_queue. destruct llc_hdl; [|rewrite bind_Ret; eauto].
  destruct (T eq_refl) as [A B]. unfold SNAP_SIZE. destruct (be16_get_in (mem_of s) (msdu + 6)) as (v & E); [lia..|]. rewrite E, bind_Ret.
  destruct (v =? ETH_P_IP); [|rewrite bind_Ret; eauto].
  destruct (rd_in_bounds (mem_of s) (msdu + 6 + 2 + 1)) as (x & E' & _); [lia|]. rewrite E', !bind_Ret. eauto.
Qed.

Lemma moved_targets s t a b sa ori ids : b2u_targets (moved s t a b) sa ori ids = b2u_targets s sa ori ids.
Proof. reflexivity. Qed.

Lemma fwd_chk_spec s (i : bool) da sa msdu llc_hdl :
  is_Some (hdr_psta s) -> tos_readable s msdu llc_hdl ->
  exists fwd b2u f t, fwd_chk s (Z.b2z i) da sa msdu llc_hdl = Ret (Z.b2z i + 2 * Z.b2z f, fwd, b2u, moved s t (fwd_num fwd b2u) 0) /\
    (f = true -> IS_MCAST da = false -> fwd <> None) /\
    (f = false -> fwd = None /\ (b2u = [] \/ exists k, free_xmit_queue k <= 0)) /\
    (f = true -> has_receiver s sa -> fwd <> None \/ b2u <> [] \/ exists k, free_xmit_queue k <= 0).
Proof.
  intros [j Hj] T. unfold fwd_chk. destruct (asoc_list_cnt (cfg s) <=? 1).
  { exists None, [], false, (tick s). split; [|split; [done|split; [by split; [|left]|done]]]. cbn [Z.b2z fwd_num]. rewrite Z.mul_0_r, Z.add_0_r. by rewrite <- moved_refl. }
  destruct (select_queue_total s msdu llc_hdl T) as (qid & ->). rewrite bind_Ret.
  assert (Z.lor (Z.b2z i) RTW_RX_MSDU_ACT_FORWARD = Z.b2z i + 2) as Ef by by destruct i.
  (* the frame for the packet itself *)
  assert (forall s1 t1 b2u, s1 = moved s t1 (zlen b2u) 0 ->
    exists fwd f t, (let '(ok, s) := rtw_alloc_xmitframe s1 in
       if negb ok then Ret (Z.b2z i, None, b2u, s)
       else Ret (Z.lor (Z.b2z i) RTW_RX_MSDU_ACT_FORWARD, Some (mk_xf da sa (myhwaddr (ad_of s)) da qid), b2u, s))
      = Ret (Z.b2z i + 2 * Z.b2z f, fwd, b2u, moved s t (fwd_num fwd b2u) 0) /\
      (f = true -> fwd <> None) /\ (f = false -> fwd = None /\ exists k, free_xmit_queue k <= 0)) as Self.
  { intros s1 t1 b2u ->. destruct (alloc_x_spec (moved s t1 (zlen b2u) 0)) as (t & [E | [E F]]); rewrite E, moved_moved; cbn [negb].
    - eexists (Some _), true, t. split; [|done]. rewrite Ef. unfold fwd_num. by rewrite (Z.add_comm 1).
    - exists None, false, t. split; [|done]. unfold fwd_num. cbn [Z.b2z]. by rewrite Z.mul_0_r, !Z.add_0_r, Z.add_0_l. }
  destruct (_ && _ && _ && _) eqn:C.
  - rewrite Hj, bind_Ret. apply andb_prop in C as [[[C _]%andb_prop _]%andb_prop _].
    unfold rtw_ap_data_bmc_to_uc. destruct (b2u_gather _ _) as [ids need] eqn:G. rewrite moved_tock.
    destruct (b2u_frames_spec sa (mac_addr (sta_entry (base s) j)) qid ids (moved s (S (tick s)) 0 0) need [])
      as (need' & b2u & t & E & D). rewrite E. cbn [app]. rewrite moved_moved, Z.add_0_l. rewrite moved_targets in D.
    destruct need'.
    + destruct (Self (moved s t (zlen b2u) 0) t b2u eq_refl) as (fwd & f & t' & E' & F1 & F2).
      exists fwd, b2u, f, t'. split; [exact E'|]. split; [by auto|]. split; [|by intros; left; auto].
      intros Hf. destruct (F2 Hf). auto.
    + exists None, b2u, true, t. split; [rewrite Ef; unfold fwd_num; by rewrite Z.add_0_l|]. split; [congruence|]. split; [done|].
      intros _ Hr. right. destruct D as [D|[_ L]]; [by right|left].
      specialize (Hr j Hj). change (cfg (tock s)) with (cfg s) in G. rewrite G in Hr. cbn [fst] in Hr. intros ->. apply Hr. by apply nil_length_inv.
  - rewrite bind_Ret, moved_tock.
    destruct (Self (moved s (S (tick s)) 0 0) (S (tick s)) [] eq_refl) as (fwd & f & t' & E' & F1 & F2).
    exists fwd, [], f, t'. split; [exact E'|]. split; [by auto|]. split; [|by intros; left; auto]. intros Hf. destruct (F2 Hf). auto.
Qed.

Lemma act_check_spec s da sa msdu llc_hdl :
  check_fwstate (ad_of s) WIFI_AP_STATE = true -> is_Some (hdr_psta s) -> tos_readable s msdu llc_hdl ->
  exists act fwd b2u f t, rtw_ap_rx_msdu_act_check s da sa msdu llc_hdl = Ret (act, fwd, b2u, moved s t (fwd_num fwd b2u) 0) /\
    act_ok s da sa act fwd b2u f.
Proof.
  intros Ap P T. unfold rtw_ap_rx_msdu_act_check.
  assert (forall act, act = Z.b2z (indicates s da sa) -> exists act' fwd b2u f t,
    @Ret (Z * option xmit_frame * list xmit_frame * msst) (act, None, [], s) = Ret (act', fwd, b2u, moved s t (fwd_num fwd b2u) 0) /\
    act_ok s da sa act' fwd b2u f) as Stop.
  { intros act E. exists act, None, [], false, (tick s). split; [by rewrite <- moved_refl|].
    split; try done; [|by split; [|left]]. cbn [Z.b2z]. lia. }
  unfold indicates in *. rewrite Ap in *.
  destruct (same_addr sa (myhwaddr (ad_of s))) eqn:Self; cbn [negb andb] in *; [by apply Stop|].
  assert (forall i : bool, IS_MCAST da || same_addr da (myhwaddr (ad_of s)) || bool_decide (get_sta (base s) da = None) = i ->
    (i = false -> IS_MCAST da = false) -> ap_isolate (cfg s) = false ->
    exists act fwd b2u f t, fwd_chk s (Z.b2z i) da sa msdu llc_hdl = Ret (act, fwd, b2u, moved s t (fwd_num fwd b2u) 0) /\
    act_ok s da sa act fwd b2u f) as Fwd.
  { intros i Ei Hi Iso. destruct (fwd_chk_spec s i da sa msdu llc_hdl P T) as (fwd & b2u & f & t & E & U & N & R).
    exists (Z.b2z i + 2 * Z.b2z f), fwd, b2u, f, t. split; [exact E|].
    assert (indicates s da sa = i) as Ii by (unfold indicates; rewrite Ap, Self; exact Ei).
    split; [by rewrite Ii | intros _; unfold may_forward; by rewrite Ap, Iso | | exact N | exact R].
    intros Hf. rewrite Ii. auto. }
  destruct (IS_MCAST da) eqn:Mc; cbn [negb andb orb] in *.
  { destruct (ap_isolate (cfg s)) eqn:Iso; [by apply Stop | by apply (Fwd true)]. }
  destruct (same_addr da (myhwaddr (ad_of s))) eqn:Me; cbn [orb] in *; [by apply Stop|].
  destruct (get_sta (base s) da) as [j|] eqn:G.
  - rewrite bool_decide_false in * by done. destruct (ap_isolate (cfg s)) eqn:Iso; [by apply Stop | by apply (Fwd false)].
  - rewrite bool_decide_true in * by done. by apply Stop.
Qed.

Lemma amsdu_act_spec s da sa msdu llc_hdl :
  is_Some (hdr_psta s) -> tos_readable s msdu llc_hdl ->
  exists act fwd b2u f t, amsdu_act s da sa msdu llc_hdl = Ret (act, fwd, b2u, moved s t (fwd_num fwd b2u) 0) /\
    act_ok s da sa act fwd b2u f.
Proof.
  intros P T. unfold amsdu_act. destruct (check_fwstate (ad_of s) WIFI_AP_STATE) eqn:Ap; [by apply act_check_spec|].
  assert (indicates s da sa = true) as I by (unfold indicates; by rewrite Ap).
  exists 1, None, [], false, (tick s). unfold rtw_sta_rx_amsdu_act_check. split.
  - rewrite <- moved_refl. by destruct (check_fwstate (ad_of s) WIFI_STATION_STATE).
  - split; [by rewrite I | done.. | by split; [|left] | done].
Qed.

(** ** Forwarding leaves the frame and the indications alone *)

Definition inds (l : list msdu_out) : list bytes :=
  omap (fun o => match o with rtw_os_recv_indicate_pkt p => Some p | rtw_xmit_posthandle _ _ => None end) l.

Lemma inds_app l k : inds (l ++ k) = inds l ++ inds k.
Proof. apply omap_app. Qed.

(** What the forwarded packets are known to satisfy. *)
Context (Q : bytes -> Prop).

Definition fwd_ok (o : msdu_out) : Prop :=
  match o with rtw_os_recv_indicate_pkt _ => False | rtw_xmit_posthandle _ p => Q p end.

(** Only packets in [Q] were forwarded in between, none indicated. *)
Definition ext (l l' : list msdu_out) : Prop := exists new, l' = l ++ new /\ Forall fwd_ok new.

#[local] Instance ext_refl : Reflexive ext.
Proof. intros l. exists []. by rewrite app_nil_r. Qed.

#[local] Instance ext_trans : Transitive ext.
Proof. intros x y z (a & -> & A) (b & -> & B). exists (a ++ b). rewrite app_assoc. split; [done|]. by apply Forall_app_2. Qed.

Lemma ext_inds l l' : ext l l' -> inds l' = inds l.
Proof.
  intros (new & -> & F). rewrite inds_app. assert (inds new = []) as ->; [|apply app_nil_r].
  induction F as [|[] new H F IH]; [done|done|]. exact IH.
Qed.

(** Everything but the resources, the clock and what was forwarded. *)
Definition same (s s' : msst) : Prop :=
  base s' = base s /\ cfg s' = cfg s /\ hdr_psta s' = hdr_psta s /\ ext (outs s) (outs s').

Ltac same_eq := split; [reflexivity|]; split; [reflexivity|]; split; [reflexivity|]; reflexivity.

#[local] Instance same_refl : Reflexive same.
Proof. intros s. same_eq. Qed.

#[local] Instance same_trans : Transitive same.
Proof.
  intros x y z (A1 & A2 & A3 & A4) (B1 & B2 & B3 & B4). unfold same. rewrite B1, B2, B3, A1, A2, A3.
  split_and!; [done..|]. by etrans.
Qed.

Lemma same_mem s s' : same s s' -> mem_of s' = mem_of s.
Proof. unfold mem_of. by intros (-> & _). Qed.

(** One resource step: [dx] frames and [dk] packets. *)
Definition gains (s s' : msst) (dx dk : Z) : Prop :=
  same s s' /\ xframes s' = xframes s + dx /\ skbs s' = skbs s + dk.

Lemma gains_trans s s' s'' a b c d : gains s s' a b -> gains s' s'' c d -> gains s s'' (a + c) (b + d).
Proof. intros (S1 & X1 & K1) (S2 & X2 & K2). split; [by trans s'|]. lia. Qed.

Lemma gains_eq s s' a b a' b' : gains s s' a b -> a = a' -> b = b' -> gains s s' a' b'.
Proof. by intros ? <- <-. Qed.

Ltac held := split; [same_eq|]; change (@zlen xmit_frame []) with 0; cbn; lia.

Lemma xmit_post_spec s x p d : rtw_os_pkt_data (mem_of s) p = Ret d -> Q d ->
  exists v s', xmit_post s x p = Ret (v, s') /\ gains s s' (-1) (-1).
Proof.
  intros E HQ. unfold xmit_post. rewrite E, bind_Ret. eexists _, _. split; [done|]. split; [|cbn; lia].
  split; [done|]. split; [done|]. split; [done|]. exists [rtw_xmit_posthandle x d]. split; [done|]. by apply Forall_singleton.
Qed.

Lemma pkt_copy_spec s p d : rtw_os_pkt_data (mem_of s) p = Ret d ->
  (exists s', rtw_os_pkt_copy s p = Ret (None, s') /\ gains s s' 0 0) \/
  (exists s', rtw_os_pkt_copy s p = Ret (Some (Own d), s') /\ gains s s' 0 1).
Proof.
  intros E. unfold rtw_os_pkt_copy. destruct (rtw_skb_copy (tick s)); [right|left].
  - rewrite E, bind_Ret. eexists. split; [done|]. held.
  - eexists. split; [done|]. held.
Qed.

Lemma free_fwd_spec s fwd b2u : gains s (recv_free_fwd_resource s fwd b2u) (- fwd_num fwd b2u) 0.
Proof.
  assert (forall (q : list xmit_frame) s, gains s (foldl (fun s _ => rtw_free_xmitframe s) s q) (- zlen q) 0) as F.
  { intros q. induction q as [|x q IH]; intros s0; cbn [foldl].
    - held.
    - eapply gains_eq; [eapply gains_trans; [|apply IH]; instantiate (1 := 0); instantiate (1 := -1)| |]; [|rewrite zlen_cons; lia|lia].
      held. }
  unfold recv_free_fwd_resource, fwd_num. destruct fwd.
  - eapply gains_eq; [eapply gains_trans; [|apply F]; instantiate (1 := 0); instantiate (1 := -1)| |]; [|lia|lia].
    held.
  - eapply gains_eq; [apply F| |]; lia.
Qed.

Lemma fwd_b2u_spec fwd q p d s : rtw_os_pkt_data (mem_of s) p = Ret d -> Q d ->
  exists s', fwd_b2u s p fwd q = Ret s' /\ gains s s' (- zlen q) (if bool_decide (fwd = None) && negb (bool_decide (q = [])) then -1 else 0).
Proof.
  intros E HQ. revert s E. induction q as [|x q IH]; intros s E; cbn [fwd_b2u].
  { exists s. split; [done|]. rewrite andb_false_r. held. }
  assert (forall s1 a b, gains s s1 a b -> a = -1 -> b = 0 -> (fwd = None -> q <> []) -> exists s', fwd_b2u s1 p fwd q = Ret s' /\
    gains s s' (- zlen (x :: q)) (if bool_decide (fwd = None) && negb (bool_decide (x :: q = [])) then -1 else 0)) as Go.
  { intros s1 a b G -> -> Hq. destruct (IH s1) as (s' & E' & G'); [rewrite (same_mem s s1); [done|apply G]|].
    exists s'. split; [done|]. eapply gains_eq; [exact (gains_trans _ _ _ _ _ _ _ G G')|rewrite zlen_cons; lia|].
    rewrite (bool_decide_false (x :: q = [])) by done. destruct (bool_decide_reflect (fwd = None)) as [F|F]; [|done].
    rewrite bool_decide_false by auto. done. }
  destruct (bool_decide (fwd = None) && bool_decide (q = [])) eqn:Last.
  - destruct (xmit_post_spec s x p d E HQ) as (v & s' & -> & G). exists s'. split; [done|].
    apply andb_prop in Last as [-> Hq%bool_decide_eq_true]. subst q. exact G.
  - assert (fwd = None -> q <> []) as Hq.
    { intros -> ->. by rewrite !bool_decide_true in Last. }
    destruct (pkt_copy_spec s p d E) as [(s1 & E1 & G1) | (s1 & E1 & G1)]; rewrite E1, bind_Ret; cbn [fst snd].
    + apply (Go (rtw_free_xmitframe s1) (0 + -1) (0 + 0)); [|lia|lia|done]. eapply gains_trans; [exact G1|]. held.
    + destruct (xmit_post_spec s1 x (Own d) d eq_refl HQ) as (v & s2 & E2 & G2). rewrite E2, bind_Ret. cbn [snd].
      apply (Go s2 (0 + -1) (1 + -1)); [|lia|lia|done]. exact (gains_trans _ _ _ _ _ _ _ G1 G2).
Qed.

Lemma fwd_hdl_spec s p d act fwd b2u : rtw_os_pkt_data (mem_of s) p = Ret d -> Q d ->
  exists s' k, recv_fwd_pkt_hdl s p act fwd b2u = Ret s' /\ gains s s' (- fwd_num fwd b2u) k /\
    (fwd <> None \/ b2u <> [] -> k = if bit_test act RTW_RX_MSDU_ACT_INDICATE then 0 else -1).
Proof.
  intros E HQ. unfold recv_fwd_pkt_hdl.
  assert (forall s1 k p', gains s s1 0 k -> rtw_os_pkt_data (mem_of s1) p' = Ret d -> exists s' k',
    (s ← fwd_b2u s1 p' fwd b2u; match fwd with None => Ret s
       | Some x => r ← xmit_post s x p'; Ret (if fst r <? 0 then inc_tx_drop (snd r) else snd r) end) = Ret s' /\
    gains s s' (- fwd_num fwd b2u) k' /\ (fwd <> None \/ b2u <> [] -> k' = k - 1)) as Go.
  { intros s1 k p' G E1. destruct (fwd_b2u_spec fwd b2u p' d s1 E1 HQ) as (s2 & E2 & G2). rewrite E2, bind_Ret.
    pose proof (gains_trans _ _ _ _ _ _ _ G G2) as G3. destruct fwd as [x|].
    - destruct (xmit_post_spec s2 x p' d) as (v & s3 & E3 & G4); [rewrite (same_mem s1 s2); [done|apply G2]|done|].
      rewrite E3, bind_Ret. cbn [fst snd]. pose proof (gains_trans _ _ _ _ _ _ _ G3 G4) as G5.
      eexists _, (k - 1). split; [done|]. split; [|done].
      assert (gains s s3 (- fwd_num (Some x) b2u) (k - 1)) as G6.
      { eapply gains_eq; [exact G5| |]; [unfold fwd_num; lia|]. rewrite bool_decide_false by done. cbn [andb]. lia. }
      destruct (v <? 0); exact G6.
    - eexists s2, _. split; [done|]. split; [eapply gains_eq; [exact G3|unfold fwd_num; lia|reflexivity]|].
      intros [|Hb]; [done|]. rewrite bool_decide_true, bool_decide_false by done. cbn. lia. }
  destruct (bit_test act RTW_RX_MSDU_ACT_INDICATE).
  - destruct (pkt_copy_spec s p d E) as [(s1 & E1 & G1) | (s1 & E1 & G1)]; rewrite E1, bind_Ret; cbn [fst snd].
    + eexists _, 0. split; [done|]. split; [|done].
      eapply gains_eq; [exact (gains_trans _ _ _ _ _ _ _ G1 (free_fwd_spec s1 fwd b2u))| |]; lia.
    + destruct (Go s1 1 (Own d) G1 eq_refl) as (s' & k' & E' & G' & K'). exists s', k'. split; [done|]. split; [done|].
      intros H. rewrite K' by done. lia.
  - rewrite bind_Ret. cbn [fst snd]. destruct (Go s 0 p) as (s' & k' & E' & G' & K'); [split; [same_eq|lia]|done|].
    exists s', k'. split; [done|]. split; [done|]. intros H. rewrite K' by done. lia.
Qed.
(** Up to the first one that fails the content check. *)
Fixpoint checked (s : msst) (l : list (bytes * bytes * bytes)) : list (bytes * bytes * bytes) :=
  match l with
  | [] => []
  | (da, sa, m) :: l => if validate_amsdu_content s da sa =? _FAIL then [] else (da, sa, m) :: checked s l
  end.

Definition handed_up (s : msst) (l : list (bytes * bytes * bytes)) : list bytes :=
  (fun x => eth_of x.1.1 x.1.2 x.2) <$> filter (fun x => indicates s x.1.1 x.1.2 = true) l.

Lemma with_mem_id s : with_mem s (mem_of s) = s.
Proof. by destruct s as [[? [] ?] ? ? ? ? ? ? ?]. Qed.

Lemma with_mem_twice s m m' : with_mem (with_mem s m) m' = with_mem s m'.
Proof. reflexivity. Qed.

(** A step of the deaggregation: only the frame's memory, the clock, the
    resources and what was forwarded change. *)
Definition steps (s s' : msst) (dx dk : Z) : Prop := gains (with_mem s (mem_of s')) s' dx dk.

Lemma same_with_mem s s' m : same s s' -> same (with_mem s m) (with_mem s' m).
Proof. intros (A & B & C & D). unfold same, with_mem, with_base. cbn [base cfg hdr_psta outs]. by rewrite A, B, C. Qed.

Lemma steps_trans s s' s'' a b c d : steps s s' a b -> steps s' s'' c d -> steps s s'' (a + c) (b + d).
Proof.
  intros (S1 & X1 & K1) (S2 & X2 & K2). split; [|cbn in *; lia].
  trans (with_mem s' (mem_of s'')); [|exact S2].
  apply (same_with_mem _ _ (mem_of s'')) in S1. by rewrite with_mem_twice in S1.
Qed.

Lemma steps_gains s s' a b : gains s s' a b -> steps s s' a b.
Proof. intros G. unfold steps. rewrite (same_mem s s') by apply G. by rewrite with_mem_id. Qed.

Lemma steps_eq s s' a b a' b' : steps s s' a b -> a = a' -> b = b' -> steps s s' a' b'.
Proof. by intros ? <- <-. Qed.

(** What the checks depend on does not change. *)
Lemma steps_facts s s' a b : steps s s' a b ->
  ad_of s' = ad_of s /\ cfg s' = cfg s /\ hdr_psta s' = hdr_psta s /\
  (forall da sa, validate_amsdu_content s' da sa = validate_amsdu_content s da sa) /\
  (forall da sa, indicates s' da sa = indicates s da sa) /\ (forall sa, has_receiver s' sa = has_receiver s sa) /\
  may_forward s' = may_forward s.
Proof.
  intros ((B & C & P & _) & _). cbn in B.
  assert (ad_of s' = ad_of s) as A by (unfold ad_of; by rewrite B).
  assert (att (base s') = att (base s)) as T by by rewrite B.
  assert (forall x, get_sta (base s') x = get_sta (base s) x) as G by (intros; by rewrite B).
  assert (forall x, sta_entry (base s') x = sta_entry (base s) x) as E by (intros; by rewrite B).
  cbn in C, P. split_and!; [done..| | | |].
  - intros. unfold validate_amsdu_content. by rewrite C, A, T.
  - intros. unfold indicates. by rewrite A, G.
  - intros. unfold has_receiver, b2u_targets, b2u_skip. rewrite C, P. unfold sta_entry. rewrite B. reflexivity.
  - unfold may_forward. by rewrite A, C.
Qed.

Lemma wr_slice_over X o c Y i : i = zlen X -> length c = length o -> wr_slice (X ++ o ++ Y) i c = Ret (X ++ c ++ Y).
Proof. intros -> E. by apply wr_slice_app. Qed.

Lemma rd_slice_at X c Y i n : i = zlen X -> n = zlen c -> rd_slice (X ++ c ++ Y) i n = Ret c.
Proof. intros -> ->. apply rd_slice_app. Qed.

(** The two places the header of a clone is written to. *)
Lemma clone_llc P da sa two m6 m R :
  length da = 6%nat -> length sa = 6%nat -> length two = 2%nat -> length m6 = 6%nat ->
  clone_pkt (P ++ ((da ++ sa ++ two) ++ m6 ++ m) ++ R) (zlen P) (zlen P + 6) (zlen P + 14) (zlen (m6 ++ m)) true
  = Ret (Shared (zlen P + 8) (zlen (da ++ sa ++ m)), P ++ ((take 6 da ++ take 2 sa) ++ (da ++ sa) ++ m) ++ R).
Proof.
  intros Ld Ls Lt L6. unfold clone_pkt, SNAP_SIZE.
  assert (zlen da = 6 /\ zlen sa = 6 /\ zlen two = 2 /\ zlen m6 = 6) as (Zd & Zs & Zt & Z6) by (unfold zlen; lia).
  do 6 (destruct sa as [|? sa]; [discriminate|]). destruct sa; [|discriminate].
  do 6 (destruct da as [|? da]; [discriminate|]). destruct da; [|discriminate].
  set (d := [z5; z6; z7; z8; z9; z10]) in *. set (a := [z; z0; z1; z2; z3; z4]) in *.
  replace (P ++ ((d ++ a ++ two) ++ m6 ++ m) ++ R) with ((P ++ d) ++ a ++ two ++ m6 ++ m ++ R) by (rewrite <- !app_assoc; reflexivity).
  rewrite (rd_slice_at (P ++ d) a) by (rewrite ?zlen_app; lia). rewrite bind_Ret.
  replace ((P ++ d) ++ a ++ two ++ m6 ++ m ++ R) with ((P ++ d ++ a ++ two) ++ m6 ++ m ++ R) by (rewrite <- !app_assoc; reflexivity).
  rewrite (wr_slice_over (P ++ d ++ a ++ two) m6) by (rewrite ?zlen_app; lia). rewrite bind_Ret.
  replace ((P ++ d ++ a ++ two) ++ a ++ m ++ R) with (P ++ d ++ a ++ two ++ a ++ m ++ R) by (rewrite <- !app_assoc; reflexivity).
  rewrite (rd_slice_at P d) by lia. rewrite bind_Ret.
  replace (P ++ d ++ a ++ two ++ a ++ m ++ R) with ((P ++ d ++ [z; z0]) ++ ([z1; z2; z3; z4] ++ two) ++ a ++ m ++ R)
    by (rewrite <- !app_assoc; reflexivity).
  rewrite (wr_slice_over (P ++ d ++ [z; z0]) ([z1; z2; z3; z4] ++ two) d);
    [|rewrite !zlen_app; change (zlen [z; z0]) with 2; lia | rewrite length_app; cbn [length d]; lia].
  rewrite bind_Ret. f_equal. f_equal; [f_equal; rewrite ?zlen_app; lia|]. by rewrite <- !app_assoc.
Qed.

Lemma clone_plain P da sa two m R :
  length da = 6%nat -> length sa = 6%nat -> length two = 2%nat ->
  clone_pkt (P ++ ((da ++ sa ++ two) ++ m) ++ R) (zlen P) (zlen P + 6) (zlen P + 14) (zlen m) false
  = Ret (Shared (zlen P) (zlen (da ++ sa ++ be16 (zlen m) ++ m)), P ++ (da ++ sa ++ be16 (zlen m) ++ m) ++ R).
Proof.
  intros Ld Ls Lt. unfold clone_pkt. fold (be16 (zlen m)).
  assert (zlen da = 6 /\ zlen sa = 6 /\ zlen two = 2) as (Zd & Zs & Zt) by (unfold zlen; lia).
  replace (P ++ ((da ++ sa ++ two) ++ m) ++ R) with ((P ++ da ++ sa) ++ two ++ m ++ R) by (rewrite <- !app_assoc; reflexivity).
  rewrite (wr_slice_over (P ++ da ++ sa) two (be16 (zlen m))) by (rewrite ?zlen_app; lia || done). rewrite bind_Ret.
  replace ((P ++ da ++ sa) ++ be16 (zlen m) ++ m ++ R) with ((P ++ da) ++ sa ++ be16 (zlen m) ++ m ++ R) by (rewrite <- !app_assoc; reflexivity).
  rewrite (rd_slice_at (P ++ da) sa) by (rewrite ?zlen_app; lia). rewrite bind_Ret.
  rewrite (wr_slice_over (P ++ da) sa sa) by (rewrite ?zlen_app; lia || done). rewrite bind_Ret.
  replace ((P ++ da) ++ sa ++ be16 (zlen m) ++ m ++ R) with (P ++ da ++ sa ++ be16 (zlen m) ++ m ++ R) by (rewrite <- !app_assoc; reflexivity).
  rewrite (rd_slice_at P da) by lia. rewrite bind_Ret, (wr_slice_over P da da) by (lia || done). rewrite bind_Ret.
  f_equal. f_equal; [f_equal; [lia|rewrite !zlen_app; change (zlen (be16 (zlen m))) with 2; lia]|]. by rewrite <- !app_assoc.
Qed.

Lemma own_pkt_spec P da sa two m R llc_hdl :
  length da = 6%nat -> length sa = 6%nat -> length two = 2%nat ->
  own_pkt (P ++ ((da ++ sa ++ two) ++ m) ++ R) (zlen P) (zlen P + 6) (zlen P + 14) (zlen m) llc_hdl
  = Ret (da ++ sa ++ if llc_hdl then drop 6 m else be16 (zlen m) ++ m).
Proof.
  intros Ld Ls Lt. unfold own_pkt. fold (be16 (zlen m)).
  assert (zlen da = 6 /\ zlen sa = 6 /\ zlen two = 2) as (Zd & Zs & Zt) by (unfold zlen; lia).
  replace (P ++ ((da ++ sa ++ two) ++ m) ++ R) with ((P ++ da ++ sa ++ two) ++ m ++ R) by (rewrite <- !app_assoc; reflexivity).
  rewrite (rd_slice_at (P ++ da ++ sa ++ two) m R (zlen P + 14) (zlen m)) by (rewrite ?zlen_app; lia). rewrite bind_Ret.
  replace ((P ++ da ++ sa ++ two) ++ m ++ R) with ((P ++ da) ++ sa ++ two ++ m ++ R) by (rewrite <- !app_assoc; reflexivity).
  rewrite (rd_slice_at (P ++ da) sa (two ++ m ++ R) (zlen P + 6) 6) by (rewrite ?zlen_app; lia). rewrite bind_Ret.
  replace ((P ++ da) ++ sa ++ two ++ m ++ R) with (P ++ da ++ sa ++ two ++ m ++ R) by (rewrite <- !app_assoc; reflexivity).
  rewrite (rd_slice_at P da) by lia. by rewrite bind_Ret.
Qed.

Lemma llc_of_split m : llc_of m = true -> exists m6 r, m = m6 ++ r /\ length m6 = 6%nat /\ drop 6 m = r /\ 8 <= zlen m.
Proof.
  intros E. do 8 (destruct m as [|? m]; [discriminate|]). exists [z; z0; z1; z2; z3; z4], (z5 :: z6 :: m).
  split; [done|]. split; [done|]. split; [done|]. rewrite !zlen_cons. pose proof (zlen_nonneg m). lia.
Qed.

(** An allocation fails only when copying and cloning both do. *)
Definition alloc_failure : Prop := exists k n, rtw_skb_alloc k n = false /\ rtw_skb_clone (S k) = false.

Lemma alloc_msdu_spec s P da sa two m R :
  mem_of s = P ++ ((da ++ sa ++ two) ++ m) ++ R -> length da = 6%nat -> length sa = 6%nat -> length two = 2%nat ->
  exists o s', rtw_os_alloc_msdu_pkt s (zlen P) (zlen P + 6) (zlen P + 14) (zlen m) (llc_of m) = Ret (o, s') /\
    match o with
    | None => alloc_failure /\ gains s s' 0 0
    | Some p => steps s s' 0 1 /\ exists sub, mem_of s' = P ++ sub ++ R /\ length sub = (14 + length m)%nat /\
                skb_in (P ++ sub) p (eth_of da sa m)
    end.
Proof.
  intros M Ld Ls Lt. unfold rtw_os_alloc_msdu_pkt. destruct (rtw_skb_alloc (tick s) (zlen m + 14)) eqn:A.
  - rewrite M, own_pkt_spec by done. rewrite bind_Ret. eexists (Some _), _. split; [done|].
    split; [apply steps_gains; held|]. exists ((da ++ sa ++ two) ++ m).
    split; [exact M|]. split; [rewrite !length_app; lia|]. reflexivity.
  - destruct (rtw_skb_clone (tick (tock s))) eqn:C; [|eexists None, _; split; [done|]; split; [exists (tick s), (zlen m + 14); done | held]].
    rewrite M. unfold eth_of. destruct (llc_of m) eqn:E.
    + destruct (llc_of_split m E) as (m6 & r & -> & L6 & D & _). rewrite D.
      rewrite clone_llc by done. rewrite bind_Ret. eexists (Some _), _. split; [done|]. cbn [fst snd].
      split; [unfold steps; cbn; held|]. eexists. split; [reflexivity|]. split.
      { rewrite !length_app, !length_take. lia. }
      exists (P ++ take 6 da ++ take 2 sa), []. split; [by rewrite app_nil_r, <- !app_assoc|]. split; [|done].
      rewrite !zlen_app. assert (zlen (take 6 da) = 6 /\ zlen (take 2 sa) = 2) as [-> ->]; [|lia].
      unfold zlen. rewrite !length_take. lia.
    + rewrite clone_plain by done. rewrite bind_Ret. eexists (Some _), _. split; [done|]. cbn [fst snd].
      split; [unfold steps; cbn; held|]. eexists. split; [reflexivity|]. split.
      { rewrite !length_app. cbn. lia. }
      exists P, []. split; [by rewrite app_nil_r|]. done.
Qed.

(** ** One subframe *)

Lemma act_bits (i f : bool) :
  bit_test (Z.b2z i + 2 * Z.b2z f) RTW_RX_MSDU_ACT_INDICATE = i /\
  bit_test (Z.b2z i + 2 * Z.b2z f) RTW_RX_MSDU_ACT_FORWARD = f /\
  (Z.b2z i + 2 * Z.b2z f =? 0) = negb i && negb f.
Proof. by destruct i, f. Qed.

(** Transmit frames are never short, and converted packets have receivers. *)
Definition no_leak (s : msst) : Prop := (forall k, 0 < free_xmit_queue k) /\ forall sa, has_receiver s sa.

Lemma no_leak_steps s s' a b : steps s s' a b -> no_leak s' <-> no_leak s.
Proof.
  intros St. destruct (steps_facts _ _ _ _ St) as (_ & _ & _ & _ & _ & H & _). unfold no_leak.
  split; intros [A B]; (split; [done|]); intros sa; [rewrite <- H|rewrite H]; apply B.
Qed.

(** Passing the packet on, once it exists. *)
Lemma forward_spec s0 s p d da sa act fwd b2u f t :
  act_ok s0 da sa act fwd b2u f -> act <> 0 ->
  steps (moved s0 t (fwd_num fwd b2u) 0) s 0 1 -> rtw_os_pkt_data (mem_of s) p = Ret d -> (may_forward s0 = true -> Q d) ->
  exists s' dx dk, (if f then recv_fwd_pkt_hdl s p act fwd b2u else Ret s) = Ret s' /\
    steps s0 s' dx dk /\ mem_of s' = mem_of s /\ (no_leak s0 -> dx = 0 /\ dk = Z.b2z (indicates s0 da sa)).
Proof.
  intros [Ea Ef Eu En Es] Ha St D HQ. set (i := indicates s0 da sa) in *. destruct (act_bits i f) as (Bi & Bf & _).
  assert (steps s0 s (fwd_num fwd b2u) 1) as St0.
  { eapply steps_eq; [eapply (steps_trans s0 (moved s0 t (fwd_num fwd b2u) 0) s _ 0); [|exact St]; apply steps_gains; split; [same_eq|];
      cbn; split; reflexivity|lia|lia]. }
  destruct f.
  - destruct (fwd_hdl_spec s p d act fwd b2u D (HQ (Ef eq_refl))) as (s' & k & E & G & K).
    exists s', 0, (1 + k). split; [exact E|]. split.
    { eapply steps_eq; [exact (steps_trans _ _ _ _ _ _ _ St0 (steps_gains _ _ _ _ G))|lia|lia]. }
    split; [apply same_mem, G|]. intros NL. split; [done|].
    rewrite Ea, Bi in K. rewrite K; [by destruct i|]. destruct (Es eq_refl (proj2 NL sa)) as [H|[H|[j H]]]; [by left|by right|].
    pose proof (proj1 NL j). lia.
  - exists s, (fwd_num fwd b2u), 1. split; [done|]. split; [done|]. split; [done|]. destruct (En eq_refl) as [-> B].
    intros NL. destruct B as [-> | [j H]]; [|pose proof (proj1 NL j); lia]. split; [done|]. by destruct i.
Qed.

Lemma subframe_spec s P da sa two m R subs bs :
  mem_of s = P ++ ((da ++ sa ++ two) ++ m) ++ R -> length da = 6%nat -> length sa = 6%nat -> length two = 2%nat ->
  2 <= zlen R -> is_Some (hdr_psta s) -> Forall2 (skb_in P) subs bs -> (length bs < 64)%nat ->
  (validate_amsdu_content s da sa <> _FAIL -> may_forward s = true -> Q (eth_of da sa m)) ->
  exists o s' sub dx dk, amsdu_subframe s (zlen P) (zlen m) subs = Ret (o, s') /\
    mem_of s' = P ++ sub ++ R /\ length sub = (14 + length m)%nat /\ steps s s' dx dk /\ (no_leak s -> dx = 0) /\
    match o with
    | None => (no_leak s -> dk = 0) /\ (validate_amsdu_content s da sa = _FAIL \/ validate_amsdu_content s da sa <> _FAIL /\ alloc_failure)
    | Some subs' => validate_amsdu_content s da sa <> _FAIL /\
        Forall2 (skb_in (P ++ sub)) subs' (bs ++ if indicates s da sa then [eth_of da sa m] else []) /\
        (no_leak s -> dk = Z.b2z (indicates s da sa))
    end.
Proof.
  intros M Ld Ls Lt HR Hp F L HQ. unfold amsdu_subframe.
  assert (zlen da = 6 /\ zlen sa = 6 /\ zlen two = 2) as (Zd & Zs & Zt) by (unfold zlen; lia).
  assert (rd_slice (mem_of s) (zlen P) 6 = Ret da) as ->.
  { rewrite M. replace (P ++ ((da ++ sa ++ two) ++ m) ++ R) with (P ++ da ++ (sa ++ two ++ m ++ R)) by (rewrite <- !app_assoc; reflexivity).
    apply rd_slice_at; lia. }
  rewrite bind_Ret. assert (rd_slice (mem_of s) (zlen P + 6) 6 = Ret sa) as ->.
  { rewrite M. replace (P ++ ((da ++ sa ++ two) ++ m) ++ R) with ((P ++ da) ++ sa ++ (two ++ m ++ R)) by (rewrite <- !app_assoc; reflexivity).
    apply rd_slice_at; rewrite ?zlen_app; lia. }
  rewrite bind_Ret. assert (length ((da ++ sa ++ two) ++ m) = (14 + length m)%nat) as Lsub by (rewrite !length_app; lia).
  assert (steps s s 0 0) as Refl by (apply steps_gains; held).
  destruct (Z.eqb_spec (validate_amsdu_content s da sa) _FAIL) as [V|V].
  { exists None, s, ((da ++ sa ++ two) ++ m), 0, 0. split_and!; auto. }
  assert (rtw_recv_llc_parse (mem_of s) (zlen P + ETH_HLEN) (zlen m) = Ret (llc_of m)) as ->.
  { rewrite M. replace (P ++ ((da ++ sa ++ two) ++ m) ++ R) with ((P ++ da ++ sa ++ two) ++ m ++ R) by (rewrite <- !app_assoc; reflexivity).
    rewrite <- (llc_parse_spec (P ++ da ++ sa ++ two) m R). f_equal. rewrite !zlen_app. unfold ETH_HLEN. lia. }
  rewrite bind_Ret. unfold ETH_HLEN.
  destruct (amsdu_act_spec s da sa (zlen P + 14) (llc_of m) Hp) as (act & fwd & b2u & f & t & E & A).
  { intros Hl. destruct (llc_of_split m Hl) as (_ & _ & _ & _ & _ & Zm). pose proof (zlen_nonneg P).
    rewrite M, !zlen_app. lia. }
  rewrite E, bind_Ret. clear E. destruct (act_bits (indicates s da sa) f) as (Bi & Bf & _). rewrite <- (ao_act _ _ _ _ _ _ _ A) in Bi, Bf.
  destruct (Z.eqb_spec act 0) as [Z0|Z0].
  { (* neither indicated nor forwarded *)
    rewrite (ao_act _ _ _ _ _ _ _ A) in Z0. assert (indicates s da sa = false /\ f = false) as [I Hf].
    { by destruct (indicates s da sa), f. }
    exists (Some subs), (moved s t (fwd_num fwd b2u) 0), ((da ++ sa ++ two) ++ m), (fwd_num fwd b2u), 0.
    rewrite I, app_nil_r. split; [done|]. split; [done|]. split; [done|]. split; [apply steps_gains; split; [same_eq|]; cbn; lia|].
    split; [|split; [done|split; [|done]]; eapply Forall2_impl; [exact F|intros; by apply skb_in_app]].
    intros NL. destruct (ao_none _ _ _ _ _ _ _ A Hf) as [-> [-> | [k H]]]; [done|]. pose proof (proj1 NL k). lia. }
  destruct (alloc_msdu_spec (moved s t (fwd_num fwd b2u) 0) P da sa two m R M Ld Ls Lt) as (o & s1 & E1 & O). rewrite E1, bind_Ret. clear E1.
  rewrite Bf.
  destruct o as [p|].
  - destruct O as (St & sub & M1 & L1 & I1). destruct (forward_spec s s1 p (eth_of da sa m) da sa act fwd b2u f t A Z0 St)
      as (s2 & dx & dk & E2 & St2 & M2 & NL).
    { rewrite M1, app_assoc. by apply skb_in_data. }
    { auto. }
    rewrite E2, bind_Ret, Bi.
    assert (Forall2 (skb_in (P ++ sub)) subs bs) as F' by (eapply Forall2_impl; [exact F|intros; by apply skb_in_app]).
    destruct (indicates s da sa) eqn:I.
    + rewrite andb_false_r. unfold rtw_recv_indicatepkt_check. rewrite Z.eqb_refl.
      assert (length subs = length bs) as Len by (by eapply Forall2_length).
      destruct (Z.leb_spec MAX_SUBFRAME_COUNT (zlen subs)) as [B|_]; [unfold MAX_SUBFRAME_COUNT, zlen in B; lia|].
      exists (Some (subs ++ [p])), s2, sub, dx, dk. split; [done|]. split; [by rewrite M2|]. split; [done|]. split; [done|].
      split; [intros H; by apply NL|]. split; [done|]. split; [|intros H; by apply NL].
      apply Forall2_app; [done|]. by apply Forall2_cons_2; [|apply Forall2_nil_2].
    + assert (f = true) as Hf by (destruct f; [done|]; exfalso; apply Z0; by rewrite (ao_act _ _ _ _ _ _ _ A), I).
      rewrite Hf. cbn [andb negb]. exists (Some subs), s2, sub, dx, dk. rewrite app_nil_r.
      split; [done|]. split; [by rewrite M2|]. split; [done|]. split; [done|]. split; [intros H; by apply NL|]. split; [done|].
      split; [done|]. intros H; by apply NL.
  - destruct O as (Fl & G).
    assert (mem_of s1 = P ++ ((da ++ sa ++ two) ++ m) ++ R) as M1 by (rewrite (same_mem _ _ (proj1 G)); exact M).
    assert (gains s s1 (fwd_num fwd b2u) 0) as G1.
    { eapply gains_eq; [eapply (gains_trans s (moved s t (fwd_num fwd b2u) 0) s1 _ 0); [split; [same_eq|cbn; split; reflexivity]|exact G]| |]; lia. }
    destruct f.
    + exists None, (recv_free_fwd_resource s1 fwd b2u), ((da ++ sa ++ two) ++ m), 0, 0. split; [done|].
      pose proof (free_fwd_spec s1 fwd b2u) as G2.
      split; [by rewrite (same_mem _ _ (proj1 G2))|]. split; [done|]. split; [|auto].
      apply steps_gains. eapply gains_eq; [exact (gains_trans _ _ _ _ _ _ _ G1 G2)| |]; lia.
    + exists None, s1, ((da ++ sa ++ two) ++ m), (fwd_num fwd b2u), 0. split; [done|]. split; [done|]. split; [done|].
      split; [by apply steps_gains|]. split; [|auto].
      intros NL. destruct (ao_none _ _ _ _ _ _ _ A eq_refl) as [-> [-> | [k H]]]; [done|]. pose proof (proj1 NL k). lia.
Qed.

(** ** The loop *)

(** What the loop owes for the remaining bytes. *)
Definition target (s : msst) (bs : list bytes) (d : bytes) : list bytes := take 64 (bs ++ handed_up s (checked s (subframes d))).

Record loop_done (s s' : msst) (subs : list skb) (bs bs' goal : list bytes) : Prop := {
  ld_mem : exists P' post', mem_of s' = P' ++ post' /\ Forall2 (skb_in P') subs bs';
  ld_steps : exists dx dk, steps s s' dx dk /\ (no_leak s -> dx = 0 /\ dk = zlen bs' - zlen bs);
  ld_prefix : bs' `prefix_of` goal;
  ld_all : ~ alloc_failure -> bs' = goal;
  ld_short : (length bs' <= 64)%nat
}.

Lemma checked_steps s s' a b l : steps s s' a b -> checked s' l = checked s l.
Proof.
  intros St. destruct (steps_facts _ _ _ _ St) as (_ & _ & _ & V & _).
  induction l as [|[[da sa] m] l IH]; cbn [checked]; [done|by rewrite V, IH].
Qed.

Lemma handed_up_steps s s' a b l : steps s s' a b -> handed_up s' (checked s' l) = handed_up s (checked s l).
Proof.
  intros St. rewrite (checked_steps _ _ _ _ l St). destruct (steps_facts _ _ _ _ St) as (_ & _ & _ & _ & I & _).
  unfold handed_up. f_equal. apply list_filter_iff. intros [[da sa] m]. cbn. by rewrite I.
Qed.

Lemma loop_stop s P d post subs bs goal :
  mem_of s = P ++ d ++ post -> Forall2 (skb_in P) subs bs -> bs = goal -> (length bs <= 64)%nat -> loop_done s s subs bs bs goal.
Proof.
  intros M F <- L. split; [eauto| |done|done|done]. exists 0, 0. split; [apply steps_gains; held|]. intros _. lia.
Qed.

Lemma loop_step s s1 s2 subs bs bs1 bs2 goal dx dk :
  steps s s1 dx dk -> (no_leak s -> dx = 0 /\ dk = zlen bs1 - zlen bs) ->
  loop_done s1 s2 subs bs1 bs2 goal -> loop_done s s2 subs bs bs2 goal.
Proof.
  intros St NL [M (dx' & dk' & St' & NL') Pf A L]. split; [done| |done..]. exists (dx + dx'), (dk + dk'). split; [by eapply steps_trans|].
  intros H. destruct (NL H). destruct (NL' (proj2 (no_leak_steps _ _ _ _ St) H)). lia.
Qed.

Lemma target_cons s bs da sa two m rest d :
  d = ((da ++ sa ++ two) ++ m) ++ rest -> subframes d = (da, sa, m) :: subframes (drop (Z.to_nat (pad (zlen m))) rest) ->
  validate_amsdu_content s da sa <> _FAIL ->
  target s bs d = target s (bs ++ if indicates s da sa then [eth_of da sa m] else []) (drop (Z.to_nat (pad (zlen m))) rest).
Proof.
  intros _ E V. unfold target. rewrite E. cbn [checked]. rewrite (proj2 (Z.eqb_neq _ _) V).
  unfold handed_up at 1. rewrite filter_cons. cbn [fst snd]. destruct (indicates s da sa).
  - rewrite decide_True by done. rewrite fmap_cons, <- app_assoc. reflexivity.
  - rewrite decide_False by done. rewrite app_nil_r. reflexivity.
Qed.

Lemma Forall2_skb_app P R subs bs : Forall2 (skb_in P) subs bs -> Forall2 (skb_in (P ++ R)) subs bs.
Proof. intros F. eapply Forall2_impl; [exact F|]. intros. by apply skb_in_app. Qed.

Lemma loop_spec fuel s P d post subs bs :
  (length d < fuel)%nat -> mem_of s = P ++ d ++ post -> 2 <= zlen post -> is_Some (hdr_psta s) ->
  Forall2 (skb_in P) subs bs -> (length bs < 64)%nat ->
  (may_forward s = true -> Forall (fun x => Q (eth_of x.1.1 x.1.2 x.2)) (checked s (subframes d))) ->
  exists subs' s' bs', amsdu_loop fuel s (zlen P) (zlen d) subs = Ret (subs', s') /\ loop_done s s' subs' bs bs' (target s bs d).
Proof.
  revert s P d subs bs. induction fuel as [|fuel IH]; intros s P d subs bs Hf M Hpost Hp F L HQ; [lia|]. cbn [amsdu_loop].
  assert (subframes d = [] -> loop_done s s subs bs bs (target s bs d)) as Stop.
  { intros E. eapply loop_stop; [exact M|done| |lia]. unfold target. rewrite E. cbn. rewrite app_nil_r. symmetry. apply take_ge. lia. }
  unfold ETH_HLEN. destruct (Z.ltb_spec 14 (zlen d)) as [H14|H14]; [|exists subs, s, bs; split; [done|apply Stop, subframes_nil; lia]].
  rewrite M, be16_at by lia. rewrite bind_Ret.
  destruct (Z.ltb_spec (zlen d) (14 + sub_len d)) as [Hn|Hn]; [exists subs, s, bs; split; [done|apply Stop, subframes_nil; lia]|].
  destruct (subframes_cons d H14 Hn) as (da & sa & two & m & rest & Ed & Ld & Ls & Lt & Zm & Sub).
  pose proof (sub_len_range d). destruct (pad_code (zlen m)) as [Pc Hpad]; [lia|]. cbn zeta in Pc. unfold ETH_HLEN in Pc.
  rewrite <- Zm. destruct (subframe_spec s P da sa two m (rest ++ post) subs bs)
    as (o & s1 & sub & dx & dk & E1 & M1 & L1 & St & Dx & O); auto.
  { rewrite M, Ed. by rewrite <- !app_assoc. }
  { rewrite zlen_app. pose proof (zlen_nonneg rest). lia. }
  { intros V Mf. specialize (HQ Mf). rewrite Sub in HQ. cbn [checked] in HQ. rewrite (proj2 (Z.eqb_neq _ _) V) in HQ.
    by apply Forall_cons_1 in HQ as [HQ _]. }
  rewrite E1, bind_Ret. clear E1. destruct o as [subs1|].
  2:{ destruct O as (Dk & O). exists subs, s1, bs. split; [done|].
      assert (forall goal, bs `prefix_of` goal -> (~ alloc_failure -> bs = goal) -> loop_done s s1 subs bs bs goal) as Fin.
      { intros goal Pf Al. split; [| |done|done|lia].
        - exists P, (sub ++ rest ++ post). split; [by rewrite M1|done].
        - exists dx, dk. split; [done|]. intros NL. split; [auto|]. rewrite (Dk NL). lia. }
      apply Fin; unfold target.
      - rewrite take_app_ge by lia. by eexists.
      - intros Al. destruct O as [V|[_ Af]]; [|by destruct Al]. rewrite Sub. cbn [checked]. rewrite V. cbn.
        rewrite app_nil_r. symmetry. apply take_ge. lia. }
  destruct O as (V & F1 & Dk). rewrite (target_cons s bs da sa two m rest d Ed Sub V).
  set (bs1 := bs ++ _) in *.
  assert (zlen bs1 - zlen bs = Z.b2z (indicates s da sa)) as Zb.
  { unfold bs1. rewrite zlen_app. destruct (indicates s da sa); [change (zlen [eth_of da sa m]) with 1|change (@zlen bytes []) with 0]; cbn [Z.b2z]; lia. }
  assert (no_leak s -> dx = 0 /\ dk = zlen bs1 - zlen bs) as NL by (intros H0; rewrite Zb; auto).
  assert (length subs1 = length bs1) as L2 by (by eapply Forall2_length).
  assert (length bs1 <= 64)%nat as L64.
  { assert (zlen bs1 <= 1 + zlen bs) by (destruct (indicates s da sa); cbn [Z.b2z] in Zb; lia). unfold zlen in *. lia. }
  assert (zlen d = 14 + zlen m + zlen rest) as Zd.
  { rewrite Ed, !zlen_app. unfold zlen. lia. }
  assert (forall s', target s' bs1 (drop (Z.to_nat (pad (zlen m))) rest) = bs1 -> exists subs' s'0 bs',
    @Ret (list skb * msst) (subs1, s1) = Ret (subs', s'0) /\ loop_done s s'0 subs' bs bs' bs1) as Finish.
  { intros _ _. exists subs1, s1, bs1. split; [done|]. eapply loop_step; [exact St|exact NL|].
    eapply (loop_stop s1 (P ++ sub) rest post); [by rewrite M1, <- app_assoc|done|done|lia]. }
  destruct (Z.leb_spec MAX_SUBFRAME_COUNT (zlen subs1)) as [Full|Room].
  { assert (length bs1 = 64%nat) as L3 by (unfold MAX_SUBFRAME_COUNT, zlen in Full; lia).
    assert (target s bs1 (drop (Z.to_nat (pad (zlen m))) rest) = bs1) as T by (unfold target; rewrite take_app_le, take_ge by lia; done).
    rewrite T. by eapply Finish. }
  assert (length bs1 < 64)%nat as L3 by (unfold MAX_SUBFRAME_COUNT, zlen in Room; lia).
  rewrite Zd. replace (14 + zlen m + zlen rest - 14 - zlen m) with (zlen rest) by lia.
  assert (forall k, drop k rest = [] -> target s bs1 (drop k rest) = bs1) as Tn.
  { intros k ->. unfold target. cbn. rewrite app_nil_r. apply take_ge. lia. }
  assert (may_forward s = true -> Forall (fun x => Q (eth_of x.1.1 x.1.2 x.2)) (checked s (subframes (drop (Z.to_nat (pad (zlen m))) rest)))) as HQ1.
  { intros Mf. specialize (HQ Mf). rewrite Sub in HQ. cbn [checked] in HQ. rewrite (proj2 (Z.eqb_neq _ _) V) in HQ.
    by apply Forall_cons_1 in HQ as [_ HQ]. }
  assert (forall k, 0 <= k <= zlen rest -> drop (Z.to_nat k) rest = drop (Z.to_nat (pad (zlen m))) rest ->
    exists subs' s' bs', amsdu_loop fuel s1 (zlen P + 14 + zlen m + k) (zlen rest - k) subs1 = Ret (subs', s') /\
    loop_done s s' subs' bs bs' (target s bs1 (drop (Z.to_nat k) rest))) as Go.
  { intros k Hk Ek. destruct (IH s1 (P ++ sub ++ take (Z.to_nat k) rest) (drop (Z.to_nat k) rest) subs1 bs1) as (subs' & s' & bs' & E & D).
    - rewrite length_drop. unfold zlen in Zd. lia.
    - rewrite M1, <- !app_assoc. do 2 f_equal. by rewrite app_assoc, take_drop.
    - done.
    - by destruct (steps_facts _ _ _ _ St) as (_ & _ & -> & _).
    - rewrite app_assoc. by apply Forall2_skb_app.
    - done.
    - rewrite (checked_steps _ _ _ _ _ St). destruct (steps_facts _ _ _ _ St) as (_ & _ & _ & _ & _ & _ & ->). intros Mf.
      rewrite Ek. auto.
    - exists subs', s', bs'. assert (zlen sub = 14 + zlen m) as Zs by (unfold zlen; lia).
      rewrite !zlen_app, Zs in E. unfold zlen in E. rewrite length_take, length_drop in E. fold (zlen P) (zlen m) in E.
      rewrite <- E. split; [f_equal; unfold zlen in *; lia|]. eapply loop_step; [exact St|exact NL|].
      unfold target in *. by rewrite <- (handed_up_steps s s1 _ _ _ St). }
  destruct (Z.eqb_spec (zlen rest) 0) as [Z0|Z0].
  { assert (rest = []) as Er by (destruct rest; [done|rewrite zlen_cons in Z0; pose proof (zlen_nonneg rest); lia]).
    destruct (Go 0) as (subs' & s' & bs' & E & D); [lia|by rewrite Er, !drop_nil|]. rewrite Z.add_0_r, Z.sub_0_r in E. rewrite E.
    exists subs', s', bs'. split; [done|]. rewrite Er, drop_nil in *. exact D. }
  rewrite Pc. destruct (Z.ltb_spec (zlen rest) (pad (zlen m))) as [Short|Long].
  { assert (length rest <= Z.to_nat (pad (zlen m)))%nat as Sh by (generalize dependent (pad (zlen m)); unfold zlen; intros; lia).
    assert (drop (Z.to_nat (pad (zlen m))) rest = []) as Dn by by apply drop_ge.
    rewrite (Tn _ Dn). eapply (Finish s). by apply Tn. }
  destruct (Go (pad (zlen m))) as (subs' & s' & bs' & E & D); [lia|done|]. rewrite E. eauto.
Qed.

(** ** The whole frame *)

Lemma indicate_all_spec P R l bs s : mem_of s = P ++ R -> Forall2 (skb_in P) l bs ->
  exists s', indicate_all s l = Ret s' /\ outs s' = outs s ++ (rtw_os_recv_indicate_pkt <$> bs) /\ base s' = base s /\
    xframes s' = xframes s /\ skbs s' = skbs s - zlen bs.
Proof.
  intros M F. revert s M. induction F as [|p b l bs Hp F IH]; intros s M; cbn [indicate_all].
  { exists s. split; [done|]. cbn. rewrite app_nil_r. change (zlen []) with 0. split_and!; [done..|lia]. }
  rewrite M, (skb_in_data P R p b Hp), bind_Ret.
  destruct (IH (hold_skb (emit s (rtw_os_recv_indicate_pkt b)) (-1)) M) as (s' & E & O & B & X & K).
  exists s'. split; [done|]. rewrite O, B, X, K, zlen_cons. cbn. rewrite <- app_assoc. split_and!; [done..|lia].
Qed.

(** An A-MSDU in the receive buffer. *)
Record amsdu_frame (s : msst) (pre hdr iv body icv post : bytes) : Prop := {
  am_win : frame_win (frm (base s)) pre (hdr ++ iv ++ body ++ icv) post;
  am_hdr : zlen hdr = hdrlen (att (base s));
  am_iv : zlen iv = iv_len (att (base s));
  am_icv : zlen icv = if encrypt (att (base s)) =? 0 then 0 else icv_len (att (base s));
  am_room : 2 <= zlen icv + zlen post;
  am_psta : is_Some (hdr_psta s)
}.

(** The state the loop starts in. *)
Lemma amsdu_start s pre hdr iv body icv post : amsdu_frame s pre hdr iv body icv post -> exists f,
  amsdu_to_msdu s = (r ← amsdu_loop (S (Z.to_nat (len f))) (with_base s (with_frm (base s) f)) (rx_data f) (len f) [];
                     s ← indicate_all (snd r) (fst r); Ret (_SUCCESS, s)) /\
  frame_win f (pre ++ hdr ++ iv) body (icv ++ post) /\ attrib f = att (base s).
Proof.
  intros [W Zh Zi Zc _ _]. unfold amsdu_to_msdu. cbv zeta. rewrite <- Zh, <- Zi.
  destruct (fwin_pull _ pre hdr _ post W) as (f1 & E1 & W1 & A1 & _). rewrite E1. change (ignore_null (frm (base s)) (Some f1)) with f1.
  assert (exists f2, (if 0 <? zlen iv then ignore_null f1 (recvframe_pull f1 (zlen iv)) else f1) = f2 /\
    frame_win f2 (pre ++ hdr ++ iv) (body ++ icv) post /\ attrib f2 = attrib f1) as (f2 & -> & W2 & A2).
  { destruct (Z.ltb_spec 0 (zlen iv)) as [H|H].
    - destruct (fwin_pull _ (pre ++ hdr) iv _ post W1) as (f2 & E2 & W2 & A2 & _). rewrite E2. exists f2.
      split; [done|]. split; [by rewrite app_assoc|done].
    - assert (iv = []) as -> by (destruct iv; [done|rewrite zlen_cons in H; pose proof (zlen_nonneg iv); lia]).
      exists f1. rewrite app_nil_r. done. }
  assert (exists f3, (if encrypt (att (base s)) =? 0 then f2 else ignore_null f2 (recvframe_pull_tail f2 (icv_len (att (base s))))) = f3 /\
    frame_win f3 (pre ++ hdr ++ iv) body (icv ++ post) /\ attrib f3 = attrib f2) as (f3 & -> & W3 & A3).
  { destruct (encrypt (att (base s)) =? 0).
    - assert (icv = []) as -> by (destruct icv; [done|rewrite zlen_cons in Zc; pose proof (zlen_nonneg icv); lia]).
      exists f2. rewrite app_nil_r in W2. done.
    - destruct (fwin_pull_tail f2 _ body icv post W2) as (f3 & E3 & W3 & A3 & _). rewrite <- Zc, E3. by exists f3. }
  exists f3. split; [done|]. split; [done|]. by rewrite A3, A2, A1.
Qed.

(** Deaggregation against its specification. *)
Lemma amsdu_spec s pre hdr iv body icv post : amsdu_frame s pre hdr iv body icv post ->
  (may_forward s = true -> Forall (fun x => Q (eth_of x.1.1 x.1.2 x.2)) (checked s (subframes body))) ->
  exists s' new bs, amsdu_to_msdu s = Ret (_SUCCESS, s') /\
    outs s' = outs s ++ new ++ (rtw_os_recv_indicate_pkt <$> bs) /\ Forall fwd_ok new /\
    bs `prefix_of` target s [] body /\ (~ alloc_failure -> bs = target s [] body) /\
    (no_leak s -> xframes s' = xframes s /\ skbs s' = skbs s).
Proof.
  intros A HQ. destruct (amsdu_start _ _ _ _ _ _ _ A) as (f & E & W & Af). rewrite E. clear E.
  set (s0 := with_base s (with_frm (base s) f)).
  assert (forall l, checked s0 l = checked s l) as Ck.
  { intros l. induction l as [|[[da sa] m] l IH]; cbn [checked]; [done|]. unfold validate_amsdu_content at 1.
    change (cfg s0) with (cfg s). change (ad_of s0) with (ad_of s). change (att (base s0)) with (attrib f). by rewrite Af, IH. }
  rewrite (ho_data _ _ _ _ W), (ho_len _ _ _ _ W).
  destruct (loop_spec (S (Z.to_nat (zlen body))) s0 (pre ++ hdr ++ iv) body (icv ++ post) [] []) as (subs & s1 & bs & E1 & D).
  - unfold zlen. lia.
  - exact (ho_mem _ _ _ _ W).
  - rewrite zlen_app. apply A.
  - apply A.
  - constructor.
  - cbn. lia.
  - intros Mf. rewrite Ck. auto.
  - rewrite E1, bind_Ret. cbn [fst snd]. destruct D as [(P' & post' & M & F) (dx & dk & St & NL) Pf All _].
    destruct (indicate_all_spec P' post' subs bs s1 M F) as (s2 & E2 & O2 & B2 & X2 & K2). rewrite E2, bind_Ret.
    assert (target s0 [] body = target s [] body) as Tg.
    { unfold target. rewrite Ck. unfold handed_up. cbn [app]. do 2 f_equal. }
    rewrite Tg in *. destruct (proj2 (proj2 (proj2 (proj1 St)))) as (new & En & Fn). cbn in En.
    exists s2, new, bs. split; [done|]. split; [by rewrite O2, En, app_assoc|]. split; [done|]. split; [done|]. split; [done|].
    intros H. destruct (NL H) as [Dx Dk]. destruct St as (_ & X1 & K1). cbn in X1, K1. change (zlen []) with 0 in Dk. lia.
Qed.

(** ** One MSDU per frame *)

(** A data frame that is no A-MSDU, in the receive buffer. *)
Record mpdu_frame (s : msst) (pre hdr msg icv post : bytes) : Prop := {
  mp_win : frame_win (frm (base s)) pre (hdr ++ msg ++ icv) post;
  mp_amsdu : amsdu (att (base s)) = 0;
  mp_hdr : zlen hdr = hdrlen (att (base s)) + iv_len (att (base s));
  mp_min : 24 <= zlen hdr;
  mp_icv : zlen icv = if encrypt (att (base s)) =? 0 then 0 else icv_len (att (base s));
  mp_msg : zlen msg < 65536;
  mp_dst : length (dst (att (base s))) = 6%nat;
  mp_src : length (src (att (base s))) = 6%nat;
  mp_room : 2 <= zlen icv + zlen post;
  mp_psta : is_Some (hdr_psta s);
  mp_runs : cannot_run (cfg s) = false
}.

Lemma mpdu_spec s pre hdr msg icv post : mpdu_frame s pre hdr msg icv post ->
  let pkt := eth_of (dst (att (base s))) (src (att (base s))) msg in
  (may_forward s = true -> Q pkt) ->
  exists r s' new, recv_process_mpdu s = Ret (r, s') /\
    outs s' = outs s ++ new ++ (if indicates s (dst (att (base s))) (src (att (base s))) then [rtw_os_recv_indicate_pkt pkt] else []) /\
    Forall fwd_ok new /\ (no_leak s -> xframes s' = xframes s /\ skbs s' = skbs s).
Proof.
  intros [W Ham Zh Hh Zi Zm Ld Ls Hr Hp Rn] pkt HQ. unfold recv_process_mpdu. rewrite Ham. cbn [Z.eqb negb].
  destruct (ethernet_conversion _ pre hdr msg icv post W Zh Hh Zi Ld Ls) as (llc & f' & pre' & El & Hl & Ec & Wc).
  assert (u16 (len (frm (base s)) - hdrlen (att (base s)) - iv_len (att (base s)) - (if encrypt (att (base s)) =? 0 then 0 else icv_len (att (base s)))) = zlen msg) as ->.
  { rewrite <- Zi, (ho_len _ _ _ _ W), !zlen_app. rewrite <- (u16_small (zlen msg)) at 2; [f_equal; lia|].
    unfold is_u16. pose proof (zlen_nonneg msg). lia. }
  rewrite <- Z.add_assoc, <- Zh, El, bind_Ret.
  assert (tos_readable s (rx_data (frm (base s)) + zlen hdr) llc) as T.
  { intros E. rewrite Hl in E. destruct (llc_of_split msg E) as (_ & _ & _ & _ & _ & Z8). unfold mem_of.
    rewrite (ho_data _ _ _ _ W), (ho_mem _ _ _ _ W), !zlen_app. pose proof (zlen_nonneg pre). lia. }
  set (da := dst (att (base s))) in *. set (sa := src (att (base s))) in *.
  assert (mpdu_act s da sa (rx_data (frm (base s)) + zlen hdr) llc = amsdu_act s da sa (rx_data (frm (base s)) + zlen hdr) llc) as ->.
  { unfold mpdu_act, amsdu_act. destruct (check_fwstate (ad_of s) WIFI_AP_STATE); [done|]. by destruct (check_fwstate (ad_of s) WIFI_STATION_STATE). }
  destruct (amsdu_act_spec s da sa (rx_data (frm (base s)) + zlen hdr) llc Hp T) as (act & fwd & b2u & f & t & Ea & A).
  rewrite Ea, bind_Ret. clear Ea. destruct (act_bits (indicates s da sa) f) as (Bi & Bf & _). rewrite <- (ao_act _ _ _ _ _ _ _ A) in Bi, Bf.
  destruct (Z.eqb_spec act 0) as [Z0|Z0].
  { rewrite (ao_act _ _ _ _ _ _ _ A) in Z0. assert (indicates s da sa = false /\ f = false) as [-> Hf] by by destruct (indicates s da sa), f.
    eexists _, _, []. split; [done|]. split; [cbn; by rewrite app_nil_r|]. split; [constructor|].
    intros NL. destruct (ao_none _ _ _ _ _ _ _ A Hf) as [-> [-> | [k H]]]; [change (fwd_num None []) with 0; cbn; lia|]. pose proof (proj1 NL k). lia. }
  change (frm (base (moved s t (fwd_num fwd b2u) 0))) with (frm (base s)). rewrite Ec, bind_Ret. cbn [Z.eqb negb]. rewrite Bf.
  assert (payload_of f' = pkt) as Pay.
  { rewrite (fwin_payload _ _ _ _ Wc), Hl, <- app_assoc. reflexivity. }
  set (s1 := with_base (moved s t (fwd_num fwd b2u) 0) (with_frm (base (moved s t (fwd_num fwd b2u) 0)) f')).
  assert (rtw_os_pkt_data (mem_of s1) (Shared (rx_data f') (len f')) = Ret pkt) as D.
  { cbn [rtw_os_pkt_data]. change (mem_of s1) with (rx_mem f'). rewrite <- Pay, (fwin_payload _ _ _ _ Wc), (ho_mem _ _ _ _ Wc), (ho_data _ _ _ _ Wc), (ho_len _ _ _ _ Wc).
    apply rd_slice_app. }
  assert (exists s2 k, (if f then recv_fwd_pkt_hdl s1 (Shared (rx_data f') (len f')) act fwd b2u else Ret s1) = Ret s2 /\
    gains s1 s2 (if f then - fwd_num fwd b2u else 0) k /\ (f = false -> k = 0) /\
    (f = true -> fwd <> None \/ b2u <> [] -> k = if indicates s da sa then 0 else -1)) as (s2 & k & E2 & G2 & K0 & K2).
  { destruct f.
    - destruct (fwd_hdl_spec s1 _ pkt act fwd b2u D) as (s2 & k & E2 & G2 & K2); [apply HQ, (ao_fwd _ _ _ _ _ _ _ A eq_refl)|].
      exists s2, k. split; [done|]. split; [done|]. split; [done|]. intros _ H. rewrite <- Bi. auto.
    - exists s1, 0. split; [done|]. split; [held|]. done. }
  rewrite E2, bind_Ret, Bi. clear E2. destruct G2 as (S2 & X2 & Kb2). destruct S2 as (B2 & C2 & _ & (new & O2 & Fn)).
  assert (no_leak s -> xframes s2 = xframes s /\ skbs s2 = skbs s + (if indicates s da sa then 0 else -1)) as NL.
  { intros NL. rewrite X2, Kb2. cbn [xframes skbs s1 moved with_base]. destruct f.
    - assert (k = if indicates s da sa then 0 else -1) as ->; [|lia]. apply K2; [done|].
      destruct (ao_some _ _ _ _ _ _ _ A eq_refl (proj2 NL sa)) as [H|[H|[j H]]]; [auto..|]. pose proof (proj1 NL j). lia.
    - destruct (ao_none _ _ _ _ _ _ _ A eq_refl) as [-> Hb]. rewrite (K0 eq_refl).
      destruct Hb as [-> | [j H]]; [|pose proof (proj1 NL j); lia]. change (fwd_num None []) with 0.
      destruct (indicates s da sa) eqn:I; [lia|]. destruct Z0. by rewrite (ao_act _ _ _ _ _ _ _ A), I. }
  destruct (indicates s da sa) eqn:I.
  - rewrite andb_false_r, C2. change (cfg s1) with (cfg s). rewrite Rn. unfold rtw_recv_indicatepkt_check. cbn [Z.eqb negb].
    assert (mem_of s2 = mem_of s1) as -> by (unfold mem_of; by rewrite B2). rewrite D, bind_Ret.
    eexists _, _, new. split; [done|]. cbn [outs emit]. rewrite O2, <- app_assoc. split; [done|]. split; [done|].
    intros H. destruct (NL H). cbn. lia.
  - assert (f = true) as -> by (destruct f; [done|]; exfalso; apply Z0; by rewrite (ao_act _ _ _ _ _ _ _ A), I).
    cbn [andb negb]. eexists _, _, new. split; [done|]. cbn [outs hold_skb]. rewrite O2, app_nil_r. split; [done|]. split; [done|].
    intros H. destruct (NL H). cbn. lia.
Qed.
End Msdu.

(** ** Properties *)

Section Properties.
Context (rtw_skb_alloc : nat -> Z -> bool) (rtw_skb_clone rtw_skb_copy : nat -> bool)
  (free_xmit_queue : nat -> Z) (posthandle : nat -> Z).

#[local] Notation process := (recv_process_mpdu rtw_skb_alloc rtw_skb_clone rtw_skb_copy free_xmit_queue posthandle).
#[local] Notation alloc_failure := (alloc_failure rtw_skb_alloc rtw_skb_clone).
#[local] Notation no_leak := (no_leak free_xmit_queue).

(** The messages of an accepted frame, with their addresses: one, or the
    subframes of an A-MSDU up to the first that fails the content check. *)
Inductive carries (s : msst) : list (bytes * bytes * bytes) -> Prop :=
| carries_msdu pre hdr msg icv post :
    mpdu_frame s pre hdr msg icv post -> carries s [(dst (att (base s)), src (att (base s)), msg)]
| carries_amsdu pre hdr iv body icv post :
    amsdu (att (base s)) <> 0 -> amsdu_frame s pre hdr iv body icv post -> carries s (checked s (subframes body)).

Lemma process_spec (Q : bytes -> Prop) s l : carries s l ->
  (may_forward s = true -> Forall (fun x => Q (eth_of x.1.1 x.1.2 x.2)) l) ->
  exists r s' new bs, process s = Ret (r, s') /\
    outs s' = outs s ++ new ++ (rtw_os_recv_indicate_pkt <$> bs) /\ Forall (fwd_ok Q) new /\
    bs `prefix_of` take 64 (handed_up s l) /\ (~ alloc_failure -> bs = take 64 (handed_up s l)) /\
    (no_leak s -> xframes s' = xframes s /\ skbs s' = skbs s).
Proof.
  intros [pre hdr msg icv post M | pre hdr iv body icv post Am A] HQ.
  - destruct (mpdu_spec rtw_skb_alloc rtw_skb_clone rtw_skb_copy free_xmit_queue posthandle Q s pre hdr msg icv post M)
      as (r & s' & new & E & O & F & NL).
    { intros Mf. by apply Forall_cons_1 in HQ as [HQ _]. }
    assert (take 64 (handed_up s [(dst (att (base s)), src (att (base s)), msg)]) =
      if indicates s (dst (att (base s))) (src (att (base s))) then [eth_of (dst (att (base s))) (src (att (base s))) msg] else []) as ->.
    { unfold handed_up. rewrite filter_cons. cbn [fst snd]. destruct (indicates _ _ _); [by rewrite decide_True|by rewrite decide_False]. }
    eexists r, s', new, _. split; [exact E|]. split; [|split; [exact F|split; [reflexivity|done]]].
    rewrite O. by destruct (indicates _ _ _).
  - destruct (amsdu_spec rtw_skb_alloc rtw_skb_clone rtw_skb_copy free_xmit_queue posthandle Q s pre hdr iv body icv post A HQ)
      as (s' & new & bs & E & O & F & Pf & Al & NL).
    exists _SUCCESS, s', new, bs. split; [|done]. unfold recv_process_mpdu. by rewrite (proj2 (Z.eqb_neq _ _) Am).
Qed.

Lemma outs_inds l new (bs : list bytes) Q : Forall (fwd_ok Q) new ->
  inds (l ++ new ++ (rtw_os_recv_indicate_pkt <$> bs)) = inds l ++ bs.
Proof.
  intros F. rewrite !inds_app. rewrite (ext_inds Q [] new) by (by exists new). cbn [app inds omap list_omap]. f_equal.
  induction bs as [|b bs IH]; [done|]. cbn. f_equal. exact IH.
Qed.

(** C21: Every accepted data frame is processed to the end, whatever its body
    holds: no access leaves the buffer and the deaggregation loop ends.  The
    packets handed to the network stack are the messages of the frame in
    order, each with its Ethernet header, restricted to those an access point
    hands up and to sixty-four; when the kernel runs out of memory they are
    a prefix of these. *)
Theorem mpdu_packets_delivered s l : carries s l ->
  exists r s' bs, process s = Ret (r, s') /\ inds (outs s') = inds (outs s) ++ bs /\
    bs `prefix_of` take 64 (handed_up s l) /\ (~ alloc_failure -> bs = take 64 (handed_up s l)).
Proof.
  intros C. destruct (process_spec (fun _ => True) s l C) as (r & s' & new & bs & E & O & F & Pf & Al & _).
  { intros _. by apply Forall_true. }
  exists r, s', bs. split; [exact E|]. split; [rewrite O; by eapply outs_inds|done].
Qed.

Definition packet_of (o : msdu_out) : bytes := match o with rtw_os_recv_indicate_pkt p => p | rtw_xmit_posthandle _ p => p end.

(** Everything put out, as one list. *)
Lemma process_packets (P : bytes * bytes * bytes -> Prop) s l : carries s l -> Forall P l ->
  exists r s' new, process s = Ret (r, s') /\ outs s' = outs s ++ new /\
    Forall (fun o => exists da sa m, P (da, sa, m) /\ packet_of o = eth_of da sa m) new /\ (l = [] -> new = []).
Proof.
  intros C HP. destruct (process_spec (fun p => exists x, P x /\ x ∈ l /\ p = eth_of x.1.1 x.1.2 x.2) s l C) as (r & s' & new & bs & E & O & F & Pf & _ & _).
  { intros _. apply Forall_forall. intros x Hx. exists x. split; [|done]. rewrite Forall_forall in HP. auto. }
  exists r, s', (new ++ (rtw_os_recv_indicate_pkt <$> bs)). split; [exact E|]. split; [exact O|]. split.
  - apply Forall_app_2.
    + eapply Forall_impl; [exact F|]. intros [p|x p]; cbn; [done|]. intros ([[da sa] m] & H & _ & ->). eauto.
    + apply Forall_fmap, Forall_forall. intros p Hp. cbn.
      assert (p ∈ handed_up s l) as Hi.
      { destruct Pf as [k Ek]. apply (subseteq_take 64 (handed_up s l)). rewrite Ek. set_solver. }
      unfold handed_up in Hi. apply list_elem_of_fmap in Hi as ([[da sa] m] & -> & Hx). apply list_elem_of_filter in Hx as [_ Hx].
      rewrite Forall_forall in HP. exists da, sa, m. auto.
  - intros ->. destruct bs as [|b bs]; [|destruct Pf; discriminate]. rewrite app_nil_r.
    destruct F as [|o new Ho F]; [done|]. destruct o; [done|]. destruct Ho as (y & _ & Hy & _). by apply not_elem_of_nil in Hy.
Qed.

(** C20: In a protected network without signalled and protected A-MSDUs, what
    leaves an A-MSDU - to the network stack or to another station - has
    the receiver address as its destination when it comes from an access point,
    the transmitter address as its source when it goes to one, and never the
    LLC header as its destination.  A body that starts with an LLC header, as
    that of a plain message whose A-MSDU bit was flipped on the air does,
    yields nothing. *)
Theorem amsdu_attack_rejected s pre hdr iv body icv post :
  amsdu (att (base s)) <> 0 -> amsdu_frame s pre hdr iv body icv post ->
  amsdu_mode (cfg s) = RTW_AMSDU_MODE_NON_SPP -> dot11PrivacyAlgrthm (securitypriv (ad_of s)) <> _NO_PRIVACY_ ->
  exists r s' new, process s = Ret (r, s') /\ outs s' = outs s ++ new /\
    Forall (fun o => exists da sa m, packet_of o = eth_of da sa m /\
      (to_fr_ds (att (base s)) = 1 -> da = ra (att (base s))) /\
      (to_fr_ds (att (base s)) = 2 -> sa = ta (att (base s))) /\ da <> rtw_rfc1042_header) new /\
    (take 6 body = rtw_rfc1042_header -> new = []).
Proof.
  intros Am A Md Pr. set (P := fun x : bytes * bytes * bytes => validate_amsdu_content s x.1.1 x.1.2 <> _FAIL).
  destruct (process_packets P s _ (carries_amsdu s pre hdr iv body icv post Am A)) as (r & s' & new & E & O & F & N).
  { induction (subframes body) as [|[[da sa] m] l IH]; [constructor|]. cbn [checked].
    destruct (Z.eqb_spec (validate_amsdu_content s da sa) _FAIL); constructor; auto. }
  assert (forall da sa, validate_amsdu_content s da sa <> _FAIL -> (to_fr_ds (att (base s)) = 1 -> da = ra (att (base s))) /\
      (to_fr_ds (att (base s)) = 2 -> sa = ta (att (base s))) /\ da <> rtw_rfc1042_header) as V.
  { intros da sa. unfold validate_amsdu_content. rewrite Md, (proj2 (Z.eqb_neq _ _) Pr). cbn [Z.eqb RTW_AMSDU_MODE_NON_SPP negb andb].
    unfold same_addr. destruct (Z.eqb_spec (to_fr_ds (att (base s))) 1) as [T1|T1]; cbn [andb];
      [destruct (bool_decide_reflect (da = ra (att (base s)))); cbn [negb]; [|done]|];
      (destruct (Z.eqb_spec (to_fr_ds (att (base s))) 2) as [T2|T2]; cbn [andb];
        [destruct (bool_decide_reflect (sa = ta (att (base s)))); cbn [negb]; [|done]|]);
      (case_bool_decide; [done|]; intros _; split_and!; auto; intros; lia). }
  exists r, s', new. split; [exact E|]. split; [exact O|]. split.
  - eapply Forall_impl; [exact F|]. intros o (da & sa & m & Hp & ->). exists da, sa, m. split; [done|]. by apply V.
  - intros T. apply N. destruct (subframes body) as [|[[da sa] m] l] eqn:Sb; [done|]. cbn [checked].
    destruct (Z.eqb_spec (validate_amsdu_content s da sa) _FAIL) as [|Ok]; [done|]. exfalso. apply (V da sa Ok).
    unfold subframes in Sb. destruct (length body); [done|]. cbn [subframes_of] in Sb. destruct (_ || _); [done|].
    injection Sb as Ed _ _. by rewrite <- Ed.
Qed.

(** C33: An access point that isolates its stations forwards nothing, and hands
    up only packets to a group, to itself or to an unknown address, and
    none that carry its own address as their source. *)
Theorem ap_isolation s l : carries s l ->
  check_fwstate (ad_of s) WIFI_AP_STATE = true -> ap_isolate (cfg s) = true ->
  exists r s' bs, process s = Ret (r, s') /\ outs s' = outs s ++ (rtw_os_recv_indicate_pkt <$> bs) /\
    Forall (fun p => exists da sa m, p = eth_of da sa m /\ (da, sa, m) ∈ l /\ sa <> myhwaddr (ad_of s) /\
      (IS_MCAST da = true \/ da = myhwaddr (ad_of s) \/ get_sta (base s) da = None)) bs.
Proof.
  intros C Ap Iso. destruct (process_spec (fun _ => False) s l C) as (r & s' & new & bs & E & O & F & Pf & _ & _).
  { unfold may_forward. by rewrite Ap, Iso. }
  exists r, s', bs. split; [exact E|]. split.
  - destruct F as [|o new Ho F]; [done|]. by destruct o.
  - apply Forall_forall. intros p Hp. assert (p ∈ handed_up s l) as Hi.
    { destruct Pf as [k Ek]. apply (subseteq_take 64 (handed_up s l)). rewrite Ek. set_solver. }
    unfold handed_up in Hi. apply list_elem_of_fmap in Hi as ([[da sa] m] & -> & Hx). apply list_elem_of_filter in Hx as [I Hx].
    cbn [fst snd] in *. unfold indicates in I. rewrite Ap in I. exists da, sa, m. split; [done|]. split; [done|].
    apply andb_prop in I as [Is I]. unfold same_addr in *. apply negb_true_iff, bool_decide_eq_false in Is. split; [done|].
    apply orb_prop in I as [[I|I%bool_decide_eq_true]%orb_prop|I%bool_decide_eq_true]; auto.
Qed.

(** C34: Packets and transmit frames are neither lost nor freed twice: after a
    frame has been processed this code holds as many as before, provided
    transmit frames never run out and every packet converted to unicast
    has a receiver. *)
Theorem mpdu_resources_balanced s l : carries s l -> no_leak s ->
  exists r s', process s = Ret (r, s') /\ xframes s' = xframes s /\ skbs s' = skbs s.
Proof.
  intros C NL. destruct (process_spec (fun _ => True) s l C) as (r & s' & new & bs & E & _ & _ & _ & _ & B).
  { intros _. by apply Forall_true. }
  exists r, s'. split; [exact E|]. by apply B.
Qed.

(** *** The A-MSDU format *)

Definition sub_bytes (x : bytes * bytes * bytes) : bytes := (x.1.1 ++ x.1.2 ++ be16 (zlen x.2)) ++ x.2.

Fixpoint amsdu_encode (l : list (bytes * bytes * bytes)) : bytes :=
  match l with
  | [] => []
  | [x] => sub_bytes x
  | x :: l => sub_bytes x ++ replicate (Z.to_nat (pad (zlen x.2))) 0 ++ amsdu_encode l
  end.

Definition sub_ok (x : bytes * bytes * bytes) : Prop :=
  length x.1.1 = 6%nat /\ length x.1.2 = 6%nat /\ 0 < zlen x.2 < 65536.

Lemma sub_len_bytes x t : sub_ok x -> sub_len (sub_bytes x ++ t) = zlen x.2.
Proof.
  destruct x as [[da sa] m]. intros (Ld & Ls & Lm). cbn [fst snd] in *. unfold sub_bytes, sub_len. cbn [fst snd].
  do 6 (destruct da as [|? da]; [discriminate|]). destruct da; [|discriminate].
  do 6 (destruct sa as [|? sa]; [discriminate|]). destruct sa; [|discriminate].
  unfold znth, be16. change (Z.to_nat 12) with 12%nat. change (Z.to_nat 13) with 13%nat. cbn [app nth]. rewrite (u16_small (zlen m)) by (unfold is_u16; lia).
  change 255 with (Z.ones 8). rewrite Z.land_ones by lia. rewrite lor_shiftl_add by (lia || (apply Z.mod_pos_bound; lia)).
  rewrite Z.shiftr_div_pow2 by lia. change (2 ^ 8) with 256.
  assert (zlen m / 256 * 256 + zlen m mod 256 = zlen m) as -> by (rewrite Z.mul_comm; symmetry; apply Z.div_mod; lia).
  apply u16_small. unfold is_u16. lia.
Qed.

Lemma subframes_app x t : sub_ok x -> subframes (sub_bytes x ++ t) = x :: subframes (drop (Z.to_nat (pad (zlen x.2))) t).
Proof.
  intros Ok. pose proof (sub_len_bytes x t Ok) as L. destruct x as [[da sa] m]. destruct Ok as (Ld & Ls & Lm). cbn [fst snd] in *.
  assert (zlen (sub_bytes (da, sa, m)) = 14 + zlen m) as Zs.
  { unfold sub_bytes. cbn [fst snd]. rewrite !zlen_app. change (zlen (be16 (zlen m))) with 2. unfold zlen. lia. }
  destruct (subframes_cons (sub_bytes (da, sa, m) ++ t)) as (da' & sa' & two & m' & rest & Ed & Ld' & Ls' & Lt & Zm & ->).
  { rewrite zlen_app. pose proof (zlen_nonneg t). lia. }
  { rewrite zlen_app, L. pose proof (zlen_nonneg t). lia. }
  rewrite L in Zm. unfold sub_bytes in Ed. cbn [fst snd] in Ed. rewrite <- !app_assoc in Ed.
  apply app_inj_1 in Ed as [<- Ed]; [|lia]. apply app_inj_1 in Ed as [<- Ed]; [|lia].
  apply app_inj_1 in Ed as [_ Ed]; [|by rewrite Lt]. apply app_inj_1 in Ed as [<- <-]; [done|]. unfold zlen in Zm. lia.
Qed.

Lemma subframes_encode l : Forall sub_ok l -> subframes (amsdu_encode l) = l.
Proof.
  induction 1 as [|x l Hx H IH]; [done|]. destruct l as [|y l].
  - cbn [amsdu_encode]. rewrite <- (app_nil_r (sub_bytes x)), subframes_app by done. by rewrite drop_nil.
  - change (amsdu_encode (x :: y :: l)) with (sub_bytes x ++ replicate (Z.to_nat (pad (zlen x.2))) 0 ++ amsdu_encode (y :: l)).
    rewrite subframes_app by done. f_equal. rewrite drop_app_length' by by rewrite length_replicate. exact IH.
Qed.

(** C35: Deaggregation inverts aggregation: an A-MSDU made of at most sixty-four
    messages that pass the content check and are for the network stack is
    handed up as these messages, in order and each with its addresses. *)
Theorem amsdu_roundtrip s pre hdr iv l icv post :
  amsdu (att (base s)) <> 0 -> amsdu_frame s pre hdr iv (amsdu_encode l) icv post -> ~ alloc_failure ->
  Forall sub_ok l -> (length l <= 64)%nat ->
  Forall (fun x => validate_amsdu_content s x.1.1 x.1.2 <> _FAIL /\ indicates s x.1.1 x.1.2 = true) l ->
  exists r s', process s = Ret (r, s') /\ inds (outs s') = inds (outs s) ++ ((fun x => eth_of x.1.1 x.1.2 x.2) <$> l).
Proof.
  intros Am A Nf Ok L64 Hl. pose proof (carries_amsdu s pre hdr iv _ icv post Am A) as C. rewrite subframes_encode in C by done.
  assert (checked s l = l) as Ck.
  { clear - Hl. induction Hl as [|[[da sa] m] l [V _] _ IH]; [done|]. cbn [checked fst snd] in *. by rewrite (proj2 (Z.eqb_neq _ _) V), IH. }
  rewrite Ck in C. destruct (process_spec (fun _ => True) s l C) as (r & s' & new & bs & E & O & F & _ & Al & _).
  { intros _. by apply Forall_true. }
  exists r, s'. split; [exact E|]. rewrite O, (outs_inds _ new bs (fun _ => True) F), (Al Nf). f_equal.
  rewrite take_ge by (unfold handed_up; rewrite length_fmap; etrans; [apply length_filter|done]).
  unfold handed_up. f_equal. clear - Hl. induction Hl as [|x l [_ I] _ IH]; [done|]. rewrite filter_cons_True by done. by rewrite IH.
Qed.
End Properties.

(** *** Examples: an access point with three stations *)

Definition md_sta (k : Z) : bytes := [2; 0; 0; 0; 0; 16 + k].

Definition md_assoc (e : sta_info) : sta_info :=
  mk_sta (mac_addr e) WIFI_ASOC_STATE (aid e) (sta_flags e) (ieee8021x_blocked e) (dot118021XPrivacy e) (dot11tkiprxmickey e)
    (dot118021x_UncstKey e) (sta_keytrack e) (duplicate_cnt e) (RxMgmtFrameSeqNum e) (recvpriv e) (recvreorder_ctrl e) (stx e) (sps e).

Definition md_adapter (privacy : Z) : adapter :=
  let p := foldl (sta_step false) (_rtw_init_sta_priv 32 [0; 0; 0; 0])
             [OpAlloc bc_addr; OpAlloc (md_sta 1); OpAlloc (md_sta 2); OpAlloc (md_sta 3)] in
  mk_adapter (set_stainfo p (md_assoc <$> stainfo_buf p))
    (mk_rxsec (mk_sec 0 [] [] 0 [] false) 2 privacy privacy [] false true false (replicate 4 (replicate 8 0)))
    0x11 ex_me ex_me 0 false 0 0 0.

Definition md_cfg (isolate : bool) (asoc : list nat) : rx_cfg :=
  mk_cfg RTW_AMSDU_MODE_NON_SPP isolate 8 0 asoc (zlen asoc) false.

(** An A-MSDU from the first station to the access point, behind a QoS header
    of 26 bytes, with four bytes of room behind it. *)
Definition md_state (privacy : Z) (isolate : bool) (asoc : list nat) (body : bytes) : msst :=
  let mem := replicate 26 0 ++ [] ++ body ++ [] in
  let a := mk_attrib 26 2 1 1 0 0 0 0 0 0 0 0 0 0 (md_sta 2) (md_sta 1) (md_sta 1) ex_me ex_me 0 0 in
  mk_ms (mk_rxs (md_adapter privacy) (mk_frame a (mem ++ replicate 4 0) 0 (zlen mem) (zlen mem) 0) [])
    (md_cfg isolate asoc) (Some 1%nat) 0 0 0 0 [].

Definition md_ipv4 : bytes := rtw_rfc1042_header ++ [8; 0; 0x45; 0; 0; 20].

Lemma md_frame privacy isolate asoc body : zlen body < 65536 ->
  amsdu_frame (md_state privacy isolate asoc body) [] (replicate 26 0) [] body [] (replicate 4 0).
Proof.
  intros H. pose proof (zlen_nonneg body). split; [|reflexivity..| |].
  - split; cbn [rx_mem rx_data rx_tail len frm base md_state app]; rewrite ?zlen_app, ?app_nil_r, <- ?app_assoc; try done.
    change (zlen (replicate 26 0)) with 26. change (zlen (replicate 4 0)) with 4. change (zlen []) with 0. lia.
  - by compute.
  - by exists 1%nat.
Qed.

Lemma md_carries privacy isolate asoc body : zlen body < 65536 ->
  carries (md_state privacy isolate asoc body) (checked (md_state privacy isolate asoc body) (subframes body)).
Proof. intros H. eapply carries_amsdu; [discriminate|by apply md_frame]. Qed.

(** One packet for the access point, one that is broadcast. *)
Definition md_body : bytes := amsdu_encode [(ex_me, md_sta 1, md_ipv4); (bc_addr, md_sta 1, md_ipv4)].

Lemma mpdu_packets_delivered_witness :
  exists r s', recv_process_mpdu (fun _ _ => true) (fun _ => true) (fun _ => true) (fun _ => 100) (fun _ => 0)
    (md_state 4 false [1; 2; 3]%nat md_body) = Ret (r, s') /\
  inds (outs s') = [eth_of ex_me (md_sta 1) md_ipv4; eth_of bc_addr (md_sta 1) md_ipv4].
Proof.
  destruct (mpdu_packets_delivered (fun _ _ => true) (fun _ => true) (fun _ => true) (fun _ => 100) (fun _ => 0)
    (md_state 4 false [1; 2; 3]%nat md_body) _ (md_carries 4 false [1; 2; 3]%nat md_body eq_refl)) as (r & s' & bs & E & O & _ & Al).
  exists r, s'. split; [exact E|]. rewrite O, Al by (intros (? & ? & ? & _); discriminate). vm_compute. reflexivity.
Defined.

(** A plain IPv4 message whose A-MSDU bit was set on the air. *)
Lemma amsdu_attack_rejected_witness :
  exists r s' new, recv_process_mpdu (fun _ _ => true) (fun _ => true) (fun _ => true) (fun _ => 100) (fun _ => 0)
    (md_state 4 false [1; 2; 3]%nat (md_ipv4 ++ replicate 40 0)) = Ret (r, s') /\
  outs s' = [] ++ new /\ new = [].
Proof.
  destruct (amsdu_attack_rejected (fun _ _ => true) (fun _ => true) (fun _ => true) (fun _ => 100) (fun _ => 0)
    (md_state 4 false [1; 2; 3]%nat (md_ipv4 ++ replicate 40 0)) [] (replicate 26 0) [] (md_ipv4 ++ replicate 40 0) [] (replicate 4 0))
    as (r & s' & new & E & O & _ & N); [discriminate | by apply md_frame | reflexivity | discriminate |].
  exists r, s', new. split; [exact E|]. split; [exact O|]. apply N. reflexivity.
Defined.

(** With isolation the broadcast packet stays at the access point. *)
Lemma ap_isolation_witness :
  exists r s' bs, recv_process_mpdu (fun _ _ => true) (fun _ => true) (fun _ => true) (fun _ => 100) (fun _ => 0)
    (md_state 4 true [1; 2; 3]%nat md_body) = Ret (r, s') /\ outs s' = [] ++ (rtw_os_recv_indicate_pkt <$> bs).
Proof.
  destruct (ap_isolation (fun _ _ => true) (fun _ => true) (fun _ => true) (fun _ => 100) (fun _ => 0)
    (md_state 4 true [1; 2; 3]%nat md_body) _ (md_carries 4 true [1; 2; 3]%nat md_body eq_refl)) as (r & s' & bs & E & O & _);
    [reflexivity | reflexivity |].
  exists r, s', bs. split; [exact E|exact O].
Defined.

Lemma amsdu_roundtrip_witness :
  exists r s', recv_process_mpdu (fun _ _ => false) (fun _ => true) (fun _ => true) (fun _ => 100) (fun _ => 0)
    (md_state 4 false [1; 2; 3]%nat md_body) = Ret (r, s') /\
  inds (outs s') = [] ++ [eth_of ex_me (md_sta 1) md_ipv4; eth_of bc_addr (md_sta 1) md_ipv4].
Proof.
  destruct (amsdu_roundtrip (fun _ _ => false) (fun _ => true) (fun _ => true) (fun _ => 100) (fun _ => 0)
    (md_state 4 false [1; 2; 3]%nat md_body) [] (replicate 26 0) [] [(ex_me, md_sta 1, md_ipv4); (bc_addr, md_sta 1, md_ipv4)] [] (replicate 4 0))
    as (r & s' & E & O).
  - discriminate.
  - by apply md_frame.
  - intros (? & ? & _ & ?). discriminate.
  - apply Forall_cons_2; [|apply Forall_cons_2; [|apply Forall_nil_2]]; (split; [reflexivity|split; [reflexivity|split; reflexivity]]).
  - cbn. lia.
  - apply Forall_cons_2; [|apply Forall_cons_2; [|apply Forall_nil_2]]; (split; [vm_compute; discriminate|vm_compute; reflexivity]).
  - exists r, s'. split; [exact E|exact O].
Defined.

Lemma target_exists s sa ori ids i : i ∈ ids -> b2u_skip s i sa ori = false -> b2u_targets s sa ori ids <> [].
Proof. intros H E N. apply (not_elem_of_nil i). rewrite <- N. apply list_elem_of_filter. done. Qed.

(** Whoever the source is, one of three stations gets a copy. *)
Lemma md_has_receiver privacy isolate body sa : has_receiver (md_state privacy isolate [1; 2; 3]%nat body) sa.
Proof.
  intros i Hi. injection Hi as <-. destruct (decide (sa = md_sta 2)) as [->|N2].
  - apply (target_exists _ _ _ _ 3); [|vm_compute; reflexivity].
    change (3 ∈ [1; 2; 3])%nat. apply list_elem_of_In. by right; right; left.
  - apply (target_exists _ _ _ _ 2).
    + change (2 ∈ [1; 2; 3])%nat. apply list_elem_of_In. by right; left.
    + unfold b2u_skip. change (mac_addr (sta_entry (base (md_state privacy isolate [1; 2; 3]%nat body)) 2)) with (md_sta 2).
      unfold same_addr at 1. rewrite bool_decide_false by done. vm_compute. reflexivity.
Qed.

Lemma mpdu_resources_balanced_witness :
  exists r s', recv_process_mpdu (fun _ _ => true) (fun _ => true) (fun _ => true) (fun _ => 100) (fun _ => 0)
    (md_state 4 false [1; 2; 3]%nat md_body) = Ret (r, s') /\ xframes s' = 0 /\ skbs s' = 0.
Proof.
  destruct (mpdu_resources_balanced (fun _ _ => true) (fun _ => true) (fun _ => true) (fun _ => 100) (fun _ => 0)
    (md_state 4 false [1; 2; 3]%nat md_body) _ (md_carries 4 false [1; 2; 3]%nat md_body eq_refl)) as (r & s' & E & X & K).
  - split; [intros k; reflexivity | apply md_has_receiver].
  - exists r, s'. split; [exact E|]. split; [exact X|exact K].
Defined.

(** In an open network with two associated stations, a multicast subframe
    that names the other station as its source has no receiver left: the copy
    made for the stations is neither sent nor freed. *)
Theorem forged_source_leaks_packet :
  let s := md_state 0 false [1; 2]%nat (amsdu_encode [([1; 0; 0x5e; 0; 0; 1], md_sta 2, md_ipv4)]) in
  exists r s', recv_process_mpdu (fun _ _ => true) (fun _ => true) (fun _ => true) (fun _ => 100) (fun _ => 0) s = Ret (r, s') /\
    skbs s' = skbs s + 1 /\ (forall x p, rtw_xmit_posthandle x p ∉ outs s').
Proof.
  intros s. eexists _, _. split; [vm_compute; reflexivity|]. split; [reflexivity|]. intros x p H.
  apply list_elem_of_In in H. cbn in H. destruct H as [H|[]]. discriminate.
Qed.
