(* ===== verification/RxPath.v ===== *)
(** * The receive path as a whole (core/rtw_recv.c)

    [recv_func] takes a frame through [recv_func_prehandle] (acceptance) and
    [recv_func_posthandle] (decryption, reassembly, 802.1X port, reordering,
    delivery), and keeps unicast frames that arrive before the pairwise key on
    [uc_swdec_pending_queue].  The state is the adapter with its stations,
    which hold the fragment queues and the reorder buffers.

    The result of a run is the sequence of frames given to
    [recv_process_mpdu] (Msdu.v); [accepted] records the frames
    [validate_recv_frame] let through and belongs to the proofs only. *)

From S2P Require Import Prelude RxFrame Reorder StaMgt SwCrypt RxCheck Defrag Ccmp.

Definition WIFI_MONITOR_STATE : Z := 0x80000000.
Definition NR_RECVFRAME : Z := 256.

(** ** State *)

(** A frame with its [psta] and the TID of its [preorder_ctrl]. *)
Record rx_item := mk_item { it_frm : recv_frame; it_psta : option nat; it_pre : option Z }.

Record rpst := mk_rp {
  rp_adp : adapter;
  rp_priv : Reorder.recv_priv;
  uc_swdec_pending_queue : list rx_item;
  mpdus : list rx_item;
  rp_calls : list rx_call;
  accepted : list recv_frame
}.

Definition set_rp_adp (s : rpst) (a : adapter) (c : list rx_call) : rpst :=
  mk_rp a (rp_priv s) (uc_swdec_pending_queue s) (mpdus s) c (accepted s).
Definition set_rp_priv (s : rpst) (p : Reorder.recv_priv) : rpst :=
  mk_rp (rp_adp s) p (uc_swdec_pending_queue s) (mpdus s) (rp_calls s) (accepted s).
Definition set_swdec (s : rpst) (q : list rx_item) : rpst :=
  mk_rp (rp_adp s) (rp_priv s) q (mpdus s) (rp_calls s) (accepted s).
Definition deliver (s : rpst) (l : list rx_item) : rpst :=
  mk_rp (rp_adp s) (rp_priv s) (uc_swdec_pending_queue s) (mpdus s ++ l) (rp_calls s) (accepted s).
Definition note_accepted (s : rpst) (f : recv_frame) : rpst :=
  mk_rp (rp_adp s) (rp_priv s) (uc_swdec_pending_queue s) (mpdus s) (rp_calls s) (accepted s ++ [f]).
Definition rxs_of (s : rpst) (f : recv_frame) : rxs := mk_rxs (rp_adp s) f (rp_calls s).
Definition of_rxs (s : rpst) (x : rxs) : rpst := set_rp_adp s (adp x) (calls x).

Definition set_reorder (e : sta_info) (l : list recv_reorder_ctrl) : sta_info :=
  mk_sta (mac_addr e) (sta_state e) (aid e) (sta_flags e) (ieee8021x_blocked e) (dot118021XPrivacy e) (dot11tkiprxmickey e)
    (dot118021x_UncstKey e) (sta_keytrack e) (duplicate_cnt e) (RxMgmtFrameSeqNum e) (recvpriv e) l (stx e) (sps e).

(** [preorder_ctrl]: the reorder control of a station and TID. *)
Definition ctrl_at (a : adapter) (i : option nat) (tid : option Z) : option recv_reorder_ctrl :=
  match i, tid with
  | Some i, Some t => e ← stainfo_buf (stapriv a) !! i; recvreorder_ctrl e !! Z.to_nat t
  | _, _ => None
  end.

Definition set_ctrl (a : adapter) (i : option nat) (tid : option Z) (c : option recv_reorder_ctrl) : adapter :=
  match i, tid, c with
  | Some i, Some t, Some c =>
      set_stapriv a (upd_sta (stapriv a) i (fun e => set_reorder e (<[Z.to_nat t := c]> (recvreorder_ctrl e))))
  | _, _, _ => a
  end.

(** [preorder_ctrl] is set for the unicast QoS frames of a station. *)
Definition pre_of (f : recv_frame) : option Z :=
  if negb (IS_MCAST (ra (attrib f))) && negb (qos (attrib f) =? 0) then Some (priority (attrib f)) else None.

Definition is_fragment (f : recv_frame) : bool := negb ((mfrag (attrib f) =? 0) && (frag_num (attrib f) =? 0)).

Section RxPath.
Context (rtw_aes_decrypt rtw_gcmp_decrypt : rxs -> res (Z * recv_frame)).
(** The return value of [recv_process_mpdu]. *)
Context (recv_process_mpdu : recv_frame -> Z).

(** ** Operations *)

(** Acceptance: return value, item and state. *)
Definition recv_func_prehandle (s : rpst) (f : recv_frame) : res (Z * rx_item * rpst) :=
  o ← validate_recv_frame (rxs_of s f);
  let s := of_rxs s (st o) in
  let it := mk_item (frm (st o)) (psta o) (preorder o) in
  Ret (ret o, it, if ret o =? _SUCCESS then note_accepted s (frm (st o)) else s).

(** The statistics of a delivered frame. *)
Definition count_stats (s : rpst) (i : option nat) : rpst :=
  match i with Some i => set_rp_adp s (rp_adp s) (rp_calls s ++ [count_rx_stats i]) | None => s end.

(** [recv_set_iseq_before_mpdu_process], [recv_process_mpdu],
    [recv_set_iseq_after_mpdu_process]; [seq_num] is that of the frame that
    came in. *)
Definition process_now (s : rpst) (it : rx_item) (seq : Z) : Z * rpst :=
  let c := ctrl_at (rp_adp s) (it_psta it) (it_pre it) in
  let s := set_rp_adp s (set_ctrl (rp_adp s) (it_psta it) (it_pre it) ((fun c => set_seq c ((seq + 1) mod 4096)) <$> c)) (rp_calls s) in
  let ret := recv_process_mpdu (it_frm it) in
  let s := deliver s [it] in
  (ret, if ret =? _FAIL then set_rp_priv s (inc_drop (rp_priv s)) else s).

(** From the port check on, for the frame [it]; [seq] is the sequence number
    of the frame that came in. *)
Definition deliver_frame (s : rpst) (it : rx_item) (seq : Z) : Z * rpst :=
  let s := count_stats s (it_psta it) in
  let c := ctrl_at (rp_adp s) (it_psta it) (it_pre it) in
  let '(ret, out, c, p) := recv_indicatepkt_reorder recv_process_mpdu c (rp_priv s) (it_frm it) in
  let s := set_rp_priv (set_rp_adp s (set_ctrl (rp_adp s) (it_psta it) (it_pre it) c) (rp_calls s)) p in
  let s := deliver s ((fun f => mk_item f (it_psta it) (it_pre it)) <$> out) in
  if ret =? _FAIL then (ret, set_rp_priv s (inc_drop (rp_priv s)))
  else if ret =? RTW_RX_HANDLED then (ret, s)
  else process_now s it seq.

(** A frame that fails in [decryptor] has been through the software cipher. *)
Definition after_failed_decryption (s : rpst) : rpst :=
  set_rp_adp s (set_security (rp_adp s) (set_hw_decrypted (securitypriv (rp_adp s)) false)) (rp_calls s).

Definition drop (s : rpst) : rpst := set_rp_priv s (inc_drop (rp_priv s)).

Definition recv_func_posthandle (s : rpst) (it : rx_item) : res (Z * rpst) :=
  d ← decryptor rtw_aes_decrypt rtw_gcmp_decrypt (rxs_of s (it_frm it));
  match d : option rxs with
  | None => Ret (_FAIL, drop (after_failed_decryption s))
  | Some x =>
      owner ← defrag_owner x;
      r ← recvframe_chk_defrag x;
      let '(o, y) := r : option recv_frame * rxs in
      let s := of_rxs s y in
      match o with
      | None => Ret (_SUCCESS, drop s)
      | Some f =>
          let it := if is_fragment (frm x) then mk_item f owner (pre_of f) else mk_item f (it_psta it) (it_pre it) in
          p ← portctrl (rxs_of s f);
          match p : option rxs with
          | None => Ret (_FAIL, drop s)
          | Some z => Ret (deliver_frame (of_rxs s z) (mk_item (frm z) (it_psta it) (it_pre it)) (seq_of (frm x)))
          end
      end
  end.

(** The frames that waited for the key. *)
Fixpoint flush_pending (s : rpst) (q : list rx_item) : res rpst :=
  match q with
  | [] => Ret s
  | it :: q => r ← recv_func_posthandle s it; flush_pending (snd r) q
  end.

(** The frame has to wait for the pairwise key. *)
Definition must_wait (s : rpst) (ndisauthtype : Z) (reg_sw_decrypt : bool) (f : recv_frame) : bool :=
  let a := attrib f in
  check_fwstate (rp_adp s) WIFI_STATION_STATE && negb (IS_MCAST (ra a)) && (0 <? encrypt a)
  && ((bdecrypted a =? 0) || reg_sw_decrypt) && (ndisauthtype =? Ndis802_11AuthModeWPAPSK)
  && negb (busetkipkey (securitypriv (rp_adp s))).

(** One frame from the HAL; [free_recvframe_cnt] is the number of free frames
    at that time. *)
Definition recv_func (ndisauthtype : Z) (reg_sw_decrypt : bool) (free_recvframe_cnt : Z) (s : rpst) (f : recv_frame) : res (Z * rpst) :=
  if check_fwstate (rp_adp s) WIFI_MONITOR_STATE then Ret (_SUCCESS, s)
  else
    s ← (if check_fwstate (rp_adp s) WIFI_STATION_STATE && busetkipkey (securitypriv (rp_adp s))
         then flush_pending (set_swdec s []) (uc_swdec_pending_queue s) else Ret s);
    r ← recv_func_prehandle s f;
    let '(ret, it, s) := r : Z * rx_item * rpst in
    if negb (ret =? _SUCCESS) then Ret (ret, s)
    else if must_wait s ndisauthtype reg_sw_decrypt (it_frm it) then
      let q := uc_swdec_pending_queue s ++ [it] in
      if free_recvframe_cnt <? NR_RECVFRAME / 4 then
        match q with
        | [] => Ret (ret, s)
        | it :: q => recv_func_posthandle (set_swdec s q) it
        end
      else Ret (ret, set_swdec s q)
    else recv_func_posthandle s it.

(** The reorder timer of a station and TID. *)
Definition reorder_timeout (cannot_run : bool) (s : rpst) (i : nat) (tid : Z) : rpst :=
  match ctrl_at (rp_adp s) (Some i) (Some tid) with
  | None => s
  | Some c =>
      let '(out, c, p) := rtw_reordering_ctrl_timeout_handler recv_process_mpdu cannot_run c (rp_priv s) in
      deliver (set_rp_priv (set_rp_adp s (set_ctrl (rp_adp s) (Some i) (Some tid) (Some c)) (rp_calls s)) p)
        ((fun f => mk_item f (Some i) (Some tid)) <$> out)
  end.

(** What happens to the receive path. *)
Inductive rx_event :=
| EvFrame (ndisauthtype : Z) (reg_sw_decrypt : bool) (free_recvframe_cnt : Z) (f : recv_frame)
| EvTimeout (cannot_run : bool) (i : nat) (tid : Z).

Definition rx_step (s : rpst) (e : rx_event) : res rpst :=
  match e with
  | EvFrame n d c f => r ← recv_func n d c s f; Ret (snd r)
  | EvTimeout cr i t => Ret (reorder_timeout cr s i t)
  end.

Fixpoint rx_run (s : rpst) (es : list rx_event) : res rpst :=
  match es with [] => Ret s | e :: es => s ← rx_step s e; rx_run s es end.
End RxPath.

(** ** The frames the stations hold *)

Definition entry_holds (e : sta_info) (f : recv_frame) : Prop :=
  f ∈ defrag_q (recvpriv e) \/ exists t c, recvreorder_ctrl e !! t = Some c /\ f ∈ pending c.

Definition holds (p : sta_priv) (f : recv_frame) : Prop :=
  exists i e, stainfo_buf p !! i = Some e /\ entry_holds e f.

Lemma holds_upd p i g f : holds (upd_sta p i g) f ->
  holds p f \/ exists e, stainfo_buf p !! i = Some e /\ entry_holds (g e) f.
Proof.
  intros (j & e & Hj & He). unfold upd_sta, set_stainfo in Hj. cbn [stainfo_buf] in Hj.
  destruct (decide (i = j)) as [<-|N].
  - rewrite list_lookup_alter, decide_True in Hj by done. apply fmap_Some in Hj as (e0 & E & ->). right. eauto.
  - rewrite list_lookup_alter_ne in Hj by done. left. by exists j, e.
Qed.

Lemma holds_upd_same p i e f :
  (stainfo_buf p !! i <> None -> forall g, entry_holds e g -> entry_holds (default _rtw_init_stainfo (stainfo_buf p !! i)) g) ->
  holds (upd_sta p i (fun _ => e)) f -> holds p f.
Proof.
  intros He H. apply holds_upd in H as [H|(e0 & E & H)]; [done|]. exists i, e0. split; [done|].
  rewrite E in He. by apply He.
Qed.

(** ** What acceptance changes *)

(** The security settings are kept and no frame is added to a queue. *)
Definition quiet (a a' : adapter) : Prop :=
  (forall f, holds (stapriv a') f -> holds (stapriv a) f) /\
  dot11PrivacyAlgrthm (securitypriv a') = dot11PrivacyAlgrthm (securitypriv a) /\
  dot11AuthAlgrthm (securitypriv a') = dot11AuthAlgrthm (securitypriv a).

#[export] Instance quiet_refl : Reflexive quiet.
Proof. intros a. by split_and!. Qed.

#[export] Instance quiet_trans : Transitive quiet.
Proof. intros a b c (A1 & A2 & A3) (B1 & B2 & B3). split_and!; [auto|congruence|congruence]. Qed.

#[local] Ltac quiet_now := rx_inv; subst; repeat case_match; split_and!; auto.

Lemma sta_hdr_quiet s r o s' : rtw_sta_rx_data_validate_hdr s = Ret (r, o, s') -> quiet (adp s) (adp s').
Proof. unfold rtw_sta_rx_data_validate_hdr. intros H. quiet_now. Qed.

Lemma ap_hdr_quiet s r o s' : rtw_ap_rx_data_validate_hdr s = Ret (r, o, s') -> quiet (adp s) (adp s').
Proof. unfold rtw_ap_rx_data_validate_hdr. intros H. quiet_now. Qed.

Lemma mp_addrs_adp s s' : mp_addrs s = Ret s' -> adp s' = adp s.
Proof. unfold mp_addrs. intros H. by rx_inv; subst. Qed.

Lemma sta2sta_quiet s r o s' : sta2sta_data_frame s = Ret (r, o, s') -> quiet (adp s) (adp s').
Proof.
  unfold sta2sta_data_frame. intros H. rx_inv; subst; try reflexivity;
    match goal with E : mp_addrs _ = Ret _ |- _ => by rewrite (mp_addrs_adp _ _ E) end.
Qed.

Lemma ap2sta_quiet s r o s' : ap2sta_data_frame s = Ret (r, o, s') -> quiet (adp s) (adp s').
Proof.
  unfold ap2sta_data_frame. intros H. rx_inv; subst; try reflexivity;
    try (match goal with E : mp_addrs _ = Ret _ |- _ => by rewrite (mp_addrs_adp _ _ E) end); by split_and!.
Qed.

Lemma sta2ap_quiet s r o s' : sta2ap_data_frame s = Ret (r, o, s') -> quiet (adp s) (adp s').
Proof.
  unfold sta2ap_data_frame. intros H. rx_inv; subst; try reflexivity;
    try (match goal with E : mp_addrs _ = Ret _ |- _ => by rewrite (mp_addrs_adp _ _ E) end); by split_and!.
Qed.

Lemma validate_hdr_quiet s r o s' : validate_hdr s = Ret (r, o, s') -> quiet (adp s) (adp s').
Proof.
  unfold validate_hdr. intros H. rx_inv.
  - by apply ap_hdr_quiet in H.
  - by apply sta_hdr_quiet in H.
  - by apply sta2sta_quiet in H.
  - by apply ap2sta_quiet in H.
  - by apply sta2ap_quiet in H.
  - by subst.
Qed.

Lemma parse_qc_quiet s n s' : parse_qc s n = Ret s' -> quiet (adp s) (adp s').
Proof. unfold parse_qc. intros H. rx_inv; subst; cbn [att with_att with_adp frm adp]; by split_and!. Qed.

(** The entry's queues are those it had. *)
Definition same_queues (e e' : sta_info) : Prop :=
  defrag_q (recvpriv e') = defrag_q (recvpriv e) /\ recvreorder_ctrl e' = recvreorder_ctrl e.

Lemma upd_entry_quiet s i e : same_queues (sta_entry s i) e -> quiet (adp s) (adp (upd_entry s i e)).
Proof.
  intros [Q1 Q2]. split_and!; [|done..]. intros f H. cbn [adp upd_entry with_adp set_stapriv stapriv] in H.
  eapply holds_upd_same; [|exact H]. intros _ g Hg. change (entry_holds (sta_entry s i) g).
  unfold entry_holds in *. by rewrite <- Q1, <- Q2.
Qed.

Lemma recv_decache_queues e a d e' : recv_decache e a = (d, e') -> same_queues e e'.
Proof.
  unfold recv_decache. repeat case_match; intros [= <- <-]; split; try done.
  unfold set_recvpriv. cbn [recvpriv]. by destruct (cache_of a).
Qed.

Lemma ucast_pn_queues e f r e' : recv_ucast_pn_decache e f = Ret (r, e') -> same_queues e e'.
Proof. unfold recv_ucast_pn_decache. intros H. rx_inv; subst; by split. Qed.

Lemma pn_decache_quiet s i r s' : pn_decache s i = Ret (r, s') -> quiet (adp s) (adp s').
Proof.
  unfold pn_decache. intros H. rx_inv; subst.
  - destruct a as [z e]. apply upd_entry_quiet. by eapply ucast_pn_queues.
  - destruct a as [z ad]. match goal with E : recv_bcast_pn_decache _ _ = _ |- _ => apply bcast_pn_keeps in E as [t ->] end. by split_and!.
Qed.

Lemma pick_cipher_adp s i : adp (pick_cipher s i) = adp s.
Proof. unfold pick_cipher. by repeat case_match. Qed.

Lemma validate_data_quiet s o : validate_recv_data_frame s = Ret o -> quiet (adp s) (adp (st o)).
Proof.
  unfold validate_recv_data_frame. intros H.
  match type of H with mbind _ ?m = _ => destruct m as [am| |] eqn:E0; [|discriminate..] end. cbn [mbind res_mbind] in H.
  match type of H with mbind _ ?m = _ => destruct m as [[[r sta] s1]| |] eqn:E1; [|discriminate..] end. cbn [mbind res_mbind] in H.
  apply validate_hdr_quiet in E1. cbn [adp with_att with_frm] in E1.
  destruct (_ || _); [by apply Ret_inj in H as <-|]. destruct sta as [i|]; [|by apply Ret_inj in H as <-].
  destruct (_ && negb _); [by apply Ret_inj in H as <-|].
  match type of H with mbind _ ?m = _ => destruct m as [s2| |] eqn:E2; [|discriminate..] end. cbn [mbind res_mbind] in H.
  apply parse_qc_quiet in E2. destruct (recv_decache (sta_entry s2 i) (att s2)) as [d e] eqn:Ed.
  apply recv_decache_queues in Ed. pose proof (upd_entry_quiet s2 i e Ed) as Q2.
  destruct (d =? _FAIL); [apply Ret_inj in H as <-; by do 2 (etrans; [eassumption|])|].
  match type of H with mbind _ ?m = _ => destruct m as [[p s3]| |] eqn:E3; [|discriminate..] end. cbn [mbind res_mbind] in H.
  apply pn_decache_quiet in E3. destruct (p =? _FAIL); [apply Ret_inj in H as <-; by do 3 (etrans; [eassumption|])|].
  match type of H with mbind _ ?m = _ => destruct m as [c| |] eqn:E4; [|discriminate..] end. cbn [mbind res_mbind] in H.
  apply Ret_inj in H as <-. cbn [st]. rewrite pick_cipher_adp. by do 3 (etrans; [eassumption|]).
Qed.

Lemma validate_quiet s o : validate_recv_frame s = Ret o -> quiet (adp s) (adp (st o)).
Proof.
  unfold validate_recv_frame. intros H. rx_inv; subst; try reflexivity. by apply validate_data_quiet in H.
Qed.

(** ** Where a frame comes from *)

(** The attributes that acceptance fixes. *)
Definition core (a : rx_pkt_attrib) : rx_pkt_attrib := set_key_index (set_bdecrypted (set_icv_len a 0) 0) 0.

(** [f] carries the attributes of one of [l]. *)
Definition from (l : list recv_frame) (f : recv_frame) : Prop := exists g, g ∈ l /\ core (attrib f) = core (attrib g).

Lemma from_core l f f' : core (attrib f') = core (attrib f) -> from l f -> from l f'.
Proof. intros E (g & H & Eg). exists g. split; [done|]. by rewrite E. Qed.

Lemma from_app l f g : from l f -> from (l ++ [g]) f.
Proof. intros (h & H & E). exists h. split; [set_solver|done]. Qed.

(** What an unprotected accepted frame is. *)
Definition plain_ok (f : recv_frame) : Prop :=
  privacy (attrib f) = 0 ->
  IS_MCAST (ra (attrib f)) = false /\ ether_type_at f = Ret eapol_type /\ amsdu (attrib f) = 0.

Lemma accepted_plain_ok s o : validate_recv_frame s = Ret o -> ret o = _SUCCESS ->
  dot11PrivacyAlgrthm (securitypriv (adp s)) <> _NO_PRIVACY_ -> plain_ok (frm (st o)).
Proof.
  unfold validate_recv_frame. intros H Hr Hn Hp. rx_inv; subst; try discriminate.
  apply validate_data_success in H as [K (i & _ & P)]; [|done].
  destruct K as (_ & _ & _ & _ & _ & K6 & _). cbn in K6.
  apply protection_check_plain in P as (P1 & _ & P3 & P4 & _); [done|done|]. by rewrite K6.
Qed.

(** A frame decryption that touches the bytes only. *)
Class KeepsAttrib (d : rxs -> res (Z * recv_frame)) : Prop :=
  keeps_attrib : forall s r f, d s = Ret (r, f) -> attrib f = attrib (frm s).

#[export] Instance ccmp_KeepsAttrib m : KeepsAttrib (Ccmp.rtw_aes_decrypt m).
Proof. intros s r f. unfold rtw_aes_decrypt, suite_rx. intros H. by rx_inv; subst. Qed.

#[export] Instance gcmp_KeepsAttrib m : KeepsAttrib (Ccmp.rtw_gcmp_decrypt m).
Proof. intros s r f. unfold rtw_gcmp_decrypt, suite_rx. intros H. by rx_inv; subst. Qed.

Lemma wep_keeps_attrib x f f' : rtw_wep_decrypt x f = Ret f' -> attrib f' = attrib f.
Proof. unfold rtw_wep_decrypt. intros H. by rx_inv; subst. Qed.

Lemma tkip_keeps_attrib x k f r f' : rtw_tkip_decrypt x k f = Ret (r, f') -> attrib f' = attrib f.
Proof. unfold rtw_tkip_decrypt. intros H. by rx_inv; subst. Qed.

Section Origin.
Context (aes gcmp : rxs -> res (Z * recv_frame)) `{KeepsAttrib aes} `{KeepsAttrib gcmp}.

#[export] Instance sw_decrypt_KeepsAttrib : KeepsAttrib (sw_decrypt aes gcmp).
Proof using All.
  intros s r f. unfold sw_decrypt. intros E. rx_inv; subst.
  - by eapply wep_keeps_attrib.
  - by eapply tkip_keeps_attrib.
  - by eapply (keeps_attrib (d := aes)).
  - by eapply (keeps_attrib (d := gcmp)).
  - done.
Qed.

(** The stations and the security settings are untouched. *)
Definition same_net (a a' : adapter) : Prop :=
  stapriv a' = stapriv a /\ dot11PrivacyAlgrthm (securitypriv a') = dot11PrivacyAlgrthm (securitypriv a).

Lemma decryptor_core s s' : decryptor aes gcmp s = Ret (Some s') ->
  same_net (adp s) (adp s') /\ core (attrib (frm s')) = core (attrib (frm s)).
Proof using All.
  unfold decryptor. intros E.
  match type of E with mbind _ ?m = _ => destruct m as [s1| |] eqn:E1; [|discriminate..] end. cbn [mbind res_mbind] in E.
  assert (adp s1 = adp s /\ core (attrib (frm s1)) = core (attrib (frm s))) as [A1 C1] by (rx_inv; subst; done).
  match type of E with mbind _ ?m = _ => destruct m as [[ok s2]| |] eqn:E2; [|discriminate..] end. cbn [mbind res_mbind] in E.
  assert (same_net (adp s1) (adp s2) /\ attrib (frm s2) = attrib (frm s1)) as [A2 C2].
  { clear E E1 C1. unfold same_net. rx_inv; subst; try (by split_and!); [|cbn; by rewrite A1].
    match goal with Ea : sw_decrypt _ _ _ = Ret ?p |- _ => destruct p as [r f]; apply sw_decrypt_KeepsAttrib in Ea; cbn [snd with_frm frm adp] in *; rewrite Ea end.
    destruct (GetFrameType _ =? WIFI_DATA_TYPE); cbn; by rewrite A1. }
  destruct (ok =? _FAIL); [discriminate|]. apply Ret_inj in E. injection E as <-. cbn [adp with_att with_frm frm attrib set_attrib att].
  rewrite <- A1. split; [done|]. rewrite <- C1, <- C2. done.
Qed.
End Origin.

(** ** Reassembly and the reorder buffer *)

Lemma pull_attrib f n : attrib (ignore_null f (recvframe_pull f n)) = attrib f.
Proof. unfold recvframe_pull. by case_match. Qed.

Lemma pull_tail_attrib f n : attrib (ignore_null f (recvframe_pull_tail f n)) = attrib f.
Proof. unfold recvframe_pull_tail. by case_match. Qed.

Lemma put_attrib f n : attrib (ignore_null f (recvframe_put f n)) = attrib f.
Proof. unfold recvframe_put. by case_match. Qed.

Lemma chkmic_net s r s' : recvframe_chkmic s = Ret (r, s') -> attrib (frm s') = attrib (frm s) /\ same_net (adp s) (adp s').
Proof.
  unfold recvframe_chkmic, same_net. intros H. rx_inv; subst; cbn; rewrite ?pull_tail_attrib; try done.
  - by repeat case_match.
  - by repeat case_match.
Qed.

Lemma append_frag_core pr n pr' : append_frag pr n = Ret pr' -> core (attrib pr') = core (attrib pr).
Proof.
  unfold append_frag. intros H. rx_inv; subst. cbn [attrib set_attrib]. rewrite put_attrib. cbn [attrib set_mem].
  by rewrite pull_tail_attrib.
Qed.

Lemma defrag_loop_core q pr cur k r : defrag_loop pr cur k q = Ret (Some r) -> core (attrib r) = core (attrib pr).
Proof.
  revert pr cur k. induction q as [|n q IH]; intros pr cur k H; cbn [defrag_loop] in H; [by rx_inv; subst|].
  match type of H with mbind _ ?m = _ => destruct m as [[pn|]| |] eqn:E; [|discriminate..] end. cbn [mbind res_mbind] in H.
  destruct (negb _); [discriminate|]. destruct (negb _); [discriminate|]. destruct (_ <? _); [discriminate|].
  match type of H with mbind _ ?m = _ => destruct m as [pr'| |] eqn:E'; [|discriminate..] end. cbn [mbind res_mbind] in H.
  apply IH in H. rewrite H. by apply append_frag_core in E'.
Qed.

Lemma defrag_core q r : recvframe_defrag q = Ret (Some r) -> exists pr q', q = pr :: q' /\ core (attrib r) = core (attrib pr).
Proof.
  unfold recvframe_defrag. destruct q as [|pr q]; [discriminate|]. intros H.
  match type of H with mbind _ ?m = _ => destruct m as [c| |] eqn:E; [|discriminate..] end. cbn [mbind res_mbind] in H.
  destruct (negb _); [discriminate|]. apply defrag_loop_core in H. eauto.
Qed.

Lemma mic_after_defrag_net s o o' s' : mic_after_defrag s o = Ret (o', s') ->
  same_net (adp s) (adp s') /\ (forall g, o' = Some g -> exists f, o = Some f /\ attrib g = attrib f).
Proof.
  unfold mic_after_defrag. intros H. destruct o as [f|]; [|rx_inv; subst; by split].
  destruct (privacy (attrib f) =? 0); [rx_inv; subst; split; [done|intros g [= <-]; eauto]|].
  match type of H with mbind _ ?m = _ => destruct m as [[r x]| |] eqn:E; [|discriminate..] end. cbn [mbind res_mbind fst snd] in H.
  apply chkmic_net in E as [A N]. apply Ret_inj, pair_inj in H as [<- <-]. split; [exact N|].
  intros g Hg. case_match; [discriminate|]. injection Hg as <-. eauto.
Qed.

(** The frame delivered is the incoming one or starts with a stored one; the
    frames stored afterwards are the stored ones and the incoming one. *)
Lemma chk_defrag_spec s o s' : recvframe_chk_defrag s = Ret (o, s') ->
  dot11PrivacyAlgrthm (securitypriv (adp s')) = dot11PrivacyAlgrthm (securitypriv (adp s)) /\
  (forall f, holds (stapriv (adp s')) f -> holds (stapriv (adp s)) f \/ attrib f = attrib (frm s)) /\
  (forall g, o = Some g -> exists h, core (attrib g) = core (attrib h) /\ (holds (stapriv (adp s)) h \/ attrib h = attrib (frm s))).
Proof.
  unfold recvframe_chk_defrag. intros H.
  match type of H with mbind _ ?m = _ => destruct m as [owner| |] eqn:E; [|discriminate..] end. cbn [mbind res_mbind] in H. clear E.
  destruct (_ && IS_MCAST _); [rx_inv; subst; by split_and!; auto|].
  destruct (_ && (frag_num _ =? 0)).
  { apply mic_after_defrag_net in H as [[N1 N2] G]. rewrite N1, N2. split_and!; [done|auto|].
    intros g Hg. destruct (G g Hg) as (f & Ef & Ea). injection Ef as <-. exists (frm s). rewrite Ea. auto. }
  destruct owner as [i|]; [|rx_inv; subst; by split_and!; auto].
  set (e := sta_entry s i) in *. set (f0 := set_keytrack (frm s) (sta_keytrack e)) in *. cbv zeta in H.
  assert (stainfo_buf (stapriv (adp s)) !! i <> None -> forall g, g ∈ defrag_q (recvpriv e) -> holds (stapriv (adp s)) g) as St.
  { intros Hi g Hg. unfold e, sta_entry in Hg. destruct (stainfo_buf (stapriv (adp s)) !! i) as [e0|] eqn:Ei; [|done].
    exists i, e0. split; [done|by left]. }
  assert (stainfo_buf (stapriv (adp s)) !! i = None -> defrag_q (recvpriv e) = []) as No.
  { intros Hi. unfold e, sta_entry. by rewrite Hi. }
  assert (forall q', (forall g, g ∈ q' -> g ∈ defrag_q (recvpriv e) \/ attrib g = attrib (frm s)) ->
    forall f, holds (stapriv (adp (upd_entry s i (set_defrag_q e q')))) f -> holds (stapriv (adp s)) f \/ attrib f = attrib (frm s)) as Up.
  { intros q' Hq f Hf. cbn [adp upd_entry with_adp set_stapriv stapriv] in Hf. apply holds_upd in Hf as [Hf|(e0 & Ei & Hf)]; [by left|].
    assert (e = e0) as -> by (unfold e, sta_entry; by rewrite Ei).
    destruct Hf as [Hf|Hf].
    - change (f ∈ q') in Hf. destruct (Hq f Hf) as [Hd|]; [|by right]. left. exists i, e0. split; [done|by left].
    - left. exists i, e0. split; [done|right; exact Hf]. }
  destruct (mfrag (attrib (frm s)) =? 1).
  { apply Ret_inj, pair_inj in H as [<- <-]. split; [done|]. split; [|done]. apply Up.
    intros g Hg. apply elem_of_app in Hg as [Hg|Hg]; [left|right; apply list_elem_of_singleton in Hg as ->; done].
    destruct (frag_num _ =? 0); [by apply not_elem_of_nil in Hg|done]. }
  destruct (_ && _); [|rx_inv; subst; by split_and!; auto].
  match type of H with mbind _ ?m = _ => destruct m as [o1| |] eqn:E1; [|discriminate..] end. cbn [mbind res_mbind] in H.
  apply mic_after_defrag_net in H as [[N1 N2] G]. rewrite N1, N2. split; [done|]. split.
  - apply Up. intros g Hg. by apply not_elem_of_nil in Hg.
  - intros g Hg. destruct (G g Hg) as (f & -> & Ea). apply defrag_core in E1 as (pr & q' & Eq & C). exists pr. rewrite Ea. split; [done|].
    destruct (stainfo_buf (stapriv (adp s)) !! i) as [e0|] eqn:Ei.
    + destruct (defrag_q (recvpriv e)) as [|d q0] eqn:Ed; cbn [app] in Eq.
      * right. by injection Eq as <- _.
      * left. injection Eq as <- _. apply St; [done|]. by left.
    + rewrite (No eq_refl) in Eq. right. by injection Eq as <- _.
Qed.

Lemma portctrl_same s s' : portctrl s = Ret (Some s') -> s' = s.
Proof. unfold portctrl. intros H. rx_inv; subst; try done; by repeat case_match; simplify_eq. Qed.

(** *** What the reorder buffer releases and keeps *)

Lemma enqueue_elem q f r : enqueue_reorder_recvframe q f = Some r -> forall g, g ∈ r -> g = f \/ g ∈ q.
Proof.
  revert r. induction q as [|x q IH]; intros r E g Hg; cbn [enqueue_reorder_recvframe] in E.
  { injection E as <-. apply list_elem_of_singleton in Hg. by left. }
  destruct (SN_LESS _ _).
  - destruct (enqueue_reorder_recvframe q f) as [r'|]; [|discriminate]. injection E as <-.
    apply elem_of_cons in Hg as [->|Hg]; [right; by left|]. destruct (IH r' eq_refl g Hg) as [->|]; [by left|right; by right].
  - destruct (SN_EQUAL _ _); [discriminate|]. injection E as <-. apply elem_of_cons in Hg as [->|Hg]; [by left|by right].
Qed.

Lemma indicate_loop_elem m q i p out rest i' p' b :
  indicate_loop m q i p = (out, rest, i', p', b) -> q = out ++ rest.
Proof.
  revert i p out rest i' p' b. induction q as [|f q IH]; intros i p out rest i' p' b E; cbn [indicate_loop] in E.
  { by injection E as <- <- _ _ _. }
  destruct (negb _); [|by injection E as <- <- _ _ _].
  destruct (indicate_loop _ q _ _) as [[[[o r] i1] p1] b1] eqn:E1. injection E as <- <- _ _ _. cbn [app]. f_equal. by eapply IH.
Qed.

Lemma in_order_elem m c p fc out c' p' b :
  recv_indicatepkts_in_order m c p fc = (out, c', p', b) -> pending c = out ++ pending c'.
Proof.
  unfold recv_indicatepkts_in_order. intros E. destruct fc; [destruct (pending c) as [|f q] eqn:Q|].
  - injection E as <- <- _ _. by rewrite Q.
  - destruct (indicate_loop _ _ _ _) as [[[[o r] i1] p1] b1] eqn:E1. injection E as <- <- _ _. apply indicate_loop_elem in E1.
    cbn [pending set_seq set_pending] in *. by rewrite Q in E1.
  - destruct (indicate_loop _ _ _ _) as [[[[o r] i1] p1] b1] eqn:E1. injection E as <- <- _ _. by apply indicate_loop_elem in E1.
Qed.

Lemma check_seq_pending c p n ok c' p' : check_indicate_seq c p n = (ok, c', p') -> pending c' = pending c.
Proof. unfold check_indicate_seq. intros E. repeat case_match; injection E as _ <- _; done. Qed.

(** The frames of a reorder control, if there is one. *)
Definition opending (c : option recv_reorder_ctrl) : list recv_frame := default [] (pending <$> c).

Lemma reorder_elem m c p f ret out c' p' :
  recv_indicatepkt_reorder m c p f = (ret, out, c', p') ->
  forall g, g ∈ out \/ g ∈ opending c' -> g = f \/ g ∈ opending c.
Proof.
  unfold recv_indicatepkt_reorder. destruct c as [c|]; [|intros [= <- <- <- <-] g [Hg|Hg]; by apply not_elem_of_nil in Hg].
  destruct (_ || _); [intros [= <- <- <- <-] g [Hg|Hg]; [by apply not_elem_of_nil in Hg|by right]|].
  set (c1 := if rec_abba_rsp_ack c then _ else c). assert (pending c1 = pending c) as P1 by (unfold c1; by case_match).
  destruct (check_indicate_seq c1 p (seq_of f)) as [[ok c2] p2] eqn:E2. apply check_seq_pending in E2.
  destruct (negb ok); [intros [= <- <- <- <-] g [Hg|Hg]; [by apply not_elem_of_nil in Hg|right; cbn in *; congruence]|].
  destruct (enqueue_reorder_recvframe (pending c2) f) as [q|] eqn:Eq; [|intros [= <- <- <- <-] g [Hg|Hg]; [by apply not_elem_of_nil in Hg|right; cbn in *; congruence]].
  destruct (recv_indicatepkts_in_order _ _ _ _) as [[[o c3] p3] b] eqn:E3. apply in_order_elem in E3. cbn [pending set_pending] in E3.
  intros [= <- <- <- <-] g Hg. assert (g ∈ q) as Hq.
  { rewrite E3. apply elem_of_app. destruct Hg as [Hg|Hg]; [by left|right]. cbn in Hg. by repeat case_match. }
  destruct (enqueue_elem _ _ _ Eq g Hq) as [->|Hp]; [by left|right]. cbn. congruence.
Qed.

Lemma timeout_elem m cr c p out c' p' :
  rtw_reordering_ctrl_timeout_handler m cr c p = (out, c', p') -> forall g, g ∈ out \/ g ∈ pending c' -> g ∈ pending c.
Proof.
  unfold rtw_reordering_ctrl_timeout_handler. destruct cr; [intros [= <- <- <-] g [Hg|Hg]; [by apply not_elem_of_nil in Hg|done]|].
  destruct (recv_indicatepkts_in_order _ _ _ _) as [[[o c3] p3] b] eqn:E3. apply in_order_elem in E3. cbn [pending set_waiting] in E3.
  intros [= <- <- <-] g Hg. rewrite E3. apply elem_of_app. destruct Hg as [Hg|Hg]; [by left|right]. by destruct b.
Qed.

(** ** The invariant *)

Record rx_ok (s : rpst) : Prop := {
  ok_sec : dot11PrivacyAlgrthm (securitypriv (rp_adp s)) <> _NO_PRIVACY_;
  ok_held : forall f, holds (stapriv (rp_adp s)) f -> from (accepted s) f;
  ok_wait : forall it, it ∈ uc_swdec_pending_queue s -> from (accepted s) (it_frm it);
  ok_out : forall it, it ∈ mpdus s -> from (accepted s) (it_frm it);
  ok_acc : forall g, g ∈ accepted s -> plain_ok g
}.

(** A step that accepts no new frame. *)
Record derived (s s' : rpst) : Prop := {
  dv_acc : accepted s' = accepted s;
  dv_sec : dot11PrivacyAlgrthm (securitypriv (rp_adp s')) = dot11PrivacyAlgrthm (securitypriv (rp_adp s));
  dv_held : forall f, holds (stapriv (rp_adp s')) f -> holds (stapriv (rp_adp s)) f \/ from (accepted s) f;
  dv_wait : forall it, it ∈ uc_swdec_pending_queue s' -> it ∈ uc_swdec_pending_queue s;
  dv_out : forall it, it ∈ mpdus s' -> it ∈ mpdus s \/ from (accepted s) (it_frm it)
}.

#[export] Instance derived_refl : Reflexive derived.
Proof. intros s. by split; auto. Qed.

#[export] Instance derived_trans : Transitive derived.
Proof.
  intros x y z [A1 A2 A3 A4 A5] [B1 B2 B3 B4 B5]. split; [congruence|congruence| |auto|].
  - intros f Hf. destruct (B3 f Hf) as [Hy|Hy]; [auto|]. right. by rewrite <- A1.
  - intros it Hi. destruct (B5 it Hi) as [Hy|Hy]; [auto|]. right. by rewrite <- A1.
Qed.

Lemma derived_ok s s' : derived s s' -> rx_ok s -> rx_ok s'.
Proof.
  intros [A1 A2 A3 A4 A5] [B1 B2 B3 B4 B5]. split; rewrite ?A1, ?A2; auto.
  - intros f Hf. destruct (A3 f Hf); auto.
  - intros it Hi. destruct (A5 it Hi); auto.
Qed.

Lemma ctrl_at_holds a i t g : g ∈ opending (ctrl_at a i t) -> holds (stapriv a) g.
Proof.
  unfold ctrl_at, opending. intros H. destruct i as [i|], t as [t|]; try by apply not_elem_of_nil in H.
  destruct (stainfo_buf (stapriv a) !! i) as [e|] eqn:Ei; [|by apply not_elem_of_nil in H]. cbn in H.
  destruct (recvreorder_ctrl e !! Z.to_nat t) as [c|] eqn:Ec; [|by apply not_elem_of_nil in H]. cbn in H.
  exists i, e. split; [done|]. right. eauto.
Qed.

Lemma set_ctrl_holds a i t c g : holds (stapriv (set_ctrl a i t c)) g -> holds (stapriv a) g \/ g ∈ opending c.
Proof.
  unfold set_ctrl. destruct i as [i|], t as [t|], c as [c|]; auto. intros H. cbn [stapriv set_stapriv] in H.
  apply holds_upd in H as [H|(e & Ei & [H|(k & c' & Hk & H)])]; [by left|left; exists i, e; split; [done|by left]|].
  cbn [recvreorder_ctrl set_reorder] in Hk. destruct (decide (k = Z.to_nat t)) as [->|N].
  - destruct (decide (Z.to_nat t < length (recvreorder_ctrl e))%nat) as [L|L].
    + rewrite list_lookup_insert_eq in Hk by done. injection Hk as <-. by right.
    + rewrite list_insert_ge in Hk by lia. left. exists i, e. split; [done|]. right. eauto.
  - rewrite list_lookup_insert_ne in Hk by done. left. exists i, e. split; [done|]. right. eauto.
Qed.

Lemma set_ctrl_sec a i t c : dot11PrivacyAlgrthm (securitypriv (set_ctrl a i t c)) = dot11PrivacyAlgrthm (securitypriv a).
Proof. unfold set_ctrl. by repeat case_match. Qed.

(** Storing a control whose frames are known, and handing frames on. *)
Lemma derived_ctrl s i t c p out k :
  (forall g, g ∈ opending c -> holds (stapriv (rp_adp s)) g \/ from (accepted s) g) ->
  (forall g, g ∈ out -> holds (stapriv (rp_adp s)) (it_frm g) \/ from (accepted s) (it_frm g)) ->
  rx_ok s -> derived s (deliver (set_rp_priv (set_rp_adp s (set_ctrl (rp_adp s) i t c) k) p) out).
Proof.
  intros Hc Ho Ok. split; cbn [accepted rp_adp uc_swdec_pending_queue mpdus deliver set_rp_priv set_rp_adp]; auto.
  - apply set_ctrl_sec.
  - intros f Hf. apply set_ctrl_holds in Hf as [Hf|Hf]; auto.
  - intros it Hi. apply elem_of_app in Hi as [Hi|Hi]; [by left|right]. destruct (Ho it Hi) as [Hh|]; [|done]. by apply (ok_held s Ok).
Qed.

Lemma derived_same s s' : accepted s' = accepted s -> rp_adp s' = rp_adp s ->
  uc_swdec_pending_queue s' = uc_swdec_pending_queue s -> mpdus s' = mpdus s -> derived s s'.
Proof. intros A B C D. split; rewrite ?A, ?B, ?C, ?D; auto. Qed.

Section Invariant.
Context (aes gcmp : rxs -> res (Z * recv_frame)) `{KeepsAttrib aes} `{KeepsAttrib gcmp}.
Context (process : recv_frame -> Z).

Lemma deliver_frame_derived s it seq r s' :
  rx_ok s -> from (accepted s) (it_frm it) -> deliver_frame process s it seq = (r, s') -> derived s s'.
Proof using Type.
  intros Ok Fr. unfold deliver_frame. set (s1 := count_stats s (it_psta it)).
  assert (derived s s1) as D1 by (unfold s1, count_stats; destruct (it_psta it); [by apply derived_same|done]).
  assert (rp_adp s1 = rp_adp s) as Ad by (unfold s1, count_stats; by destruct (it_psta it)).
  pose proof (derived_ok _ _ D1 Ok) as Ok1. assert (from (accepted s1) (it_frm it)) as Fr1 by by rewrite (dv_acc _ _ D1).
  destruct (recv_indicatepkt_reorder _ _ _ _) as [[[ret out] c] p] eqn:E.
  assert (forall g, g ∈ out \/ g ∈ opending c -> holds (stapriv (rp_adp s1)) g \/ from (accepted s1) g) as El.
  { intros g Hg. destruct (reorder_elem _ _ _ _ _ _ _ _ E g Hg) as [->|Hp]; [by right|left; by eapply ctrl_at_holds]. }
  set (s2 := deliver _ _). assert (derived s1 s2) as D2.
  { apply derived_ctrl; auto. intros g Hg. apply list_elem_of_fmap in Hg as (f & -> & Hf). cbn [it_frm]. auto. }
  assert (derived s s2) as D by by etrans. pose proof (derived_ok _ _ D Ok) as Ok2.
  destruct (ret =? _FAIL); [intros [= <- <-]; etrans; [exact D|by apply derived_same]|].
  destruct (ret =? RTW_RX_HANDLED); [by intros [= <- <-]|]. unfold process_now. intros [= <- <-]. etrans; [exact D|].
  set (s3 := set_rp_adp s2 _ _). etrans; [apply (derived_ctrl s2 (it_psta it) (it_pre it)
      ((fun c => set_seq c ((seq + 1) mod 4096)) <$> ctrl_at (rp_adp s2) (it_psta it) (it_pre it)) (rp_priv s2) [it] (rp_calls s2)); [| |exact Ok2]|].
  - intros g Hg. left. apply (ctrl_at_holds _ (it_psta it) (it_pre it)).
    revert Hg. by destruct (ctrl_at (rp_adp s2) (it_psta it) (it_pre it)).
  - intros g Hg. apply list_elem_of_singleton in Hg as ->. right. by rewrite (dv_acc _ _ D).
  - by case_match; apply derived_same.
Qed.

Lemma posthandle_derived s it r s' :
  rx_ok s -> from (accepted s) (it_frm it) -> recv_func_posthandle aes gcmp process s it = Ret (r, s') -> derived s s'.
Proof using All.
  intros Ok Fr E. unfold recv_func_posthandle in E.
  match type of E with mbind _ ?m = _ => destruct m as [[x|]| |] eqn:Ed; [| |discriminate..] end; cbn [mbind res_mbind] in E.
  2:{ apply Ret_inj, pair_inj in E as [_ <-]. split; auto. }
  apply (decryptor_core aes gcmp) in Ed as [[N1 N2] C]. cbn [adp rxs_of frm] in N1, N2, C.
  match type of E with mbind _ ?m = _ => destruct m as [owner| |]; [|discriminate..] end; cbn [mbind res_mbind] in E.
  match type of E with mbind _ ?m = _ => destruct m as [[o y]| |] eqn:Ec; [|discriminate..] end; cbn [mbind res_mbind] in E.
  destruct (chk_defrag_spec _ _ _ Ec) as (S1 & H1 & O1). rewrite N1 in H1, O1. rewrite N2 in S1.
  assert (from (accepted s) (frm x)) as Fx by by eapply from_core.
  assert (forall h, holds (stapriv (rp_adp s)) h \/ attrib h = attrib (frm x) -> from (accepted s) h) as Known.
  { intros h [Hh|Ea]; [by apply (ok_held s Ok)|]. eapply from_core; [|exact Fx]. by rewrite Ea. }
  assert (derived s (of_rxs s y)) as D1.
  { split; cbn [accepted of_rxs set_rp_adp rp_adp uc_swdec_pending_queue mpdus]; [done|done| |by auto|by auto].
    intros f Hf. destruct (H1 f Hf) as [Hh|Ea]; [by left|right; apply Known; by right]. }
  pose proof (derived_ok _ _ D1 Ok) as Ok1.
  destruct o as [f|]; [|apply Ret_inj, pair_inj in E as [_ <-]; etrans; [exact D1|by apply derived_same]].
  destruct (O1 f eq_refl) as (h & Ch & Hh). assert (from (accepted s) f) as Ff by (eapply from_core; [exact Ch|by apply Known]).
  match type of E with mbind _ ?m = _ => destruct m as [[z|]| |] eqn:Ep; [| |discriminate..] end; cbn [mbind res_mbind] in E;
    [|apply Ret_inj, pair_inj in E as [_ <-]; etrans; [exact D1|by apply derived_same]].
  apply portctrl_same in Ep as ->. apply Ret_inj in E. cbn [frm rxs_of] in E.
  etrans; [exact D1|]. eapply deliver_frame_derived; [exact Ok1| |exact E]. by case_match.
Qed.

Lemma flush_ok q s s' :
  rx_ok s -> (forall it, it ∈ q -> from (accepted s) (it_frm it)) -> flush_pending aes gcmp process s q = Ret s' -> rx_ok s'.
Proof using All.
  revert s. induction q as [|it q IH]; intros s Ok Fr E; cbn [flush_pending] in E; [by apply Ret_inj in E as <-|].
  match type of E with mbind _ ?m = _ => destruct m as [[r s1]| |] eqn:E1; [|discriminate..] end; cbn [mbind res_mbind snd] in E.
  apply posthandle_derived in E1; [|done|apply Fr; by left]. eapply IH; [by eapply derived_ok| |exact E].
  intros x Hx. rewrite (dv_acc _ _ E1). apply Fr. by right.
Qed.

Lemma quiet_rpst s x : quiet (rp_adp s) (adp x) -> rx_ok s -> derived s (of_rxs s x).
Proof using Type.
  intros (Q1 & Q2 & _) Ok. split; cbn [accepted of_rxs set_rp_adp rp_adp uc_swdec_pending_queue mpdus]; auto.
Qed.

Lemma note_ok s f : rx_ok s -> plain_ok f -> rx_ok (note_accepted s f) /\ from (accepted (note_accepted s f)) f.
Proof using Type.
  intros [B1 B2 B3 B4 B5] P. split; [split|]; cbn [accepted rp_adp note_accepted uc_swdec_pending_queue mpdus]; auto using from_app.
  - intros g Hg. apply elem_of_app in Hg as [Hg|Hg]; [auto|]. by apply list_elem_of_singleton in Hg as ->.
  - exists f. split; [|done]. apply elem_of_app. right. by apply list_elem_of_singleton.
Qed.

Lemma prehandle_ok s f r it s' : rx_ok s -> recv_func_prehandle s f = Ret (r, it, s') ->
  rx_ok s' /\ (r = _SUCCESS -> from (accepted s') (it_frm it)).
Proof using Type.
  intros Ok E. unfold recv_func_prehandle in E.
  match type of E with mbind _ ?m = _ => destruct m as [o| |] eqn:Eo; [|discriminate..] end; cbn [mbind res_mbind] in E.
  pose proof (quiet_rpst s (st o) (validate_quiet _ _ Eo) Ok) as D. pose proof (derived_ok _ _ D Ok) as Ok1.
  apply Ret_inj in E. injection E as <- <- <-. cbn [it_frm].
  destruct (Z.eqb_spec (ret o) _SUCCESS) as [Er|Er]; [|by split].
  destruct (note_ok (of_rxs s (st o)) (frm (st o)) Ok1) as [Ok2 Fr]; [|by split].
  eapply accepted_plain_ok; [exact Eo|exact Er|]. exact (ok_sec s Ok).
Qed.

Lemma recv_func_ok n d c s f r s' : rx_ok s -> recv_func aes gcmp process n d c s f = Ret (r, s') -> rx_ok s'.
Proof using All.
  intros Ok E. unfold recv_func in E. destruct (check_fwstate _ WIFI_MONITOR_STATE); [by apply Ret_inj, pair_inj in E as [_ <-]|].
  match type of E with mbind _ ?m = _ => destruct m as [s0| |] eqn:E0; [|discriminate..] end; cbn [mbind res_mbind] in E.
  assert (rx_ok s0) as Ok0.
  { destruct (_ && _); [|by apply Ret_inj in E0 as <-]. eapply flush_ok; [| |exact E0].
    - destruct Ok as [B1 B2 B3 B4 B5]. split; cbn [accepted rp_adp set_swdec uc_swdec_pending_queue mpdus]; auto.
      intros it Hi. by apply not_elem_of_nil in Hi.
    - intros it Hi. by apply (ok_wait s Ok). }
  match type of E with mbind _ ?m = _ => destruct m as [[[r1 it] s1]| |] eqn:E1; [|discriminate..] end; cbn [mbind res_mbind] in E.
  apply prehandle_ok in E1 as [Ok1 Fr]; [|done].
  destruct (Z.eqb_spec r1 _SUCCESS) as [Er|Er]; cbn [negb] in E; [|by apply Ret_inj, pair_inj in E as [_ <-]].
  specialize (Fr Er). assert (forall q, (forall x, x ∈ q -> x = it \/ x ∈ uc_swdec_pending_queue s1) -> rx_ok (set_swdec s1 q)) as Wait.
  { intros q Hq. destruct Ok1 as [B1 B2 B3 B4 B5]. split; cbn [accepted rp_adp set_swdec uc_swdec_pending_queue mpdus]; auto.
    intros x Hx. destruct (Hq x Hx) as [->|Hy]; auto. }
  assert (forall x, x ∈ uc_swdec_pending_queue s1 ++ [it] -> x = it \/ x ∈ uc_swdec_pending_queue s1) as El.
  { intros x Hx. apply elem_of_app in Hx as [Hx|Hx]; [by right|left]. by apply list_elem_of_singleton in Hx. }
  destruct (must_wait _ _ _ _).
  - destruct (c <? NR_RECVFRAME / 4); [|apply Ret_inj, pair_inj in E as [_ <-]; by apply Wait].
    destruct (uc_swdec_pending_queue s1 ++ [it]) as [|y q] eqn:Q; [by apply Ret_inj, pair_inj in E as [_ <-]|].
    assert (rx_ok (set_swdec s1 q)) as Okq by (apply Wait; intros x Hx; apply El; by right).
    eapply derived_ok; [eapply posthandle_derived; [exact Okq| |exact E]|exact Okq].
    destruct (El y) as [->|Hy]; [by left|exact Fr|by apply (ok_wait s1 Ok1)].
  - eapply derived_ok; [eapply posthandle_derived; [exact Ok1|exact Fr|exact E]|exact Ok1].
Qed.

Lemma timeout_ok cr s i t : rx_ok s -> rx_ok (reorder_timeout process cr s i t).
Proof using Type.
  intros Ok. unfold reorder_timeout. destruct (ctrl_at _ _ _) as [c|] eqn:Ec; [|done].
  destruct (rtw_reordering_ctrl_timeout_handler _ _ _ _) as [[out c'] p] eqn:E.
  assert (forall g, g ∈ out \/ g ∈ pending c' -> holds (stapriv (rp_adp s)) g) as El.
  { intros g Hg. apply (ctrl_at_holds _ (Some i) (Some t)). rewrite Ec. by eapply timeout_elem. }
  eapply derived_ok; [|exact Ok]. apply derived_ctrl; [by auto| |done].
  intros g Hg. apply list_elem_of_fmap in Hg as (f & -> & Hf). left. apply El. by left.
Qed.

Lemma rx_run_ok es s s' : rx_ok s -> rx_run aes gcmp process s es = Ret s' -> rx_ok s'.
Proof using All.
  revert s. induction es as [|e es IH]; intros s Ok E; cbn [rx_run] in E; [by apply Ret_inj in E as <-|].
  match type of E with mbind _ ?m = _ => destruct m as [s1| |] eqn:E1; [|discriminate..] end; cbn [mbind res_mbind] in E.
  eapply IH; [|exact E]. destruct e as [n d c f|cr i t]; cbn [rx_step] in E1.
  - match type of E1 with mbind _ ?m = _ => destruct m as [[r s2]| |] eqn:E2; [|discriminate..] end; cbn [mbind res_mbind snd] in E1.
    apply Ret_inj in E1 as <-. by eapply recv_func_ok.
  - apply Ret_inj in E1 as <-. by apply timeout_ok.
Qed.
End Invariant.

(** A receive path that holds no frame yet. *)
Definition rx_fresh (s : rpst) : Prop :=
  dot11PrivacyAlgrthm (securitypriv (rp_adp s)) <> _NO_PRIVACY_ /\ (forall f, ~ holds (stapriv (rp_adp s)) f) /\
  uc_swdec_pending_queue s = [] /\ mpdus s = [] /\ accepted s = [].

Lemma rx_fresh_ok s : rx_fresh s -> rx_ok s.
Proof.
  intros (A & B & C & D & E). split; rewrite ?C, ?D, ?E; [done|intros f Hf; by apply B in Hf|intros ? Hi; by apply not_elem_of_nil in Hi..].
Qed.

(** C6: Along every sequence of arriving frames and reorder timeouts in a
    protected network, with CCMP, GCMP, TKIP and WEP as they are implemented,
    each frame given to [recv_process_mpdu] - directly, out of
    the reorder buffer, after reassembly or after waiting for the key - carries the
    addresses, the sequence number, the QoS fields and the cipher of a frame that
    passed [validate_recv_frame]; if it is unprotected, that frame was an
    EAPOL frame to a unicast receiver and not an A-MSDU. *)
Theorem delivered_frames_were_accepted m process s es s' :
  rx_fresh s -> rx_run (Ccmp.rtw_aes_decrypt m) (Ccmp.rtw_gcmp_decrypt m) process s es = Ret s' ->
  forall it, it ∈ mpdus s' -> exists g, g ∈ accepted s' /\ core (attrib (it_frm it)) = core (attrib g) /\
    (privacy (attrib (it_frm it)) = 0 ->
     IS_MCAST (ra (attrib (it_frm it))) = false /\ amsdu (attrib (it_frm it)) = 0 /\ ether_type_at g = Ret eapol_type).
Proof.
  intros Fr E it Hi. pose proof (rx_run_ok _ _ process es s s' (rx_fresh_ok s Fr) E) as Ok.
  destruct (ok_out s' Ok it Hi) as (g & Hg & C). exists g. split; [done|]. split; [done|]. intros Hp.
  assert (privacy (attrib g) = 0 /\ ra (attrib g) = ra (attrib (it_frm it)) /\ amsdu (attrib g) = amsdu (attrib (it_frm it))) as (P1 & P2 & P3).
  { pose proof (f_equal privacy C) as C1. pose proof (f_equal ra C) as C2. pose proof (f_equal amsdu C) as C3. cbn in C1, C2, C3. rewrite <- C1. auto. }
  destruct (ok_acc s' Ok g Hg P1) as (H1 & H2 & H3). by rewrite <- P2, <- P3.
Qed.

(** *** Examples *)

Definition is_nil {A} (l : list A) : bool := match l with [] => true | _ => false end.

Lemma no_frames p :
  forallb (fun e => is_nil (defrag_q (recvpriv e)) && forallb (fun c => is_nil (pending c)) (recvreorder_ctrl e)) (stainfo_buf p) = true ->
  forall f, ~ holds p f.
Proof.
  intros H f (i & e & He & Hf). rewrite forallb_forall in H. specialize (H e).
  apply andb_prop in H as [H1 H2]; [|apply list_elem_of_In; by eapply list_elem_of_lookup_2].
  destruct Hf as [Hf|(t & c & Hc & Hf)].
  - destruct (defrag_q (recvpriv e)); [by apply not_elem_of_nil in Hf|discriminate].
  - rewrite forallb_forall in H2. specialize (H2 c ltac:(apply list_elem_of_In; by eapply list_elem_of_lookup_2)).
    destruct (pending c); [by apply not_elem_of_nil in Hf|discriminate].
Qed.

(** A station of a CCMP network whose access point is the second entry. *)
Definition rp_sta (e : sta_info) : sta_info :=
  mk_sta (mac_addr e) 1 1 (sta_flags e) 0 _AES_ (dot11tkiprxmickey e) (dot118021x_UncstKey e) 7 0 0
    (recvpriv e) (recvreorder_ctrl e) (stx e) (sps e).

Definition rp_adapter : adapter :=
  let p := stapriv ex_adapter in set_stapriv ex_adapter (set_stainfo p (alter rp_sta 1%nat (stainfo_buf p))).

Definition rp_state : rpst := mk_rp rp_adapter (mk_priv 0 0 0 0 0 0) [] [] [] [].

(** A fragment from the access point, decrypted by the hardware if it is
    protected; [fc1] is the second byte of frame control. *)
Definition rp_frag (fc1 frag : Z) (iv body icv : bytes) (room : nat) : recv_frame :=
  let mem := [0x08; fc1; 0; 0] ++ ex_me ++ ex_ap ++ ex_ap ++ [0x10 + frag; 0] ++ iv ++ body ++ icv in
  mk_frame (mk_attrib 0 0 0 0 0 0 0 0 0 0 1 0 0 0 [] [] [] [] [] 0 0) (mem ++ replicate room 0) 0 (zlen mem) (zlen mem) 0.

(** The first fragment of a protected frame, and an unprotected frame that
    claims to be the second: bytes six and seven of its body are the EAPOL type. *)
Definition rp_first : recv_frame :=
  rp_frag 0x46 0 [5; 0; 0; 0x20; 0; 0; 0; 0] [0xaa; 0xaa; 3; 0; 0; 0; 8; 0; 0x45] (replicate 8 0xee) 60.
Definition rp_second : recv_frame := rp_frag 0x02 1 [] [1; 2; 3; 4; 5; 6; 0x88; 0x8e; 7; 8] [] 0.

Definition rp_events : list rx_event := [EvFrame 0 false 100 rp_first; EvTimeout false 1 0; EvFrame 0 false 100 rp_second].

Lemma rp_state_fresh : rx_fresh rp_state.
Proof.
  split; [vm_compute; discriminate|]. split; [apply no_frames; vm_compute; reflexivity|]. by split_and!.
Qed.

Lemma delivered_frames_were_accepted_witness :
  exists s', rx_run (Ccmp.rtw_aes_decrypt 0) (Ccmp.rtw_gcmp_decrypt 0) (fun _ => _SUCCESS) rp_state rp_events = Ret s' /\
    length (mpdus s') = 1%nat /\ forall it, it ∈ mpdus s' -> exists g, g ∈ accepted s' /\ core (attrib (it_frm it)) = core (attrib g).
Proof.
  destruct (rx_run (Ccmp.rtw_aes_decrypt 0) (Ccmp.rtw_gcmp_decrypt 0) (fun _ => _SUCCESS) rp_state rp_events) as [s'| |] eqn:E;
    [|vm_compute in E; discriminate..].
  exists s'. split; [reflexivity|]. split.
  - assert (match rx_run (Ccmp.rtw_aes_decrypt 0) (Ccmp.rtw_gcmp_decrypt 0) (fun _ => _SUCCESS) rp_state rp_events with
            | Ret s => length (mpdus s) | _ => 0%nat end = 1%nat) as L by (vm_compute; reflexivity).
    by rewrite E in L.
  - intros it Hi. destruct (delivered_frames_were_accepted 0 (fun _ => _SUCCESS) rp_state rp_events s' rp_state_fresh E it Hi)
      as (g & Hg & C & _). exists g. split; [exact Hg|exact C].
Defined.

(** Reassembly does not compare the protection of the fragments: the bytes of
    the unprotected frame are delivered as part of the protected one. *)
Theorem mixed_fragments_delivered : exists s' it,
  rx_run (Ccmp.rtw_aes_decrypt 0) (Ccmp.rtw_gcmp_decrypt 0) (fun _ => _SUCCESS) rp_state rp_events = Ret s' /\
  mpdus s' = [it] /\ privacy (attrib (it_frm it)) = 1 /\
  bit_test (znth (payload_of rp_second) 1) 0x40 = false /\
  exists hdr, payload_of (it_frm it) = hdr ++ [0xaa; 0xaa; 3; 0; 0; 0; 8; 0; 0x45] ++ [1; 2; 3; 4; 5; 6; 0x88; 0x8e; 7; 8].
Proof.
  eexists _, _. split; [vm_compute; reflexivity|]. split; [reflexivity|]. split; [reflexivity|]. split; [reflexivity|].
  exists (take 32 (rx_mem rp_first)). reflexivity.
Qed.
