(* ===== verification/XmitAttr.v ===== *)
(** * Attributes and header of transmitted data frames

    [update_attrib] of core/rtw_xmit.c with the functions it calls, and
    [rtw_make_wlanhdr]: for every packet of the network stack it finds the
    station, reads the EtherType and the IP header, chooses cipher, packet
    number and priority, and the header is written from these attributes.

    [struct pkt_attrib] is the record [xattrib] of four groups of fields.  The
    fields only the transmit descriptor is filled from (rate, bandwidth,
    spacing, mac id, sequence selection) are left out, and so is the session
    tracker, which has rules in builds with WFD only. *)

From S2P Require Import Prelude RxFrame Reorder StaMgt SwCrypt RxCheck Defrag Aes CipherModes Ccmp MgmtProtect.

(** ** Attributes *)

Record tx_eth := mk_eth {
  ether_type : Z;
  e_dst : bytes;
  e_src : bytes;
  e_ta : bytes;
  e_ra : bytes;
  e_pktlen : Z;
  dhcp_pkt : bool;
  icmp_pkt : bool;
  hipriority_pkt : bool
}.

Record tx_sec := mk_tsec {
  s_encrypt : Z;
  key_idx : Z;
  s_iv : bytes;
  s_iv_len : Z;
  s_icv : bytes;
  s_icv_len : Z;
  s_bswenc : bool;
  s_UncstKey : bytes;
  s_tkiptxmickey : bytes
}.

Record tx_hdr := mk_thdr {
  pkt_hdrlen : Z;
  h_hdrlen : Z;
  h_subtype : Z;
  qos_en : bool;
  h_priority : Z;
  ampdu_en : bool;
  h_ht_en : bool;
  h_rtsen : bool;
  h_cts2self : bool;
  h_mdata : bool;
  h_eosp : bool;
  h_ack_policy : Z;
  h_amsdu : bool;
  h_seqnum : Z;
  h_psta : option nat
}.

Record tx_cmd := mk_tcmd { c_nr_frags : Z; c_last_txcmdsz : Z; vcs_mode : Z }.

Record xattrib := mk_xa { xe : tx_eth; xs : tx_sec; xh : tx_hdr; xc : tx_cmd }.

Definition set_eth (x : xattrib) (e : tx_eth) : xattrib := mk_xa e (xs x) (xh x) (xc x).
Definition set_sec (x : xattrib) (s : tx_sec) : xattrib := mk_xa (xe x) s (xh x) (xc x).
Definition set_hdr (x : xattrib) (h : tx_hdr) : xattrib := mk_xa (xe x) (xs x) h (xc x).
Definition set_cmd (x : xattrib) (c : tx_cmd) : xattrib := mk_xa (xe x) (xs x) (xh x) c.

(** The attributes the ciphers look at. *)
Definition pa_of (x : xattrib) : pkt_attrib :=
  mk_pkt (s_encrypt (xs x)) (h_hdrlen (xh x)) (s_iv_len (xs x)) (s_icv_len (xs x)) (c_nr_frags (xc x)) (c_last_txcmdsz (xc x))
    (e_ra (xe x)) (e_ta (xe x)) (s_UncstKey (xs x)).

(** ** State *)

(** The transmit fields of [struct sta_info], one per entry of
    [stainfo_buf]: [txpn] is [dot11txpn.val]. *)
Record sta_txinfo := mk_txinfo {
  qos_option : bool;
  txpn : Z;
  txseq_tid : list Z;
  BA_starting_seqctrl : list Z;
  dot11tkiptxmickey : bytes;
  resp_nonenc_eapol_key_starttime : Z;
  ht_option : bool;
  ampdu_enable : bool;
  agg_enable_bitmap : Z;
  sta_rtsen : bool;
  sta_cts2self : bool
}.

(** Calls into other components. *)
Inductive tx_call :=
| rtw_mi_set_scan_deny (ms : Z)
| rtw_mi_scan_abort
| rtw_lps_ctrl_wk_cmd (special : bool).

(** Fields of the adapter read by the transmit path only: [securitypriv]
    ([sw_encrypt], [dot118021XGrptxmickey], [ndisauthtype]), the CAM flag
    [SEC_STATUS_STA_PK_GK_CONFLICT_DIS_BMC_SEARCH], [mlmepriv]
    ([qospriv.qos_option], [acm_mask]), and whether the registry enables HT
    in the wireless mode. *)
Record tx_cfg := mk_txcfg {
  sw_encrypt : bool;
  dot118021XGrptxmickey : list bytes;
  ndisauthtype : Z;
  dis_bmc_search : bool;
  pqos_option : bool;
  acm_mask : Z;
  ht_enabled : bool
}.

Record txs := mk_txs { t_adp : adapter; t_info : list sta_txinfo; t_cfg : tx_cfg; t_calls : list tx_call }.

Definition set_tadp (s : txs) (a : adapter) : txs := mk_txs a (t_info s) (t_cfg s) (t_calls s).
Definition set_tinfo (s : txs) (i : nat) (t : sta_txinfo) : txs :=
  mk_txs (t_adp s) (<[i := t]> (t_info s)) (t_cfg s) (t_calls s).
Definition tcall (s : txs) (c : tx_call) : txs := mk_txs (t_adp s) (t_info s) (t_cfg s) (t_calls s ++ [c]).

Definition txinfo_0 : sta_txinfo := mk_txinfo false 0 [] [] [] 0 false false 0 false false.
Definition info_at (s : txs) (i : nat) : sta_txinfo := default txinfo_0 (t_info s !! i).
Definition entry_at (s : txs) (i : nat) : sta_info := default _rtw_init_stainfo (stainfo_buf (stapriv (t_adp s)) !! i).

Definition set_txpn (t : sta_txinfo) (v : Z) : sta_txinfo :=
  mk_txinfo (qos_option t) v (txseq_tid t) (BA_starting_seqctrl t) (dot11tkiptxmickey t) (resp_nonenc_eapol_key_starttime t)
    (ht_option t) (ampdu_enable t) (agg_enable_bitmap t) (sta_rtsen t) (sta_cts2self t).
Definition set_seqs (t : sta_txinfo) (q b : list Z) : sta_txinfo :=
  mk_txinfo (qos_option t) (txpn t) q b (dot11tkiptxmickey t) (resp_nonenc_eapol_key_starttime t)
    (ht_option t) (ampdu_enable t) (agg_enable_bitmap t) (sta_rtsen t) (sta_cts2self t).

(** ** Reading a packet: os_dep/linux/xmit_linux.c *)

(** [cur_addr] is relative to [buf_start]. *)
Record pkt_file := mk_pf { pf_buf : bytes; cur_addr : Z; pkt_len : Z; buf_len : Z }.

Definition _rtw_open_pktfile (pkt : bytes) : pkt_file := mk_pf pkt 0 (zlen pkt) (zlen pkt).

Definition rtw_remainder_len (p : pkt_file) : Z := buf_len p - cur_addr p.

(** The bytes [skb_copy_bits] copies. *)
Definition _rtw_pktfile_read (p : pkt_file) (rlen : Z) : bytes * pkt_file :=
  let len := rtw_remainder_len p in
  let len := if len <? u32 rlen then len else u32 rlen in
  (take (Z.to_nat len) (drop (Z.to_nat (buf_len p - pkt_len p)) (pf_buf p)),
   mk_pf (pf_buf p) (cur_addr p + len) (pkt_len p - len) (buf_len p)).

Definition rtw_endofpktfile (p : pkt_file) : bool := pkt_len p =? 0.

(** The local arrays a short packet does not fill; what they hold then is an
    argument. *)
Inductive local := L_ethhdr | L_ip | L_udp | L_iphdr.

Definition local_byte (stack : local -> Z -> Z) (l : local) (got : bytes) (i : Z) : Z :=
  default (stack l i) (got !! Z.to_nat i).
Definition local_bytes (stack : local -> Z -> Z) (l : local) (got : bytes) (i : Z) (n : nat) : bytes :=
  map (fun k => local_byte stack l got (i + Z.of_nat k)) (seq 0 n).
Definition local_be16 (stack : local -> Z -> Z) (l : local) (got : bytes) (i : Z) : Z :=
  u16 (Z.lor (Z.shiftl (local_byte stack l got i) 8) (local_byte stack l got (i + 1))).

(** ** EAPOL messages: core/rtw_wlan_util.c *)

Inductive eap_type :=
| NON_EAPOL | EAPOL_START | EAPOL_PACKET | EAPOL_WPA_GROUP_KEY_1_2 | EAPOL_WPA_GROUP_KEY_2_2
| EAPOL_1_4 | EAPOL_2_4 | EAPOL_3_4 | EAPOL_4_4.

#[export] Instance eap_type_eq_dec : EqDecision eap_type.
Proof. solve_decision. Defined.

Definition WIFI_UNDER_KEY_HANDSHAKE : Z := 0x01000000.
Definition WPA_KEY_INFO_KEY_TYPE : Z := BIT 3.
Definition WPA_KEY_INFO_ACK : Z := BIT 7.
Definition WPA_KEY_INFO_MIC : Z := BIT 8.

(** The type, and whether the handshake flag of the station is cleared;
    [at_] is the offset of the message in the packet. *)
Definition parsing_eapol_packet (auth : Z) (pkt : bytes) (at_ : Z) : res (eap_type * bool) :=
  type ← rd pkt (at_ + 1);
  length ← rd_slice pkt (at_ + 2) 2;
  if (type =? 1) && bool_decide (length = [0; 0]) then Ret (EAPOL_START, false)
  else if type =? 0 then Ret (EAPOL_PACKET, false)
  else
    key_info ← be16_get pkt (at_ + 4 + 1);
    key_data_length ← be16_get pkt (at_ + 4 + 93);
    if negb (bit_test key_info WPA_KEY_INFO_KEY_TYPE) then
      if bit_test key_info WPA_KEY_INFO_ACK then Ret (EAPOL_WPA_GROUP_KEY_1_2, false)
      else Ret (EAPOL_WPA_GROUP_KEY_2_2, auth =? Ndis802_11AuthModeWPAPSK)
    else if bit_test key_info WPA_KEY_INFO_MIC then
      if key_data_length =? 0 then Ret (EAPOL_4_4, false)
      else if bit_test key_info WPA_KEY_INFO_ACK then Ret (EAPOL_3_4, false)
      else Ret (EAPOL_2_4, false)
    else Ret (EAPOL_1_4, false).

(** ** Cipher, key and packet number *)

Definition WEP_IV (pn keyidx : Z) : bytes :=
  let b := le_split 3 pn in
  [znth b 0; znth b 1; znth b 2; u8 (Z.shiftl (Z.land keyidx 3) 6)].
Definition next_wep_pn (val : Z) : Z := if val =? 0xffffff then 0 else u64 (val + 1).
Definition TKIP_IV (pn keyidx : Z) : bytes :=
  let b := le_split 6 pn in
  [znth b 1; Z.land (Z.lor (znth b 1) 0x20) 0x7f; znth b 0; u8 (Z.lor (BIT 5) (Z.shiftl (Z.land keyidx 3) 6));
   znth b 2; znth b 3; znth b 4; znth b 5].

(** [memcpy(field, key, n)] into a key field. *)
Definition put_key (n : nat) (k old : bytes) : bytes := take n k ++ drop n old.

Definition with_cipher (c : tx_sec) (e kid : Z) : tx_sec :=
  mk_tsec e kid (s_iv c) (s_iv_len c) (s_icv c) (s_icv_len c) (s_bswenc c) (s_UncstKey c) (s_tkiptxmickey c).
Definition with_iv (c : tx_sec) (iv : bytes) (ivl icvl : Z) : tx_sec :=
  mk_tsec (s_encrypt c) (key_idx c) iv ivl (s_icv c) icvl (s_bswenc c) (s_UncstKey c) (s_tkiptxmickey c).
Definition with_keys (c : tx_sec) (k mic : bytes) : tx_sec :=
  mk_tsec (s_encrypt c) (key_idx c) (s_iv c) (s_iv_len c) (s_icv c) (s_icv_len c) (s_bswenc c) k mic.
Definition with_bswenc (c : tx_sec) (b : bool) : tx_sec :=
  mk_tsec (s_encrypt c) (key_idx c) (s_iv c) (s_iv_len c) (s_icv c) (s_icv_len c) b (s_UncstKey c) (s_tkiptxmickey c).

(** Cipher and key index, from the start up to the first [switch]; [None] is
    the refusal of the closed port. *)
Definition choose_cipher (s : txs) (x : xattrib) (i : nat) (e : eap_type) : option tx_sec :=
  let c := with_keys (xs x) (put_key 16 (replicate 16 0) (s_UncstKey (xs x))) (put_key 16 (replicate 16 0) (s_tkiptxmickey (xs x))) in
  let sec := securitypriv (t_adp s) in
  let bmcast := IS_MCAST (e_ra (xe x)) in
  let key_resp := bool_decide (e = EAPOL_2_4) || bool_decide (e = EAPOL_4_4) in
  if negb (ieee8021x_blocked (entry_at s i) =? 0) ||
     (key_resp && (now_ms (t_adp s) - resp_nonenc_eapol_key_starttime (info_at s i) <=? 100)) then
    if negb (ether_type (xe x) =? 0x888e) && negb (check_fwstate (t_adp s) WIFI_MP_STATE) then None
    else Some (with_cipher c 0 (key_idx c))
  else
    let enc := GET_ENCRY_ALGO sec (entry_at s i) (s_encrypt c) bmcast in
    let auth := dot11AuthAlgrthm sec in
    let kid :=
      if (auth =? dot11AuthAlgrthm_Open) || (auth =? dot11AuthAlgrthm_Shared) || (auth =? dot11AuthAlgrthm_Auto)
      then u8 (dot11PrivacyKeyIndex (keys sec))
      else if auth =? dot11AuthAlgrthm_8021X then (if bmcast then u8 (dot118021XGrpKeyid (keys sec)) else 0)
      else 0 in
    let enc := if ((enc =? _WEP40_) || (enc =? _WEP104_)) && (ether_type (xe x) =? 0x888e) then _NO_PRIVACY_ else enc in
    Some (with_cipher c enc kid).

(** The second [switch]: IV and lengths; the packet number of the station is
    used up.  [None] is the refusal of TKIP without keys. *)
Definition choose_iv (s : txs) (c : tx_sec) (i : nat) (bmcast : bool) : option (tx_sec * txs) :=
  let t := info_at s i in
  let e := s_encrypt c in
  let kid := if bmcast then key_idx c else 0 in
  if (e =? _WEP40_) || (e =? _WEP104_) then
    let pn := next_wep_pn (txpn t) in
    Some (with_iv c (WEP_IV pn (key_idx c)) 4 4, set_tinfo s i (set_txpn t pn))
  else if e =? _TKIP_ then
    if negb (busetkipkey (securitypriv (t_adp s))) then None
    else
      let pn := next_pn (txpn t) in
      let c := with_iv c (TKIP_IV pn kid) 8 4 in
      Some (with_keys c (s_UncstKey c) (put_key 16 (dot11tkiptxmickey t) (s_tkiptxmickey c)), set_tinfo s i (set_txpn t pn))
  else if e =? _AES_ then
    let pn := next_pn (txpn t) in Some (with_iv c (AES_IV pn kid) 8 8, set_tinfo s i (set_txpn t pn))
  else if (e =? _GCMP_) || (e =? _GCMP_256_) || (e =? _CCMP_256_) then
    let pn := next_pn (txpn t) in Some (with_iv c (AES_IV pn kid) 8 16, set_tinfo s i (set_txpn t pn))
  else Some (with_iv c (s_iv c) 0 0, s).

(** On failure the fields written before it are not read any more. *)
Definition update_attrib_sec_info (s : txs) (x : xattrib) (i : nat) (e : eap_type) : Z * xattrib * txs :=
  let bmcast := IS_MCAST (e_ra (xe x)) in
  match choose_cipher s x i e with
  | None => (_FAIL, x, s)
  | Some c =>
      match choose_iv s c i bmcast with
      | None => (_FAIL, set_sec x c, s)
      | Some (c, s) =>
          let enc := s_encrypt c in
          let c := if 0 <? enc
                   then with_keys c (put_key (if bit_test enc _SEC_TYPE_256_ then 32 else 16) (dot118021x_UncstKey (entry_at s i)) (s_UncstKey c))
                          (s_tkiptxmickey c)
                   else c in
          let sw := negb (enc =? 0) && (sw_encrypt (t_cfg s) || negb (hw_decrypted (securitypriv (t_adp s)))) in
          let sw := if negb (enc =? 0) && bmcast && dis_bmc_search (t_cfg s) then true else sw in
          let sw := if negb (enc =? 0) && bool_decide (e = EAPOL_4_4) then true else sw in
          (_SUCCESS, set_sec x (with_bswenc c sw), s)
      end
  end.

(** ** Priority *)

(** [CONFIG_RTW_UP_MAPPING_RULE] of the Makefile, "tos" or "dscp". *)
Definition CONFIG_RTW_UP_MAPPING_RULE : Z := 0.

Definition tos_to_up (mode tos : Z) : Z :=
  if mode =? 0 then Z.shiftr tos 5
  else
    let dscp := Z.shiftr tos 2 in
    if dscp =? 0 then 0
    else if (1 <=? dscp) && (dscp <=? 9) then 1
    else if (10 <=? dscp) && (dscp <=? 16) then 2
    else if (17 <=? dscp) && (dscp <=? 23) then 3
    else if (24 <=? dscp) && (dscp <=? 31) then 4
    else if (33 <=? dscp) && (dscp <=? 40) then 5
    else if ((41 <=? dscp) && (dscp <=? 47)) || (dscp =? 32) then 6
    else if (48 <=? dscp) && (dscp <=? 63) then 7
    else 0.

Definition qos_acm (acm_mask priority : Z) : Z :=
  if (priority =? 0) || (priority =? 3) then if bit_test acm_mask (BIT 1) then 1 else priority
  else if (priority =? 1) || (priority =? 2) then priority
  else if (priority =? 4) || (priority =? 5) then if bit_test acm_mask (BIT 2) then 0 else priority
  else if (priority =? 6) || (priority =? 7) then if bit_test acm_mask (BIT 3) then 5 else priority
  else priority.

Definition ETH_P_ARP : Z := 0x0806.

Definition with_priority (h : tx_hdr) (p hdrlen subtype : Z) : tx_hdr :=
  mk_thdr (pkt_hdrlen h) hdrlen subtype (qos_en h) p (ampdu_en h) (h_ht_en h) (h_rtsen h) (h_cts2self h) (h_mdata h) (h_eosp h)
    (h_ack_policy h) (h_amsdu h) (h_seqnum h) (h_psta h).

(** The build sends ICMP and ARP in the voice queue. *)
Definition set_qos (stack : local -> Z -> Z) (pkt : bytes) (x : xattrib) : xattrib :=
  let up :=
    if ether_type (xe x) =? ETH_P_IP then
      let '(_, p) := _rtw_pktfile_read (_rtw_open_pktfile pkt) ETH_HLEN in
      let '(ip_hdr, _) := _rtw_pktfile_read p 20 in
      tos_to_up CONFIG_RTW_UP_MAPPING_RULE (local_byte stack L_iphdr ip_hdr 1)
    else 0 in
  let up := if icmp_pkt (xe x) then 7 else up in
  let up := if ether_type (xe x) =? ETH_P_ARP then 7 else up in
  set_hdr x (with_priority (xh x) up WLAN_HDR_A3_QOS_LEN WIFI_QOS_DATA_TYPE).

(** [update_attrib_phy_info], the fields kept here. *)
Definition update_attrib_phy_info (s : txs) (x : xattrib) (i : nat) : xattrib :=
  let t := info_at s i in
  let h := xh x in
  let ht := if ht_enabled (t_cfg s) then ht_option t else h_ht_en h in
  let ampdu := if ht_enabled (t_cfg s)
               then ht && ampdu_enable t && bit_test (agg_enable_bitmap t) (BIT (h_priority h)) else ampdu_en h in
  set_hdr x (mk_thdr (pkt_hdrlen h) (h_hdrlen h) (h_subtype h) (qos_en h) (h_priority h) ampdu ht (sta_rtsen t) (sta_cts2self t)
    false false (h_ack_policy h) (h_amsdu h) (h_seqnum h) (h_psta h)).

(** ** [update_attrib] *)

(** The [IHL] and protocol fields of the IPv4 header and the UDP ports. *)
Definition parse_ip (stack : local -> Z -> Z) (p : pkt_file) (e : tx_eth) : tx_eth :=
  let '(ip, p) := _rtw_pktfile_read p 20 in
  let ihl := Z.shiftr (local_byte stack L_ip ip 0) 4 in
  let p := if 20 <? ihl * 4 then snd (_rtw_pktfile_read p (ihl - 20)) else p in
  let proto := local_byte stack L_ip ip 9 in
  if proto =? 0x01 then
    mk_eth (ether_type e) (e_dst e) (e_src e) (e_ta e) (e_ra e) (e_pktlen e) false true false
  else if proto =? 0x11 then
    let '(udp, _) := _rtw_pktfile_read p 24 in
    let sport := local_be16 stack L_udp udp 0 in
    let dport := local_be16 stack L_udp udp 2 in
    let dhcp := (((sport =? 68) && (dport =? 67)) || ((sport =? 67) && (dport =? 68))) && (282 <? e_pktlen e) in
    let sig1 := local_byte stack L_udp udp 8 in
    let hi := ((sig1 =? 0xcc) || (sig1 =? 0xdd)) && (local_byte stack L_udp udp 23 =? 0xe2) in
    mk_eth (ether_type e) (e_dst e) (e_src e) (e_ta e) (e_ra e) (e_pktlen e) dhcp false hi
  else mk_eth (ether_type e) (e_dst e) (e_src e) (e_ta e) (e_ra e) (e_pktlen e) false false false.

Definition with_addrs (e : tx_eth) (t : Z) (d sa ta ra : bytes) : tx_eth :=
  mk_eth t d sa ta ra (e_pktlen e) (dhcp_pkt e) (icmp_pkt e) (hipriority_pkt e).
Definition with_pktlen (e : tx_eth) (n : Z) : tx_eth :=
  mk_eth (ether_type e) (e_dst e) (e_src e) (e_ta e) (e_ra e) n (dhcp_pkt e) (icmp_pkt e) (hipriority_pkt e).

(** The addresses; those of an access point were resolved before. *)
Definition resolve_addrs (stack : local -> Z -> Z) (s : txs) (got : bytes) (e : tx_eth) : tx_eth :=
  let type := local_be16 stack L_ethhdr got 12 in
  let a := t_adp s in
  if bit_test (fw_state a) WIFI_AP_STATE then with_addrs e type (e_dst e) (e_src e) (e_ta e) (e_ra e)
  else
    let d := local_bytes stack L_ethhdr got 0 6 in
    let ra := if check_fwstate a WIFI_ADHOC_STATE || check_fwstate a WIFI_ADHOC_MASTER_STATE then d
              else if check_fwstate a WIFI_STATION_STATE then mybssid a else e_ra e in
    with_addrs e type d (local_bytes stack L_ethhdr got 6 6) (myhwaddr a) ra.

(** The station: the entry for group frames, or the receiver's. *)
Definition attrib_sta (s : txs) (ra : bytes) : option nat :=
  let p := stapriv (t_adp s) in
  if IS_MCAST ra then rtw_get_bcmc_stainfo p
  else
    match rtw_get_stainfo p (Some ra) with
    | Some i => if check_fwstate (t_adp s) WIFI_AP_STATE && negb (bit_test (sta_state (entry_at s i)) WIFI_ASOC_STATE) then None else Some i
    | None => None
    end.

Definition set_sta_state (e : sta_info) (v : Z) : sta_info :=
  mk_sta (mac_addr e) v (aid e) (sta_flags e) (ieee8021x_blocked e) (dot118021XPrivacy e) (dot11tkiprxmickey e) (dot118021x_UncstKey e)
    (sta_keytrack e) (duplicate_cnt e) (RxMgmtFrameSeqNum e) (recvpriv e) (recvreorder_ctrl e) (stx e) (sps e).

(** [psta->state &= ~WIFI_UNDER_KEY_HANDSHAKE] *)
Definition clear_handshake (s : txs) (i : nat) : txs :=
  set_tadp s (set_stapriv (t_adp s) (upd_sta (stapriv (t_adp s)) i
    (fun e => set_sta_state e (Z.land (sta_state e) (Z.lnot WIFI_UNDER_KEY_HANDSHAKE))))).

(** The calls for EAPOL, DHCP, ARP and ICMP packets. *)
Definition notify (s : txs) (e : tx_eth) : txs :=
  let s := if (ether_type e =? 0x888e) || dhcp_pkt e then tcall s (rtw_mi_set_scan_deny 3000) else s in
  let s := if check_fwstate (t_adp s) WIFI_STATION_STATE && (ether_type e =? ETH_P_ARP) && negb (IS_MCAST (e_dst e))
           then tcall (tcall s (rtw_mi_set_scan_deny 1000)) rtw_mi_scan_abort else s in
  if icmp_pkt e then tcall s (rtw_lps_ctrl_wk_cmd false)
  else if dhcp_pkt e then tcall s (rtw_lps_ctrl_wk_cmd true) else s.

Definition init_hdr (h : tx_hdr) (qos : bool) : tx_hdr :=
  mk_thdr ETH_HLEN WLAN_HDR_A3_LEN WIFI_DATA_TYPE qos 0 (ampdu_en h) (h_ht_en h) (h_rtsen h) (h_cts2self h) (h_mdata h) (h_eosp h)
    (h_ack_policy h) (h_amsdu h) (h_seqnum h) (h_psta h).
Definition finish_hdr (h : tx_hdr) (i : nat) : tx_hdr :=
  mk_thdr (pkt_hdrlen h) (h_hdrlen h) (h_subtype h) (qos_en h) (h_priority h) (ampdu_en h) (h_ht_en h) (h_rtsen h) (h_cts2self h)
    (h_mdata h) (h_eosp h) 0 (h_amsdu h) (h_seqnum h) (Some i).

(** Header length, subtype and priority. *)
Definition update_qos (stack : local -> Z -> Z) (s : txs) (pkt : bytes) (x : xattrib) (i : nat) : xattrib :=
  let x := set_hdr x (init_hdr (xh x) (qos_option (info_at s i))) in
  if check_fwstate (t_adp s) (Z.lor WIFI_AP_STATE (Z.lor WIFI_ADHOC_STATE WIFI_ADHOC_MASTER_STATE)) then
    if qos_en (xh x) then set_qos stack pkt x else x
  else if pqos_option (t_cfg s) then
    let x := set_qos stack pkt x in
    if acm_mask (t_cfg s) =? 0 then x
    else set_hdr x (with_priority (xh x) (qos_acm (acm_mask (t_cfg s)) (h_priority (xh x))) (h_hdrlen (xh x)) (h_subtype (xh x)))
  else x.

(** What the packet is, from its EtherType on. *)
Definition classify (stack : local -> Z -> Z) (s : txs) (pkt : bytes) (p : pkt_file) (e : tx_eth) (i : nat)
    : res (eap_type * txs * tx_eth) :=
  if ether_type e =? ETH_P_IP then Ret (NON_EAPOL, s, parse_ip stack p e)
  else if ether_type e =? 0x888e then
    k ← parsing_eapol_packet (ndisauthtype (t_cfg s)) pkt (cur_addr p);
    Ret (fst (k : eap_type * bool), if snd k then clear_handshake s i else s, e)
  else Ret (NON_EAPOL, s, e).

Definition update_attrib (stack : local -> Z -> Z) (s : txs) (pkt : bytes) (x : xattrib) : res (Z * xattrib * txs) :=
  let '(got, p) := _rtw_pktfile_read (_rtw_open_pktfile pkt) ETH_HLEN in
  let x := set_eth x (resolve_addrs stack s got (xe x)) in
  match attrib_sta s (e_ra (xe x)) with
  | None => Ret (_FAIL, x, s)
  | Some i =>
      if negb (bit_test (sta_state (entry_at s i)) WIFI_ASOC_STATE) then Ret (_FAIL, x, s)
      else
        let x := set_eth x (with_pktlen (xe x) (pkt_len p)) in
        r ← classify stack s pkt p (xe x) i;
        let '(eapol_type, s, e) := r : eap_type * txs * tx_eth in
        let s := notify s e in
        let '(ret, x, s) := update_attrib_sec_info s (set_eth x e) i eapol_type in
        if ret =? _FAIL then Ret (_FAIL, x, s)
        else
          let x := update_attrib_phy_info s (update_qos stack s pkt x i) i in
          Ret (_SUCCESS, set_hdr x (finish_hdr (xh x) i), s)
  end.

(** ** The header *)

Definition WLANHDR_OFFSET : Z := 64.
Definition _TO_DS_ : Z := BIT 8.
Definition _FROM_DS_ : Z := BIT 9.
Definition _MORE_DATA_ : Z := BIT 13.
Definition _PRIVACY_ : Z := BIT 14.

(** The DS bits and addresses 1 to 3, and whether the frame has a QoS field;
    [None] outside station, access point and ad-hoc mode. *)
Definition hdr_addrs (s : txs) (x : xattrib) : option (Z * bytes * bool) :=
  let a := t_adp s in
  let e := xe x in
  if check_fwstate a WIFI_STATION_STATE then Some (_TO_DS_, mybssid a ++ e_ta e ++ e_dst e, pqos_option (t_cfg s))
  else if check_fwstate a WIFI_AP_STATE then Some (_FROM_DS_, e_dst e ++ mybssid a ++ e_src e, qos_en (xh x))
  else if check_fwstate a WIFI_ADHOC_STATE || check_fwstate a WIFI_ADHOC_MASTER_STATE
  then Some (0, e_dst e ++ e_ta e ++ mybssid a, qos_en (xh x))
  else None.

Definition frame_ctl (ds : Z) (x : xattrib) : Z :=
  Z.lor (Z.lor (Z.lor (h_subtype (xh x)) ds) (if h_mdata (xh x) then _MORE_DATA_ else 0)) (if s_encrypt (xs x) =? 0 then 0 else _PRIVACY_).

(** [SetPriority], [SetEOSP], [SetAckpolicy], [SetAMsdu] on a zero field. *)
Definition qos_ctl (h : tx_hdr) : Z :=
  Z.lor (Z.land (h_priority h) 0xf)
    (Z.lor (if h_eosp h then BIT 4 else 0) (Z.lor (Z.shiftl (Z.land (h_ack_policy h) 3) 5) (if h_amsdu h then BIT 7 else 0))).

Definition with_seq (h : tx_hdr) (seqnum : Z) (ampdu : bool) : tx_hdr :=
  mk_thdr (pkt_hdrlen h) (h_hdrlen h) (h_subtype h) (qos_en h) (h_priority h) ampdu (h_ht_en h) (h_rtsen h) (h_cts2self h)
    (h_mdata h) (h_eosp h) (h_ack_policy h) (h_amsdu h) seqnum (h_psta h).

(** The next sequence number of the station and TID; an aggregate may not
    start in front of the window the receiver agreed to. *)
Definition next_seq (s : txs) (x : xattrib) (i : nat) : res (xattrib * txs) :=
  let t := info_at s i in
  let h := xh x in
  match txseq_tid t !! Z.to_nat (h_priority h) with
  | None => Oob
  | Some q =>
      let seq := Z.land (u16 (q + 1)) 0xFFF in
      let t := set_seqs t (<[Z.to_nat (h_priority h) := seq]> (txseq_tid t)) (BA_starting_seqctrl t) in
      if negb (ampdu_en h) then Ret (set_hdr x (with_seq h seq false), set_tinfo s i t)
      else
        let k := Z.to_nat (Z.land (h_priority h) 0x0f) in
        let tx_seq := nth k (BA_starting_seqctrl t) 0 in
        if SN_LESS seq tx_seq then Ret (set_hdr x (with_seq h seq false), set_tinfo s i t)
        else
          let start := Z.land ((if SN_EQUAL seq tx_seq then tx_seq else seq) + 1) 0xfff in
          Ret (set_hdr x (with_seq h seq true), set_tinfo s i (set_seqs t (txseq_tid t) (<[k := start]> (BA_starting_seqctrl t))))
  end.

(** [SetSeqNum] on the zero field at offset 22. *)
Definition seq_field (seqnum : Z) : bytes := put_le16 (Z.land 0xfff0 (Z.shiftl seqnum 4)).

(** Return value, buffer, attributes and state; [hdr] is an offset. *)
Definition rtw_make_wlanhdr (s : txs) (mem : bytes) (hdr : Z) (x : xattrib) : res (Z * bytes * xattrib * txs) :=
  mem ← wr_slice mem hdr (replicate (Z.to_nat WLANHDR_OFFSET) 0);
  mem ← wr_slice mem hdr (put_le16 (h_subtype (xh x)));
  if negb (bit_test (h_subtype (xh x)) WIFI_DATA_TYPE) then Ret (_SUCCESS, mem, x, s)
  else
    match hdr_addrs s x with
    | None => Ret (_FAIL, mem, x, s)
    | Some (ds, addrs, qos_option) =>
        mem ← wr_slice mem hdr (put_le16 (frame_ctl ds x));
        mem ← wr_slice mem (hdr + 4) addrs;
        mem ← (if qos_option then wr_slice mem (hdr + h_hdrlen (xh x) - 2) (put_le16 (qos_ctl (xh x))) else Ret mem);
        let psta := rtw_get_stainfo (stapriv (t_adp s)) (Some (e_ra (xe x))) in
        if negb (bool_decide (h_psta (xh x) = psta)) then Ret (_FAIL, mem, x, s)
        else
          match psta with
          | None => Ret (_FAIL, mem, x, s)
          | Some i =>
              if negb (bit_test (sta_state (entry_at s i)) WIFI_ASOC_STATE) then Ret (_FAIL, mem, x, s)
              else
                r ← next_seq s x i;
                let '(x, s) := r : xattrib * txs in
                mem ← wr_slice mem (hdr + 22) (seq_field (h_seqnum (xh x)));
                Ret (_SUCCESS, mem, x, s)
          end
    end.

(** ** What the attributes say *)

Lemma put_key_len n k old : (n <= length k)%nat -> (n <= length old)%nat -> length (put_key n k old) = length old.
Proof. intros. unfold put_key. rewrite length_app, length_take, length_drop. lia. Qed.

(** The cipher configured for frames to the station [i]. *)
Definition configured_cipher (s : txs) (x : xattrib) (i : nat) : Z :=
  GET_ENCRY_ALGO (securitypriv (t_adp s)) (entry_at s i) (s_encrypt (xs x)) (IS_MCAST (e_ra (xe x))).

Lemma choose_cipher_spec s x i e c :
  choose_cipher s x i e = Some c ->
  s_iv c = s_iv (xs x) /\ s_icv c = s_icv (xs x) /\
  s_UncstKey c = put_key 16 (replicate 16 0) (s_UncstKey (xs x)) /\
  (s_encrypt c = 0 -> ether_type (xe x) = 0x888e \/ check_fwstate (t_adp s) WIFI_MP_STATE = true \/ configured_cipher s x i = 0) /\
  (ieee8021x_blocked (entry_at s i) <> 0 -> s_encrypt c = 0 /\ (ether_type (xe x) = 0x888e \/ check_fwstate (t_adp s) WIFI_MP_STATE = true)) /\
  (ieee8021x_blocked (entry_at s i) = 0 -> ether_type (xe x) <> 0x888e -> e <> EAPOL_2_4 -> e <> EAPOL_4_4 ->
   s_encrypt c = configured_cipher s x i).
Proof.
  unfold choose_cipher, configured_cipher. cbv zeta. cbn [s_encrypt with_keys]. set (alg := GET_ENCRY_ALGO _ _ _ _).
  destruct (Z.eqb_spec (ieee8021x_blocked (entry_at s i)) 0) as [B|B]; cbn [negb orb].
  2:{ destruct (Z.eqb_spec (ether_type (xe x)) 0x888e), (check_fwstate (t_adp s) WIFI_MP_STATE); cbn [negb andb]; try discriminate;
        intros [= <-]; cbn; split_and!; auto; intros; contradiction. }
  destruct ((bool_decide (e = EAPOL_2_4) || bool_decide (e = EAPOL_4_4)) && _) eqn:K.
  - destruct (Z.eqb_spec (ether_type (xe x)) 0x888e), (check_fwstate (t_adp s) WIFI_MP_STATE); cbn [negb andb]; try discriminate;
      intros [= <-]; cbn; split_and!; auto; try (intros; contradiction).
    intros _ _ H1 H2. rewrite !bool_decide_eq_false_2 in K by done. discriminate.
  - intros [= <-]. cbn. split_and!; auto; [|intros; contradiction|].
    + destruct (Z.eqb_spec (ether_type (xe x)) 0x888e); [by left|]. rewrite andb_false_r. by right; right.
    + intros _ H _ _. destruct (Z.eqb_spec (ether_type (xe x)) 0x888e); [done|]. by rewrite andb_false_r.
Qed.

(** The IV of a frame that uses the packet number [pn]. *)
Definition iv_of (e pn kid : Z) : bytes :=
  if (e =? _WEP40_) || (e =? _WEP104_) then WEP_IV pn kid else if e =? _TKIP_ then TKIP_IV pn kid else AES_IV pn kid.

Definition numbered (e : Z) : bool :=
  (e =? _WEP40_) || (e =? _WEP104_) || (e =? _TKIP_) || (e =? _AES_) || (e =? _GCMP_) || (e =? _GCMP_256_) || (e =? _CCMP_256_).
Definition is_wep (e : Z) : bool := (e =? _WEP40_) || (e =? _WEP104_).

Lemma choose_iv_spec s c i bm c' s' :
  choose_iv s c i bm = Some (c', s') ->
  s_encrypt c' = s_encrypt c /\ key_idx c' = key_idx c /\ s_UncstKey c' = s_UncstKey c /\ s_icv c' = s_icv c /\
  if numbered (s_encrypt c) then
    (s_iv_len c', s_icv_len c') = SET_ICE_IV_LEN (s_encrypt c) /\
    let pn := (if is_wep (s_encrypt c) then next_wep_pn else next_pn) (txpn (info_at s i)) in
    exists kid, s_iv c' = iv_of (s_encrypt c) pn kid /\ s' = set_tinfo s i (set_txpn (info_at s i) pn)
  else s_iv_len c' = 0 /\ s_icv_len c' = 0 /\ s' = s.
Proof.
  unfold choose_iv, numbered, is_wep, iv_of, SET_ICE_IV_LEN. cbv zeta.
  destruct (s_encrypt c =? _WEP40_) eqn:E1; cbn [orb].
  { intros [= <- <-]. cbn. split_and!; auto. by exists (key_idx c). }
  destruct (s_encrypt c =? _WEP104_) eqn:E2; cbn [orb].
  { intros [= <- <-]. cbn. split_and!; auto. by exists (key_idx c). }
  destruct (s_encrypt c =? _TKIP_) eqn:E3; cbn [orb].
  { destruct (busetkipkey _); [|discriminate]. cbn [negb]. intros [= <- <-]. cbn. split_and!; auto. by exists (if bm then key_idx c else 0). }
  destruct (s_encrypt c =? _AES_) eqn:E4; cbn [orb].
  { intros [= <- <-]. cbn. split_and!; auto. by exists (if bm then key_idx c else 0). }
  destruct (s_encrypt c =? _GCMP_) eqn:E5; cbn [orb].
  { intros [= <- <-]. cbn. split_and!; auto. by exists (if bm then key_idx c else 0). }
  destruct (s_encrypt c =? _GCMP_256_) eqn:E6; cbn [orb].
  { intros [= <- <-]. cbn. split_and!; auto. by exists (if bm then key_idx c else 0). }
  destruct (s_encrypt c =? _CCMP_256_) eqn:E7; cbn [orb].
  { intros [= <- <-]. cbn. split_and!; auto. by exists (if bm then key_idx c else 0). }
  intros [= <- <-]. cbn. by split_and!.
Qed.

(** The state up to calls and handshake flags. *)
Record same_env (s s' : txs) : Prop := {
  sv_info : t_info s' = t_info s;
  sv_cfg : t_cfg s' = t_cfg s;
  sv_sec : securitypriv (t_adp s') = securitypriv (t_adp s);
  sv_fw : fw_state (t_adp s') = fw_state (t_adp s);
  sv_bssid : mybssid (t_adp s') = mybssid (t_adp s);
  sv_mac : myhwaddr (t_adp s') = myhwaddr (t_adp s);
  sv_hash : sta_hash (stapriv (t_adp s')) = sta_hash (stapriv (t_adp s));
  sv_len : length (stainfo_buf (stapriv (t_adp s'))) = length (stainfo_buf (stapriv (t_adp s)));
  sv_entry : forall j, exists v, entry_at s' j = set_sta_state (entry_at s j) v
}.

Lemma set_own_state e : set_sta_state e (sta_state e) = e.
Proof. by destruct e. Qed.

Lemma same_env_refl s : same_env s s.
Proof. split; try done. intros j. exists (sta_state (entry_at s j)). by rewrite set_own_state. Qed.

Lemma same_env_tcall s s' c : same_env s s' -> same_env s (tcall s' c).
Proof. intros []. by split. Qed.

Lemma same_env_notify s s' e : same_env s s' -> same_env s (notify s' e).
Proof. intros H. unfold notify. repeat case_match; auto using same_env_tcall. Qed.

Lemma entry_upd s i f j p :
  stapriv (t_adp s) = p ->
  default _rtw_init_stainfo (stainfo_buf (upd_sta p i f) !! j)
  = if decide (i = j /\ (i < length (stainfo_buf p))%nat) then f (entry_at s j) else entry_at s j.
Proof.
  intros <-. unfold entry_at, upd_sta. set (p := stapriv (t_adp s)). cbn [stainfo_buf set_stainfo]. destruct (decide (i = j)) as [->|N].
  - rewrite list_lookup_alter, decide_True by done. destruct (stainfo_buf p !! j) eqn:E; cbn.
    + rewrite decide_True by (split; [done|by eapply lookup_lt_Some]). done.
    + rewrite decide_False; [done|]. intros [_ L]. by apply lookup_ge_None_2 in E || (apply lookup_ge_None in E; lia).
  - rewrite decide_False by tauto. by rewrite list_lookup_alter_ne.
Qed.

Lemma same_env_clear s i : same_env s (clear_handshake s i).
Proof.
  split; try done; cbn.
  - unfold upd_sta. cbn. by rewrite length_alter.
  - intros j. unfold clear_handshake, entry_at at 1. cbn [t_adp set_tadp set_stapriv stapriv].
    rewrite (entry_upd s) by done. destruct (decide _); [by eexists|].
    exists (sta_state (entry_at s j)). by rewrite set_own_state.
Qed.

Lemma sec_info_spec s x i e x' s' :
  update_attrib_sec_info s x i e = (_SUCCESS, x', s') ->
  exists c c', choose_cipher s x i e = Some c /\ choose_iv s c i (IS_MCAST (e_ra (xe x))) = Some (c', s') /\
    xe x' = xe x /\ xh x' = xh x /\ xc x' = xc x /\
    s_encrypt (xs x') = s_encrypt c /\ s_iv (xs x') = s_iv c' /\ s_iv_len (xs x') = s_iv_len c' /\ s_icv_len (xs x') = s_icv_len c' /\
    s_icv (xs x') = s_icv (xs x) /\
    (0 < s_encrypt c -> s_UncstKey (xs x') = put_key (if bit_test (s_encrypt c) _SEC_TYPE_256_ then 32 else 16)
       (dot118021x_UncstKey (entry_at s' i)) (put_key 16 (replicate 16 0) (s_UncstKey (xs x)))) /\
    (s_bswenc (xs x') = true -> s_encrypt c <> 0) /\
    (s_encrypt c <> 0 -> sw_encrypt (t_cfg s') = true \/ hw_decrypted (securitypriv (t_adp s')) = false -> s_bswenc (xs x') = true).
Proof.
  unfold update_attrib_sec_info. cbv zeta. destruct (choose_cipher s x i e) as [c|] eqn:C; [|discriminate].
  destruct (choose_iv s c i _) as [[c' s1]|] eqn:I; [|discriminate]. intros [= <- <-].
  destruct (choose_cipher_spec _ _ _ _ _ C) as (_ & Ci & Ck & _). destruct (choose_iv_spec _ _ _ _ _ _ I) as (Ee & _ & Ek & Ei & _).
  exists c, c'. rewrite Ee. split; [done|]. split; [done|]. cbn [set_sec xe xh xc xs].
  destruct (Z.ltb_spec 0 (s_encrypt c)); cbn; rewrite Ee, Ei, Ci, Ek, Ck; split_and!; auto; try lia.
  all: destruct (Z.eqb_spec (s_encrypt c) 0) as [->|N]; cbn [negb andb]; try done; try lia.
  all: intros _ [-> | ->]; rewrite ?orb_true_r; cbn; repeat case_match; done.
Qed.

Lemma classify_ok stack s pkt p e i et s1 e1 :
  classify stack s pkt p e i = Ret (et, s1, e1) ->
  same_env s s1 /\ (ether_type e1, e_dst e1, e_src e1, e_ta e1, e_ra e1) = (ether_type e, e_dst e, e_src e, e_ta e, e_ra e) /\
  e_pktlen e1 = e_pktlen e /\ (ether_type e1 <> 0x888e -> et = NON_EAPOL).
Proof.
  unfold classify. destruct (_ =? ETH_P_IP).
  - intros [= <- <- <-]. unfold parse_ip. split; [apply same_env_refl|]. repeat case_match; cbn; split_and!; auto.
  - destruct (Z.eqb_spec (ether_type e) 34958) as [T|T].
    + destruct (parsing_eapol_packet _ _ _) as [[et' b]| |]; [|discriminate..]. rewrite bind_Ret. cbn [fst snd]. intros [= <- <- <-].
      split; [destruct b; [apply same_env_clear | apply same_env_refl]|]. split; [done|]. split; [done|]. intros N. exfalso. by apply N.
    + intros [= <- <- <-]. split; [apply same_env_refl|]. done.
Qed.

Lemma update_attrib_ok stack s pkt x x' s' :
  update_attrib stack s pkt x = Ret (_SUCCESS, x', s') ->
  exists i et s0 x1 x2,
    let got := fst (_rtw_pktfile_read (_rtw_open_pktfile pkt) ETH_HLEN) in
    attrib_sta s (e_ra (xe x')) = Some i /\ h_psta (xh x') = Some i /\ same_env s s0 /\
    bit_test (sta_state (entry_at s i)) WIFI_ASOC_STATE = true /\
    update_attrib_sec_info s0 x1 i et = (_SUCCESS, x2, s') /\ xs x1 = xs x /\ xh x1 = xh x /\ xc x1 = xc x /\
    x' = set_hdr (update_attrib_phy_info s' (update_qos stack s' pkt x2 i) i) (finish_hdr (xh (update_attrib_phy_info s' (update_qos stack s' pkt x2 i) i)) i) /\
    xe x' = xe x1 /\
    (ether_type (xe x1), e_dst (xe x1), e_src (xe x1), e_ta (xe x1), e_ra (xe x1))
    = (let e := resolve_addrs stack s got (xe x) in (ether_type e, e_dst e, e_src e, e_ta e, e_ra e)) /\
    e_pktlen (xe x1) = zlen pkt - zlen got /\ (ether_type (xe x1) <> 0x888e -> et = NON_EAPOL).
Proof.
  unfold update_attrib. destruct (_rtw_pktfile_read _ _) as [got p] eqn:R. cbn [fst].
  assert (pkt_len p = zlen pkt - zlen got) as Lp.
  { unfold _rtw_pktfile_read in R. injection R as <- <-. cbn [pkt_len _rtw_open_pktfile].
    unfold rtw_remainder_len, _rtw_open_pktfile. cbn [buf_len cur_addr pf_buf pkt_len]. rewrite !Z.sub_0_r, Z.sub_diag, drop_0.
    change (u32 ETH_HLEN) with 14. unfold zlen. rewrite length_take. repeat case_match; lia. }
  cbn [set_eth xe]. set (e0 := resolve_addrs stack s got (xe x)). destruct (attrib_sta s (e_ra e0)) as [i|] eqn:A; [|discriminate].
  destruct (bit_test (sta_state (entry_at s i)) WIFI_ASOC_STATE) eqn:B; cbn [negb]; [|discriminate].
  destruct (classify _ _ _ _ _ _) as [[[et s1] e1]| |] eqn:Er; [|discriminate..].
  destruct (classify_ok _ _ _ _ _ _ _ _ _ Er) as (Sv & Ead & El & Et). rewrite bind_Ret.
  destruct (update_attrib_sec_info _ _ _ _) as [[rt x2] s2] eqn:Su. destruct (Z.eqb_spec rt _FAIL) as [|Nf]; [discriminate|].
  intros E. apply Ret_inj in E. injection E as <- <-.
  assert (rt = _SUCCESS) as ->.
  { unfold update_attrib_sec_info in Su. destruct (choose_cipher _ _ _ _); [|injection Su as <- _ _; done].
    destruct (choose_iv _ _ _ _) as [[? ?]|]; injection Su as <- _ _; done. }
  destruct (sec_info_spec _ _ _ _ _ _ Su) as (c & c' & _ & _ & Xe & _).
  assert (xe (update_attrib_phy_info s2 (update_qos stack s2 pkt x2 i) i) = e1) as Xe'.
  { unfold update_attrib_phy_info, update_qos, set_qos. cbn. repeat case_match; cbn; exact Xe. }
  exists i, et, (notify s1 e1), (set_eth (set_eth (set_eth x e0) (with_pktlen e0 (pkt_len p))) e1), x2. cbv zeta.
  cbn [set_hdr xe xh xs xc finish_hdr h_psta set_eth]. rewrite Xe'. injection Ead as A1 A2 A3 A4 A5. rewrite A5. split_and!; auto; try congruence.
  - by apply same_env_notify.
  - rewrite El. exact Lp.
Qed.

(** ** The bytes of the header *)

Definition wlan_header (ds : Z) (addrs : bytes) (x : xattrib) (seqnum : Z) : bytes :=
  put_le16 (frame_ctl ds x) ++ [0; 0] ++ addrs ++ seq_field seqnum ++
  (if h_hdrlen (xh x) =? WLAN_HDR_A3_QOS_LEN then put_le16 (qos_ctl (xh x)) else []).

Lemma zeros_64 : replicate (Z.to_nat WLANHDR_OFFSET) 0 = [0; 0] ++ [0; 0] ++ replicate 18 0 ++ [0; 0] ++ [0; 0] ++ replicate 38 0.
Proof. reflexivity. Qed.

Lemma next_seq_keeps s x i x' s' :
  next_seq s x i = Ret (x', s') ->
  t_adp s' = t_adp s /\ t_cfg s' = t_cfg s /\ xe x' = xe x /\ xs x' = xs x /\ xc x' = xc x /\ h_hdrlen (xh x') = h_hdrlen (xh x) /\
  frame_ctl 0 x' = frame_ctl 0 x /\ qos_ctl (xh x') = qos_ctl (xh x) /\ h_psta (xh x') = h_psta (xh x) /\
  (forall j, txpn (info_at s' j) = txpn (info_at s j)) /\ pkt_hdrlen (xh x') = pkt_hdrlen (xh x) /\
  exists q, txseq_tid (info_at s i) !! Z.to_nat (h_priority (xh x)) = Some q /\ h_seqnum (xh x') = Z.land (u16 (q + 1)) 0xFFF.
Proof.
  unfold next_seq. cbv zeta. destruct (txseq_tid _ !! _) as [q|] eqn:Q; [|discriminate].
  assert (forall t, txpn t = txpn (info_at s i) -> forall j, txpn (info_at (set_tinfo s i t) j) = txpn (info_at s j)) as P.
  { intros t Ht j. unfold info_at in *. cbn [t_info set_tinfo]. destruct (decide (i = j)) as [->|N].
    - destruct (decide (j < length (t_info s))%nat) as [L|L].
      + rewrite list_lookup_insert_eq by done. cbn. exact Ht.
      + rewrite list_insert_ge by lia. done.
    - by rewrite list_lookup_insert_ne. }
  repeat case_match; intros E; apply Ret_inj, pair_inj in E as [<- <-]; cbn; split_and!; auto;
    try (intros; apply P; done); eauto.
Qed.

Lemma make_wlanhdr_ok s pre room post x mem' x' s' :
  zlen room = WLANHDR_OFFSET -> bit_test (h_subtype (xh x)) WIFI_DATA_TYPE = true ->
  rtw_make_wlanhdr s (pre ++ room ++ post) (zlen pre) x = Ret (_SUCCESS, mem', x', s') ->
  (forall ds addrs q, hdr_addrs s x = Some (ds, addrs, q) -> length addrs = 18%nat /\ h_hdrlen (xh x) = if q then WLAN_HDR_A3_QOS_LEN else WLAN_HDR_A3_LEN) ->
  exists ds addrs q i, hdr_addrs s x = Some (ds, addrs, q) /\ rtw_get_stainfo (stapriv (t_adp s)) (Some (e_ra (xe x))) = Some i /\
    h_psta (xh x) = Some i /\ bit_test (sta_state (entry_at s i)) WIFI_ASOC_STATE = true /\ next_seq s x i = Ret (x', s') /\
    exists room', mem' = pre ++ (wlan_header ds addrs x (h_seqnum (xh x')) ++ room') ++ post /\
      zlen (wlan_header ds addrs x (h_seqnum (xh x'))) = h_hdrlen (xh x) /\ zlen room' = WLANHDR_OFFSET - h_hdrlen (xh x).
Proof.
  intros Lr Hd. unfold rtw_make_wlanhdr.
  rewrite (wr_slice_at pre room post) by (unfold zlen, WLANHDR_OFFSET in *; rewrite ?length_replicate; lia). rewrite bind_Ret, zeros_64, <- !app_assoc.
  rewrite (wr_slice_at pre [0; 0]) by done. rewrite bind_Ret, Hd. cbn [negb].
  destruct (hdr_addrs s x) as [[[ds addrs] q]|]; [|discriminate]. rewrite (wr_slice_at pre) by done. rewrite bind_Ret.
  intros E Ha. destruct (Ha _ _ _ eq_refl) as [La Lh]. set (fc := put_le16 (frame_ctl ds x)) in E. assert (zlen fc = 2) as Zf by done.
  rewrite !(app_assoc pre fc), (app_assoc _ [0; 0]) in E.
  rewrite (wr_slice_at ((pre ++ fc) ++ [0; 0]) (replicate 18 0)) in E by (rewrite ?zlen_app, ?length_replicate; change (zlen [0; 0]) with 2; lia).
  rewrite bind_Ret in E.
  match type of E with mbind ?k ?m = _ =>
    assert (exists y, length y = 2%nat /\ m = Ret (pre ++ fc ++ [0; 0] ++ addrs ++ [0; 0] ++ y ++ replicate 38 0 ++ post) /\
      (if h_hdrlen (xh x) =? WLAN_HDR_A3_QOS_LEN then put_le16 (qos_ctl (xh x)) else [0; 0]) = y) as (y & Ly & Em & Ey) end.
  { rewrite Lh. destruct q.
    - exists (put_le16 (qos_ctl (xh x))). split; [done|]. split; [|done].
      rewrite (app_assoc _ addrs), (app_assoc _ [0; 0] ([0; 0] ++ _)), (wr_slice_at _ [0; 0]) by first [done | rewrite ?zlen_app; change (zlen [0; 0]) with 2; unfold zlen, WLAN_HDR_A3_QOS_LEN in *; lia].
      by rewrite <- !app_assoc.
    - exists [0; 0]. split; [done|]. split; [by rewrite <- !app_assoc|done]. }
  rewrite Em, bind_Ret in E. clear Em.
  destruct (bool_decide_reflect (h_psta (xh x) = rtw_get_stainfo (stapriv (t_adp s)) (Some (e_ra (xe x))))) as [Hp|]; [|discriminate].
  cbn [negb] in E. destruct (rtw_get_stainfo _ _) as [i|]; [|discriminate].
  destruct (bit_test (sta_state (entry_at s i)) WIFI_ASOC_STATE) eqn:Ha1; [|discriminate]. cbn [negb] in E.
  destruct (next_seq s x i) as [[x1 s1]| |] eqn:N; [|discriminate..]. rewrite bind_Ret in E.
  rewrite (app_assoc pre fc), (app_assoc _ [0; 0]), (app_assoc _ addrs) in E.
  rewrite (wr_slice_at _ [0; 0]) in E by first [done | rewrite ?zlen_app; change (zlen [0; 0]) with 2; unfold zlen in *; lia].
  rewrite bind_Ret in E. apply Ret_inj in E. injection E as <- <- <-.
  exists ds, addrs, q, i. split_and!; try done.
  exists ((if h_hdrlen (xh x) =? WLAN_HDR_A3_QOS_LEN then [] else [0; 0]) ++ replicate 38 0).
  unfold wlan_header. fold fc. rewrite <- Ey, !zlen_app, Zf. change (zlen [0; 0]) with 2. change (zlen (seq_field _)) with 2.
  change (zlen (replicate 38 0)) with 38. assert (zlen addrs = 18) as -> by (unfold zlen; lia).
  rewrite Lh. destruct q; cbn [Z.eqb WLAN_HDR_A3_QOS_LEN WLAN_HDR_A3_LEN Pos.eqb]; (split; [|split; reflexivity]); by rewrite <- !app_assoc.
Qed.

(** ** Header and attributes fit *)

(** Station, or access point or ad-hoc. *)
Definition net_modes : Z := Z.lor WIFI_AP_STATE (Z.lor WIFI_ADHOC_STATE WIFI_ADHOC_MASTER_STATE).

Record tx_ready (s : txs) (x : xattrib) : Prop := {
  tr_mode : check_fwstate (t_adp s) WIFI_STATION_STATE = negb (check_fwstate (t_adp s) net_modes);
  tr_bssid : length (mybssid (t_adp s)) = 6%nat;
  tr_mac : length (myhwaddr (t_adp s)) = 6%nat;
  tr_dst : length (e_dst (xe x)) = 6%nat;
  tr_src : length (e_src (xe x)) = 6%nat;
  tr_ta : length (e_ta (xe x)) = 6%nat
}.

(** Whether the frame has a QoS field. *)
Definition has_qos (s : txs) (x : xattrib) : bool :=
  if check_fwstate (t_adp s) net_modes then qos_en (xh x) else pqos_option (t_cfg s).

Lemma check_fwstate_env s s' m : fw_state (t_adp s') = fw_state (t_adp s) -> check_fwstate (t_adp s') m = check_fwstate (t_adp s) m.
Proof. unfold check_fwstate. by intros ->. Qed.

Lemma resolve_addrs_len stack s got x :
  tx_ready s x -> let e := resolve_addrs stack s got (xe x) in
  length (e_dst e) = 6%nat /\ length (e_src e) = 6%nat /\ length (e_ta e) = 6%nat.
Proof. intros []. unfold resolve_addrs. case_match; cbn; auto. Qed.

Lemma next_iv_env s s' c i bm c' : choose_iv s c i bm = Some (c', s') -> t_adp s' = t_adp s /\ t_cfg s' = t_cfg s /\ t_calls s' = t_calls s.
Proof. intros H. apply choose_iv_spec in H as (_ & _ & _ & _ & H). destruct (numbered _); [destruct H as (_ & kid & _ & ->) | destruct H as (_ & _ & ->)]; done. Qed.

Lemma sec_info_env s x i e x' s' : update_attrib_sec_info s x i e = (_SUCCESS, x', s') -> t_adp s' = t_adp s /\ t_cfg s' = t_cfg s.
Proof. intros H. destruct (sec_info_spec _ _ _ _ _ _ H) as (c & c' & _ & I & _). apply next_iv_env in I. tauto. Qed.

Lemma update_attrib_hdr stack s pkt x x' s' :
  update_attrib stack s pkt x = Ret (_SUCCESS, x', s') -> tx_ready s x ->
  (h_subtype (xh x') = if has_qos s' x' then WIFI_QOS_DATA_TYPE else WIFI_DATA_TYPE) /\
  (h_hdrlen (xh x') = if has_qos s' x' then WLAN_HDR_A3_QOS_LEN else WLAN_HDR_A3_LEN) /\
  h_mdata (xh x') = false /\ h_eosp (xh x') = false /\ h_ack_policy (xh x') = 0 /\ h_amsdu (xh x') = h_amsdu (xh x) /\
  pkt_hdrlen (xh x') = ETH_HLEN /\ tx_ready s' x' /\ xc x' = xc x /\
  fw_state (t_adp s') = fw_state (t_adp s) /\ mybssid (t_adp s') = mybssid (t_adp s) /\ pqos_option (t_cfg s') = pqos_option (t_cfg s).
Proof.
  intros H R. destruct (update_attrib_ok _ _ _ _ _ _ H) as (i & et & s0 & x1 & x2 & U). cbv zeta in U.
  destruct U as (_ & _ & Sv & _ & Su & _ & Xh & Xc & Ex & Ee & Ea & _).
  destruct (sec_info_env _ _ _ _ _ _ Su) as [Ad Cf]. destruct (sec_info_spec _ _ _ _ _ _ Su) as (c & c' & _ & _ & Xe & Xh2 & Xc2 & _).
  assert (fw_state (t_adp s') = fw_state (t_adp s)) as Fw by (rewrite Ad; apply Sv).
  assert (pqos_option (t_cfg s') = pqos_option (t_cfg s)) as Pq by (rewrite Cf, (sv_cfg _ _ Sv); done).
  pose proof (fun m => check_fwstate_env s s' m Fw) as Cm.
  set (got := fst (_rtw_pktfile_read (_rtw_open_pktfile pkt) ETH_HLEN)) in *. clearbody got.
  destruct (resolve_addrs_len stack s got x R) as (L1 & L2 & L3).
  injection Ea as _ A1 A2 A3 _. rewrite <- Ee in A1, A2, A3. rewrite <- A1 in L1. rewrite <- A2 in L2. rewrite <- A3 in L3.
  assert (length (mybssid (t_adp s')) = 6%nat) by (rewrite Ad, (sv_bssid _ _ Sv); apply R).
  assert (tx_ready s' x') as R'.
  { destruct R. split; auto; [by rewrite !Cm|]. rewrite Ad, (sv_mac _ _ Sv). done. }
  rewrite Ad, (sv_bssid _ _ Sv). split_and!; auto; try (subst x'; exact (eq_trans Xc2 Xc)).
  all: subst x'; unfold has_qos; cbn [set_hdr xh finish_hdr]; unfold update_attrib_phy_info, update_qos; cbn [xh set_hdr h_subtype h_hdrlen qos_en].
  all: fold net_modes; rewrite ?Cm, ?Pq; destruct (check_fwstate (t_adp s) net_modes); [destruct (qos_option (info_at s' i)) eqn:Q | destruct (pqos_option (t_cfg s)) eqn:Q].
  all: cbn; repeat (case_match; cbn); rewrite ?Xh2, ?Xh, ?Xc2, ?Xc, ?Q; try done; exact (sv_fw _ _ Sv).
Qed.

Lemma hdr_addrs_ok s x :
  tx_ready s x -> h_hdrlen (xh x) = (if has_qos s x then WLAN_HDR_A3_QOS_LEN else WLAN_HDR_A3_LEN) ->
  forall ds addrs q, hdr_addrs s x = Some (ds, addrs, q) ->
    length addrs = 18%nat /\ q = has_qos s x /\ h_hdrlen (xh x) = (if q then WLAN_HDR_A3_QOS_LEN else WLAN_HDR_A3_LEN) /\
    (ds = _TO_DS_ \/ ds = _FROM_DS_ \/ ds = 0).
Proof.
  intros [M Lb Lm Ld Ls Lt] Hh ds addrs q. unfold hdr_addrs, has_qos in *.
  rewrite M. destruct (check_fwstate (t_adp s) net_modes); cbn [negb].
  - destruct (check_fwstate (t_adp s) WIFI_AP_STATE); [|destruct (_ || _)]; intros E; try discriminate; injection E as <- <- <-;
      rewrite !length_app; rewrite ?Lb, ?Lt, ?Ld, ?Ls; split_and!; auto.
  - intros E; injection E as <- <- <-. rewrite !length_app. rewrite ?Lb, ?Lt, ?Ld, ?Ls; split_and!; auto.
Qed.

Lemma le16_behind pre l k : 0 <= k -> le16_get (pre ++ l) (zlen pre + k) = le16_get l k.
Proof.
  intros Hk. unfold le16_get. rewrite (rd_app_r pre l (zlen pre + k)), (rd_app_r pre l (zlen pre + k + 1)) by lia.
  replace (zlen pre + k - zlen pre) with k by lia. by replace (zlen pre + k + 1 - zlen pre) with (k + 1) by lia.
Qed.

(** The frame control field, read back. *)
Lemma frame_ctl_read ds x rest pre :
  (h_subtype (xh x) = WIFI_DATA_TYPE \/ h_subtype (xh x) = WIFI_QOS_DATA_TYPE) -> h_mdata (xh x) = false ->
  (ds = _TO_DS_ \/ ds = _FROM_DS_ \/ ds = 0) ->
  le16_get (pre ++ put_le16 (frame_ctl ds x) ++ rest) (zlen pre) = Ret (frame_ctl ds x) /\
  bit_test (frame_ctl ds x) _PRIVACY_ = negb (s_encrypt (xs x) =? 0).
Proof.
  intros Hs Hm Hd. unfold frame_ctl. rewrite Hm.
  set (v := Z.lor _ _). assert (le16_get (put_le16 v ++ rest) 0 = Ret v /\ bit_test v _PRIVACY_ = negb (s_encrypt (xs x) =? 0)) as [E B].
  { unfold v. destruct Hs as [-> | ->], Hd as [-> | [-> | ->]], (s_encrypt (xs x) =? 0); split; reflexivity. }
  split; [|exact B]. rewrite <- (Z.add_0_r (zlen pre)), le16_behind by lia. exact E.
Qed.

Lemma local_be16_full stack pkt :
  14 <= zlen pkt -> let got := fst (_rtw_pktfile_read (_rtw_open_pktfile pkt) ETH_HLEN) in
  got = take 14 pkt /\ be16_get pkt 12 = Ret (local_be16 stack L_ethhdr got 12).
Proof.
  intros L. cbv zeta. unfold _rtw_pktfile_read, _rtw_open_pktfile, rtw_remainder_len. cbn [fst buf_len cur_addr pf_buf pkt_len].
  change (u32 ETH_HLEN) with 14. destruct (Z.ltb_spec (zlen pkt - 0) 14); [lia|].
  replace (zlen pkt - zlen pkt) with 0 by lia. rewrite drop_0. split; [done|].
  unfold local_be16, local_byte. unfold be16_get. unfold zlen in L.
  change (Z.to_nat 14) with 14%nat. rewrite !lookup_take_lt by (cbn; lia).
  destruct (rd_in_bounds pkt 12) as (a & -> & Ha); [unfold zlen; lia|]. destruct (rd_in_bounds pkt (12 + 1)) as (b & -> & Hb); [unfold zlen; lia|].
  by rewrite !bind_Ret, Ha, Hb.
Qed.

(** C8: A data frame that leaves without the Protected bit in a network with a
    cipher, or while the 802.1X port of its station is closed, is an EAPOL
    packet.  (Manufacturing test mode is off; the packet has an Ethernet
    header.) *)
Theorem only_eapol_unprotected stack s pkt x x1 s1 pre room post mem' x2 s2 :
  update_attrib stack s pkt x = Ret (_SUCCESS, x1, s1) -> 14 <= zlen pkt -> tx_ready s x -> zlen room = WLANHDR_OFFSET ->
  rtw_make_wlanhdr s1 (pre ++ room ++ post) (zlen pre) x1 = Ret (_SUCCESS, mem', x2, s2) ->
  check_fwstate (t_adp s) WIFI_MP_STATE = false ->
  exists i fc, h_psta (xh x1) = Some i /\ le16_get mem' (zlen pre) = Ret fc /\
    (bit_test fc _PRIVACY_ = false -> configured_cipher s (set_eth x (xe x1)) i <> 0 -> be16_get pkt 12 = Ret 0x888e) /\
    (ieee8021x_blocked (entry_at s i) <> 0 -> bit_test fc _PRIVACY_ = false /\ be16_get pkt 12 = Ret 0x888e).
Proof.
  intros H Lp R Lr Hm Mp. destruct (update_attrib_hdr _ _ _ _ _ _ H R) as (Hs & Hh & Hmd & _ & _ & _ & _ & R1 & _).
  destruct (update_attrib_ok _ _ _ _ _ _ H) as (i & et & s0 & x0 & x2' & U). cbv zeta in U.
  destruct U as (_ & Hp & Sv & _ & Su & Xs & _ & _ & Ex & Ee & Ea & _).
  destruct (sec_info_spec _ _ _ _ _ _ Su) as (c & c' & Cc & _ & _ & _ & _ & Ec & _).
  assert (s_encrypt (xs x1) = s_encrypt c) as Ec1.
  { rewrite <- Ec, Ex. unfold update_attrib_phy_info, update_qos, set_qos. cbn. repeat case_match; done. }
  destruct (local_be16_full stack pkt Lp) as [Eg Et]. set (got := fst _) in *. clearbody got.
  assert (ether_type (xe x0) = local_be16 stack L_ethhdr got 12) as Ety.
  { injection Ea as A0 _ _ _ _. rewrite A0. unfold resolve_addrs. by destruct (bit_test (fw_state _) _). }
  assert (bit_test (h_subtype (xh x1)) WIFI_DATA_TYPE = true) as Hdt by (rewrite Hs; by destruct (has_qos s1 x1)).
  destruct (make_wlanhdr_ok s1 pre room post x1 mem' x2 s2 Lr Hdt Hm) as (ds & addrs & q & j & Ha & _ & _ & _ & _ & room' & Em & _).
  { intros ds addrs q Hd. destruct (hdr_addrs_ok s1 x1 R1 Hh ds addrs q Hd) as (? & ? & ? & ?). auto. }
  destruct (hdr_addrs_ok s1 x1 R1 Hh _ _ _ Ha) as (_ & _ & _ & Hds).
  destruct (frame_ctl_read ds x1 ([0; 0] ++ addrs ++ seq_field (h_seqnum (xh x2)) ++
    (if h_hdrlen (xh x1) =? WLAN_HDR_A3_QOS_LEN then put_le16 (qos_ctl (xh x1)) else []) ++ room' ++ post) pre) as [Rf Bf]; auto.
  { rewrite Hs. destruct (has_qos s1 x1); auto. }
  exists i, (frame_ctl ds x1). split; [done|]. split.
  { rewrite Em. unfold wlan_header. rewrite <- !app_assoc. exact Rf. }
  destruct (choose_cipher_spec _ _ _ _ _ Cc) as (_ & _ & _ & Z0 & Zb & _).
  destruct (sv_entry _ _ Sv i) as [v Ev]. rewrite Bf, Ec1.
  rewrite (check_fwstate_env _ _ _ (sv_fw _ _ Sv)), Mp in *.
  assert (configured_cipher s0 x0 i = configured_cipher s (set_eth x (xe x1)) i) as Ecf.
  { unfold configured_cipher. cbn [set_eth xe xs]. rewrite (sv_sec _ _ Sv), Xs, Ee. unfold GET_ENCRY_ALGO. by rewrite Ev. }
  assert (ether_type (xe x0) = 0x888e -> be16_get pkt 12 = Ret 0x888e) as Main by (intros E0; by rewrite Et, <- Ety, E0).
  split.
  - intros B Hc. apply Main. destruct (Z.eqb_spec (s_encrypt c) 0) as [E0|]; [|done]. destruct (Z0 E0) as [|[|F]]; [done..|]. congruence.
  - intros B. destruct Zb as [E0 [F|]]; [by rewrite Ev| |done]. rewrite E0. auto.
Qed.

(** ** Packet numbers *)

(** The packet number in the IV of a CCMP, GCMP or TKIP frame. *)
Definition iv_pn (e : Z) (iv : bytes) : Z :=
  if e =? _TKIP_ then GET_TKIP_PN iv
  else le_combine [znth iv 0; znth iv 1; znth iv 4; znth iv 5; znth iv 6; znth iv 7].

Lemma le_split_6 pn : exists a b c d e f, le_split 6 pn = [a; b; c; d; e; f].
Proof. by eexists _, _, _, _, _, _. Qed.

Lemma iv_pn_of e pn kid : is_wep e = false -> 0 <= pn < 2 ^ 48 -> iv_pn e (iv_of e pn kid) = pn.
Proof.
  intros Hw Hp. pose proof (le_combine_split 6 pn Hp) as E. unfold iv_pn, iv_of. unfold is_wep in Hw. rewrite Hw.
  unfold TKIP_IV, AES_IV, GET_TKIP_PN. destruct (le_split_6 pn) as (a & b & c & d & f & g & ->) in E |- *.
  by destruct (e =? _TKIP_).
Qed.

(** A run of [update_attrib]: the attributes of the packets that were not
    refused. *)
Fixpoint tx_attribs (s : txs) (l : list ((local -> Z -> Z) * bytes * xattrib)) : res (list xattrib * txs) :=
  match l with
  | [] => Ret ([], s)
  | (stack, pkt, x) :: l =>
      r ← update_attrib stack s pkt x;
      let '(ret, x, s) := r : Z * xattrib * txs in
      q ← tx_attribs s l;
      let '(rest, s) := q : list xattrib * txs in
      Ret (if ret =? _SUCCESS then x :: rest else rest, s)
  end.

(** The stations of the table have transmit fields. *)
Definition table_fits (s : txs) : Prop := Forall (Forall (fun i => (i < length (t_info s))%nat)) (sta_hash (stapriv (t_adp s))).

Lemma info_set s i t j :
  (i < length (t_info s))%nat -> info_at (set_tinfo s i t) j = if decide (i = j) then t else info_at s j.
Proof.
  intros L. unfold info_at. cbn [set_tinfo t_info]. destruct (decide (i = j)) as [->|N].
  - by rewrite list_lookup_insert_eq.
  - by rewrite list_lookup_insert_ne.
Qed.

Lemma chain_search_in p c a i : chain_search p c a = Some i -> i ∈ c.
Proof.
  induction c as [|j c IH]; cbn; [done|]. destruct (stainfo_buf p !! j); [destruct (bool_decide _)|].
  - intros [= ->]. by left.
  - intros E. right. auto.
  - intros E. right. auto.
Qed.

Lemma attrib_sta_lt s ra i : table_fits s -> attrib_sta s ra = Some i -> (i < length (t_info s))%nat.
Proof.
  intros T. assert (forall a, rtw_get_stainfo (stapriv (t_adp s)) (Some a) = Some i -> (i < length (t_info s))%nat) as G.
  { intros a E. apply chain_search_in in E. unfold table_fits in T. destruct (sta_hash _ !! _) as [c|] eqn:L; cbn in E; [|set_solver].
    rewrite Forall_forall in T. specialize (T c (list_elem_of_lookup_2 _ _ _ L)). rewrite Forall_forall in T. auto. }
  unfold attrib_sta, rtw_get_bcmc_stainfo. destruct (IS_MCAST ra); [apply G|]. destruct (rtw_get_stainfo _ _) as [j|] eqn:E; [|done].
  case_match; [done|]. intros [= ->]. eauto.
Qed.

(** What one call does to the packet numbers. *)
Record pn_step (s : txs) (ret : Z) (x : xattrib) (s' : txs) : Prop := {
  pt_fits : table_fits s';
  pt_len : length (t_info s') = length (t_info s);
  pt_mono : forall j, txpn (info_at s j) < 2 ^ 48 - 1 -> is_wep (s_encrypt (xs x)) = false \/ ret <> _SUCCESS ->
    txpn (info_at s' j) = txpn (info_at s j) \/ txpn (info_at s' j) = txpn (info_at s j) + 1;
  pt_iv : ret = _SUCCESS -> numbered (s_encrypt (xs x)) = true -> is_wep (s_encrypt (xs x)) = false ->
    exists i kid, h_psta (xh x) = Some i /\
      (txpn (info_at s i) < 2 ^ 48 - 1 -> txpn (info_at s' i) = txpn (info_at s i) + 1) /\
      s_iv (xs x) = iv_of (s_encrypt (xs x)) (txpn (info_at s' i)) kid
}.

Lemma same_env_fits s s' : same_env s s' -> table_fits s -> table_fits s'.
Proof. intros V. unfold table_fits. by rewrite (sv_hash _ _ V), (sv_info _ _ V). Qed.

Lemma update_attrib_fail stack s pkt x ret x' s' :
  update_attrib stack s pkt x = Ret (ret, x', s') -> ret <> _SUCCESS -> same_env s s'.
Proof.
  unfold update_attrib. destruct (_rtw_pktfile_read _ _) as [got p]. destruct (attrib_sta _ _) as [i|].
  2:{ intros [= <- <- <-] _. apply same_env_refl. }
  destruct (bit_test _ WIFI_ASOC_STATE); cbn [negb].
  2:{ intros [= <- <- <-] _. apply same_env_refl. }
  destruct (classify _ _ _ _ _ _) as [[[et s1] e1]| |] eqn:Er; [|discriminate..]. apply classify_ok in Er as (Sv & _).
  rewrite bind_Ret. destruct (update_attrib_sec_info _ _ _ _) as [[rt x2] s2] eqn:Su.
  unfold update_attrib_sec_info in Su. assert (same_env s (notify s1 e1)) as V by by apply same_env_notify.
  destruct (choose_cipher _ _ _ _); [destruct (choose_iv _ _ _ _) as [[? ?]|]|]; injection Su as <- <- <-; cbn; intros E N;
    apply Ret_inj in E; injection E as <- <- <-; done.
Qed.

Lemma xs_phy stack s x pkt i h : xs (set_hdr (update_attrib_phy_info s (update_qos stack s pkt x i) i) h) = xs x.
Proof. unfold update_attrib_phy_info, update_qos, set_qos. cbn. repeat case_match; done. Qed.

Lemma next_pn_small v : v < 2 ^ 48 - 1 -> next_pn v = v + 1.
Proof. intros H. unfold next_pn. destruct (Z.eqb_spec v 0xffffffffffff); [lia|done]. Qed.

Lemma update_attrib_pn stack s pkt x ret x' s' :
  update_attrib stack s pkt x = Ret (ret, x', s') -> table_fits s -> pn_step s ret x' s'.
Proof.
  intros H T. destruct (decide (ret = _SUCCESS)) as [->|N].
  2:{ pose proof (update_attrib_fail _ _ _ _ _ _ _ H N) as V. split; try done.
      - by eapply same_env_fits.
      - by rewrite (sv_info _ _ V).
      - intros j _ _. left. unfold info_at. by rewrite (sv_info _ _ V). }
  destruct (update_attrib_ok _ _ _ _ _ _ H) as (i & et & s0 & x0 & x2 & U). cbv zeta in U.
  destruct U as (As & Hp & Sv & _ & Su & _ & _ & _ & Ex & _).
  assert (i < length (t_info s0))%nat as Li by (rewrite (sv_info _ _ Sv); by eapply attrib_sta_lt).
  assert (forall j, info_at s0 j = info_at s j) as Ei by (intros j; unfold info_at; by rewrite (sv_info _ _ Sv)).
  pose proof (same_env_fits _ _ Sv T) as T0. pose proof (f_equal (@length _) (sv_info _ _ Sv)) as Ll.
  destruct (sec_info_spec _ _ _ _ _ _ Su) as (c & c' & _ & Ci & _ & _ & _ & Ee & Eiv & _).
  assert (xs x' = xs x2) as Exs by (rewrite Ex; apply xs_phy).
  apply choose_iv_spec in Ci as (Ee' & _ & _ & _ & Ci). destruct (numbered (s_encrypt c)) eqn:Nb.
  - destruct Ci as (_ & kid & Ekid & ->). set (pn := (if is_wep _ then _ else _) _) in *. split; rewrite ?Exs, ?Ee.
    + unfold table_fits in *. cbn [set_tinfo t_info t_adp]. by rewrite length_insert.
    + cbn. by rewrite length_insert.
    + intros j Hj [Hw|]; [|done]. rewrite info_set by done. destruct (decide (i = j)) as [->|]; [|left; by rewrite Ei].
      right. cbn. unfold pn. rewrite Hw, Ei. by apply next_pn_small.
    + intros _ _ Hw. exists i, kid. split; [done|]. rewrite info_set, decide_True by done. cbn [txpn set_txpn]. split.
      * intros Hj. unfold pn. rewrite Hw, Ei. by apply next_pn_small.
      * by rewrite Eiv.
  - destruct Ci as (_ & _ & ->). split; rewrite ?Exs, ?Ee; try done; rewrite ?Nb; try done. intros j _ _. left. by rewrite Ei.
Qed.

(** Along a run: numbers only grow, and every IV comes from a number the
    station had not used before the run. *)
Lemma tx_attribs_pn l : forall s xs' s',
  tx_attribs s l = Ret (xs', s') -> table_fits s -> (forall i, 0 <= txpn (info_at s i) /\ txpn (info_at s i) + zlen l < 2 ^ 48) ->
  Forall (fun x => is_wep (s_encrypt (xs x)) = false) xs' ->
  forall k x, xs' !! k = Some x -> numbered (s_encrypt (xs x)) = true ->
  exists i kid pn, h_psta (xh x) = Some i /\ s_iv (xs x) = iv_of (s_encrypt (xs x)) pn kid /\ txpn (info_at s i) < pn < 2 ^ 48 /\
    forall k' y, (k < k')%nat -> xs' !! k' = Some y -> numbered (s_encrypt (xs y)) = true -> h_psta (xh y) = Some i ->
    exists kid' pn', s_iv (xs y) = iv_of (s_encrypt (xs y)) pn' kid' /\ pn < pn' < 2 ^ 48.
Proof.
  induction l as [|[[stack pkt] x0] l IH]; intros s xs' s' H T B F k x Hk Nb.
  { injection H as <- <-. by rewrite lookup_nil in Hk. }
  cbn [tx_attribs] in H. destruct (update_attrib stack s pkt x0) as [[[ret x1] s1]| |] eqn:U; [|discriminate..]. rewrite bind_Ret in H.
  destruct (tx_attribs s1 l) as [[rest s2]| |] eqn:R; [|discriminate..]. rewrite bind_Ret in H. apply Ret_inj in H. injection H as <- <-.
  pose proof (update_attrib_pn _ _ _ _ _ _ _ U T) as [T1 _ M Iv]. pose proof (zlen_nonneg l) as Zl.
  assert (is_wep (s_encrypt (xs x1)) = false \/ ret <> _SUCCESS) as W.
  { destruct (Z.eqb_spec ret _SUCCESS); [left | by right]. by apply Forall_inv in F. }
  assert (forall i, txpn (info_at s i) <= txpn (info_at s1 i) /\ 0 <= txpn (info_at s1 i) /\ txpn (info_at s1 i) + zlen l < 2 ^ 48) as B1.
  { intros i. specialize (B i). rewrite zlen_cons in B. destruct (M i ltac:(lia) W); lia. }
  assert (forall k x, rest !! k = Some x -> numbered (s_encrypt (xs x)) = true ->
    exists i kid pn, h_psta (xh x) = Some i /\ s_iv (xs x) = iv_of (s_encrypt (xs x)) pn kid /\ txpn (info_at s1 i) < pn < 2 ^ 48 /\
    forall k' y, (k < k')%nat -> rest !! k' = Some y -> numbered (s_encrypt (xs y)) = true -> h_psta (xh y) = Some i ->
    exists kid' pn', s_iv (xs y) = iv_of (s_encrypt (xs y)) pn' kid' /\ pn < pn' < 2 ^ 48) as IHr.
  { apply (IH s1 rest s2 R T1); [intros i; destruct (B1 i); lia|]. destruct (ret =? _SUCCESS); [by apply Forall_inv_tail in F | done]. }
  destruct (Z.eqb_spec ret _SUCCESS) as [E|E].
  2:{ destruct (IHr k x Hk Nb) as (i & kid & pn & P1 & P2 & P3 & P4). exists i, kid, pn. split_and!; auto; destruct (B1 i); lia. }
  destruct k as [|k]; cbn in Hk.
  - injection Hk as ->. destruct (Iv E Nb) as (i & kid & P1 & P2 & P3); [by apply Forall_inv in F|].
    exists i, kid, (txpn (info_at s1 i)). specialize (B i). specialize (P2 ltac:(rewrite zlen_cons in B; lia)). rewrite zlen_cons in B.
    split_and!; try done; try lia. intros [|k'] y Hlt Hy Ny Py; [lia|]. cbn in Hy.
    destruct (IHr k' y Hy Ny) as (i' & kid' & pn' & Q1 & Q2 & Q3 & _). rewrite Py in Q1. injection Q1 as <-. by exists kid', pn'.
  - destruct (IHr k x Hk Nb) as (i & kid & pn & P1 & P2 & P3 & P4). exists i, kid, pn. split_and!; auto; try (destruct (B1 i); lia).
    intros [|k'] y Hlt Hy; [lia|]. cbn in Hy. apply (P4 k'); [lia|done].
Qed.

(** C9: No IV is used twice: as long as the 48-bit packet numbers of the
    stations do not run out and WEP is not used, two frames that
    [update_attrib] prepares for the same station under the same cipher carry
    different IVs, whatever packets, refusals and other stations lie between
    them. *)
Theorem tx_iv_never_reused l s out s' a b x y :
  tx_attribs s l = Ret (out, s') -> table_fits s -> (forall i, 0 <= txpn (info_at s i) /\ txpn (info_at s i) + zlen l < 2 ^ 48) ->
  Forall (fun x => is_wep (s_encrypt (xs x)) = false) out ->
  (a < b)%nat -> out !! a = Some x -> out !! b = Some y ->
  h_psta (xh x) = h_psta (xh y) -> s_encrypt (xs x) = s_encrypt (xs y) -> numbered (s_encrypt (xs x)) = true -> s_iv (xs x) <> s_iv (xs y).
Proof.
  intros H T B F Hab Ha Hb Hs He Nb E. destruct (tx_attribs_pn l s out s' H T B F a x Ha Nb) as (i & kid & pn & P1 & P2 & P3 & P4).
  destruct (P4 b y Hab Hb) as (kid' & pn' & Q1 & Q2); [congruence..|]. specialize (B i).
  rewrite Forall_forall in F. pose proof (F x (list_elem_of_lookup_2 _ _ _ Ha)) as Wx. cbn in Wx.
  rewrite P2, Q1, <- He in E. pose proof (f_equal (iv_pn (s_encrypt (xs x))) E) as E2. rewrite !iv_pn_of in E2 by (done || lia). lia.
Qed.

(** *** Examples: a station of a WPA2 network *)

Definition no_stack : local -> Z -> Z := fun _ _ => 0.
Definition xattrib_0 : xattrib :=
  mk_xa (mk_eth 0 (replicate 6 0) (replicate 6 0) (replicate 6 0) (replicate 6 0) 0 false false false)
    (mk_tsec 0 0 [] 0 (replicate 16 0) 0 false (replicate 32 0) (replicate 32 0))
    (mk_thdr 0 0 0 false 0 false false false false false false 0 false 0 None) (mk_tcmd 0 0 0).

Definition xa_info : sta_txinfo := mk_txinfo true 5 (replicate 16 100) (replicate 16 0) [] 0 true true 1 false false.
Definition xa_state : txs :=
  mk_txs mp_adapter (replicate 32 xa_info) (mk_txcfg false [] 4 false true 0 true) [].

(** An IPv4 packet and an EAPOL start. *)
Definition xa_ipv4 : bytes := [2; 0; 0; 0; 0; 7] ++ ex_me ++ [8; 0; 0x45; 0; 0; 20; 0; 0; 0; 0; 64; 6; 0; 0] ++ [10; 0; 0; 1; 10; 0; 0; 2] ++ [1; 2; 3].
Definition xa_eapol : bytes := ex_ap ++ ex_me ++ [0x88; 0x8e; 1; 1; 0; 0].

Lemma xa_ready : tx_ready xa_state xattrib_0.
Proof. split; vm_compute; reflexivity. Qed.

Lemma xa_fits : table_fits xa_state.
Proof.
  unfold table_fits. apply Forall_forall. intros c Hc. apply Forall_forall. intros i Hi.
  assert (forallb (fun c => forallb (fun i => Nat.ltb i 32) c) (sta_hash (stapriv (t_adp xa_state))) = true) as B by (vm_compute; reflexivity).
  rewrite forallb_forall in B. specialize (B c ltac:(by apply list_elem_of_In)). rewrite forallb_forall in B.
  specialize (B i ltac:(by apply list_elem_of_In)). apply Nat.ltb_lt in B. exact B.
Qed.

(** The protected frame of the IPv4 packet: the theorem applies, and its
    Protected bit is set. *)
Lemma only_eapol_unprotected_witness :
  exists x1 s1 mem' x2 s2 i fc, update_attrib no_stack xa_state xa_ipv4 xattrib_0 = Ret (_SUCCESS, x1, s1) /\
    rtw_make_wlanhdr s1 ([] ++ replicate 64 0 ++ []) (zlen ([] : bytes)) x1 = Ret (_SUCCESS, mem', x2, s2) /\
    h_psta (xh x1) = Some i /\ le16_get mem' (zlen ([] : bytes)) = Ret fc /\ bit_test fc _PRIVACY_ = true.
Proof.
  destruct (update_attrib no_stack xa_state xa_ipv4 xattrib_0) as [[[r1 x1] s1]| |] eqn:E1; [|vm_compute in E1; discriminate..].
  assert (r1 = _SUCCESS) as -> by (vm_compute in E1; injection E1 as <- _ _; reflexivity).
  destruct (rtw_make_wlanhdr s1 ([] ++ replicate 64 0 ++ []) (zlen ([] : bytes)) x1) as [[[[r2 m2] x2] s2]| |] eqn:E2;
    [|vm_compute in E1; injection E1 as <- <-; vm_compute in E2; discriminate..].
  assert (r2 = _SUCCESS /\ le16_get m2 (zlen ([] : bytes)) = Ret 0x4188) as [-> F]
    by (vm_compute in E1; injection E1 as <- <-; vm_compute in E2; injection E2 as <- <- _ _; split; reflexivity).
  destruct (only_eapol_unprotected no_stack xa_state xa_ipv4 xattrib_0 x1 s1 [] (replicate 64 0) [] m2 x2 s2 E1) as (i & fc & P1 & P2 & _);
    [vm_compute; discriminate | exact xa_ready | reflexivity | exact E2 | reflexivity |].
  exists x1, s1, m2, x2, s2, i, fc. rewrite F in P2. injection P2 as <-. repeat split; try assumption.
Defined.

Lemma tx_iv_never_reused_witness :
  let l := [(no_stack, xa_ipv4, xattrib_0); (no_stack, xa_eapol, xattrib_0); (no_stack, xa_ipv4, xattrib_0)] in
  exists out s' x y, tx_attribs xa_state l = Ret (out, s') /\ out !! 0%nat = Some x /\ out !! 2%nat = Some y /\ s_iv (xs x) <> s_iv (xs y).
Proof.
  intros l. destruct (tx_attribs xa_state l) as [[out s']| |] eqn:E; [|vm_compute in E; discriminate..].
  assert (exists x y z, out = [x; y; z] /\ forallb (fun x => negb (is_wep (s_encrypt (xs x)))) out = true /\ h_psta (xh x) = h_psta (xh z) /\
    s_encrypt (xs x) = s_encrypt (xs z) /\ numbered (s_encrypt (xs x)) = true) as (x & y & z & -> & W & P1 & P2 & P3).
  { vm_compute in E. injection E as <- _. eexists _, _, _. split; [reflexivity|]. repeat split. }
  exists [x; y; z], s', x, z. split; [reflexivity|]. split; [reflexivity|]. split; [reflexivity|].
  apply (tx_iv_never_reused l xa_state [x; y; z] s' 0 2 x z E xa_fits); try assumption; try reflexivity; try lia.
  - intros i. unfold info_at, xa_state. cbn [t_info]. destruct (replicate 32 xa_info !! i) eqn:L; cbn.
    + apply lookup_replicate in L as [-> _]. change (txpn xa_info) with 5. change (zlen l) with 3. lia.
    + change (zlen l) with 3. lia.
  - apply Forall_forall. intros v Hv. rewrite forallb_forall in W. specialize (W v ltac:(by apply list_elem_of_In)).
    by destruct (is_wep _).
Defined.
