(* ===== verification/XmitFrame.v ===== *)
(** * Building transmit frames

    [rtw_xmitframe_coalesce] of core/rtw_xmit.c: header, IV, LLC header and
    packet are copied into the transmit buffer, fragment by fragment, the
    Michael value is appended and the software ciphers run over the result;
    [rtw_dump_xframe] of hal/rtl8192e/usb/rtl8192eu_xmit.c hands the fragments
    to the bus.  The buffer is memory at the address [buf_addr]; positions are
    offsets into it. *)

From S2P Require Import Prelude RxFrame Michael Reorder StaMgt SwCrypt RxCheck Defrag Aes CipherModes Ccmp MgmtProtect XmitAttr.

(** ** LLC and SNAP *)

Definition P802_1H_OUI : bytes := [0x00; 0x00; 0xf8].
Definition RFC1042_OUI : bytes := [0x00; 0x00; 0x00].

(** The eight bytes [rtw_put_snap] writes. *)
Definition snap_header (h_proto : Z) : bytes :=
  [0xaa; 0xaa; 0x03] ++ (if (h_proto =? 0x8137) || (h_proto =? 0x80f3) then P802_1H_OUI else RFC1042_OUI) ++ put_be16 h_proto.
Definition rtw_put_snap (mem : bytes) (data h_proto : Z) : res (bytes * Z) :=
  mem ← wr_slice mem data (snap_header h_proto); Ret (mem, SNAP_SIZE + 2).

(** ** Carrier sense protection *)

Definition NONE_VCS : Z := 0.
Definition RTS_CTS : Z := 1.
Definition CTS_TO_SELF : Z := 2.

(** What [update_attrib_vcs_info] reads of the adapter; [n_mode] is
    [cur_wireless_mode >= WIRELESS_11_24N]. *)
Record vcs_cfg := mk_vcs {
  rts_thresh : Z;
  wifi_spec : bool;
  n_mode : bool;
  peer_is_atheros : bool;
  cur_bwmode : Z;
  HT_protection : Z;
  vrtl_carrier_sense : Z;
  vcs_type : Z;
  driver_vcs_en : Z;
  driver_vcs_type : Z
}.

Definition validate_vcs (v : vcs_cfg) (mode : Z) : Z :=
  if vrtl_carrier_sense v =? 0 then NONE_VCS
  else if vrtl_carrier_sense v =? 1 then vcs_type v
  else if vrtl_carrier_sense v =? 2 then mode else NONE_VCS.

Section Build.
Context (amsdu_mode frag_len buf_addr pkt_offset : Z) (vc : vcs_cfg).

Definition vcs_of (s : txs) (x : xattrib) : Z :=
  let h := xh x in
  let sz := if negb (c_nr_frags (xc x) =? 1) then frag_len else c_last_txcmdsz (xc x) in
  let erp := if h_rtsen h then RTS_CTS else if h_cts2self h then CTS_TO_SELF else NONE_VCS in
  if negb (n_mode vc) || wifi_spec vc then
    if rts_thresh vc <? sz then RTS_CTS else erp
  else if peer_is_atheros vc && ampdu_en h && (dot11PrivacyAlgrthm (securitypriv (t_adp s)) =? _AES_) then CTS_TO_SELF
  else if h_rtsen h || h_cts2self h then erp
  else if h_ht_en h && ((negb (cur_bwmode vc =? 0) && ((HT_protection vc =? 2) || (HT_protection vc =? 3))) ||
                        ((cur_bwmode vc =? 0) && (HT_protection vc =? 3))) then RTS_CTS
  else if rts_thresh vc <? sz then RTS_CTS
  else if ampdu_en h then RTS_CTS
  else NONE_VCS.

Definition update_attrib_vcs_info (s : txs) (x : xattrib) : xattrib :=
  let mode := validate_vcs vc (vcs_of s x) in
  let mode := if driver_vcs_en vc =? 1 then driver_vcs_type vc else mode in
  set_cmd x (mk_tcmd (c_nr_frags (xc x)) (c_last_txcmdsz (xc x)) mode).

(** ** Fragments *)

Definition TXDESC_SIZE : Z := 40.
Definition PACKET_OFFSET_SZ : Z := 8.
Definition hw_hdr_offset : Z := u8 (TXDESC_SIZE + pkt_offset * PACKET_OFFSET_SZ).

(** [SetMFrag], [ClearMFrag]: bit 2 of the second byte of the header. *)
Definition SetMFrag (mem : bytes) (hdr : Z) : res bytes := b ← rd mem (hdr + 1); wr mem (hdr + 1) (Z.lor b 4).
Definition ClearMFrag (mem : bytes) (hdr : Z) : res bytes := b ← rd mem (hdr + 1); wr mem (hdr + 1) (Z.land b (u8 (Z.lnot 4))).

(** The bytes of one fragment behind its header: buffer, end of the fragment,
    bytes of the packet in it, rest of the packet. *)
Definition put_fragment (x : xattrib) (first : bool) (mem : bytes) (mem_start : Z) (p : pkt_file) : res (bytes * Z * Z * Z * pkt_file) :=
  let c := xs x in
  let bmcst := IS_MCAST (e_ra (xe x)) in
  mem ← SetMFrag mem mem_start;
  let pframe := mem_start + h_hdrlen (xh x) in
  let mpdu_len := frag_len - 4 - h_hdrlen (xh x) in
  mem ← wr_slice mem pframe (take (Z.to_nat (s_iv_len c)) (s_iv c));
  let pframe := pframe + s_iv_len c in
  let mpdu_len := mpdu_len - s_iv_len c in
  r ← (if first then rtw_put_snap mem pframe (ether_type (xe x)) else Ret (mem, 0));
  let '(mem, llc_sz) := r : bytes * Z in
  let pframe := pframe + llc_sz in
  let mpdu_len := mpdu_len - llc_sz in
  let icv := (0 <? s_icv_len c) && s_bswenc c in
  let mpdu_len := if icv then mpdu_len - s_icv_len c else mpdu_len in
  let '(d, p) := _rtw_pktfile_read p (if bmcst then e_pktlen (xe x) else mpdu_len) in
  mem ← wr_slice mem pframe d;
  let pframe := pframe + zlen d in
  mem ← (if icv then wr_slice mem pframe (take (Z.to_nat (s_icv_len c)) (s_icv c)) else Ret mem);
  Ret (mem, if icv then pframe + s_icv_len c else pframe, llc_sz, zlen d, p).

(** The loop; [hdr0] is the header of the first fragment.  Result: buffer,
    [nr_frags], [last_txcmdsz]. *)
Fixpoint coalesce_frags (fuel : nat) (x : xattrib) (hdr0 : Z) (mem : bytes) (mem_start : Z) (p : pkt_file) (frg_inx : Z)
    : res (bytes * Z * Z) :=
  match fuel with
  | O => NoFuel
  | S fuel =>
      r ← put_fragment x (frg_inx =? 0) mem mem_start p;
      let '(mem, pframe, llc_sz, mem_sz, p) := r : bytes * Z * Z * Z * pkt_file in
      let frg_inx := frg_inx + 1 in
      if IS_MCAST (e_ra (xe x)) || rtw_endofpktfile p then
        mem ← ClearMFrag mem mem_start;
        Ret (mem, u8 frg_inx,
             u32 (h_hdrlen (xh x) + s_iv_len (xs x) + (if u8 frg_inx =? 1 then llc_sz else 0) + (if s_bswenc (xs x) then s_icv_len (xs x) else 0) + mem_sz))
      else
        let next := RND4 (buf_addr + pframe) - buf_addr + hw_hdr_offset in
        h ← rd_slice mem hdr0 (h_hdrlen (xh x));
        mem ← wr_slice mem next h;
        coalesce_frags fuel x hdr0 mem next p frg_inx
  end.

(** ** The Michael value *)

(** Append the bodies of the fragments; the position behind the last one is
    returned. *)
Fixpoint addmic_frags (n : nat) (x : xattrib) (mem : bytes) (cur payload : Z) (m : mic_data) : res (mic_data * Z) :=
  match n with
  | O => Ret (m, payload)
  | S n =>
      let payload := RND4 (buf_addr + payload) - buf_addr + h_hdrlen (xh x) + s_iv_len (xs x) in
      let last := cur + 1 =? c_nr_frags (xc x) in
      let length := (if last then c_last_txcmdsz (xc x) else frag_len) - h_hdrlen (xh x) - s_iv_len (xs x) -
                    (if s_bswenc (xs x) then s_icv_len (xs x) else 0) in
      d ← rd_slice mem payload length;
      addmic_frags n x mem (cur + 1) (if last then payload + length else payload + length + s_icv_len (xs x)) (rtw_secmicappend m d)
  end.

(** The addresses of the pseudo header, at the header [pframe]. *)
Definition mic_addrs (mem : bytes) (pframe : Z) : res bytes :=
  f ← rd mem (pframe + 1);
  if bit_test f 1 then
    d ← rd_slice mem (pframe + 16) 6;
    sa ← rd_slice mem (if bit_test f 2 then pframe + 24 else pframe + 10) 6; Ret (d ++ sa)
  else
    d ← rd_slice mem (pframe + 4) 6;
    sa ← rd_slice mem (if bit_test f 2 then pframe + 16 else pframe + 10) 6; Ret (d ++ sa).

Definition xmitframe_addmic (s : txs) (x : xattrib) (mem : bytes) : res (Z * bytes * xattrib) :=
  if negb (s_encrypt (xs x) =? _TKIP_) then Ret (_SUCCESS, mem, x)
  else
    let pframe := hw_hdr_offset in
    let key := if IS_MCAST (e_ra (xe x))
               then key_at (dot118021XGrptxmickey (t_cfg s)) (dot118021XGrpKeyid (keys (securitypriv (t_adp s))))
               else s_tkiptxmickey (xs x) in
    if bool_decide (take 16 key = replicate 16 0) then Ret (_FAIL, mem, x)
    else
      addrs ← mic_addrs mem pframe;
      let m := rtw_secmicappend (rtw_secmicsetkey key) addrs in
      let m := rtw_secmicappend m [if qos_en (xh x) then u8 (h_priority (xh x)) else 0; 0; 0; 0] in
      r ← addmic_frags (Z.to_nat (c_nr_frags (xc x))) x mem 0 pframe m;
      let '(m, payload) := r : mic_data * Z in
      mic ← rtw_secgetmic m;
      mem ← wr_slice mem payload (fst (mic : bytes * mic_data));
      Ret (_SUCCESS, mem, set_cmd x (mk_tcmd (c_nr_frags (xc x)) (u32 (c_last_txcmdsz (xc x) + 8)) (vcs_mode (xc x)))).

(** ** [rtw_xmitframe_coalesce] *)

(** The attributes as the management path passes them to
    [xmitframe_swencrypt]. *)
Definition matt_of (x : xattrib) : mgmt_attrib :=
  mk_matt (pa_of x) (e_pktlen (xe x)) 0 (s_bswenc (xs x)) (h_psta (xh x)) (s_icv (xs x)).

Definition rtw_xmitframe_coalesce (s : txs) (x : xattrib) (pkt : bytes) (buf : option bytes) : res (Z * option bytes * xattrib * txs) :=
  match buf with
  | None => Ret (_FAIL, None, x, s)
  | Some mem =>
      r ← rtw_make_wlanhdr s mem hw_hdr_offset x;
      let '(ret, mem, x, s) := r : Z * bytes * xattrib * txs in
      if ret =? _FAIL then Ret (_FAIL, Some mem, x, s)
      else
        let p := snd (_rtw_pktfile_read (_rtw_open_pktfile pkt) (pkt_hdrlen (xh x))) in
        r ← coalesce_frags (S (length pkt)) x hw_hdr_offset mem hw_hdr_offset p 0;
        let '(mem, nr, last) := r : bytes * Z * Z in
        let x := set_cmd x (mk_tcmd nr last (vcs_mode (xc x))) in
        r ← xmitframe_addmic s x mem;
        let '(ret, mem, x) := r : Z * bytes * xattrib in
        if ret =? _FAIL then Ret (_FAIL, Some mem, x, s)
        else
          buf ← xmitframe_swencrypt amsdu_mode frag_len buf_addr hw_hdr_offset (keys (securitypriv (t_adp s))) (matt_of x) (Some mem);
          let x := if IS_MCAST (e_ra (xe x)) then set_cmd x (mk_tcmd (c_nr_frags (xc x)) (c_last_txcmdsz (xc x)) NONE_VCS)
                   else update_attrib_vcs_info s x in
          Ret (_SUCCESS, buf, x, s)
  end.

(** ** Handing the fragments to the bus *)

(** The transfers of [rtw_dump_xframe]: start and size, descriptor included;
    [odd_size] tells when [update_txdesc] moves the descriptor up to avoid a
    transfer of whole bus packets. *)
Fixpoint dump_frags (sw_encrypt : bool) (odd_size : Z -> bool) (n : nat) (x : xattrib) (t mem_addr : Z) : list (Z * Z) :=
  match n with
  | O => []
  | S n =>
      let sz := if t =? c_nr_frags (xc x) - 1 then c_last_txcmdsz (xc x)
                else frag_len - 4 - (if sw_encrypt then 0 else s_icv_len (xs x)) in
      let pull := odd_size (TXDESC_SIZE + sz) in
      let mem_addr := if pull then mem_addr + PACKET_OFFSET_SZ else mem_addr in
      let w_sz := if pull then sz + TXDESC_SIZE else sz + TXDESC_SIZE + PACKET_OFFSET_SZ in
      (mem_addr, w_sz) :: dump_frags sw_encrypt odd_size n x (t + 1) (RND4 (buf_addr + mem_addr + w_sz) - buf_addr)
  end.
Definition rtw_dump_xframe (sw_encrypt : bool) (odd_size : Z -> bool) (x : xattrib) : list (Z * Z) :=
  dump_frags sw_encrypt odd_size (Z.to_nat (c_nr_frags (xc x))) x 0 0.
End Build.

(** ** Reading the packet piece by piece *)

Record pf_at (p : pkt_file) (rest : bytes) : Prop := {
  pa_buf : exists read, pf_buf p = read ++ rest /\ cur_addr p = zlen read;
  pa_left : pkt_len p = zlen rest;
  pa_len : buf_len p = zlen (pf_buf p)
}.

Lemma pf_open pkt : pf_at (_rtw_open_pktfile pkt) pkt.
Proof. split; try done. by exists []. Qed.

Lemma pf_read p rest n :
  pf_at p rest -> 0 <= n < 2 ^ 32 ->
  exists p', _rtw_pktfile_read p n = (take (Z.to_nat n) rest, p') /\ pf_at p' (drop (Z.to_nat n) rest).
Proof.
  intros [(rd & B & C) L Bl] Hn. unfold _rtw_pktfile_read, rtw_remainder_len. rewrite u32_small by (unfold is_u32; lia).
  rewrite Bl, B, C, L, zlen_app. pose proof (zlen_nonneg rest). pose proof (zlen_nonneg rd).
  replace (zlen rd + zlen rest - zlen rd) with (zlen rest) by lia. replace (zlen rd + zlen rest - zlen rest) with (zlen rd) by lia.
  replace (Z.to_nat (zlen rd)) with (length rd) by (unfold zlen; lia). rewrite drop_app_length. eexists. split.
  - f_equal. destruct (Z.ltb_spec (zlen rest) n); [|done]. rewrite !take_ge by (unfold zlen in *; lia). done.
  - split; cbn [pf_buf cur_addr pkt_len buf_len].
    + exists (rd ++ take (Z.to_nat n) rest). rewrite <- app_assoc, take_drop. split; [done|].
      rewrite zlen_app. f_equal. destruct (Z.ltb_spec (zlen rest) n); unfold zlen in *; rewrite length_take; lia.
    + destruct (Z.ltb_spec (zlen rest) n); unfold zlen in *; rewrite length_drop; lia.
    + by rewrite zlen_app.
Qed.

(** ** The bytes of a fragment *)

Definition set_more (h : bytes) : bytes := alter (fun b => Z.lor b 4) 1%nat h.

Definition sealed_room (x : xattrib) : bytes :=
  if (0 <? s_icv_len (xs x)) && s_bswenc (xs x) then take (Z.to_nat (s_icv_len (xs x))) (s_icv (xs x)) else [].

Definition frag_body (x : xattrib) (first : bool) (d : bytes) : bytes :=
  take (Z.to_nat (s_iv_len (xs x))) (s_iv (xs x)) ++ (if first then snap_header (ether_type (xe x)) else []) ++ d ++ sealed_room x.

(** The fields of the security group fit. *)
Record sec_fits (x : xattrib) : Prop := {
  sf_iv : 0 <= s_iv_len (xs x) <= zlen (s_iv (xs x));
  sf_icv : 0 <= s_icv_len (xs x) <= zlen (s_icv (xs x));
  sf_hdr : 24 <= h_hdrlen (xh x)
}.

Lemma sealed_room_len x : sec_fits x -> zlen (sealed_room x) = if s_bswenc (xs x) then s_icv_len (xs x) else 0.
Proof.
  intros [_ H _]. unfold sealed_room. destruct (Z.ltb_spec 0 (s_icv_len (xs x))), (s_bswenc (xs x)); cbn [andb]; try (change (zlen []) with 0; lia).
  unfold zlen in *. rewrite length_take. lia.
Qed.

Lemma frag_body_len x first d :
  sec_fits x ->
  zlen (frag_body x first d) = s_iv_len (xs x) + (if first then 8 else 0) + zlen d + (if s_bswenc (xs x) then s_icv_len (xs x) else 0).
Proof.
  intros S. unfold frag_body. rewrite !zlen_app, sealed_room_len by done. destruct S as [H _ _].
  assert (zlen (if first then snap_header (ether_type (xe x)) else []) = if first then 8 else 0) as ->.
  { destruct first; [|done]. unfold snap_header. destruct (_ || _); done. }
  unfold zlen in *. rewrite length_take. lia.
Qed.

Lemma wr_over A R l : (length l <= length R)%nat -> wr_slice (A ++ R) (zlen A) l = Ret (A ++ l ++ drop (length l) R).
Proof.
  intros H. rewrite <- (take_drop (length l) R) at 1. apply wr_slice_app. rewrite length_take. lia.
Qed.

Lemma rd_wr_1 A H R f : (2 <= length H)%nat ->
  (b ← rd (A ++ H ++ R) (zlen A + 1); wr (A ++ H ++ R) (zlen A + 1) (f b)) = Ret (A ++ alter f 1%nat H ++ R).
Proof.
  destruct H as [|a [|b H]]; cbn [length]; intros L; try lia. cbn [alter list_alter].
  replace (zlen A + 1) with (zlen (A ++ [a])) by (rewrite zlen_app; done).
  replace (A ++ (a :: b :: H) ++ R) with ((A ++ [a]) ++ [b] ++ (H ++ R)) by (by rewrite <- !app_assoc).
  rewrite rd_app_r, Z.sub_diag by lia. change (rd ([b] ++ H ++ R) 0) with (Ret b). rewrite bind_Ret.
  unfold wr. pose proof (zlen_nonneg (A ++ [a])). destruct (Z.leb_spec 0 (zlen (A ++ [a]))); [|lia].
  destruct (Z.ltb_spec (zlen (A ++ [a])) (Z.of_nat (length ((A ++ [a]) ++ [b] ++ H ++ R)))) as [_|B].
  2:{ unfold zlen in B. rewrite (length_app (A ++ [a])) in B. cbn [length app] in B. lia. }
  cbn [andb]. unfold zlen. rewrite Nat2Z.id, insert_app_r_alt, Nat.sub_diag by lia. by rewrite <- !app_assoc.
Qed.

Section Spec.
Context (frag_len : Z).

(** The bytes of the packet a fragment has room for. *)
Definition capacity (x : xattrib) (first : bool) : Z :=
  frag_len - 4 - h_hdrlen (xh x) - s_iv_len (xs x) - (if first then 8 else 0) - (if s_bswenc (xs x) then s_icv_len (xs x) else 0).

Lemma put_fragment_spec x first A H R p rest :
  sec_fits x -> pf_at p rest -> zlen H = h_hdrlen (xh x) ->
  let rlen := if IS_MCAST (e_ra (xe x)) then e_pktlen (xe x) else capacity x first in
  0 <= rlen < 2 ^ 32 ->
  let d := take (Z.to_nat rlen) rest in
  zlen (frag_body x first d) <= zlen R ->
  exists p', put_fragment frag_len x first (A ++ H ++ R) (zlen A) p
    = Ret (A ++ set_more H ++ frag_body x first d ++ drop (length (frag_body x first d)) R,
           zlen A + h_hdrlen (xh x) + zlen (frag_body x first d), if first then 8 else 0, zlen d, p') /\
    pf_at p' (drop (Z.to_nat rlen) rest).
Proof.
  intros S P Lh rlen Hr d Hl. pose proof (sf_hdr _ S) as H24.
  destruct (pf_read p rest rlen P Hr) as (p' & Er & P'). exists p'. split; [|exact P'].
  unfold put_fragment. cbv zeta. unfold SetMFrag. rewrite (rd_wr_1 A H R (fun b => Z.lor b 4)) by (unfold zlen in *; lia). rewrite bind_Ret.
  fold (set_more H). assert (zlen (set_more H) = h_hdrlen (xh x)) as Lm by (unfold set_more, zlen in *; rewrite length_alter; lia).
  set (iv := take (Z.to_nat (s_iv_len (xs x))) (s_iv (xs x))).
  assert (zlen iv = s_iv_len (xs x)) as Li by (destruct S as [Siv _ _]; unfold iv, zlen in *; rewrite length_take; lia).
  pose proof (frag_body_len x first d S) as Lb. rewrite Lb in Hl. set (B := frag_body x first d) in *.
  assert (B = iv ++ (if first then snap_header (ether_type (xe x)) else []) ++ d ++ sealed_room x) as EB by done.
  set (sn := if first then snap_header (ether_type (xe x)) else []) in *.
  assert (zlen sn = if first then 8 else 0) as Ls by (unfold sn; destruct first; [|done]; unfold snap_header; destruct (_ || _); done).
  pose proof (zlen_nonneg d). pose proof (zlen_nonneg sn). pose proof (sealed_room_len x S) as Lr. pose proof (zlen_nonneg (sealed_room x)).
  rewrite (app_assoc A), <- Lm, <- zlen_app, wr_over by (unfold zlen in *; lia). rewrite bind_Ret.
  rewrite <- Li, <- zlen_app, (app_assoc (A ++ set_more H)).
  assert ((if first then rtw_put_snap (((A ++ set_more H) ++ iv) ++ drop (length iv) R) (zlen ((A ++ set_more H) ++ iv)) (ether_type (xe x))
           else Ret (((A ++ set_more H) ++ iv) ++ drop (length iv) R, 0))
    = Ret (((A ++ set_more H) ++ iv) ++ sn ++ drop (length iv + length sn) R, if first then 8 else 0)) as ->.
  { destruct first; [|unfold sn; by rewrite Nat.add_0_r]. unfold rtw_put_snap. change (snap_header (ether_type (xe x))) with sn.
    rewrite wr_over by (rewrite length_drop; unfold zlen in *; lia). rewrite bind_Ret, drop_drop. done. }
  rewrite bind_Ret. rewrite (app_assoc _ sn), <- Ls, <- zlen_app.
  assert ((if IS_MCAST (e_ra (xe x)) then e_pktlen (xe x)
    else if (0 <? s_icv_len (xs x)) && s_bswenc (xs x) then frag_len - 4 - zlen (set_more H) - zlen iv - zlen sn - s_icv_len (xs x)
         else frag_len - 4 - zlen (set_more H) - zlen iv - zlen sn) = rlen) as ->.
  { unfold rlen, capacity. rewrite Lm, Li, Ls. destruct (IS_MCAST _); [done|]. destruct S as [_ Si _].
    destruct (Z.ltb_spec 0 (s_icv_len (xs x))), (s_bswenc (xs x)); cbn [andb]; lia. }
  rewrite Er. fold d. rewrite wr_over by (rewrite length_drop; unfold zlen in *; lia). rewrite bind_Ret, drop_drop.
  rewrite <- zlen_app, (app_assoc _ d).
  assert ((if (0 <? s_icv_len (xs x)) && s_bswenc (xs x)
           then wr_slice (((((A ++ set_more H) ++ iv) ++ sn) ++ d) ++ drop (length iv + length sn + length d) R)
                  (zlen ((((A ++ set_more H) ++ iv) ++ sn) ++ d)) (take (Z.to_nat (s_icv_len (xs x))) (s_icv (xs x)))
           else Ret (((((A ++ set_more H) ++ iv) ++ sn) ++ d) ++ drop (length iv + length sn + length d) R))
    = Ret (((((A ++ set_more H) ++ iv) ++ sn) ++ d) ++ sealed_room x ++ drop (length B) R)) as ->.
  { assert (length B = length iv + length sn + length d + length (sealed_room x))%nat as -> by (rewrite EB, !length_app; lia).
    unfold sealed_room in *. destruct ((0 <? s_icv_len (xs x)) && s_bswenc (xs x)); [|by rewrite Nat.add_0_r].
    rewrite wr_over by (rewrite length_drop; unfold zlen in *; lia). by rewrite drop_drop. }
  rewrite bind_Ret. do 5 f_equal.
  - rewrite EB, <- !app_assoc. done.
  - rewrite !zlen_app, Lb. unfold sealed_room in Lr. destruct (0 <? s_icv_len (xs x)) eqn:E0, (s_bswenc (xs x)) eqn:E1; cbn [andb] in *; try lia.
    change (zlen []) with 0 in Lr. lia.
Qed.
End Spec.

Lemma RND4_bounds y : y <= RND4 y <= y + 3.
Proof.
  unfold RND4. rewrite Z.shiftl_mul_pow2, Z.shiftr_div_pow2 by lia.
  replace (Z.land y 3) with (y mod 4) by (symmetry; apply (Z.land_ones y 2); lia). change (2 ^ 2) with 4.
  pose proof (Z.div_mod y 4 ltac:(lia)). pose proof (Z.mod_pos_bound y 4 ltac:(lia)). repeat case_match; lia.
Qed.

Lemma set_more_length h : length (set_more h) = length h.
Proof. apply length_alter. Qed.

Lemma set_more_idem h : set_more (set_more h) = set_more h.
Proof.
  destruct h as [|a [|b h]]; [done..|]. unfold set_more. cbn [alter list_alter]. do 2 f_equal. by rewrite <- Z.lor_assoc, Z.lor_diag.
Qed.

(** A header whose More Fragments bit is clear. *)
Definition no_more (h : bytes) : Prop := alter (fun b => Z.land b (u8 (Z.lnot 4))) 1%nat (set_more h) = h.

Section Loop.
Context (frag_len buf_addr pkt_offset : Z) (x : xattrib) (hdr : bytes).
Local Abbreviation cap := (capacity frag_len x).
Local Abbreviation hw := (hw_hdr_offset pkt_offset).

(** Where the header of the next fragment goes. *)
Definition next_start (pframe : Z) : Z := RND4 (buf_addr + pframe) - buf_addr + hw.

(** The buffer holds the fragments of [chunks] from [ms] on: header, IV, LLC
    header in the first, the piece of the packet, room for the integrity
    value; all but the last have More Fragments set. *)
Fixpoint frags_at (mem : bytes) (ms : Z) (first : bool) (chunks : list bytes) : Prop :=
  match chunks with
  | [] => False
  | c :: cs =>
      let body := frag_body x first c in
      match cs with
      | [] => region mem ms (hdr ++ body)
      | _ :: _ => region mem ms (set_more hdr ++ body) /\ frags_at mem (next_start (ms + zlen hdr + zlen body)) false cs
      end
  end.

(** The pieces are as long as they can be. *)
Fixpoint chunk_sizes (first : bool) (chunks : list bytes) : Prop :=
  match chunks with
  | [] => False
  | c :: cs => match cs with [] => zlen c <= cap first | _ :: _ => zlen c = cap first /\ chunk_sizes false cs end
  end.

Definition last_size (first : bool) (chunks : list bytes) : Z :=
  h_hdrlen (xh x) + s_iv_len (xs x) + (if first && (zlen chunks =? 1) then 8 else 0)
  + (if s_bswenc (xs x) then s_icv_len (xs x) else 0) + zlen (List.last chunks []).

Record loop_ready : Prop := {
  lr_uni : IS_MCAST (e_ra (xe x)) = false;
  lr_sec : sec_fits x;
  lr_hdr : zlen hdr = h_hdrlen (xh x);
  lr_more : no_more hdr;
  lr_cap : 0 < cap true;
  lr_len : frag_len < 2 ^ 31;
  lr_hw : 0 <= hw
}.

Lemma chunk_cons first c cs :
  last_size first (c :: cs) = if decide (cs = []) then last_size first [c] else last_size false cs.
Proof.
  destruct cs as [|c' cs]; [done|]. rewrite decide_False by done. unfold last_size. rewrite (zlen_cons c). pose proof (zlen_nonneg cs).
  rewrite !zlen_cons. destruct (Z.eqb_spec (1 + (1 + zlen cs)) 1); [lia|]. rewrite andb_false_r. done.
Qed.

Lemma coalesce_frags_spec m : forall fuel A H R p rest inx first hdr0,
  loop_ready -> pf_at p rest -> set_more H = set_more hdr -> length H = length hdr ->
  zlen rest <= cap first + Z.of_nat m * cap false -> (m < fuel)%nat ->
  (Z.of_nat m + 1) * (frag_len + hw) <= zlen H + zlen R ->
  (hdr0 = zlen A \/ region A hdr0 (set_more hdr)) -> first = (inx =? 0) -> 0 <= inx -> inx + Z.of_nat m + 1 < 256 ->
  exists chunks R', coalesce_frags frag_len buf_addr pkt_offset fuel x hdr0 (A ++ H ++ R) (zlen A) p inx
      = Ret (A ++ R', inx + zlen chunks, last_size first chunks) /\
    concat chunks = rest /\ zlen R' = zlen H + zlen R /\ frags_at (A ++ R') (zlen A) first chunks /\
    chunk_sizes first chunks /\ zlen chunks <= Z.of_nat m + 1.
Proof.
  induction m as [|m IH]; intros fuel A H R p rest inx first hdr0 LR P HM HL Hrest Hf Hroom H0 Hfi Hi Hlt.
  all: destruct fuel as [|fuel]; [lia|]; cbn [coalesce_frags]; rewrite <- Hfi.
  all: pose proof LR as [Lu Ls Lh Lm Lc Ll Lw]; pose proof (sf_hdr _ Ls) as H24; pose proof (sf_iv _ Ls) as Siv; pose proof (sf_icv _ Ls) as Sicv.
  all: assert (0 < cap first /\ cap first <= cap false /\ cap false < frag_len) as (C1 & C2 & C3)
    by (unfold capacity in *; destruct first, (s_bswenc (xs x)); lia).
  all: assert (frag_len + hw <= zlen H + zlen R) as Hone by nia.
  all: destruct (put_fragment_spec frag_len x first A H R p rest Ls P) as (p' & Ep & P'); [unfold zlen in *; lia|rewrite Lu; lia| |].
  1, 3: rewrite Lu; rewrite frag_body_len by done;
    assert (zlen (take (Z.to_nat (cap first)) rest) <= cap first) by (unfold zlen; rewrite length_take; lia);
    assert (zlen H = h_hdrlen (xh x)) by (unfold zlen in *; lia); unfold capacity in *; destruct first, (s_bswenc (xs x)); lia.
  all: rewrite Lu in Ep, P'; rewrite Ep, bind_Ret, Lu; cbn [orb]; clear Ep.
  all: set (d := take (Z.to_nat (cap first)) rest) in *; set (B := frag_body x first d) in *; rewrite HM.
  all: assert (zlen d <= cap first) as Ld by (unfold d, zlen; rewrite length_take; lia).
  all: pose proof (frag_body_len x first d Ls) as LB; fold B in LB; pose proof (zlen_nonneg d) as Nd.
  all: assert (zlen H = zlen hdr) as LHh by (unfold zlen; lia).
  all: assert (zlen B <= zlen R) as LBR by (unfold capacity in *; destruct first, (s_bswenc (xs x)); nia).
  all: assert (rtw_endofpktfile p' = true -> exists chunks R',
      (mem ← ClearMFrag (A ++ set_more hdr ++ B ++ drop (length B) R) (zlen A);
       Ret (mem, u8 (inx + 1), u32 (h_hdrlen (xh x) + s_iv_len (xs x) + (if u8 (inx + 1) =? 1 then if first then 8 else 0 else 0)
              + (if s_bswenc (xs x) then s_icv_len (xs x) else 0) + zlen d)))
      = Ret (A ++ R', inx + zlen chunks, last_size first chunks) /\
    concat chunks = rest /\ zlen R' = zlen H + zlen R /\ frags_at (A ++ R') (zlen A) first chunks /\
    chunk_sizes first chunks /\ zlen chunks <= 1) as Last.
  1, 3: intros Eof; exists [d], (hdr ++ B ++ drop (length B) R); unfold ClearMFrag;
    rewrite (rd_wr_1 A (set_more hdr) _ (fun b => Z.land b (u8 (Z.lnot 4)))) by (rewrite set_more_length; unfold zlen in *; lia);
    rewrite Lm, bind_Ret; unfold rtw_endofpktfile in Eof; rewrite (pa_left _ _ P'), Z.eqb_eq in Eof;
    assert (d = rest) as Ed by (unfold d; rewrite take_ge; [done|unfold zlen in Eof; rewrite length_drop in Eof; lia]);
    change (zlen [d]) with 1; rewrite (u8_small (inx + 1)) by (unfold is_byte; lia); split_and!;
    [do 2 f_equal; unfold last_size; change (zlen [d]) with 1; cbn [List.last Z.eqb Pos.eqb];
       rewrite andb_true_r; assert ((if inx + 1 =? 1 then if first then 8 else 0 else 0) = if first then 8 else 0) as ->
         by (rewrite Hfi; destruct (Z.eqb_spec inx 0), (Z.eqb_spec (inx + 1) 1); lia);
       apply u32_small; unfold is_u32, capacity in *; clear - Ld Ll H24 Siv Sicv Nd; destruct first, (s_bswenc (xs x)); lia
    | cbn; by rewrite app_nil_r
    | unfold zlen in *; rewrite !length_app, length_drop; lia
    | cbn [frags_at]; fold B; exists A, (drop (length B) R); by rewrite <- !app_assoc
    | exact Ld | lia ].
  - (* the packet ends here *)
    assert (rtw_endofpktfile p' = true) as Eof.
    { unfold rtw_endofpktfile. rewrite (pa_left _ _ P'), Z.eqb_eq. unfold zlen in *. rewrite length_drop. lia. }
    rewrite Eof. destruct (Last Eof) as (chunks & R' & E & Q1 & Q2 & Q3 & Q4 & Q5). exists chunks, R'. split_and!; auto; lia.
  - destruct (rtw_endofpktfile p') eqn:Eof.
    { destruct (Last eq_refl) as (chunks & R' & E & Q1 & Q2 & Q3 & Q4 & Q5). exists chunks, R'. split_and!; auto; lia. }
    clear Last. unfold rtw_endofpktfile in Eof. rewrite (pa_left _ _ P'), Z.eqb_neq in Eof.
    assert (zlen d = cap first) as Ed by (unfold d, zlen in *; rewrite length_drop in Eof; rewrite length_take; lia).
    set (pf := zlen A + h_hdrlen (xh x) + zlen B). pose proof (RND4_bounds (buf_addr + pf)) as RB.
    set (g := RND4 (buf_addr + pf) - (buf_addr + pf) + hw). assert (hw <= g <= hw + 3) as Hg by lia.
    assert (zlen B + h_hdrlen (xh x) = frag_len - 4) as FB by (unfold capacity in *; destruct first, (s_bswenc (xs x)); lia).
    replace (RND4 (buf_addr + pf) - buf_addr + hw) with (zlen (A ++ set_more hdr ++ B ++ take (Z.to_nat g) (drop (length B) R))).
    2:{ rewrite !zlen_app. unfold zlen at 2. rewrite set_more_length. fold (zlen hdr). rewrite Lh.
        assert (zlen (take (Z.to_nat g) (drop (length B) R)) = g) as -> by (unfold zlen in *; rewrite length_take, length_drop; nia). lia. }
    set (G := take (Z.to_nat g) (drop (length B) R)). set (R1 := drop (Z.to_nat g) (drop (length B) R)).
    assert (zlen G = g) as LG by (unfold G, zlen in *; rewrite length_take, length_drop; nia).
    assert (zlen R1 = zlen R - zlen B - g) as LR1 by (unfold R1, zlen in *; rewrite !length_drop; nia).
    assert (A ++ set_more hdr ++ B ++ drop (length B) R = (A ++ set_more hdr ++ B ++ G) ++ R1) as EM.
    { rewrite <- !app_assoc. do 3 f_equal. unfold G, R1. by rewrite take_drop. }
    assert (zlen (set_more hdr) = zlen hdr) as Lmo by (unfold zlen; by rewrite set_more_length).
    assert (region ((A ++ set_more hdr ++ B ++ G) ++ R1) hdr0 (set_more hdr)) as Rg0.
    { destruct H0 as [-> | (u & v & -> & ->)]; [exists A, ((B ++ G) ++ R1) | exists u, (v ++ (set_more hdr ++ B ++ G) ++ R1)]; by rewrite <- !app_assoc. }
    assert (rd_slice ((A ++ set_more hdr ++ B ++ G) ++ R1) hdr0 (h_hdrlen (xh x)) = Ret (set_more hdr)) as Eh.
    { pose proof (region_slice _ _ _ 0 (h_hdrlen (xh x)) Rg0) as E. rewrite Z.add_0_r, (rd_slice_ok (set_more hdr)) in E by lia.
      rewrite E by lia. change (Z.to_nat 0) with 0%nat. by rewrite drop_0, take_ge by (unfold zlen in *; lia). }
    rewrite EM, Eh, bind_Ret.
    assert ((Z.of_nat m + 1) * (frag_len + hw) + (frag_len + hw) <= zlen H + zlen R) as Htwo by (rewrite Nat2Z.inj_succ in Hroom; lia).
    assert (0 <= Z.of_nat m * (frag_len + hw)) as Hm0 by (apply Z.mul_nonneg_nonneg; lia).
    pose proof (zlen_nonneg B) as NB. assert (zlen hdr <= zlen R1) as Lh1 by lia.
    rewrite (wr_over (A ++ set_more hdr ++ B ++ G)), bind_Ret by (unfold zlen in *; lia).
    destruct (IH fuel (A ++ set_more hdr ++ B ++ G) (set_more hdr) (drop (length (set_more hdr)) R1) p' (drop (Z.to_nat (cap first)) rest) (inx + 1) false hdr0)
      as (chunks & R' & E & Q1 & Q2 & Q3 & Q4 & Q5); auto.
    { apply set_more_idem. }
    { apply set_more_length. }
    { unfold zlen in *. rewrite length_drop. nia. }
    { lia. }
    { assert (zlen (drop (length (set_more hdr)) R1) = zlen R1 - zlen hdr) as -> by (unfold zlen in *; rewrite length_drop; lia). lia. }
    { right. destruct H0 as [-> | (u & v & -> & ->)]; [exists A, (B ++ G); done | exists u, (v ++ set_more hdr ++ B ++ G); by rewrite <- !app_assoc]. }
    { symmetry. apply Z.eqb_neq. lia. }
    { lia. }
    { lia. }
    assert (chunks <> []) as Nc by (intros ->; exact Q3).
    exists (d :: chunks), (set_more hdr ++ B ++ G ++ R'). rewrite E. clear E. split_and!.
    + rewrite <- !app_assoc. rewrite zlen_cons, chunk_cons, decide_False by done. do 3 f_equal. lia.
    + cbn [concat]. rewrite Q1. apply take_drop.
    + rewrite !zlen_app, Q2. unfold zlen in *. rewrite !length_drop. lia.
    + assert (A ++ set_more hdr ++ B ++ G ++ R' = (A ++ set_more hdr ++ B ++ G) ++ R') as -> by (by rewrite <- !app_assoc).
      cbn [frags_at]. fold B. destruct chunks as [|c cs]; [done|]. split.
      * exists A, (G ++ R'). by rewrite <- !app_assoc.
      * replace (next_start (zlen A + zlen hdr + zlen B)) with (zlen (A ++ set_more hdr ++ B ++ G)); [done|].
        unfold next_start. rewrite !zlen_app, Lmo, LG, Lh. fold pf. lia.
    + cbn [chunk_sizes]. destruct chunks; [done|]. done.
    + rewrite zlen_cons. lia.
Qed.
End Loop.
