(* ===== verification/XmitPath.v ===== *)
(** * From the packet to the buffer, and back

    The functions of [XmitAttr] and [XmitFrame] composed the way
    [rtw_xmit] and [rtw_xmitframe_coalesce] compose them: what the buffer
    holds when [rtw_xmitframe_coalesce] is done, which transfers
    [rtw_dump_xframe] hands to the bus, and what the receive path makes of
    the frame. *)

From S2P Require Import Prelude RxFrame Michael Reorder StaMgt SwCrypt RxCheck Defrag Aes CipherModes Ccmp MgmtProtect XmitAttr XmitFrame.

(** ** Header and attributes of a data frame *)

Lemma wlan_header_no_more ds addrs x q :
  (h_subtype (xh x) = WIFI_DATA_TYPE \/ h_subtype (xh x) = WIFI_QOS_DATA_TYPE) -> h_mdata (xh x) = false ->
  (ds = _TO_DS_ \/ ds = _FROM_DS_ \/ ds = 0) -> no_more (wlan_header ds addrs x q).
Proof.
  intros Hs Hm Hd. unfold no_more, wlan_header, set_more, frame_ctl. rewrite Hm.
  destruct Hs as [-> | ->], Hd as [-> | [-> | ->]], (s_encrypt (xs x) =? 0); reflexivity.
Qed.

Lemma iv_of_len e pn kid : zlen (iv_of e pn kid) = if is_wep e then 4 else 8.
Proof. unfold iv_of, is_wep. destruct ((e =? _WEP40_) || (e =? _WEP104_)); [done|]. by destruct (e =? _TKIP_). Qed.

Lemma numbered_lens e : numbered e = true -> exists k, SET_ICE_IV_LEN e = (if is_wep e then 4 else 8, k) /\ 0 <= k <= 16.
Proof.
  unfold numbered, is_wep, SET_ICE_IV_LEN.
  destruct (e =? _WEP40_), (e =? _WEP104_), (e =? _TKIP_), (e =? _AES_), (e =? _GCMP_), (e =? _GCMP_256_), (e =? _CCMP_256_);
    cbn [orb]; try discriminate; intros _; eexists; (split; [reflexivity | lia]).
Qed.

Lemma sec_info_fits s x i e x' s' :
  update_attrib_sec_info s x i e = (_SUCCESS, x', s') -> length (s_icv (xs x)) = 16%nat ->
  0 <= s_iv_len (xs x') <= zlen (s_iv (xs x')) /\ s_iv_len (xs x') <= 8 /\ 0 <= s_icv_len (xs x') <= 16 /\ length (s_icv (xs x')) = 16%nat /\
  (numbered (s_encrypt (xs x')) = true ->
   (s_iv_len (xs x'), s_icv_len (xs x')) = SET_ICE_IV_LEN (s_encrypt (xs x')) /\
   exists pn kid, s_iv (xs x') = iv_of (s_encrypt (xs x')) pn kid) /\
  (numbered (s_encrypt (xs x')) = false -> s_iv_len (xs x') = 0 /\ s_icv_len (xs x') = 0).
Proof.
  intros H L. destruct (sec_info_spec _ _ _ _ _ _ H) as (c & c' & _ & I & _ & _ & _ & -> & -> & -> & -> & Si & _).
  rewrite Si, L. destruct (choose_iv_spec _ _ _ _ _ _ I) as (_ & _ & _ & _ & S).
  destruct (numbered (s_encrypt c)) eqn:N.
  - destruct S as [S (kid & -> & _)]. rewrite iv_of_len. destruct (numbered_lens _ N) as (k & E & Hk). pose proof S as S'. rewrite E in S'. apply pair_inj in S' as [El Ek].
    assert (4 <= (if is_wep (s_encrypt c) then 4 else 8) <= 8) by (case_match; lia).
    split_and!; try lia; try done. intros _. split; [done|]. eauto.
  - destruct S as (-> & -> & _). pose proof (zlen_nonneg (s_iv c')). split_and!; try lia; try done.
Qed.

(** The frame [rtw_make_wlanhdr] starts for the packet [update_attrib]
    accepted. *)
Record started (s1 : txs) (x1 x2 : xattrib) (ds : Z) (addrs hdr : bytes) : Prop := {
  st_hdr : hdr = wlan_header ds addrs x1 (h_seqnum (xh x2));
  st_addrs : exists q, hdr_addrs s1 x1 = Some (ds, addrs, q) /\ h_hdrlen (xh x1) = (if q then WLAN_HDR_A3_QOS_LEN else WLAN_HDR_A3_LEN) /\
    h_subtype (xh x1) = (if q then WIFI_QOS_DATA_TYPE else WIFI_DATA_TYPE);
  st_alen : length addrs = 18%nat;
  st_ds : ds = _TO_DS_ \/ ds = _FROM_DS_ \/ ds = 0;
  st_mdata : h_mdata (xh x1) = false;
  st_xe : xe x2 = xe x1;
  st_xs : xs x2 = xs x1;
  st_xc : xc x2 = xc x1;
  st_len : h_hdrlen (xh x2) = h_hdrlen (xh x1);
  st_zlen : zlen hdr = h_hdrlen (xh x2);
  st_eth : pkt_hdrlen (xh x2) = ETH_HLEN;
  st_more : no_more hdr;
  st_fits : sec_fits x2;
  st_small : s_iv_len (xs x2) <= 8 /\ s_icv_len (xs x2) <= 16;
  st_num : numbered (s_encrypt (xs x2)) = true ->
   (s_iv_len (xs x2), s_icv_len (xs x2)) = SET_ICE_IV_LEN (s_encrypt (xs x2)) /\ exists pn kid, s_iv (xs x2) = iv_of (s_encrypt (xs x2)) pn kid;
  st_plain : numbered (s_encrypt (xs x2)) = false -> s_iv_len (xs x2) = 0 /\ s_icv_len (xs x2) = 0;
  st_icv : length (s_icv (xs x2)) = 16%nat
}.

Lemma frame_started stack s pkt x x1 s1 pre room post m1 x2 s2 :
  update_attrib stack s pkt x = Ret (_SUCCESS, x1, s1) -> tx_ready s x -> length (s_icv (xs x)) = 16%nat -> zlen room = WLANHDR_OFFSET ->
  rtw_make_wlanhdr s1 (pre ++ room ++ post) (zlen pre) x1 = Ret (_SUCCESS, m1, x2, s2) ->
  exists ds addrs hdr room', started s1 x1 x2 ds addrs hdr /\ m1 = pre ++ hdr ++ room' ++ post /\ zlen hdr + zlen room' = WLANHDR_OFFSET /\
    t_adp s2 = t_adp s1 /\ t_cfg s2 = t_cfg s1.
Proof.
  intros H R Li Lr Hm. destruct (update_attrib_hdr _ _ _ _ _ _ H R) as (Hs & Hh & Hmd & _ & _ & _ & Hp & R1 & _).
  assert (bit_test (h_subtype (xh x1)) WIFI_DATA_TYPE = true) as Hdt by (rewrite Hs; by destruct (has_qos s1 x1)).
  destruct (make_wlanhdr_ok s1 pre room post x1 m1 x2 s2 Lr Hdt Hm) as (ds & addrs & q & j & Ha & _ & _ & _ & N & room' & Em & Zh & Zr).
  { intros ds addrs q Hd. destruct (hdr_addrs_ok s1 x1 R1 Hh ds addrs q Hd) as (? & ? & ? & ?). auto. }
  destruct (hdr_addrs_ok s1 x1 R1 Hh _ _ _ Ha) as (La & Eq & Lh & Hds).
  destruct (next_seq_keeps _ _ _ _ _ N) as (Ad & Cf & Xe & Xs & Xc & Hl & _ & _ & _ & _ & Hk & _).
  destruct (update_attrib_ok _ _ _ _ _ _ H) as (i & et & s0 & x0 & x2' & U). cbv zeta in U.
  destruct U as (_ & _ & _ & _ & Su & X0 & _ & _ & Ex & _).
  assert (xs x1 = xs x2') as E1 by (rewrite Ex; apply xs_phy). rewrite <- X0 in Li.
  destruct (sec_info_fits _ _ _ _ _ _ Su Li) as (F1 & F1b & F2 & F3 & F4 & F5).
  exists ds, addrs, (wlan_header ds addrs x1 (h_seqnum (xh x2))), room'. split_and!; [| by rewrite Em, <- app_assoc | rewrite Zh; lia | done | done].
  split; rewrite ?Hl, ?Hk, ?Zh; try done.
  - exists q. rewrite Hs, <- Eq. auto.
  - apply wlan_header_no_more; auto. rewrite Hs. destruct (has_qos s1 x1); auto.
  - split; rewrite ?Xs, ?E1, ?Hl; [done | unfold zlen; lia | rewrite Lh; destruct q; vm_compute; discriminate].
  - rewrite Xs, E1. lia.
  - by rewrite Xs, E1.
  - by rewrite Xs, E1.
  - by rewrite Xs, E1.
Qed.

(** ** Fragments and transfers *)

Section Fragments.
Context (amsdu_mode frag_len buf_addr pkt_offset : Z) (vc : vcs_cfg).
Local Abbreviation hw := (hw_hdr_offset pkt_offset).

Lemma hw_nonneg : 0 <= hw.
Proof. unfold hw_hdr_offset, u8. apply Z.mod_pos_bound. lia. Qed.

(** Start and size of the fragments of a frame. *)
Fixpoint frag_spans (x : xattrib) (ms : Z) (first : bool) (chunks : list bytes) : list (Z * Z) :=
  match chunks with
  | [] => []
  | c :: cs =>
      let sz := h_hdrlen (xh x) + zlen (frag_body x first c) in
      (ms, sz) :: frag_spans x (next_start buf_addr pkt_offset (ms + sz)) false cs
  end.

(** A transfer ends with the fragment and starts with the descriptor in front
    of it. *)
Definition covers (tr sp : Z * Z) : Prop :=
  fst tr + snd tr = fst sp + snd sp /\ (fst tr + TXDESC_SIZE = fst sp \/ fst tr + TXDESC_SIZE + PACKET_OFFSET_SZ = fst sp).

Lemma dump_covers sw odd x x3 : forall chunks t ms first,
  pkt_offset = 1 -> sec_fits x -> xs x3 = xs x -> sw = true \/ s_icv_len (xs x) = 0 -> first = (t =? 0) -> 0 <= t ->
  c_nr_frags (xc x3) = t + zlen chunks -> c_last_txcmdsz (xc x3) = last_size x first chunks -> chunk_sizes frag_len x first chunks ->
  Forall2 covers (dump_frags frag_len buf_addr sw odd (length chunks) x3 t (ms - hw)) (frag_spans x ms first chunks).
Proof.
  induction chunks as [|c cs IH]; intros t ms first Po Sf Xs Hsw Hf Ht Hn Hl Hc; [constructor|].
  cbn [length dump_frags frag_spans]. rewrite zlen_cons in Hn. pose proof (zlen_nonneg cs).
  assert (hw = 48) as Hw by (rewrite Po; reflexivity).
  set (sz := if t =? c_nr_frags (xc x3) - 1 then _ else _).
  assert (sz = h_hdrlen (xh x) + zlen (frag_body x first c)) as Esz.
  { unfold sz. rewrite frag_body_len by done. rewrite Hn. destruct cs as [|c' cs].
    - change (zlen []) with 0. rewrite (proj2 (Z.eqb_eq t _)) by lia. rewrite Hl. unfold last_size. change (zlen [c]) with 1.
      cbn [List.last Z.eqb Pos.eqb]. rewrite andb_true_r. lia.
    - destruct Hc as [Hc _]. pose proof (zlen_nonneg cs) as N. rewrite zlen_cons in *. destruct (Z.eqb_spec t (t + (1 + (1 + zlen cs)) - 1)); [lia|].
      rewrite Hc, Xs. unfold capacity. destruct Hsw as [-> | ->]; [lia|]. destruct sw; lia. }
  set (next := RND4 _ - buf_addr). assert (next_start buf_addr pkt_offset (ms + (h_hdrlen (xh x) + zlen (frag_body x first c))) - hw = next) as En.
  { unfold next, next_start. rewrite <- Esz, Hw. unfold TXDESC_SIZE, PACKET_OFFSET_SZ.
    match goal with |- RND4 ?a - _ + _ - _ = RND4 ?b - _ => assert (a = b) as -> by (destruct (odd _); lia) end. lia. }
  constructor.
  - unfold covers. cbn [fst snd]. rewrite <- Esz, Hw. unfold TXDESC_SIZE, PACKET_OFFSET_SZ. destruct (odd _); lia.
  - rewrite <- En. destruct cs as [|c' cs]; [constructor|]. apply IH; auto; try lia.
    + by rewrite Hl, chunk_cons, decide_False.
    + apply Hc.
Qed.

(** The fragmentation loop, started by [rtw_xmitframe_coalesce]. *)
Lemma loop_started s1 x1 x2 ds addrs hdr pkt m pre room' post :
  started s1 x1 x2 ds addrs hdr -> IS_MCAST (e_ra (xe x1)) = false -> 256 <= frag_len < 2 ^ 31 -> 14 <= zlen pkt ->
  zlen hdr + zlen room' = WLANHDR_OFFSET -> zlen pre = hw ->
  zlen pkt - 14 <= capacity frag_len x2 true + m * capacity frag_len x2 false -> 0 <= m < 255 ->
  (m + 1) * (frag_len + hw) <= WLANHDR_OFFSET + zlen post ->
  exists chunks R, coalesce_frags frag_len buf_addr pkt_offset (S (length pkt)) x2 hw (pre ++ hdr ++ room' ++ post) hw
        (snd (_rtw_pktfile_read (_rtw_open_pktfile pkt) (pkt_hdrlen (xh x2)))) 0
      = Ret (pre ++ R, zlen chunks, last_size x2 true chunks) /\
    concat chunks = drop 14 pkt /\ frags_at buf_addr pkt_offset x2 hdr (pre ++ R) hw true chunks /\
    chunk_sizes frag_len x2 true chunks /\ zlen chunks <= m + 1.
Proof.
  intros St Hu Hfl Hp Lr Lp Hcap Hm Hroom. destruct St as [_ _ _ _ _ Exe _ _ El Zl Ep Hno Sf [Si Sc] _ _ _].
  destruct (pf_read (_rtw_open_pktfile pkt) pkt 14 (pf_open pkt)) as (p & Er & Pp); [lia|]. rewrite Ep. unfold ETH_HLEN. rewrite Er. cbn [snd].
  change (Z.to_nat 14) with 14%nat in *. pose proof hw_nonneg as Hw. pose proof (sf_iv _ Sf). pose proof (sf_icv _ Sf). pose proof (zlen_nonneg room').
  assert (h_hdrlen (xh x2) <= 64) as Hh by (unfold WLANHDR_OFFSET in *; lia).
  assert (loop_ready frag_len pkt_offset x2 hdr) as LR.
  { split; rewrite ?Exe; auto; [|lia]. unfold capacity. destruct (s_bswenc (xs x2)); lia. }
  assert (1 <= capacity frag_len x2 false) as C1 by (unfold capacity; destruct (s_bswenc (xs x2)); lia).
  destruct (coalesce_frags_spec frag_len buf_addr pkt_offset x2 hdr (Nat.min (Z.to_nat m) (length pkt)) (S (length pkt)) pre hdr (room' ++ post) p
    (drop 14 pkt) 0 true hw LR Pp) as (chunks & R & E & Q1 & _ & Q3 & Q4 & Q5); try done; try lia.
  - assert (zlen (drop 14 pkt) = zlen pkt - 14) as -> by (unfold zlen; rewrite length_drop; unfold zlen in *; lia).
    pose proof (lr_cap _ _ _ _ LR). destruct (Nat.min_spec (Z.to_nat m) (length pkt)) as [[_ ->] | [_ ->]]; [rewrite Z2Nat.id by lia; lia|].
    unfold zlen in *. nia.
  - assert (Z.of_nat (Nat.min (Z.to_nat m) (length pkt)) <= m) by lia. rewrite zlen_app. nia.
  - rewrite <- Lp in *. exists chunks, R. rewrite E. split_and!; try done; lia.
Qed.

End Fragments.

(** *** Example: a packet of 400 bytes in a network without a cipher *)

Definition open_sta (e : sta_info) : sta_info :=
  mk_sta (mac_addr e) (sta_state e) (aid e) (sta_flags e) (ieee8021x_blocked e) 0 (dot11tkiprxmickey e) (dot118021x_UncstKey e) 0 0 0
    (recvpriv e) (recvreorder_ctrl e) (stx e) (sps e).
Definition xp_open : txs :=
  let p := stapriv mp_adapter in
  set_tadp xa_state (set_stapriv mp_adapter
    (mk_stapriv (alter open_sta 1%nat (stainfo_buf p)) (free_sta_queue p) (sta_hash p) (asoc_sta_count p) (auth_list p)
       (auth_list_cnt p) (sta_aid p) (max_aid p) (started_aid p) (rr_aid p) (max_num_sta p) (sta_dz_bitmap p) (tim_bitmap p) (accnt p))).
Definition xp_vcs : vcs_cfg := mk_vcs 2347 false true false 0 0 2 1 0 0.
Definition xp_pkt : bytes := xa_ipv4 ++ replicate 400 7.


(** ** What the receiver reads from a header *)

Definition frame_dst (ds : Z) (a1 a3 : bytes) : bytes := if ds =? 2 then a3 else a1.
Definition frame_src (ds : Z) (a2 a3 : bytes) : bytes := if ds =? 1 then a3 else a2.

Section Receiver.
Context (a1 a2 a3 : bytes).

(** The three addresses of the frame. *)
Definition addrs_are (f : recv_frame) : Prop := Addr1 f = Ret a1 /\ addr2 f = Ret a2 /\ Addr3 f = Ret a3.

(** Only the addresses of the attributes have changed, to those of the frame. *)
Definition addressed (a a' : rx_pkt_attrib) : Prop :=
  exists b, a' = set_addrs a a1 a2 (frame_dst (to_fr_ds a) a1 a3) (frame_src (to_fr_ds a) a2 a3) b.

Definition refused (r : Z) : bool := (r =? _FAIL) || (r =? RTW_RX_HANDLED).

Lemma sta_hdr_addrs s r o s' :
  rtw_sta_rx_data_validate_hdr s = Ret (r, o, s') -> refused r = false -> addrs_are (frm s) -> to_fr_ds (att s) <> 3 ->
  addressed (att s) (att s').
Proof.
  unfold rtw_sta_rx_data_validate_hdr. intros H Hr (A1 & A2 & A3) Hd. rewrite A1, A2, A3 in H. rewrite !bind_Ret in H. unfold addressed, frame_dst, frame_src.
  destruct (Z.eqb_spec (to_fr_ds (att s)) 0) as [D|_].
  { rewrite D. rx_inv; subst; try discriminate. eexists. reflexivity. }
  destruct (negb (bit_test _ _)); [rx_inv; subst; discriminate|]. cbn [to_fr_ds set_addrs] in H.
  destruct (Z.eqb_spec (to_fr_ds (att s)) 1) as [D|_]; [rewrite D; rx_inv; subst; try discriminate; eexists; reflexivity|].
  destruct (Z.eqb_spec (to_fr_ds (att s)) 3) as [D|_]; [done|]. rx_inv; subst; discriminate.
Qed.

Lemma ap_hdr_addrs s r o s' :
  rtw_ap_rx_data_validate_hdr s = Ret (r, o, s') -> refused r = false -> addrs_are (frm s) -> to_fr_ds (att s) <> 3 ->
  addressed (att s) (att s').
Proof.
  unfold rtw_ap_rx_data_validate_hdr. intros H Hr (A1 & A2 & A3) Hd. rewrite A1, A2, A3 in H. rewrite !bind_Ret in H. unfold addressed, frame_dst, frame_src.
  destruct (negb (bit_test _ _)); [rx_inv; subst; discriminate|].
  destruct (_ && IS_MCAST a1); [rx_inv; subst; discriminate|].
  destruct (Z.eqb_spec (to_fr_ds (att s)) 2) as [D|_].
  { rewrite D. rx_inv; subst; try discriminate. eexists. case_match; reflexivity. }
  destruct (Z.eqb_spec (to_fr_ds (att s)) 3); [done|]. rx_inv; subst; discriminate.
Qed.

Lemma validate_hdr_addrs s r o s' :
  validate_hdr s = Ret (r, o, s') -> refused r = false -> addrs_are (frm s) -> to_fr_ds (att s) <> 3 ->
  check_fwstate (adp s) WIFI_MP_STATE = false -> addressed (att s) (att s').
Proof.
  intros H Hr HA Hd Hm. pose proof HA as (A1 & A2 & A3). unfold validate_hdr in H.
  destruct (check_fwstate (adp s) WIFI_AP_STATE); [by eapply ap_hdr_addrs|].
  destruct (check_fwstate (adp s) WIFI_STATION_STATE); [by eapply sta_hdr_addrs|]. rewrite A1, A2, A3, !bind_Ret in H.
  unfold addressed, frame_dst, frame_src.
  destruct (Z.eqb_spec (to_fr_ds (att s)) 0) as [D|_].
  { rewrite D. unfold sta2sta_data_frame in H. cbn [adp with_att with_frm] in H. rewrite Hm in H. rx_inv; subst; try discriminate; eexists; reflexivity. }
  destruct (Z.eqb_spec (to_fr_ds (att s)) 1) as [D|_].
  { unfold ap2sta_data_frame in H. cbn [adp with_att with_frm] in H. rewrite Hm in H. cbn [andb] in H. rx_inv; subst; discriminate. }
  destruct (Z.eqb_spec (to_fr_ds (att s)) 2) as [D|_].
  { unfold sta2ap_data_frame in H. cbn [adp with_att with_frm] in H. rewrite Hm in H. cbn [andb] in H. rx_inv; subst; discriminate. }
  rx_inv; subst; discriminate.
Qed.
End Receiver.

Lemma parse_qc_attrs s n s' :
  parse_qc s n = Ret s' -> order (att s) = 0 ->
  exists p k, att s' = set_qos_fields (att s) p k ((if qos (att s) =? 1 then WLAN_HDR_A3_QOS_LEN else WLAN_HDR_A3_LEN) + n).
Proof.
  unfold parse_qc. cbn [qos set_qos_fields]. intros H Ho. rx_inv; subst; cbn [att with_att with_adp with_frm frm attrib set_attrib order set_qos_fields];
    rewrite Ho; cbn [Z.eqb]; eexists _, _; reflexivity.
Qed.

Lemma pn_decache_att s i r s' : pn_decache s i = Ret (r, s') -> att s' = att s.
Proof. unfold pn_decache. intros H. rx_inv; subst; done. Qed.

Lemma pick_cipher_att s i :
  exists e iv icv, att (pick_cipher s i) = set_cipher (att s) e iv icv /\ (privacy (att s) <> 0 -> (iv, icv) = SET_ICE_IV_LEN e).
Proof.
  unfold pick_cipher. destruct (Z.eqb_spec (privacy (att s)) 0); [by eexists 0, 0, 0|].
  set (e := GET_ENCRY_ALGO _ _ _ _). destruct (SET_ICE_IV_LEN e) as [iv icv] eqn:E. exists e, iv, icv. split; [done|]. auto.
Qed.

(** The attributes of an accepted frame with three addresses. *)
Record read_from (a0 a : rx_pkt_attrib) (a1 a2 a3 : bytes) : Prop := {
  rf_hdrlen : hdrlen a = if qos a0 =? 1 then WLAN_HDR_A3_QOS_LEN else WLAN_HDR_A3_LEN;
  rf_dst : dst a = frame_dst (to_fr_ds a0) a1 a3;
  rf_src : src a = frame_src (to_fr_ds a0) a2 a3;
  rf_ra : ra a = a1;
  rf_ta : ta a = a2;
  rf_frag : (mfrag a, frag_num a, seq_num a) = (mfrag a0, frag_num a0, seq_num a0);
  rf_priv : privacy a = privacy a0;
  rf_iv : privacy a0 <> 0 -> (iv_len a, icv_len a) = SET_ICE_IV_LEN (encrypt a)
}.

Lemma validate_data_attrs s o a1 a2 a3 :
  validate_recv_data_frame s = Ret o -> ret o = _SUCCESS -> addrs_are a1 a2 a3 (frm s) -> to_fr_ds (att s) <> 3 ->
  check_fwstate (adp s) WIFI_MP_STATE = false -> order (att s) = 0 -> read_from (att s) (att (st o)) a1 a2 a3.
Proof.
  unfold validate_recv_data_frame. intros H Hr HA Hd Hm Ho.
  match type of H with mbind _ ?m = _ => destruct m as [am| |] eqn:E0; [|discriminate..] end. cbn [mbind res_mbind] in H.
  match type of H with mbind _ ?m = _ => destruct m as [[[r sta] s1]| |] eqn:E1; [|discriminate..] end. cbn [mbind res_mbind] in H.
  fold (refused r) in H. destruct (refused r) eqn:Er.
  { apply Ret_inj in H as <-. cbn [ret] in Hr. subst r. discriminate. }
  apply (validate_hdr_addrs a1 a2 a3) in E1 as [b A1]; auto. clear E0.
  destruct sta as [i|]; [|apply Ret_inj in H as <-; discriminate].
  destruct (_ && negb _); [apply Ret_inj in H as <-; discriminate|].
  match type of H with mbind _ ?m = _ => destruct m as [s2| |] eqn:E2; [|discriminate..] end. cbn [mbind res_mbind] in H.
  apply parse_qc_attrs in E2 as (p & k & A2); [|by rewrite A1]. destruct (recv_decache (sta_entry s2 i) (att s2)) as [d e].
  destruct (d =? _FAIL); [apply Ret_inj in H as <-; discriminate|].
  match type of H with mbind _ ?m = _ => destruct m as [[q s3]| |] eqn:E3; [|discriminate..] end. cbn [mbind res_mbind] in H.
  apply pn_decache_att in E3. change (att (upd_entry s2 i e)) with (att s2) in E3. destruct (q =? _FAIL); [apply Ret_inj in H as <-; discriminate|].
  match type of H with mbind _ ?m = _ => destruct m as [c| |] eqn:E4; [|discriminate..] end. cbn [mbind res_mbind] in H.
  apply Ret_inj in H as <-. cbn [ret psta st] in *. subst c.
  destruct (pick_cipher_att s3 i) as (enc & iv & icv & A4 & Hiv). rewrite E3, A2, A1 in A4, Hiv. clear - A4 Hiv Hd.
  rewrite (proj2 (Z.eqb_neq _ _) Hd), Z.add_0_r in A4. rewrite A4. by split.
Qed.

Lemma validate_attrs s o fc sc a1 a2 a3 :
  validate_recv_frame s = Ret o -> ret o = _SUCCESS -> hdr16 (frm s) 0 = Ret fc -> hdr16 (frm s) 22 = Ret sc -> addrs_are a1 a2 a3 (frm s) ->
  get_tofr_ds fc <> 3 -> check_fwstate (adp s) WIFI_MP_STATE = false -> bit_test fc (BIT 15) = false ->
  exists a0, read_from a0 (att (st o)) a1 a2 a3 /\ keeps s (with_att (st o) (set_fc_fields (att (st o)) 0 0 0 0 (privacy (att s)) 0)) /\
    to_fr_ds a0 = get_tofr_ds fc /\ qos a0 = Z.b2z (bit_test (get_frame_sub_type fc) (BIT 7)) /\
    privacy a0 = Z.b2z (bit_test fc (BIT 14)) /\ mfrag a0 = Z.b2z (bit_test fc (BIT 10)) /\ frag_num a0 = Z.land sc 0xf.
Proof.
  unfold validate_recv_frame. intros H Hr Hfc Hsc HA Hd Hm Hb.
  destruct (rd (rx_mem (frm s)) (rx_data (frm s))); [|discriminate..]. cbn [mbind res_mbind] in H.
  destruct (negb (Z.land a 3 =? 0)); [apply Ret_inj in H as <-; discriminate|].
  rewrite Hfc in H. cbn [mbind res_mbind] in H. rewrite Hsc in H. cbn [mbind res_mbind] in H. rewrite Hb in H.
  set (s1 := with_att s _) in H.
  destruct (GetFrameType fc =? WIFI_MGT_TYPE); [apply Ret_inj in H as <-; discriminate|].
  destruct (GetFrameType fc =? WIFI_CTRL_TYPE); [apply Ret_inj in H as <-; discriminate|].
  destruct (Z.eqb_spec (GetFrameType fc) WIFI_DATA_TYPE); [|apply Ret_inj in H as <-; discriminate].
  pose proof (validate_data_attrs _ _ a1 a2 a3 H Hr HA Hd Hm eq_refl) as RF. apply validate_data_success in H as [K _]; [|done].
  eexists. split; [exact RF|]. split; [|repeat split].
  destruct K as (K1 & K2 & K3 & K4 & K5 & K6 & K7 & K8 & K9). unfold keeps. by split_and!.
Qed.

(** ** The header of a protected data frame *)

(** A data header with three addresses, as written and as read. *)
Record data_header (hdr : bytes) (fc sc : Z) (a1 a2 a3 : bytes) : Prop := {
  dh_hdr : exists two qc, hdr = put_le16 fc ++ [0; 0] ++ (a1 ++ a2 ++ a3) ++ two ++ qc /\ length two = 2%nat /\
    (forall rest, le16_get (two ++ rest) 0 = Ret sc);
  dh_fc : forall rest, le16_get (put_le16 fc ++ rest) 0 = Ret fc;
  dh_len : length a1 = 6%nat /\ length a2 = 6%nat /\ length a3 = 6%nat;
  dh_ds : get_tofr_ds fc <> 3;
  dh_bits : bit_test fc (BIT 10) = false /\ bit_test fc (BIT 14) = true /\ bit_test fc (BIT 15) = false /\ GetFrameType fc = WIFI_DATA_TYPE;
  dh_frag : Z.land sc 0xf = 0;
  dh_zlen : zlen hdr = if bit_test (get_frame_sub_type fc) (BIT 7) then WLAN_HDR_A3_QOS_LEN else WLAN_HDR_A3_LEN;
  dh_ok : forall iv, zlen iv = 8 -> bytes_ok iv -> hdr_ok hdr iv;
  dh_wep : set_iswep hdr = hdr
}.

Lemma seq_field_read q : exists sc, (forall rest, le16_get (seq_field q ++ rest) 0 = Ret sc) /\ Z.land sc 0xf = 0.
Proof.
  unfold seq_field. set (w := Z.land 0xfff0 _). eexists. split; [intros rest; reflexivity|]. unfold u16.
  change 0xf with (Z.ones 4). change 65536 with (2 ^ 16). change 0xff with (Z.ones 8). change (8) with (Z.of_nat 8).
  apply Z.bits_inj'. intros n Hn. rewrite Z.land_spec, Z.bits_0.
  destruct (Z.ltb_spec n 4) as [L|L]; [|rewrite Z.ones_spec_high by lia; apply andb_false_r].
  rewrite Z.mod_pow2_bits_low, Z.lor_spec, Z.shiftl_spec_low, Z.land_spec, Z.mod_pow2_bits_low by lia. unfold w. rewrite Z.land_spec.
  assert (Z.testbit 0xfff0 n = false) as -> by (assert (n = 0 \/ n = 1 \/ n = 2 \/ n = 3) as [-> | [-> | [-> | ->]]] by lia; reflexivity).
  reflexivity.
Qed.

(** Sender's and receiver's reading of the addresses. *)
Definition sent_src (ds : Z) (x : xattrib) : bytes := if ds =? _FROM_DS_ then e_src (xe x) else e_ta (xe x).

Lemma started_header s1 x1 x2 ds addrs hdr :
  started s1 x1 x2 ds addrs hdr -> tx_ready s1 x1 -> s_encrypt (xs x1) <> 0 -> bytes_ok addrs ->
  exists fc sc a1 a2 a3, data_header hdr fc sc a1 a2 a3 /\ addrs = a1 ++ a2 ++ a3 /\
    frame_dst (get_tofr_ds fc) a1 a3 = e_dst (xe x1) /\ frame_src (get_tofr_ds fc) a2 a3 = sent_src ds x1.
Proof.
  intros St R He Fa. destruct (st_addrs _ _ _ _ _ _ St) as (q & Ha & Hl & Hs). destruct R as [M Lb Lm Ld Ls Lt].
  set (fc := frame_ctl ds x1).
  assert (exists a1 a2 a3, addrs = a1 ++ a2 ++ a3 /\ length a1 = 6%nat /\ length a2 = 6%nat /\ length a3 = 6%nat /\
    frame_dst (if ds =? _TO_DS_ then 2 else if ds =? _FROM_DS_ then 1 else 0) a1 a3 = e_dst (xe x1) /\
    frame_src (if ds =? _TO_DS_ then 2 else if ds =? _FROM_DS_ then 1 else 0) a2 a3 = sent_src ds x1) as (a1 & a2 & a3 & Ea & L1 & L2 & L3 & Ed & Es).
  { unfold hdr_addrs in Ha. destruct (check_fwstate _ WIFI_STATION_STATE); [|destruct (check_fwstate _ WIFI_AP_STATE); [|destruct (_ || _); [|discriminate]]];
      injection Ha as <- <- _; eexists _, _, _; split_and!; try reflexivity; done. }
  destruct (seq_field_read (h_seqnum (xh x2))) as (sc & Rsc & Fsc).
  set (qc := if h_hdrlen (xh x1) =? WLAN_HDR_A3_QOS_LEN then put_le16 (qos_ctl (xh x1)) else []).
  assert (hdr = put_le16 fc ++ [0; 0] ++ (a1 ++ a2 ++ a3) ++ seq_field (h_seqnum (xh x2)) ++ qc) as Eh
    by (rewrite (st_hdr _ _ _ _ _ _ St); unfold wlan_header; by rewrite Ea).
  assert (bytes_ok hdr) as Fh.
  { rewrite Eh, <- Ea. byte_list; try done; try apply put_le16_ok. unfold qc. destruct (h_hdrlen (xh x1) =? WLAN_HDR_A3_QOS_LEN); [apply put_le16_ok | by apply Forall_nil_2]. }
  assert (exists b0 b1, put_le16 fc = [b0; b1] /\ Z.lor b1 0x40 = b1 /\ u16 (Z.lor (Z.shiftl b1 8) b0) = fc /\
    get_tofr_ds fc = (if ds =? _TO_DS_ then 2 else if ds =? _FROM_DS_ then 1 else 0) /\
    (bit_test fc (BIT 10) = false /\ bit_test fc (BIT 14) = true /\ bit_test fc (BIT 15) = false /\ GetFrameType fc = WIFI_DATA_TYPE) /\
    bit_test (get_frame_sub_type fc) (BIT 7) = q /\ fc_addr4 fc = false /\ fc_qos fc = q) as (b0 & b1 & Ef & W & U & T & B & Q & A4 & Fq).
  { unfold fc, frame_ctl. rewrite Hs, (st_mdata _ _ _ _ _ _ St), (proj2 (Z.eqb_neq _ _) He).
    destruct q, (st_ds _ _ _ _ _ _ St) as [-> | [-> | ->]]; eexists _, _; split_and!; reflexivity. }
  assert (hdr_fc hdr = fc) as Hf by (rewrite Eh, Ef; exact U).
  assert (zlen hdr = if q then WLAN_HDR_A3_QOS_LEN else WLAN_HDR_A3_LEN) as Zh by (by rewrite (st_zlen _ _ _ _ _ _ St), (st_len _ _ _ _ _ _ St)).
  exists fc, sc, a1, a2, a3. rewrite T. split; [|auto]. split; rewrite ?Q; auto.
  - eexists _, _. split; [exact Eh|]. auto.
  - intros rest. rewrite Ef. change (le16_get ([b0; b1] ++ rest) 0) with (Ret (u16 (Z.lor (Z.shiftl b1 8) b0))). by rewrite U.
  - rewrite T. destruct (ds =? _TO_DS_); [lia|]. destruct (ds =? _FROM_DS_); lia.
  - intros iv Li Fi. split; auto. rewrite Hf, A4, Fq, Zh. unfold WLAN_HDR_A3_QOS_LEN, WLAN_HDR_A3_LEN. destruct q; lia.
  - rewrite Eh, Ef. cbn [set_iswep alter list_alter app]. unfold set_iswep. cbn [alter list_alter app]. by rewrite W.
Qed.

(** The receiver's view of a window that starts with the header. *)
Lemma header_read f pre hdr rest fc sc a1 a2 a3 :
  rx_mem f = pre ++ hdr ++ rest -> rx_data f = zlen pre -> data_header hdr fc sc a1 a2 a3 ->
  hdr16 f 0 = Ret fc /\ hdr16 f 22 = Ret sc /\ addrs_are a1 a2 a3 f.
Proof.
  intros M D [(two & qc & Eh & L2 & Rs) Rf (L1 & La2 & L3) _ _ _ _ _ _].
  assert (forall k v x post, k = zlen v -> hdr ++ rest = v ++ x ++ post -> length x = 6%nat -> hdr_addr f k = Ret x) as A.
  { intros k v x post -> E Lx. unfold hdr_addr. rewrite M, D, E, (app_assoc pre), <- zlen_app.
    replace 6 with (zlen x) by (unfold zlen; lia). apply rd_slice_app. }
  assert (forall k v t, k = zlen v -> hdr ++ rest = v ++ t -> hdr16 f k = le16_get t 0) as H.
  { intros k v t -> E. unfold hdr16. rewrite M, D, E, (app_assoc pre), <- zlen_app, <- (Z.add_0_r (zlen _)). by apply le16_behind. }
  assert (zlen (put_le16 fc) = 2) as Zf by done. assert (zlen a1 = 6 /\ zlen a2 = 6 /\ zlen a3 = 6) as (Z1 & Z2 & Z3) by (unfold zlen; lia).
  split; [|split; [|unfold addrs_are, Addr1, addr2, Addr3; split_and!]].
  - rewrite (H 0 [] (hdr ++ rest)) by done. rewrite Eh, <- !app_assoc. apply Rf.
  - rewrite (H 22 (put_le16 fc ++ [0; 0] ++ a1 ++ a2 ++ a3) ((two ++ qc) ++ rest)); [rewrite <- app_assoc; apply Rs | rewrite !zlen_app; change (zlen [0; 0]) with 2; lia |].
    by rewrite Eh, <- !app_assoc.
  - apply (A 4 (put_le16 fc ++ [0; 0]) a1 (a2 ++ a3 ++ two ++ qc ++ rest)); [done | by rewrite Eh, <- !app_assoc | done].
  - apply (A 10 (put_le16 fc ++ [0; 0] ++ a1) a2 (a3 ++ two ++ qc ++ rest)); [rewrite !zlen_app; change (zlen [0; 0]) with 2; lia | by rewrite Eh, <- !app_assoc | done].
  - apply (A 16 (put_le16 fc ++ [0; 0] ++ a1 ++ a2) a3 (two ++ qc ++ rest)); [rewrite !zlen_app; change (zlen [0; 0]) with 2; lia | by rewrite Eh, <- !app_assoc | done].
Qed.

(** ** Frames sealed in software *)

(** EtherType and lengths [update_attrib] finds. *)
Lemma attrib_type stack s pkt x x1 s1 :
  update_attrib stack s pkt x = Ret (_SUCCESS, x1, s1) -> 14 <= zlen pkt -> be16_get pkt 12 = Ret (ether_type (xe x1)).
Proof.
  intros H Lp. destruct (update_attrib_ok _ _ _ _ _ _ H) as (i & et & s0 & x0 & x2 & U). cbv zeta in U.
  destruct U as (_ & _ & _ & _ & _ & _ & _ & _ & _ & Ee & Ea & _). destruct (local_be16_full stack pkt Lp) as [_ Et].
  injection Ea as E _ _ _ _. rewrite Et, Ee, E. unfold resolve_addrs. by destruct (bit_test (fw_state _) _).
Qed.

Lemma be16_join a b : 0 <= b < 256 -> Z.lor (Z.shiftl a 8) b = a * 256 + b.
Proof.
  intros Hb. rewrite Z.shiftl_mul_pow2 by lia. change 256 with (2 ^ 8) in *. rewrite <- Z.add_nocarry_lor; [done|].
  apply Z.bits_inj'. intros n Hn. rewrite Z.land_spec, Z.bits_0.
  destruct (Z.ltb_spec n 8); [rewrite Z.mul_pow2_bits_low by lia; done|].
  rewrite <- (Z.mod_small b (2 ^ 8)), Z.mod_pow2_bits_high by lia. apply andb_false_r.
Qed.

Lemma put_be16_get b t : bytes_ok b -> 0 <= t -> be16_get b 12 = Ret t -> 14 <= zlen b -> put_be16 t ++ drop 14 b = drop 12 b.
Proof.
  intros F _ H L. do 14 (destruct b as [|? b]; [unfold zlen in L; cbn [length] in L; lia|]).
  change (be16_get _ _) with (Ret (u16 (Z.lor (Z.shiftl z11 8) z12))) in H. apply Ret_inj in H as <-.
  do 12 (apply Forall_cons in F as [_ F]). apply Forall_cons in F as [B1 F]. apply Forall_cons in F as [B2 _]. unfold is_byte in *.
  cbn [drop]. unfold put_be16.
  rewrite be16_join by done.
  rewrite (u16_small (u16 _)) by (unfold u16, is_u16; apply Z.mod_pos_bound; lia). rewrite u16_small by (unfold is_u16; lia).
  change 255 with (Z.ones 8). rewrite Z.shiftr_div_pow2, Z.land_ones by lia. change (2 ^ 8) with 256. cbn [app].
  f_equal; [|f_equal]; Z.to_euclidean_division_equations; lia.
Qed.

Lemma snap_llc t d : 0 <= t < 65536 -> llc_of (snap_header t ++ d) = true.
Proof.
  intros Ht. unfold snap_header. destruct ((t =? 33079) || (t =? 33011)) eqn:E; cbn [app P802_1H_OUI RFC1042_OUI put_be16 llc_of];
    rewrite (u16_small t) by done.
  - apply orb_true_r.
  - rewrite orb_false_iff in E. destruct E as [E1 E2]. set (t' := u16 _). assert (t' = t) as ->.
    { unfold t'. change 255 with (Z.ones 8). rewrite Z.land_ones, be16_join, Z.shiftr_div_pow2 by (lia || apply Z.mod_pos_bound; lia).
      change (2 ^ 8) with 256. pose proof (Z.div_mod t 256 ltac:(lia)). rewrite u16_small by (unfold is_u16; lia). lia. }
    unfold ETH_P_AARP, ETH_P_IPX. rewrite E1, E2. reflexivity.
Qed.

Lemma enc_code_lens c m key_len : key_len = 16 \/ key_len = 32 ->
  SET_ICE_IV_LEN (enc_code c key_len) = (8, s_mic (suite_of c m key_len)) /\ numbered (enc_code c key_len) = true /\
  is_wep (enc_code c key_len) = false /\ enc_code c key_len <> _TKIP_ /\ 0 < enc_code c key_len /\
  0 <= s_mic (suite_of c m key_len) <= 16.
Proof. intros [-> | ->]; destruct c; repeat split; vm_compute; congruence. Qed.

(** The addresses the header is made of are bytes. *)
Record addr_bytes (s : txs) (x : xattrib) : Prop := {
  ab_bssid : bytes_ok (mybssid (t_adp s));
  ab_dst : bytes_ok (e_dst (xe x));
  ab_src : bytes_ok (e_src (xe x));
  ab_ta : bytes_ok (e_ta (xe x))
}.

Lemma hdr_addrs_bytes s x ds addrs q : addr_bytes s x -> hdr_addrs s x = Some (ds, addrs, q) -> bytes_ok addrs.
Proof. intros []. unfold hdr_addrs. repeat case_match; intros [= <- <- <-]; repeat apply Forall_app_2; done. Qed.

Lemma ether_type_range b t : be16_get b 12 = Ret t -> 0 <= t < 65536.
Proof. unfold be16_get. intros H. rx_inv. subst t. unfold u16. apply Z.mod_pos_bound. lia. Qed.

Lemma snap_header_ok t : zlen (snap_header t) = 8 /\ bytes_ok (snap_header t).
Proof.
  unfold snap_header. destruct ((t =? 33079) || (t =? 33011)); (split; [reflexivity|]);
    (repeat apply Forall_app_2; [| |apply put_be16_ok]); apply (bool_decide_unpack _); vm_compute; exact I.
Qed.

Section Sealed.
Context (amsdu_mode frag_len buf_addr pkt_offset : Z) (vc : vcs_cfg) (c : sw_cipher) (key_len : Z).
Local Abbreviation hw := (hw_hdr_offset pkt_offset).
Local Abbreviation mic := (s_mic (suite_of c amsdu_mode key_len)).

(** A unicast packet that fits one frame, of a station with a CCMP or GCMP
    key, to be encrypted by the driver. *)
Record to_seal (x1 x2 : xattrib) (pkt post : bytes) : Prop := {
  ts_uni : IS_MCAST (e_ra (xe x1)) = false;
  ts_sw : s_bswenc (xs x1) = true;
  ts_enc : s_encrypt (xs x1) = enc_code c key_len;
  ts_key : suite_key (s_UncstKey (xs x1)) key_len;
  ts_frag : 256 <= frag_len < 2 ^ 31;
  ts_len : 14 <= zlen pkt;
  ts_bytes : bytes_ok pkt;
  ts_fits : zlen pkt - 14 <= capacity frag_len x2 true;
  ts_room : frag_len + hw <= WLANHDR_OFFSET + zlen post
}.

Lemma coalesce_sealed stack s pkt x x1 s1 pre room post m1 x2 s2 :
  update_attrib stack s pkt x = Ret (_SUCCESS, x1, s1) -> tx_ready s x -> length (s_icv (xs x)) = 16%nat -> addr_bytes s1 x1 ->
  zlen pre = hw -> zlen room = WLANHDR_OFFSET -> rtw_make_wlanhdr s1 (pre ++ room ++ post) hw x1 = Ret (_SUCCESS, m1, x2, s2) ->
  to_seal x1 x2 pkt post ->
  exists ds addrs hdr iv crypt v x3, let fr := hdr ++ iv ++ crypt in
    started s1 x1 x2 ds addrs hdr /\
    rtw_xmitframe_coalesce amsdu_mode frag_len buf_addr pkt_offset vc s1 x1 pkt (Some (pre ++ room ++ post))
    = Ret (_SUCCESS, Some (pre ++ fr ++ v), x3, s2) /\
    c_nr_frags (xc x3) = 1 /\ c_last_txcmdsz (xc x3) = zlen fr /\ zlen iv = 8 /\
    zlen crypt = zlen pkt - 6 + mic /\
    forall rpre rpost,
      sw_decrypt_frame c amsdu_mode (s_UncstKey (xs x1)) key_len (zlen hdr) (rpre ++ fr ++ rpost) (zlen rpre) (zlen fr)
      = Ret (_SUCCESS, rpre ++ hdr ++ iv ++ (snap_header (ether_type (xe x1)) ++ drop 14 pkt) ++ drop (Z.to_nat (zlen pkt - 6)) crypt ++ rpost).
Proof.
  intros H R Li Ab Lp Lr Hm [Hu Hsw He Hk Hfl Hp Fp Hc Hroom]. rewrite <- Lp in Hm.
  destruct (frame_started _ _ _ _ _ _ _ _ _ _ _ _ H R Li Lr Hm) as (ds & addrs & hdr & room' & St & Em & Lr' & Ad & _). rewrite Lp in Hm.
  destruct (loop_started frag_len buf_addr pkt_offset s1 x1 x2 ds addrs hdr pkt 0 pre room' post St Hu Hfl Hp Lr' Lp) as (chunks & R' & E & Q1 & Q2 & Q3 & Q4); [lia..|].
  pose proof (st_xs _ _ _ _ _ _ St) as Xs. pose proof (st_xe _ _ _ _ _ _ St) as Xe. pose proof (st_fits _ _ _ _ _ _ St) as Sf.
  destruct (enc_code_lens c amsdu_mode key_len (proj1 Hk)) as (El & En & Ew & Ent & Epos & Hmic). rewrite <- He, <- Xs in El, En, Ew, Ent, Epos.
  destruct (st_num _ _ _ _ _ _ St En) as [Es (pn & kid & Eiv)]. rewrite El in Es. apply pair_inj in Es as [Eil Ecl].
  assert (chunks = [drop 14 pkt]) as ->.
  { destruct chunks as [|d [|d' cs]]; [done| |rewrite !zlen_cons in Q4; pose proof (zlen_nonneg cs); lia]. cbn in Q1. by rewrite app_nil_r in Q1; subst d. }
  clear Q1 Q3 Q4. cbn [frags_at] in Q2. destruct Q2 as (u & v & Eb & Lu).
  set (iv := s_iv (xs x2)) in *. assert (zlen iv = 8 /\ bytes_ok iv) as [Ziv Fiv].
  { rewrite Eiv. unfold iv_of. unfold is_wep in Ew. rewrite Ew. apply Z.eqb_neq in Ent. rewrite Ent. apply AES_IV_ok. }
  set (data := snap_header (ether_type (xe x2)) ++ drop 14 pkt). set (old := sealed_room x2) in *.
  assert (zlen old = mic) as Lo by (unfold old; rewrite sealed_room_len, Xs, Hsw by done; rewrite <- Ecl; by rewrite Xs).
  assert (zlen (drop 14 pkt) = zlen pkt - 14) as Ld by (unfold zlen in *; rewrite length_drop; lia).
  destruct (snap_header_ok (ether_type (xe x2))) as [Lsn Fsn].
  assert (zlen data = zlen pkt - 6) as Zd by (unfold data; rewrite zlen_app, Ld, Lsn; lia).
  assert (frag_body x2 true (drop 14 pkt) = iv ++ data ++ old) as Ebody.
  { unfold frag_body, data. rewrite Eil. fold iv. rewrite (take_ge iv) by (unfold zlen in *; lia). by rewrite <- !app_assoc. }
  rewrite Ebody in Eb. set (f := mk_txfrag hdr iv data old []).
  destruct (update_attrib_hdr _ _ _ _ _ _ H R) as (_ & _ & _ & _ & _ & _ & _ & R1 & _).
  destruct (st_addrs _ _ _ _ _ _ St) as (q & Ha & _). pose proof (hdr_addrs_bytes _ _ _ _ _ Ab Ha) as Fa.
  destruct (started_header s1 x1 x2 ds addrs hdr St R1) as (fc & sc & a1 & a2 & a3 & Dh & _); [rewrite <- Xs; lia | exact Fa |].
  assert (bytes_ok data) as Fd.
  { unfold data. apply Forall_app_2; [done | by apply Forall_drop]. }
  pose proof (dh_ok _ _ _ _ _ _ Dh iv Ziv Fiv) as Hok. pose proof (zlen_nonneg hdr). pose proof (st_zlen _ _ _ _ _ _ St) as Zh.
  assert (zlen hdr + zlen data + 24 < 2 ^ 32) as Hsz by (unfold capacity in Hc; destruct (s_bswenc (xs x2)); pose proof (sf_iv _ Sf); pose proof (sf_icv _ Sf); lia).
  destruct (sw_img_spec c amsdu_mode (s_UncstKey (xs x1)) key_len f u v Hk) as (crypt & Zc & Ei & Ee & Edec); [by split|done|].
  cbn [f fr_hdr fr_iv fr_data fr_gap] in *. assert (marked (suite_of c amsdu_mode key_len) hdr = hdr) as Emk.
  { unfold marked. destruct (s_iswep _); [apply (dh_wep _ _ _ _ _ _ Dh) | done]. }
  rewrite Emk in *. rewrite app_nil_r in Ei.
  set (x3 := set_cmd x2 (mk_tcmd 1 (last_size x2 true [drop 14 pkt]) (vcs_mode (xc x2)))).
  assert (last_size x2 true [drop 14 pkt] = zlen (hdr ++ iv ++ crypt)) as Els.
  { unfold last_size. change (zlen [drop 14 pkt] =? 1) with true. cbn [andb List.last]. rewrite !zlen_app, Zc, Eil, <- Zh, Ecl, Xs, Hsw, Ziv. lia. }
  exists ds, addrs, hdr, iv, crypt, v, (update_attrib_vcs_info frag_len vc s2 x3). cbv zeta. split; [done|].
  split; [|split_and!; [done | exact Els | exact Ziv | lia |]].
  - unfold rtw_xmitframe_coalesce. rewrite Hm, bind_Ret. change (_SUCCESS =? _FAIL) with false. cbv iota.
    rewrite Em, E, bind_Ret. change (zlen [drop 14 pkt]) with 1. fold x3. unfold xmitframe_addmic. change (xs x3) with (xs x2).
    rewrite (proj2 (Z.eqb_neq _ _) Ent). cbn [negb]. rewrite bind_Ret. change (_SUCCESS =? _FAIL) with false. cbv iota.
    rewrite (swencrypt_sw_tx c amsdu_mode frag_len buf_addr _ key_len)
      by first [apply Hk | (change (bswenc (matt_of x3)) with (s_bswenc (xs x2)); by rewrite Xs) | (change (s_encrypt (xs x2) = enc_code c key_len); by rewrite Xs)].
    rewrite (sw_tx_eq c amsdu_mode key_len)
      by first [apply Hk | (change (s_encrypt (xs x2) = enc_code c key_len); by rewrite Xs) | (change (IS_MCAST (e_ra (xe x2)) = false); by rewrite Xe)].
    change (Z.to_nat (nr_frags (pa (matt_of x3)))) with 1%nat. cbn [encrypt_frags].
    change (tx_UncstKey (pa (matt_of x3))) with (s_UncstKey (xs x2)). change (tx_hdrlen (pa (matt_of x3))) with (h_hdrlen (xh x2)). rewrite Xs, <- Zh.
    assert (frag_payload (pa (matt_of x3)) frag_len 0 = zlen data) as ->.
    { change (frag_payload (pa (matt_of x3)) frag_len 0) with (last_size x2 true [drop 14 pkt] - h_hdrlen (xh x2) - s_iv_len (xs x2) - s_icv_len (xs x2)).
      rewrite Els, !zlen_app, Eil, Ecl, <- Zh, Ziv, Zc. lia. }
    rewrite u32_small by (unfold is_u32; lia).
    replace (pre ++ R') with (u ++ plain_img f ++ v) by (rewrite Eb; unfold plain_img, frag_img, f; cbn [fr_hdr fr_iv fr_data fr_old fr_gap]; by rewrite app_nil_r, <- !app_assoc).
    rewrite Lu, Ee, Ei, !bind_Ret. cbn [snd]. change (xe x3) with (xe x2). rewrite Xe, Hu.
    assert (u = pre) as ->; [|reflexivity].
    apply (f_equal (take (length u))) in Eb. rewrite take_app_length in Eb. rewrite <- Eb. rewrite take_app_le, take_ge by (unfold zlen in *; lia). done.
  - intros rpre rpost. pose proof (Edec rpre rpost) as D. rewrite <- Xe. fold data. rewrite <- Zd.
    replace (Z.to_nat (zlen data)) with (length data) by (unfold zlen; lia).
    replace (zlen (hdr ++ iv ++ crypt)) with (zlen hdr + 8 + zlen crypt) by (rewrite !zlen_app; lia). rewrite <- !app_assoc in *. exact D.
Qed.
End Sealed.

(** ** Across *)

(** The receiver of a frame from the window [rpre fr rpost]: it accepts the
    frame, has a pairwise key that starts with the same [key_len] bytes, and
    the hardware has not decrypted the frame. *)
Record receiver (c : sw_cipher) (key_len : Z) (key : bytes) (r : rxs) (o : rx_out) (rpre fr rpost : bytes) : Prop := {
  rc_win : frame_win (frm r) rpre fr rpost;
  rc_valid : validate_recv_frame r = Ret o;
  rc_ok : ret o = _SUCCESS;
  rc_mp : check_fwstate (adp r) WIFI_MP_STATE = false;
  rc_enc : encrypt (att (st o)) = enc_code c key_len;
  rc_hw : bdecrypted (att (st o)) = 0;
  rc_uni : IS_MCAST (ra (att (st o))) = false;
  rc_key : exists i, get_sta (st o) (ta (att (st o))) = Some i /\
    suite_key (dot118021x_UncstKey (sta_entry (st o) i)) key_len /\
    take (Z.to_nat key_len) (dot118021x_UncstKey (sta_entry (st o) i)) = take (Z.to_nat key_len) key
}.

Lemma decryptor_sw c m key_len s d i iv3 fc :
  key_len = 16 \/ key_len = 32 -> encrypt (att s) = enc_code c key_len -> bdecrypted (att s) = 0 -> IS_MCAST (ra (att s)) = false ->
  rd (rx_mem (frm s)) (rx_data (frm s) + hdrlen (att s) + 3) = Ret iv3 -> hdr16 (frm s) 0 = Ret fc ->
  get_sta s (ta (att s)) = Some i ->
  sw_decrypt_frame c m (dot118021x_UncstKey (sta_entry s i)) key_len (hdrlen (att s)) (rx_mem (frm s)) (rx_data (frm s)) (len (frm s)) = Ret (_SUCCESS, d) ->
  exists s' k, decryptor (rtw_aes_decrypt m) (rtw_gcmp_decrypt m) s = Ret (Some s') /\
    frm s' = set_mem (set_attrib (frm s) (set_bdecrypted (set_key_index (att s) k) 1)) d /\ stapriv (adp s') = stapriv (adp s).
Proof.
  intros Hk He Hb Hm Hiv Hfc Hi Hd. destruct (enc_code_lens c m key_len Hk) as (_ & _ & _ & _ & Epos & _).
  unfold decryptor. rewrite He. destruct (Z.ltb_spec 0 (enc_code c key_len)); [|lia]. rewrite Hiv, !bind_Ret.
  set (k := if WEP_KEYS <? _ then _ else _). set (s1 := with_att s (set_key_index (att s) k)).
  change (encrypt (att s1)) with (encrypt (att s)). change (bdecrypted (att s1)) with (bdecrypted (att s)). rewrite He, Hb.
  destruct (Z.eqb_spec (enc_code c key_len) 0); [lia|]. cbn [negb andb Z.eqb]. change (hdr16 (frm s1) 0) with (hdr16 (frm s) 0). rewrite Hfc, bind_Ret.
  set (s2 := if GetFrameType fc =? WIFI_DATA_TYPE then _ else s1).
  assert (frm s2 = frm s1 /\ stapriv (adp s2) = stapriv (adp s)) as [Ef Es] by (unfold s2; destruct (GetFrameType fc =? WIFI_DATA_TYPE); done).
  assert (sw_decrypt (rtw_aes_decrypt m) (rtw_gcmp_decrypt m) s2 = sw_rx c m s2) as ->.
  { apply (sw_decrypt_sw_rx c m key_len); [done|]. unfold att. by rewrite Ef. }
  rewrite (sw_rx_eq c m key_len s2 (dot118021x_UncstKey (sta_entry s i)) Hk).
  - unfold att. rewrite Ef. cbn [s1 with_att with_frm frm attrib set_attrib hdrlen set_key_index rx_mem rx_data len].
    change (hdrlen (attrib (frm s))) with (hdrlen (att s)). rewrite Hd, !bind_Ret. cbn [fst snd]. change (_SUCCESS =? _FAIL) with false. cbv iota.
    eexists _, k. split; [reflexivity|]. split; [reflexivity|]. exact Es.
  - unfold att. rewrite Ef. exact He.
  - unfold att. rewrite Ef. exact Hm.
  - exists i. unfold get_sta, sta_entry, att. rewrite Ef, Es. by split.
Qed.

(** A decrypted frame that is no fragment is delivered as it is. *)
Lemma whole_frame_delivered c key_len s :
  key_len = 16 \/ key_len = 32 -> encrypt (att s) = enc_code c key_len -> mfrag (att s) = 0 -> frag_num (att s) = 0 -> get_sta s (ta (att s)) <> None ->
  exists s', recvframe_chk_defrag s = Ret (Some (frm s), s').
Proof.
  intros Hk He Hm Hf Hs. unfold recvframe_chk_defrag, defrag_owner. change (attrib (frm s)) with (att s).
  destruct (get_sta s (ta (att s))) as [i|]; [|done]. rewrite Hm, Hf, bind_Ret. cbn [Z.eqb andb negb]. unfold mic_after_defrag.
  change (attrib (frm s)) with (att s). destruct (privacy (att s) =? 0); [by eexists|].
  unfold recvframe_chkmic. change (att (with_frm s (frm s))) with (att s). rewrite He.
  destruct (enc_code_lens c 0 key_len Hk) as (_ & _ & _ & Ent & _). rewrite (proj2 (Z.eqb_neq _ _) Ent), bind_Ret. by eexists.
Qed.

(** What the receive path makes of a sealed frame. *)
Lemma sealed_received c m key_len key hdr iv crypt fc sc a1 a2 a3 t d r o rpre rpost :
  let fr := hdr ++ iv ++ crypt in
  receiver c key_len key r o rpre fr rpost -> suite_key key key_len -> data_header hdr fc sc a1 a2 a3 -> zlen iv = 8 ->
  0 <= t < 65536 -> zlen crypt = zlen d + 8 + s_mic (suite_of c m key_len) ->
  sw_decrypt_frame c m key key_len (zlen hdr) (rpre ++ fr ++ rpost) (zlen rpre) (zlen fr)
  = Ret (_SUCCESS, rpre ++ hdr ++ iv ++ (snap_header t ++ d) ++ drop (Z.to_nat (zlen d + 8)) crypt ++ rpost) ->
  exists s' f s'' f' pre' post', decryptor (rtw_aes_decrypt m) (rtw_gcmp_decrypt m) (st o) = Ret (Some s') /\
    recvframe_chk_defrag s' = Ret (Some f, s'') /\
    rtw_recv_llc_parse (rx_mem f) (rx_data f + hdrlen (attrib f) + iv_len (attrib f)) (zlen (snap_header t ++ d)) = Ret true /\
    len f - hdrlen (attrib f) - iv_len (attrib f) - icv_len (attrib f) = zlen (snap_header t ++ d) /\
    wlanhdr_to_ethhdr f true = Ret (_SUCCESS, f') /\
    frame_win f' pre' ((frame_dst (get_tofr_ds fc) a1 a3 ++ frame_src (get_tofr_ds fc) a2 a3) ++ put_be16 t ++ d) post'.
Proof.
  intros fr [W Hv Ho Hmp He Hb Hu (i & Hi & Hk & Ha)] Hkey Dh Zi Ht Zc Hd.
  destruct (snap_header_ok t) as [Ls _]. pose proof (proj1 Hk) as Hkl. destruct (enc_code_lens c m key_len Hkl) as (El & _ & _ & _ & Epos & Hmic).
  destruct W as [Wm Wd Wt Wl Ws]. pose proof (dh_bits _ _ _ _ _ _ Dh) as (B10 & B14 & B15 & _).
  destruct (header_read (frm r) rpre hdr ((iv ++ crypt) ++ rpost) fc sc a1 a2 a3) as (Rf & Rs & Ra); [by rewrite Wm; unfold fr; rewrite <- !app_assoc | done | done |].
  destruct (validate_attrs r o fc sc a1 a2 a3 Hv Ho Rf Rs Ra (dh_ds _ _ _ _ _ _ Dh) Hmp B15) as (a0 & [Fh Fd Fs Fr Ft Ff Fp Fi] & K & D0 & Q0 & P0 & M0 & N0).
  rewrite B14 in P0. rewrite B10 in M0. rewrite (dh_frag _ _ _ _ _ _ Dh) in N0. rewrite P0 in Fi. specialize (Fi ltac:(discriminate)).
  rewrite He, El in Fi. apply pair_inj in Fi as [Il Cl].
  assert (mfrag (att (st o)) = 0 /\ frag_num (att (st o)) = 0) as [Mf Nf] by (rewrite M0, N0 in Ff; injection Ff as -> -> _; done).
  assert (hdrlen (att (st o)) = zlen hdr) as Hl.
  { rewrite Fh, Q0, (dh_zlen _ _ _ _ _ _ Dh). by destruct (bit_test _ (BIT 7)). }
  destruct K as (Km & Kd & Kt & Kl & _). cbn [frm with_att with_frm rx_mem rx_data rx_tail len set_attrib] in Km, Kd, Kt, Kl.
  pose proof (zlen_nonneg hdr). pose proof (zlen_nonneg d). pose proof (zlen_nonneg rpre). pose proof (zlen_nonneg crypt).
  destruct (rd_in_bounds (rx_mem (frm (st o))) (rx_data (frm (st o)) + hdrlen (att (st o)) + 3)) as (iv3 & Ri & _).
  { rewrite Km, Kd, Hl, Wm, Wd. unfold fr. rewrite !zlen_app. pose proof (zlen_nonneg rpost). lia. }
  assert (hdr16 (frm (st o)) 0 = Ret fc) as Rf' by (unfold hdr16; rewrite Km, Kd; exact Rf).
  set (out := rpre ++ hdr ++ iv ++ _) in Hd. destruct (decryptor_sw c m key_len (st o) out i iv3 fc Hkl He Hb Hu Ri Rf' Hi) as (s' & k & Ed & Ef & Es).
  { rewrite (decrypt_agree c m _ key) by done. rewrite Km, Kd, Kl, Hl, Wm, Wd, Wl. exact Hd. }
  assert (att s' = set_bdecrypted (set_key_index (att (st o)) k) 1) as As by (unfold att; rewrite Ef; reflexivity).
  destruct (whole_frame_delivered c key_len s' Hkl) as (s'' & Ew); [by rewrite As | by rewrite As | by rewrite As | |].
  { rewrite As. unfold get_sta. rewrite Es. change (ta _) with (ta (att (st o))). unfold get_sta in Hi. by rewrite Hi. }
  assert (zlen (drop (Z.to_nat (zlen d + 8)) crypt) = s_mic (suite_of c m key_len)) as Lt by (unfold zlen in *; rewrite length_drop; lia).
  assert (frame_win (frm s') rpre ((hdr ++ iv) ++ (take 6 (snap_header t) ++ drop 6 (snap_header t) ++ d) ++ drop (Z.to_nat (zlen d + 8)) crypt) rpost) as W'.
  { rewrite Ef. rewrite (app_assoc (take 6 _)), take_drop.
    assert (zlen ((hdr ++ iv) ++ (snap_header t ++ d) ++ drop (Z.to_nat (zlen d + 8)) crypt) = zlen fr) as Zf.
    { unfold fr. rewrite !zlen_app, Ls, Lt. lia. }
    split; cbn [rx_mem rx_data rx_tail len set_mem set_attrib]; rewrite ?Zf; try congruence.
    - unfold out. by rewrite <- !app_assoc.
    - rewrite (zlen_app rpre), (zlen_app _ rpost), Zf. rewrite (zlen_app rpre), (zlen_app fr) in Ws. exact Ws. }
  assert (hdrlen (attrib (frm s')) = zlen hdr /\ iv_len (attrib (frm s')) = 8 /\ icv_len (attrib (frm s')) = s_mic (suite_of c m key_len) /\
    encrypt (attrib (frm s')) = enc_code c key_len /\ dst (attrib (frm s')) = frame_dst (get_tofr_ds fc) a1 a3 /\
    src (attrib (frm s')) = frame_src (get_tofr_ds fc) a2 a3) as (Gh & Gi & Gc & Ge & Gd & Gs)
    by (change (attrib (frm s')) with (att s'); rewrite As, <- D0, <- Fd, <- Fs; split_and!; assumption || reflexivity).
  destruct (dh_len _ _ _ _ _ _ Dh) as (L1 & L2 & L3). assert (24 <= zlen hdr) as H24
    by (rewrite (dh_zlen _ _ _ _ _ _ Dh); destruct (bit_test _ (BIT 7)); vm_compute; discriminate).
  assert (length (take 6 (snap_header t)) = 6%nat) as L6 by (rewrite length_take; unfold zlen in Ls; lia).
  assert (drop 6 (snap_header t) = put_be16 t) as E6 by (unfold snap_header; destruct ((t =? 33079) || (t =? 33011)); reflexivity).
  destruct (eth_llc (frm s') rpre (hdr ++ iv) (take 6 (snap_header t)) (drop 6 (snap_header t) ++ d) (drop (Z.to_nat (zlen d + 8)) crypt) rpost W') as (f' & pre' & E1 & W1).
  { rewrite Gh, Gi, zlen_app. lia. }
  { rewrite zlen_app. lia. }
  { unfold zlen. by rewrite L6. }
  { rewrite Ge, Gc, Lt. by destruct (Z.eqb_spec (enc_code c key_len) 0); [lia|]. }
  { rewrite Gd. unfold frame_dst. by destruct (get_tofr_ds fc =? 2). }
  { rewrite Gs. unfold frame_src. by destruct (get_tofr_ds fc =? 1). }
  exists s', (frm s'), s'', f', pre'. eexists. split; [exact Ed|]. split; [exact Ew|]. rewrite Gh, Gi, Gc. split_and!.
  - destruct W' as [Mm Md _ _ _]. rewrite Mm, Md. rewrite (app_assoc (take 6 _)), take_drop, <- !app_assoc.
    rewrite !app_assoc, <- (app_assoc _ (drop (Z.to_nat _) crypt)), <- (app_assoc _ (snap_header t) d).
    replace (zlen rpre + zlen hdr + 8) with (zlen ((rpre ++ hdr) ++ iv)) by (rewrite !zlen_app; lia).
    rewrite <- (app_assoc ((rpre ++ hdr) ++ iv)), llc_parse_spec. f_equal. by apply snap_llc.
  - rewrite (ho_len _ _ _ _ W'), (app_assoc (take 6 _)), take_drop, !zlen_app, Lt. lia.
  - exact E1.
  - rewrite Gd, Gs, E6 in W1. exact W1.
Qed.

(** C7: A packet crosses the air: a unicast packet of the network stack that
    fits one frame, for a station with a CCMP or GCMP key, encrypted by the
    driver, makes [rtw_xmitframe_coalesce] succeed with one frame of
    [last_txcmdsz] bytes behind the descriptor.  Whatever receiver (station,
    access point or ad-hoc) accepts that frame in [validate_recv_frame] and
    has the same pairwise key, its [decryptor], [recvframe_chk_defrag], LLC
    parse and [wlanhdr_to_ethhdr] succeed, and the delivered Ethernet frame is
    the destination address, the source (or transmitter) address and the
    packet from its type field on. *)
Theorem packet_crosses amsdu_mode frag_len buf_addr pkt_offset vc c key_len stack s pkt x x1 s1 pre room post m1 x2 s2 :
  update_attrib stack s pkt x = Ret (_SUCCESS, x1, s1) -> tx_ready s x -> length (s_icv (xs x)) = 16%nat -> addr_bytes s1 x1 ->
  zlen pre = hw_hdr_offset pkt_offset -> zlen room = WLANHDR_OFFSET ->
  rtw_make_wlanhdr s1 (pre ++ room ++ post) (hw_hdr_offset pkt_offset) x1 = Ret (_SUCCESS, m1, x2, s2) ->
  to_seal frag_len pkt_offset c key_len x1 x2 pkt post ->
  exists mem x3 ds fr,
    rtw_xmitframe_coalesce amsdu_mode frag_len buf_addr pkt_offset vc s1 x1 pkt (Some (pre ++ room ++ post)) = Ret (_SUCCESS, Some mem, x3, s2) /\
    (exists addrs q, hdr_addrs s1 x1 = Some (ds, addrs, q)) /\
    region mem (hw_hdr_offset pkt_offset) fr /\ c_nr_frags (xc x3) = 1 /\ c_last_txcmdsz (xc x3) = zlen fr /\
    forall r o rpre rpost, receiver c key_len (s_UncstKey (xs x1)) r o rpre fr rpost ->
      exists r1 f r2 f' pre' post', decryptor (rtw_aes_decrypt amsdu_mode) (rtw_gcmp_decrypt amsdu_mode) (st o) = Ret (Some r1) /\
        recvframe_chk_defrag r1 = Ret (Some f, r2) /\
        rtw_recv_llc_parse (rx_mem f) (rx_data f + hdrlen (attrib f) + iv_len (attrib f))
          (len f - hdrlen (attrib f) - iv_len (attrib f) - icv_len (attrib f)) = Ret true /\
        wlanhdr_to_ethhdr f true = Ret (_SUCCESS, f') /\
        frame_win f' pre' ((e_dst (xe x1) ++ sent_src ds x1) ++ drop 12 pkt) post'.
Proof.
  intros H R Li Ab Lp Lr Hm T.
  destruct (coalesce_sealed amsdu_mode frag_len buf_addr pkt_offset vc c key_len stack s pkt x x1 s1 pre room post m1 x2 s2 H R Li Ab Lp Lr Hm T)
    as (ds & addrs & hdr & iv & crypt & v & x3 & St & E & N1 & N2 & Zi & Zc & D).
  destruct T as [_ _ He Hk _ Hp Fp _ _]. destruct (update_attrib_hdr _ _ _ _ _ _ H R) as (_ & _ & _ & _ & _ & _ & _ & R1 & _).
  destruct (enc_code_lens c amsdu_mode key_len (proj1 Hk)) as (_ & _ & _ & _ & Epos & _).
  destruct (st_addrs _ _ _ _ _ _ St) as (q & Ha & _). pose proof (hdr_addrs_bytes _ _ _ _ _ Ab Ha) as Fa.
  destruct (started_header s1 x1 x2 ds addrs hdr St R1) as (fc & sc & a1 & a2 & a3 & Dh & _ & Ed & Es); [lia | exact Fa |].
  exists (pre ++ (hdr ++ iv ++ crypt) ++ v), x3, ds, (hdr ++ iv ++ crypt). split; [exact E|]. split; [by exists addrs, q|].
  split; [exists pre, v; split; [done | by rewrite Lp]|]. split; [exact N1|]. split; [exact N2|]. intros r o rpre rpost Rc.
  pose proof (attrib_type _ _ _ _ _ _ H Hp) as Ht. pose proof (ether_type_range _ _ Ht) as Tr.
  assert (zlen (drop 14 pkt) = zlen pkt - 14) as Zd by (unfold zlen in *; rewrite length_drop; lia).
  destruct (sealed_received c amsdu_mode key_len (s_UncstKey (xs x1)) hdr iv crypt fc sc a1 a2 a3 (ether_type (xe x1)) (drop 14 pkt) r o rpre rpost Rc Hk Dh Zi Tr)
    as (r1 & f & r2 & f' & pre' & post' & X1 & X2 & X3 & X4 & X5 & X6); [lia | by replace (zlen (drop 14 pkt) + 8) with (zlen pkt - 6) by lia |].
  exists r1, f, r2, f', pre', post'. rewrite X4. rewrite Ed, Es, put_be16_get in X6 by first [done | lia]. auto.
Qed.

(** *** Example: from a station to its access point *)

Definition xp_seal : txs := mk_txs mp_adapter (replicate 32 xa_info) (mk_txcfg true [] 4 false true 0 true) [].

(** The access point: the station is its second entry. *)
Definition xp_ap : adapter :=
  let p := foldl (sta_step false) (_rtw_init_sta_priv 32 [0; 0; 0; 0]) [OpAlloc bc_addr; OpAlloc ex_me] in
  mk_adapter (mk_stapriv (alter mp_sta 1%nat (stainfo_buf p)) (free_sta_queue p) (sta_hash p) (asoc_sta_count p) (auth_list p)
       (auth_list_cnt p) (sta_aid p) (max_aid p) (started_aid p) (rr_aid p) (max_num_sta p) (sta_dz_bitmap p) (tim_bitmap p) (accnt p))
    (mk_rxsec (mk_sec 0 [] [] 0 [] false) 2 4 4 [] false true false (replicate 4 (replicate 8 0)))
    17 ex_ap ex_ap 0 false 0 0 0.

Definition xp_rx (fr : bytes) : rxs :=
  mk_rxs xp_ap (mk_frame (mk_attrib 0 0 0 0 0 0 0 0 0 0 0 0 0 0 [] [] [] [] [] 0 0) fr 0 (zlen fr) (zlen fr) 0) [].

(** The packet arrives as it was sent. *)
Lemma packet_crosses_witness :
  exists x1 s1 mem x3 s3 fr o r1 f r2 f' pre' post', update_attrib no_stack xp_seal xa_ipv4 xattrib_0 = Ret (_SUCCESS, x1, s1) /\
    rtw_xmitframe_coalesce 0 2346 4096 1 xp_vcs s1 x1 xa_ipv4 (Some (replicate 48 0 ++ replicate 64 0 ++ replicate 2400 0)) = Ret (_SUCCESS, Some mem, x3, s3) /\
    region mem 48 fr /\ validate_recv_frame (xp_rx fr) = Ret o /\
    decryptor (rtw_aes_decrypt 0) (rtw_gcmp_decrypt 0) (st o) = Ret (Some r1) /\ recvframe_chk_defrag r1 = Ret (Some f, r2) /\
    wlanhdr_to_ethhdr f true = Ret (_SUCCESS, f') /\ frame_win f' pre' xa_ipv4 post'.
Proof.
  destruct (update_attrib no_stack xp_seal xa_ipv4 xattrib_0) as [[[r1 x1] s1]| |] eqn:E1; [|vm_compute in E1; discriminate..].
  assert (r1 = _SUCCESS) as -> by (vm_compute in E1; injection E1 as <- _ _; reflexivity).
  destruct (rtw_make_wlanhdr s1 (replicate 48 0 ++ replicate 64 0 ++ replicate 2400 0) 48 x1) as [[[[r2 m2] x2] s2]| |] eqn:E2;
    [|vm_compute in E1; injection E1 as <- <-; vm_compute in E2; discriminate..].
  assert (r2 = _SUCCESS /\ addr_bytes s1 x1 /\ to_seal 2346 1 CCMP 16 x1 x2 xa_ipv4 (replicate 2400 0) /\ (e_dst (xe x1) ++ sent_src _TO_DS_ x1) ++ drop 12 xa_ipv4 = xa_ipv4 /\
    (forall ds addrs q, hdr_addrs s1 x1 = Some (ds, addrs, q) -> ds = _TO_DS_) /\
    (forall mem x3 s3 fr, rtw_xmitframe_coalesce 0 2346 4096 1 xp_vcs s1 x1 xa_ipv4 (Some (replicate 48 0 ++ replicate 64 0 ++ replicate 2400 0)) = Ret (_SUCCESS, Some mem, x3, s3) ->
       fr = take (Z.to_nat (c_last_txcmdsz (xc x3))) (drop 48 mem) -> exists o, receiver CCMP 16 (s_UncstKey (xs x1)) (xp_rx fr) o [] fr [])) as (-> & A1 & A2 & A3 & A4 & A5).
  { vm_compute in E1. injection E1 as <- <-. vm_compute in E2. injection E2 as <- _ <- _. split; [reflexivity|]. split; [split; by_eval|].
    split; [split; try reflexivity; try (vm_compute; discriminate); by_eval|]. split; [reflexivity|].
    split; [intros ds addrs q E; vm_compute in E; injection E as <- _ _; reflexivity|].
    intros mem x3 s3 fr E Efr. vm_compute in E. injection E as <- <- _. vm_compute in Efr.
    destruct (validate_recv_frame (xp_rx fr)) as [o| |] eqn:Ev; [|subst fr; vm_compute in Ev; discriminate..]. exists o. subst fr.
    vm_compute in Ev. injection Ev as <-. split; try reflexivity; [split; reflexivity|]. exists 1%nat. repeat split; try by_eval; by left. }
  destruct (packet_crosses 0 2346 4096 1 xp_vcs CCMP 16 no_stack xp_seal xa_ipv4 xattrib_0 x1 s1 (replicate 48 0) (replicate 64 0) (replicate 2400 0) m2 x2 s2 E1)
    as (mem & x3 & ds & fr & E & (addrs & q & Hds) & Rg & _ & N & K);
    [split; vm_compute; reflexivity | reflexivity | exact A1 | reflexivity | reflexivity | exact E2 | exact A2 |].
  destruct (A5 mem x3 s2 fr E) as (o & Rc).
  { destruct Rg as (p & q' & -> & Lp). rewrite N. change (hw_hdr_offset 1) with 48 in Lp. unfold zlen in *. rewrite Nat2Z.id.
    replace 48%nat with (length p) by lia. by rewrite drop_app_length, take_app_length. }
  apply A4 in Hds as ->. destruct (K (xp_rx fr) o [] [] Rc) as (r1 & f & r2 & f' & pre' & post' & X1 & X2 & _ & X4 & X5). rewrite A3 in X5.
  exists x1, s1, mem, x3, s2, fr, o, r1, f, r2, f', pre', post'. destruct Rc as [_ Rv _ _ _ _ _ _]. repeat (split; [assumption || reflexivity|]). assumption.
Defined.
