(* ===== verification/Bitmap.v ===== *)
(** * Bitmaps of association ids (core/rtw_wlan_util.c)

    Lemmas on the bitmap operations of StaMgt.v that the traffic maps of
    Beacon.v and PowerSave.v are proved with: a bitmap of [bmp_len] bytes is
    the set of the ids below [8 * bmp_len] whose bit is one. *)

From S2P Require Import Prelude StaMgt.

Definition map_ok (bmp : bytes) (bmp_len : Z) : Prop := zlen bmp = bmp_len /\ bytes_ok bmp.

Lemma byte_bits x k : is_byte x -> 8 <= k -> Z.testbit x k = false.
Proof.
  intros [H0 H1] Hk. destruct (decide (x = 0)) as [->|N]; [apply Z.bits_0|].
  apply Z.bits_above_log2; [lia|]. apply Z.log2_lt_pow2; [lia|]. apply Z.lt_le_trans with (2 ^ 8); [lia|]. by apply Z.pow_le_mono_r.
Qed.

Lemma znth_byte b i : bytes_ok b -> is_byte (znth b i).
Proof.
  intros H. unfold znth. destruct (nth_in_or_default (Z.to_nat i) b 0) as [I | ->]; [|done].
  rewrite Forall_forall in H. apply H. by apply list_elem_of_In.
Qed.

Lemma znth_insert b i j x : 0 <= i < zlen b -> 0 <= j -> znth (<[Z.to_nat i := x]> b) j = if j =? i then x else znth b j.
Proof.
  intros Hi Hj. unfold zlen in Hi. unfold znth. rewrite !nth_lookup. destruct (Z.eqb_spec j i) as [->|N].
  - by rewrite list_lookup_insert_eq by lia.
  - by rewrite list_lookup_insert_ne by lia.
Qed.

Section Ops.
Context (bmp : bytes) (len : Z) (Hm : map_ok bmp len).

Lemma map_ok_set id : 0 <= id -> map_ok (rtw_bmp_set bmp len id) len.
Proof.
  destruct Hm as [Hl Hb]. intros Hi. unfold rtw_bmp_set. destruct (id / 8 <? len); [|done].
  split; [unfold zlen in *; by rewrite length_insert|]. apply Forall_insert; [done|].
  pose proof (znth_byte bmp (id / 8) Hb) as [H0 H1]. pose proof (Z.mod_pos_bound id 8 ltac:(lia)) as Hk.
  assert (0 <= BIT (id mod 8) < 2 ^ 8) as Hbit.
  { unfold BIT. rewrite Z.shiftl_1_l. split; [apply Z.pow_nonneg; lia|apply Z.pow_lt_mono_r; lia]. }
  split; [apply Z.lor_nonneg; lia|].
  destruct (decide (Z.lor (znth bmp (id / 8)) (BIT (id mod 8)) = 0)) as [->|N]; [lia|].
  apply Z.log2_lt_cancel. rewrite Z.log2_lor by lia. change (Z.log2 256) with 8. apply Z.max_lub_lt.
  - destruct (decide (znth bmp (id / 8) = 0)) as [->|]; [done|]. apply Z.log2_lt_pow2; lia.
  - unfold BIT. rewrite Z.shiftl_1_l, Z.log2_pow2 by lia. lia.
Qed.

Lemma map_ok_clear id : map_ok (rtw_bmp_clear bmp len id) len.
Proof.
  destruct Hm as [Hl Hb]. unfold rtw_bmp_clear. destruct (id / 8 <? len); [|done].
  split; [unfold zlen in *; by rewrite length_insert|]. apply Forall_insert; [done|apply u8_range].
Qed.

Lemma is_set_testbit id : 0 <= id -> rtw_bmp_is_set bmp len id = Z.testbit (znth bmp (id / 8)) (id mod 8).
Proof.
  destruct Hm as [Hl Hb]. intros Hi. pose proof (Z.mod_pos_bound id 8 ltac:(lia)). unfold rtw_bmp_is_set.
  rewrite bit_test_testbit by lia. destruct (Z.leb_spec len (id / 8)); [|done].
  unfold znth. rewrite nth_overflow by (unfold zlen in Hl; lia). by rewrite Z.bits_0.
Qed.

Lemma is_set_range id : rtw_bmp_is_set bmp len id = true -> id < 8 * len.
Proof. unfold rtw_bmp_is_set. destruct (Z.leb_spec len (id / 8)) as [|H]; [done|]. intros _. pose proof (Z.div_mod id 8). pose proof (Z.mod_pos_bound id 8). lia. Qed.

Lemma is_set_set id j :
  0 <= id < 8 * len -> 0 <= j ->
  rtw_bmp_is_set (rtw_bmp_set bmp len id) len j = (j =? id) || rtw_bmp_is_set bmp len j.
Proof.
  destruct Hm as [Hl Hb]. intros Hi Hj. assert (0 <= id / 8 < len) as Hq by (split; [apply Z.div_pos; lia|apply Z.div_lt_upper_bound; lia]).
  unfold rtw_bmp_set. destruct (Z.ltb_spec (id / 8) len); [|lia]. unfold rtw_bmp_is_set.
  assert (0 <= j / 8) by (apply Z.div_pos; lia). pose proof (Z.mod_pos_bound id 8 ltac:(lia)). pose proof (Z.mod_pos_bound j 8 ltac:(lia)).
  rewrite znth_insert by lia. rewrite !bit_test_testbit by lia.
  destruct (Z.eqb_spec (j / 8) (id / 8)) as [E|N].
  - destruct (Z.leb_spec len (j / 8)); [lia|]. rewrite Z.lor_spec, E.
    unfold BIT. rewrite Z.shiftl_1_l, Z.pow2_bits_eqb by lia. rewrite orb_comm. f_equal.
    destruct (Z.eqb_spec (id mod 8) (j mod 8)), (Z.eqb_spec j id); try done; exfalso;
      pose proof (Z.div_mod id 8 ltac:(lia)); pose proof (Z.div_mod j 8 ltac:(lia)); lia || congruence.
  - destruct (Z.eqb_spec j id) as [->|]; [done|]. done.
Qed.

Lemma is_set_clear id j :
  0 <= id < 8 * len -> 0 <= j ->
  rtw_bmp_is_set (rtw_bmp_clear bmp len id) len j = negb (j =? id) && rtw_bmp_is_set bmp len j.
Proof.
  destruct Hm as [Hl Hb]. intros Hi Hj. assert (0 <= id / 8 < len) as Hq by (split; [apply Z.div_pos; lia|apply Z.div_lt_upper_bound; lia]).
  unfold rtw_bmp_clear. destruct (Z.ltb_spec (id / 8) len); [|lia]. unfold rtw_bmp_is_set.
  assert (0 <= j / 8) by (apply Z.div_pos; lia). pose proof (Z.mod_pos_bound id 8 ltac:(lia)). pose proof (Z.mod_pos_bound j 8 ltac:(lia)).
  rewrite znth_insert by lia. rewrite !bit_test_testbit by lia.
  destruct (Z.eqb_spec (j / 8) (id / 8)) as [E|N].
  - destruct (Z.leb_spec len (j / 8)); [lia|]. unfold u8. change 256 with (2 ^ 8).
    rewrite Z.mod_pow2_bits_low, Z.land_spec, Z.lnot_spec, E by lia.
    unfold BIT. rewrite Z.shiftl_1_l, Z.pow2_bits_eqb by lia. rewrite andb_comm. f_equal. f_equal.
    destruct (Z.eqb_spec (id mod 8) (j mod 8)), (Z.eqb_spec j id); try done; exfalso;
      pose proof (Z.div_mod id 8 ltac:(lia)); pose proof (Z.div_mod j 8 ltac:(lia)); lia || congruence.
  - destruct (Z.eqb_spec j id) as [->|]; [done|]. done.
Qed.

(** Setting a set bit, clearing a clear one: the same bitmap. *)
Lemma insert_znth i x : 0 <= i -> x = znth bmp i -> <[Z.to_nat i := x]> bmp = bmp.
Proof.
  intros Hi ->. apply list_eq. intros k. destruct (decide (k = Z.to_nat i)) as [->|N].
  - destruct (decide (Z.to_nat i < length bmp)%nat) as [H|H].
    + rewrite list_lookup_insert_eq by done. unfold znth. symmetry. rewrite nth_lookup.
      destruct (lookup_lt_is_Some_2 _ _ H) as [y ->]. done.
    + by rewrite list_insert_ge by lia.
  - by rewrite list_lookup_insert_ne.
Qed.

Lemma set_noop id : 0 <= id -> rtw_bmp_is_set bmp len id = true -> rtw_bmp_set bmp len id = bmp.
Proof.
  intros Hi S. rewrite is_set_testbit in S by done. unfold rtw_bmp_set. destruct (id / 8 <? len); [|done].
  apply insert_znth; [apply Z.div_pos; lia|]. apply Z.bits_inj'. intros j Hj. pose proof (Z.mod_pos_bound id 8 ltac:(lia)).
  unfold BIT. rewrite Z.lor_spec, Z.shiftl_1_l, Z.pow2_bits_eqb by lia. destruct (Z.eqb_spec (id mod 8) j) as [<-|]; [by rewrite S|apply orb_false_r].
Qed.

Lemma clear_noop id : 0 <= id -> rtw_bmp_is_set bmp len id = false -> rtw_bmp_clear bmp len id = bmp.
Proof.
  intros Hi S. rewrite is_set_testbit in S by done. unfold rtw_bmp_clear. destruct (id / 8 <? len); [|done].
  apply insert_znth; [apply Z.div_pos; lia|]. destruct Hm as [_ Hb]. pose proof (znth_byte bmp (id / 8) Hb) as Hz.
  pose proof (Z.mod_pos_bound id 8 ltac:(lia)).
  assert (Z.land (znth bmp (id / 8)) (Z.lnot (BIT (id mod 8))) = znth bmp (id / 8)) as ->; [|by apply u8_small].
  apply Z.bits_inj'. intros j Hj. unfold BIT. rewrite Z.land_spec, Z.lnot_spec, Z.shiftl_1_l, Z.pow2_bits_eqb by lia.
  destruct (Z.eqb_spec (id mod 8) j) as [<-|]; [by rewrite S|apply andb_true_r].
Qed.
End Ops.

(** ** Emptiness *)

Lemma bmp_any_spec b : bmp_any b = true <-> exists i, 0 <= i < zlen b /\ znth b i <> 0.
Proof.
  induction b as [|x b IH]; cbn [bmp_any].
  { split; [done|]. intros (i & Hi & _). change (zlen []) with 0 in Hi. lia. }
  rewrite zlen_cons. destruct (Z.eqb_spec x 0) as [->|N].
  - rewrite IH. split.
    + intros (i & Hi & E). exists (i + 1). split; [lia|]. unfold znth in *. by replace (Z.to_nat (i + 1)) with (S (Z.to_nat i)) by lia.
    + intros (i & Hi & E). destruct (decide (i = 0)) as [->|]; [by destruct E|]. exists (i - 1). split; [lia|].
      unfold znth in *. by replace (Z.to_nat i) with (S (Z.to_nat (i - 1))) in E by lia.
  - split; [|done]. intros _. exists 0. pose proof (zlen_nonneg b). split; [lia|done].
Qed.

(** A byte other than zero has a bit. *)
Lemma byte_nonzero x : is_byte x -> x <> 0 -> exists k, 0 <= k < 8 /\ Z.testbit x k = true.
Proof.
  intros [H0 H1] N. exists (Z.log2 x). split; [|by apply Z.bit_log2; lia].
  split; [apply Z.log2_nonneg|]. apply Z.log2_lt_pow2; lia.
Qed.

(** The octets of a bitmap that is not empty apart from the bits in [mask]. *)
Lemma not_empty_spec bmp len :
  map_ok bmp len -> rtw_bmp_not_empty bmp len = true <-> exists id, 0 <= id /\ rtw_bmp_is_set bmp len id = true.
Proof.
  intros Hm. pose proof Hm as [Hl Hb]. unfold rtw_bmp_not_empty. rewrite take_ge by (unfold zlen in Hl; lia). rewrite bmp_any_spec. split.
  - intros (i & Hi & N). destruct (byte_nonzero _ (znth_byte bmp i Hb) N) as (k & Hk & T). exists (8 * i + k). split; [lia|].
    rewrite (is_set_testbit bmp len Hm) by lia.
    replace ((8 * i + k) / 8) with i by (apply (Z.div_unique _ _ _ k); lia). by replace ((8 * i + k) mod 8) with k by (apply (Z.mod_unique _ _ i); lia).
  - intros (id & Hid & S). pose proof (is_set_range _ _ _ S). rewrite (is_set_testbit bmp len Hm) in S by done. exists (id / 8).
    split; [split; [apply Z.div_pos; lia|apply Z.div_lt_upper_bound; lia]|]. intros E. by rewrite E, Z.bits_0 in S.
Qed.

Lemma not_empty_exclude_spec bmp len :
  map_ok bmp len -> rtw_bmp_not_empty_exclude_bit0 bmp len = true <-> exists id, 1 <= id /\ rtw_bmp_is_set bmp len id = true.
Proof.
  intros Hm. pose proof Hm as [Hl Hb]. unfold rtw_bmp_not_empty_exclude_bit0. rewrite take_ge by (unfold zlen in Hl; lia).
  assert (forall id, 0 <= id -> rtw_bmp_is_set bmp len id = Z.testbit (znth bmp (id / 8)) (id mod 8)) as S by apply (is_set_testbit bmp len Hm).
  destruct bmp as [|x b].
  { split; [done|]. intros (id & Hid & E). rewrite S in E by lia. unfold znth in E. by destruct (Z.to_nat (id / 8)); rewrite Z.bits_0 in E. }
  assert (is_byte x) as Hx by (by apply Forall_inv in Hb). apply Forall_inv_tail in Hb.
  assert (forall k, 0 <= k < 8 -> Z.testbit (Z.land x 0xFE) k = negb (k =? 0) && Z.testbit x k) as L.
  { intros k Hk. rewrite Z.land_spec, andb_comm. f_equal. assert (k = 0 \/ k = 1 \/ k = 2 \/ k = 3 \/ k = 4 \/ k = 5 \/ k = 6 \/ k = 7) as D by lia.
    by destruct D as [-> | [-> | [-> | [-> | [-> | [-> | [-> | ->]]]]]]]. }
  assert (is_byte (Z.land x 0xFE)) as Hx'.
  { pose proof (byte_forall (fun x => (0 <=? Z.land x 0xFE) && (Z.land x 0xFE <? 256)) x ltac:(vm_compute; reflexivity) Hx) as B.
    apply andb_true_iff in B. unfold is_byte. lia. }
  destruct (Z.eqb_spec (Z.land x 0xFE) 0) as [E0|N0].
  - rewrite bmp_any_spec. split.
    + intros (i & Hi & N). destruct (byte_nonzero _ (znth_byte b i Hb) N) as (k & Hk & T). exists (8 * (i + 1) + k). split; [lia|].
      rewrite S by lia. replace ((8 * (i + 1) + k) / 8) with (i + 1) by (apply (Z.div_unique _ _ _ k); lia).
      replace ((8 * (i + 1) + k) mod 8) with k by (apply (Z.mod_unique _ _ (i + 1)); lia).
      unfold znth. by replace (Z.to_nat (i + 1)) with (Datatypes.S (Z.to_nat i)) by lia.
    + intros (id & Hid & E). pose proof (is_set_range _ _ _ E). rewrite zlen_cons in Hl. rewrite S in E by lia.
      pose proof (Z.div_mod id 8 ltac:(lia)) as Dm. pose proof (Z.mod_pos_bound id 8 ltac:(lia)) as Mb.
      assert (0 <= id / 8) by (apply Z.div_pos; lia). destruct (decide (id / 8 = 0)) as [Z0|].
      * exfalso. rewrite Z0 in E. change (znth (x :: b) 0) with x in E. pose proof (L (id mod 8) Mb) as Lk. rewrite E0, Z.bits_0, E in Lk.
        destruct (Z.eqb_spec (id mod 8) 0); [lia|discriminate].
      * exists (id / 8 - 1). split; [lia|]. unfold znth in *. replace (Z.to_nat (id / 8)) with (Datatypes.S (Z.to_nat (id / 8 - 1))) in E by lia.
        cbn [nth] in E. intros F. by rewrite F, Z.bits_0 in E.
  - split; [|done]. intros _. destruct (byte_nonzero _ Hx' N0) as (k & Hk & T). rewrite L in T by done. apply andb_true_iff in T as [T1 T2].
    exists k. destruct (Z.eqb_spec k 0); [done|]. split; [lia|]. rewrite S by lia. rewrite Z.div_small, Z.mod_small by lia. done.
Qed.
