(* ===== verification/Beacon.v ===== *)
(** * The beacon of the access point: traffic map and elements (core/rtw_ap.c)

    The beacon's elements are kept in [WLAN_BSSID_EX.IEs], MAX_IE_SZ bytes of
    which [IELength] are in use: 12 bytes of fixed fields, then elements.  A
    pointer is an offset into [IEs]; a write past the array is [Oob].
    [rtw_set_tim_ie] writes the traffic indication map of the stations with
    buffered frames, [update_BCNTIM] replaces the map of the beacon,
    [rtw_add_bcn_ie] and [rtw_remove_bcn_ie] insert and remove an element.
    What a station reads from the map follows the rule of IEEE 802.11 for the
    partial virtual bitmap. *)

From S2P Require Import Prelude StaMgt Ie.

Definition WLAN_EID_TIM : Z := 5.
Definition _TIM_IE_ : Z := 5.
Definition _SSID_IE_ : Z := 0.
Definition _SUPPORTEDRATES_IE_ : Z := 1.
Definition _FIXED_IE_LENGTH_ : Z := 12.
Definition _BEACON_IE_OFFSET_ : Z := 12.

(** ** The traffic indication map *)

(** The loop [for (i = 0; i < tim_bmp_len; i++) if (tim_bmp[i]) break;] *)
Fixpoint first_octet (fuel : nat) (tim_bmp : bytes) (tim_bmp_len i : Z) : res Z :=
  match fuel with
  | O => NoFuel
  | S fuel =>
      if i <? tim_bmp_len then
        x ← rd tim_bmp i;
        if (x : Z) =? 0 then first_octet fuel tim_bmp tim_bmp_len (u8 (i + 1)) else Ret i
      else Ret i
  end.

(** The loop [for (i = tim_bmp_len - 1; i > 0; i--) if (tim_bmp[i]) break;] *)
Fixpoint last_octet (fuel : nat) (tim_bmp : bytes) (i : Z) : res Z :=
  match fuel with
  | O => NoFuel
  | S fuel =>
      if 0 <? i then
        x ← rd tim_bmp i;
        if (x : Z) =? 0 then last_octet fuel tim_bmp (u8 (i - 1)) else Ret i
      else Ret i
  end.

(** [n1] and [bmp_len]. *)
Definition tim_span (tim_bmp : bytes) (tim_bmp_len : Z) : res (Z * Z) :=
  if rtw_bmp_not_empty tim_bmp tim_bmp_len then
    i ← first_octet (S (Z.to_nat tim_bmp_len)) tim_bmp tim_bmp_len 0;
    let n1 := Z.land i 0xFE in
    n2 ← last_octet (S (Z.to_nat tim_bmp_len)) tim_bmp (u8 (tim_bmp_len - 1));
    Ret (n1, u8 (n2 - n1 + 1))
  else Ret (0, 1).

(** The memory and the length of the element. *)
Definition rtw_set_tim_ie (dtim_cnt dtim_period : Z) (tim_bmp : bytes) (tim_bmp_len : Z) (mem : bytes) (tim_ie : Z) : res (bytes * Z) :=
  r ← tim_span tim_bmp tim_bmp_len;
  let '(n1, bmp_len) := (r : Z * Z) in
  mem ← wr mem tim_ie WLAN_EID_TIM;
  mem ← wr mem (tim_ie + 1) (u8 (2 + 1 + bmp_len));
  mem ← wr mem (tim_ie + 2) dtim_cnt;
  mem ← wr mem (tim_ie + 3) dtim_period;
  mem ← wr mem (tim_ie + 4) (Z.lor (if rtw_bmp_is_set tim_bmp tim_bmp_len 0 then BIT 0 else 0) n1);
  s ← rd_slice tim_bmp n1 bmp_len;
  mem ← wr_slice mem (tim_ie + 5) s;
  Ret (mem, u8 (2 + 2 + 1 + bmp_len)).

(** ** Replacing the map of the beacon *)

(** The part of the element at hand added to [offset] when it was found. *)
Definition plus_ie (offset : Z) (r : option Z * Z) : Z :=
  match fst r with Some _ => offset + (snd r + 2) | None => offset end.

(** Behind the fixed fields, the SSID, the rates and three bytes for the DS
    parameter set: where a beacon without a map gets one. *)
Definition head_len (ies : bytes) (IELength : Z) : res Z :=
  r ← rtw_get_ie ies _BEACON_IE_OFFSET_ _SSID_IE_ 0 (IELength - _BEACON_IE_OFFSET_);
  let offset := plus_ie _FIXED_IE_LENGTH_ r in
  r ← rtw_get_ie ies _BEACON_IE_OFFSET_ _SUPPORTEDRATES_IE_ 0 (IELength - _BEACON_IE_OFFSET_);
  Ret (plus_ie offset r + 3).

(** [dst_ie], [premainder_ie] and [remainder_ielen]. *)
Definition tim_place (ies : bytes) (IELength : Z) : res (Z * Z * Z) :=
  r ← rtw_get_ie ies _FIXED_IE_LENGTH_ _TIM_IE_ 0 (IELength - _FIXED_IE_LENGTH_);
  match (r : option Z * Z) with
  | (Some p, tim_ielen) =>
      if 0 <? tim_ielen then Ret (p, p + (tim_ielen + 2), u32 (IELength - p - (tim_ielen + 2)))
      else offset ← head_len ies IELength; Ret (offset, offset, u32 (IELength - offset))
  | (None, _) => offset ← head_len ies IELength; Ret (offset, offset, u32 (IELength - offset))
  end.

(** [pbackup_remainder_ie]; [malloc]: whether [rtw_malloc] succeeds. *)
Definition backup_rest (malloc : bool) (ies : bytes) (premainder_ie remainder_ielen : Z) : res (option bytes) :=
  if (0 <? remainder_ielen) && malloc
  then s ← rd_slice ies premainder_ie remainder_ielen; Ret (Some s)
  else Ret None.

Definition restore_rest (ies : bytes) (dst_ie : Z) (backup : option bytes) : res bytes :=
  match backup with Some s => wr_slice ies dst_ie s | None => Ret ies end.

(** The elements and the new [IELength]. *)
Definition update_BCNTIM (malloc : bool) (tim_bitmap : bytes) (aid_bmp_len : Z) (ies : bytes) (IELength : Z) : res (bytes * Z) :=
  r ← tim_place ies IELength;
  let '(dst_ie, premainder_ie, remainder_ielen) := (r : Z * Z * Z) in
  backup ← backup_rest malloc ies premainder_ie remainder_ielen;
  r ← rtw_set_tim_ie 0 1 tim_bitmap aid_bmp_len ies dst_ie;
  let '(ies, l) := (r : bytes * Z) in
  ies ← restore_rest ies (dst_ie + l) backup;
  Ret (ies, u32 (dst_ie + l + remainder_ielen)).

(** ** Inserting and removing an element *)

(** The search of [rtw_add_bcn_ie]: the last element passed, its length, and
    whether it has the id already. *)
Fixpoint bcn_ie_search (fuel : nat) (ies : bytes) (IELength index i : Z) (p : option (Z * Z)) : res (option (Z * Z) * bool) :=
  match fuel with
  | O => NoFuel
  | S fuel =>
      if i <? IELength then
        id ← rd ies i;
        if index <? (id : Z) then Ret (p, false)
        else
          l ← rd ies (i + 1);
          if (id : Z) =? index then Ret (Some (i, l), true)
          else bcn_ie_search fuel ies IELength index (u32 (i + (l + 2))) (Some (i, l))
      else Ret (p, false)
  end.

Definition rtw_add_bcn_ie (malloc : bool) (ies : bytes) (IELength index : Z) (data : bytes) : res (bytes * Z) :=
  r ← bcn_ie_search (S (Z.to_nat IELength)) ies IELength index 12 None;
  match (r : option (Z * Z) * bool) with
  | (None, _) => Ret (ies, IELength)
  | (Some (p, ielen), bmatch) =>
      if 0 <? ielen then
        let premainder_ie := p + (ielen + 2) in
        let remainder_ielen := u32 (IELength - p - (ielen + 2)) in
        let dst_ie := if bmatch then p else premainder_ie in
        backup ← backup_rest malloc ies premainder_ie remainder_ielen;
        ies ← wr ies dst_ie index;
        ies ← wr ies (dst_ie + 1) (zlen data);
        ies ← wr_slice ies (dst_ie + 2) data;
        ies ← restore_rest ies (dst_ie + 2 + zlen data) backup;
        Ret (ies, u32 (dst_ie + 2 + zlen data + remainder_ielen))
      else Ret (ies, IELength)
  end.

Definition rtw_remove_bcn_ie (malloc : bool) (ies : bytes) (IELength index : Z) : res (bytes * Z) :=
  r ← rtw_get_ie ies _FIXED_IE_LENGTH_ index 0 (IELength - _FIXED_IE_LENGTH_);
  match (r : option Z * Z) with
  | (Some p, ielen) =>
      if 0 <? ielen then
        let remainder_ielen := u32 (IELength - p - (ielen + 2)) in
        backup ← backup_rest malloc ies (p + (ielen + 2)) remainder_ielen;
        ies ← restore_rest ies p backup;
        Ret (ies, u32 (p + remainder_ielen))
      else Ret (ies, IELength)
  | (None, _) => Ret (ies, IELength)
  end.

(** ** What a station reads *)

(** The partial virtual bitmap of a TIM body [count; period; control; ...]:
    octets N1 to N1 + length - 1 of the bitmap, N1 the control field without
    its lowest bit; octets outside are zero. *)
Definition tim_traffic (body : bytes) (aid : Z) : bool :=
  let n1 := Z.land (znth body 2) 0xFE in
  let o := aid / 8 - n1 in
  (0 <=? o) && (o <? zlen body - 3) && bit_test (znth body (3 + o)) (BIT (aid mod 8)).

(** The group bit. *)
Definition tim_group (body : bytes) : bool := bit_test (znth body 2) 1.

(** ** The map written is the map read *)

Lemma ret_pair3 {A B C} (a a' : A) (b b' : B) (c c' : C) : a = a' -> b = b' -> c = c' -> Ret (a, b, c) = Ret (a', b', c').
Proof. by intros -> -> ->. Qed.

Lemma ret_pair2 {A B} (a a' : A) (b b' : B) : a = a' -> b = b' -> Ret (a, b) = Ret (a', b').
Proof. by intros -> ->. Qed.

Lemma rd_znth b i : 0 <= i < zlen b -> rd b i = Ret (znth b i).
Proof.
  intros H. destruct (rd_in_bounds b i H) as (x & -> & Hx). unfold znth. f_equal. symmetry. by apply nth_lookup_Some.
Qed.

Lemma znth_ge b i : zlen b <= i -> znth b i = 0.
Proof. intros H. unfold znth. apply nth_overflow. unfold zlen in H. lia. Qed.

Lemma wr_pre pre w k y : 0 <= k < zlen w -> wr (pre ++ w) (zlen pre + k) y = Ret (pre ++ <[Z.to_nat k := y]> w).
Proof.
  intros H. pose proof (zlen_nonneg pre). unfold wr. fold (zlen (pre ++ w)). rewrite zlen_app.
  destruct (Z.leb_spec 0 (zlen pre + k)), (Z.ltb_spec (zlen pre + k) (zlen pre + zlen w)); try lia. cbn [andb].
  f_equal. rewrite insert_app_r_alt by (unfold zlen; lia). f_equal. f_equal. unfold zlen. lia.
Qed.

Lemma bmp_any_false b i : bmp_any b = false -> znth b i = 0.
Proof.
  unfold znth. generalize (Z.to_nat i). clear i. induction b as [|x b IH]; intros [|n]; cbn; try done;
    destruct (Z.eqb_spec x 0); try done. intros H. by apply IH.
Qed.

Lemma bmp_any_true b : bmp_any b = true -> exists k, 0 <= k < zlen b /\ znth b k <> 0.
Proof.
  induction b as [|x b IH]; cbn; [done|]. destruct (Z.eqb_spec x 0) as [->|N].
  - intros H. destruct (IH H) as (k & Hk & E). exists (k + 1). rewrite zlen_cons. split; [lia|].
    unfold znth in *. replace (Z.to_nat (k + 1)) with (S (Z.to_nat k)) by lia. done.
  - intros _. exists 0. rewrite zlen_cons. pose proof (zlen_nonneg b). split; [lia|done].
Qed.

Lemma first_octet_spec fuel bmp i k :
  0 <= i <= k -> k < zlen bmp <= 255 -> znth bmp k <> 0 -> zlen bmp - i < Z.of_nat fuel ->
  exists j, first_octet fuel bmp (zlen bmp) i = Ret j /\ i <= j <= k /\ znth bmp j <> 0 /\
    forall o, i <= o < j -> znth bmp o = 0.
Proof.
  revert i. induction fuel as [|fuel IH]; intros i Hi Hk Hz Hf; [lia|]. cbn [first_octet].
  destruct (Z.ltb_spec i (zlen bmp)); [|lia]. rewrite rd_znth, bind_Ret by lia.
  destruct (Z.eqb_spec (znth bmp i) 0) as [E|N].
  - assert (i <> k) by (intros ->; done). rewrite u8_small by (unfold is_byte; lia).
    destruct (IH (i + 1)) as (j & -> & Hj & Hn & Hall); try (done || lia).
    exists j. split_and!; try (done || lia). intros o Ho. destruct (decide (o = i)) as [->|]; [done|]. apply Hall. lia.
  - exists i. split_and!; try (done || lia).
Qed.

Lemma last_octet_spec fuel bmp i :
  0 <= i < zlen bmp -> zlen bmp <= 255 -> i < Z.of_nat fuel ->
  exists j, last_octet fuel bmp i = Ret j /\ 0 <= j <= i /\ forall o, j < o <= i -> znth bmp o = 0.
Proof.
  revert i. induction fuel as [|fuel IH]; intros i Hi Hl Hf; [lia|]. cbn [last_octet].
  destruct (Z.ltb_spec 0 i).
  - rewrite rd_znth, bind_Ret by lia. destruct (Z.eqb_spec (znth bmp i) 0) as [E|N].
    + rewrite u8_small by (unfold is_byte; lia). destruct (IH (i - 1)) as (j & -> & Hj & Hall); try lia.
      exists j. split_and!; try (done || lia). intros o Ho. destruct (decide (o = i)) as [->|]; [done|]. apply Hall. lia.
    + exists i. split_and!; try (done || lia).
  - exists i. split_and!; try (done || lia).
Qed.

Lemma land_fe i : is_byte i -> 0 <= Z.land i 0xFE <= i /\ Z.land (Z.land i 0xFE) 0xFE = Z.land i 0xFE /\ Z.land (Z.land i 0xFE) 1 = 0.
Proof.
  intros Hi.
  assert ((0 <=? Z.land i 0xFE) && (Z.land i 0xFE <=? i) && (Z.land (Z.land i 0xFE) 0xFE =? Z.land i 0xFE) && (Z.land (Z.land i 0xFE) 1 =? 0) = true) as H.
  { apply (byte_forall (fun i => (0 <=? Z.land i 0xFE) && (Z.land i 0xFE <=? i) && (Z.land (Z.land i 0xFE) 0xFE =? Z.land i 0xFE) && (Z.land (Z.land i 0xFE) 1 =? 0)));
      [vm_compute; reflexivity | done]. }
  rewrite !andb_true_iff in H. lia.
Qed.

(** The octets outside the span are zero. *)
Lemma tim_span_spec bmp :
  1 <= zlen bmp <= 250 ->
  exists n1 l, tim_span bmp (zlen bmp) = Ret (n1, l) /\ 0 <= n1 /\ 1 <= l /\ n1 + l <= zlen bmp /\
    Z.land n1 0xFE = n1 /\ Z.land n1 1 = 0 /\ forall o, 0 <= o -> o < n1 \/ n1 + l <= o -> znth bmp o = 0.
Proof.
  intros HL. unfold tim_span, rtw_bmp_not_empty.
  assert (take (Z.to_nat (zlen bmp)) bmp = bmp) as -> by (apply take_ge; unfold zlen; lia).
  destruct (bmp_any bmp) eqn:Ea.
  - destruct (bmp_any_true _ Ea) as (k & Hk & Hz).
    destruct (first_octet_spec (S (Z.to_nat (zlen bmp))) bmp 0 k) as (i & -> & Hi & Hin & Hb); try (done || lia).
    rewrite bind_Ret, u8_small by (unfold is_byte; lia).
    destruct (last_octet_spec (S (Z.to_nat (zlen bmp))) bmp (zlen bmp - 1)) as (j & -> & Hj & Ha); try lia.
    rewrite bind_Ret. destruct (land_fe i) as (L1 & L2 & L3); [unfold is_byte; lia|].
    assert (i <= j). { destruct (Z.lt_ge_cases j i); [|done]. exfalso. apply Hin, Ha. lia. }
    rewrite u8_small by (unfold is_byte; lia). exists (Z.land i 0xFE), (j - Z.land i 0xFE + 1). split_and!; try (done || lia).
    intros o Ho [H1 | H1]; [apply Hb; lia|]. destruct (Z.lt_ge_cases o (zlen bmp)); [apply Ha; lia | by apply znth_ge].
  - exists 0, 1. split_and!; try (done || lia). intros o _ _. by apply bmp_any_false.
Qed.

(** The element [rtw_set_tim_ie] writes. *)
Definition tim_body (dtim_cnt dtim_period : Z) (bmp : bytes) (n1 l : Z) : bytes :=
  [dtim_cnt; dtim_period; Z.lor (if rtw_bmp_is_set bmp (zlen bmp) 0 then BIT 0 else 0) n1]
  ++ take (Z.to_nat l) (drop (Z.to_nat n1) bmp).

Lemma zlen_tim_body c p bmp n1 l : 0 <= n1 -> 0 <= l -> n1 + l <= zlen bmp -> zlen (tim_body c p bmp n1 l) = 3 + l.
Proof.
  intros. unfold tim_body. rewrite zlen_app. unfold zlen in *. rewrite length_take, length_drop. cbn [length]. lia.
Qed.

Lemma set_tim_ie_spec c p bmp pre w n1 l :
  tim_span bmp (zlen bmp) = Ret (n1, l) -> 0 <= n1 -> 1 <= l -> n1 + l <= zlen bmp <= 250 -> 5 + l <= zlen w ->
  rtw_set_tim_ie c p bmp (zlen bmp) (pre ++ w) (zlen pre)
  = Ret (pre ++ enc1 (WLAN_EID_TIM, tim_body c p bmp n1 l) ++ drop (Z.to_nat (5 + l)) w, 5 + l).
Proof.
  intros Hs H0 H1 H2 Hw. unfold rtw_set_tim_ie. rewrite Hs, bind_Ret. cbn iota beta.
  rewrite <- (take_drop (Z.to_nat (5 + l)) w) at 1.
  assert (length (take (Z.to_nat (5 + l)) w) = (5 + Z.to_nat l)%nat) as Hl by (rewrite length_take; unfold zlen in Hw; lia).
  set (post := drop (Z.to_nat (5 + l)) w). clearbody post.
  destruct (take (Z.to_nat (5 + l)) w) as [|x0 [|x1 [|x2 [|x3 [|x4 room]]]]]; try discriminate Hl. injection Hl as Hl.
  unfold WLAN_EID_TIM. rewrite (u8_small (2 + 1 + l)), (u8_small (2 + 2 + 1 + l)) by (unfold is_byte; lia).
  set (ctl := Z.lor _ n1). cbn [app].
  rewrite wr_app_here, bind_Ret.
  do 4 rewrite wr_pre, bind_Ret by (unfold zlen; rewrite ?length_insert; cbn [length]; lia).
  change (<[Z.to_nat 4 := ctl]> _) with (5 :: 2 + 1 + l :: c :: p :: ctl :: room ++ post).
  rewrite rd_slice_ok, bind_Ret by lia. set (body := take (Z.to_nat l) (drop (Z.to_nat n1) bmp)).
  assert (length body = Z.to_nat l) as Hb by (unfold body, zlen in *; rewrite length_take, length_drop; lia).
  replace (pre ++ 5 :: 2 + 1 + l :: c :: p :: ctl :: room ++ post) with ((pre ++ [5; 2 + 1 + l; c; p; ctl]) ++ room ++ post)
    by (by rewrite <- app_assoc).
  replace (zlen pre + 5) with (zlen (pre ++ [5; 2 + 1 + l; c; p; ctl])) by (by rewrite zlen_app).
  rewrite wr_slice_app, bind_Ret by lia. unfold enc1, tim_body. cbn [fst snd]. fold body.
  fold ctl. replace (zlen ([c; p; ctl] ++ body)) with (2 + 1 + l) by (unfold zlen; cbn [app length]; lia).
  rewrite <- app_assoc. replace (2 + 2 + 1 + l) with (5 + l) by lia. done.
Qed.

(** A station that reads the body finds the bits of the bitmap. *)
Lemma tim_body_reads c p bmp n1 l :
  0 <= n1 -> 1 <= l -> n1 + l <= zlen bmp ->
  Z.land n1 0xFE = n1 -> Z.land n1 1 = 0 -> (forall o, 0 <= o -> o < n1 \/ n1 + l <= o -> znth bmp o = 0) ->
  (forall aid, 0 <= aid -> tim_traffic (tim_body c p bmp n1 l) aid = rtw_bmp_is_set bmp (zlen bmp) aid) /\
  tim_group (tim_body c p bmp n1 l) = rtw_bmp_is_set bmp (zlen bmp) 0.
Proof.
  intros H0 H1 H2 He Hz Hout. set (g := if rtw_bmp_is_set bmp (zlen bmp) 0 then BIT 0 else 0).
  assert (g = 0 \/ g = 1) as Hg by (unfold g; destruct (rtw_bmp_is_set _ _ _); [by right|by left]).
  assert (znth (tim_body c p bmp n1 l) 2 = Z.lor g n1) as Ec by done.
  split.
  - intros aid Ha. unfold tim_traffic. rewrite Ec, zlen_tim_body by lia.
    assert (Z.land (Z.lor g n1) 0xFE = n1) as ->.
    { rewrite Z.land_lor_distr_l, He. destruct Hg as [-> | ->]; done. }
    set (o := aid / 8). assert (0 <= o) by (apply Z.div_pos; lia). cbn zeta.
    assert (forall x, znth bmp o = 0 -> bit_test (znth bmp o) x = false) as Hzero.
    { intros x ->. unfold bit_test. by rewrite Z.land_0_l. }
    unfold rtw_bmp_is_set. fold o. destruct (Z.leb_spec (zlen bmp) o).
    + destruct (Z.ltb_spec (o - n1) (3 + l - 3)); [lia|]. by rewrite andb_false_r.
    + destruct (Z.leb_spec 0 (o - n1)); cbn [andb]; [|symmetry; apply Hzero, Hout; lia].
      destruct (Z.ltb_spec (o - n1) (3 + l - 3)); cbn [andb]; [|symmetry; apply Hzero, Hout; lia].
      f_equal. unfold tim_body, znth. cbn [app]. replace (Z.to_nat (3 + (o - n1))) with (S (S (S (Z.to_nat (o - n1))))) by lia.
      cbn [nth]. rewrite !nth_lookup, lookup_take_lt, lookup_drop by lia. do 2 f_equal. lia.
  - unfold tim_group. rewrite Ec. unfold bit_test. rewrite Z.land_lor_distr_l, Hz, Z.lor_0_r.
    unfold g. by destruct (rtw_bmp_is_set bmp (zlen bmp) 0).
Qed.

(** C26: The map round trip: a station that reads the element [rtw_set_tim_ie]
    wrote finds its bit set exactly when the bitmap has it, for every
    association id, and the group bit exactly when bit 0 is set; the element
    is the only thing written and its length field is right. *)
Theorem tim_roundtrip c p bmp pre w :
  1 <= zlen bmp <= 250 -> 5 + zlen bmp <= zlen w ->
  exists body w',
    rtw_set_tim_ie c p bmp (zlen bmp) (pre ++ w) (zlen pre) = Ret (pre ++ enc1 (WLAN_EID_TIM, body) ++ w', zlen (enc1 (WLAN_EID_TIM, body))) /\
    w' = drop (length (enc1 (WLAN_EID_TIM, body))) w /\ zlen body <= 3 + zlen bmp /\
    take 2 body = [c; p] /\
    (forall aid, 0 <= aid -> tim_traffic body aid = rtw_bmp_is_set bmp (zlen bmp) aid) /\
    tim_group body = rtw_bmp_is_set bmp (zlen bmp) 0.
Proof.
  intros HL Hw. destruct (tim_span_spec bmp HL) as (n1 & l & Hs & H0 & H1 & H2 & He & Hz & Hout).
  exists (tim_body c p bmp n1 l), (drop (Z.to_nat (5 + l)) w).
  pose proof (zlen_tim_body c p bmp n1 l H0 ltac:(lia) H2) as Hb.
  rewrite (set_tim_ie_spec c p bmp pre w n1 l) by (done || lia). rewrite zlen_enc1. cbn [snd].
  split_and!; [do 2 f_equal; lia | | lia | done | |].
  - f_equal. unfold enc1. cbn [length fst snd]. unfold zlen in Hb. lia.
  - by apply tim_body_reads.
  - by apply tim_body_reads.
Qed.

Lemma tim_roundtrip_witness :
  exists body w',
    rtw_set_tim_ie 0 1 [0; 0; 0; 8; 0; 1] 6 ([9] ++ replicate 12 7) 1 = Ret ([9] ++ enc1 (5, body) ++ w', zlen (enc1 (5, body))) /\
    w' = drop (length (enc1 (5, body))) (replicate 12 7) /\ zlen body <= 9 /\ take 2 body = [0; 1] /\
    (forall aid, 0 <= aid -> tim_traffic body aid = rtw_bmp_is_set [0; 0; 0; 8; 0; 1] 6 aid) /\
    tim_group body = rtw_bmp_is_set [0; 0; 0; 8; 0; 1] 6 0.
Proof. apply (tim_roundtrip 0 1 [0; 0; 0; 8; 0; 1] [9] (replicate 12 7)); unfold zlen; cbn [length replicate]; lia. Defined.

(** ** The elements of the beacon *)

Lemma backup_rest_spec pre s post :
  backup_rest true (pre ++ s ++ post) (zlen pre) (zlen s) = Ret (if 0 <? zlen s then Some s else None).
Proof.
  unfold backup_rest. rewrite andb_true_r. destruct (Z.ltb_spec 0 (zlen s)); [|done]. by rewrite rd_slice_app, bind_Ret.
Qed.

Lemma restore_rest_spec pre w (s : bytes) :
  zlen s <= zlen w ->
  restore_rest (pre ++ w) (zlen pre) (if 0 <? zlen s then Some s else None) = Ret (pre ++ s ++ drop (length s) w).
Proof.
  intros H. unfold restore_rest. destruct (Z.ltb_spec 0 (zlen s)).
  - rewrite <- (take_drop (length s) w) at 1. apply wr_slice_app. rewrite length_take. unfold zlen in H. lia.
  - destruct s; [done|]. rewrite zlen_cons in *. pose proof (zlen_nonneg s). lia.
Qed.

Lemma find_eid_none index pos ts : Forall (fun t => fst t <> index) ts -> find_eid index pos ts = None.
Proof.
  revert pos. induction ts as [|t ts IH]; intros pos; cbn; [done|]. rewrite Forall_cons. intros [H Hs].
  destruct (Z.eqb_spec (fst t) index); [done|]. by apply IH.
Qed.

Lemma find_eid_first index pos ms t rest :
  Forall (fun t => fst t <> index) ms -> fst t = index ->
  find_eid index pos (ms ++ t :: rest) = Some (pos + zlen (encode ms), zlen (snd t)).
Proof.
  intros Hm Ht. revert pos. induction Hm as [|m ms Hm _ IH]; intros pos; cbn [app find_eid].
  - rewrite Ht, Z.eqb_refl. change (zlen (encode [])) with 0. by rewrite Z.add_0_r.
  - destruct (Z.eqb_spec (fst m) index); [done|]. rewrite IH, zlen_encode_cons, zlen_enc1. do 2 f_equal. lia.
Qed.

Section Elements.
(** The buffer: the fixed fields, the elements, and free space. *)
Context (fixed slack : bytes) (Hfixed : length fixed = 12%nat).

Definition bcn (ts : list tlv) : bytes := fixed ++ encode ts ++ slack.
Definition bcn_len (ts : list tlv) : Z := 12 + zlen (encode ts).

Lemma zlen_fixed : zlen fixed = 12.
Proof. unfold zlen. lia. Qed.

Lemma bcn_get_ie ts index :
  ts <> [] -> rtw_get_ie (bcn ts) 12 index 0 (bcn_len ts - 12)
  = Ret (match find_eid index 12 ts with Some (p, l) => (Some p, l) | None => (None, 0) end).
Proof.
  intros Hne. unfold bcn, bcn_len. rewrite <- zlen_fixed.
  replace (zlen fixed + zlen (encode ts) - zlen fixed) with (zlen (encode ts)) by lia.
  destruct ts as [|t ts]; [done|]. unfold rtw_get_ie. pose proof (encode_length_ge (t :: ts)) as Hg. cbn [length] in Hg.
  destruct (Z.ltb_spec (zlen (encode (t :: ts))) 1); [lia|]. apply get_ie_loop_tlvs with (post := slack); (done || lia).
Qed.

(** Where a map stands or goes: at the first TIM element, or behind SSID,
    rates and DS parameter set. *)
Inductive tim_slot : list tlv -> list tlv -> list tlv -> Prop :=
| slot_present ms d rest : Forall (fun t => fst t <> _TIM_IE_) ms -> d <> [] -> tim_slot ms [(_TIM_IE_, d)] rest
| slot_absent ssid rates ds rest :
    Forall (fun t => fst t <> _TIM_IE_) rest ->
    tim_slot [(_SSID_IE_, ssid); (_SUPPORTEDRATES_IE_, rates); (3, [ds])] [] rest.

Lemma tim_place_spec ms old rest :
  tim_slot ms old rest -> bcn_len (ms ++ old ++ rest) < 4294967296 ->
  tim_place (bcn (ms ++ old ++ rest)) (bcn_len (ms ++ old ++ rest))
  = Ret (zlen (fixed ++ encode ms), zlen (fixed ++ encode (ms ++ old)), zlen (encode rest)).
Proof.
  intros Hs Hl. unfold tim_place. change _FIXED_IE_LENGTH_ with 12.
  rewrite bcn_get_ie by (destruct Hs; [destruct ms|]; done). rewrite bind_Ret.
  assert (zlen (encode (ms ++ old ++ rest)) = zlen (encode ms) + zlen (encode old) + zlen (encode rest)) as Hz
    by (rewrite !encode_app, !zlen_app; lia).
  pose proof (zlen_nonneg (encode ms)). pose proof (zlen_nonneg (encode old)). pose proof (zlen_nonneg (encode rest)).
  assert (zlen (fixed ++ encode ms) = 12 + zlen (encode ms)) as -> by (rewrite zlen_app, zlen_fixed; lia).
  assert (zlen (fixed ++ encode (ms ++ old)) = 12 + zlen (encode ms) + zlen (encode old)) as ->
    by (rewrite zlen_app, encode_app, zlen_app, zlen_fixed; lia).
  destruct Hs as [ms d rest Hm Hd | ssid rates ds rest Hr].
  - cbn [app] in *. unfold bcn_len in *. rewrite (find_eid_first _ _ _ _ _ Hm) by done. cbn [snd].
    assert (0 < zlen d) by (destruct d; [done|]; rewrite zlen_cons; pose proof (zlen_nonneg d); lia).
    assert (zlen (encode [(_TIM_IE_, d)]) = zlen d + 2) as E by (rewrite zlen_encode_cons; change (zlen (encode [])) with 0; cbn [snd]; lia).
    destruct (Z.ltb_spec 0 (zlen d)); [|lia]. rewrite Hz, E in *.
    rewrite u32_small by (unfold is_u32; lia). apply ret_pair3; lia.
  - rewrite find_eid_none.
    2:{ cbn [app]. rewrite !Forall_cons. done. }
    match goal with |- context [head_len (bcn ?t) _] => set (ts := t) in * end.
    assert (head_len (bcn ts) (bcn_len ts) = Ret (12 + (zlen ssid + 2) + (zlen rates + 2) + 3)) as ->.
    { unfold head_len. change _BEACON_IE_OFFSET_ with 12. by rewrite !bcn_get_ie, !bind_Ret. }
    rewrite bind_Ret. unfold bcn_len in *. rewrite Hz in *. rewrite !zlen_encode_cons in *. cbn [snd] in *.
    change (zlen (encode [])) with 0 in *. change (zlen [ds]) with 1 in *.
    rewrite u32_small by (unfold is_u32; lia). apply ret_pair3; lia.
Qed.

(** Room for the elements [ts] in a buffer of the size of [bcn us]. *)
Definition room_for (ts us : list tlv) : Prop := zlen (encode ts) <= zlen (encode us) + zlen slack.

(** One element written where [old] was and the rest put back behind it. *)
Lemma put_and_restore ms old t rest w' :
  room_for (ms ++ t :: rest) (ms ++ old ++ rest) ->
  w' = drop (length (enc1 t)) (encode (old ++ rest) ++ slack) ->
  exists slack', restore_rest (fixed ++ encode ms ++ enc1 t ++ w') (zlen (fixed ++ encode ms) + zlen (enc1 t))
      (if 0 <? zlen (encode rest) then Some (encode rest) else None)
    = Ret (fixed ++ encode (ms ++ t :: rest) ++ slack') /\
    zlen (fixed ++ encode (ms ++ t :: rest) ++ slack') = zlen (bcn (ms ++ old ++ rest)).
Proof.
  unfold room_for. intros Hr ->. rewrite !encode_app, encode_cons, !zlen_app in Hr.
  set (w := drop (length (enc1 t)) _).
  assert (zlen w = zlen (encode old) + zlen (encode rest) + zlen slack - zlen (enc1 t)) as Hw.
  { unfold w, zlen in *. rewrite length_drop, encode_app, !length_app. lia. }
  assert (zlen (encode rest) <= zlen w) as Hle by lia.
  exists (drop (length (encode rest)) w). split.
  - rewrite <- zlen_app.
    assert (fixed ++ encode ms ++ enc1 t ++ w = ((fixed ++ encode ms) ++ enc1 t) ++ w) as -> by (by rewrite <- !app_assoc).
    rewrite restore_rest_spec by done. f_equal. rewrite encode_app, encode_cons, <- !app_assoc. done.
  - unfold bcn. rewrite !encode_app, encode_cons, !zlen_app.
    assert (zlen (drop (length (encode rest)) w) = zlen w - zlen (encode rest)) as -> by (unfold zlen in *; rewrite length_drop; lia). lia.
Qed.

(** [update_BCNTIM] on the list of elements. *)
Lemma update_BCNTIM_spec ms old rest bmp :
  tim_slot ms old rest -> 1 <= zlen bmp <= 250 ->
  zlen (encode (ms ++ rest)) + 5 + zlen bmp <= zlen (encode (ms ++ old ++ rest)) + zlen slack ->
  zlen (bcn (ms ++ old ++ rest)) < 4294967296 ->
  exists body slack',
    update_BCNTIM true bmp (zlen bmp) (bcn (ms ++ old ++ rest)) (bcn_len (ms ++ old ++ rest))
    = Ret (fixed ++ encode (ms ++ (_TIM_IE_, body) :: rest) ++ slack', bcn_len (ms ++ (_TIM_IE_, body) :: rest)) /\
    zlen (fixed ++ encode (ms ++ (_TIM_IE_, body) :: rest) ++ slack') = zlen (bcn (ms ++ old ++ rest)) /\
    (forall aid, 0 <= aid -> tim_traffic body aid = rtw_bmp_is_set bmp (zlen bmp) aid) /\
    tim_group body = rtw_bmp_is_set bmp (zlen bmp) 0 /\ body <> [].
Proof.
  intros Hs HL Hr Hb. unfold bcn in Hb. rewrite !zlen_app, zlen_fixed in Hb. pose proof (zlen_nonneg slack).
  destruct (tim_span_spec bmp HL) as (n1 & l & Hsp & H0 & H1 & H2 & He & Hz & Hout).
  pose proof (zlen_tim_body 0 1 bmp n1 l H0 ltac:(lia) H2) as Hbody. set (body := tim_body 0 1 bmp n1 l) in *.
  assert (zlen (enc1 (_TIM_IE_, body)) = 5 + l) as Hn by (rewrite zlen_enc1; cbn [snd]; lia).
  rewrite !(encode_app ms), !encode_app, !zlen_app in Hr. rewrite !encode_app, !zlen_app in Hb.
  assert (room_for (ms ++ (_TIM_IE_, body) :: rest) (ms ++ old ++ rest)) as Hroom.
  { unfold room_for. rewrite !encode_app, encode_cons, !zlen_app, Hn. lia. }
  destruct (put_and_restore ms old (_TIM_IE_, body) rest _ Hroom eq_refl) as (slack' & Hput & Hsz).
  exists body, slack'. split_and!; [|done|by apply (tim_body_reads 0 1 bmp n1 l)..|by unfold body, tim_body].
  unfold update_BCNTIM. rewrite tim_place_spec, bind_Ret by (done || (unfold bcn_len; rewrite !encode_app, !zlen_app; lia)).
  cbn iota beta.
  assert (bcn (ms ++ old ++ rest) = (fixed ++ encode (ms ++ old)) ++ encode rest ++ slack) as ->
    by (unfold bcn; rewrite !encode_app, <- !app_assoc; done).
  rewrite backup_rest_spec, bind_Ret.
  assert ((fixed ++ encode (ms ++ old)) ++ encode rest ++ slack = (fixed ++ encode ms) ++ encode (old ++ rest) ++ slack) as ->
    by (rewrite !encode_app, <- !app_assoc; done).
  rewrite (set_tim_ie_spec 0 1 bmp (fixed ++ encode ms) _ n1 l), bind_Ret; try done; try lia.
  2:{ rewrite !encode_app, !zlen_app. pose proof (zlen_nonneg (encode rest)). lia. }
  cbn iota beta. change WLAN_EID_TIM with _TIM_IE_. fold body. rewrite <- Hn.
  replace (Z.to_nat (zlen (enc1 (_TIM_IE_, body)))) with (length (enc1 (_TIM_IE_, body))) by (unfold zlen; lia).
  rewrite <- app_assoc, Hput, bind_Ret. apply ret_pair2; [done|].
  pose proof (zlen_nonneg (encode ms)). pose proof (zlen_nonneg (encode rest)). pose proof (zlen_nonneg (encode old)).
  unfold bcn_len. rewrite encode_app, encode_cons, !zlen_app, zlen_fixed, Hn, u32_small by (unfold is_u32; lia). lia.
Qed.

(** C25: Updating the map of the beacon: the element that carried the old map (or
    the place behind the DS parameter set, when there was none) holds a map
    in which a station finds exactly the bits of the driver's bitmap, every
    other element is kept in its place, the fixed fields are untouched, and
    the length is that of the new list. The allocation of the backup buffer is
    taken to succeed ([true]). *)
Theorem update_BCNTIM_elements ms old rest bmp :
  tim_slot ms old rest -> 1 <= zlen bmp <= 250 ->
  zlen (encode (ms ++ rest)) + 5 + zlen bmp <= zlen (encode (ms ++ old ++ rest)) + zlen slack ->
  zlen (bcn (ms ++ old ++ rest)) < 4294967296 ->
  exists body slack',
    update_BCNTIM true bmp (zlen bmp) (bcn (ms ++ old ++ rest)) (bcn_len (ms ++ old ++ rest))
    = Ret (fixed ++ encode (ms ++ (_TIM_IE_, body) :: rest) ++ slack', bcn_len (ms ++ (_TIM_IE_, body) :: rest)) /\
    zlen (fixed ++ encode (ms ++ (_TIM_IE_, body) :: rest) ++ slack') = zlen (bcn (ms ++ old ++ rest)) /\
    (forall aid, 0 <= aid -> tim_traffic body aid = rtw_bmp_is_set bmp (zlen bmp) aid) /\
    tim_group body = rtw_bmp_is_set bmp (zlen bmp) 0.
Proof.
  intros Hs HL Hr Hb. destruct (update_BCNTIM_spec ms old rest bmp Hs HL Hr Hb) as (body & slack' & H1 & H2 & H3 & H4 & _).
  by exists body, slack'.
Qed.

(** *** Inserting and removing *)

(** The last element passed: its position and length. *)
Fixpoint last_ie (i : Z) (ms : list tlv) (p : option (Z * Z)) : option (Z * Z) :=
  match ms with
  | [] => p
  | m :: ms => last_ie (i + zlen (enc1 m)) ms (Some (i, zlen (snd m)))
  end.

Lemma last_ie_app i ms m p : last_ie i (ms ++ [m]) p = Some (i + zlen (encode ms), zlen (snd m)).
Proof.
  revert i p. induction ms as [|x ms IH]; intros i p; cbn [app last_ie].
  - change (zlen (encode [])) with 0. by rewrite Z.add_0_r.
  - rewrite IH, encode_cons, zlen_app. do 2 f_equal. lia.
Qed.

Lemma bcn_ie_search_skip ms fuel pre post len idx i p :
  Forall (fun t => fst t < idx) ms -> i = zlen pre -> i + zlen (encode ms) <= len < 4294967296 ->
  bcn_ie_search (length ms + fuel) (pre ++ encode ms ++ post) len idx i p
  = bcn_ie_search fuel (pre ++ encode ms ++ post) len idx (i + zlen (encode ms)) (last_ie i ms p).
Proof.
  intros Hm. revert pre i p. induction Hm as [|m ms Hm _ IH]; intros pre i p -> Hl; cbn [length Nat.add last_ie].
  { change (zlen (encode [])) with 0. by rewrite Z.add_0_r. }
  rewrite zlen_encode_cons, encode_cons in *. pose proof (zlen_nonneg (snd m)). pose proof (zlen_nonneg (encode ms)). pose proof (zlen_nonneg pre).
  cbn [bcn_ie_search]. rewrite <- !app_assoc. destruct (Z.ltb_spec (zlen pre) len); [|lia].
  rewrite rd_enc1_id, bind_Ret, rd_enc1_len. destruct (Z.ltb_spec idx (fst m)); [lia|].
  destruct (Z.eqb_spec (fst m) idx); [lia|]. rewrite bind_Ret, u32_small by (unfold is_u32; lia).
  replace (pre ++ enc1 m ++ encode ms ++ post) with ((pre ++ enc1 m) ++ encode ms ++ post) by (by rewrite <- !app_assoc).
  rewrite IH by (rewrite ?zlen_app, ?zlen_enc1; lia). rewrite zlen_enc1. f_equal. lia.
Qed.

(** The place of an element in the order of the ids: at the one already
    there, or behind the last smaller one. *)
Inductive ie_slot (idx : Z) : list tlv -> list tlv -> list tlv -> Prop :=
| ie_present ms d rest : Forall (fun t => fst t < idx) ms -> d <> [] -> ie_slot idx ms [(idx, d)] rest
| ie_absent ms m rest : Forall (fun t => fst t < idx) (ms ++ [m]) -> snd m <> [] ->
    match rest with [] => True | t :: _ => idx < fst t end -> ie_slot idx (ms ++ [m]) [] rest.

(** What the search returns: the element to replace or to insert behind. *)
Lemma bcn_ie_search_spec idx ms old rest :
  ie_slot idx ms old rest -> bcn_len (ms ++ old ++ rest) < 4294967296 ->
  exists p l (bmatch : bool), 0 < l /\
    bcn_ie_search (S (Z.to_nat (bcn_len (ms ++ old ++ rest)))) (bcn (ms ++ old ++ rest)) (bcn_len (ms ++ old ++ rest)) idx 12 None
    = Ret (Some (p, l), bmatch) /\
    (if bmatch then p else p + (l + 2)) = zlen (fixed ++ encode ms) /\
    p + (l + 2) = zlen (fixed ++ encode (ms ++ old)).
Proof.
  intros Hs Hl. pose proof (encode_length_ge ms) as Hge. pose proof zlen_fixed as Hz.
  assert (bcn_len (ms ++ old ++ rest) = 12 + zlen (encode ms) + zlen (encode (old ++ rest))) as E
    by (unfold bcn_len; rewrite (encode_app ms), zlen_app; lia).
  pose proof (zlen_nonneg (encode (old ++ rest))).
  assert (Forall (fun t => fst t < idx) ms) as Hm by (by destruct Hs).
  assert (bcn (ms ++ old ++ rest) = fixed ++ encode ms ++ (encode (old ++ rest) ++ slack)) as ->
    by (unfold bcn; rewrite (encode_app ms), <- app_assoc; done).
  replace (S (Z.to_nat (bcn_len (ms ++ old ++ rest)))) with (length ms + S (Z.to_nat (bcn_len (ms ++ old ++ rest)) - length ms))%nat by lia.
  rewrite bcn_ie_search_skip by (done || lia). rewrite E in *. clear E. cbn [bcn_ie_search].
  assert (zlen (fixed ++ encode (ms ++ old)) = zlen (fixed ++ encode ms) + zlen (encode old)) as -> by (rewrite encode_app, !zlen_app; lia).
  rewrite !(app_assoc fixed). replace (12 + zlen (encode ms)) with (zlen (fixed ++ encode ms)) by (rewrite zlen_app; lia).
  destruct Hs as [ms d rest _ Hd | ms m rest _ Hd Hr]; cbn [app].
  - assert (0 < zlen d) by (destruct d; [done|]; rewrite zlen_cons; pose proof (zlen_nonneg d); lia).
    exists (zlen (fixed ++ encode ms)), (zlen d), true. rewrite !zlen_encode_cons. cbn [snd].
    change (zlen (encode [])) with 0. split_and!; [done| |done|lia].
    pose proof (zlen_nonneg (encode rest)). rewrite encode_cons, <- (app_assoc (enc1 _)), rd_enc1_id, rd_enc1_len.
    match goal with |- context [if ?a <? ?b then _ else _] => destruct (Z.ltb_spec a b); [|lia] end.
    by rewrite !bind_Ret, Z.ltb_irrefl, Z.eqb_refl.
  - assert (0 < zlen (snd m)) by (destruct (snd m) as [|x d]; [done|]; rewrite zlen_cons; pose proof (zlen_nonneg d); lia).
    exists (12 + zlen (encode ms)), (zlen (snd m)), false. rewrite last_ie_app. change (zlen (encode [])) with 0.
    assert (zlen (fixed ++ encode (ms ++ [m])) = 12 + zlen (encode ms) + (zlen (snd m) + 2)) as Hzm.
    { rewrite encode_app, !zlen_app, zlen_encode_cons. change (zlen (encode [])) with 0. lia. }
    split_and!; [done| |lia|lia]. destruct rest as [|t rest].
    + change (zlen (encode [])) with 0. by rewrite Z.add_0_r, Z.ltb_irrefl.
    + rewrite zlen_encode_cons. pose proof (zlen_nonneg (encode rest)). pose proof (zlen_nonneg (snd t)).
      rewrite encode_cons, <- (app_assoc (enc1 _)), rd_enc1_id.
      match goal with |- context [if ?a <? ?b then _ else _] => destruct (Z.ltb_spec a b); [|lia] end.
      rewrite bind_Ret. destruct (Z.ltb_spec idx (fst t)); [done|lia].
Qed.

(** [rtw_add_bcn_ie] puts the element at its place in the order of the ids,
    in place of the one that was there, and keeps all others. *)
Theorem add_bcn_ie_elements ms old rest idx data :
  ie_slot idx ms old rest -> zlen data < 256 ->
  room_for (ms ++ (idx, data) :: rest) (ms ++ old ++ rest) ->
  zlen (bcn (ms ++ old ++ rest)) < 4294967296 ->
  exists slack',
    rtw_add_bcn_ie true (bcn (ms ++ old ++ rest)) (bcn_len (ms ++ old ++ rest)) idx data
    = Ret (fixed ++ encode (ms ++ (idx, data) :: rest) ++ slack', bcn_len (ms ++ (idx, data) :: rest)) /\
    zlen (fixed ++ encode (ms ++ (idx, data) :: rest) ++ slack') = zlen (bcn (ms ++ old ++ rest)).
Proof.
  intros Hs Hd Hroom Hb. unfold bcn in Hb. rewrite !zlen_app, zlen_fixed in Hb. pose proof (zlen_nonneg slack).
  pose proof (zlen_nonneg (encode ms)). pose proof (zlen_nonneg (encode rest)). pose proof (zlen_nonneg (encode old)). pose proof (zlen_nonneg data).
  destruct (put_and_restore ms old (idx, data) rest _ Hroom eq_refl) as (slack' & Hput & Hsz).
  exists slack'. split; [|done].
  destruct (bcn_ie_search_spec idx ms old rest Hs) as (p & l & bm & Hl & Hse & Hp & Hq); [unfold bcn_len; lia|].
  unfold rtw_add_bcn_ie. rewrite Hse, bind_Ret. clear Hse. cbn iota beta. destruct (Z.ltb_spec 0 l); [|lia].
  rewrite Hp, Hq. unfold room_for in Hroom. rewrite !(encode_app ms), !encode_app, encode_cons, !zlen_app, zlen_enc1 in Hroom. cbn [snd] in Hroom.
  rewrite !(encode_app ms), !encode_app, !zlen_app in Hb.
  assert (bcn_len (ms ++ old ++ rest) - p - (l + 2) = zlen (encode rest)) as ->.
  { unfold bcn_len. rewrite !zlen_app, !encode_app, !zlen_app, zlen_fixed in *. lia. }
  rewrite (u32_small (zlen (encode rest))) by (unfold is_u32; lia).
  assert (bcn (ms ++ old ++ rest) = (fixed ++ encode (ms ++ old)) ++ encode rest ++ slack) as ->
    by (unfold bcn; rewrite !encode_app, <- !app_assoc; done).
  rewrite backup_rest_spec, bind_Ret.
  assert ((fixed ++ encode (ms ++ old)) ++ encode rest ++ slack = (fixed ++ encode ms) ++ encode (old ++ rest) ++ slack) as ->
    by (rewrite !encode_app, <- !app_assoc; done).
  (* the element *)
  set (w := encode (old ++ rest) ++ slack) in *.
  assert (2 + zlen data <= zlen w) as Hw by (unfold w; rewrite encode_app, !zlen_app; lia).
  assert (w = take (length (enc1 (idx, data))) w ++ drop (length (enc1 (idx, data))) w) as Ew by (by rewrite take_drop).
  assert (length (take (length (enc1 (idx, data))) w) = (2 + length data)%nat) as Elen
    by (rewrite length_take; unfold enc1, zlen in *; cbn [length fst snd]; lia).
  rewrite Ew at 1. clear Ew Hw. set (w' := drop _ w) in *.
  destruct (take _ _) as [|x0 [|x1 room]]; try discriminate Elen. injection Elen as Elen. cbn [app].
  rewrite wr_app_here, bind_Ret, wr_pre by (unfold zlen; cbn [length]; lia).
  change (<[Z.to_nat 1 := zlen data]> _) with (idx :: zlen data :: room ++ w'). rewrite bind_Ret.
  replace ((fixed ++ encode ms) ++ idx :: zlen data :: room ++ w') with (((fixed ++ encode ms) ++ [idx; zlen data]) ++ room ++ w')
    by (by rewrite <- !app_assoc).
  replace (zlen (fixed ++ encode ms) + 2) with (zlen ((fixed ++ encode ms) ++ [idx; zlen data])) by (by rewrite (zlen_app _ [_; _])).
  rewrite wr_slice_app, bind_Ret by lia.
  rewrite !(zlen_app (fixed ++ encode ms)). change (zlen [idx; zlen data]) with 2.
  rewrite !zlen_enc1 in Hput. cbn [snd] in Hput.
  replace (zlen (fixed ++ encode ms) + 2 + zlen data) with (zlen (fixed ++ encode ms) + (zlen data + 2)) by lia.
  replace (((fixed ++ encode ms) ++ [idx; zlen data]) ++ data ++ w') with (fixed ++ encode ms ++ enc1 (idx, data) ++ w')
    by (unfold enc1; cbn [fst snd]; rewrite <- !app_assoc; done).
  rewrite Hput, bind_Ret. apply ret_pair2; [done|].
  unfold bcn_len. rewrite encode_app, encode_cons, !zlen_app, zlen_enc1, zlen_fixed, u32_small by (unfold is_u32; cbn [snd]; lia).
  cbn [snd]. lia.
Qed.

(** [rtw_remove_bcn_ie] removes the first element with the id and keeps the
    others. *)
Theorem remove_bcn_ie_elements ms d rest idx :
  Forall (fun t => fst t <> idx) ms -> d <> [] -> zlen (bcn (ms ++ (idx, d) :: rest)) < 4294967296 ->
  exists slack',
    rtw_remove_bcn_ie true (bcn (ms ++ (idx, d) :: rest)) (bcn_len (ms ++ (idx, d) :: rest)) idx
    = Ret (fixed ++ encode (ms ++ rest) ++ slack', bcn_len (ms ++ rest)).
Proof.
  intros Hm Hd Hb. unfold bcn in Hb. rewrite !zlen_app, zlen_fixed, encode_app, encode_cons, !zlen_app, zlen_enc1 in Hb. cbn [snd] in Hb.
  pose proof (zlen_nonneg slack). pose proof (zlen_nonneg (encode ms)). pose proof (zlen_nonneg (encode rest)).
  assert (0 < zlen d) by (destruct d; [done|]; rewrite zlen_cons; pose proof (zlen_nonneg d); lia).
  unfold rtw_remove_bcn_ie. change _FIXED_IE_LENGTH_ with 12. rewrite bcn_get_ie by (by destruct ms).
  rewrite (find_eid_first _ _ _ _ _ Hm), bind_Ret by done. cbn [snd].
  destruct (Z.ltb_spec 0 (zlen d)); [|lia].
  assert (bcn_len (ms ++ (idx, d) :: rest) - (12 + zlen (encode ms)) - (zlen d + 2) = zlen (encode rest)) as ->.
  { unfold bcn_len. rewrite encode_app, encode_cons, !zlen_app, zlen_enc1. cbn [snd]. lia. }
  rewrite (u32_small (zlen (encode rest))) by (unfold is_u32; lia).
  assert (bcn (ms ++ (idx, d) :: rest) = ((fixed ++ encode ms) ++ enc1 (idx, d)) ++ encode rest ++ slack) as ->
    by (unfold bcn; rewrite encode_app, encode_cons, <- !app_assoc; done).
  replace (12 + zlen (encode ms) + (zlen d + 2)) with (zlen ((fixed ++ encode ms) ++ enc1 (idx, d)))
    by (rewrite !zlen_app, zlen_fixed, zlen_enc1; done).
  rewrite backup_rest_spec, bind_Ret, <- app_assoc.
  replace (12 + zlen (encode ms)) with (zlen (fixed ++ encode ms)) by (rewrite zlen_app, zlen_fixed; done).
  rewrite restore_rest_spec, bind_Ret by (rewrite !zlen_app, zlen_enc1; cbn [snd]; lia).
  eexists. apply ret_pair2.
  - by rewrite encode_app, <- !app_assoc.
  - unfold bcn_len. rewrite encode_app, !zlen_app, zlen_fixed, u32_small by (unfold is_u32; lia). lia.
Qed.
End Elements.

Lemma update_BCNTIM_elements_witness :
  exists body slack',
    update_BCNTIM true [1; 4] 2 (bcn (replicate 12 9) (replicate 20 7) ([(0, [65]); (1, [2; 4]); (3, [6])] ++ [] ++ [(42, [4])]))
      (bcn_len ([(0, [65]); (1, [2; 4]); (3, [6])] ++ [] ++ [(42, [4])]))
    = Ret (replicate 12 9 ++ encode ([(0, [65]); (1, [2; 4]); (3, [6])] ++ (5, body) :: [(42, [4])]) ++ slack',
           bcn_len ([(0, [65]); (1, [2; 4]); (3, [6])] ++ (5, body) :: [(42, [4])])) /\
    zlen (replicate 12 9 ++ encode ([(0, [65]); (1, [2; 4]); (3, [6])] ++ (5, body) :: [(42, [4])]) ++ slack')
    = zlen (bcn (replicate 12 9) (replicate 20 7) ([(0, [65]); (1, [2; 4]); (3, [6])] ++ [] ++ [(42, [4])])) /\
    (forall aid, 0 <= aid -> tim_traffic body aid = rtw_bmp_is_set [1; 4] 2 aid) /\
    tim_group body = rtw_bmp_is_set [1; 4] 2 0.
Proof.
  apply (update_BCNTIM_elements (replicate 12 9) (replicate 20 7) eq_refl [(0, [65]); (1, [2; 4]); (3, [6])] [] [(42, [4])] [1; 4]);
    [|vm_compute; split; discriminate | vm_compute; discriminate | vm_compute; reflexivity].
  apply slot_absent. repeat constructor. discriminate.
Defined.

Lemma add_bcn_ie_elements_witness :
  exists slack',
    rtw_add_bcn_ie true (bcn (replicate 12 9) (replicate 6 7) ([(0, [65]); (1, [2])] ++ [(42, [4])] ++ [(48, [1])]))
      (bcn_len ([(0, [65]); (1, [2])] ++ [(42, [4])] ++ [(48, [1])])) 42 [5]
    = Ret (replicate 12 9 ++ encode ([(0, [65]); (1, [2])] ++ (42, [5]) :: [(48, [1])]) ++ slack',
           bcn_len ([(0, [65]); (1, [2])] ++ (42, [5]) :: [(48, [1])])) /\
    zlen (replicate 12 9 ++ encode ([(0, [65]); (1, [2])] ++ (42, [5]) :: [(48, [1])]) ++ slack')
    = zlen (bcn (replicate 12 9) (replicate 6 7) ([(0, [65]); (1, [2])] ++ [(42, [4])] ++ [(48, [1])])).
Proof.
  apply (add_bcn_ie_elements (replicate 12 9) (replicate 6 7) eq_refl [(0, [65]); (1, [2])] [(42, [4])] [(48, [1])] 42 [5]);
    [|reflexivity | vm_compute; discriminate | vm_compute; reflexivity].
  apply ie_present; [repeat constructor | discriminate].
Defined.

Lemma remove_bcn_ie_elements_witness :
  exists slack',
    rtw_remove_bcn_ie true (bcn (replicate 12 9) [] ([(0, [65])] ++ (42, [4]) :: [(48, [1])])) (bcn_len ([(0, [65])] ++ (42, [4]) :: [(48, [1])])) 42
    = Ret (replicate 12 9 ++ encode ([(0, [65])] ++ [(48, [1])]) ++ slack', bcn_len ([(0, [65])] ++ [(48, [1])])).
Proof.
  apply (remove_bcn_ie_elements (replicate 12 9) [] eq_refl [(0, [65])] [4] [(48, [1])] 42);
    [repeat constructor; discriminate | discriminate | vm_compute; reflexivity].
Defined.
