(* ===== verification/TxQueue.v ===== *)
(** * Transmit queues (core/rtw_xmit.c, hal/rtl8192e/usb/rtl8192eu_xmit.c)

    A frame that cannot be written to the USB endpoint at once waits on one of
    the four queues of its station ([sta_xmitpriv.vo_q] ... [bk_q]); the
    stations with waiting frames are linked on the queue of the access category
    ([hwxmits[ac].sta_queue]), which [rtw_dequeue_xframe] serves.  Frames for a
    station in power save wait on its [sleep_q] (PowerSave.v).

    A frame is on one list at a time, so lists hold frames; stations are named
    by their offset in [pstainfo_buf], access categories by the index of their
    [hwxmit] entry (0 voice, 1 video, 2 best effort, 3 background).  The
    counters [qcnt], [sleepq_len] and [accnt] are those of the station table
    (StaMgt.v).  Packets of the network stack are byte lists. *)

From S2P Require Import Prelude RxFrame Reorder StaMgt RxCheck XmitAttr.

Definition WIFI_SLEEP_STATE : Z := 4.
Definition WIFI_STA_ALIVE_CHK_STATE : Z := 0x400.
Definition QSLT_VO : Z := 7.
Definition QSLT_HIGH : Z := 0x11.

(** ** Frames *)

Record xmit_frame := mk_xf {
  x_attrib : xattrib;
  x_pkt : bytes;
  qsel : Z;
  triggered : bool
}.

Definition f_ra (f : xmit_frame) : bytes := e_ra (xe (x_attrib f)).
Definition f_psta (f : xmit_frame) : option nat := h_psta (xh (x_attrib f)).
Definition f_priority (f : xmit_frame) : Z := h_priority (xh (x_attrib f)).
Definition mdata (f : xmit_frame) : bool := h_mdata (xh (x_attrib f)).
Definition eosp (f : xmit_frame) : bool := h_eosp (xh (x_attrib f)).

Definition set_qsel (f : xmit_frame) (v : Z) : xmit_frame := mk_xf (x_attrib f) (x_pkt f) v (triggered f).
Definition set_triggered (f : xmit_frame) (b : bool) : xmit_frame := mk_xf (x_attrib f) (x_pkt f) (qsel f) b.
Definition set_xattrib (f : xmit_frame) (x : xattrib) : xmit_frame := mk_xf x (x_pkt f) (qsel f) (triggered f).

Definition more_bits (h : tx_hdr) (m e : bool) : tx_hdr :=
  mk_thdr (pkt_hdrlen h) (h_hdrlen h) (h_subtype h) (qos_en h) (h_priority h) (ampdu_en h) (h_ht_en h) (h_rtsen h) (h_cts2self h)
    m e (h_ack_policy h) (h_amsdu h) (h_seqnum h) (h_psta h).
Definition set_mdata (f : xmit_frame) (b : bool) : xmit_frame :=
  set_xattrib f (set_hdr (x_attrib f) (more_bits (xh (x_attrib f)) b (eosp f))).
Definition set_eosp (f : xmit_frame) (b : bool) : xmit_frame :=
  set_xattrib f (set_hdr (x_attrib f) (more_bits (xh (x_attrib f)) (mdata f) b)).

(** ** State *)

(** Calls into other components. *)
Inductive q_call :=
| set_tx_beacon_cmd
| chk_bmc_sleepq_cmd
| rtw_chk_hi_queue_cmd
| issue_nulldata (da : bytes) (power_mode : Z)
| issue_qos_nulldata (da : bytes) (tid ps : Z)
| schedule_xmit_tasklet.

(** [sta_pending] and [sleep_q] by station and access category, [sta_queue] by
    access category: the stations whose [tx_pending] is linked there.
    [bcn_tim] is the bitmap the beacon's TIM element was last written from. *)
Record tx_queues := mk_txq {
  q_txs : txs;
  sta_pending : gmap (nat * nat) (list xmit_frame);
  sta_queue : gmap nat (list nat);
  sleep_q : gmap nat (list xmit_frame);
  free_xmitframe_cnt : Z;
  tx_drop : Z;
  bcn_tim : bytes;
  q_calls : list q_call
}.

(** Registry and interface settings. *)
Record q_cfg := mk_qcfg {
  wifi_spec : bool;
  hiq_filter : Z;
  bstart_bss : bool;
  wmm_para_seq : list nat;
  sta_expire_to : Z
}.

Definition q_stapriv (q : tx_queues) : sta_priv := stapriv (t_adp (q_txs q)).
Definition pend (q : tx_queues) (i ac : nat) : list xmit_frame := default [] (sta_pending q !! (i, ac)).
Definition linked (q : tx_queues) (ac : nat) : list nat := default [] (sta_queue q !! ac).
Definition slp (q : tx_queues) (i : nat) : list xmit_frame := default [] (sleep_q q !! i).
Definition ent (q : tx_queues) (i : nat) : sta_info := default _rtw_init_stainfo (stainfo_buf (q_stapriv q) !! i).

Definition set_qtxs (q : tx_queues) (s : txs) : tx_queues :=
  mk_txq s (sta_pending q) (sta_queue q) (sleep_q q) (free_xmitframe_cnt q) (tx_drop q) (bcn_tim q) (q_calls q).
Definition set_qsta (q : tx_queues) (p : sta_priv) : tx_queues :=
  set_qtxs q (set_tadp (q_txs q) (set_stapriv (t_adp (q_txs q)) p)).
Definition upd_ent (q : tx_queues) (i : nat) (f : sta_info -> sta_info) : tx_queues := set_qsta q (upd_sta (q_stapriv q) i f).
Definition set_pend (q : tx_queues) (i ac : nat) (l : list xmit_frame) : tx_queues :=
  mk_txq (q_txs q) (<[(i, ac) := l]> (sta_pending q)) (sta_queue q) (sleep_q q) (free_xmitframe_cnt q) (tx_drop q) (bcn_tim q) (q_calls q).
Definition set_linked (q : tx_queues) (ac : nat) (l : list nat) : tx_queues :=
  mk_txq (q_txs q) (sta_pending q) (<[ac := l]> (sta_queue q)) (sleep_q q) (free_xmitframe_cnt q) (tx_drop q) (bcn_tim q) (q_calls q).
Definition set_slp (q : tx_queues) (i : nat) (l : list xmit_frame) : tx_queues :=
  mk_txq (q_txs q) (sta_pending q) (sta_queue q) (<[i := l]> (sleep_q q)) (free_xmitframe_cnt q) (tx_drop q) (bcn_tim q) (q_calls q).
Definition set_counts (q : tx_queues) (free drop : Z) : tx_queues :=
  mk_txq (q_txs q) (sta_pending q) (sta_queue q) (sleep_q q) free drop (bcn_tim q) (q_calls q).
Definition set_bcn (q : tx_queues) (b : bytes) : tx_queues :=
  mk_txq (q_txs q) (sta_pending q) (sta_queue q) (sleep_q q) (free_xmitframe_cnt q) (tx_drop q) b (q_calls q).
Definition qcall (q : tx_queues) (c : q_call) : tx_queues :=
  mk_txq (q_txs q) (sta_pending q) (sta_queue q) (sleep_q q) (free_xmitframe_cnt q) (tx_drop q) (bcn_tim q) (q_calls q ++ [c]).

(** Fields of an entry. *)
Definition set_stx (e : sta_info) (x : sta_tx) : sta_info :=
  mk_sta (mac_addr e) (sta_state e) (aid e) (sta_flags e) (ieee8021x_blocked e) (dot118021XPrivacy e) (dot11tkiprxmickey e)
    (dot118021x_UncstKey e) (sta_keytrack e) (duplicate_cnt e) (RxMgmtFrameSeqNum e) (recvpriv e) (recvreorder_ctrl e) x (sps e).
Definition set_sps (e : sta_info) (x : sta_ps) : sta_info :=
  mk_sta (mac_addr e) (sta_state e) (aid e) (sta_flags e) (ieee8021x_blocked e) (dot118021XPrivacy e) (dot11tkiprxmickey e)
    (dot118021x_UncstKey e) (sta_keytrack e) (duplicate_cnt e) (RxMgmtFrameSeqNum e) (recvpriv e) (recvreorder_ctrl e) (stx e) x.
Definition add_qcnt (ac : nat) (d : Z) (e : sta_info) : sta_info :=
  set_stx e (mk_stx (alter (Z.add d) ac (qcnt (stx e))) (sleepq_len (stx e))).
Definition set_sleepq_len (v : Z) (e : sta_info) : sta_info := set_stx e (mk_stx (qcnt (stx e)) v).
Definition set_ac_len (v : Z) (e : sta_info) : sta_info :=
  let p := sps e in
  set_sps e (mk_sps (expire_to p) v (qos_info p) (max_sp_len p) (uapsd_bk p) (uapsd_be p) (uapsd_vi p) (uapsd_vo p) (has_legacy_ac p)).
Definition set_expire (v : Z) (e : sta_info) : sta_info :=
  let p := sps e in
  set_sps e (mk_sps v (sleepq_ac_len p) (qos_info p) (max_sp_len p) (uapsd_bk p) (uapsd_be p) (uapsd_vi p) (uapsd_vo p) (has_legacy_ac p)).

(** [phwxmits[ac].accnt += d] *)
Definition add_accnt (ac : nat) (d : Z) (q : tx_queues) : tx_queues :=
  let p := q_stapriv q in set_qsta q (set_accnt p (alter (Z.add d) ac (accnt p))).

(** ** Operations *)

(** The queue of a station for a user priority: [rtw_get_sta_pending]. *)
Definition rtw_get_sta_pending (up : Z) : nat :=
  match up with
  | 1 | 2 => 3%nat
  | 4 | 5 => 1%nat
  | 6 | 7 => 0%nat
  | _ => 2%nat
  end.

Definition f_ac (f : xmit_frame) : nat := rtw_get_sta_pending (f_priority f).

(** The station of a frame as every queue operation looks it up: the entry of
    the receiver address if it is the frame's [psta] and associated. *)
Definition frame_sta (q : tx_queues) (f : xmit_frame) : option nat :=
  let psta := rtw_get_stainfo (q_stapriv q) (Some (f_ra f)) in
  if bool_decide (f_psta f <> psta) then None
  else match psta with
       | None => None
       | Some i => if bit_test (sta_state (ent q i)) WIFI_ASOC_STATE then Some i else None
       end.

Definition rtw_xmit_classifier (q : tx_queues) (f : xmit_frame) : Z * tx_queues :=
  match frame_sta q f with
  | None => (_FAIL, q)
  | Some i =>
      let ac := f_ac f in
      let q := if bool_decide (i ∈ linked q ac) then q else set_linked q ac (linked q ac ++ [i]) in
      let q := set_pend q i ac (pend q i ac ++ [f]) in
      let q := upd_ent q i (add_qcnt ac 1) in
      (_SUCCESS, add_accnt ac 1 q)
  end.

Definition rtw_xmitframe_enqueue (q : tx_queues) (f : xmit_frame) : Z * tx_queues := rtw_xmit_classifier q f.

(** [rtw_free_xmitframe] of a data frame; the packet goes back to the stack. *)
Definition rtw_free_xmitframe (q : tx_queues) : tx_queues := set_counts q (free_xmitframe_cnt q + 1) (tx_drop q).

Definition count_drop (q : tx_queues) : tx_queues := set_counts q (free_xmitframe_cnt q) (tx_drop q + 1).

Definition rtl8192eu_hal_xmitframe_enqueue (q : tx_queues) (f : xmit_frame) : tx_queues :=
  let '(err, q) := rtw_xmitframe_enqueue q f in
  if err =? _SUCCESS then qcall q schedule_xmit_tasklet else count_drop (rtw_free_xmitframe q).

(** [rtw_list_delete(&ptxservq->tx_pending)] *)
Definition unlink (q : tx_queues) (i ac : nat) : tx_queues := set_linked q ac (filter (fun j => j <> i) (linked q ac)).

(** The head of a station's queue, taken off. *)
Definition dequeue_one_xmitframe (q : tx_queues) (i ac : nat) : option (xmit_frame * tx_queues) :=
  match pend q i ac with
  | [] => None
  | f :: l => Some (f, upd_ent (set_pend q i ac l) i (add_qcnt ac (-1)))
  end.

(** The loop over the stations linked on one access category. *)
Fixpoint dequeue_stas (q : tx_queues) (ac : nat) (stas : list nat) : option (xmit_frame * tx_queues) :=
  match stas with
  | [] => None
  | i :: stas =>
      match dequeue_one_xmitframe q i ac with
      | Some (f, q) =>
          let q := add_accnt ac (-1) q in
          Some (f, if bool_decide (pend q i ac = []) then unlink q i ac else q)
      | None => dequeue_stas q ac stas
      end
  end.

Fixpoint dequeue_acs (q : tx_queues) (inx : list nat) : option (xmit_frame * tx_queues) :=
  match inx with
  | [] => None
  | ac :: inx =>
      match dequeue_stas q ac (linked q ac) with
      | Some r => Some r
      | None => dequeue_acs q inx
      end
  end.

Definition rtw_dequeue_xframe (c : q_cfg) (q : tx_queues) : option (xmit_frame * tx_queues) :=
  dequeue_acs q (if wifi_spec c then wmm_para_seq c else [0; 1; 2; 3]%nat).

Definition rtw_txframes_pending (q : tx_queues) : bool :=
  negb (bool_decide (linked q 2 = [])) || negb (bool_decide (linked q 3 = []))
  || negb (bool_decide (linked q 1 = [])) || negb (bool_decide (linked q 0 = [])).

Definition rtw_txframes_sta_ac_pending (q : tx_queues) (f : xmit_frame) : Z :=
  match frame_sta q f with
  | None => 0
  | Some i => znth (qcnt (stx (ent q i))) (Z.of_nat (f_ac f))
  end.

(** The conditions outside the queues under which [pre_xmitframe] may write
    the frame itself: [rtw_xmit_ac_blocked], [DEV_STA_LG_NUM], and whether a
    transmit buffer is free. *)
Record tx_env := mk_env { ac_blocked : bool; sta_lg : bool; xmitbuf_free : bool }.

(** [true]: the frame is not queued; with [Some f] it is handed to
    [xmitframe_direct], with [None] dropped. *)
Definition pre_xmitframe (v : tx_env) (q : tx_queues) (f : xmit_frame) : bool * option xmit_frame * tx_queues :=
  if (0 <? rtw_txframes_sta_ac_pending q f) || ac_blocked v || sta_lg v || negb (xmitbuf_free v) then
    let '(res, q) := rtw_xmitframe_enqueue q f in
    if res =? _SUCCESS then (false, None, q)
    else (true, None, count_drop (rtw_free_xmitframe q))
  else (true, Some f, q).

(** [rtw_alloc_xmitframe]: a frame from the pool, or NULL. *)
Definition rtw_alloc_xmitframe (q : tx_queues) : option tx_queues :=
  if free_xmitframe_cnt q <=? 0 then None else Some (set_counts q (free_xmitframe_cnt q - 1) (tx_drop q)).

Definition do_queue_select (f : xmit_frame) : xmit_frame :=
  let f := set_qsel f (u8 (f_priority f)) in
  if hipriority_pkt (xe (x_attrib f)) then
    let f := set_qsel f QSLT_VO in
    let h := xh (x_attrib f) in
    set_xattrib f (set_hdr (x_attrib f) (with_priority h QSLT_VO (h_hdrlen h) (h_subtype h)))
  else f.

(** The transmit part of [rtw_free_stainfo]: the frames of the entry go back
    to the pool and its queues are unlinked. *)
Definition free_sta_frames (q : tx_queues) (i : nat) : tx_queues :=
  let n := zlen (slp q i) + zlen (pend q i 0) + zlen (pend q i 1) + zlen (pend q i 2) + zlen (pend q i 3) in
  let q := set_slp q i [] in
  let q := foldl (fun q ac => unlink (set_pend q i ac []) i ac) q [0; 1; 2; 3]%nat in
  set_counts q (free_xmitframe_cnt q + n) (tx_drop q).

Definition free_stainfo (hw_ap : bool) (q : tx_queues) (psta : option nat) : tx_queues :=
  match psta with
  | None => q
  | Some i => let q := free_sta_frames q i in set_qsta q (rtw_free_stainfo hw_ap (q_stapriv q) (Some i))
  end.

(** ** What the queue operations keep of the station table *)

(** The address, the id and the association of an entry. *)
Definition core (e : sta_info) : bytes * Z * bool := (mac_addr e, aid e, bit_test (sta_state e) WIFI_ASOC_STATE).

Record table_eq (p p' : sta_priv) : Prop := {
  te_hash : sta_hash p' = sta_hash p;
  te_core : forall i, core <$> stainfo_buf p' !! i = core <$> stainfo_buf p !! i;
  te_max : max_aid p' = max_aid p
}.

#[export] Instance table_eq_preorder : PreOrder table_eq.
Proof.
  split.
  - by intros p; split.
  - intros p1 p2 p3 [] []. split; [congruence | intros i; etransitivity; eauto | congruence].
Qed.

Lemma table_eq_len p p' : table_eq p p' -> length (stainfo_buf p') = length (stainfo_buf p).
Proof.
  intros T. apply Nat.le_antisymm; apply Nat.nlt_ge; intros H.
  - apply lookup_lt_is_Some in H as [e E]. pose proof (te_core _ _ T (length (stainfo_buf p))) as C.
    rewrite E, (proj2 (lookup_ge_None _ _)) in C by lia. discriminate C.
  - apply lookup_lt_is_Some in H as [e E]. pose proof (te_core _ _ T (length (stainfo_buf p'))) as C.
    rewrite E, (proj2 (lookup_ge_None (stainfo_buf p') _)) in C by lia. discriminate C.
Qed.

Lemma chain_search_ext p p' c a : table_eq p p' -> chain_search p' c a = chain_search p c a.
Proof.
  intros T. induction c as [|i c IH]; [done|]. cbn [chain_search]. pose proof (te_core _ _ T i) as C.
  destruct (stainfo_buf p' !! i) as [e'|], (stainfo_buf p !! i) as [e|]; try discriminate C; [|done].
  injection C as Cm _ _. rewrite Cm. by rewrite IH.
Qed.

Lemma get_stainfo_ext p p' a : table_eq p p' -> rtw_get_stainfo p' a = rtw_get_stainfo p a.
Proof.
  intros T. unfold rtw_get_stainfo. destruct a as [a|]; [|done]. rewrite (te_hash _ _ T).
  by apply chain_search_ext.
Qed.

Lemma ent_core q q' i : table_eq (q_stapriv q) (q_stapriv q') -> core (ent q' i) = core (ent q i).
Proof.
  intros T. unfold ent. pose proof (te_core _ _ T i) as C.
  destruct (stainfo_buf (q_stapriv q') !! i), (stainfo_buf (q_stapriv q) !! i); try discriminate C; [|done].
  cbn in C. injection C as C1 C2 C3. unfold core. cbn [default from_option id]. by rewrite C1, C2, C3.
Qed.

Lemma ent_aid q q' i : table_eq (q_stapriv q) (q_stapriv q') -> aid (ent q' i) = aid (ent q i).
Proof. intros T. pose proof (ent_core _ _ i T) as C. by injection C. Qed.

Lemma frame_sta_ext q q' f : table_eq (q_stapriv q) (q_stapriv q') -> frame_sta q' f = frame_sta q f.
Proof.
  intros T. unfold frame_sta. rewrite (get_stainfo_ext _ _ _ T).
  destruct (bool_decide _); [done|]. destruct (rtw_get_stainfo _ _) as [i|]; [|done].
  pose proof (ent_core _ _ i T) as C. injection C as _ _ C. by rewrite C.
Qed.

Lemma frame_sta_same q f f' : f_ra f' = f_ra f -> f_psta f' = f_psta f -> frame_sta q f' = frame_sta q f.
Proof. intros E1 E2. unfold frame_sta. by rewrite E1, E2. Qed.

Lemma upd_sta_table p i g : (forall e, core (g e) = core e) -> table_eq p (upd_sta p i g).
Proof.
  intros H. split; [done| |done]. intros j. cbn [upd_sta set_stainfo stainfo_buf]. destruct (decide (i = j)) as [->|N].
  - rewrite list_lookup_alter_eq. destruct (stainfo_buf p !! j); [|done]. cbn. by rewrite H.
  - by rewrite list_lookup_alter_ne.
Qed.

Lemma set_accnt_table p c : table_eq p (set_accnt p c).
Proof. by split. Qed.

Lemma set_maps_table p dz tim : table_eq p (set_maps p dz tim).
Proof. by split. Qed.

(** ** Invariant of the queues *)

Fixpoint sumZ (f : nat -> Z) (l : list nat) : Z := match l with [] => 0 | i :: l => f i + sumZ f l end.

Lemma sumZ_ext f g l : (forall i, i ∈ l -> f i = g i) -> sumZ f l = sumZ g l.
Proof.
  induction l as [|x l IH]; intros H; [done|]. cbn [sumZ]. rewrite (H x) by left. rewrite IH; [done|]. intros i Hi. apply H. by right.
Qed.

Lemma sumZ_upd f g l i d :
  NoDup l -> i ∈ l -> g i = d + f i -> (forall j, j <> i -> g j = f j) -> sumZ g l = d + sumZ f l.
Proof.
  intros Hn Hi Hd Ho. induction Hn as [|x l Hx Hl IH]; [by apply elem_of_nil in Hi|]. cbn [sumZ].
  apply elem_of_cons in Hi as [->|Hi].
  - rewrite Hd, (sumZ_ext g f l); [lia|]. intros j Hj. apply Ho. by intros ->.
  - rewrite IH by done. rewrite (Ho x) by (by intros ->). lia.
Qed.

(** The counters agree with the lists, every frame stands in the queue of its
    station and access category, and a station with waiting frames is linked. *)
Record queues_ok (q : tx_queues) : Prop := {
  qo_len : length (stainfo_buf (q_stapriv q)) = 32%nat;
  qo_pend_sta : forall i ac f, f ∈ pend q i ac -> frame_sta q f = Some i /\ f_ac f = ac;
  qo_slp_sta : forall i f, f ∈ slp q i -> frame_sta q f = Some i;
  qo_qcnt : forall i, (i < 32)%nat -> qcnt (stx (ent q i)) = map (fun ac => zlen (pend q i ac)) (seq 0 4);
  qo_accnt : accnt (q_stapriv q) = map (fun ac => sumZ (fun i => zlen (pend q i ac)) (seq 0 32)) (seq 0 4);
  qo_link : forall i ac, pend q i ac <> [] -> i ∈ linked q ac;
  qo_sleepq : forall i, (i < 32)%nat -> sleepq_len (stx (ent q i)) = zlen (slp q i);
  qo_small : forall i, zlen (slp q i) < 4294967296 - 1
}.

(** What moving frames between the queues leaves alone. *)
Record calm (q q' : tx_queues) : Prop := {
  cm_table : table_eq (q_stapriv q) (q_stapriv q');
  cm_dz : sta_dz_bitmap (q_stapriv q') = sta_dz_bitmap (q_stapriv q);
  cm_tim : tim_bitmap (q_stapriv q') = tim_bitmap (q_stapriv q);
  cm_bcn : bcn_tim q' = bcn_tim q;
  cm_fw : fw_state (t_adp (q_txs q')) = fw_state (t_adp (q_txs q));
  cm_info : t_info (q_txs q') = t_info (q_txs q);
  cm_state : forall j, sta_state (ent q' j) = sta_state (ent q j);
  cm_sps : forall j, sps (ent q' j) = sps (ent q j)
}.

#[export] Instance calm_preorder : PreOrder calm.
Proof.
  split.
  - intros q. by split.
  - intros q1 q2 q3 [] []. split; try congruence. by etransitivity.
Qed.

Lemma f_ac_lt f : (f_ac f < 4)%nat.
Proof. unfold f_ac, rtw_get_sta_pending. repeat case_match; lia. Qed.

Lemma frame_sta_lt q f i : frame_sta q f = Some i -> (i < length (stainfo_buf (q_stapriv q)))%nat.
Proof.
  unfold frame_sta. destruct (bool_decide _); [done|]. destruct (rtw_get_stainfo _ _) as [j|] eqn:E; [|done].
  intros H. assert (j = i) as -> by (destruct (bit_test _ _); congruence). clear H.
  unfold rtw_get_stainfo in E. apply chain_search_Some in E as (_ & e & E & _). by eapply lookup_lt_Some.
Qed.

Lemma qo_frame_lt q f i : queues_ok q -> frame_sta q f = Some i -> (i < 32)%nat.
Proof. intros H F. apply frame_sta_lt in F. by rewrite (qo_len q H) in F. Qed.

Lemma qo_pend_lt q i ac : queues_ok q -> pend q i ac <> [] -> (i < 32)%nat /\ (ac < 4)%nat.
Proof.
  intros H N. destruct (pend q i ac) as [|f l] eqn:E; [done|].
  destruct (qo_pend_sta q H i ac f) as [F <-]; [rewrite E; left|]. split; [by eapply qo_frame_lt | apply f_ac_lt].
Qed.

Lemma qo_slp_lt q i : queues_ok q -> slp q i <> [] -> (i < 32)%nat.
Proof.
  intros H N. destruct (slp q i) as [|f l] eqn:E; [done|]. eapply qo_frame_lt; [done|].
  apply (qo_slp_sta q H i f). rewrite E. left.
Qed.

(** Entries after an update. *)
Lemma ent_upd_same q i g : (i < length (stainfo_buf (q_stapriv q)))%nat -> ent (upd_ent q i g) i = g (ent q i).
Proof.
  intros H. apply lookup_lt_is_Some in H as [e E]. unfold ent, upd_ent.
  change (q_stapriv (set_qsta q ?p)) with p. cbn [upd_sta set_stainfo stainfo_buf]. by rewrite list_lookup_alter_eq, E.
Qed.

Lemma ent_upd_ne q i j g : i <> j -> ent (upd_ent q i g) j = ent q j.
Proof.
  intros H. unfold ent, upd_ent. change (q_stapriv (set_qsta q ?p)) with p. cbn [upd_sta set_stainfo stainfo_buf].
  by rewrite list_lookup_alter_ne.
Qed.

(** A field an update does not change. *)
Lemma ent_upd_proj {A} (g : sta_info -> A) q i h j : (forall e, g (h e) = g e) -> g (ent (upd_ent q i h) j) = g (ent q j).
Proof.
  intros H. destruct (decide (i = j)) as [->|N]; [|by rewrite ent_upd_ne].
  destruct (decide (j < length (stainfo_buf (q_stapriv q)))%nat); [by rewrite ent_upd_same|].
  unfold ent, upd_ent. change (q_stapriv (set_qsta q ?p)) with p. cbn [upd_sta set_stainfo stainfo_buf].
  by rewrite list_lookup_alter_eq, (proj2 (lookup_ge_None _ _)) by lia.
Qed.

Lemma pend_set_pend q i ac l j b : pend (set_pend q i ac l) j b = if bool_decide (j = i /\ b = ac) then l else pend q j b.
Proof.
  unfold pend. cbn [set_pend sta_pending]. destruct (bool_decide_reflect (j = i /\ b = ac)) as [[-> ->]|N].
  - by rewrite lookup_insert_eq.
  - rewrite lookup_insert_ne; [done|]. intros [= -> ->]. by apply N.
Qed.

Lemma linked_set_linked q ac l b : linked (set_linked q ac l) b = if bool_decide (b = ac) then l else linked q b.
Proof.
  unfold linked. cbn [set_linked sta_queue]. destruct (bool_decide_reflect (b = ac)) as [->|N].
  - by rewrite lookup_insert_eq.
  - by rewrite lookup_insert_ne.
Qed.

Lemma slp_set_slp q i l j : slp (set_slp q i l) j = if bool_decide (j = i) then l else slp q j.
Proof.
  unfold slp. cbn [set_slp sleep_q]. destruct (bool_decide_reflect (j = i)) as [->|N].
  - by rewrite lookup_insert_eq.
  - by rewrite lookup_insert_ne.
Qed.

(** *** Preservation, by what an update touches *)

Lemma alter_map_seq (g g' : nat -> Z) ac d n :
  (ac < n)%nat -> g' ac = d + g ac -> (forall b, b <> ac -> g' b = g b) ->
  alter (Z.add d) ac (map g (seq 0 n)) = map g' (seq 0 n).
Proof.
  intros Hn Hd Ho. apply list_eq. intros k. destruct (decide (k < n)%nat) as [Hk|Hk].
  - assert (forall h : nat -> Z, map h (seq 0 n) !! k = Some (h k)) as L.
    { intros h. change (map h (seq 0 n)) with (h <$> seq 0 n). rewrite list_lookup_fmap, lookup_seq_lt by done. done. }
    rewrite (L g'). destruct (decide (ac = k)) as [->|N].
    + rewrite list_lookup_alter_eq, L. cbn. by rewrite Hd.
    + rewrite list_lookup_alter_ne, L by done. by rewrite Ho.
  - rewrite (proj2 (lookup_ge_None _ _)), (proj2 (lookup_ge_None (map g' _) _)); [done| |];
      rewrite ?length_alter, length_map, length_seq; lia.
Qed.

(** Nothing of the queues. *)
Lemma queues_ok_quiet q q' :
  queues_ok q -> table_eq (q_stapriv q) (q_stapriv q') ->
  (forall i ac, pend q' i ac = pend q i ac) -> (forall i, slp q' i = slp q i) ->
  (forall i ac, pend q i ac <> [] -> i ∈ linked q ac -> i ∈ linked q' ac) ->
  (forall i, stx (ent q' i) = stx (ent q i)) -> accnt (q_stapriv q') = accnt (q_stapriv q) ->
  queues_ok q'.
Proof.
  intros [] T Hp Hs Hl Hx Ha. split.
  - rewrite (table_eq_len _ _ T). done.
  - intros i ac f. rewrite Hp, (frame_sta_ext _ _ f T). auto.
  - intros i f. rewrite Hs, (frame_sta_ext _ _ f T). auto.
  - intros i Hi. rewrite Hx, qo_qcnt0 by done. apply map_ext. intros ac. by rewrite Hp.
  - rewrite Ha, qo_accnt0. apply map_ext. intros ac. apply sumZ_ext. intros i _. by rewrite Hp.
  - intros i ac. rewrite Hp. intros H. auto.
  - intros i Hi. rewrite Hx, Hs. auto.
  - intros i. by rewrite Hs.
Qed.

(** One pending queue, grown by [d]. *)
Lemma queues_ok_pend q q' i ac l d :
  queues_ok q -> (i < 32)%nat -> (ac < 4)%nat -> table_eq (q_stapriv q) (q_stapriv q') ->
  (forall j b, pend q' j b = if bool_decide (j = i /\ b = ac) then l else pend q j b) ->
  zlen l = d + zlen (pend q i ac) ->
  (forall f, f ∈ l -> frame_sta q f = Some i /\ f_ac f = ac) ->
  (forall j, slp q' j = slp q j) ->
  stx (ent q' i) = mk_stx (alter (Z.add d) ac (qcnt (stx (ent q i)))) (sleepq_len (stx (ent q i))) ->
  (forall j, j <> i -> stx (ent q' j) = stx (ent q j)) ->
  accnt (q_stapriv q') = alter (Z.add d) ac (accnt (q_stapriv q)) ->
  (forall j b, pend q' j b <> [] -> (pend q j b <> [] -> j ∈ linked q b) -> j ∈ linked q' b) ->
  queues_ok q'.
Proof.
  intros [] Hi Hac T Hp Hd Hf Hs Hx Hx' Ha Hl.
  assert (forall j b, j <> i \/ b <> ac -> pend q' j b = pend q j b) as Hp'.
  { intros j b N. rewrite Hp. destruct (bool_decide_reflect (j = i /\ b = ac)) as [[-> ->]|]; [tauto|done]. }
  assert (pend q' i ac = l) as Hpi by (rewrite Hp, bool_decide_true; done).
  split.
  - rewrite (table_eq_len _ _ T). done.
  - intros j b f. rewrite (frame_sta_ext _ _ f T), Hp. destruct (bool_decide_reflect (j = i /\ b = ac)) as [[-> ->]|]; auto.
  - intros j f. rewrite Hs, (frame_sta_ext _ _ f T). auto.
  - intros j Hj. destruct (decide (j = i)) as [->|N].
    + rewrite Hx. cbn [qcnt]. rewrite qo_qcnt0 by done.
      apply alter_map_seq; [done|by rewrite Hpi|]. intros b Hb. rewrite Hp'; auto.
    + rewrite Hx', qo_qcnt0 by done. apply map_ext. intros b. rewrite Hp'; auto.
  - rewrite Ha, qo_accnt0. apply alter_map_seq; [done| |].
    + apply (sumZ_upd _ _ _ i); [apply NoDup_seq|apply elem_of_seq; lia|by rewrite Hpi|]. intros j N. rewrite Hp'; auto.
    + intros b Hb. apply sumZ_ext. intros j _. rewrite Hp'; auto.
  - intros j b N. apply Hl; auto.
  - intros j Hj. rewrite Hs. destruct (decide (j = i)) as [->|N]; [rewrite Hx; cbn; auto|rewrite Hx'; auto].
  - intros j. by rewrite Hs.
Qed.

(** One sleeping queue. *)
Lemma queues_ok_slp q q' i l :
  queues_ok q -> (i < 32)%nat -> table_eq (q_stapriv q) (q_stapriv q') ->
  (forall j, slp q' j = if bool_decide (j = i) then l else slp q j) ->
  zlen l < 4294967296 - 1 -> (forall f, f ∈ l -> frame_sta q f = Some i) ->
  (forall j b, pend q' j b = pend q j b) -> (forall b, linked q' b = linked q b) ->
  stx (ent q' i) = mk_stx (qcnt (stx (ent q i))) (zlen l) ->
  (forall j, j <> i -> stx (ent q' j) = stx (ent q j)) ->
  accnt (q_stapriv q') = accnt (q_stapriv q) ->
  queues_ok q'.
Proof.
  intros [] Hi T Hs Hl Hf Hp Hk Hx Hx' Ha.
  split.
  - rewrite (table_eq_len _ _ T). done.
  - intros j b f. rewrite (frame_sta_ext _ _ f T), Hp. auto.
  - intros j f. rewrite (frame_sta_ext _ _ f T), Hs. destruct (bool_decide_reflect (j = i)) as [->|]; auto.
  - intros j Hj. assert (qcnt (stx (ent q' j)) = qcnt (stx (ent q j))) as ->.
    { destruct (decide (j = i)) as [->|N]; [by rewrite Hx|by rewrite Hx']. }
    rewrite qo_qcnt0 by done. apply map_ext. intros b. by rewrite Hp.
  - rewrite Ha, qo_accnt0. apply map_ext. intros b. apply sumZ_ext. intros j _. by rewrite Hp.
  - intros j b. rewrite Hp, Hk. auto.
  - intros j Hj. rewrite Hs. destruct (bool_decide_reflect (j = i)) as [->|N]; [by rewrite Hx|rewrite Hx'; auto].
  - intros j. rewrite Hs. destruct (bool_decide_reflect (j = i)) as [->|]; auto.
Qed.

(** *** The elementary updates are calm *)

Lemma calm_pend q i ac l : calm q (set_pend q i ac l).
Proof. by split. Qed.
Lemma calm_linked q ac l : calm q (set_linked q ac l).
Proof. by split. Qed.
Lemma calm_slp q i l : calm q (set_slp q i l).
Proof. by split. Qed.
Lemma calm_counts q a b : calm q (set_counts q a b).
Proof. by split. Qed.
Lemma calm_call q x : calm q (qcall q x).
Proof. by split. Qed.
Lemma calm_accnt q ac d : calm q (add_accnt ac d q).
Proof. by split. Qed.

Lemma calm_stx q i g : (forall e, exists x, g e = set_stx e x) -> calm q (upd_ent q i g).
Proof.
  intros H. assert (forall {A} (h : sta_info -> A), (forall e x, h (set_stx e x) = h e) -> forall e, h (g e) = h e) as G.
  { intros A h Hh e. destruct (H e) as [x ->]. apply Hh. }
  split; try done.
  - apply upd_sta_table, G. done.
  - intros j. by apply (ent_upd_proj sta_state), G.
  - intros j. by apply (ent_upd_proj sps), G.
Qed.

Create HintDb calm.
#[export] Hint Resolve calm_pend calm_linked calm_slp calm_counts calm_call calm_accnt : calm.
#[export] Hint Extern 5 (calm _ (upd_ent _ _ _)) => apply calm_stx; intros ?; by eexists : calm.

(** Appending a frame to the queue of its station. *)
Lemma classifier_spec q f i :
  queues_ok q -> frame_sta q f = Some i ->
  exists q', rtw_xmit_classifier q f = (_SUCCESS, q') /\ queues_ok q' /\ calm q q' /\
    (forall j ac, pend q' j ac = pend q j ac ++ (if bool_decide (j = i /\ ac = f_ac f) then [f] else [])) /\
    (forall j, slp q' j = slp q j) /\ free_xmitframe_cnt q' = free_xmitframe_cnt q /\ q_calls q' = q_calls q /\ tx_drop q' = tx_drop q.
Proof.
  intros Hq Hf. unfold rtw_xmit_classifier. rewrite Hf. eexists. split; [reflexivity|].
  pose proof (qo_frame_lt q f i Hq Hf) as Hi. pose proof (f_ac_lt f) as Hac. set (ac := f_ac f) in *.
  set (q1 := if bool_decide (i ∈ linked q ac) then q else _).
  assert (calm q q1) as C1 by (unfold q1; destruct (bool_decide _); [reflexivity|apply calm_linked]).
  assert (forall j b, pend q1 j b = pend q j b) as P1 by (intros; unfold q1; by destruct (bool_decide _)).
  assert (forall j, slp q1 j = slp q j) as S1 by (intros; unfold q1; by destruct (bool_decide _)).
  assert (q_stapriv q1 = q_stapriv q) as E1 by (unfold q1; by destruct (bool_decide _)).
  assert (forall j b, (j = i /\ b = ac) \/ j ∈ linked q b -> j ∈ linked q1 b) as L1.
  { intros j b H. unfold q1. destruct (bool_decide_reflect (i ∈ linked q ac)).
    - destruct H as [[-> ->]|H]; done.
    - rewrite linked_set_linked. destruct (bool_decide_reflect (b = ac)) as [->|N]; [|by destruct H as [[-> ->]|H]].
      apply elem_of_app. destruct H as [[-> _]|H]; [right; apply list_elem_of_singleton; done|by left]. }
  assert (free_xmitframe_cnt q1 = free_xmitframe_cnt q /\ q_calls q1 = q_calls q /\ tx_drop q1 = tx_drop q) as R1 by (unfold q1; by destruct (bool_decide _)).
  clearbody q1. set (q2 := set_pend q1 i ac (pend q1 i ac ++ [f])). set (q3 := upd_ent q2 i (add_qcnt ac 1)).
  assert (calm q (add_accnt ac 1 q3)) as C.
  { rewrite C1. transitivity q2; [apply calm_pend|]. transitivity q3; [unfold q3; auto with calm|auto with calm]. }
  assert (forall j b, pend (add_accnt ac 1 q3) j b = if bool_decide (j = i /\ b = ac) then pend q i ac ++ [f] else pend q j b) as P.
  { intros j b. change (pend (add_accnt ac 1 q3) j b) with (pend q2 j b). unfold q2. rewrite pend_set_pend, !P1. done. }
  assert (forall j, ent (add_accnt ac 1 q3) j = ent q3 j) as E3 by done.
  assert (forall j, ent q2 j = ent q j) as E2 by (intros j; change (ent q2 j) with (ent q1 j); unfold ent; by rewrite E1).
  split_and!; try done.
  - apply (queues_ok_pend q _ i ac (pend q i ac ++ [f]) 1); try done.
    + apply C.
    + rewrite zlen_app. change (zlen [f]) with 1. lia.
    + intros g Hg. apply elem_of_app in Hg as [Hg|Hg]; [by apply (qo_pend_sta q Hq)|]. apply list_elem_of_singleton in Hg as ->. done.
    + rewrite E3. unfold q3. rewrite ent_upd_same; [by rewrite E2|]. change (q_stapriv q2) with (q_stapriv q1). rewrite E1, (qo_len q Hq). done.
    + intros j N. rewrite E3. unfold q3. by rewrite ent_upd_ne, E2.
    + change (accnt (q_stapriv (add_accnt ac 1 q3))) with (alter (Z.add 1) ac (accnt (q_stapriv q1))). by rewrite E1.
    + intros j b Hn Hl. change (linked (add_accnt ac 1 q3) b) with (linked q1 b). apply L1.
      rewrite P in Hn. destruct (bool_decide_reflect (j = i /\ b = ac)); auto.
  - intros j b. rewrite P. destruct (bool_decide_reflect (j = i /\ b = ac)) as [[-> ->]|]; [done|by rewrite app_nil_r].
  - apply R1.
  - apply R1.
  - apply R1.
Qed.

(** Taking a frame off the queue of its station. *)
Definition take_pend (q : tx_queues) (i ac : nat) (l : list xmit_frame) : tx_queues :=
  add_accnt ac (-1) (upd_ent (set_pend q i ac l) i (add_qcnt ac (-1))).

Lemma calm_take q i ac l : calm q (take_pend q i ac l).
Proof. unfold take_pend. transitivity (set_pend q i ac l); [apply calm_pend|]. etransitivity; [|apply calm_accnt]. auto with calm. Qed.

Lemma pend_take q i ac l j b : pend (take_pend q i ac l) j b = if bool_decide (j = i /\ b = ac) then l else pend q j b.
Proof. change (pend (take_pend q i ac l) j b) with (pend (set_pend q i ac l) j b). apply pend_set_pend. Qed.

Lemma take_ok q i ac kept f l :
  queues_ok q -> pend q i ac = kept ++ f :: l -> queues_ok (take_pend q i ac (kept ++ l)).
Proof.
  intros Hq E. destruct (qo_pend_lt q i ac Hq) as [Hi Hac]; [rewrite E; by destruct kept|].
  apply (queues_ok_pend q _ i ac (kept ++ l) (-1)); try done.
  - apply calm_take.
  - intros. apply pend_take.
  - rewrite E, !zlen_app, zlen_cons. lia.
  - intros g Hg. apply (qo_pend_sta q Hq). rewrite E. apply elem_of_app in Hg as [?|?]; apply elem_of_app; [by left|right; by right].
  - unfold take_pend. change (ent (add_accnt ac (-1) ?x) i) with (ent x i). rewrite ent_upd_same; [done|].
    change (q_stapriv (set_pend q i ac (kept ++ l))) with (q_stapriv q). by rewrite (qo_len q Hq).
  - intros j N. unfold take_pend. change (ent (add_accnt ac (-1) ?x) j) with (ent x j). by rewrite ent_upd_ne.
  - intros j b Hn Hl. rewrite pend_take in Hn. change (linked (take_pend q i ac (kept ++ l)) b) with (linked q b). apply Hl.
    destruct (bool_decide_reflect (j = i /\ b = ac)) as [[E1 E2]|]; [|done]. rewrite E1, E2, E. by destruct kept.
Qed.

Lemma unlink_ok q i ac : queues_ok q -> pend q i ac = [] -> queues_ok (unlink q i ac).
Proof.
  intros Hq E. apply (queues_ok_quiet q); try done. intros j b N Hl. unfold unlink. rewrite linked_set_linked.
  destruct (bool_decide_reflect (b = ac)) as [->|]; [|done]. apply list_elem_of_filter. split; [|done]. intros ->. done.
Qed.

Lemma calm_unlink q i ac : calm q (unlink q i ac).
Proof. apply calm_linked. Qed.
#[export] Hint Resolve calm_take calm_unlink : calm.

(** What a dequeue does: the head of one queue leaves. *)
Record dequeued (q : tx_queues) (i ac : nat) (f : xmit_frame) (q' : tx_queues) : Prop := {
  dq_ok : queues_ok q';
  dq_calm : calm q q';
  dq_head : exists l, pend q i ac = f :: l /\ pend q' i ac = l;
  dq_other : forall j b, j <> i \/ b <> ac -> pend q' j b = pend q j b;
  dq_slp : forall j, slp q' j = slp q j;
  dq_rest : free_xmitframe_cnt q' = free_xmitframe_cnt q /\ q_calls q' = q_calls q /\ tx_drop q' = tx_drop q
}.

Lemma dequeue_stas_spec q ac stas :
  queues_ok q ->
  match dequeue_stas q ac stas with
  | Some (f, q') => exists i, i ∈ stas /\ dequeued q i ac f q'
  | None => forall i, i ∈ stas -> pend q i ac = []
  end.
Proof.
  intros Hq. induction stas as [|i stas IH]; cbn [dequeue_stas]; [intros i Hi; by apply elem_of_nil in Hi|].
  unfold dequeue_one_xmitframe. destruct (pend q i ac) as [|f l] eqn:E.
  - destruct (dequeue_stas q ac stas) as [[f q']|].
    + destruct IH as (j & Hj & D). exists j. split; [by right|done].
    + intros j Hj. apply elem_of_cons in Hj as [->|Hj]; auto.
  - exists i. split; [left|]. fold (take_pend q i ac l). set (q2 := take_pend q i ac l).
    assert (pend q2 i ac = l) as E2 by (unfold q2; rewrite pend_take, bool_decide_true; done).
    assert (queues_ok q2) as Hq2 by (apply (take_ok q i ac [] f l); done).
    assert (forall j b, j <> i \/ b <> ac -> pend q2 j b = pend q j b) as O.
    { intros j b N. unfold q2. rewrite pend_take, bool_decide_false; [done|]. intros [-> ->]. tauto. }
    assert (calm q q2) as C by apply calm_take.
    rewrite E2. destruct (bool_decide_reflect (l = [])) as [->|].
    + split; try done; [by apply unlink_ok|by rewrite C; auto with calm|by exists []].
    + split; try done. by exists l.
Qed.

Lemma dequeue_acs_spec q l :
  queues_ok q ->
  match dequeue_acs q l with
  | Some (f, q') => exists before ac after i, l = before ++ ac :: after /\ dequeued q i ac f q' /\ forall b j, b ∈ before -> pend q j b = []
  | None => forall i ac, ac ∈ l -> pend q i ac = []
  end.
Proof.
  intros Hq. induction l as [|ac l IH]; cbn [dequeue_acs]; [intros i ac H; by apply elem_of_nil in H|].
  pose proof (dequeue_stas_spec q ac (linked q ac) Hq) as S.
  assert (forall i, (forall j, j ∈ linked q ac -> pend q j ac = []) -> pend q i ac = []) as Em.
  { intros i H. destruct (pend q i ac) eqn:E; [done|]. rewrite <- E. apply H, (qo_link q Hq). by rewrite E. }
  destruct (dequeue_stas q ac (linked q ac)) as [[f q']|].
  - destruct S as (i & _ & D). exists [], ac, l, i. split_and!; [done|done|]. intros b j H. by apply elem_of_nil in H.
  - destruct (dequeue_acs q l) as [[f q']|].
    + destruct IH as (before & a & after & i & -> & D & Hb). exists (ac :: before), a, after, i. split_and!; [done|done|].
      intros b j H. apply elem_of_cons in H as [->|H]; auto.
    + intros i a H. apply elem_of_cons in H as [->|H]; auto.
Qed.

Lemma dequeue_xframe_some c q f q' : queues_ok q -> rtw_dequeue_xframe c q = Some (f, q') -> exists i ac, dequeued q i ac f q'.
Proof.
  intros Hq E. unfold rtw_dequeue_xframe in E. pose proof (dequeue_acs_spec q (if wifi_spec c then wmm_para_seq c else [0; 1; 2; 3]%nat) Hq) as G.
  rewrite E in G. destruct G as (_ & ac & _ & i & _ & D & _). by exists i, ac.
Qed.

(** [rtw_dequeue_xframe] serves the access categories in strict priority (or
    in the order of [wmm_para_seq]): the frame returned is the head of the
    queue of a station in the first category that has a waiting frame, and
    leaves it; nothing is returned only when no frame waits at all. *)
Theorem dequeue_serves_first c q :
  queues_ok q -> wmm_para_seq c ≡ₚ seq 0 4 ->
  let inx := if wifi_spec c then wmm_para_seq c else seq 0 4 in
  match rtw_dequeue_xframe c q with
  | Some (f, q') => exists before ac after i, inx = before ++ ac :: after /\ dequeued q i ac f q' /\
      forall b j, b ∈ before -> pend q j b = []
  | None => forall i ac, pend q i ac = []
  end.
Proof.
  intros Hq Hw inx. unfold rtw_dequeue_xframe. change ([0; 1; 2; 3]%nat) with (seq 0 4). fold inx.
  assert (inx ≡ₚ seq 0 4) as Hi by (unfold inx; by destruct (wifi_spec c)).
  pose proof (dequeue_acs_spec q inx Hq) as G. destruct (dequeue_acs q inx) as [[f q']|]; [done|].
  intros i ac. destruct (decide (ac < 4)%nat) as [H|H].
  - apply G. rewrite Hi. apply elem_of_seq. lia.
  - destruct (pend q i ac) eqn:E; [done|]. destruct (qo_pend_lt q i ac Hq); [by rewrite E|lia].
Qed.

(** ** No frames *)

Definition no_frames (s : txs) (free : Z) (tim : bytes) : tx_queues := mk_txq s ∅ ∅ ∅ free 0 tim [].

(** The counters of a table without queued frames. *)
Definition counters_zero (p : sta_priv) : bool :=
  (length (stainfo_buf p) =? 32)%nat && forallb (fun e => bool_decide (qcnt (stx e) = [0; 0; 0; 0]) && (sleepq_len (stx e) =? 0)) (stainfo_buf p)
  && bool_decide (accnt p = [0; 0; 0; 0]).

Lemma no_frames_ok s free tim : counters_zero (stapriv (t_adp s)) = true -> queues_ok (no_frames s free tim).
Proof.
  unfold counters_zero. rewrite !andb_true_iff. intros [[Hl Hc] Ha]. apply bool_decide_eq_true in Ha. rewrite forallb_forall in Hc.
  assert (length (stainfo_buf (stapriv (t_adp s))) = 32%nat) as Hlen by (by apply Nat.eqb_eq).
  assert (forall i, (i < 32)%nat -> qcnt (stx (ent (no_frames s free tim) i)) = [0; 0; 0; 0] /\ sleepq_len (stx (ent (no_frames s free tim) i)) = 0) as G.
  { intros i Hi. unfold ent. change (q_stapriv (no_frames s free tim)) with (stapriv (t_adp s)).
    destruct (lookup_lt_is_Some_2 (stainfo_buf (stapriv (t_adp s))) i) as [e E]; [lia|]. rewrite E. cbn.
    apply list_elem_of_lookup_2, list_elem_of_In, Hc in E. apply andb_true_iff in E as [E1 E2]. apply bool_decide_eq_true in E1. split; [done|lia]. }
  split; try done.
  - intros i ac f H. unfold pend in H. cbn in H. rewrite lookup_empty in H. by apply elem_of_nil in H.
  - intros i f H. unfold slp in H. cbn in H. rewrite lookup_empty in H. by apply elem_of_nil in H.
  - intros i Hi. by apply G.
  - intros i Hi. by apply G.
Qed.
