(* ===== verification/PowerSave.v ===== *)
(** * Power save of an access point (core/rtw_xmit.c, core/rtw_recv.c, core/rtw_ap.c)

    When a station announces power save, [stop_sta_xmit] moves its waiting
    frames to its [sleep_q] and later frames are buffered there
    ([xmitframe_enqueue_for_sleeping_sta]); group frames are buffered on the
    [sleep_q] of the broadcast entry while any station sleeps.  The traffic map
    [tim_bitmap] tells the stations, the map [sta_dz_bitmap] remembers who
    sleeps.  Frames leave when the station wakes ([wakeup_sta_to_xmit]), on a
    PS-Poll, on a U-APSD trigger ([xmit_delivery_enabled_frames]), and, for
    group frames, after a beacon ([chk_bmc_sleepq_hdl]). *)

From S2P Require Import Prelude RxFrame Reorder StaMgt RxCheck XmitAttr TxQueue.

Definition RTW_HIQ_FILTER_ALLOW_ALL : Z := 0.
Definition RTW_HIQ_FILTER_ALLOW_SPECIAL : Z := 1.
Definition RTW_HIQ_FILTER_DENY_ALL : Z := 2.
Definition HIQ_XMIT_COUNTS : nat := 6.

(** ** Maps and beacon *)

Definition tim_is_set (q : tx_queues) (id : Z) : bool := rtw_tim_map_is_set (q_stapriv q) (tim_bitmap (q_stapriv q)) id.
Definition dz_is_set (q : tx_queues) (id : Z) : bool := rtw_tim_map_is_set (q_stapriv q) (sta_dz_bitmap (q_stapriv q)) id.
Definition set_tim (q : tx_queues) (m : bytes) : tx_queues :=
  let p := q_stapriv q in set_qsta q (set_maps p (sta_dz_bitmap p) m).
Definition set_dz (q : tx_queues) (m : bytes) : tx_queues :=
  let p := q_stapriv q in set_qsta q (set_maps p m (tim_bitmap p)).
Definition tim_map_set (q : tx_queues) (id : Z) : tx_queues := set_tim q (rtw_tim_map_set (q_stapriv q) (tim_bitmap (q_stapriv q)) id).
Definition tim_map_clear (q : tx_queues) (id : Z) : tx_queues := set_tim q (rtw_tim_map_clear (q_stapriv q) (tim_bitmap (q_stapriv q)) id).
Definition dz_map_set (q : tx_queues) (id : Z) : tx_queues := set_dz q (rtw_tim_map_set (q_stapriv q) (sta_dz_bitmap (q_stapriv q)) id).
Definition dz_map_clear (q : tx_queues) (id : Z) : tx_queues := set_dz q (rtw_tim_map_clear (q_stapriv q) (sta_dz_bitmap (q_stapriv q)) id).
Definition dz_anyone (q : tx_queues) : bool := rtw_tim_map_anyone_be_set (q_stapriv q) (sta_dz_bitmap (q_stapriv q)).
Definition dz_anyone_exclude_aid0 (q : tx_queues) : bool :=
  rtw_tim_map_anyone_be_set_exclude_aid0 (q_stapriv q) (sta_dz_bitmap (q_stapriv q)).

(** [_update_beacon] for the TIM element: nothing before the BSS is started. *)
Definition _update_beacon (c : q_cfg) (tx : bool) (q : tx_queues) : tx_queues :=
  if bstart_bss c then
    let q := set_bcn q (tim_bitmap (q_stapriv q)) in
    if tx then qcall q set_tx_beacon_cmd else q
  else q.

(** ** Buffering *)

Definition sleeping (e : sta_info) : bool := bit_test (sta_state e) WIFI_SLEEP_STATE.

(** The U-APSD setting of the access category of a priority: bit 0 delivery
    enabled, bit 1 trigger enabled. *)
Definition uapsd_of (e : sta_info) (prio : Z) : Z :=
  match prio with
  | 1 | 2 => uapsd_bk (sps e)
  | 4 | 5 => uapsd_vi (sps e)
  | 6 | 7 => uapsd_vo (sps e)
  | _ => uapsd_be (sps e)
  end.
Definition delivery_enabled (e : sta_info) (prio : Z) : bool := bit_test (uapsd_of e prio) (BIT 0).
Definition trigger_enabled (e : sta_info) (prio : Z) : bool := bit_test (uapsd_of e prio) (BIT 1).

Definition xmitframe_hiq_filter (c : q_cfg) (f : xmit_frame) : bool :=
  let e := xe (x_attrib f) in
  if wifi_spec c then true
  else if hiq_filter c =? RTW_HIQ_FILTER_ALLOW_SPECIAL then
    (ether_type e =? 0x0806) || (ether_type e =? 0x888e) || dhcp_pkt e
  else hiq_filter c =? RTW_HIQ_FILTER_ALLOW_ALL.

(** The frame at the tail of [sleep_q], [sleepq_len] counted up. *)
Definition push_sleep (q : tx_queues) (i : nat) (f : xmit_frame) : tx_queues :=
  let q := set_slp q i (slp q i ++ [f]) in
  upd_ent q i (fun e => set_sleepq_len (u32 (sleepq_len (stx e) + 1)) e).

Definition buffer_group (c : q_cfg) (q : tx_queues) (i : nat) (f : xmit_frame) : tx_queues :=
  let q := push_sleep q i f in
  let update_tim := negb (tim_is_set q 0) in
  let q := dz_map_set (tim_map_set q 0) 0 in
  if update_tim then _update_beacon c true q else qcall q chk_bmc_sleepq_cmd.

(** Whether the frame counts for the bit of its station: frames of the other
    categories when there are any, otherwise delivery-enabled ones. *)
Definition indicated (e : sta_info) (f : xmit_frame) : bool :=
  let wmmps_ac := delivery_enabled e (f_priority f) in
  if has_legacy_ac (sps e) =? 0 then wmmps_ac else negb wmmps_ac.

Definition buffer_unicast (c : q_cfg) (q : tx_queues) (i : nat) (f : xmit_frame) : tx_queues :=
  let e := ent q i in
  let q := push_sleep q i f in
  let q := if delivery_enabled e (f_priority f)
           then upd_ent q i (fun e => set_ac_len (u32 (sleepq_ac_len (sps e) + 1)) e) else q in
  if indicated e f then
    let update_tim := negb (tim_is_set q (aid e)) in
    let q := tim_map_set q (aid e) in
    if update_tim then _update_beacon c true q else q
  else q.

(** Whether the frame was buffered, the frame and the state. *)
Definition xmitframe_enqueue_for_sleeping_sta (c : q_cfg) (q : tx_queues) (f : xmit_frame) : bool * xmit_frame * tx_queues :=
  if negb (check_fwstate (t_adp (q_txs q)) WIFI_AP_STATE) then (false, f, q)
  else
    match frame_sta q f with
    | None => (false, f, q)
    | Some i =>
        let bmcst := IS_MCAST (f_ra f) in
        if triggered f then
          (false, if bmcst && xmitframe_hiq_filter c f then set_qsel f QSLT_HIGH else f, q)
        else if bmcst then
          if dz_anyone q then (true, f, buffer_group c q i f) else (false, f, q)
        else if sleeping (ent q i) && dz_is_set q (aid (ent q i)) then (true, f, buffer_unicast c q i f)
        else (false, f, q)
    end.

(** ** A station goes to sleep *)

(** The loop over the frames of one queue; [kept] are those that stay. *)
Fixpoint dequeue_loop (c : q_cfg) (q : tx_queues) (i ac : nat) (kept l : list xmit_frame) : tx_queues :=
  match l with
  | [] => q
  | f :: l =>
      let f := set_triggered f false in
      let '(ret, f, q) := xmitframe_enqueue_for_sleeping_sta c q f in
      if (ret : bool) then
        let q := set_pend q i ac (kept ++ l) in
        let q := add_accnt (f_ac f) (-1) (upd_ent q i (add_qcnt (f_ac f) (-1))) in
        dequeue_loop c q i ac kept l
      else dequeue_loop c (set_pend q i ac (kept ++ f :: l)) i ac (kept ++ [f]) l
  end.

Definition dequeue_xmitframes_to_sleeping_queue (c : q_cfg) (q : tx_queues) (i ac : nat) : tx_queues :=
  dequeue_loop c q i ac [] (pend q i ac).

(** The four queues of an entry, voice first, each unlinked afterwards. *)
Definition sleep_queues (c : q_cfg) (q : tx_queues) (i : nat) : tx_queues :=
  foldl (fun q ac => unlink (dequeue_xmitframes_to_sleeping_queue c q i ac) i ac) q [0; 1; 2; 3]%nat.

Definition set_state (v : Z) (e : sta_info) : sta_info := set_sta_state e v.

Definition stop_sta_xmit (c : q_cfg) (q : tx_queues) (i : nat) : tx_queues :=
  let psta_bmc := rtw_get_bcmc_stainfo (q_stapriv q) in
  let q := upd_ent q i (fun e => set_state (Z.lor (sta_state e) WIFI_SLEEP_STATE) e) in
  let q := dz_map_set q (aid (ent q i)) in
  let q := sleep_queues c q i in
  match psta_bmc with
  | None => q
  | Some b => sleep_queues c q b
  end.

(** ** A station wakes up *)

Definition pop_sleep (q : tx_queues) (i : nat) (l : list xmit_frame) : tx_queues :=
  let q := set_slp q i l in
  upd_ent q i (fun e => set_sleepq_len (u32 (sleepq_len (stx e) - 1)) e).

(** The more-data bit from what is left. *)
Definition more_waiting (q : tx_queues) (i : nat) (f : xmit_frame) : xmit_frame :=
  set_mdata f (0 <? sleepq_len (stx (ent q i))).

(** A trigger-enabled frame also counts down [sleepq_ac_len]; more data and
    the end of the service period then follow this count. *)
Definition pop_delivery (q : tx_queues) (i : nat) (f : xmit_frame) : xmit_frame * tx_queues :=
  let q := upd_ent q i (fun e => set_ac_len (u32 (sleepq_ac_len (sps e) - 1)) e) in
  let more := 0 <? sleepq_ac_len (sps (ent q i)) in
  (set_eosp (set_mdata f more) (negb more), q).

Fixpoint wakeup_loop (q : tx_queues) (i : nat) (l : list xmit_frame) : tx_queues :=
  match l with
  | [] => q
  | f :: l =>
      let wmmps_ac := trigger_enabled (ent q i) (f_priority f) in
      let q := pop_sleep q i l in
      let f := more_waiting q i f in
      let '(f, q) := if wmmps_ac then pop_delivery q i f else (f, q) in
      wakeup_loop (rtl8192eu_hal_xmitframe_enqueue q (set_triggered f true)) i l
  end.

(** The group frames, when nobody sleeps any more. *)
Fixpoint wakeup_group_loop (q : tx_queues) (i : nat) (l : list xmit_frame) : tx_queues :=
  match l with
  | [] => q
  | f :: l =>
      let q := pop_sleep q i l in
      wakeup_group_loop (rtl8192eu_hal_xmitframe_enqueue q (set_triggered (more_waiting q i f) true)) i l
  end.

(** The state bits of a station found awake. *)
Definition woken (c : q_cfg) (e : sta_info) : sta_info :=
  let e := if sleeping e then set_state (Z.lxor (sta_state e) WIFI_SLEEP_STATE) e else e in
  if bit_test (sta_state e) WIFI_STA_ALIVE_CHK_STATE
  then set_state (Z.lxor (sta_state e) WIFI_STA_ALIVE_CHK_STATE) (set_expire (sta_expire_to c) e) else e.

(** The unicast part: the state and bit 0 of [update_mask]. *)
Definition wakeup_unicast (c : q_cfg) (q : tx_queues) (i : nat) : bool * tx_queues :=
  let q := wakeup_loop q i (slp q i) in
  if sleepq_len (stx (ent q i)) =? 0 then
    let mask := tim_is_set q (aid (ent q i)) in
    let q := tim_map_clear q (aid (ent q i)) in
    let q := upd_ent q i (woken c) in
    (mask, dz_map_clear q (aid (ent q i)))
  else (false, q).

(** The group part: the state and bit 1 of [update_mask]. *)
Definition wakeup_group (q : tx_queues) (b : nat) : bool * tx_queues :=
  if dz_anyone_exclude_aid0 q then (false, q)
  else
    let q := wakeup_group_loop q b (slp q b) in
    if sleepq_len (stx (ent q b)) =? 0 then
      let mask := tim_is_set q 0 in
      (mask, dz_map_clear (tim_map_clear q 0) 0)
    else (false, q).

Definition wakeup_sta_to_xmit (c : q_cfg) (q : tx_queues) (i : nat) : tx_queues :=
  let psta_bmc := rtw_get_bcmc_stainfo (q_stapriv q) in
  let '(mask0, q) := wakeup_unicast c q i in
  let '(mask1, q) := match psta_bmc with None => (false, q) | Some b => wakeup_group q b end in
  if mask0 || mask1 then _update_beacon c true q else q.

(** ** U-APSD *)

(** A trigger-enabled frame leaves; [rest] stays on the queue. *)
Definition deliver (c : q_cfg) (q : tx_queues) (i : nat) (f : xmit_frame) (rest : list xmit_frame) : tx_queues :=
  let q := pop_sleep q i rest in
  let '(f, q) := pop_delivery q i f in
  let q := rtl8192eu_hal_xmitframe_enqueue q (set_triggered f true) in
  if (sleepq_ac_len (sps (ent q i)) =? 0) && (has_legacy_ac (sps (ent q i)) =? 0)
  then _update_beacon c true (tim_map_clear q (aid (ent q i))) else q.

(** [kept] are the frames of categories that are not trigger enabled. *)
Fixpoint delivery_loop (c : q_cfg) (q : tx_queues) (i : nat) (kept l : list xmit_frame) : tx_queues :=
  match l with
  | [] => q
  | f :: l =>
      if trigger_enabled (ent q i) (f_priority f) then delivery_loop c (deliver c q i f (kept ++ l)) i kept l
      else delivery_loop c q i (kept ++ [f]) l
  end.

Definition xmit_delivery_enabled_frames (c : q_cfg) (q : tx_queues) (i : nat) : tx_queues := delivery_loop c q i [] (slp q i).

(** ** Frames a station sends *)

Definition process_pwrbit_data (c : q_cfg) (pwrbit : bool) (q : tx_queues) (i : nat) : tx_queues :=
  if pwrbit then
    if negb (sleeping (ent q i)) then stop_sta_xmit c q i else q
  else
    if sleeping (ent q i) then wakeup_sta_to_xmit c q i else q.

Definition process_wmmps_data (c : q_cfg) (priority : Z) (q : tx_queues) (i : nat) : tx_queues :=
  let e := ent q i in
  if negb (qos_option (info_at (q_txs q) i)) then q
  else if negb (bit_test (qos_info (sps e)) 0xf) then q
  else if sleeping e && trigger_enabled e priority then
    if 0 <? sleepq_ac_len (sps e) then xmit_delivery_enabled_frames c q i
    else qcall q (issue_qos_nulldata (mac_addr e) (u16 priority) 0)
  else q.

(** The PS-Poll branch of [validate_recv_ctrl_frame]; [aid_field] is the id
    the frame carries, [priority] the receive attribute. *)
Definition pspoll_release (c : q_cfg) (q : tx_queues) (i : nat) (f : xmit_frame) (l : list xmit_frame) : tx_queues :=
  let q := pop_sleep q i l in
  let q := rtl8192eu_hal_xmitframe_enqueue q (set_triggered (more_waiting q i f) true) in
  if sleepq_len (stx (ent q i)) =? 0 then _update_beacon c true (tim_map_clear q (aid (ent q i))) else q.

Definition pspoll_empty (c : q_cfg) (q : tx_queues) (i : nat) : tx_queues :=
  let e := ent q i in
  if tim_is_set q (aid e) then
    let q := if sleepq_len (stx e) =? 0 then qcall q (issue_nulldata (mac_addr e) 0)
             else upd_ent q i (set_sleepq_len 0) in
    _update_beacon c true (tim_map_clear q (aid e))
  else q.

Definition alive_seen (c : q_cfg) (q : tx_queues) (i : nat) : tx_queues :=
  if bit_test (sta_state (ent q i)) WIFI_STA_ALIVE_CHK_STATE
  then upd_ent q i (fun e => set_state (Z.lxor (sta_state e) WIFI_STA_ALIVE_CHK_STATE) (set_expire (sta_expire_to c) e)) else q.

Definition recv_pspoll (c : q_cfg) (aid_field priority : Z) (q : tx_queues) (i : nat) : tx_queues :=
  if negb (aid (ent q i) =? aid_field) then q
  else if delivery_enabled (ent q i) priority then q
  else
    let q := alive_seen c q i in
    if sleeping (ent q i) && dz_is_set q (aid (ent q i)) then
      match slp q i with
      | f :: l => pspoll_release c q i f l
      | [] => pspoll_empty c q i
      end
    else q.

(** The expiry of a sleeping station ([expire_timeout_chk]): the bit is set
    so that it answers. *)
Definition alive_check_ps (c : q_cfg) (q : tx_queues) (i : nat) : tx_queues :=
  if sleeping (ent q i) && negb (bit_test (sta_state (ent q i)) WIFI_STA_ALIVE_CHK_STATE) then
    let q := upd_ent q i (fun e => set_state (Z.lor (sta_state e) WIFI_STA_ALIVE_CHK_STATE) (set_expire (sta_expire_to c) e)) in
    _update_beacon c true (tim_map_set q (aid (ent q i)))
  else q.

(** ** Group frames *)

Definition to_hiq (c : q_cfg) (f : xmit_frame) : xmit_frame :=
  if xmitframe_hiq_filter c f then set_qsel f QSLT_HIGH else f.

Fixpoint bmc_loop (c : q_cfg) (q : tx_queues) (b : nat) (l : list xmit_frame) : tx_queues :=
  match l with
  | [] => q
  | f :: l =>
      let q := pop_sleep q b l in
      bmc_loop c (rtl8192eu_hal_xmitframe_enqueue q (to_hiq c (set_triggered (more_waiting q b f) true))) b l
  end.

(** After a beacon was sent: all group frames leave. *)
Definition chk_bmc_sleepq_hdl (c : q_cfg) (q : tx_queues) : tx_queues :=
  match rtw_get_bcmc_stainfo (q_stapriv q) with
  | None => q
  | Some b =>
      if tim_is_set q 0 && (0 <? sleepq_len (stx (ent q b)))
      then qcall (bmc_loop c q b (slp q b)) rtw_chk_hi_queue_cmd else q
  end.

(** [empty]: what HW_VAR_CHK_HI_QUEUE_EMPTY last read while the handler waited. *)
Definition rtw_chk_hi_queue_hdl (c : q_cfg) (empty : bool) (q : tx_queues) : tx_queues :=
  match rtw_get_bcmc_stainfo (q_stapriv q) with
  | None => q
  | Some b =>
      if sleepq_len (stx (ent q b)) =? 0 then
        if empty then
          let update_tim := tim_is_set q 0 in
          let q := dz_map_clear (tim_map_clear q 0) 0 in
          if update_tim then _update_beacon c true q else q
        else qcall q rtw_chk_hi_queue_cmd
      else q
  end.

(** At most HIQ_XMIT_COUNTS frames; the last of them has no more data. *)
Fixpoint ap_bmc_loop (c : q_cfg) (q : tx_queues) (b tx_counts : nat) (l : list xmit_frame) : tx_queues :=
  match l with
  | [] => q
  | f :: l =>
      let q := pop_sleep q b l in
      let tx_counts := S tx_counts in
      let f := more_waiting q b f in
      let f := if (tx_counts =? HIQ_XMIT_COUNTS)%nat then set_mdata f false else f in
      let q := rtl8192eu_hal_xmitframe_enqueue q (to_hiq c (set_triggered f true)) in
      if (tx_counts =? HIQ_XMIT_COUNTS)%nat then q else ap_bmc_loop c q b tx_counts l
  end.

Definition rtw_ap_bmc_frames_hdl (c : q_cfg) (q : tx_queues) : tx_queues :=
  if negb (wifi_spec c) then q
  else
    match rtw_get_bcmc_stainfo (q_stapriv q) with
    | None => q
    | Some b =>
        if tim_is_set q 0 && (0 <? sleepq_len (stx (ent q b))) then
          let q := _update_beacon c false q in
          ap_bmc_loop c q b 0 (slp q b)
        else if sleepq_len (stx (ent q b)) =? 0 then
          let update_tim := tim_is_set q 0 in
          let q := dz_map_clear (tim_map_clear q 0) 0 in
          if update_tim then _update_beacon c true q else q
        else q
    end.

(** ** A packet of the network stack: [rtw_xmit_posthandle] *)

(** The code returned, the frame written to the endpoint at once, the state. *)
Definition rtw_xmit_posthandle (stack : local -> Z -> Z) (v : tx_env) (c : q_cfg) (q : tx_queues) (x : xattrib) (pkt : bytes)
    : res (Z * option xmit_frame * tx_queues) :=
  r ← update_attrib stack (q_txs q) pkt x;
  let '(res, x, s) := (r : Z * xattrib * txs) in
  let q := set_qtxs q s in
  if res =? _FAIL then Ret (-1, None, rtw_free_xmitframe q)
  else
    let f := do_queue_select (mk_xf x pkt 0 false) in
    let '(buffered, f, q) := xmitframe_enqueue_for_sleeping_sta c q f in
    if (buffered : bool) then Ret (1, None, q)
    else
      let '(done, direct, q) := pre_xmitframe v q f in
      Ret (if (done : bool) then 0 else 1, direct, q).

(** ** Moving frames: what each step keeps *)

Lemma push_sleep_calm q i f : calm q (push_sleep q i f).
Proof. unfold push_sleep. transitivity (set_slp q i (slp q i ++ [f])); auto with calm. Qed.

Lemma pop_sleep_calm q i l : calm q (pop_sleep q i l).
Proof. unfold pop_sleep. transitivity (set_slp q i l); auto with calm. Qed.
#[export] Hint Resolve push_sleep_calm pop_sleep_calm : calm.

Lemma slp_push q i f j : slp (push_sleep q i f) j = slp q j ++ (if bool_decide (j = i) then [f] else []).
Proof.
  change (slp (push_sleep q i f) j) with (slp (set_slp q i (slp q i ++ [f])) j). rewrite slp_set_slp.
  destruct (bool_decide_reflect (j = i)) as [->|]; [done|by rewrite app_nil_r].
Qed.

Lemma slp_pop q i l j : slp (pop_sleep q i l) j = if bool_decide (j = i) then l else slp q j.
Proof. change (slp (pop_sleep q i l) j) with (slp (set_slp q i l) j). apply slp_set_slp. Qed.

Lemma ent_set_slp q i l j : ent (set_slp q i l) j = ent q j.
Proof. done. Qed.

Lemma push_sleep_ok q i f :
  queues_ok q -> frame_sta q f = Some i -> zlen (slp q i) < 4294967296 - 2 -> queues_ok (push_sleep q i f).
Proof.
  intros Hq Hf Hs. pose proof (qo_frame_lt q f i Hq Hf) as Hi. pose proof (zlen_nonneg (slp q i)).
  apply (queues_ok_slp q _ i (slp q i ++ [f])); try done.
  - apply push_sleep_calm.
  - intros j. rewrite slp_push. destruct (bool_decide_reflect (j = i)) as [->|]; [done|by rewrite app_nil_r].
  - rewrite zlen_app. change (zlen [f]) with 1. lia.
  - intros g Hg. apply elem_of_app in Hg as [Hg|Hg]; [by apply (qo_slp_sta q Hq)|]. by apply list_elem_of_singleton in Hg as ->.
  - unfold push_sleep. rewrite ent_upd_same by (change (q_stapriv (set_slp q i (slp q i ++ [f]))) with (q_stapriv q); by rewrite (qo_len q Hq)).
    rewrite ent_set_slp. unfold set_sleepq_len. cbn [set_stx stx qcnt sleepq_len].
    rewrite (qo_sleepq q Hq) by done. rewrite u32_small by (unfold is_u32; lia). f_equal. rewrite zlen_app. done.
  - intros j N. unfold push_sleep. by rewrite ent_upd_ne.
Qed.

(** [l] is the queue without one of its frames. *)
Lemma pop_sleep_ok q i kept f l :
  queues_ok q -> slp q i = kept ++ f :: l -> queues_ok (pop_sleep q i (kept ++ l)).
Proof.
  intros Hq E. pose proof (qo_slp_lt q i Hq ltac:(rewrite E; by destruct kept)) as Hi.
  pose proof (qo_small q Hq i) as Hs. rewrite E, zlen_app, zlen_cons in Hs. pose proof (zlen_nonneg kept). pose proof (zlen_nonneg l).
  apply (queues_ok_slp q _ i (kept ++ l)); try done.
  - apply pop_sleep_calm.
  - intros j. apply slp_pop.
  - rewrite zlen_app. lia.
  - intros g Hg. apply (qo_slp_sta q Hq). rewrite E. apply elem_of_app in Hg as [?|?]; apply elem_of_app; [by left|right; by right].
  - unfold pop_sleep. rewrite ent_upd_same by (change (q_stapriv (set_slp q i (kept ++ l))) with (q_stapriv q); by rewrite (qo_len q Hq)).
    rewrite ent_set_slp. unfold set_sleepq_len. cbn [set_stx stx qcnt sleepq_len].
    rewrite (qo_sleepq q Hq) by done. rewrite E, !zlen_app, zlen_cons. rewrite u32_small by (unfold is_u32; lia). f_equal. lia.
  - intros j N. unfold pop_sleep. by rewrite ent_upd_ne.
Qed.

(** Updates of an entry that leave its queues and its identity alone. *)
Lemma upd_ent_ok q i g :
  queues_ok q -> (forall e, core (g e) = core e) -> (forall e, stx (g e) = stx e) -> queues_ok (upd_ent q i g).
Proof.
  intros Hq Hc Hx. apply (queues_ok_quiet q); try done.
  - by apply upd_sta_table.
  - intros j. by apply (ent_upd_proj stx).
Qed.

Lemma set_maps_ok q dz tim : queues_ok q -> queues_ok (set_qsta q (set_maps (q_stapriv q) dz tim)).
Proof. intros Hq. apply (queues_ok_quiet q); done. Qed.

Lemma set_bcn_ok q b : queues_ok q -> queues_ok (set_bcn q b).
Proof. intros Hq. apply (queues_ok_quiet q); done. Qed.

Lemma qcall_ok q x : queues_ok q -> queues_ok (qcall q x).
Proof. intros Hq. apply (queues_ok_quiet q); done. Qed.

Lemma update_beacon_ok c tx q : queues_ok q -> queues_ok (_update_beacon c tx q).
Proof. intros Hq. unfold _update_beacon. destruct (bstart_bss c), tx; auto using set_bcn_ok, qcall_ok. Qed.

(** The frame handed to the queues of the hardware. *)
Lemma hal_enqueue_spec q f i :
  queues_ok q -> frame_sta q f = Some i ->
  let q' := rtl8192eu_hal_xmitframe_enqueue q f in
  queues_ok q' /\ calm q q' /\
  (forall j ac, pend q' j ac = pend q j ac ++ (if bool_decide (j = i /\ ac = f_ac f) then [f] else [])) /\
  (forall j, slp q' j = slp q j).
Proof.
  intros Hq Hf. destruct (classifier_spec q f i Hq Hf) as (q1 & E & Hq1 & C & Hp & Hs & _).
  unfold rtl8192eu_hal_xmitframe_enqueue, rtw_xmitframe_enqueue. rewrite E. cbn iota beta.
  change (_SUCCESS =? _SUCCESS) with true. cbn iota.
  split_and!; [by apply qcall_ok | etransitivity; [done|apply calm_call] | done | done].
Qed.

(** The U-APSD configuration of an entry. *)
Definition sps_core (e : sta_info) : Z * Z * Z * Z * Z * Z :=
  (uapsd_bk (sps e), uapsd_be (sps e), uapsd_vi (sps e), uapsd_vo (sps e), has_legacy_ac (sps e), qos_info (sps e)).

(** What moving frames leaves alone: all but the queues, the count
    [sleepq_ac_len] and the maps. *)
Record cool (q q' : tx_queues) : Prop := {
  cl_table : table_eq (q_stapriv q) (q_stapriv q');
  cl_fw : fw_state (t_adp (q_txs q')) = fw_state (t_adp (q_txs q));
  cl_info : t_info (q_txs q') = t_info (q_txs q);
  cl_state : forall j, sta_state (ent q' j) = sta_state (ent q j);
  cl_sps : forall j, sps_core (ent q' j) = sps_core (ent q j)
}.

#[export] Instance cool_preorder : PreOrder cool.
Proof.
  split.
  - intros q. by split.
  - intros q1 q2 q3 [] []. split; try congruence. by etransitivity.
Qed.

(** Only the entry [i] is concerned. *)
Record only_at (q q' : tx_queues) (i : nat) : Prop := {
  lo_slp : forall j, j <> i -> slp q' j = slp q j;
  lo_pend : forall j ac, j <> i -> pend q' j ac = pend q j ac;
  lo_state : forall j, j <> i -> sta_state (ent q' j) = sta_state (ent q j);
  lo_sps : forall j, j <> i -> sps (ent q' j) = sps (ent q j)
}.

Lemma local_refl q i : only_at q q i.
Proof. by split. Qed.

Lemma local_trans q q1 q2 i : only_at q q1 i -> only_at q1 q2 i -> only_at q q2 i.
Proof.
  intros [] []. split.
  - intros j N. by rewrite lo_slp1, lo_slp0.
  - intros j ac N. by rewrite lo_pend1, lo_pend0.
  - intros j N. by rewrite lo_state1, lo_state0.
  - intros j N. by rewrite lo_sps1, lo_sps0.
Qed.

Lemma local_upd q i g : only_at q (upd_ent q i g) i.
Proof. split; try done; intros j N; by rewrite ent_upd_ne. Qed.

Lemma local_maps q i dz tim : only_at q (set_qsta q (set_maps (q_stapriv q) dz tim)) i.
Proof. by split. Qed.

Lemma local_beacon q i c tx : only_at q (_update_beacon c tx q) i.
Proof. unfold _update_beacon. by destruct (bstart_bss c), tx; split. Qed.

Lemma local_call q i x : only_at q (qcall q x) i.
Proof. by split. Qed.

(** The queue of [i] and a field of its entry. *)
Lemma local_slp_upd q i l g : only_at q (upd_ent (set_slp q i l) i g) i.
Proof.
  split; try done; intros j N.
  - change (slp (upd_ent (set_slp q i l) i g) j) with (slp (set_slp q i l) j). by rewrite slp_set_slp, bool_decide_false.
  - by rewrite ent_upd_ne.
  - by rewrite ent_upd_ne.
Qed.

Lemma local_push q i f : only_at q (push_sleep q i f) i.
Proof. apply local_slp_upd. Qed.

Lemma local_pop q i l : only_at q (pop_sleep q i l) i.
Proof. apply local_slp_upd. Qed.

Lemma local_hal q f i : queues_ok q -> frame_sta q f = Some i -> only_at q (rtl8192eu_hal_xmitframe_enqueue q f) i.
Proof.
  intros Hq Hf. destruct (hal_enqueue_spec q f i Hq Hf) as (_ & C & Hp & Hs). split.
  - intros j _. apply Hs.
  - intros j ac N. rewrite Hp, bool_decide_false by tauto. apply app_nil_r.
  - intros j _. apply C.
  - intros j _. apply C.
Qed.
#[export] Hint Resolve local_refl local_upd local_maps local_beacon local_call local_push local_pop : calm.

Lemma calm_cool q q' : calm q q' -> cool q q'.
Proof. intros []. split; try done. intros j. unfold sps_core. by rewrite cm_sps. Qed.

Lemma ac_len_cool q i v : cool q (upd_ent q i (fun e => set_ac_len (v e) e)).
Proof.
  split; try done.
  - by apply upd_sta_table.
  - intros j. by apply (ent_upd_proj sta_state).
  - intros j. by apply (ent_upd_proj sps_core).
Qed.

(** Frames that differ in the bits set when they are released. *)
Definition same_frame (f f' : xmit_frame) : Prop :=
  f_ra f' = f_ra f /\ f_psta f' = f_psta f /\ f_ac f' = f_ac f /\ x_pkt f' = x_pkt f.

(** [out] left the sleeping queue of [i] for the hardware queues, [rest] is
    what remains there. *)
Record released (q q' : tx_queues) (i : nat) (out rest : list xmit_frame) : Prop := {
  rl_ok : queues_ok q';
  rl_cool : cool q q';
  rl_slp : slp q' i = rest;
  rl_local : only_at q q' i;
  rl_pend : forall j ac, map x_pkt (pend q' j ac) = map x_pkt (pend q j ac)
      ++ (if bool_decide (j = i) then map x_pkt (filter (fun f => f_ac f = ac) out) else [])
}.

Lemma released_nil q i : queues_ok q -> released q q i [] (slp q i).
Proof. intros Hq. split; try done. intros j ac. destruct (bool_decide _); by rewrite app_nil_r. Qed.

Lemma released_trans q q1 q2 i out1 out2 rest1 rest2 :
  released q q1 i out1 rest1 -> released q1 q2 i out2 rest2 -> released q q2 i (out1 ++ out2) rest2.
Proof.
  intros R1 R2. destruct R1 as [? C1 ? O1 P1], R2 as [? C2 ? O2 P2]. split; try done.
  - by etransitivity.
  - by eapply local_trans.
  - intros j ac. rewrite P2, P1. destruct (bool_decide _); [|by rewrite !app_nil_r].
    rewrite filter_app, map_app, app_assoc. done.
Qed.

(** One frame leaves, after updates [q1] of the state it left. *)
Lemma release_one q q1 i kept f l f' :
  queues_ok q -> slp q i = kept ++ f :: l -> same_frame f f' ->
  queues_ok q1 -> cool (pop_sleep q i (kept ++ l)) q1 -> only_at (pop_sleep q i (kept ++ l)) q1 i ->
  (forall j ac, pend q1 j ac = pend q j ac) -> (forall j, slp q1 j = slp (pop_sleep q i (kept ++ l)) j) ->
  released q (rtl8192eu_hal_xmitframe_enqueue q1 f') i [f] (kept ++ l).
Proof.
  intros Hq E (S1 & S2 & S3 & S4) Hq1 C Lo Hp Hs.
  assert (cool q q1) as C1 by (transitivity (pop_sleep q i (kept ++ l)); [apply calm_cool, pop_sleep_calm|done]).
  assert (frame_sta q1 f' = Some i) as F.
  { rewrite (frame_sta_ext q q1 f' (cl_table _ _ C1)), (frame_sta_same q f f') by done.
    apply (qo_slp_sta q Hq). rewrite E. apply elem_of_app. right. left. }
  destruct (hal_enqueue_spec q1 f' i Hq1 F) as (Hq' & C' & Hp' & Hs').
  split; try done.
  - transitivity q1; [done|by apply calm_cool].
  - by rewrite Hs', Hs, slp_pop, bool_decide_true.
  - eapply local_trans; [|by apply local_hal]. eapply local_trans; [apply local_pop|exact Lo].
  - intros j ac. rewrite Hp', Hp, map_app. f_equal. rewrite S3.
    destruct (bool_decide_reflect (j = i)) as [->|N].
    + destruct (decide (f_ac f = ac)) as [A|A].
      * rewrite bool_decide_true, filter_cons_True by auto. cbn. by rewrite S4.
      * rewrite bool_decide_false, filter_cons_False; [done|done|]. intros [_ B]. auto.
    + by rewrite bool_decide_false by tauto.
Qed.

Lemma same_frame_more q i f : same_frame f (set_triggered (more_waiting q i f) true).
Proof. done. Qed.

(** The state after a frame was taken off and the delivery count went down. *)
Lemma pop_delivery_step q i kept f l g :
  queues_ok q -> slp q i = kept ++ f :: l -> same_frame f g ->
  let q0 := pop_sleep q i (kept ++ l) in
  let '(f', q1) := pop_delivery q0 i g in
  same_frame f f' /\ queues_ok q1 /\ cool q0 q1 /\ only_at q0 q1 i /\ (forall j ac, pend q1 j ac = pend q j ac) /\ (forall j, slp q1 j = slp q0 j).
Proof.
  intros Hq E S q0. unfold pop_delivery. cbn iota beta. pose proof (pop_sleep_ok q i kept f l Hq E) as H0.
  split_and!; try done; try apply S.
  - by apply upd_ent_ok.
  - apply (ac_len_cool q0 i (fun e => u32 (sleepq_ac_len (sps e) - 1))).
  - apply local_upd.
Qed.

Lemma tim_clear_cool q id : cool q (tim_map_clear q id).
Proof. by split. Qed.

Lemma update_beacon_cool c tx q : cool q (_update_beacon c tx q).
Proof. unfold _update_beacon. by destruct (bstart_bss c), tx; split. Qed.

Lemma qcall_cool q x : cool q (qcall q x).
Proof. by split. Qed.

(** Updates that do not touch the queues extend a release. *)
Lemma released_after q q1 q2 i out rest :
  released q q1 i out rest -> queues_ok q2 -> cool q1 q2 -> only_at q1 q2 i ->
  (forall j ac, pend q2 j ac = pend q1 j ac) -> (forall j, slp q2 j = slp q1 j) -> released q q2 i out rest.
Proof.
  intros [] Hq C Lo Hp Hs. split; try done.
  - by etransitivity.
  - by rewrite Hs.
  - by eapply local_trans.
  - intros j ac. by rewrite Hp.
Qed.

(** One round of [wakeup_loop]. *)
Lemma wakeup_step q i f l :
  queues_ok q -> slp q i = f :: l ->
  let q0 := pop_sleep q i l in
  let g := more_waiting q0 i f in
  let '(f', q1) := if trigger_enabled (ent q i) (f_priority f) then pop_delivery q0 i g else (g, q0) in
  released q (rtl8192eu_hal_xmitframe_enqueue q1 (set_triggered f' true)) i [f] l.
Proof.
  intros Hq E. pose proof (pop_sleep_ok q i [] f l Hq E) as H0. cbn [app] in H0. cbn zeta.
  set (q0 := pop_sleep q i l) in *. set (g := more_waiting q0 i f). destruct (trigger_enabled _ _).
  - pose proof (pop_delivery_step q i [] f l g Hq E ltac:(done)) as D. cbn [app] in D. fold q0 in D.
    destruct (pop_delivery q0 i g) as [f' q1]. destruct D as (S & H1 & C & Lo & Hp & Hs). by apply (release_one q q1 i [] f l).
  - apply (release_one q q0 i [] f l); try done; apply local_refl.
Qed.

Lemma wakeup_loop_spec l q i :
  queues_ok q -> slp q i = l -> released q (wakeup_loop q i l) i l [].
Proof.
  revert q. induction l as [|f l IH]; intros q Hq E; cbn [wakeup_loop].
  { pose proof (released_nil q i Hq) as R. by rewrite E in R. }
  pose proof (wakeup_step q i f l Hq E) as R. cbn zeta in R. destruct (if trigger_enabled _ _ then _ else _) as [f' q1].
  apply (released_trans _ _ _ _ [f] l _ [] R), IH; [apply R|]. by rewrite (rl_slp _ _ _ _ _ R).
Qed.

Lemma wakeup_group_loop_spec l q i :
  queues_ok q -> slp q i = l -> released q (wakeup_group_loop q i l) i l [].
Proof.
  revert q. induction l as [|f l IH]; intros q Hq E; cbn [wakeup_group_loop].
  { pose proof (released_nil q i Hq) as R. by rewrite E in R. }
  pose proof (pop_sleep_ok q i [] f l Hq E) as H0. cbn [app] in H0. set (q0 := pop_sleep q i l) in *.
  assert (released q (rtl8192eu_hal_xmitframe_enqueue q0 (set_triggered (more_waiting q0 i f) true)) i [f] l) as R
    by (apply (release_one q q0 i [] f l); try done; apply local_refl).
  apply (released_trans _ _ _ _ [f] l _ [] R), IH; [apply R|]. by rewrite (rl_slp _ _ _ _ _ R).
Qed.

Lemma same_frame_hiq c f f' : same_frame f f' -> same_frame f (to_hiq c f').
Proof. unfold to_hiq. by destruct (xmitframe_hiq_filter c f'). Qed.

Lemma bmc_loop_spec c l q i :
  queues_ok q -> slp q i = l -> released q (bmc_loop c q i l) i l [].
Proof.
  revert q. induction l as [|f l IH]; intros q Hq E; cbn [bmc_loop].
  { pose proof (released_nil q i Hq) as R. by rewrite E in R. }
  pose proof (pop_sleep_ok q i [] f l Hq E) as H0. cbn [app] in H0. set (q0 := pop_sleep q i l) in *.
  assert (released q (rtl8192eu_hal_xmitframe_enqueue q0 (to_hiq c (set_triggered (more_waiting q0 i f) true))) i [f] l) as R
    by (apply (release_one q q0 i [] f l); try done; first [apply local_refl | by apply same_frame_hiq]).
  apply (released_trans _ _ _ _ [f] l _ [] R), IH; [apply R|]. by rewrite (rl_slp _ _ _ _ _ R).
Qed.

Lemma ap_bmc_loop_spec c l n q i :
  queues_ok q -> slp q i = l -> exists out rest, l = out ++ rest /\ released q (ap_bmc_loop c q i n l) i out rest.
Proof.
  revert q n. induction l as [|f l IH]; intros q n Hq E; cbn [ap_bmc_loop].
  { exists [], []. split; [done|]. pose proof (released_nil q i Hq) as R. by rewrite E in R. }
  pose proof (pop_sleep_ok q i [] f l Hq E) as H0. cbn [app] in H0. set (q0 := pop_sleep q i l) in *.
  set (g := if (S n =? HIQ_XMIT_COUNTS)%nat then set_mdata _ false else _).
  assert (same_frame f (set_triggered g true)) as Sf by (unfold g; by destruct (S n =? HIQ_XMIT_COUNTS)%nat).
  assert (released q (rtl8192eu_hal_xmitframe_enqueue q0 (to_hiq c (set_triggered g true))) i [f] l) as R
    by (apply (release_one q q0 i [] f l); try done; first [apply local_refl | by apply same_frame_hiq]).
  destruct (S n =? HIQ_XMIT_COUNTS)%nat; [by exists [f], l|].
  destruct (IH _ (S n) (rl_ok _ _ _ _ _ R) (rl_slp _ _ _ _ _ R)) as (out & rest & -> & R').
  exists (f :: out), rest. split; [done|]. by apply (released_trans _ _ _ _ [f] out _ _ R).
Qed.

Definition triggers (e : sta_info) (f : xmit_frame) : Prop := trigger_enabled e (f_priority f) = true.
#[export] Instance triggers_dec e f : Decision (triggers e f).
Proof. unfold triggers. apply _. Defined.

Lemma triggers_ext e e' f : sps_core e' = sps_core e -> triggers e' f <-> triggers e f.
Proof.
  unfold sps_core, triggers, trigger_enabled, uapsd_of. intros E. injection E as E1 E2 E3 E4 _ _. by rewrite E1, E2, E3, E4.
Qed.

Lemma delivery_step q i kept f l :
  queues_ok q -> slp q i = kept ++ f :: l ->
  let '(f', q1) := pop_delivery (pop_sleep q i (kept ++ l)) i f in
  released q (rtl8192eu_hal_xmitframe_enqueue q1 (set_triggered f' true)) i [f] (kept ++ l).
Proof.
  intros Hq E. pose proof (pop_sleep_ok q i kept f l Hq E) as H0. set (q0 := pop_sleep q i (kept ++ l)) in *.
  pose proof (pop_delivery_step q i kept f l f Hq E ltac:(done)) as D. cbn zeta in D. fold q0 in D.
  destruct (pop_delivery q0 i f) as [f' q1]. destruct D as (S & H1 & C & Lo & Hp & Hs). by apply (release_one q q1 i kept f l).
Qed.

Lemma deliver_spec c q i kept f l :
  queues_ok q -> slp q i = kept ++ f :: l -> released q (deliver c q i f (kept ++ l)) i [f] (kept ++ l).
Proof.
  intros Hq E. unfold deliver. pose proof (delivery_step q i kept f l Hq E) as R. destruct (pop_delivery _ i f) as [f' q1].
  set (q2 := rtl8192eu_hal_xmitframe_enqueue q1 _) in *. destruct (_ && _); [|done]. apply (released_after _ _ _ _ _ _ R).
  - apply update_beacon_ok, set_maps_ok, R.
  - etransitivity; [apply tim_clear_cool|apply update_beacon_cool].
  - eapply local_trans; [apply local_maps|apply local_beacon].
  - intros j ac. unfold _update_beacon. by destruct (bstart_bss c).
  - intros j. unfold _update_beacon. by destruct (bstart_bss c).
Qed.

(** Frames of trigger-enabled categories leave, the others stay in order. *)
Lemma delivery_loop_spec c l q i kept :
  queues_ok q -> slp q i = kept ++ l ->
  released q (delivery_loop c q i kept l) i (filter (triggers (ent q i)) l) (kept ++ filter (fun f => ~ triggers (ent q i) f) l).
Proof.
  revert q kept. induction l as [|f l IH]; intros q kept Hq E; cbn [delivery_loop].
  { rewrite app_nil_r in *. pose proof (released_nil q i Hq) as R. by rewrite E in R. }
  destruct (trigger_enabled (ent q i) (f_priority f)) eqn:T.
  - rewrite filter_cons_True, filter_cons_False by (unfold triggers; rewrite T; auto).
    pose proof (deliver_spec c q i kept f l Hq E) as R3. set (q3 := deliver _ _ _ _ _) in *. clearbody q3.
    apply (released_trans _ _ _ _ [f] _ _ _ R3).
    pose proof (IH q3 kept (rl_ok _ _ _ _ _ R3) (rl_slp _ _ _ _ _ R3)) as R'.
    pose proof (fun f => triggers_ext (ent q i) (ent q3 i) f (cl_sps _ _ (rl_cool _ _ _ _ _ R3) i)) as Et.
    rewrite (list_filter_iff (triggers (ent q3 i)) (triggers (ent q i))) in R' by done.
    rewrite (list_filter_iff (fun f => ~ triggers (ent q3 i) f) (fun f => ~ triggers (ent q i) f)) in R' by (intros x; by rewrite Et).
    exact R'.
  - rewrite filter_cons_False, filter_cons_True by (unfold triggers; rewrite T; auto).
    replace (kept ++ f :: filter (fun f => ~ triggers (ent q i) f) l) with ((kept ++ [f]) ++ filter (fun f => ~ triggers (ent q i) f) l) by (by rewrite <- app_assoc).
    apply IH; [done|]. by rewrite <- app_assoc.
Qed.

(** ** Buffering: what it does to the queues *)

Definition group_sta (q : tx_queues) (i : nat) : bool := bool_decide (rtw_get_bcmc_stainfo (q_stapriv q) = Some i).

Lemma frame_group q f i : frame_sta q f = Some i -> IS_MCAST (f_ra f) = group_sta q i.
Proof.
  unfold frame_sta, group_sta. destruct (bool_decide _); [done|]. destruct (rtw_get_stainfo _ _) as [j|] eqn:E; [|done].
  intros H. assert (j = i) as -> by (destruct (bit_test _ _); congruence). clear H.
  unfold rtw_get_bcmc_stainfo. destruct (IS_MCAST (f_ra f)) eqn:M.
  - symmetry. apply bool_decide_eq_true. rewrite <- E. unfold rtw_get_stainfo. rewrite M. reflexivity.
  - symmetry. apply bool_decide_eq_false. intros B. unfold rtw_get_stainfo in E, B. rewrite M in E.
    change (IS_MCAST bc_addr) with true in B. cbn iota in B.
    apply chain_search_Some in E as (_ & e & E1 & E2). apply chain_search_Some in B as (_ & e' & B1 & B2).
    rewrite E1 in B1. injection B1 as <-. rewrite E2 in B2. by rewrite B2 in M.
Qed.

(** Whether frames for the station are buffered. *)
Definition takes (q : tx_queues) (i : nat) : bool :=
  check_fwstate (t_adp (q_txs q)) WIFI_AP_STATE &&
  (if group_sta q i then dz_anyone q else sleeping (ent q i) && dz_is_set q (aid (ent q i))).

(** One frame more on the sleeping queue, nothing else moved. *)
Record buffered (q q' : tx_queues) (i : nat) (l : list xmit_frame) : Prop := {
  bf_ok : queues_ok q';
  bf_cool : cool q q';
  bf_local : only_at q q' i;
  bf_pend : forall j ac, pend q' j ac = pend q j ac;
  bf_slp : forall j, slp q' j = slp q j ++ (if bool_decide (j = i) then l else [])
}.

Lemma push_buffered q i f :
  queues_ok q -> frame_sta q f = Some i -> zlen (slp q i) < 4294967296 - 2 -> buffered q (push_sleep q i f) i [f].
Proof.
  intros Hq Hf Hs. split; [by apply push_sleep_ok|apply calm_cool, push_sleep_calm|apply local_push|done|]. intros j. apply slp_push.
Qed.

Lemma buffered_after q q1 q2 i l :
  buffered q q1 i l -> queues_ok q2 -> cool q1 q2 -> only_at q1 q2 i ->
  (forall j ac, pend q2 j ac = pend q1 j ac) -> (forall j, slp q2 j = slp q1 j) -> buffered q q2 i l.
Proof.
  intros [] Hq C Lo Hp Hs. split; try done.
  - by etransitivity.
  - by eapply local_trans.
  - intros j ac. by rewrite Hp.
  - intros j. by rewrite Hs.
Qed.

Lemma buffer_group_spec c q i f :
  queues_ok q -> frame_sta q f = Some i -> zlen (slp q i) < 4294967296 - 2 -> buffered q (buffer_group c q i f) i [f].
Proof.
  intros Hq Hf Hs. pose proof (push_buffered q i f Hq Hf Hs) as B. unfold buffer_group.
  set (q1 := push_sleep q i f) in *. set (q2 := dz_map_set (tim_map_set q1 0) 0).
  assert (queues_ok q2) as H2 by (apply set_maps_ok, set_maps_ok, B).
  assert (cool q1 q2) as C2 by by split.
  assert (only_at q1 q2 i) as L2 by by split.
  destruct (negb (tim_is_set q1 0)).
  - apply (buffered_after _ _ _ _ _ B).
    + by apply update_beacon_ok.
    + etransitivity; [exact C2|apply update_beacon_cool].
    + eapply local_trans; [exact L2|apply local_beacon].
    + intros. unfold _update_beacon. by destruct (bstart_bss c).
    + intros. unfold _update_beacon. by destruct (bstart_bss c).
  - apply (buffered_after _ _ _ _ _ B); [by apply qcall_ok|etransitivity; [exact C2|apply qcall_cool]|eapply local_trans; [exact L2|apply local_call]|done|done].
Qed.

Lemma buffer_unicast_spec c q i f :
  queues_ok q -> frame_sta q f = Some i -> zlen (slp q i) < 4294967296 - 2 -> buffered q (buffer_unicast c q i f) i [f].
Proof.
  intros Hq Hf Hs. pose proof (push_buffered q i f Hq Hf Hs) as B. unfold buffer_unicast.
  set (e := ent q i). set (q1 := push_sleep q i f) in *.
  set (q2 := if delivery_enabled e (f_priority f) then _ else q1).
  assert (buffered q q2 i [f]) as B2.
  { unfold q2. destruct (delivery_enabled _ _); [|done]. apply (buffered_after _ _ _ _ _ B); try done.
    - apply upd_ent_ok; [apply B|done|done].
    - apply (ac_len_cool q1 i (fun e => u32 (sleepq_ac_len (sps e) + 1))).
    - apply local_upd. }
  clearbody q2. clear B q1. destruct (indicated e f); [|done].
  assert (queues_ok (tim_map_set q2 (aid e))) as H3 by (apply set_maps_ok, B2).
  destruct (negb (tim_is_set q2 (aid e))).
  - apply (buffered_after _ _ _ _ _ B2).
    + by apply update_beacon_ok.
    + transitivity (tim_map_set q2 (aid e)); [by split|apply update_beacon_cool].
    + apply (local_trans _ (tim_map_set q2 (aid e))); [by split|apply local_beacon].
    + intros. unfold _update_beacon. by destruct (bstart_bss c).
    + intros. unfold _update_beacon. by destruct (bstart_bss c).
  - by apply (buffered_after _ _ _ _ _ B2).
Qed.

Lemma enqueue_sleeping_spec c q f i :
  queues_ok q -> frame_sta q f = Some i -> zlen (slp q i) < 4294967296 - 2 ->
  let '(ret, f', q') := xmitframe_enqueue_for_sleeping_sta c q f in
  same_frame f f' /\ triggered f' = triggered f /\ ret = negb (triggered f) && takes q i /\
  (if ret : bool then f' = f /\ buffered q q' i [f] /\ q' = (if group_sta q i then buffer_group c q i f else buffer_unicast c q i f) else q' = q).
Proof.
  intros Hq Hf Hs. unfold xmitframe_enqueue_for_sleeping_sta, takes. rewrite Hf, (frame_group q f i Hf).
  destruct (check_fwstate _ WIFI_AP_STATE); cbn [negb andb]; [|by rewrite andb_false_r].
  destruct (triggered f) eqn:T; cbn [negb andb].
  { destruct (group_sta q i && _); split_and!; try done. }
  destruct (group_sta q i).
  - destruct (dz_anyone q); [|done]. split_and!; try done. by apply buffer_group_spec.
  - destruct (sleeping _ && _); [|done]. split_and!; try done. by apply buffer_unicast_spec.
Qed.
