(* ===== verification/PsProps.v ===== *)
(** * Power save: the invariant

    The invariant [ps_ok] of the queues, counters and maps of TxQueue.v and
    PowerSave.v, what it means for packets to flow through an operation
    without loss or reordering ([flows]), and that every operation of
    PowerSave.v keeps the invariant ([..._keeps]). *)

From S2P Require Import Prelude RxFrame Reorder StaMgt Bitmap RxCheck XmitAttr Ie Beacon TxQueue PowerSave.

(** ** Packets waiting for a station in an access category *)

Definition waiting (q : tx_queues) (i ac : nat) : list bytes :=
  map x_pkt (pend q i ac) ++ map x_pkt (filter (fun f => f_ac f = ac) (slp q i)).

(** The same packets in the same order for stations; for the broadcast entry
    the same packets. *)
Definition same_waiting (q q' : tx_queues) : Prop :=
  forall i ac, waiting q' i ac ≡ₚ waiting q i ac /\ (group_sta q i = false -> waiting q' i ac = waiting q i ac).

Lemma bcmc_ext p p' : table_eq p p' -> rtw_get_bcmc_stainfo p' = rtw_get_bcmc_stainfo p.
Proof. apply get_stainfo_ext. Qed.

Lemma group_sta_ext q q' i : table_eq (q_stapriv q) (q_stapriv q') -> group_sta q' i = group_sta q i.
Proof. intros T. unfold group_sta, rtw_get_bcmc_stainfo. by rewrite (get_stainfo_ext _ _ _ T). Qed.

Lemma same_waiting_refl q : same_waiting q q.
Proof. by intros i ac. Qed.

Lemma same_waiting_trans q q1 q2 :
  table_eq (q_stapriv q) (q_stapriv q1) -> same_waiting q q1 -> same_waiting q1 q2 -> same_waiting q q2.
Proof.
  intros T H1 H2 i ac. destruct (H1 i ac) as [P1 E1], (H2 i ac) as [P2 E2]. rewrite (group_sta_ext _ _ i T) in E2.
  split; [by rewrite P2, P1|]. intros G. by rewrite E2, E1.
Qed.

Lemma same_waiting_same q q' :
  (forall i ac, pend q' i ac = pend q i ac) -> (forall i, slp q' i = slp q i) -> same_waiting q q'.
Proof. intros Hp Hs i ac. unfold waiting. by rewrite Hp, Hs. Qed.

(** A release keeps what waits when it keeps the order within each category. *)
Lemma released_waiting q q' i out rest :
  released q q' i out rest ->
  (forall ac, filter (fun f => f_ac f = ac) (slp q i) = filter (fun f => f_ac f = ac) out ++ filter (fun f => f_ac f = ac) rest) ->
  same_waiting q q'.
Proof.
  intros [Ok Cool Slp Lo Hp] F j ac. unfold waiting. rewrite Hp. destruct (bool_decide_reflect (j = i)) as [->|N].
  - rewrite Slp, F, <- app_assoc, map_app. done.
  - rewrite (lo_slp _ _ _ Lo), app_nil_r by done. done.
Qed.

Lemma released_all_waiting q q' i : released q q' i (slp q i) [] -> same_waiting q q'.
Proof. intros R. apply (released_waiting _ _ _ _ _ R). intros ac. by rewrite filter_nil, app_nil_r. Qed.

(** Frames of one category are triggered together. *)
Definition uapsd_ac (e : sta_info) (ac : nat) : Z :=
  match ac with 3%nat => uapsd_bk (sps e) | 1%nat => uapsd_vi (sps e) | 0%nat => uapsd_vo (sps e) | _ => uapsd_be (sps e) end.

Lemma uapsd_of_ac e p : uapsd_of e p = uapsd_ac e (rtw_get_sta_pending p).
Proof. unfold uapsd_of, rtw_get_sta_pending. by repeat case_match. Qed.

Lemma triggers_ac e f : triggers e f <-> bit_test (uapsd_ac e (f_ac f)) (BIT 1) = true.
Proof. unfold triggers, trigger_enabled. by rewrite uapsd_of_ac. Qed.

Lemma filter_triggers_split e ac (l : list xmit_frame) :
  filter (fun f => f_ac f = ac) l = filter (fun f => f_ac f = ac) (filter (triggers e) l) ++ filter (fun f => f_ac f = ac) (filter (fun f => ~ triggers e f) l).
Proof.
  induction l as [|f l IH]; [done|]. rewrite (filter_cons _ f), (filter_cons (triggers e)), (filter_cons (fun f => ~ triggers e f)).
  assert (f_ac f = ac -> forall x, x ∈ filter (fun f => f_ac f = ac) (filter (triggers e) l) -> ~ triggers e f -> False) as Hd.
  { intros Ef x Hx N. apply list_elem_of_filter in Hx as [Ex Hx]. apply list_elem_of_filter in Hx as [Tx _].
    apply N. rewrite triggers_ac in *. by rewrite Ef, <- Ex. }
  destruct (decide (triggers e f)) as [T|T].
  - destruct (decide (~ triggers e f)) as [N|_]; [done|]. rewrite filter_cons. destruct (decide (f_ac f = ac)); [by rewrite IH|done].
  - destruct (decide (~ triggers e f)) as [_|N]; [|done]. rewrite (filter_cons _ f). destruct (decide (f_ac f = ac)) as [Ef|]; [|done].
    destruct (filter _ (filter (triggers e) l)) as [|x k] eqn:F.
    + by rewrite IH.
    + exfalso. apply (Hd Ef x); [left|done].
Qed.

Lemma delivery_waiting c q i : queues_ok q -> same_waiting q (xmit_delivery_enabled_frames c q i).
Proof.
  intros Hq. pose proof (delivery_loop_spec c (slp q i) q i [] Hq eq_refl) as R.
  apply (released_waiting _ _ _ _ _ R). intros ac. cbn [app]. apply filter_triggers_split.
Qed.

(** ** Moving pending frames to the sleeping queue *)

Lemma unset_triggered_same f : same_frame f (set_triggered f false).
Proof. done. Qed.

(** The frames [l] of queue [ac] all moved behind the sleeping ones. *)
Record slept (q q' : tx_queues) (i ac : nat) (kept l : list xmit_frame) : Prop := {
  sd_ok : queues_ok q';
  sd_cool : cool q q';
  sd_local : only_at q q' i;
  sd_pend : forall b, pend q' i b = if bool_decide (b = ac) then kept else pend q i b;
  sd_slp : slp q' i = slp q i ++ map (fun f => set_triggered f false) l
}.

(** ** The maps *)

Definition map_len (q : tx_queues) : Z := AID_BMP_LEN (max_aid (q_stapriv q)).

Record maps_ok (q : tx_queues) : Prop := {
  mo_tim : map_ok (tim_bitmap (q_stapriv q)) (map_len q);
  mo_dz : map_ok (sta_dz_bitmap (q_stapriv q)) (map_len q);
  mo_len : 1 <= map_len q <= 32
}.

(** An id the maps have a bit for. *)
Definition id_ok (q : tx_queues) (id : Z) : Prop := 0 <= id < 256 /\ id < 8 * map_len q.

Lemma id_ok_0 q : maps_ok q -> id_ok q 0.
Proof. intros []. unfold id_ok. lia. Qed.

(** The maps, the beacon and the size of the maps. *)
Definition maps_of (q : tx_queues) : bytes * bytes * bytes * Z :=
  (tim_bitmap (q_stapriv q), sta_dz_bitmap (q_stapriv q), bcn_tim q, max_aid (q_stapriv q)).

Lemma maps_of_tim q q' id : maps_of q' = maps_of q -> tim_is_set q' id = tim_is_set q id.
Proof. intros E. injection E as E1 E2 E3 E4. unfold tim_is_set, rtw_tim_map_is_set. by rewrite E1, E4. Qed.

Lemma maps_of_dz q q' id : maps_of q' = maps_of q -> dz_is_set q' id = dz_is_set q id.
Proof. intros E. injection E as E1 E2 E3 E4. unfold dz_is_set, rtw_tim_map_is_set. by rewrite E2, E4. Qed.

Lemma maps_of_ok q q' : maps_of q' = maps_of q -> maps_ok q -> maps_ok q'.
Proof. intros E []. injection E as E1 E2 E3 E4. split; unfold map_len in *; by rewrite ?E1, ?E2, E4. Qed.

(** The beacon shows the current map. *)
Definition shown (c : q_cfg) (q : tx_queues) : Prop := bstart_bss c = true -> bcn_tim q = tim_bitmap (q_stapriv q).

Lemma maps_of_shown c q q' : maps_of q' = maps_of q -> shown c q -> shown c q'.
Proof. intros E H. injection E as E1 E2 E3 E4. unfold shown. by rewrite E1, E3. Qed.

Lemma beacon_shown c tx q : shown c (_update_beacon c tx q).
Proof. unfold shown, _update_beacon. intros ->. by destruct tx. Qed.

Lemma beacon_tim c tx q : q_stapriv (_update_beacon c tx q) = q_stapriv q.
Proof. unfold _update_beacon. by destruct (bstart_bss c), tx. Qed.

Lemma beacon_maps_ok c tx q : maps_ok q -> maps_ok (_update_beacon c tx q).
Proof. intros []. split; unfold map_len in *; by rewrite beacon_tim. Qed.

Lemma beacon_tim_is_set c tx q id : tim_is_set (_update_beacon c tx q) id = tim_is_set q id.
Proof. unfold tim_is_set. by rewrite beacon_tim. Qed.

Lemma beacon_dz_is_set c tx q id : dz_is_set (_update_beacon c tx q) id = dz_is_set q id.
Proof. unfold dz_is_set. by rewrite beacon_tim. Qed.

Section Bits.
Context (q : tx_queues) (id : Z) (Hm : maps_ok q) (Hid : id_ok q id).

Lemma tim_set_bits j : 0 <= j < 256 -> tim_is_set (tim_map_set q id) j = (j =? id) || tim_is_set q j.
Proof.
  destruct Hm, Hid. intros Hj. unfold tim_is_set, tim_map_set, rtw_tim_map_is_set, rtw_tim_map_set. rewrite !u8_small by done.
  unfold map_len in *. apply (is_set_set _ _ mo_tim0); lia.
Qed.

Lemma tim_clear_bits j : 0 <= j < 256 -> tim_is_set (tim_map_clear q id) j = negb (j =? id) && tim_is_set q j.
Proof.
  destruct Hm, Hid. intros Hj. unfold tim_is_set, tim_map_clear, rtw_tim_map_is_set, rtw_tim_map_clear. rewrite !u8_small by done.
  unfold map_len in *. apply (is_set_clear _ _ mo_tim0); lia.
Qed.

Lemma dz_set_bits j : 0 <= j < 256 -> dz_is_set (dz_map_set q id) j = (j =? id) || dz_is_set q j.
Proof.
  destruct Hm, Hid. intros Hj. unfold dz_is_set, dz_map_set, rtw_tim_map_is_set, rtw_tim_map_set. rewrite !u8_small by done.
  unfold map_len in *. apply (is_set_set _ _ mo_dz0); lia.
Qed.

Lemma dz_clear_bits j : 0 <= j < 256 -> dz_is_set (dz_map_clear q id) j = negb (j =? id) && dz_is_set q j.
Proof.
  destruct Hm, Hid. intros Hj. unfold dz_is_set, dz_map_clear, rtw_tim_map_is_set, rtw_tim_map_clear. rewrite !u8_small by done.
  unfold map_len in *. apply (is_set_clear _ _ mo_dz0); lia.
Qed.

Lemma tim_set_ok : maps_ok (tim_map_set q id).
Proof.
  destruct Hm, Hid. split; try done. unfold tim_map_set, rtw_tim_map_set. rewrite u8_small by done. apply (map_ok_set _ _ mo_tim0). lia.
Qed.

Lemma tim_clear_ok : maps_ok (tim_map_clear q id).
Proof. destruct Hm, Hid. split; try done. apply (map_ok_clear _ _ mo_tim0). Qed.

Lemma dz_set_ok : maps_ok (dz_map_set q id).
Proof.
  destruct Hm, Hid. split; try done. unfold dz_map_set, rtw_tim_map_set. rewrite u8_small by done. apply (map_ok_set _ _ mo_dz0). lia.
Qed.

Lemma dz_clear_ok : maps_ok (dz_map_clear q id).
Proof. destruct Hm, Hid. split; try done. apply (map_ok_clear _ _ mo_dz0). Qed.

Lemma tim_set_noop : tim_is_set q id = true -> tim_bitmap (q_stapriv (tim_map_set q id)) = tim_bitmap (q_stapriv q).
Proof.
  destruct Hm, Hid as [Hi _]. intros S. unfold tim_is_set, tim_map_set, rtw_tim_map_is_set, rtw_tim_map_set in *.
  rewrite (u8_small id) in * by done. apply (set_noop _ _ mo_tim0); [lia|done].
Qed.

Lemma tim_clear_noop : tim_is_set q id = false -> tim_bitmap (q_stapriv (tim_map_clear q id)) = tim_bitmap (q_stapriv q).
Proof.
  destruct Hm, Hid as [Hi _]. intros S. unfold tim_is_set, tim_map_clear, rtw_tim_map_is_set, rtw_tim_map_clear in *.
  rewrite (u8_small id) in * by done. apply (clear_noop _ _ mo_tim0); [lia|done].
Qed.
End Bits.

Lemma dz_anyone_spec q : maps_ok q -> dz_anyone q = true <-> exists id, 0 <= id < 256 /\ dz_is_set q id = true.
Proof.
  intros []. unfold dz_anyone, rtw_tim_map_anyone_be_set. rewrite (not_empty_spec _ _ mo_dz0). unfold dz_is_set, rtw_tim_map_is_set.
  fold (map_len q). split.
  - intros (id & Hi & S). pose proof (is_set_range _ _ _ S). exists id. split; [lia|]. by rewrite u8_small by (unfold is_byte; lia).
  - intros (id & Hi & S). rewrite u8_small in S by done. exists id. split; [lia|done].
Qed.

Lemma dz_exclude_spec q : maps_ok q -> dz_anyone_exclude_aid0 q = true <-> exists id, 1 <= id < 256 /\ dz_is_set q id = true.
Proof.
  intros []. unfold dz_anyone_exclude_aid0, rtw_tim_map_anyone_be_set_exclude_aid0. rewrite (not_empty_exclude_spec _ _ mo_dz0).
  unfold dz_is_set, rtw_tim_map_is_set. fold (map_len q). split.
  - intros (id & Hi & S). pose proof (is_set_range _ _ _ S). exists id. split; [lia|]. by rewrite u8_small by (unfold is_byte; lia).
  - intros (id & Hi & S). rewrite u8_small in S by (unfold is_byte; lia). exists id. split; [lia|done].
Qed.

(** *** The steps on the maps *)

Lemma hal_maps q f : maps_of (rtl8192eu_hal_xmitframe_enqueue q f) = maps_of q.
Proof.
  unfold rtl8192eu_hal_xmitframe_enqueue, rtw_xmitframe_enqueue, rtw_xmit_classifier.
  destruct (frame_sta q f); [|done]. by destruct (bool_decide _).
Qed.

Lemma wakeup_loop_maps l q i : maps_of (wakeup_loop q i l) = maps_of q.
Proof.
  revert q. induction l as [|f l IH]; intros q; cbn [wakeup_loop]; [done|].
  destruct (trigger_enabled _ _); cbn iota beta; [unfold pop_delivery|]; rewrite IH, hal_maps; done.
Qed.

Lemma wakeup_group_loop_maps l q i : maps_of (wakeup_group_loop q i l) = maps_of q.
Proof. revert q. induction l as [|f l IH]; intros q; cbn [wakeup_group_loop]; [done|]. by rewrite IH, hal_maps. Qed.

Lemma bmc_loop_maps c l q i : maps_of (bmc_loop c q i l) = maps_of q.
Proof. revert q. induction l as [|f l IH]; intros q; cbn [bmc_loop]; [done|]. by rewrite IH, hal_maps. Qed.

Lemma ap_bmc_loop_maps c l q i n : maps_of (ap_bmc_loop c q i n l) = maps_of q.
Proof.
  revert q n. induction l as [|f l IH]; intros q n; cbn [ap_bmc_loop]; [done|].
  destruct (S n =? HIQ_XMIT_COUNTS)%nat; [by rewrite hal_maps|]. by rewrite IH, hal_maps.
Qed.

(** The sleeping queue and its counters hold no part of the maps. *)
Lemma push_maps q i f : maps_of (push_sleep q i f) = maps_of q.
Proof. done. Qed.

(** Setting a bit and showing the map when it is new. *)
Lemma set_and_show c q id (b : bool) :
  maps_ok q -> id_ok q id -> shown c q -> (b = negb (tim_is_set q id)) ->
  let q1 := tim_map_set q id in
  let q' := if b then _update_beacon c true q1 else q1 in
  maps_ok q' /\ shown c q' /\ (forall j, dz_is_set q' j = dz_is_set q j) /\
  (forall j, 0 <= j < 256 -> tim_is_set q' j = (j =? id) || tim_is_set q j) /\ map_len q' = map_len q.
Proof.
  intros Hm Hid Hs ->. pose proof (tim_set_ok q id Hm Hid) as H1. pose proof (tim_set_bits q id Hm Hid) as B.
  destruct (tim_is_set q id) eqn:S; cbn [negb].
  - split_and!; try done. intros Hb. rewrite (tim_set_noop q id Hm Hid S). by apply Hs.
  - split_and!.
    + by apply beacon_maps_ok.
    + apply beacon_shown.
    + intros j. by rewrite beacon_dz_is_set.
    + intros j Hj. rewrite beacon_tim_is_set. auto.
    + unfold map_len. by rewrite beacon_tim.
Qed.

(** Clearing one. *)
Lemma clear_and_show c q id :
  maps_ok q -> id_ok q id ->
  let q' := _update_beacon c true (tim_map_clear q id) in
  maps_ok q' /\ shown c q' /\ (forall j, dz_is_set q' j = dz_is_set q j) /\
  (forall j, 0 <= j < 256 -> tim_is_set q' j = negb (j =? id) && tim_is_set q j) /\ map_len q' = map_len q.
Proof.
  intros Hm Hid. pose proof (tim_clear_ok q id Hm Hid) as H1. pose proof (tim_clear_bits q id Hm Hid) as B. split_and!.
  - by apply beacon_maps_ok.
  - apply beacon_shown.
  - intros j. by rewrite beacon_dz_is_set.
  - intros j Hj. rewrite beacon_tim_is_set. auto.
  - unfold map_len. by rewrite beacon_tim.
Qed.

Lemma shown_ext c q q' : tim_bitmap (q_stapriv q') = tim_bitmap (q_stapriv q) -> bcn_tim q' = bcn_tim q -> shown c q -> shown c q'.
Proof. intros E1 E2 H Hb. rewrite E1, E2. by apply H. Qed.

Lemma buffer_unicast_maps c q i f :
  maps_ok q -> id_ok q (aid (ent q i)) -> shown c q ->
  let q' := buffer_unicast c q i f in
  maps_ok q' /\ shown c q' /\ (forall j, dz_is_set q' j = dz_is_set q j) /\
  (forall j, 0 <= j < 256 -> tim_is_set q' j = (indicated (ent q i) f && (j =? aid (ent q i))) || tim_is_set q j) /\ map_len q' = map_len q.
Proof.
  intros Hm Hid Hs. unfold buffer_unicast. set (e := ent q i) in *.
  set (q2 := if delivery_enabled e (f_priority f) then _ else push_sleep q i f).
  assert (maps_of q2 = maps_of q) as M by (unfold q2; by destruct (delivery_enabled _ _)).
  pose proof (maps_of_ok _ _ M Hm) as Hm2. pose proof (maps_of_shown c _ _ M Hs) as Hs2.
  pose proof (fun id => maps_of_tim _ _ id M) as Et. pose proof (fun id => maps_of_dz _ _ id M) as Ed.
  assert (map_len q2 = map_len q) as El by (unfold map_len; injection M as _ _ _ ->; done).
  assert (id_ok q2 (aid e)) as Hid2 by (unfold id_ok; by rewrite El).
  clearbody q2. destruct (indicated e f); cbn [andb].
  - destruct (set_and_show c q2 (aid e) _ Hm2 Hid2 Hs2 eq_refl) as (A1 & A2 & A3 & A4 & A5).
    split_and!; [done|done|..].
    + intros j. by rewrite A3.
    + intros j Hj. by rewrite A4, Et.
    + by rewrite A5.
  - by split_and!.
Qed.

Lemma buffer_group_maps c q i f :
  maps_ok q -> shown c q ->
  let q' := buffer_group c q i f in
  maps_ok q' /\ shown c q' /\
  (forall j, 0 <= j < 256 -> dz_is_set q' j = (j =? 0) || dz_is_set q j) /\
  (forall j, 0 <= j < 256 -> tim_is_set q' j = (j =? 0) || tim_is_set q j) /\ map_len q' = map_len q.
Proof.
  intros Hm Hs. unfold buffer_group. set (q1 := push_sleep q i f).
  assert (maps_of q1 = maps_of q) as M by done.
  pose proof (maps_of_ok _ _ M Hm) as Hm1. pose proof (id_ok_0 _ Hm1) as Hid.
  pose proof (tim_set_ok q1 0 Hm1 Hid) as H2. set (q2 := tim_map_set q1 0) in *.
  pose proof (dz_set_ok q2 0 H2 Hid) as H3. pose proof (dz_set_bits q2 0 H2 Hid) as B3. set (q3 := dz_map_set q2 0) in *.
  assert (forall j, 0 <= j < 256 -> tim_is_set q3 j = (j =? 0) || tim_is_set q j) as B2.
  { intros j Hj. change (tim_is_set q3 j) with (tim_is_set q2 j). unfold q2. rewrite tim_set_bits by done. done. }
  destruct (tim_is_set q1 0) eqn:S; cbn [negb].
  - split_and!; [by apply (maps_of_ok q3)| |exact B3|exact B2|done]. apply (shown_ext c q).
    + change (tim_bitmap (q_stapriv (qcall q3 chk_bmc_sleepq_cmd))) with (tim_bitmap (q_stapriv q2)). unfold q2. by rewrite tim_set_noop.
    + done.
    + done.
  - split_and!.
    + by apply beacon_maps_ok.
    + apply beacon_shown.
    + intros j Hj. rewrite beacon_dz_is_set. by rewrite B3.
    + intros j Hj. rewrite beacon_tim_is_set. auto.
    + unfold map_len. by rewrite beacon_tim.
Qed.

(** ** A station's part of the state *)

Definition cnt (e : sta_info) (l : list xmit_frame) : Z := zlen (filter (triggers e) l).

(** The id has a bit in the maps; the sleep map says whether the station
    sleeps; an awake station has nothing buffered; a buffered frame that is to
    be indicated has the bit of the station set; [sleepq_ac_len] is at least
    the number of buffered delivery-enabled frames ([N] bounds the excess);
    delivery and trigger are enabled together. *)
Record sta_inv (N : Z) (q : tx_queues) (i : nat) : Prop := {
  si_id : id_ok q (aid (ent q i)) /\ 1 <= aid (ent q i);
  si_dz : dz_is_set q (aid (ent q i)) = sleeping (ent q i);
  si_awake : sleeping (ent q i) = false -> slp q i = [];
  si_tim : forall f, f ∈ slp q i -> indicated (ent q i) f = true -> tim_is_set q (aid (ent q i)) = true;
  si_ac : cnt (ent q i) (slp q i) <= sleepq_ac_len (sps (ent q i)) <= cnt (ent q i) (slp q i) + N;
  si_uapsd : forall p, delivery_enabled (ent q i) p = trigger_enabled (ent q i) p
}.

Lemma sleeping_ext e e' : sta_state e' = sta_state e -> sleeping e' = sleeping e.
Proof. unfold sleeping. by intros ->. Qed.

Lemma indicated_ext e e' f : sps_core e' = sps_core e -> indicated e' f = indicated e f.
Proof.
  unfold sps_core, indicated, delivery_enabled, uapsd_of. intros E. injection E as E1 E2 E3 E4 E5 _. by rewrite E1, E2, E3, E4, E5.
Qed.

Lemma cnt_ext e e' l : sps_core e' = sps_core e -> cnt e' l = cnt e l.
Proof. intros E. unfold cnt. f_equal. apply list_filter_iff. intros f. by apply triggers_ext. Qed.

Lemma uapsd_ext e e' : sps_core e' = sps_core e ->
  (forall p, delivery_enabled e p = trigger_enabled e p) -> forall p, delivery_enabled e' p = trigger_enabled e' p.
Proof.
  unfold sps_core, delivery_enabled, trigger_enabled, uapsd_of. intros E H p. injection E as E1 E2 E3 E4 _ _. specialize (H p). by rewrite E1, E2, E3, E4.
Qed.

Lemma cnt_app e l k : cnt e (l ++ k) = cnt e l + cnt e k.
Proof. unfold cnt. by rewrite filter_app, zlen_app. Qed.

Lemma cnt_le e l : 0 <= cnt e l <= zlen l.
Proof. unfold cnt, zlen. pose proof (length_filter (triggers e) l). lia. Qed.

Lemma cnt_one e f : cnt e [f] = if trigger_enabled e (f_priority f) then 1 else 0.
Proof.
  unfold cnt. rewrite filter_cons, filter_nil. destruct (decide (triggers e f)) as [T|T]; unfold triggers in T; destruct (trigger_enabled e (f_priority f)); done.
Qed.

(** Same queue, same entry, same bits. *)
Lemma sta_inv_ext N q q' i :
  table_eq (q_stapriv q) (q_stapriv q') -> slp q' i = slp q i -> sta_state (ent q' i) = sta_state (ent q i) -> sps (ent q' i) = sps (ent q i) ->
  map_len q' = map_len q -> dz_is_set q' (aid (ent q i)) = dz_is_set q (aid (ent q i)) ->
  (tim_is_set q (aid (ent q i)) = true -> tim_is_set q' (aid (ent q i)) = true) ->
  sta_inv N q i -> sta_inv N q' i.
Proof.
  intros T Hs Hst Hsp Hl Hd Ht [I1 I2 I3 I4 I5 I6]. pose proof (ent_aid _ _ i T) as Ha.
  assert (sps_core (ent q' i) = sps_core (ent q i)) as Hc by (unfold sps_core; by rewrite Hsp).
  pose proof (sleeping_ext _ _ Hst) as Hsl.
  split; rewrite ?Ha, ?Hs, ?Hsl.
  - unfold id_ok in *. by rewrite Hl.
  - by rewrite Hd.
  - done.
  - intros f Hf. rewrite (indicated_ext _ _ f Hc). intros Hi. by apply Ht, (I4 f).
  - by rewrite (cnt_ext _ _ _ Hc), Hsp.
  - by apply (uapsd_ext (ent q i)).
Qed.

Lemma sta_inv_calm N q q' i :
  calm q q' -> slp q' i = slp q i -> map_len q' = map_len q -> sta_inv N q i -> sta_inv N q' i.
Proof.
  intros C Hs Hl. apply sta_inv_ext; try done; try apply C.
  - unfold dz_is_set, rtw_tim_map_is_set. by rewrite (cm_dz _ _ C), (te_max _ _ (cm_table _ _ C)).
  - unfold tim_is_set, rtw_tim_map_is_set. by rewrite (cm_tim _ _ C), (te_max _ _ (cm_table _ _ C)).
Qed.

Lemma calm_maps q q' : calm q q' -> maps_of q' = maps_of q.
Proof. intros []. unfold maps_of. by rewrite cm_tim, cm_dz, cm_bcn, (te_max _ _ cm_table). Qed.

Lemma map_len_of q q' : maps_of q' = maps_of q -> map_len q' = map_len q.
Proof. intros E. injection E as _ _ _ E. unfold map_len. by rewrite E. Qed.

(** The count when a frame is buffered. *)
Lemma buffer_unicast_ac c q i f :
  (i < length (stainfo_buf (q_stapriv q)))%nat ->
  sleepq_ac_len (sps (ent (buffer_unicast c q i f) i))
  = if delivery_enabled (ent q i) (f_priority f) then u32 (sleepq_ac_len (sps (ent q i)) + 1) else sleepq_ac_len (sps (ent q i)).
Proof.
  intros Hi. unfold buffer_unicast. set (e := ent q i). set (q1 := push_sleep q i f).
  assert (sps (ent q1 i) = sps e) as E1 by (unfold q1; apply (cm_sps _ _ (push_sleep_calm q i f))).
  assert (length (stainfo_buf (q_stapriv q1)) = length (stainfo_buf (q_stapriv q))) as L1 by (apply table_eq_len, (cm_table _ _ (push_sleep_calm q i f))).
  set (q2 := if delivery_enabled e (f_priority f) then _ else q1).
  assert (sleepq_ac_len (sps (ent q2 i)) = if delivery_enabled e (f_priority f) then u32 (sleepq_ac_len (sps e) + 1) else sleepq_ac_len (sps e)) as E2.
  { unfold q2. destruct (delivery_enabled _ _); [|by rewrite E1]. rewrite ent_upd_same by (by rewrite L1). cbn. by rewrite E1. }
  rewrite <- E2. destruct (indicated e f); [|done]. destruct (negb _); [|done].
  unfold ent. by rewrite beacon_tim.
Qed.

(** What buffering a frame of a sleeping station keeps. *)
Lemma buffer_unicast_inv c N q i f :
  queues_ok q -> maps_ok q -> shown c q -> frame_sta q f = Some i -> sta_inv N q i -> sleeping (ent q i) = true ->
  zlen (slp q i) < N -> 2 * N < 4294967296 - 2 ->
  let q' := buffer_unicast c q i f in
  buffered q q' i [f] /\ maps_ok q' /\ shown c q' /\ map_len q' = map_len q /\ (forall j, dz_is_set q' j = dz_is_set q j) /\
  (forall j, 0 <= j < 256 -> j <> aid (ent q i) -> tim_is_set q' j = tim_is_set q j) /\
  (tim_is_set q (aid (ent q i)) = true -> tim_is_set q' (aid (ent q i)) = true) /\
  sta_inv N q' i /\ sleeping (ent q' i) = true.
Proof.
  intros Hq Hm Hs Hf Hi Hsl Hn HN. pose proof (zlen_nonneg (slp q i)).
  pose proof (buffer_unicast_spec c q i f Hq Hf ltac:(lia)) as B.
  destruct (si_id _ _ _ Hi) as [Hid H1]. destruct (buffer_unicast_maps c q i f Hm Hid Hs) as (M1 & M2 & M3 & M4 & M5).
  pose proof (buffer_unicast_ac c q i f (frame_sta_lt q f i Hf)) as Hac.
  set (q' := buffer_unicast c q i f) in *. clearbody q'.
  pose proof (ent_aid _ _ i (cl_table _ _ (bf_cool _ _ _ _ B))) as Ha.
  pose proof (sleeping_ext _ _ (cl_state _ _ (bf_cool _ _ _ _ B) i)) as Hsl'.
  pose proof (cl_sps _ _ (bf_cool _ _ _ _ B) i) as Hc.
  pose proof (bf_slp _ _ _ _ B i) as Hslp. rewrite bool_decide_true in Hslp by done.
  assert (0 <= aid (ent q i) < 256) as Hr by apply Hid.
  split_and!; try done.
  - intros j Hj N'. rewrite M4 by done. destruct (Z.eqb_spec j (aid (ent q i))); [done|]. by rewrite andb_false_r.
  - intros Ht. rewrite M4, Ht by done. by rewrite orb_true_r.
  - pose proof (si_ac _ _ _ Hi) as Hcnt. pose proof (cnt_le (ent q i) (slp q i)).
    split; rewrite ?Ha, ?Hsl', ?Hslp.
    + unfold id_ok in *. by rewrite M5.
    + rewrite M3. apply Hi.
    + by rewrite Hsl.
    + intros g Hg. rewrite (indicated_ext _ _ g Hc), M4 by done. intros Hind.
      apply elem_of_app in Hg as [Hg|Hg]; [by rewrite (si_tim _ _ _ Hi g Hg Hind), orb_true_r|].
      apply list_elem_of_singleton in Hg as ->. by rewrite Hind, Z.eqb_refl.
    + rewrite (cnt_ext _ _ _ Hc), cnt_app, cnt_one, Hac, (si_uapsd _ _ _ Hi).
      destruct (trigger_enabled _ _); [|lia]. rewrite u32_small by (unfold is_u32; lia). lia.
    + apply (uapsd_ext (ent q i)); [done|apply Hi].
  - by rewrite Hsl'.
Qed.

(** Only the bits of [id] may have changed. *)
Record stays (c : q_cfg) (q q' : tx_queues) (id : Z) : Prop := {
  sy_ok : maps_ok q';
  sy_shown : shown c q';
  sy_len : map_len q' = map_len q;
  sy_tim : forall j, 0 <= j < 256 -> j <> id -> tim_is_set q' j = tim_is_set q j;
  sy_dz : forall j, 0 <= j < 256 -> j <> id -> dz_is_set q' j = dz_is_set q j
}.

Lemma stays_trans c q q1 q2 id : stays c q q1 id -> stays c q1 q2 id -> stays c q q2 id.
Proof.
  intros [] []. split; try done.
  - congruence.
  - intros j Hj N. by rewrite sy_tim1, sy_tim0.
  - intros j Hj N. by rewrite sy_dz1, sy_dz0.
Qed.

Lemma stays_same c q q' id : maps_of q' = maps_of q -> maps_ok q -> shown c q -> stays c q q' id.
Proof.
  intros M Hm Hs. split.
  - by eapply maps_of_ok.
  - by eapply maps_of_shown.
  - by apply map_len_of.
  - intros j _ _. by apply maps_of_tim.
  - intros j _ _. by apply maps_of_dz.
Qed.

Lemma check_fwstate_eq a a' st : fw_state a' = fw_state a -> check_fwstate a' st = check_fwstate a st.
Proof. unfold check_fwstate. by intros ->. Qed.

Lemma zlen_map {A B} (h : A -> B) l : zlen (map h l) = zlen l.
Proof. unfold zlen. by rewrite length_map. Qed.

(** *** Frames that wait when a station goes to sleep *)

(** [P] is what the state satisfies while the frames of the entry [i] move. *)
Section SleepQueues.
Context (c : q_cfg) (N : Z) (i : nat) (P : tx_queues -> Prop).
Context (HN : 2 * N < 4294967296 - 2).
Context (Ptakes : forall q, P q -> takes q i = true).
Context (Pcalm : forall q q', calm q q' -> slp q' i = slp q i -> P q -> P q').
Context (Pbuffer : forall q f, queues_ok q -> frame_sta q f = Some i -> P q -> zlen (slp q i) < N ->
  P (if group_sta q i then buffer_group c q i f else buffer_unicast c q i f)).

Lemma dequeue_loop_spec l q ac kept :
  queues_ok q -> P q -> pend q i ac = kept ++ l -> zlen (slp q i) + zlen l <= N ->
  let q' := dequeue_loop c q i ac kept l in slept q q' i ac kept l /\ P q'.
Proof using All.
  revert q. induction l as [|f l IH]; intros q Hq HP E Hn; cbn [dequeue_loop].
  { rewrite app_nil_r in E. split; [|done]. split; [done|reflexivity|apply local_refl| |by rewrite app_nil_r].
    intros b. destruct (bool_decide_reflect (b = ac)) as [->|]; done. }
  rewrite zlen_cons in Hn. pose proof (zlen_nonneg l). pose proof (zlen_nonneg (slp q i)).
  destruct (qo_pend_sta q Hq i ac f) as [Hf Hac]; [rewrite E; apply elem_of_app; right; left|].
  set (g := set_triggered f false). assert (frame_sta q g = Some i) as Hfg by done.
  pose proof (enqueue_sleeping_spec c q g i Hq Hfg ltac:(lia)) as S.
  destruct (xmitframe_enqueue_for_sleeping_sta c q g) as [[ret g'] q1]. destruct S as (_ & _ & Hr & S).
  rewrite (Ptakes q HP) in Hr. cbn in Hr. subst ret. destruct S as (-> & Bf & Eq). cbn iota.
  assert (P q1) as HP1 by (rewrite Eq; apply Pbuffer; try done; lia). clear Eq.
  change (f_ac g) with (f_ac f). rewrite Hac. fold (take_pend q1 i ac (kept ++ l)). set (q2 := take_pend q1 i ac (kept ++ l)).
  assert (queues_ok q2) as Hq2 by (apply (take_ok q1 i ac kept f l); [apply Bf|by rewrite (bf_pend _ _ _ _ Bf)]).
  assert (calm q1 q2) as C2 by apply calm_take.
  assert (slp q1 i = slp q i ++ [g]) as Es1 by (rewrite (bf_slp _ _ _ _ Bf), bool_decide_true; done).
  assert (pend q2 i ac = kept ++ l) as E2 by (unfold q2; rewrite pend_take, bool_decide_true; done).
  assert (zlen (slp q2 i) + zlen l <= N) as Hn2.
  { change (slp q2 i) with (slp q1 i). rewrite Es1, zlen_app. change (zlen [g]) with 1. lia. }
  destruct (IH q2 Hq2 (Pcalm q1 q2 C2 eq_refl HP1) E2 Hn2) as ([S1 S2 S3 S4 S5] & HP').
  split; [|done]. split.
  - exact S1.
  - transitivity q2; [|done]. transitivity q1; [apply Bf|by apply calm_cool].
  - eapply local_trans; [|exact S3]. eapply local_trans; [apply Bf|]. split; try done.
    + intros j b N'. unfold q2. by rewrite pend_take, bool_decide_false by tauto.
    + intros j _. apply (cm_state _ _ C2).
    + intros j _. apply (cm_sps _ _ C2).
  - intros b. rewrite S4. destruct (bool_decide_reflect (b = ac)) as [->|N']; [done|].
    unfold q2. rewrite pend_take, bool_decide_false by tauto. by rewrite (bf_pend _ _ _ _ Bf).
  - rewrite S5. change (slp q2 i) with (slp q1 i). rewrite Es1, <- app_assoc. done.
Qed.

Lemma slept_unlink q q' ac l : slept q q' i ac [] l -> slept q (unlink q' i ac) i ac [] l.
Proof using Type.
  intros [S1 S2 S3 S4 S5]. split.
  - apply unlink_ok; [done|]. by rewrite S4, bool_decide_true.
  - transitivity q'; [done|]. apply calm_cool, calm_unlink.
  - eapply local_trans; [exact S3|]. by split.
  - exact S4.
  - exact S5.
Qed.

(** All frames of the categories [acs]. *)
Definition moved (q : tx_queues) (acs : list nat) : list xmit_frame :=
  flat_map (fun ac => map (fun f => set_triggered f false) (pend q i ac)) acs.

Lemma moved_ext q q' acs : (forall ac, ac ∈ acs -> pend q' i ac = pend q i ac) -> moved q' acs = moved q acs.
Proof using Type.
  induction acs as [|ac acs IH]; intros H; [done|]. cbn. rewrite (H ac) by left. f_equal. apply IH. intros b Hb. apply H. by right.
Qed.

Lemma sleep_queues_fold acs q :
  NoDup acs -> queues_ok q -> P q -> zlen (slp q i) + zlen (moved q acs) <= N ->
  let q' := foldl (fun q ac => unlink (dequeue_xmitframes_to_sleeping_queue c q i ac) i ac) q acs in
  queues_ok q' /\ cool q q' /\ only_at q q' i /\
  (forall b, pend q' i b = if bool_decide (b ∈ acs) then [] else pend q i b) /\ slp q' i = slp q i ++ moved q acs /\ P q'.
Proof using All.
  revert q. induction acs as [|ac acs IH]; intros q Hn Hq HP Hl; cbn [foldl].
  { split_and!; try done. by rewrite app_nil_r. }
  apply NoDup_cons in Hn as [Hac Hn]. cbn [moved flat_map] in Hl. fold (moved q acs) in Hl.
  rewrite zlen_app, zlen_map in Hl. pose proof (zlen_nonneg (moved q acs)).
  destruct (dequeue_loop_spec (pend q i ac) q ac [] Hq HP eq_refl ltac:(lia)) as [S HP1].
  fold (dequeue_xmitframes_to_sleeping_queue c q i ac) in S, HP1. apply slept_unlink in S.
  assert (P (unlink (dequeue_xmitframes_to_sleeping_queue c q i ac) i ac)) as HP2 by (by eapply Pcalm; [apply calm_unlink| |exact HP1]).
  set (q1 := unlink _ i ac) in *. clearbody q1. clear HP1. destruct S as [S1 S2 S3 S4 S5].
  assert (moved q1 acs = moved q acs) as M.
  { apply moved_ext. intros b Hb. rewrite S4, bool_decide_false; [done|]. by intros ->. }
  destruct (IH q1 Hn S1 HP2) as (I1 & I2 & I3 & I4 & I5 & I6); [rewrite M, S5, zlen_app, zlen_map; lia|].
  split_and!; try done.
  - by transitivity q1.
  - by eapply local_trans.
  - intros b. rewrite I4, S4. destruct (bool_decide_reflect (b = ac)) as [->|Nb].
    + rewrite (bool_decide_true (ac ∈ ac :: acs)) by left. by destruct (bool_decide _).
    + by rewrite (bool_decide_ext (b ∈ acs) (b ∈ ac :: acs)) by set_solver.
  - rewrite I5, M, S5, <- app_assoc. done.
Qed.

Lemma sleep_queues_spec q :
  queues_ok q -> P q -> zlen (slp q i) + zlen (moved q [0; 1; 2; 3]%nat) <= N ->
  let q' := sleep_queues c q i in
  queues_ok q' /\ cool q q' /\ only_at q q' i /\ (forall b, pend q' i b = []) /\ slp q' i = slp q i ++ moved q [0; 1; 2; 3]%nat /\ P q'.
Proof using All.
  intros Hq HP Hl. destruct (sleep_queues_fold [0; 1; 2; 3]%nat q ltac:(repeat constructor; set_solver) Hq HP Hl) as (I1 & I2 & I3 & I4 & I5 & I6).
  split_and!; try done. intros b. rewrite I4. destruct (bool_decide_reflect (b ∈ [0; 1; 2; 3]%nat)) as [|Nb]; [done|].
  destruct (pend q i b) eqn:E; [done|]. destruct (qo_pend_lt q i b Hq) as [_ H]; [by rewrite E|].
  destruct Nb. do 4 (destruct b as [|b]; [set_solver|]). lia.
Qed.
End SleepQueues.

Lemma filter_moved q i ac acs :
  queues_ok q -> NoDup acs ->
  filter (fun f => f_ac f = ac) (moved i q acs) = if bool_decide (ac ∈ acs) then map (fun f => set_triggered f false) (pend q i ac) else [].
Proof.
  intros Hq. induction 1 as [|b acs Hb Hn IH]; [done|]. cbn [moved flat_map]. fold (moved i q acs). rewrite filter_app, IH.
  assert (forall l, (forall f, f ∈ l -> f_ac f = b) ->
    filter (fun f => f_ac f = ac) (map (fun f => set_triggered f false) l) = if bool_decide (b = ac) then map (fun f => set_triggered f false) l else []) as F.
  { induction l as [|f l IHl]; intros H; [by destruct (bool_decide_reflect (b = ac))|]. cbn [map]. rewrite filter_cons.
    change (f_ac (set_triggered f false)) with (f_ac f). rewrite (H f) by left. rewrite IHl by (intros g Hg; apply H; by right).
    destruct (decide (b = ac)) as [E|E]; [by rewrite bool_decide_true|by rewrite bool_decide_false]. }
  rewrite F by (intros f Hf; by destruct (qo_pend_sta q Hq i b f Hf)). destruct (bool_decide_reflect (b = ac)) as [->|N].
  - rewrite (bool_decide_false (ac ∈ acs)) by done. rewrite bool_decide_true by left. apply app_nil_r.
  - cbn [app]. rewrite (bool_decide_ext (ac ∈ b :: acs) (ac ∈ acs)); [done|]. rewrite elem_of_cons. naive_solver.
Qed.

Lemma map_unset_pkt l : map x_pkt (map (fun f => set_triggered f false) l) = map x_pkt l.
Proof. rewrite map_map. by apply map_ext. Qed.

Lemma nodup_acs : NoDup [0; 1; 2; 3]%nat.
Proof. change [0; 1; 2; 3]%nat with (seq 0 4). apply NoDup_seq. Qed.

(** Going to sleep keeps what waits; the order too when nothing slept before. *)
Lemma moved_waiting q q' i :
  queues_ok q -> only_at q q' i -> (forall b, pend q' i b = []) -> slp q' i = slp q i ++ moved i q [0; 1; 2; 3]%nat ->
  forall j ac, waiting q' j ac ≡ₚ waiting q j ac /\ (j <> i \/ slp q i = [] -> waiting q' j ac = waiting q j ac).
Proof.
  intros Hq Lo Hp Hs j ac. unfold waiting. destruct (decide (j = i)) as [->|N].
  - rewrite Hp, Hs, filter_app, (filter_moved q i ac) by (done || apply nodup_acs). cbn [map app].
    assert ((if bool_decide (ac ∈ [0; 1; 2; 3]%nat) then map (fun f => set_triggered f false) (pend q i ac) else [])
      = map (fun f => set_triggered f false) (pend q i ac)) as ->.
    { destruct (bool_decide_reflect (ac ∈ [0; 1; 2; 3]%nat)) as [|Na]; [done|]. destruct (pend q i ac) eqn:E; [done|].
      destruct (qo_pend_lt q i ac Hq) as [_ H]; [by rewrite E|]. destruct Na. do 4 (destruct ac as [|ac]; [set_solver|]). lia. }
    rewrite map_app, map_unset_pkt. split; [by rewrite Permutation_app_comm|]. intros [?|Hs0]; [done|].
    rewrite Hs0. by rewrite app_nil_r.
  - rewrite (lo_slp _ _ _ Lo), (lo_pend _ _ _ Lo) by done. done.
Qed.

(** ** The invariant of the access point *)

(** All packets that wait for an entry. *)
Definition tot (q : tx_queues) (i : nat) : Z := sumZ (fun ac => zlen (waiting q i ac)) (seq 0 4).

Definition station (q : tx_queues) (i : nat) : Prop := bit_test (sta_state (ent q i)) WIFI_ASOC_STATE = true /\ group_sta q i = false.

(** [N] bounds the packets that wait for an entry. *)
Record ps_base (c : q_cfg) (N : Z) (q : tx_queues) : Prop := {
  po_queues : queues_ok q;
  po_ap : check_fwstate (t_adp (q_txs q)) WIFI_AP_STATE = true;
  po_maps : maps_ok q;
  po_shown : shown c q;
  po_sta : forall i, station q i -> sta_inv N q i;
  po_aids : forall i j, station q i -> station q j -> aid (ent q i) = aid (ent q j) -> i = j;
  po_dz : forall id, 1 <= id < 256 -> dz_is_set q id = true -> exists i, station q i /\ aid (ent q i) = id;
  po_group : forall b, group_sta q b = true -> slp q b <> [] -> tim_is_set q 0 = true /\ dz_is_set q 0 = true;
  po_tot : forall i, tot q i <= N;
  po_bmc : exists b, rtw_get_bcmc_stainfo (q_stapriv q) = Some b
}.

(** Group frames are buffered only while a station sleeps. *)
Definition somebody (q : tx_queues) : Prop := exists i, station q i /\ sleeping (ent q i) = true.
Record ps_ok (c : q_cfg) (N : Z) (q : tx_queues) : Prop := {
  pk_base : ps_base c N q;
  pk_dz0 : dz_is_set q 0 = true -> somebody q
}.

Lemma sum_filter_acs (l : list xmit_frame) : sumZ (fun ac => zlen (filter (fun f => f_ac f = ac) l)) (seq 0 4) = zlen l.
Proof.
  induction l as [|f l IH]; [done|]. rewrite zlen_cons, <- IH. pose proof (f_ac_lt f).
  rewrite (sumZ_upd (fun ac => zlen (filter (fun g => f_ac g = ac) l)) _ (seq 0 4) (f_ac f) 1); [done|apply NoDup_seq|apply elem_of_seq; lia|..].
  - cbn beta. rewrite filter_cons_True by done. by rewrite zlen_cons.
  - intros ac N. cbn beta. by rewrite filter_cons_False by auto.
Qed.

Lemma sumZ_add f g l : sumZ (fun i => f i + g i) l = sumZ f l + sumZ g l.
Proof. induction l as [|x l IH]; [done|]. cbn [sumZ]. rewrite IH. lia. Qed.

Lemma tot_split q i : tot q i = sumZ (fun ac => zlen (pend q i ac)) (seq 0 4) + zlen (slp q i).
Proof.
  unfold tot. rewrite <- (sum_filter_acs (slp q i)), <- sumZ_add. apply sumZ_ext. intros ac _. unfold waiting. by rewrite zlen_app, !zlen_map.
Qed.

Lemma tot_slp q i : zlen (slp q i) <= tot q i.
Proof. rewrite tot_split. cbn. pose proof (zlen_nonneg (pend q i 0)). pose proof (zlen_nonneg (pend q i 1)). pose proof (zlen_nonneg (pend q i 2)). pose proof (zlen_nonneg (pend q i 3)). lia. Qed.

Lemma zlen_moved q i : zlen (slp q i) + zlen (moved i q [0; 1; 2; 3]%nat) = tot q i.
Proof. rewrite tot_split. cbn. rewrite !zlen_app, !zlen_map. change (zlen []) with 0. lia. Qed.

Lemma same_waiting_tot q q' i : same_waiting q q' -> tot q' i = tot q i.
Proof. intros S. unfold tot. apply sumZ_ext. intros ac _. destruct (S i ac) as [E _]. unfold zlen. by rewrite E. Qed.

Lemma station_ext q q' i : table_eq (q_stapriv q) (q_stapriv q') -> station q' i <-> station q i.
Proof.
  intros T. unfold station. rewrite (group_sta_ext _ _ i T). pose proof (ent_core _ _ i T) as C. injection C as _ _ C. by rewrite C.
Qed.

Lemma sta_inv_mono N N' q i : N <= N' -> sta_inv N q i -> sta_inv N' q i.
Proof. intros H []. split; try done. lia. Qed.

Lemma group_sta_inj q b b' : group_sta q b = true -> group_sta q b' = true -> b = b'.
Proof. unfold group_sta. rewrite !bool_decide_eq_true. congruence. Qed.

Section Base.
Context (c : q_cfg) (N N' : Z) (q q' : tx_queues) (k : nat) (id : Z).
Context (HB : ps_base c N q) (HN : N <= N') (Hq' : queues_ok q') (T : table_eq (q_stapriv q) (q_stapriv q')).
Context (Hfw : fw_state (t_adp (q_txs q')) = fw_state (t_adp (q_txs q))).
Context (Lo : only_at q q' k) (Sy : stays c q q' id) (Ht : forall j, tot q' j <= N').

(** Only the entry [k] and the bits of [id] are concerned. *)
Lemma ps_base_local :
  (forall j, station q j -> j <> k -> aid (ent q j) <> id) ->
  (group_sta q k = false -> id <> 0) ->
  (station q k -> sta_inv N' q' k) ->
  (1 <= id < 256 -> dz_is_set q' id = true -> exists i, station q i /\ aid (ent q i) = id) ->
  (group_sta q k = true -> slp q' k <> [] -> tim_is_set q' 0 = true /\ dz_is_set q' 0 = true) ->
  ps_base c N' q'.
Proof using All.
  intros Ho Hid Hk Hdz Hg. destruct HB, Sy. split; try done.
  - by rewrite (check_fwstate_eq _ _ _ Hfw).
  - intros j. rewrite (station_ext _ _ j T). intros Hj. destruct (decide (j = k)) as [->|Nj]; [auto|].
    pose proof (po_sta0 j Hj) as Hinv. destruct (si_id _ _ _ Hinv) as [[Hr _] _].
    apply (sta_inv_mono N); [done|]. apply (sta_inv_ext N q); try done; try by apply Lo.
    + by apply sy_dz0, Ho.
    + by rewrite sy_tim0 by auto.
  - intros j1 j2. rewrite !(station_ext _ _ _ T), !(ent_aid _ _ _ T). auto.
  - intros d Hd Hs. destruct (decide (d = id)) as [->|Nd].
    + destruct (Hdz Hd Hs) as (j & Hj & E). exists j. by rewrite (station_ext _ _ _ T), (ent_aid _ _ _ T).
    + rewrite sy_dz0 in Hs by (done || lia). destruct (po_dz0 d Hd Hs) as (j & Hj & E). exists j. by rewrite (station_ext _ _ _ T), (ent_aid _ _ _ T).
  - intros b. rewrite (group_sta_ext _ _ b T). intros Hb Hs. destruct (decide (b = k)) as [->|Nb]; [auto|].
    rewrite (lo_slp _ _ _ Lo) in Hs by done. destruct (po_group0 b Hb Hs).
    assert (group_sta q k = false) as Hk0 by (apply not_true_iff_false; intros Hk'; apply Nb; by eapply group_sta_inj).
    rewrite sy_tim0, sy_dz0 by (done || lia || apply not_eq_sym; auto). done.
  - by rewrite (bcmc_ext _ _ T).
Qed.

Lemma ps_base_station :
  station q k -> aid (ent q k) = id -> sta_inv N' q' k -> ps_base c N' q'.
Proof using All.
  intros Hk E Hi. destruct (si_id _ _ _ (po_sta _ _ _ HB k Hk)) as [_ H1]. apply ps_base_local.
  - intros j Hj Nj Ej. apply Nj, (po_aids _ _ _ HB); [done|done|congruence].
  - intros _. lia.
  - done.
  - intros _ _. by exists k.
  - destruct Hk as [_ Hk]. by rewrite Hk.
Qed.

Lemma ps_base_group :
  group_sta q k = true -> id = 0 -> (slp q' k <> [] -> tim_is_set q' 0 = true /\ dz_is_set q' 0 = true) -> ps_base c N' q'.
Proof using All.
  intros Hk E Hs. apply ps_base_local.
  - intros j Hj _. destruct (si_id _ _ _ (po_sta _ _ _ HB j Hj)). lia.
  - by rewrite Hk.
  - intros [_ ?]. congruence.
  - lia.
  - done.
Qed.
End Base.

(** Nothing but the pending queues and the counters changed. *)
Lemma ps_base_calm c N q q' :
  ps_base c N q -> queues_ok q' -> calm q q' -> (forall j, slp q' j = slp q j) -> (forall j, tot q' j <= N) -> ps_base c N q'.
Proof.
  intros B Hq' C Hs Ht. pose proof (calm_maps _ _ C) as M. destruct B. pose proof (cm_table _ _ C) as T. split; try done.
  - by rewrite (check_fwstate_eq _ _ _ (cm_fw _ _ C)).
  - by eapply maps_of_ok.
  - by eapply maps_of_shown.
  - intros j. rewrite (station_ext _ _ j T). intros Hj. apply (sta_inv_calm N q); try done; [by apply map_len_of|auto].
  - intros j1 j2. rewrite !(station_ext _ _ _ T), !(ent_aid _ _ _ T). auto.
  - intros d Hd. rewrite (maps_of_dz _ _ d M). intros H. destruct (po_dz0 d Hd H) as (j & Hj & E). exists j.
    by rewrite (station_ext _ _ _ T), (ent_aid _ _ _ T).
  - intros b. rewrite (group_sta_ext _ _ b T), Hs, (maps_of_tim _ _ _ M), (maps_of_dz _ _ _ M). apply po_group0.
  - by rewrite (bcmc_ext _ _ T).
Qed.

Lemma ps_ok_calm c N q q' :
  ps_ok c N q -> queues_ok q' -> calm q q' -> (forall j, slp q' j = slp q j) -> (forall j, tot q' j <= N) -> ps_ok c N q'.
Proof.
  intros [B Z] Hq' C Hs Ht. split; [by eapply ps_base_calm|].
  rewrite (maps_of_dz _ _ 0 (calm_maps _ _ C)). intros H. destruct (Z H) as (j & Hj & E). exists j.
  rewrite (station_ext _ _ _ (cm_table _ _ C)). by rewrite (sleeping_ext _ _ (cm_state _ _ C j)).
Qed.

(** ** What each operation keeps *)

(** The state after an operation that sends or accepts nothing: at most one
    frame more counts as pending delivery. *)
Definition keeps (c : q_cfg) (N : Z) (q q' : tx_queues) : Prop :=
  ps_ok c (N + 1) q' /\ table_eq (q_stapriv q) (q_stapriv q') /\ same_waiting q q'.

Lemma keeps_after c N q q1 q' :
  table_eq (q_stapriv q) (q_stapriv q1) -> same_waiting q q1 -> keeps c N q1 q' -> keeps c N q q'.
Proof. intros T W (K1 & K2 & K3). split_and!; [done|by etransitivity|by apply (same_waiting_trans q q1)]. Qed.

Lemma ps_ok_mono c N N' q : N <= N' -> ps_ok c N q -> ps_ok c N' q.
Proof.
  intros H [[] ?]. split; [|done]. split; try done.
  - intros i Hi. by apply (sta_inv_mono N), po_sta0.
  - intros i. specialize (po_tot0 i). lia.
Qed.

Lemma keeps_refl c N q : ps_ok c N q -> keeps c N q q.
Proof. intros H. split_and!; [apply (ps_ok_mono c N); [lia|done] | done | apply same_waiting_refl]. Qed.

Lemma tot_keeps c N q q' : ps_base c N q -> same_waiting q q' -> forall j, tot q' j <= N + 1.
Proof. intros B S j. rewrite (same_waiting_tot q q' j S). pose proof (po_tot _ _ _ B j). lia. Qed.

Lemma hal_sps q f j : sps (ent (rtl8192eu_hal_xmitframe_enqueue q f) j) = sps (ent q j).
Proof.
  unfold rtl8192eu_hal_xmitframe_enqueue, rtw_xmitframe_enqueue, rtw_xmit_classifier.
  destruct (frame_sta q f) as [i|]; [|done]. cbn iota beta. change (_SUCCESS =? _SUCCESS) with true. cbn iota.
  match goal with |- sps (ent (qcall (add_accnt _ _ (upd_ent ?x _ _)) _) j) = _ => change (sps (ent (upd_ent x i (add_qcnt (f_ac f) 1)) j) = sps (ent q j)) end.
  rewrite (ent_upd_proj sps) by done. by destruct (bool_decide _).
Qed.

Lemma pop_sps q i l j : sps (ent (pop_sleep q i l) j) = sps (ent q j).
Proof. apply (cm_sps _ _ (pop_sleep_calm q i l)). Qed.

Lemma beacon_ent c tx q j : ent (_update_beacon c tx q) j = ent q j.
Proof. unfold ent. by rewrite beacon_tim. Qed.

Lemma beacon_slp c tx q j : slp (_update_beacon c tx q) j = slp q j.
Proof. unfold _update_beacon. by destruct (bstart_bss c), tx. Qed.

Lemma beacon_pend c tx q j ac : pend (_update_beacon c tx q) j ac = pend q j ac.
Proof. unfold _update_beacon. by destruct (bstart_bss c), tx. Qed.

Lemma same_waiting_beacon c tx q q' : same_waiting q q' -> same_waiting q (_update_beacon c tx q').
Proof. intros H i ac. unfold waiting. rewrite beacon_slp, beacon_pend. apply H. Qed.

(** The station's part after frames left. *)
Lemma sta_inv_moved N N' q q' i :
  sta_inv N q i -> cool q q' -> map_len q' = map_len q ->
  dz_is_set q' (aid (ent q i)) = dz_is_set q (aid (ent q i)) ->
  (forall f, f ∈ slp q' i -> f ∈ slp q i) ->
  (forall f, f ∈ slp q' i -> indicated (ent q i) f = true -> tim_is_set q' (aid (ent q i)) = true) ->
  cnt (ent q i) (slp q' i) <= sleepq_ac_len (sps (ent q' i)) <= cnt (ent q i) (slp q' i) + N' -> sta_inv N' q' i.
Proof.
  intros [I1 I2 I3 I4 I5 I6] C Hl Hd Hs Ht Ha. pose proof (cl_sps _ _ C i) as Hc.
  pose proof (ent_aid _ _ i (cl_table _ _ C)) as Hai. pose proof (sleeping_ext _ _ (cl_state _ _ C i)) as Hsl.
  split; rewrite ?Hai, ?Hsl.
  - unfold id_ok in *. by rewrite Hl.
  - by rewrite Hd.
  - intros S. rewrite (I3 S) in Hs. destruct (slp q' i) as [|f l]; [done|]. specialize (Hs f ltac:(left)). by apply elem_of_nil in Hs.
  - intros f Hf. rewrite (indicated_ext _ _ f Hc). by apply Ht.
  - by rewrite (cnt_ext _ _ _ Hc).
  - by apply (uapsd_ext (ent q i)).
Qed.

Lemma cool_group q q' i : cool q q' -> group_sta q' i = group_sta q i.
Proof. intros C. apply (group_sta_ext _ _ i (cl_table _ _ C)). Qed.

Lemma cool_station q q' i : cool q q' -> station q' i <-> station q i.
Proof. intros C. apply (station_ext _ _ i (cl_table _ _ C)). Qed.

(** The sleep bits unchanged: group frames are buffered for the same reason. *)
Lemma somebody_cool q q' : cool q q' -> somebody q -> somebody q'.
Proof.
  intros C (j & Hj & E). exists j. rewrite (cool_station _ _ _ C). by rewrite (sleeping_ext _ _ (cl_state _ _ C j)).
Qed.

Lemma station_id c N q i : ps_base c N q -> station q i -> id_ok q (aid (ent q i)) /\ 1 <= aid (ent q i) < 256.
Proof. intros B Hi. destruct (si_id _ _ _ (po_sta _ _ _ B i Hi)) as [[? ?] ?]. unfold id_ok. lia. Qed.

Lemma station_lt c N q i : ps_base c N q -> station q i -> (i < 32)%nat.
Proof.
  intros B [Hi _]. pose proof (qo_len _ (po_queues _ _ _ B)) as L. unfold ent in Hi.
  destruct (stainfo_buf (q_stapriv q) !! i) eqn:E; [apply lookup_lt_Some in E; lia|]. vm_compute in Hi. done.
Qed.

(** An operation of the station [i] that leaves its state alone. *)
Lemma keeps_station c N q q' i :
  ps_ok c N q -> station q i -> queues_ok q' -> cool q q' -> only_at q q' i -> stays c q q' (aid (ent q i)) ->
  sta_inv (N + 1) q' i -> same_waiting q q' -> keeps c N q q'.
Proof.
  intros [B Z] Hi Hq' C Lo Sy Hinv S. split_and!; [|apply C|done]. destruct (station_id _ _ _ _ B Hi). split.
  - apply (ps_base_station c N (N + 1) q q' i (aid (ent q i))); try done; [lia|apply C|apply C|by apply (tot_keeps c N q)].
  - rewrite (sy_dz _ _ _ _ Sy) by lia. intros H1. by apply (somebody_cool q), Z.
Qed.

(** An operation on the group frames. *)
Lemma keeps_group c N q q' b :
  ps_ok c N q -> group_sta q b = true -> queues_ok q' -> cool q q' -> only_at q q' b -> stays c q q' 0 ->
  (slp q' b <> [] -> tim_is_set q' 0 = true /\ dz_is_set q' 0 = true) ->
  (dz_is_set q' 0 = true -> dz_is_set q 0 = true) -> same_waiting q q' -> keeps c N q q'.
Proof.
  intros [B Z] Hb Hq' C Lo Sy Hinv Hz S. split_and!; [|apply C|done]. split.
  - apply (ps_base_group c N (N + 1) q q' b 0); try done; [lia|apply C|apply C|by apply (tot_keeps c N q)].
  - intros H1. by apply (somebody_cool q), Z, Hz.
Qed.

(** *** PS-Poll *)

Lemma cnt_cons_le e f l : cnt e l <= cnt e (f :: l) <= cnt e l + 1.
Proof. rewrite (cnt_app e [f] l : cnt e (f :: l) = _), cnt_one. destruct (trigger_enabled _ _); lia. Qed.

Lemma sleepq_empty q i : queues_ok q -> (i < 32)%nat -> (sleepq_len (stx (ent q i)) =? 0) = bool_decide (slp q i = []).
Proof.
  intros Hq Hi. rewrite (qo_sleepq q Hq i Hi). destruct (bool_decide_reflect (slp q i = [])) as [->|N]; [done|].
  destruct (slp q i) as [|f l]; [done|]. rewrite zlen_cons. pose proof (zlen_nonneg l). lia.
Qed.

(** The bit of a station whose queue is empty is cleared. *)
Lemma clear_stays c q id :
  maps_ok q -> id_ok q id -> stays c q (_update_beacon c true (tim_map_clear q id)) id.
Proof.
  intros Hm Hid. destruct (clear_and_show c q id Hm Hid) as (A1 & A2 & A3 & A4 & A5). split; try done.
  - intros j Hj Nj. rewrite A4 by done. destruct (Z.eqb_spec j id); done.
Qed.

Lemma set_stays c q id :
  maps_ok q -> id_ok q id -> stays c q (_update_beacon c true (tim_map_set q id)) id.
Proof.
  intros Hm Hid. pose proof (tim_set_ok q id Hm Hid). pose proof (tim_set_bits q id Hm Hid) as B. split.
  - by apply beacon_maps_ok.
  - apply beacon_shown.
  - unfold map_len. by rewrite beacon_tim.
  - intros j Hj Nj. rewrite beacon_tim_is_set, B by done. destruct (Z.eqb_spec j id); done.
  - intros j _ _. by rewrite beacon_dz_is_set.
Qed.

Lemma clear_cool c q id : cool q (_update_beacon c true (tim_map_clear q id)).
Proof. etransitivity; [apply tim_clear_cool|apply update_beacon_cool]. Qed.

Lemma clear_local c q id i : only_at q (_update_beacon c true (tim_map_clear q id)) i.
Proof. eapply local_trans; [apply local_maps|apply local_beacon]. Qed.

Lemma clear_ok c q id : queues_ok q -> queues_ok (_update_beacon c true (tim_map_clear q id)).
Proof. intros H. by apply update_beacon_ok, set_maps_ok. Qed.

Lemma pspoll_release_keeps c N q i f l :
  ps_ok c N q -> station q i -> slp q i = f :: l -> keeps c N q (pspoll_release c q i f l).
Proof.
  intros [B Z] Hi E. pose proof (po_queues _ _ _ B) as Hq. pose proof (station_lt _ _ _ _ B Hi) as Hlt.
  destruct (station_id _ _ _ _ B Hi) as [Hid Hr]. pose proof (po_sta _ _ _ B i Hi) as Hinv.
  unfold pspoll_release. set (q0 := pop_sleep q i l). set (q1 := rtl8192eu_hal_xmitframe_enqueue q0 _).
  assert (released q q1 i [f] l) as R.
  { apply (release_one q q0 i [] f l); try done; try apply local_refl. by apply (pop_sleep_ok q i [] f l). }
  assert (maps_of q1 = maps_of q) as M by (unfold q1; by rewrite hal_maps).
  assert (sps (ent q1 i) = sps (ent q i)) as Es by (unfold q1; rewrite hal_sps; apply pop_sps).
  assert (same_waiting q q1) as W.
  { apply (released_waiting _ _ _ _ _ R). intros ac. by rewrite E, <- filter_app. }
  rewrite (ent_aid _ _ i (cl_table _ _ (rl_cool _ _ _ _ _ R))), (sleepq_empty q1 i) by (done || apply R).
  rewrite (rl_slp _ _ _ _ _ R). pose proof (stays_same c q q1 (aid (ent q i)) M (po_maps _ _ _ B) (po_shown _ _ _ B)) as Sy.
  assert (forall q', cool q1 q' -> slp q' i = l -> sps (ent q' i) = sps (ent q1 i) -> map_len q' = map_len q1 -> dz_is_set q' (aid (ent q i)) = dz_is_set q1 (aid (ent q i)) ->
    (l <> [] -> tim_is_set q' (aid (ent q i)) = tim_is_set q1 (aid (ent q i))) -> sta_inv (N + 1) q' i) as Inv.
  { intros q' C El Ep Em Ed Et. apply (sta_inv_moved N _ q q' i Hinv).
    - transitivity q1; [apply R|done].
    - by rewrite Em, (map_len_of _ _ M).
    - by rewrite Ed, (maps_of_dz _ _ _ M).
    - rewrite El, E. intros g Hg. by right.
    - rewrite El. intros g Hg Hind. rewrite Et by (by destruct l; [apply elem_of_nil in Hg|]). rewrite (maps_of_tim _ _ _ M).
      apply (si_tim _ _ _ Hinv g); [rewrite E; by right|done].
    - rewrite El, Ep, Es. pose proof (si_ac _ _ _ Hinv) as Hac. rewrite E in Hac. pose proof (cnt_cons_le (ent q i) f l). lia. }
  destruct (bool_decide_reflect (l = [])) as [El|Nl].
  - assert (id_ok q1 (aid (ent q i))) as Hid1 by (unfold id_ok; rewrite (map_len_of _ _ M); done).
    destruct (clear_and_show c q1 (aid (ent q i)) (sy_ok _ _ _ _ Sy) Hid1) as (A1 & A2 & A3 & A4 & A5).
    apply (keeps_station c N q _ i); [done|done|..].
    + apply clear_ok, R.
    + transitivity q1; [apply R|apply clear_cool].
    + eapply local_trans; [apply R|apply clear_local].
    + eapply stays_trans; [exact Sy|]. apply clear_stays; [apply Sy|done].
    + apply Inv; try done; [apply clear_cool|by rewrite beacon_slp; apply R|by rewrite beacon_ent].
    + by apply same_waiting_beacon.
  - apply (keeps_station c N q _ i); try done; try apply R. apply Inv; try done. apply R.
Qed.

Lemma pspoll_empty_keeps c N q i :
  ps_ok c N q -> station q i -> slp q i = [] -> keeps c N q (pspoll_empty c q i).
Proof.
  intros H Hi E. pose proof H as [B Z]. pose proof (po_queues _ _ _ B) as Hq. pose proof (station_lt _ _ _ _ B Hi) as Hlt.
  destruct (station_id _ _ _ _ B Hi) as [Hid Hr]. pose proof (po_sta _ _ _ B i Hi) as Hinv.
  unfold pspoll_empty. destruct (tim_is_set q (aid (ent q i))); [|by apply keeps_refl].
  rewrite (sleepq_empty q i), E by done. rewrite bool_decide_true by done. set (q1 := qcall q _).
  assert (maps_ok q1) as Hm by (by apply (maps_of_ok q), (po_maps _ _ _ B)).
  destruct (clear_and_show c q1 (aid (ent q i)) Hm Hid) as (A1 & A2 & A3 & A4 & A5).
  assert (cool q (_update_beacon c true (tim_map_clear q1 (aid (ent q i))))) as C by (transitivity q1; [apply qcall_cool|apply clear_cool]).
  apply (keeps_station c N q _ i); try done.
  - by apply clear_ok, qcall_ok.
  - eapply local_trans; [apply local_call|apply clear_local].
  - eapply stays_trans; [apply (stays_same c q q1); [done|apply B|apply B]|]. by apply clear_stays.
  - apply (sta_inv_moved N _ q _ i Hinv C); try done.
    + by rewrite beacon_slp.
    + rewrite beacon_slp. change (slp _ i) with (slp q i). rewrite E. intros f Hf. by apply elem_of_nil in Hf.
    + rewrite beacon_slp, beacon_ent. change (slp _ i) with (slp q i). change (ent _ i) with (ent q i). pose proof (si_ac _ _ _ Hinv). lia.
  - apply same_waiting_beacon. done.
Qed.

(** *** Changes of an entry outside its queues *)

(** The state bits other than the association and the power save. *)
Record entry_change (g : sta_info -> sta_info) : Prop := {
  ec_core : forall e, core (g e) = core e;
  ec_stx : forall e, stx (g e) = stx e;
  ec_sps : forall e, sps_core (g e) = sps_core e;
  ec_ac : forall e, sleepq_ac_len (sps (g e)) = sleepq_ac_len (sps e)
}.

Lemma sta_inv_entry N q i g :
  entry_change g -> (forall e, sleeping (g e) = sleeping e) -> sta_inv N q i -> sta_inv N (upd_ent q i g) i.
Proof.
  intros G S [I1 I2 I3 I4 I5 I6].
  assert (table_eq (q_stapriv q) (q_stapriv (upd_ent q i g))) as T by apply upd_sta_table, G.
  pose proof (ent_upd_proj sps_core q i g i (ec_sps _ G)) as Hc. pose proof (ent_upd_proj sleeping q i g i S) as Hsl.
  pose proof (ent_upd_proj (fun e => sleepq_ac_len (sps e)) q i g i (ec_ac _ G)) as Hac. cbn beta in Hac.
  split; rewrite ?(ent_aid _ _ i T), ?Hsl, ?Hac; try done.
  - intros f Hf. rewrite (indicated_ext _ _ f Hc). by apply I4.
  - by rewrite (cnt_ext _ _ _ Hc).
  - by apply (uapsd_ext (ent q i)).
Qed.

Lemma ps_ok_entry c N q i g :
  entry_change g -> (forall e, sleeping (g e) = sleeping e) -> ps_ok c N q -> station q i -> ps_ok c N (upd_ent q i g).
Proof.
  intros G S [B Z] Hi. assert (table_eq (q_stapriv q) (q_stapriv (upd_ent q i g))) as T by apply upd_sta_table, G.
  split.
  - apply (ps_base_station c N N q (upd_ent q i g) i (aid (ent q i))); try done.
    + apply upd_ent_ok; [apply B|apply G|apply G].
    + apply local_upd.
    + apply stays_same; [done|apply B|apply B].
    + apply B.
    + apply sta_inv_entry; [done|done|]. by apply B.
  - intros H. destruct (Z H) as (j & Hj & E). exists j. rewrite (station_ext _ _ _ T). by rewrite (ent_upd_proj sleeping).
Qed.

Lemma bit_test_lxor s a b : Z.land a b = 0 -> bit_test (Z.lxor s a) b = bit_test s b.
Proof.
  intros H. unfold bit_test. enough (Z.land (Z.lxor s a) b = Z.lxor (Z.land s b) (Z.land a b)) as -> by (by rewrite H, Z.lxor_0_r).
  apply Z.bits_inj'. intros n _. rewrite Z.lxor_spec, !Z.land_spec, Z.lxor_spec. by destruct (Z.testbit s n), (Z.testbit a n), (Z.testbit b n).
Qed.

Lemma bit_test_lor s a b : Z.land a b = 0 -> bit_test (Z.lor s a) b = bit_test s b.
Proof. intros H. unfold bit_test. by rewrite Z.land_lor_distr_l, H, Z.lor_0_r. Qed.

Definition alive_clear (c : q_cfg) (e : sta_info) : sta_info :=
  set_state (Z.lxor (sta_state e) WIFI_STA_ALIVE_CHK_STATE) (set_expire (sta_expire_to c) e).
Definition alive_set (c : q_cfg) (e : sta_info) : sta_info :=
  set_state (Z.lor (sta_state e) WIFI_STA_ALIVE_CHK_STATE) (set_expire (sta_expire_to c) e).

Lemma alive_clear_change c : entry_change (alive_clear c) /\ forall e, sleeping (alive_clear c e) = sleeping e.
Proof.
  split; [split; try done|].
  - intros e. unfold core. cbn. by rewrite bit_test_lxor.
  - intros e. unfold sleeping. cbn. by rewrite bit_test_lxor.
Qed.

Lemma alive_set_change c : entry_change (alive_set c) /\ forall e, sleeping (alive_set c e) = sleeping e.
Proof.
  split; [split; try done|].
  - intros e. unfold core. cbn. by rewrite bit_test_lor.
  - intros e. unfold sleeping. cbn. by rewrite bit_test_lor.
Qed.

Lemma same_waiting_upd q i g : same_waiting q (upd_ent q i g).
Proof. by apply same_waiting_same. Qed.

Lemma station_upd q i g j : entry_change g -> station (upd_ent q i g) j <-> station q j.
Proof. intros G. apply station_ext, upd_sta_table, G. Qed.

Lemma alive_seen_ok c N q i : ps_ok c N q -> station q i -> ps_ok c N (alive_seen c q i) /\ station (alive_seen c q i) i /\ same_waiting q (alive_seen c q i) /\
  table_eq (q_stapriv q) (q_stapriv (alive_seen c q i)).
Proof.
  intros H Hi. unfold alive_seen. destruct (bit_test _ _); [|by split_and!].
  destruct (alive_clear_change c) as [G S]. fold (alive_clear c). split_and!.
  - by apply ps_ok_entry.
  - by apply station_upd.
  - apply same_waiting_upd.
  - apply upd_sta_table, G.
Qed.

Lemma recv_pspoll_keeps c N aid_field priority q i :
  ps_ok c N q -> station q i -> keeps c N q (recv_pspoll c aid_field priority q i).
Proof.
  intros H Hi. unfold recv_pspoll. destruct (negb _); [by apply keeps_refl|]. destruct (delivery_enabled _ _); [by apply keeps_refl|].
  destruct (alive_seen_ok c N q i H Hi) as (H1 & Hi1 & W & T). set (q1 := alive_seen c q i) in *. clearbody q1.
  apply (keeps_after c N q q1); [done|done|]. destruct (_ && _); [|by apply keeps_refl]. destruct (slp q1 i) eqn:E; [by apply pspoll_empty_keeps|by apply pspoll_release_keeps].
Qed.

Lemma alive_check_keeps c N q i : ps_ok c N q -> station q i -> keeps c N q (alive_check_ps c q i).
Proof.
  intros H Hi. unfold alive_check_ps. destruct (_ && _); [|by apply keeps_refl].
  destruct (alive_set_change c) as [G S]. fold (alive_set c). pose proof (ps_ok_entry c N q i _ G S H Hi) as H1.
  pose proof (proj2 (station_upd q i _ i G) Hi) as Hi1. pose proof (same_waiting_upd q i (alive_set c)) as W.
  assert (table_eq (q_stapriv q) (q_stapriv (upd_ent q i (alive_set c)))) as T by apply upd_sta_table, G.
  set (q1 := upd_ent q i (alive_set c)) in *. clearbody q1. pose proof H1 as [B Z]. destruct (station_id _ _ _ _ B Hi1) as [Hid Hr].
  apply (keeps_after c N q q1); [done|done|].
  pose proof (set_stays c q1 _ (po_maps _ _ _ B) Hid) as Sy. clear T W.
  assert (cool q1 (_update_beacon c true (tim_map_set q1 (aid (ent q1 i))))) as C.
  { transitivity (tim_map_set q1 (aid (ent q1 i))); [by split|apply update_beacon_cool]. }
  apply (keeps_station c N q1 _ i); try done.
  - apply update_beacon_ok, set_maps_ok, B.
  - eapply local_trans; [apply local_maps|apply local_beacon].
  - apply (sta_inv_moved N _ q1 _ i (po_sta _ _ _ B i Hi1) C); rewrite ?beacon_slp, ?beacon_ent; try done.
    + apply Sy.
    + by rewrite beacon_dz_is_set.
    + intros f _ _. rewrite beacon_tim_is_set, (tim_set_bits q1 _ (po_maps _ _ _ B) Hid) by lia. by rewrite Z.eqb_refl.
    + change (slp _ i) with (slp q1 i). change (ent _ i) with (ent q1 i). pose proof (si_ac _ _ _ (po_sta _ _ _ B i Hi1)). lia.
  - by apply same_waiting_beacon.
Qed.

(** *** Waking up *)

(** [ps_base] without the beacon: the updates before the beacon is written. *)
Definition hidden (c : q_cfg) : q_cfg := mk_qcfg (wifi_spec c) (hiq_filter c) false (wmm_para_seq c) (sta_expire_to c).

Lemma shown_hidden c q : shown (hidden c) q.
Proof. done. Qed.

Lemma ps_base_hide c N q : ps_base c N q -> ps_base (hidden c) N q.
Proof. by intros []. Qed.

Lemma ps_base_show c N q : ps_base (hidden c) N q -> shown c q -> ps_base c N q.
Proof. by intros [] ?. Qed.

Lemma pop_delivery_ac q i f :
  (i < length (stainfo_buf (q_stapriv q)))%nat -> 1 <= sleepq_ac_len (sps (ent q i)) < 4294967296 ->
  sleepq_ac_len (sps (ent (pop_delivery q i f).2 i)) = sleepq_ac_len (sps (ent q i)) - 1.
Proof.
  intros Hi Ha. unfold pop_delivery. cbn [snd]. rewrite ent_upd_same by done. cbn. apply u32_small. unfold is_u32. lia.
Qed.

Lemma cool_len q q' : cool q q' -> length (stainfo_buf (q_stapriv q')) = length (stainfo_buf (q_stapriv q)).
Proof. intros C. apply table_eq_len, C. Qed.

Lemma cnt_cons e f l : cnt e (f :: l) = (if trigger_enabled e (f_priority f) then 1 else 0) + cnt e l.
Proof. by rewrite (cnt_app e [f] l : cnt e (f :: l) = _), cnt_one. Qed.

Lemma wakeup_loop_ac l q i :
  queues_ok q -> slp q i = l -> (i < 32)%nat -> cnt (ent q i) l <= sleepq_ac_len (sps (ent q i)) < 4294967296 ->
  sleepq_ac_len (sps (ent (wakeup_loop q i l) i)) = sleepq_ac_len (sps (ent q i)) - cnt (ent q i) l.
Proof.
  revert q. induction l as [|f l IH]; intros q Hq E Hi Hc; cbn [wakeup_loop]; [change (cnt _ []) with 0; lia|].
  rewrite cnt_cons in *. pose proof (cnt_le (ent q i) l).
  pose proof (pop_sleep_ok q i [] f l Hq E) as H0. cbn [app] in H0.
  pose proof (wakeup_step q i f l Hq E) as R. cbn zeta in R. pose proof (pop_sps q i l i) as E0.
  assert (length (stainfo_buf (q_stapriv (pop_sleep q i l))) = 32%nat) as L0 by apply H0.
  set (q0 := pop_sleep q i l) in *. set (g := more_waiting q0 i f) in *.
  destruct (trigger_enabled (ent q i) (f_priority f)).
  - pose proof (pop_delivery_ac q0 i g ltac:(lia) ltac:(rewrite E0; lia)) as A. destruct (pop_delivery q0 i g) as [f' q1]. cbn [snd] in A.
    set (q2 := rtl8192eu_hal_xmitframe_enqueue q1 _) in *.
    assert (sleepq_ac_len (sps (ent q2 i)) = sleepq_ac_len (sps (ent q i)) - 1) as A2 by (unfold q2; rewrite hal_sps, A, E0; lia).
    rewrite IH; [|apply R|apply R|done|]; rewrite A2, (cnt_ext _ _ l (cl_sps _ _ (rl_cool _ _ _ _ _ R) i)); lia.
  - set (q2 := rtl8192eu_hal_xmitframe_enqueue q0 _) in *.
    assert (sleepq_ac_len (sps (ent q2 i)) = sleepq_ac_len (sps (ent q i))) as A2 by (unfold q2; by rewrite hal_sps, E0).
    rewrite IH; [|apply R|apply R|done|]; rewrite A2, (cnt_ext _ _ l (cl_sps _ _ (rl_cool _ _ _ _ _ R) i)); lia.
Qed.

Lemma woken_spec c : entry_change (woken c) /\ forall e, sleeping (woken c e) = false.
Proof.
  assert (forall e, sleeping (if sleeping e then set_state (Z.lxor (sta_state e) WIFI_SLEEP_STATE) e else e) = false) as S0.
  { intros e. destruct (sleeping e) eqn:S; [|done]. unfold sleeping, bit_test in *. cbn [set_state set_sta_state sta_state].
    apply negb_false_iff, Z.eqb_eq. apply negb_true_iff, Z.eqb_neq in S.
    assert (Z.land (sta_state e) 4 = 4) as E.
    { change 4 with (2 ^ 2) in *. unfold WIFI_SLEEP_STATE in S. change 4 with (2 ^ 2) in S.
      destruct (Z.testbit (sta_state e) 2) eqn:T.
      - apply Z.bits_inj'. intros n Hn. rewrite Z.land_spec, Z.pow2_bits_eqb by lia. destruct (Z.eqb_spec 2 n) as [<-|]; [by rewrite T|apply andb_false_r].
      - destruct S. apply Z.bits_inj'. intros n Hn. rewrite Z.land_spec, Z.pow2_bits_eqb, Z.bits_0 by lia. destruct (Z.eqb_spec 2 n) as [<-|]; [by rewrite T|apply andb_false_r]. }
    unfold WIFI_SLEEP_STATE in *. apply Z.bits_inj'. intros n Hn. rewrite Z.land_spec, Z.lxor_spec, Z.bits_0.
    pose proof (f_equal (fun x => Z.testbit x n) E) as En. cbn beta in En. rewrite Z.land_spec in En. by destruct (Z.testbit (sta_state e) n), (Z.testbit 4 n). }
  assert (forall e, core (if sleeping e then set_state (Z.lxor (sta_state e) WIFI_SLEEP_STATE) e else e) = core e) as C0.
  { intros e. destruct (sleeping e); [|done]. unfold core. cbn. by rewrite bit_test_lxor. }
  split; [split|]; unfold woken; intros e.
  - rewrite <- (C0 e). cbn zeta. set (e0 := if sleeping e then _ else e). destruct (bit_test _ WIFI_STA_ALIVE_CHK_STATE); [|done]. apply (alive_clear_change c).
  - by destruct (sleeping e), (bit_test _ WIFI_STA_ALIVE_CHK_STATE).
  - by destruct (sleeping e), (bit_test _ WIFI_STA_ALIVE_CHK_STATE).
  - by destruct (sleeping e), (bit_test _ WIFI_STA_ALIVE_CHK_STATE).
  - specialize (S0 e). cbn zeta. set (e0 := if sleeping e then _ else e) in *. destruct (bit_test _ WIFI_STA_ALIVE_CHK_STATE); [|done]. rewrite <- S0. apply (alive_clear_change c).
Qed.

(** What waking up a station does before the beacon is written. *)
Record awake (c : q_cfg) (N : Z) (q : tx_queues) (i : nat) (mask : bool) (q' : tx_queues) : Prop := {
  aw_base : ps_base (hidden c) (N + 1) q';
  aw_waiting : same_waiting q q';
  aw_table : table_eq (q_stapriv q) (q_stapriv q');
  aw_mask : mask = false -> tim_bitmap (q_stapriv q') = tim_bitmap (q_stapriv q);
  aw_bcn : bcn_tim q' = bcn_tim q;
  aw_awake : sleeping (ent q' i) = false
}.

Lemma wakeup_unicast_spec c N q i :
  ps_base c N q -> station q i -> 2 * N < 4294967296 - 2 -> awake c N q i (wakeup_unicast c q i).1 (wakeup_unicast c q i).2.
Proof.
  intros B Hi HN. pose proof (po_queues _ _ _ B) as Hq. pose proof (station_lt _ _ _ _ B Hi) as Hlt.
  destruct (station_id _ _ _ _ B Hi) as [Hid Hr]. pose proof (po_sta _ _ _ B i Hi) as Hinv.
  pose proof (si_ac _ _ _ Hinv) as Hac. pose proof (cnt_le (ent q i) (slp q i)). pose proof (tot_slp q i). pose proof (po_tot _ _ _ B i).
  unfold wakeup_unicast. pose proof (wakeup_loop_spec (slp q i) q i Hq eq_refl) as R.
  pose proof (wakeup_loop_maps (slp q i) q i) as M. pose proof (wakeup_loop_ac (slp q i) q i Hq eq_refl Hlt ltac:(lia)) as A.
  set (q1 := wakeup_loop q i (slp q i)) in *. clearbody q1. pose proof (rl_cool _ _ _ _ _ R) as C1.
  rewrite (sleepq_empty q1 i) by (done || apply R). rewrite (rl_slp _ _ _ _ _ R), bool_decide_true by done. cbn [fst snd].
  rewrite (ent_aid _ _ i (cl_table _ _ C1)). set (id := aid (ent q i)) in *.
  assert (maps_ok q1) as Hm1 by (apply (maps_of_ok q); [done|apply B]).
  assert (id_ok q1 id) as Hid1 by (unfold id_ok; rewrite (map_len_of _ _ M); done).
  pose proof (tim_clear_ok q1 id Hm1 Hid1) as Hm2. pose proof (tim_clear_bits q1 id Hm1 Hid1) as Bt.
  pose proof (fun H => tim_clear_noop q1 id Hm1 Hid1 H) as Hnoop. set (q2 := tim_map_clear q1 id) in *.
  destruct (woken_spec c) as [G Sl]. set (q3 := upd_ent q2 i (woken c)).
  assert (length (stainfo_buf (q_stapriv q2)) = 32%nat) as L2 by apply (qo_len _ (rl_ok _ _ _ _ _ R)).
  assert (ent q3 i = woken c (ent q2 i)) as E3 by (unfold q3; rewrite ent_upd_same by lia; done).
  assert (aid (ent q3 i) = id) as Ea.
  { rewrite E3. pose proof (ec_core _ G (ent q2 i)) as K. unfold core in K. injection K as _ K _. rewrite K. apply (ent_aid _ _ i (cl_table _ _ C1)). }
  rewrite Ea. assert (maps_ok q3) as Hm3 by (by apply (maps_of_ok q2)).
  assert (id_ok q3 id) as Hid3 by (unfold id_ok; exact Hid1). pose proof (dz_clear_ok q3 id Hm3 Hid3) as Hm4. pose proof (dz_clear_bits q3 id Hm3 Hid3) as Bd.
  set (q4 := dz_map_clear q3 id) in *.
  assert (table_eq (q_stapriv q) (q_stapriv q4)) as T.
  { transitivity (q_stapriv q1); [apply C1|]. transitivity (q_stapriv q2); [apply set_maps_table|]. transitivity (q_stapriv q3); [apply upd_sta_table, G|apply set_maps_table]. }
  assert (queues_ok q4) as Hq4 by (apply set_maps_ok, upd_ent_ok; [apply set_maps_ok, R|apply G|apply G]).
  assert (same_waiting q q4) as W.
  { apply (same_waiting_trans q q1); [apply C1| |]; [by apply (released_all_waiting q q1 i)|]. by apply same_waiting_same. }
  assert (only_at q q4 i) as Lo.
  { eapply local_trans; [apply R|]. apply (local_trans _ q2); [apply local_maps|]. apply (local_trans _ q3); [apply local_upd|apply local_maps]. }
  assert (forall j, 0 <= j < 256 -> tim_is_set q4 j = negb (j =? id) && tim_is_set q j) as Ht4.
  { intros j Hj. change (tim_is_set q4 j) with (tim_is_set q2 j). rewrite Bt by done. by rewrite (maps_of_tim _ _ _ M). }
  assert (forall j, 0 <= j < 256 -> dz_is_set q4 j = negb (j =? id) && dz_is_set q j) as Hd4.
  { intros j Hj. rewrite Bd by done. change (dz_is_set q3 j) with (dz_is_set q1 j). by rewrite (maps_of_dz _ _ _ M). }
  assert (map_len q4 = map_len q) as Hl by (rewrite <- (map_len_of _ _ M); done).
  assert (ent q4 i = woken c (ent q2 i)) as E4 by exact E3.
  assert (sps_core (ent q4 i) = sps_core (ent q i)) as Hc by (rewrite E4, (ec_sps _ G); apply (cl_sps _ _ C1)).
  assert (fw_state (t_adp (q_txs q4)) = fw_state (t_adp (q_txs q))) as Hfw by apply (cl_fw _ _ C1).
  assert (slp q4 i = []) as Hs4 by apply (rl_slp _ _ _ _ _ R).
  assert (sleepq_ac_len (sps (ent q4 i)) = sleepq_ac_len (sps (ent q i)) - cnt (ent q i) (slp q i)) as A4 by (rewrite E4, (ec_ac _ G); exact A).
  assert (bcn_tim q4 = bcn_tim q) as Hb by (change (bcn_tim q4) with (bcn_tim q1); pose proof M as M'; unfold maps_of in M'; congruence).
  assert (tim_is_set q1 id = false -> tim_bitmap (q_stapriv q4) = tim_bitmap (q_stapriv q)) as Hno.
  { intros H'. change (tim_bitmap (q_stapriv q4)) with (tim_bitmap (q_stapriv q2)). rewrite Hnoop by done. pose proof M as M'. unfold maps_of in M'. congruence. }
  assert (sleeping (ent q4 i) = false) as Haw by (rewrite E4; apply Sl).
  clearbody q4. split; try done.
  apply (ps_base_station (hidden c) N (N + 1) q q4 i id); try done; [by apply ps_base_hide|lia|..].
  - split; try done.
    + intros j Hj Nj. rewrite Ht4 by done. destruct (Z.eqb_spec j id); done.
    + intros j Hj Nj. rewrite Hd4 by done. destruct (Z.eqb_spec j id); done.
  - apply (tot_keeps c N q); done.
  - split; rewrite ?(ent_aid _ _ i T), ?Hs4; fold id.
    + unfold id_ok in *. rewrite Hl. lia.
    + rewrite Hd4, Z.eqb_refl by lia. rewrite E4. symmetry. apply Sl.
    + done.
    + intros f Hf. by apply elem_of_nil in Hf.
    + rewrite A4. change (cnt _ []) with 0. lia.
    + apply (uapsd_ext (ent q i)); [done|apply Hinv].
Qed.

(** Clearing both bits of the group entry. *)
Definition group_clear (q : tx_queues) : tx_queues := dz_map_clear (tim_map_clear q 0) 0.

Lemma group_clear_spec c q :
  maps_ok q ->
  maps_ok (group_clear q) /\ map_len (group_clear q) = map_len q /\
  (forall j, 0 <= j < 256 -> tim_is_set (group_clear q) j = negb (j =? 0) && tim_is_set q j) /\
  (forall j, 0 <= j < 256 -> dz_is_set (group_clear q) j = negb (j =? 0) && dz_is_set q j) /\
  (tim_is_set q 0 = false -> tim_bitmap (q_stapriv (group_clear q)) = tim_bitmap (q_stapriv q)) /\
  stays (hidden c) q (group_clear q) 0.
Proof.
  intros Hm. pose proof (id_ok_0 q Hm) as Hid. pose proof (tim_clear_ok q 0 Hm Hid) as Hm2. pose proof (tim_clear_bits q 0 Hm Hid) as Bt.
  pose proof (fun H => tim_clear_noop q 0 Hm Hid H) as Hnoop. unfold group_clear. set (q2 := tim_map_clear q 0) in *.
  assert (id_ok q2 0) as Hid2 by (by apply id_ok_0). pose proof (dz_clear_ok q2 0 Hm2 Hid2) as Hm4. pose proof (dz_clear_bits q2 0 Hm2 Hid2) as Bd.
  split_and!; try done. split; try done.
  - intros j Hj Nj. change (tim_is_set q2 j = tim_is_set q j). rewrite Bt by done. destruct (Z.eqb_spec j 0); done.
  - intros j Hj Nj. rewrite Bd by done. destruct (Z.eqb_spec j 0); done.
Qed.

Lemma group_clear_cool q : cool q (group_clear q).
Proof. by split. Qed.

Lemma group_sta_eq q b : rtw_get_bcmc_stainfo (q_stapriv q) = Some b -> group_sta q b = true.
Proof. intros E. unfold group_sta. by apply bool_decide_eq_true. Qed.

Lemma group_lt q b : queues_ok q -> rtw_get_bcmc_stainfo (q_stapriv q) = Some b -> (b < 32)%nat.
Proof.
  intros Hq E. unfold rtw_get_bcmc_stainfo, rtw_get_stainfo in E. apply chain_search_Some in E as (_ & e & E & _).
  apply lookup_lt_Some in E. by rewrite (qo_len q Hq) in E.
Qed.

(** The releases of group frames. *)
Lemma ps_base_group_release c N q q' b :
  ps_base c N q -> group_sta q b = true -> released q q' b (slp q b) [] -> maps_of q' = maps_of q -> ps_base c N q'.
Proof.
  intros B Hb R M. pose proof (released_all_waiting _ _ _ R) as W. apply (ps_base_group c N N q q' b 0); try done; try apply R; try lia.
  - apply stays_same; [done|apply B|apply B].
  - intros j. rewrite (same_waiting_tot _ _ _ W). apply B.
  - intros H. by rewrite (rl_slp _ _ _ _ _ R) in H.
Qed.

Lemma ps_base_group_clear c N q b :
  ps_base c N q -> group_sta q b = true -> slp q b = [] -> ps_base (hidden c) N (group_clear q).
Proof.
  intros B Hb E. destruct (group_clear_spec c q (po_maps _ _ _ B)) as (A1 & A2 & A3 & A4 & A5 & A6).
  apply (ps_base_group (hidden c) N N q (group_clear q) b 0); try done; try lia.
  - by apply ps_base_hide.
  - by apply set_maps_ok, set_maps_ok, B.
  - apply B.
Qed.

Lemma group_clear_bit q : maps_ok q -> dz_is_set (group_clear q) 0 = false.
Proof. intros Hm. destruct (group_clear_spec (mk_qcfg false 0 false [] 0) q Hm) as (_ & _ & _ & Bd & _). by rewrite Bd by lia. Qed.

Lemma wakeup_group_spec c N q b :
  ps_base (hidden c) N q -> rtw_get_bcmc_stainfo (q_stapriv q) = Some b ->
  let '(mask, q') := wakeup_group q b in
  ps_base (hidden c) N q' /\ same_waiting q q' /\ cool q q' /\
  (mask = false -> tim_bitmap (q_stapriv q') = tim_bitmap (q_stapriv q)) /\ bcn_tim q' = bcn_tim q /\
  (dz_is_set q' 0 = true -> dz_anyone_exclude_aid0 q' = true).
Proof.
  intros B Eb. pose proof (group_sta_eq q b Eb) as Hb. pose proof (po_queues _ _ _ B) as Hq. pose proof (group_lt q b Hq Eb) as Hlt.
  unfold wakeup_group. destruct (dz_anyone_exclude_aid0 q) eqn:D; [by split_and!|].
  pose proof (wakeup_group_loop_spec (slp q b) q b Hq eq_refl) as R. pose proof (wakeup_group_loop_maps (slp q b) q b) as M.
  set (q1 := wakeup_group_loop q b (slp q b)) in *. clearbody q1.
  rewrite (sleepq_empty q1 b), (rl_slp _ _ _ _ _ R), bool_decide_true by (done || apply R). cbn iota.
  pose proof (ps_base_group_release _ _ _ _ _ B Hb R M) as B1. fold (group_clear q1).
  destruct (group_clear_spec c q1 (po_maps _ _ _ B1)) as (A1 & A2 & A3 & A4 & A5 & A6). pose proof M as M'. unfold maps_of in M'. split_and!.
  - apply (ps_base_group_clear (hidden c) N q1 b B1); [by rewrite (cool_group _ _ _ (rl_cool _ _ _ _ _ R))|apply R].
  - apply (same_waiting_trans q q1); [apply R|by eapply released_all_waiting|by apply same_waiting_same].
  - transitivity q1; [apply R|apply group_clear_cool].
  - intros H. rewrite A5 by done. congruence.
  - change (bcn_tim (group_clear q1)) with (bcn_tim q1). congruence.
  - intros H. by rewrite (group_clear_bit q1 (po_maps _ _ _ B1)) in H.
Qed.

(** The bit 0 of the sleep map is set only while a station sleeps. *)
Lemma exclude_somebody c N q : ps_base c N q -> dz_anyone_exclude_aid0 q = true -> somebody q.
Proof.
  intros B D. apply (dz_exclude_spec q (po_maps _ _ _ B)) in D as (id & Hid & D). destruct (po_dz _ _ _ B id Hid D) as (j & Hj & E).
  exists j. split; [done|]. rewrite <- (si_dz _ _ _ (po_sta _ _ _ B j Hj)). by rewrite E.
Qed.

Lemma ps_base_beacon c N tx q : ps_base (hidden c) N q -> ps_base c N (_update_beacon c tx q).
Proof.
  intros B. destruct (po_bmc _ _ _ B) as [b Eb]. pose proof (group_sta_eq q b Eb) as Hb. apply ps_base_show; [|apply beacon_shown].
  pose proof (update_beacon_cool c tx q) as C. apply (ps_base_group (hidden c) N N q _ b 0); try done; try lia.
  - by apply update_beacon_ok, B.
  - apply C.
  - apply C.
  - apply local_beacon.
  - split; try done.
    + by apply beacon_maps_ok, B.
    + unfold map_len. by rewrite beacon_tim.
    + intros j _ _. apply beacon_tim_is_set.
    + intros j _ _. apply beacon_dz_is_set.
  - intros j. rewrite (same_waiting_tot q); [apply B|]. by apply same_waiting_beacon.
  - rewrite beacon_slp, beacon_tim_is_set, beacon_dz_is_set. by apply B.
Qed.

Lemma wakeup_keeps_awake c N q i :
  ps_ok c N q -> station q i -> 2 * N < 4294967296 - 2 ->
  keeps c N q (wakeup_sta_to_xmit c q i) /\ sleeping (ent (wakeup_sta_to_xmit c q i) i) = false.
Proof.
  intros [B Z] Hi HN. unfold wakeup_sta_to_xmit. destruct (po_bmc _ _ _ B) as [b Eb]. rewrite Eb.
  pose proof (wakeup_unicast_spec c N q i B Hi HN) as [U1 U2 U3 U4 U5 U6]. destruct (wakeup_unicast c q i) as [mask0 q1]. cbn [fst snd] in *.
  pose proof (wakeup_group_spec c (N + 1) q1 b U1 ltac:(by rewrite (bcmc_ext _ _ U3))) as G. destruct (wakeup_group q1 b) as [mask1 q2].
  destruct G as (G1 & G2 & G3 & G4 & G5 & G6). assert (same_waiting q q2) as W by (by apply (same_waiting_trans q q1)).
  assert (table_eq (q_stapriv q) (q_stapriv q2)) as T by (transitivity (q_stapriv q1); [done|apply G3]).
  assert (sleeping (ent q2 i) = false) as Hs by (by rewrite (sleeping_ext _ _ (cl_state _ _ G3 i))).
  pose proof (fun D => exclude_somebody _ _ q2 G1 (G6 D)) as Z2. destruct (mask0 || mask1) eqn:Em.
  - split; [|by rewrite beacon_ent]. split_and!; [split; [by apply ps_base_beacon|]| |by apply same_waiting_beacon].
    + rewrite beacon_dz_is_set. intros D. apply (somebody_cool q2); [apply update_beacon_cool|auto].
    + transitivity (q_stapriv q2); [done|apply update_beacon_cool].
  - apply orb_false_iff in Em as [-> ->]. split; [|done]. split_and!; [split; [|done]|done|done]. apply ps_base_show; [done|].
    apply (shown_ext c q); [by rewrite G4, U4|by rewrite G5, U5|apply B].
Qed.

(** *** Group frames *)

Lemma ps_ok_call c N q x : ps_ok c N q -> ps_ok c N (qcall q x).
Proof.
  intros H. apply (ps_ok_calm c N q); [done|apply qcall_ok, H|apply calm_call|done|]. intros j. by apply H.
Qed.

Lemma keeps_call c N q q' x : keeps c N q q' -> keeps c N q (qcall q' x).
Proof. intros (H & T & W). split_and!; [by apply ps_ok_call|done|done]. Qed.

Lemma keeps_of_base c N q q' :
  ps_base c N q' -> (dz_is_set q' 0 = true -> somebody q') -> table_eq (q_stapriv q) (q_stapriv q') -> same_waiting q q' -> keeps c N q q'.
Proof. intros B Z T W. split_and!; [|done|done]. apply (ps_ok_mono c N); [lia|by split]. Qed.

Lemma bmc_release_keeps c N q q' b :
  ps_ok c N q -> group_sta q b = true -> released q q' b (slp q b) [] -> maps_of q' = maps_of q -> keeps c N q q'.
Proof.
  intros [B Z] Hb R M. apply keeps_of_base.
  - by apply (ps_base_group_release c N q q' b).
  - rewrite (maps_of_dz _ _ _ M). intros D. by apply (somebody_cool q), Z; [apply R|].
  - apply R.
  - by eapply released_all_waiting.
Qed.

Lemma chk_bmc_keeps c N q : ps_ok c N q -> keeps c N q (chk_bmc_sleepq_hdl c q).
Proof.
  intros H. pose proof H as [B Z]. unfold chk_bmc_sleepq_hdl. destruct (po_bmc _ _ _ B) as [b Eb]. rewrite Eb.
  destruct (_ && _); [|by apply keeps_refl]. apply keeps_call, (bmc_release_keeps c N q _ b); [done|by apply group_sta_eq| |apply bmc_loop_maps].
  apply bmc_loop_spec; [apply B|done].
Qed.

Lemma group_clear_keeps c N q b :
  ps_ok c N q -> rtw_get_bcmc_stainfo (q_stapriv q) = Some b -> slp q b = [] ->
  keeps c N q (if tim_is_set q 0 then _update_beacon c true (group_clear q) else group_clear q).
Proof.
  intros [B Z] Eb E. pose proof (group_sta_eq q b Eb) as Hb. pose proof (ps_base_group_clear c N q b B Hb E) as B1.
  pose proof (group_clear_bit q (po_maps _ _ _ B)) as D. destruct (group_clear_spec c q (po_maps _ _ _ B)) as (_ & _ & _ & _ & A5 & _).
  destruct (tim_is_set q 0) eqn:T; apply keeps_of_base.
  - by apply ps_base_beacon.
  - by rewrite beacon_dz_is_set, D.
  - transitivity (q_stapriv (group_clear q)); [apply group_clear_cool|apply update_beacon_cool].
  - apply same_waiting_beacon. by apply same_waiting_same.
  - apply ps_base_show; [done|]. apply (shown_ext c q); [by apply A5|done|apply B].
  - by rewrite D.
  - apply group_clear_cool.
  - by apply same_waiting_same.
Qed.

Lemma chk_hi_queue_keeps c N empty q : ps_ok c N q -> keeps c N q (rtw_chk_hi_queue_hdl c empty q).
Proof.
  intros H. pose proof H as [B Z]. unfold rtw_chk_hi_queue_hdl. destruct (po_bmc _ _ _ B) as [b Eb]. rewrite Eb.
  rewrite (sleepq_empty q b (po_queues _ _ _ B) (group_lt q b (po_queues _ _ _ B) Eb)).
  destruct (bool_decide_reflect (slp q b = [])) as [E|]; [|by apply keeps_refl]. destruct empty; [|by apply keeps_call, keeps_refl].
  by apply (group_clear_keeps c N q b).
Qed.

Lemma ap_bmc_keeps c N q : ps_ok c N q -> keeps c N q (rtw_ap_bmc_frames_hdl c q).
Proof.
  intros H. pose proof H as [B Z]. unfold rtw_ap_bmc_frames_hdl. destruct (negb _); [by apply keeps_refl|].
  destruct (po_bmc _ _ _ B) as [b Eb]. rewrite Eb. pose proof (group_sta_eq q b Eb) as Hb.
  rewrite (sleepq_empty q b (po_queues _ _ _ B) (group_lt q b (po_queues _ _ _ B) Eb)). destruct (tim_is_set q 0 && _) eqn:D.
  - set (q0 := _update_beacon c false q).
    assert (ps_ok c N q0) as H0.
    { split; [apply ps_base_beacon, ps_base_hide, B|]. unfold q0. rewrite beacon_dz_is_set. intros Hd.
      apply (somebody_cool q); [apply update_beacon_cool|auto]. }
    assert (same_waiting q q0) as W0 by (apply same_waiting_beacon, same_waiting_refl).
    assert (table_eq (q_stapriv q) (q_stapriv q0)) as T0 by apply update_beacon_cool.
    assert (group_sta q0 b = true) as Hb0 by (by rewrite (group_sta_ext _ _ b T0)).
    clearbody q0. clear D.
    destruct (ap_bmc_loop_spec c (slp q0 b) 0 q0 b (po_queues _ _ _ (pk_base _ _ _ H0)) eq_refl) as (out & rest & E & R).
    pose proof (ap_bmc_loop_maps c (slp q0 b) q0 b 0) as M. set (q1 := ap_bmc_loop _ _ _ _ _) in *. clearbody q1.
    assert (same_waiting q0 q1) as W1.
    { apply (released_waiting _ _ _ _ _ R). intros ac. by rewrite E, filter_app. }
    apply (keeps_after c N q q0); [done|done|]. apply (keeps_group c N q0 q1 b); try done; try apply R.
    + apply stays_same; [done|apply H0|apply H0].
    + rewrite (rl_slp _ _ _ _ _ R), (maps_of_tim _ _ _ M), (maps_of_dz _ _ _ M). intros Hr. apply (po_group _ _ _ (pk_base _ _ _ H0) b); [done|]. rewrite E. by destruct out, rest.
    + by rewrite (maps_of_dz _ _ _ M).
  - destruct (bool_decide_reflect (slp q b = [])) as [E|]; [|by apply keeps_refl]. by apply (group_clear_keeps c N q b).
Qed.

(** *** Triggers *)

Lemma cnt_mid e kept f l : cnt e (kept ++ f :: l) = (if trigger_enabled e (f_priority f) then 1 else 0) + cnt e (kept ++ l).
Proof. rewrite !cnt_app, cnt_cons. lia. Qed.

Lemma cnt_zero e l f : cnt e l = 0 -> f ∈ l -> trigger_enabled e (f_priority f) = false.
Proof.
  intros H Hf. apply not_true_iff_false. intros T. unfold cnt in H.
  assert (f ∈ filter (triggers e) l) as Hin by (by apply list_elem_of_filter).
  destruct (filter (triggers e) l) as [|g k]; [by apply elem_of_nil in Hin|]. rewrite zlen_cons in H. pose proof (zlen_nonneg k). lia.
Qed.

Lemma deliver_inv c N q i kept f l :
  queues_ok q -> maps_ok q -> shown c q -> (i < 32)%nat -> sta_inv N q i -> zlen (slp q i) + N < 4294967296 ->
  slp q i = kept ++ f :: l -> trigger_enabled (ent q i) (f_priority f) = true ->
  let q' := deliver c q i f (kept ++ l) in
  stays c q q' (aid (ent q i)) /\ sta_inv N q' i /\ sleepq_ac_len (sps (ent q' i)) = sleepq_ac_len (sps (ent q i)) - 1.
Proof.
  intros Hq Hm Hsh Hi Hinv HN E T. pose proof (delivery_step q i kept f l Hq E) as R. unfold deliver.
  pose proof (pop_sps q i (kept ++ l) i) as E0. set (q0 := pop_sleep q i (kept ++ l)) in *.
  pose proof (si_ac _ _ _ Hinv) as Hac. pose proof (cnt_le (ent q i) (slp q i)) as Hle.
  rewrite E, cnt_mid, T in Hac, Hle. pose proof (cnt_le (ent q i) (kept ++ l)).
  pose proof (pop_delivery_ac q0 i f) as A. rewrite E0 in A.
  assert (length (stainfo_buf (q_stapriv q0)) = 32%nat) as L0 by apply (pop_sleep_ok q i kept f l Hq E). rewrite L0 in A. rewrite E in HN.
  specialize (A Hi ltac:(lia)). assert (maps_of (pop_delivery q0 i f).2 = maps_of q) as M1 by done.
  destruct (pop_delivery q0 i f) as [f' q1]. cbn [snd] in A, M1. cbn iota beta in *.
  pose proof (hal_sps q1 (set_triggered f' true) i) as E2. pose proof (hal_maps q1 (set_triggered f' true)) as M2.
  set (q2 := rtl8192eu_hal_xmitframe_enqueue q1 (set_triggered f' true)) in *. clearbody q2. rewrite <- E2 in A.
  assert (maps_of q2 = maps_of q) as M by congruence. clear M1 M2 E2 E0 L0 q0 f' q1. pose proof (rl_cool _ _ _ _ _ R) as C.
  pose proof (stays_same c q q2 (aid (ent q i)) M Hm Hsh) as Sy. rewrite (ent_aid _ _ i (cl_table _ _ C)).
  assert (forall q', cool q2 q' -> slp q' i = kept ++ l -> sps (ent q' i) = sps (ent q2 i) -> map_len q' = map_len q ->
    dz_is_set q' (aid (ent q i)) = dz_is_set q (aid (ent q i)) ->
    (forall g, g ∈ kept ++ l -> indicated (ent q i) g = true -> tim_is_set q' (aid (ent q i)) = true) -> sta_inv N q' i) as Inv.
  { intros q' C' El Ep Em Ed Et. apply (sta_inv_moved N _ q q' i Hinv); rewrite ?El, ?Ep, ?A; try done.
    - by transitivity q2.
    - rewrite E. intros g Hg. apply elem_of_app in Hg as [?|?]; apply elem_of_app; [by left|right; by right].
    - lia. }
  assert (has_legacy_ac (sps (ent q2 i)) = has_legacy_ac (sps (ent q i))) as Hleg.
  { pose proof (cl_sps _ _ C i) as Hc. unfold sps_core in Hc. congruence. }
  rewrite A, Hleg. destruct ((sleepq_ac_len (sps (ent q i)) - 1 =? 0) && (has_legacy_ac (sps (ent q i)) =? 0)) eqn:D.
  - apply andb_true_iff in D as [D1 D2]. assert (id_ok q2 (aid (ent q i))) as Hid.
    { destruct (si_id _ _ _ Hinv) as [Hid _]. unfold id_ok in *. by rewrite (map_len_of _ _ M). }
    assert (maps_ok q2) as Hm2 by (by apply (maps_of_ok q)). destruct (clear_and_show c q2 _ Hm2 Hid) as (B1 & B2 & B3 & B4 & B5).
    split_and!.
    + eapply stays_trans; [exact Sy|]. by apply clear_stays.
    + apply Inv.
      * apply clear_cool.
      * rewrite beacon_slp. apply (rl_slp _ _ _ _ _ R).
      * by rewrite beacon_ent.
      * by rewrite B5, (map_len_of _ _ M).
      * by rewrite B3, (maps_of_dz _ _ _ M).
      * intros g Hg. unfold indicated. rewrite D2, (si_uapsd _ _ _ Hinv), (cnt_zero (ent q i) (kept ++ l) g) by (done || lia). done.
    + by rewrite beacon_ent.
  - split_and!; [done| |done]. apply Inv; try done; try apply R.
    + by apply map_len_of.
    + by apply maps_of_dz.
    + intros g Hg Hind. rewrite (maps_of_tim _ _ _ M). apply (si_tim _ _ _ Hinv g); [|done].
      rewrite E. apply elem_of_app in Hg as [?|?]; apply elem_of_app; [by left|right; by right].
Qed.

Lemma delivery_loop_inv c N l q i kept :
  queues_ok q -> maps_ok q -> shown c q -> (i < 32)%nat -> sta_inv N q i -> zlen (slp q i) + N < 4294967296 -> slp q i = kept ++ l ->
  let q' := delivery_loop c q i kept l in stays c q q' (aid (ent q i)) /\ sta_inv N q' i.
Proof.
  revert q kept. induction l as [|f l IH]; intros q kept Hq Hm Hsh Hi Hinv HN E; cbn [delivery_loop].
  { split; [|done]. by apply stays_same. }
  destruct (trigger_enabled (ent q i) (f_priority f)) eqn:T.
  - destruct (deliver_inv c N q i kept f l Hq Hm Hsh Hi Hinv HN E T) as (Sy & I1 & _).
    pose proof (deliver_spec c q i kept f l Hq E) as R. set (q1 := deliver _ _ _ _ _) in *. clearbody q1.
    destruct (IH q1 kept) as [Sy' I']; try done; try apply Sy; try apply R.
    + rewrite (rl_slp _ _ _ _ _ R). rewrite E in HN. rewrite zlen_app, zlen_cons in HN. rewrite zlen_app. lia.
    + split; [|done]. eapply stays_trans; [exact Sy|]. by rewrite (ent_aid _ _ i (cl_table _ _ (rl_cool _ _ _ _ _ R))) in Sy'.
  - apply IH; try done. by rewrite <- app_assoc.
Qed.

Lemma process_wmmps_keeps c N prio q i : ps_ok c N q -> station q i -> 2 * N < 4294967296 - 2 -> keeps c N q (process_wmmps_data c prio q i).
Proof.
  intros H Hi HN. pose proof H as [B Z]. unfold process_wmmps_data. destruct (negb (qos_option _)); [by apply keeps_refl|].
  destruct (negb _); [by apply keeps_refl|]. destruct (_ && _); [|by apply keeps_refl]. destruct (0 <? _); [|by apply keeps_call, keeps_refl].
  pose proof (po_queues _ _ _ B) as Hq. pose proof (tot_slp q i). pose proof (po_tot _ _ _ B i).
  destruct (delivery_loop_inv c N (slp q i) q i [] Hq (po_maps _ _ _ B) (po_shown _ _ _ B) (station_lt _ _ _ _ B Hi) (po_sta _ _ _ B i Hi) ltac:(lia) eq_refl) as [Sy Hinv].
  pose proof (delivery_loop_spec c (slp q i) q i [] Hq eq_refl) as R. pose proof (delivery_waiting c q i Hq) as W.
  unfold xmit_delivery_enabled_frames in *. apply (keeps_station c N q _ i); try done; try apply R. by apply (sta_inv_mono N); [lia|].
Qed.

(** *** Going to sleep *)

Lemma bit_test_lor_same s m : m <> 0 -> bit_test (Z.lor s m) m = true.
Proof.
  intros H. unfold bit_test. apply negb_true_iff, Z.eqb_neq. rewrite Z.land_comm, Z.lor_comm, Z.land_comm.
  intros E. apply H. rewrite <- E. symmetry. apply Z.bits_inj'. intros n _. rewrite Z.land_spec, Z.lor_spec. by destruct (Z.testbit m n), (Z.testbit s n).
Qed.

(** The entry and its bit of the sleep map when the station goes to sleep. *)
Definition fall_asleep (q : tx_queues) (i : nat) : tx_queues :=
  let q := upd_ent q i (fun e => set_state (Z.lor (sta_state e) WIFI_SLEEP_STATE) e) in dz_map_set q (aid (ent q i)).

Lemma fall_asleep_spec c N q i :
  ps_base c N q -> station q i -> sleeping (ent q i) = false ->
  let q' := fall_asleep q i in
  queues_ok q' /\ table_eq (q_stapriv q) (q_stapriv q') /\ only_at q q' i /\ stays c q q' (aid (ent q i)) /\ sta_inv N q' i /\
  sleeping (ent q' i) = true /\ (forall j, slp q' j = slp q j) /\ (forall j ac, pend q' j ac = pend q j ac) /\
  fw_state (t_adp (q_txs q')) = fw_state (t_adp (q_txs q)).
Proof.
  intros B Hi Hsl. destruct (station_id _ _ _ _ B Hi) as [Hid Hr]. pose proof (station_lt _ _ _ _ B Hi) as Hlt.
  pose proof (po_sta _ _ _ B i Hi) as Hinv. pose proof (po_queues _ _ _ B) as Hq. unfold fall_asleep. set (g := fun e => set_state _ e).
  assert (entry_change g) as G.
  { split; try done. intros e. unfold core. cbn. by rewrite bit_test_lor. }
  set (q1 := upd_ent q i g). assert (table_eq (q_stapriv q) (q_stapriv q1)) as T by apply upd_sta_table, G.
  assert (ent q1 i = g (ent q i)) as E1 by (apply ent_upd_same; by rewrite (qo_len q Hq)).
  cbn zeta. rewrite (ent_aid _ _ i T). set (id := aid (ent q i)) in *.
  assert (maps_ok q1) as Hm by (apply (maps_of_ok q); [done|apply B]).
  pose proof (dz_set_ok q1 id Hm Hid) as Hm2. pose proof (dz_set_bits q1 id Hm Hid) as Bd. set (q2 := dz_map_set q1 id) in *.
  assert (table_eq (q_stapriv q) (q_stapriv q2)) as T2 by (transitivity (q_stapriv q1); [done|apply set_maps_table]).
  assert (ent q2 i = g (ent q i)) as E2 by exact E1.
  assert (sleeping (ent q2 i) = true) as Hs2 by (rewrite E2; by apply bit_test_lor_same).
  split_and!; try done.
  - apply set_maps_ok, upd_ent_ok; [done|apply G|apply G].
  - eapply local_trans; [apply local_upd|apply local_maps].
  - split; try done.
    + intros H. change (bcn_tim q = tim_bitmap (q_stapriv q)). by apply B.
    + intros j Hj Nj. rewrite Bd by done. destruct (Z.eqb_spec j id); done.
  - split; rewrite ?(ent_aid _ _ i T2), ?Hs2; fold id.
    + split; [exact Hid|lia].
    + rewrite Bd, Z.eqb_refl by lia. done.
    + done.
    + change (slp q2 i) with (slp q i). rewrite (si_awake _ _ _ Hinv Hsl). intros f Hf. by apply elem_of_nil in Hf.
    + change (slp q2 i) with (slp q i). rewrite E2. apply Hinv.
    + rewrite E2. apply (uapsd_ext (ent q i)); [done|apply Hinv].
Qed.

(** What holds while the frames of a station move to its sleeping queue. *)
Record station_moves (c : q_cfg) (N : Z) (q : tx_queues) (i : nat) (q' : tx_queues) : Prop := {
  sm_stays : stays c q q' (aid (ent q i));
  sm_inv : sta_inv N q' i;
  sm_sleeping : sleeping (ent q' i) = true;
  sm_fw : check_fwstate (t_adp (q_txs q')) WIFI_AP_STATE = true;
  sm_group : group_sta q' i = false;
  sm_aid : aid (ent q' i) = aid (ent q i)
}.

Lemma station_moves_calm c N q0 i q q' :
  calm q q' -> slp q' i = slp q i -> station_moves c N q0 i q -> station_moves c N q0 i q'.
Proof.
  intros C E []. pose proof (calm_maps _ _ C) as M. split.
  - eapply stays_trans; [done|]. apply stays_same; [done|apply sm_stays0|apply sm_stays0].
  - apply (sta_inv_calm N q); try done. by apply map_len_of.
  - by rewrite (sleeping_ext _ _ (cm_state _ _ C i)).
  - by rewrite (check_fwstate_eq _ _ _ (cm_fw _ _ C)).
  - by rewrite (group_sta_ext _ _ i (cm_table _ _ C)).
  - by rewrite (ent_aid _ _ i (cm_table _ _ C)).
Qed.

Lemma station_moves_buffer c N q0 i q f :
  2 * N < 4294967296 - 2 -> queues_ok q -> frame_sta q f = Some i -> station_moves c N q0 i q -> zlen (slp q i) < N ->
  station_moves c N q0 i (if group_sta q i then buffer_group c q i f else buffer_unicast c q i f).
Proof.
  intros HN Hq Hf [] Hz. rewrite sm_group0.
  destruct (buffer_unicast_inv c N q i f Hq (sy_ok _ _ _ _ sm_stays0) (sy_shown _ _ _ _ sm_stays0) Hf sm_inv0 sm_sleeping0 Hz HN)
    as (Bf & M1 & M2 & M3 & M4 & M5 & M6 & Hi1 & Hsl1).
  pose proof (bf_cool _ _ _ _ Bf) as C. split; try done.
  - eapply stays_trans; [done|]. rewrite sm_aid0 in M5. by split.
  - by rewrite (check_fwstate_eq _ _ _ (cl_fw _ _ C)).
  - by rewrite (cool_group _ _ _ C).
  - by rewrite (ent_aid _ _ i (cl_table _ _ C)).
Qed.

Lemma station_moves_takes c N q0 i q : station_moves c N q0 i q -> takes q i = true.
Proof. intros []. unfold takes. by rewrite sm_fw0, sm_group0, sm_sleeping0, (si_dz _ _ _ sm_inv0), sm_sleeping0. Qed.

(** The same for the group frames while the station with id [id] sleeps. *)
Record group_moves (c : q_cfg) (id : Z) (q : tx_queues) (b : nat) (q' : tx_queues) : Prop := {
  gm_stays : stays c q q' 0;
  gm_dz : dz_is_set q' id = true;
  gm_fw : check_fwstate (t_adp (q_txs q')) WIFI_AP_STATE = true;
  gm_group : group_sta q' b = true;
  gm_slp : slp q' b <> [] -> tim_is_set q' 0 = true /\ dz_is_set q' 0 = true
}.

Lemma group_moves_calm c id q0 b q q' :
  calm q q' -> slp q' b = slp q b -> group_moves c id q0 b q -> group_moves c id q0 b q'.
Proof.
  intros C E []. pose proof (calm_maps _ _ C) as M. split.
  - eapply stays_trans; [done|]. apply stays_same; [done|apply gm_stays0|apply gm_stays0].
  - by rewrite (maps_of_dz _ _ _ M).
  - by rewrite (check_fwstate_eq _ _ _ (cm_fw _ _ C)).
  - by rewrite (group_sta_ext _ _ b (cm_table _ _ C)).
  - by rewrite E, (maps_of_dz _ _ _ M), (maps_of_tim _ _ _ M).
Qed.

Lemma group_moves_buffer c id N q0 b q f :
  0 <= id < 256 -> 2 * N < 4294967296 - 2 -> queues_ok q -> frame_sta q f = Some b -> group_moves c id q0 b q -> zlen (slp q b) < N ->
  group_moves c id q0 b (if group_sta q b then buffer_group c q b f else buffer_unicast c q b f).
Proof.
  intros Hid HN Hq Hf [] Hz. rewrite gm_group0. pose proof (zlen_nonneg (slp q b)).
  pose proof (bf_cool _ _ _ _ (buffer_group_spec c q b f Hq Hf ltac:(lia))) as C.
  destruct (buffer_group_maps c q b f (sy_ok _ _ _ _ gm_stays0) (sy_shown _ _ _ _ gm_stays0)) as (M1 & M2 & M3 & M4 & M5). split.
  - eapply stays_trans; [done|]. split; try done; intros j Hj Nj; rewrite ?M4, ?M3 by done; destruct (Z.eqb_spec j 0); done.
  - rewrite M3, gm_dz0 by done. apply orb_true_r.
  - by rewrite (check_fwstate_eq _ _ _ (cl_fw _ _ C)).
  - by rewrite (cool_group _ _ _ C).
  - intros _. rewrite M4, M3 by lia. done.
Qed.

Lemma group_moves_takes c id q0 b q : 0 <= id < 256 -> group_moves c id q0 b q -> takes q b = true.
Proof.
  intros Hid []. unfold takes. rewrite gm_fw0, gm_group0. cbn [andb]. apply (dz_anyone_spec q (sy_ok _ _ _ _ gm_stays0)). by exists id.
Qed.

Lemma stop_station c N q i :
  ps_base c N q -> station q i -> sleeping (ent q i) = false -> 2 * N < 4294967296 - 2 ->
  let q' := sleep_queues c (fall_asleep q i) i in
  ps_base c N q' /\ table_eq (q_stapriv q) (q_stapriv q') /\ same_waiting q q' /\ sleeping (ent q' i) = true /\ station q' i /\
  dz_is_set q' (aid (ent q' i)) = true.
Proof.
  intros B Hi Hsl HN. destruct (fall_asleep_spec c N q i B Hi Hsl) as (Hq1 & T & Lo & Sy & Inv & S1 & Es & Ep & Fw).
  set (q1 := fall_asleep q i) in *. clearbody q1.
  assert (same_waiting q q1) as W1 by (by apply same_waiting_same).
  assert (station_moves c N q1 i q1) as M1.
  { split; try done.
    - apply stays_same; [done|apply Sy|apply Sy].
    - rewrite (check_fwstate_eq _ _ _ Fw). apply B.
    - rewrite (group_sta_ext _ _ i T). apply Hi. }
  destruct (sleep_queues_spec c N i (station_moves c N q1 i) HN (station_moves_takes c N q1 i) (fun x y => station_moves_calm c N q1 i x y)
    (fun x f H1 H2 H3 H4 => station_moves_buffer c N q1 i x f HN H1 H2 H3 H4) q1 Hq1 M1) as (I1 & I2 & I3 & I4 & I5 & I6).
  { rewrite zlen_moved, (same_waiting_tot q) by done. apply B. }
  set (q2 := sleep_queues c q1 i) in *. clearbody q2. destruct I6 as [N1 N2 N3 N4 N5 N6].
  assert (table_eq (q_stapriv q) (q_stapriv q2)) as T2 by (transitivity (q_stapriv q1); [done|apply I2]).
  assert (same_waiting q q2) as W2.
  { apply (same_waiting_trans q q1); [done|done|]. intros j ac. destruct (moved_waiting q1 q2 i Hq1 I3 I4 I5 j ac) as [P E].
    split; [done|]. intros _. apply E. right. rewrite Es. by apply (si_awake _ _ _ (po_sta _ _ _ B i Hi)). }
  split_and!; try done.
  - apply (ps_base_station c N N q q2 i (aid (ent q i))); try done; try lia.
    + by rewrite (cl_fw _ _ I2).
    + by eapply local_trans.
    + eapply stays_trans; [done|]. by rewrite (ent_aid _ _ i T) in N1.
    + intros j. rewrite (same_waiting_tot q) by done. apply B.
  - by apply (station_ext q).
  - rewrite <- N3. apply N2.
Qed.

Lemma stop_group c N q b i :
  ps_base c N q -> rtw_get_bcmc_stainfo (q_stapriv q) = Some b -> 2 * N < 4294967296 - 2 -> station q i ->
  dz_is_set q (aid (ent q i)) = true ->
  let q' := sleep_queues c q b in ps_base c N q' /\ cool q q' /\ same_waiting q q'.
Proof.
  intros B Eb HN Hi Hd. pose proof (group_sta_eq q b Eb) as Hb. destruct (station_id _ _ _ _ B Hi) as [_ Hr].
  assert (0 <= aid (ent q i) < 256) as Hr' by lia. set (id := aid (ent q i)) in *.
  assert (group_moves c id q b q) as M1.
  { split; try done; [apply stays_same; [done|apply B|apply B]|apply B|by apply B]. }
  destruct (sleep_queues_spec c N b (group_moves c id q b) HN (fun x => group_moves_takes c id q b x Hr') (fun x y => group_moves_calm c id q b x y)
    (fun x f H1 H2 H3 H4 => group_moves_buffer c id N q b x f Hr' HN H1 H2 H3 H4) q (po_queues _ _ _ B) M1) as (I1 & I2 & I3 & I4 & I5 & I6).
  { rewrite zlen_moved. apply B. }
  set (q2 := sleep_queues c q b) in *. clearbody q2. destruct I6.
  assert (same_waiting q q2) as W2.
  { intros j ac. destruct (moved_waiting q q2 b (po_queues _ _ _ B) I3 I4 I5 j ac) as [P E].
    split; [done|]. intros Hg. apply E. left. intros ->. congruence. }
  split_and!; try done. apply (ps_base_group c N N q q2 b 0); try done; try lia; try apply I2.
  intros j. rewrite (same_waiting_tot q) by done. apply B.
Qed.

Lemma stop_keeps c N q i :
  ps_ok c N q -> station q i -> sleeping (ent q i) = false -> 2 * N < 4294967296 - 2 -> keeps c N q (stop_sta_xmit c q i).
Proof.
  intros [B Z] Hi Hsl HN. unfold stop_sta_xmit. destruct (po_bmc _ _ _ B) as [b Eb]. rewrite Eb.
  destruct (stop_station c N q i B Hi Hsl HN) as (B1 & T1 & W1 & S1 & Hi1 & D1). fold (fall_asleep q i).
  set (q1 := sleep_queues c (fall_asleep q i) i) in *. clearbody q1.
  destruct (stop_group c N q1 b i B1 ltac:(by rewrite (bcmc_ext _ _ T1)) HN Hi1 D1) as (B2 & C2 & W2).
  apply keeps_of_base; [done| |transitivity (q_stapriv q1); [done|apply C2]|by apply (same_waiting_trans q q1)].
  intros _. apply (somebody_cool q1); [done|]. by exists i.
Qed.

Lemma pwrbit_keeps c N b q i : ps_ok c N q -> station q i -> 2 * N < 4294967296 - 2 -> keeps c N q (process_pwrbit_data c b q i).
Proof.
  intros H Hi HN. unfold process_pwrbit_data. destruct b.
  - destruct (sleeping (ent q i)) eqn:S; [by apply keeps_refl|by apply stop_keeps].
  - destruct (sleeping (ent q i)); [by apply wakeup_keeps_awake|by apply keeps_refl].
Qed.

(** *** A packet of the network stack *)

(** [update_attrib] changes the table by the handshake bit of one entry. *)
Lemma update_attrib_table stack s pkt x r x' s' :
  update_attrib stack s pkt x = Ret (r, x', s') ->
  t_adp s' = t_adp s \/
  exists i, attrib_sta s (e_ra (xe x')) = Some i /\ bit_test (sta_state (entry_at s i)) WIFI_ASOC_STATE = true /\ t_adp s' = t_adp (clear_handshake s i).
Proof.
  unfold update_attrib. destruct (_rtw_pktfile_read _ _) as [got p]. cbn [set_eth xe]. set (e0 := resolve_addrs stack s got (xe x)).
  destruct (attrib_sta s (e_ra e0)) as [i|] eqn:A; [|intros [= <- <- <-]; by left].
  destruct (bit_test (sta_state (entry_at s i)) WIFI_ASOC_STATE) eqn:B; cbn [negb]; [|intros [= <- <- <-]; by left].
  set (e1 := with_pktlen e0 (pkt_len p)). destruct (classify stack s pkt p e1 i) as [[[et s1] e2]| |] eqn:K; [|discriminate..]. rewrite bind_Ret.
  destruct (classify_ok _ _ _ _ _ _ _ _ _ K) as (_ & Ea & _). injection Ea as _ _ _ _ Ea.
  assert (t_adp s1 = t_adp s \/ t_adp s1 = t_adp (clear_handshake s i)) as T1.
  { unfold classify in K. destruct (ether_type e1 =? _); [injection K as _ <- _; by left|].
    destruct (ether_type e1 =? 0x888e); [|injection K as _ <- _; by left].
    destruct (parsing_eapol_packet _ _ _) as [[et' b]| |]; [|discriminate..]. rewrite bind_Ret in K. cbn [fst snd] in K. apply Ret_inj in K.
    destruct b; injection K as _ <- _; auto. }
  assert (t_adp (notify s1 e2) = t_adp s1) as T2 by (unfold notify; by repeat case_match).
  destruct (update_attrib_sec_info _ _ _ _) as [[rt x2] s2] eqn:Su.
  assert (t_adp s2 = t_adp s1 /\ xe x2 = e2) as [T3 X2].
  { unfold update_attrib_sec_info in Su. destruct (choose_cipher _ _ _ _); [|by injection Su as _ <- <-].
    destruct (choose_iv _ _ _ _) as [[c' s3]|] eqn:I; [|by injection Su as _ <- <-]. apply next_iv_env in I as (I & _). injection Su as _ <- <-. by rewrite I. }
  assert (e_ra e2 = e_ra e0) as Er by (by rewrite Ea).
  intros E. assert (t_adp s' = t_adp s2 /\ e_ra (xe x') = e_ra e0) as [-> ->].
  { destruct (rt =? _FAIL); apply Ret_inj in E; injection E as _ <- <-; [by rewrite X2|]. split; [done|].
    rewrite <- Er, <- X2. unfold update_attrib_phy_info, update_qos, set_qos. cbn. by repeat (case_match; cbn). }
  rewrite T3. destruct T1 as [->| ->]; [by left|right]. by exists i.
Qed.

(** Nothing but the flags outside the queues changed. *)
Lemma ps_ok_flags c N q q' :
  ps_ok c N q -> queues_ok q' -> table_eq (q_stapriv q) (q_stapriv q') ->
  fw_state (t_adp (q_txs q')) = fw_state (t_adp (q_txs q)) ->
  maps_of q' = maps_of q -> (forall j, slp q' j = slp q j) -> (forall j ac, pend q' j ac = pend q j ac) ->
  (forall j, sleeping (ent q' j) = sleeping (ent q j)) -> (forall j, sps (ent q' j) = sps (ent q j)) -> ps_ok c N q'.
Proof.
  intros [B Z] Hq' T Hfw M Hs Hp Hsl Hsp. destruct B. split; [split; try done|].
  - by rewrite (check_fwstate_eq _ _ _ Hfw).
  - by eapply maps_of_ok.
  - by eapply maps_of_shown.
  - intros j. rewrite (station_ext _ _ j T). intros Hj. destruct (po_sta0 j Hj).
    assert (sps_core (ent q' j) = sps_core (ent q j)) as Hc by (unfold sps_core; by rewrite Hsp).
    split; rewrite ?(ent_aid _ _ j T), ?Hs, ?Hsl, ?Hsp, ?(maps_of_dz _ _ _ M), ?(maps_of_tim _ _ _ M), ?(cnt_ext _ _ _ Hc); try done.
    + unfold id_ok. by rewrite (map_len_of _ _ M).
    + intros f. rewrite (indicated_ext _ _ f Hc). apply si_tim0.
    + by apply (uapsd_ext (ent q j)).
  - intros j1 j2. rewrite !(station_ext _ _ _ T), !(ent_aid _ _ _ T). auto.
  - intros d Hd. rewrite (maps_of_dz _ _ d M). intros H. destruct (po_dz0 d Hd H) as (j & Hj & E). exists j.
    by rewrite (station_ext _ _ _ T), (ent_aid _ _ _ T).
  - intros b. rewrite (group_sta_ext _ _ b T), Hs, (maps_of_tim _ _ _ M), (maps_of_dz _ _ _ M). apply po_group0.
  - intros j. rewrite (same_waiting_tot q); [done|]. by apply same_waiting_same.
  - by rewrite (bcmc_ext _ _ T).
  - rewrite (maps_of_dz _ _ 0 M). intros H. destruct (Z H) as (j & Hj & E). exists j. by rewrite (station_ext _ _ _ T), Hsl.
Qed.

Definition clear_hs (e : sta_info) : sta_info := set_sta_state e (Z.land (sta_state e) (Z.lnot WIFI_UNDER_KEY_HANDSHAKE)).

Lemma bit_test_clear s m b : Z.land m b = 0 -> bit_test (Z.land s (Z.lnot m)) b = bit_test s b.
Proof.
  intros H. unfold bit_test. enough (Z.land (Z.land s (Z.lnot m)) b = Z.land s b) as -> by done.
  apply Z.bits_inj'. intros n Hn. rewrite !Z.land_spec, Z.lnot_spec by done. pose proof (f_equal (fun x => Z.testbit x n) H) as E. cbn beta in E.
  rewrite Z.land_spec, Z.bits_0 in E. by destruct (Z.testbit s n), (Z.testbit m n), (Z.testbit b n).
Qed.

(** The table after [update_attrib]. *)
Lemma update_attrib_keeps stack c N q pkt x r x' s' :
  ps_ok c N q -> update_attrib stack (q_txs q) pkt x = Ret (r, x', s') ->
  ps_ok c N (set_qtxs q s') /\ table_eq (q_stapriv q) (q_stapriv (set_qtxs q s')).
Proof.
  intros H U. pose proof (po_queues _ _ _ (pk_base _ _ _ H)) as Hq.
  apply update_attrib_table in U as [E|(i & _ & _ & E)].
  - assert (q_stapriv (set_qtxs q s') = q_stapriv q) as Ep by (unfold q_stapriv; cbn [q_txs set_qtxs]; by rewrite E).
    assert (forall j, ent (set_qtxs q s') j = ent q j) as Ee by (intros j; unfold ent; by rewrite Ep).
    split; [|by rewrite Ep]. apply (ps_ok_flags c N q); try done.
    + apply (queues_ok_quiet q); try done; [by rewrite Ep|by intros j; rewrite Ee|by rewrite Ep].
    + by rewrite Ep.
    + cbn [q_txs set_qtxs]. by rewrite E.
    + unfold maps_of. by rewrite Ep.
    + intros j. by rewrite Ee.
    + intros j. by rewrite Ee.
  - assert (q_stapriv (set_qtxs q s') = upd_sta (q_stapriv q) i clear_hs) as Ep by (unfold q_stapriv; cbn [q_txs set_qtxs]; by rewrite E).
    assert (forall j, ent (set_qtxs q s') j = ent (upd_ent q i clear_hs) j) as Ee by (intros j; unfold ent; by rewrite Ep).
    assert (forall e, core (clear_hs e) = core e) as Hc by (intros e; unfold core; cbn; by rewrite bit_test_clear).
    assert (forall e, sleeping (clear_hs e) = sleeping e) as Hsl by (intros e; unfold sleeping; cbn; by rewrite bit_test_clear).
    assert (table_eq (q_stapriv q) (q_stapriv (set_qtxs q s'))) as T by (rewrite Ep; by apply upd_sta_table).
    split; [|done]. apply (ps_ok_flags c N q); try done.
    + apply (queues_ok_quiet q); try done; [|by rewrite Ep]. intros j. rewrite Ee. by apply (ent_upd_proj stx).
    + cbn [q_txs set_qtxs]. by rewrite E.
    + unfold maps_of. by rewrite Ep.
    + intros j. rewrite Ee. by apply (ent_upd_proj sleeping).
    + intros j. rewrite Ee. by apply (ent_upd_proj sps).
Qed.

(** The frames a packet became, none when it was refused. *)
Definition accepted (stack : local -> Z -> Z) (q : tx_queues) (x : xattrib) (pkt : bytes) : list xmit_frame :=
  match update_attrib stack (q_txs q) pkt x with
  | Ret (res, x, _) => if res =? _FAIL then [] else [do_queue_select (mk_xf x pkt 0 false)]
  | _ => []
  end.

(** The packets of frames for an entry and a category. *)
Definition carried (q : tx_queues) (i ac : nat) (l : list xmit_frame) : list bytes :=
  map x_pkt (filter (fun f => frame_sta q f = Some i /\ f_ac f = ac) l).

Lemma carried_ext q q' i ac l : table_eq (q_stapriv q) (q_stapriv q') -> carried q' i ac l = carried q i ac l.
Proof.
  intros T. unfold carried. f_equal. apply list_filter_iff. intros f. by rewrite (frame_sta_ext _ _ f T).
Qed.

Lemma carried_app q i ac l k : carried q i ac (l ++ k) = carried q i ac l ++ carried q i ac k.
Proof. unfold carried. by rewrite filter_app, map_app. Qed.

Lemma carried_one q i ac f j : frame_sta q f = Some j -> carried q i ac [f] = if bool_decide (i = j /\ ac = f_ac f) then [x_pkt f] else [].
Proof.
  intros F. unfold carried. rewrite filter_cons, filter_nil, F. destruct (decide (Some j = Some i /\ f_ac f = ac)) as [[[= ->] <-]|N].
  - by rewrite bool_decide_true.
  - rewrite bool_decide_false; [done|]. intros [-> ->]. by apply N.
Qed.

(** Packets [ins] come in and packets [outs] leave. *)
Definition flows (q q' : tx_queues) (ins outs : list xmit_frame) : Prop :=
  forall i ac, waiting q i ac ++ carried q i ac ins ≡ₚ carried q i ac outs ++ waiting q' i ac /\
    (group_sta q i = false -> waiting q i ac ++ carried q i ac ins = carried q i ac outs ++ waiting q' i ac).

Lemma flows_none q q' : same_waiting q q' -> flows q q' [] [].
Proof. intros W i ac. destruct (W i ac) as [P E]. cbn. rewrite app_nil_r. split; [by symmetry|intros G; by rewrite E]. Qed.

Lemma flows_trans q q1 q2 i1 i2 o1 o2 :
  table_eq (q_stapriv q) (q_stapriv q1) -> flows q q1 i1 o1 -> flows q1 q2 i2 o2 -> flows q q2 (i1 ++ i2) (o1 ++ o2).
Proof.
  intros T F1 F2 i ac. destruct (F1 i ac) as [P1 E1], (F2 i ac) as [P2 E2].
  rewrite !(carried_ext q q1) in * by done. rewrite (group_sta_ext _ _ i T) in E2. rewrite !carried_app. split.
  - rewrite app_assoc, P1, <- app_assoc, P2. by rewrite app_assoc.
  - intros G. rewrite app_assoc, E1, <- app_assoc, E2, app_assoc; done.
Qed.

(** One packet more waits for [i] in category [a]. *)
Lemma tot_one q q' i a p N :
  (forall j ac, waiting q' j ac ≡ₚ waiting q j ac ++ (if bool_decide (j = i /\ ac = a) then [p] else [])) -> (a < 4)%nat ->
  (forall j, tot q j <= N) -> forall j, tot q' j <= N + 1.
Proof.
  intros W Ha Ht j. specialize (Ht j). unfold tot in *.
  assert (forall ac, zlen (waiting q' j ac) = zlen (waiting q j ac) + (if bool_decide (j = i /\ ac = a) then 1 else 0)) as L.
  { intros ac. unfold zlen at 1. rewrite (W j ac), length_app. unfold zlen. destruct (bool_decide _); cbn; lia. }
  rewrite (sumZ_ext _ (fun ac => zlen (waiting q j ac) + (if bool_decide (j = i /\ ac = a) then 1 else 0))) by (intros; apply L).
  rewrite sumZ_add. enough (sumZ (fun ac => if bool_decide (j = i /\ ac = a) then 1 else 0) (seq 0 4) <= 1) by lia.
  clear -Ha. destruct (decide (j = i)) as [->|N].
  - rewrite (sumZ_upd (fun _ => 0) _ (seq 0 4) a 1); [cbn; lia|apply NoDup_seq|apply elem_of_seq; lia|..].
    + by rewrite bool_decide_true.
    + intros b Hb. rewrite bool_decide_false; [done|]. tauto.
  - rewrite (sumZ_ext _ (fun _ => 0)); [cbn; lia|]. intros b _. rewrite bool_decide_false; [done|]. tauto.
Qed.

Lemma takes_false c N q i : ps_ok c N q -> station q i \/ group_sta q i = true -> takes q i = false -> slp q i = [].
Proof.
  intros [B Z] Hi. unfold takes. rewrite (po_ap _ _ _ B). cbn [andb]. destruct Hi as [Hi|Hg].
  - destruct Hi as [Ha Hg]. rewrite Hg. pose proof (po_sta _ _ _ B i (conj Ha Hg)) as Hinv. rewrite (si_dz _ _ _ Hinv), andb_diag. apply Hinv.
  - rewrite Hg. intros D. destruct (slp q i) eqn:E; [done|]. destruct (po_group _ _ _ B i Hg) as [_ D0]; [by rewrite E|].
    assert (dz_anyone q = true); [|congruence]. apply (dz_anyone_spec q (po_maps _ _ _ B)). exists 0. split; [lia|done].
Qed.

(** The station of an accepted frame. *)
Lemma frame_sta_kind q f i : frame_sta q f = Some i -> station q i \/ group_sta q i = true.
Proof.
  intros F. pose proof (frame_group q f i F) as G. unfold frame_sta in F. destruct (bool_decide _); [done|].
  destruct (rtw_get_stainfo _ _) as [j|]; [|done]. destruct (bit_test _ _) eqn:A; [|done]. injection F as ->.
  destruct (group_sta q i) eqn:Gi; [by right|]. by left.
Qed.

Lemma buffered_waiting q q' i f :
  buffered q q' i [f] -> forall j ac, waiting q' j ac = waiting q j ac ++ (if bool_decide (j = i /\ ac = f_ac f) then [x_pkt f] else []).
Proof.
  intros Bf j ac. unfold waiting. rewrite (bf_pend _ _ _ _ Bf), (bf_slp _ _ _ _ Bf), <- app_assoc, filter_app, map_app. do 2 f_equal.
  destruct (decide (j = i)) as [->|N].
  - rewrite (bool_decide_true (i = i)) by done. rewrite filter_cons, filter_nil. destruct (decide (f_ac f = ac)) as [<-|N].
    + by rewrite bool_decide_true.
    + rewrite bool_decide_false; [done|]. intros [_ E]. auto.
  - rewrite !bool_decide_false by tauto. done.
Qed.

(** A frame buffered for its station. *)
Lemma buffer_step c N q f i :
  ps_ok c N q -> frame_sta q f = Some i -> takes q i = true -> 2 * (N + 1) < 4294967296 - 2 ->
  ps_ok c (N + 1) (if group_sta q i then buffer_group c q i f else buffer_unicast c q i f).
Proof.
  intros H F T HN. pose proof (pk_base _ _ _ H) as B. pose proof (po_queues _ _ _ B) as Hq. pose proof (tot_slp q i) as T1.
  pose proof (po_tot _ _ _ B i) as T2. pose proof (zlen_nonneg (slp q i)).
  assert (forall q', buffered q q' i [f] -> forall j, tot q' j <= N + 1) as Ht.
  { intros q' Bf. apply (tot_one q q' i (f_ac f) (x_pkt f)); [|apply f_ac_lt|apply B]. intros j ac. by rewrite (buffered_waiting q q' i f Bf). }
  destruct (frame_sta_kind q f i F) as [Hi|Hg].
  - pose proof Hi as [_ Hg]. rewrite Hg. unfold takes in T. rewrite Hg in T. apply andb_true_iff in T as [_ T]. apply andb_true_iff in T as [Hsl _].
    destruct (buffer_unicast_inv c (N + 1) q i f Hq (po_maps _ _ _ B) (po_shown _ _ _ B) F (sta_inv_mono N (N + 1) q i ltac:(lia) (po_sta _ _ _ B i Hi)) Hsl ltac:(lia) HN)
      as (Bf & M1 & M2 & M3 & M4 & M5 & M6 & Hi1 & Hsl1). pose proof (bf_cool _ _ _ _ Bf) as C. split.
    + apply (ps_base_station c N (N + 1) q _ i (aid (ent q i))); try done; try lia; try apply Bf; try apply C; by apply Ht.
    + rewrite M4. intros D. by apply (somebody_cool q), H.
  - rewrite Hg. pose proof (buffer_group_spec c q i f Hq F ltac:(lia)) as Bf. pose proof (bf_cool _ _ _ _ Bf) as C.
    destruct (buffer_group_maps c q i f (po_maps _ _ _ B) (po_shown _ _ _ B)) as (M1 & M2 & M3 & M4 & M5). split.
    + apply (ps_base_group c N (N + 1) q _ i 0); try done; try lia; try apply Bf; try apply C; [|by apply Ht|].
      * split; try done; intros j Hj Nj; rewrite ?M4, ?M3 by done; destruct (Z.eqb_spec j 0); done.
      * intros _. rewrite M4, M3 by lia. done.
    + intros _. apply (somebody_cool q); [done|]. unfold takes in T. rewrite Hg in T. apply andb_true_iff in T as [_ T].
      destruct (dz_anyone_exclude_aid0 q) eqn:D; [by apply (exclude_somebody c N)|]. apply H.
      apply (dz_anyone_spec q (po_maps _ _ _ B)) in T as (id & Hid & Hb). destruct (decide (id = 0)) as [->|N0]; [done|].
      apply not_true_iff_false in D. destruct D. apply (dz_exclude_spec q (po_maps _ _ _ B)). exists id. split; [lia|done].
Qed.

(** A frame queued for the hardware. *)
Lemma enqueue_step c N q f i q' :
  ps_ok c N q -> frame_sta q f = Some i -> slp q i = [] ->
  queues_ok q' -> calm q q' -> (forall j, slp q' j = slp q j) ->
  (forall j ac, pend q' j ac = pend q j ac ++ (if bool_decide (j = i /\ ac = f_ac f) then [f] else [])) ->
  ps_ok c (N + 1) q' /\ flows q q' [f] [].
Proof.
  intros H F Es Hq' C Hs Hp.
  assert (forall j ac, waiting q' j ac = waiting q j ac ++ (if bool_decide (j = i /\ ac = f_ac f) then [x_pkt f] else [])) as W.
  { intros j ac. unfold waiting. rewrite Hp, Hs, map_app. destruct (bool_decide_reflect (j = i /\ ac = f_ac f)) as [[-> ->]|].
    - by rewrite Es, !app_nil_r.
    - by rewrite app_nil_r, app_nil_r. }
  split.
  - apply (ps_ok_calm c (N + 1) q); try done; [by apply (ps_ok_mono c N); [lia|]|].
    apply (tot_one q q' i (f_ac f) (x_pkt f)); [|apply f_ac_lt|apply H]. intros j ac. by rewrite W.
  - intros j ac. rewrite (carried_one q j ac f i F), W. cbn. done.
Qed.

(** A frame on its way out: what [frame_sta] says of a frame that
    [update_attrib] prepared. *)
Lemma accepted_sta stack c N q pkt x x' s' :
  ps_ok c N q -> update_attrib stack (q_txs q) pkt x = Ret (_SUCCESS, x', s') ->
  exists i, frame_sta q (do_queue_select (mk_xf x' pkt 0 false)) = Some i.
Proof.
  intros H U. apply update_attrib_ok in U as (i & et & s0 & x1 & x2 & U). cbv zeta in U. destruct U as (A & Ep & _ & As & _).
  exists i. unfold frame_sta. assert (f_ra (do_queue_select (mk_xf x' pkt 0 false)) = e_ra (xe x')) as -> by (unfold do_queue_select; by case_match).
  assert (f_psta (do_queue_select (mk_xf x' pkt 0 false)) = Some i) as -> by (unfold do_queue_select; rewrite <- Ep; by case_match).
  assert (rtw_get_stainfo (q_stapriv q) (Some (e_ra (xe x'))) = Some i) as ->.
  { unfold attrib_sta in A. fold (q_stapriv q) in A. destruct (IS_MCAST (e_ra (xe x'))) eqn:M.
    - rewrite <- A. unfold rtw_get_bcmc_stainfo, rtw_get_stainfo. rewrite M. reflexivity.
    - destruct (rtw_get_stainfo _ _) as [j|]; [|done]. by destruct (_ && _). }
  rewrite bool_decide_false by auto. change (ent q i) with (entry_at (q_txs q) i). by rewrite As.
Qed.

Lemma queue_select_waits f : triggered (do_queue_select f) = triggered f /\ x_pkt (do_queue_select f) = x_pkt f.
Proof. unfold do_queue_select. by case_match. Qed.

Lemma sta_ac_pending q f i : queues_ok q -> frame_sta q f = Some i -> rtw_txframes_sta_ac_pending q f = zlen (pend q i (f_ac f)).
Proof.
  intros Hq F. unfold rtw_txframes_sta_ac_pending. rewrite F, (qo_qcnt q Hq i (qo_frame_lt q f i Hq F)).
  pose proof (f_ac_lt f). unfold znth. rewrite Nat2Z.id. destruct (f_ac f) as [|[|[|[|n]]]]; [done..|lia].
Qed.

Lemma ps_ok_drop c N q a b : ps_ok c N q -> ps_ok c N (set_counts q a b).
Proof.
  intros H. apply (ps_ok_calm c N q); [done| |apply calm_counts|done|intros j; by apply H].
  apply (queues_ok_quiet q); try done; apply H.
Qed.

(** What [pre_xmitframe] does with an accepted frame of an awake station. *)
Lemma pre_xmitframe_step c N v q f i :
  ps_ok c N q -> frame_sta q f = Some i -> slp q i = [] ->
  let '(done, direct, q') := pre_xmitframe v q f in
  ps_ok c (N + 1) q' /\ table_eq (q_stapriv q) (q_stapriv q') /\ flows q q' [f] (match direct with Some g => [g] | None => [] end).
Proof.
  intros H F Es. pose proof (po_queues _ _ _ (pk_base _ _ _ H)) as Hq. unfold pre_xmitframe. rewrite (sta_ac_pending q f i Hq F).
  destruct ((0 <? zlen (pend q i (f_ac f))) || ac_blocked v || sta_lg v || negb (xmitbuf_free v)) eqn:D.
  - destruct (classifier_spec q f i Hq F) as (q' & E & Hq' & C & Hp & Hs & _). unfold rtw_xmitframe_enqueue. rewrite E. cbn iota beta.
    change (_SUCCESS =? _SUCCESS) with true. cbn iota. destruct (enqueue_step c N q f i q' H F Es Hq' C Hs Hp). split_and!; try done. apply C.
  - split; [by apply (ps_ok_mono c N); [lia|]|]. split; [done|]. intros j ac. rewrite (carried_one q j ac f i F).
    destruct (bool_decide_reflect (j = i /\ ac = f_ac f)) as [[-> ->]|]; [|by rewrite app_nil_r].
    assert (waiting q i (f_ac f) = []) as ->; [|done]. unfold waiting. rewrite Es. destruct (pend q i (f_ac f)) as [|g l]; [done|].
    rewrite zlen_cons in D. pose proof (zlen_nonneg l). apply orb_false_iff in D as [D _]. apply orb_false_iff in D as [D _].
    apply orb_false_iff in D as [D _]. lia.
Qed.

Lemma posthandle_step stack v c N q x pkt ret direct q' :
  ps_ok c N q -> 2 * (N + 1) < 4294967296 - 2 ->
  rtw_xmit_posthandle stack v c q x pkt = Ret (ret, direct, q') ->
  ps_ok c (N + 1) q' /\ table_eq (q_stapriv q) (q_stapriv q') /\
  flows q q' (accepted stack q x pkt) (match direct with Some g => [g] | None => [] end).
Proof.
  intros H HN. unfold rtw_xmit_posthandle, accepted. destruct (update_attrib stack (q_txs q) pkt x) as [[[r x'] s']| |] eqn:U; [|discriminate..].
  rewrite bind_Ret. destruct (update_attrib_keeps stack c N q pkt x r x' s' H U) as [H1 T1]. cbn iota beta.
  assert (same_waiting q (set_qtxs q s')) as W1 by (by apply same_waiting_same).
  destruct (Z.eqb_spec r _FAIL) as [->|Nr].
  { intros E. apply Ret_inj in E. injection E as _ <- <-. split; [apply ps_ok_drop, (ps_ok_mono c N); [lia|done]|]. split; [done|].
    apply flows_none. by apply (same_waiting_trans q (set_qtxs q s')). }
  assert (r = _SUCCESS) as ->.
  { clear -U Nr. unfold update_attrib in U. destruct (_rtw_pktfile_read _ _) as [got p]. repeat (case_match; try discriminate);
      try (apply Ret_inj in U; by injection U as <- _ _).
    all: try (destruct (classify _ _ _ _ _ _) as [[[? ?] ?]| |]; [|discriminate..]; rewrite bind_Ret in U).
    all: destruct (update_attrib_sec_info _ _ _ _) as [[rt ?] ?]; destruct (rt =? _FAIL); apply Ret_inj in U; by injection U as <- _ _. }
  destruct (accepted_sta stack c N q pkt x x' s' H U) as [i F]. set (f := do_queue_select (mk_xf x' pkt 0 false)) in *.
  destruct (queue_select_waits (mk_xf x' pkt 0 false)) as [Tf Pf]. fold f in Tf, Pf. cbn in Tf, Pf. clearbody f.
  set (q1 := set_qtxs q s') in *. assert (frame_sta q1 f = Some i) as F1 by (by rewrite (frame_sta_ext q q1 f T1)). clearbody q1. clear U.
  assert (forall q2 outs, flows q1 q2 [f] outs -> flows q q2 [f] outs) as K.
  { intros q2 outs Fl. by apply (flows_trans q q1 q2 [] [f] [] outs T1 (flows_none _ _ W1)). }
  pose proof (tot_slp q1 i). pose proof (po_tot _ _ _ (pk_base _ _ _ H1) i). pose proof (zlen_nonneg (slp q1 i)).
  pose proof (enqueue_sleeping_spec c q1 f i (po_queues _ _ _ (pk_base _ _ _ H1)) F1 ltac:(lia)) as S.
  destruct (xmitframe_enqueue_for_sleeping_sta c q1 f) as [[bf f'] q2]. destruct S as ((S1 & S2 & S3 & S4) & S5 & Sb & S).
  rewrite Tf in Sb. cbn [negb andb] in Sb. destruct bf.
  - intros E. apply Ret_inj in E. injection E as _ <- <-. destruct S as (-> & Bf & Eq). pose proof (bf_cool _ _ _ _ Bf) as C.
    split_and!.
    + rewrite Eq. by apply buffer_step.
    + transitivity (q_stapriv q1); [done|apply C].
    + apply K. intros j ac. rewrite (carried_one q1 j ac f i F1), (buffered_waiting q1 q2 i f Bf). done.
  - subst q2. pose proof (takes_false c N q1 i H1 (frame_sta_kind q1 f i F1) (eq_sym Sb)) as Es.
    assert (frame_sta q1 f' = Some i) as F' by (by rewrite (frame_sta_same q1 f f')).
    pose proof (pre_xmitframe_step c N v q1 f' i H1 F' Es) as P. destruct (pre_xmitframe v q1 f') as [[dn dr] q2].
    intros E. apply Ret_inj in E. injection E as _ <- <-. destruct P as (P1 & P2 & P3). split; [done|]. split; [by transitivity (q_stapriv q1)|].
    apply K. intros j ac. specialize (P3 j ac). rewrite (carried_one q1 j ac f i F1). rewrite (carried_one q1 j ac f' i F'), S3, S4 in P3. exact P3.
Qed.

Lemma dequeue_step c N q f q' :
  ps_ok c N q -> rtw_dequeue_xframe c q = Some (f, q') -> ps_ok c N q' /\ table_eq (q_stapriv q) (q_stapriv q') /\ flows q q' [] [f].
Proof.
  intros H E. pose proof (po_queues _ _ _ (pk_base _ _ _ H)) as Hq. destruct (dequeue_xframe_some c q f q' Hq E) as (i & ac & [D1 D2 (l & D3 & D4) D5 D6 _]).
  destruct (qo_pend_sta q Hq i ac f) as [F Fa]; [rewrite D3; left|].
  assert (forall j a, waiting q j a = carried q j a [f] ++ waiting q' j a) as W.
  { intros j a. rewrite (carried_one q j a f i F), Fa. unfold waiting. rewrite D6. destruct (bool_decide_reflect (j = i /\ a = ac)) as [[-> ->]|Nj].
    - by rewrite D3, D4.
    - cbn [app]. rewrite D5; [done|]. destruct (decide (j = i)); [right; tauto|by left]. }
  split_and!.
  - apply (ps_ok_calm c N q); try done. intros j. transitivity (tot q j); [|apply H]. unfold tot.
    assert (forall a, zlen (waiting q' j a) <= zlen (waiting q j a)) as L by (intros a; rewrite (W j a), zlen_app; pose proof (zlen_nonneg (carried q j a [f])); lia).
    cbn. pose proof (L 0%nat). pose proof (L 1%nat). pose proof (L 2%nat). pose proof (L 3%nat). lia.
  - apply D2.
  - intros j a. rewrite app_nil_r. by rewrite <- W.
Qed.
