(* ===== verification/PsRun.v ===== *)
(** * Power save: runs of the access point

    Any sequence of packets from the network stack, frames taken by the
    hardware, stations going to sleep, waking, polling and triggering, beacons
    and inactivity checks.  The theorems: every packet leaves exactly once and
    a station's packets of an access category leave in the order they came; a
    sleeping station with a waiting frame finds its bit in the beacon; frames
    are buffered only for sleepers; a service period ends with its last frame;
    what a station left behind follows it when it wakes. *)

From S2P Require Import Prelude RxFrame Reorder SwCrypt StaMgt Bitmap RxCheck XmitAttr Ie Beacon TxQueue PowerSave PsProps.

(** ** Runs *)

Definition opt_list {A} (o : option A) : list A := match o with Some x => [x] | None => [] end.

(** One event, with the frames that came in and those that left.  The frames of
    stations that are not associated are left aside. *)
Inductive ps_step (c : q_cfg) (q : tx_queues) : list xmit_frame -> list xmit_frame -> tx_queues -> Prop :=
| ev_packet stack v x pkt ret direct q' :
    rtw_xmit_posthandle stack v c q x pkt = Ret (ret, direct, q') -> ps_step c q (accepted stack q x pkt) (opt_list direct) q'
| ev_dequeue f q' : rtw_dequeue_xframe c q = Some (f, q') -> ps_step c q [] [f] q'
| ev_pwrbit b i : station q i -> ps_step c q [] [] (process_pwrbit_data c b q i)
| ev_trigger prio i : station q i -> ps_step c q [] [] (process_wmmps_data c prio q i)
| ev_pspoll aid_field prio i : station q i -> ps_step c q [] [] (recv_pspoll c aid_field prio q i)
| ev_alive i : station q i -> ps_step c q [] [] (alive_check_ps c q i)
| ev_bmc_sleepq : ps_step c q [] [] (chk_bmc_sleepq_hdl c q)
| ev_hi_queue empty : ps_step c q [] [] (rtw_chk_hi_queue_hdl c empty q)
| ev_bmc_frames : ps_step c q [] [] (rtw_ap_bmc_frames_hdl c q).

(** Runs of [n] events. *)
Inductive ps_run (c : q_cfg) : nat -> tx_queues -> list xmit_frame -> list xmit_frame -> tx_queues -> Prop :=
| run_nil q : ps_run c 0 q [] [] q
| run_step n q ins outs q1 ins' outs' q2 :
    ps_run c n q ins outs q1 -> ps_step c q1 ins' outs' q2 -> ps_run c (S n) q (ins ++ ins') (outs ++ outs') q2.

(** What a step and a run do to the invariant. *)
Record advanced (c : q_cfg) (N : Z) (q : tx_queues) (ins outs : list xmit_frame) (q' : tx_queues) : Prop := {
  ad_ok : ps_ok c N q';
  ad_table : table_eq (q_stapriv q) (q_stapriv q');
  ad_flows : flows q q' ins outs
}.

Lemma keeps_advanced c N q q' : keeps c N q q' -> advanced c (N + 1) q [] [] q'.
Proof. intros (H & T & W). split; [done|done|by apply flows_none]. Qed.

Lemma step_advanced c N q ins outs q' :
  ps_ok c N q -> 2 * (N + 1) < 4294967296 - 2 -> ps_step c q ins outs q' -> advanced c (N + 1) q ins outs q'.
Proof.
  intros H HN S. destruct S as [stack v x pkt ret direct q' E|f q' E|b i Hi|prio i Hi|aidf prio i Hi|i Hi| |empty|].
  - destruct (posthandle_step stack v c N q x pkt ret direct q' H HN E) as (A & B & C). by split.
  - destruct (dequeue_step c N q f q' H E) as (A & B & C). split; [by apply (ps_ok_mono c N); [lia|]|done|done].
  - apply keeps_advanced, pwrbit_keeps; [done|done|lia].
  - apply keeps_advanced, process_wmmps_keeps; [done|done|lia].
  - by apply keeps_advanced, recv_pspoll_keeps.
  - by apply keeps_advanced, alive_check_keeps.
  - by apply keeps_advanced, chk_bmc_keeps.
  - by apply keeps_advanced, chk_hi_queue_keeps.
  - by apply keeps_advanced, ap_bmc_keeps.
Qed.

Lemma run_advanced c n q ins outs q' N :
  ps_run c n q ins outs q' -> ps_ok c N q -> 0 <= N -> 2 * (N + Z.of_nat n) < 4294967296 - 2 -> advanced c (N + Z.of_nat n) q ins outs q'.
Proof.
  intros R H H0 HN. induction R as [q|n q ins outs q1 ins' outs' q2 R IH S].
  - split; [by rewrite Z.add_0_r|done|by apply flows_none, same_waiting_refl].
  - destruct (IH H ltac:(lia)) as [A1 A2 A3].
    replace (N + Z.of_nat (Datatypes.S n)) with (N + Z.of_nat n + 1) in * by lia.
    destruct (step_advanced c _ q1 ins' outs' q2 A1 ltac:(lia) S) as [B1 B2 B3].
    split; [done|by etransitivity|by apply (flows_trans q q1)].
Qed.

(** ** Theorems *)

(** C16: Whatever stations sleep, wake, poll and trigger: of the packets accepted
    for an entry in an access category, those that have left and those that
    still wait are exactly the ones accepted, none lost and none sent twice;
    for a station they are in the order they were accepted in. *)
Theorem packets_once_in_order c n q ins outs q' N :
  ps_run c n q ins outs q' -> ps_ok c N q -> 0 <= N -> 2 * (N + Z.of_nat n) < 4294967296 - 2 ->
  (forall i ac, waiting q i ac = []) ->
  forall i ac, carried q i ac ins ≡ₚ carried q i ac outs ++ waiting q' i ac /\
    (group_sta q i = false -> carried q i ac ins = carried q i ac outs ++ waiting q' i ac).
Proof.
  intros R H H0 HN E i ac. destruct (run_advanced c n q ins outs q' N R H H0 HN) as [_ _ F].
  specialize (F i ac). by rewrite E in F.
Qed.

(** C17: A sleeping station that has a waiting frame which counts for its bit finds
    the bit set in the TIM element written from the map the beacon was last
    written from, and the group bit is set when group frames wait. *)
Theorem sleeping_station_is_told c n q ins outs q' N pre w :
  ps_run c n q ins outs q' -> ps_ok c N q -> 0 <= N -> 2 * (N + Z.of_nat n) < 4294967296 - 2 -> bstart_bss c = true ->
  let bmp := bcn_tim q' in 5 + zlen bmp <= zlen w ->
  exists body w', rtw_set_tim_ie 0 1 bmp (zlen bmp) (pre ++ w) (zlen pre) = Ret (pre ++ enc1 (WLAN_EID_TIM, body) ++ w', zlen (enc1 (WLAN_EID_TIM, body))) /\
    (forall i f, station q' i -> f ∈ slp q' i -> indicated (ent q' i) f = true -> tim_traffic body (aid (ent q' i)) = true) /\
    (forall b, group_sta q' b = true -> slp q' b <> [] -> tim_group body = true).
Proof.
  intros R H H0 HN Hb bmp Hw. destruct (run_advanced c n q ins outs q' N R H H0 HN) as [[B _] _ _].
  assert (bmp = tim_bitmap (q_stapriv q')) as Eb by (by apply (po_shown _ _ _ B)).
  destruct (po_maps _ _ _ B) as [[Ml Mb] _ Hl]. rewrite <- Eb in Ml. clearbody bmp.
  destruct (tim_span_spec bmp ltac:(lia)) as (n1 & l & Hs & L0 & L1 & L2 & He & Hz & Hout).
  destruct (tim_body_reads 0 1 bmp n1 l L0 L1 L2 He Hz Hout) as [Rt Rg].
  assert (forall id, 0 <= id < 256 -> tim_is_set q' id = true -> tim_traffic (tim_body 0 1 bmp n1 l) id = true) as T.
  { intros id Hid S. rewrite Rt by lia. unfold tim_is_set, rtw_tim_map_is_set in S. fold (map_len q') in S. by rewrite u8_small, <- Eb, <- Ml in S by done. }
  pose proof (zlen_tim_body 0 1 bmp n1 l L0 ltac:(lia) L2) as Hbody.
  exists (tim_body 0 1 bmp n1 l), (drop (Z.to_nat (5 + l)) w). split_and!.
  - rewrite (set_tim_ie_spec 0 1 bmp pre w n1 l) by (done || lia). rewrite zlen_enc1. cbn [snd]. do 2 f_equal. lia.
  - intros i f Hi Hf Hind. destruct (station_id _ _ _ _ B Hi). apply T; [lia|]. by apply (si_tim _ _ _ (po_sta _ _ _ B i Hi) f).
  - intros b Hg Hs'. destruct (po_group _ _ _ B b Hg Hs') as [Hset _]. rewrite Rg.
    unfold tim_is_set, rtw_tim_map_is_set in Hset. fold (map_len q') in Hset. by rewrite u8_small, <- Eb, <- Ml in Hset by done.
Qed.

(** C18: The queues stay well formed whatever happens: every frame stands in the
    queue of its station and access category, every counter ([qcnt], [accnt],
    [sleepq_len]) agrees with its queue, a station with waiting frames is linked
    where the scheduler looks, the maps keep their size, each sleeping station
    and only they have a bit in the sleep map, and [sleepq_ac_len] never falls
    below the number of buffered delivery-enabled frames. *)
Theorem queues_stay_well_formed c n q ins outs q' N :
  ps_run c n q ins outs q' -> ps_ok c N q -> 0 <= N -> 2 * (N + Z.of_nat n) < 4294967296 - 2 ->
  queues_ok q' /\ maps_ok q' /\
  (forall i, station q' i -> dz_is_set q' (aid (ent q' i)) = sleeping (ent q' i) /\ cnt (ent q' i) (slp q' i) <= sleepq_ac_len (sps (ent q' i))) /\
  (forall id, 1 <= id < 256 -> dz_is_set q' id = true -> exists i, station q' i /\ aid (ent q' i) = id).
Proof.
  intros R H H0 HN. destruct (run_advanced c n q ins outs q' N R H H0 HN) as [[B _] _ _]. split_and!; [apply B|apply B| |apply B].
  intros i Hi. pose proof (po_sta _ _ _ B i Hi) as Hinv. split; apply Hinv.
Qed.

(** C23: Frames are held back only for sleepers: nothing is buffered for a station
    that is awake, and group frames only while some station sleeps. *)
Theorem buffered_only_for_sleepers c n q ins outs q' N :
  ps_run c n q ins outs q' -> ps_ok c N q -> 0 <= N -> 2 * (N + Z.of_nat n) < 4294967296 - 2 ->
  (forall i, station q' i -> sleeping (ent q' i) = false -> slp q' i = []) /\
  (forall b, group_sta q' b = true -> slp q' b <> [] -> exists i, station q' i /\ sleeping (ent q' i) = true).
Proof.
  intros R H H0 HN. destruct (run_advanced c n q ins outs q' N R H H0 HN) as [[B Z] _ _]. split.
  - intros i Hi. apply (si_awake _ _ _ (po_sta _ _ _ B i Hi)).
  - intros b Hg Hs. apply Z. by apply (po_group _ _ _ B b Hg Hs).
Qed.

(** ** A station that wakes is served *)

(** The hardware takes frames until there is none. *)
Fixpoint dequeue_all (c : q_cfg) (n : nat) (q : tx_queues) : list xmit_frame * tx_queues :=
  match n with
  | O => ([], q)
  | S n => match rtw_dequeue_xframe c q with
           | None => ([], q)
           | Some (f, q) => let '(l, q) := dequeue_all c n q in (f :: l, q)
           end
  end.

Definition backlog (q : tx_queues) : Z := sumZ (fun ac => sumZ (fun i => zlen (pend q i ac)) (seq 0 32)) (seq 0 4).

Lemma sumZ_nonneg f l : (forall i, 0 <= f i) -> 0 <= sumZ f l.
Proof. intros H. induction l as [|x l IH]; [done|]. cbn [sumZ]. specialize (H x). lia. Qed.

Lemma backlog_nonneg q : 0 <= backlog q.
Proof. apply sumZ_nonneg. intros ac. apply sumZ_nonneg. intros i. apply zlen_nonneg. Qed.

Lemma dequeued_backlog q i ac f q' : queues_ok q -> dequeued q i ac f q' -> backlog q' = backlog q - 1.
Proof.
  intros Hq [_ _ (l & E1 & E2) O _ _]. destruct (qo_pend_lt q i ac Hq) as [Hi Ha]; [by rewrite E1|].
  assert (backlog q = 1 + backlog q'); [|lia]. unfold backlog.
  apply (sumZ_upd _ _ (seq 0 4) ac); [apply NoDup_seq|apply elem_of_seq; lia|..].
  - apply (sumZ_upd _ _ (seq 0 32) i); [apply NoDup_seq|apply elem_of_seq; lia|..].
    + by rewrite E1, E2, zlen_cons.
    + intros j N. by rewrite O by auto.
  - intros b N. apply sumZ_ext. intros j _. by rewrite O by auto.
Qed.

Lemma dequeue_all_spec c N n q :
  wmm_para_seq c ≡ₚ seq 0 4 -> ps_ok c N q -> backlog q < Z.of_nat n ->
  let '(outs, q') := dequeue_all c n q in
  rtw_dequeue_xframe c q' = None /\ table_eq (q_stapriv q) (q_stapriv q') /\ flows q q' [] outs /\ (forall i, slp q' i = slp q i) /\ (forall i ac, pend q' i ac = []).
Proof.
  intros Hw. revert q. induction n as [|n IH]; intros q H Hb; [pose proof (backlog_nonneg q); lia|]. cbn [dequeue_all].
  pose proof (po_queues _ _ _ (pk_base _ _ _ H)) as Hq. destruct (rtw_dequeue_xframe c q) as [[f q1]|] eqn:E.
  - destruct (dequeue_step c N q f q1 H E) as (H1 & T1 & F1). destruct (dequeue_xframe_some c q f q1 Hq E) as (i & ac & D).
    specialize (IH q1 H1 ltac:(rewrite (dequeued_backlog _ _ _ _ _ Hq D); lia)). destruct (dequeue_all c n q1) as [outs q2].
    destruct IH as (E2 & T2 & F2 & S2 & P2). split_and!; [done|by etransitivity|by apply (flows_trans q q1 q2 [] [] [f] outs)| |done].
    intros j. by rewrite S2, (dq_slp _ _ _ _ _ D).
  - split_and!; [done|done|by apply flows_none, same_waiting_refl|done|]. unfold rtw_dequeue_xframe in E.
    pose proof (dequeue_acs_spec q (if wifi_spec c then wmm_para_seq c else [0; 1; 2; 3]%nat) Hq) as G. rewrite E in G.
    intros i ac. destruct (decide (ac < 4)%nat) as [L|L].
    + apply G. change [0; 1; 2; 3]%nat with (seq 0 4). assert (ac ∈ seq 0 4) by (apply elem_of_seq; lia). destruct (wifi_spec c); [by rewrite Hw|done].
    + destruct (pend q i ac) eqn:Ep; [done|]. destruct (qo_pend_lt q i ac Hq); [by rewrite Ep|lia].
Qed.

(** C24: When a station wakes, the frames the hardware takes from then on are, in
    each access category, all the packets that waited for the station, in
    order, and after finitely many frames nothing is left. *)
Theorem woken_station_served c N q i :
  ps_ok c N q -> station q i -> sleeping (ent q i) = true -> 2 * N < 4294967296 - 2 -> wmm_para_seq c ≡ₚ seq 0 4 ->
  exists n, let '(outs, q') := dequeue_all c n (process_pwrbit_data c false q i) in
    rtw_dequeue_xframe c q' = None /\ forall ac, carried q i ac outs = waiting q i ac.
Proof.
  intros H Hi Hs HN Hw. destruct (pwrbit_keeps c N false q i H Hi HN) as (H1 & T1 & W1).
  assert (sleeping (ent (process_pwrbit_data c false q i) i) = false) as Ha.
  { unfold process_pwrbit_data. rewrite Hs. by apply (wakeup_keeps_awake c N). }
  set (q1 := process_pwrbit_data c false q i) in *. clearbody q1. exists (Z.to_nat (backlog q1 + 1)).
  pose proof (backlog_nonneg q1). pose proof (dequeue_all_spec c (N + 1) (Z.to_nat (backlog q1 + 1)) q1 Hw H1 ltac:(lia)) as D.
  destruct (dequeue_all c _ q1) as [outs q2]. destruct D as (E3 & T2 & F2 & S2 & P2).
  pose proof (proj2 (station_ext q q1 i T1) Hi) as Hi1.
  split; [done|]. intros ac. destruct (F2 i ac) as [_ F]. specialize (F (proj2 Hi1)). rewrite app_nil_r, (carried_ext q q1) in F by done.
  assert (waiting q2 i ac = []) as E2.
  { unfold waiting. rewrite P2, S2. by rewrite (si_awake _ _ _ (po_sta _ _ _ (pk_base _ _ _ H1) i Hi1) Ha). }
  rewrite E2, app_nil_r in F. rewrite <- F. apply (proj2 (W1 i ac)), Hi.
Qed.

(** ** Service periods *)

(** The frame [deliver] hands to the hardware. *)
Lemma deliver_frame c q i kept f l :
  queues_ok q -> (i < 32)%nat -> slp q i = kept ++ f :: l -> 1 <= sleepq_ac_len (sps (ent q i)) < 4294967296 ->
  let more := 1 <? sleepq_ac_len (sps (ent q i)) in
  exists g, same_frame f g /\ mdata g = more /\ eosp g = negb more /\
    forall ac, pend (deliver c q i f (kept ++ l)) i ac = pend q i ac ++ (if bool_decide (ac = f_ac g) then [g] else []).
Proof.
  intros Hq Hi E Ha more. pose proof (pop_sleep_ok q i kept f l Hq E) as H0. pose proof (pop_sps q i (kept ++ l) i) as Es. unfold deliver.
  set (q0 := pop_sleep q i (kept ++ l)) in *. assert (length (stainfo_buf (q_stapriv q0)) = 32%nat) as L0 by apply H0.
  pose proof (pop_delivery_ac q0 i f ltac:(lia) ltac:(by rewrite Es)) as A. rewrite Es in A.
  pose proof (pop_delivery_step q i kept f l f Hq E ltac:(done)) as D. cbn zeta in D. fold q0 in D.
  assert (mdata (pop_delivery q0 i f).1 = more /\ eosp (pop_delivery q0 i f).1 = negb more) as [Em Ee].
  { unfold pop_delivery in *. cbn [fst snd] in *. rewrite A. unfold more. cbn. split; [|f_equal]; lia. }
  destruct (pop_delivery q0 i f) as [f' q1]. cbn [fst snd] in *. destruct D as (S & H1 & C & Lo & Hp & Hs).
  assert (frame_sta q1 (set_triggered f' true) = Some i) as F.
  { assert (cool q q1) as C1 by (transitivity q0; [apply calm_cool, pop_sleep_calm|done]). rewrite (frame_sta_ext q q1 _ (cl_table _ _ C1)).
    rewrite (frame_sta_same q f) by apply S. apply (qo_slp_sta q Hq). rewrite E. apply elem_of_app. right. left. }
  destruct (hal_enqueue_spec q1 (set_triggered f' true) i H1 F) as (_ & _ & Hp' & _).
  exists (set_triggered f' true). split_and!; [exact S|exact Em|exact Ee|]. intros ac.
  rewrite <- (Hp i ac). set (q2 := rtl8192eu_hal_xmitframe_enqueue q1 _) in *. specialize (Hp' i ac).
  rewrite (bool_decide_ext (i = i /\ ac = f_ac (set_triggered f' true)) (ac = f_ac (set_triggered f' true))) in Hp' by naive_solver.
  destruct (_ && _); [|done]. by rewrite beacon_pend.
Qed.

(** The frames of a service period: the last one alone ends it. *)
Definition one_period (l : list xmit_frame) : Prop :=
  forall k f, l !! k = Some f -> eosp f = (S k =? length l)%nat /\ mdata f = (S k <? length l)%nat.

Lemma delivery_loop_frames c N l q i kept :
  queues_ok q -> maps_ok q -> shown c q -> (i < 32)%nat -> sta_inv N q i -> zlen (slp q i) + N < 4294967296 -> slp q i = kept ++ l ->
  cnt (ent q i) kept = 0 -> sleepq_ac_len (sps (ent q i)) = cnt (ent q i) l ->
  let q' := delivery_loop c q i kept l in
  exists out, map x_pkt out = map x_pkt (filter (triggers (ent q i)) l) /\
    (forall ac, pend q' i ac = pend q i ac ++ filter (fun f => f_ac f = ac) out) /\ one_period out /\ sleepq_ac_len (sps (ent q' i)) = 0.
Proof.
  revert q kept. induction l as [|f l IH]; intros q kept Hq Hm Hsh Hi Hinv HN E Hk Ha; cbn [delivery_loop].
  { exists []. split_and!; [done|intros ac; by rewrite filter_nil, app_nil_r|by intros k f|exact Ha]. }
  rewrite cnt_cons in Ha. pose proof (cnt_le (ent q i) l). destruct (trigger_enabled (ent q i) (f_priority f)) eqn:T.
  - rewrite filter_cons_True by exact T. assert (zlen l <= zlen (slp q i)) by (rewrite E, zlen_app, zlen_cons; pose proof (zlen_nonneg kept); lia).
    assert (0 <= N) by (destruct (si_ac _ _ _ Hinv); lia).
    destruct (deliver_inv c N q i kept f l Hq Hm Hsh Hi Hinv HN E T) as (Sy & I1 & A1).
    destruct (deliver_frame c q i kept f l Hq Hi E ltac:(rewrite E, zlen_app, zlen_cons in HN; pose proof (zlen_nonneg kept); lia)) as (g & Sg & Mg & Eg & Pg).
    pose proof (deliver_spec c q i kept f l Hq E) as R. set (q1 := deliver _ _ _ _ _) in *. clearbody q1.
    pose proof (cl_sps _ _ (rl_cool _ _ _ _ _ R) i) as Hc.
    destruct (IH q1 kept) as (out & O1 & O2 & O3 & O4); try done; try apply Sy; try apply R.
    + rewrite (rl_slp _ _ _ _ _ R), zlen_app. rewrite E, zlen_app, zlen_cons in HN. lia.
    + by rewrite (cnt_ext _ _ _ Hc).
    + rewrite A1, (cnt_ext _ _ _ Hc). lia.
    + assert (length out = length (filter (triggers (ent q i)) l)) as Ln.
      { rewrite <- (length_map x_pkt out), O1, length_map. f_equal. apply list_filter_iff. intros x. by apply triggers_ext. }
      assert (Z.of_nat (length out) = cnt (ent q i) l) as Lc by (rewrite Ln; done).
      exists (g :: out). split_and!; [| | |done].
      * cbn [map]. rewrite O1. destruct Sg as (_ & _ & _ & ->). do 2 f_equal. apply list_filter_iff. intros x. by apply triggers_ext.
      * intros ac. rewrite O2, Pg, <- app_assoc. f_equal. rewrite (filter_cons _ g). destruct (decide (f_ac g = ac)) as [<-|Ng].
        -- by rewrite bool_decide_true.
        -- rewrite bool_decide_false; [done|]. auto.
      * intros [|k] x Hx; cbn in Hx.
        -- injection Hx as <-. rewrite Eg, Mg. cbn [length]. rewrite Ha. destruct (Z.ltb_spec 1 (1 + cnt (ent q i) l)); cbn [negb].
           ++ split; symmetry; [apply Nat.eqb_neq|apply Nat.ltb_lt]; lia.
           ++ split; symmetry; [apply Nat.eqb_eq|apply Nat.ltb_ge]; lia.
        -- destruct (O3 k x Hx) as [-> ->]. done.
  - rewrite filter_cons_False by (unfold triggers; congruence). apply IH; try done.
    + by rewrite <- app_assoc.
    + by rewrite cnt_app, cnt_cons, Hk, T.
Qed.

(** C19: The service period a station triggers: when [sleepq_ac_len] counts the
    buffered frames of trigger-enabled categories, exactly these frames leave,
    in order; the last one ends the service period and has no more data, the
    ones before have more data and do not end it. A PS-Poll can make the
    counter wrong and the period endless, see [pspoll_breaks_service_period]. *)
Theorem service_period_ends_once c N q i :
  ps_ok c N q -> station q i -> 2 * N < 4294967296 - 2 ->
  sleepq_ac_len (sps (ent q i)) = cnt (ent q i) (slp q i) ->
  let q' := xmit_delivery_enabled_frames c q i in
  exists out, map x_pkt out = map x_pkt (filter (triggers (ent q i)) (slp q i)) /\
    (forall ac, pend q' i ac = pend q i ac ++ filter (fun f => f_ac f = ac) out) /\ one_period out /\
    slp q' i = filter (fun f => ~ triggers (ent q i) f) (slp q i) /\ sleepq_ac_len (sps (ent q' i)) = 0.
Proof.
  intros [B _] Hi HN Ha. pose proof (po_queues _ _ _ B) as Hq. pose proof (tot_slp q i). pose proof (po_tot _ _ _ B i).
  destruct (delivery_loop_frames c N (slp q i) q i [] Hq (po_maps _ _ _ B) (po_shown _ _ _ B) (station_lt _ _ _ _ B Hi) (po_sta _ _ _ B i Hi) ltac:(lia)
    eq_refl eq_refl Ha) as (out & O1 & O2 & O3 & O4).
  exists out. split_and!; try done. apply (rl_slp _ _ _ _ _ (delivery_loop_spec c (slp q i) q i [] Hq eq_refl)).
Qed.

(** ** An access point without queued frames *)

(** A table whose associated entries have ids in the maps and are awake. *)
Definition fresh_station (p : sta_priv) (e : sta_info) : bool :=
  (1 <=? aid e) && (aid e <? 256) && (aid e <? 8 * AID_BMP_LEN (max_aid p)) && negb (sleeping e) && (sleepq_ac_len (sps e) =? 0)
  && forallb (fun u => Bool.eqb (bit_test u (BIT 0)) (bit_test u (BIT 1))) [uapsd_bk (sps e); uapsd_be (sps e); uapsd_vi (sps e); uapsd_vo (sps e)].

Definition stations (p : sta_priv) : list nat :=
  filter (fun i => bit_test (sta_state (default _rtw_init_stainfo (stainfo_buf p !! i))) WIFI_ASOC_STATE = true /\ rtw_get_bcmc_stainfo p <> Some i) (seq 0 32).

Definition fresh_ap (c : q_cfg) (a : adapter) : bool :=
  let p := stapriv a in
  counters_zero p && check_fwstate a WIFI_AP_STATE && negb (bool_decide (rtw_get_bcmc_stainfo p = None))
  && bool_decide (sta_dz_bitmap p = replicate (Z.to_nat (AID_BMP_LEN (max_aid p))) 0)
  && bool_decide (tim_bitmap p = replicate (Z.to_nat (AID_BMP_LEN (max_aid p))) 0)
  && (1 <=? AID_BMP_LEN (max_aid p)) && (AID_BMP_LEN (max_aid p) <=? 32)
  && forallb (fun i => fresh_station p (default _rtw_init_stainfo (stainfo_buf p !! i))) (stations p)
  && bool_decide (NoDup (map (fun i => aid (default _rtw_init_stainfo (stainfo_buf p !! i))) (stations p))).

Lemma map_nodup_inj {A B} (h : A -> B) (l : list A) x y : NoDup (map h l) -> x ∈ l -> y ∈ l -> h x = h y -> x = y.
Proof.
  induction l as [|z l IH]; [by intros _ H%elem_of_nil|]. cbn [map]. rewrite NoDup_cons. intros [Hz Hn] Hx Hy E.
  assert (forall v, v ∈ l -> h v ∈ map h l) as M by (intros v Hv; change (map h l) with (h <$> l); by apply list_elem_of_fmap_2).
  apply elem_of_cons in Hx as [->|Hx], Hy as [->|Hy]; auto.
  - destruct Hz. rewrite E. auto.
  - destruct Hz. rewrite <- E. auto.
Qed.

Lemma zeros_clear n len id : rtw_bmp_is_set (replicate n 0) len id = false.
Proof.
  unfold rtw_bmp_is_set. destruct (_ <=? _); [done|]. unfold bit_test, znth. cbn zeta.
  rewrite nth_lookup. destruct (replicate n 0 !! _) eqn:E; [|done]. apply lookup_replicate in E as [-> _]. done.
Qed.

Lemma fresh_ap_ok c s free :
  fresh_ap c (t_adp s) = true -> ps_ok c 0 (no_frames s free (tim_bitmap (stapriv (t_adp s)))).
Proof.
  unfold fresh_ap. rewrite !andb_true_iff, !bool_decide_eq_true, negb_true_iff, bool_decide_eq_false. set (q := no_frames _ _ _).
  intros ((((((((Hc & Hap) & Hb) & Hdz) & Htim) & L1) & L2) & Hs) & Hn).
  pose proof (no_frames_ok s free (tim_bitmap (stapriv (t_adp s))) Hc) as Hq. fold q in Hq.
  assert (forall i, slp q i = []) as Es by (intros i; unfold slp, q; cbn; by rewrite lookup_empty).
  assert (forall i ac, pend q i ac = []) as Ep by (intros i ac; unfold pend, q; cbn; by rewrite lookup_empty).
  assert (forall id, dz_is_set q id = false) as Zd by (intros id; unfold dz_is_set, rtw_tim_map_is_set; change (q_stapriv q) with (stapriv (t_adp s)); rewrite Hdz; apply zeros_clear).
  assert (forall i, station q i -> i ∈ stations (q_stapriv q)) as Hin.
  { intros i [Ha Hg]. apply list_elem_of_filter. split; [split; [exact Ha|]|].
    - unfold group_sta in Hg. by apply bool_decide_eq_false in Hg.
    - apply elem_of_seq. destruct (decide (i < 32)%nat); [lia|]. exfalso. unfold ent in Ha. rewrite (proj2 (lookup_ge_None _ _)) in Ha by (rewrite (qo_len q Hq); lia). by vm_compute in Ha. }
  rewrite forallb_forall in Hs.
  assert (map_ok (replicate (Z.to_nat (AID_BMP_LEN (max_aid (q_stapriv q)))) 0) (map_len q)) as Mz.
  { split; [unfold zlen; rewrite length_replicate; unfold map_len; change (q_stapriv q) with (stapriv (t_adp s)); lia|].
    apply Forall_forall. intros x Hx%elem_of_replicate. destruct Hx as [-> _]. unfold is_byte. lia. }
  split; [|intros H; by rewrite Zd in H]. split; try done.
  - split; [change (tim_bitmap (q_stapriv q)) with (tim_bitmap (stapriv (t_adp s))); rewrite Htim; exact Mz
    |change (sta_dz_bitmap (q_stapriv q)) with (sta_dz_bitmap (stapriv (t_adp s))); rewrite Hdz; exact Mz
    |unfold map_len; change (q_stapriv q) with (stapriv (t_adp s)); lia].
  - intros i Hi. specialize (Hin i Hi). apply list_elem_of_In, Hs in Hin. change (fresh_station (q_stapriv q) (ent q i) = true) in Hin.
    unfold fresh_station in Hin. rewrite !andb_true_iff, negb_true_iff in Hin. destruct Hin as (((((A1 & A2) & A3) & A4) & A5) & A6).
    split; rewrite ?Es, ?Zd, ?A4; try done.
    + unfold id_ok, map_len. lia.
    + intros f Hf. by apply elem_of_nil in Hf.
    + change (cnt _ []) with 0. lia.
    + intros p. rewrite forallb_forall in A6. unfold delivery_enabled, trigger_enabled, uapsd_of.
      repeat case_match; apply Bool.eqb_prop, A6; cbn; tauto.
  - intros i j Hi Hj E. apply (map_nodup_inj (fun i => aid (ent q i)) (stations (q_stapriv q))); [exact Hn|auto..|exact E].
  - intros id _ H. by rewrite Zd in H.
  - change (q_stapriv q) with (stapriv (t_adp s)). destruct (rtw_get_bcmc_stainfo (stapriv (t_adp s))) as [b|]; [by exists b|done].
Qed.

(** ** Example: two stations, the first with voice in U-APSD *)

Definition ps_a : bytes := [0; 2; 4; 6; 8; 10].
Definition ps_b : bytes := [0; 2; 4; 6; 8; 12].

Definition ps_sta (id : Z) (u : sta_ps) (e : sta_info) : sta_info :=
  mk_sta (mac_addr e) 1 id (sta_flags e) 0 0 (dot11tkiprxmickey e) (dot118021x_UncstKey e) 0 0 0
    (recvpriv e) (recvreorder_ctrl e) (stx e) u.

Definition ps_stations : sta_priv :=
  foldl (fun p x => upd_sta p (fst x) (snd x))
    (foldl (sta_step true) (_rtw_init_sta_priv 32 [0; 0; 0; 0]) [OpAlloc bc_addr; OpAlloc ps_a; OpAlloc ps_b])
    [(0%nat, ps_sta 0 sps_zero); (1%nat, ps_sta 1 (mk_sps 0 0 1 0 0 0 0 3 1)); (2%nat, ps_sta 2 (mk_sps 0 0 0 0 0 0 0 0 1))].

Definition ps_adapter : adapter :=
  mk_adapter ps_stations (mk_rxsec (mk_sec 0 [] [] 0 [] false) 0 0 0 [] false false false (replicate 4 (replicate 8 0)))
    WIFI_AP_STATE ex_ap ex_ap 0 false 0 0 0.
Definition ps_txs : txs := mk_txs ps_adapter (replicate 32 xa_info) (mk_txcfg false [] 0 false false 0 false) [].
Definition ps_cfg : q_cfg := mk_qcfg false 0 true [0; 1; 2; 3]%nat 30.
Definition ps_start : tx_queues := no_frames ps_txs 256 (tim_bitmap ps_stations).

Lemma ps_start_ok : ps_ok ps_cfg 0 ps_start.
Proof. apply (fresh_ap_ok ps_cfg ps_txs 256). vm_compute. reflexivity. Qed.

Lemma ps_start_empty i ac : waiting ps_start i ac = [].
Proof. unfold waiting, pend, slp. cbn. by rewrite !lookup_empty. Qed.

(** Packets to a station or to everybody, with the addresses resolved; best
    effort and voice. *)
Definition ps_attr (dst : bytes) : xattrib := set_eth xattrib_0 (mk_eth 0 dst ex_ap ex_ap dst 0 false false false).
Definition ps_pkt (dst : bytes) (tos n : Z) : bytes :=
  dst ++ ex_ap ++ [8; 0; 0x45; tos; 0; 20; 0; 0; 0; 0; 64; 6; 0; 0] ++ [10; 0; 0; 1; 10; 0; 0; 2] ++ [n].

Definition ps_xmit (q : tx_queues) (dst : bytes) (tos n : Z) : res (Z * option xmit_frame * tx_queues) :=
  rtw_xmit_posthandle no_stack (mk_env false false true) ps_cfg q (ps_attr dst) (ps_pkt dst tos n).
Definition ps_send (q : tx_queues) (dst : bytes) (tos n : Z) : tx_queues :=
  match ps_xmit q dst tos n with Ret (_, _, q) => q | _ => q end.

(** The first packet goes straight to the endpoint; then the station sleeps,
    three packets for it and one for everybody are buffered. *)
Definition ps_1 : tx_queues := ps_send ps_start ps_a 0 1.
Definition ps_2 : tx_queues := process_pwrbit_data ps_cfg true ps_1 1.
Definition ps_3 : tx_queues := ps_send (ps_send (ps_send (ps_send ps_2 ps_a 0 2) ps_a 0xc0 3) ps_a 0xc0 4) bc_addr 0 5.

Example ps_example :
  (map (fun f => (f_ac f, last (x_pkt f))) (slp ps_3 1), map (fun f => (f_ac f, last (x_pkt f))) (slp ps_3 0),
   take 3 (bcn_tim ps_3), sleepq_ac_len (sps (ent ps_3 1)), sleepq_len (stx (ent ps_3 1)))
  = ([(2%nat, Some 2); (0%nat, Some 3); (0%nat, Some 4)], [(2%nat, Some 5)], [3; 0; 0], 2, 3).
Proof. vm_compute. reflexivity. Qed.

(** The run that leads to [ps_3]. *)
Lemma ps_send_run n q ins outs q1 dst tos k ret direct q2 :
  ps_run ps_cfg n q ins outs q1 -> ps_xmit q1 dst tos k = Ret (ret, direct, q2) ->
  ps_run ps_cfg (S n) q (ins ++ accepted no_stack q1 (ps_attr dst) (ps_pkt dst tos k)) (outs ++ opt_list direct) (ps_send q1 dst tos k).
Proof. intros R E. unfold ps_send. rewrite E. eapply run_step; [exact R|]. by eapply ev_packet. Qed.

Lemma station_of q i : bit_test (sta_state (ent q i)) WIFI_ASOC_STATE && negb (group_sta q i) = true -> station q i.
Proof. by intros [? ?%negb_true_iff]%andb_true_iff. Qed.

Lemma ps_sends q dst tos n : (match ps_xmit q dst tos n with Ret _ => true | _ => false end) = true ->
  exists ret direct q', ps_xmit q dst tos n = Ret (ret, direct, q').
Proof. destruct (ps_xmit q dst tos n) as [[[r d] q']| |]; [|done..]. intros _. by exists r, d, q'. Qed.

Lemma ps_3_run : exists ins outs, ps_run ps_cfg 6 ps_start ins outs ps_3.
Proof.
  destruct (ps_sends ps_start ps_a 0 1) as (? & ? & ? & E1); [vm_compute; reflexivity|].
  pose proof (ps_send_run _ _ _ _ _ _ _ _ _ _ _ (run_nil ps_cfg ps_start) E1) as R1. fold ps_1 in R1.
  pose proof (run_step _ _ _ _ _ _ _ _ _ R1 (ev_pwrbit ps_cfg ps_1 true 1%nat (station_of ps_1 1 ltac:(vm_compute; reflexivity)))) as R2. fold ps_2 in R2.
  destruct (ps_sends ps_2 ps_a 0 2) as (? & ? & ? & E2); [vm_compute; reflexivity|].
  pose proof (ps_send_run _ _ _ _ _ _ _ _ _ _ _ R2 E2) as R3. set (q3 := ps_send ps_2 ps_a 0 2) in *.
  destruct (ps_sends q3 ps_a 0xc0 3) as (? & ? & ? & E3); [vm_compute; reflexivity|].
  pose proof (ps_send_run _ _ _ _ _ _ _ _ _ _ _ R3 E3) as R4. set (q4 := ps_send q3 ps_a 0xc0 3) in *.
  destruct (ps_sends q4 ps_a 0xc0 4) as (? & ? & ? & E4); [vm_compute; reflexivity|].
  pose proof (ps_send_run _ _ _ _ _ _ _ _ _ _ _ R4 E4) as R5. set (q5 := ps_send q4 ps_a 0xc0 4) in *.
  destruct (ps_sends q5 bc_addr 0 5) as (? & ? & ? & E5); [vm_compute; reflexivity|].
  pose proof (ps_send_run _ _ _ _ _ _ _ _ _ _ _ R5 E5) as R6. eauto.
Qed.

Lemma ps_3_ok : ps_ok ps_cfg 6 ps_3.
Proof. destruct ps_3_run as (ins & outs & R). apply (run_advanced ps_cfg 6 ps_start ins outs ps_3 0 R ps_start_ok); lia. Qed.

Lemma ps_3_station : station ps_3 1.
Proof. apply station_of. vm_compute. reflexivity. Qed.

Lemma packets_once_in_order_witness :
  exists ins outs, ps_run ps_cfg 6 ps_start ins outs ps_3 /\
    forall i ac, carried ps_start i ac ins ≡ₚ carried ps_start i ac outs ++ waiting ps_3 i ac /\
      (group_sta ps_start i = false -> carried ps_start i ac ins = carried ps_start i ac outs ++ waiting ps_3 i ac).
Proof.
  destruct ps_3_run as (ins & outs & R). exists ins, outs. split; [exact R|].
  apply (packets_once_in_order ps_cfg 6 ps_start ins outs ps_3 0 R ps_start_ok); [lia|lia|apply ps_start_empty].
Defined.

Lemma sleeping_station_is_told_witness :
  exists body w', rtw_set_tim_ie 0 1 (bcn_tim ps_3) (zlen (bcn_tim ps_3)) ([] ++ replicate 40 0) (zlen (@nil Z))
      = Ret ([] ++ enc1 (WLAN_EID_TIM, body) ++ w', zlen (enc1 (WLAN_EID_TIM, body))) /\
    (forall i f, station ps_3 i -> f ∈ slp ps_3 i -> indicated (ent ps_3 i) f = true -> tim_traffic body (aid (ent ps_3 i)) = true) /\
    (forall b, group_sta ps_3 b = true -> slp ps_3 b <> [] -> tim_group body = true).
Proof.
  destruct ps_3_run as (ins & outs & R).
  apply (sleeping_station_is_told ps_cfg 6 ps_start ins outs ps_3 0 [] (replicate 40 0) R ps_start_ok); [lia|lia|reflexivity|vm_compute; discriminate].
Defined.

Lemma buffered_only_for_sleepers_witness :
  slp ps_3 1 <> [] /\ (forall i, station ps_3 i -> sleeping (ent ps_3 i) = false -> slp ps_3 i = []) /\
  (forall b, group_sta ps_3 b = true -> slp ps_3 b <> [] -> exists i, station ps_3 i /\ sleeping (ent ps_3 i) = true).
Proof.
  destruct ps_3_run as (ins & outs & R). split; [vm_compute; discriminate|].
  apply (buffered_only_for_sleepers ps_cfg 6 ps_start ins outs ps_3 0 R ps_start_ok); lia.
Defined.

Lemma queues_stay_well_formed_witness :
  queues_ok ps_3 /\ maps_ok ps_3 /\
  (forall i, station ps_3 i -> dz_is_set ps_3 (aid (ent ps_3 i)) = sleeping (ent ps_3 i) /\ cnt (ent ps_3 i) (slp ps_3 i) <= sleepq_ac_len (sps (ent ps_3 i))) /\
  (forall id, 1 <= id < 256 -> dz_is_set ps_3 id = true -> exists i, station ps_3 i /\ aid (ent ps_3 i) = id).
Proof.
  destruct ps_3_run as (ins & outs & R). apply (queues_stay_well_formed ps_cfg 6 ps_start ins outs ps_3 0 R ps_start_ok); lia.
Defined.

Lemma woken_station_served_witness :
  exists n, let '(outs, q') := dequeue_all ps_cfg n (process_pwrbit_data ps_cfg false ps_3 1) in
    rtw_dequeue_xframe ps_cfg q' = None /\ forall ac, carried ps_3 1 ac outs = waiting ps_3 1 ac.
Proof. apply (woken_station_served ps_cfg 6); [apply ps_3_ok|apply ps_3_station|vm_compute; reflexivity|lia|reflexivity]. Defined.

Lemma service_period_ends_once_witness :
  exists out, map x_pkt out = map x_pkt (filter (triggers (ent ps_3 1)) (slp ps_3 1)) /\ one_period out /\ map x_pkt out = [ps_pkt ps_a 0xc0 3; ps_pkt ps_a 0xc0 4].
Proof.
  destruct (service_period_ends_once ps_cfg 6 ps_3 1 ps_3_ok ps_3_station) as (out & O1 & _ & O3 & _); [lia|vm_compute; reflexivity|].
  exists out. split; [exact O1|]. split; [exact O3|]. rewrite O1. vm_compute. reflexivity.
Defined.

(** The woken station's frames: voice before best effort. *)
Definition ps_woken : tx_queues := process_pwrbit_data ps_cfg false ps_3 1.

Lemma ps_woken_ok : queues_ok ps_woken.
Proof. apply (pwrbit_keeps ps_cfg 6 false ps_3 1 ps_3_ok ps_3_station). lia. Qed.

Lemma dequeue_serves_first_witness :
  exists f q' before ac after i, rtw_dequeue_xframe ps_cfg ps_woken = Some (f, q') /\ seq 0 4 = before ++ ac :: after /\
    dequeued ps_woken i ac f q' /\ last (x_pkt f) = Some 3.
Proof.
  pose proof (dequeue_serves_first ps_cfg ps_woken ps_woken_ok ltac:(reflexivity)) as D. cbn zeta in D.
  destruct (rtw_dequeue_xframe ps_cfg ps_woken) as [[f q']|] eqn:E; [|vm_compute in E; discriminate].
  destruct D as (before & ac & after & i & Eb & Dq & _). exists f, q', before, ac, after, i. split; [reflexivity|]. split; [exact Eb|]. split; [exact Dq|].
  destruct Dq as [_ _ (l & Ep & _) _ _ _]. assert (option_map (fun x => last (x_pkt (fst x))) (rtw_dequeue_xframe ps_cfg ps_woken) = Some (Some 3)) as H by (vm_compute; reflexivity).
  rewrite E in H. cbn in H. by injection H.
Defined.

(** ** A PS-Poll among triggers *)

(** A PS-Poll takes the head of the queue whatever its category and leaves
    [sleepq_ac_len] alone: when it takes a delivery-enabled frame, the count
    stays too high, the service period of the next trigger never ends, and the
    trigger after that is answered with nothing at all. *)
Definition pp_0 : tx_queues := ps_send (ps_send (ps_send ps_2 ps_a 0xc0 3) ps_a 0 2) ps_a 0xc0 4.
Definition pp_1 : tx_queues := recv_pspoll ps_cfg 1 0 pp_0 1.
Definition pp_2 : tx_queues := process_wmmps_data ps_cfg 6 pp_1 1.
Definition pp_3 : tx_queues := process_wmmps_data ps_cfg 6 pp_2 1.

Theorem pspoll_breaks_service_period :
  map (fun f => (last (x_pkt f), eosp f, mdata f)) (pend pp_2 1 0) = [(Some 3, false, true); (Some 4, false, true)] /\
  map (fun f => last (x_pkt f)) (slp pp_2 1) = [Some 2] /\
  pend pp_3 1 0 = pend pp_2 1 0 /\ slp pp_3 1 = slp pp_2 1 /\ q_calls pp_3 = q_calls pp_2.
Proof. vm_compute. split_and!; reflexivity. Qed.

(** ** Group frames released to the hardware and taken back *)

(** Group frames that were released after a beacon but not yet taken by the
    hardware go back behind younger ones when another station falls asleep. *)
Definition gr_1 : tx_queues := chk_bmc_sleepq_hdl ps_cfg (ps_send ps_2 bc_addr 0 5).
Definition gr_2 : tx_queues := process_pwrbit_data ps_cfg true (ps_send gr_1 bc_addr 0 6) 2.

Theorem group_frames_overtake :
  map (fun f => last (x_pkt f)) (pend gr_1 0 2) = [Some 5] /\ map (fun f => last (x_pkt f)) (slp gr_2 0) = [Some 6; Some 5].
Proof. vm_compute. split; reflexivity. Qed.
