(* ===== verification/ApState.v ===== *)
(** * The state of an access point (include/sta_info.h, include/rtw_mlme.h)

    What core/rtw_mlme_ext.c and core/rtw_ap.c keep while stations
    authenticate, associate and leave: the station table of StaMgt.v, the
    further fields of [struct sta_info] by the offset of the entry, the two
    station lists of [struct sta_priv] (the list of authenticating stations is
    in the table), the counters of [struct mlme_priv] on the abilities of the
    stations, and the elements of the beacon.  Frames sent and calls into other
    components are recorded in order. *)

From S2P Require Import Prelude RxFrame Reorder SwCrypt StaMgt Acl.

(** ** Stations *)

(** The seven abilities a station may lack, each with a flag in
    [struct sta_info] and a counter in [struct mlme_priv]. *)
Inductive legacy :=
| no_short_preamble | nonerp | no_short_slot_time | no_ht_gf | no_ht | ht_20mhz | ht_40mhz_intolerant.

#[export] Instance legacy_eq_dec : EqDecision legacy.
Proof. solve_decision. Defined.

(** What the security element of the last association request asked for. *)
Record sta_sec := mk_ssec {
  dot8021xalg : Z;
  wpa_psk : Z;
  wpa_group_cipher : Z;
  wpa2_group_cipher : Z;
  wpa_pairwise_cipher : Z;
  wpa2_pairwise_cipher : Z;
  akm_suite_type : Z;
  sta_wpa_ie : bytes
}.

(** The fields of [struct sta_info] besides those of StaMgt.v. *)
Record ap_info := mk_apinfo {
  auth_seq : Z;
  authalg : Z;
  chg_txt : bytes;
  bpairwise_key_installed : bool;
  capability : Z;
  bssrateset : bytes;
  sec : sta_sec;
  qos_option : bool;
  ht_cap : bytes;
  ht_op : option bytes;
  legacy_set : legacy -> bool;
  passoc_req : option bytes
}.

Definition sec_zero : sta_sec := mk_ssec 0 0 0 0 0 0 0 (replicate 32 0).

(** As [_rtw_init_stainfo] leaves them. *)
Definition ap_info_zero : ap_info :=
  mk_apinfo 0 0 (replicate 128 0) false 0 [] sec_zero false (replicate 26 0) None (fun _ => false) None.

(** ** The BSS *)

Record bss_cap := mk_bss {
  num_sta : legacy -> Z;
  olbc : bool;
  olbc_ht : bool;
  ht_20mhz_width_req : bool;
  ht_intolerant_ch_reported : bool;
  ht_op_mode : Z;
  sw_to_20mhz : bool;
  bss_ies : bytes;
  IELength : Z
}.

(** Frames sent and calls into other components. *)
Inductive ap_call :=
| tx_auth (addr : bytes) (alg seq status : Z) (challenge : option bytes)
| tx_asocrsp (addr : bytes) (reassoc : bool) (status aid : Z)
| tx_deauth (addr : bytes) (reason : Z)
| issue_action_SA_Query (addr : bytes)
| send_delba (initiator : Z) (addr : bytes)
| set_tx_beacon_cmd
| ERP_IE_handler (elen : Z) (data : Z)
| associated_clients_update
| report_add_sta_event (addr : bytes)
| rtw_cfg80211_indicate_sta_disassoc (addr : bytes) (reason : Z)
| rtw_clearstakey_cmd (addr : bytes)
| rtw_cfg80211_rx_mframe (addr : bytes).

(** [events] are the [EVT_DEL_STA] events that wait in the command queue,
    [ptime] is the static variable of [rtw_defs_attack_chk]. *)
Record ap_st := mk_ap {
  tab : sta_priv;
  more : list ap_info;
  asoc_list : list nat;
  asoc_list_cnt : Z;
  bss : bss_cap;
  ptime : Z;
  events : list bytes;
  ap_out : list ap_call
}.

(** ** Settings *)

Record bss_cfg := mk_bcfg {
  bstart_bss : bool;
  ERP_enable : bool;
  HT_info_enable : bool;
  ap_ht_option : bool;            (* mlmepriv.htpriv.ht_option *)
  ht_on : bool;                   (* ht_enable && is_supported_ht(wireless_mode) *)
  cur_wireless_mode : Z;
  cur_channel : Z;
  cur_bwmode : Z;
  cur_ch_offset : Z;
  ap_ht_cap_info : Z;
  bcn_malloc : bool
}.

Record ap_sec := mk_apsec {
  ap_keys : security_priv;
  ap_AuthAlgrthm : Z;
  ap_PrivacyAlgrthm : Z;
  ap_wpa_psk : Z;
  ap_wpa_group : Z;
  ap_wpa2_group : Z;
  ap_wpa_pairwise : Z;
  ap_wpa2_pairwise : Z;
  akmp : Z;
  mfp_opt : Z;
  dot11wCipher : Z;
  auth_type_sae : bool;
  PMKIDList : list (bool * bytes);
  amsdu_mode : Z
}.

Record ap_cfg := mk_apcfg {
  c_bss : bss_cfg;
  c_sec : ap_sec;
  hw_state : Z;                   (* mlmeextpriv.mlmext_info.state *)
  ap_fw_state : Z;                (* mlmepriv.fw_state *)
  ap_bssid : bytes;
  ap_ssid : bytes;
  acl_list : list wlan_acl_pool;
  auth_to : Z;
  assoc_to : Z;
  ap_expire_to : Z;
  defs_lmt_time : Z;
  defs_lmt_sta : Z;
  force_auth_fail : Z;
  force_asoc_fail : Z;
  report_auth : bool;             (* GET_CFG80211_REPORT_MGMT of authentication frames *)
  ap_qos_option : bool;
  wps_beacon_ie : option bytes;
  ap_malloc : bool                (* whether rtw_zmalloc succeeds *)
}.

(** ** Field updates *)

Definition set_tab (p : sta_priv) (s : ap_st) : ap_st :=
  mk_ap p (more s) (asoc_list s) (asoc_list_cnt s) (bss s) (ptime s) (events s) (ap_out s).
Definition set_more (m : list ap_info) (s : ap_st) : ap_st :=
  mk_ap (tab s) m (asoc_list s) (asoc_list_cnt s) (bss s) (ptime s) (events s) (ap_out s).
Definition set_asoc (l : list nat) (n : Z) (s : ap_st) : ap_st :=
  mk_ap (tab s) (more s) l n (bss s) (ptime s) (events s) (ap_out s).
Definition set_bss (b : bss_cap) (s : ap_st) : ap_st :=
  mk_ap (tab s) (more s) (asoc_list s) (asoc_list_cnt s) b (ptime s) (events s) (ap_out s).
Definition set_ptime (t : Z) (s : ap_st) : ap_st :=
  mk_ap (tab s) (more s) (asoc_list s) (asoc_list_cnt s) (bss s) t (events s) (ap_out s).
Definition set_events (l : list bytes) (s : ap_st) : ap_st :=
  mk_ap (tab s) (more s) (asoc_list s) (asoc_list_cnt s) (bss s) (ptime s) l (ap_out s).
Definition call (o : ap_call) (s : ap_st) : ap_st :=
  mk_ap (tab s) (more s) (asoc_list s) (asoc_list_cnt s) (bss s) (ptime s) (events s) (ap_out s ++ [o]).

Definition upd_entry (i : nat) (f : sta_info -> sta_info) (s : ap_st) : ap_st := set_tab (upd_sta (tab s) i f) s.
Definition upd_info (i : nat) (f : ap_info -> ap_info) (s : ap_st) : ap_st := set_more (alter f i (more s)) s.

Definition set_state (v : Z) (e : sta_info) : sta_info :=
  mk_sta (mac_addr e) v (aid e) (sta_flags e) (ieee8021x_blocked e) (dot118021XPrivacy e) (dot11tkiprxmickey e)
    (dot118021x_UncstKey e) (sta_keytrack e) (duplicate_cnt e) (RxMgmtFrameSeqNum e) (recvpriv e) (recvreorder_ctrl e) (stx e) (sps e).
Definition set_flags (v : Z) (e : sta_info) : sta_info :=
  mk_sta (mac_addr e) (sta_state e) (aid e) v (ieee8021x_blocked e) (dot118021XPrivacy e) (dot11tkiprxmickey e)
    (dot118021x_UncstKey e) (sta_keytrack e) (duplicate_cnt e) (RxMgmtFrameSeqNum e) (recvpriv e) (recvreorder_ctrl e) (stx e) (sps e).
Definition set_blocked (v : Z) (e : sta_info) : sta_info :=
  mk_sta (mac_addr e) (sta_state e) (aid e) (sta_flags e) v (dot118021XPrivacy e) (dot11tkiprxmickey e)
    (dot118021x_UncstKey e) (sta_keytrack e) (duplicate_cnt e) (RxMgmtFrameSeqNum e) (recvpriv e) (recvreorder_ctrl e) (stx e) (sps e).
Definition set_sps (v : sta_ps) (e : sta_info) : sta_info :=
  mk_sta (mac_addr e) (sta_state e) (aid e) (sta_flags e) (ieee8021x_blocked e) (dot118021XPrivacy e) (dot11tkiprxmickey e)
    (dot118021x_UncstKey e) (sta_keytrack e) (duplicate_cnt e) (RxMgmtFrameSeqNum e) (recvpriv e) (recvreorder_ctrl e) (stx e) v.
Definition set_mgmt_seq (v : Z) (e : sta_info) : sta_info :=
  mk_sta (mac_addr e) (sta_state e) (aid e) (sta_flags e) (ieee8021x_blocked e) (dot118021XPrivacy e) (dot11tkiprxmickey e)
    (dot118021x_UncstKey e) (sta_keytrack e) (duplicate_cnt e) v (recvpriv e) (recvreorder_ctrl e) (stx e) (sps e).
Definition set_expire_to (v : Z) (e : sta_info) : sta_info :=
  let p := sps e in
  set_sps (mk_sps v (sleepq_ac_len p) (qos_info p) (max_sp_len p) (uapsd_bk p) (uapsd_be p) (uapsd_vi p) (uapsd_vo p) (has_legacy_ac p)) e.

(** [psta->state &= ~clear; psta->state |= set;] *)
Definition change_state (clear set : Z) (e : sta_info) : sta_info := set_state (Z.lor (Z.ldiff (sta_state e) clear) set) e.
Definition change_flags (clear set : Z) (e : sta_info) : sta_info := set_flags (Z.lor (Z.ldiff (sta_flags e) clear) set) e.

Definition set_auth (seq alg : Z) (e : ap_info) : ap_info :=
  mk_apinfo seq alg (chg_txt e) (bpairwise_key_installed e) (capability e) (bssrateset e) (sec e) (qos_option e) (ht_cap e) (ht_op e) (legacy_set e) (passoc_req e).
Definition set_chg_txt (v : bytes) (e : ap_info) : ap_info :=
  mk_apinfo (auth_seq e) (authalg e) v (bpairwise_key_installed e) (capability e) (bssrateset e) (sec e) (qos_option e) (ht_cap e) (ht_op e) (legacy_set e) (passoc_req e).
Definition set_key_installed (v : bool) (e : ap_info) : ap_info :=
  mk_apinfo (auth_seq e) (authalg e) (chg_txt e) v (capability e) (bssrateset e) (sec e) (qos_option e) (ht_cap e) (ht_op e) (legacy_set e) (passoc_req e).
Definition set_capability (v : Z) (e : ap_info) : ap_info :=
  mk_apinfo (auth_seq e) (authalg e) (chg_txt e) (bpairwise_key_installed e) v (bssrateset e) (sec e) (qos_option e) (ht_cap e) (ht_op e) (legacy_set e) (passoc_req e).
Definition set_rates (v : bytes) (e : ap_info) : ap_info :=
  mk_apinfo (auth_seq e) (authalg e) (chg_txt e) (bpairwise_key_installed e) (capability e) v (sec e) (qos_option e) (ht_cap e) (ht_op e) (legacy_set e) (passoc_req e).
Definition set_sec (v : sta_sec) (e : ap_info) : ap_info :=
  mk_apinfo (auth_seq e) (authalg e) (chg_txt e) (bpairwise_key_installed e) (capability e) (bssrateset e) v (qos_option e) (ht_cap e) (ht_op e) (legacy_set e) (passoc_req e).
Definition set_qos_option (v : bool) (e : ap_info) : ap_info :=
  mk_apinfo (auth_seq e) (authalg e) (chg_txt e) (bpairwise_key_installed e) (capability e) (bssrateset e) (sec e) v (ht_cap e) (ht_op e) (legacy_set e) (passoc_req e).
Definition set_ht (cap : bytes) (op : option bytes) (e : ap_info) : ap_info :=
  mk_apinfo (auth_seq e) (authalg e) (chg_txt e) (bpairwise_key_installed e) (capability e) (bssrateset e) (sec e) (qos_option e) cap op (legacy_set e) (passoc_req e).
Definition set_legacy (k : legacy) (v : bool) (e : ap_info) : ap_info :=
  mk_apinfo (auth_seq e) (authalg e) (chg_txt e) (bpairwise_key_installed e) (capability e) (bssrateset e) (sec e) (qos_option e) (ht_cap e) (ht_op e)
    (fun l => if decide (l = k) then v else legacy_set e l) (passoc_req e).
Definition set_assoc_req (v : option bytes) (e : ap_info) : ap_info :=
  mk_apinfo (auth_seq e) (authalg e) (chg_txt e) (bpairwise_key_installed e) (capability e) (bssrateset e) (sec e) (qos_option e) (ht_cap e) (ht_op e) (legacy_set e) v.

Definition add_num (k : legacy) (d : Z) (b : bss_cap) : bss_cap :=
  mk_bss (fun l => if decide (l = k) then num_sta b l + d else num_sta b l) (olbc b) (olbc_ht b) (ht_20mhz_width_req b) (ht_intolerant_ch_reported b)
    (ht_op_mode b) (sw_to_20mhz b) (bss_ies b) (IELength b).
Definition set_op_mode (v : Z) (b : bss_cap) : bss_cap :=
  mk_bss (num_sta b) (olbc b) (olbc_ht b) (ht_20mhz_width_req b) (ht_intolerant_ch_reported b) v (sw_to_20mhz b) (bss_ies b) (IELength b).
Definition set_20mhz (v : bool) (b : bss_cap) : bss_cap :=
  mk_bss (num_sta b) (olbc b) (olbc_ht b) (ht_20mhz_width_req b) (ht_intolerant_ch_reported b) (ht_op_mode b) v (bss_ies b) (IELength b).
Definition set_bss_ies (ies : bytes) (l : Z) (b : bss_cap) : bss_cap :=
  mk_bss (num_sta b) (olbc b) (olbc_ht b) (ht_20mhz_width_req b) (ht_intolerant_ch_reported b) (ht_op_mode b) (sw_to_20mhz b) ies l.

(** ** Reading *)

Definition entry (s : ap_st) (i : nat) : sta_info := default _rtw_init_stainfo (stainfo_buf (tab s) !! i).
Definition info (s : ap_st) (i : nat) : ap_info := default ap_info_zero (more s !! i).
