(* ===== verification/ApBss.v ===== *)
(** * Protection of the BSS (core/rtw_ap.c)

    An access point counts the stations that lack an ability (short preamble,
    ERP, short slots, greenfield, HT, 40 MHz) and announces the protection
    they need in its beacon.  [bss_cap_update_on_sta_join] and
    [bss_cap_update_on_sta_leave] keep the flags of the station and the
    counters, [rtw_ht_operation_update] derives the HT operation mode,
    [update_beacon] writes the ERP and HT operation elements. *)

From S2P Require Import Prelude RxFrame Reorder StaMgt Bitmap RxCheck MgmtProtect Ie Beacon ApState.

Definition _ERPINFO_IE_ : Z := 42.
Definition _HT_CAPABILITY_IE_ : Z := 45.
Definition _HT_ADD_INFO_IE_ : Z := 61.

Definition RTW_ERP_INFO_NON_ERP_PRESENT : Z := BIT 0.
Definition RTW_ERP_INFO_USE_PROTECTION : Z := BIT 1.
Definition RTW_ERP_INFO_BARKER_PREAMBLE_MODE : Z := BIT 2.

Definition HT_INFO_OPERATION_MODE_OP_MODE_MASK : Z := 3.
Definition HT_INFO_OPERATION_MODE_NON_GF_DEVS_PRESENT : Z := BIT 2.
Definition HT_INFO_OPERATION_MODE_NON_HT_STA_PRESENT : Z := BIT 4.

Definition OP_MODE_PURE : Z := 0.
Definition OP_MODE_MAY_BE_LEGACY_STAS : Z := 1.
Definition OP_MODE_20MHZ_HT_STA_ASSOCED : Z := 2.
Definition OP_MODE_MIXED : Z := 3.

Definition IEEE80211_HT_CAP_SUP_WIDTH : Z := 0x0002.
Definition IEEE80211_HT_CAP_GRN_FLD : Z := 0x0010.
Definition RTW_IEEE80211_HT_CAP_40MHZ_INTOLERANT : Z := BIT 14.

Definition WLAN_STA_SHORT_PREAMBLE : Z := BIT 7.
Definition WLAN_STA_HT : Z := BIT 11.
Definition WLAN_STA_NONERP : Z := BIT 31.
Definition WLAN_CAPABILITY_SHORT_SLOT : Z := BIT 10.
Definition WIRELESS_11B : Z := BIT 0.
Definition CHANNEL_WIDTH_40 : Z := 1.
Definition HAL_PRIME_CHNL_OFFSET_LOWER : Z := 1.
Definition HT_INFO_HT_PARAM_SECONDARY_CHNL_ABOVE : Z := BIT 0.
Definition HT_INFO_HT_PARAM_SECONDARY_CHNL_BELOW : Z := Z.lor (BIT 0) (BIT 1).

(** ** The HT operation mode *)

(** [num_sta] is not zero. *)
Definition some_sta (b : bss_cap) (k : legacy) : bool := negb (num_sta b k =? 0).

(** One of the two [if ... else if] blocks that follow a condition with a bit:
    the changes counted and the new mode. *)
Definition track_bit (on : bool) (bit mode : Z) : Z * Z :=
  if negb (bit_test mode bit) && on then (1, Z.lor mode bit)
  else if bit_test mode bit && negb on then (1, Z.ldiff mode bit)
  else (0, mode).

Definition wanted_op_mode (c : bss_cfg) (b : bss_cap) : Z :=
  if some_sta b no_ht then OP_MODE_MIXED
  else if bit_test (ap_ht_cap_info c) IEEE80211_HT_CAP_SUP_WIDTH && some_sta b ht_20mhz then OP_MODE_20MHZ_HT_STA_ASSOCED
  else if olbc_ht b then OP_MODE_MAY_BE_LEGACY_STAS
  else OP_MODE_PURE.

(** The number of changes. *)
Definition rtw_ht_operation_update (c : bss_cfg) (b : bss_cap) : Z * bss_cap :=
  if negb (ap_ht_option c) then (0, b)
  else
    let '(n1, mode) := track_bit (some_sta b no_ht_gf) HT_INFO_OPERATION_MODE_NON_GF_DEVS_PRESENT (ht_op_mode b) in
    let '(n2, mode) := track_bit (some_sta b no_ht || olbc_ht b) HT_INFO_OPERATION_MODE_NON_HT_STA_PRESENT mode in
    let new_op_mode := wanted_op_mode c b in
    let '(n3, mode) :=
      if negb (Z.land mode HT_INFO_OPERATION_MODE_OP_MODE_MASK =? new_op_mode)
      then (1, Z.lor (Z.ldiff mode HT_INFO_OPERATION_MODE_OP_MODE_MASK) new_op_mode) else (0, mode) in
    (n1 + n2 + n3, set_op_mode mode b).

(** ** The elements of the beacon *)

(** The position and length of a non-empty element. *)
Definition bcn_element (b : bss_cap) (eid : Z) : res (option (Z * Z)) :=
  r ← rtw_get_ie (bss_ies b) _BEACON_IE_OFFSET_ eid 0 (IELength b - _BEACON_IE_OFFSET_);
  Ret match (r : option Z * Z) with
      | (Some p, l) => if 0 <? l then Some (p, l) else None
      | (None, _) => None
      end.

(** [x |= bits] or [x &= ~bits] *)
Definition put_bits (on : bool) (bits x : Z) : Z := if on then Z.lor x bits else Z.ldiff x bits.

Definition update_bcn_erpinfo_ie (c : bss_cfg) (s : ap_st) : res ap_st :=
  if negb (ERP_enable c) then Ret s
  else
    let b := bss s in
    r ← bcn_element b _ERPINFO_IE_;
    match (r : option (Z * Z)) with
    | None => Ret s
    | Some (p, l) =>
        x ← rd (bss_ies b) (p + 2);
        let x := put_bits (num_sta b nonerp =? 1) (Z.lor RTW_ERP_INFO_NON_ERP_PRESENT RTW_ERP_INFO_USE_PROTECTION) x in
        let x := put_bits (0 <? num_sta b no_short_preamble) RTW_ERP_INFO_BARKER_PREAMBLE_MODE x in
        ies ← wr (bss_ies b) (p + 2) x;
        Ret (call (ERP_IE_handler l x) (set_bss (set_bss_ies ies (IELength b) b) s))
    end.

(** The first byte of [infos]: secondary channel offset (bits 0 and 1) and
    channel width (bit 2). *)
Definition put_width (offset width x : Z) : Z := Z.lor (Z.lor (Z.ldiff x 7) offset) (Z.shiftl width 2).

(** The channel width part: [sw_to_20mhz] and the byte. *)
Definition ht_width (c : bss_cfg) (b : bss_cap) (x : Z) : bool * Z :=
  if negb (sw_to_20mhz b) && (cur_channel c <=? 14) then
    if (0 <? num_sta b ht_40mhz_intolerant) || ht_20mhz_width_req b || ht_intolerant_ch_reported b || olbc b
    then (true, put_width 0 0 x) else (false, x)
  else if (num_sta b ht_40mhz_intolerant =? 0) && negb (ht_20mhz_width_req b) && negb (ht_intolerant_ch_reported b) && negb (olbc b)
          && (CHANNEL_WIDTH_40 <=? cur_bwmode c)
  then (false, put_width (if cur_ch_offset c =? HAL_PRIME_CHNL_OFFSET_LOWER then HT_INFO_HT_PARAM_SECONDARY_CHNL_ABOVE
                          else HT_INFO_HT_PARAM_SECONDARY_CHNL_BELOW) 1 x)
  else (sw_to_20mhz b, x).

Definition update_bcn_htinfo_ie (c : bss_cfg) (s : ap_st) : res ap_st :=
  if negb (ap_ht_option c) || negb (HT_info_enable c) then Ret s
  else
    let b := bss s in
    r ← bcn_element b _HT_ADD_INFO_IE_;
    match (r : option (Z * Z)) with
    | None => Ret s
    | Some (p, _) =>
        x ← rd (bss_ies b) (p + 3);
        let '(sw, x) := ht_width c b x in
        ies ← wr (bss_ies b) (p + 3) x;
        ies ← wr_slice ies (p + 4) (le_split 2 (ht_op_mode b));
        Ret (set_bss (set_20mhz sw (set_bss_ies ies (IELength b) b)) s)
    end.

Definition update_bcn_tim (c : bss_cfg) (s : ap_st) : res ap_st :=
  let b := bss s in
  r ← update_BCNTIM (bcn_malloc c) (tim_bitmap (tab s)) (AID_BMP_LEN (max_aid (tab s))) (bss_ies b) (IELength b);
  let '(ies, l) := (r : bytes * Z) in
  Ret (set_bss (set_bss_ies ies l b) s).

(** The elements without a case have handlers that do nothing. *)
Definition update_beacon (c : bss_cfg) (ie_id : Z) (tx : bool) (s : ap_st) : res ap_st :=
  if negb (bstart_bss c) then Ret s
  else
    s ← (if ie_id =? _TIM_IE_ then update_bcn_tim c s
         else if ie_id =? _ERPINFO_IE_ then update_bcn_erpinfo_ie c s
         else if ie_id =? _HT_ADD_INFO_IE_ then update_bcn_htinfo_ie c s
         else Ret s);
    Ret (if tx then call set_tx_beacon_cmd s else s).

(** ** A station joins or leaves *)

Definition lacks (s : ap_st) (i : nat) (k : legacy) : bool := legacy_set (info s i) k.

(** [if (!psta->k_set) { psta->k_set = 1; num++; }] and whether the counter
    became one. *)
Definition mark (i : nat) (k : legacy) (s : ap_st) : bool * ap_st :=
  if lacks s i k then (false, s)
  else let s := set_bss (add_num k 1 (bss s)) (upd_info i (set_legacy k true) s) in (num_sta (bss s) k =? 1, s).

(** [if (psta->k_set) { psta->k_set = 0; num--; }] and whether the counter
    became zero. *)
Definition unmark (i : nat) (k : legacy) (s : ap_st) : bool * ap_st :=
  if lacks s i k
  then let s := set_bss (add_num k (-1) (bss s)) (upd_info i (set_legacy k false) s) in (num_sta (bss s) k =? 0, s)
  else (false, s).

Definition track (on : bool) (i : nat) (k : legacy) (s : ap_st) : bool * ap_st :=
  if on then mark i k s else unmark i k s.

(** The HT part of [bss_cap_update_on_sta_join]. *)
Definition join_ht (i : nat) (s : ap_st) : ap_st :=
  if bit_test (sta_flags (entry s i)) WLAN_STA_HT then
    let ht_capab := znth (ht_cap (info s i)) 0 + 256 * znth (ht_cap (info s i)) 1 in
    let s := snd (unmark i no_ht s) in
    let s := if bit_test ht_capab IEEE80211_HT_CAP_GRN_FLD then s else snd (mark i no_ht_gf s) in
    let s := if bit_test ht_capab IEEE80211_HT_CAP_SUP_WIDTH then s else snd (mark i ht_20mhz s) in
    if bit_test ht_capab RTW_IEEE80211_HT_CAP_40MHZ_INTOLERANT then snd (mark i ht_40mhz_intolerant s) else s
  else snd (mark i no_ht s).

(** [rtw_ht_operation_update] and, after a change, the HT elements. *)
Definition announce_ht (c : bss_cfg) (s : ap_st) : res (bool * ap_st) :=
  let '(n, b) := rtw_ht_operation_update c (bss s) in
  let s := set_bss b s in
  if 0 <? n then
    s ← update_beacon c _HT_CAPABILITY_IE_ false s;
    s ← update_beacon c _HT_ADD_INFO_IE_ false s;
    Ret (true, s)
  else Ret (false, s).

(** [associated_clients_update] when [updated]. *)
Definition clients_update (updated : bool) (s : ap_st) : ap_st := if updated then call associated_clients_update s else s.

Definition bss_cap_update_on_sta_join (c : bss_cfg) (i : nat) (s : ap_st) : res ap_st :=
  let flags := sta_flags (entry s i) in
  let '(edge, s) := track (negb (bit_test flags WLAN_STA_SHORT_PREAMBLE)) i no_short_preamble s in
  let u1 := (WIRELESS_11B <? cur_wireless_mode c) && edge in
  let '(u2, s) := track (bit_test flags WLAN_STA_NONERP) i nonerp s in
  s ← (if (u2 : bool) then update_beacon c _ERPINFO_IE_ false s else Ret s);
  let '(edge, s) := track (negb (bit_test (capability (info s i)) WLAN_CAPABILITY_SHORT_SLOT)) i no_short_slot_time s in
  let u3 := (WIRELESS_11B <? cur_wireless_mode c) && edge in
  r ← (if ht_on c then announce_ht c (join_ht i s) else Ret (false, s));
  let '(u4, s) := (r : bool * ap_st) in
  let beacon_updated := u1 || u2 || u3 || u4 in
  s ← (if beacon_updated then update_beacon c 0xFF true s else Ret s);
  Ret (clients_update beacon_updated s).

(** The 40 MHz counter does not go below zero. *)
Definition unmark_intolerant (i : nat) (s : ap_st) : ap_st :=
  if lacks s i ht_40mhz_intolerant then
    let s := upd_info i (set_legacy ht_40mhz_intolerant false) s in
    if 0 <? num_sta (bss s) ht_40mhz_intolerant then set_bss (add_num ht_40mhz_intolerant (-1) (bss s)) s else s
  else s.

Definition bss_cap_update_on_sta_leave (c : bss_cfg) (i : nat) (s : ap_st) : res (bool * ap_st) :=
  let p := tab s in
  let u0 := rtw_tim_map_is_set p (tim_bitmap p) (aid (entry s i)) in
  s ← (if u0 then update_beacon c _TIM_IE_ false
                    (set_tab (set_maps p (sta_dz_bitmap p) (rtw_tim_map_clear p (tim_bitmap p) (aid (entry s i)))) s)
       else Ret s);
  let '(edge, s) := unmark i no_short_preamble s in
  let u1 := (WIRELESS_11B <? cur_wireless_mode c) && edge in
  let '(u2, s) := unmark i nonerp s in
  s ← (if (u2 : bool) then update_beacon c _ERPINFO_IE_ false s else Ret s);
  let '(edge, s) := unmark i no_short_slot_time s in
  let u3 := (WIRELESS_11B <? cur_wireless_mode c) && edge in
  let s := snd (unmark i no_ht_gf s) in
  let s := snd (unmark i no_ht s) in
  let s := snd (unmark i ht_20mhz s) in
  let s := unmark_intolerant i s in
  r ← announce_ht c s;
  let '(_, s) := (r : bool * ap_st) in
  let beacon_updated := u0 || u1 || u2 || u3 in
  s ← (if beacon_updated then update_beacon c 0xFF true s else Ret s);
  Ret (beacon_updated, s).

(** ** The elements behind the buffer *)

(** The body of the first element with the id. *)
Fixpoint first_body (eid : Z) (ts : list tlv) : option bytes :=
  match ts with
  | [] => None
  | t :: ts => if fst t =? eid then Some (snd t) else first_body eid ts
  end.

Lemma first_body_split eid ts d :
  first_body eid ts = Some d -> exists ms rest, ts = ms ++ (eid, d) :: rest /\ Forall (fun t => fst t <> eid) ms.
Proof.
  induction ts as [|[e x] ts IH]; cbn; [done|]. destruct (Z.eqb_spec e eid) as [->|N].
  - intros [= ->]. by exists [], ts.
  - intros H. destruct (IH H) as (ms & rest & -> & F). exists ((e, x) :: ms), rest. by split; [|constructor].
Qed.

Lemma first_body_here eid ms d rest : Forall (fun t => fst t <> eid) ms -> first_body eid (ms ++ (eid, d) :: rest) = Some d.
Proof.
  induction 1 as [|t ms N _ IH]; cbn; [by rewrite Z.eqb_refl|]. by destruct (Z.eqb_spec (fst t) eid).
Qed.

Lemma first_body_replace eid ms t t' rest :
  fst t <> eid -> fst t' <> eid -> first_body eid (ms ++ t :: rest) = first_body eid (ms ++ t' :: rest).
Proof.
  intros N N'. induction ms as [|u ms IH]; cbn; [|by rewrite IH].
  destruct (Z.eqb_spec (fst t) eid), (Z.eqb_spec (fst t') eid); done.
Qed.

(** The buffer holds fixed fields, a list of elements with an ERP element that
    starts with [erp], an HT operation element with the mode bytes [m] and a
    traffic map, and room for a map of [n] bytes. *)
Record shape_of (n : Z) (b : bss_cap) (erp : Z) (m : bytes) (fixed slack : bytes) (ts : list tlv) : Prop := {
  sh_fixed : length fixed = 12%nat;
  sh_ies : bss_ies b = bcn fixed slack ts;
  sh_len : IELength b = bcn_len ts;
  sh_erp : exists r, first_body _ERPINFO_IE_ ts = Some (erp :: r);
  sh_ht : exists x y r, first_body _HT_ADD_INFO_IE_ ts = Some (x :: y :: m ++ r);
  sh_mode : length m = 2%nat;
  sh_room : exists d, first_body _TIM_IE_ ts = Some d /\ d <> [] /\ zlen (encode ts) - zlen d + 3 + n <= zlen (bss_ies b) - 12;
  sh_size : zlen (bss_ies b) < 4294967296
}.

Definition shape (n : Z) (b : bss_cap) (erp : Z) (m : bytes) : Prop := exists fixed slack ts, shape_of n b erp m fixed slack ts.

Lemma shape_ext n b b' erp m : bss_ies b' = bss_ies b -> IELength b' = IELength b -> shape n b erp m -> shape n b' erp m.
Proof.
  intros E1 E2 (fixed & slack & ts & [A B C D E F G H]). exists fixed, slack, ts. split; rewrite ?E1, ?E2; done.
Qed.

(** Finding an element and writing into it. *)
Lemma bcn_element_here b fixed slack ms eid d rest :
  length fixed = 12%nat -> bss_ies b = bcn fixed slack (ms ++ (eid, d) :: rest) -> IELength b = bcn_len (ms ++ (eid, d) :: rest) ->
  Forall (fun t => fst t <> eid) ms -> d <> [] ->
  bcn_element b eid = Ret (Some (zlen (fixed ++ encode ms), zlen d)).
Proof.
  intros Hf E1 E2 F N. unfold bcn_element. rewrite E1, E2. change _BEACON_IE_OFFSET_ with 12.
  rewrite (bcn_get_ie fixed slack Hf) by (by destruct ms).
  rewrite bind_Ret, (find_eid_first eid 12 ms (eid, d) rest F eq_refl). cbn [snd].
  destruct (Z.ltb_spec 0 (zlen d)).
  - do 3 f_equal. rewrite zlen_app. unfold zlen. lia.
  - destruct d; [done|]. rewrite zlen_cons in *. pose proof (zlen_nonneg d). lia.
Qed.

Lemma bcn_body_view fixed slack ms eid d rest :
  bcn fixed slack (ms ++ (eid, d) :: rest) = (fixed ++ encode ms ++ [eid; zlen d]) ++ d ++ encode rest ++ slack.
Proof. unfold bcn. rewrite encode_app, encode_cons. unfold enc1. cbn [fst snd]. rewrite <- !app_assoc. by cbn [app]. Qed.

Lemma zlen_body_pre (fixed : bytes) ms eid (d : bytes) : zlen (fixed ++ encode ms ++ [eid; zlen d]) = zlen (fixed ++ encode ms) + 2.
Proof. rewrite !zlen_app. change (zlen [eid; zlen d]) with 2. lia. Qed.

Lemma bcn_rd_body fixed slack ms eid d rest k :
  0 <= k < zlen d -> rd (bcn fixed slack (ms ++ (eid, d) :: rest)) (zlen (fixed ++ encode ms) + 2 + k) = Ret (znth d k).
Proof.
  intros H. rewrite bcn_body_view, <- zlen_body_pre with (eid := eid) (d := d).
  rewrite rd_app_r by lia. replace (zlen _ + k - zlen _) with k by lia. rewrite rd_app_l by lia. apply rd_znth. lia.
Qed.

Lemma bcn_wr_body fixed slack ms eid d rest k x :
  0 <= k < zlen d ->
  wr (bcn fixed slack (ms ++ (eid, d) :: rest)) (zlen (fixed ++ encode ms) + 2 + k) x
  = Ret (bcn fixed slack (ms ++ (eid, <[Z.to_nat k := x]> d) :: rest)).
Proof.
  intros H. rewrite bcn_body_view, <- zlen_body_pre with (eid := eid) (d := d). rewrite wr_pre.
  2:{ rewrite zlen_app. pose proof (zlen_nonneg (encode rest ++ slack)). lia. }
  f_equal. rewrite insert_app_l by (unfold zlen in H; lia).
  rewrite bcn_body_view. do 2 f_equal. unfold zlen. by rewrite length_insert.
Qed.

Lemma bcn_wr_slice_body fixed slack ms eid d1 mid d2 rest src :
  length mid = length src ->
  wr_slice (bcn fixed slack (ms ++ (eid, d1 ++ mid ++ d2) :: rest)) (zlen (fixed ++ encode ms) + 2 + zlen d1) src
  = Ret (bcn fixed slack (ms ++ (eid, d1 ++ src ++ d2) :: rest)).
Proof.
  intros H. rewrite !bcn_body_view, <- zlen_body_pre with (eid := eid) (d := d1 ++ mid ++ d2).
  rewrite <- zlen_app. rewrite <- (app_assoc d1), <- (app_assoc mid), (app_assoc _ d1 (mid ++ _)), wr_slice_app by done.
  rewrite <- !app_assoc. unfold zlen. rewrite !length_app, H. done.
Qed.

(** What an update of the beacon leaves alone. *)
Record ies_only (s s' : ap_st) : Prop := {
  io_tab : tab s' = tab s;
  io_more : more s' = more s;
  io_asoc : asoc_list s' = asoc_list s;
  io_cnt : asoc_list_cnt s' = asoc_list_cnt s;
  io_events : events s' = events s;
  io_num : num_sta (bss s') = num_sta (bss s);
  io_mode : ht_op_mode (bss s') = ht_op_mode (bss s);
  io_olbc : olbc_ht (bss s') = olbc_ht (bss s);
  io_out : ap_out s `prefix_of` ap_out s'
}.

Lemma ies_only_refl s : ies_only s s.
Proof. by split. Qed.

Lemma ies_only_trans s1 s2 s3 : ies_only s1 s2 -> ies_only s2 s3 -> ies_only s1 s3.
Proof. intros [] []. split; try congruence. by etransitivity. Qed.

Lemma ies_only_call o s : ies_only s (call o s).
Proof. split; try done. by exists [o]. Qed.

Lemma ies_only_ies b s : num_sta b = num_sta (bss s) -> ht_op_mode b = ht_op_mode (bss s) -> olbc_ht b = olbc_ht (bss s) -> ies_only s (set_bss b s).
Proof. by split. Qed.

(** The body of one element replaced by one of the same length. *)
Lemma shape_put n b b' erp m erp' m' fixed slack ms eid d d' rest :
  shape_of n b erp m fixed slack (ms ++ (eid, d) :: rest) -> Forall (fun t => fst t <> eid) ms ->
  bss_ies b' = bcn fixed slack (ms ++ (eid, d') :: rest) -> IELength b' = IELength b -> length d' = length d ->
  (eid = _ERPINFO_IE_ /\ m' = m /\ (exists r, d' = erp' :: r) \/
   eid = _HT_ADD_INFO_IE_ /\ erp' = erp /\ length m' = 2%nat /\ (exists x y r, d' = x :: y :: m' ++ r)) ->
  shape n b' erp' m'.
Proof.
  intros [A B C D E F G H] Hm E1 E2 El Hd. exists fixed, slack, (ms ++ (eid, d') :: rest).
  assert (zlen (encode (ms ++ (eid, d') :: rest)) = zlen (encode (ms ++ (eid, d) :: rest))) as Ez.
  { rewrite !encode_app, !encode_cons, !zlen_app, !zlen_enc1. cbn [snd]. unfold zlen. lia. }
  assert (zlen (bss_ies b') = zlen (bss_ies b)) as Eb by (rewrite E1, B; unfold bcn; rewrite !zlen_app; lia).
  split; rewrite ?Eb, ?Ez; try done.
  - rewrite E2, C. unfold bcn_len. by rewrite Ez.
  - destruct Hd as [(-> & -> & r & ->) | (-> & -> & _)]; [by exists r; apply first_body_here|].
    by erewrite first_body_replace.
  - destruct Hd as [(-> & -> & _) | (-> & -> & _ & x & y & r & ->)]; [by erewrite first_body_replace|].
    exists x, y, r. by apply first_body_here.
  - destruct Hd as [(_ & -> & _) | (_ & _ & L & _)]; done.
  - destruct G as (t & G1 & G2). exists t. split; [|done].
    destruct Hd as [(-> & _) | (-> & _)]; by erewrite first_body_replace.
Qed.

(** The ERP byte the counters ask for. *)
Definition new_erp (b : bss_cap) (x : Z) : Z :=
  put_bits (0 <? num_sta b no_short_preamble) RTW_ERP_INFO_BARKER_PREAMBLE_MODE
    (put_bits (num_sta b nonerp =? 1) (Z.lor RTW_ERP_INFO_NON_ERP_PRESENT RTW_ERP_INFO_USE_PROTECTION) x).

Lemma erp_update c n s erp m :
  ERP_enable c = true -> shape n (bss s) erp m ->
  exists s', update_bcn_erpinfo_ie c s = Ret s' /\ ies_only s s' /\ shape n (bss s') (new_erp (bss s) erp) m.
Proof.
  intros Hc (fixed & slack & ts & Sh). pose proof Sh as [A B C [r D] _ _ _ _].
  destruct (first_body_split _ _ _ D) as (ms & rest & -> & Hm).
  unfold update_bcn_erpinfo_ie. rewrite Hc. cbn [negb].
  rewrite (bcn_element_here _ _ _ _ _ _ _ A B C Hm), bind_Ret by done. rewrite B.
  assert (0 <= 0 < zlen (erp :: r)) as H0 by (rewrite zlen_cons; pose proof (zlen_nonneg r); lia).
  pose proof (bcn_rd_body fixed slack ms _ERPINFO_IE_ (erp :: r) rest 0 H0) as R.
  pose proof (bcn_wr_body fixed slack ms _ERPINFO_IE_ (erp :: r) rest 0 (new_erp (bss s) erp) H0) as W.
  rewrite Z.add_0_r in R, W. rewrite R, bind_Ret. unfold new_erp in W. change (znth (erp :: r) 0) with erp.
  rewrite W, bind_Ret. eexists. split; [done|]. split.
  - eapply ies_only_trans; [apply ies_only_ies|apply ies_only_call]; done.
  - eapply (shape_put n (bss s) _ erp m); try exact Sh; try done. left. split_and!; try done. by exists r.
Qed.

Lemma ht_update c n s erp m :
  ap_ht_option c = true -> HT_info_enable c = true -> shape n (bss s) erp m ->
  exists s', update_bcn_htinfo_ie c s = Ret s' /\ ies_only s s' /\ shape n (bss s') erp (le_split 2 (ht_op_mode (bss s))).
Proof.
  intros Hc Hc' (fixed & slack & ts & Sh). pose proof Sh as [A B C _ (x & y & r & D) F _ _].
  destruct (first_body_split _ _ _ D) as (ms & rest & -> & Hm).
  unfold update_bcn_htinfo_ie. rewrite Hc, Hc'. cbn [negb orb].
  rewrite (bcn_element_here _ _ _ _ _ _ _ A B C Hm), bind_Ret by done. rewrite B.
  assert (0 <= 1 < zlen (x :: y :: m ++ r)) as H1 by (rewrite !zlen_cons; pose proof (zlen_nonneg (m ++ r)); lia).
  pose proof (bcn_rd_body fixed slack ms _HT_ADD_INFO_IE_ (x :: y :: m ++ r) rest 1 H1) as R.
  replace (zlen (fixed ++ encode ms) + 3) with (zlen (fixed ++ encode ms) + 2 + 1) by lia. rewrite R, bind_Ret.
  change (znth (x :: y :: m ++ r) 1) with y. destruct (ht_width c (bss s) y) as [sw y'].
  rewrite bcn_wr_body, bind_Ret by done. change (<[Z.to_nat 1 := y']> (x :: y :: m ++ r)) with (x :: y' :: m ++ r).
  pose proof (bcn_wr_slice_body fixed slack ms _HT_ADD_INFO_IE_ [x; y'] m r rest (le_split 2 (ht_op_mode (bss s))) ltac:(done)) as W.
  change (zlen [x; y']) with 2 in W. replace (zlen (fixed ++ encode ms) + 2 + 2) with (zlen (fixed ++ encode ms) + 4) in W by lia.
  cbn [app] in W. rewrite W, bind_Ret. eexists. split; [done|]. split; [by apply ies_only_ies|].
  eapply (shape_put n (bss s) _ erp m); try exact Sh; try done.
  - cbn [length]. rewrite !length_app. cbn [length le_split]. lia.
  - right. split_and!; try done. by exists x, y', r.
Qed.

Lemma tim_update c s erp m :
  bcn_malloc c = true -> zlen (tim_bitmap (tab s)) = AID_BMP_LEN (max_aid (tab s)) -> 1 <= AID_BMP_LEN (max_aid (tab s)) <= 250 ->
  shape (AID_BMP_LEN (max_aid (tab s))) (bss s) erp m ->
  exists s', update_bcn_tim c s = Ret s' /\ ies_only s s' /\ shape (AID_BMP_LEN (max_aid (tab s))) (bss s') erp m.
Proof.
  intros Hc Hl Hn (fixed & slack & ts & [A B C (r & D) (x & y & r' & E) F (d & G1 & G2 & G3) H]).
  destruct (first_body_split _ _ _ G1) as (ms & rest & -> & Hm).
  assert (zlen (bss_ies (bss s)) = 12 + (zlen (encode (ms ++ (_TIM_IE_, d) :: rest)) + zlen slack)) as Hz.
  { rewrite B. unfold bcn. rewrite !zlen_app. unfold zlen. lia. }
  assert (zlen (encode (ms ++ (_TIM_IE_, d) :: rest)) = zlen (encode ms) + (zlen d + 2) + zlen (encode rest)) as Hd.
  { rewrite encode_app, encode_cons, !zlen_app, zlen_enc1. cbn [snd]. lia. }
  destruct (update_BCNTIM_spec fixed slack A ms [(_TIM_IE_, d)] rest (tim_bitmap (tab s))) as (body & slack' & U & L & _ & _ & Nb).
  - by apply slot_present.
  - by rewrite Hl.
  - cbn [app]. rewrite Hl, encode_app, zlen_app. unfold tlv in *. lia.
  - rewrite B in H. exact H.
  - cbn [app] in *. unfold tlv in *. unfold update_bcn_tim. rewrite Hc, B, C, <- Hl, U, bind_Ret, Hl.
    eexists. split; [done|]. split; [by apply ies_only_ies|].
    assert (forall eid, eid <> _TIM_IE_ -> first_body eid (ms ++ (_TIM_IE_, body) :: rest) = first_body eid (ms ++ (_TIM_IE_, d) :: rest)) as Fo
      by (intros eid N; by apply first_body_replace; cbn [fst]; congruence).
    exists fixed, slack', (ms ++ (_TIM_IE_, body) :: rest). split; cbn [bss bss_ies IELength set_bss set_bss_ies]; try done.
    + exists r. by rewrite Fo.
    + exists x, y, r'. by rewrite Fo.
    + exists body. split; [by apply first_body_here|]. rewrite L, <- B.
      assert (zlen (encode (ms ++ (_TIM_IE_, body) :: rest)) = zlen (encode ms) + (zlen body + 2) + zlen (encode rest)) as ->.
      { rewrite encode_app, encode_cons, !zlen_app, zlen_enc1. cbn [snd]. lia. }
      split; [done|lia].
    + by rewrite L, <- B.
Qed.
