(* ===== verification/ApProt.v ===== *)
(** * Protection of the BSS: counters, mode and beacon agree

    The counters of ApBss.v count the flags of the stations, whatever joins and
    leaves happen ([gap]: what a counter has beyond the flags); the HT
    operation mode says what the counters ask for ([mode_ok]); the beacon
    announces both ([announced]). *)

From S2P Require Import Prelude RxFrame Reorder StaMgt Bitmap RxCheck MgmtProtect Ie Beacon ApState ApBss.

(** ** Counting flags *)

Fixpoint counted (k : legacy) (l : list ap_info) : Z :=
  match l with [] => 0 | e :: l => Z.b2z (legacy_set e k) + counted k l end.

(** What the counter has beyond the flags. *)
Definition gap (s : ap_st) (k : legacy) : Z := num_sta (bss s) k - counted k (more s).

Lemma counted_nonneg k l : 0 <= counted k l.
Proof. induction l as [|e l IH]; cbn; [done|]. destruct (legacy_set e k); cbn [Z.b2z]; lia. Qed.

Lemma counted_alter k f i l e :
  l !! i = Some e -> counted k (alter f i l) = counted k l - Z.b2z (legacy_set e k) + Z.b2z (legacy_set (f e) k).
Proof.
  revert i. induction l as [|x l IH]; intros [|i] H; [done|done|..].
  - injection H as ->. cbn. lia.
  - change (alter f (S i) (x :: l)) with (x :: alter f i l). cbn [counted]. rewrite (IH i H). lia.
Qed.

(** Everything but the flags. *)
Definition with_legacy (f : legacy -> bool) (e : ap_info) : ap_info :=
  mk_apinfo (auth_seq e) (authalg e) (chg_txt e) (bpairwise_key_installed e) (capability e) (bssrateset e) (sec e) (qos_option e) (ht_cap e) (ht_op e) f (passoc_req e).

Definition same_info (e e' : ap_info) : Prop := e' = with_legacy (legacy_set e') e.

Lemma same_info_refl e : same_info e e.
Proof. by destruct e. Qed.

Lemma same_info_trans e1 e2 e3 : same_info e1 e2 -> same_info e2 e3 -> same_info e1 e3.
Proof. unfold same_info. intros H1 H2. rewrite H2. cbn [legacy_set with_legacy]. rewrite H1. done. Qed.

(** What happens to the state while the flags of the entry [i] change. *)
Record cap_step (i : nat) (s s' : ap_st) : Prop := {
  cs_tab : tab s' = tab s;
  cs_asoc : asoc_list s' = asoc_list s;
  cs_cnt : asoc_list_cnt s' = asoc_list_cnt s;
  cs_events : events s' = events s;
  cs_len : length (more s') = length (more s);
  cs_info : forall j, same_info (info s j) (info s' j);
  cs_others : forall j k, j <> i -> lacks s' j k = lacks s j k;
  cs_gap : forall k, gap s' k = gap s k;
  cs_olbc : olbc_ht (bss s') = olbc_ht (bss s);
  cs_out : ap_out s `prefix_of` ap_out s'
}.

Lemma cap_step_refl i s : cap_step i s s.
Proof. split; try done. intros j. apply same_info_refl. Qed.

Lemma cap_step_trans i s1 s2 s3 : cap_step i s1 s2 -> cap_step i s2 s3 -> cap_step i s1 s3.
Proof.
  intros [] []. split; try congruence; try (by etransitivity).
  - intros j. by eapply same_info_trans.
  - intros j k N. rewrite cs_others1, cs_others0; done.
Qed.

Lemma ies_only_step i s s' : ies_only s s' -> cap_step i s s'.
Proof.
  intros [E1 E2 E3 E4 E5 E6 E7 E8 E9]. split; try done.
  - by rewrite E2.
  - intros j. unfold info. rewrite E2. apply same_info_refl.
  - intros j k _. unfold lacks, info. by rewrite E2.
  - intros k. unfold gap. by rewrite E2, E6.
Qed.

(** The part of the state the flags do not touch. *)
Record bcn_same (b b' : bss_cap) : Prop := {
  bs_ies : bss_ies b' = bss_ies b;
  bs_len : IELength b' = IELength b;
  bs_mode : ht_op_mode b' = ht_op_mode b
}.

Lemma bcn_same_trans b1 b2 b3 : bcn_same b1 b2 -> bcn_same b2 b3 -> bcn_same b1 b3.
Proof. intros [] []. split; congruence. Qed.

Lemma bcn_same_shape n b b' erp m : bcn_same b b' -> shape n b erp m -> shape n b' erp m.
Proof. intros [] H. by apply (shape_ext n b). Qed.

(** ** One flag *)

(** The flag [k] of [i] becomes [on]. *)
Record flag_step (i : nat) (k : legacy) (on : bool) (s s' : ap_st) : Prop := {
  fs_step : cap_step i s s';
  fs_bcn : bcn_same (bss s) (bss s');
  fs_flag : lacks s' i k = on;
  fs_other : forall l, l <> k -> lacks s' i l = lacks s i l /\ num_sta (bss s') l = num_sta (bss s) l;
  fs_num : num_sta (bss s') k = num_sta (bss s) k - Z.b2z (lacks s i k) + Z.b2z on
}.

Lemma info_upd s i f j : info (upd_info i f s) j = if decide (i = j) then match more s !! i with Some e => f e | None => ap_info_zero end else info s j.
Proof.
  unfold info, upd_info. cbn [more set_more]. destruct (decide (i = j)) as [->|N].
  - rewrite list_lookup_alter_eq. by destruct (more s !! j).
  - by rewrite list_lookup_alter_ne.
Qed.

Lemma info_at s i e : more s !! i = Some e -> info s i = e.
Proof. unfold info. by intros ->. Qed.

Lemma flag_put i k on d s :
  (i < length (more s))%nat -> d = Z.b2z on - Z.b2z (lacks s i k) ->
  flag_step i k on s (set_bss (add_num k d (bss s)) (upd_info i (set_legacy k on) s)).
Proof.
  intros Hi ->. destruct (lookup_lt_is_Some_2 (more s) i Hi) as [e He].
  assert (forall j l, lacks (set_bss (add_num k (Z.b2z on - Z.b2z (lacks s i k)) (bss s)) (upd_info i (set_legacy k on) s)) j l
    = if decide (i = j /\ l = k) then on else lacks s j l) as Hl.
  { intros j l. change (lacks (set_bss ?b ?t) j l) with (lacks t j l). unfold lacks. rewrite info_upd, He.
    destruct (decide (i = j)) as [<-|]; [|by rewrite decide_False by tauto].
    rewrite (info_at s i e He). cbn [legacy_set set_legacy].
    destruct (decide (l = k)); [by rewrite decide_True|by rewrite decide_False by tauto]. }
  split.
  - split; try done.
    + cbn. apply length_alter.
    + intros j. change (info (set_bss ?b ?t) j) with (info t j). rewrite info_upd, He. destruct (decide (i = j)) as [<-|].
      * rewrite (info_at s i e He). done.
      * apply same_info_refl.
    + intros j l N. rewrite Hl. by rewrite decide_False by (intros [? _]; congruence).
    + intros l. unfold gap. cbn [bss set_bss num_sta add_num more upd_info set_more]. rewrite (counted_alter l _ i (more s) e He).
      unfold lacks. rewrite (info_at s i e He). cbn [legacy_set set_legacy]. destruct (decide (l = k)) as [->|]; lia.
  - done.
  - rewrite Hl. by rewrite decide_True.
  - intros l N. rewrite Hl, decide_False by tauto. split; [done|]. cbn. by rewrite decide_False.
  - cbn. rewrite decide_True by done. lia.
Qed.

Lemma flag_keep i k on s : lacks s i k = on -> flag_step i k on s s.
Proof. intros H. split; [apply cap_step_refl|done|done|done|]. rewrite H. lia. Qed.

Lemma counted_flag s i k : lacks s i k = true -> 1 <= counted k (more s).
Proof.
  unfold lacks, info. destruct (more s !! i) as [e|] eqn:E; [|done]. cbn [default]. intros H. revert i E.
  induction (more s) as [|x l IH]; intros [|i] E; cbn in *; try done.
  - injection E as ->. rewrite H. pose proof (counted_nonneg k l). cbn [Z.b2z]. lia.
  - pose proof (IH i E). destruct (legacy_set x k); cbn [Z.b2z]; lia.
Qed.

Lemma mark_step i k s edge s' :
  (i < length (more s))%nat -> 0 <= gap s k -> mark i k s = (edge, s') ->
  flag_step i k true s s' /\ (if edge then num_sta (bss s') k = 1 else (0 <? num_sta (bss s') k) = (0 <? num_sta (bss s) k)).
Proof.
  intros Hi Hg. unfold mark. pose proof (counted_nonneg k (more s)). unfold gap in Hg. destruct (lacks s i k) eqn:L.
  - intros [= <- <-]. split; [by apply flag_keep|done].
  - intros [= <- <-]. split; [apply flag_put; [done|by rewrite L]|]. cbn [bss set_bss num_sta add_num upd_info set_more]. rewrite decide_True by done.
    destruct (Z.eqb_spec (num_sta (bss s) k + 1) 1); [done|]. destruct (Z.ltb_spec 0 (num_sta (bss s) k + 1)), (Z.ltb_spec 0 (num_sta (bss s) k)); lia.
Qed.

Lemma unmark_step i k s edge s' :
  (i < length (more s))%nat -> 0 <= gap s k -> unmark i k s = (edge, s') ->
  flag_step i k false s s' /\ (if edge then num_sta (bss s') k = 0 else (0 <? num_sta (bss s') k) = (0 <? num_sta (bss s) k)).
Proof.
  intros Hi Hg. unfold unmark. unfold gap in Hg. destruct (lacks s i k) eqn:L.
  - pose proof (counted_flag s i k L). intros [= <- <-]. split; [apply flag_put; [done|by rewrite L]|].
    cbn [bss set_bss num_sta add_num upd_info set_more]. rewrite decide_True by done.
    destruct (Z.eqb_spec (num_sta (bss s) k + -1) 0); [done|]. destruct (Z.ltb_spec 0 (num_sta (bss s) k + -1)), (Z.ltb_spec 0 (num_sta (bss s) k)); lia.
  - intros [= <- <-]. split; [by apply flag_keep|done].
Qed.

Lemma track_step on i k s edge s' :
  (i < length (more s))%nat -> 0 <= gap s k -> track on i k s = (edge, s') ->
  flag_step i k on s s' /\ (if edge then num_sta (bss s') k = Z.b2z on else (0 <? num_sta (bss s') k) = (0 <? num_sta (bss s) k)).
Proof. destruct on; cbn [track]; [apply mark_step|apply unmark_step]. Qed.

Lemma unmark_intolerant_step i s : (i < length (more s))%nat -> 0 <= gap s ht_40mhz_intolerant -> flag_step i ht_40mhz_intolerant false s (unmark_intolerant i s).
Proof.
  intros Hi Hg. unfold unmark_intolerant. unfold gap in Hg. destruct (lacks s i ht_40mhz_intolerant) eqn:L; [|by apply flag_keep].
  pose proof (counted_flag s i _ L). change (bss (upd_info i ?f s)) with (bss s).
  destruct (Z.ltb_spec 0 (num_sta (bss s) ht_40mhz_intolerant)); [|lia]. apply flag_put; [done|by rewrite L].
Qed.

(** ** The mode *)

(** An access point that has started, with an ERP and an HT element. *)
Record ready (c : bss_cfg) : Prop := {
  rd_start : bstart_bss c = true;
  rd_erp : ERP_enable c = true;
  rd_ht : ap_ht_option c = true;
  rd_info : HT_info_enable c = true;
  rd_on : ht_on c = true;
  rd_malloc : bcn_malloc c = true
}.

(** The HT operation mode says what the counters ask for: the greenfield bit,
    the non-HT bit and the two mode bits. *)
Record mode_ok (c : bss_cfg) (b : bss_cap) : Prop := {
  mo_gf : Z.testbit (ht_op_mode b) 2 = some_sta b no_ht_gf;
  mo_nonht : Z.testbit (ht_op_mode b) 4 = some_sta b no_ht || olbc_ht b;
  mo_mode : Z.land (ht_op_mode b) 3 = wanted_op_mode c b
}.

Lemma track_bit_spec on k mode : 0 <= k ->
  let '(n, mode') := track_bit on (BIT k) mode in
  Z.testbit mode' k = on /\ (forall j, 0 <= j -> j <> k -> Z.testbit mode' j = Z.testbit mode j) /\ 0 <= n /\ (n = 0 -> mode' = mode).
Proof.
  intros Hk. unfold track_bit. rewrite bit_test_testbit by done.
  assert (forall j, 0 <= j -> Z.testbit (BIT k) j = (k =? j)) as Hb by (intros j Hj; unfold BIT; rewrite Z.shiftl_1_l; apply Z.pow2_bits_eqb; lia).
  destruct (Z.testbit mode k) eqn:T, on; cbn [negb andb]; split_and!; try done.
  - rewrite Z.ldiff_spec, Hb, Z.eqb_refl by done. apply andb_false_r.
  - intros j Hj N. rewrite Z.ldiff_spec, Hb by done. destruct (Z.eqb_spec k j); [congruence|]. apply andb_true_r.
  - rewrite Z.lor_spec, Hb, Z.eqb_refl by done. apply orb_true_r.
  - intros j Hj N. rewrite Z.lor_spec, Hb by done. destruct (Z.eqb_spec k j); [congruence|]. apply orb_false_r.
Qed.

Lemma wanted_range c b : 0 <= wanted_op_mode c b <= 3.
Proof. unfold wanted_op_mode, OP_MODE_MIXED, OP_MODE_20MHZ_HT_STA_ASSOCED, OP_MODE_MAY_BE_LEGACY_STAS, OP_MODE_PURE. repeat case_match; lia. Qed.

Lemma op_mode_put mode w : 0 <= w <= 3 ->
  Z.land (Z.lor (Z.ldiff mode 3) w) 3 = w /\ forall j, 2 <= j -> Z.testbit (Z.lor (Z.ldiff mode 3) w) j = Z.testbit mode j.
Proof.
  intros Hw. change 3 with (Z.ones 2). split.
  - rewrite Z.land_lor_distr_l. assert (Z.land (Z.ldiff mode (Z.ones 2)) (Z.ones 2) = 0) as ->.
    { rewrite Z.ldiff_land, <- Z.land_assoc. change (Z.land (Z.lnot (Z.ones 2)) (Z.ones 2)) with 0. apply Z.land_0_r. }
    rewrite Z.land_ones by lia. apply Z.mod_small. lia.
  - intros j Hj. rewrite Z.lor_spec, Z.ldiff_spec, Z.testbit_ones_nonneg by lia.
    destruct (Z.ltb_spec j 2); [lia|]. cbn [negb]. rewrite andb_true_r.
    assert (Z.testbit w j = false) as ->; [|apply orb_false_r].
    destruct (Z.eq_dec w 0) as [->|N]; [apply Z.bits_0|]. apply Z.bits_above_log2; [lia|].
    assert (Z.log2 w <= 1); [|lia]. change 1 with (Z.log2 3). apply Z.log2_le_mono. lia.
Qed.

Lemma ht_operation_update_ok c b : ap_ht_option c = true ->
  exists n mode, rtw_ht_operation_update c b = (n, set_op_mode mode b) /\ mode_ok c (set_op_mode mode b) /\ 0 <= n /\ (n = 0 -> mode = ht_op_mode b).
Proof.
  intros Hc. unfold rtw_ht_operation_update. rewrite Hc. cbn [negb].
  pose proof (track_bit_spec (some_sta b no_ht_gf) 2 (ht_op_mode b) ltac:(lia)) as T1. unfold HT_INFO_OPERATION_MODE_NON_GF_DEVS_PRESENT.
  destruct (track_bit (some_sta b no_ht_gf) (BIT 2) (ht_op_mode b)) as [n1 m1]. destruct T1 as (A1 & A2 & A3 & A4).
  pose proof (track_bit_spec (some_sta b no_ht || olbc_ht b) 4 m1 ltac:(lia)) as T2. unfold HT_INFO_OPERATION_MODE_NON_HT_STA_PRESENT.
  destruct (track_bit (some_sta b no_ht || olbc_ht b) (BIT 4) m1) as [n2 m2]. destruct T2 as (B1 & B2 & B3 & B4).
  unfold HT_INFO_OPERATION_MODE_OP_MODE_MASK. pose proof (wanted_range c b) as W. pose proof (op_mode_put m2 _ W) as [P1 P2].
  destruct (Z.eqb_spec (Z.land m2 3) (wanted_op_mode c b)) as [E|N]; cbn [negb].
  - exists (n1 + n2 + 0), m2. split; [done|]. split; [|split; [lia|]].
    + split; cbn [ht_op_mode set_op_mode some_sta num_sta olbc_ht]; [by rewrite B2, A1 by lia|done|done].
    + intros H. rewrite B4, A4; lia.
  - eexists (n1 + n2 + 1), _. split; [done|]. split; [|split; [lia|lia]].
    split; cbn [ht_op_mode set_op_mode]; [by rewrite P2, B2, A1 by lia|by rewrite P2 by lia|done].
Qed.

(** ** The beacon *)

Definition map_size (p : sta_priv) : Z := AID_BMP_LEN (max_aid p).
Definition tim_ok (p : sta_priv) : Prop := zlen (tim_bitmap p) = map_size p /\ 1 <= map_size p <= 250.

Lemma beacon_update_ok c ie tx s erp m :
  ready c -> tim_ok (tab s) -> shape (map_size (tab s)) (bss s) erp m ->
  exists s', update_beacon c ie tx s = Ret s' /\ ies_only s s' /\
    shape (map_size (tab s)) (bss s') (if ie =? _ERPINFO_IE_ then new_erp (bss s) erp else erp)
      (if ie =? _HT_ADD_INFO_IE_ then le_split 2 (ht_op_mode (bss s)) else m).
Proof.
  intros [R1 R2 R3 R4 R5 R6] [T1 T2] Sh. unfold update_beacon. rewrite R1. cbn [negb].
  assert (forall s1 e m', ies_only s s1 -> shape (map_size (tab s)) (bss s1) e m' ->
    exists s', Ret (if tx then call set_tx_beacon_cmd s1 else s1) = Ret s' /\ ies_only s s' /\ shape (map_size (tab s)) (bss s') e m') as Fin.
  { intros s1 e m' I1 S1. eexists. split; [done|]. destruct tx; [|by split]. split; [|by apply (shape_ext _ (bss s1))].
    eapply ies_only_trans; [done|apply ies_only_call]. }
  destruct (Z.eqb_spec ie _TIM_IE_) as [->|N1].
  - destruct (tim_update c s erp m R6 T1 T2 Sh) as (s1 & -> & I1 & S1). rewrite bind_Ret. by apply Fin.
  - destruct (Z.eqb_spec ie _ERPINFO_IE_) as [->|N2].
    + destruct (erp_update c _ s erp m R2 Sh) as (s1 & -> & I1 & S1). rewrite bind_Ret. by apply Fin.
    + destruct (Z.eqb_spec ie _HT_ADD_INFO_IE_) as [->|N3].
      * destruct (ht_update c _ s erp m R3 R4 Sh) as (s1 & -> & I1 & S1). rewrite bind_Ret. by apply Fin.
      * rewrite bind_Ret. apply Fin; [apply ies_only_refl|done].
Qed.

(** The element with the HT operation mode is up to date. *)
Definition shows (s : ap_st) (erp : Z) : Prop := shape (map_size (tab s)) (bss s) erp (le_split 2 (ht_op_mode (bss s))).

(** The bits of the ERP element the non-ERP stations ask for. *)
Definition erp_right (s : ap_st) (erp : Z) : Prop := Z.land erp 3 = if 0 <? num_sta (bss s) nonerp then 3 else 0.

(** The beacon announces the protection the counters ask for. *)
Definition announced (c : bss_cfg) (s : ap_st) : Prop := exists erp, shows s erp /\ erp_right s erp /\ mode_ok c (bss s).

Lemma new_erp_low b x : Z.land (new_erp b x) 3 = if num_sta b nonerp =? 1 then 3 else 0.
Proof.
  assert (forall on y, Z.land (put_bits on RTW_ERP_INFO_BARKER_PREAMBLE_MODE y) 3 = Z.land y 3) as Hb.
  { intros [] y; cbn [put_bits]; [rewrite Z.land_lor_distr_l; apply Z.lor_0_r|].
    by rewrite Z.ldiff_land, <- Z.land_assoc. }
  unfold new_erp. rewrite Hb. destruct (num_sta b nonerp =? 1); cbn [put_bits].
  - rewrite Z.land_lor_distr_l. change (Z.land (Z.lor RTW_ERP_INFO_NON_ERP_PRESENT RTW_ERP_INFO_USE_PROTECTION) 3) with (Z.ones 2).
    change 3 with (Z.ones 2). rewrite Z.lor_comm, Z.lor_land_distr_r. change (Z.lor (Z.ones 2) (Z.ones 2)) with (Z.ones 2).
    apply Z.bits_inj'. intros j Hj. rewrite Z.land_spec, Z.lor_spec. by destruct (Z.testbit (Z.ones 2) j), (Z.testbit x j).
  - rewrite Z.ldiff_land, <- Z.land_assoc. change (Z.land (Z.lnot (Z.lor RTW_ERP_INFO_NON_ERP_PRESENT RTW_ERP_INFO_USE_PROTECTION)) 3) with 0. apply Z.land_0_r.
Qed.

Lemma shows_same s s' erp : tab s' = tab s -> bcn_same (bss s) (bss s') -> shows s erp -> shows s' erp.
Proof. intros E B. unfold shows. rewrite E, (bs_mode _ _ B). by apply bcn_same_shape. Qed.

Lemma shows_ies s s' erp' : ies_only s s' -> shape (map_size (tab s)) (bss s') erp' (le_split 2 (ht_op_mode (bss s))) -> shows s' erp'.
Proof. intros I. unfold shows. by rewrite (io_tab _ _ I), (io_mode _ _ I). Qed.

Lemma mode_ok_ext c b b' :
  num_sta b' = num_sta b -> ht_op_mode b' = ht_op_mode b -> olbc_ht b' = olbc_ht b -> mode_ok c b -> mode_ok c b'.
Proof. intros E1 E2 E3 [A B C]. split; unfold wanted_op_mode, some_sta in *; rewrite ?E1, ?E2, ?E3; done. Qed.

(** What [announce_ht] does: the flags and counters stay, the mode follows
    them and the beacon shows it. *)
Record ht_step (c : bss_cfg) (erp : Z) (s s' : ap_st) : Prop := {
  hs_more : more s' = more s;
  hs_num : num_sta (bss s') = num_sta (bss s);
  hs_step : forall i, cap_step i s s';
  hs_mode : mode_ok c (bss s');
  hs_shows : shows s' erp
}.

Lemma ies_more_num s s' : ies_only s s' -> more s' = more s /\ num_sta (bss s') = num_sta (bss s).
Proof. by intros []. Qed.

Lemma announce_ht_ok c s erp :
  ready c -> tim_ok (tab s) -> shows s erp ->
  exists u s', announce_ht c s = Ret (u, s') /\ ht_step c erp s s'.
Proof.
  intros R T Sh. unfold announce_ht. destruct (ht_operation_update_ok c (bss s) (rd_ht c R)) as (n & mode & -> & M & Hn & Hz).
  set (s1 := set_bss (set_op_mode mode (bss s)) s).
  assert (forall i, cap_step i s s1) as St by (intros i; split; try done; intros j; apply same_info_refl).
  destruct (Z.ltb_spec 0 n).
  - assert (shape (map_size (tab s1)) (bss s1) erp (le_split 2 (ht_op_mode (bss s)))) as Sh1 by (by apply (shape_ext _ (bss s))).
    destruct (beacon_update_ok c _HT_CAPABILITY_IE_ false s1 _ _ R T Sh1) as (s2 & -> & I2 & Sh2). rewrite bind_Ret.
    pose proof (io_tab _ _ I2) as E2. rewrite <- E2 in Sh2. assert (tim_ok (tab s2)) as T2 by (by rewrite E2).
    destruct (beacon_update_ok c _HT_ADD_INFO_IE_ false s2 _ _ R T2 Sh2) as (s3 & -> & I3 & Sh3). rewrite bind_Ret.
    pose proof (ies_only_trans _ _ _ I2 I3) as I. destruct (ies_more_num _ _ I) as [Em En].
    eexists true, s3. split; [done|]. split; try done.
    + intros i. eapply cap_step_trans; [apply St|by apply ies_only_step].
    + eapply (mode_ok_ext c (bss s1)); [done|by apply I..|done].
    + by apply (shows_ies s2).
  - assert (mode = ht_op_mode (bss s)) as -> by (apply Hz; lia). eexists _, s1. split; [done|]. split; try done.
    by apply (shows_same s); [|split|].
Qed.

(** ** Joining *)

(** The counters are not below the flags. *)
Definition gaps_ok (s : ap_st) : Prop := forall k, 0 <= gap s k.

Lemma gaps_step i s s' : cap_step i s s' -> gaps_ok s -> gaps_ok s'.
Proof. intros St G k. by rewrite (cs_gap _ _ _ St). Qed.

(** Several flags of [i] become what [v] says, those [v] says nothing about
    stay. *)
Record flags_step (i : nat) (v : legacy -> option bool) (s s' : ap_st) : Prop := {
  gs_step : cap_step i s s';
  gs_bcn : bcn_same (bss s) (bss s');
  gs_flag : forall k, lacks s' i k = default (lacks s i k) (v k);
  gs_num : forall k, v k = None -> num_sta (bss s') k = num_sta (bss s) k
}.

Definition no_flags : legacy -> option bool := fun _ => None.
Definition put_flag (k : legacy) (on : bool) (v : legacy -> option bool) : legacy -> option bool :=
  fun l => if decide (l = k) then Some on else v l.

Lemma flags_none i s : flags_step i no_flags s s.
Proof. by split; [apply cap_step_refl|..]. Qed.

Lemma flags_put i v k on s s1 s2 : flags_step i v s s1 -> flag_step i k on s1 s2 -> flags_step i (put_flag k on v) s s2.
Proof.
  intros [A B C D] [E F G H _]. unfold put_flag. split; [by eapply cap_step_trans|by eapply bcn_same_trans|..].
  - intros l. destruct (decide (l = k)) as [->|N]; [done|]. by rewrite (proj1 (H l N)).
  - intros l. destruct (decide (l = k)) as [->|N]; [done|]. intros E0. by rewrite (proj2 (H l N)), D.
Qed.

Lemma flags_ext i v v' s s' : (forall k, v k = v' k) -> flags_step i v s s' -> flags_step i v' s s'.
Proof. intros E [A B C D]. split; try done; intros k; rewrite <- E; [apply C|apply D]. Qed.

(** An entry of the table, and counters not below the flags. *)
Definition counts (i : nat) (s : ap_st) : Prop := (i < length (more s))%nat /\ gaps_ok s.

Lemma counts_step i j s s' : cap_step j s s' -> counts i s -> counts i s'.
Proof. intros St [A B]. split; [by rewrite (cs_len _ _ _ St)|by eapply gaps_step]. Qed.

Lemma mark_flags i v k s s1 : counts i s -> flags_step i v s s1 -> flags_step i (put_flag k true v) s (snd (mark i k s1)).
Proof.
  intros C F. destruct (counts_step _ _ _ _ (gs_step _ _ _ _ F) C) as [A B]. destruct (mark i k s1) as [e s2] eqn:E.
  eapply flags_put; [exact F|]. by destruct (mark_step i k s1 e s2 A (B k) E).
Qed.

Lemma unmark_flags i v k s s1 : counts i s -> flags_step i v s s1 -> flags_step i (put_flag k false v) s (snd (unmark i k s1)).
Proof.
  intros C F. destruct (counts_step _ _ _ _ (gs_step _ _ _ _ F) C) as [A B]. destruct (unmark i k s1) as [e s2] eqn:E.
  eapply flags_put; [exact F|]. by destruct (unmark_step i k s1 e s2 A (B k) E).
Qed.

Lemma track_flags on i v k s s1 e s2 :
  counts i s -> flags_step i v s s1 -> track on i k s1 = (e, s2) -> flags_step i (put_flag k on v) s s2.
Proof.
  intros C F E. destruct (counts_step _ _ _ _ (gs_step _ _ _ _ F) C) as [A B].
  eapply flags_put; [exact F|]. by destruct (track_step on i k s1 e s2 A (B k) E).
Qed.

(** What joining does to the flags: [None] leaves one as it was, which is all
    that happens where an HT station has the ability. *)
Definition join_flags (e : sta_info) (x : ap_info) (k : legacy) : option bool :=
  let ht := bit_test (sta_flags e) WLAN_STA_HT in
  let ht_capab := znth (ht_cap x) 0 + 256 * znth (ht_cap x) 1 in
  let once (on : bool) := if on then Some true else None in
  match k with
  | no_short_preamble => Some (negb (bit_test (sta_flags e) WLAN_STA_SHORT_PREAMBLE))
  | nonerp => Some (bit_test (sta_flags e) WLAN_STA_NONERP)
  | no_short_slot_time => Some (negb (bit_test (capability x) WLAN_CAPABILITY_SHORT_SLOT))
  | no_ht => Some (negb ht)
  | no_ht_gf => once (ht && negb (bit_test ht_capab IEEE80211_HT_CAP_GRN_FLD))
  | ht_20mhz => once (ht && negb (bit_test ht_capab IEEE80211_HT_CAP_SUP_WIDTH))
  | ht_40mhz_intolerant => once (ht && bit_test ht_capab RTW_IEEE80211_HT_CAP_40MHZ_INTOLERANT)
  end.

Definition is_ht_flag (k : legacy) : bool := bool_decide (k ∈ [no_ht; no_ht_gf; ht_20mhz; ht_40mhz_intolerant]).

Lemma join_ht_flags i s :
  counts i s -> flags_step i (fun k => if is_ht_flag k then join_flags (entry s i) (info s i) k else None) s (join_ht i s).
Proof.
  intros C. unfold join_ht. pose proof (flags_none i s) as F0.
  destruct (bit_test (sta_flags (entry s i)) WLAN_STA_HT) eqn:Eh.
  - pose proof (unmark_flags _ _ no_ht _ _ C F0) as F1.
    destruct (bit_test _ IEEE80211_HT_CAP_GRN_FLD) eqn:E1;
      [pose proof F1 as F2|pose proof (mark_flags _ _ no_ht_gf _ _ C F1) as F2]; clear F1;
      (destruct (bit_test _ IEEE80211_HT_CAP_SUP_WIDTH) eqn:E2;
      [pose proof F2 as F3|pose proof (mark_flags _ _ ht_20mhz _ _ C F2) as F3]; clear F2);
      (destruct (bit_test _ RTW_IEEE80211_HT_CAP_40MHZ_INTOLERANT) eqn:E3;
      [pose proof (mark_flags _ _ ht_40mhz_intolerant _ _ C F3) as F4|pose proof F3 as F4]; clear F3);
      (eapply flags_ext; [|exact F4]; intros []; unfold join_flags; rewrite ?Eh, ?E1, ?E2, ?E3; reflexivity).
  - eapply flags_ext; [|exact (mark_flags _ _ no_ht _ _ C F0)]. intros []; unfold join_flags; rewrite ?Eh; reflexivity.
Qed.

(** What the parts of joining and leaving keep. *)
Record good (s : ap_st) (erp : Z) : Prop := {
  gd_tim : tim_ok (tab s);
  gd_gaps : gaps_ok s;
  gd_shows : shows s erp;
  gd_right : erp_right s erp
}.

Definition flags_to (i : nat) (v : legacy -> option bool) (s s' : ap_st) : Prop :=
  cap_step i s s' /\ forall k, lacks s' i k = default (lacks s i k) (v k).

(** The later change [w] wins. *)
Definition later (w v : legacy -> option bool) : legacy -> option bool := fun k => match w k with Some b => Some b | None => v k end.

Lemma flags_to_trans i v w s1 s2 s3 : flags_to i v s1 s2 -> flags_to i w s2 s3 -> flags_to i (later w v) s1 s3.
Proof.
  intros [A B] [C D]. split; [by eapply cap_step_trans|]. intros k. unfold later. rewrite D. destruct (w k); [done|apply B].
Qed.

Lemma flags_to_none i s s' : cap_step i s s' -> more s' = more s -> flags_to i no_flags s s'.
Proof. intros A E. split; [done|]. intros k. cbn. unfold lacks, info. by rewrite E. Qed.

Lemma flags_to_ies i s s' : ies_only s s' -> flags_to i no_flags s s'.
Proof. intros I. apply flags_to_none; [by apply ies_only_step|apply I]. Qed.

Lemma counts_to i v s s' : flags_to i v s s' -> counts i s -> counts i s'.
Proof. intros [A _]. exact (counts_step _ _ _ _ A). Qed.

Lemma good_flags i v s s' erp : flags_step i v s s' -> v nonerp = None -> good s erp -> good s' erp.
Proof.
  intros [A B C D] N [G1 G2 G3 G4]. split.
  - by rewrite (cs_tab _ _ _ A).
  - by eapply gaps_step.
  - by apply (shows_same s); [apply A|..].
  - unfold erp_right. by rewrite (D _ N).
Qed.

Lemma good_ies s s' erp erp' : ies_only s s' -> shows s' erp' -> erp_right s erp' -> good s erp -> good s' erp'.
Proof.
  intros I Sh R [G1 G2 _ _]. split; try done.
  - by rewrite (io_tab _ _ I).
  - by eapply gaps_step; [apply (ies_only_step 0)|].
  - unfold erp_right. by rewrite (io_num _ _ I).
Qed.

Lemma good_ht c s s' erp : ht_step c erp s s' -> good s erp -> good s' erp.
Proof.
  intros [A B C D E] [G1 G2 _ G4]. split; try done.
  - by rewrite (cs_tab _ _ _ (C 0%nat)).
  - by eapply gaps_step; [apply (C 0%nat)|].
  - unfold erp_right. by rewrite B.
Qed.

(** The non-ERP part. *)
Lemma erp_block c on i s erp u s1 :
  ready c -> counts i s -> good s erp -> track on i nonerp s = (u, s1) ->
  exists s2 erp', (if u then update_beacon c _ERPINFO_IE_ false s1 else Ret s1) = Ret s2 /\ good s2 erp' /\
    flags_to i (put_flag nonerp on no_flags) s s2.
Proof.
  intros R [Hi Hg] G E. destruct (track_step _ _ _ _ _ _ Hi (Hg nonerp) E) as [F Hn].
  pose proof (flags_put _ _ _ _ _ _ _ (flags_none i s) F) as [A B C _]. destruct G as [G1 G2 G3 G4].
  assert (tim_ok (tab s1)) as T1 by (by rewrite (cs_tab _ _ _ A)).
  pose proof (shows_same _ _ _ (cs_tab _ _ _ A) B G3) as Sh1. destruct u.
  - destruct (beacon_update_ok c _ERPINFO_IE_ false s1 _ _ R T1 Sh1) as (s2 & -> & I & Sh2).
    exists s2, (new_erp (bss s1) erp). split; [done|]. split.
    + split; [by rewrite (io_tab _ _ I)| | |].
      * eapply gaps_step; [by apply (ies_only_step i)|]. by eapply gaps_step.
      * by apply (shows_ies s1).
      * unfold erp_right. rewrite new_erp_low, (io_num _ _ I), Hn. by destruct on.
    + pose proof (flags_to_trans _ _ _ _ _ _ (conj A C) (flags_to_ies i _ _ I)) as H. exact H.
  - exists s1, erp. split; [done|]. split; [|by split]. split; try done; [by eapply gaps_step|].
    unfold erp_right. by rewrite Hn.
Qed.

Lemma tx_block c (u : bool) s erp :
  ready c -> good s erp ->
  exists s', (if u then update_beacon c 0xFF true s else Ret s) = Ret s' /\ ies_only s s' /\ good s' erp.
Proof.
  intros R G. destruct u; [|exists s; split; [done|]; by split; [apply ies_only_refl|]].
  destruct (beacon_update_ok c 0xFF true s _ _ R (gd_tim _ _ G) (gd_shows _ _ G)) as (s' & -> & I & Sh).
  exists s'. split; [done|]. split; [done|]. apply (good_ies s s' erp); try done; [by apply (shows_ies s)|apply G].
Qed.

Lemma mode_ies c s s' : ies_only s s' -> mode_ok c (bss s) -> mode_ok c (bss s').
Proof. intros I. apply mode_ok_ext; apply I. Qed.

(** The station joins: its flags are the ones its capabilities ask for, the
    counters and the beacon follow. *)
Lemma join_ok c i s :
  ready c -> tim_ok (tab s) -> counts i s -> announced c s ->
  exists s', bss_cap_update_on_sta_join c i s = Ret s' /\ flags_to i (join_flags (entry s i) (info s i)) s s' /\ announced c s'.
Proof.
  intros R T C (erp & Sh & Er & M). unfold bss_cap_update_on_sta_join.
  assert (good s erp) as G by (by split; [|apply C|..]).
  destruct (track _ i no_short_preamble s) as [e1 s1] eqn:T1.
  pose proof (track_flags _ _ _ _ _ _ _ _ C (flags_none i s) T1) as F1. pose proof (good_flags _ _ _ _ _ F1 eq_refl G) as G1.
  assert (flags_to i _ s s1) as F1' by (exact (conj (gs_step _ _ _ _ F1) (gs_flag _ _ _ _ F1))).
  pose proof (counts_to _ _ _ _ F1' C) as C1.
  destruct (track _ i nonerp s1) as [u2 s2] eqn:T2.
  destruct (erp_block _ _ _ _ _ _ _ R C1 G1 T2) as (s3 & erp' & -> & G3 & F3). rewrite bind_Ret.
  pose proof (flags_to_trans _ _ _ _ _ _ F1' F3) as F3'. pose proof (counts_to _ _ _ _ F3' C) as C3.
  destruct (track _ i no_short_slot_time s3) as [e3 s4] eqn:T4.
  pose proof (track_flags _ _ _ _ _ _ _ _ C3 (flags_none i s3) T4) as F4. pose proof (good_flags _ _ _ _ _ F4 eq_refl G3) as G4.
  pose proof (flags_to_trans _ _ _ _ _ _ F3' (conj (gs_step _ _ _ _ F4) (gs_flag _ _ _ _ F4))) as F4'.
  pose proof (counts_to _ _ _ _ F4' C) as C4. rewrite (rd_on c R).
  pose proof (join_ht_flags i s4 C4) as F5. pose proof (good_flags _ _ _ _ _ F5 eq_refl G4) as G5.
  destruct (announce_ht_ok c (join_ht i s4) erp' R (gd_tim _ _ G5) (gd_shows _ _ G5)) as (u4 & s6 & -> & H6).
  rewrite !bind_Ret. pose proof (good_ht _ _ _ _ H6 G5) as G6.
  destruct (tx_block c (((WIRELESS_11B <? cur_wireless_mode c) && e1) || u2 || ((WIRELESS_11B <? cur_wireless_mode c) && e3) || u4)
    s6 erp' R G6) as (s7 & -> & I7 & G7). rewrite bind_Ret. eexists. split; [done|].

  assert (entry s3 i = entry s i /\ entry s4 i = entry s i) as [E3 E4].
  { unfold entry. by rewrite (cs_tab _ _ _ (proj1 F3')), (cs_tab _ _ _ (proj1 F4')). }
  pose proof (cs_info _ _ _ (proj1 F3') i) as I3. pose proof (cs_info _ _ _ (proj1 F4') i) as I4.
  assert (flags_to i no_flags s6 (clients_update (((WIRELESS_11B <? cur_wireless_mode c) && e1) || u2 || ((WIRELESS_11B <? cur_wireless_mode c) && e3) || u4) s7)) as F7.
  { eapply (flags_to_ies i). eapply ies_only_trans; [exact I7|]. unfold clients_update. case_match; [apply ies_only_call|apply ies_only_refl]. }
  split.
  - pose proof (flags_to_trans _ _ _ _ _ _ F4' (conj (gs_step _ _ _ _ F5) (gs_flag _ _ _ _ F5))) as F5'.
    pose proof (flags_to_trans _ _ _ _ _ _ F5' (flags_to_none i _ _ (hs_step _ _ _ _ H6 i) (hs_more _ _ _ _ H6))) as F6'.
    pose proof (flags_to_trans _ _ _ _ _ _ F6' F7) as [St Fl]. split; [done|]. intros k. rewrite Fl. f_equal.
    unfold join_flags, later. rewrite E4, I3, I4. destruct k; try done; cbn; by case_match.
  - exists erp'. assert (bss (clients_update (((WIRELESS_11B <? cur_wireless_mode c) && e1) || u2 || ((WIRELESS_11B <? cur_wireless_mode c) && e3) || u4) s7) = bss s7 /\
      tab (clients_update (((WIRELESS_11B <? cur_wireless_mode c) && e1) || u2 || ((WIRELESS_11B <? cur_wireless_mode c) && e3) || u4) s7) = tab s7) as [Eb Et] by (unfold clients_update; by case_match).
    unfold shows, erp_right. rewrite Eb, Et. split_and!; [apply G7|apply G7|]. eapply mode_ies; [done|apply H6].
Qed.

(** ** Leaving *)

Lemma tim_clear_length p id : zlen (rtw_tim_map_clear p (tim_bitmap p) id) = zlen (tim_bitmap p).
Proof. unfold rtw_tim_map_clear, rtw_bmp_clear. case_match; [|done]. unfold zlen. by rewrite length_insert. Qed.

(** The traffic map after a station has left. *)
Definition left_tab (s : ap_st) (i : nat) : sta_priv :=
  if rtw_tim_map_is_set (tab s) (tim_bitmap (tab s)) (aid (entry s i))
  then set_maps (tab s) (sta_dz_bitmap (tab s)) (rtw_tim_map_clear (tab s) (tim_bitmap (tab s)) (aid (entry s i)))
  else tab s.

Lemma set_tab_same s : set_tab (tab s) s = s.
Proof. by destruct s. Qed.

Lemma good_tab p s erp : map_size p = map_size (tab s) -> zlen (tim_bitmap p) = zlen (tim_bitmap (tab s)) -> good s erp -> good (set_tab p s) erp.
Proof.
  intros E1 E2 [[T1 T2] G2 G3 G4]. split; try done.
  - split; cbn [tab set_tab]; [by rewrite E1, E2|by rewrite E1].
  - unfold shows. cbn [tab set_tab]. by rewrite E1.
Qed.

Lemma left_tab_sizes s i : map_size (left_tab s i) = map_size (tab s) /\ zlen (tim_bitmap (left_tab s i)) = zlen (tim_bitmap (tab s)).
Proof. unfold left_tab. case_match; [|done]. split; [done|]. apply tim_clear_length. Qed.

(** The traffic map part. *)
Lemma tim_block c i s erp :
  ready c -> good s erp ->
  exists s', (if rtw_tim_map_is_set (tab s) (tim_bitmap (tab s)) (aid (entry s i))
              then update_beacon c _TIM_IE_ false
                (set_tab (set_maps (tab s) (sta_dz_bitmap (tab s)) (rtw_tim_map_clear (tab s) (tim_bitmap (tab s)) (aid (entry s i)))) s)
              else Ret s) = Ret s' /\ ies_only (set_tab (left_tab s i) s) s' /\ good s' erp.
Proof.
  intros R G. destruct (left_tab_sizes s i) as [E1 E2]. pose proof (good_tab _ _ _ E1 E2 G) as G1. unfold left_tab in *.
  destruct (rtw_tim_map_is_set _ _ _).
  - destruct (beacon_update_ok c _TIM_IE_ false _ _ _ R (gd_tim _ _ G1) (gd_shows _ _ G1)) as (s' & -> & I & Sh).
    exists s'. split; [done|]. split; [done|]. eapply good_ies; [exact I|by eapply shows_ies|apply G1|exact G1].
  - exists s. rewrite set_tab_same. split; [done|]. by split; [apply ies_only_refl|].
Qed.

Lemma unmark_intolerant_flags i v s s1 :
  counts i s -> flags_step i v s s1 -> flags_step i (put_flag ht_40mhz_intolerant false v) s (unmark_intolerant i s1).
Proof.
  intros C F. destruct (counts_step _ _ _ _ (gs_step _ _ _ _ F) C) as [A B]. eapply flags_put; [exact F|]. by apply unmark_intolerant_step.
Qed.

(** The station leaves: its flags and its bit in the map are cleared, the
    counters and the beacon follow. *)
Lemma leave_ok c i s :
  ready c -> tim_ok (tab s) -> counts i s -> announced c s ->
  exists u s', bss_cap_update_on_sta_leave c i s = Ret (u, s') /\
    flags_to i (fun _ => Some false) (set_tab (left_tab s i) s) s' /\ announced c s'.
Proof.
  intros R T C (erp & Sh & Er & M). unfold bss_cap_update_on_sta_leave.
  assert (good s erp) as G by (by split; [|apply C|..]).
  destruct (tim_block c i s erp R G) as (s0 & -> & I0 & G0). rewrite bind_Ret.
  pose proof (flags_to_ies i _ _ I0) as F0. set (sb := set_tab (left_tab s i) s) in *.
  assert (counts i s0) as C0 by (exact (counts_to _ _ _ _ F0 C)).
  destruct (unmark i no_short_preamble s0) as [e1 s1] eqn:T1. change (unmark i no_short_preamble s0) with (track false i no_short_preamble s0) in T1.
  pose proof (track_flags _ _ _ _ _ _ _ _ C0 (flags_none i s0) T1) as F1. pose proof (good_flags _ _ _ _ _ F1 eq_refl G0) as G1.
  pose proof (flags_to_trans _ _ _ _ _ _ F0 (conj (gs_step _ _ _ _ F1) (gs_flag _ _ _ _ F1))) as F1'. pose proof (counts_to _ _ _ _ F1' C) as C1.
  destruct (unmark i nonerp s1) as [u2 s2] eqn:T2. change (unmark i nonerp s1) with (track false i nonerp s1) in T2.
  destruct (erp_block _ _ _ _ _ _ _ R C1 G1 T2) as (s3 & erp' & -> & G3 & F3). rewrite bind_Ret.
  pose proof (flags_to_trans _ _ _ _ _ _ F1' F3) as F3'. pose proof (counts_to _ _ _ _ F3' C) as C3.
  destruct (unmark i no_short_slot_time s3) as [e3 s4] eqn:T4. change (unmark i no_short_slot_time s3) with (track false i no_short_slot_time s3) in T4.
  pose proof (track_flags _ _ _ _ _ _ _ _ C3 (flags_none i s3) T4) as F4.
  pose proof (unmark_flags _ _ no_ht_gf _ _ C3 F4) as F5. pose proof (unmark_flags _ _ no_ht _ _ C3 F5) as F6.
  pose proof (unmark_flags _ _ ht_20mhz _ _ C3 F6) as F7. pose proof (unmark_intolerant_flags _ _ _ _ C3 F7) as F8.
  set (s5 := unmark_intolerant i _) in *. clear F4 F5 F6 F7. pose proof (good_flags _ _ _ _ _ F8 eq_refl G3) as G5.
  destruct (announce_ht_ok c s5 erp' R (gd_tim _ _ G5) (gd_shows _ _ G5)) as (u4 & s6 & -> & H6).
  rewrite bind_Ret. pose proof (good_ht _ _ _ _ H6 G5) as G6.
  match goal with |- context [if ?u then update_beacon c 0xFF true s6 else _] => destruct (tx_block c u s6 erp' R G6) as (s7 & -> & I7 & G7) end.
  rewrite bind_Ret. eexists _, s7. split; [done|]. split.
  - pose proof (flags_to_trans _ _ _ _ _ _ F3' (conj (gs_step _ _ _ _ F8) (gs_flag _ _ _ _ F8))) as F8'.
    pose proof (flags_to_trans _ _ _ _ _ _ F8' (flags_to_none i _ _ (hs_step _ _ _ _ H6 i) (hs_more _ _ _ _ H6))) as F9.
    pose proof (flags_to_trans _ _ _ _ _ _ F9 (flags_to_ies i _ _ I7)) as [St Fl]. split; [done|]. intros k. rewrite Fl. by destruct k.
  - exists erp'. split; [apply G7|]. split; [apply G7|]. eapply mode_ies; [done|apply H6].
Qed.

(** ** Runs *)

(** A station associates (the flags, the capability field and the HT
    capabilities are those its request left in the entry), or leaves. *)
Inductive bss_event :=
| associates (i : nat) (flags cap : Z) (ht : bytes)
| leaves (i : nat).

Definition event_entry (ev : bss_event) : nat := match ev with associates i _ _ _ | leaves i => i end.

Definition request (i : nat) (flags cap : Z) (ht : bytes) (s : ap_st) : ap_st :=
  upd_info i (fun x => set_ht ht (ht_op x) (set_capability cap x)) (upd_entry i (set_flags flags) s).

Definition bss_step (c : bss_cfg) (ev : bss_event) (s : ap_st) : res ap_st :=
  match ev with
  | associates i flags cap ht => bss_cap_update_on_sta_join c i (request i flags cap ht s)
  | leaves i => r ← bss_cap_update_on_sta_leave c i s; Ret (snd (r : bool * ap_st))
  end.

Fixpoint bss_run (c : bss_cfg) (evs : list bss_event) (s : ap_st) : res ap_st :=
  match evs with [] => Ret s | ev :: evs => s ← bss_step c ev s; bss_run c evs s end.

(** What a request, by its station flags, capability field and HT
    capabilities, says the station lacks. *)
Definition request_lack (r : Z * Z * bytes) (k : legacy) : bool :=
  let '(flags, cap, ht) := r in
  let is_ht := bit_test flags WLAN_STA_HT in
  let ht_capab := znth ht 0 + 256 * znth ht 1 in
  match k with
  | no_short_preamble => negb (bit_test flags WLAN_STA_SHORT_PREAMBLE)
  | nonerp => bit_test flags WLAN_STA_NONERP
  | no_short_slot_time => negb (bit_test cap WLAN_CAPABILITY_SHORT_SLOT)
  | no_ht => negb is_ht
  | no_ht_gf => is_ht && negb (bit_test ht_capab IEEE80211_HT_CAP_GRN_FLD)
  | ht_20mhz => is_ht && negb (bit_test ht_capab IEEE80211_HT_CAP_SUP_WIDTH)
  | ht_40mhz_intolerant => is_ht && bit_test ht_capab RTW_IEEE80211_HT_CAP_40MHZ_INTOLERANT
  end.

(** What the entry [i] has gone through: the flags it started from and the
    requests since, oldest first. Leaving clears both. *)
Definition history : Type := (legacy -> bool) * list (Z * Z * bytes).

Definition hears (i : nat) (h : history) (ev : bss_event) : history :=
  match ev with
  | associates j flags cap ht => if decide (j = i) then (h.1, h.2 ++ [(flags, cap, ht)]) else h
  | leaves j => if decide (j = i) then (fun _ => false, []) else h
  end.

Definition stay (i : nat) (had : legacy -> bool) (evs : list bss_event) : history := foldl (hears i) (had, []) evs.

(** The three HT abilities are recorded as lacking from the first request that
    lacks them until the station leaves; the others follow the last request. *)
Definition kept_until_leave (k : legacy) : bool := bool_decide (k ∈ [no_ht_gf; ht_20mhz; ht_40mhz_intolerant]).

Definition recorded (h : history) (k : legacy) : bool :=
  if kept_until_leave k then h.1 k || existsb (fun r => request_lack r k) h.2
  else match last h.2 with Some r => request_lack r k | None => h.1 k end.

Definition asked_for (flags cap : Z) (ht : bytes) : legacy -> option bool :=
  join_flags (set_flags flags _rtw_init_stainfo) (set_ht ht None (set_capability cap ap_info_zero)).

Lemma recorded_request h flags cap ht k :
  recorded (h.1, h.2 ++ [(flags, cap, ht)]) k = default (recorded h k) (asked_for flags cap ht k).
Proof.
  assert (forall b d : bool, default d (if b then Some true else None) = d || b) as D by (intros [] []; done).
  unfold recorded. cbn [fst snd]. rewrite last_snoc, existsb_app, orb_assoc. cbn [existsb]. rewrite orb_false_r.
  unfold asked_for, join_flags. cbv zeta. destruct k; try reflexivity; rewrite D; reflexivity.
Qed.

Definition anyone (s : ap_st) (k : legacy) : bool := existsb (fun x => legacy_set x k) (more s).

(** The protection the stations need. *)
Record protects (c : bss_cfg) (s : ap_st) (erp mode : Z) : Prop := {
  pr_erp : Z.land erp (Z.lor RTW_ERP_INFO_NON_ERP_PRESENT RTW_ERP_INFO_USE_PROTECTION) =
    if anyone s nonerp then Z.lor RTW_ERP_INFO_NON_ERP_PRESENT RTW_ERP_INFO_USE_PROTECTION else 0;
  pr_gf : bit_test mode HT_INFO_OPERATION_MODE_NON_GF_DEVS_PRESENT = anyone s no_ht_gf;
  pr_nonht : bit_test mode HT_INFO_OPERATION_MODE_NON_HT_STA_PRESENT = anyone s no_ht || olbc_ht (bss s);
  pr_mode : Z.land mode HT_INFO_OPERATION_MODE_OP_MODE_MASK =
    if anyone s no_ht then OP_MODE_MIXED
    else if bit_test (ap_ht_cap_info c) IEEE80211_HT_CAP_SUP_WIDTH && anyone s ht_20mhz then OP_MODE_20MHZ_HT_STA_ASSOCED
    else if olbc_ht (bss s) then OP_MODE_MAY_BE_LEGACY_STAS else OP_MODE_PURE
}.

Lemma anyone_num s k : gap s k = 0 -> some_sta (bss s) k = anyone s k /\ (0 <? num_sta (bss s) k) = anyone s k.
Proof.
  intros G. assert (num_sta (bss s) k = counted k (more s)) as E by (unfold gap in G; lia). unfold some_sta, anyone. rewrite E. clear.
  induction (more s) as [|x l [IH1 IH2]]; [done|]. cbn. pose proof (counted_nonneg k l).
  destruct (legacy_set x k); cbn [Z.b2z orb]; [|by split].
  destruct (Z.eqb_spec (1 + counted k l) 0), (Z.ltb_spec 0 (1 + counted k l)); split; lia || done.
Qed.

Lemma announced_protects c s : (forall k, gap s k = 0) -> announced c s -> exists erp, shows s erp /\ protects c s erp (ht_op_mode (bss s)).
Proof.
  intros G (erp & Sh & R & [A B C]). exists erp. split; [done|].
  assert (forall k, some_sta (bss s) k = anyone s k) as E1 by (intros k; apply anyone_num, G).
  assert (forall k, (0 <? num_sta (bss s) k) = anyone s k) as E2 by (intros k; apply anyone_num, G).
  unfold wanted_op_mode in C. rewrite E1 in A, B, C. rewrite E1 in C. split.
  - unfold erp_right in R. rewrite E2 in R. exact R.
  - unfold HT_INFO_OPERATION_MODE_NON_GF_DEVS_PRESENT. by rewrite bit_test_testbit.
  - unfold HT_INFO_OPERATION_MODE_NON_HT_STA_PRESENT. by rewrite bit_test_testbit.
  - exact C.
Qed.

(** What a run needs and keeps. *)
Record bss_ok (c : bss_cfg) (s : ap_st) : Prop := {
  ok_tim : tim_ok (tab s);
  ok_len : length (stainfo_buf (tab s)) = length (more s);
  ok_gap : forall k, gap s k = 0;
  ok_announced : announced c s
}.

Lemma upd_sta_sizes p i f : map_size (upd_sta p i f) = map_size p /\ tim_bitmap (upd_sta p i f) = tim_bitmap p /\
  length (stainfo_buf (upd_sta p i f)) = length (stainfo_buf p).
Proof. split_and!; try done. apply length_alter. Qed.

Lemma request_lacks i flags cap ht s j k : lacks (request i flags cap ht s) j k = lacks s j k.
Proof.
  unfold lacks, request. rewrite info_upd. change (more (upd_entry i ?f s)) with (more s). change (info (upd_entry i ?f s) j) with (info s j).
  destruct (decide (i = j)) as [<-|]; [|done]. unfold info. by destruct (more s !! i).
Qed.

Lemma counted_same_flags k f i l : (forall x, legacy_set (f x) k = legacy_set x k) -> counted k (alter f i l) = counted k l.
Proof.
  intros E. revert i. induction l as [|x l IH]; intros [|i]; cbn; [done|done|by rewrite E|].
  change (alter f (S i) (x :: l)) with (x :: alter f i l). by rewrite <- (IH i).
Qed.

Lemma request_ok c i flags cap ht s :
  bss_ok c s -> (i < length (more s))%nat -> bss_ok c (request i flags cap ht s) /\
  join_flags (entry (request i flags cap ht s) i) (info (request i flags cap ht s) i) = asked_for flags cap ht.
Proof.
  intros [[T1 T2] L G (erp & Sh & R & M)] Hi. destruct (upd_sta_sizes (tab s) i (set_flags flags)) as (E1 & E2 & E3).
  split; [split|].
  - by split.
  - cbn. by rewrite !length_alter.
  - intros k. rewrite <- (G k). unfold gap. cbn. by rewrite counted_same_flags.
  - exists erp. by split_and!.
  - destruct (lookup_lt_is_Some_2 (more s) i Hi) as [x Hx]. rewrite <- L in Hi. destruct (lookup_lt_is_Some_2 _ i Hi) as [e He].
    unfold request. rewrite info_upd, decide_True by done. change (more (upd_entry i ?f s)) with (more s). rewrite Hx.
    unfold entry. cbn. rewrite list_lookup_alter_eq, He. done.
Qed.

Lemma ok_counts c i s : bss_ok c s -> (i < length (more s))%nat -> counts i s.
Proof. intros K Hi. split; [done|]. intros k. by rewrite (ok_gap _ _ K). Qed.

Lemma step_lacks i v s s' j k : flags_to i v s s' -> lacks s' j k = if decide (i = j) then default (lacks s j k) (v k) else lacks s j k.
Proof. intros [A B]. destruct (decide (i = j)) as [<-|N]; [apply B|]. apply (cs_others _ _ _ A). congruence. Qed.

Lemma bss_step_ok c ev s :
  ready c -> bss_ok c s -> (event_entry ev < length (more s))%nat ->
  exists s', bss_step c ev s = Ret s' /\ bss_ok c s' /\ length (more s') = length (more s) /\ olbc_ht (bss s') = olbc_ht (bss s) /\
    forall i h, (forall k, lacks s i k = recorded h k) -> forall k, lacks s' i k = recorded (hears i h ev) k.
Proof.
  intros R K Hi. destruct ev as [j flags cap ht|j]; cbn [event_entry bss_step hears] in *.
  - destruct (request_ok c j flags cap ht s K Hi) as [K1 Ev]. set (s1 := request j flags cap ht s) in *.
    assert (length (more s1) = length (more s)) as L1 by apply length_alter.
    destruct (join_ok c j s1 R (ok_tim _ _ K1)) as (s' & -> & F & An); [apply (ok_counts c); [done|by rewrite L1]|apply K1|].
    rewrite Ev in F. pose proof F as [St _]. exists s'. split; [done|]. split_and!.
    + split; [by rewrite (cs_tab _ _ _ St); apply K1|by rewrite (cs_tab _ _ _ St), (cs_len _ _ _ St); apply K1| |done].
      intros k. rewrite (cs_gap _ _ _ St). apply K1.
    + by rewrite (cs_len _ _ _ St).
    + by rewrite (cs_olbc _ _ _ St).
    + intros i h Hh k. rewrite (step_lacks _ _ _ _ _ _ F). unfold s1. rewrite request_lacks, Hh.
      destruct (decide (j = i)); [by rewrite recorded_request|done].
  - destruct (leave_ok c j s R (ok_tim _ _ K) (ok_counts _ _ _ K Hi) (ok_announced _ _ K)) as (u & s' & -> & F & An).
    rewrite bind_Ret. cbn [snd]. pose proof F as [St _]. destruct (left_tab_sizes s j) as [E1 E2]. exists s'. split; [done|]. split_and!.
    + split; [| | |done].
      * rewrite (cs_tab _ _ _ St). destruct (ok_tim _ _ K). split; cbn [tab set_tab]; by rewrite E1, ?E2.
      * rewrite (cs_tab _ _ _ St), (cs_len _ _ _ St). cbn [tab set_tab more]. rewrite <- (ok_len _ _ K). unfold left_tab. by case_match.
      * intros k. rewrite (cs_gap _ _ _ St). apply (ok_gap _ _ K).
    + by rewrite (cs_len _ _ _ St).
    + by rewrite (cs_olbc _ _ _ St).
    + intros i h Hh k. rewrite (step_lacks _ _ _ _ _ _ F).
      destruct (decide (j = i)); [|exact (Hh k)]. unfold recorded. cbn. by destruct (kept_until_leave k).
Qed.

Lemma bss_run_ok c evs s :
  ready c -> bss_ok c s -> Forall (fun ev => (event_entry ev < length (more s))%nat) evs ->
  exists s', bss_run c evs s = Ret s' /\ bss_ok c s' /\ length (more s') = length (more s) /\ olbc_ht (bss s') = olbc_ht (bss s) /\
    forall i h, (forall k, lacks s i k = recorded h k) -> forall k, lacks s' i k = recorded (foldl (hears i) h evs) k.
Proof.
  intros R. revert s. induction evs as [|ev evs IH]; intros s K F.
  - by exists s.
  - apply Forall_cons in F as [Hi F]. destruct (bss_step_ok c ev s R K Hi) as (s1 & E1 & K1 & L1 & O1 & W1).
    rewrite <- L1 in F. destruct (IH s1 K1 F) as (s' & E & K' & L' & O' & W'). exists s'. cbn [bss_run]. rewrite E1, bind_Ret.
    split_and!; try done; try congruence. intros i h Hh. cbn [foldl]. apply W'. by apply W1.
Qed.


(** A started access point without stations on channel 6. *)
Definition ex_cfg : bss_cfg := mk_bcfg true true true true true 11 6 0 0 (0x6e) true.
Definition ex_elems : list tlv :=
  [(0, [116; 101; 115; 116]); (_TIM_IE_, [0; 1; 0; 0]); (_ERPINFO_IE_, [0]); (_HT_ADD_INFO_IE_, 6 :: replicate 21 0)].
Definition ex_bss : bss_cap := mk_bss (fun _ => 0) false false false false 0 false (bcn (replicate 12 0) (replicate 40 0) ex_elems) (bcn_len ex_elems).
Definition ex_start : ap_st := mk_ap (_rtw_init_sta_priv 4 []) (replicate 32 ap_info_zero) [] 0 ex_bss 0 [] [].

Lemma ex_start_ok : ready ex_cfg /\ bss_ok ex_cfg ex_start.
Proof.
  split; [by split|]. split; try done.
  exists 0. split; [|split; [done|by split]]. exists (replicate 12 0), (replicate 40 0), ex_elems. split; try done.
  - by exists [].
  - by exists 6, 0, (replicate 18 0).
  - exists [0; 1; 0; 0]. split; [done|]. split; [done|]. vm_compute. done.
Qed.

(** An 802.11b station, a 40 MHz HT station; the first one leaves. *)
Definition ex_history : list bss_event :=
  [associates 0 (Z.lor WLAN_STA_NONERP WLAN_STA_SHORT_PREAMBLE) 0 (replicate 26 0);
   associates 1 (Z.lor WLAN_STA_HT WLAN_STA_SHORT_PREAMBLE) WLAN_CAPABILITY_SHORT_SLOT (0x6e :: replicate 25 0); leaves 0].


(** When the last station without HT leaves, the HT operation element of the
    buffer changes, but no beacon is sent: the message for the firmware is
    left out. *)
Definition g_station : list bss_event := [associates 0 WLAN_STA_SHORT_PREAMBLE WLAN_CAPABILITY_SHORT_SLOT (replicate 26 0)].

Theorem mode_change_not_sent :
  exists s1 s2, bss_run ex_cfg g_station ex_start = Ret s1 /\ bss_run ex_cfg [leaves 0] s1 = Ret s2 /\
    ht_op_mode (bss s1) = Z.lor OP_MODE_MIXED HT_INFO_OPERATION_MODE_NON_HT_STA_PRESENT /\ ht_op_mode (bss s2) = OP_MODE_PURE /\
    bss_ies (bss s2) <> bss_ies (bss s1) /\ ap_out s1 = [set_tx_beacon_cmd; associated_clients_update] /\ ap_out s2 = ap_out s1.
Proof.
  eexists _, _. split; [vm_compute; reflexivity|]. split; [vm_compute; reflexivity|]. vm_compute. split_and!; try reflexivity. discriminate.
Qed.

(** An HT station that associates again with greenfield support stays counted
    as one without: [bss_cap_update_on_sta_join] sets the HT flags but never
    clears them, and the access point goes on announcing a station without
    greenfield. *)
Definition gf_station (ht_capab : Z) : bss_event :=
  associates 0 (Z.lor WLAN_STA_HT WLAN_STA_SHORT_PREAMBLE) WLAN_CAPABILITY_SHORT_SLOT (ht_capab :: replicate 25 0).

Theorem greenfield_flag_kept_on_rejoin :
  exists s, bss_run ex_cfg [gf_station 0x6e; gf_station 0x7e] ex_start = Ret s /\
    bit_test 0x7e IEEE80211_HT_CAP_GRN_FLD = true /\ lacks s 0 no_ht_gf = true /\
    bit_test (ht_op_mode (bss s)) HT_INFO_OPERATION_MODE_NON_GF_DEVS_PRESENT = true.
Proof. eexists. split; [vm_compute; reflexivity|]. vm_compute. auto. Qed.
