(* ===== verification/ApParse.v ===== *)
(** * The contents of an association request (core/rtw_ap.c)

    The functions that read the capability field, the rates, the security
    element, the WMM element and the HT elements of a (re)association request
    into the entry of the station, and the security policy of the access
    point. *)

From S2P Require Import Prelude RxFrame Reorder SwCrypt StaMgt Acl RxCheck MgmtProtect Ie Elems Rsn ApState ApBss.

(** ** Constants *)

Definition WLAN_STA_WME : Z := BIT 9.
Definition WLAN_STA_MFP : Z := BIT 10.
Definition WLAN_STA_WPS : Z := BIT 12.
Definition WLAN_STA_MAYBE_WPS : Z := BIT 13.
Definition WLAN_STA_VHT : Z := BIT 14.
Definition WLAN_STA_MULTI_AP : Z := BIT 16.
Definition WLAN_STA_AMSDU_DISABLE : Z := BIT 17.
Definition WLAN_CAPABILITY_SHORT_PREAMBLE : Z := BIT 5.

Definition _STATS_SUCCESSFUL_ : Z := 0.
Definition _STATS_FAILURE_ : Z := 1.
Definition _STATS_UNABLE_HANDLE_STA_ : Z := 17.
Definition WLAN_STATUS_ROBUST_MGMT_FRAME_POLICY_VIOLATION : Z := 31.
Definition WLAN_STATUS_INVALID_IE : Z := 40.
Definition WLAN_STATUS_GROUP_CIPHER_NOT_VALID : Z := 41.
Definition WLAN_STATUS_PAIRWISE_CIPHER_NOT_VALID : Z := 42.
Definition WLAN_STATUS_AKMP_NOT_VALID : Z := 43.
Definition WLAN_STATUS_CIPHER_REJECTED_PER_POLICY : Z := 46.
Definition WLAN_STATUS_INVALID_PMKID : Z := 53.

Definition MFP_NO : Z := 0.
Definition MFP_OPTIONAL : Z := 2.
Definition MFP_REQUIRED : Z := 3.
Definition WLAN_AUTH_OPEN : Z := 0.
Definition WLAN_AUTH_SAE : Z := 3.
Definition WLAN_AKM_TYPE_SAE : Z := BIT 7.
Definition SPP_CAP : Z := BIT 0.
Definition SPP_REQ : Z := BIT 1.
Definition RTW_AMSDU_MODE_NON_SPP : Z := 0.
Definition RTW_AMSDU_MODE_SPP : Z := 1.
Definition RTW_AMSDU_MODE_ALL_DROP : Z := 2.
Definition WPS_ATTR_SELECTED_REGISTRAR : Z := 0x1041.
Definition HT_OP_IE_LEN : Z := 22.
Definition HT_CAP_LEN : Z := 26.          (* sizeof(struct rtw_ieee80211_ht_cap) *)
Definition _SUPPORTEDRATES_IE_ : Z := 1.
Definition _EXT_SUPPORTEDRATES_IE_ : Z := 50.
Definition IEEE80211_BASIC_RATE_MASK : Z := 0x80.

(** ** Capability field *)

(** The new [capability] and [flags]. *)
Definition rtw_ap_parse_sta_capability (b : bytes) (cap flags : Z) : res (Z * Z) :=
  c ← le16_get b cap;
  Ret (c, put_bits (bit_test c WLAN_CAPABILITY_SHORT_PREAMBLE) WLAN_STA_SHORT_PREAMBLE flags).

(** ** Rates *)

Definition support_rate_tbl : list Z := [0x02; 0x04; 0x0B; 0x16; 0x0C; 0x12; 0x18; 0x24; 0x30; 0x48; 0x60; 0x6C].

(** [existence] and [basic] of one rate after a list of rates. *)
Definition rate_seen (rate : Z) (t : bool * bool) (p : Z) : bool * bool :=
  if Z.ldiff p (BIT 7) =? rate then (true, snd t || bit_test p (BIT 7)) else t.

(** The rates of the element, or none. *)
Definition rates_of (b : bytes) (eid ies ies_len : Z) : res bytes :=
  r ← rtw_get_ie b ies eid 0 ies_len;
  match (r : option Z * Z) with
  | (Some ie, ie_len) => rd_slice b (ie + 2) ie_len
  | (None, _) => Ret []
  end.

Definition rate_entry (rates : bytes) (rate : Z) : list Z :=
  let '(existence, basic) := foldl (rate_seen rate) (false, false) rates in
  if existence then [if basic then Z.lor rate IEEE80211_BASIC_RATE_MASK else rate] else [].

(** [rate_set]; its length is [*rate_num]. *)
Definition rtw_ies_get_supported_rate (b : bytes) (ies ies_len : Z) : res bytes :=
  r1 ← rates_of b _SUPPORTEDRATES_IE_ ies ies_len;
  r2 ← rates_of b _EXT_SUPPORTEDRATES_IE_ ies ies_len;
  Ret (concat (map (rate_entry (r1 ++ r2)) support_rate_tbl)).

Definition is_cck_rate (x : Z) : bool := bool_decide (Z.land x 0x7f ∈ [0x02; 0x04; 0x0B; 0x16]).

Definition UpdateBrateTblForSoftAP (bssrateset : bytes) : bytes :=
  map (fun x => if is_cck_rate x then Z.lor x IEEE80211_BASIC_RATE_MASK else x) bssrateset.

(** Status, rates and flags. *)
Definition rtw_ap_parse_sta_supported_rates (is_ap : bool) (b : bytes) (tlv_ies tlv_ies_len : Z) (old : bytes) (flags : Z)
    : res (Z * bytes * Z) :=
  rate_set ← rtw_ies_get_supported_rate b tlv_ies tlv_ies_len;
  match (rate_set : bytes) with
  | [] => Ret (_STATS_FAILURE_, old, flags)
  | _ =>
      let rates := if is_ap then UpdateBrateTblForSoftAP rate_set else rate_set in
      Ret (_STATS_SUCCESSFUL_, rates, put_bits (negb (existsb (fun x => 22 <? Z.land x 0x7f) rates)) WLAN_STA_NONERP flags)
  end.

(** ** Security *)

Definition rtw_check_amsdu_disable (mode spp_opt : Z) : bool :=
  if (mode =? RTW_AMSDU_MODE_NON_SPP) && bit_test spp_opt SPP_REQ then true
  else if (mode =? RTW_AMSDU_MODE_SPP) && negb (bit_test spp_opt SPP_CAP) then true
  else mode =? RTW_AMSDU_MODE_ALL_DROP.

Definition security_type_bip_to_gmcs (type : Z) : Z :=
  if type =? _BIP_CMAC_128_ then WPA_CIPHER_BIP_CMAC_128
  else if type =? _BIP_GMAC_128_ then WPA_CIPHER_BIP_GMAC_128
  else if type =? _BIP_GMAC_256_ then WPA_CIPHER_BIP_GMAC_256
  else if type =? _BIP_CMAC_256_ then WPA_CIPHER_BIP_CMAC_256
  else 0.

(** The first entry of the cache that is used and has the address. *)
Fixpoint SecIsInPMKIDList (l : list (bool * bytes)) (a : bytes) (i : Z) : Z :=
  match l with
  | [] => -1
  | (bUsed, Bssid) :: l => if bUsed && bool_decide (Bssid = a) then i else SecIsInPMKIDList l a (i + 1)
  end.

Definition rtw_cached_pmkid (c : ap_sec) (a : bytes) : Z := SecIsInPMKIDList (PMKIDList c) a 0.

(** What the security element says, besides what is kept in the entry: its
    position and length, the management cipher, and two options. *)
Record sec_req := mk_req {
  rq_ie : option (Z * Z);
  rq_gmcs : Z;
  rq_mfp : Z;
  rq_spp : Z
}.

Definition req_none : sec_req := mk_req None 0 MFP_NO 0.

(** A refusal with its status, or the result of a step that went well. *)
Definition step_of (A : Type) : Type := (Z + A)%type.

(** The security fields of the entry as [rtw_ap_parse_sta_security_ie] clears
    them. *)
Definition sec_cleared (s : sta_sec) : sta_sec := mk_ssec 0 0 0 0 0 0 (akm_suite_type s) (replicate 32 0).

(** The RSN branch. *)
Definition parse_rsn (is_ap : bool) (c : ap_sec) (b : bytes) (p l : Z) (s : sta_sec) : res (sta_sec * step_of sec_req) :=
  r ← rtw_parse_wpa2_ie b (p - 2) (l + 2);
  match (r : Z * option wpa2_out) with
  | (_, None) => Ret (s, inl WLAN_STATUS_INVALID_IE)
  | (_, Some o) =>
      let s := mk_ssec 1 (Z.lor (wpa_psk s) (BIT 1)) (wpa_group_cipher s) (Z.land (o_group o) (ap_wpa2_group c))
                 (wpa_pairwise_cipher s) (Z.land (o_pairwise o) (ap_wpa2_pairwise c)) (o_akm o) (sta_wpa_ie s) in
      Ret (s, if is_ap && bit_test WLAN_AKM_TYPE_SAE (o_akm o) && (o_mfp o =? MFP_NO) then inl WLAN_STATUS_ROBUST_MGMT_FRAME_POLICY_VIOLATION
              else if is_ap && negb (bit_test (akmp c) (o_akm o)) then inl WLAN_STATUS_AKMP_NOT_VALID
              else if wpa2_group_cipher s =? 0 then inl WLAN_STATUS_GROUP_CIPHER_NOT_VALID
              else if wpa2_pairwise_cipher s =? 0 then inl WLAN_STATUS_PAIRWISE_CIPHER_NOT_VALID
              else inr (mk_req (Some (p, l)) (o_gmcs o) (o_mfp o) (o_spp o)))
  end.

(** The WPA branch. *)
Definition parse_wpa (c : ap_sec) (b : bytes) (p l : Z) (s : sta_sec) : res (sta_sec * step_of sec_req) :=
  r ← rtw_parse_wpa_ie b (p - 2) (l + 2) (mk_wpa 0 0 None);
  let '(ret, o) := (r : Z * wpa_out) in
  if negb (ret =? _SUCCESS) then Ret (s, inl WLAN_STATUS_INVALID_IE)
  else
    let s := mk_ssec 1 (Z.lor (wpa_psk s) (BIT 0)) (Z.land (w_group o) (ap_wpa_group c)) (wpa2_group_cipher s)
               (Z.land (w_pairwise o) (ap_wpa_pairwise c)) (wpa2_pairwise_cipher s) (akm_suite_type s) (sta_wpa_ie s) in
    Ret (s, if wpa_group_cipher s =? 0 then inl WLAN_STATUS_GROUP_CIPHER_NOT_VALID
            else if wpa_pairwise_cipher s =? 0 then inl WLAN_STATUS_PAIRWISE_CIPHER_NOT_VALID
            else inr (mk_req (Some (p, l)) 0 MFP_NO 0)).

(** The element that counts: RSN before WPA, none if neither is configured and
    present. *)
Definition parse_sec (is_ap : bool) (c : ap_sec) (b : bytes) (e : elems) (s : sta_sec) : res (sta_sec * step_of sec_req) :=
  match (if bit_test (ap_wpa_psk c) (BIT 1) then e rsn_ie else None), (if bit_test (ap_wpa_psk c) (BIT 0) then e wpa_ie else None) with
  | Some (p, l), _ => parse_rsn is_ap c b p l s
  | None, Some (p, l) => parse_wpa c b p l s
  | None, None => Ret (s, inr req_none)
  end.

(** The policy on management frame protection and the PMK cache: the new
    flags. *)
Definition sec_policy (is_ap : bool) (c : ap_sec) (q : sec_req) (a : bytes) (alg akm flags : Z) : Z * option Z :=
  let flags := if negb (ap_PrivacyAlgrthm c =? 0) && rtw_check_amsdu_disable (amsdu_mode c) (rq_spp q)
               then Z.lor flags WLAN_STA_AMSDU_DISABLE else flags in
  if (mfp_opt c =? MFP_REQUIRED) && (rq_mfp q <? MFP_OPTIONAL) || (rq_mfp q =? MFP_REQUIRED) && (mfp_opt c <? MFP_OPTIONAL)
  then (flags, Some WLAN_STATUS_ROBUST_MGMT_FRAME_POLICY_VIOLATION)
  else
    let both := (MFP_OPTIONAL <=? mfp_opt c) && (MFP_OPTIONAL <=? rq_mfp q) in
    let flags := if both then Z.lor flags WLAN_STA_MFP else flags in
    if bit_test flags WLAN_STA_MFP && both && negb (security_type_bip_to_gmcs (dot11wCipher c) =? rq_gmcs q)
    then (flags, Some WLAN_STATUS_CIPHER_REJECTED_PER_POLICY)
    else if is_ap && auth_type_sae c && bit_test WLAN_AKM_TYPE_SAE akm && (alg =? WLAN_AUTH_OPEN) && (rtw_cached_pmkid c a =? -1)
    then (flags, Some WLAN_STATUS_INVALID_PMKID)
    else (flags, None).

(** [selected_registrar] of the beacon. *)
Definition registrar_selected (ie : bytes) : res bool :=
  r ← rtw_get_wps_attr_content (S (length ie)) ie 0 (zlen ie) WPS_ATTR_SELECTED_REGISTRAR;
  match (r : option Z * Z) with
  | (Some p, _) => x ← rd ie p; Ret (negb (x =? 0))
  | (None, _) => Ret false
  end.

(** WPS and the copy of the element: status, flags and [sta->wpa_ie]. *)
Definition sec_wps (c : ap_sec) (wps_beacon : option bytes) (b : bytes) (e : elems) (q : sec_req) (flags : Z) (s : sta_sec)
    : res (Z * Z * sta_sec) :=
  let flags := Z.ldiff flags (Z.lor WLAN_STA_WPS WLAN_STA_MAYBE_WPS) in
  let wps := match e wps_ie with Some _ => true | None => false end in
  match rq_ie q with
  | None =>
      let flags := Z.lor flags (if wps then WLAN_STA_WPS else WLAN_STA_MAYBE_WPS) in
      ok ← (if 0 <? ap_wpa_psk c then match wps_beacon with Some ie => registrar_selected ie | None => Ret true end else Ret true);
      Ret (if (ok : bool) then _STATS_SUCCESSFUL_ else _STATS_UNABLE_HANDLE_STA_, flags, s)
  | Some (p, l) =>
      if ap_wpa_psk c =? 0 then Ret (WLAN_STATUS_INVALID_IE, flags, s)
      else if wps then Ret (_STATS_SUCCESSFUL_, Z.lor flags WLAN_STA_WPS, s)
      else
        let copy_len := if 32 <? l + 2 then 32 else l + 2 in
        x ← rd_slice b (p - 2) copy_len;
        ie ← wr_slice (sta_wpa_ie s) 0 x;
        Ret (_STATS_SUCCESSFUL_, flags,
             mk_ssec (dot8021xalg s) (wpa_psk s) (wpa_group_cipher s) (wpa2_group_cipher s) (wpa_pairwise_cipher s)
               (wpa2_pairwise_cipher s) (akm_suite_type s) ie)
  end.

(** Status, flags and the security fields of the entry. *)
Definition rtw_ap_parse_sta_security_ie (is_ap : bool) (c : ap_sec) (wps_beacon : option bytes) (b : bytes) (e : elems)
    (a : bytes) (alg flags : Z) (s : sta_sec) : res (Z * Z * sta_sec) :=
  r ← parse_sec is_ap c b e (sec_cleared s);
  match (r : sta_sec * step_of sec_req) with
  | (s, inl status) => Ret (status, flags, s)
  | (s, inr q) =>
      match sec_policy is_ap c q a alg (akm_suite_type s) flags with
      | (flags, Some status) => Ret (status, flags, s)
      | (flags, None) => if is_ap then sec_wps c wps_beacon b e q flags s else Ret (_STATS_SUCCESSFUL_, flags, s)
      end
  end.

(** ** WMM *)

Definition WMM_IE : bytes := [0x00; 0x50; 0xf2; 0x02; 0x00; 0x01].

Definition apsd (info bit : Z) : Z := if bit_test info bit then Z.lor (BIT 0) (BIT 1) else 0.

(** [qos_option], flags and the power-save fields. *)
Definition rtw_ap_parse_sta_wmm_ie (ap_qos : bool) (b : bytes) (tlv_ies tlv_ies_len : Z) (flags : Z) (p : sta_ps)
    : res (bool * Z * sta_ps) :=
  let flags := Z.ldiff flags WLAN_STA_WME in
  let p := mk_sps (expire_to p) (sleepq_ac_len p) 0 (max_sp_len p) 0 0 0 0 1 in
  if negb ap_qos then Ret (false, flags, p)
  else
    r ← rtw_get_ie_ex b tlv_ies tlv_ies_len WLAN_EID_VENDOR_SPECIFIC (Some WMM_IE);
    match (r : option (Z * Z)) with
    | None => Ret (false, flags, p)
    | Some (ie, _) =>
        info ← rd b (ie + 8);
        Ret (true, Z.lor flags WLAN_STA_WME,
             mk_sps (expire_to p) (sleepq_ac_len p) info (Z.land (Z.shiftr info 5) 3)
               (apsd info (BIT 2)) (apsd info (BIT 3)) (apsd info (BIT 1)) (apsd info (BIT 0))
               (if Z.land info 0xf =? 0xf then 0 else 1))
    end.

(** ** HT and VHT *)

(** Flags, HT capabilities and HT operation. *)
Definition rtw_ap_parse_sta_ht_ie (ht_option : bool) (b : bytes) (e : elems) (flags : Z) (cap : bytes) (op : option bytes)
    : res (Z * bytes * option bytes) :=
  let flags := Z.ldiff flags WLAN_STA_HT in
  if negb ht_option then Ret (flags, cap, op)
  else
    match e ht_capabilities with
    | Some (p, l) =>
        if HT_CAP_LEN <=? l then
          cap ← rd_slice b p HT_CAP_LEN;
          op ← match e ht_operation with
               | Some (p, l) => if l =? HT_OP_IE_LEN then x ← rd_slice b p HT_OP_IE_LEN; Ret (Some x) else Ret op
               | None => Ret op
               end;
          Ret (Z.lor flags (Z.lor WLAN_STA_HT WLAN_STA_WME), cap, op)
        else Ret (flags, replicate 26 0, op)
    | None => Ret (flags, replicate 26 0, op)
    end.

(** Without VHT in the build. *)
Definition rtw_ap_parse_sta_vht_ie (flags : Z) : Z := Z.ldiff flags WLAN_STA_VHT.

(** Without multi-AP in the build. *)
Definition rtw_ap_parse_sta_multi_ap_ie (flags : Z) : Z := Z.ldiff flags WLAN_STA_MULTI_AP.

(** The flags after a station asked for HT with TKIP. *)
Definition no_ht_with_tkip (s : sta_sec) (flags : Z) : Z :=
  if (bit_test flags WLAN_STA_HT || bit_test flags WLAN_STA_VHT) &&
     (bit_test (wpa2_pairwise_cipher s) WPA_CIPHER_TKIP || bit_test (wpa_pairwise_cipher s) WPA_CIPHER_TKIP)
  then Z.ldiff (Z.ldiff flags WLAN_STA_HT) WLAN_STA_VHT else flags.
