(* ===== verification/ApMlme.v ===== *)
(** * Authentication, association and departure at an access point
    (core/rtw_mlme_ext.c, core/rtw_ap.c, core/rtw_mlme.c)

    The handlers an access point runs for the management frames of stations
    ([OnAuth], [OnAssocReq], [OnDeAuth], [OnDisassoc] behind [mgt_dispatcher]),
    for the expiry of stations ([expire_timeout_chk]) and for the events that
    remove them ([rtw_stadel_event_callback]).  A handler returns its C result
    and the new state. *)

From S2P Require Import Prelude RxFrame Reorder SwCrypt StaMgt Acl RxCheck MgmtProtect Ie Elems Rsn XmitAttr ApState ApBss ApParse.

(** ** Constants *)

Definition WIFI_FW_AP_STATE : Z := 0x03.
Definition WIFI_FW_AUTH_NULL : Z := 0x00000100.
Definition WIFI_FW_AUTH_STATE : Z := 0x00000200.
Definition WIFI_FW_AUTH_SUCCESS : Z := 0x00000400.
Definition WIFI_FW_ASSOC_STATE : Z := 0x00002000.
Definition WIFI_FW_ASSOC_SUCCESS : Z := 0x00004000.
Definition WIFI_FW_LINKING_STATE : Z :=
  Z.lor (Z.lor (Z.lor WIFI_FW_AUTH_NULL WIFI_FW_AUTH_STATE) WIFI_FW_AUTH_SUCCESS) WIFI_FW_ASSOC_STATE.

Definition WIFI_ASSOCREQ : Z := 0.
Definition WIFI_REASSOCREQ : Z := BIT 5.
Definition WIFI_AUTH : Z := Z.lor (BIT 7) (Z.lor (BIT 5) (BIT 4)).

Definition _ASOCREQ_IE_OFFSET_ : Z := 4.
Definition _REASOCREQ_IE_OFFSET_ : Z := 10.
Definition _AUTH_IE_OFFSET_ : Z := 6.
Definition _CHLGETXT_IE_ : Z := 16.

Definition _STATS_NO_SUPP_ALG_ : Z := 13.
Definition _STATS_OUT_OF_AUTH_SEQ_ : Z := 14.
Definition _STATS_CHALLENGE_FAIL_ : Z := 15.
Definition _STATS_REFUSED_TEMPORARILY_ : Z := 30.
Definition WLAN_STATUS_AP_UNABLE_TO_HANDLE_NEW_STA : Z := 17.
Definition _RSON_CLS2_ : Z := 6.
Definition WLAN_REASON_DEAUTH_LEAVING : Z := 3.

(** ** Frames *)

Definition addr1_of (f : recv_frame) : res bytes := rd_slice (rx_mem f) (rx_data f + 4) 6.
Definition addr2_of (f : recv_frame) : res bytes := rd_slice (rx_mem f) (rx_data f + 10) 6.
Definition addr3_of (f : recv_frame) : res bytes := rd_slice (rx_mem f) (rx_data f + 16) 6.
Definition frame_control (f : recv_frame) : res Z := le16_get (rx_mem f) (rx_data f).

(** ** Addresses and counting *)

Definition rtw_check_invalid_mac_address (a : bytes) (check_local_bit : bool) : bool :=
  if bool_decide (a = replicate 6 0) then true
  else if bool_decide (a = bc_addr) then true
  else if bit_test (znth a 0) (BIT 0) then true
  else check_local_bit && bit_test (znth a 0) (BIT 1).

(** The entries of the hash table with one of the state bits. *)
Definition rtw_get_sta_num_by_state (s : ap_st) (state : Z) : Z :=
  zlen (filter (fun i => bit_test (sta_state (entry s i)) state = true) (in_use (tab s))).

(** [stime] is the time in milliseconds. *)
Definition rtw_defs_attack_chk (c : ap_cfg) (stime : Z) (s : ap_st) : bool * ap_st :=
  let is_reject := (0 <? ptime s) && (u32 (stime - ptime s) <? defs_lmt_time c)
                   && (defs_lmt_sta c <=? rtw_get_sta_num_by_state s WIFI_FW_LINKING_STATE) in
  (is_reject, set_ptime stime s).

(** ** The lists of stations *)

(** The condition that guards every change of a station that may be protected:
    [(!installed && MFP) || !MFP]. *)
Definition open_to_change (s : ap_st) (i : nat) : bool :=
  let mfp := bit_test (sta_flags (entry s i)) WLAN_STA_MFP in
  negb (bpairwise_key_installed (info s i)) && mfp || negb mfp.

Definition asoc_list_delete (i : nat) (s : ap_st) : ap_st :=
  if bool_decide (i ∈ asoc_list s) then set_asoc (filter (fun j => j <> i) (asoc_list s)) (u8 (asoc_list_cnt s - 1)) s else s.

Definition asoc_list_insert (i : nat) (s : ap_st) : ap_st := set_asoc (asoc_list s ++ [i]) (u8 (asoc_list_cnt s + 1)) s.

Definition auth_list_insert (i : nat) (s : ap_st) : ap_st :=
  let p := tab s in
  if bool_decide (i ∈ auth_list p) then s else set_tab (StaMgt.set_auth p (auth_list p ++ [i]) (u8 (auth_list_cnt p + 1))) s.

Definition auth_list_delete (i : nat) (s : ap_st) : ap_st :=
  let p := tab s in
  if bool_decide (i ∈ auth_list p) then set_tab (StaMgt.set_auth p (filter (fun j => j <> i) (auth_list p)) (u8 (auth_list_cnt p - 1))) s else s.

(** Setting up an entry re-initialises its list nodes: an entry that is still
    linked in the list of associated stations corrupts that list. *)
Definition alloc_station (a : bytes) (s : ap_st) : res (option nat * ap_st) :=
  let '(p, o) := rtw_alloc_stainfo (tab s) a in
  match o with
  | None => Ret (None, set_tab p s)
  | Some i => if bool_decide (i ∈ asoc_list s) then Oob else Ret (Some i, upd_info i (fun _ => ap_info_zero) (set_tab p s))
  end.

Definition free_station (c : ap_cfg) (o : option nat) (s : ap_st) : ap_st :=
  set_tab (rtw_free_stainfo (hw_state c =? WIFI_FW_AP_STATE) (tab s) o) s.

(** ** Authentication *)

(** The fields of the response that [issue_auth] takes from the entry. *)
Definition issue_auth (i : nat) (status : Z) (s : ap_st) : ap_st :=
  let e := info s i in
  let alg := if status =? _STATS_SUCCESSFUL_ then u16 (authalg e) else 0 in
  let challenge := if (auth_seq e =? 2) && bit_test (sta_state (entry s i)) WIFI_FW_AUTH_STATE && negb (alg =? 0)
                   then Some (chg_txt e) else None in
  call (tx_auth (mac_addr (entry s i)) alg (u16 (auth_seq e)) (u16 status) challenge) s.

(** [auth_fail]: the station, if known, is released, and the answer is sent
    from a scratch entry. *)
Definition auth_fail (c : ap_cfg) (sa : bytes) (o : option nat) (status : Z) (s : ap_st) : Z * ap_st :=
  (_FAIL, call (tx_auth sa 0 2 (u16 status) None) (free_station c o s)).

(** The step of the authentication that is done, or a refusal with its
    status. *)
Definition auth_step (c : ap_cfg) (f : recv_frame) (i : nat) (algorithm seq auth_mode : Z) (s : ap_st) : res (option Z * ap_st) :=
  if negb (u32 (auth_seq (info s i) + 1) =? seq) then Ret (Some _STATS_OUT_OF_AUTH_SEQ_, s)
  else if (algorithm =? 0) && ((auth_mode =? 0) || (auth_mode =? 2) || (auth_mode =? 3)) then
    if seq =? 1 then
      let s := if open_to_change s i
               then upd_entry i (fun e => set_expire_to (assoc_to c) (change_state WIFI_FW_AUTH_NULL WIFI_FW_AUTH_SUCCESS e)) s else s in
      Ret (None, upd_info i (fun e => set_auth (auth_seq e) algorithm e) s)
    else Ret (Some _STATS_OUT_OF_AUTH_SEQ_, s)
  else if seq =? 1 then
    let s := upd_info i (set_chg_txt (replicate 128 78)) s in
    let s := if open_to_change s i then upd_entry i (change_state WIFI_FW_AUTH_NULL WIFI_FW_AUTH_STATE) s else s in
    Ret (None, upd_info i (set_auth 2 algorithm) s)
  else if seq =? 3 then
    r ← rtw_get_ie (rx_mem f) (rx_data f + WLAN_HDR_A3_LEN + 4 + _AUTH_IE_OFFSET_) _CHLGETXT_IE_ 0
          (len f - WLAN_HDR_A3_LEN - _AUTH_IE_OFFSET_ - 4);
    match (r : option Z * Z) with
    | (Some p, ie_len) =>
        if ie_len <=? 0 then Ret (Some _STATS_CHALLENGE_FAIL_, s)
        else
          m ← rtw_memcmp (rx_mem f) (p + 2) (chg_txt (info s i));
          if (m : bool) then
            Ret (None, if open_to_change s i
                       then upd_entry i (fun e => set_expire_to (assoc_to c) (change_state WIFI_FW_AUTH_STATE WIFI_FW_AUTH_SUCCESS e)) s else s)
          else Ret (Some _STATS_CHALLENGE_FAIL_, s)
    | (None, _) => Ret (Some _STATS_CHALLENGE_FAIL_, s)
    end
  else Ret (Some _STATS_OUT_OF_AUTH_SEQ_, s).

(** [pstat] is the entry of the station, new or known: the lists, the step and
    the answer. *)
Definition auth_station (c : ap_cfg) (f : recv_frame) (sa : bytes) (i : nat) (known : bool) (algorithm seq auth_mode : Z) (s : ap_st)
    : res (Z * ap_st) :=
  let s := if known && open_to_change s i then asoc_list_delete i s else s in
  let s := if open_to_change s i then auth_list_insert i s else s in
  let s := if auth_seq (info s i) =? 0 then upd_entry i (set_expire_to (auth_to c)) s else s in
  if report_auth c && (algorithm =? WLAN_AUTH_SAE) && (auth_mode =? 2) then
    Ret (_SUCCESS, call (rtw_cfg80211_rx_mframe sa) (upd_info i (fun e => set_auth (auth_seq e) algorithm e) s))
  else
    r ← auth_step c f i algorithm seq auth_mode s;
    let '(refused, s) := (r : option Z * ap_st) in
    match (refused : option Z) with
    | Some status => Ret (auth_fail c sa (Some i) status s)
    | None =>
        let s := upd_info i (fun e => set_auth (u32 (seq + 1)) (authalg e) e) s in
        let s := issue_auth i _STATS_SUCCESSFUL_ s in
        let st := sta_state (entry s i) in
        Ret (_SUCCESS, if bit_test st WIFI_FW_AUTH_SUCCESS || bit_test st WIFI_FW_ASSOC_SUCCESS
                       then upd_info i (fun e => set_auth 0 (authalg e) e) s else s)
    end.

(** The frame after the decryption of a shared-key exchange, and the offset of
    its body. *)
Definition auth_body (c : ap_cfg) (f : recv_frame) : res (recv_frame * Z) :=
  fc ← frame_control f;
  if bit_test fc (BIT 14) then
    iv3 ← rd (rx_mem f) (rx_data f + WLAN_HDR_A3_LEN + 3);
    let a := attrib f in
    let a := mk_attrib WLAN_HDR_A3_LEN (to_fr_ds a) (amsdu a) (qos a) (priority a) (seq_num a) (frag_num a) (mfrag a) (order a)
               (privacy a) (bdecrypted a) _WEP40_ 4 4 (dst a) (src a) (ta a) (ra a) (bssid a) (ack_policy a)
               (Z.land (Z.shiftr iv3 6) 3) in
    f ← rtw_wep_decrypt (ap_keys (c_sec c)) (set_attrib f a);
    Ret (f, 4)
  else Ret (f, 0).

(** The mode of the access point, as the exchange sees it. *)
Definition effective_mode (c : ap_cfg) (algorithm : Z) : Z :=
  let k := c_sec c in
  if (ap_AuthAlgrthm k =? 2) && negb (algorithm =? WLAN_AUTH_SAE) && negb (ap_PrivacyAlgrthm k =? _WEP40_) && negb (ap_PrivacyAlgrthm k =? _WEP104_)
  then 0 else ap_AuthAlgrthm k.

Definition OnAuth (c : ap_cfg) (stime : Z) (f : recv_frame) (s : ap_st) : res (Z * ap_st) :=
  if negb (Z.land (hw_state c) 3 =? WIFI_FW_AP_STATE) then Ret (_FAIL, s)
  else if negb (bit_test (ap_fw_state c) WIFI_ASOC_STATE) then Ret (_SUCCESS, s)
  else
    sa ← addr2_of f;
    fo ← auth_body c f;
    let '(f, offset) := (fo : recv_frame * Z) in
    algorithm ← le16_get (rx_mem f) (rx_data f + WLAN_HDR_A3_LEN + offset);
    seq ← le16_get (rx_mem f) (rx_data f + WLAN_HDR_A3_LEN + offset + 2);
    if rtw_check_invalid_mac_address sa false then Ret (_FAIL, s)
    else
      let '(is_reject, s) := rtw_defs_attack_chk c stime s in
      let linked := match rtw_get_stainfo (tab s) (Some sa) with
                    | Some i => bit_test (sta_state (entry s i)) WIFI_FW_ASSOC_SUCCESS
                    | None => false end in
      if is_reject && negb linked then Ret (auth_fail c sa None _STATS_REFUSED_TEMPORARILY_ s)
      else if negb (force_auth_fail c =? 0) then Ret (auth_fail c sa None (force_auth_fail c) s)
      else
        let auth_mode := effective_mode c algorithm in
        if (0 <? algorithm) && (auth_mode =? 0) || (algorithm =? 0) && (auth_mode =? 1)
        then Ret (auth_fail c sa None _STATS_NO_SUPP_ALG_ s)
        else if negb (rtw_access_ctrl (acl_list c) sa) then Ret (auth_fail c sa None _STATS_UNABLE_HANDLE_STA_ s)
        else
          match rtw_get_stainfo (tab s) (Some sa) with
          | Some i => auth_station c f sa i true algorithm seq auth_mode s
          | None =>
              r ← alloc_station sa s;
              let '(o, s) := (r : option nat * ap_st) in
              match (o : option nat) with
              | None => Ret (auth_fail c sa None _STATS_UNABLE_HANDLE_STA_ s)
              | Some i =>
                  let s := upd_info i (fun e => set_auth 0 (authalg e) e) (upd_entry i (set_state WIFI_FW_AUTH_NULL) s) in
                  auth_station c f sa i false algorithm seq auth_mode s
              end
          end.

(** ** Association *)

(** The parts of [update_sta_info_apmode] that matter to the modelled state:
    the port, the QoS option of an HT station, the aggregation torn down, and
    the state bits. *)
Definition update_sta_info_apmode (c : ap_cfg) (i : nat) (ht : bool) (s : ap_st) : ap_st :=
  let dot1x := ap_AuthAlgrthm (c_sec c) =? 2 in
  let s := upd_entry i (set_blocked (Z.b2z dot1x)) s in
  let s := if ht then upd_info i (set_qos_option true) s else s in
  let a := mac_addr (entry s i) in
  let s := call (send_delba 1 a) (call (send_delba 0 a) s) in
  upd_entry i (change_state 0 (Z.lor (if dot1x then WIFI_UNDER_KEY_HANDSHAKE else 0) WIFI_ASOC_STATE)) s.

Definition sta_info_update (c : ap_cfg) (i : nat) (s : ap_st) : ap_st :=
  let flags := sta_flags (entry s i) in
  let ht := bit_test flags WLAN_STA_HT in
  let s := upd_info i (set_qos_option (bit_test flags WLAN_STA_WME && ap_qos_option c || ht)) s in
  update_sta_info_apmode c i (ht && ap_ht_option (c_bss c)) s.

(** Where the elements of the request are. *)
Record req_ies := mk_ries { ri_body : Z; ri_pos : Z; ri_left : Z }.

(** The capability field, the network name, the rates, the security element,
    the WMM and HT elements and the association id, in this order; a refusal
    has a status. *)
Definition parse_fields (c : ap_cfg) (b : bytes) (i : nat) (q : req_ies) (e : elems) (s : ap_st) : res (Z * ap_st) :=
  let is_ap := bit_test (ap_fw_state c) WIFI_AP_STATE in
  r ← rtw_ap_parse_sta_capability b (ri_body q) (sta_flags (entry s i));
  let '(cap, flags) := (r : Z * Z) in
  let s := upd_info i (set_capability cap) (upd_entry i (set_flags flags) s) in
  ssid_ok ← match e ssid with
            | Some (p, l) => if (l =? 0) || negb (l =? zlen (ap_ssid c)) then Ret false else rtw_memcmp b p (ap_ssid c)
            | None => Ret false
            end;
  if negb (ssid_ok : bool) then Ret (_STATS_FAILURE_, s)
  else
    r ← rtw_ap_parse_sta_supported_rates is_ap b (ri_pos q) (ri_left q) (bssrateset (info s i)) flags;
    let '(status, rates, flags) := (r : Z * bytes * Z) in
    let s := upd_info i (set_rates rates) (upd_entry i (set_flags flags) s) in
    if negb (status =? _STATS_SUCCESSFUL_) then Ret (status, s)
    else
      r ← rtw_ap_parse_sta_security_ie is_ap (c_sec c) (wps_beacon_ie c) b e (mac_addr (entry s i)) (authalg (info s i)) flags (sec (info s i));
      let '(status, flags, sc) := (r : Z * Z * sta_sec) in
      let s := upd_info i (set_sec sc) (upd_entry i (set_flags flags) s) in
      if negb (status =? _STATS_SUCCESSFUL_) then Ret (status, s)
      else
        r ← rtw_ap_parse_sta_wmm_ie (ap_qos_option c) b (ri_pos q) (ri_left q) flags (sps (entry s i));
        let '(qos, flags, ps) := (r : bool * Z * sta_ps) in
        r ← rtw_ap_parse_sta_ht_ie (ap_ht_option (c_bss c)) b e flags (ht_cap (info s i)) (ht_op (info s i));
        let '(flags, cap, op) := (r : Z * bytes * option bytes) in
        let flags := rtw_ap_parse_sta_multi_ap_ie (no_ht_with_tkip sc (rtw_ap_parse_sta_vht_ie flags)) in
        let s := upd_info i (fun x => set_ht cap op (set_qos_option qos x)) (upd_entry i (fun x => set_flags flags (set_sps ps x)) s) in
        if 0 <? aid (entry s i) then Ret (_STATS_SUCCESSFUL_, s)
        else
          let '(p, a) := rtw_aid_alloc (tab s) i in
          Ret (if a =? 0 then WLAN_STATUS_AP_UNABLE_TO_HANDLE_NEW_STA else _STATS_SUCCESSFUL_, set_tab p s).

(** The elements of the request go to the entry. *)
Definition parse_request (c : ap_cfg) (f : recv_frame) (i : nat) (q : req_ies) (s : ap_st) : res (Z * ap_st) :=
  pe ← rtw_ieee802_11_parse_elems (rx_mem f) (ri_pos q) (ri_left q);
  let '(ret, e) := (pe : ParseRes * elems) in
  match ret with
  | ParseFailed => Ret (_STATS_FAILURE_, s)
  | _ => parse_fields c (rx_mem f) i q e s
  end.

(** The station is taken over from the list of authenticating stations to the
    list of associated ones. *)
Definition move_to_asoc (c : ap_cfg) (i : nat) (s : ap_st) : ap_st :=
  let s := auth_list_delete i s in
  if bool_decide (i ∈ asoc_list s) then s
  else asoc_list_insert i (upd_entry i (set_expire_to (ap_expire_to c)) s).

(** The station is qualified to join. *)
Definition join_station (c : ap_cfg) (f : recv_frame) (i : nat) (reassoc : bool) (s : ap_st) : res (Z * ap_st) :=
  let s := upd_entry i (change_state WIFI_FW_ASSOC_STATE WIFI_FW_ASSOC_SUCCESS) s in
  let s := if open_to_change s i then move_to_asoc c i s else s in
  s ← (if open_to_change s i
       then s ← bss_cap_update_on_sta_join (c_bss c) i s; Ret (sta_info_update c i s)
       else Ret s);
  let query := bpairwise_key_installed (info s i) && bit_test (sta_flags (entry s i)) WLAN_STA_MFP in
  let status := if query then _STATS_REFUSED_TEMPORARILY_ else _STATS_SUCCESSFUL_ in
  let a := mac_addr (entry s i) in
  let s := call (tx_asocrsp a reassoc status (aid (entry s i))) s in
  frame ← (if ap_malloc c then x ← rd_slice (rx_mem f) (rx_data f) (len f); Ret (Some x) else Ret None);
  let s := upd_info i (set_assoc_req frame) s in
  let s := if open_to_change s i then call (report_add_sta_event a) s else s in
  Ret (_SUCCESS, if query then call (issue_action_SA_Query a) s else s).

(** [OnAssocReqFail] *)
Definition refuse_request (i : nat) (reassoc : bool) (status : Z) (s : ap_st) : Z * ap_st :=
  (_FAIL, call (tx_asocrsp (mac_addr (entry s i)) reassoc status (aid (entry s i))) s).

(** The state of the station admits a request: the new state, or [None]. *)
Definition request_state (st : Z) : option (Z * Z) :=
  if bit_test st WIFI_FW_AUTH_SUCCESS then Some (WIFI_FW_AUTH_SUCCESS, WIFI_FW_ASSOC_STATE)
  else if bit_test st WIFI_FW_ASSOC_SUCCESS then Some (WIFI_FW_ASSOC_SUCCESS, WIFI_FW_ASSOC_STATE)
  else None.

Definition OnAssocReq (c : ap_cfg) (f : recv_frame) (s : ap_st) : res (Z * ap_st) :=
  if negb (Z.land (hw_state c) 3 =? WIFI_FW_AP_STATE) then Ret (_FAIL, s)
  else
    sa ← addr2_of f;
    if rtw_check_invalid_mac_address sa false then Ret (_FAIL, s)
    else
      fc ← frame_control f;
      let reassoc := negb (get_frame_sub_type fc =? WIFI_ASSOCREQ) in
      let ie_offset := if reassoc then _REASOCREQ_IE_OFFSET_ else _ASOCREQ_IE_OFFSET_ in
      if len f <? WLAN_HDR_A3_LEN + ie_offset then Ret (_FAIL, s)
      else
        match rtw_get_stainfo (tab s) (Some sa) with
        | None => Ret (_FAIL, call (tx_deauth sa _RSON_CLS2_) s)
        | Some i =>
            let st := sta_state (entry s i) in
            if (authalg (info s i) =? WLAN_AUTH_SAE) && bit_test st WIFI_FW_AUTH_NULL then Ret (_SUCCESS, s)
            else
              match request_state st with
              | None => Ret (_FAIL, call (tx_deauth sa _RSON_CLS2_) s)
              | Some (clear, set) =>
                  let s := upd_entry i (change_state clear set) s in
                  if negb (force_asoc_fail c =? 0) then Ret (refuse_request i reassoc (force_asoc_fail c) s)
                  else
                    let body := rx_data f + WLAN_HDR_A3_LEN in
                    r ← parse_request c f i (mk_ries body (body + ie_offset) (len f - (WLAN_HDR_A3_LEN + ie_offset))) s;
                    let '(status, s) := (r : Z * ap_st) in
                    if negb (status =? _STATS_SUCCESSFUL_) then Ret (refuse_request i reassoc status s)
                    else join_station c f i reassoc s
              end
        end.

(** ** Departure *)

(** Events wait in the command queue when [enqueue] is set; otherwise the
    station is released at once. *)
Definition rtw_stadel_event_callback (c : ap_cfg) (a : bytes) (s : ap_st) : ap_st :=
  free_station c (rtw_get_stainfo (tab s) (Some a)) s.

Definition report_del_sta_event (c : ap_cfg) (a : bytes) (enqueue : bool) (s : ap_st) : ap_st :=
  if negb (ap_malloc c) then s
  else if enqueue then set_events (events s ++ [a]) s else rtw_stadel_event_callback c a s.

Definition ap_free_sta (c : ap_cfg) (i : nat) (active : bool) (reason : Z) (enqueue : bool) (s : ap_st) : res (bool * ap_st) :=
  let a := mac_addr (entry s i) in
  let s := if active then call (tx_deauth a reason) (call (send_delba 1 a) (call (send_delba 0 a) s)) else s in
  let s := upd_entry i (change_state (Z.lor WIFI_ASOC_STATE WIFI_UNDER_KEY_HANDSHAKE) 0) s in
  let s := upd_info i (set_assoc_req None) s in
  let s := call (rtw_cfg80211_indicate_sta_disassoc a reason) s in
  r ← bss_cap_update_on_sta_leave (c_bss c) i s;
  let '(updated, s) := (r : bool * ap_st) in
  let s := report_del_sta_event c a enqueue s in
  Ret (updated, call (rtw_clearstakey_cmd a) s).

(** The branch of an access point that [OnDeAuth] and [OnDisassoc] share. *)
Definition station_leaves (c : ap_cfg) (a : bytes) (reason : Z) (s : ap_st) : res (Z * ap_st) :=
  match rtw_get_stainfo (tab s) (Some a) with
  | None => Ret (_SUCCESS, s)
  | Some i =>
      if bool_decide (i ∈ asoc_list s) then
        r ← ap_free_sta c i false reason true (asoc_list_delete i s);
        let '(updated, s) := (r : bool * ap_st) in
        Ret (_SUCCESS, clients_update updated s)
      else Ret (_SUCCESS, s)
  end.

(** Of a station, the handlers go on to [receive_disconnect], which is not
    modelled. *)
Definition OnDeAuth (c : ap_cfg) (f : recv_frame) (s : ap_st) : res (Z * ap_st) :=
  a3 ← addr3_of f;
  if negb (bool_decide (a3 = ap_bssid c)) then Ret (_SUCCESS, s)
  else
    reason ← le16_get (rx_mem f) (rx_data f + WLAN_HDR_A3_LEN);
    if bit_test (ap_fw_state c) WIFI_AP_STATE then a2 ← addr2_of f; station_leaves c a2 reason s else Ret (_SUCCESS, s).

Definition OnDisassoc (c : ap_cfg) (f : recv_frame) (s : ap_st) : res (Z * ap_st) :=
  a3 ← addr3_of f;
  if negb (bool_decide (a3 = ap_bssid c)) then Ret (_SUCCESS, s)
  else
    reason ← le16_get (rx_mem f) (rx_data f + WLAN_HDR_A3_LEN);
    if bit_test (ap_fw_state c) WIFI_AP_STATE then a2 ← addr2_of f; station_leaves c a2 reason s else Ret (_SUCCESS, s).

(** ** Expiry *)

(** One round over the authenticating stations: who expires now. *)
Fixpoint auth_tick (l : list nat) (s : ap_st) : list nat * ap_st :=
  match l with
  | [] => ([], s)
  | i :: l =>
      let t := expire_to (sps (entry s i)) in
      let s := if 0 <? t then upd_entry i (set_expire_to (t - 1)) s else s in
      let '(flush, s) := auth_tick l s in
      (if t =? 1 then i :: flush else flush, s)
  end.

(** The part of [expire_timeout_chk] on the list of authenticating stations. *)
Definition expire_auth (c : ap_cfg) (s : ap_st) : ap_st :=
  let '(flush, s) := auth_tick (auth_list (tab s)) s in
  foldl (fun s i => free_station c (Some i) s) s flush.

(** What [expire_timeout_chk] does with one associated station that did not
    answer: its check loop takes it off the list, its delete loop releases
    it. *)
Definition expire_station (c : ap_cfg) (i : nat) (s : ap_st) : res ap_st :=
  r ← ap_free_sta c i false WLAN_REASON_DEAUTH_LEAVING false (asoc_list_delete i s);
  let '(updated, s) := (r : bool * ap_st) in
  Ret (clients_update updated s).

(** ** Dispatch *)

(** A management frame for an access point with the address [me]: filter,
    duplicates, handler.  The handlers of other frames are not modelled. *)
Definition mgt_dispatcher (c : ap_cfg) (me : bytes) (stime : Z) (f : recv_frame) (s : ap_st) : res ap_st :=
  a1 ← addr1_of f;
  a2 ← addr2_of f;
  fc ← frame_control f;
  if negb (Z.land fc 0xc =? WIFI_MGT_TYPE) then Ret s
  else if negb (bool_decide (a1 = me)) && negb (bool_decide (a1 = bc_addr)) then Ret s
  else
    let dup := match rtw_get_stainfo (tab s) (Some a2) with
               | Some i => bit_test fc (BIT 11) && (seq_num (attrib f) =? RxMgmtFrameSeqNum (entry s i))
               | None => false end in
    if dup then Ret s
    else
      let s := match rtw_get_stainfo (tab s) (Some a2) with
               | Some i => upd_entry i (set_mgmt_seq (seq_num (attrib f))) s
               | None => s end in
      let sub := get_frame_sub_type fc in
      r ← (if sub =? WIFI_AUTH then OnAuth c stime f s
           else if (sub =? WIFI_ASSOCREQ) || (sub =? WIFI_REASSOCREQ) then OnAssocReq c f s
           else if sub =? WIFI_DEAUTH then OnDeAuth c f s
           else if sub =? WIFI_DISASSOC then OnDisassoc c f s
           else Ret (_SUCCESS, s));
      Ret (snd (r : Z * ap_st)).
