(* ===== verification/ApPolicy.v ===== *)
(** * The security policy of an access point

    [rtw_ap_parse_sta_security_ie] of ApParse.v decides about a request with
    an RSN element, of whatever shape, as the policy stated here on what the
    element says ([read_rsne] of RsnRead.v) asks for. *)

From S2P Require Import Prelude RxFrame Reorder SwCrypt StaMgt Acl RxCheck MgmtProtect Ie Elems Rsn RsnRead ApState ApBss ApParse.

(** ** The policy *)

Section policy.
Context (c : ap_sec) (a : bytes) (alg : Z) (r : rsn_asks).

(** Without a capability field nothing is protected ([MFP_NO]) and SPP is not
    spoken of; without a group management cipher it is BIP-CMAC-128. *)
Definition rsn_akm : Z := union akm_suites (q_akm r) 0.
Definition rsn_mfp : Z := match q_cap r with Some cap => Z.land (Z.shiftr cap 6) 3 | None => MFP_NO end.
Definition rsn_spp : Z := match q_cap r with Some cap => Z.land (Z.shiftr cap 10) 3 | None => 0 end.
Definition rsn_gmcs : Z := match q_gmcs r with Some s => suite_of rsn_cipher_suites s | None => WPA_CIPHER_BIP_CMAC_128 end.
Definition common_group : Z :=
  Z.land (match q_group r with Some s => suite_of rsn_cipher_suites s | None => 0 end) (ap_wpa2_group c).
Definition common_pairwise : Z := Z.land (union rsn_cipher_suites (q_pairwise r) 0) (ap_wpa2_pairwise c).
Definition sae_requested : bool := bit_test WLAN_AKM_TYPE_SAE rsn_akm.
Definition both_protect : bool := (MFP_OPTIONAL <=? mfp_opt c) && (MFP_OPTIONAL <=? rsn_mfp).

(** The first rule that is broken, or [None]. *)
Definition rsn_refusal : option Z :=
  if sae_requested && (rsn_mfp =? MFP_NO) then Some WLAN_STATUS_ROBUST_MGMT_FRAME_POLICY_VIOLATION
  else if Z.land (akmp c) rsn_akm =? 0 then Some WLAN_STATUS_AKMP_NOT_VALID
  else if common_group =? 0 then Some WLAN_STATUS_GROUP_CIPHER_NOT_VALID
  else if common_pairwise =? 0 then Some WLAN_STATUS_PAIRWISE_CIPHER_NOT_VALID
  else if (mfp_opt c =? MFP_REQUIRED) && (rsn_mfp <? MFP_OPTIONAL) || (rsn_mfp =? MFP_REQUIRED) && (mfp_opt c <? MFP_OPTIONAL)
  then Some WLAN_STATUS_ROBUST_MGMT_FRAME_POLICY_VIOLATION
  else if both_protect && negb (security_type_bip_to_gmcs (dot11wCipher c) =? rsn_gmcs)
  then Some WLAN_STATUS_CIPHER_REJECTED_PER_POLICY
  else if auth_type_sae c && sae_requested && (alg =? WLAN_AUTH_OPEN) && (rtw_cached_pmkid c a =? -1) then Some WLAN_STATUS_INVALID_PMKID
  else None.

(** What an accepted request leaves in the entry; [ie] is the copy of the
    element. *)
Definition rsn_accepted (ie : bytes) : sta_sec :=
  mk_ssec 1 (BIT 1) 0 common_group 0 common_pairwise rsn_akm ie.

Definition rsn_flags (flags : Z) : Z :=
  let flags := if negb (ap_PrivacyAlgrthm c =? 0) && rtw_check_amsdu_disable (amsdu_mode c) rsn_spp
               then Z.lor flags WLAN_STA_AMSDU_DISABLE else flags in
  Z.ldiff (if both_protect then Z.lor flags WLAN_STA_MFP else flags) (Z.lor WLAN_STA_WPS WLAN_STA_MAYBE_WPS).

End policy.

(** The decision about a request whose RSN element has the given body. *)
Definition rsn_decision (c : ap_sec) (a : bytes) (alg : Z) (body : bytes) : Z :=
  match read_rsne body with
  | None => WLAN_STATUS_INVALID_IE
  | Some r => default _STATS_SUCCESSFUL_ (rsn_refusal c a alg r)
  end.

(** ** The decision *)

Lemma parse_rsn_reads c pre body post s :
  bytes_ok body -> zlen body < 256 ->
  parse_rsn true c (pre ++ enc1 (_WPA2_IE_ID_, body) ++ post) (zlen pre + 2) (zlen body) (sec_cleared s)
  = Ret (match read_rsne body with
         | None => (sec_cleared s, inl WLAN_STATUS_INVALID_IE)
         | Some r =>
             (rsn_accepted c r (replicate 32 0),
              if sae_requested r && (rsn_mfp r =? MFP_NO) then inl WLAN_STATUS_ROBUST_MGMT_FRAME_POLICY_VIOLATION
              else if Z.land (akmp c) (rsn_akm r) =? 0 then inl WLAN_STATUS_AKMP_NOT_VALID
              else if common_group c r =? 0 then inl WLAN_STATUS_GROUP_CIPHER_NOT_VALID
              else if common_pairwise c r =? 0 then inl WLAN_STATUS_PAIRWISE_CIPHER_NOT_VALID
              else inr (mk_req (Some (zlen pre + 2, zlen body)) (rsn_gmcs r) (rsn_mfp r) (rsn_spp r)))
         end).
Proof.
  intros Hb Hl. unfold parse_rsn. replace (zlen pre + 2 - 2) with (zlen pre) by lia.
  rewrite (parse_wpa2_ie_reads pre body post Hb Hl), bind_Ret. destruct (read_rsne body) as [r|]; [|done].
  unfold summary. cbn [o_group o_pairwise o_akm o_mfp o_spp o_gmcs andb]. fold (rsn_akm r).
  unfold bit_test at 2. rewrite negb_involutive. reflexivity.
Qed.

(** The policy part, once the element is read. *)
Lemma sec_policy_ok c r ie flags a alg :
  let q := mk_req ie (rsn_gmcs r) (rsn_mfp r) (rsn_spp r) in
  exists f', sec_policy true c q a alg (rsn_akm r) flags =
    (f', if (mfp_opt c =? MFP_REQUIRED) && (rsn_mfp r <? MFP_OPTIONAL) || (rsn_mfp r =? MFP_REQUIRED) && (mfp_opt c <? MFP_OPTIONAL)
         then Some WLAN_STATUS_ROBUST_MGMT_FRAME_POLICY_VIOLATION
         else if both_protect c r && negb (security_type_bip_to_gmcs (dot11wCipher c) =? rsn_gmcs r)
         then Some WLAN_STATUS_CIPHER_REJECTED_PER_POLICY
         else if auth_type_sae c && sae_requested r && (alg =? WLAN_AUTH_OPEN) && (rtw_cached_pmkid c a =? -1) then Some WLAN_STATUS_INVALID_PMKID
         else None) /\
    (snd (sec_policy true c q a alg (rsn_akm r) flags) = None -> Z.ldiff f' (Z.lor WLAN_STA_WPS WLAN_STA_MAYBE_WPS) = rsn_flags c r flags).
Proof.
  cbn zeta. unfold sec_policy, rsn_flags. cbn [rq_mfp rq_gmcs rq_spp]. fold (both_protect c r) (sae_requested r). set (f1 := if _ : bool then Z.lor flags _ else flags).
  clearbody f1. destruct (_ || _); [by eexists; split|]. assert (both_protect c r = true -> bit_test (if both_protect c r then Z.lor f1 WLAN_STA_MFP else f1) WLAN_STA_MFP = true) as Hm.
  { intros ->. unfold WLAN_STA_MFP. rewrite bit_test_testbit, Z.lor_spec by lia. apply orb_true_r. }
  cbn [andb]. destruct (both_protect c r) eqn:Eb; cbn [andb].
  - rewrite Hm by done. cbn [andb]. destruct (negb _); [by eexists; split|]. destruct (_ && _); by eexists; split.
  - rewrite andb_false_r. cbn [andb]. destruct (_ && _); by eexists; split.
Qed.

(** The copy of the element, cut to the 32 bytes of [sta->wpa_ie]. *)
Lemma copy_rsne pre body post :
  let ie := enc1 (_WPA2_IE_ID_, body) in
  (x ← rd_slice (pre ++ ie ++ post) (zlen pre + 2 - 2) (if 32 <? zlen body + 2 then 32 else zlen body + 2);
   wr_slice (replicate 32 0) 0 x) = Ret (take 32 (ie ++ replicate 32 0)).
Proof.
  intros ie. replace (zlen pre + 2 - 2) with (zlen pre) by lia.
  assert (zlen body + 2 = zlen ie) as -> by (unfold ie; by rewrite zlen_enc1).
  set (x := take 32 ie).
  assert ((if 32 <? zlen ie then 32 else zlen ie) = zlen x) as ->.
  { unfold x, zlen. rewrite length_take. destruct (Z.ltb_spec 32 (Z.of_nat (length ie))); lia. }
  rewrite <- (take_drop 32 ie) at 1. fold x. rewrite <- app_assoc, rd_slice_app, bind_Ret.
  assert (length x <= 32)%nat as Hx by (unfold x; rewrite length_take; lia).
  assert (wr_slice (replicate 32 0) 0 x = Ret (x ++ replicate (32 - length x) 0)) as ->.
  { assert (replicate 32 0 = [] ++ replicate (length x) 0 ++ replicate (32 - length x) 0) as ->.
    { cbn [app]. rewrite <- replicate_add. by replace (length x + (32 - length x))%nat with 32%nat by lia. }
    apply (wr_slice_app [] (replicate (length x) 0)). by rewrite length_replicate. }
  f_equal. destruct (decide (length ie < 32)%nat) as [L|L].
  - assert (x = ie) as -> by (apply take_ge; lia). rewrite take_app_ge by lia. f_equal. rewrite take_replicate. f_equal. lia.
  - assert (length x = 32%nat) as -> by (unfold x; rewrite length_take; lia). rewrite app_nil_r. symmetry. apply take_app_le. lia.
Qed.

(** What an accepted request with the element [ie] leaves: with a WPS element
    beside it the WPS flag, without one a copy of [ie]. *)
Definition final_flags (e : elems) (flags : Z) : Z :=
  match e wps_ie with Some _ => Z.lor flags WLAN_STA_WPS | None => flags end.
Definition final_copy (e : elems) (ie : bytes) : bytes :=
  match e wps_ie with Some _ => replicate 32 0 | None => take 32 (ie ++ replicate 32 0) end.

Lemma sec_wps_accepts c wps pre body post (e : elems) r g m sp flags :
  bit_test (ap_wpa_psk c) (BIT 1) = true ->
  let ie := enc1 (_WPA2_IE_ID_, body) in
  sec_wps c wps (pre ++ ie ++ post) e (mk_req (Some (zlen pre + 2, zlen body)) g m sp) flags (rsn_accepted c r (replicate 32 0))
    = Ret (_STATS_SUCCESSFUL_, final_flags e (Z.ldiff flags (Z.lor WLAN_STA_WPS WLAN_STA_MAYBE_WPS)), rsn_accepted c r (final_copy e ie)).
Proof.
  intros Hp ie. unfold sec_wps, final_flags, final_copy. cbn [rq_ie]. assert (ap_wpa_psk c =? 0 = false) as ->.
  { destruct (Z.eqb_spec (ap_wpa_psk c) 0) as [E0|]; [|done]. by rewrite E0 in Hp. }
  destruct (e wps_ie) as [[w l]|]; [done|]. cbn [sta_wpa_ie rsn_accepted]. pose proof (copy_rsne pre body post) as Cp. fold ie in Cp. cbv zeta in Cp.
  destruct (rd_slice _ _ _) as [x| |]; [|done|done]. cbn [mbind res_mbind] in Cp. by rewrite bind_Ret, Cp, bind_Ret.
Qed.

Lemma well_formed_decided c wps pre body post (e : elems) r a alg flags s :
  bytes_ok body -> zlen body < 256 -> bit_test (ap_wpa_psk c) (BIT 1) = true -> e rsn_ie = Some (zlen pre + 2, zlen body) ->
  read_rsne body = Some r ->
  let ie := enc1 (_WPA2_IE_ID_, body) in
  exists flags' s', rtw_ap_parse_sta_security_ie true c wps (pre ++ ie ++ post) e a alg flags s
    = Ret (default _STATS_SUCCESSFUL_ (rsn_refusal c a alg r), flags', s') /\
    (rsn_refusal c a alg r = None -> flags' = final_flags e (rsn_flags c r flags) /\ s' = rsn_accepted c r (final_copy e ie)).
Proof.
  intros Hb Hl Hp He Hr ie. unfold rtw_ap_parse_sta_security_ie, parse_sec, ie. rewrite Hp, He, parse_rsn_reads, Hr, bind_Ret by done.
  unfold rsn_refusal. destruct (sae_requested r && (rsn_mfp r =? MFP_NO)); [by eexists _, _|].
  destruct (Z.land (akmp c) (rsn_akm r) =? 0); [by eexists _, _|]. destruct (common_group c r =? 0); [by eexists _, _|].
  destruct (common_pairwise c r =? 0); [by eexists _, _|]. cbn [akm_suite_type rsn_accepted].
  destruct (sec_policy_ok c r (Some (zlen pre + 2, zlen body)) flags a alg) as (f' & E & F). cbn zeta in *. rewrite E in *. cbn [snd] in F. clear E.
  destruct (_ || _); [by eexists _, _|]. destruct (both_protect c r && _); [by eexists _, _|]. destruct (auth_type_sae c && _ && _ && _); [by eexists _, _|].
  rewrite sec_wps_accepts, F by done. by eexists _, _.
Qed.

(** C13: The access point decides about a request with an RSN element exactly
    as its policy says, whatever the body of the element: a malformed body is
    refused as an invalid element; otherwise the request is accepted, or
    refused with the status of the first rule it breaks (SAE without protected
    management frames, no common key management, no common group cipher, no
    common pairwise cipher, a protection requirement that one side cannot meet,
    another management cipher, no cached key for SAE without an exchange),
    where fields the element does not have count as their defaults.  An
    accepted request leaves the ciphers both sides have and the key management
    asked for in the entry, and the element, cut to 32 bytes, unless a WPS
    element came with it, whose flag is then set; it sets the protection flag
    if both sides are capable of it. *)
Theorem rsn_request_decided c wps pre body post (e : elems) a alg flags s :
  bytes_ok body -> zlen body < 256 -> bit_test (ap_wpa_psk c) (BIT 1) = true -> e rsn_ie = Some (zlen pre + 2, zlen body) ->
  let ie := enc1 (_WPA2_IE_ID_, body) in
  exists flags' s', rtw_ap_parse_sta_security_ie true c wps (pre ++ ie ++ post) e a alg flags s
    = Ret (rsn_decision c a alg body, flags', s') /\
    (forall r, read_rsne body = Some r -> rsn_refusal c a alg r = None ->
       flags' = final_flags e (rsn_flags c r flags) /\ s' = rsn_accepted c r (final_copy e ie)).
Proof.
  intros Hb Hl Hp He ie. unfold rsn_decision. destruct (read_rsne body) as [r|] eqn:Hr.
  - destruct (well_formed_decided c wps pre body post e r a alg flags s Hb Hl Hp He Hr) as (f & s' & E & F).
    exists f, s'. split; [exact E|]. by intros r' [= <-].
  - unfold rtw_ap_parse_sta_security_ie, parse_sec, ie. rewrite Hp, He, parse_rsn_reads, Hr, bind_Ret by done.
    eexists _, _. split; [reflexivity|]. by intros.
Qed.

(** WPA2 with CCMP, protection optional, keys by PSK. *)
Definition ex_policy : ap_sec := mk_apsec (mk_sec 0 [] [] 0 [] false) 2 4 2 0 (BIT 4) 0 (BIT 4) (BIT 1) 2 _BIP_CMAC_128_ false [] 0.

(** The element most stations send, without a group management cipher: the
    default is the cipher of the access point, and frames are protected. *)
Definition usual_rsne : bytes := short_rsne ++ [0x80; 0].

Lemma rsn_request_decided_witness :
  rsn_decision ex_policy [2; 0; 0; 0; 0; 1] 0 usual_rsne = _STATS_SUCCESSFUL_ /\
  exists flags' s', rtw_ap_parse_sta_security_ie true ex_policy None ([7; 7] ++ enc1 (_WPA2_IE_ID_, usual_rsne) ++ [9])
      (set_elem elems_zero rsn_ie 4 (zlen usual_rsne)) [2; 0; 0; 0; 0; 1] 0 0 sec_zero = Ret (_STATS_SUCCESSFUL_, flags', s') /\
    bit_test flags' WLAN_STA_MFP = true /\ wpa2_pairwise_cipher s' = WPA_CIPHER_CCMP.
Proof.
  split; [reflexivity|].
  destruct (rsn_request_decided ex_policy None [7; 7] usual_rsne [9] (set_elem elems_zero rsn_ie 4 (zlen usual_rsne)) [2; 0; 0; 0; 0; 1] 0 0 sec_zero)
    as (f & s & E & F); [repeat constructor; vm_compute; congruence | reflexivity.. |].
  exists f, s. split; [exact E|].
  destruct (F (mk_asks (Some (rsn 4)) [rsn 4] [rsn 2] (Some 128) None) ltac:(reflexivity) ltac:(reflexivity)) as [-> ->]. split; reflexivity.
Defined.

(** The decision on other shapes: without capabilities nothing is protected,
    which SAE and an access point that requires protection refuse; a version
    alone asks for nothing; a cut element is invalid; an element that ends
    after the count of a list counts as one without the list. *)
Definition with_mfp (m : Z) : ap_sec := mk_apsec (mk_sec 0 [] [] 0 [] false) 2 4 2 0 (BIT 4) 0 (BIT 4) (Z.lor (BIT 1) (BIT 7)) m _BIP_CMAC_128_ false [] 0.
Definition sae_rsne : bytes := [1; 0] ++ rsn 4 ++ [1; 0] ++ rsn 4 ++ [1; 0] ++ rsn 8.

Lemma rsn_decisions :
  let d m body := rsn_decision (with_mfp m) [2; 0; 0; 0; 0; 1] 0 body in
  d MFP_OPTIONAL short_rsne = _STATS_SUCCESSFUL_ /\
  d MFP_REQUIRED short_rsne = WLAN_STATUS_ROBUST_MGMT_FRAME_POLICY_VIOLATION /\
  d MFP_OPTIONAL sae_rsne = WLAN_STATUS_ROBUST_MGMT_FRAME_POLICY_VIOLATION /\
  d MFP_OPTIONAL (usual_rsne ++ [0; 0] ++ rsn 11) = WLAN_STATUS_CIPHER_REJECTED_PER_POLICY /\
  d MFP_OPTIONAL [1; 0] = WLAN_STATUS_AKMP_NOT_VALID /\
  d MFP_OPTIONAL (short_rsne ++ [0]) = WLAN_STATUS_INVALID_IE /\
  d MFP_OPTIONAL (usual_rsne ++ [3; 0]) = _STATS_SUCCESSFUL_.
Proof. vm_compute. split_and!; reflexivity. Qed.
