(* ===== verification/ApRun.v ===== *)
(** * Stations are admitted (runs of ApMlme.v)

    Every run of the handlers of an access point, in any order and with any
    frames, keeps the invariants of this file: who is in the table passed the
    access list, and who associates was authenticated before. *)

From S2P Require Import Prelude RxFrame Reorder SwCrypt StaMgt Acl RxCheck MgmtProtect Ie Elems Rsn XmitAttr ApState ApBss ApProt ApParse ApMlme.

(** ** Changes that admit nobody *)

(** The station may be served: authenticated, or in the course of associating,
    or associated. *)
Definition linked (st : Z) : bool := bit_test st (Z.lor WIFI_FW_AUTH_SUCCESS (Z.lor WIFI_FW_ASSOC_STATE WIFI_FW_ASSOC_SUCCESS)).

(** The table has the same stations, none of them newly linked. *)
Record quiet (s s' : ap_st) : Prop := {
  qu_hash : sta_hash (tab s') = sta_hash (tab s);
  qu_free : free_sta_queue (tab s') = free_sta_queue (tab s);
  qu_count : asoc_sta_count (tab s') = asoc_sta_count (tab s);
  qu_buf : length (stainfo_buf (tab s')) = length (stainfo_buf (tab s));
  qu_mac : forall i, mac_of (tab s') i = mac_of (tab s) i;
  qu_more : length (more s') = length (more s);
  qu_state : forall i, linked (sta_state (entry s' i)) = true -> linked (sta_state (entry s i)) = true;
  qu_nodup : NoDup (auth_list (tab s)) -> NoDup (auth_list (tab s'));
  qu_auth : forall i, i ∈ auth_list (tab s') -> i ∈ auth_list (tab s) \/ i ∈ in_use (tab s);
  qu_out : ap_out s `prefix_of` ap_out s'
}.

Lemma in_use_hash p p' : sta_hash p' = sta_hash p -> in_use p' = in_use p.
Proof. unfold in_use. by intros ->. Qed.

#[export] Instance quiet_refl : Reflexive quiet.
Proof. split; auto. Qed.

#[export] Instance quiet_trans : Transitive quiet.
Proof.
  intros s1 s2 s3 [] []. split; try congruence; auto.
  - intros i Hi. destruct (qu_auth1 i Hi) as [Ha|Hu]; [auto|]. right. by rewrite <- (in_use_hash _ _ qu_hash0).
  - by etransitivity.
Qed.

Lemma quiet_same s s' : tab s' = tab s -> length (more s') = length (more s) -> ap_out s `prefix_of` ap_out s' -> quiet s s'.
Proof. intros E1 E2 P. split; unfold entry; rewrite ?E1; auto. Qed.

Lemma quiet_call o s : quiet s (call o s).
Proof. apply quiet_same; [done|done|by exists [o]]. Qed.

Lemma quiet_info i f s : quiet s (upd_info i f s).
Proof. apply quiet_same; [done|apply length_alter|done]. Qed.

Lemma quiet_bss b s : quiet s (set_bss b s).
Proof. by apply quiet_same. Qed.

Lemma quiet_asoc l n s : quiet s (set_asoc l n s).
Proof. by apply quiet_same. Qed.

Lemma quiet_ptime t s : quiet s (set_ptime t s).
Proof. by apply quiet_same. Qed.

Lemma quiet_events l s : quiet s (set_events l s).
Proof. by apply quiet_same. Qed.

(** The table rewritten without touching stations. *)
Lemma quiet_tab p s :
  sta_hash p = sta_hash (tab s) -> free_sta_queue p = free_sta_queue (tab s) -> asoc_sta_count p = asoc_sta_count (tab s) ->
  stainfo_buf p = stainfo_buf (tab s) ->
  (NoDup (auth_list (tab s)) -> NoDup (auth_list p)) -> (forall i, i ∈ auth_list p -> i ∈ auth_list (tab s) \/ i ∈ in_use (tab s)) ->
  quiet s (set_tab p s).
Proof.
  intros E1 E2 E3 E4 E5 E6. split; try done; cbn [tab set_tab].
  - by rewrite E4.
  - intros i. unfold mac_of. by rewrite E4.
  - intros i. unfold entry. cbn [tab set_tab]. by rewrite E4.
Qed.

Lemma upd_entry_at i f s j : entry (upd_entry i f s) j = if decide (i = j) then match stainfo_buf (tab s) !! i with Some e => f e | None => _rtw_init_stainfo end else entry s j.
Proof.
  unfold entry, upd_entry. cbn [tab set_tab]. destruct (decide (i = j)) as [->|N].
  - cbn. rewrite list_lookup_alter_eq. by destruct (stainfo_buf (tab s) !! j).
  - cbn. by rewrite list_lookup_alter_ne.
Qed.

Lemma mac_upd i f s j : (forall e, mac_addr (f e) = mac_addr e) -> mac_of (tab (upd_entry i f s)) j = mac_of (tab s) j.
Proof.
  intros Hf. unfold mac_of, upd_entry. cbn. destruct (decide (i = j)) as [->|N].
  - rewrite list_lookup_alter_eq. destruct (stainfo_buf (tab s) !! j); [apply Hf|done].
  - by rewrite list_lookup_alter_ne.
Qed.

Lemma quiet_entry i f s :
  (forall e, mac_addr (f e) = mac_addr e) ->
  (forall e, entry s i = e -> linked (sta_state (f e)) = true -> linked (sta_state e) = true) -> quiet s (upd_entry i f s).
Proof.
  intros Hm Hl. split; try done; auto.
  - apply length_alter.
  - intros j. by apply mac_upd.
  - intros j. rewrite upd_entry_at. destruct (decide (i = j)) as [->|]; [|done].
    destruct (stainfo_buf (tab s) !! j) as [e|] eqn:E; [|done]. unfold entry. rewrite E. apply Hl. unfold entry. by rewrite E.
Qed.

(** Updates of an entry that leave its state alone. *)
Lemma quiet_entry_state i f s :
  (forall e, mac_addr (f e) = mac_addr e) -> (forall e, sta_state (f e) = sta_state e) -> quiet s (upd_entry i f s).
Proof. intros Hm Hs. apply quiet_entry; [done|]. intros e _. by rewrite Hs. Qed.

(** ** The beacon and the counters are quiet *)

Lemma tim_only c s s' : update_bcn_tim c s = Ret s' -> ies_only s s'.
Proof. unfold update_bcn_tim. intros H. res_inv. destruct a as [ies l]. res_inv. by apply ies_only_ies. Qed.

Lemma erp_only c s s' : update_bcn_erpinfo_ie c s = Ret s' -> ies_only s s'.
Proof.
  unfold update_bcn_erpinfo_ie. intros H. destruct (negb _); [res_inv; apply ies_only_refl|]. res_inv.
  destruct a as [[p l]|]; res_inv; [|apply ies_only_refl]. eapply ies_only_trans; [|apply ies_only_call]. by apply ies_only_ies.
Qed.

Lemma ht_only c s s' : update_bcn_htinfo_ie c s = Ret s' -> ies_only s s'.
Proof.
  unfold update_bcn_htinfo_ie. intros H. destruct (negb _ || negb _); [res_inv; apply ies_only_refl|]. res_inv.
  destruct a as [[p l]|]; res_inv; [|apply ies_only_refl]. destruct (ht_width _ _ _) as [sw y]. res_inv. by apply ies_only_ies.
Qed.

Lemma update_beacon_only c ie tx s s' : update_beacon c ie tx s = Ret s' -> ies_only s s'.
Proof.
  unfold update_beacon. intros H. destruct (negb _); [res_inv; apply ies_only_refl|]. res_inv.
  assert (ies_only s a) as I.
  { destruct (_ =? _); [by apply (tim_only c)|]. destruct (_ =? _); [by apply (erp_only c)|]. destruct (_ =? _); [by apply (ht_only c)|].
    res_inv. apply ies_only_refl. }
  destruct tx; [|done]. eapply ies_only_trans; [done|apply ies_only_call].
Qed.

Lemma quiet_ies s s' : ies_only s s' -> quiet s s'.
Proof. intros I. apply quiet_same; [apply I|by rewrite (io_more _ _ I)|apply I]. Qed.

Lemma quiet_beacon c ie tx (u : bool) s s' : (if u then update_beacon c ie tx s else Ret s) = Ret s' -> quiet s s'.
Proof. destruct u; intros H; [by apply quiet_ies, (update_beacon_only c ie tx)|by res_inv]. Qed.

Lemma quiet_mark i k s : quiet s (snd (mark i k s)).
Proof. unfold mark. destruct (lacks s i k); [done|]. etransitivity; [apply quiet_info|apply quiet_bss]. Qed.

Lemma quiet_unmark i k s : quiet s (snd (unmark i k s)).
Proof. unfold unmark. destruct (lacks s i k); [|done]. etransitivity; [apply quiet_info|apply quiet_bss]. Qed.

Lemma quiet_track on i k s e s' : track on i k s = (e, s') -> quiet s s'.
Proof.
  intros H. assert (s' = snd (track on i k s)) as -> by (by rewrite H). destruct on; cbn [track]; [apply quiet_mark|apply quiet_unmark].
Qed.

Lemma quiet_join_ht i s : quiet s (join_ht i s).
Proof.
  unfold join_ht. destruct (bit_test _ _); [|apply quiet_mark].
  etransitivity; [apply (quiet_unmark i no_ht)|]. set (s1 := snd (unmark i no_ht s)).
  assert (forall (b : bool) k t, quiet t (if b then t else snd (mark i k t))) as Q by (intros [] k t; [done|apply quiet_mark]).
  etransitivity; [apply (Q (bit_test (znth (ht_cap (info s i)) 0 + 256 * znth (ht_cap (info s i)) 1) IEEE80211_HT_CAP_GRN_FLD) no_ht_gf)|].
  etransitivity; [apply (Q (bit_test (znth (ht_cap (info s i)) 0 + 256 * znth (ht_cap (info s i)) 1) IEEE80211_HT_CAP_SUP_WIDTH) ht_20mhz)|].
  destruct (bit_test _ RTW_IEEE80211_HT_CAP_40MHZ_INTOLERANT); [apply quiet_mark|done].
Qed.

Lemma quiet_unmark_intolerant i s : quiet s (unmark_intolerant i s).
Proof.
  unfold unmark_intolerant. destruct (lacks _ _ _); [|done]. cbn zeta. destruct (_ <? _); [etransitivity; [apply quiet_info|apply quiet_bss]|apply quiet_info].
Qed.

Lemma quiet_announce c s u s' : announce_ht c s = Ret (u, s') -> quiet s s'.
Proof.
  unfold announce_ht. destruct (rtw_ht_operation_update c (bss s)) as [n b]. destruct (0 <? n); intros H; res_inv.
  - etransitivity; [apply (quiet_bss b)|]. etransitivity; eapply quiet_ies, update_beacon_only; eassumption.
  - subst. apply quiet_bss.
Qed.

Lemma quiet_clients u s : quiet s (clients_update u s).
Proof. destruct u; [apply quiet_call|done]. Qed.

Lemma quiet_join c i s s' : bss_cap_update_on_sta_join c i s = Ret s' -> quiet s s'.
Proof.
  unfold bss_cap_update_on_sta_join. destruct (track _ i no_short_preamble s) as [e1 s1] eqn:T1. destruct (track _ i nonerp s1) as [u2 s2] eqn:T2.
  intros H. res_inv. destruct (track _ i no_short_slot_time a) as [e3 s4] eqn:T4. res_inv. destruct a0 as [u4 s6]. res_inv.
  etransitivity; [by eapply quiet_track|]. etransitivity; [by eapply quiet_track|]. etransitivity; [by eapply quiet_beacon|].
  etransitivity; [by eapply quiet_track|]. transitivity s6; [|etransitivity; [by eapply quiet_beacon|apply quiet_clients]].
  destruct (ht_on c); [|by res_inv]. etransitivity; [apply quiet_join_ht|by eapply quiet_announce].
Qed.

Lemma quiet_leave c i s u s' : bss_cap_update_on_sta_leave c i s = Ret (u, s') -> quiet s s'.
Proof.
  unfold bss_cap_update_on_sta_leave. intros H. res_inv. destruct (unmark i no_short_preamble a) as [e1 s1] eqn:T1.
  destruct (unmark i nonerp s1) as [u2 s2] eqn:T2. res_inv. destruct (unmark i no_short_slot_time a0) as [e3 s4] eqn:T4. res_inv.
  destruct a1 as [u4 s6]. res_inv. subst.
  transitivity a; [destruct (rtw_tim_map_is_set _ _ _); [|by res_inv]; etransitivity; [|by eapply quiet_ies, update_beacon_only]; apply quiet_tab; auto|].
  etransitivity; [by apply (quiet_track false i no_short_preamble a e1)|]. etransitivity; [by apply (quiet_track false i nonerp s1 u2)|].
  etransitivity; [by eapply quiet_beacon|]. etransitivity; [by apply (quiet_track false i no_short_slot_time a0 e3)|].
  etransitivity; [|by eapply quiet_beacon]. etransitivity; [|by eapply quiet_announce].
  etransitivity; [|apply quiet_unmark_intolerant]. do 2 (etransitivity; [|apply quiet_unmark]). apply quiet_unmark.
Qed.

(** ** The invariant *)

(** An authentication response with status 0 that is not a challenge. *)
Definition answered (s : ap_st) (a : bytes) : Prop := exists alg seq, tx_auth a alg seq 0 None ∈ ap_out s.

Record adm (c : ap_cfg) (s : ap_st) : Prop := {
  am_table : sta_wf (tab s);
  am_more : length (more s) = 32%nat;
  am_acl : forall i, i ∈ in_use (tab s) -> mac_of (tab s) i = bc_addr \/
    rtw_access_ctrl (acl_list c) (mac_of (tab s) i) = true /\ rtw_check_invalid_mac_address (mac_of (tab s) i) false = false;
  am_nodup : NoDup (auth_list (tab s));
  am_listed : forall i, i ∈ auth_list (tab s) -> i ∈ in_use (tab s);
  am_auth : forall i, i ∈ in_use (tab s) -> linked (sta_state (entry s i)) = true -> answered s (mac_of (tab s) i)
}.

Lemma answered_mono s s' a : ap_out s `prefix_of` ap_out s' -> answered s a -> answered s' a.
Proof. intros [l E] (alg & seq & H). exists alg, seq. rewrite E. set_solver. Qed.

Lemma adm_quiet c s s' : quiet s s' -> adm c s -> adm c s'.
Proof.
  intros [Q1 Q2 Q3 Q4 Q5 Q6 Q7 Q8 Q9 Q10] [A B C D E F]. pose proof (in_use_hash _ _ Q1) as U.
  split; [by apply (sta_wf_same (tab s))|congruence|..].
  - intros i. rewrite U, Q5. apply C.
  - auto.
  - intros i Hi. rewrite U. destruct (Q9 i Hi); auto.
  - intros i. rewrite U, Q5. intros Hi Hl. eapply answered_mono; [done|]. auto.
Qed.

(** The same, but for one station. *)
Record rest_quiet (i : nat) (s s' : ap_st) : Prop := {
  rq_hash : sta_hash (tab s') = sta_hash (tab s);
  rq_free : free_sta_queue (tab s') = free_sta_queue (tab s);
  rq_count : asoc_sta_count (tab s') = asoc_sta_count (tab s);
  rq_buf : length (stainfo_buf (tab s')) = length (stainfo_buf (tab s));
  rq_mac : forall j, mac_of (tab s') j = mac_of (tab s) j;
  rq_more : length (more s') = length (more s);
  rq_state : forall j, j <> i -> linked (sta_state (entry s' j)) = true -> linked (sta_state (entry s j)) = true;
  rq_nodup : NoDup (auth_list (tab s)) -> NoDup (auth_list (tab s'));
  rq_auth : forall j, j ∈ auth_list (tab s') -> j ∈ auth_list (tab s) \/ j ∈ in_use (tab s);
  rq_out : ap_out s `prefix_of` ap_out s'
}.

Lemma quiet_rest i s s' : quiet s s' -> rest_quiet i s s'.
Proof. intros []. split; auto. Qed.

Lemma rest_trans i s1 s2 s3 : rest_quiet i s1 s2 -> rest_quiet i s2 s3 -> rest_quiet i s1 s3.
Proof.
  intros [] []. split; try congruence; auto.
  - intros j Hj. destruct (rq_auth1 j Hj) as [Ha|Hu]; [auto|]. right. by rewrite <- (in_use_hash _ _ rq_hash0).
  - by etransitivity.
Qed.

Lemma rest_entry i f s : (forall e, mac_addr (f e) = mac_addr e) -> rest_quiet i s (upd_entry i f s).
Proof.
  intros Hm. split; try done; auto.
  - apply length_alter.
  - intros j. by apply mac_upd.
  - intros j N. rewrite upd_entry_at, decide_False by congruence. done.
Qed.

Lemma adm_rest c i s s' : rest_quiet i s s' -> answered s' (mac_of (tab s) i) -> adm c s -> adm c s'.
Proof.
  intros [Q1 Q2 Q3 Q4 Q5 Q6 Q7 Q8 Q9 Q10] An [A B C D E F]. pose proof (in_use_hash _ _ Q1) as U.
  split; [by apply (sta_wf_same (tab s))|congruence|..].
  - intros j. rewrite U, Q5. apply C.
  - auto.
  - intros j Hj. rewrite U. destruct (Q9 j Hj); auto.
  - intros j. rewrite U, Q5. intros Hi Hl. destruct (decide (j = i)) as [->|N]; [done|]. eapply answered_mono; [done|]. auto.
Qed.

(** ** Table operations *)

Lemma invalid_addr a : rtw_check_invalid_mac_address a false = false -> IS_MCAST a = false /\ sta_addr a /\ addr_key a = a.
Proof.
  unfold rtw_check_invalid_mac_address. destruct (bool_decide _); [done|]. destruct (bool_decide _); [done|].
  destruct (bit_test (znth a 0) (BIT 0)) eqn:E; [done|]. intros _. assert (IS_MCAST a = false) as M by exact E.
  split; [done|]. assert (sta_addr a) as S by (by left). split; [done|]. by apply sta_addr_key.
Qed.

Lemma known_station s a i :
  sta_wf (tab s) -> addr_key a = a -> rtw_get_stainfo (tab s) (Some a) = Some i -> i ∈ in_use (tab s) /\ mac_of (tab s) i = a.
Proof. intros W K. rewrite get_stainfo_map, K by done. by rewrite sta_map_lookup. Qed.

Lemma adm_alloc c a s o s' :
  adm c s -> rtw_check_invalid_mac_address a false = false -> rtw_access_ctrl (acl_list c) a = true ->
  rtw_get_stainfo (tab s) (Some a) = None -> alloc_station a s = Ret (o, s') ->
  adm c s' /\ match o with Some i => i ∈ in_use (tab s') /\ mac_of (tab s') i = a | None => True end.
Proof.
  intros [A B C D' D'' D] V L N. destruct (invalid_addr a V) as (_ & S & K). rewrite get_stainfo_map, K in N by done.
  unfold alloc_station. destruct (free_sta_queue (tab s)) as [|i q] eqn:F.
  - destruct (alloc_stainfo_full (tab s) a A F) as [-> _]. intros H. res_inv. subst. split; [|done]. destruct s. by split.
  - destruct (alloc_stainfo_fresh (tab s) a i q A S N F) as (p' & Ep & W' & M' & Ni & Eb). rewrite Ep. destruct (bool_decide _); [done|].
    intros H. res_inv. subst. cbn [tab upd_info set_more set_tab]. assert (auth_list p' = auth_list (tab s)) as Ea.
    { revert Ep. unfold rtw_alloc_stainfo. rewrite F. destruct (_ <=? _); intros [= <-]; done. }
    assert (forall j b, j ∈ in_use p' /\ mac_of p' j = b <-> (j = i /\ b = a) \/ (b <> a /\ j ∈ in_use (tab s) /\ mac_of (tab s) j = b)) as U.
    { intros j b. rewrite <- (sta_map_lookup p' b j W'), M'. destruct (decide (b = a)) as [->|Nb].
      - rewrite lookup_insert_eq. split; [intros [= ->]; by left|]. by intros [[-> _]|[? _]].
      - rewrite lookup_insert_ne, sta_map_lookup by done. naive_solver. }
    assert (i ∈ in_use p' /\ mac_of p' i = a) as Ui by (apply U; by left). split; [|done]. split; cbn [tab more set_tab set_more upd_info].
    + done.
    + by rewrite length_alter.
    + intros j Hj. destruct (proj1 (U j (mac_of p' j)) (conj Hj eq_refl)) as [[-> ->]|(Nb & Hj' & <-)]; [by right|]. by apply C.
    + by rewrite Ea.
    + intros j. rewrite Ea. intros Hj%D''. apply (U j (mac_of (tab s) j)). right. split; [|done].
      intros Em. assert (sta_map (tab s) !! a = Some j) by (by apply sta_map_lookup). congruence.
    + intros j Hj. unfold entry. cbn [tab set_tab set_more upd_info]. rewrite Eb.
      destruct (proj1 (U j (mac_of p' j)) (conj Hj eq_refl)) as [[-> _]|(Nb & Hj' & <-)].
      * rewrite list_lookup_insert_eq by (rewrite (wf_buf _ A); apply lookup_lt_Some with (alloc_entry a) in Eb || (pose proof (in_use_slot _ _ W' (proj1 Ui)); lia)). done.
      * rewrite list_lookup_insert_ne by (intros ->; done). intros Hl. apply D; [done|]. done.
Qed.

Lemma entry_state_release ap p i e : stainfo_buf p !! i = Some e ->
  forall j, linked (sta_state (default _rtw_init_stainfo (stainfo_buf (rtw_free_stainfo ap p (Some i)) !! j))) = true ->
  linked (sta_state (default _rtw_init_stainfo (stainfo_buf p !! j))) = true.
Proof.
  intros He j. destruct (free_stainfo_effect ap p i e He) as (_ & _ & _ & _ & O & a & Ea). cbn zeta in *.
  destruct (decide (j = i)) as [->|N]; [|by rewrite O]. rewrite Ea, He. unfold linked, bit_test, default, id.
  change (sta_state (set_aid (release_entry e) a)) with (Z.land (sta_state e) (Z.lnot WIFI_ASOC_STATE)).
  rewrite <- Z.land_assoc. change (Z.land (Z.lnot WIFI_ASOC_STATE) (Z.lor WIFI_FW_AUTH_SUCCESS (Z.lor WIFI_FW_ASSOC_STATE WIFI_FW_ASSOC_SUCCESS)))
    with (Z.lor WIFI_FW_AUTH_SUCCESS (Z.lor WIFI_FW_ASSOC_STATE WIFI_FW_ASSOC_SUCCESS)). done.
Qed.

Lemma filter_absent (i : nat) (l : list nat) : i ∉ l -> filter (fun j => j <> i) l = l.
Proof.
  induction l as [|x l IH]; [done|]. rewrite not_elem_of_cons. intros [N1 N2]. rewrite filter_cons_True by congruence. by rewrite IH.
Qed.

Lemma free_auth_list ap p i : auth_list (rtw_free_stainfo ap p (Some i)) = filter (fun j => j <> i) (auth_list p).
Proof.
  unfold rtw_free_stainfo. set (p2 := upd_sta _ i release_entry). change (auth_list p) with (auth_list p2).
  set (p3 := if bool_decide (i ∈ auth_list p2) then _ else p2).
  assert (auth_list p3 = filter (fun j => j <> i) (auth_list p2)) as E.
  { unfold p3. destruct (bool_decide_reflect (i ∈ auth_list p2)); [done|]. by rewrite filter_absent. }
  rewrite <- E. clearbody p3. destruct ap; [|done]. unfold release_aid. destruct (stainfo_buf p3 !! i); [|done]. cbn zeta. by destruct (_ && _).
Qed.

(** Who is left after a release. *)
Lemma free_in_use ap p i : sta_wf p -> i ∈ in_use p ->
  forall j, j ∈ in_use (rtw_free_stainfo ap p (Some i)) <-> j ∈ in_use p /\ j <> i.
Proof.
  intros W Hi. destruct (wf_entry _ _ W Hi) as (e & He & _). destruct (free_stainfo_map ap p i W Hi) as [W' M].
  pose proof (free_stainfo_macs ap p i e He) as Mc. intros j.
  assert (j ∈ in_use (rtw_free_stainfo ap p (Some i)) <-> sta_map (rtw_free_stainfo ap p (Some i)) !! mac_of p j = Some j) as ->.
  { rewrite sta_map_lookup, Mc by done. tauto. }
  rewrite M, lookup_delete_Some, sta_map_lookup by done. split.
  - intros (N & Hj & _). split; [done|]. by intros ->.
  - intros [Hj N]. split; [|done]. intros E. apply N. by apply (wf_uniq p W).
Qed.

Lemma adm_free c i s : adm c s -> i ∈ in_use (tab s) -> adm c (free_station c (Some i) s).
Proof.
  intros [A B C D E F] Hi. destruct (wf_entry _ _ A Hi) as (e & He & _). unfold free_station. set (ap := hw_state c =? WIFI_FW_AP_STATE).
  destruct (free_stainfo_map ap (tab s) i A Hi) as [W _]. pose proof (free_stainfo_macs ap (tab s) i e He) as Mc.
  pose proof (free_in_use ap (tab s) i A Hi) as U.
  split; cbn [tab more set_tab]; try done.
  - intros j [Hj _]%U. rewrite Mc. by apply C.
  - rewrite free_auth_list. by apply NoDup_filter.
  - intros j. rewrite free_auth_list. intros [N Hj]%list_elem_of_filter. apply U. auto.
  - intros j [Hj N]%U Hl. rewrite Mc. apply F; [done|]. by apply (entry_state_release ap (tab s) i e He).
Qed.

Lemma adm_free_addr c a s : adm c s -> adm c (rtw_stadel_event_callback c a s).
Proof.
  intros A. unfold rtw_stadel_event_callback. destruct (rtw_get_stainfo (tab s) (Some a)) as [i|] eqn:E; [|by destruct s].
  rewrite get_stainfo_map in E by apply A. apply sta_map_lookup in E as [Hi _]; [|apply A]. by apply adm_free.
Qed.

(** ** Handlers *)

Definition LINKED : Z := Z.lor WIFI_FW_AUTH_SUCCESS (Z.lor WIFI_FW_ASSOC_STATE WIFI_FW_ASSOC_SUCCESS).

Lemma linked_change clear set e : Z.land set LINKED = 0 -> linked (sta_state (change_state clear set e)) = true -> linked (sta_state e) = true.
Proof.
  intros H. unfold linked, bit_test. change (sta_state (change_state clear set e)) with (Z.lor (Z.ldiff (sta_state e) clear) set). fold LINKED.
  rewrite Z.land_lor_distr_l, H, Z.lor_0_r, Z.ldiff_land, <- Z.land_assoc, (Z.land_comm (Z.lnot clear)), Z.land_assoc.
  destruct (Z.eqb_spec (Z.land (sta_state e) LINKED) 0) as [->|]; [by rewrite Z.land_0_l|done].
Qed.

Lemma quiet_change i clear set s : Z.land set LINKED = 0 -> quiet s (upd_entry i (change_state clear set) s).
Proof. intros H. apply quiet_entry; [done|]. intros e _. by apply linked_change. Qed.

Lemma quiet_auth_insert i s : i ∈ in_use (tab s) -> quiet s (auth_list_insert i s).
Proof.
  intros Hi. unfold auth_list_insert. destruct (bool_decide_reflect (i ∈ auth_list (tab s))); [done|]. apply quiet_tab; try done.
  - intros N. apply NoDup_app. split; [done|]. split; [set_solver|apply NoDup_singleton].
  - intros j. cbn. set_solver.
Qed.

Lemma quiet_auth_delete i s : quiet s (auth_list_delete i s).
Proof.
  unfold auth_list_delete. destruct (bool_decide _); [|done]. apply quiet_tab; try done.
  - apply NoDup_filter.
  - intros j [_ Hj]%list_elem_of_filter. by left.
Qed.

Lemma quiet_asoc_delete i s : quiet s (asoc_list_delete i s).
Proof. unfold asoc_list_delete. destruct (bool_decide _); [apply quiet_asoc|done]. Qed.

Lemma quiet_if (b : bool) s s' : quiet s s' -> quiet s (if b then s' else s).
Proof. by destruct b. Qed.

Lemma info_upd_at i f s : (i < length (more s))%nat -> info (upd_info i f s) i = f (info s i).
Proof.
  intros H. rewrite info_upd, decide_True by done. unfold info. destruct (lookup_lt_is_Some_2 _ _ H) as [x ->]. done.
Qed.

(** A step of the authentication admits the station at most when it ends it. *)
Lemma auth_step_effect c f i algorithm seq auth_mode s r s' :
  (i < length (more s))%nat -> auth_step c f i algorithm seq auth_mode s = Ret (r, s') ->
  quiet s s' \/ r = None /\ rest_quiet i s s' /\ (seq = 3 \/ authalg (info s' i) = 0).
Proof.
  intros Hi. unfold auth_step. destruct (negb _); [intros H; res_inv; by left|].
  destruct ((algorithm =? 0) && _) eqn:Eo.
  - destruct (seq =? 1); intros H; res_inv; subst; [|by left]. right. split; [done|]. split.
    + eapply rest_trans; [|apply quiet_rest, quiet_info]. destruct (open_to_change s i); [by apply rest_entry|apply quiet_rest; done].
    + right. apply andb_true_iff in Eo as [Ea _]. rewrite info_upd_at; [cbn; lia|]. by destruct (open_to_change s i).
  - destruct (seq =? 1).
    + intros H. res_inv. subst. left. etransitivity; [|apply quiet_info]. etransitivity; [apply quiet_info|].
      apply quiet_if. by apply quiet_change.
    + destruct (Z.eqb_spec seq 3) as [->|]; [|intros H; res_inv; by left]. intros H. res_inv. destruct a as [[p|] l]; [|res_inv; by left].
      destruct (l <=? 0); [res_inv; by left|]. res_inv. destruct a; res_inv; subst; [|by left]. right. split; [done|]. split; [|by left].
      destruct (open_to_change s i); [by apply rest_entry|apply quiet_rest; done].
Qed.

Lemma issue_auth_effect i s :
  let s' := issue_auth i _STATS_SUCCESSFUL_ s in
  quiet s s' /\ (auth_seq (info s i) = 4 \/ authalg (info s i) = 0 -> answered s' (mac_addr (entry s i))).
Proof.
  cbn zeta. split; [apply quiet_call|]. intros H. unfold answered, issue_auth. cbn [call ap_out].
  eexists _, _. apply elem_of_app. right. apply list_elem_of_singleton. change (u16 0) with 0. change (_STATS_SUCCESSFUL_ =? _STATS_SUCCESSFUL_) with true. cbn iota.
  assert (((auth_seq (info s i) =? 2) && bit_test (sta_state (entry s i)) WIFI_FW_AUTH_STATE && negb (u16 (authalg (info s i)) =? 0)) = false) as ->; [|done].
  destruct H as [-> | ->]; [done|]. change (negb (u16 0 =? 0)) with false. apply andb_false_r.
Qed.

Lemma mac_entry s i : mac_of (tab s) i = mac_addr (entry s i) \/ mac_of (tab s) i = [].
Proof. unfold mac_of, entry. destruct (stainfo_buf (tab s) !! i); auto. Qed.

Lemma in_use_entry s i : sta_wf (tab s) -> i ∈ in_use (tab s) -> mac_of (tab s) i = mac_addr (entry s i) /\ (i < 32)%nat.
Proof.
  intros W Hi. destruct (wf_entry _ _ W Hi) as (e & He & Em). split; [|by apply (in_use_slot (tab s))]. unfold entry. by rewrite Em, He.
Qed.

Lemma adm_auth_fail c sa i status s : adm c s -> i ∈ in_use (tab s) -> adm c (snd (auth_fail c sa (Some i) status s)).
Proof. intros A Hi. eapply adm_quiet; [apply quiet_call|]. by apply adm_free. Qed.

Lemma adm_auth_station c f sa i known algorithm seq auth_mode s r s' :
  adm c s -> i ∈ in_use (tab s) -> auth_station c f sa i known algorithm seq auth_mode s = Ret (r, s') -> adm c s'.
Proof.
  intros A Hi. unfold auth_station.
  set (s1 := if known && open_to_change s i then asoc_list_delete i s else s).
  set (s2 := if open_to_change s1 i then auth_list_insert i s1 else s1).
  set (s3 := if auth_seq (info s2 i) =? 0 then upd_entry i (set_expire_to (auth_to c)) s2 else s2).
  assert (quiet s s1) as Q1 by apply quiet_if, quiet_asoc_delete.
  assert (quiet s s3) as Q.
  { transitivity s1; [exact Q1|]. transitivity s2; [apply quiet_if, quiet_auth_insert; by rewrite (in_use_hash _ _ (qu_hash _ _ Q1))|].
    apply quiet_if. by apply quiet_entry_state. }
  clearbody s3. clear s1 s2 Q1. pose proof (adm_quiet _ _ _ Q A) as A3.
  assert (i ∈ in_use (tab s3)) as Hi3 by (unfold in_use; by rewrite (qu_hash _ _ Q)).
  assert (i < length (more s3))%nat as Hm by (rewrite (am_more _ _ A3); apply (in_use_slot (tab s3)); [apply A3|done]).
  destruct (report_auth c && (algorithm =? WLAN_AUTH_SAE) && (auth_mode =? 2)).
  { intros H. res_inv. subst. eapply adm_quiet; [apply quiet_call|]. eapply adm_quiet; [apply quiet_info|done]. }
  intros H. res_inv. destruct a as [[status|] s4]; apply auth_step_effect in E; [| done | | done].
  - destruct E as [Q4|[? _]]; [|done]. unfold auth_fail in H. res_inv. subst. pose proof (adm_quiet _ _ _ Q4 A3) as A4.
    apply (adm_auth_fail c sa i status s4 A4). unfold in_use. by rewrite (qu_hash _ _ Q4).
  - res_inv. subst. set (s5 := upd_info i _ s4). set (s6 := issue_auth i _STATS_SUCCESSFUL_ s5).
    destruct (issue_auth_effect i s5) as [Q6 An]. fold s6 in Q6, An. apply (adm_quiet c s6); [apply quiet_if, quiet_info|].
    assert (quiet s4 s5) as Q5 by apply quiet_info. destruct E as [Q4|(_ & Q4 & Hs)].
    + by do 3 (eapply adm_quiet; [eassumption|]).
    + assert (rest_quiet i s3 s6) as R by (do 2 (eapply rest_trans; [|apply quiet_rest; eassumption]); done).
      apply (adm_rest c i s3); [done| |done]. destruct (in_use_entry s3 i (am_table _ _ A3) Hi3) as [Em _].
      assert (length (more s4) = length (more s3)) as L4 by apply Q4.
      assert (mac_addr (entry s5 i) = mac_of (tab s3) i) as E5.
      { rewrite <- (rq_mac _ _ _ Q4), <- (qu_mac _ _ Q5). destruct (in_use_entry s5 i) as [-> _]; [| |done].
        - apply (sta_wf_same (tab s3)); [apply A3|apply Q4..].
        - unfold in_use. change (sta_hash (tab s5)) with (sta_hash (tab s4)). by rewrite (rq_hash _ _ _ Q4). }
      rewrite <- E5. apply An. unfold s5. rewrite !info_upd_at by lia. cbn [auth_seq authalg set_auth]. destruct Hs as [-> | ->]; [by left|by right].
Qed.

Lemma adm_on_auth c stime f s r s' : adm c s -> OnAuth c stime f s = Ret (r, s') -> adm c s'.
Proof.
  intros A. unfold OnAuth. destruct (negb _); [intros H; by res_inv; subst|]. destruct (negb _); [intros H; by res_inv; subst|].
  intros H. res_inv. destruct a0 as [g offset]. res_inv. destruct (rtw_check_invalid_mac_address a false) eqn:V; [by res_inv; subst|].
  unfold rtw_defs_attack_chk in H. set (rej := _ && _) in H. set (s1 := set_ptime stime s) in H.
  assert (adm c s1) as A1 by (eapply adm_quiet; [apply quiet_ptime|done]). clearbody rej s1.
  assert (forall status, adm c (snd (auth_fail c a None status s1))) as Af.
  { intros status. eapply adm_quiet; [apply quiet_call|]. by destruct s1. }
  destruct rej; [res_inv; subst; apply (Af _STATS_REFUSED_TEMPORARILY_)|].
  destruct (negb _); [res_inv; subst; apply Af|]. destruct (_ || _); [res_inv; subst; apply (Af _STATS_NO_SUPP_ALG_)|].
  destruct (rtw_access_ctrl (acl_list c) a) eqn:L; cbn [negb] in H; [|res_inv; subst; apply (Af _STATS_UNABLE_HANDLE_STA_)].
  destruct (rtw_get_stainfo (tab s1) (Some a)) as [i|] eqn:G.
  - destruct (invalid_addr a V) as (_ & _ & K). destruct (known_station s1 a i (am_table _ _ A1) K G) as [Hi _]. by eapply adm_auth_station.
  - destruct (alloc_station a s1) as [[o s2]| |] eqn:Ea; [|done|done]. rewrite bind_Ret in H. destruct (adm_alloc c a s1 o s2 A1 V L G Ea) as [A2 Hi]. destruct o as [i|].
    + destruct Hi as [Hi Em]. set (s3 := upd_info i _ _) in H.
      assert (quiet s2 s3) as Q by (etransitivity; [|apply quiet_info]; apply quiet_entry; [done|]; intros e _; by cbn).
      eapply adm_auth_station; [by eapply adm_quiet| |exact H]. unfold in_use. by rewrite (qu_hash _ _ Q).
    + unfold auth_fail in H. res_inv. subst. eapply adm_quiet; [apply quiet_call|]. by destruct s2.
Qed.

Lemma bit_test_or x a b : bit_test x (Z.lor a b) = bit_test x a || bit_test x b.
Proof.
  unfold bit_test. rewrite Z.land_lor_distr_r.
  destruct (Z.eqb_spec (Z.land x a) 0) as [Ea|Ea], (Z.eqb_spec (Z.land x b) 0) as [Eb|Eb], (Z.eqb_spec (Z.lor (Z.land x a) (Z.land x b)) 0) as [E|E];
    try done; try (rewrite Z.lor_eq_0_iff in E; tauto).
Qed.

Lemma request_state_linked st clear set : request_state st = Some (clear, set) -> linked st = true.
Proof.
  unfold request_state, linked. rewrite !bit_test_or. destruct (bit_test st WIFI_FW_AUTH_SUCCESS); [done|].
  destruct (bit_test st WIFI_FW_ASSOC_SUCCESS); [|done]. intros _. by rewrite !orb_true_r.
Qed.

Lemma quiet_upd2 i f g s : (forall e, mac_addr (f e) = mac_addr e) -> (forall e, sta_state (f e) = sta_state e) ->
  quiet s (upd_info i g (upd_entry i f s)).
Proof. intros Hm Hs. etransitivity; [by apply quiet_entry_state|apply quiet_info]. Qed.

Lemma quiet_aid i s p a : rtw_aid_alloc (tab s) i = (p, a) -> quiet s (set_tab p s).
Proof.
  unfold rtw_aid_alloc. destruct (aid_scan _ _ _ _ _) as [[k b] used]. set (b' := if _ : bool then 0 else b).
  assert (quiet s (upd_entry i (fun x => set_aid x b') s)) as Q by (by apply quiet_entry_state).
  destruct (b' =? 0); intros [= <- _]; [exact Q|]. etransitivity; [exact Q|].
  apply (quiet_tab _ (upd_entry i (fun x => set_aid x b') s)); auto.
Qed.

Lemma quiet_fields c b i q e s st s' : parse_fields c b i q e s = Ret (st, s') -> quiet s s'.
Proof.
  unfold parse_fields. intros H. res_inv. destruct a as [cap flags]. set (s1 := upd_info i (set_capability cap) _) in H.
  assert (quiet s s1) as Q1 by (by apply quiet_upd2). etransitivity; [exact Q1|]. clearbody s1. clear Q1 E. res_inv.
  destruct a; cbn [negb] in H; [|by res_inv; subst]. res_inv. destruct a as [[status rates] flags2].
  set (s2 := upd_info i (set_rates rates) _) in H. assert (quiet s1 s2) as Q2 by (by apply quiet_upd2). etransitivity; [exact Q2|].
  clearbody s2. destruct (negb _); [by res_inv; subst|]. res_inv. destruct a as [[status2 flags3] sc].
  set (s3 := upd_info i (set_sec sc) _) in H. assert (quiet s2 s3) as Q3 by (by apply quiet_upd2). etransitivity; [exact Q3|].
  clearbody s3. destruct (negb _); [by res_inv; subst|]. res_inv. destruct a as [[qos flags4] ps]. res_inv. destruct a as [[flags5 cap2] op].
  set (s4 := upd_info i _ _) in H. assert (quiet s3 s4) as Q4 by (by apply quiet_upd2). etransitivity; [exact Q4|].
  clearbody s4. destruct (0 <? aid (entry s4 i)); [by res_inv; subst|]. destruct (rtw_aid_alloc (tab s4) i) as [p a] eqn:Ea. res_inv. subst.
  by eapply quiet_aid.
Qed.

Lemma quiet_parse c f i q s st s' : parse_request c f i q s = Ret (st, s') -> quiet s s'.
Proof. unfold parse_request. intros H. res_inv. destruct a as [[] e]; [..|by res_inv; subst]; by eapply quiet_fields. Qed.

Lemma quiet_move c i s : quiet s (move_to_asoc c i s).
Proof.
  unfold move_to_asoc. etransitivity; [apply quiet_auth_delete|]. destruct (bool_decide _); [done|].
  etransitivity; [|apply quiet_asoc]. by apply quiet_entry_state.
Qed.

Lemma quiet_sta_update c i s : quiet s (sta_info_update c i s).
Proof.
  unfold sta_info_update, update_sta_info_apmode. etransitivity; [apply quiet_info|].
  etransitivity; [by apply (quiet_entry_state i (set_blocked (Z.b2z (ap_AuthAlgrthm (c_sec c) =? 2))))|].
  etransitivity; [apply quiet_if, quiet_info|]. etransitivity; [apply quiet_call|]. etransitivity; [apply quiet_call|].
  apply quiet_change. by destruct (_ =? 2).
Qed.

Lemma rest_linked i s s' : rest_quiet i s s' -> linked (sta_state (entry s i)) = true -> quiet s s'.
Proof. intros [] Hl. split; auto. intros j. destruct (decide (j = i)) as [->|]; auto. Qed.

Lemma rest_join_station c f i reassoc s r s' : join_station c f i reassoc s = Ret (r, s') -> rest_quiet i s s'.
Proof.
  unfold join_station. set (s1 := upd_entry i _ s). assert (rest_quiet i s s1) as Q1 by (by apply rest_entry).
  intros H. res_inv. subst. eapply rest_trans; [exact Q1|]. apply quiet_rest.
  set (s2 := if open_to_change s1 i then _ else s1) in *. assert (quiet s1 s2) as Q2 by apply quiet_if, (quiet_move c i).
  clearbody s2. transitivity s2; [exact Q2|]. transitivity a.
  { destruct (open_to_change s2 i); [|by res_inv; subst]. res_inv. etransitivity; [by eapply quiet_join|apply quiet_sta_update]. }
  do 2 match goal with |- quiet _ (if _ : bool then _ else ?t) => transitivity t; [|apply quiet_if, quiet_call] end.
  etransitivity; [apply quiet_call|apply quiet_info].
Qed.

Lemma quiet_on_assoc c f s r s' : OnAssocReq c f s = Ret (r, s') -> quiet s s'.
Proof.
  unfold OnAssocReq. destruct (negb _); [intros H; by res_inv; subst|].
  intros H. res_inv. destruct (rtw_check_invalid_mac_address a false); [by res_inv; subst|]. res_inv. destruct (_ <? _); [by res_inv; subst|].
  destruct (rtw_get_stainfo (tab s) (Some a)) as [i|]; [|res_inv; subst; apply quiet_call].
  destruct (_ && _); [by res_inv; subst|]. destruct (request_state (sta_state (entry s i))) as [[clear set]|] eqn:R; [|res_inv; subst; apply quiet_call].
  apply request_state_linked in R. apply (rest_linked i); [|done]. set (s1 := upd_entry i _ s) in H.
  eapply rest_trans; [by apply (rest_entry i (change_state clear set))|]. fold s1.
  destruct (negb (force_asoc_fail c =? 0)); [res_inv; subst; apply quiet_rest, quiet_call|]. res_inv. destruct a1 as [status s2].
  eapply rest_trans; [by eapply quiet_rest, quiet_parse|]. destruct (negb (status =? _)); [res_inv; subst; apply quiet_rest, quiet_call|].
  by eapply rest_join_station.
Qed.

Lemma ap_free_sta_effect c i active reason enqueue s u s' :
  ap_free_sta c i active reason enqueue s = Ret (u, s') ->
  exists t, quiet s t /\ quiet (report_del_sta_event c (mac_addr (entry s i)) enqueue t) s'.
Proof.
  unfold ap_free_sta. set (a := mac_addr (entry s i)). intros H. res_inv. destruct a0 as [u0 t]. res_inv. subst. exists t. split; [|apply quiet_call].
  etransitivity; [|by eapply quiet_leave]. etransitivity; [|apply quiet_call]. etransitivity; [|apply quiet_info].
  etransitivity; [|by apply quiet_change]. destruct active; [|done]. do 2 (etransitivity; [|apply quiet_call]). apply quiet_call.
Qed.

Lemma adm_del_event c a enqueue s : adm c s -> adm c (report_del_sta_event c a enqueue s).
Proof.
  intros A. unfold report_del_sta_event. destruct (negb _); [done|]. destruct enqueue; [eapply adm_quiet; [apply quiet_events|done]|by apply adm_free_addr].
Qed.

Lemma adm_free_sta c i active reason enqueue s u s' : adm c s -> ap_free_sta c i active reason enqueue s = Ret (u, s') -> adm c s'.
Proof.
  intros A H. destruct (ap_free_sta_effect _ _ _ _ _ _ _ _ H) as (t & Q1 & Q2). eapply adm_quiet; [exact Q2|]. apply adm_del_event. by eapply adm_quiet.
Qed.

Lemma adm_leaves c a reason s r s' : adm c s -> station_leaves c a reason s = Ret (r, s') -> adm c s'.
Proof.
  intros A. unfold station_leaves. destruct (rtw_get_stainfo (tab s) (Some a)) as [i|]; [|intros H; by res_inv; subst].
  destruct (bool_decide _); [|intros H; by res_inv; subst]. intros H. res_inv. destruct a0 as [u s1]. res_inv. subst.
  eapply adm_quiet; [apply quiet_clients|]. eapply adm_free_sta; [|exact E]. eapply adm_quiet; [apply quiet_asoc_delete|done].
Qed.

Lemma adm_on_deauth c f s r s' : adm c s -> OnDeAuth c f s = Ret (r, s') -> adm c s'.
Proof.
  intros A H. unfold OnDeAuth in H. res_inv. destruct (negb _); [by res_inv; subst|]. res_inv. destruct (bit_test _ _); res_inv; [|by subst].
  by eapply adm_leaves.
Qed.

Lemma adm_dispatch c me stime f s s' : adm c s -> mgt_dispatcher c me stime f s = Ret s' -> adm c s'.
Proof.
  intros A H. unfold mgt_dispatcher in H. res_inv. destruct (negb _); [by res_inv; subst|]. destruct (_ && _); [by res_inv; subst|].
  match type of H with (if ?d then _ else _) = _ => destruct d; [by res_inv; subst|] end. res_inv. destruct a2 as [r s2]. cbn [snd] in *. subst.
  set (s1 := match _ with Some i => _ | None => s end) in *.
  assert (adm c s1) as A1 by (unfold s1; destruct (rtw_get_stainfo _ _); [by eapply adm_quiet; [apply quiet_entry_state|]|done]). clearbody s1.
  destruct (_ =? _); [by eapply adm_on_auth|]. destruct (_ || _); [by eapply adm_quiet; [eapply quiet_on_assoc|]|].
  destruct (_ =? _); [by eapply adm_on_deauth|]. destruct (_ =? _); [exact (adm_on_deauth c f s1 r s2 A1 E2)|by res_inv; subst].
Qed.

(** ** Expiry *)

Lemma quiet_auth_tick l s : quiet s (snd (auth_tick l s)).
Proof.
  revert s. induction l as [|i l IH]; intros s; cbn [auth_tick]; [done|]. set (s1 := if _ : bool then _ else s).
  specialize (IH s1). destruct (auth_tick l s1) as [flush s2]. cbn [snd] in *. etransitivity; [|exact IH]. apply quiet_if. by apply quiet_entry_state.
Qed.

Lemma auth_tick_sublist l s : fst (auth_tick l s) `sublist_of` l.
Proof.
  revert s. induction l as [|i l IH]; intros s; cbn [auth_tick]; [constructor|]. set (s1 := if _ : bool then _ else s).
  specialize (IH s1). destruct (auth_tick l s1) as [flush s2]. cbn [fst] in *. destruct (_ =? 1); by constructor.
Qed.

Lemma adm_free_list c l s : adm c s -> NoDup l -> (forall i, i ∈ l -> i ∈ in_use (tab s)) ->
  adm c (foldl (fun s i => free_station c (Some i) s) s l).
Proof.
  revert s. induction l as [|i l IH]; intros s A N Hl; cbn [foldl]; [done|]. apply NoDup_cons in N as [Ni N].
  apply IH; [apply adm_free; [done|apply Hl; set_solver]|done|]. intros j Hj. unfold free_station. cbn [tab set_tab].
  apply free_in_use; [apply A|apply Hl; set_solver|]. split; [apply Hl; set_solver|]. by intros ->.
Qed.

Lemma adm_expire_auth c s : adm c s -> adm c (expire_auth c s).
Proof.
  intros A. unfold expire_auth. pose proof (auth_tick_sublist (auth_list (tab s)) s) as Sl. pose proof (quiet_auth_tick (auth_list (tab s)) s) as Q.
  destruct (auth_tick (auth_list (tab s)) s) as [flush s1]. cbn [fst snd] in *. apply adm_free_list.
  - by eapply adm_quiet.
  - eapply sublist_NoDup; [apply A|done].
  - intros i Hi. rewrite (in_use_hash _ _ (qu_hash _ _ Q)). apply (am_listed _ _ A). by eapply elem_of_sublist.
Qed.

(** ** Runs *)

(** What happens to an access point: a management frame arrives, the command
    thread takes the first event that waits, the timer of the authenticating
    stations ticks, an associated station stops answering, the pairwise key of
    a station is installed. *)
Inductive ap_input :=
| rx_mgmt (stime : Z) (f : recv_frame)
| run_event
| tick
| lost (i : nat)
| key_installed (i : nat).

Definition ap_react (c : ap_cfg) (me : bytes) (x : ap_input) (s : ap_st) : res ap_st :=
  match x with
  | rx_mgmt stime f => mgt_dispatcher c me stime f s
  | run_event => Ret match events s with a :: l => rtw_stadel_event_callback c a (set_events l s) | [] => s end
  | tick => Ret (expire_auth c s)
  | lost i => if bool_decide (i ∈ asoc_list s) then expire_station c i s else Ret s
  | key_installed i => Ret (upd_info i (set_key_installed true) s)
  end.

Fixpoint ap_run (c : ap_cfg) (me : bytes) (xs : list ap_input) (s : ap_st) : res ap_st :=
  match xs with [] => Ret s | x :: xs => s ← ap_react c me x s; ap_run c me xs s end.

Lemma adm_react c me x s s' : adm c s -> ap_react c me x s = Ret s' -> adm c s'.
Proof.
  intros A. destruct x as [stime f| | |i|i]; cbn [ap_react].
  - by apply adm_dispatch.
  - intros H. res_inv. subst. destruct (events s) as [|a l]; [done|]. apply adm_free_addr. eapply adm_quiet; [apply quiet_events|done].
  - intros H. res_inv. subst. by apply adm_expire_auth.
  - destruct (bool_decide _); [|intros H; by res_inv; subst]. unfold expire_station. intros H. res_inv. destruct a as [u s1]. res_inv. subst.
    eapply adm_quiet; [apply quiet_clients|]. eapply adm_free_sta; [|exact E]. eapply adm_quiet; [apply quiet_asoc_delete|done].
  - intros H. res_inv. subst. eapply adm_quiet; [apply quiet_info|done].
Qed.

Lemma adm_run c me xs s s' : adm c s -> ap_run c me xs s = Ret s' -> adm c s'.
Proof.
  revert s. induction xs as [|x xs IH]; intros s A H; cbn [ap_run] in H; [by res_inv; subst|]. res_inv.
  eapply IH; [|exact H]. by eapply adm_react.
Qed.

(** ** From the start *)

(** An access point after [rtw_start_bss]: the entry of the group, no
    stations. *)
Definition started (n : Z) (hw : list Z) (b : bss_cap) : ap_st :=
  mk_ap (snd (rtw_init_bcmc_stainfo (_rtw_init_sta_priv n hw))) (replicate 32 ap_info_zero) [] 0 b 0 [] [].

Lemma adm_started c n hw b : adm c (started n hw b).
Proof.
  assert (sta_map (_rtw_init_sta_priv n hw) !! bc_addr = None) as N by done.
  destruct (alloc_stainfo_fresh (_rtw_init_sta_priv n hw) bc_addr 0 (seq 1 31) (init_sta_priv_wf n hw) (or_intror eq_refl) N eq_refl)
    as (p & E & W & M & _ & B).
  assert (snd (rtw_init_bcmc_stainfo (_rtw_init_sta_priv n hw)) = p) as Ep by (unfold rtw_init_bcmc_stainfo; by rewrite E).
  unfold started. rewrite Ep. assert (auth_list p = []) as Ea.
  { revert E. unfold rtw_alloc_stainfo. cbn [free_sta_queue _rtw_init_sta_priv]. destruct (_ <=? _); by intros [= <-]. }
  assert (forall i, i ∈ in_use p -> i = 0%nat /\ mac_of p i = bc_addr) as U.
  { intros i Hi. assert (sta_map p !! mac_of p i = Some i) as L by (by apply sta_map_lookup). rewrite M in L.
    apply lookup_insert_Some in L as [[<- <-]|[_ L]]; done. }
  split; cbn [tab more]; rewrite ?Ea; try done.
  - intros i [_ Hm]%U. by left.
  - constructor.
  - intros i Hi%elem_of_nil. done.
  - intros i [-> _]%U. unfold entry. cbn [tab]. by rewrite B.
Qed.

(** C11: No station gets past the entry checks of an access point.  After any
    sequence of received management frames (with any contents and senders),
    waiting events, timer ticks, lost stations and installed keys, every entry
    of the station table but that of the group belongs to a station with a
    valid unicast address that the access list admits, and a station that may
    be served (authenticated, associating or associated) has been sent an
    authentication response with status success that was not a challenge. *)
Theorem stations_admitted c me n hw b xs s i :
  ap_run c me xs (started n hw b) = Ret s -> i ∈ in_use (tab s) ->
  mac_of (tab s) i = bc_addr \/
  (rtw_access_ctrl (acl_list c) (mac_of (tab s) i) = true /\ rtw_check_invalid_mac_address (mac_of (tab s) i) false = false /\
   (linked (sta_state (entry s i)) = true -> answered s (mac_of (tab s) i))).
Proof.
  intros H Hi. pose proof (adm_run _ _ _ _ _ (adm_started c n hw b) H) as A. destruct (am_acl _ _ A i Hi) as [->|[Ha Hv]]; [by left|].
  right. split_and!; [done|done|]. by apply (am_auth _ _ A).
Qed.

(** An open network on channel 6 and a station with the rates of 802.11g. *)
Definition ex_keys : security_priv := mk_sec 0 (replicate 4 (replicate 13 0)) [0; 0; 0; 0] 0 (replicate 4 []) false.
Definition open_sec : ap_sec := mk_apsec ex_keys 0 0 0 0 0 0 0 0 0 0 false [] 0.
Definition ex_me : bytes := [0; 1; 2; 3; 4; 5].
Definition ex_a : bytes := [2; 7; 7; 7; 7; 7].
Definition ex_ap : ap_cfg := mk_apcfg ex_cfg open_sec 3 0x11 ex_me [116; 101; 115; 116] [] 3 3 30 5000 5 0 0 false true None true.
Definition ex_rates : bytes := [0x82; 0x84; 0x8b; 0x96; 12; 18; 24; 36].

Definition ex_mgmt (sub : Z) (body : bytes) : recv_frame :=
  let a := mk_attrib 24 0 0 0 0 0 0 0 0 0 0 0 0 0 [] [] [] [] [] 0 0 in
  mk_frame a (([sub; 0] ++ [0; 0]) ++ ex_me ++ ex_a ++ ex_me ++ [0; 0] ++ body ++ replicate 8 0) 0 (24 + zlen body) (24 + zlen body) 0.

Definition ex_frames : list ap_input :=
  [rx_mgmt 1000 (ex_mgmt WIFI_AUTH [0; 0; 1; 0; 0; 0]);
   rx_mgmt 1001 (ex_mgmt WIFI_ASSOCREQ ([0x21; 4; 10; 0] ++ encode [(0, [116; 101; 115; 116]); (1, ex_rates)]))].

Lemma stations_admitted_witness :
  exists s, ap_run ex_ap ex_me ex_frames (started 4 [] ex_bss) = Ret s /\ linked (sta_state (entry s 1)) = true /\ answered s ex_a.
Proof.
  assert (match ap_run ex_ap ex_me ex_frames (started 4 [] ex_bss) with
          | Ret s => bool_decide (1%nat ∈ in_use (tab s)) && bool_decide (mac_of (tab s) 1 = ex_a) && linked (sta_state (entry s 1))
          | _ => false end = true) as C by (vm_compute; reflexivity).
  destruct (ap_run ex_ap ex_me ex_frames (started 4 [] ex_bss)) as [s| |] eqn:E; [|discriminate C..].
  apply andb_prop in C as [[U%bool_decide_eq_true M%bool_decide_eq_true]%andb_prop L].
  destruct (stations_admitted ex_ap ex_me 4 [] ex_bss ex_frames s 1 E U) as [Bc|(_ & _ & An)].
  - rewrite M in Bc. discriminate Bc.
  - rewrite M in An. exact (ex_intro _ s (conj eq_refl (conj L (An L)))).
Defined.

(** An authentication frame with the privacy bit is decrypted before its length
    is looked at: with less than four bytes behind the header the length of the
    payload is negative, which the stream cipher takes for an unsigned number,
    and rewrites the memory behind the frame. *)
Definition short_auth : recv_frame :=
  let f := ex_mgmt WIFI_AUTH [0; 0] in set_mem f (<[1%nat := 0x40]> (rx_mem f)).

Theorem short_auth_frame_overruns : mgt_dispatcher ex_ap ex_me 1000 short_auth (started 4 [] ex_bss) = Oob.
Proof. vm_compute. reflexivity. Qed.
