(* ===== verification/ApJoin.v ===== *)
(** * A station joins an open network

    The exchange that ApRun.v shows to be necessary is also enough: an
    authentication frame and an association request of a station the access
    list admits lead through every handler to an associated station. *)

From S2P Require Import Prelude RxFrame Reorder SwCrypt StaMgt Acl RxCheck MgmtProtect Ie Elems Rsn XmitAttr ApState ApBss ApProt ApParse ApMlme ApRun.

(** ** Frames *)

(** [f] is a management frame of [a] for [me] with the given body. *)
Record mframe (f : recv_frame) (sub : Z) (me a body : bytes) : Prop := {
  mf_mem : exists pre dur a3 seq post, rx_mem f = (pre ++ ([sub; 0] ++ dur) ++ me ++ a ++ a3 ++ seq) ++ body ++ post /\ rx_data f = zlen pre /\
    length dur = 2%nat /\ length a3 = 6%nat /\ length seq = 2%nat;
  mf_len : len f = 24 + zlen body;
  mf_me : length me = 6%nat;
  mf_a : length a = 6%nat;
  mf_sub : 0 <= sub < 256
}.

Lemma rd_slice_in b p x q : forall i n, b = p ++ x ++ q -> i = zlen p -> n = zlen x -> rd_slice b i n = Ret x.
Proof. intros i n -> -> ->. apply rd_slice_app. Qed.

Section frame.
Context (f : recv_frame) (sub : Z) (me a body : bytes) (H : mframe f sub me a body).

Lemma mf_addr1 : addr1_of f = Ret me.
Proof.
  destruct H as [(pre & dur & a3 & seq & post & E & D & L1 & L2 & L3) _ L4 L5 _]. unfold addr1_of. rewrite E, D.
  apply (rd_slice_in _ (pre ++ [sub; 0] ++ dur) me ((a ++ a3 ++ seq) ++ body ++ post)).
  - by rewrite <- !app_assoc.
  - rewrite !zlen_app. unfold zlen. cbn [length]. lia.
  - unfold zlen. lia.
Qed.

Lemma mf_addr2 : addr2_of f = Ret a.
Proof.
  destruct H as [(pre & dur & a3 & seq & post & E & D & L1 & L2 & L3) _ L4 L5 _]. unfold addr2_of. rewrite E, D.
  apply (rd_slice_in _ (pre ++ ([sub; 0] ++ dur) ++ me) a ((a3 ++ seq) ++ body ++ post)).
  - by rewrite <- !app_assoc.
  - rewrite !zlen_app. unfold zlen. cbn [length]. lia.
  - unfold zlen. lia.
Qed.

Lemma mf_fc : frame_control f = Ret sub.
Proof.
  destruct H as [(pre & dur & a3 & seq & post & E & D & L1 & L2 & L3) _ L4 L5 Hs]. unfold frame_control. rewrite E, D.
  apply (le16_get_app _ pre _ _ (dur ++ me ++ a ++ a3 ++ seq ++ body ++ post)); [unfold is_u16; lia| |done].
  assert (le_split 2 sub = [sub; 0]) as ->.
  { cbn [le_split]. change 255 with (Z.ones 8). rewrite !Z.land_ones, Z.shiftr_div_pow2 by lia. change (2 ^ 8) with 256.
    rewrite (Z.mod_small sub), (Z.div_small sub) by lia. done. }
  by rewrite <- !app_assoc.
Qed.

(** The memory around the body. *)
Lemma mf_body : exists p post, rx_mem f = p ++ body ++ post /\ rx_data f + WLAN_HDR_A3_LEN = zlen p.
Proof.
  destruct H as [(pre & dur & a3 & seq & post & E & D & L1 & L2 & L3) _ L4 L5 _]. eexists _, post. split; [exact E|]. rewrite D, !zlen_app. unfold zlen, WLAN_HDR_A3_LEN. cbn [length]. lia.
Qed.

Lemma mf_le16 k z u v : is_u16 z -> body = u ++ le_split 2 z ++ v -> k = zlen u -> le16_get (rx_mem f) (rx_data f + WLAN_HDR_A3_LEN + k) = Ret z.
Proof.
  intros Hz Eb ->. destruct mf_body as (p & post & -> & ->). apply (le16_get_app _ (p ++ u) _ _ (v ++ post)); [done| |by rewrite zlen_app].
  by rewrite Eb, <- !app_assoc.
Qed.

Lemma mf_whole : exists x, rd_slice (rx_mem f) (rx_data f) (len f) = Ret x.
Proof.
  destruct H as [(pre & dur & a3 & seq & post & E & D & L1 & L2 & L3) Ln L4 L5 _]. rewrite E, D, Ln.
  eexists. apply (rd_slice_in _ pre (([sub; 0] ++ dur) ++ me ++ a ++ a3 ++ seq ++ body) post); [by rewrite <- !app_assoc|done|].
  rewrite !zlen_app. unfold zlen. cbn [length]. lia.
Qed.

End frame.

(** ** Authentication *)

(** What an access point with a running open (or WPA) network looks like. *)
Record open_ap (c : ap_cfg) : Prop := {
  oa_hw : hw_state c = WIFI_FW_AP_STATE;
  oa_asoc : bit_test (ap_fw_state c) WIFI_ASOC_STATE = true;
  oa_ap : bit_test (ap_fw_state c) WIFI_AP_STATE = true;
  oa_mode : effective_mode c 0 = 0;
  oa_auth : force_auth_fail c = 0;
  oa_assoc : force_asoc_fail c = 0;
  oa_ready : ready (c_bss c)
}.

Record live_state (c : ap_cfg) (s : ap_st) : Prop := {
  ls_adm : adm c s;
  ls_aids : aid_wf (tab s);
  ls_tim : tim_ok (tab s);
  ls_gaps : gaps_ok s;
  ls_announced : announced (c_bss c) s;
  ls_free : forall j, j ∈ free_sta_queue (tab s) -> j ∉ asoc_list s
}.

(** An id is left for one more station. *)
Definition id_left (p : sta_priv) : Prop := exists k, 0 <= k < Z.min (max_aid p) (max_num_sta p) /\ aid_free p (nth_aid p k).

(** The station [a] has the entry [i] and is authenticated. *)
Record authenticated (c : ap_cfg) (a : bytes) (i : nat) (s : ap_st) : Prop := {
  an_live : live_state c s;
  an_get : rtw_get_stainfo (tab s) (Some a) = Some i;
  an_state : sta_state (entry s i) = WIFI_FW_AUTH_SUCCESS;
  an_flags : sta_flags (entry s i) = 0;
  an_aid : aid (entry s i) = 0;
  an_mac : mac_addr (entry s i) = a;
  an_alg : authalg (info s i) = 0;
  an_key : bpairwise_key_installed (info s i) = false;
  an_list : i ∉ asoc_list s
}.

(** *** What the table keeps *)

(** The ids and the maps are as before. *)
Record ids_kept (p p' : sta_priv) : Prop := {
  ik_free : free_sta_queue p' = free_sta_queue p;
  ik_aid : sta_aid p' = sta_aid p;
  ik_max : max_aid p' = max_aid p;
  ik_start : started_aid p' = started_aid p;
  ik_num : max_num_sta p' = max_num_sta p;
  ik_tim : tim_bitmap p' = tim_bitmap p;
  ik_ids : forall i, aid <$> stainfo_buf p' !! i = aid <$> stainfo_buf p !! i
}.

#[export] Instance ids_kept_refl : Reflexive ids_kept.
Proof. by split. Qed.

#[export] Instance ids_kept_trans : Transitive ids_kept.
Proof. intros p1 p2 p3 [] []. by split; congruence. Qed.

Lemma ids_kept_wf p p' : ids_kept p p' -> aid_wf p -> aid_wf p'.
Proof.
  intros [E1 E2 E3 E4 E5 _ E7] [A1 A2 A3 A4 A5 A6]. split; rewrite ?E2, ?E3, ?E4, ?E5, ?E1; try done.
  - intros k i Hk. destruct (A5 k i Hk) as [Hf (e & He & Ha)]. split; [done|]. specialize (E7 i). rewrite He in E7.
    destruct (stainfo_buf p' !! i) as [e'|]; [|done]. injection E7 as E7. exists e'. split; [done|congruence].
  - intros i e' He' Hf Ha. specialize (E7 i). rewrite He' in E7. destruct (stainfo_buf p !! i) as [e|] eqn:He; [|done].
    injection E7 as E7. rewrite E7 in *. by apply (A6 i e).
Qed.

Lemma ids_kept_left p p' : ids_kept p p' -> id_left p -> id_left p'.
Proof. intros [E1 E2 E3 E4 E5 _ E7]. unfold id_left, aid_free, nth_aid. by rewrite E2, E3, E4, E5. Qed.

Lemma ids_kept_tim p p' : ids_kept p p' -> tim_ok p -> tim_ok p'.
Proof. intros []. unfold tim_ok, map_size. by rewrite ik_tim0, ik_max0. Qed.

Lemma ids_kept_upd p i f : (forall e, aid (f e) = aid e) -> ids_kept p (upd_sta p i f).
Proof.
  intros Hf. split; try done. intros j. cbn. destruct (decide (i = j)) as [->|N].
  - rewrite list_lookup_alter_eq. destruct (stainfo_buf p !! j) as [e|]; [|done]. cbn. by rewrite Hf.
  - by rewrite list_lookup_alter_ne.
Qed.

(** A quiet step leaves the search for a station alone. *)
Lemma get_quiet s s' a : sta_wf (tab s) -> quiet s s' -> rtw_get_stainfo (tab s') (Some a) = rtw_get_stainfo (tab s) (Some a).
Proof.
  intros W Q. assert (sta_wf (tab s')) as W' by (apply (sta_wf_same (tab s)); try done; apply Q).
  rewrite !get_stainfo_map by done. f_equal. unfold sta_map. rewrite (in_use_hash _ _ (qu_hash _ _ Q)). f_equal.
  apply list_fmap_ext. intros _ i _. by rewrite (qu_mac _ _ Q).
Qed.

(** The counters are not below the flags after an entry lost its flags. *)
Lemma gaps_reset s s' :
  bss s' = bss s -> (forall k, counted k (more s') <= counted k (more s)) -> gaps_ok s -> gaps_ok s'.
Proof. intros E Hc G k. specialize (G k). specialize (Hc k). unfold gap in *. rewrite E. lia. Qed.

Lemma counted_le k i f (l : list ap_info) : (forall x, Z.b2z (legacy_set (f x) k) <= Z.b2z (legacy_set x k)) -> counted k (alter f i l) <= counted k l.
Proof.
  intros Hf. revert i. induction l as [|x l IH]; intros [|i]; cbn [alter list_alter counted]; try done.
  - specialize (Hf x). cbn. lia.
  - change (alter f (S i) (x :: l)) with (x :: alter f i l). cbn [counted]. specialize (IH i). lia.
Qed.

Lemma announced_same c s s' : bss s' = bss s -> map_size (tab s') = map_size (tab s) -> announced c s -> announced c s'.
Proof. intros E1 E2 (erp & Sh & R & M). exists erp. unfold shows, erp_right. by rewrite E1, E2. Qed.

(** *** The exchange *)

Lemma open_auth_station c f a i s t0 :
  auth_seq (info s i) = 0 -> authalg (info s i) = 0 -> bpairwise_key_installed (info s i) = false -> (i < length (more s))%nat ->
  (i < length (stainfo_buf (tab s)))%nat ->
  sta_state (entry s i) = WIFI_FW_AUTH_NULL -> sta_flags (entry s i) = 0 -> i ∉ auth_list (tab s) ->
  t0 = set_tab (StaMgt.set_auth (tab s) (auth_list (tab s) ++ [i]) (u8 (auth_list_cnt (tab s) + 1))) s ->
  exists g h s', auth_station c f a i false 0 1 0 s = Ret (_SUCCESS, s') /\
    s' = set_more (alter h i (more s)) (set_tab (upd_sta (tab t0) i g) (call (tx_auth (mac_addr (entry s i)) 0 2 0 None) s)) /\
    (forall e, mac_addr (g e) = mac_addr e /\ aid (g e) = aid e /\ sta_flags (g e) = sta_flags e) /\
    sta_state (g (entry s i)) = WIFI_FW_AUTH_SUCCESS /\
    (forall x, legacy_set (h x) = legacy_set x /\ bpairwise_key_installed (h x) = bpairwise_key_installed x) /\ authalg (h (info s i)) = 0.
Proof.
  intros Hseq Halg Hkey Hi Hb Hst Hfl Hl ->. unfold auth_station. cbn [andb].
  assert (open_to_change s i = true) as Ho by (unfold open_to_change; by rewrite Hfl, Hkey). rewrite Ho.
  unfold auth_list_insert. rewrite bool_decide_eq_false_2 by done. set (s2 := set_tab _ s).
  change (info s2 i) with (info s i). rewrite Hseq. change (0 =? 0) with true. cbn iota. set (s3 := upd_entry i _ s2).
  change (0 =? WLAN_AUTH_SAE) with false. rewrite andb_false_r. cbn [andb].
  unfold auth_step. change (info s3 i) with (info s i). rewrite Hseq. change (negb (u32 (0 + 1) =? 1)) with false.
  change ((0 =? 0) && ((0 =? 0) || (0 =? 2) || (0 =? 3))) with true. change (1 =? 1) with true. cbn iota.
  assert (open_to_change s3 i = true) as -> .
  { unfold open_to_change. change (info s3 i) with (info s i). rewrite Hkey.
    unfold s3. rewrite upd_entry_at, decide_True by done. change (stainfo_buf (tab s2)) with (stainfo_buf (tab s)).
    destruct (lookup_lt_is_Some_2 _ _ Hb) as [e He]. rewrite He. cbn. assert (entry s i = e) as Ee by (unfold entry; by rewrite He).
    rewrite <- Ee, Hfl. done. }
  rewrite bind_Ret. cbn iota. set (g1 := fun e => set_expire_to (assoc_to c) (change_state WIFI_FW_AUTH_NULL WIFI_FW_AUTH_SUCCESS e)).
  set (g := fun e => g1 (set_expire_to (auth_to c) e)). set (s4 := upd_entry i g1 s3).
  set (s6 := upd_info i (fun e => set_auth (u32 (1 + 1)) (authalg e) e) _).
  assert (tab s6 = upd_sta (tab s2) i g) as Et.
  { unfold s6, s4, s3. cbn [tab upd_info upd_entry set_tab set_more]. unfold upd_sta. cbn. by rewrite list_alter_alter_eq. }
  destruct (lookup_lt_is_Some_2 _ _ Hb) as [e He]. destruct (lookup_lt_is_Some_2 _ _ Hi) as [x Hx].
  assert (entry s i = e /\ info s i = x) as [Ee Ex] by (unfold entry, info; by rewrite He, Hx).
  assert (entry s6 i = g e) as Eg.
  { unfold entry. rewrite Et. cbn. by rewrite list_lookup_alter_eq, He. }
  assert (sta_state (g e) = WIFI_FW_AUTH_SUCCESS) as Eg'.
  { change (sta_state (g e)) with (Z.lor (Z.ldiff (sta_state e) WIFI_FW_AUTH_NULL) WIFI_FW_AUTH_SUCCESS). by rewrite <- Ee, Hst. }
  assert (info s6 i = set_auth 2 0 x) as Ei.
  { unfold s6. rewrite !info_upd_at by (cbn; rewrite ?length_alter; exact Hi). change (info s4 i) with (info s i). by rewrite Ex. }
  assert (issue_auth i _STATS_SUCCESSFUL_ s6 = call (tx_auth (mac_addr (entry s i)) 0 2 0 None) s6) as Ea.
  { unfold issue_auth. rewrite Ei, Eg. cbn [auth_seq authalg set_auth]. change (u16 0) with 0. change (negb (0 =? 0)) with false. rewrite andb_false_r.
    rewrite Ee. reflexivity. }
  rewrite Ea. change (entry (call ?o s6) i) with (entry s6 i). rewrite Eg, Eg'.
  exists g, (fun x => set_auth 0 0 x). eexists. split; [reflexivity|]. rewrite Ee, Ex. split_and!; try done.
  change (bit_test WIFI_FW_AUTH_SUCCESS WIFI_FW_AUTH_SUCCESS || bit_test WIFI_FW_AUTH_SUCCESS WIFI_FW_ASSOC_SUCCESS) with true. cbn iota.
  rewrite <- Et. unfold s6, s4, s3, upd_info, upd_entry, set_more, set_tab, call.
  cbn [tab more asoc_list asoc_list_cnt bss ptime events ap_out]. f_equal. rewrite !list_alter_alter_eq. reflexivity.
Qed.

Lemma known_in_use s a i : sta_wf (tab s) -> sta_addr a -> rtw_get_stainfo (tab s) (Some a) = Some i <-> i ∈ in_use (tab s) /\ mac_of (tab s) i = a.
Proof. intros W S. rewrite get_stainfo_map, (sta_addr_key a S) by done. apply sta_map_lookup. done. Qed.

Lemma addr_valid a : rtw_check_invalid_mac_address a false = false -> sta_addr a.
Proof. by intros (_ & S & _)%invalid_addr. Qed.

(** Allocation, as far as the rest of the state is concerned. *)
Lemma alloc_keeps p a p' i :
  rtw_alloc_stainfo p a = (p', Some i) -> exists q, free_sta_queue p = i :: q /\ free_sta_queue p' = q /\ auth_list p' = auth_list p /\
    sta_aid p' = sta_aid p /\ max_aid p' = max_aid p /\ started_aid p' = started_aid p /\ max_num_sta p' = max_num_sta p /\ tim_bitmap p' = tim_bitmap p.
Proof.
  unfold rtw_alloc_stainfo. destruct (free_sta_queue p) as [|j q]; [done|]. destruct (_ <=? _); [done|]. intros [= <- <-]. by exists q.
Qed.

Lemma left_fields p p' :
  sta_aid p' = sta_aid p -> max_aid p' = max_aid p -> started_aid p' = started_aid p -> max_num_sta p' = max_num_sta p -> id_left p -> id_left p'.
Proof. intros E1 E2 E3 E4. unfold id_left, aid_free, nth_aid. by rewrite E1, E2, E3, E4. Qed.

(** An authentication frame of an unknown station that is admitted. *)
Lemma open_auth_ok c me a rest t f s :
  open_ap c -> live_state c s -> mframe f WIFI_AUTH me a (le_split 2 0 ++ le_split 2 1 ++ rest) ->
  rtw_check_invalid_mac_address a false = false -> rtw_access_ctrl (acl_list c) a = true ->
  fst (rtw_defs_attack_chk c t s) = false -> rtw_get_stainfo (tab s) (Some a) = None -> free_sta_queue (tab s) <> [] -> id_left (tab s) ->
  exists i s', mgt_dispatcher c me t f s = Ret s' /\ authenticated c a i s' /\ id_left (tab s') /\
    ap_out s' = ap_out s ++ [tx_auth a 0 2 0 None].
Proof.
  intros O L F V Ac Dk G Fr Left. pose proof L as [A Aw Ti Ga An Lf]. destruct (free_sta_queue (tab s)) as [|i q] eqn:Fq; [done|].
  pose proof (am_table _ _ A) as W. pose proof (addr_valid a V) as Sa.
  assert (sta_map (tab s) !! a = None) as Mn by (by rewrite get_stainfo_map, (sta_addr_key a Sa) in G).
  destruct (alloc_stainfo_fresh (tab s) a i q W Sa Mn Fq) as (p' & Ea & W' & M' & Ni & Eb).
  assert (mac_of p' i = a /\ i ∈ in_use p') as [Em Hi].
  { assert (sta_map p' !! a = Some i) as E by (by rewrite M', lookup_insert_eq). by apply sta_map_lookup in E as [? ?]. }
  pose proof (in_use_slot p' i W' Hi) as Hi32. destruct (alloc_keeps _ _ _ _ Ea) as (q' & Eq & Fq' & Al & K1 & K2 & K3 & K4 & K5).
  rewrite Fq in Eq. injection Eq as <-. assert (i ∉ asoc_list s) as Nl by (apply Lf; set_solver).
  assert (i ∉ auth_list (tab s)) as Na by (intros H; by apply Ni, (am_listed _ _ A)).
  set (sp := set_ptime t s).
  set (s1 := upd_info i (fun e => set_auth 0 (authalg e) e) (upd_entry i (set_state WIFI_FW_AUTH_NULL) (upd_info i (fun _ => ap_info_zero) (set_tab p' sp)))).
  assert (mgt_dispatcher c me t f s = r ← auth_station c f a i false 0 1 0 s1; Ret (snd r)) as E.
  { unfold mgt_dispatcher. rewrite (mf_addr1 _ _ _ _ _ F), (mf_addr2 _ _ _ _ _ F), (mf_fc _ _ _ _ _ F), !bind_Ret.
    change (negb (Z.land WIFI_AUTH 0xc =? WIFI_MGT_TYPE)) with false. rewrite bool_decide_eq_true_2 by done. cbn [negb andb]. rewrite G.
    change (get_frame_sub_type WIFI_AUTH =? WIFI_AUTH) with true. cbn iota. unfold OnAuth. rewrite (oa_hw c O), (oa_asoc c O).
    change (negb (Z.land WIFI_FW_AP_STATE 3 =? WIFI_FW_AP_STATE)) with false. cbn [negb]. rewrite (mf_addr2 _ _ _ _ _ F), bind_Ret.
    unfold auth_body. rewrite (mf_fc _ _ _ _ _ F), !bind_Ret. change (bit_test WIFI_AUTH (BIT 14)) with false. cbn iota. rewrite bind_Ret.
    rewrite (mf_le16 _ _ _ _ _ F 0 0 [] (le_split 2 1 ++ rest)) by done. rewrite bind_Ret.
    rewrite <- Z.add_assoc, (mf_le16 _ _ _ _ _ F (0 + 2) 1 (le_split 2 0) rest) by done. rewrite bind_Ret, V.
    unfold rtw_defs_attack_chk in *. cbn [fst] in Dk. rewrite Dk. cbn [andb]. fold sp. rewrite (oa_auth c O), (oa_mode c O).
    change (negb (0 =? 0)) with false. change ((0 <? 0) && (0 =? 0) || (0 =? 0) && (0 =? 1)) with false. cbn iota. rewrite Ac. cbn [negb].
    change (tab sp) with (tab s). rewrite G. unfold alloc_station. change (tab sp) with (tab s). rewrite Ea.
    rewrite bool_decide_eq_false_2 by done. rewrite bind_Ret. reflexivity. }
  assert (tab s1 = upd_sta p' i (set_state WIFI_FW_AUTH_NULL)) as Et1 by done.
  assert (stainfo_buf p' !! i = Some (alloc_entry a)) as Hbi by (rewrite Eb; apply list_lookup_insert_eq; rewrite (wf_buf _ W); lia).
  assert (entry s1 i = set_state WIFI_FW_AUTH_NULL (alloc_entry a)) as Ee.
  { unfold entry. rewrite Et1. cbn. by rewrite list_lookup_alter_eq, Hbi. }
  assert (i < length (more s))%nat as Him by (rewrite (am_more _ _ A); lia).
  assert (info s1 i = set_auth 0 0 ap_info_zero) as Ei.
  { unfold s1. rewrite info_upd_at by (cbn; rewrite length_alter; exact Him).
    assert (info (upd_entry i (set_state WIFI_FW_AUTH_NULL) (upd_info i (fun _ => ap_info_zero) (set_tab p' sp))) i = ap_info_zero) as ->; [|done].
    change (info (upd_info i (fun _ => ap_info_zero) (set_tab p' sp)) i = ap_info_zero). by rewrite info_upd_at. }
  assert (i < length (more s1))%nat as P1 by (cbn; rewrite !length_alter; exact Him).
  assert (i < length (stainfo_buf (tab s1)))%nat as P2 by (rewrite Et1; cbn; rewrite length_alter, Eb, length_insert, (wf_buf _ W); lia).
  assert (i ∉ auth_list (tab s1)) as P3 by (change (i ∉ auth_list p'); by rewrite Al).
  destruct (open_auth_station c f a i s1 _ ltac:(by rewrite Ei) ltac:(by rewrite Ei) ltac:(by rewrite Ei) P1 P2 ltac:(by rewrite Ee) ltac:(by rewrite Ee) P3 eq_refl)
    as (g & h & s' & Es & Ed & Hg & Hgs & Hh & Hha).
  rewrite Es, bind_Ret in E. cbn [snd] in E. exists i, s'. split; [exact E|]. pose proof (adm_dispatch _ _ _ _ _ _ A E) as A'.
  assert (ids_kept p' (tab s')) as Ik.
  { rewrite Ed. cbn [tab set_more set_tab]. etransitivity; [|apply ids_kept_upd; intros e; apply Hg].
    transitivity (tab s1); [|by split]. rewrite Et1. by apply ids_kept_upd. }
  assert (entry s' i = g (set_state WIFI_FW_AUTH_NULL (alloc_entry a))) as Ee'.
  { rewrite Ed. unfold entry. cbn [tab set_more set_tab]. unfold upd_sta at 1. cbn. by rewrite !list_lookup_alter_eq, Hbi. }
  rewrite Ee in Hgs. destruct (Hg (set_state WIFI_FW_AUTH_NULL (alloc_entry a))) as (Hg1 & Hg2 & Hg3).
  assert (info s' i = h (info s1 i)) as Ei'.
  { rewrite Ed. unfold info. cbn [more set_more]. rewrite list_lookup_alter_eq. destruct (more s1 !! i) eqn:Eq; [done|].
    apply lookup_ge_None in Eq. cbn in Eq. rewrite !length_alter in Eq. lia. }
  assert (map_size p' = map_size (tab s)) as Ms by (unfold map_size; by rewrite K2).
  assert (bss s' = bss s) as Ebs by (by rewrite Ed).
  assert (asoc_list s' = asoc_list s) as Eas by (by rewrite Ed).
  split; [split; [split|..]|split].
  - exact A'.
  - apply (ids_kept_wf p'); [done|]. by apply (alloc_stainfo_aid_wf (tab s) a p' i W Aw Ea).
  - apply (ids_kept_tim p'); [done|]. destruct Ti as [Ti1 Ti2]. unfold tim_ok. by rewrite K5, Ms.
  - apply (gaps_reset s); [done| |done]. intros k. rewrite Ed. cbn [more set_more]. unfold s1. cbn.
    etransitivity; [apply counted_le; intros x; by destruct (Hh x) as [-> _]|]. etransitivity; [by apply counted_le|].
    apply counted_le. intros x. cbn. destruct (legacy_set x k); cbn; lia.
  - apply (announced_same _ s); [done| |done]. rewrite <- Ms. unfold map_size. by rewrite (ik_max _ _ Ik).
  - intros j. rewrite (ik_free _ _ Ik), Fq', Eas. intros Hj. apply Lf. set_solver.
  - apply known_in_use; [apply A'|done|]. assert (sta_hash (tab s') = sta_hash p') as Eh by (by rewrite Ed).
    rewrite (in_use_hash _ _ Eh). split; [done|]. unfold mac_of.
    destruct (in_use_entry s' i (am_table _ _ A')) as [Em' _]; [by rewrite (in_use_hash _ _ Eh)|]. unfold mac_of in Em'. by rewrite Em', Ee', Hg1.
  - by rewrite Ee'.
  - by rewrite Ee', Hg3.
  - by rewrite Ee', Hg2.
  - by rewrite Ee', Hg1.
  - by rewrite Ei'.
  - rewrite Ei', Ei. by destruct (Hh (set_auth 0 0 ap_info_zero)) as [_ ->].
  - by rewrite Eas.
  - apply (ids_kept_left p'); [done|]. by apply (left_fields (tab s)).
  - rewrite Ed. cbn [ap_out set_more set_tab call]. by rewrite Ee.
Qed.

(** ** Association *)

(** Only the entry [i] changed, and of it neither the address, the state, the
    association id, the flags the counters count nor the installed key. *)
Definition touch (i : nat) (s s' : ap_st) : Prop :=
  exists g h, s' = set_more (alter h i (more s)) (set_tab (upd_sta (tab s) i g) s) /\
    (forall e, mac_addr (g e) = mac_addr e /\ sta_state (g e) = sta_state e /\ aid (g e) = aid e) /\
    (forall x, legacy_set (h x) = legacy_set x /\ bpairwise_key_installed (h x) = bpairwise_key_installed x).

Lemma touch_trans i s1 s2 s3 : touch i s1 s2 -> touch i s2 s3 -> touch i s1 s3.
Proof.
  intros (g & h & -> & Hg & Hh) (g' & h' & -> & Hg' & Hh'). exists (g' ∘ g), (h' ∘ h). split_and!.
  - destruct s1 as [p]. unfold set_more, set_tab, upd_sta. cbn. by rewrite !list_alter_alter_eq.
  - intros e. cbn. destruct (Hg' (g e)) as (-> & -> & ->). apply Hg.
  - intros x. cbn. destruct (Hh' (h x)) as (-> & ->). apply Hh.
Qed.

Lemma touch_upd i f h s :
  (forall e, mac_addr (f e) = mac_addr e /\ sta_state (f e) = sta_state e /\ aid (f e) = aid e) ->
  (forall x, legacy_set (h x) = legacy_set x /\ bpairwise_key_installed (h x) = bpairwise_key_installed x) ->
  touch i s (upd_info i h (upd_entry i f s)).
Proof. intros Hf Hh. by exists f, h. Qed.

Lemma alter_same {A} (i : nat) (l : list A) : alter (fun x => x) i l = l.
Proof. revert i. induction l as [|x l IH]; intros [|i]; try done. change (x :: alter (fun x => x) i l = x :: l). by rewrite IH. Qed.

Lemma touch_entry i f s :
  (forall e, mac_addr (f e) = mac_addr e /\ sta_state (f e) = sta_state e /\ aid (f e) = aid e) -> touch i s (upd_entry i f s).
Proof. intros Hf. exists f, (fun x => x). split_and!; try done. unfold set_more. cbn. rewrite alter_same. by destruct s. Qed.

(** *** What the handlers leave as it is *)

Definition kept_bit (m : Z) : Prop := m = WIFI_FW_ASSOC_SUCCESS \/ m = WIFI_ASOC_STATE.

(** A step that leaves the ids, the counters and the beacon alone, and of the
    entry [i] the address and the key. *)
Record settled (i : nat) (s s' : ap_st) : Prop := {
  ca_bss : bss s' = bss s;
  ca_ids : ids_kept (tab s) (tab s');
  ca_mac : mac_addr (entry s' i) = mac_addr (entry s i);
  ca_key : bpairwise_key_installed (info s' i) = bpairwise_key_installed (info s i);
  ca_counted : forall k, counted k (more s') = counted k (more s);
  ca_more : length (more s') = length (more s);
  ca_buf : length (stainfo_buf (tab s')) = length (stainfo_buf (tab s));
  ca_up : forall m, kept_bit m -> bit_test (sta_state (entry s i)) m = true -> bit_test (sta_state (entry s' i)) m = true;
  ca_asoc : i ∈ asoc_list s -> i ∈ asoc_list s';
  ca_out : ap_out s `prefix_of` ap_out s'
}.

#[export] Instance settled_refl i : Reflexive (settled i).
Proof. by split. Qed.

#[export] Instance settled_trans i : Transitive (settled i).
Proof. intros s1 s2 s3 [] []. split; try congruence; try (by etransitivity); auto. Qed.

Lemma settled_entry i f s :
  (forall e, mac_addr (f e) = mac_addr e) -> (forall e, aid (f e) = aid e) ->
  (forall e m, kept_bit m -> bit_test (sta_state e) m = true -> bit_test (sta_state (f e)) m = true) -> settled i s (upd_entry i f s).
Proof.
  intros Hm Ha Hs. split; try done.
  - cbn. by apply ids_kept_upd.
  - rewrite upd_entry_at, decide_True by done. unfold entry. destruct (stainfo_buf (tab s) !! i); [apply Hm|done].
  - cbn. apply length_alter.
  - intros m Km. rewrite upd_entry_at, decide_True by done. unfold entry. destruct (stainfo_buf (tab s) !! i); [by apply Hs|done].
Qed.

Lemma land_ldiff_apart x y m : Z.land m y = 0 -> Z.land (Z.ldiff x y) m = Z.land x m.
Proof.
  intros E. apply Z.bits_inj'. intros n Hn. assert (Z.testbit (Z.land m y) n = false) as B by (by rewrite E, Z.bits_0).
  rewrite Z.land_spec in B. rewrite !Z.land_spec, Z.ldiff_spec. by destruct (Z.testbit x n), (Z.testbit y n), (Z.testbit m n).
Qed.

Lemma change_state_up clear set e m :
  Z.land m clear = 0 -> bit_test (sta_state e) m = true -> bit_test (sta_state (change_state clear set e)) m = true.
Proof.
  intros E. unfold bit_test. change (sta_state (change_state clear set e)) with (Z.lor (Z.ldiff (sta_state e) clear) set).
  rewrite Z.land_lor_distr_l, (land_ldiff_apart _ _ _ E). rewrite !negb_true_iff, !Z.eqb_neq. intros N [Z0 _]%Z.lor_eq_0_iff. done.
Qed.

Lemma change_state_sets clear m x e : bit_test (sta_state (change_state clear (Z.lor x m) e)) m = negb (m =? 0).
Proof.
  unfold bit_test. change (sta_state (change_state clear (Z.lor x m) e)) with (Z.lor (Z.ldiff (sta_state e) clear) (Z.lor x m)).
  f_equal. assert (Z.land (Z.lor (Z.ldiff (sta_state e) clear) (Z.lor x m)) m = m) as ->; [|done].
  apply Z.bits_inj'. intros n Hn. rewrite Z.land_spec, !Z.lor_spec. by destruct (Z.testbit m n), (Z.testbit x n), (Z.testbit (Z.ldiff _ _) n).
Qed.

Lemma settled_change i clear set s :
  Z.land WIFI_FW_ASSOC_SUCCESS clear = 0 -> Z.land WIFI_ASOC_STATE clear = 0 -> settled i s (upd_entry i (change_state clear set) s).
Proof. intros E1 E2. apply settled_entry; try done. intros e m [->| ->]; by apply change_state_up. Qed.

Lemma settled_info i f s :
  (forall x, legacy_set (f x) = legacy_set x) -> (forall x, bpairwise_key_installed (f x) = bpairwise_key_installed x) -> settled i s (upd_info i f s).
Proof.
  intros Hl Hk. split; try done.
  - unfold info. cbn. rewrite list_lookup_alter_eq. destruct (more s !! i); [apply Hk|done].
  - intros k. cbn. apply counted_same_flags. intros x. by rewrite Hl.
  - cbn. apply length_alter.
Qed.

Lemma settled_call i o s : settled i s (call o s).
Proof. split; try done. by exists [o]. Qed.

Lemma settled_auth_delete i s : settled i s (auth_list_delete i s).
Proof. unfold auth_list_delete. by case_match. Qed.

Lemma settled_if i (b : bool) s s1 s2 : settled i s s1 -> settled i s s2 -> settled i s (if b then s1 else s2).
Proof. by destruct b. Qed.

Lemma settled_move c i s : settled i s (move_to_asoc c i s) /\ i ∈ asoc_list (move_to_asoc c i s).
Proof.
  unfold move_to_asoc. pose proof (settled_auth_delete i s) as A. destruct (decide (i ∈ asoc_list (auth_list_delete i s))) as [Hi|Hi].
  - by rewrite bool_decide_eq_true_2.
  - rewrite bool_decide_eq_false_2 by done. split; [|cbn; set_solver]. etransitivity; [exact A|].
    etransitivity; [by apply (settled_entry i (set_expire_to (ap_expire_to c)))|]. by split; try done; cbn; set_solver.
Qed.

Lemma settled_sta_update c i s :
  (i < length (stainfo_buf (tab s)))%nat -> settled i s (sta_info_update c i s) /\ bit_test (sta_state (entry (sta_info_update c i s) i)) WIFI_ASOC_STATE = true.
Proof.
  intros Hi. unfold sta_info_update, update_sta_info_apmode. set (s1 := upd_info i _ s). assert (settled i s s1) as C1 by (by apply settled_info).
  set (s2 := upd_entry i (set_blocked _) s1). assert (settled i s s2) as C2 by (etransitivity; [exact C1|]; by apply settled_entry).
  set (s3 := if bit_test _ WLAN_STA_HT && _ then _ else s2). assert (settled i s s3) as C3 by (etransitivity; [exact C2|]; apply settled_if; [by apply settled_info|done]).
  set (s4 := call _ _). assert (settled i s s4) as C4 by (etransitivity; [exact C3|]; etransitivity; apply settled_call).
  split; [etransitivity; [exact C4|]; by apply settled_change|].
  rewrite upd_entry_at, decide_True by done. destruct (lookup_lt_is_Some_2 (stainfo_buf (tab s4)) i) as [e ->]; [by rewrite (ca_buf _ _ _ C4)|].
  by rewrite change_state_sets.
Qed.

Lemma settled_touch i s s' : touch i s s' -> settled i s s'.
Proof.
  intros (g & h & -> & Hg & Hh). transitivity (upd_entry i g s).
  - apply settled_entry; intros e; [apply Hg|apply Hg|]. intros m _. by destruct (Hg e) as (_ & -> & _).
  - change (settled i (upd_entry i g s) (upd_info i h (upd_entry i g s))). apply settled_info; intros x; apply Hh.
Qed.

Lemma touch_at i s s' : touch i s s' -> sta_state (entry s' i) = sta_state (entry s i).
Proof.
  intros (g & h & -> & Hg & _). change (sta_state (entry (upd_entry i g s) i) = sta_state (entry s i)). rewrite upd_entry_at, decide_True by done.
  unfold entry. destruct (stainfo_buf (tab s) !! i); [apply Hg|done].
Qed.

Lemma open_change s i : bpairwise_key_installed (info s i) = false -> open_to_change s i = true.
Proof. unfold open_to_change. intros ->. by destruct (bit_test _ _). Qed.

(** The flags of the station and the beacon change; the entry does not. *)
Lemma joined_entry i v s s' : flags_to i v s s' ->
  tab s' = tab s /\ asoc_list s' = asoc_list s /\ bpairwise_key_installed (info s' i) = bpairwise_key_installed (info s i) /\ ap_out s `prefix_of` ap_out s'.
Proof. intros [[] _]. split_and!; try done. specialize (cs_info i). unfold same_info in cs_info. by rewrite cs_info. Qed.

(** What the end of [OnAssocReq] achieves. *)
Record joined (c : ap_cfg) (i : nat) (reassoc : bool) (a : bytes) (n : Z) (s : ap_st) : Prop := {
  jn_list : i ∈ asoc_list s;
  jn_success : bit_test (sta_state (entry s i)) WIFI_FW_ASSOC_SUCCESS = true;
  jn_asoc : bit_test (sta_state (entry s i)) WIFI_ASOC_STATE = true;
  jn_aid : aid (entry s i) = n;
  jn_announced : announced (c_bss c) s;
  jn_answer : tx_asocrsp a reassoc _STATS_SUCCESSFUL_ n ∈ ap_out s;
  jn_event : report_add_sta_event a ∈ ap_out s
}.

Lemma settled_announced c i s s' : settled i s s' -> announced c s -> announced c s'.
Proof. intros C. apply announced_same; [apply C|]. unfold map_size. by rewrite (ik_max _ _ (ca_ids _ _ _ C)). Qed.

Lemma settled_counts i s s' : settled i s s' -> counts i s -> counts i s'.
Proof.
  intros C [L G]. split; [by rewrite (ca_more _ _ _ C)|]. apply (gaps_reset s); [apply C| |done]. intros k. by rewrite (ca_counted _ _ _ C).
Qed.

Lemma settled_aid i s s' : settled i s s' -> aid (entry s' i) = aid (entry s i).
Proof.
  intros C. pose proof (ik_ids _ _ (ca_ids _ _ _ C) i) as E. unfold entry.
  destruct (stainfo_buf (tab s') !! i), (stainfo_buf (tab s) !! i); cbn in *; congruence.
Qed.

Lemma out_calls i o s s' : settled i (call o s) s' -> o ∈ ap_out s'.
Proof. intros C. destruct (ca_out _ _ _ C) as [l ->]. cbn. set_solver. Qed.

Lemma join_station_ok c f i reassoc s :
  ready (c_bss c) -> tim_ok (tab s) -> counts i s -> announced (c_bss c) s -> (i < length (stainfo_buf (tab s)))%nat ->
  bpairwise_key_installed (info s i) = false -> (exists x, rd_slice (rx_mem f) (rx_data f) (len f) = Ret x) ->
  exists s', join_station c f i reassoc s = Ret (_SUCCESS, s') /\ joined c i reassoc (mac_addr (entry s i)) (aid (entry s i)) s'.
Proof.
  intros R T Co An Hi Hk [x Hx]. unfold join_station. set (s1 := upd_entry i _ s).
  assert (settled i s s1) as C1 by (by apply settled_change).
  assert (bit_test (sta_state (entry s1 i)) WIFI_FW_ASSOC_SUCCESS = true) as B1.
  { unfold s1. rewrite upd_entry_at, decide_True by done. destruct (lookup_lt_is_Some_2 _ _ Hi) as [e ->]. exact (change_state_sets WIFI_FW_ASSOC_STATE WIFI_FW_ASSOC_SUCCESS 0 e). }
  rewrite (open_change s1) by (by rewrite (ca_key _ _ _ C1)). destruct (settled_move c i s1) as [C2 L2]. set (s2 := move_to_asoc c i s1) in *.
  assert (settled i s s2) as C2' by (by etransitivity). rewrite (open_change s2) by (by rewrite (ca_key _ _ _ C2')).
  destruct (join_ok (c_bss c) i s2) as (s3 & -> & F3 & An3); try done.
  { by apply (ids_kept_tim (tab s)); [apply C2'|]. } { by apply (settled_counts i s). } { by apply (settled_announced _ i s). }
  rewrite bind_Ret. destruct (joined_entry _ _ _ _ F3) as (Et & El & Ek & Po).
  assert (i < length (stainfo_buf (tab s3)))%nat as Hi3 by (by rewrite Et, (ca_buf _ _ _ C2')).
  destruct (settled_sta_update c i s3 Hi3) as [C4 B4]. set (s4 := sta_info_update c i s3) in *. rewrite bind_Ret.
  assert (bpairwise_key_installed (info s4 i) = false) as K4 by (by rewrite (ca_key _ _ _ C4), Ek, (ca_key _ _ _ C2')).
  assert (entry s3 i = entry s2 i) as E3 by (unfold entry; by rewrite Et).
  assert (mac_addr (entry s4 i) = mac_addr (entry s i)) as M4 by (by rewrite (ca_mac _ _ _ C4), E3, (ca_mac _ _ _ C2')).
  assert (aid (entry s4 i) = aid (entry s i)) as A4 by (by rewrite (settled_aid _ _ _ C4), E3, (settled_aid _ _ _ C2')).
  rewrite K4. cbn [andb]. set (s5 := call _ s4).
  assert (exists o, (if ap_malloc c then x0 ← rd_slice (rx_mem f) (rx_data f) (len f); Ret (Some x0) else Ret None) = Ret o) as [o Eo].
  { destruct (ap_malloc c); [rewrite Hx, bind_Ret|]; eauto. }
  rewrite Eo, bind_Ret. set (s6 := upd_info i _ s5). assert (settled i s5 s6) as C6 by (by apply settled_info).
  rewrite (open_change s6) by (by rewrite (ca_key _ _ _ C6)). eexists. split; [reflexivity|].
  assert (settled i s4 (call (report_add_sta_event (mac_addr (entry s4 i))) s6)) as C7.
  { etransitivity; [apply settled_call|]. etransitivity; [exact C6|]. apply settled_call. }
  rewrite <- M4, <- A4. split.
  - by apply C7, C4; rewrite El.
  - apply C7; [by left|]. apply C4; [by left|]. rewrite E3. by apply C2; [left|].
  - apply C7; [by right|]. done.
  - by apply (settled_aid _ s4).
  - apply (settled_announced _ i s4); [done|]. by apply (settled_announced _ i s3).
  - apply (out_calls i _ s4). etransitivity; [exact C6|apply settled_call].
  - by apply (out_calls i _ s6).
Qed.

(** *** The request *)

(** An open network that does not want protected management frames. *)
Record open_network (c : ap_cfg) : Prop := {
  on_psk : ap_wpa_psk (c_sec c) = 0;
  on_mfp : mfp_opt (c_sec c) = MFP_NO;
  on_sae : auth_type_sae (c_sec c) = false;
  on_alg : ap_AuthAlgrthm (c_sec c) = 0
}.

(** The rates the station has in common with the table. *)
Definition known_rates (rates : bytes) : bytes := concat (map (rate_entry rates) support_rate_tbl).

(** The contents of the first and the last element with an id. *)
Fixpoint first_with (id : Z) (ts : list tlv) : option bytes :=
  match ts with [] => None | t :: ts => if fst t =? id then Some (snd t) else first_with id ts end.

Fixpoint last_with (id : Z) (ts : list tlv) : option bytes :=
  match ts with
  | [] => None
  | t :: ts => match last_with id ts with Some x => Some x | None => if fst t =? id then Some (snd t) else None end
  end.

Definition rates_in (ts : list tlv) : bytes :=
  default [] (first_with _SUPPORTEDRATES_IE_ ts) ++ default [] (first_with _EXT_SUPPORTEDRATES_IE_ ts).

(** A vendor element is as long as the search for WMM and its evaluation take
    for granted. *)
Definition vendor_ok (t : tlv) : Prop :=
  fst t = WLAN_EID_VENDOR_SPECIFIC ->
  zlen WMM_IE <= zlen (snd t) /\ (take (length WMM_IE) (snd t) = WMM_IE -> zlen WMM_IE < zlen (snd t)).

(** A list of elements that asks to join: the name of the network in the last
    name element, a known rate, and whatever other elements. *)
Record asks_to_join (c : ap_cfg) (ts : list tlv) : Prop := {
  aj_elems : Forall tlv_bytes ts;
  aj_name : last_with 0 ts = Some (ap_ssid c);
  aj_named : 0 < zlen (ap_ssid c);
  aj_rates : known_rates (rates_in ts) <> [];
  aj_vendor : Forall vendor_ok ts;
  aj_size : zlen (encode ts) < 4294967296
}.

Lemma eid_field_ssid id : eid_field id = Some ssid <-> id = 0.
Proof. unfold eid_field. split; [|by intros ->]. destruct (Z.eqb_spec id 0); [done|]. repeat case_match; congruence. Qed.

Lemma vendor_not_ssid x : vendor_field x <> Some ssid.
Proof. unfold vendor_field. repeat case_match; congruence. Qed.

Lemma tlv_field_ssid t : tlv_field t = Some ssid <-> fst t = 0.
Proof.
  unfold tlv_field. destruct (Z.eqb_spec (fst t) WLAN_EID_VENDOR_SPECIFIC) as [E|]; [|apply eid_field_ssid].
  rewrite E. split; [by intros ?%vendor_not_ssid|done].
Qed.

(** The name the parser records is the one in the last name element. *)
Lemma record_name pre ts post e :
  let b := pre ++ encode ts ++ post in
  match last_with 0 ts with
  | Some x => exists u v, b = u ++ x ++ v /\ record (zlen pre) ts e ssid = Some (zlen u, zlen x)
  | None => record (zlen pre) ts e ssid = e ssid
  end.
Proof.
  revert pre e. induction ts as [|t ts IH]; intros pre e; [done|]. cbn [last_with record encode map concat].
  fold (encode ts). rewrite <- zlen_app. set (e' := match tlv_field t with Some f => _ | None => e end).
  specialize (IH (pre ++ enc1 t) e'). cbn zeta in *. rewrite <- !app_assoc in *. destruct (last_with 0 ts) as [x|]; [exact IH|].
  rewrite IH. unfold e'. pose proof (tlv_field_ssid t) as T. destruct (Z.eqb_spec (fst t) 0) as [E|N].
  - rewrite (proj2 T E). exists (pre ++ [fst t; zlen (snd t)]), (encode ts ++ post). split; [by rewrite <- !app_assoc|].
    unfold set_elem. rewrite decide_True, zlen_app by done. reflexivity.
  - destruct (tlv_field t) as [f|]; [|done]. unfold set_elem. rewrite decide_False; [done|]. intros <-. by apply N, T.
Qed.

Lemma find_first pre ts post eid :
  match find_eid eid (zlen pre) ts with
  | Some (p, l) => exists x, first_with eid ts = Some x /\ rd_slice (pre ++ encode ts ++ post) (p + 2) l = Ret x
  | None => first_with eid ts = None
  end.
Proof.
  revert pre. induction ts as [|t ts IH]; intros pre; [done|]. cbn [find_eid first_with]. destruct (fst t =? eid).
  - exists (snd t). split; [done|]. apply (rd_slice_in _ (pre ++ [fst t; zlen (snd t)]) (snd t) (encode ts ++ post)); [|by rewrite zlen_app|done].
    rewrite encode_cons. unfold enc1. cbn. by rewrite <- !app_assoc.
  - specialize (IH (pre ++ enc1 t)). rewrite zlen_app in IH. rewrite <- app_assoc in IH. rewrite encode_cons, <- app_assoc. exact IH.
Qed.

Section request.
Context (c : ap_cfg) (ts : list tlv) (pre post : bytes) (J : asks_to_join c ts).
Let b := pre ++ encode ts ++ post.

Lemma request_rates : rtw_ies_get_supported_rate b (zlen pre) (zlen (encode ts)) = Ret (known_rates (rates_in ts)).
Proof.
  assert (forall eid, rates_of b eid (zlen pre) (zlen (encode ts)) = Ret (default [] (first_with eid ts))) as R.
  { intros eid. unfold rates_of, b. rewrite get_ie_finds_first by (intros E; destruct J as [_ Hn]; by rewrite E in Hn). rewrite bind_Ret.
    pose proof (find_first pre ts post eid) as F. destruct (find_eid eid (zlen pre) ts) as [[p l]|]; [destruct F as (x & -> & ->)|rewrite F]; done. }
  unfold rtw_ies_get_supported_rate. rewrite !R, !bind_Ret. done.
Qed.

Lemma request_elems : exists r, r <> ParseFailed /\ rtw_ieee802_11_parse_elems b (zlen pre) (zlen (encode ts)) = Ret (r, record (zlen pre) ts elems_zero).
Proof. unfold b. rewrite parse_elems_correct by apply J. eexists. split; [|done]. by case_match. Qed.

Lemma request_name : exists p, record (zlen pre) ts elems_zero ssid = Some (p, zlen (ap_ssid c)) /\ rtw_memcmp b p (ap_ssid c) = Ret true.
Proof.
  pose proof (record_name pre ts post elems_zero) as R. rewrite (aj_name _ _ J) in R. destruct R as (u & v & E & ->).
  exists (zlen u). split; [done|]. unfold rtw_memcmp, b. rewrite E. change (Z.of_nat (length (ap_ssid c))) with (zlen (ap_ssid c)).
  rewrite rd_slice_app, bind_Ret. by rewrite bool_decide_eq_true_2.
Qed.

Lemma request_wmm ap_qos flags p : exists qos flags' p', rtw_ap_parse_sta_wmm_ie ap_qos b (zlen pre) (zlen (encode ts)) flags p = Ret (qos, flags', p').
Proof.
  unfold rtw_ap_parse_sta_wmm_ie. destruct ap_qos; cbn [negb]; [|eauto].
  destruct (split_match WLAN_EID_VENDOR_SPECIFIC (Some WMM_IE) ts) as (ms & rest & E & Hm & Hr).
  assert (Forall (oui_fits WLAN_EID_VENDOR_SPECIFIC (Some WMM_IE)) ts) as Fit.
  { eapply Forall_impl; [exact (aj_vendor _ _ J)|]. intros t V Ht. destruct (V Ht) as [L _]. unfold zlen in L. lia. }
  pose proof (aj_size _ _ J) as Sz. pose proof (aj_vendor _ _ J) as V. unfold b. rewrite E in Fit, Sz, V |- *.
  rewrite (get_ie_ex_tlvs pre ms rest post) by done. rewrite bind_Ret. destruct rest as [|t rest]; [eauto|].
  apply Forall_app in V as [_ [V _]%Forall_cons]. unfold tlv_match in Hr. apply andb_true_iff in Hr as [He Ho%bool_decide_eq_true].
  destruct (V ltac:(lia)) as [_ L]. specialize (L Ho). change (zlen WMM_IE) with 6 in L.
  destruct (rd_in_bounds (pre ++ encode (ms ++ t :: rest) ++ post) (zlen (pre ++ encode ms) + 8)) as (info & -> & _).
  { rewrite !zlen_app, encode_app, zlen_app, zlen_encode_cons. pose proof (zlen_nonneg pre). pose proof (zlen_nonneg (encode ms)).
    pose proof (zlen_nonneg (encode rest)). pose proof (zlen_nonneg post). lia. }
  rewrite bind_Ret. eauto.
Qed.

Lemma request_ht o flags cap op : exists flags' cap' op', rtw_ap_parse_sta_ht_ie o b (record (zlen pre) ts elems_zero) flags cap op = Ret (flags', cap', op').
Proof.
  assert (forall g p l n, record (zlen pre) ts elems_zero g = Some (p, l) -> 0 <= n <= l -> exists x, rd_slice b p n = Ret x) as R.
  { intros g p l n E Hn. destruct (record_in_range ts (zlen pre) elems_zero g p l (zlen pre) (zlen pre + zlen (encode ts))) as (R1 & R2 & R3); try done; try lia.
    pose proof (zlen_nonneg pre). pose proof (zlen_nonneg post). eexists. apply rd_slice_ok; unfold b; rewrite ?zlen_app; lia. }
  unfold rtw_ap_parse_sta_ht_ie. destruct o; cbn [negb]; [|eauto].
  destruct (record (zlen pre) ts elems_zero ht_capabilities) as [[p l]|] eqn:E1; [|eauto].
  destruct (Z.leb_spec HT_CAP_LEN l); [|eauto]. destruct (R _ _ _ HT_CAP_LEN E1) as [x ->]; [split; [done|lia]|]. rewrite bind_Ret.
  destruct (record (zlen pre) ts elems_zero ht_operation) as [[p2 l2]|] eqn:E2; [|rewrite bind_Ret; eauto].
  destruct (Z.eqb_spec l2 HT_OP_IE_LEN) as [->|]; [|rewrite bind_Ret; eauto].
  destruct (R _ _ _ HT_OP_IE_LEN E2) as [y ->]; [done|]. rewrite !bind_Ret. eauto.
Qed.

(** The parser changes only the entry, up to the association id. *)
Lemma fields_ok i q cap s :
  open_network c -> bit_test (ap_fw_state c) WIFI_AP_STATE = true ->
  ri_pos q = zlen pre -> ri_left q = zlen (encode ts) -> le16_get b (ri_body q) = Ret cap ->
  exists s1, touch i s s1 /\ parse_fields c b i q (record (zlen pre) ts elems_zero) s =
    if 0 <? aid (entry s1 i) then Ret (_STATS_SUCCESSFUL_, s1)
    else let '(p, a) := rtw_aid_alloc (tab s1) i in
         Ret (if a =? 0 then WLAN_STATUS_AP_UNABLE_TO_HANDLE_NEW_STA else _STATS_SUCCESSFUL_, set_tab p s1).
Proof.
  intros [N1 N2 N3 _] Ap Ep El Ec. unfold parse_fields. unfold rtw_ap_parse_sta_capability. rewrite Ec, !bind_Ret.
  set (s1 := upd_info i _ (upd_entry i _ s)). assert (touch i s s1) as T1 by (by apply touch_upd).
  destruct request_name as (p & -> & Em). pose proof (aj_named _ _ J). destruct (Z.eqb_spec (zlen (ap_ssid c)) 0); [lia|]. rewrite Z.eqb_refl. cbn [negb orb]. rewrite Em, bind_Ret. cbn [negb].
  unfold rtw_ap_parse_sta_supported_rates. rewrite Ep, El, request_rates, bind_Ret, Ap.
  pose proof (aj_rates _ _ J) as Kr. destruct (known_rates (rates_in ts)) as [|r rs] eqn:Er; [done|]. rewrite bind_Ret. change (negb (_STATS_SUCCESSFUL_ =? _STATS_SUCCESSFUL_)) with false. cbn iota.
  set (s2 := upd_info i _ (upd_entry i _ s1)). assert (touch i s s2) as T2 by (eapply touch_trans; [exact T1|]; by apply touch_upd).
  unfold rtw_ap_parse_sta_security_ie, parse_sec. rewrite N1. change (bit_test 0 (BIT 1)) with false. change (bit_test 0 (BIT 0)) with false. cbn iota.
  rewrite bind_Ret. unfold sec_policy. rewrite N2, N3. cbn [rq_mfp req_none rq_spp rq_gmcs].
  change ((MFP_NO =? MFP_REQUIRED) && (MFP_NO <? MFP_OPTIONAL) || (MFP_NO =? MFP_REQUIRED) && (MFP_NO <? MFP_OPTIONAL)) with false. cbn iota.
  change ((MFP_OPTIONAL <=? MFP_NO) && (MFP_OPTIONAL <=? MFP_NO)) with false. rewrite !andb_false_r. cbn [andb]. cbn iota.
  unfold sec_wps. cbn [rq_ie req_none]. rewrite N1. change (0 <? 0) with false. cbn iota. rewrite !bind_Ret. change (negb (_STATS_SUCCESSFUL_ =? _STATS_SUCCESSFUL_)) with false. cbn iota.
  set (s3 := upd_info i _ (upd_entry i _ s2)). assert (touch i s s3) as T3 by (eapply touch_trans; [exact T2|]; by apply touch_upd).
  match goal with |- context [rtw_ap_parse_sta_wmm_ie _ _ _ _ ?fl ?p] => destruct (request_wmm (ap_qos_option c) fl p) as (qos & fl' & ps & ->) end.
  rewrite bind_Ret.
  match goal with |- context [rtw_ap_parse_sta_ht_ie ?o _ _ ?fl ?x ?y] => destruct (request_ht o fl x y) as (fl2 & cp & op & ->) end.
  rewrite bind_Ret. eexists. split; [|reflexivity]. eapply touch_trans; [exact T3|]. by apply touch_upd.
Qed.

End request.

(** *** The theorem *)

(** The association id that [fields_ok] ends with. *)
Lemma aid_given s i e :
  aid_wf (tab s) -> stainfo_buf (tab s) !! i = Some e -> i ∉ free_sta_queue (tab s) -> aid e = 0 -> id_left (tab s) ->
  exists p a, rtw_aid_alloc (tab s) i = (p, a) /\ 1 <= a <= max_aid (tab s) /\ stainfo_buf p = <[i := set_aid e a]> (stainfo_buf (tab s)) /\
    map_size p = map_size (tab s) /\ tim_bitmap p = tim_bitmap (tab s).
Proof.
  intros W He Nf Z0 (k & Hk & Fk). pose proof (aid_alloc_effect (tab s) i e W He Nf Z0) as P.
  assert (tim_bitmap (fst (rtw_aid_alloc (tab s) i)) = tim_bitmap (tab s)) as Et.
  { unfold rtw_aid_alloc. destruct (aid_scan _ _ _ _ _) as [[k1 b1] u1]. cbn zeta. by destruct (_ =? 0). }
  destruct (rtw_aid_alloc (tab s) i) as [p a]. cbn [fst] in Et. destruct P as (_ & _ & _ & _ & Em & _ & _ & Eb & [(_ & _ & _ & N)|(Ra & _)]).
  - by apply (N k Hk) in Fk.
  - exists p, a. split_and!; try done; try lia. unfold map_size. by rewrite Em.
Qed.

Section association.
Context (c : ap_cfg) (me a : bytes) (f : recv_frame) (cap listen : Z) (ts : list tlv).
Context (O : open_ap c) (N : open_network c) (Hcap : is_u16 cap).
Context (J : asks_to_join c ts).
Context (V : rtw_check_invalid_mac_address a false = false).
Context (F : mframe f WIFI_ASSOCREQ me a (le_split 2 cap ++ le_split 2 listen ++ encode ts)).

Lemma request_memory : exists pre post, rx_mem f = pre ++ encode ts ++ post /\ rx_data f + WLAN_HDR_A3_LEN + 4 = zlen pre /\
  len f - (WLAN_HDR_A3_LEN + 4) = zlen (encode ts) /\ le16_get (rx_mem f) (rx_data f + WLAN_HDR_A3_LEN) = Ret cap.
Proof.
  destruct (mf_body _ _ _ _ _ F) as (p & post & E & D). exists (p ++ le_split 2 cap ++ le_split 2 listen), post. split_and!.
  - rewrite E. by rewrite <- !app_assoc.
  - rewrite D, !zlen_app. done.
  - rewrite (mf_len _ _ _ _ _ F), !zlen_app. change (zlen (le_split 2 cap)) with 2. change (zlen (le_split 2 listen)) with 2. unfold WLAN_HDR_A3_LEN. lia.
  - rewrite <- (Z.add_0_r (rx_data f + WLAN_HDR_A3_LEN)). by apply (mf_le16 _ _ _ _ _ F 0 cap [] (le_split 2 listen ++ encode ts)).
Qed.

(** [OnAssocReq] up to the last part. *)
Lemma open_request_ok i s :
  rtw_get_stainfo (tab s) (Some a) = Some i -> authalg (info s i) = 0 -> sta_state (entry s i) = WIFI_FW_AUTH_SUCCESS ->
  exists s1, touch i (upd_entry i (change_state WIFI_FW_AUTH_SUCCESS WIFI_FW_ASSOC_STATE) s) s1 /\
    (forall p n, 0 < n -> aid (entry s1 i) = 0 -> rtw_aid_alloc (tab s1) i = (p, n) -> OnAssocReq c f s = join_station c f i false (set_tab p s1)).
Proof.
  intros G Al St. destruct request_memory as (pre & post & Em & Ep & El & Ec). set (s0 := upd_entry i (change_state WIFI_FW_AUTH_SUCCESS WIFI_FW_ASSOC_STATE) s).
  set (q := mk_ries (rx_data f + WLAN_HDR_A3_LEN) (rx_data f + WLAN_HDR_A3_LEN + 4) (len f - (WLAN_HDR_A3_LEN + 4))).
  rewrite Em in Ec. destruct (fields_ok c ts pre post J i q cap s0 N (oa_ap c O) Ep El Ec) as (s1 & T & E). exists s1. split; [exact T|].
  intros p n Hn Z0 Ea. rewrite Z0 in E. change (0 <? 0) with false in E. cbn iota in E. rewrite Ea in E. destruct (Z.eqb_spec n 0); [lia|].
  unfold OnAssocReq. rewrite (oa_hw c O). change (negb (Z.land WIFI_FW_AP_STATE 3 =? WIFI_FW_AP_STATE)) with false. cbn iota.
  rewrite (mf_addr2 _ _ _ _ _ F), (mf_fc _ _ _ _ _ F), !bind_Ret, V. change (negb (get_frame_sub_type WIFI_ASSOCREQ =? WIFI_ASSOCREQ)) with false. cbn iota.
  change _ASOCREQ_IE_OFFSET_ with 4. pose proof (zlen_nonneg (encode ts)).
  destruct (Z.ltb_spec (len f) (WLAN_HDR_A3_LEN + 4)); [lia|]. rewrite G, Al, St. change ((0 =? WLAN_AUTH_SAE) && bit_test WIFI_FW_AUTH_SUCCESS WIFI_FW_AUTH_NULL) with false.
  change (request_state WIFI_FW_AUTH_SUCCESS) with (Some (WIFI_FW_AUTH_SUCCESS, WIFI_FW_ASSOC_STATE)). cbn iota. fold s0. rewrite (oa_assoc c O).
  change (negb (0 =? 0)) with false. cbn iota. fold q. unfold parse_request. rewrite Em. change (ri_pos q) with (rx_data f + WLAN_HDR_A3_LEN + 4).
  change (ri_left q) with (len f - (WLAN_HDR_A3_LEN + 4)). rewrite Ep, El.
  destruct (request_elems c ts pre post J) as (pr & Hp & ->). rewrite !bind_Ret, E. by destruct pr.
Qed.

Lemma open_assoc_ok t i s :
  authenticated c a i s -> id_left (tab s) ->
  exists s' n, mgt_dispatcher c me t f s = Ret s' /\ rtw_get_stainfo (tab s') (Some a) = Some i /\ 1 <= n <= max_aid (tab s) /\ joined c i false a n s'.
Proof.
  intros [[A Aw Ti Ga An Lf] G St Fl Ai Ma Al Ke Li] Left.
  pose proof (am_table _ _ A) as W. apply (known_in_use s a i W (addr_valid a V)) in G as G'. destruct G' as [Hi Hm].
  destruct (in_use_entry s i W Hi) as [_ Hi32]. assert (i < length (stainfo_buf (tab s)))%nat as Hb by (rewrite (wf_buf _ W); lia).
  assert (counts i s) as Co by (split; [rewrite (am_more _ _ A); lia|done]).
  set (s0 := upd_entry i (set_mgmt_seq (seq_num (attrib f))) s). assert (quiet s s0) as Q0 by (apply quiet_entry; [done|by intros e <-]).
  assert (mgt_dispatcher c me t f s = r ← OnAssocReq c f s0; Ret (snd r)) as E.
  { unfold mgt_dispatcher. rewrite (mf_addr1 _ _ _ _ _ F), (mf_addr2 _ _ _ _ _ F), (mf_fc _ _ _ _ _ F), !bind_Ret.
    change (negb (Z.land WIFI_ASSOCREQ 0xc =? WIFI_MGT_TYPE)) with false. rewrite bool_decide_eq_true_2 by done. cbn [negb andb]. rewrite G. done. }
  assert (settled i s s0) as C0 by (by apply settled_entry).
  assert (sta_state (entry s0 i) = WIFI_FW_AUTH_SUCCESS) as St0.
  { unfold s0. rewrite upd_entry_at, decide_True by done. destruct (lookup_lt_is_Some_2 _ _ Hb) as [e He]. rewrite He, <- St. unfold entry. by rewrite He. }
  destruct (open_request_ok i s0) as (s1 & T & Jo); [by rewrite (get_quiet s s0)|done|done|].
  assert (settled i s s1) as C1 by (etransitivity; [exact C0|]; etransitivity; [|by apply settled_touch]; by apply settled_change).
  pose proof (ca_ids _ _ _ C1) as K1. assert (aid (entry s1 i) = 0) as A1 by (by rewrite (settled_aid _ _ _ C1)).
  assert (i < length (stainfo_buf (tab s1)))%nat as Hb1 by (by rewrite (ca_buf _ _ _ C1)). destruct (lookup_lt_is_Some_2 _ _ Hb1) as [e He].
  assert (entry s1 i = e) as Ee by (unfold entry; by rewrite He).
  destruct (aid_given s1 i e) as (p & n & Ea & Rn & Eb & Ms & Tm).
  { by apply (ids_kept_wf (tab s)). } { done. } { rewrite (ik_free _ _ K1). by apply (in_use_not_free _ i W). } { by rewrite <- Ee. } { by apply (ids_kept_left (tab s)). }
  rewrite (Jo p n) in E by (done || lia). set (s2 := set_tab p s1) in *.
  assert (entry s2 i = set_aid e n) as E2 by (unfold entry, s2; cbn; rewrite Eb, list_lookup_insert_eq by done; done).
  destruct (join_station_ok c f i false s2) as (s' & Ej & Jn); try done.
  { apply (oa_ready c O). } { unfold tim_ok. cbn [tab s2 set_tab]. rewrite Tm, Ms. by apply (ids_kept_tim (tab s)). } { change (counts i s1). by apply (settled_counts i s). }
  { apply (announced_same _ s1); [done|done|]. by apply (settled_announced _ i s). } { cbn. by rewrite Eb, length_insert. }
  { change (info s2 i) with (info s1 i). by rewrite (ca_key _ _ _ C1). } { apply (mf_whole _ _ _ _ _ F). }
  rewrite Ej, bind_Ret in E. cbn [snd] in E. exists s', n. split_and!; [exact E| |lia| |].
  - assert (OnAssocReq c f s0 = Ret (_SUCCESS, s')) as EA by (rewrite (Jo p n); done || lia). pose proof (quiet_on_assoc _ _ _ _ _ EA) as Q1.
    rewrite (get_quiet s0 s'); [by rewrite (get_quiet s s0)| |done]. by apply (sta_wf_same (tab s)); try done; apply Q0.
  - rewrite <- (ik_max _ _ K1). apply Rn.
  - rewrite E2 in Jn. change (mac_addr (set_aid e n)) with (mac_addr e) in Jn. rewrite <- Ee, (ca_mac _ _ _ C1), Ma in Jn. exact Jn.
Qed.

End association.

(** An unknown station that the access point takes. *)
Record may_join (c : ap_cfg) (t : Z) (a : bytes) (s : ap_st) : Prop := {
  mj_valid : rtw_check_invalid_mac_address a false = false;
  mj_acl : rtw_access_ctrl (acl_list c) a = true;
  mj_limit : fst (rtw_defs_attack_chk c t s) = false;
  mj_unknown : rtw_get_stainfo (tab s) (Some a) = None;
  mj_room : free_sta_queue (tab s) <> [];
  mj_id : id_left (tab s)
}.


Lemma ex_mgmt_frame sub body : 0 <= sub < 256 -> mframe (ex_mgmt sub body) sub ex_me ex_a body.
Proof. intros H. split; try done. by exists [], [0; 0], ex_me, [0; 0], (replicate 8 0). Qed.

Lemma ex_aids : aid_wf (tab (started 4 [] ex_bss)).
Proof.
  set (p := tab (started 4 [] ex_bss)). assert (sta_aid p = replicate 4 None) as Ea by (vm_compute; reflexivity).
  assert (Forall (fun e => aid e = 0) (stainfo_buf p)) as F by (vm_compute; repeat constructor).
  split; try (vm_compute; intuition congruence).
  - intros k i. rewrite Ea. intros [H _]%lookup_replicate. done.
  - intros i e He _ N. by rewrite Forall_lookup in F; apply F in He.
Qed.

Lemma ex_live : live_state ex_ap (started 4 [] ex_bss).
Proof.
  destruct ex_start_ok as [_ [T _ G A]]. split.
  - apply adm_started.
  - apply ex_aids.
  - exact T.
  - intros k. change (0 <= gap ex_start k). by rewrite G.
  - by apply (announced_same _ ex_start).
  - intros j _. by apply not_elem_of_nil.
Qed.

(** What a phone sends: name, rates, extended rates, RSN, HT capabilities, WMM,
    and a vendor element the parser does not know. *)
Definition ex_request : list tlv :=
  [(0, ap_ssid ex_ap); (_SUPPORTEDRATES_IE_, ex_rates); (_EXT_SUPPORTEDRATES_IE_, [48; 72; 96; 108]); (33, [0; 20]);
   (48, [1; 0]); (45, 0x6e :: replicate 25 0); (WLAN_EID_VENDOR_SPECIFIC, WMM_IE ++ [0x0f]);
   (WLAN_EID_VENDOR_SPECIFIC, [0x00; 0x10; 0x18; 2; 0; 0; 0])].
Definition ex_assoc : recv_frame := ex_mgmt WIFI_ASSOCREQ ([0x21; 4; 10; 0] ++ encode ex_request).

Lemma ex_asks : asks_to_join ex_ap ex_request.
Proof.
  split; try (vm_compute; congruence).
  - repeat constructor; vm_compute; congruence.
  - repeat (apply Forall_cons_2; [intros H; try (vm_compute in H; congruence); split; vm_compute; congruence|]). apply Forall_nil_2.
Qed.

