(* ===== verification/KeyTable.v ===== *)
(** * The hardware key table and the mac ids (core/rtw_wlan_util.c,
    core/rtw_mlme_ext.c, core/rtw_cmd.c, hal/hal_com.c)

    The adapter holds the keys it encrypts and decrypts with in a content
    addressable memory of up to 64 entries, of which the driver uses 32; an
    entry is found by the address of the transmitter and the key id.
    [setkey_hdl] and [set_stakey_hdl] choose entries ([rtw_camid_alloc]), write
    them to the hardware and to a cache, and clear them.  A station also has a
    mac id of the hardware ([rtw_alloc_macid]); the mac id of the group entry
    of an access point is the number of the key entry that is kept for the
    group key.

    The state is [struct cam_ctl_t] and [struct macid_ctl_t] with the cache, the
    station table of StaMgt.v and [cmn.mac_id] by its entries.  The words that
    reach the hardware are recorded in order.  There is one interface, and
    [ch_g], whose bits no code sets, is left out. *)

From S2P Require Import Prelude RxFrame Reorder SwCrypt StaMgt RxCheck Ie Ccmp MgmtProtect.

(** ** Constants *)

Definition SEC_CAM_ENT_NUM_SW_LIMIT : Z := 32.
Definition RTW_DEFAULT_MGMT_MACID : Z := 1.
Definition INVALID_SEC_MAC_CAM_ID : Z := 0xFF.
Definition SEC_CAP_CHK_BMC : Z := BIT 0.
Definition SEC_CAP_CHK_EXTRA_SEC : Z := BIT 1.
Definition SEC_STATUS_STA_PK_GK_CONFLICT_DIS_BMC_SEARCH : Z := BIT 0.
Definition FW_ADHOC_STATE : Z := 0x01.
Definition FW_STATION_STATE : Z := 0x02.
Definition FW_AP_STATE : Z := 0x03.
Definition FW_ASSOC_SUCCESS : Z := 0x00004000.
Definition H2C_SUCCESS : Z := 0.
Definition H2C_SUCCESS_RSP : Z := 1.
Definition H2C_REJECTED : Z := 5.
Definition AMSDU_MODE_SPP : Z := 1.

(** ** State *)

Record sec_cam_ent := mk_cam { cam_ctrl : Z; cam_mac : bytes; cam_key : bytes }.

Definition null_addr : bytes := replicate 6 0.
Definition cam_zero : sec_cam_ent := mk_cam 0 null_addr (replicate 16 0).

(** Register accesses: [REG_CAMWRITE] with [REG_CAMCMD], and the settings. *)
Inductive hal_call :=
| CAMWRITE (addr wdata : Z)
| HW_VAR_CAM_INVALID_ALL
| HW_VAR_SEC_CFG
| HW_VAR_ON_RCR_AM.

Record cam_ctl_t := mk_camctl { cam_num : Z; sec_cap : Z; cam_flags : Z; cam_used : Z }.

Record macid_ctl_t := mk_macctl {
  macid_num : Z;
  macid_used : Z;
  macid_bmc : Z;
  if_g : Z;
  iface_bmc : Z;
  macid_sta : list (option nat)
}.

Record key_st := mk_kst {
  kcam : cam_ctl_t;
  cam_cache : list sec_cam_ent;
  kmac : macid_ctl_t;
  ktab : sta_priv;
  mac_id : list Z;
  key_index : Z;
  enc_algo : Z;
  dot11Def_camid : list Z;
  dot118021x_bmc_cam_id : Z;
  hal : list hal_call
}.

(** [k_hwstate] is [mlmext_info.state], [k_null] holds in the station role and
    without one ([MLME_IS_STA], [MLME_IS_NULL]). *)
Record key_cfg := mk_kcfg {
  own_addr : bytes;
  k_hwstate : Z;
  k_null : bool;
  k_bssid : bytes;
  k_amsdu_mode : Z;
  k_PrivacyKeyIndex : Z
}.

Definition set_kcam (x : cam_ctl_t) (s : key_st) : key_st :=
  mk_kst x (cam_cache s) (kmac s) (ktab s) (mac_id s) (key_index s) (enc_algo s) (dot11Def_camid s) (dot118021x_bmc_cam_id s) (hal s).
Definition set_cache (x : list sec_cam_ent) (s : key_st) : key_st :=
  mk_kst (kcam s) x (kmac s) (ktab s) (mac_id s) (key_index s) (enc_algo s) (dot11Def_camid s) (dot118021x_bmc_cam_id s) (hal s).
Definition set_kmac (x : macid_ctl_t) (s : key_st) : key_st :=
  mk_kst (kcam s) (cam_cache s) x (ktab s) (mac_id s) (key_index s) (enc_algo s) (dot11Def_camid s) (dot118021x_bmc_cam_id s) (hal s).
Definition set_ktab (x : sta_priv) (s : key_st) : key_st :=
  mk_kst (kcam s) (cam_cache s) (kmac s) x (mac_id s) (key_index s) (enc_algo s) (dot11Def_camid s) (dot118021x_bmc_cam_id s) (hal s).
Definition set_mac_id (i : nat) (v : Z) (s : key_st) : key_st :=
  mk_kst (kcam s) (cam_cache s) (kmac s) (ktab s) (<[i := v]> (mac_id s)) (key_index s) (enc_algo s) (dot11Def_camid s) (dot118021x_bmc_cam_id s) (hal s).
Definition set_key_idx (v : Z) (s : key_st) : key_st :=
  mk_kst (kcam s) (cam_cache s) (kmac s) (ktab s) (mac_id s) v (enc_algo s) (dot11Def_camid s) (dot118021x_bmc_cam_id s) (hal s).
Definition set_enc_algo (v : Z) (s : key_st) : key_st :=
  mk_kst (kcam s) (cam_cache s) (kmac s) (ktab s) (mac_id s) (key_index s) v (dot11Def_camid s) (dot118021x_bmc_cam_id s) (hal s).
Definition set_camids (l : list Z) (v : Z) (s : key_st) : key_st :=
  mk_kst (kcam s) (cam_cache s) (kmac s) (ktab s) (mac_id s) (key_index s) (enc_algo s) l v (hal s).
Definition hcall (o : hal_call) (s : key_st) : key_st :=
  mk_kst (kcam s) (cam_cache s) (kmac s) (ktab s) (mac_id s) (key_index s) (enc_algo s) (dot11Def_camid s) (dot118021x_bmc_cam_id s) (hal s ++ [o]).

Definition set_used (m : Z) (s : key_st) : key_st :=
  set_kcam (mk_camctl (cam_num (kcam s)) (sec_cap (kcam s)) (cam_flags (kcam s)) m) s.

Definition cache_at (s : key_st) (id : Z) : sec_cam_ent := default cam_zero (cam_cache s !! Z.to_nat id).

(** ** Bitmaps of 32 bits *)

Definition map_is_set (map id : Z) : bool := (id <? 32) && bit_test map (BIT id).
Definition map_set (map id : Z) : Z := if id <? 32 then Z.lor map (BIT id) else map.
Definition map_clr (map id : Z) : Z := if id <? 32 then Z.ldiff map (BIT id) else map.

Definition rtw_sec_camid_is_set : Z -> Z -> bool := map_is_set.
Definition rtw_sec_cam_map_set : Z -> Z -> Z := map_set.
Definition rtw_sec_cam_map_clr : Z -> Z -> Z := map_clr.
Definition rtw_macid_is_set : Z -> Z -> bool := map_is_set.
Definition rtw_macid_map_set : Z -> Z -> Z := map_set.
Definition rtw_macid_map_clr : Z -> Z -> Z := map_clr.

(** ** Entries *)

Definition _rtw_camctl_chk_cap (s : key_st) (cap : Z) : bool := bit_test (sec_cap (kcam s)) cap.

Definition rtw_camctl_set_flags (flags : Z) (s : key_st) : key_st :=
  set_kcam (mk_camctl (cam_num (kcam s)) (sec_cap (kcam s)) (Z.lor (cam_flags (kcam s)) flags) (cam_used (kcam s))) s.

Definition _rtw_sec_camid_is_used (s : key_st) (id : Z) : bool :=
  if cam_num (kcam s) <=? id then false else rtw_sec_camid_is_set (cam_used (kcam s)) id.

Definition _rtw_camid_is_gk (s : key_st) (cam_id : Z) : bool :=
  if cam_num (kcam s) <=? cam_id then false
  else _rtw_sec_camid_is_used s cam_id && bit_test (cam_ctrl (cache_at s cam_id)) (BIT 6).

(** [kid] and [gk] are compared unless negative. *)
Definition cam_cache_chk (s : key_st) (id : Z) (addr : option bytes) (kid gk : Z) : bool :=
  if match addr with Some a => negb (bool_decide (cam_mac (cache_at s id) = a)) | None => false end then false
  else if (0 <=? kid) && negb (kid =? Z.land (cam_ctrl (cache_at s id)) 0x03) then false
  else negb (negb (gk =? -1) && negb (Bool.eqb (negb (gk =? 0)) (_rtw_camid_is_gk s id))).

(** The ids below [num], from [n] on. *)
Definition ids_from (n num : Z) : list Z := map (fun k => n + Z.of_nat k) (seq 0 (Z.to_nat (num - n))).

Definition first_id (f : Z -> bool) (l : list Z) : Z := default (-1) (List.find f l).

Definition rtw_camid_search (s : key_st) (addr : option bytes) (kid gk : Z) : Z :=
  first_id (fun i => cam_cache_chk s i addr kid gk) (ids_from 0 (cam_num (kcam s))).

(** The entry may be taken. *)
Definition room_at (s : key_st) (ext_sec : bool) (i : Z) : bool :=
  negb (_rtw_sec_camid_is_used s i) &&
  (if ext_sec then (i + 1 <? cam_num (kcam s)) && negb (_rtw_sec_camid_is_used s (i + 1)) else true).

Definition rtw_get_camid (s : key_st) (addr : option bytes) (kid gk : Z) (ext_sec : bool) : Z :=
  match addr with
  | None => -1
  | Some _ =>
      let i := if _rtw_camctl_chk_cap s SEC_CAP_CHK_BMC then rtw_camid_search s addr kid gk else rtw_camid_search s addr kid (-1) in
      if 0 <=? i then i else first_id (room_at s ext_sec) (ids_from 0 (cam_num (kcam s)))
  end.

Definition group_tx_role (c : key_cfg) : bool :=
  (Z.land (k_hwstate c) 3 =? FW_AP_STATE) || (Z.land (k_hwstate c) 3 =? FW_ADHOC_STATE).

(** Which address the entry is for. *)
Definition cam_addr (c : key_cfg) (sta : option bytes) : option bytes :=
  match sta with
  | Some a => Some a
  | None => if group_tx_role c then Some (own_addr c)
            else if bit_test (k_hwstate c) FW_ASSOC_SUCCESS then Some (k_bssid c) else None
  end.

(** The entry (negative without one), [*used], and the marks in the bitmap. *)
Definition rtw_camid_alloc (c : key_cfg) (sta : option bytes) (kid gk : Z) (ext_sec : bool) (s : key_st) : Z * bool * key_st :=
  let cam_id := rtw_get_camid s (cam_addr c sta) kid gk ext_sec in
  if 0 <=? cam_id then
    let m := rtw_sec_cam_map_set (cam_used (kcam s)) cam_id in
    let m := if ext_sec then rtw_sec_cam_map_set m (cam_id + 1) else m in
    (cam_id, _rtw_sec_camid_is_used s cam_id, set_used m s)
  else (cam_id, false, s).

Definition rtw_camid_set (cam_id : Z) (s : key_st) : key_st :=
  if cam_id <? cam_num (kcam s) then set_used (rtw_sec_cam_map_set (cam_used (kcam s)) cam_id) s else s.

Definition rtw_camid_free (cam_id : Z) (s : key_st) : key_st :=
  if cam_id <? cam_num (kcam s) then set_used (rtw_sec_cam_map_clr (cam_used (kcam s)) cam_id) s else s.

(** ** Writing entries *)

(** The word [j] of an entry. *)
Definition cam_word (ctrl : Z) (mac key : bytes) (j : Z) : Z :=
  let m := znth mac in
  if j =? 0 then Z.lor (Z.lor ctrl (Z.shiftl (m 0) 16)) (Z.shiftl (m 1) 24)
  else if j =? 1 then Z.lor (Z.lor (m 2) (Z.shiftl (m 3) 8)) (Z.lor (Z.shiftl (m 4) 16) (Z.shiftl (m 5) 24))
  else if 6 <=? j then 0
  else let k := fun x => znth key (4 * (j - 2) + x) in
       Z.lor (Z.lor (k 0) (Z.shiftl (k 1) 8)) (Z.lor (Z.shiftl (k 2) 16) (Z.shiftl (k 3) 24)).

Definition rtw_sec_write_cam (addr wdata : Z) (s : key_st) : key_st := hcall (CAMWRITE addr (u32 wdata)) s.

(** The words from 7 down to 0; the address is a byte. *)
Definition rtw_sec_write_cam_ent (id ctrl : Z) (mac key : bytes) (s : key_st) : key_st :=
  foldl (fun s j => rtw_sec_write_cam (u8 (Z.shiftl id 3 + j)) (cam_word ctrl mac key j) s) s [7; 6; 5; 4; 3; 2; 1; 0].

(** [cam_cache[id] = ...], with the first 16 bytes of the key. *)
Definition write_cam_cache (id ctrl : Z) (mac key : bytes) (s : key_st) : res key_st :=
  if (0 <=? id) && (id <? SEC_CAM_ENT_NUM_SW_LIMIT)
  then Ret (set_cache (<[Z.to_nat id := mk_cam ctrl mac (take 16 key)]> (cam_cache s)) s) else Oob.

Definition _write_cam (id ctrl : Z) (mac key : bytes) (s : key_st) : res key_st :=
  write_cam_cache id ctrl mac key (rtw_sec_write_cam_ent id ctrl mac key s).

(** A key of 256 bits takes two entries. *)
Definition write_cam (id ctrl : Z) (mac key : bytes) (s : key_st) : res key_st :=
  if bit_test ctrl (BIT 9) then
    s ← _write_cam id ctrl mac key s;
    _write_cam (u8 (id + 1)) (Z.lor ctrl (BIT 5)) mac (drop 16 key) s
  else _write_cam id ctrl mac key s.

Definition clear_cam_entry (id : Z) (s : key_st) : res key_st :=
  write_cam_cache id 0 null_addr (replicate 16 0) (rtw_sec_write_cam_ent id 0 null_addr (replicate 32 0) s).

(** [while ((id = rtw_camid_search(...)) >= 0) { clear_cam_entry(id); rtw_camid_free(id); }] *)
Fixpoint clear_found (fuel : nat) (addr : option bytes) (kid gk : Z) (s : key_st) : res key_st :=
  match fuel with
  | O => NoFuel
  | S fuel =>
      let id := rtw_camid_search s addr kid gk in
      if id <? 0 then Ret s
      else s ← clear_cam_entry id s; clear_found fuel addr kid gk (rtw_camid_free id s)
  end.

(** Each round clears an entry. *)
Definition clear_keys (addr : bytes) (gk : Z) (s : key_st) : res key_st :=
  clear_found (S (Z.to_nat (cam_num (kcam s)))) (Some addr) (-1) gk s.

(** The entry kept for the group stays marked. *)
Definition invalidate_cam_all (s : key_st) : key_st :=
  let bmc_id := iface_bmc (kmac s) in
  let m := if bmc_id =? INVALID_SEC_MAC_CAM_ID then 0
           else let m := rtw_sec_cam_map_set 0 bmc_id in
                if _rtw_camctl_chk_cap s SEC_CAP_CHK_EXTRA_SEC then rtw_sec_cam_map_set m (bmc_id + 1) else m in
  set_cache (replicate 32 cam_zero) (set_used m (hcall HW_VAR_CAM_INVALID_ALL s)).

(** One interface. *)
Definition flush_all_cam_entry (s : key_st) : key_st := invalidate_cam_all s.

(** ** Setting keys *)

Record setkey_parm := mk_setkey { sk_algorithm : Z; sk_keyid : Z; sk_set_tx : bool; sk_key : bytes }.
Record set_stakey_parm := mk_stakey { st_addr : bytes; st_algorithm : Z; st_keyid : Z; st_key : bytes; st_gk : bool }.

Definition amsdu_spp_enable (c : key_cfg) (type : Z) : bool :=
  (k_amsdu_mode c =? AMSDU_MODE_SPP) &&
  ((type =? _AES_) || (type =? _CCMP_256_) || (type =? _GCMP_) || (type =? _GCMP_256_)).

Definition key_ctrl (c : key_cfg) (algorithm keyid : Z) (gk : bool) : Z :=
  let ctrl := Z.lor (Z.lor (BIT 15) (Z.shiftl (Z.land algorithm 0x07) 2)) keyid in
  let ctrl := if gk then Z.lor ctrl (BIT 6) else ctrl in
  let ctrl := if bit_test algorithm _SEC_TYPE_256_ then Z.lor ctrl (BIT 9) else ctrl in
  if amsdu_spp_enable c algorithm then Z.lor ctrl (BIT 7) else ctrl.

(** A pairwise and a group key of one transmitter have the same id: the
    hardware stops handling group frames. *)
Definition key_conflict (addr : bytes) (s : key_st) : res key_st :=
  clear_keys addr 1 (hcall HW_VAR_SEC_CFG (rtw_camctl_set_flags SEC_STATUS_STA_PK_GK_CONFLICT_DIS_BMC_SEARCH s)).

Definition inc_keytrack (i : nat) (p : sta_priv) : sta_priv :=
  upd_sta p i (fun e => mk_sta (mac_addr e) (sta_state e) (aid e) (sta_flags e) (ieee8021x_blocked e) (dot118021XPrivacy e)
    (dot11tkiprxmickey e) (dot118021x_UncstKey e) (sta_keytrack e + 1) (duplicate_cnt e) (RxMgmtFrameSeqNum e) (recvpriv e)
    (recvreorder_ctrl e) (stx e) (sps e)).

Definition set_stakey_hdl (c : key_cfg) (p : set_stakey_parm) (s : key_st) : res (Z * key_st) :=
  if st_algorithm p =? _NO_PRIVACY_ then s ← clear_keys (st_addr p) (-1) s; Ret (H2C_SUCCESS_RSP, s)
  else
    match rtw_get_stainfo (ktab s) (Some (st_addr p)) with
    | None => Ret (H2C_REJECTED, s)
    | Some i =>
        let s := set_enc_algo (st_algorithm p) s in
        let a := match stainfo_buf (ktab s) !! i with Some e => mac_addr e | None => [] end in
        let '(cam_id, used, s) := rtw_camid_alloc c (Some a) (st_keyid p) (Z.b2z (st_gk p)) (bit_test (st_algorithm p) _SEC_TYPE_256_) s in
        if cam_id <? 0 then Ret (H2C_SUCCESS, s)
        else
          s ← (if negb (st_gk p) && used && _rtw_camid_is_gk s cam_id then key_conflict (st_addr p) s else Ret s);
          s ← write_cam cam_id (key_ctrl c (st_algorithm p) (st_keyid p) (st_gk p)) (st_addr p) (st_key p) s;
          Ret (H2C_SUCCESS_RSP, if st_gk p then s else set_ktab (inc_keytrack i (ktab s)) s)
    end.

Definition is_wep_enc (alg : Z) : bool := (alg =? _WEP40_) || (alg =? _WEP104_).

(** The part after the entry is written. *)
Definition group_key_set (c : key_cfg) (p : setkey_parm) (cam_id : Z) (s : key_st) : res key_st :=
  let s := if group_tx_role c then
             if is_wep_enc (sk_algorithm p) then
               let l := <[Z.to_nat (sk_keyid p) := cam_id]> (dot11Def_camid s) in
               set_camids l (znth l (k_PrivacyKeyIndex c)) s
             else set_camids (dot11Def_camid s) cam_id s
           else s in
  if is_wep_enc (sk_algorithm p) && (Z.land (k_hwstate c) 3 =? FW_STATION_STATE) && _rtw_camctl_chk_cap s SEC_CAP_CHK_BMC then
    r ← set_stakey_hdl c (mk_stakey (k_bssid c) (sk_algorithm p) (sk_keyid p) (take 16 (sk_key p) ++ replicate 16 0) false) s;
    Ret (snd (r : Z * key_st))
  else Ret s.

Definition setkey_hdl (c : key_cfg) (p : setkey_parm) (s : key_st) : res (Z * key_st) :=
  let s := if sk_set_tx p then set_key_idx (sk_keyid p) s else s in
  let '(cam_id, used, s) :=
    if group_tx_role c then (iface_bmc (kmac s), false, s)
    else rtw_camid_alloc c None (sk_keyid p) 1 (bit_test (sk_algorithm p) _SEC_TYPE_256_) s in
  s ← (if cam_id <? 0 then Ret s
       else
         let addr := if group_tx_role c then own_addr c else k_bssid c in
         if used && negb (_rtw_camid_is_gk s cam_id) then key_conflict addr s
         else
           s ← write_cam cam_id (key_ctrl c (sk_algorithm p) (sk_keyid p) true) addr (sk_key p) s;
           group_key_set c p cam_id s);
  Ret (H2C_SUCCESS, hcall HW_VAR_ON_RCR_AM s).

(** [enqueue] not set: the keys are cleared at once; a queued command runs
    [set_stakey_hdl] later. *)
Definition rtw_clearstakey_cmd (addr : bytes) (s : key_st) : res key_st := clear_keys addr (-1) s.

(** ** Mac ids *)

Definition set_macctl (used bmc ifg ibmc : Z) (sta : list (option nat)) (s : key_st) : key_st :=
  set_kmac (mk_macctl (macid_num (kmac s)) used bmc ifg ibmc sta) s.

Definition rtw_iface_bcmc_id_set (v : Z) (s : key_st) : key_st :=
  let m := kmac s in set_macctl (macid_used m) (macid_bmc m) (if_g m) v (macid_sta m) s.

(** The mac id may be given to the entry. *)
Definition macid_free (s : key_st) (is_bc : bool) (i : Z) : bool :=
  negb (is_bc && _rtw_sec_camid_is_used s i) && negb (rtw_macid_is_set (macid_used (kmac s)) i).

Definition rtw_alloc_macid (c : key_cfg) (sta : nat) (a : bytes) (s : key_st) : key_st :=
  if bool_decide (a = own_addr c) then set_mac_id sta (macid_num (kmac s)) s
  else
    let is_bc := bool_decide (a = bc_addr) in
    let s := if is_bc then rtw_iface_bcmc_id_set INVALID_SEC_MAC_CAM_ID s else s in
    if is_bc && k_null c then set_mac_id sta RTW_DEFAULT_MGMT_MACID s
    else
      let i := first_id (macid_free s is_bc) (ids_from 0 (macid_num (kmac s))) in
      if i <? 0 then set_mac_id sta (macid_num (kmac s)) s
      else
        let m := kmac s in
        let bmc := if is_bc then rtw_macid_map_set (macid_bmc m) i else macid_bmc m in
        let ibmc := if is_bc then i else iface_bmc m in
        let used := rtw_sec_cam_map_set (cam_used (kcam s)) i in
        let used := if _rtw_camctl_chk_cap s SEC_CAP_CHK_EXTRA_SEC then rtw_sec_cam_map_set used (i + 1) else used in
        let s := if is_bc then set_used used s else s in
        set_mac_id sta i
          (set_macctl (rtw_macid_map_set (macid_used m) i) bmc (rtw_macid_map_set (if_g m) i) ibmc (<[Z.to_nat i := Some sta]> (macid_sta m)) s).

(** The marks of the key table that go with the group entry. *)
Definition release_bcmc (s : key_st) : key_st :=
  let id := iface_bmc (kmac s) in
  let s := if negb (id =? INVALID_SEC_MAC_CAM_ID) && (id <? cam_num (kcam s)) then
             let m := rtw_sec_cam_map_clr (cam_used (kcam s)) id in
             set_used (if _rtw_camctl_chk_cap s SEC_CAP_CHK_EXTRA_SEC then rtw_sec_cam_map_clr m (id + 1) else m) s
           else s in
  rtw_iface_bcmc_id_set INVALID_SEC_MAC_CAM_ID s.

Definition rtw_release_macid (c : key_cfg) (sta : nat) (a : bytes) (s : key_st) : key_st :=
  let id := znth (mac_id s) (Z.of_nat sta) in
  let num := macid_num (kmac s) in
  let s :=
    if bool_decide (a = own_addr c) || (num <=? id) || (id =? RTW_DEFAULT_MGMT_MACID)
       || negb (rtw_macid_is_set (macid_used (kmac s)) id) || negb (rtw_macid_is_set (if_g (kmac s)) id) then s
    else
      let s := if bool_decide (a = bc_addr) then release_bcmc s else s in
      let m := kmac s in
      set_macctl (rtw_macid_map_clr (macid_used m) id) (rtw_macid_map_clr (macid_bmc m) id) (rtw_macid_map_clr (if_g m) id)
        (iface_bmc m) (<[Z.to_nat id := None]> (macid_sta m)) s in
  set_mac_id sta num s.

(** After [rtw_macid_ctl_init] and the reset of the adapter, with [num] mac ids
    and [cams] key entries. *)
Definition key_init (num cams cap : Z) (p : sta_priv) : key_st :=
  mk_kst (mk_camctl cams cap 0 0) (replicate 32 cam_zero)
    (mk_macctl num (rtw_macid_map_set 0 RTW_DEFAULT_MGMT_MACID) (rtw_macid_map_set 0 RTW_DEFAULT_MGMT_MACID)
       (rtw_macid_map_set 0 RTW_DEFAULT_MGMT_MACID) 0 (replicate 32 None))
    p (replicate 32 0) 0 0 [0; 0; 0; 0] 0 [HW_VAR_CAM_INVALID_ALL].

(** ** Stations come and go *)

(** [rtw_alloc_stainfo] with the mac id of the new entry. *)
Definition alloc_sta (c : key_cfg) (a : bytes) (s : key_st) : key_st :=
  let '(p, o) := rtw_alloc_stainfo (ktab s) a in
  let s := set_ktab p s in
  match o with Some i => rtw_alloc_macid c i a s | None => s end.

(** [rtw_free_stainfo] of a linked entry with its mac id. *)
Definition free_sta (c : key_cfg) (i : nat) (s : key_st) : key_st :=
  let a := match stainfo_buf (ktab s) !! i with Some e => mac_addr e | None => [] end in
  rtw_release_macid c i a (set_ktab (rtw_free_stainfo (k_hwstate c =? FW_AP_STATE) (ktab s) (Some i)) s).
