(* ===== verification/KeyInv.v ===== *)
(** * What the key table of an access point holds

    The entries as the recorded accesses leave them, the invariant that relates the table to
    a map from stations and key ids to keys, and how a written or cleared entry
    changes the map. *)

From stdpp Require Import fin_maps fin_sets.
From S2P Require Import Prelude RxFrame Reorder SwCrypt StaMgt RxCheck Ie Ccmp MgmtProtect KeyTable.

(** ** Searching *)

(** The first id, or none. *)
Lemma first_id_spec f num :
  (first_id f (ids_from 0 num) = -1 /\ forall i, 0 <= i < num -> f i = false) \/
  (0 <= first_id f (ids_from 0 num) < num /\ f (first_id f (ids_from 0 num)) = true).
Proof.
  unfold first_id. destruct (List.find f (ids_from 0 num)) as [x|] eqn:E.
  - right. apply List.find_some in E as [Hin Hf]. unfold ids_from in Hin. apply in_map_iff in Hin as (k & <- & Hk). apply in_seq in Hk. cbn. split; [lia|done].
  - left. split; [done|]. intros i Hi. apply (List.find_none _ _ E). unfold ids_from. apply in_map_iff. exists (Z.to_nat i). split; [lia|]. apply in_seq. lia.
Qed.

(** ** Bitmaps *)

Lemma map_is_set_testbit m id : 0 <= id -> map_is_set m id = (id <? 32) && Z.testbit m id.
Proof.
  intros H. unfold map_is_set, bit_test. f_equal. unfold BIT. rewrite Z.shiftl_1_l.
  destruct (Z.testbit m id) eqn:E; [apply negb_true_iff, Z.eqb_neq|apply negb_false_iff, Z.eqb_eq].
  - intros N. assert (Z.testbit (Z.land m (2 ^ id)) id = false) as B by (by rewrite N, Z.bits_0). rewrite Z.land_spec, E, Z.pow2_bits_true in B by done. done.
  - apply Z.bits_inj'. intros n Hn. rewrite Z.land_spec, Z.bits_0, Z.pow2_bits_eqb by done. destruct (Z.eqb_spec id n) as [<-|]; [by rewrite E|apply andb_false_r].
Qed.

Lemma map_set_spec m id j : 0 <= id < 32 -> 0 <= j -> map_is_set (map_set m id) j = (j =? id) || map_is_set m j.
Proof.
  intros Hi Hj. rewrite !map_is_set_testbit by done. unfold map_set. destruct (Z.ltb_spec id 32); [|lia]. unfold BIT. rewrite Z.lor_spec, Z.shiftl_1_l, Z.pow2_bits_eqb by lia.
  rewrite (Z.eqb_sym id). destruct (Z.eqb_spec j id) as [->|]; [|by rewrite orb_false_r]. rewrite orb_true_r, orb_true_l. destruct (Z.ltb_spec id 32); [done|lia].
Qed.

Lemma map_clr_spec m id j : 0 <= id < 32 -> 0 <= j -> map_is_set (map_clr m id) j = negb (j =? id) && map_is_set m j.
Proof.
  intros Hi Hj. rewrite !map_is_set_testbit by done. unfold map_clr. destruct (Z.ltb_spec id 32); [|lia]. unfold BIT. rewrite Z.ldiff_spec, Z.shiftl_1_l, Z.pow2_bits_eqb by lia.
  rewrite (Z.eqb_sym id). destruct (j <? 32), (Z.testbit m j), (j =? id); done.
Qed.

(** ** What the hardware holds *)

(** By the accesses: the word last written to an address since all entries were
    invalidated, zero without one. *)
Definition hw_step (m : Z -> Z) (o : hal_call) : Z -> Z :=
  match o with
  | CAMWRITE a w => fun x => if x =? a then w else m x
  | HW_VAR_CAM_INVALID_ALL => fun _ => 0
  | _ => m
  end.

Definition hw_mem (l : list hal_call) : Z -> Z := foldl hw_step (fun _ => 0) l.

(** The entry [id] as [rtw_sec_read_cam_ent] copies it out of the words: control
    field, address, key. *)
Definition rtw_sec_read_cam_ent (m : Z -> Z) (id : Z) : sec_cam_ent :=
  let w j := le_split 4 (m (8 * id + j)) in
  mk_cam (znth (w 0) 0 + 256 * znth (w 0) 1) (drop 2 (w 0) ++ w 1) (w 2 ++ w 3 ++ w 4 ++ w 5).

Definition hw_entry (s : key_st) (id : Z) : sec_cam_ent := rtw_sec_read_cam_ent (hw_mem (hal s)) id.

Lemma cam_word4 a b c d : is_byte a -> is_byte b -> is_byte c -> is_byte d ->
  le_split 4 (Z.lor (Z.lor a (Z.shiftl b 8)) (Z.lor (Z.shiftl c 16) (Z.shiftl d 24))) = [a; b; c; d] /\
  is_u32 (Z.lor (Z.lor a (Z.shiftl b 8)) (Z.lor (Z.shiftl c 16) (Z.shiftl d 24))).
Proof.
  unfold is_byte. intros Ha Hb Hc Hd.
  assert (Z.lor (Z.lor a (Z.shiftl b 8)) (Z.lor (Z.shiftl c 16) (Z.shiftl d 24)) = a + 256 * b + 65536 * c + 16777216 * d) as ->.
  { rewrite (Z.lor_comm a), (Z.lor_comm (Z.shiftl c 16)). change 24 with (8 + 16). rewrite <- Z.shiftl_shiftl by lia. rewrite <- Z.shiftl_lor.
    rewrite (Z.lor_comm (Z.lor _ a)). rewrite lor_shiftl_add; rewrite ?lor_shiftl_add by lia; lia. }
  split; [|unfold is_u32; lia]. cbn [le_split]. change 255 with (Z.ones 8). rewrite !Z.land_ones, !Z.shiftr_div_pow2 by lia. change (2 ^ 8) with 256.
  assert (forall x y, 0 <= x < 256 -> (x + 256 * y) mod 256 = x /\ (x + 256 * y) / 256 = y) as D by (intros x y Hx; split; Z.div_mod_to_equations; lia).
  replace (a + 256 * b + 65536 * c + 16777216 * d) with (a + 256 * (b + 256 * (c + 256 * (d + 256 * 0)))) by lia.
  destruct (D a (b + 256 * (c + 256 * (d + 256 * 0))) Ha) as [-> ->]. destruct (D b (c + 256 * (d + 256 * 0)) Hb) as [-> ->].
  destruct (D c (d + 256 * 0) Hc) as [-> ->]. by destruct (D d 0 Hd) as [-> _].
Qed.

Lemma hw_write l a w x : hw_mem (l ++ [CAMWRITE a w]) x = if x =? a then w else hw_mem l x.
Proof. unfold hw_mem. by rewrite foldl_app. Qed.

Lemma cam_addr_byte id j : 0 <= id < 32 -> 0 <= j < 8 -> u8 (Z.shiftl id 3 + j) = 8 * id + j.
Proof. intros Hi Hj. rewrite Z.shiftl_mul_pow2 by lia. change (2 ^ 3) with 8. unfold u8. rewrite Z.mod_small; lia. Qed.

Lemma hal_write a w s : hal (rtw_sec_write_cam a w s) = hal s ++ [CAMWRITE a (u32 w)].
Proof. done. Qed.

(** The words after an entry is written. *)
Lemma write_ent_mem id ctrl mac key s x : 0 <= id < 32 ->
  hw_mem (hal (rtw_sec_write_cam_ent id ctrl mac key s)) x =
    if (8 * id <=? x) && (x <? 8 * id + 8) then u32 (cam_word ctrl mac key (x - 8 * id)) else hw_mem (hal s) x.
Proof.
  intros Hi. unfold rtw_sec_write_cam_ent. cbn [foldl]. rewrite !hal_write, !hw_write, !cam_addr_byte by lia.
  assert (forall k j, (8 * id + k =? 8 * id + j) = (k =? j)) as E by (intros k j; destruct (Z.eqb_spec k j), (Z.eqb_spec (8 * id + k) (8 * id + j)); lia).
  destruct (Z.leb_spec (8 * id) x) as [L|L], (Z.ltb_spec x (8 * id + 8)) as [U|U]; cbn [andb].
  - replace (x - 8 * id) with (x + - (8 * id)) by lia. remember (x + - (8 * id)) as k eqn:Ek. assert (x = 8 * id + k) as -> by lia. clear Ek. rewrite !E.
    assert (k = 0 \/ k = 1 \/ k = 2 \/ k = 3 \/ k = 4 \/ k = 5 \/ k = 6 \/ k = 7) as K by lia.
    destruct K as [->|[->|[->|[->|[->|[->|[->| ->]]]]]]]; reflexivity.
  - do 8 (match goal with |- context [x =? ?y] => destruct (Z.eqb_spec x y); [lia|] end). done.
  - do 8 (match goal with |- context [x =? ?y] => destruct (Z.eqb_spec x y); [lia|] end). done.
  - lia.
Qed.

Record ent_ok (e : sec_cam_ent) : Prop := {
  eo_ctrl : is_u16 (cam_ctrl e);
  eo_mac : length (cam_mac e) = 6%nat;
  eo_mac_bytes : bytes_ok (cam_mac e);
  eo_key : length (cam_key e) = 16%nat;
  eo_key_bytes : bytes_ok (cam_key e)
}.

Lemma split_ctrl c : is_u16 c -> exists x y, is_byte x /\ is_byte y /\ c = Z.lor x (Z.shiftl y 8) /\ c = x + 256 * y.
Proof.
  unfold is_u16, is_byte. intros H. exists (c mod 256), (c / 256). split_and!; try (Z.div_mod_to_equations; lia).
  rewrite Z.lor_comm, lor_shiftl_add by (Z.div_mod_to_equations; lia). Z.div_mod_to_equations. lia.
Qed.

Lemma cam_word_bytes w a b c d :
  w = Z.lor (Z.lor a (Z.shiftl b 8)) (Z.lor (Z.shiftl c 16) (Z.shiftl d 24)) -> is_byte a -> is_byte b -> is_byte c -> is_byte d ->
  le_split 4 (u32 w) = [a; b; c; d].
Proof.
  intros -> Ha Hb Hc Hd. destruct (cam_word4 a b c d Ha Hb Hc Hd) as [E [L U]]. unfold u32. by rewrite Z.mod_small.
Qed.

Lemma byte_at (l : bytes) i : bytes_ok l -> is_byte (znth l i).
Proof.
  intros H. unfold znth. destruct (nth_in_or_default (Z.to_nat i) l 0) as [Hin| ->]; [|by unfold is_byte].
  rewrite Forall_forall in H. apply H. by apply list_elem_of_In.
Qed.

(** Reading an entry gives what was written to it. *)
Lemma hw_entry_written id ctrl mac key s j :
  0 <= id < 32 -> 0 <= j < 32 -> ent_ok (mk_cam ctrl mac (take 16 key)) ->
  hw_entry (rtw_sec_write_cam_ent id ctrl mac key s) j = if j =? id then mk_cam ctrl mac (take 16 key) else hw_entry s j.
Proof.
  intros Hi Hj [Hc Hm Bm Hk Bk]. unfold hw_entry, rtw_sec_read_cam_ent. rewrite !write_ent_mem by done.
  destruct (Z.eqb_spec j id) as [->|N].
  - assert (forall k, 0 <= k < 8 -> (8 * id <=? 8 * id + k) && (8 * id + k <? 8 * id + 8) = true) as R.
    { intros k Hk'. destruct (Z.leb_spec (8 * id) (8 * id + k)), (Z.ltb_spec (8 * id + k) (8 * id + 8)); auto with lia. }
    rewrite !R by lia. cbn [cam_ctrl cam_mac cam_key] in *.
    assert (forall k, 8 * id + k - 8 * id = k) as Q by lia. rewrite !Q.
    destruct (split_ctrl _ Hc) as (x & y & Hx & Hy & Ec & Ec').
    rewrite (cam_word_bytes (cam_word ctrl mac key 0) x y (znth mac 0) (znth mac 1)); try done; try by apply byte_at.
    2:{ unfold cam_word. change (0 =? 0) with true. cbn iota. by rewrite Ec, Z.lor_assoc. }
    rewrite (cam_word_bytes (cam_word ctrl mac key 1) (znth mac 2) (znth mac 3) (znth mac 4) (znth mac 5)); try done; try by apply byte_at.
    assert (forall i, 0 <= i < 16 -> is_byte (znth key i)) as Kb.
    { intros i Hi'. replace (znth key i) with (znth (take 16 key) i); [by apply byte_at|]. unfold znth. rewrite <- (take_drop 16 key) at 2.
      rewrite app_nth1; [done|lia]. }
    assert (forall k, 2 <= k < 6 -> le_split 4 (u32 (cam_word ctrl mac key k)) = [znth key (4 * (k - 2) + 0); znth key (4 * (k - 2) + 1); znth key (4 * (k - 2) + 2); znth key (4 * (k - 2) + 3)]) as Kw.
    { intros k Hk'. apply cam_word_bytes; try (apply Kb; lia). unfold cam_word. destruct (Z.eqb_spec k 0), (Z.eqb_spec k 1), (Z.leb_spec 6 k); [lia..|done]. }
    rewrite !Kw by lia. f_equal.
    + symmetry. exact Ec'.
    + destruct mac as [|a0 [|a1 [|a2 [|a3 [|a4 [|a5 [|]]]]]]]; try done.
    + do 16 (destruct key as [|? key]; [done|]). cbn [take]. reflexivity.
  - assert (forall k, 0 <= k < 8 -> (8 * id <=? 8 * j + k) && (8 * j + k <? 8 * id + 8) = false) as R.
    { intros k Hk'. destruct (Z.leb_spec (8 * id) (8 * j + k)), (Z.ltb_spec (8 * j + k) (8 * id + 8)); auto with lia. }
    by rewrite !R by lia.
Qed.

(** ** The table as a map *)

Definition client (c : key_cfg) (a : bytes) : Prop :=
  IS_MCAST a = false /\ a <> own_addr c /\ a <> null_addr /\ length a = 6%nat /\ bytes_ok a.

(** The stations, the control field and key of each station and key id, and
    those of the group. *)
Record key_spec := mk_ks {
  known : gset bytes;
  pair_keys : gmap (bytes * Z) (Z * bytes);
  group_key_of : option (Z * bytes)
}.

Definition cam_of (v : Z * bytes) (a : bytes) : sec_cam_ent := mk_cam (fst v) a (snd v).
Definition kid_of (v : Z * bytes) : Z := Z.land (fst v) 3.

(** [id] is one of the entries for stations; [b] is the one of the group. *)
Definition sta_id (s : key_st) (b id : Z) : Prop := 0 <= id < cam_num (kcam s) /\ id <> b.

(** The key table [s] stands for [sp]. *)
Record cam_holds (c : key_cfg) (b : Z) (sp : key_spec) (s : key_st) : Prop := {
  ho_cap : sec_cap (kcam s) = 0;
  ho_num : 0 <= b < cam_num (kcam s) /\ cam_num (kcam s) <= 32;
  ho_len : length (cam_cache s) = 32%nat;
  ho_bmc : iface_bmc (kmac s) = b;
  ho_used : _rtw_sec_camid_is_used s b = true;
  ho_group : cache_at s b = match group_key_of sp with Some v => cam_of v (own_addr c) | None => cam_zero end;
  ho_ent : forall id, sta_id s b id ->
    (cache_at s id = cam_zero /\ _rtw_sec_camid_is_used s id = false) \/
    (exists a v, cache_at s id = cam_of v a /\ client c a /\ _rtw_sec_camid_is_used s id = true /\ pair_keys sp !! (a, kid_of v) = Some v);
  ho_pair : forall a kid v, pair_keys sp !! (a, kid) = Some v ->
    exists id, sta_id s b id /\ cache_at s id = cam_of v a /\ kid_of v = kid /\ client c a;
  ho_uniq : forall id id' a v v', sta_id s b id -> sta_id s b id' -> cache_at s id = cam_of v a -> cache_at s id' = cam_of v' a ->
    client c a -> kid_of v = kid_of v' -> id = id';
  ho_hw : forall id, 0 <= id < 32 -> hw_entry s id = cache_at s id
}.

Lemma not_client_group c v a : client c a -> cam_mac match v with Some v => cam_of v (own_addr c) | None => cam_zero end <> a.
Proof. intros (_ & N1 & N2 & _) <-. by destruct v. Qed.

(** *** Searching *)

Lemma search_chk s id a kid : cam_cache_chk s id (Some a) kid (-1) = true <->
  cam_mac (cache_at s id) = a /\ (kid < 0 \/ kid = Z.land (cam_ctrl (cache_at s id)) 3).
Proof.
  unfold cam_cache_chk. change (negb (negb (-1 =? -1) && negb (Bool.eqb (negb (-1 =? 0)) (_rtw_camid_is_gk s id)))) with true.
  destruct (decide (cam_mac (cache_at s id) = a)) as [E|E].
  - rewrite bool_decide_eq_true_2 by done. cbn [negb]. destruct (Z.leb_spec 0 kid), (Z.eqb_spec kid (Z.land (cam_ctrl (cache_at s id)) 3)); cbn [andb negb];
      (split; [intros; split; try done; auto with lia | intros [_ [?|?]]; try done; lia]).
  - rewrite bool_decide_eq_false_2 by done. cbn [negb]. split; [done|by intros [? _]].
Qed.

Lemma holds_search c b sp s a kid : cam_holds c b sp s -> client c a ->
  let id := rtw_camid_search s (Some a) kid (-1) in
  (id = -1 /\ forall kid', kid < 0 \/ kid = kid' -> pair_keys sp !! (a, kid') = None) \/
  (sta_id s b id /\ exists v, (kid < 0 \/ kid = kid_of v) /\ cache_at s id = cam_of v a /\ pair_keys sp !! (a, kid_of v) = Some v).
Proof.
  intros H Ca. cbn zeta. unfold rtw_camid_search. destruct (first_id_spec (fun i => cam_cache_chk s i (Some a) kid (-1)) (cam_num (kcam s))) as [[-> N]|[R F]].
  - left. split; [done|]. intros kid' Hk. destruct (pair_keys sp !! (a, kid')) as [v|] eqn:E; [|done]. exfalso.
    destruct (ho_pair _ _ _ _ H _ _ _ E) as (id & [Hid _] & Ec & Ek & _). specialize (N id Hid).
    assert (cam_cache_chk s id (Some a) kid (-1) = true); [|congruence]. apply search_chk. rewrite Ec. split; [done|]. cbn. unfold kid_of in Ek. rewrite Ek. done.
  - right. set (id := first_id _ _) in *. apply search_chk in F as [Fm Fk].
    assert (id <> b) as Nb by (intros E; rewrite E, (ho_group _ _ _ _ H) in Fm; by apply (not_client_group c (group_key_of sp) a Ca)).
    split; [done|]. destruct (ho_ent _ _ _ _ H id (conj R Nb)) as [[Ez _]|(a' & v & Ec & _ & _ & Ep)].
    + rewrite Ez in Fm. destruct Ca as (_ & _ & N & _). by destruct N.
    + rewrite Ec in Fm, Fk. cbn in Fm, Fk. subst a'. by exists v.
Qed.

(** *** Changing an entry *)

(** Entry [id] is [e] now, and used or not. *)
Record wrote (id : Z) (e : sec_cam_ent) (on : bool) (s s' : key_st) : Prop := {
  wr_cap : sec_cap (kcam s') = sec_cap (kcam s);
  wr_num : cam_num (kcam s') = cam_num (kcam s);
  wr_len : length (cam_cache s') = length (cam_cache s);
  wr_bmc : iface_bmc (kmac s') = iface_bmc (kmac s);
  wr_used : forall j, 0 <= j < cam_num (kcam s) -> _rtw_sec_camid_is_used s' j = if j =? id then on else _rtw_sec_camid_is_used s j;
  wr_cache : forall j, 0 <= j < 32 -> cache_at s' j = if j =? id then e else cache_at s j;
  wr_hw : forall j, 0 <= j < 32 -> hw_entry s' j = if j =? id then e else hw_entry s j
}.

Lemma holds_group c b sp s s' v :
  cam_holds c b sp s -> wrote b (cam_of v (own_addr c)) true s s' -> cam_holds c b (mk_ks (known sp) (pair_keys sp) (Some v)) s'.
Proof.
  intros H W. pose proof (ho_num _ _ _ _ H) as [Hb Hn].
  assert (forall id, sta_id s' b id <-> sta_id s b id) as Si by (intros id; unfold sta_id; by rewrite (wr_num _ _ _ _ _ W)).
  assert (forall id, sta_id s b id -> cache_at s' id = cache_at s id /\ _rtw_sec_camid_is_used s' id = _rtw_sec_camid_is_used s id) as Same.
  { intros id [Hi Nb]. rewrite (wr_cache _ _ _ _ _ W), (wr_used _ _ _ _ _ W) by lia. destruct (Z.eqb_spec id b); done. }
  split; cbn [known pair_keys group_key_of].
  - by rewrite (wr_cap _ _ _ _ _ W), (ho_cap _ _ _ _ H).
  - by rewrite (wr_num _ _ _ _ _ W).
  - by rewrite (wr_len _ _ _ _ _ W), (ho_len _ _ _ _ H).
  - by rewrite (wr_bmc _ _ _ _ _ W), (ho_bmc _ _ _ _ H).
  - by rewrite (wr_used _ _ _ _ _ W), Z.eqb_refl.
  - rewrite (wr_cache _ _ _ _ _ W), Z.eqb_refl by lia. done.
  - intros id Hi%Si. destruct (Same id Hi) as [-> ->]. by apply H.
  - intros a kid v' E. destruct (ho_pair _ _ _ _ H _ _ _ E) as (id & Hi & Ec & Ek & Ca). exists id. rewrite Si. destruct (Same id Hi) as [-> _]. done.
  - intros id id' a v1 v2 Hi%Si Hi'%Si. destruct (Same id Hi) as [-> _], (Same id' Hi') as [-> _]. by apply H.
  - intros id Hi. rewrite (wr_hw _ _ _ _ _ W), (wr_cache _ _ _ _ _ W) by done. by rewrite (ho_hw _ _ _ _ H).
Qed.

Lemma cam_of_inj v v' a a' : cam_of v a = cam_of v' a' -> v = v' /\ a = a'.
Proof. destruct v, v'. unfold cam_of. cbn. by intros [= -> -> ->]. Qed.

(** Where the table is not [(a, kid)], nothing changes. *)
Lemma holds_put c b sp s s' id a v :
  cam_holds c b sp s -> sta_id s b id -> client c a -> wrote id (cam_of v a) true s s' ->
  (_rtw_sec_camid_is_used s id = false /\ pair_keys sp !! (a, kid_of v) = None \/ exists v0, cache_at s id = cam_of v0 a /\ kid_of v0 = kid_of v) ->
  cam_holds c b (mk_ks (known sp) (<[(a, kid_of v) := v]> (pair_keys sp)) (group_key_of sp)) s'.
Proof.
  intros H Hid Ca W Or. pose proof (ho_num _ _ _ _ H) as [Hb Hn]. pose proof Hid as [Hir Hnb].
  assert (forall j, sta_id s' b j <-> sta_id s b j) as Si by (intros j; unfold sta_id; by rewrite (wr_num _ _ _ _ _ W)).
  assert (forall j, sta_id s b j -> j <> id -> cache_at s' j = cache_at s j /\ _rtw_sec_camid_is_used s' j = _rtw_sec_camid_is_used s j) as Same.
  { intros j [Hj _] Nj. rewrite (wr_cache _ _ _ _ _ W), (wr_used _ _ _ _ _ W) by lia. destruct (Z.eqb_spec j id); done. }
  assert (cache_at s' id = cam_of v a) as New by (rewrite (wr_cache _ _ _ _ _ W), Z.eqb_refl by lia; done).
  assert (forall j v', sta_id s b j -> j <> id -> cache_at s j = cam_of v' a -> kid_of v' <> kid_of v) as Other.
  { intros j v' Hj Nj Ej Ek. destruct Or as [[U N]|(v0 & E0 & K0)].
    - destruct (ho_ent _ _ _ _ H j Hj) as [[Ez _]|(a' & v1 & Ec & _ & _ & Ep)].
      + rewrite Ez in Ej. destruct Ca as (_ & _ & Nn & _). apply Nn. unfold cam_of, cam_zero in Ej. by injection Ej.
      + rewrite Ec in Ej. apply cam_of_inj in Ej as [-> ->]. by rewrite Ek, N in Ep.
    - apply Nj. apply (ho_uniq _ _ _ _ H j id a v' v0); try done. congruence. }
  split; cbn [known pair_keys group_key_of].
  - by rewrite (wr_cap _ _ _ _ _ W), (ho_cap _ _ _ _ H).
  - by rewrite (wr_num _ _ _ _ _ W).
  - by rewrite (wr_len _ _ _ _ _ W), (ho_len _ _ _ _ H).
  - by rewrite (wr_bmc _ _ _ _ _ W), (ho_bmc _ _ _ _ H).
  - rewrite (wr_used _ _ _ _ _ W) by done. destruct (Z.eqb_spec b id); [done|apply H].
  - rewrite (wr_cache _ _ _ _ _ W) by lia. destruct (Z.eqb_spec b id); [done|apply H].
  - intros j Hj%Si. destruct (decide (j = id)) as [->|Nj].
    + right. exists a, v. rewrite New, lookup_insert_eq. split_and!; try done. rewrite (wr_used _ _ _ _ _ W), Z.eqb_refl by done. done.
    + destruct (Same j Hj Nj) as [-> ->]. destruct (ho_ent _ _ _ _ H j Hj) as [?|(a' & v1 & Ec & Ca' & U & Ep)]; [by left|right].
      exists a', v1. split_and!; try done. rewrite lookup_insert_ne; [done|]. intros [= <- Ek]. by apply (Other j v1 Hj Nj Ec).
  - intros a' kid v' E. apply lookup_insert_Some in E as [[[= <- <-] <-]|[Ne E]].
    + exists id. by rewrite Si.
    + destruct (ho_pair _ _ _ _ H _ _ _ E) as (j & Hj & Ec & Ek & Ca'). exists j. rewrite Si.
      assert (j <> id) as Nj.
      { intros ->. destruct Or as [[U _]|(v0 & E0 & K0)].
        - destruct (ho_ent _ _ _ _ H id Hj) as [[Ez _]|(? & ? & _ & _ & U' & _)]; [|congruence].
          rewrite Ez in Ec. destruct Ca' as (_ & _ & Nn & _). apply Nn. unfold cam_of, cam_zero in Ec. by injection Ec.
        - rewrite Ec in E0. apply cam_of_inj in E0 as [-> ->]. apply Ne. congruence. }
      destruct (Same j Hj Nj) as [-> _]. done.
  - intros j j' a' v1 v2 Hj%Si Hj'%Si E1 E2 Ca' Ek. destruct (decide (j = id)) as [->|Nj], (decide (j' = id)) as [->|Nj']; [done| | |].
    + rewrite New in E1. apply cam_of_inj in E1 as [<- <-]. destruct (Same j' Hj' Nj') as [S _]. rewrite S in E2. by destruct (Other j' v2 Hj' Nj' E2).
    + rewrite New in E2. apply cam_of_inj in E2 as [<- <-]. destruct (Same j Hj Nj) as [S _]. rewrite S in E1. by destruct (Other j v1 Hj Nj E1).
    + destruct (Same j Hj Nj) as [S1 _], (Same j' Hj' Nj') as [S2 _]. rewrite S1 in E1. rewrite S2 in E2. by apply (ho_uniq _ _ _ _ H j j' a' v1 v2).
  - intros j Hj. rewrite (wr_hw _ _ _ _ _ W), (wr_cache _ _ _ _ _ W) by done. by rewrite (ho_hw _ _ _ _ H).
Qed.

Lemma holds_clear c b sp s s' id a v :
  cam_holds c b sp s -> sta_id s b id -> client c a -> cache_at s id = cam_of v a -> wrote id cam_zero false s s' ->
  cam_holds c b (mk_ks (known sp) (delete (a, kid_of v) (pair_keys sp)) (group_key_of sp)) s'.
Proof.
  intros H Hid Ca Ec W. pose proof (ho_num _ _ _ _ H) as [Hb Hn]. pose proof Hid as [Hir Hnb].
  assert (forall j, sta_id s' b j <-> sta_id s b j) as Si by (intros j; unfold sta_id; by rewrite (wr_num _ _ _ _ _ W)).
  assert (forall j, sta_id s b j -> j <> id -> cache_at s' j = cache_at s j /\ _rtw_sec_camid_is_used s' j = _rtw_sec_camid_is_used s j) as Same.
  { intros j [Hj _] Nj. rewrite (wr_cache _ _ _ _ _ W), (wr_used _ _ _ _ _ W) by lia. destruct (Z.eqb_spec j id); done. }
  assert (cache_at s' id = cam_zero) as New by (rewrite (wr_cache _ _ _ _ _ W), Z.eqb_refl by lia; done).
  split; cbn [known pair_keys group_key_of].
  - by rewrite (wr_cap _ _ _ _ _ W), (ho_cap _ _ _ _ H).
  - by rewrite (wr_num _ _ _ _ _ W).
  - by rewrite (wr_len _ _ _ _ _ W), (ho_len _ _ _ _ H).
  - by rewrite (wr_bmc _ _ _ _ _ W), (ho_bmc _ _ _ _ H).
  - rewrite (wr_used _ _ _ _ _ W) by done. destruct (Z.eqb_spec b id); [done|apply H].
  - rewrite (wr_cache _ _ _ _ _ W) by lia. destruct (Z.eqb_spec b id); [done|apply H].
  - intros j Hj%Si. destruct (decide (j = id)) as [->|Nj].
    + left. split; [done|]. rewrite (wr_used _ _ _ _ _ W), Z.eqb_refl by done. done.
    + destruct (Same j Hj Nj) as [-> ->]. destruct (ho_ent _ _ _ _ H j Hj) as [?|(a' & v1 & E1 & Ca' & U & Ep)]; [by left|right].
      exists a', v1. split_and!; try done. rewrite lookup_delete_ne; [done|]. intros [= <- Ek]. apply Nj. by apply (ho_uniq _ _ _ _ H j id a v1 v).
  - intros a' kid v' E. apply lookup_delete_Some in E as [Ne E]. destruct (ho_pair _ _ _ _ H _ _ _ E) as (j & Hj & E1 & Ek & Ca'). exists j. rewrite Si.
    assert (j <> id) as Nj by (intros ->; rewrite Ec in E1; apply cam_of_inj in E1 as [-> ->]; by rewrite Ek in Ne).
    destruct (Same j Hj Nj) as [-> _]. done.
  - intros j j' a' v1 v2 Hj%Si Hj'%Si E1 E2 Ca' Ek.
    assert (forall k w, sta_id s b k -> cache_at s' k = cam_of w a' -> k <> id) as Ni.
    { intros k w _ Ew ->. rewrite New in Ew. destruct Ca' as (_ & _ & Nn & _). apply Nn. unfold cam_of, cam_zero in Ew. by injection Ew. }
    destruct (Same j Hj (Ni _ _ Hj E1)) as [S1 _], (Same j' Hj' (Ni _ _ Hj' E2)) as [S2 _]. rewrite S1 in E1. rewrite S2 in E2. by apply (ho_uniq _ _ _ _ H j j' a' v1 v2).
  - intros j Hj. rewrite (wr_hw _ _ _ _ _ W), (wr_cache _ _ _ _ _ W) by done. by rewrite (ho_hw _ _ _ _ H).
Qed.
