(* ===== verification/KeyMap.v ===== *)
(** * The key table of an access point as a map

    What the operations do to the entries, the counting of free entries, and
    the refinement: along any run, the entries the hardware holds are the ones of
    a map from stations and key ids to keys. *)

From stdpp Require Import fin_maps fin_sets.
From S2P Require Import Prelude RxFrame Reorder SwCrypt StaMgt RxCheck Ie Ccmp MgmtProtect KeyTable KeyInv.

(** ** Writing and clearing an entry *)

(** Everything but the cache and the hardware is kept. *)
Definition beside (s s' : key_st) : Prop :=
  kcam s' = kcam s /\ kmac s' = kmac s /\ ktab s' = ktab s /\ length (cam_cache s') = length (cam_cache s).

Lemma write_ent_same id ctrl mac key s :
  beside s (rtw_sec_write_cam_ent id ctrl mac key s) /\ cam_cache (rtw_sec_write_cam_ent id ctrl mac key s) = cam_cache s.
Proof.
  unfold rtw_sec_write_cam_ent. generalize [7; 6; 5; 4; 3; 2; 1; 0]. intros l. revert s.
  induction l as [|j l IH]; intros s; [done|]. cbn [foldl]. unfold beside. destruct (IH (rtw_sec_write_cam (u8 (Z.shiftl id 3 + j)) (cam_word ctrl mac key j) s)) as [(-> & -> & -> & ->) ->]. done.
Qed.

Lemma cache_insert s s' id e j :
  length (cam_cache s) = 32%nat -> 0 <= id < 32 -> 0 <= j < 32 -> cam_cache s' = <[Z.to_nat id := e]> (cam_cache s) ->
  cache_at s' j = if j =? id then e else cache_at s j.
Proof.
  intros L Hi Hj E. unfold cache_at. rewrite E. destruct (Z.eqb_spec j id) as [->|N].
  - rewrite list_lookup_insert_eq by lia. done.
  - rewrite list_lookup_insert_ne by lia. done.
Qed.

Lemma hw_set_cache x s j : hw_entry (set_cache x s) j = hw_entry s j.
Proof. reflexivity. Qed.

(** The cache takes what the hardware took. *)
Lemma cache_entry id ctrl mac key e s s0 :
  length (cam_cache s) = 32%nat -> 0 <= id < 32 -> mk_cam ctrl mac (take 16 key) = e ->
  beside s s0 -> cam_cache s0 = cam_cache s -> (forall j, 0 <= j < 32 -> hw_entry s0 j = if j =? id then e else hw_entry s j) ->
  exists s', write_cam_cache id ctrl mac key s0 = Ret s' /\ beside s s' /\
    (forall j, 0 <= j < 32 -> cache_at s' j = if j =? id then e else cache_at s j) /\
    (forall j, 0 <= j < 32 -> hw_entry s' j = if j =? id then e else hw_entry s j).
Proof.
  intros L Hi <- (K1 & K2 & K3 & K4) Kc Hw.
  unfold write_cam_cache, SEC_CAM_ENT_NUM_SW_LIMIT. destruct (Z.leb_spec 0 id), (Z.ltb_spec id 32); try lia. cbn [andb].
  eexists. split; [done|]. split; [|split].
  - unfold beside. cbn. rewrite length_insert. done.
  - intros j Hj. apply (cache_insert s); try done. cbn. by rewrite Kc.
  - intros j Hj. rewrite hw_set_cache. by apply Hw.
Qed.

(** Writing [mac] and [key] with [ctrl] into [id] of the hardware and the cache. *)
Lemma write_entry id ctrl mac key key' s :
  length (cam_cache s) = 32%nat -> 0 <= id < 32 -> ent_ok (mk_cam ctrl mac (take 16 key)) ->
  take 16 key' = take 16 key ->
  exists s', write_cam_cache id ctrl mac key' (rtw_sec_write_cam_ent id ctrl mac key s) = Ret s' /\ beside s s' /\
    (forall j, 0 <= j < 32 -> cache_at s' j = if j =? id then mk_cam ctrl mac (take 16 key) else cache_at s j) /\
    (forall j, 0 <= j < 32 -> hw_entry s' j = if j =? id then mk_cam ctrl mac (take 16 key) else hw_entry s j).
Proof.
  intros L Hi He Ek. destruct (write_ent_same id ctrl mac key s) as [K Kc].
  apply cache_entry; [exact L | exact Hi | by rewrite Ek | exact K | exact Kc |].
  intros j Hj. by apply hw_entry_written.
Qed.

Lemma write_cam_entry id ctrl mac key s :
  length (cam_cache s) = 32%nat -> 0 <= id < 32 -> ent_ok (mk_cam ctrl mac (take 16 key)) -> bit_test ctrl (BIT 9) = false ->
  exists s', write_cam id ctrl mac key s = Ret s' /\ beside s s' /\
    (forall j, 0 <= j < 32 -> cache_at s' j = if j =? id then mk_cam ctrl mac (take 16 key) else cache_at s j) /\
    (forall j, 0 <= j < 32 -> hw_entry s' j = if j =? id then mk_cam ctrl mac (take 16 key) else hw_entry s j).
Proof. intros L Hi He B. unfold write_cam. rewrite B. exact (write_entry id ctrl mac key key s L Hi He eq_refl). Qed.

Lemma clear_cam_entry_ok id s :
  length (cam_cache s) = 32%nat -> 0 <= id < 32 ->
  exists s', clear_cam_entry id s = Ret s' /\ beside s s' /\
    (forall j, 0 <= j < 32 -> cache_at s' j = if j =? id then cam_zero else cache_at s j) /\
    (forall j, 0 <= j < 32 -> hw_entry s' j = if j =? id then cam_zero else hw_entry s j).
Proof.
  intros L Hi. apply (write_entry id 0 null_addr (replicate 32 0) (replicate 16 0) s L Hi); [|reflexivity].
  split; try done; repeat constructor; by unfold is_u16, is_byte.
Qed.

(** *** The marks *)

Lemma used_set s m id : 0 <= id < cam_num (kcam s) -> cam_num (kcam s) <= 32 -> m = map_set (cam_used (kcam s)) id ->
  forall j, 0 <= j < cam_num (kcam s) -> _rtw_sec_camid_is_used (set_used m s) j = (j =? id) || _rtw_sec_camid_is_used s j.
Proof.
  intros Hi Hn -> j Hj. unfold _rtw_sec_camid_is_used. cbn. destruct (Z.leb_spec (cam_num (kcam s)) j); [lia|].
  apply map_set_spec; lia.
Qed.

Lemma used_clr s m id : 0 <= id < cam_num (kcam s) -> cam_num (kcam s) <= 32 -> m = map_clr (cam_used (kcam s)) id ->
  forall j, 0 <= j < cam_num (kcam s) -> _rtw_sec_camid_is_used (set_used m s) j = negb (j =? id) && _rtw_sec_camid_is_used s j.
Proof.
  intros Hi Hn -> j Hj. unfold _rtw_sec_camid_is_used. cbn. destruct (Z.leb_spec (cam_num (kcam s)) j); [lia|].
  apply map_clr_spec; lia.
Qed.

(** Marking an entry and writing it. *)
Lemma put_wrote id ctrl mac key s :
  length (cam_cache s) = 32%nat -> 0 <= id < cam_num (kcam s) -> cam_num (kcam s) <= 32 ->
  ent_ok (mk_cam ctrl mac (take 16 key)) -> bit_test ctrl (BIT 9) = false ->
  exists s', write_cam id ctrl mac key (set_used (map_set (cam_used (kcam s)) id) s) = Ret s' /\
    wrote id (mk_cam ctrl mac (take 16 key)) true s s' /\ ktab s' = ktab s.
Proof.
  intros L Hi Hn He B. set (s1 := set_used _ s).
  destruct (write_cam_entry id ctrl mac key s1) as (s' & E & (K1 & K2 & K3 & K4) & Hc & Hh); try done; [lia|].
  exists s'. split; [done|]. split; [|by rewrite K3]. split; rewrite ?K1, ?K2, ?K4; try done.
  intros j Hj. unfold _rtw_sec_camid_is_used at 1. rewrite K1. change (_rtw_sec_camid_is_used s1 j = if j =? id then true else _rtw_sec_camid_is_used s j).
  unfold s1. rewrite (used_set s _ id Hi Hn eq_refl j Hj). by destruct (j =? id).
Qed.

(** One round of the clearing loop. *)
Lemma clear_wrote id s :
  length (cam_cache s) = 32%nat -> 0 <= id < cam_num (kcam s) -> cam_num (kcam s) <= 32 ->
  exists s1, clear_cam_entry id s = Ret s1 /\ wrote id cam_zero false s (rtw_camid_free id s1) /\ ktab (rtw_camid_free id s1) = ktab s.
Proof.
  intros L Hi Hn. destruct (clear_cam_entry_ok id s) as (s1 & E & (K1 & K2 & K3 & K4) & Hc & Hh); try done; [lia|].
  exists s1. split; [done|]. unfold rtw_camid_free. rewrite K1. destruct (Z.ltb_spec id (cam_num (kcam s))); [|lia].
  split; [|by cbn]. split; try (cbn; rewrite ?K1, ?K2, ?K4; done).
  intros j Hj. rewrite (used_clr s1 _ id) by (rewrite ?K1; done || lia).
  unfold _rtw_sec_camid_is_used at 1. rewrite K1. fold (_rtw_sec_camid_is_used s j). by destruct (j =? id).
Qed.

(** *** The control field *)

Lemma key_ctrl_facts c alg kid gk : 0 <= kid < 4 -> bit_test alg _SEC_TYPE_256_ = false ->
  is_u16 (key_ctrl c alg kid gk) /\ bit_test (key_ctrl c alg kid gk) (BIT 9) = false /\
  Z.land (key_ctrl c alg kid gk) 3 = kid /\ bit_test (key_ctrl c alg kid gk) (BIT 6) = gk.
Proof.
  intros Hk Hb. unfold key_ctrl. rewrite Hb. assert (Z.land alg 7 = 0 \/ Z.land alg 7 = 1 \/ Z.land alg 7 = 2 \/ Z.land alg 7 = 3 \/
    Z.land alg 7 = 4 \/ Z.land alg 7 = 5 \/ Z.land alg 7 = 6 \/ Z.land alg 7 = 7) as A.
  { assert (Z.land alg 7 = alg mod 8) as -> by (change 7 with (Z.ones 3); by rewrite Z.land_ones by lia). pose proof (Z.mod_pos_bound alg 8 ltac:(lia)). lia. }
  assert (kid = 0 \/ kid = 1 \/ kid = 2 \/ kid = 3) as K by lia.
  destruct (amsdu_spp_enable c alg), gk, K as [->|[->|[->| ->]]], A as [->|[->|[->|[->|[->|[->|[->| ->]]]]]]]; cbv; repeat split; congruence.
Qed.

(** ** Room *)

(** The entry of a key of a station. *)
Definition entry_of (s : key_st) (k : bytes * Z) : Z := rtw_camid_search s (Some (fst k)) (snd k) (-1).

Lemma entry_of_spec c b sp s a kid v : cam_holds c b sp s -> pair_keys sp !! (a, kid) = Some v ->
  sta_id s b (entry_of s (a, kid)) /\ cache_at s (entry_of s (a, kid)) = cam_of v a /\ kid_of v = kid.
Proof.
  intros H E. destruct (ho_pair _ _ _ _ H _ _ _ E) as (id & _ & _ & Ek & Ca).
  assert (0 <= kid) as K0 by (rewrite <- Ek; unfold kid_of; apply Z.land_nonneg; lia).
  destruct (holds_search c b sp s a kid H Ca) as [[_ N]|(Hi & v' & Kv & Ec & Ep)].
  - specialize (N kid (or_intror eq_refl)). congruence.
  - destruct Kv as [|Kv]; [lia|]. rewrite <- Kv, E in Ep. injection Ep as <-. done.
Qed.

Lemma entry_of_inj c b sp s k k' : cam_holds c b sp s -> is_Some (pair_keys sp !! k) -> is_Some (pair_keys sp !! k') ->
  entry_of s k = entry_of s k' -> k = k'.
Proof.
  intros H [v E] [v' E'] Q. destruct k as [a kid], k' as [a' kid'].
  destruct (entry_of_spec _ _ _ _ _ _ _ H E) as (_ & Ec & Ek), (entry_of_spec _ _ _ _ _ _ _ H E') as (_ & Ec' & Ek').
  rewrite Q, Ec' in Ec. apply cam_of_inj in Ec as [-> ->]. congruence.
Qed.

Definition used_ids (s : key_st) : list Z := filter (fun i => _rtw_sec_camid_is_used s i = true) (ids_from 0 (cam_num (kcam s))).

Lemma elem_of_ids i num : i ∈ ids_from 0 num <-> 0 <= i < num.
Proof.
  unfold ids_from. rewrite list_elem_of_fmap. split.
  - intros (k & -> & Hk%elem_of_seq). lia.
  - intros Hi. exists (Z.to_nat i). rewrite elem_of_seq. lia.
Qed.

Lemma NoDup_ids num : NoDup (ids_from 0 num).
Proof. unfold ids_from. apply NoDup_fmap; [|apply NoDup_seq]. intros x y. lia. Qed.

Lemma used_count c b sp s : cam_holds c b sp s -> length (used_ids s) = S (size (pair_keys sp)).
Proof.
  intros H. pose proof (ho_num _ _ _ _ H) as [Hb Hn].
  assert (used_ids s ≡ₚ b :: (entry_of s <$> elements (dom (pair_keys sp)))) as P.
  { apply NoDup_Permutation.
    - apply NoDup_filter, NoDup_ids.
    - apply NoDup_cons. split.
      + rewrite list_elem_of_fmap. intros ([a kid] & Eb & [v E]%elem_of_elements%elem_of_dom).
        destruct (entry_of_spec _ _ _ _ _ _ _ H E) as ([_ N] & _). congruence.
      + apply NoDup_fmap_2_strong; [|apply NoDup_elements]. intros k k' K%elem_of_elements%elem_of_dom K'%elem_of_elements%elem_of_dom.
        by apply (entry_of_inj c b sp s).
    - intros i. unfold used_ids. rewrite list_elem_of_filter, elem_of_ids, elem_of_cons, list_elem_of_fmap. split.
      + intros [U R]. destruct (decide (i = b)) as [|N]; [by left|right]. destruct (ho_ent _ _ _ _ H i (conj R N)) as [[_ U']|(a & v & Ec & Ca & _ & Ep)]; [congruence|].
        exists (a, kid_of v). rewrite elem_of_elements, elem_of_dom. split; [|by eexists].
        destruct (entry_of_spec _ _ _ _ _ _ _ H Ep) as (Hi & Ec' & _). by apply (ho_uniq _ _ _ _ H i _ a v v).
      + intros [->|([a kid] & -> & [v E]%elem_of_elements%elem_of_dom)]; [by split; [apply H|]|].
        destruct (entry_of_spec _ _ _ _ _ _ _ H E) as ([R N] & Ec & _). split; [|done].
        destruct (ho_ent _ _ _ _ H _ (conj R N)) as [[Ez _]|(? & ? & _ & _ & U & _)]; [|done].
        destruct (ho_pair _ _ _ _ H _ _ _ E) as (_ & _ & _ & _ & (_ & _ & Nn & _)). rewrite Ez in Ec. destruct Nn. unfold cam_of, cam_zero in Ec. by injection Ec. }
  apply Permutation_length in P. rewrite P. cbn. rewrite length_fmap. f_equal. exact (fin_map_dom.size_dom (pair_keys sp)).
Qed.

Lemma filter_all (P : Z -> Prop) `{forall x, Decision (P x)} (l : list Z) : (forall x, x ∈ l -> P x) -> filter P l = l.
Proof.
  induction l as [|x l IH]; intros F; [done|]. rewrite filter_cons_True by (apply F, list_elem_of_here). f_equal.
  apply IH. intros y Hy. by apply F, list_elem_of_further.
Qed.

(** The search for an unused entry succeeds as long as the map has room. *)
Lemma room_spec c b sp s : cam_holds c b sp s ->
  let id := first_id (room_at s false) (ids_from 0 (cam_num (kcam s))) in
  if Z.of_nat (size (pair_keys sp)) <? cam_num (kcam s) - 1 then sta_id s b id /\ _rtw_sec_camid_is_used s id = false else id = -1.
Proof.
  intros H. cbn zeta. pose proof (ho_num _ _ _ _ H) as [Hb Hn]. pose proof (used_count _ _ _ _ H) as U.
  assert (length (ids_from 0 (cam_num (kcam s))) = Z.to_nat (cam_num (kcam s))) as L by (unfold ids_from; rewrite length_map, length_seq; lia).
  destruct (first_id_spec (room_at s false) (cam_num (kcam s))) as [[-> N]|[R F]].
  - assert (used_ids s = ids_from 0 (cam_num (kcam s))) as E.
    { apply filter_all. intros i Hi%elem_of_ids. specialize (N i Hi). unfold room_at in N. rewrite andb_true_r in N. by apply negb_false_iff. }
    rewrite E, L in U. destruct (Z.ltb_spec (Z.of_nat (size (pair_keys sp))) (cam_num (kcam s) - 1)); [lia|done].
  - set (id := first_id _ _) in *. unfold room_at in F. rewrite andb_true_r in F. apply negb_true_iff in F.
    assert (length (used_ids s) < length (ids_from 0 (cam_num (kcam s))))%nat as Lt.
    { apply (length_filter_lt _ _ id); [by apply elem_of_ids|congruence]. }
    rewrite U, L in Lt. destruct (Z.ltb_spec (Z.of_nat (size (pair_keys sp))) (cam_num (kcam s) - 1)); [|lia].
    split; [|done]. split; [done|]. intros ->. rewrite (ho_used _ _ _ _ H) in F. done.
Qed.

(** ** Clearing the keys of a station *)

Definition keys_of (a : bytes) (m : gmap (bytes * Z) (Z * bytes)) : gmap (bytes * Z) (Z * bytes) := filter (fun kv => kv.1.1 = a) m.
Definition drop_of (a : bytes) (m : gmap (bytes * Z) (Z * bytes)) : gmap (bytes * Z) (Z * bytes) := filter (fun kv => kv.1.1 <> a) m.

Lemma drop_none a m : (forall kid, m !! (a, kid) = None) -> drop_of a m = m.
Proof.
  intros N. unfold drop_of. apply map_filter_id. intros [a' kid] v E <-. cbn in E. by rewrite N in E.
Qed.

Lemma drop_delete a kid m : drop_of a (delete (a, kid) m) = drop_of a m.
Proof.
  unfold drop_of. apply map_eq. intros [a' k']. apply option_eq. intros v. rewrite !map_lookup_filter_Some, lookup_delete_Some. naive_solver.
Qed.

Lemma keys_delete a kid m v : m !! (a, kid) = Some v -> S (size (keys_of a (delete (a, kid) m))) = size (keys_of a m).
Proof.
  intros E. unfold keys_of. rewrite map_filter_delete, map_size_delete_Some; [|eexists; by apply map_lookup_filter_Some].
  assert (size (filter (fun kv : bytes * Z * (Z * bytes) => kv.1.1 = a) m) <> 0%nat); [|lia].
  apply map_size_ne_0_lookup. exists (a, kid). exists v. by apply map_lookup_filter_Some.
Qed.

Lemma clear_found_drop fuel c b a s sp :
  cam_holds c b sp s -> client c a -> (size (keys_of a (pair_keys sp)) < fuel)%nat ->
  exists s', clear_found fuel (Some a) (-1) (-1) s = Ret s' /\
    cam_holds c b (mk_ks (known sp) (drop_of a (pair_keys sp)) (group_key_of sp)) s' /\ ktab s' = ktab s /\ cam_num (kcam s') = cam_num (kcam s).
Proof.
  revert s sp. induction fuel as [|fuel IH]; intros s sp H Ca Hf; [lia|]. cbn [clear_found].
  pose proof (ho_num _ _ _ _ H) as [Hb Hn].
  destruct (holds_search c b sp s a (-1) H Ca) as [[-> N]|(Hi & v & _ & Ec & Ep)].
  - exists s. split; [done|]. rewrite drop_none by (intros kid; apply N; lia). by destruct sp.
  - set (id := rtw_camid_search s (Some a) (-1) (-1)) in *. pose proof Hi as [R _]. destruct (Z.ltb_spec id 0); [lia|].
    destruct (clear_wrote id s (ho_len _ _ _ _ H) R Hn) as (s1 & -> & W & T). rewrite bind_Ret.
    pose proof (holds_clear c b sp s _ id a v H Hi Ca Ec W) as H'.
    destruct (IH _ _ H' Ca) as (s' & E & Hs & T' & N'); cbn [known pair_keys group_key_of] in *.
    + rewrite <- (keys_delete a (kid_of v) _ v Ep) in Hf. lia.
    + exists s'. rewrite drop_delete in Hs. rewrite E, T', T, N', (wr_num _ _ _ _ _ W). done.
Qed.

(** Clearing ends, with all keys of the station gone. *)
Lemma clear_keys_drop c b a s sp :
  cam_holds c b sp s -> client c a ->
  exists s', clear_keys a (-1) s = Ret s' /\
    cam_holds c b (mk_ks (known sp) (drop_of a (pair_keys sp)) (group_key_of sp)) s' /\ ktab s' = ktab s /\ cam_num (kcam s') = cam_num (kcam s).
Proof.
  intros H Ca. apply clear_found_drop; try done. pose proof (used_count _ _ _ _ H) as U. pose proof (ho_num _ _ _ _ H) as [Hb Hn].
  assert (length (used_ids s) <= length (ids_from 0 (cam_num (kcam s))))%nat as L by apply length_filter.
  assert (length (ids_from 0 (cam_num (kcam s))) = Z.to_nat (cam_num (kcam s))) as L' by (unfold ids_from; rewrite length_map, length_seq; lia).
  assert (size (keys_of a (pair_keys sp)) <= size (pair_keys sp))%nat by apply map_subseteq_size, map_filter_subseteq. lia.
Qed.

(** ** Operations *)

(** [rtw_alloc_stainfo] after a lookup, [rtw_free_stainfo], [set_stakey_hdl],
    [setkey_hdl], [rtw_clearstakey_cmd], [flush_all_cam_entry]. *)
Inductive key_op := StaComes (a : bytes) | StaGoes (a : bytes) | PairKey (p : set_stakey_parm) | GroupKey (p : setkey_parm) | DropKeys (a : bytes) | FlushKeys.

Definition key_step (c : key_cfg) (op : key_op) (s : key_st) : res (Z * key_st) :=
  match op with
  | StaComes a => Ret (0, match rtw_get_stainfo (ktab s) (Some a) with Some _ => s | None => alloc_sta c a s end)
  | StaGoes a => Ret (0, match rtw_get_stainfo (ktab s) (Some a) with Some i => free_sta c i s | None => s end)
  | PairKey p => set_stakey_hdl c p s
  | GroupKey p => setkey_hdl c p s
  | DropKeys a => s ← rtw_clearstakey_cmd a s; Ret (0, s)
  | FlushKeys => Ret (0, flush_all_cam_entry s)
  end.

Fixpoint key_run (c : key_cfg) (ops : list key_op) (s : key_st) : res (list Z * key_st) :=
  match ops with
  | [] => Ret ([], s)
  | op :: ops => r ← key_step c op s; q ← key_run c ops (snd (r : Z * key_st)); Ret (fst r :: fst (q : list Z * key_st), snd q)
  end.

(** A key of at most 128 bits, with an id of two bits. *)
Definition setkey_ok (algorithm keyid : Z) (key : bytes) : Prop :=
  bit_test algorithm _SEC_TYPE_256_ = false /\ 0 <= keyid < 4 /\ length key = 32%nat /\ bytes_ok key.

Definition key_op_ok (c : key_cfg) (op : key_op) : Prop :=
  match op with
  | StaComes a | StaGoes a | DropKeys a => client c a
  | PairKey p => client c (st_addr p) /\ setkey_ok (st_algorithm p) (st_keyid p) (st_key p) /\ st_gk p = false
  | GroupKey p => setkey_ok (sk_algorithm p) (sk_keyid p) (sk_key p)
  | FlushKeys => True
  end.

(** The specification: [num] entries, one of them for the group. *)
Definition kspec_step (c : key_cfg) (num : Z) (op : key_op) (sp : key_spec) : Z * key_spec :=
  match op with
  | StaComes a => (0, if decide (size (known sp) = 31%nat) then sp else mk_ks ({[a]} ∪ known sp) (pair_keys sp) (group_key_of sp))
  | StaGoes a => (0, mk_ks (known sp ∖ {[a]}) (pair_keys sp) (group_key_of sp))
  | PairKey p =>
      let a := st_addr p in let k := (a, st_keyid p) in
      if st_algorithm p =? _NO_PRIVACY_ then (H2C_SUCCESS_RSP, mk_ks (known sp) (drop_of a (pair_keys sp)) (group_key_of sp))
      else if negb (bool_decide (a ∈ known sp)) then (H2C_REJECTED, sp)
      else if bool_decide (is_Some (pair_keys sp !! k)) || (Z.of_nat (size (pair_keys sp)) <? num - 1) then
        (H2C_SUCCESS_RSP,
         mk_ks (known sp) (<[k := (key_ctrl c (st_algorithm p) (st_keyid p) false, take 16 (st_key p))]> (pair_keys sp)) (group_key_of sp))
      else (H2C_SUCCESS, sp)
  | GroupKey p =>
      (H2C_SUCCESS, mk_ks (known sp) (pair_keys sp) (Some (key_ctrl c (sk_algorithm p) (sk_keyid p) true, take 16 (sk_key p))))
  | DropKeys a => (0, mk_ks (known sp) (drop_of a (pair_keys sp)) (group_key_of sp))
  | FlushKeys => (0, mk_ks (known sp) ∅ None)
  end.

Fixpoint kspec_run (c : key_cfg) (num : Z) (ops : list key_op) (sp : key_spec) : list Z * key_spec :=
  match ops with
  | [] => ([], sp)
  | op :: ops => let r := kspec_step c num op sp in let q := kspec_run c num ops (snd r) in (fst r :: fst q, snd q)
  end.

Record key_inv (c : key_cfg) (b num : Z) (sp : key_spec) (s : key_st) : Prop := {
  ki_holds : cam_holds c b sp s;
  ki_num : cam_num (kcam s) = num;
  ki_plain : forall k v, pair_keys sp !! k = Some v -> bit_test (fst v) (BIT 6) = false;
  ki_tab : sta_wf (ktab s);
  ki_known : (dom (sta_map (ktab s)) : gset bytes) = {[bc_addr]} ∪ known sp;
  ki_client : forall a, a ∈ known sp -> client c a
}.

(** *** What leaves the table alone *)

Lemma holds_same c b sp s s' :
  cam_holds c b sp s -> kcam s' = kcam s -> cam_cache s' = cam_cache s -> iface_bmc (kmac s') = iface_bmc (kmac s) ->
  (forall id, hw_entry s' id = hw_entry s id) -> cam_holds c b sp s'.
Proof.
  intros [H1 H2 H3 H4 H5 H6 He Hp Hu Hw] K C M W.
  assert (forall id, cache_at s' id = cache_at s id) as Ec by (intros id; unfold cache_at; by rewrite C).
  assert (forall id, _rtw_sec_camid_is_used s' id = _rtw_sec_camid_is_used s id) as Eu by (intros id; unfold _rtw_sec_camid_is_used; by rewrite K).
  split; unfold sta_id in *; rewrite ?K, ?C, ?M, ?Ec, ?Eu; try done.
  - intros id Hi. rewrite Ec, Eu. auto.
  - intros a kid v E. destruct (Hp a kid v E) as (id & Hi). exists id. by rewrite Ec.
  - intros id id' a v v'. rewrite !Ec. eauto.
  - intros id Hi. rewrite Ec, W. auto.
Qed.

Lemma client_addr c a : client c a -> sta_addr a /\ addr_key a = a /\ a <> bc_addr.
Proof.
  intros (M & _). assert (sta_addr a) as Sa by (by left). split; [done|]. split; [by apply sta_addr_key|]. by intros ->.
Qed.

(** Mac ids of stations are not key entries. *)
Lemma alloc_macid_same c i a s : a <> bc_addr ->
  kcam (rtw_alloc_macid c i a s) = kcam s /\ cam_cache (rtw_alloc_macid c i a s) = cam_cache s /\
  iface_bmc (kmac (rtw_alloc_macid c i a s)) = iface_bmc (kmac s) /\ hal (rtw_alloc_macid c i a s) = hal s /\ ktab (rtw_alloc_macid c i a s) = ktab s.
Proof.
  intros N. unfold rtw_alloc_macid. rewrite (bool_decide_eq_false_2 (a = bc_addr)) by done. destruct (bool_decide _); [done|]. cbn [andb].
  destruct (_ <? 0); done.
Qed.

Lemma release_macid_same c i a s : a <> bc_addr ->
  kcam (rtw_release_macid c i a s) = kcam s /\ cam_cache (rtw_release_macid c i a s) = cam_cache s /\
  iface_bmc (kmac (rtw_release_macid c i a s)) = iface_bmc (kmac s) /\ hal (rtw_release_macid c i a s) = hal s /\ ktab (rtw_release_macid c i a s) = ktab s.
Proof.
  intros N. unfold rtw_release_macid. rewrite (bool_decide_eq_false_2 (a = bc_addr)) by done. destruct (_ || _); done.
Qed.

Lemma hw_entry_hal s s' id : hal s' = hal s -> hw_entry s' id = hw_entry s id.
Proof. intros E. unfold hw_entry. by rewrite E. Qed.

(** *** Stations *)

Lemma set_add (x a : bytes) (S : gset bytes) : {[a]} ∪ ({[x]} ∪ S) = {[x]} ∪ ({[a]} ∪ S).
Proof. set_solver. Qed.

Lemma set_sub (x a : bytes) (S : gset bytes) : a <> x -> ({[x]} ∪ S) ∖ {[a]} = {[x]} ∪ (S ∖ {[a]}).
Proof. set_solver. Qed.

Lemma set_size (x : bytes) (S : gset bytes) : x ∉ S -> size ({[x]} ∪ S) = (1 + size S)%nat.
Proof. intros N. rewrite size_union by set_solver. by rewrite size_singleton. Qed.

Lemma set_other (x a : bytes) (S : gset bytes) : a <> x -> a ∈ {[x]} ∪ S <-> a ∈ S.
Proof. set_solver. Qed.

Lemma key_inv_comes c b num sp s a : key_inv c b num sp s -> client c a ->
  exists s', key_step c (StaComes a) s = Ret (fst (kspec_step c num (StaComes a) sp), s') /\ key_inv c b num (snd (kspec_step c num (StaComes a) sp)) s'.
Proof.
  intros [Hh Hn Hp Ht Hk Hc] Ca. destruct (client_addr c a Ca) as (Sa & Ka & Nb). cbn [key_step kspec_step fst snd].
  eexists. split; [done|]. set (s' := match _ with Some _ => s | None => _ end).
  assert (kcam s' = kcam s /\ cam_cache s' = cam_cache s /\ iface_bmc (kmac s') = iface_bmc (kmac s) /\ hal s' = hal s /\ ktab s' = sta_step true (ktab s) (OpAlloc a)) as (E1 & E2 & E3 & E4 & E5).
  { unfold s'. cbn [sta_step]. destruct (rtw_get_stainfo (ktab s) (Some a)); [done|]. unfold alloc_sta.
    destruct (rtw_alloc_stainfo (ktab s) a) as [p [i|]]; [|done]. apply (alloc_macid_same c i a (set_ktab p s) Nb). }
  clearbody s'. destruct (sta_step_refines true (ktab s) (OpAlloc a) Ht Sa) as [W D]. rewrite <- E5 in W, D. cbn [set_step] in D. rewrite Hk in D.
  assert (cam_holds c b sp s') as Hs by (apply (holds_same c b sp s); try done; intros; by apply hw_entry_hal).
  assert (bc_addr ∉ known sp) as Nk by (intros (M & _)%Hc; done).
  rewrite set_size in D by done.
  destruct (decide (size (known sp) = 31%nat)), (decide (1 + size (known sp) = 32)%nat); try lia; split; cbn [known pair_keys]; try done; try (by rewrite E1).
  - by destruct Hs.
  - by rewrite D, set_add.
  - intros a' [->%elem_of_singleton|]%elem_of_union; auto.
Qed.

Lemma key_inv_goes c b num sp s a : key_inv c b num sp s -> client c a ->
  exists s', key_step c (StaGoes a) s = Ret (fst (kspec_step c num (StaGoes a) sp), s') /\ key_inv c b num (snd (kspec_step c num (StaGoes a) sp)) s'.
Proof.
  intros [Hh Hn Hp Ht Hk Hc] Ca. destruct (client_addr c a Ca) as (Sa & Ka & Nb). cbn [key_step kspec_step fst snd].
  eexists. split; [done|]. set (s' := match _ with Some _ => _ | None => s end). set (ap := k_hwstate c =? FW_AP_STATE).
  assert (kcam s' = kcam s /\ cam_cache s' = cam_cache s /\ iface_bmc (kmac s') = iface_bmc (kmac s) /\ hal s' = hal s /\ ktab s' = sta_step ap (ktab s) (OpFree a)) as (E1 & E2 & E3 & E4 & E5).
  { unfold s'. cbn [sta_step]. destruct (rtw_get_stainfo (ktab s) (Some a)) as [i|] eqn:G; [|done]. unfold free_sta. fold (mac_of (ktab s) i).
    assert (mac_of (ktab s) i = a) as ->. { rewrite get_stainfo_map, Ka in G by done. by apply sta_map_lookup in G as [_ ?]. }
    apply (release_macid_same c i a (set_ktab _ s) Nb). }
  clearbody s'. destruct (sta_step_refines ap (ktab s) (OpFree a) Ht I) as [W D]. rewrite <- E5 in W, D. cbn [set_step] in D. rewrite Hk, Ka in D.
  assert (cam_holds c b sp s') as Hs by (apply (holds_same c b sp s); try done; intros; by apply hw_entry_hal).
  split; cbn [known pair_keys]; try done; try (by rewrite E1).
  - by destruct Hs.
  - by rewrite D, set_sub.
  - intros a' [? _]%elem_of_difference. auto.
Qed.

(** *** Keys *)

Lemma keytrack_same p i : sta_wf p -> sta_wf (inc_keytrack i p) /\ sta_map (inc_keytrack i p) = sta_map p.
Proof.
  intros W. assert (forall j, mac_of (inc_keytrack i p) j = mac_of p j) as M.
  { intros j. unfold mac_of, inc_keytrack, upd_sta. cbn. destruct (decide (i = j)) as [->|N].
    - rewrite list_lookup_alter_eq. by destruct (stainfo_buf p !! j).
    - by rewrite list_lookup_alter_ne. }
  assert (sta_wf (inc_keytrack i p)) as W' by (apply (sta_wf_same p); try done; cbn; apply length_alter).
  split; [done|]. apply sta_map_eq; [done|]. intros a j. rewrite sta_map_lookup by done. rewrite M. done.
Qed.

Lemma key_ent_ok c alg kid key gk a : setkey_ok alg kid key -> length a = 6%nat -> bytes_ok a -> ent_ok (mk_cam (key_ctrl c alg kid gk) a (take 16 key)).
Proof.
  intros (Hb & Hk & L & B) La Ba. destruct (key_ctrl_facts c alg kid gk Hk Hb) as (U & _).
  split; cbn; try done; [by rewrite length_take, L|by apply Forall_take].
Qed.

Lemma cam_search_ap c a kid gk s : sec_cap (kcam s) = 0 ->
  rtw_get_camid s (cam_addr c (Some a)) kid gk false =
    let i := rtw_camid_search s (Some a) kid (-1) in if 0 <=? i then i else first_id (room_at s false) (ids_from 0 (cam_num (kcam s))).
Proof. intros E. unfold rtw_get_camid. cbn [cam_addr]. unfold _rtw_camctl_chk_cap. rewrite E. done. Qed.

(** The entry for the key of a station. *)
Lemma camid_alloc_spec c b sp s a kid :
  cam_holds c b sp s -> client c a -> 0 <= kid ->
  let r := rtw_camid_alloc c (Some a) kid 0 false s in
  let id := fst (fst r) in
  if bool_decide (is_Some (pair_keys sp !! (a, kid))) || (Z.of_nat (size (pair_keys sp)) <? cam_num (kcam s) - 1)
  then sta_id s b id /\ snd r = set_used (map_set (cam_used (kcam s)) id) s /\
       ((snd (fst r) = false /\ _rtw_sec_camid_is_used s id = false /\ pair_keys sp !! (a, kid) = None) \/
        exists v, cache_at s id = cam_of v a /\ kid_of v = kid /\ pair_keys sp !! (a, kid) = Some v)
  else r = (-1, false, s).
Proof.
  intros H Ca Hk. cbn zeta. unfold rtw_camid_alloc. rewrite (cam_search_ap c a kid 0 s (ho_cap _ _ _ _ H)). cbn zeta.
  pose proof (room_spec c b sp s H) as R. cbn zeta in R.
  destruct (holds_search c b sp s a kid H Ca) as [[E N]|([Hr Nb] & v & Kv & Ec & Ep)].
  - rewrite E. specialize (N kid (or_intror eq_refl)). rewrite N. rewrite bool_decide_eq_false_2 by (intros [? ?]; done).
    change (0 <=? -1) with false. cbn iota. cbn [orb].
    destruct (_ <? cam_num (kcam s) - 1).
    + destruct R as [[Rr Nb] U]. set (id := first_id _ _) in *. destruct (Z.leb_spec 0 id); [|lia]. cbn [fst snd]. split; [done|]. split; [done|]. left. done.
    + rewrite R. done.
  - destruct Kv as [|Kv]; [lia|]. rewrite <- Kv in Ep. rewrite Ep, bool_decide_eq_true_2 by (by eexists). cbn [orb].
    set (id := rtw_camid_search s (Some a) kid (-1)) in *. destruct (Z.leb_spec 0 id); [|lia]. destruct (Z.leb_spec 0 id); [|lia].
    cbn [fst snd]. split; [done|]. split; [done|]. right. exists v. done.
Qed.

(** The conflict of a pairwise and a group key does not arise: the entries of
    stations are not group entries. *)
Lemma not_group c b sp s id a v m : cam_holds c b sp s -> sta_id s b id -> cache_at s id = cam_of v a -> bit_test (fst v) (BIT 6) = false ->
  _rtw_camid_is_gk (set_used m s) id = false.
Proof.
  intros H Hi Ec B. unfold _rtw_camid_is_gk. destruct (_ <=? id); [done|]. change (cache_at (set_used m s) id) with (cache_at s id). rewrite Ec. cbn. rewrite B. apply andb_false_r.
Qed.

Lemma key_inv_drop c b num sp s a : key_inv c b num sp s -> client c a ->
  exists s', clear_keys a (-1) s = Ret s' /\ key_inv c b num (mk_ks (known sp) (drop_of a (pair_keys sp)) (group_key_of sp)) s'.
Proof.
  intros [Hh Hn Hp Ht Hk Hc] Ca. destruct (clear_keys_drop c b a s sp Hh Ca) as (s' & E & Hs & T & N).
  exists s'. split; [done|]. split; cbn [known pair_keys]; rewrite ?T; try done; [congruence|].
  intros k v [E' _]%map_lookup_filter_Some. eauto.
Qed.

Lemma key_inv_pair c b num sp s p : key_inv c b num sp s -> key_op_ok c (PairKey p) ->
  exists s', key_step c (PairKey p) s = Ret (fst (kspec_step c num (PairKey p) sp), s') /\ key_inv c b num (snd (kspec_step c num (PairKey p) sp)) s'.
Proof.
  intros I (Ca & Ok & Hg). cbn [key_step kspec_step]. unfold set_stakey_hdl.
  destruct (st_algorithm p =? _NO_PRIVACY_).
  { destruct (key_inv_drop c b num sp s (st_addr p) I Ca) as (s' & -> & I'). exists s'. done. }
  destruct I as [Hh Hn Hp Ht Hk Hc]. set (a := st_addr p) in *. destruct (client_addr c a Ca) as (Sa & Ka & Nb).
  rewrite get_stainfo_map, Ka by done. pose proof (key_ent_ok c _ _ _ false a Ok ltac:(apply Ca) ltac:(apply Ca)) as He. pose proof Ok as (H256 & Hkid & _).
  destruct (sta_map (ktab s) !! a) as [i|] eqn:G.
  2:{ rewrite bool_decide_eq_false_2; [by exists s|]. apply not_elem_of_dom in G. rewrite Hk in G. by rewrite set_other in G. }
  rewrite bool_decide_eq_true_2. 2:{ apply elem_of_dom_2 in G. rewrite Hk in G. by apply set_other in G. }
  cbn [negb]. set (s1 := set_enc_algo (st_algorithm p) s).
  assert (cam_holds c b sp s1) as H1 by (apply (holds_same c b sp s); done).
  apply sta_map_lookup in G as [Hi Hm]; [|done]. change (mac_of (ktab s1) i = a) in Hm. unfold mac_of in Hm. rewrite Hm, Hg, H256. cbn [Z.b2z].
  pose proof (camid_alloc_spec c b sp s1 a (st_keyid p) H1 Ca ltac:(lia)) as A. cbn zeta in A. change (cam_num (kcam s1)) with (cam_num (kcam s)) in A. rewrite Hn in A.
  destruct (rtw_camid_alloc c (Some a) (st_keyid p) 0 false s1) as [[id used] s2]. cbn [fst snd] in A.
  destruct (bool_decide (is_Some (pair_keys sp !! (a, st_keyid p))) || (Z.of_nat (size (pair_keys sp)) <? num - 1)).
  2:{ injection A as -> -> ->. exists s1. done. }
  destruct A as (Hid & -> & Or). pose proof Hid as [R _]. destruct (Z.ltb_spec id 0); [lia|].
  assert (negb false && used && _rtw_camid_is_gk (set_used (map_set (cam_used (kcam s1)) id) s1) id = false) as ->.
  { destruct Or as [(-> & _)|(v & Ec & _ & Ep)]; [done|]. rewrite (not_group c b sp s1 id a v _ H1 Hid Ec (Hp _ _ Ep)). apply andb_false_r. }
  rewrite bind_Ret. destruct (put_wrote id _ a (st_key p) s1 (ho_len _ _ _ _ H1) R (proj2 (ho_num _ _ _ _ H1)) He) as (s3 & -> & W & T); [by apply key_ctrl_facts|].
  rewrite bind_Ret. eexists. split; [done|]. cbn [snd]. destruct (keytrack_same (ktab s3) i) as [W3 M3]; [by rewrite T|].
  destruct (key_ctrl_facts c (st_algorithm p) (st_keyid p) false Hkid H256) as (_ & _ & Kk & K6).
  split; cbn [known pair_keys]; try done.
  - pose proof (holds_put c b sp s1 s3 id a (key_ctrl c (st_algorithm p) (st_keyid p) false, take 16 (st_key p)) H1 Hid Ca W) as P.
    unfold kid_of in P. cbn [fst] in P. rewrite Kk in P. eapply holds_same; [apply P| | | |]; try done.
    destruct Or as [(_ & ? & ?)|(v & ? & ? & _)]; [by left|right; by exists v].
  - change (cam_num (kcam s3) = num). by rewrite (wr_num _ _ _ _ _ W).
  - intros k v. rewrite lookup_insert_Some. intros [[<- <-]|[_ E]]; [done|eauto].
  - change (dom (sta_map (inc_keytrack i (ktab s3))) = {[bc_addr]} ∪ known sp). by rewrite M3, T.
Qed.

(** The role of an access point. *)
Definition ap_role (c : key_cfg) : Prop :=
  Z.land (k_hwstate c) 3 = FW_AP_STATE /\ k_null c = false /\ own_addr c <> bc_addr /\ length (own_addr c) = 6%nat /\ bytes_ok (own_addr c).

Lemma ap_group_tx c : ap_role c -> group_tx_role c = true.
Proof. intros (E & _). unfold group_tx_role. by rewrite E. Qed.

(** After the entry is written only the numbers of the entries are noted. *)
Lemma group_key_set_ap c p id s : ap_role c ->
  exists l v, group_key_set c p id s = Ret (set_camids l v s).
Proof.
  intros C. unfold group_key_set. rewrite (ap_group_tx c C). destruct C as (E & _). rewrite E. change (FW_AP_STATE =? FW_STATION_STATE) with false.
  rewrite andb_false_r. cbn [andb]. destruct (is_wep_enc (sk_algorithm p)); eexists _, _; reflexivity.
Qed.

Lemma key_inv_group c b num sp s p : ap_role c -> key_inv c b num sp s -> key_op_ok c (GroupKey p) ->
  exists s', key_step c (GroupKey p) s = Ret (fst (kspec_step c num (GroupKey p) sp), s') /\ key_inv c b num (snd (kspec_step c num (GroupKey p) sp)) s'.
Proof.
  intros C [Hh Hn Hp Ht Hk Hc] Ok. cbn [key_step kspec_step fst snd]. unfold setkey_hdl. rewrite (ap_group_tx c C).
  pose proof C as (_ & _ & _ & La & Ba). pose proof (key_ent_ok c _ _ _ true _ Ok La Ba) as He. pose proof Ok as (H256 & Hkid & _).
  set (s1 := if sk_set_tx p then _ else s).
  assert (kcam s1 = kcam s /\ cam_cache s1 = cam_cache s /\ kmac s1 = kmac s /\ ktab s1 = ktab s /\ hal s1 = hal s) as (E1 & E2 & E3 & E4 & E5) by (unfold s1; by destruct (sk_set_tx p)).
  clearbody s1. cbn zeta iota beta. rewrite E3, (ho_bmc _ _ _ _ Hh). pose proof (ho_num _ _ _ _ Hh) as [Hb Hm]. destruct (Z.ltb_spec b 0); [lia|].
  cbn [andb]. destruct (write_cam_entry b _ (own_addr c) (sk_key p) s1 (eq_trans (f_equal length E2) (ho_len _ _ _ _ Hh)) ltac:(lia) He) as (s2 & -> & (K1 & K2 & K3 & K4) & Wc & Wh); [by apply key_ctrl_facts|].
  rewrite bind_Ret. destruct (group_key_set_ap c p b s2 C) as (l & v & ->). rewrite bind_Ret.
  eexists. split; [done|].
  assert (wrote b (mk_cam (key_ctrl c (sk_algorithm p) (sk_keyid p) true) (own_addr c) (take 16 (sk_key p))) true s s2) as W.
  { split; rewrite ?K1, ?K2, ?K4, ?E1, ?E2, ?E3; try done.
    - intros j Hj. unfold _rtw_sec_camid_is_used at 1. rewrite K1, E1. fold (_rtw_sec_camid_is_used s j). destruct (Z.eqb_spec j b) as [->|]; [apply Hh|done].
    - intros j Hj. rewrite Wc by done. unfold cache_at. by rewrite E2.
    - intros j Hj. rewrite Wh by done. by rewrite (hw_entry_hal s s1 j E5). }
  split; cbn [known pair_keys]; try done.
  - eapply holds_same; [exact (holds_group c b sp s s2 (key_ctrl c (sk_algorithm p) (sk_keyid p) true, take 16 (sk_key p)) Hh W)|..]; try done.
    intros id. unfold hw_entry, hw_mem. cbn. by rewrite foldl_app.
  - cbn. by rewrite (wr_num _ _ _ _ _ W).
  - cbn. by rewrite K3, E4.
  - cbn. by rewrite K3, E4.
Qed.

(** Only the group's entry is marked, and nothing is written. *)
Lemma holds_empty c b cams f K s : 0 <= b < cams -> cams <= 32 -> kcam s = mk_camctl cams 0 f (map_set 0 b) -> cam_cache s = replicate 32 cam_zero ->
  iface_bmc (kmac s) = b -> (forall x, hw_mem (hal s) x = 0) -> cam_holds c b (mk_ks K ∅ None) s.
Proof.
  intros Hb Hc E C M Hh.
  assert (forall id, cache_at s id = cam_zero) as Z0.
  { intros id. unfold cache_at. rewrite C. destruct (lookup (Z.to_nat id) (replicate 32 cam_zero)) as [e|] eqn:L; [|done].
    by apply lookup_replicate in L as [-> _]. }
  assert (forall id, 0 <= id < cams -> _rtw_sec_camid_is_used s id = (id =? b)) as U.
  { intros id Hi. unfold _rtw_sec_camid_is_used. rewrite E. cbn [cam_num cam_used]. destruct (Z.leb_spec cams id); [lia|].
    unfold rtw_sec_camid_is_set. rewrite map_set_spec by lia. rewrite map_is_set_testbit, Z.bits_0 by lia.
    rewrite andb_false_r. apply orb_false_r. }
  split; cbn [pair_keys group_key_of]; unfold sta_id; rewrite ?E, ?C, ?Z0; cbn [sec_cap cam_num]; try done; try lia.
  - rewrite U by lia. apply Z.eqb_refl.
  - intros id [Hi N]. left. rewrite Z0, U by done. split; [done|]. by apply Z.eqb_neq.
  - intros id id' a v v' _ _ Ev _ (_ & _ & Nn & _). rewrite Z0 in Ev. destruct Nn. unfold cam_of, cam_zero in Ev. by injection Ev.
  - intros id Hi. rewrite Z0. unfold hw_entry, rtw_sec_read_cam_ent. rewrite !Hh. reflexivity.
Qed.

Lemma key_inv_flush c b num sp s : key_inv c b num sp s -> key_inv c b num (mk_ks (known sp) ∅ None) (flush_all_cam_entry s).
Proof.
  intros [Hh Hn Hp Ht Hk Hc]. pose proof (ho_num _ _ _ _ Hh) as [Hb Hm]. split; cbn [known pair_keys]; try done.
  apply (holds_empty c b (cam_num (kcam s)) (cam_flags (kcam s))); try done.
  - unfold flush_all_cam_entry, invalidate_cam_all, _rtw_camctl_chk_cap. rewrite (ho_bmc _ _ _ _ Hh), (ho_cap _ _ _ _ Hh).
    unfold INVALID_SEC_MAC_CAM_ID. destruct (Z.eqb_spec b 0xFF); [lia|]. cbn. by rewrite (ho_cap _ _ _ _ Hh).
  - cbn. apply Hh.
  - intros x. unfold hw_mem. cbn. by rewrite foldl_app.
Qed.

Lemma key_inv_step c b num sp s op : ap_role c -> key_inv c b num sp s -> key_op_ok c op ->
  exists s', key_step c op s = Ret (fst (kspec_step c num op sp), s') /\ key_inv c b num (snd (kspec_step c num op sp)) s'.
Proof.
  intros C I Ok. destruct op as [a|a|p|p|a|].
  - by apply key_inv_comes.
  - by apply key_inv_goes.
  - by apply key_inv_pair.
  - by apply key_inv_group.
  - cbn [key_step kspec_step fst snd]. unfold rtw_clearstakey_cmd. destruct (key_inv_drop c b num sp s a I Ok) as (s' & -> & I'). exists s'. done.
  - eexists. split; [done|]. by apply key_inv_flush.
Qed.

Lemma key_inv_run c b num ops sp s : ap_role c -> key_inv c b num sp s -> Forall (key_op_ok c) ops ->
  exists s', key_run c ops s = Ret (fst (kspec_run c num ops sp), s') /\ key_inv c b num (snd (kspec_run c num ops sp)) s'.
Proof.
  intros C. revert sp s. induction ops as [|op ops IH]; intros sp s I F; [by exists s|]. apply Forall_cons in F as [Ok F].
  cbn [key_run kspec_run]. destruct (key_inv_step c b num sp s op C I Ok) as (s1 & -> & I1). rewrite bind_Ret. cbn [fst snd].
  destruct (IH _ _ I1 F) as (s2 & E & I2). rewrite E, bind_Ret. by exists s2.
Qed.

(** *** The start *)

(** The adapter after its reset, and the entry of the group. *)
Definition key_start (c : key_cfg) (macs cams : Z) (n : Z) (hw : list Z) : key_st :=
  alloc_sta c bc_addr (key_init macs cams 0 (_rtw_init_sta_priv n hw)).

Definition kspec_start : key_spec := mk_ks ∅ ∅ None.

Lemma key_inv_start c macs cams n hw : ap_role c -> 1 <= macs -> 1 <= cams <= 32 -> key_inv c 0 cams kspec_start (key_start c macs cams n hw).
Proof.
  intros (_ & Hnull & Nb & _) Hm Hc. set (p0 := _rtw_init_sta_priv n hw). pose proof (init_sta_priv_wf n hw) as W0.
  assert (sta_addr bc_addr) as Sb by (by right).
  destruct (alloc_stainfo_fresh p0 bc_addr 0%nat (seq 1 31) W0 Sb eq_refl eq_refl) as (p1 & A & W1 & M1 & _).
  assert (exists m l cu, key_start c macs cams n hw =
    mk_kst (mk_camctl cams 0 0 1) (replicate 32 cam_zero) (mk_macctl macs m (rtw_macid_map_set (rtw_macid_map_set 0 1) 0) (rtw_macid_map_set (rtw_macid_map_set 0 1) 0) 0 l) p1 cu 0 0 [0; 0; 0; 0] 0 [HW_VAR_CAM_INVALID_ALL]) as (m & l & cu & ->).
  { unfold key_start, alloc_sta. fold p0. cbn [ktab key_init]. change (rtw_alloc_stainfo (ktab (key_init macs cams 0 p0)) bc_addr) with (rtw_alloc_stainfo p0 bc_addr). rewrite A.
    unfold rtw_alloc_macid. rewrite bool_decide_eq_false_2 by done. rewrite bool_decide_eq_true_2 by done. rewrite Hnull. cbn [andb].
    match goal with |- context [first_id ?f ?l] => assert (first_id f l = 0) as -> end.
    { unfold first_id, ids_from. cbn. destruct (Z.to_nat (macs - 0)) eqn:E; [lia|]. cbn. unfold macid_free. cbn.
      unfold _rtw_sec_camid_is_used. cbn. change (0 + Z.of_nat 0) with 0. destruct (cams <=? 0); reflexivity. }
    cbn. eexists _, _, _. reflexivity. }
  split; cbn [ktab kcam pair_keys kspec_start known]; try done.
  2:{ rewrite M1, dom_insert_L. set_solver. }
  apply (holds_empty c 0 cams 0); [lia|lia|done..].
Qed.

(** ** The key table as a map *)

(** C15: The key table of an access point refines a map, whatever stations come
    and go, keys of up to 128 bits are set and cleared and the whole table is
    flushed, in any order.  Every operation returns (the clearing loop ends, no
    entry outside the cache is written) with the code of the map: a key of an
    unknown station is rejected, and with all [cams - 1] entries taken a key
    under a new id is dropped and success reported.  At the end the entries, read
    as [rtw_sec_read_cam_ent] does from the words last written to the hardware,
    are exactly the keys of the map under the addresses of their stations, each
    key id of a station in one entry; and the entry kept for the group holds the
    group key last set. *)
Theorem key_table_refines_map c macs cams n hw ops :
  ap_role c -> 1 <= macs -> 1 <= cams <= 32 -> Forall (key_op_ok c) ops ->
  exists s, key_run c ops (key_start c macs cams n hw) = Ret (fst (kspec_run c cams ops kspec_start), s) /\
    let sp := snd (kspec_run c cams ops kspec_start) in
    (forall a kid v, client c a -> kid_of v = kid ->
       (pair_keys sp !! (a, kid) = Some v <-> exists id, 0 < id < cams /\ hw_entry s id = cam_of v a)) /\
    (forall id id' a v v', 0 < id < cams -> 0 < id' < cams -> hw_entry s id = cam_of v a -> hw_entry s id' = cam_of v' a ->
       client c a -> kid_of v = kid_of v' -> id = id') /\
    hw_entry s 0 = match group_key_of sp with Some v => cam_of v (own_addr c) | None => cam_zero end /\
    (forall a, client c a -> rtw_get_stainfo (ktab s) (Some a) <> None <-> a ∈ known sp).
Proof.
  intros C Hm Hc F. destruct (key_inv_run c 0 cams ops _ _ C (key_inv_start c macs cams n hw C Hm Hc) F) as (s & E & [Hh Hn Hp Ht Hk _]).
  exists s. split; [done|]. cbn zeta. set (sp := snd (kspec_run c cams ops kspec_start)) in *.
  assert (forall id, 0 < id < cams <-> sta_id s 0 id) as R by (intros id; unfold sta_id; rewrite Hn; lia).
  assert (forall id, sta_id s 0 id -> hw_entry s id = cache_at s id) as Hw by (intros id [? _]; apply Hh; lia).
  split_and!.
  - intros a kid v Ca Ek. split.
    + intros E1. destruct (ho_pair _ _ _ _ Hh _ _ _ E1) as (id & Hi & Ec & _). exists id. by rewrite R, Hw.
    + intros (id & Hi%R & Ec). rewrite Hw in Ec by done. destruct (ho_ent _ _ _ _ Hh id Hi) as [[Ez _]|(a' & v' & Ec' & _ & _ & Ep)].
      * rewrite Ez in Ec. destruct Ca as (_ & _ & Nn & _). destruct Nn. unfold cam_of, cam_zero in Ec. by injection Ec.
      * rewrite Ec in Ec'. apply cam_of_inj in Ec' as [-> ->]. by rewrite <- Ek.
  - intros id id' a v v' Hi%R Hi'%R E1 E2. rewrite Hw in E1, E2 by done. by apply Hh.
  - pose proof (ho_num _ _ _ _ Hh). rewrite (ho_hw _ _ _ _ Hh) by lia. apply Hh.
  - intros a Ca. destruct (client_addr c a Ca) as (_ & Ka & Nb). rewrite get_stainfo_map, Ka by done.
    rewrite not_eq_None_Some, <- (elem_of_dom (D := gset bytes)), Hk. by apply set_other.
Qed.

(** Two stations, a rekey, a group key, and a departure. *)
Definition w_cfg : key_cfg := mk_kcfg [2; 0; 0; 0; 0; 9] 0x4003 false [2; 0; 0; 0; 0; 9] 0 0.
Definition sta_a : bytes := [2; 0; 0; 0; 0; 1].
Definition sta_b : bytes := [2; 0; 0; 0; 0; 2].
Definition w_ops : list key_op :=
  [StaComes sta_a; PairKey (mk_stakey sta_a _AES_ 0 (replicate 32 7) false); PairKey (mk_stakey sta_b _AES_ 0 (replicate 32 8) false);
   GroupKey (mk_setkey _AES_ 1 false (replicate 32 5)); StaComes sta_b; PairKey (mk_stakey sta_b _AES_ 0 (replicate 32 8) false);
   PairKey (mk_stakey sta_a _AES_ 0 (replicate 32 9) false); StaGoes sta_b; DropKeys sta_b].

Lemma key_table_refines_map_witness :
  ap_role w_cfg /\ fst (kspec_run w_cfg 32 w_ops kspec_start) = [0; H2C_SUCCESS_RSP; H2C_REJECTED; H2C_SUCCESS; 0; H2C_SUCCESS_RSP; H2C_SUCCESS_RSP; 0; 0] /\
  exists s, key_run w_cfg w_ops (key_start w_cfg 32 32 32 []) = Ret (fst (kspec_run w_cfg 32 w_ops kspec_start), s) /\
    exists id, 0 < id < 32 /\ hw_entry s id = mk_cam 0x8010 sta_a (replicate 16 9).
Proof.
  assert (ap_role w_cfg) as C by (repeat split; try done; repeat constructor; by unfold is_byte).
  split; [exact C|]. split; [vm_compute; reflexivity|].
  assert (client w_cfg sta_a /\ client w_cfg sta_b) as [Ca Cb] by (split; repeat split; try done; repeat constructor; by unfold is_byte).
  destruct (key_table_refines_map w_cfg 32 32 32 [] w_ops C) as (s & E & P & _); [lia|lia| |].
  - assert (forall b, is_byte b -> setkey_ok _AES_ 0 (replicate 32 b) /\ setkey_ok _AES_ 1 (replicate 32 b)) as K.
    { intros b Hb. split; (split; [reflexivity|]); (split; [lia|]); (split; [reflexivity|]); by apply Forall_replicate. }
    unfold w_ops. repeat (apply Forall_cons; split); try apply Forall_nil_2; cbn [key_op_ok st_addr st_algorithm st_keyid st_key st_gk sk_algorithm sk_keyid sk_key];
      first [exact Ca | exact Cb | split; [first [exact Ca | exact Cb]|split; [|reflexivity]] | idtac]; apply K; unfold is_byte; lia.
  - exists s. split; [exact E|]. refine (proj1 (P sta_a 0 (0x8010, replicate 16 9) Ca eq_refl) _). vm_compute. reflexivity.
Defined.

(** ** What the table does not do *)

(** The cleared entries have the zero address, so the loop would never end for
    a station with that address: whatever the fuel, there is a further round.
    No station has it, [OnAuth] and [OnAssocReq] reject the address (compare
    [stations_admitted] of ApRun.v); this is why the addresses of the clients
    of [key_table_refines_map] are asked not to be zero. *)
Theorem zero_address_never_cleared fuel s :
  length (cam_cache s) = 32%nat -> cam_num (kcam s) <= 32 ->
  (exists id, 0 <= id < cam_num (kcam s) /\ cam_mac (cache_at s id) = null_addr) ->
  clear_found fuel (Some null_addr) (-1) (-1) s = NoFuel.
Proof.
  revert s. induction fuel as [|fuel IH]; intros s L Hn (i & Hi & Em); [done|]. cbn [clear_found].
  assert (0 <= rtw_camid_search s (Some null_addr) (-1) (-1) < cam_num (kcam s)) as R.
  { unfold rtw_camid_search. destruct (first_id_spec (fun i => cam_cache_chk s i (Some null_addr) (-1) (-1)) (cam_num (kcam s))) as [[_ N]|[? _]]; [|done].
    specialize (N i Hi). assert (cam_cache_chk s i (Some null_addr) (-1) (-1) = true) by (apply search_chk; split; [done|lia]). congruence. }
  set (id := rtw_camid_search s (Some null_addr) (-1) (-1)) in *. destruct (Z.ltb_spec id 0); [lia|].
  destruct (clear_wrote id s L R Hn) as (s1 & -> & W & _). rewrite bind_Ret. apply IH.
  - by rewrite (wr_len _ _ _ _ _ W).
  - by rewrite (wr_num _ _ _ _ _ W).
  - exists id. rewrite (wr_num _ _ _ _ _ W), (wr_cache _ _ _ _ _ W), Z.eqb_refl by lia. done.
Qed.

(** Two stations with keys of 128 bits in neighbouring entries; the first gets
    a key of 256 bits, whose second half goes over the key of the other. *)
Theorem rekey_overwrites_neighbour : exists s s',
  key_run w_cfg [StaComes sta_a; StaComes sta_b; PairKey (mk_stakey sta_a _AES_ 0 (replicate 32 7) false);
                 PairKey (mk_stakey sta_b _AES_ 0 (replicate 32 8) false)] (key_start w_cfg 32 32 32 []) =
    Ret ([0; 0; H2C_SUCCESS_RSP; H2C_SUCCESS_RSP], s) /\ cam_mac (hw_entry s 2) = sta_b /\
  key_step w_cfg (PairKey (mk_stakey sta_a _GCMP_256_ 0 (replicate 32 9) false)) s = Ret (H2C_SUCCESS_RSP, s') /\
    cam_mac (hw_entry s' 2) = sta_a /\ rtw_camid_search s' (Some sta_b) (-1) (-1) = -1.
Proof. eexists _, _. split; [vm_compute; reflexivity|]. split; [vm_compute; reflexivity|]. split; [vm_compute; reflexivity|]. split; vm_compute; reflexivity. Qed.

(** A group key of 256 bits of an access point goes over the entry after the one
    kept for the group, which belongs to a station. *)
Theorem group_key_overwrites_neighbour : exists s,
  key_run w_cfg [StaComes sta_a; PairKey (mk_stakey sta_a _AES_ 0 (replicate 32 7) false);
                 GroupKey (mk_setkey _GCMP_256_ 1 false (replicate 32 5))] (key_start w_cfg 32 32 32 []) =
    Ret ([0; H2C_SUCCESS_RSP; H2C_SUCCESS], s) /\
  cam_mac (hw_entry s 1) = own_addr w_cfg /\ rtw_camid_search s (Some sta_a) (-1) (-1) = -1.
Proof. eexists. split; [vm_compute; reflexivity|]. split; vm_compute; reflexivity. Qed.

(** A pairwise key with the key id of a group key of the same station: the
    group key is cleared and its entry freed, the pairwise key is written to the
    entry, and the entry is not marked as used. *)
Theorem conflicting_key_unmarked : exists s,
  key_run w_cfg [StaComes sta_a; PairKey (mk_stakey sta_a _AES_ 0 (replicate 32 7) true);
                 PairKey (mk_stakey sta_a _AES_ 0 (replicate 32 8) false)] (key_start w_cfg 32 32 32 []) =
    Ret ([0; H2C_SUCCESS_RSP; H2C_SUCCESS_RSP], s) /\
  hw_entry s 1 = mk_cam 0x8010 sta_a (replicate 16 8) /\ _rtw_sec_camid_is_used s 1 = false.
Proof. eexists. split; [vm_compute; reflexivity|]. split; vm_compute; reflexivity. Qed.

(** Without an entry for the group the number is 255, which is not negative:
    the write is past the end of the cache. *)
Theorem group_key_without_entry :
  setkey_hdl w_cfg (mk_setkey _AES_ 1 false (replicate 32 5)) (free_sta w_cfg 0 (key_start w_cfg 32 32 32 [])) = Oob.
Proof. vm_compute. reflexivity. Qed.
